(* ===== verification/_CoqProject ===== *)
-Q . S2P
Prelude.v
Tags.v
Queue.v
Codec.v
Sfn.v
Ids.v
PnfP5.v
UeQueue.v
P7Header.v
LteInd.v
Layout.v
Relay.v
LtePdu.v
LteDownlink.v
LteUplink.v
LteData.v
NrUplink.v
NrDownlink.v
NrP7.v
LteP7.v
TlvLoop.v
Typing.v
P5Codec.v
P4Codec.v
P5Types.v
P5Config.v
Segmentation.v
Aggregate.v
Merge.v
LteRelay.v
LteAggregate.v
NrAggregate.v
Ownership.v
PnfP7.v
PnfNrP7.v
Barrier.v
VnfSync.v
VnfConverge.v
VnfP7.v
VnfRun.v
VnfUplink.v
VnfP5.v
PnfEndpoint.v
PnfDownlink.v
NodeSync.v
PnfP5Endpoint.v
P5Exchange.v
