(* ===== verification/Prelude.v ===== *)
(** * Verification of the OAI LTE/5G multi-UE proxy

    The proxy sits between one eNB/gNB (the VNF, speaking nFAPI over UDP/SCTP)
    and several UEs, and plays the PNF.  Downlink requests arrive from the VNF
    as P7 messages, are reassembled, decoded, passed on to every UE and kept
    for the PHY callbacks.  Uplink indications arrive from the UEs, are queued
    per UE, and once a subframe (slot) are batched by message type, merged and
    sent to the VNF.  The nFAPI library the proxy is built on has both ends; the
    VNF's end, with which the proxy talks, is modelled as well.

    ** Files

    - [Prelude] (this file): C integers as [Z] with explicit wrap-around,
      tactics ([wrap_lia], [zlen_lia], [case_cmp]), bit masks and shifts as
      arithmetic, list lemmas.
    - [Tags]: the constants of the public headers, by [enum] or group.
    - [Queue] ([src/queue.c]): the ring buffer of messages, with every operation
      and the state of the mutex; refinement of a bounded list.  Its class
      [BoundedDeque] is what clients see.
    - [Codec] ([nfapi.c]): push and pull of integers, arrays, TLVs, TLV lists
      with vendor extensions, DCI payloads, on byte lists with an end pointer;
      round-trip combinators.
    - [Sfn] ([nfapiutils.c], [nfapi_pnf.c], [pnf_p7.c]): positions in the
      hyperframe, packed and decimal; the arithmetic all parts use.
    - [Ids] ([nfapiutils.c], [nfapi_interface.h]): message identifiers and the
      fields read out of packed messages.
    - [PnfP5] ([pnf.c], [pnf_interface.c], [nfapi_pnf.c]): the P5 state machine:
      handlers, responses and callbacks for the requests of P4 and P5.
    - [UeQueue] ([nfapi_pnf.c]): the uplink: [oai_subframe_handle_msg_from_ue],
      [dequeue_ue_msgs], [oai_subframe_aggregate_messages] and their NR
      versions, over any [BoundedDeque].
    - [P7Header] ([nfapi_p7.c], [nfapi_interface.h]): the P7 header, framing,
      checksum, timestamp.
    - [LteInd] ([nfapi_p7.c]): the CRC, SR and RACH indications.  Its class
      [PduCodec] is what a PDU has to offer for the indication around it to
      round-trip.
    - [Layout]: message bodies as data.  The packers and unpackers of the source
      are sequences of pushes and pulls; a body is the list of its steps ([row]:
      a number, a counted array, an array of structures, a DCI payload, steps
      under a condition on members read before, a call whose result is ignored,
      a size that is filled in afterwards, a TLV), and [pack_layout] and
      [unpack_layout] run it on a [struct], the members of a C structure by
      name.  [row_sim] decides that an unpacker reads what a packer writes, and
      [layout_roundtrip] is proved once for all bodies; what a message must
      satisfy ([fits]) has boolean checkers.
    - [LtePdu]: LTE P7 messages as data, as [Layout] has their values: a body
      with a list of PDUs, each framed by a type and an 8-bit size or by a
      16-bit length, with the tables of its TLVs.  [body_wf] decides that the
      tables of the two sides match; [body_writes] and [body_reads] hold for all
      that do.
    - [LteDownlink], [LteUplink], [LteData] ([nfapi_p7.c]): the tables of the
      requests, of the indications, and the messages with data behind the PDUs
      (RX_ULSCH, CQI) or in segments (TX).
    - [NrUplink], [NrDownlink], [NrP7] ([nfapi_p7.c]): the NR P7 messages as
      rows, what the packers compute before they pack, and the dispatch by
      identifier.
    - [LteP7] ([nfapi_p7.c]): [nfapi_p7_message_pack] and
      [nfapi_p7_message_unpack] over the bodies of the LTE files.
    - [TlvLoop] ([nfapi.c]): the TLV list loops as sequences of executions of
      their body, and that they end.
    - [Typing]: C types of structures ([mtype]) and a decidable check that a
      body stores within them, sound for every input ([unpack_layout_typed]).
    - [P5Codec] ([nfapi_p5.c]): all P5 bodies, the header, the dispatch by
      identifier; NR CONFIG.request, whose loops and indices do not fit a
      layout, on its own.
    - [P4Codec] ([nfapi_p4.c]): all P4 bodies, the size check and the dispatch by
      identifier, over the header of [P5Codec].
    - [P5Types] ([nfapi_interface.h], [nfapi_nr_interface_scf.h]): the types of
      the P5 messages as the headers declare them.
    - [P5Config] ([nfapi_p5.c]): what happens to an NR CONFIG.request.
    - [Segmentation] ([pnf_p7.c], [vnf_p7.c]): sending in segments and
      reassembly, for both ends.
    - [Aggregate] ([nfapi_pnf.c]): the aggregators of the LTE CRC, SR and RACH
      indications and their senders, on top of [LteInd] and [Segmentation].
    - [Merge] ([nfapi_pnf.c]): the loop the other aggregators share, with what
      they differ in as a record ([aggregator]): it collects the PDUs of all
      packets if they fit.
    - [Relay], [LteRelay]: a structure or PDU that was unpacked can be packed
      again and is read to itself; first for rows and TLVs ([row_like]), then for
      the PDUs of the LTE indications, as the class [LteRelay] that the theorem
      about the aggregators is proved against.
    - [LteAggregate], [NrAggregate] ([nfapi_pnf.c]): the aggregators of HARQ,
      RX_ULSCH and CQI and those of NR, their senders, and the dispatch by message
      identifier.
    - [Ownership]: the log of allocations, uses and frees, its safety rule, and
      the class [ReqBuffer] with rings of such buffers; shared by the next two.
    - [PnfP7] ([pnf_p7.c]): LTE subframe buffers: request handlers,
      [pnf_p7_subframe_ind], timing information, node sync.
    - [PnfNrP7] ([pnf_p7.c]): NR slot buffers: request handlers,
      [pnf_p7_slot_ind], timing information, node sync.
    - [Barrier] ([nfapi_pnf.c]): the rendezvous of the LTE and NR tasks in NSA
      mode, as a step relation.
    - [VnfSync] ([vnf_p7.c]): node sync at the VNF: its clocks, and the handler of
      UL_NODE_SYNC as the steps it consists of, for LTE and NR through the class
      [Radio] (the length of a hyperframe, of a position, and how a position is
      coded); every message is handled without undefined behaviour.
    - [VnfConverge] ([vnf_p7.c]): what node sync achieves, with a PNF whose clock is
      off by a constant and messages that take time.
    - [VnfP7] ([vnf_p7.c], [vnf_p7_interface.c], [vnf_p7.h]): the connections of the
      VNF, sending, DL_NODE_SYNC, the subframe of the LTE loop, the handlers of all
      indications, the dispatch by identifier, the requests of the MAC.
    - [VnfRun]: the LTE endpoint over any sequence of additions and deletions of
      PNFs, subframes and messages.
    - [VnfUplink]: the endpoint behind the reassembly of [Segmentation]: from an
      indication of the PNF to the callback of the MAC.
    - [VnfP5] ([vnf.c], [vnf_interface.c], [vnf.h], [nfapi_vnf_interface.h]): the
      other end of P5 and P4: PNFs and PHYs, the handlers of responses and
      indications, reading a message, the requests of the client.
    - [PnfEndpoint] ([pnf_p7.c], [pnf_p7_interface.c]): the PNF's end of P7: the
      dispatch of a message by its identifier into the buffers of [PnfP7] and
      [PnfNrP7], the subframe and slot with what they send, node sync, the
      indications of the PHY.
    - [PnfDownlink]: that endpoint behind the reassembly: from a request of the MAC
      to the UEs and the PHY.
    - [PnfP5Endpoint] ([pnf.c], [pnf_interface.c]): around the handlers of [PnfP5]:
      reading, unpacking and dispatching a message, the loops over the messages of a
      connection and over connections.
    - [P5Exchange]: the requests of the client of the VNF as bytes, and what they do to
      the PNF.
    - [NodeSync]: both endpoints together: DL_NODE_SYNC and its answer.

    ** How the model corresponds to the code

    Definitions carry the names of the functions they translate; the lines are
    named next to them.  A C integer is a [Z] and every store wraps it to the
    width of its object.  A function that changes a structure takes and returns
    it; [None] is an assertion failure or an access the C standard leaves
    undefined.  Tracing is left out.  [malloc] is taken to succeed; where a
    function tests the result of locking a mutex the model either has it as an
    argument ([Queue]) or takes the mutex to be free (the other files).  [crc32]
    is a library function and an argument of the definitions that use it; the
    only thing used of it is that it is a function.

    What is freed, passed to a callback or sent is recorded in a log, so that
    "freed once", "not used afterwards" and "delivered before it is freed" are
    theorems about logs.

    Loops over queues and messages take fuel.  The fuel of [drain_queue] is one
    more than the capacity of a queue and that of the batching loop one more
    than the number of messages; the theorems about them include that they
    complete.  The loops over TLVs have one more than the number of bytes, and
    [TlvLoop] proves that the loops of the source end and yield the same.

    ** What the theorems show

    - Uplink: a packet of a known UE is queued or freed; an iteration takes the
      packets of one subframe, in order, batches them by identifier, and frees
      each exactly once ([UeQueue]); the queue is a bounded list ([Queue]).  The
      indications of a batch reach the eNB or gNB as one with all PDUs, each as it
      was in the packet of its UE, if they are at most 100, all unpack and the
      message fits its buffer, except the SRS indications of NR and the CRC
      indications of NR with code blocks, whose unpackers write outside their memory;
      RACH indications go one by one ([Aggregate], [LteAggregate], [NrAggregate]).
    - Downlink: what one end sends in segments the other dispatches once and
      unchanged whatever the order of arrival ([Segmentation]); an LTE request
      in the window reaches the UEs at once and the PHY in the subframe that is
      due; no request is used after it is freed or freed twice; what can leak
      is exactly the HI/DCI0 (UL_DCI) requests a buffer reset forgets ([PnfP7],
      [PnfNrP7]).
    - Time: additions and counters are arithmetic modulo the hyperframe ([Sfn]);
      the LTE and NR tasks of NSA mode never deadlock, and stay in lockstep
      if a woken task gets the mutex first, which the code does not ensure
      ([Barrier]).
    - Configuration: the P5 handlers implement a small state machine of the PNF
      and its PHY, which a VNF can start up; in every reachable state a running
      PHY has its P7 thread; which requests get no response is listed exactly
      ([PnfP5]).
      The client of the VNF drives that machine over the wire, and starts a PHY with
      it; a PNF_CONFIG.request with too long a list of PHYs makes the PNF read outside
      its memory ([P5Exchange]).
    - Codecs: unknown TLVs are skipped, and what the DCI payload packer writes
      the unpacker reads ([Codec]); the CRC, SR and RACH indications round-trip
      through the frame of a P7 message ([LteInd]).
    - LTE P7 messages: all twenty round-trip; what must not be sent is part of
      [lc_ok]: PDUs longer than their size field, unknown types, the TLVs the
      unpacker has no or another reading of, empty lists where the receiver
      cannot allocate them ([LteP7]).
    - NR P7 messages: twelve messages round-trip; UL_TTI does not, because packer
      and unpacker disagree, SLOT.indication is never accepted, and release
      requests are accepted if their number of RNTIs is odd ([NrP7]).
    - P5 messages: packing and unpacking give back the message, for each pair of
      a packer and an unpacker that match ([P5Codec]; the pairs that do not are
      named at the theorem); no bytes whatsoever make an unpacker leave the
      declared types ([P5Types]), except those of LTE PNF_PARAM.response and of NR
      CONFIG.request, which write outside their arrays, the latter on regular
      messages ([P5Config]).
    - P4 messages: all seventeen round-trip, but SYSTEM_INFORMATION requests for
      NB-IoT are rejected whatever they contain ([P4Codec]).

    - The VNF in step with the PNF: with regular delays node sync converges from any
      offset and stays ([VnfConverge]), but an exchange that the end of the hyperframe
      interrupts ends it or spoils the offset; however PNFs come and go and messages
      arrive, every step of the endpoint is defined up to a message of one of three
      kinds, of which an UL_NODE_SYNC from an unknown PHY follows a null pointer, and
      the MAC is told of subframes only after it was told of the synchronisation
      ([VnfRun]).  What
      node sync at the VNF assumes of the four times of a message is what the two
      endpoints exchange ([NodeSync]).
    - From end to end: a request of the MAC reaches the UEs once, and for LTE the PHY
      in the subframe that is due, with the structure its codec describes, whatever
      the order of its datagrams ([PnfDownlink]); an indication the PNF sends reaches the callback of the MAC
      once, with the structure sent, whatever the order of its datagrams
      ([VnfUplink]); an answer of the PNF over P5 (but the LTE PNF_PARAM.response)
      reaches the callback of the client with what its unpacker makes of it, which for
      all but two is what was sent; one that ends with its header does so with an error
      code of OK, or with what is in an uninitialised buffer ([VnfP5]).

    Several theorems state what the code does where a comment or the evident
    intention says otherwise; their comments say so.

    ** Not modelled

    Sockets and threads: opening, listening, accepting and the system calls that
    read ([VnfP5] and [PnfP5Endpoint] have what is done with what they return), the
    [pselect] loops around the steps that are modelled, the C++ set-up of the
    processes.  The NR loop of the VNF, which calls the scheduler of a gNB.  Tracing,
    the freeing of what a message was unpacked into at the endpoints, and the
    simulators and unit tests
    of the library. *)

From stdpp Require Export base tactics option list numbers relations.
From Stdlib Require Export ZArith Lia ZifyNat ZifyBool.

#[global] Set Default Proof Using "Type".
#[export] Set Default Goal Selector "!".

(** [lia] sees through [/] and [mod] in every file that imports this one. *)
#[export] Ltac Zify.zify_post_hook ::= Z.div_mod_to_equations.

Open Scope Z_scope.

(** ** Fixed-width C integers

    A C integer is a [Z]; storing it in a [w]-bit object applies one of the
    wrap functions below. *)

Definition u8 (z : Z) : Z := z mod 256.
Definition u16 (z : Z) : Z := z mod 65536.
Definition u32 (z : Z) : Z := z mod 4294967296.
Definition u64 (z : Z) : Z := z mod 18446744073709551616.
Definition s8 (z : Z) : Z := (z + 128) mod 256 - 128.
Definition s16 (z : Z) : Z := (z + 32768) mod 65536 - 32768.
Definition s32 (z : Z) : Z := (z + 2147483648) mod 4294967296 - 2147483648.

Definition in_u8 (z : Z) : Prop := 0 <= z < 256.
Definition in_u16 (z : Z) : Prop := 0 <= z < 65536.
Definition in_u32 (z : Z) : Prop := 0 <= z < 4294967296.
Definition in_s8 (z : Z) : Prop := -128 <= z < 128.
Definition in_s16 (z : Z) : Prop := -32768 <= z < 32768.
Definition in_s32 (z : Z) : Prop := -2147483648 <= z < 2147483648.

(** C's comparison and logical operators yield an [int]. *)
Definition b2z (b : bool) : Z := if b then 1 else 0.

(** Unfolds the wrap and range predicates and decides what is left. *)
Ltac wrap_lia :=
  unfold in_u8, in_u16, in_u32, in_s8, in_s16, in_s32,
    u8, u16, u32, u64, s8, s16, s32, b2z in *; lia.

Lemma u8_small z : in_u8 z -> u8 z = z. Proof. wrap_lia. Qed.
Lemma u16_small z : in_u16 z -> u16 z = z. Proof. wrap_lia. Qed.
Lemma u32_small z : in_u32 z -> u32 z = z. Proof. wrap_lia. Qed.
Lemma u8_range z : in_u8 (u8 z). Proof. wrap_lia. Qed.
Lemma u16_range z : in_u16 (u16 z). Proof. wrap_lia. Qed.
Lemma u32_range z : in_u32 (u32 z). Proof. wrap_lia. Qed.

Create HintDb cint.
Create Rewrite HintDb cint.
#[export] Hint Resolve u8_range u16_range u32_range : cint.
#[export] Hint Rewrite u8_small u16_small u32_small using wrap_lia : cint.

(** ** Masks and shifts as division and remainder *)

Lemma land_mask (z n : Z) : 0 <= n -> Z.land z (Z.ones n) = z mod 2 ^ n.
Proof. intros. by apply Z.land_ones. Qed.

Lemma shiftr_div (z n : Z) : 0 <= n -> Z.shiftr z n = z / 2 ^ n.
Proof. intros. by apply Z.shiftr_div_pow2. Qed.

Lemma shiftl_mul (z n : Z) : 0 <= n -> Z.shiftl z n = z * 2 ^ n.
Proof. intros. by apply Z.shiftl_mul_pow2. Qed.

(** Or-ing in bits below a shifted value is addition. *)
Lemma lor_shiftl_add (a b n : Z) :
  0 <= n -> 0 <= b < 2 ^ n -> Z.lor (Z.shiftl a n) b = a * 2 ^ n + b.
Proof.
  intros Hn Hb. rewrite <- Z.shiftl_mul_pow2 by lia.
  rewrite Z.add_nocarry_lxor; [rewrite Z.lxor_lor; [done|] |];
    apply Z.bits_inj'; intros k Hk; rewrite Z.land_spec, Z.bits_0;
    destruct (decide (k < n)) as [Hlt|Hge];
    try (rewrite Z.shiftl_spec_low by lia; done);
    rewrite <- (Z.mod_small b (2 ^ n)) by lia;
    rewrite Z.mod_pow2_bits_high by lia; apply andb_false_r.
Qed.

(** The mask [((2^k - 1) << n)] followed by a right shift by [n]. *)
Lemma land_shiftr_mask (z n k : Z) :
  0 <= n -> 0 <= k ->
  Z.shiftr (Z.land z (Z.shiftl (Z.ones k) n)) n = (z / 2 ^ n) mod 2 ^ k.
Proof.
  intros Hn Hk. rewrite Z.shiftr_land, Z.shiftr_shiftl_l, Z.sub_diag, Z.shiftl_0_r by lia.
  by rewrite Z.land_ones, Z.shiftr_div_pow2 by lia.
Qed.

(** ** Lists with lengths in [Z] *)

Definition zlen {A} (l : list A) : Z := Z.of_nat (length l).

Section zlen.
Context {A : Type}.
Implicit Types l k : list A.

Lemma zlen_nil : zlen ([] : list A) = 0. Proof. done. Qed.
Lemma zlen_cons x l : zlen (x :: l) = 1 + zlen l.
Proof. unfold zlen. simpl. lia. Qed.
Lemma zlen_app l k : zlen (l ++ k) = zlen l + zlen k.
Proof. unfold zlen. rewrite length_app. lia. Qed.
Lemma zlen_nonneg l : 0 <= zlen l. Proof. unfold zlen. lia. Qed.
Lemma zlen_take n l : zlen (take n l) = Z.min (Z.of_nat n) (zlen l).
Proof. unfold zlen. rewrite length_take. lia. Qed.
Lemma zlen_drop n l : zlen (drop n l) = Z.max 0 (zlen l - Z.of_nat n).
Proof. unfold zlen. rewrite length_drop. lia. Qed.
Lemma zlen_replicate n (x : A) : zlen (replicate n x) = Z.of_nat n.
Proof. unfold zlen. by rewrite length_replicate. Qed.
End zlen.

Create Rewrite HintDb zlen.
#[export] Hint Rewrite @zlen_nil @zlen_cons @zlen_app @zlen_take @zlen_drop
  @zlen_replicate : zlen.

(** Normalises lengths, brings in their non-negativity, and calls [lia]. *)
Ltac zlen_lia :=
  autorewrite with zlen in *;
  repeat match goal with
    | _ : context [zlen ?l] |- _ =>
        lazymatch goal with _ : 0 <= zlen l |- _ => fail | _ => pose proof (zlen_nonneg l) end
    | |- context [zlen ?l] =>
        lazymatch goal with _ : 0 <= zlen l |- _ => fail | _ => pose proof (zlen_nonneg l) end
    end; lia.

Lemma length_tail {A} (l : list A) : length (tail l) = (length l - 1)%nat.
Proof. destruct l; simpl; lia. Qed.

Lemma Forall_filter {A} (P Q : A -> Prop) `{!forall x, Decision (Q x)} (l : list A) :
  Forall P l -> Forall P (filter Q l).
Proof. rewrite !Forall_forall. intros HP x [_ Hx]%list_elem_of_filter. by apply HP. Qed.

(** A list of bytes: what a [uint8_t] buffer holds. *)
Definition bytes_ok (l : list Z) : Prop := Forall in_u8 l.

Lemma bytes_ok_app l k : bytes_ok (l ++ k) <-> bytes_ok l /\ bytes_ok k.
Proof. apply Forall_app. Qed.

(** ** Case analysis on boolean tests of the code *)

(** Destructs the first [if] on a [Z] or [nat] comparison and records it. *)
Ltac case_cmp :=
  match goal with
  | |- context [Z.eqb ?a ?b] => destruct (Z.eqb_spec a b)
  | |- context [Z.leb ?a ?b] => destruct (Z.leb_spec a b)
  | |- context [Z.ltb ?a ?b] => destruct (Z.ltb_spec a b)
  | H : context [Z.eqb ?a ?b] |- _ => revert H; destruct (Z.eqb_spec a b); intros H
  | H : context [Z.leb ?a ?b] |- _ => revert H; destruct (Z.leb_spec a b); intros H
  | H : context [Z.ltb ?a ?b] |- _ => revert H; destruct (Z.ltb_spec a b); intros H
  end.
