(* ===== verification/Tags.v ===== *)
(** * Tags and bounds

    The tags of the TLVs of the P4, P5 and P7 messages and the bounds of the
    arrays in them, as the headers under [public_inc] define them. *)

From S2P Require Import Prelude.

(** [nfapi_interface.h] *)

(* enum: nfapi_interface.h *)
Definition NFAPI_MAX_PHY_RF_INSTANCES : Z := 2.
Definition NFAPI_PNF_PARAM_GENERAL_LOCATION_LENGTH : Z := 16.
Definition NFAPI_PNF_PARAM_GENERAL_OUI_LENGTH : Z := 3.
Definition NFAPI_MAX_NUM_RF_BANDS : Z := 16.
Definition NFAPI_MAX_PNF_PHY : Z := 5.
Definition NFAPI_MAX_PNF_PHY_RF_CONFIG : Z := 5.
Definition NFAPI_MAX_PNF_RF : Z := 5.
Definition NFAPI_MAX_NMM_FREQUENCY_BANDS : Z := 32.
Definition NFAPI_MAX_RECEIVED_INTERFERENCE_POWER_RESULTS : Z := 100.
Definition NFAPI_PNF_PARAM_GENERAL_TAG : Z := 0x1000.
Definition NFAPI_PNF_PHY_TAG : Z := 0x1001.
Definition NFAPI_PNF_PHY_REL10_TAG : Z := 0x100A.
Definition NFAPI_PNF_PHY_REL11_TAG : Z := 0x100B.
Definition NFAPI_PNF_PHY_REL12_TAG : Z := 0x100C.
Definition NFAPI_PNF_PHY_REL13_TAG : Z := 0x100D.
Definition NFAPI_PNF_PHY_REL13_NB_IOT_TAG : Z := 0x100E.
Definition NFAPI_PNF_RF_TAG : Z := 0x1002.
Definition NFAPI_PNF_PHY_RF_TAG : Z := 0x1003.
Definition NFAPI_L1_STATUS_PHY_STATE_TAG : Z := 0x00FA.
Definition NFAPI_PHY_CAPABILITIES_DL_BANDWIDTH_SUPPORT_TAG : Z := 0x00C8.
Definition NFAPI_PHY_CAPABILITIES_UL_BANDWIDTH_SUPPORT_TAG : Z := 0x00C9.
Definition NFAPI_PHY_CAPABILITIES_DL_MODULATION_SUPPORT_TAG : Z := 0x00CA.
Definition NFAPI_PHY_CAPABILITIES_UL_MODULATION_SUPPORT_TAG : Z := 0x00CB.
Definition NFAPI_PHY_CAPABILITIES_PHY_ANTENNA_CAPABILITY_TAG : Z := 0x00CC.
Definition NFAPI_PHY_CAPABILITIES_RELEASE_CAPABILITY_TAG : Z := 0x00CD.
Definition NFAPI_PHY_CAPABILITIES_MBSFN_CAPABILITY_TAG : Z := 0x00CE.
Definition NFAPI_L23_CONFIG_DATA_REPORT_MODE_TAG : Z := 0x00F0.
Definition NFAPI_L23_CONFIG_SFNSF_TAG : Z := 0x00F1.
Definition NFAPI_SUBFRAME_CONFIG_DUPLEX_MODE_TAG : Z := 0x0001.
Definition NFAPI_SUBFRAME_CONFIG_PCFICH_POWER_OFFSET_TAG : Z := 0x0002.
Definition NFAPI_SUBFRAME_CONFIG_PB_TAG : Z := 0x0003.
Definition NFAPI_SUBFRAME_CONFIG_DL_CYCLIC_PREFIX_TYPE_TAG : Z := 0x0004.
Definition NFAPI_SUBFRAME_CONFIG_UL_CYCLIC_PREFIX_TYPE_TAG : Z := 0x0005.
Definition NFAPI_RF_CONFIG_DL_CHANNEL_BANDWIDTH_TAG : Z := 0x000A.
Definition NFAPI_RF_CONFIG_UL_CHANNEL_BANDWIDTH_TAG : Z := 0x000B.
Definition NFAPI_RF_CONFIG_REFERENCE_SIGNAL_POWER_TAG : Z := 0x000C.
Definition NFAPI_RF_CONFIG_TX_ANTENNA_PORTS_TAG : Z := 0x000D.
Definition NFAPI_RF_CONFIG_RX_ANTENNA_PORTS_TAG : Z := 0x000E.
Definition NFAPI_PHICH_CONFIG_PHICH_RESOURCE_TAG : Z := 0x0014.
Definition NFAPI_PHICH_CONFIG_PHICH_DURATION_TAG : Z := 0x0015.
Definition NFAPI_PHICH_CONFIG_PHICH_POWER_OFFSET_TAG : Z := 0x0016.
Definition NFAPI_SCH_CONFIG_PRIMARY_SYNCHRONIZATION_SIGNAL_EPRE_EPRERS_TAG : Z := 0x001E.
Definition NFAPI_SCH_CONFIG_SECONDARY_SYNCHRONIZATION_SIGNAL_EPRE_EPRERS_TAG : Z := 0x001F.
Definition NFAPI_SCH_CONFIG_PHYSICAL_CELL_ID_TAG : Z := 0x0020.
Definition NFAPI_PRACH_CONFIG_CONFIGURATION_INDEX_TAG : Z := 0x0028.
Definition NFAPI_PRACH_CONFIG_ROOT_SEQUENCE_INDEX_TAG : Z := 0x0029.
Definition NFAPI_PRACH_CONFIG_ZERO_CORRELATION_ZONE_CONFIGURATION_TAG : Z := 0x002A.
Definition NFAPI_PRACH_CONFIG_HIGH_SPEED_FLAG_TAG : Z := 0x002B.
Definition NFAPI_PRACH_CONFIG_FREQUENCY_OFFSET_TAG : Z := 0x002C.
Definition NFAPI_PUSCH_CONFIG_HOPPING_MODE_TAG : Z := 0x0032.
Definition NFAPI_PUSCH_CONFIG_HOPPING_OFFSET_TAG : Z := 0x0033.
Definition NFAPI_PUSCH_CONFIG_NUMBER_OF_SUBBANDS_TAG : Z := 0x0034.
Definition NFAPI_PUCCH_CONFIG_DELTA_PUCCH_SHIFT_TAG : Z := 0x003C.
Definition NFAPI_PUCCH_CONFIG_N_CQI_RB_TAG : Z := 0x003D.
Definition NFAPI_PUCCH_CONFIG_N_AN_CS_TAG : Z := 0x003E.
Definition NFAPI_PUCCH_CONFIG_N1_PUCCH_AN_TAG : Z := 0x003F.
Definition NFAPI_EMBMS_MBSFN_CONFIG_AREA_IDX_TAG : Z := 0x0039.
Definition NFAPI_EMBMS_MBSFN_CONFIG_AREA_IDR9_TAG : Z := 0x0040.
Definition NFAPI_EMBMS_MBSFN_CONFIG_TAG : Z := 0x0041.
Definition NFAPI_FEMBMS_CONFIG_RADIOFRAME_ALLOCATION_PERIOD_TAG : Z := 0x0042.
Definition NFAPI_FEMBMS_CONFIG_RADIOFRAME_ALLOCATION_OFFSET_TAG : Z := 0x0043.
Definition NFAPI_FEMBMS_CONFIG_NON_MBSFN_FLAG_TAG : Z := 0x0044.
Definition NFAPI_FEMBMS_CONFIG_NON_MBSFN_SUBFRAMECONFIG_TAG : Z := 0x0045.
Definition NFAPI_SRS_CONFIG_BANDWIDTH_CONFIGURATION_TAG : Z := 0x0046.
Definition NFAPI_SRS_CONFIG_MAX_UP_PTS_TAG : Z := 0x0047.
Definition NFAPI_SRS_CONFIG_SRS_SUBFRAME_CONFIGURATION_TAG : Z := 0x0048.
Definition NFAPI_SRS_CONFIG_SRS_ACKNACK_SRS_SIMULTANEOUS_TRANSMISSION_TAG : Z := 0x0049.
Definition NFAPI_UPLINK_REFERENCE_SIGNAL_CONFIG_UPLINK_RS_HOPPING_TAG : Z := 0x0050.
Definition NFAPI_UPLINK_REFERENCE_SIGNAL_CONFIG_GROUP_ASSIGNMENT_TAG : Z := 0x0051.
Definition NFAPI_UPLINK_REFERENCE_SIGNAL_CONFIG_CYCLIC_SHIFT_1_FOR_DRMS_TAG : Z := 0x0052.
Definition NFAPI_LAA_CONFIG_ED_THRESHOLD_FOR_LBT_FOR_PDSCH_TAG : Z := 0x0064.
Definition NFAPI_LAA_CONFIG_ED_THRESHOLD_FOR_LBT_FOR_DRS_TAG : Z := 0x0065.
Definition NFAPI_LAA_CONFIG_PD_THRESHOLD_TAG : Z := 0x0066.
Definition NFAPI_LAA_CONFIG_MULTI_CARRIER_TYPE_TAG : Z := 0x0067.
Definition NFAPI_LAA_CONFIG_MULTI_CARRIER_TX_TAG : Z := 0x0068.
Definition NFAPI_LAA_CONFIG_MULTI_CARRIER_FREEZE_TAG : Z := 0x0069.
Definition NFAPI_LAA_CONFIG_TX_ANTENNA_PORTS_FOR_DRS_TAG : Z := 0x006A.
Definition NFAPI_LAA_CONFIG_TRANSMISSION_POWER_FOR_DRS_TAG : Z := 0x006B.
Definition NFAPI_EMTC_CONFIG_PBCH_REPETITIONS_ENABLE_R13_TAG : Z := 0x0078.
Definition NFAPI_EMTC_CONFIG_PRACH_CATM_ROOT_SEQUENCE_INDEX_TAG : Z := 0x0079.
Definition NFAPI_EMTC_CONFIG_PRACH_CATM_ZERO_CORRELATION_ZONE_CONFIGURATION_TAG : Z := 0x007A.
Definition NFAPI_EMTC_CONFIG_PRACH_CATM_HIGH_SPEED_FLAG : Z := 0x007B.
Definition NFAPI_EMTC_CONFIG_PRACH_CE_LEVEL_0_ENABLE_TAG : Z := 0x007C.
Definition NFAPI_EMTC_CONFIG_PRACH_CE_LEVEL_0_CONFIGURATION_INDEX_TAG : Z := 0x007D.
Definition NFAPI_EMTC_CONFIG_PRACH_CE_LEVEL_0_FREQUENCY_OFFSET_TAG : Z := 0x007E.
Definition NFAPI_EMTC_CONFIG_PRACH_CE_LEVEL_0_NUMBER_OF_REPETITIONS_PER_ATTEMPT_TAG : Z := 0x007F.
Definition NFAPI_EMTC_CONFIG_PRACH_CE_LEVEL_0_STARTING_SUBFRAME_PERIODICITY_TAG : Z := 0x0080.
Definition NFAPI_EMTC_CONFIG_PRACH_CE_LEVEL_0_HOPPING_ENABLE_TAG : Z := 0x0081.
Definition NFAPI_EMTC_CONFIG_PRACH_CE_LEVEL_0_HOPPING_OFFSET_TAG : Z := 0x0082.
Definition NFAPI_EMTC_CONFIG_PRACH_CE_LEVEL_1_ENABLE_TAG : Z := 0x0083.
Definition NFAPI_EMTC_CONFIG_PRACH_CE_LEVEL_1_CONFIGURATION_INDEX_TAG : Z := 0x0084.
Definition NFAPI_EMTC_CONFIG_PRACH_CE_LEVEL_1_FREQUENCY_OFFSET_TAG : Z := 0x0085.
Definition NFAPI_EMTC_CONFIG_PRACH_CE_LEVEL_1_NUMBER_OF_REPETITIONS_PER_ATTEMPT_TAG : Z := 0x0086.
Definition NFAPI_EMTC_CONFIG_PRACH_CE_LEVEL_1_STARTING_SUBFRAME_PERIODICITY_TAG : Z := 0x0087.
Definition NFAPI_EMTC_CONFIG_PRACH_CE_LEVEL_1_HOPPING_ENABLE_TAG : Z := 0x0088.
Definition NFAPI_EMTC_CONFIG_PRACH_CE_LEVEL_1_HOPPING_OFFSET_TAG : Z := 0x0089.
Definition NFAPI_EMTC_CONFIG_PRACH_CE_LEVEL_2_ENABLE_TAG : Z := 0x008A.
Definition NFAPI_EMTC_CONFIG_PRACH_CE_LEVEL_2_CONFIGURATION_INDEX_TAG : Z := 0x008B.
Definition NFAPI_EMTC_CONFIG_PRACH_CE_LEVEL_2_FREQUENCY_OFFSET_TAG : Z := 0x008C.
Definition NFAPI_EMTC_CONFIG_PRACH_CE_LEVEL_2_NUMBER_OF_REPETITIONS_PER_ATTEMPT_TAG : Z := 0x008D.
Definition NFAPI_EMTC_CONFIG_PRACH_CE_LEVEL_2_STARTING_SUBFRAME_PERIODICITY_TAG : Z := 0x008E.
Definition NFAPI_EMTC_CONFIG_PRACH_CE_LEVEL_2_HOPPING_ENABLE_TAG : Z := 0x008F.
Definition NFAPI_EMTC_CONFIG_PRACH_CE_LEVEL_2_HOPPING_OFFSET_TAG : Z := 0x0090.
Definition NFAPI_EMTC_CONFIG_PRACH_CE_LEVEL_3_ENABLE_TAG : Z := 0x0091.
Definition NFAPI_EMTC_CONFIG_PRACH_CE_LEVEL_3_CONFIGURATION_INDEX_TAG : Z := 0x0092.
Definition NFAPI_EMTC_CONFIG_PRACH_CE_LEVEL_3_FREQUENCY_OFFSET_TAG : Z := 0x0093.
Definition NFAPI_EMTC_CONFIG_PRACH_CE_LEVEL_3_NUMBER_OF_REPETITIONS_PER_ATTEMPT_TAG : Z := 0x0094.
Definition NFAPI_EMTC_CONFIG_PRACH_CE_LEVEL_3_STARTING_SUBFRAME_PERIODICITY_TAG : Z := 0x0095.
Definition NFAPI_EMTC_CONFIG_PRACH_CE_LEVEL_3_HOPPING_ENABLE_TAG : Z := 0x0096.
Definition NFAPI_EMTC_CONFIG_PRACH_CE_LEVEL_3_HOPPING_OFFSET_TAG : Z := 0x0097.
Definition NFAPI_EMTC_CONFIG_PUCCH_INTERVAL_ULHOPPINGCONFIGCOMMONMODEA_TAG : Z := 0x0098.
Definition NFAPI_EMTC_CONFIG_PUCCH_INTERVAL_ULHOPPINGCONFIGCOMMONMODEB_TAG : Z := 0x0099.
Definition NFAPI_LAA_CAPABILITY_LAA_SUPPORT_TAG : Z := 0x00D1.
Definition NFAPI_LAA_CAPABILITY_PD_SENSING_LBT_SUPPORT_TAG : Z := 0x00D2.
Definition NFAPI_LAA_CAPABILITY_MULTI_CARRIER_LBT_SUPPORT_TAG : Z := 0x00D3.
Definition NFAPI_LAA_CAPABILITY_PARTIAL_SF_SUPPORT_TAG : Z := 0x00D4.
Definition NFAPI_TDD_FRAME_STRUCTURE_SUBFRAME_ASSIGNMENT_TAG : Z := 0x005A.
Definition NFAPI_TDD_FRAME_STRUCTURE_SPECIAL_SUBFRAME_PATTERNS_TAG : Z := 0x005B.
Definition NFAPI_PHY_RF_BANDS_TAG : Z := 0x0114.
Definition NFAPI_IPV4_ADDRESS_LENGTH : Z := 4.
Definition NFAPI_IPV6_ADDRESS_LENGTH : Z := 16.
Definition NFAPI_NFAPI_P7_VNF_ADDRESS_IPV4_TAG : Z := 0x0100.
Definition NFAPI_NFAPI_P7_VNF_ADDRESS_IPV6_TAG : Z := 0x0101.
Definition NFAPI_NFAPI_P7_VNF_PORT_TAG : Z := 0x0102.
Definition NFAPI_NFAPI_P7_PNF_ADDRESS_IPV4_TAG : Z := 0x0103.
Definition NFAPI_NFAPI_P7_PNF_ADDRESS_IPV6_TAG : Z := 0x0104.
Definition NFAPI_NFAPI_P7_PNF_PORT_TAG : Z := 0x0105.
Definition NFAPI_NFAPI_DOWNLINK_UES_PER_SUBFRAME_TAG : Z := 0x010A.
Definition NFAPI_NFAPI_UPLINK_UES_PER_SUBFRAME_TAG : Z := 0x010B.
Definition NFAPI_NFAPI_RF_BANDS_TAG : Z := 0x0114.
Definition NFAPI_NFAPI_TIMING_WINDOW_TAG : Z := 0x011E.
Definition NFAPI_NFAPI_TIMING_INFO_MODE_TAG : Z := 0x011F.
Definition NFAPI_NFAPI_TIMING_INFO_PERIOD_TAG : Z := 0x0120.
Definition NFAPI_NFAPI_MAXIMUM_TRANSMIT_POWER_TAG : Z := 0x0128.
Definition NFAPI_NFAPI_EARFCN_TAG : Z := 0x0129.
Definition NFAPI_NFAPI_NMM_GSM_FREQUENCY_BANDS_TAG : Z := 0x0130.
Definition NFAPI_NFAPI_NMM_UMTS_FREQUENCY_BANDS_TAG : Z := 0x0131.
Definition NFAPI_NFAPI_NMM_LTE_FREQUENCY_BANDS_TAG : Z := 0x0132.
Definition NFAPI_NFAPI_NMM_UPLINK_RSSI_SUPPORTED_TAG : Z := 0x0133.
Definition NFAPI_MEASUREMENT_REQUEST_DL_RS_XTX_POWER_TAG : Z := 0x1004.
Definition NFAPI_MEASUREMENT_REQUEST_RECEIVED_INTERFERENCE_POWER_TAG : Z := 0x1005.
Definition NFAPI_MEASUREMENT_REQUEST_THERMAL_NOISE_POWER_TAG : Z := 0x1006.
Definition NFAPI_MEASUREMENT_RESPONSE_DL_RS_POWER_MEASUREMENT_TAG : Z := 0x1007.
Definition NFAPI_MEASUREMENT_RESPONSE_RECEIVED_INTERFERENCE_POWER_MEASUREMENT_TAG : Z := 0x1008.
Definition NFAPI_MEASUREMENT_RESPONSE_THERMAL_NOISE_MEASUREMENT_TAG : Z := 0x1009.
Definition NFAPI_MAX_NUM_ANTENNAS : Z := 8.
Definition NFAPI_MAX_NUM_SUBBANDS : Z := 13.
Definition NFAPI_MAX_BF_VECTORS : Z := 8.
Definition NFAPI_MAX_CC : Z := 1.
Definition NFAPI_MAX_NUM_PHYSICAL_ANTENNAS : Z := 8.
Definition NFAPI_MAX_NUM_SCHEDULED_UES : Z := 8.
Definition NFAPI_MAX_UL_DL_CONFIGURATIONS : Z := 5.
Definition NFAPI_MAX_CSI_RS_RESOURCE_CONFIG : Z := 4.
Definition NFAPI_MAX_ANTENNA_PORT_COUNT : Z := 8.
Definition NFAPI_MAX_EPDCCH_PRB : Z := 8.
Definition NFAPI_MAX_TX_PHYSICAL_ANTENNA_PORTS : Z := 8.
Definition NFAPI_DL_CONFIG_DCI_DL_PDU_TYPE : Z := 0.
Definition NFAPI_DL_CONFIG_BCH_PDU_TYPE : Z := 1.
Definition NFAPI_DL_CONFIG_MCH_PDU_TYPE : Z := 2.
Definition NFAPI_DL_CONFIG_DLSCH_PDU_TYPE : Z := 3.
Definition NFAPI_DL_CONFIG_PCH_PDU_TYPE : Z := 4.
Definition NFAPI_DL_CONFIG_PRS_PDU_TYPE : Z := 5.
Definition NFAPI_DL_CONFIG_CSI_RS_PDU_TYPE : Z := 6.
Definition NFAPI_DL_CONFIG_EPDCCH_DL_PDU_TYPE : Z := 7.
Definition NFAPI_DL_CONFIG_MPDCCH_PDU_TYPE : Z := 8.
Definition NFAPI_DL_CONFIG_NBCH_PDU_TYPE : Z := 9.
Definition NFAPI_DL_CONFIG_NPDCCH_PDU_TYPE : Z := 10.
Definition NFAPI_DL_CONFIG_NDLSCH_PDU_TYPE : Z := 11.
Definition NFAPI_UL_CONFIG_ULSCH_PDU_TYPE : Z := 0.
Definition NFAPI_UL_CONFIG_ULSCH_CQI_RI_PDU_TYPE : Z := 1.
Definition NFAPI_UL_CONFIG_ULSCH_HARQ_PDU_TYPE : Z := 2.
Definition NFAPI_UL_CONFIG_ULSCH_CQI_HARQ_RI_PDU_TYPE : Z := 3.
Definition NFAPI_UL_CONFIG_UCI_CQI_PDU_TYPE : Z := 4.
Definition NFAPI_UL_CONFIG_UCI_SR_PDU_TYPE : Z := 5.
Definition NFAPI_UL_CONFIG_UCI_HARQ_PDU_TYPE : Z := 6.
Definition NFAPI_UL_CONFIG_UCI_SR_HARQ_PDU_TYPE : Z := 7.
Definition NFAPI_UL_CONFIG_UCI_CQI_HARQ_PDU_TYPE : Z := 8.
Definition NFAPI_UL_CONFIG_UCI_CQI_SR_PDU_TYPE : Z := 9.
Definition NFAPI_UL_CONFIG_UCI_CQI_SR_HARQ_PDU_TYPE : Z := 10.
Definition NFAPI_UL_CONFIG_SRS_PDU_TYPE : Z := 11.
Definition NFAPI_UL_CONFIG_HARQ_BUFFER_PDU_TYPE : Z := 12.
Definition NFAPI_UL_CONFIG_ULSCH_UCI_CSI_PDU_TYPE : Z := 13.
Definition NFAPI_UL_CONFIG_ULSCH_UCI_HARQ_PDU_TYPE : Z := 14.
Definition NFAPI_UL_CONFIG_ULSCH_CSI_UCI_HARQ_PDU_TYPE : Z := 15.
Definition NFAPI_UL_CONFIG_NULSCH_PDU_TYPE : Z := 16.
Definition NFAPI_UL_CONFIG_NRACH_PDU_TYPE : Z := 17.
Definition NFAPI_HI_DCI0_HI_PDU_TYPE : Z := 0.
Definition NFAPI_HI_DCI0_DCI_PDU_TYPE : Z := 1.
Definition NFAPI_HI_DCI0_EPDCCH_DCI_PDU_TYPE : Z := 2.
Definition NFAPI_HI_DCI0_MPDCCH_DCI_PDU_TYPE : Z := 3.
Definition NFAPI_HI_DCI0_NPDCCH_DCI_PDU_TYPE : Z := 4.
Definition NFAPI_CSI_REPORT_TYPE_PERIODIC : Z := 0.
Definition NFAPI_CSI_REPORT_TYPE_APERIODIC : Z := 1.
Definition NFAPI_LBT_DL_CONFIG_REQUEST_PDSCH_PDU_TYPE : Z := 0.
Definition NFAPI_LBT_DL_CONFIG_REQUEST_DRS_PDU_TYPE : Z := 1.
Definition NFAPI_LBT_DL_RSP_PDSCH_PDU_TYPE : Z := 0.
Definition NFAPI_LBT_DL_RSP_DRS_PDU_TYPE : Z := 1.
Definition NFAPI_DL_CONFIG_REQUEST_DCI_DL_PDU_REL8_TAG : Z := 0x2001.
Definition NFAPI_DL_CONFIG_REQUEST_DCI_DL_PDU_REL9_TAG : Z := 0x2002.
Definition NFAPI_DL_CONFIG_REQUEST_DCI_DL_PDU_REL10_TAG : Z := 0x2003.
Definition NFAPI_DL_CONFIG_REQUEST_DCI_DL_PDU_REL11_TAG : Z := 0x2039.
Definition NFAPI_DL_CONFIG_REQUEST_DCI_DL_PDU_REL12_TAG : Z := 0x203a.
Definition NFAPI_DL_CONFIG_REQUEST_DCI_DL_PDU_REL13_TAG : Z := 0x203b.
Definition NFAPI_DL_CONFIG_REQUEST_BCH_PDU_REL8_TAG : Z := 0x2004.
Definition NFAPI_DL_CONFIG_REQUEST_MCH_PDU_REL8_TAG : Z := 0x2005.
Definition NFAPI_DL_CONFIG_REQUEST_DLSCH_PDU_REL8_TAG : Z := 0x2006.
Definition NFAPI_DL_CONFIG_REQUEST_DLSCH_PDU_REL9_TAG : Z := 0x2007.
Definition NFAPI_DL_CONFIG_REQUEST_DLSCH_PDU_REL10_TAG : Z := 0x2008.
Definition NFAPI_DL_CONFIG_REQUEST_DLSCH_PDU_REL11_TAG : Z := 0x203C.
Definition NFAPI_DL_CONFIG_REQUEST_DLSCH_PDU_REL12_TAG : Z := 0x203D.
Definition NFAPI_DL_CONFIG_REQUEST_DLSCH_PDU_REL13_TAG : Z := 0x203E.
Definition NFAPI_DL_CONFIG_REQUEST_PCH_PDU_REL8_TAG : Z := 0x2009.
Definition NFAPI_DL_CONFIG_REQUEST_PCH_PDU_REL13_TAG : Z := 0x203F.
Definition NFAPI_DL_CONFIG_REQUEST_PRS_PDU_REL9_TAG : Z := 0x200A.
Definition NFAPI_DL_CONFIG_REQUEST_CSI_RS_PDU_REL10_TAG : Z := 0x200B.
Definition NFAPI_DL_CONFIG_REQUEST_CSI_RS_PDU_REL13_TAG : Z := 0x2040.
Definition NFAPI_DL_CONFIG_REQUEST_EPDCCH_PDU_REL8_TAG : Z := 0x2001.
Definition NFAPI_DL_CONFIG_REQUEST_EPDCCH_PDU_REL9_TAG : Z := 0x2002.
Definition NFAPI_DL_CONFIG_REQUEST_EPDCCH_PDU_REL10_TAG : Z := 0x2003.
Definition NFAPI_DL_CONFIG_REQUEST_EPDCCH_PDU_REL11_TAG : Z := 0x2039.
Definition NFAPI_DL_CONFIG_REQUEST_EPDCCH_PDU_REL12_TAG : Z := 0x203a.
Definition NFAPI_DL_CONFIG_REQUEST_EPDCCH_PDU_REL13_TAG : Z := 0x203b.
Definition NFAPI_DL_CONFIG_REQUEST_EPDCCH_PARAM_REL11_TAG : Z := 0x2041.
Definition NFAPI_DL_CONFIG_REQUEST_EPDCCH_PARAM_REL13_TAG : Z := 0x2042.
Definition NFAPI_DL_CONFIG_REQUEST_MPDCCH_PDU_REL13_TAG : Z := 0x205B.
Definition NFAPI_DL_CONFIG_REQUEST_NBCH_PDU_REL13_TAG : Z := 0x205C.
Definition NFAPI_DL_CONFIG_REQUEST_NPDCCH_PDU_REL13_TAG : Z := 0x205D.
Definition NFAPI_DL_CONFIG_REQUEST_NDLSCH_PDU_REL13_TAG : Z := 0x205E.
Definition NFAPI_DL_CONFIG_MAX_PDU : Z := 100.
Definition NFAPI_DL_CONFIG_REQUEST_BODY_TAG : Z := 0x2000.
Definition NFAPI_UL_CONFIG_REQUEST_ULSCH_PDU_REL8_TAG : Z := 0x200D.
Definition NFAPI_UL_CONFIG_REQUEST_ULSCH_PDU_REL10_TAG : Z := 0x200E.
Definition NFAPI_UL_CONFIG_REQUEST_ULSCH_PDU_REL11_TAG : Z := 0x2043.
Definition NFAPI_UL_CONFIG_REQUEST_ULSCH_PDU_REL13_TAG : Z := 0x2044.
Definition NFAPI_UL_CONFIG_REQUEST_CQI_RI_INFORMATION_REL8_TAG : Z := 0x2010.
Definition NFAPI_UL_CONFIG_REQUEST_CQI_RI_INFORMATION_REL9_TAG : Z := 0x2011.
Definition NFAPI_UL_CONFIG_REQUEST_CQI_RI_INFORMATION_REL13_TAG : Z := 0x2045.
Definition NFAPI_UL_CONFIG_REQUEST_ULSCH_HARQ_INFORMATION_REL10_TAG : Z := 0x2012.
Definition NFAPI_UL_CONFIG_REQUEST_ULSCH_HARQ_INFORMATION_REL13_TAG : Z := 0x2046.
Definition NFAPI_UL_CONFIG_REQUEST_INITIAL_TRANSMISSION_PARAMETERS_REL8_TAG : Z := 0x200F.
Definition NFAPI_UL_CONFIG_REQUEST_UE_INFORMATION_REL8_TAG : Z := 0x2013.
Definition NFAPI_UL_CONFIG_REQUEST_UE_INFORMATION_REL11_TAG : Z := 0x2047.
Definition NFAPI_UL_CONFIG_REQUEST_UE_INFORMATION_REL13_TAG : Z := 0x2048.
Definition NFAPI_UL_CONFIG_REQUEST_CQI_INFORMATION_REL8_TAG : Z := 0x2014.
Definition NFAPI_UL_CONFIG_REQUEST_CQI_INFORMATION_REL10_TAG : Z := 0x2015.
Definition NFAPI_UL_CONFIG_REQUEST_CQI_INFORMATION_REL13_TAG : Z := 0x2049.
Definition NFAPI_UL_CONFIG_REQUEST_SR_INFORMATION_REL8_TAG : Z := 0x2016.
Definition NFAPI_UL_CONFIG_REQUEST_SR_INFORMATION_REL10_TAG : Z := 0x2017.
Definition NFAPI_UL_CONFIG_REQUEST_HARQ_INFORMATION_REL10_TDD_TAG : Z := 0x2018.
Definition NFAPI_UL_CONFIG_REQUEST_HARQ_INFORMATION_REL8_FDD_TAG : Z := 0x2019.
Definition NFAPI_UL_CONFIG_REQUEST_HARQ_INFORMATION_REL9_FDD_TAG : Z := 0x201a.
Definition NFAPI_UL_CONFIG_REQUEST_HARQ_INFORMATION_REL11_TAG : Z := 0x204A.
Definition NFAPI_UL_CONFIG_REQUEST_HARQ_INFORMATION_REL13_TAG : Z := 0x204B.
Definition NFAPI_UL_CONFIG_REQUEST_SRS_PDU_REL8_TAG : Z := 0x201b.
Definition NFAPI_UL_CONFIG_REQUEST_SRS_PDU_REL10_TAG : Z := 0x201c.
Definition NFAPI_UL_CONFIG_REQUEST_SRS_PDU_REL13_TAG : Z := 0x204c.
Definition NFAPI_UL_CONFIG_REQUEST_NB_HARQ_INFORMATION_REL13_FDD_TAG : Z := 0x2061.
Definition NFAPI_UL_CONFIG_REQUEST_NULSCH_PDU_REL13_TAG : Z := 0x205F.
Definition NFAPI_UL_CONFIG_REQUEST_NRACH_PDU_REL13_TAG : Z := 0x2067.
Definition NFAPI_UL_CONFIG_MAX_PDU : Z := 100.
Definition NFAPI_UL_CONFIG_REQUEST_BODY_TAG : Z := 0x200C.
Definition NFAPI_HI_DCI0_REQUEST_HI_PDU_REL8_TAG : Z := 0x201e.
Definition NFAPI_HI_DCI0_REQUEST_HI_PDU_REL10_TAG : Z := 0x201f.
Definition NFAPI_HI_DCI0_REQUEST_DCI_PDU_REL8_TAG : Z := 0x2020.
Definition NFAPI_HI_DCI0_REQUEST_DCI_PDU_REL10_TAG : Z := 0x2021.
Definition NFAPI_HI_DCI0_REQUEST_DCI_PDU_REL12_TAG : Z := 0x204D.
Definition NFAPI_HI_DCI0_REQUEST_EPDCCH_DCI_PDU_REL8_TAG : Z := 0x2020.
Definition NFAPI_HI_DCI0_REQUEST_EPDCCH_DCI_PDU_REL10_TAG : Z := 0x2021.
Definition NFAPI_HI_DCI0_REQUEST_EPDCCH_PARAMETERS_REL11_TAG : Z := 0x2041.
Definition NFAPI_HI_DCI0_REQUEST_MPDCCH_DCI_PDU_REL13_TAG : Z := 0x204E.
Definition NFAPI_HI_DCI0_REQUEST_NPDCCH_DCI_PDU_REL13_TAG : Z := 0x2062.
Definition NFAPI_HI_DCI0_MAX_PDU : Z := 100.
Definition NFAPI_HI_DCI0_REQUEST_BODY_TAG : Z := 0x201D.
Definition NFAPI_TX_MAX_SEGMENTS : Z := 32.
Definition NFAPI_TX_MAX_PDU : Z := 100.
Definition NFAPI_TX_REQUEST_BODY_TAG : Z := 0x2022.
Definition NFAPI_LBT_PDSCH_REQ_PDU_REL13_TAG : Z := 0x2056.
Definition NFAPI_LBT_DRS_REQ_PDU_REL13_TAG : Z := 0x2057.
Definition NFAPI_LBT_DL_CONFIG_REQ_MAX_PDU : Z := 16.
Definition NFAPI_LBT_DL_CONFIG_REQUEST_BODY_TAG : Z := 0x2055.
Definition NFAPI_LBT_PDSCH_RSP_PDU_REL13_TAG : Z := 0x2059.
Definition NFAPI_LBT_DRS_RSP_PDU_REL13_TAG : Z := 0x205A.
Definition NFAPI_LBT_IND_MAX_PDU : Z := 16.
Definition NFAPI_LBT_DL_INDICATION_BODY_TAG : Z := 0x2058.
Definition NFAPI_RX_UE_INFORMATION_TAG : Z := 0x2038.
Definition NFAPI_CRC_INDICATION_REL8_TAG : Z := 0x202c.
Definition NFAPI_CRC_IND_MAX_PDU : Z := 100.
Definition NFAPI_CRC_INDICATION_BODY_TAG : Z := 0x202b.
Definition NFAPI_UL_CQI_INFORMATION_TAG : Z := 0x2052.
Definition NFAPI_SR_IND_MAX_PDU : Z := 100.
Definition NFAPI_SR_INDICATION_BODY_TAG : Z := 0x202d.
Definition NFAPI_PREAMBLE_REL8_TAG : Z := 0x2032.
Definition NFAPI_PREAMBLE_REL9_TAG : Z := 0x2033.
Definition NFAPI_PREAMBLE_REL13_TAG : Z := 0x2051.
Definition NFAPI_PREAMBLE_MAX_PDU : Z := 100.
Definition NFAPI_RACH_INDICATION_BODY_TAG : Z := 0x2031.
Definition NFAPI_MAX_NUMBER_ACK_NACK_TDD : Z := 8.
Definition NFAPI_HARQ_INDICATION_TDD_HARQ_ACK_NACK_FORMAT_BUNDLING : Z := 0.
Definition NFAPI_HARQ_INDICATION_TDD_HARQ_ACK_NACK_FORMAT_MULIPLEXING : Z := 1.
Definition NFAPI_HARQ_INDICATION_TDD_HARQ_ACK_NACK_FORMAT_SPECIAL_BUNDLING : Z := 2.
Definition NFAPI_HARQ_INDICATION_TDD_HARQ_ACK_NACK_FORMAT_CHANNEL_SELECTION : Z := 3.
Definition NFAPI_HARQ_INDICATION_TDD_HARQ_ACK_NACK_FORMAT_FORMAT_3 : Z := 4.
Definition NFAPI_HARQ_INDICATION_TDD_HARQ_ACK_NACK_FORMAT_FORMAT_4 : Z := 5.
Definition NFAPI_HARQ_INDICATION_TDD_HARQ_ACK_NACK_FORMAT_FORMAT_5 : Z := 6.
Definition NFAPI_HARQ_INDICATION_TDD_REL8_TAG : Z := 0x2027.
Definition NFAPI_HARQ_INDICATION_TDD_REL9_TAG : Z := 0x2028.
Definition NFAPI_HARQ_INDICATION_TDD_REL13_TAG : Z := 0x204F.
Definition NFAPI_HARQ_INDICATION_FDD_REL8_TAG : Z := 0x2029.
Definition NFAPI_HARQ_ACK_NACK_REL9_MAX : Z := 10.
Definition NFAPI_HARQ_INDICATION_FDD_REL9_TAG : Z := 0x202a.
Definition NFAPI_HARQ_ACK_NACK_REL13_MAX : Z := 22.
Definition NFAPI_HARQ_INDICATION_FDD_REL13_TAG : Z := 0x2050.
Definition NFAPI_HARQ_IND_MAX_PDU : Z := 100.
Definition NFAPI_HARQ_INDICATION_BODY_TAG : Z := 0x2026.
Definition NFAPI_NUM_RB_MAX : Z := 1000.
Definition NFAPI_SRS_INDICATION_FDD_REL8_TAG : Z := 0x2035.
Definition NFAPI_SRS_INDICATION_FDD_REL9_TAG : Z := 0x2036.
Definition NFAPI_SRS_INDICATION_TDD_REL10_TAG : Z := 0x2037.
Definition NFAPI_SRS_INDICATION_FDD_REL11_TAG : Z := 0x2053.
Definition NFAPI_TDD_CHANNEL_MEASUREMENT_TAG : Z := 0x2054.
Definition NFAPI_SRS_IND_MAX_PDU : Z := 16.
Definition NFAPI_SRS_INDICATION_BODY_TAG : Z := 0x2034.
Definition NFAPI_NB_HARQ_INDICATION_FDD_REL13_TAG : Z := 0x2064.
Definition NFAPI_NB_HARQ_INDICATION_BODY_TAG : Z := 0x2063.
Definition NFAPI_NRACH_INDICATION_REL13_TAG : Z := 0x2066.
Definition NFAPI_NRACH_INDICATION_BODY_TAG : Z := 0x2065.
Definition NFAPI_CQI_INDICATION_REL8_TAG : Z := 0x202f.
Definition NFAPI_CC_MAX : Z := 4.
Definition NFAPI_CQI_INDICATION_REL9_TAG : Z := 0x2030.
Definition NFAPI_CQI_RAW_MAX_LEN : Z := 12.
Definition NFAPI_CQI_IND_MAX_PDU : Z := 100.
Definition NFAPI_CQI_INDICATION_BODY_TAG : Z := 0x202e.
Definition NFAPI_RX_INDICATION_REL8_TAG : Z := 0x2024.
Definition NFAPI_RX_INDICATION_REL9_TAG : Z := 0x2025.
Definition NFAPI_RX_IND_MAX_PDU : Z := 100.
Definition NFAPI_RX_INDICATION_BODY_TAG : Z := 0x2023.
Definition NFAPI_RX_IND_DATA_MAX : Z := 8192.
Definition NFAPI_MAX_RSSI : Z := 8.
Definition NFAPI_MAX_PSC_LIST : Z := 32.
Definition NFAPI_MAX_PCI_LIST : Z := 32.
Definition NFAPI_MAX_CARRIER_LIST : Z := 32.
Definition NFAPI_MAX_ARFCN_LIST : Z := 128.
Definition NFAPI_MAX_LTE_CELLS_FOUND : Z := 8.
Definition NFAPI_MAX_UTRAN_CELLS_FOUND : Z := 8.
Definition NFAPI_MAX_GSM_CELLS_FOUND : Z := 8.
Definition NFAPI_MAX_NB_IOT_CELLS_FOUND : Z := 8.
Definition NFAPI_MAX_SI_PERIODICITY : Z := 8.
Definition NFAPI_MAX_SI_INDEX : Z := 8.
Definition NFAPI_MAX_MIB_LENGTH : Z := 32.
Definition NFAPI_MAX_SIB_LENGTH : Z := 256.
Definition NFAPI_MAX_SI_LENGTH : Z := 256.
Definition NFAPI_MAX_OPAQUE_DATA : Z := 64.
Definition NFAPI_MAX_RO_DL : Z := 8.
Definition NFAPI_RAT_TYPE_LTE : Z := 0.
Definition NFAPI_RAT_TYPE_UTRAN : Z := 1.
Definition NFAPI_RAT_TYPE_GERAN : Z := 2.
Definition NFAPI_RAT_TYPE_NB_IOT : Z := 3.
Definition NFAPI_LTE_RSSI_REQUEST_TAG : Z := 0x3000.
Definition NFAPI_UTRAN_RSSI_REQUEST_TAG : Z := 0x3001.
Definition NFAPI_GERAN_RSSI_REQUEST_TAG : Z := 0x3002.
Definition NFAPI_NB_IOT_RSSI_REQUEST_TAG : Z := 0x3020.
Definition NFAPI_RSSI_INDICATION_TAG : Z := 0x3003.
Definition NFAPI_LTE_CELL_SEARCH_REQUEST_TAG : Z := 0x3004.
Definition NFAPI_UTRAN_CELL_SEARCH_REQUEST_TAG : Z := 0x3005.
Definition NFAPI_GERAN_CELL_SEARCH_REQUEST_TAG : Z := 0x3006.
Definition NFAPI_NB_IOT_CELL_SEARCH_REQUEST_TAG : Z := 0x3021.
Definition NFAPI_LTE_CELL_SEARCH_INDICATION_TAG : Z := 0x3007.
Definition NFAPI_UTRAN_CELL_SEARCH_INDICATION_TAG : Z := 0x3008.
Definition NFAPI_GERAN_CELL_SEARCH_INDICATION_TAG : Z := 0x3009.
Definition NFAPI_NB_IOT_CELL_SEARCH_INDICATION_TAG : Z := 0x3022.
Definition NFAPI_PNF_CELL_SEARCH_STATE_TAG : Z := 0x300A.
Definition NFAPI_LTE_BROADCAST_DETECT_REQUEST_TAG : Z := 0x300B.
Definition NFAPI_UTRAN_BROADCAST_DETECT_REQUEST_TAG : Z := 0x300C.
Definition NFAPI_NB_IOT_BROADCAST_DETECT_REQUEST_TAG : Z := 0x3023.
Definition NFAPI_LTE_BROADCAST_DETECT_INDICATION_TAG : Z := 0x300E.
Definition NFAPI_UTRAN_BROADCAST_DETECT_INDICATION_TAG : Z := 0x300F.
Definition NFAPI_NB_IOT_BROADCAST_DETECT_INDICATION_TAG : Z := 0x3024.
Definition NFAPI_PNF_CELL_BROADCAST_STATE_TAG : Z := 0x3010.
Definition NFAPI_LTE_SYSTEM_INFORMATION_SCHEDULE_REQUEST_TAG : Z := 0x3011.
Definition NFAPI_NB_IOT_SYSTEM_INFORMATION_SCHEDULE_REQUEST_TAG : Z := 0x3025.
Definition NFAPI_LTE_SYSTEM_INFORMATION_REQUEST_TAG : Z := 0x3014.
Definition NFAPI_UTRAN_SYSTEM_INFORMATION_REQUEST_TAG : Z := 0x3015.
Definition NFAPI_GERAN_SYSTEM_INFORMATION_REQUEST_TAG : Z := 0x3016.
Definition NFAPI_NB_IOT_SYSTEM_INFORMATION_REQUEST_TAG : Z := 0x3027.
Definition NFAPI_LTE_SYSTEM_INFORMATION_INDICATION_TAG : Z := 0x3018.
Definition NFAPI_UTRAN_SYSTEM_INFORMATION_INDICATION_TAG : Z := 0x3019.
Definition NFAPI_GERAN_SYSTEM_INFORMATION_INDICATION_TAG : Z := 0x301a.
Definition NFAPI_NB_IOT_SYSTEM_INFORMATION_INDICATION_TAG : Z := 0x3026.
(* end enum *)

(** [nfapi_nr_interface.h] *)

(* enum: nfapi_nr_interface.h *)
Definition NFAPI_NR_NFAPI_P7_VNF_ADDRESS_IPV4_TAG : Z := 0x0100.
Definition NFAPI_NR_NFAPI_P7_VNF_ADDRESS_IPV6_TAG : Z := 0x0101.
Definition NFAPI_NR_NFAPI_P7_VNF_PORT_TAG : Z := 0x0102.
Definition NFAPI_NR_NFAPI_P7_PNF_ADDRESS_IPV4_TAG : Z := 0x0103.
Definition NFAPI_NR_NFAPI_P7_PNF_ADDRESS_IPV6_TAG : Z := 0x0104.
Definition NFAPI_NR_NFAPI_P7_PNF_PORT_TAG : Z := 0x0105.
Definition NFAPI_NR_NFAPI_TIMING_WINDOW_TAG : Z := 0x011E.
Definition NFAPI_NR_NFAPI_TIMING_INFO_MODE_TAG : Z := 0x011F.
Definition NFAPI_NR_NFAPI_TIMING_INFO_PERIOD_TAG : Z := 0x0120.
(* end enum *)

(** [nfapi_nr_interface_scf.h] *)

(* enum: nfapi_nr_interface_scf.h *)
Definition NFAPI_NR_PARAM_TLV_RELEASE_CAPABILITY_TAG : Z := 0x0001.
Definition NFAPI_NR_PARAM_TLV_PHY_STATE_TAG : Z := 0x0002.
Definition NFAPI_NR_PARAM_TLV_SKIP_BLANK_DL_CONFIG_TAG : Z := 0x0003.
Definition NFAPI_NR_PARAM_TLV_SKIP_BLANK_UL_CONFIG_TAG : Z := 0x0004.
Definition NFAPI_NR_PARAM_TLV_NUM_CONFIG_TLVS_TO_REPORT_TAG : Z := 0x0005.
Definition NFAPI_NR_PARAM_TLV_CYCLIC_PREFIX_TAG : Z := 0x0006.
Definition NFAPI_NR_PARAM_TLV_SUPPORTED_SUBCARRIER_SPACINGS_DL_TAG : Z := 0x0007.
Definition NFAPI_NR_PARAM_TLV_SUPPORTED_BANDWIDTH_DL_TAG : Z := 0x0008.
Definition NFAPI_NR_PARAM_TLV_SUPPORTED_SUBCARRIER_SPACINGS_UL_TAG : Z := 0x0009.
Definition NFAPI_NR_PARAM_TLV_SUPPORTED_BANDWIDTH_UL_TAG : Z := 0x000A.
Definition NFAPI_NR_PARAM_TLV_CCE_MAPPING_TYPE_TAG : Z := 0x000B.
Definition NFAPI_NR_PARAM_TLV_CORESET_OUTSIDE_FIRST_3_OFDM_SYMS_OF_SLOT_TAG : Z := 0x000C.
Definition NFAPI_NR_PARAM_TLV_PRECODER_GRANULARITY_CORESET_TAG : Z := 0x000D.
Definition NFAPI_NR_PARAM_TLV_PDCCH_MU_MIMO_TAG : Z := 0x000E.
Definition NFAPI_NR_PARAM_TLV_PDCCH_PRECODER_CYCLING_TAG : Z := 0x000F.
Definition NFAPI_NR_PARAM_TLV_MAX_PDCCHS_PER_SLOT_TAG : Z := 0x0010.
Definition NFAPI_NR_PARAM_TLV_PUCCH_FORMATS_TAG : Z := 0x0011.
Definition NFAPI_NR_PARAM_TLV_MAX_PUCCHS_PER_SLOT_TAG : Z := 0x0012.
Definition NFAPI_NR_PARAM_TLV_PDSCH_MAPPING_TYPE_TAG : Z := 0x0013.
Definition NFAPI_NR_PARAM_TLV_PDSCH_ALLOCATION_TYPES_TAG : Z := 0x0014.
Definition NFAPI_NR_PARAM_TLV_PDSCH_VRB_TO_PRB_MAPPING_TAG : Z := 0x0015.
Definition NFAPI_NR_PARAM_TLV_PDSCH_CBG_TAG : Z := 0x0016.
Definition NFAPI_NR_PARAM_TLV_PDSCH_DMRS_CONFIG_TYPES_TAG : Z := 0x0017.
Definition NFAPI_NR_PARAM_TLV_PDSCH_DMRS_MAX_LENGTH_TAG : Z := 0x0018.
Definition NFAPI_NR_PARAM_TLV_PDSCH_DMRS_ADDITIONAL_POS_TAG : Z := 0x0019.
Definition NFAPI_NR_PARAM_TLV_MAX_PDSCH_S_YBS_PER_SLOT_TAG : Z := 0x001A.
Definition NFAPI_NR_PARAM_TLV_MAX_NUMBER_MIMO_LAYERS_PDSCH_TAG : Z := 0x001B.
Definition NFAPI_NR_PARAM_TLV_MAX_MU_MIMO_USERS_DL_TAG : Z := 0x001D.
Definition NFAPI_NR_PARAM_TLV_PDSCH_DATA_IN_DMRS_SYMBOLS_TAG : Z := 0x001E.
Definition NFAPI_NR_PARAM_TLV_PREMPTION_SUPPORT_TAG : Z := 0x001F.
Definition NFAPI_NR_PARAM_TLV_PDSCH_NON_SLOT_SUPPORT_TAG : Z := 0x0020.
Definition NFAPI_NR_PARAM_TLV_UCI_MUX_ULSCH_IN_PUSCH_TAG : Z := 0x0021.
Definition NFAPI_NR_PARAM_TLV_UCI_ONLY_PUSCH_TAG : Z := 0x0022.
Definition NFAPI_NR_PARAM_TLV_PUSCH_FREQUENCY_HOPPING_TAG : Z := 0x0023.
Definition NFAPI_NR_PARAM_TLV_PUSCH_DMRS_CONFIG_TYPES_TAG : Z := 0x0024.
Definition NFAPI_NR_PARAM_TLV_PUSCH_DMRS_MAX_LEN_TAG : Z := 0x0025.
Definition NFAPI_NR_PARAM_TLV_PUSCH_DMRS_ADDITIONAL_POS_TAG : Z := 0x0026.
Definition NFAPI_NR_PARAM_TLV_PUSCH_CBG_TAG : Z := 0x0027.
Definition NFAPI_NR_PARAM_TLV_PUSCH_MAPPING_TYPE_TAG : Z := 0x0028.
Definition NFAPI_NR_PARAM_TLV_PUSCH_ALLOCATION_TYPES_TAG : Z := 0x0029.
Definition NFAPI_NR_PARAM_TLV_PUSCH_VRB_TO_PRB_MAPPING_TAG : Z := 0x002A.
Definition NFAPI_NR_PARAM_TLV_PUSCH_MAX_PTRS_PORTS_TAG : Z := 0x002B.
Definition NFAPI_NR_PARAM_TLV_MAX_PDUSCHS_TBS_PER_SLOT_TAG : Z := 0x002C.
Definition NFAPI_NR_PARAM_TLV_MAX_NUMBER_MIMO_LAYERS_NON_CB_PUSCH_TAG : Z := 0x002D.
Definition NFAPI_NR_PARAM_TLV_SUPPORTED_MODULATION_ORDER_UL_TAG : Z := 0x002E.
Definition NFAPI_NR_PARAM_TLV_MAX_MU_MIMO_USERS_UL_TAG : Z := 0x002F.
Definition NFAPI_NR_PARAM_TLV_DFTS_OFDM_SUPPORT_TAG : Z := 0x0030.
Definition NFAPI_NR_PARAM_TLV_PUSCH_AGGREGATION_FACTOR_TAG : Z := 0x0031.
Definition NFAPI_NR_PARAM_TLV_PRACH_LONG_FORMATS_TAG : Z := 0x0032.
Definition NFAPI_NR_PARAM_TLV_PRACH_SHORT_FORMATS_TAG : Z := 0x0033.
Definition NFAPI_NR_PARAM_TLV_PRACH_RESTRICTED_SETS_TAG : Z := 0x0034.
Definition NFAPI_NR_PARAM_TLV_MAX_PRACH_FD_OCCASIONS_IN_A_SLOT_TAG : Z := 0x0035.
Definition NFAPI_NR_PARAM_TLV_RSSI_MEASUREMENT_SUPPORT_TAG : Z := 0x0036.
Definition NFAPI_NR_CONFIG_DL_BANDWIDTH_TAG : Z := 0x1001.
Definition NFAPI_NR_CONFIG_DL_FREQUENCY_TAG : Z := 0x1002.
Definition NFAPI_NR_CONFIG_DL_K0_TAG : Z := 0x1003.
Definition NFAPI_NR_CONFIG_DL_GRID_SIZE_TAG : Z := 0x1004.
Definition NFAPI_NR_CONFIG_NUM_TX_ANT_TAG : Z := 0x1005.
Definition NFAPI_NR_CONFIG_UPLINK_BANDWIDTH_TAG : Z := 0x1006.
Definition NFAPI_NR_CONFIG_UPLINK_FREQUENCY_TAG : Z := 0x1007.
Definition NFAPI_NR_CONFIG_UL_K0_TAG : Z := 0x1008.
Definition NFAPI_NR_CONFIG_UL_GRID_SIZE_TAG : Z := 0x1009.
Definition NFAPI_NR_CONFIG_NUM_RX_ANT_TAG : Z := 0x100A.
Definition NFAPI_NR_CONFIG_FREQUENCY_SHIFT_7P5KHZ_TAG : Z := 0x100B.
Definition NFAPI_NR_CONFIG_PHY_CELL_ID_TAG : Z := 0x100C.
Definition NFAPI_NR_CONFIG_FRAME_DUPLEX_TYPE_TAG : Z := 0x100D.
Definition NFAPI_NR_CONFIG_SS_PBCH_POWER_TAG : Z := 0x100E.
Definition NFAPI_NR_CONFIG_BCH_PAYLOAD_TAG : Z := 0x100F.
Definition NFAPI_NR_CONFIG_SCS_COMMON_TAG : Z := 0x1010.
Definition NFAPI_NR_CONFIG_PRACH_SEQUENCE_LENGTH_TAG : Z := 0x1011.
Definition NFAPI_NR_CONFIG_PRACH_SUB_C_SPACING_TAG : Z := 0x1012.
Definition NFAPI_NR_CONFIG_RESTRICTED_SET_CONFIG_TAG : Z := 0x1013.
Definition NFAPI_NR_CONFIG_NUM_PRACH_FD_OCCASIONS_TAG : Z := 0x1014.
Definition NFAPI_NR_CONFIG_PRACH_CONFIG_INDEX_TAG : Z := 0x1029.
Definition NFAPI_NR_CONFIG_PRACH_ROOT_SEQUENCE_INDEX_TAG : Z := 0x1015.
Definition NFAPI_NR_CONFIG_NUM_ROOT_SEQUENCES_TAG : Z := 0x1016.
Definition NFAPI_NR_CONFIG_K1_TAG : Z := 0x1017.
Definition NFAPI_NR_CONFIG_PRACH_ZERO_CORR_CONF_TAG : Z := 0x1018.
Definition NFAPI_NR_CONFIG_NUM_UNUSED_ROOT_SEQUENCES_TAG : Z := 0x1019.
Definition NFAPI_NR_CONFIG_UNUSED_ROOT_SEQUENCES_TAG : Z := 0x101A.
Definition NFAPI_NR_CONFIG_SSB_PER_RACH_TAG : Z := 0x101B.
Definition NFAPI_NR_CONFIG_PRACH_MULTIPLE_CARRIERS_IN_A_BAND_TAG : Z := 0x101C.
Definition NFAPI_NR_CONFIG_SSB_OFFSET_POINT_A_TAG : Z := 0x101D.
Definition NFAPI_NR_CONFIG_BETA_PSS_TAG : Z := 0x101E.
Definition NFAPI_NR_CONFIG_SSB_PERIOD_TAG : Z := 0x101F.
Definition NFAPI_NR_CONFIG_SSB_SUBCARRIER_OFFSET_TAG : Z := 0x1020.
Definition NFAPI_NR_CONFIG_MIB_TAG : Z := 0x1021.
Definition NFAPI_NR_CONFIG_SSB_MASK_TAG : Z := 0x1022.
Definition NFAPI_NR_CONFIG_BEAM_ID_TAG : Z := 0x1023.
Definition NFAPI_NR_CONFIG_SS_PBCH_MULTIPLE_CARRIERS_IN_A_BAND_TAG : Z := 0x1024.
Definition NFAPI_NR_CONFIG_MULTIPLE_CELLS_SS_PBCH_IN_A_CARRIER_TAG : Z := 0x1025.
Definition NFAPI_NR_CONFIG_TDD_PERIOD_TAG : Z := 0x1026.
Definition NFAPI_NR_CONFIG_SLOT_CONFIG_TAG : Z := 0x1027.
Definition NFAPI_NR_CONFIG_RSSI_MEASUREMENT_TAG : Z := 0x1028.
(* end enum *)
