(* ===== verification/Queue.v ===== *)
(** * The bounded ring queue of [src/queue.c]

    [queue_t] is the thread-safe fixed-size queue between the threads that
    receive UE messages and the subframe/slot task.  The model keeps the C
    representation (an array of [MAX_QUEUE_SIZE] pointers, a read and a write
    index, a count); a pointer is a [V], the null pointer is [None].  Each
    operation takes the outcome of [pthread_mutex_lock] as its first argument
    and returns [None] exactly when one of the [assert]s of the code aborts. *)

From S2P Require Import Prelude.

Open Scope nat_scope.

(* src: queue.h 53-53 MAX_QUEUE_SIZE *)
Definition MAX_QUEUE_SIZE : nat := 512.
Lemma MAX_QUEUE_SIZE_eq : MAX_QUEUE_SIZE = 512. Proof. done. Qed.
#[local] Opaque MAX_QUEUE_SIZE.

(** ** The representation and its operations *)

Section ring.
Context {V : Type}.

(* src: queue.h 55-61 queue_t *)
Record queue_t := Queue {
  items : list (option V);
  read_index : nat;
  write_index : nat;
  num_items : nat;
}.

(* src: queue.c :: init_queue *)
Definition init_queue : queue_t := Queue (replicate MAX_QUEUE_SIZE None) 0 0 0.

(** [q->items[i]]; the indices are always below [MAX_QUEUE_SIZE]. *)
Definition item_at (q : queue_t) (i : nat) : option V := mjoin (items q !! i).

(* src: queue.c :: put_queue *)
Definition put_queue (locked : bool) (q : queue_t) (item : V) : option (bool * queue_t) :=
  if negb locked then Some (false, q)
  else if MAX_QUEUE_SIZE <=? num_items q then Some (false, q)
  else match item_at q (write_index q) with
    | Some _ => None
    | None =>
        Some (true, Queue (<[write_index q := Some item]> (items q))
                          (read_index q)
                          ((write_index q + 1) mod MAX_QUEUE_SIZE)
                          (num_items q + 1))
    end.

(* src: queue.c :: get_queue *)
Definition get_queue (locked : bool) (q : queue_t) : option (option V * queue_t) :=
  if negb locked then Some (None, q)
  else if 0 <? num_items q then
    match item_at q (read_index q) with
    | None => None
    | Some item =>
        Some (Some item, Queue (<[read_index q := None]> (items q))
                               ((read_index q + 1) mod MAX_QUEUE_SIZE)
                               (write_index q)
                               (num_items q - 1))
    end
  else Some (None, q).

(* src: queue.c :: requeue *)
Definition requeue (locked : bool) (q : queue_t) (item : V) : option (bool * queue_t) :=
  if negb locked then Some (false, q)
  else if MAX_QUEUE_SIZE <=? num_items q then Some (false, q)
  else
    let r := (read_index q + MAX_QUEUE_SIZE - 1) mod MAX_QUEUE_SIZE in
    match item_at q r with
    | Some _ => None
    | None => Some (true, Queue (<[r := Some item]> (items q)) r
                                (write_index q) (num_items q + 1))
    end.

(* src: queue.c :: unqueue *)
Definition unqueue (locked : bool) (q : queue_t) : option V * queue_t :=
  if negb locked then (None, q)
  else if 0 <? num_items q then
    let w := (write_index q + MAX_QUEUE_SIZE - 1) mod MAX_QUEUE_SIZE in
    (item_at q w, Queue (<[w := None]> (items q)) (read_index q) w (num_items q - 1))
  else (None, q).

(** The inner [for (;;)] of [unqueue_matching]: move the items that follow
    [endi] down by one.  [None] when the fuel runs out. *)
(* src: queue.c 160-172 unqueue_matching_shift *)
Fixpoint shift_down (fuel : nat) (q : queue_t) (endi : nat) : option queue_t :=
  match fuel with
  | 0 => None
  | S fuel =>
      let j := (endi + 1) mod MAX_QUEUE_SIZE in
      if j =? write_index q then
        Some (Queue (<[endi := None]> (items q)) (read_index q) endi (num_items q - 1))
      else
        shift_down fuel
          (Queue (<[endi := item_at q j]> (items q)) (read_index q)
                 (write_index q) (num_items q)) j
  end.

(** The outer loop; [i] counts up to [num_items].  The matcher sees the
    candidate as the pointer stored in the cell. *)
(* src: queue.c 145-175 unqueue_matching_loop *)
Fixpoint match_loop (matcher : option V -> bool) (q : queue_t)
    (todo max_depth endi : nat) : option (option V * queue_t) :=
  match todo with
  | 0 => Some (None, q)
  | S todo =>
      match max_depth with
      | 0 => Some (None, q)
      | S max_depth =>
          let endi := (endi + MAX_QUEUE_SIZE - 1) mod MAX_QUEUE_SIZE in
          let candidate := item_at q endi in
          if matcher candidate then
            q' ← shift_down MAX_QUEUE_SIZE q endi; Some (candidate, q')
          else match_loop matcher q todo max_depth endi
      end
  end.

(* src: queue.c :: unqueue_matching *)
Definition unqueue_matching (locked : bool) (q : queue_t) (max_depth : nat)
    (matcher : option V -> bool) : option (option V * queue_t) :=
  if negb locked then Some (None, q)
  else match_loop matcher q (num_items q) max_depth (write_index q).

End ring.
Arguments queue_t : clear implicits.

(** ** The abstract queue: a list of at most [MAX_QUEUE_SIZE] items *)

Section spec.
Context {V : Type}.

(** Index of the last of the first [k] items that satisfies [f], looking at
    [d] items at most. *)
Fixpoint last_match (f : option V -> bool) (d k : nat) (l : list V) : option nat :=
  match k, d with
  | S k, S d => if f (l !! k) then Some k else last_match f d k l
  | _, _ => None
  end.

Lemma last_match_Some f d k (l : list V) j :
  last_match f d k l = Some j ->
  j < k /\ k - d <= j /\ f (l !! j) = true /\ forall i, j < i < k -> f (l !! i) = false.
Proof.
  revert d. induction k as [|k IH]; intros [|d]; simpl; try done.
  destruct (f (l !! k)) eqn:E; [intros [= <-]; repeat split; try lia; done|].
  intros (?&?&?&Hall)%IH. repeat split; try lia; [done|].
  intros i Hi. destruct (decide (i = k)) as [->|]; [done|]. apply Hall. lia.
Qed.

Lemma last_match_None f d k (l : list V) :
  last_match f d k l = None -> forall j, k - d <= j < k -> f (l !! j) = false.
Proof.
  revert d. induction k as [|k IH]; intros [|d]; simpl; try lia.
  destruct (f (l !! k)) eqn:E; [done|]. intros H j Hj.
  destruct (decide (j = k)) as [->|]; [done|]. apply (IH d); [done|lia].
Qed.

End spec.

(** A queue implementation [Q] with its operations, the list each state stands
    for, and the laws the rest of the proxy relies on. *)
Class BoundedDeque (Q V : Type) := {
  dq_repr : Q -> list V -> Prop;
  dq_put : Q -> V -> option (bool * Q);
  dq_get : Q -> option (option V * Q);
  dq_requeue : Q -> V -> option (bool * Q);
  dq_size_bound q l : dq_repr q l -> length l <= MAX_QUEUE_SIZE;
  dq_put_room q l x : dq_repr q l -> length l < MAX_QUEUE_SIZE ->
    exists q', dq_put q x = Some (true, q') /\ dq_repr q' (l ++ [x]);
  dq_put_full q l x : dq_repr q l -> length l = MAX_QUEUE_SIZE -> dq_put q x = Some (false, q);
  dq_get_nil q : dq_repr q [] -> dq_get q = Some (None, q);
  dq_get_cons q x l : dq_repr q (x :: l) ->
    exists q', dq_get q = Some (Some x, q') /\ dq_repr q' l;
  dq_requeue_room q l x : dq_repr q l -> length l < MAX_QUEUE_SIZE ->
    exists q', dq_requeue q x = Some (true, q') /\ dq_repr q' (x :: l);
  dq_requeue_full q l x : dq_repr q l -> length l = MAX_QUEUE_SIZE ->
    dq_requeue q x = Some (false, q);
}.

(** ** The ring represents a list *)

Section refinement.
Context {V : Type}.
Implicit Types (q : queue_t V) (l : list V).

(** Cell [read_index + i] (modulo the size) holds item [i] of the list, and
    the null pointer when the list has no item [i]. *)
Record ring_repr q l : Prop := {
  rr_len : length (items q) = MAX_QUEUE_SIZE;
  rr_read : read_index q < MAX_QUEUE_SIZE;
  rr_write : write_index q = (read_index q + length l) mod MAX_QUEUE_SIZE;
  rr_num : num_items q = length l;
  rr_bound : length l <= MAX_QUEUE_SIZE;
  rr_cells i : i < MAX_QUEUE_SIZE ->
    items q !! ((read_index q + i) mod MAX_QUEUE_SIZE) = Some (l !! i);
}.

Ltac ring_lia := pose proof MAX_QUEUE_SIZE_eq; simplify_eq; rewrite ?MAX_QUEUE_SIZE_eq in *; lia.

Lemma ring_cell q l i :
  ring_repr q l -> i < MAX_QUEUE_SIZE ->
  item_at q ((read_index q + i) mod MAX_QUEUE_SIZE) = l !! i.
Proof. intros H Hi. unfold item_at. by rewrite (rr_cells q l H). Qed.

(** Storing at logical position [k]. *)
Lemma ring_store (its : list (option V)) r k i v :
  length its = MAX_QUEUE_SIZE -> k < MAX_QUEUE_SIZE -> i < MAX_QUEUE_SIZE ->
  <[(r + k) mod MAX_QUEUE_SIZE := v]> its !! ((r + i) mod MAX_QUEUE_SIZE) =
  if decide (i = k) then Some v else its !! ((r + i) mod MAX_QUEUE_SIZE).
Proof.
  intros Hl Hk Hi. case_decide as Hd; [subst i|].
  - apply list_lookup_insert_eq. rewrite Hl. ring_lia.
  - apply list_lookup_insert_ne. ring_lia.
Qed.

Lemma init_queue_repr : ring_repr init_queue [].
Proof.
  split; cbn [init_queue items read_index write_index num_items length].
  - apply length_replicate.
  - ring_lia.
  - done.
  - done.
  - ring_lia.
  - intros i Hi. apply lookup_replicate. split; [done|ring_lia].
Qed.

(** Rebuilds [ring_repr]; [tac] proves the cells. *)
Ltac ring_split H :=
  destruct H as [Hlen Hread Hwrite Hnum Hbound Hcells];
  cbn [length] in *;
  split; simpl; rewrite ?length_insert; try ring_lia; simpl_list; simpl; try ring_lia.

Lemma put_queue_room q l x :
  ring_repr q l -> length l < MAX_QUEUE_SIZE ->
  exists q', put_queue true q x = Some (true, q') /\ ring_repr q' (l ++ [x]).
Proof.
  intros H Hl. unfold put_queue; simpl. rewrite (rr_num q l H).
  destruct (Nat.leb_spec MAX_QUEUE_SIZE (length l)); [lia|].
  rewrite (rr_write q l H), (ring_cell q l _ H), lookup_ge_None_2 by lia.
  eexists; split; [done|]. ring_split H. intros i Hi.
  rewrite (ring_store (items q) (read_index q) (length l)) by lia.
  case_decide; [subst i; by rewrite list_lookup_middle|].
  rewrite Hcells by done. f_equal. destruct (decide (i < length l)).
  - by rewrite lookup_app_l.
  - rewrite !lookup_ge_None_2; [done|simpl_list; simpl; lia|lia].
Qed.

Lemma put_queue_full q l x :
  ring_repr q l -> length l = MAX_QUEUE_SIZE -> put_queue true q x = Some (false, q).
Proof.
  intros H Hl. unfold put_queue; simpl. rewrite (rr_num q l H), Hl.
  by destruct (Nat.leb_spec MAX_QUEUE_SIZE MAX_QUEUE_SIZE); [|lia].
Qed.

Lemma get_queue_nil q : ring_repr q [] -> get_queue true q = Some (None, q).
Proof. intros H. unfold get_queue; simpl. by rewrite (rr_num q [] H). Qed.

Lemma get_queue_cons q x l :
  ring_repr q (x :: l) ->
  exists q', get_queue true q = Some (Some x, q') /\ ring_repr q' l.
Proof.
  intros H. unfold get_queue; simpl. rewrite (rr_num q _ H); simpl.
  pose proof (ring_cell q _ 0 H ltac:(ring_lia)) as H0.
  rewrite Nat.add_0_r, Nat.mod_small in H0 by apply (rr_read q _ H).
  rewrite H0; simpl. eexists; split; [done|]. ring_split H. intros i Hi.
  replace (((read_index q + 1) mod MAX_QUEUE_SIZE + i) mod MAX_QUEUE_SIZE)
    with ((read_index q + (i + 1) mod MAX_QUEUE_SIZE) mod MAX_QUEUE_SIZE) by ring_lia.
  replace (<[read_index q := None]> (items q))
    with (<[(read_index q + 0) mod MAX_QUEUE_SIZE := None]> (items q))
    by (f_equal; ring_lia).
  rewrite ring_store by ring_lia. case_decide as Hd.
  - simpl in Hbound. rewrite lookup_ge_None_2; [done|ring_lia].
  - rewrite Hcells, Nat.mod_small by ring_lia. f_equal. by rewrite Nat.add_1_r.
Qed.

Lemma requeue_room q l x :
  ring_repr q l -> length l < MAX_QUEUE_SIZE ->
  exists q', requeue true q x = Some (true, q') /\ ring_repr q' (x :: l).
Proof.
  intros H Hl. unfold requeue; simpl. rewrite (rr_num q l H).
  destruct (Nat.leb_spec MAX_QUEUE_SIZE (length l)); [lia|].
  replace (read_index q + MAX_QUEUE_SIZE - 1) with (read_index q + (MAX_QUEUE_SIZE - 1))
    by ring_lia.
  rewrite (ring_cell q l _ H), lookup_ge_None_2 by ring_lia.
  eexists; split; [done|]. ring_split H. intros i Hi.
  replace (((read_index q + (MAX_QUEUE_SIZE - 1)) mod MAX_QUEUE_SIZE + i) mod MAX_QUEUE_SIZE)
    with ((read_index q + (MAX_QUEUE_SIZE - 1 + i) mod MAX_QUEUE_SIZE) mod MAX_QUEUE_SIZE)
    by ring_lia.
  rewrite ring_store by ring_lia. case_decide as Hd.
  - by replace i with 0 by ring_lia.
  - rewrite Hcells by ring_lia. f_equal. destruct i as [|i]; [ring_lia|].
    simpl. f_equal. ring_lia.
Qed.

Lemma requeue_full q l x :
  ring_repr q l -> length l = MAX_QUEUE_SIZE -> requeue true q x = Some (false, q).
Proof.
  intros H Hl. unfold requeue; simpl. rewrite (rr_num q l H), Hl.
  by destruct (Nat.leb_spec MAX_QUEUE_SIZE MAX_QUEUE_SIZE); [|lia].
Qed.

(** Clearing the last cell, as both [unqueue] and [shift_down] do. *)
Lemma ring_drop_last q l x :
  ring_repr q (l ++ [x]) ->
  ring_repr (Queue (<[(read_index q + length l) mod MAX_QUEUE_SIZE := None]> (items q))
               (read_index q) ((read_index q + length l) mod MAX_QUEUE_SIZE)
               (num_items q - 1)) l.
Proof.
  intros H. ring_split H; rewrite length_app in *; simpl in *; try ring_lia. intros i Hi.
  rewrite ring_store by ring_lia. case_decide.
  - subst i. by rewrite lookup_ge_None_2.
  - rewrite Hcells by done. f_equal. destruct (decide (i < length l)).
    + by rewrite lookup_app_l.
    + rewrite !lookup_ge_None_2; [done|lia|simpl_list; simpl; lia].
Qed.

Lemma unqueue_nil q : ring_repr q [] -> unqueue true q = (None, q).
Proof. intros H. unfold unqueue; simpl. by rewrite (rr_num q [] H). Qed.

Lemma unqueue_snoc q l x :
  ring_repr q (l ++ [x]) ->
  exists q', unqueue true q = (Some x, q') /\ ring_repr q' l.
Proof.
  intros H. unfold unqueue; simpl.
  pose proof (rr_num q _ H) as Hn. pose proof (rr_bound q _ H) as Hb.
  pose proof (rr_write q _ H) as Hw. pose proof (rr_read q _ H) as Hr.
  rewrite length_app in *; simpl in *.
  destruct (Nat.ltb_spec 0 (num_items q)); [|lia].
  replace ((write_index q + MAX_QUEUE_SIZE - 1) mod MAX_QUEUE_SIZE)
    with ((read_index q + length l) mod MAX_QUEUE_SIZE) by ring_lia.
  rewrite (ring_cell q _ _ H), list_lookup_middle by (done || ring_lia).
  eexists; split; [done|]. by eapply ring_drop_last.
Qed.

(** Overwriting item [k] by the item that follows it. *)
Lemma ring_overwrite q l k y :
  ring_repr q l -> k < length l ->
  ring_repr (Queue (<[(read_index q + k) mod MAX_QUEUE_SIZE := Some y]> (items q))
               (read_index q) (write_index q) (num_items q)) (<[k := y]> l).
Proof.
  intros H Hk. ring_split H. intros i Hi. rewrite ring_store by ring_lia. case_decide.
  - subst i. by rewrite list_lookup_insert_eq.
  - rewrite Hcells by done. f_equal. by rewrite list_lookup_insert_ne.
Qed.

Lemma delete_overwrite (l : list V) k y :
  l !! (k + 1) = Some y -> delete (k + 1) (<[k := y]> l) = delete k l.
Proof.
  revert k. induction l as [|a l IH]; intros [|k]; simpl; try done.
  - destruct l; simpl; [done|]. by intros [= ->].
  - intros H. f_equal. by apply IH.
Qed.

Lemma shift_down_repr fuel q l k :
  ring_repr q l -> k < length l -> length l - k <= fuel ->
  exists q', shift_down fuel q ((read_index q + k) mod MAX_QUEUE_SIZE) = Some q' /\
    ring_repr q' (delete k l).
Proof.
  revert q l k. induction fuel as [|fuel IH]; intros q l k H Hk Hf; [lia|]. simpl.
  pose proof (rr_bound q l H) as Hb. pose proof (rr_write q l H) as Hw.
  replace (((read_index q + k) mod MAX_QUEUE_SIZE + 1) mod MAX_QUEUE_SIZE)
    with ((read_index q + (k + 1)) mod MAX_QUEUE_SIZE) by ring_lia.
  case (Nat.eqb_spec ((read_index q + (k + 1)) mod MAX_QUEUE_SIZE) (write_index q)); intros Hj.
  - assert (length l = k + 1) as Hk1 by ring_lia.
    destruct l as [|x l _] using rev_ind; [simpl in *; lia|].
    rewrite length_app in Hk1; simpl in Hk1. assert (k = length l) as -> by lia.
    eexists; split; [done|]. rewrite delete_middle, app_nil_r. by eapply ring_drop_last.
  - assert (k + 1 < length l) as Hk1.
    { destruct (decide (k + 1 = length l)); [|lia]. exfalso. apply Hj. rewrite Hw. f_equal. lia. }
    destruct (lookup_lt_is_Some_2 l (k + 1) Hk1) as [y Hy].
    rewrite (ring_cell q l _ H) by ring_lia. rewrite Hy.
    pose proof (ring_overwrite q l k y H Hk) as H'.
    destruct (IH _ _ (k + 1) H') as (q' & Hs & Hr); [rewrite length_insert; lia..|].
    exists q'. split; [exact Hs|]. by rewrite delete_overwrite in Hr.
Qed.

Lemma match_loop_repr f q l d k :
  ring_repr q l -> k <= length l ->
  exists q', match_loop f q k d ((read_index q + k) mod MAX_QUEUE_SIZE) =
      Some (last_match f d k l ≫= (fun j => l !! j), q') /\
    ring_repr q' (from_option (fun j => delete j l) l (last_match f d k l)).
Proof.
  intros H. pose proof (rr_bound q l H) as Hb. revert d. induction k as [|k IH]; intros [|d] Hk;
    simpl; try by eexists; split; [done|].
  replace (((read_index q + S k) mod MAX_QUEUE_SIZE + MAX_QUEUE_SIZE - 1) mod MAX_QUEUE_SIZE)
    with ((read_index q + k) mod MAX_QUEUE_SIZE) by ring_lia.
  rewrite (ring_cell q l _ H) by lia.
  destruct (f (l !! k)) eqn:E; [|apply IH; lia].
  destruct (shift_down_repr MAX_QUEUE_SIZE q l k H) as (q' & Hs & Hr); [lia..|].
  rewrite Hs. by exists q'.
Qed.

Lemma unqueue_matching_repr f d q l :
  ring_repr q l ->
  exists q', unqueue_matching true q d f =
      Some (last_match f d (length l) l ≫= (fun j => l !! j), q') /\
    ring_repr q' (from_option (fun j => delete j l) l (last_match f d (length l) l)).
Proof.
  intros H. unfold unqueue_matching; simpl.
  rewrite (rr_num q l H), (rr_write q l H). by apply match_loop_repr.
Qed.

#[export] Instance ring_deque : BoundedDeque (queue_t V) V := {|
  dq_repr := ring_repr;
  dq_put := put_queue true;
  dq_get := get_queue true;
  dq_requeue := requeue true;
  dq_size_bound := rr_bound;
  dq_put_room := put_queue_room;
  dq_put_full := put_queue_full;
  dq_get_nil := get_queue_nil;
  dq_get_cons := get_queue_cons;
  dq_requeue_room := requeue_room;
  dq_requeue_full := requeue_full;
|}.

End refinement.

(** ** Runs of operations *)

Section runs.
Context {V : Type}.

Inductive queue_op :=
  | OpPut (x : V)
  | OpGet
  | OpRequeue (x : V)
  | OpUnqueue
  | OpUnqueueMatching (max_depth : nat) (matcher : option V -> bool).

Inductive queue_res :=
  | RBool (b : bool)
  | RItem (item : option V).

(** One call on the C representation. *)
Definition ring_exec (q : queue_t V) (op : queue_op) : option (queue_res * queue_t V) :=
  match op with
  | OpPut x => '(b, q') ← put_queue true q x; Some (RBool b, q')
  | OpGet => '(i, q') ← get_queue true q; Some (RItem i, q')
  | OpRequeue x => '(b, q') ← requeue true q x; Some (RBool b, q')
  | OpUnqueue => let '(i, q') := unqueue true q in Some (RItem i, q')
  | OpUnqueueMatching d f => '(i, q') ← unqueue_matching true q d f; Some (RItem i, q')
  end.

(** The same call on the abstract list, head first. *)
Definition list_exec (l : list V) (op : queue_op) : queue_res * list V :=
  match op with
  | OpPut x => if MAX_QUEUE_SIZE <=? length l then (RBool false, l) else (RBool true, l ++ [x])
  | OpGet => match l with [] => (RItem None, []) | x :: l => (RItem (Some x), l) end
  | OpRequeue x =>
      if MAX_QUEUE_SIZE <=? length l then (RBool false, l) else (RBool true, x :: l)
  | OpUnqueue => (RItem (last l), take (length l - 1) l)
  | OpUnqueueMatching d f =>
      match last_match f d (length l) l with
      | None => (RItem None, l)
      | Some j => (RItem (l !! j), delete j l)
      end
  end.

Fixpoint ring_run (q : queue_t V) (ops : list queue_op) : option (list queue_res * queue_t V) :=
  match ops with
  | [] => Some ([], q)
  | op :: ops =>
      '(r, q) ← ring_exec q op;
      '(rs, q) ← ring_run q ops;
      Some (r :: rs, q)
  end.

Fixpoint list_run (l : list V) (ops : list queue_op) : list queue_res * list V :=
  match ops with
  | [] => ([], l)
  | op :: ops =>
      let '(r, l) := list_exec l op in
      let '(rs, l) := list_run l ops in
      (r :: rs, l)
  end.

Lemma ring_exec_sim q l op :
  ring_repr q l ->
  exists q', ring_exec q op = Some (fst (list_exec l op), q') /\
    ring_repr q' (snd (list_exec l op)).
Proof.
  intros H. pose proof (rr_bound q l H) as Hb. destruct op as [x| |x| |d f]; simpl.
  - destruct (Nat.leb_spec MAX_QUEUE_SIZE (length l)).
    + rewrite (put_queue_full q l x H) by lia. by exists q.
    + destruct (put_queue_room q l x H) as (q' & -> & ?); [lia|]. by exists q'.
  - destruct l as [|x l].
    + rewrite (get_queue_nil q H). by exists q.
    + destruct (get_queue_cons q x l H) as (q' & -> & ?). by exists q'.
  - destruct (Nat.leb_spec MAX_QUEUE_SIZE (length l)).
    + rewrite (requeue_full q l x H) by lia. by exists q.
    + destruct (requeue_room q l x H) as (q' & -> & ?); [lia|]. by exists q'.
  - destruct l as [|x l _] using rev_ind.
    + rewrite (unqueue_nil q H). by exists q.
    + destruct (unqueue_snoc q l x H) as (q' & -> & ?). exists q'.
      rewrite last_snoc, length_app, Nat.add_sub; simpl. by rewrite take_app_length.
  - destruct (unqueue_matching_repr f d q l H) as (q' & -> & ?). exists q'.
    by destruct (last_match f d (length l) l).
Qed.

Lemma ring_run_sim q l ops :
  ring_repr q l ->
  exists q', ring_run q ops = Some (fst (list_run l ops), q') /\
    ring_repr q' (snd (list_run l ops)).
Proof.
  revert q l. induction ops as [|op ops IH]; intros q l H; simpl; [by exists q|].
  destruct (ring_exec_sim q l op H) as (q1 & -> & H1).
  destruct (list_exec l op) as [r l1]; simpl in *.
  destruct (IH _ _ H1) as (q2 & -> & H2). exists q2.
  by destruct (list_run l1 ops).
Qed.

(** C28. Whatever sequence of [put_queue], [get_queue], [requeue], [unqueue] and
    [unqueue_matching] calls is made on a freshly initialised ring queue, no
    assertion of the code fails, every call returns what the same call on a
    bounded list returns, and the ring ends up representing that list. *)
Theorem queue_refines_bounded_list (ops : list queue_op) :
  exists q', ring_run init_queue ops = Some (fst (list_run [] ops), q') /\
    ring_repr q' (snd (list_run [] ops)).
Proof. apply ring_run_sim, init_queue_repr. Qed.

(** [unqueue_matching] on a ring representing [l] removes the most recent
    item accepted by the matcher among the last [max_depth] items and returns
    it, keeping all other items in order; when it returns NULL no item in that
    range matches and the ring is unchanged as a list. *)
Theorem unqueue_matching_most_recent (q : queue_t V) (l : list V) (d : nat) (f : option V -> bool) :
  ring_repr q l ->
  exists item q', unqueue_matching true q d f = Some (item, q') /\
    ((exists j x, l !! j = Some x /\ item = Some x /\ length l - d <= j /\ f (Some x) = true /\
        (forall i, j < i < length l -> f (l !! i) = false) /\ ring_repr q' (delete j l)) \/
     (item = None /\ (forall i, length l - d <= i < length l -> f (l !! i) = false) /\
        ring_repr q' l)).
Proof.
  intros H. destruct (unqueue_matching_repr f d q l H) as (q' & He & Hr).
  destruct (last_match f d (length l) l) as [j|] eqn:E; simpl in *.
  - apply last_match_Some in E as (Hj & Hd & Hf & Hall).
    destruct (lookup_lt_is_Some_2 l j Hj) as [x Hx]. rewrite Hx in *.
    exists (Some x), q'. split; [done|]. left. by exists j, x.
  - exists None, q'. split; [done|]. right. split; [done|]. split; [|done].
    by apply last_match_None.
Qed.

End runs.

Section examples.

(** C2 at a concrete queue holding 1, 2, 3: looking two items deep for an item
    below 3 finds 2. *)
Lemma unqueue_matching_most_recent_witness :
  exists q item q', ring_repr q [1; 2; 3] /\
    unqueue_matching true q 2 (fun o => match o with Some n => n <? 3 | None => false end)
      = Some (item, q').
Proof.
  destruct (ring_run_sim _ _ [OpPut 1; OpPut 2; OpPut 3] init_queue_repr) as (q & _ & Hq).
  change (ring_repr q [1; 2; 3]) in Hq.
  destruct (unqueue_matching_most_recent q [1; 2; 3] 2
    (fun o => match o with Some n => n <? 3 | None => false end) Hq) as (item & q' & He & _).
  exists q, item, q'. split; [exact Hq | exact He].
Defined.

End examples.
