(* ===== verification/Codec.v ===== *)
(** * The push/pull primitives and TLV machinery of [open-nFAPI/nfapi/src/nfapi.c]

    Writing.  A C packer gets [uint8_t **out, uint8_t *end], stores bytes from
    [*out] on, advances [*out] and returns a non-zero value, or returns 0.  The
    model keeps the bytes stored so far and the distance [end - *out]; bytes
    behind [*out] are never read, so they are not part of the state.  The
    distance is a [Z]: padding in [pack_nr_tlv] is written with no bounds
    check, so [*out] can pass [end].

    Reading.  A C unpacker gets [uint8_t **in, uint8_t *end].  The model keeps
    the bytes between [*in] and [end]; [None] is the return value 0, after
    which every caller gives up.  A failing [pull] leaves [*in] alone. *)

From S2P Require Import Prelude.

(** ** Packers *)

Record wbuf := Wbuf { w_out : list Z; w_room : Z }.

Definition packer := wbuf -> Z * wbuf.

(** Store the bytes [bs] and advance the pointer. *)
Definition wapp (w : wbuf) (bs : list Z) : wbuf :=
  Wbuf (w_out w ++ bs) (w_room w - zlen bs).

(** The value 1 with no effect, e.g. [return 1]. *)
Definition pack_ok : packer := fun w => (1, w).
Definition pack_fail : packer := fun w => (0, w).

(** C's [p && q] on two packer calls. *)
Definition pack_and (p q : packer) : packer := fun w =>
  let '(r, w1) := p w in
  if r =? 0 then (0, w1)
  else let '(r2, w2) := q w1 in (b2z (negb (r2 =? 0)), w2).

(** Statement sequence [if(!p) return 0; return q;]. *)
Definition pack_then (p q : packer) : packer := fun w =>
  let '(r, w1) := p w in
  if r =? 0 then (0, w1) else q w1.

(** A function of return type [uint8_t] that returns the value of [p]. *)
Definition ret_u8 (p : packer) : packer := fun w => let '(r, w1) := p w in (u8 r, w1).

Declare Scope pack_scope.
Delimit Scope pack_scope with pack.
Infix "&*" := pack_and (at level 41, right associativity) : pack_scope.
Open Scope pack_scope.

(* src: nfapi.c :: push8 *)
Definition push8 (v : Z) : packer := fun w =>
  let v := u8 v in
  if 1 <=? w_room w then (1, wapp w [v]) else (0, w).

(* src: nfapi.c :: pushs8 *)
Definition pushs8 (v : Z) : packer := fun w =>
  let v := s8 v in
  if 1 <=? w_room w then (1, wapp w [u8 v]) else (0, w).

(* src: nfapi.c :: push16 *)
Definition push16 (v : Z) : packer := fun w =>
  let v := u16 v in
  if 2 <=? w_room w then
    (2, wapp w [u8 (Z.shiftr (Z.land v 0xFF00) 8); u8 (Z.land v 0xFF)])
  else (0, w).

(* src: nfapi.c :: pushs16 *)
Definition pushs16 (v : Z) : packer := fun w =>
  let v := s16 v in
  if 2 <=? w_room w then
    (2, wapp w [u8 (Z.shiftr (Z.land v 0xFF00) 8); u8 (Z.land v 0xFF)])
  else (0, w).

(* src: nfapi.c :: push32 *)
Definition push32 (v : Z) : packer := fun w =>
  let v := u32 v in
  if 4 <=? w_room w then
    (4, wapp w [u8 (Z.shiftr (Z.land v 0xFF000000) 24);
                u8 (Z.shiftr (Z.land v 0xFF0000) 16);
                u8 (Z.shiftr (Z.land v 0xFF00) 8);
                u8 (Z.land v 0xFF)])
  else (0, w).

(* src: nfapi.c :: pushs32 *)
Definition pushs32 (v : Z) : packer := fun w =>
  let v := s32 v in
  if 4 <=? w_room w then
    (4, wapp w [u8 (Z.shiftr (Z.land v 0xFF000000) 24);
                u8 (Z.shiftr (Z.land v 0xFF0000) 16);
                u8 (Z.shiftr (Z.land v 0xFF00) 8);
                u8 (Z.land v 0xFF)])
  else (0, w).

(** The loop of the array functions: the element packer on each element in
    turn, 0 at the first failure. *)
Fixpoint pack_elems {A} (fn : A -> packer) (l : list A) : packer := fun w =>
  match l with
  | [] => (1, w)
  | x :: l =>
      let '(r, w1) := fn x w in
      if r =? 0 then (0, w1) else pack_elems fn l w1
  end.

(** The shape common to the [pusharray] functions.  An array argument is the
    list of its elements; [len] may exceed the list only where the C code
    would read past the array, which no caller of the model does.  The space
    test compares a [ptrdiff_t] with a [size_t], hence as unsigned 64-bit
    values. *)
Definition pusharray_gen (size : Z) (push : Z -> packer) (arr : list Z)
    (max_len len : Z) : packer := fun w =>
  if len =? 0 then (1, w)
  else if max_len <? len then (0, w)
  else if size * len <=? u64 (w_room w) then
    let '(r, w1) := pack_elems push (take (Z.to_nat len) arr) w in
    if r =? 0 then (0, w1) else (u32 (size * len), w1)
  else (0, w).

(* src: nfapi.c :: pusharray16 *)
Definition pusharray16 := pusharray_gen 2 push16.
(* src: nfapi.c :: pusharrays16 *)
Definition pusharrays16 := pusharray_gen 2 pushs16.
(* src: nfapi.c :: pusharray32 *)
Definition pusharray32 := pusharray_gen 4 push32.
(* src: nfapi.c :: pusharrays32 *)
Definition pusharrays32 := pusharray_gen 4 pushs32.

(** [pusharray8] copies with [memcpy] instead of looping. *)
(* src: nfapi.c :: pusharray8 *)
Definition pusharray8 (arr : list Z) (max_len len : Z) : packer := fun w =>
  if len =? 0 then (1, w)
  else if max_len <? len then (0, w)
  else if len <=? u64 (w_room w) then
    (u32 len, wapp w (u8 <$> take (Z.to_nat len) arr))
  else (0, w).

(** [packarray]: the element packer on the first [count] elements. *)
(* src: nfapi.c :: packarray *)
Definition packarray {A} (arr : list A) (max_count count : Z) (fn : A -> packer) : packer := fun w =>
  if max_count <? count then (0, w)
  else pack_elems fn (take (Z.to_nat count) arr) w.

(** ** Unpackers *)

Definition reader (A : Type) := list Z -> option (A * list Z).

#[export] Instance reader_ret : MRet reader := fun A x l => Some (x, l).
#[export] Instance reader_bind : MBind reader := fun A B f r l =>
  match r l with None => None | Some (x, l) => f x l end.

Definition rd_fail {A} : reader A := fun _ => None.

(* src: nfapi.c :: pull8 *)
Definition pull8 : reader Z := fun l =>
  match l with b0 :: l => Some (b0, l) | _ => None end.

(* src: nfapi.c :: pulls8 *)
Definition pulls8 : reader Z := fun l =>
  match l with b0 :: l => Some (s8 b0, l) | _ => None end.

(* src: nfapi.c :: pull16 *)
Definition pull16 : reader Z := fun l =>
  match l with
  | b0 :: b1 :: l => Some (u16 (Z.lor (Z.shiftl b0 8) b1), l)
  | _ => None
  end.

(* src: nfapi.c :: pulls16 *)
Definition pulls16 : reader Z := fun l =>
  match l with
  | b0 :: b1 :: l => Some (s16 (Z.lor (Z.shiftl b0 8) b1), l)
  | _ => None
  end.

(* src: nfapi.c :: pull32 *)
Definition pull32 : reader Z := fun l =>
  match l with
  | b0 :: b1 :: b2 :: b3 :: l =>
      Some (u32 (Z.lor (Z.lor (Z.lor (Z.shiftl b0 24) (Z.shiftl b1 16)) (Z.shiftl b2 8)) b3), l)
  | _ => None
  end.

(* src: nfapi.c :: pulls32 *)
Definition pulls32 : reader Z := fun l =>
  match l with
  | b0 :: b1 :: b2 :: b3 :: l =>
      Some (s32 (Z.lor (Z.lor (Z.lor (Z.shiftl b0 24) (Z.shiftl b1 16)) (Z.shiftl b2 8)) b3), l)
  | _ => None
  end.

(** [n] calls of [pull], results in order. *)
Fixpoint pull_all {A} (pull : reader A) (n : nat) : reader (list A) :=
  match n with
  | O => mret []
  | S n => x ← pull; xs ← pull_all pull n; mret (x :: xs)
  end.

(** The shape common to the [pullarray] functions: the elements read. *)
Definition pullarray_gen (size : Z) (pull : reader Z) (max_len len : Z) : reader (list Z) :=
  fun l =>
  if len =? 0 then Some ([], l)
  else if max_len <? len then None
  else if size * len <=? zlen l then pull_all pull (Z.to_nat len) l
  else None.

(* src: nfapi.c :: pullarray16 *)
Definition pullarray16 := pullarray_gen 2 pull16.
(* src: nfapi.c :: pullarrays16 *)
Definition pullarrays16 := pullarray_gen 2 pulls16.
(* src: nfapi.c :: pullarray32 *)
Definition pullarray32 := pullarray_gen 4 pull32.
(* src: nfapi.c :: pullarrays32 *)
Definition pullarrays32 := pullarray_gen 4 pulls32.

(* src: nfapi.c :: pullarray8 *)
Definition pullarray8 (max_len len : Z) : reader (list Z) := fun l =>
  if len =? 0 then Some ([], l)
  else if max_len <? len then None
  else if len <=? zlen l then Some (take (Z.to_nat len) l, drop (Z.to_nat len) l)
  else None.

(** [unpackarray]: the first [count] elements, read in order. *)
(* src: nfapi.c :: unpackarray *)
Definition unpackarray {A} (max_count count : Z) (fn : reader A) : reader (list A) := fun l =>
  if max_count <? count then None else pull_all fn (Z.to_nat count) l.

(** ** Tag-length-value *)

(* src: nfapi_interface.h 119-122 nfapi_tl_t *)
Record nfapi_tl_t := Tl { tl_tag : Z; tl_length : Z }.

(* src: nfapi_interface.h 74-74 NFAPI_VENDOR_EXTENSION_MIN_TAG_VALUE *)
Definition NFAPI_VENDOR_EXTENSION_MIN_TAG_VALUE : Z := 0xF000.
(* src: nfapi_interface.h 75-75 NFAPI_VENDOR_EXTENSION_MAX_TAG_VALUE *)
Definition NFAPI_VENDOR_EXTENSION_MAX_TAG_VALUE : Z := 0xFFFF.
(* src: nfapi.h 27-27 MAX_BAD_TAG *)
Definition MAX_BAD_TAG : Z := 3.

(* src: nfapi.c :: get_tlv_padding *)
Definition get_tlv_padding (tlv_length : Z) : Z := Z.rem (4 - Z.rem tlv_length 4) 4.

(* src: nfapi.c :: pack_tl *)
Definition pack_tl (tl : nfapi_tl_t) : packer := push16 (tl_tag tl) &* push16 (tl_length tl).

(* src: nfapi.c :: unpack_tl *)
Definition unpack_tl : reader nfapi_tl_t :=
  tag ← pull16; length ← pull16; mret (Tl tag length).

(** Run [p] through a saved pointer that is [start] bytes into the output. *)
Definition pack_at (start : nat) (p : packer) : packer := fun w =>
  let '(r, w1) := p (Wbuf (take start (w_out w)) (w_room w + (zlen (w_out w) - Z.of_nat start))) in
  (r, Wbuf (w_out w1 ++ drop (length (w_out w1)) (w_out w)) (w_room w)).

(** The TL is written once with the length the structure happens to hold, the
    value after it, and then the TL again with the computed length.  (The
    code also stores that length in the caller's structure; nothing that
    packs a message reads it again.) *)
(* src: nfapi.c :: pack_tlv *)
Definition pack_tlv (tag : Z) (tl : nfapi_tl_t) (fn : packer) : packer := fun w =>
  if tl_tag tl =? tag then
    let pStartOfTlv := length (w_out w) in
    let '(r, w1) := pack_tl tl w in
    if r =? 0 then (0, w1) else
    let pStartOfValue := length (w_out w1) in
    let '(r2, w2) := fn w1 in
    if r2 =? 0 then (0, w2) else
    let len := u16 (zlen (w_out w2) - Z.of_nat pStartOfValue) in
    let '(_, w3) := pack_at pStartOfTlv (pack_tl (Tl (tl_tag tl) len)) w2 in
    (1, w3)
  else (1, w).

(** The NR variant appends zero bytes up to a multiple of four, with no check
    that they fit. *)
(* src: nfapi.c :: pack_nr_tlv *)
Definition pack_nr_tlv (tag : Z) (tl : nfapi_tl_t) (fn : packer) : packer := fun w =>
  if tl_tag tl =? tag then
    let pStartOfTlv := length (w_out w) in
    let '(r, w1) := pack_tl tl w in
    if r =? 0 then (0, w1) else
    let pStartOfValue := length (w_out w1) in
    let '(r2, w2) := fn w1 in
    if r2 =? 0 then (0, w2) else
    let len := u16 (zlen (w_out w2) - Z.of_nat pStartOfValue) in
    let '(_, w3) := pack_at pStartOfTlv (pack_tl (Tl (tl_tag tl) len)) w2 in
    (1, wapp w3 (replicate (Z.to_nat (get_tlv_padding len)) 0))
  else (1, w).

(** The vendor-extension callback of a codec configuration; [None] stands for
    a null configuration, a null callback or (when packing) a null TLV.  The
    callbacks themselves are code of the library's user. *)
(* src: nfapi.c :: pack_vendor_extension_tlv *)
Definition pack_vendor_extension_tlv (ve : option (nfapi_tl_t * packer)) : packer := fun w =>
  match ve with
  | None => (1, w)
  | Some (tl, fn) =>
      let pStartOfTlv := length (w_out w) in
      let '(r, w1) := pack_tl tl w in
      if r =? 0 then (0, w1) else
      let pStartOfValue := length (w_out w1) in
      let '(r2, w2) := fn w1 in
      if r2 =? 0 then (0, w2) else
      let len := u16 (zlen (w_out w2) - Z.of_nat pStartOfValue) in
      let '(_, w3) := pack_at pStartOfTlv (pack_tl (Tl (tl_tag tl) len)) w2 in
      (1, w3)
  end.

(** [pack_p7_vendor_extension_tlv] has the same body at the P7 configuration. *)
(* src: nfapi.c :: pack_p7_vendor_extension_tlv *)
Definition pack_p7_vendor_extension_tlv := pack_vendor_extension_tlv.

(** An unpack callback returns its C result and moves the read pointer. *)
Definition ve_unpack := nfapi_tl_t -> list Z -> Z * list Z.

(* src: nfapi.c :: unpack_vendor_extension_tlv *)
Definition unpack_vendor_extension_tlv (ve : option ve_unpack) (tl : nfapi_tl_t)
    (l : list Z) : Z * list Z :=
  match ve with None => (1, l) | Some fn => fn tl l end.

(* src: nfapi.c :: unpack_p7_vendor_extension_tlv *)
Definition unpack_p7_vendor_extension_tlv := unpack_vendor_extension_tlv.

(** ** TLV lists

    A function that unpacks into a structure [M]: what the structure and the
    read pointer are when it returns 0 ([inl]) and when it returns 1 ([inr]). *)
Definition unpacker (M : Type) : Type := M -> list Z -> (M * list Z) + (M * list Z).

(** A reader as such a function; the structure stays as it is on failure. *)
Definition of_reader {M} (u : M -> reader M) : unpacker M := fun msg l =>
  match u msg l with Some r => inr r | None => inl (msg, l) end.

(** The [len] bytes from [l] on, where the code does not compare their end with
    that of the message: [behind] is what the memory behind the message holds. *)
Definition region (behind : nat -> Z) (len : nat) (l : list Z) : list Z :=
  take len l ++ (behind <$> seq 0 (len - length l)).

(** An entry of the table passed to [unpack_tlv_list]: the tag it accepts and
    what its unpack function does to the message structure [M] when called
    with the TL just read. *)
(* src: nfapi.h 77-83 unpack_tlv_t *)
Record unpack_tlv_t (M : Type) := UnpackTlv {
  ut_tag : Z;
  ut_fn : nfapi_tl_t -> unpacker M;
}.
Arguments UnpackTlv {M}. Arguments ut_tag {M}. Arguments ut_fn {M}.

Section tlv_list.
Context {M : Type}.

(** The [for(idx...)] loop over the table; [pad] is the number of bytes the
    code skips behind a value of the given length.  Result: the message and the
    read pointer, and if no unpack function failed whether a tag matched. *)
Fixpoint try_entries (pad : Z -> Z) (fns : list (unpack_tlv_t M)) (tl : nfapi_tl_t)
    (tagMatch : bool) (msg : M) (l : list Z) : (M * list Z) + (bool * M * list Z) :=
  match fns with
  | [] => inr (tagMatch, msg, l)
  | e :: fns =>
      if ut_tag e =? tl_tag tl then
        match ut_fn e tl msg l with
        | inl r => inl r
        | inr (msg, l) =>
            try_entries pad fns tl true msg (drop (Z.to_nat (pad (tl_length tl))) l)
        end
      else try_entries pad fns tl tagMatch msg l
  end.

(** The [while] loop.  [too_many] is the value returned after more than
    [MAX_BAD_TAG] unknown tags.  Result: return value, message, pointer. *)
Fixpoint tlv_loop (fuel : nat) (pad : Z -> Z) (too_many : Z) (fns : list (unpack_tlv_t M))
    (ve : option ve_unpack) (numBadTags : Z) (msg : M) (l : list Z) : Z * M * list Z :=
  match fuel with
  | O => (0, msg, l)
  | S fuel =>
    if zlen l =? 0 then (1, msg, l)
    else match unpack_tl l with
    | None => (0, msg, l)
    | Some (generic_tl, l) =>
      match try_entries pad fns generic_tl false msg l with
      | inl (msg, l) => (0, msg, l)
      | inr (true, msg, l) => tlv_loop fuel pad too_many fns ve numBadTags msg l
      | inr (false, msg, l) =>
        let bad l :=
          if MAX_BAD_TAG <? u8 (numBadTags + 1) then (too_many, msg, l)
          else if tl_length generic_tl <=? zlen l then
            tlv_loop fuel pad too_many fns ve (u8 (numBadTags + 1)) msg
              (drop (Z.to_nat (tl_length generic_tl + pad (tl_length generic_tl))) l)
          else (0, msg, l) in
        if (NFAPI_VENDOR_EXTENSION_MIN_TAG_VALUE <=? tl_tag generic_tl)
           && (tl_tag generic_tl <=? NFAPI_VENDOR_EXTENSION_MAX_TAG_VALUE)
        then
          let '(result, l) := unpack_vendor_extension_tlv ve generic_tl l in
          if result =? 0 then (0, msg, l)
          else if result <? 0 then bad l
          else tlv_loop fuel pad too_many fns ve numBadTags msg l
        else bad l
      end
    end
  end.

(** Each round reads at least the four bytes of a TL, so as many rounds as
    there are bytes, plus one, are enough. *)
Definition tlv_fuel (l : list Z) : nat := S (length l).

Definition no_pad (_ : Z) : Z := 0.

(* src: nfapi.c :: unpack_tlv_list *)
Definition unpack_tlv_list fns ve (msg : M) (l : list Z) : Z * M * list Z :=
  tlv_loop (tlv_fuel l) no_pad 0 fns ve 0 msg l.
(* src: nfapi.c :: unpack_nr_tlv_list *)
Definition unpack_nr_tlv_list fns ve (msg : M) (l : list Z) : Z * M * list Z :=
  tlv_loop (tlv_fuel l) get_tlv_padding 0 fns ve 0 msg l.
(* src: nfapi.c :: unpack_p7_tlv_list *)
Definition unpack_p7_tlv_list fns ve (msg : M) (l : list Z) : Z * M * list Z :=
  tlv_loop (tlv_fuel l) no_pad (-1) fns ve 0 msg l.
(* src: nfapi.c :: unpack_nr_p7_tlv_list *)
Definition unpack_nr_p7_tlv_list fns ve (msg : M) (l : list Z) : Z * M * list Z :=
  tlv_loop (tlv_fuel l) get_tlv_padding (-1) fns ve 0 msg l.

End tlv_list.

(** ** DCI payloads *)

(* src: nfapi_nr_interface_scf.h 717-717 DCI_PAYLOAD_BYTE_LEN *)
Definition DCI_PAYLOAD_BYTE_LEN : Z := 8.

(** The 64-bit view of a byte array on the little-endian hosts the proxy is
    built for. *)
Definition le_combine (l : list Z) : Z := foldr (fun b acc => b + 256 * acc) 0 l.

Fixpoint le_split (n : nat) (z : Z) : list Z :=
  match n with O => [] | S n => z mod 256 :: le_split n (z / 256) end.

(** [None] when a byte count above 8 makes the code index outside its arrays.
    The payload is shifted in place: the third component is what the caller's
    array holds afterwards. *)
(* src: nfapi.c :: pack_dci_payload *)
Definition pack_dci_payload (payload : list Z) (payloadSizeBits : Z) (w : wbuf) :
    option (Z * wbuf * list Z) :=
  let dci_byte_len := u8 (Z.quot (payloadSizeBits + 7) 8) in
  let payload :=
    if negb (Z.rem payloadSizeBits 8 =? 0) then
      le_split 8 (u64 (Z.shiftl (le_combine payload) (8 - Z.rem payloadSizeBits 8)))
    else payload in
  if DCI_PAYLOAD_BYTE_LEN <? dci_byte_len then None
  else
    let dci_bytes_inverted := rev (take (Z.to_nat dci_byte_len) payload) in
    let '(r, w) := pusharray8 dci_bytes_inverted DCI_PAYLOAD_BYTE_LEN dci_byte_len w in
    Some (r, w, payload).

(** [payload] is what the destination array holds before the call. *)
(* src: nfapi.c :: unpack_dci_payload *)
Definition unpack_dci_payload (payload : list Z) (payloadSizeBits : Z) : reader (list Z) :=
  let dci_byte_len := u8 (Z.quot (payloadSizeBits + 7) 8) in
  dci_bytes_inverted ← pullarray8 DCI_PAYLOAD_BYTE_LEN dci_byte_len;
  let payload := rev dci_bytes_inverted ++ drop (Z.to_nat dci_byte_len) payload in
  mret (if negb (Z.rem payloadSizeBits 8 =? 0) then
          le_split 8 (Z.shiftr (le_combine payload) (8 - Z.rem payloadSizeBits 8))
        else payload).

(** ** What a packer emits and what a reader accepts *)

(** A write position at which the code may legitimately be called. *)
Definition room_ok (w : wbuf) : Prop := 0 <= w_room w < 9223372036854775808.

(** [p] stores exactly [bs] when it fits, and otherwise returns 0. *)
Record emits (p : packer) (bs : list Z) : Prop := {
  em_bytes : bytes_ok bs;
  em_fit w : room_ok w -> zlen bs <= w_room w -> 0 < fst (p w) /\ snd (p w) = wapp w bs;
  em_full w : room_ok w -> w_room w < zlen bs -> fst (p w) = 0;
}.

(** [u] reads [v] from [bs] whatever follows, and rejects every shorter prefix. *)
Record parses {A} (u : reader A) (bs : list Z) (v : A) : Prop := {
  pa_run rest : u (bs ++ rest) = Some (v, rest);
  pa_short n : (n < length bs)%nat -> u (take n bs) = None;
}.

(** The first half of [emits]: what is stored if it fits.  This is all that can be
    said of a packer that ignores the result of a call. *)
Record writes (p : packer) (bs : list Z) : Prop := {
  wr_bytes : bytes_ok bs;
  wr_fit w : room_ok w -> zlen bs <= w_room w -> 0 < fst (p w) /\ snd (p w) = wapp w bs;
}.

Lemma writes_emits p bs : emits p bs -> writes p bs.
Proof. by intros [H1 H2 _]. Qed.

(** Packing with [p] and reading with [u] gives back [v]. *)
Definition roundtrip {A} (p : packer) (u : reader A) (v : A) : Prop :=
  exists bs, emits p bs /\ parses u bs v.

Create HintDb codec.

Lemma wapp_wapp w a b : wapp (wapp w a) b = wapp w (a ++ b).
Proof. unfold wapp; simpl. rewrite app_assoc. f_equal. zlen_lia. Qed.

Lemma wapp_nil w : wapp w [] = w.
Proof. destruct w. unfold wapp; simpl. rewrite app_nil_r. f_equal. zlen_lia. Qed.

Lemma room_ok_wapp w bs : room_ok w -> zlen bs <= w_room w -> room_ok (wapp w bs).
Proof. unfold room_ok, wapp; simpl. zlen_lia. Qed.

Lemma parses_ret {A} (v : A) : parses (mret v) [] v.
Proof. split; [done|]. simpl. lia. Qed.

Lemma parses_bind {A B} (u : reader A) (k : A -> reader B) a b x v :
  parses u a x -> parses (k x) b v -> parses (x ← u; k x) (a ++ b) v.
Proof.
  intros [Hu Hus] [Hk Hks]. split.
  - intros rest. rewrite <- app_assoc. unfold mbind, reader_bind. by rewrite Hu.
  - intros n Hn. rewrite length_app in Hn. unfold mbind, reader_bind.
    destruct (decide (n < length a)%nat).
    + rewrite take_app_le by lia. by rewrite Hus.
    + rewrite take_app_ge by lia. rewrite Hu. apply Hks. lia.
Qed.

(** Mapping the result: [unpack] functions end by building the structure. *)
Lemma parses_fmap {A B} (u : reader A) (f : A -> B) bs x :
  parses u bs x -> parses (y ← u; mret (f y)) bs (f x).
Proof.
  intros H. rewrite <- (app_nil_r bs). eapply parses_bind; [done|apply parses_ret].
Qed.

Lemma emits_ok : emits pack_ok [].
Proof. split; [constructor|..]; intros w Hw; simpl; [by rewrite wapp_nil|unfold room_ok in *; zlen_lia]. Qed.

(** Sequencing with a final result [r2] that is zero exactly when [q] fails. *)
Lemma emits_seq (f : Z -> Z) (p q : packer) a b :
  f 0 = 0 -> (forall r, 0 < r -> 0 < f r) ->
  emits p a -> emits q b ->
  emits (fun w => let '(r, w1) := p w in
                  if r =? 0 then (0, w1) else let '(r2, w2) := q w1 in (f r2, w2)) (a ++ b).
Proof.
  intros Hf0 Hf Hp Hq. pose proof (zlen_nonneg b). split.
  - apply bytes_ok_app. split; [apply Hp|apply Hq].
  - intros w Hw Hfit. rewrite zlen_app in Hfit.
    destruct (em_fit p a Hp w Hw) as [H1 H2]; [lia|].
    destruct (p w) as [r w1]; simpl in *; subst w1. destruct (Z.eqb_spec r 0); [lia|].
    destruct (em_fit q b Hq (wapp w a)) as [H3 H4]; [apply room_ok_wapp; lia || done|simpl; lia|].
    destruct (q (wapp w a)) as [r2 w2]; simpl in *; subst w2.
    split; [by apply Hf|apply wapp_wapp].
  - intros w Hw Hfull. rewrite zlen_app in Hfull.
    destruct (decide (zlen a <= w_room w)).
    + destruct (em_fit p a Hp w Hw) as [H1 H2]; [lia|].
      destruct (p w) as [r w1]; simpl in *; subst w1. destruct (Z.eqb_spec r 0); [lia|].
      pose proof (em_full q b Hq (wapp w a)) as H3. simpl in H3.
      destruct (q (wapp w a)) as [r2 w2]; simpl in *.
      rewrite H3; [done|by apply room_ok_wapp|lia].
    + pose proof (em_full p a Hp w Hw) as H1. destruct (p w) as [r w1]; simpl in *.
      by rewrite H1 by lia.
Qed.

Lemma emits_and p q a b : emits p a -> emits q b -> emits (p &* q) (a ++ b).
Proof.
  intros Hp Hq. apply (emits_seq (fun r2 => b2z (negb (r2 =? 0)))); try done.
  intros r Hr. destruct (Z.eqb_spec r 0); [lia|done].
Qed.

Lemma emits_then p q a b : emits p a -> emits q b -> emits (pack_then p q) (a ++ b).
Proof.
  intros Hp Hq. pose proof (emits_seq (fun r => r) p q a b eq_refl ltac:(done) Hp Hq) as [H1 H2 H3].
  split; [done|..]; intros w Hw Hr; [specialize (H2 w Hw Hr)|specialize (H3 w Hw Hr)];
    unfold pack_then in *; simpl in *; destruct (p w) as [r w1];
    destruct (r =? 0); simpl in *; try done; by destruct (q w1).
Qed.

Lemma roundtrip_bind {A B} (p q : packer) (u : reader A) (k : A -> reader B) x v :
  roundtrip p u x -> roundtrip q (k x) v -> roundtrip (p &* q) (x ← u; k x) v.
Proof.
  intros (a & Hp & Hu) (b & Hq & Hk). exists (a ++ b).
  split; [by apply emits_and|by eapply parses_bind].
Qed.

Lemma roundtrip_fmap {A B} (p : packer) (u : reader A) (f : A -> B) x v :
  roundtrip p u x -> f x = v -> roundtrip p (y ← u; mret (f y)) v.
Proof. intros (a & Hp & Hu) <-. exists a. split; [done|by apply parses_fmap]. Qed.

(** ** The primitives round-trip *)

Definition be16 (v : Z) : list Z := [v / 256; v mod 256].
Definition be32 (v : Z) : list Z :=
  [v / 16777216; v / 65536 mod 256; v / 256 mod 256; v mod 256].

Lemma emits_push (n : Z) (bs : list Z) (p : packer) :
  0 < n -> zlen bs = n -> bytes_ok bs ->
  (forall w, p w = if n <=? w_room w then (n, wapp w bs) else (0, w)) ->
  emits p bs.
Proof.
  intros Hn Hl Hb Hp. split; [done|..]; intros w Hw Hr; rewrite Hp; case_cmp; simpl; lia || done.
Qed.

Lemma byte_of_16 v :
  [u8 (Z.shiftr (Z.land v 0xFF00) 8); u8 (Z.land v 0xFF)] = be16 (u16 v).
Proof.
  unfold be16. change 0xFF00 with (Z.shiftl (Z.ones 8) 8). change 0xFF with (Z.ones 8).
  rewrite land_shiftr_mask, Z.land_ones by lia.
  change (2 ^ 8) with 256. unfold u8, u16. f_equal; [|f_equal]; lia.
Qed.

Lemma byte_of_32 v :
  [u8 (Z.shiftr (Z.land v 0xFF000000) 24); u8 (Z.shiftr (Z.land v 0xFF0000) 16);
   u8 (Z.shiftr (Z.land v 0xFF00) 8); u8 (Z.land v 0xFF)] = be32 (u32 v).
Proof.
  unfold be32. change 0xFF000000 with (Z.shiftl (Z.ones 8) 24).
  change 0xFF0000 with (Z.shiftl (Z.ones 8) 16).
  change 0xFF00 with (Z.shiftl (Z.ones 8) 8). change 0xFF with (Z.ones 8).
  rewrite !land_shiftr_mask, Z.land_ones by lia.
  change (2 ^ 8) with 256. change (2 ^ 16) with 65536. change (2 ^ 24) with 16777216.
  unfold u8, u32. repeat (apply f_equal2; [lia|]). done.
Qed.

Lemma be16_ok v : in_u16 v -> bytes_ok (be16 v).
Proof. intros. repeat constructor; wrap_lia. Qed.
Lemma be32_ok v : in_u32 v -> bytes_ok (be32 v).
Proof. intros. repeat constructor; wrap_lia. Qed.

Lemma lor_be16 v : Z.lor (Z.shiftl (v / 256) 8) (v mod 256) = v.
Proof. rewrite lor_shiftl_add by lia. change (2 ^ 8) with 256. lia. Qed.

Lemma lor_be32 v :
  Z.lor (Z.lor (Z.lor (Z.shiftl (v / 16777216) 24) (Z.shiftl (v / 65536 mod 256) 16))
          (Z.shiftl (v / 256 mod 256) 8)) (v mod 256) = v.
Proof.
  rewrite (lor_shiftl_add (v / 16777216) (Z.shiftl (v / 65536 mod 256) 16) 24).
  2-3: rewrite ?shiftl_mul by lia; change (2 ^ 16) with 65536; change (2 ^ 24) with 16777216; lia.
  replace (v / 16777216 * 2 ^ 24 + Z.shiftl (v / 65536 mod 256) 16)
    with (Z.shiftl (v / 65536) 16)
    by (rewrite !shiftl_mul by lia; change (2 ^ 16) with 65536; change (2 ^ 24) with 16777216; lia).
  rewrite (lor_shiftl_add (v / 65536) (Z.shiftl (v / 256 mod 256) 8) 16).
  2-3: rewrite ?shiftl_mul by lia; change (2 ^ 16) with 65536; change (2 ^ 8) with 256; lia.
  replace (v / 65536 * 2 ^ 16 + Z.shiftl (v / 256 mod 256) 8)
    with (Z.shiftl (v / 256) 8)
    by (rewrite !shiftl_mul by lia; change (2 ^ 16) with 65536; change (2 ^ 8) with 256; lia).
  apply lor_be16.
Qed.

Lemma emits_push8 v : in_u8 v -> emits (push8 v) [v].
Proof.
  intros. apply (emits_push 1); [done|done|repeat constructor; wrap_lia|].
  intros w. unfold push8. by rewrite u8_small.
Qed.

Lemma emits_push16 v : in_u16 v -> emits (push16 v) (be16 v).
Proof.
  intros. apply (emits_push 2); [done|done|by apply be16_ok|].
  intros w. unfold push16. rewrite byte_of_16. by rewrite !u16_small by wrap_lia.
Qed.

Lemma emits_push32 v : in_u32 v -> emits (push32 v) (be32 v).
Proof.
  intros. apply (emits_push 4); [done|done|by apply be32_ok|].
  intros w. unfold push32. rewrite byte_of_32. by rewrite !u32_small by wrap_lia.
Qed.

Ltac parses_short :=
  let n := fresh "n" in let Hn := fresh in
  intros n Hn; simpl in Hn; repeat (destruct n as [|n]; [done|try lia]).

Lemma parses_pull8 v : parses pull8 [v] v.
Proof. split; [done|parses_short]. Qed.

Lemma parses_pull16 v : in_u16 v -> parses pull16 (be16 v) v.
Proof.
  intros. split; [|parses_short]. intros rest. simpl. by rewrite lor_be16, u16_small.
Qed.

Lemma parses_pull32 v : in_u32 v -> parses pull32 (be32 v) v.
Proof.
  intros. split; [|parses_short]. intros rest. simpl. by rewrite lor_be32, u32_small.
Qed.

Lemma roundtrip_8 v : in_u8 v -> roundtrip (push8 v) pull8 v.
Proof. exists [v]. split; [by apply emits_push8|apply parses_pull8]. Qed.

Lemma roundtrip_16 v : in_u16 v -> roundtrip (push16 v) pull16 v.
Proof. exists (be16 v). split; [by apply emits_push16|by apply parses_pull16]. Qed.

Lemma roundtrip_32 v : in_u32 v -> roundtrip (push32 v) pull32 v.
Proof. exists (be32 v). split; [by apply emits_push32|by apply parses_pull32]. Qed.

(** Signed integers travel as their unsigned image. *)
Lemma signed_8 v : in_s8 v -> emits (pushs8 v) [u8 v] /\ parses pulls8 [u8 v] v.
Proof.
  intros. split.
  - apply (emits_push 1); [done|done|repeat constructor; wrap_lia|].
    intros w. unfold pushs8. by replace (s8 v) with v by wrap_lia.
  - split; [|parses_short]. intros rest. simpl. do 2 f_equal. wrap_lia.
Qed.

Lemma signed_16 v : in_s16 v -> emits (pushs16 v) (be16 (u16 v)) /\ parses pulls16 (be16 (u16 v)) v.
Proof.
  intros. split.
  - apply (emits_push 2); [done|done|apply be16_ok; wrap_lia|].
    intros w. unfold pushs16. rewrite byte_of_16. by replace (s16 v) with v by wrap_lia.
  - split; [|parses_short]. intros rest. simpl. rewrite lor_be16. do 2 f_equal. wrap_lia.
Qed.

Lemma signed_32 v : in_s32 v -> emits (pushs32 v) (be32 (u32 v)) /\ parses pulls32 (be32 (u32 v)) v.
Proof.
  intros. split.
  - apply (emits_push 4); [done|done|apply be32_ok; wrap_lia|].
    intros w. unfold pushs32. rewrite byte_of_32. by replace (s32 v) with v by wrap_lia.
  - split; [|parses_short]. intros rest. simpl. rewrite lor_be32. do 2 f_equal. wrap_lia.
Qed.

Lemma roundtrip_s8 v : in_s8 v -> roundtrip (pushs8 v) pulls8 v.
Proof. intros. exists [u8 v]. by apply signed_8. Qed.

Lemma roundtrip_s16 v : in_s16 v -> roundtrip (pushs16 v) pulls16 v.
Proof. intros. exists (be16 (u16 v)). by apply signed_16. Qed.

Lemma roundtrip_s32 v : in_s32 v -> roundtrip (pushs32 v) pulls32 v.
Proof. intros. exists (be32 (u32 v)). by apply signed_32. Qed.

#[export] Hint Resolve roundtrip_8 roundtrip_16 roundtrip_32 roundtrip_s8 roundtrip_s16
  roundtrip_s32 : codec.

(** ** Arrays *)

Section arrays.
Context {A : Type} (fn : A -> packer) (ufn : reader A).

Lemma roundtrip_elems l :
  (forall x, x ∈ l -> roundtrip (fn x) ufn x) ->
  roundtrip (pack_elems fn l) (pull_all ufn (length l)) l.
Proof.
  induction l as [|x l IH]; intros Hl.
  - exists []. split; [apply emits_ok|apply parses_ret].
  - destruct (Hl x ltac:(left)) as (a & Ha & Hua).
    destruct IH as (b & Hb & Hub); [intros y Hy; apply Hl; by right|].
    exists (a ++ b). split; [by apply emits_then|].
    simpl. eapply parses_bind; [done|]. by apply parses_fmap.
Qed.

Lemma roundtrip_packarray l max_count count :
  (forall x, x ∈ l -> roundtrip (fn x) ufn x) -> zlen l = count -> count <= max_count ->
  roundtrip (packarray l max_count count fn) (unpackarray max_count count ufn) l.
Proof.
  intros Hl Hc Hm. destruct (roundtrip_elems l Hl) as (bs & He & Hp). exists bs.
  assert (take (Z.to_nat count) l = l) as Ht by (apply take_ge; unfold zlen in *; lia).
  assert (Z.to_nat count = length l) as Hn by (unfold zlen in *; lia).
  assert ((max_count <? count) = false) as Hlt by lia.
  split.
  - destruct He as [? H1 H2]. split; [done|..]; intros w; unfold packarray; rewrite Hlt, Ht; auto.
  - destruct Hp as [H1 H2]. split; unfold unpackarray; rewrite Hlt, Hn; auto.
Qed.

End arrays.

(** The fixed-size element arrays. *)
Lemma pusharray_codec size (push : Z -> packer) (pull : reader Z) (bytes : Z -> list Z) arr max_len len :
  0 < size ->
  (forall x, x ∈ arr -> emits (push x) (bytes x) /\ parses pull (bytes x) x /\ zlen (bytes x) = size) ->
  zlen arr = len -> len <= max_len -> size * len < 4294967296 ->
  emits (pusharray_gen size push arr max_len len) (concat (bytes <$> arr)) /\
  parses (pullarray_gen size pull max_len len) (concat (bytes <$> arr)) arr /\
  zlen (concat (bytes <$> arr)) = size * len.
Proof.
  intros Hsz Harr Hlen Hmax Hbound.
  assert (emits (pack_elems push arr) (concat (bytes <$> arr)) /\
          parses (pull_all pull (length arr)) (concat (bytes <$> arr)) arr /\
          zlen (concat (bytes <$> arr)) = size * len) as (He & Hp & Hbs).
  { subst len. clear Hmax Hbound. induction arr as [|x l IH].
    - split; [apply emits_ok|]. split; [apply parses_ret|cbn; zlen_lia].
    - destruct (Harr x ltac:(left)) as (Ha & Hua & Hla).
      destruct IH as (Hb & Hub & Hlb); [intros y Hy; apply Harr; by right|].
      cbn [fmap list_fmap concat]. split; [by apply emits_then|]. split.
      + simpl. eapply parses_bind; [done|]. by apply parses_fmap.
      + zlen_lia. }
  split_and!; try done. all: pose proof (zlen_nonneg arr); revert He Hp Hbs; generalize (concat (bytes <$> arr)) as bs;
    intros bs He Hp Hbs;
    assert (take (Z.to_nat len) arr = arr) as Ht by (apply take_ge; unfold zlen in *; lia);
    assert (Z.to_nat len = length arr) as Hn by (unfold zlen in *; lia);
    destruct He as [Hok H1 H2], Hp as [H3 H4];
    unfold pusharray_gen, pullarray_gen; split; rewrite ?Ht, ?Hn; try done.
  - intros w Hw Hfit. destruct (Z.eqb_spec len 0).
    + assert (bs = []) as -> by (apply length_zero_iff_nil; unfold zlen in *; nia).
      split; [done|by rewrite wapp_nil].
    + destruct (Z.ltb_spec max_len len); [lia|]. unfold room_ok in Hw.
      destruct (Z.leb_spec (size * len) (u64 (w_room w))); [|wrap_lia].
      destruct (H1 w Hw Hfit) as [Hr Hw']. destruct (pack_elems push arr w) as [r w1]; simpl in *.
      destruct (Z.eqb_spec r 0); [lia|]. simpl. split; [|done]. rewrite u32_small; unfold in_u32; nia.
  - intros w Hw Hfull. destruct (Z.eqb_spec len 0); [unfold room_ok in *; nia|].
    destruct (Z.ltb_spec max_len len); [lia|]. unfold room_ok in Hw.
    destruct (Z.leb_spec (size * len) (u64 (w_room w))); [wrap_lia|done].
  - intros rest. destruct (Z.eqb_spec len 0).
    + assert (arr = []) as -> by (apply length_zero_iff_nil; unfold zlen in *; lia).
      assert (bs = []) as -> by (apply length_zero_iff_nil; unfold zlen in *; nia). done.
    + destruct (Z.ltb_spec max_len len); [lia|].
      destruct (Z.leb_spec (size * len) (zlen (bs ++ rest))); [done|zlen_lia].
  - intros n Hs. destruct (Z.eqb_spec len 0); [unfold zlen in *; nia|].
    destruct (Z.ltb_spec max_len len); [done|].
    destruct (Z.leb_spec (size * len) (zlen (take n bs))); [|done]. unfold zlen in *.
    rewrite length_take in *. lia.
Qed.

Lemma roundtrip_array16 arr max_len len :
  Forall in_u16 arr -> zlen arr = len -> len <= max_len -> len < 65536 ->
  roundtrip (pusharray16 arr max_len len) (pullarray16 max_len len) arr.
Proof.
  intros Hok Hlen Hmax Hb. rewrite Forall_forall in Hok. exists (concat (be16 <$> arr)).
  destruct (pusharray_codec 2 push16 pull16 be16 arr max_len len) as (? & ? & ?); try lia; [|done].
  intros x Hx. split_and!; [by apply emits_push16, Hok|by apply parses_pull16, Hok|done].
Qed.

Lemma roundtrip_array32 arr max_len len :
  Forall in_u32 arr -> zlen arr = len -> len <= max_len -> len < 65536 ->
  roundtrip (pusharray32 arr max_len len) (pullarray32 max_len len) arr.
Proof.
  intros Hok Hlen Hmax Hb. rewrite Forall_forall in Hok. exists (concat (be32 <$> arr)).
  destruct (pusharray_codec 4 push32 pull32 be32 arr max_len len) as (? & ? & ?); try lia; [|done].
  intros x Hx. split_and!; [by apply emits_push32, Hok|by apply parses_pull32, Hok|done].
Qed.

Lemma u8_bytes arr : bytes_ok arr -> u8 <$> arr = arr.
Proof. induction 1; simpl; f_equal; [by apply u8_small|done]. Qed.

Lemma array8_codec arr max_len len :
  bytes_ok arr -> zlen arr = len -> len <= max_len -> len < 4294967296 ->
  emits (pusharray8 arr max_len len) arr /\ parses (pullarray8 max_len len) arr arr.
Proof.
  intros Hok Hlen Hmax Hbound. pose proof (zlen_nonneg arr).
  assert (take (Z.to_nat len) arr = arr) as Ht by (apply take_ge; unfold zlen in *; lia).
  split; unfold pusharray8, pullarray8; split; rewrite ?Ht, ?(u8_bytes arr Hok); try done.
  - intros w Hw Hfit. destruct (Z.eqb_spec len 0).
    + assert (arr = []) as -> by (apply length_zero_iff_nil; unfold zlen in *; lia).
      split; [done|by rewrite wapp_nil].
    + destruct (Z.ltb_spec max_len len); [lia|]. unfold room_ok in Hw.
      destruct (Z.leb_spec len (u64 (w_room w))); [|wrap_lia]. simpl. split; [wrap_lia|done].
  - intros w Hw Hfull. destruct (Z.eqb_spec len 0); [unfold room_ok in *; lia|].
    destruct (Z.ltb_spec max_len len); [done|]. unfold room_ok in Hw.
    destruct (Z.leb_spec len (u64 (w_room w))); [wrap_lia|done].
  - intros rest. destruct (Z.eqb_spec len 0).
    + assert (arr = []) as -> by (apply length_zero_iff_nil; unfold zlen in *; lia). done.
    + destruct (Z.ltb_spec max_len len); [lia|].
      destruct (Z.leb_spec len (zlen (arr ++ rest))); [|zlen_lia].
      unfold zlen in *. rewrite take_app_length', drop_app_length' by lia. done.
  - intros n Hs. destruct (Z.eqb_spec len 0); [unfold zlen in *; lia|].
    destruct (Z.ltb_spec max_len len); [done|].
    destruct (Z.leb_spec len (zlen (take n arr))); [|done]. unfold zlen in *.
    rewrite length_take in *. lia.
Qed.

Lemma roundtrip_array8 arr max_len len :
  bytes_ok arr -> zlen arr = len -> len <= max_len -> len < 4294967296 ->
  roundtrip (pusharray8 arr max_len len) (pullarray8 max_len len) arr.
Proof. intros. exists arr. by apply array8_codec. Qed.

(** ** TLVs *)

#[global] Arguments be16 : simpl never.
#[global] Arguments be32 : simpl never.

(** The bytes of a TLV with tag [t] and value [bs]. *)
Definition tlv_bytes (t : Z) (bs : list Z) : list Z := be16 t ++ be16 (zlen bs) ++ bs.

Lemma zlen_be16 v : zlen (be16 v) = 2. Proof. done. Qed.
Lemma zlen_be32 v : zlen (be32 v) = 4. Proof. done. Qed.
#[export] Hint Rewrite zlen_be16 zlen_be32 : zlen.

Lemma zlen_tlv_bytes t bs : zlen (tlv_bytes t bs) = 4 + zlen bs.
Proof. unfold tlv_bytes. zlen_lia. Qed.
#[export] Hint Rewrite zlen_tlv_bytes : zlen.

Lemma emits_tl t n : in_u16 t -> in_u16 n -> emits (pack_tl (Tl t n)) (be16 t ++ be16 n).
Proof. intros. apply emits_and; by apply emits_push16. Qed.

Lemma parses_tl t n : in_u16 t -> in_u16 n -> parses unpack_tl (be16 t ++ be16 n) (Tl t n).
Proof.
  intros. unfold unpack_tl. eapply parses_bind; [by apply parses_pull16|].
  apply parses_fmap. by apply parses_pull16.
Qed.

(** Rewriting [length b] bytes in the middle of the output. *)
Lemma pack_at_overwrite p b pre old post room :
  emits p b -> length old = length b -> 0 <= room ->
  room + zlen (old ++ post) < 9223372036854775808 ->
  0 < fst (pack_at (length pre) p (Wbuf (pre ++ old ++ post) room)) /\
  snd (pack_at (length pre) p (Wbuf (pre ++ old ++ post) room)) = Wbuf (pre ++ b ++ post) room.
Proof.
  intros Hp Hlen Hroom Hb. unfold pack_at; simpl. rewrite take_app_length.
  replace (zlen (pre ++ old ++ post) - Z.of_nat (length pre)) with (zlen (old ++ post))
    by (unfold zlen; rewrite !length_app; lia).
  destruct (em_fit p b Hp (Wbuf pre (room + zlen (old ++ post)))) as [H1 H2].
  { unfold room_ok; simpl. zlen_lia. }
  { simpl. unfold zlen in *. rewrite !length_app in *. lia. }
  destruct (p _) as [r w1]; simpl in *; subst w1. split; [done|].
  unfold wapp; simpl. f_equal. rewrite <- app_assoc. do 2 f_equal.
  rewrite length_app, drop_app_add', drop_app_length' by lia. done.
Qed.

Section tlv_emits.
#[local] Set Default Proof Using "Type*".
Context (tag : Z) (tl : nfapi_tl_t) (fn : packer) (bs : list Z).
Context (Htag : in_u16 tag) (Hlen : in_u16 (tl_length tl)) (Hbs : in_u16 (zlen bs)).
Context (Hfn : writes fn bs).

(** Common part of the three TLV packers: dummy TL, value, rewritten TL. *)
Lemma tlv_write w :
  tl_tag tl = tag -> room_ok w -> 4 + zlen bs <= w_room w ->
  exists r1 w1 r2 w2,
    pack_tl tl w = (r1, w1) /\ r1 <> 0 /\ fn w1 = (r2, w2) /\ r2 <> 0 /\
    zlen (w_out w2) - Z.of_nat (length (w_out w1)) = zlen bs /\
    snd (pack_at (length (w_out w)) (pack_tl (Tl tag (u16 (zlen bs)))) w2)
      = wapp w (tlv_bytes tag bs).
Proof.
  intros Ht Hw Hfit. destruct tl as [t n]; simpl in *; subst t.
  destruct (em_fit _ _ (emits_tl tag n Htag Hlen) w Hw) as [Hr1 Hw1]; [zlen_lia|].
  destruct (pack_tl (Tl tag n) w) as [r1 w1] eqn:E1; cbn [fst snd] in Hr1, Hw1.
  destruct (wr_fit _ _ Hfn w1) as [Hr2 Hw2]; [subst w1; apply room_ok_wapp; [done|zlen_lia]
    |subst w1; simpl; zlen_lia|].
  destruct (fn w1) as [r2 w2] eqn:E2; cbn [fst snd] in Hr2, Hw2.
  exists r1, w1, r2, w2. repeat split; try done; try lia.
  - subst w2. unfold wapp, zlen; simpl. rewrite length_app. lia.
  - rewrite u16_small by done. subst w2 w1. rewrite wapp_wapp.
    destruct (pack_at_overwrite (pack_tl (Tl tag (zlen bs))) (be16 tag ++ be16 (zlen bs))
      (w_out w) (be16 tag ++ be16 n) bs (w_room w - zlen ((be16 tag ++ be16 n) ++ bs)))
      as [_ Ho]; [by apply emits_tl|done|zlen_lia|unfold room_ok in *; zlen_lia|].
    change (wapp w ((be16 tag ++ be16 n) ++ bs))
      with (Wbuf (w_out w ++ (be16 tag ++ be16 n) ++ bs)
                 (w_room w - zlen ((be16 tag ++ be16 n) ++ bs))).
    rewrite Ho. unfold wapp, tlv_bytes.
    f_equal; try (by rewrite !app_assoc); zlen_lia.
Qed.

(** What happens when the TLV does not fit: some stage returns 0. *)
Lemma tlv_nofit (w : wbuf) :
  emits fn bs -> tl_tag tl = tag -> room_ok w -> w_room w < 4 + zlen bs ->
  fst (pack_tl tl w) = 0 \/
  exists r1 w1, pack_tl tl w = (r1, w1) /\ r1 <> 0 /\ fst (fn w1) = 0.
Proof.
  intros Hem Ht Hw Hfull. destruct tl as [t n]; simpl in *; subst t.
  pose proof (emits_tl tag n Htag Hlen) as Htl.
  destruct (decide (4 <= w_room w)) as [H4|H4].
  - right. destruct (em_fit _ _ Htl w Hw) as [Hr1 Hw1]; [zlen_lia|].
    destruct (pack_tl (Tl tag n) w) as [r1 w1] eqn:E1; cbn [fst snd] in Hr1, Hw1.
    exists r1, w1. repeat split; [lia|]. subst w1.
    apply (em_full _ _ Hem); [apply room_ok_wapp; [done|zlen_lia]|simpl; zlen_lia].
  - left. apply (em_full _ _ Htl); [done|zlen_lia].
Qed.

Lemma tlv_bytes_ok : bytes_ok (tlv_bytes tag bs).
Proof.
  unfold tlv_bytes. rewrite !bytes_ok_app. split; [by apply be16_ok|].
  split; [by apply be16_ok|apply Hfn].
Qed.

Lemma writes_tlv : tl_tag tl = tag -> writes (pack_tlv tag tl fn) (tlv_bytes tag bs).
Proof.
  intros Ht. split; [apply tlv_bytes_ok|]. intros w Hw Hr. unfold pack_tlv. rewrite Ht, Z.eqb_refl.
  autorewrite with zlen in Hr.
  destruct (tlv_write w Ht Hw Hr) as (r1 & w1 & r2 & w2 & -> & H1 & -> & H2 & -> & Ho).
  destruct (Z.eqb_spec r1 0), (Z.eqb_spec r2 0); try done. destruct (pack_at _ _ w2); simpl in *. done.
Qed.

End tlv_emits.

Lemma emits_tlv tag tl fn bs : in_u16 tag -> in_u16 (tl_length tl) -> in_u16 (zlen bs) -> emits fn bs ->
  tl_tag tl = tag -> emits (pack_tlv tag tl fn) (tlv_bytes tag bs).
Proof.
  intros Htag Hlen Hbs Hem Ht.
  destruct (writes_tlv tag tl fn bs Htag Hlen Hbs (writes_emits _ _ Hem) Ht) as [H1 H2]. split; [done..|].
  intros w Hw Hr. unfold pack_tlv. rewrite Ht, Z.eqb_refl. autorewrite with zlen in Hr.
  destruct (tlv_nofit tag tl fn bs Htag Hlen Hbs (writes_emits _ _ Hem) w Hem Ht Hw Hr) as [H|(r1 & w1 & -> & H3 & H4)].
  - destruct (pack_tl tl w); simpl in *; subst. done.
  - destruct (Z.eqb_spec r1 0); [done|]. destruct (fn w1); simpl in *; subst. done.
Qed.

(** A TLV whose structure carries another tag is simply not written. *)
Lemma emits_tlv_absent tag tl fn : tl_tag tl <> tag -> emits (pack_tlv tag tl fn) [].
Proof.
  intros Ht. destruct emits_ok as [H1 H2 H3]. split; [done|..]; intros w; unfold pack_tlv;
    destruct (Z.eqb_spec (tl_tag tl) tag); try done; [by apply H2|by apply H3].
Qed.

(** ** The TLV loop *)

Section tlv_loop_facts.
#[local] Set Default Proof Using "Type*".
Context {M : Type} (pad : Z -> Z) (too_many : Z) (fns : list (unpack_tlv_t M)) (ve : option ve_unpack).
Context (Hpad : forall n, 0 <= pad n).

(** The unpack functions of the table and the vendor callback only move the
    read pointer forward. *)
Definition forward : Prop :=
  (forall e, e ∈ fns -> forall tl msg l msg' l',
     ut_fn e tl msg l = inr (msg', l') -> (length l' <= length l)%nat) /\
  (forall fn, ve = Some fn -> forall tl l, (length (snd (fn tl l)) <= length l)%nat).

Lemma unpack_tl_length l tl l' : unpack_tl l = Some (tl, l') -> length l = (4 + length l')%nat.
Proof.
  unfold unpack_tl, mbind, reader_bind, pull16. destruct l as [|? [|? [|? [|? l]]]]; simpl; try done.
  by intros [= <- <-].
Qed.

Lemma try_entries_forward (fns' : list (unpack_tlv_t M)) tl b msg l b' msg' l' :
  (forall e : unpack_tlv_t M, e ∈ fns' -> forall tl msg l msg' l',
     ut_fn e tl msg l = inr (msg', l') -> (length l' <= length l)%nat) ->
  try_entries pad fns' tl b msg l = inr (b', msg', l') -> (length l' <= length l)%nat.
Proof.
  intros Hf. revert b msg l. induction fns' as [|e fns' IH]; intros b msg l; simpl.
  - by intros [= <- <- <-].
  - assert (forall e : unpack_tlv_t M, e ∈ fns' -> forall tl msg l msg' l',
       ut_fn e tl msg l = inr (msg', l') -> (length l' <= length l)%nat) as Hf'.
    { intros e' He'. apply Hf. by right. }
    destruct (ut_tag e =? tl_tag tl); [|by apply IH].
    destruct (ut_fn e tl msg l) as [[m1 l1]|[m1 l1]] eqn:E; [done|].
    intros H. apply IH in H; [|done]. rewrite length_drop in H.
    apply (Hf e ltac:(left)) in E. lia.
Qed.

(** Fuel beyond one round per byte changes nothing. *)
Lemma tlv_loop_fuel fuel n msg l :
  forward -> (length l < fuel)%nat ->
  tlv_loop fuel pad too_many fns ve n msg l = tlv_loop (tlv_fuel l) pad too_many fns ve n msg l.
Proof.
  intros [Hf Hve]. unfold tlv_fuel.
  enough (forall f1 f2 n msg l, (length l < f1)%nat -> (length l < f2)%nat ->
    tlv_loop f1 pad too_many fns ve n msg l = tlv_loop f2 pad too_many fns ve n msg l) as Hen
    by (intros; apply Hen; lia).
  clear n msg l fuel. induction f1 as [|f1 IH]; intros [|f2] n msg l H1 H2; simpl; try lia.
  destruct (zlen l =? 0); [done|]. destruct (unpack_tl l) as [[tl l1]|] eqn:El; [|done].
  apply unpack_tl_length in El.
  destruct (try_entries pad fns tl false msg l1) as [[msg2 l2]|[[[] msg2] l2]] eqn:Et; [done| |].
  - apply try_entries_forward in Et; [|done]. apply IH; lia.
  - apply try_entries_forward in Et; [|done].
    assert (forall l3, (length l3 <= length l2)%nat ->
      (if MAX_BAD_TAG <? u8 (n + 1) then (too_many, msg2, l3)
       else if tl_length tl <=? zlen l3 then
         tlv_loop f1 pad too_many fns ve (u8 (n + 1)) msg2
           (drop (Z.to_nat (tl_length tl + pad (tl_length tl))) l3) else (0, msg2, l3)) =
      (if MAX_BAD_TAG <? u8 (n + 1) then (too_many, msg2, l3)
       else if tl_length tl <=? zlen l3 then
         tlv_loop f2 pad too_many fns ve (u8 (n + 1)) msg2
           (drop (Z.to_nat (tl_length tl + pad (tl_length tl))) l3) else (0, msg2, l3))) as Hbad.
    { intros l3 Hl3. destruct (MAX_BAD_TAG <? _); [done|]. destruct (_ <=? _); [|done].
      apply IH; rewrite length_drop; lia. }
    destruct (_ && _); [|by apply Hbad].
    assert (length (snd (unpack_vendor_extension_tlv ve tl l2)) <= length l2)%nat as Hv.
    { destruct ve as [fn|] eqn:Eve; simpl; [by apply (Hve fn)|done]. }
    destruct (unpack_vendor_extension_tlv ve tl l2) as [res l3]; simpl in Hv.
    destruct (res =? 0); [done|]. destruct (res <? 0); [by apply Hbad|]. apply IH; lia.
Qed.

(** One round on a TLV that the table knows. *)
Lemma tlv_loop_known fuel n tag bs rest msg msg' l' :
  in_u16 tag -> in_u16 (zlen bs) ->
  try_entries pad fns (Tl tag (zlen bs)) false msg (bs ++ rest) = inr (true, msg', l') ->
  tlv_loop (S fuel) pad too_many fns ve n msg (tlv_bytes tag bs ++ rest) =
  tlv_loop fuel pad too_many fns ve n msg' l'.
Proof.
  intros Ht Hl He. cbn [tlv_loop]. unfold tlv_bytes.
  destruct (Z.eqb_spec (zlen ((be16 tag ++ be16 (zlen bs) ++ bs) ++ rest)) 0); [zlen_lia|].
  replace ((be16 tag ++ be16 (zlen bs) ++ bs) ++ rest)
    with ((be16 tag ++ be16 (zlen bs)) ++ bs ++ rest) by (by rewrite <- !app_assoc).
  rewrite (pa_run _ _ _ (parses_tl tag (zlen bs) Ht Hl)). by rewrite He.
Qed.

(** No entry of the table accepts [tag]. *)
Definition unknown_tag (tag : Z) : Prop := Forall (fun e => ut_tag e <> tag) fns.

Lemma try_entries_unknown (fns' : list (unpack_tlv_t M)) tl b msg l :
  Forall (fun e => ut_tag e <> tl_tag tl) fns' -> try_entries pad fns' tl b msg l = inr (b, msg, l).
Proof.
  induction 1 as [|e fns' He _ IH]; simpl; [done|]. by destruct (Z.eqb_spec (ut_tag e) (tl_tag tl)).
Qed.

(** One round on a complete TLV that the table does not know. *)
Lemma tlv_loop_unknown fuel n tag bs rest msg :
  in_u16 tag -> in_u16 (zlen bs) -> tag < NFAPI_VENDOR_EXTENSION_MIN_TAG_VALUE ->
  unknown_tag tag -> 0 <= n < 255 ->
  tlv_loop (S fuel) pad too_many fns ve n msg (tlv_bytes tag bs ++ rest) =
  if MAX_BAD_TAG <? n + 1 then (too_many, msg, bs ++ rest)
  else tlv_loop fuel pad too_many fns ve (n + 1) msg (drop (Z.to_nat (pad (zlen bs))) rest).
Proof.
  intros Ht Hl Hve Hun Hn. cbn [tlv_loop].
  destruct (Z.eqb_spec (zlen (tlv_bytes tag bs ++ rest)) 0); [zlen_lia|]. unfold tlv_bytes.
  replace ((be16 tag ++ be16 (zlen bs) ++ bs) ++ rest)
    with ((be16 tag ++ be16 (zlen bs)) ++ bs ++ rest) by (by rewrite <- !app_assoc).
  rewrite (pa_run _ _ _ (parses_tl tag (zlen bs) Ht Hl)).
  rewrite (try_entries_unknown fns (Tl tag (zlen bs))) by done. cbn [tl_tag tl_length].
  destruct (Z.leb_spec NFAPI_VENDOR_EXTENSION_MIN_TAG_VALUE tag); [lia|]. cbn [andb].
  replace (u8 (n + 1)) with (n + 1) by wrap_lia. destruct (MAX_BAD_TAG <? n + 1); [done|].
  destruct (Z.leb_spec (zlen bs) (zlen (bs ++ rest))); [|zlen_lia].
  pose proof (Hpad (zlen bs)). rewrite Z2Nat.inj_add by zlen_lia.
  replace (Z.to_nat (zlen bs)) with (length bs) by (unfold zlen; lia).
  by rewrite drop_app_add.
Qed.

End tlv_loop_facts.

Lemma get_tlv_padding_range n : 0 <= get_tlv_padding n < 4.
Proof.
  unfold get_tlv_padding. pose proof (Z.rem_bound_abs n 4 ltac:(lia)).
  rewrite (Z.rem_mod_nonneg (_ - _)) by lia. lia.
Qed.

Lemma get_tlv_padding_nonneg n : 0 <= get_tlv_padding n.
Proof. apply get_tlv_padding_range. Qed.
#[export] Hint Resolve get_tlv_padding_nonneg : codec.

(** ** Properties of the TLV loop *)

(** A run of TLVs as they appear in a buffer. *)
Definition tlvs_bytes (pad : Z -> Z) (ts : list (Z * list Z)) : list Z :=
  concat ((fun t => tlv_bytes t.1 t.2 ++ replicate (Z.to_nat (pad (zlen t.2))) 0) <$> ts).

Lemma region_exact behind bs rest n : zlen bs = n -> region behind (Z.to_nat n) (bs ++ rest) = bs.
Proof.
  intros <-. unfold region, zlen. rewrite Nat2Z.id, take_app_length, length_app.
  replace (length bs - (length bs + length rest))%nat with 0%nat by lia. apply app_nil_r.
Qed.

Lemma tlvs_bytes_cons pad tag bs ts :
  tlvs_bytes pad ((tag, bs) :: ts) =
  tlv_bytes tag bs ++ replicate (Z.to_nat (pad (zlen bs))) 0 ++ tlvs_bytes pad ts.
Proof. unfold tlvs_bytes. rewrite fmap_cons. cbn [concat fst snd]. by rewrite <- app_assoc. Qed.

(** A TLV of the base protocol that the table does not know. *)
Definition skippable {M} (fns : list (unpack_tlv_t M)) (t : Z * list Z) : Prop :=
  in_u16 t.1 /\ in_u16 (zlen t.2) /\ t.1 < NFAPI_VENDOR_EXTENSION_MIN_TAG_VALUE /\
  unknown_tag fns t.1.

Section skipping.
#[local] Set Default Proof Using "Type*".
Context {M : Type} (pad : Z -> Z) (too_many : Z) (fns : list (unpack_tlv_t M)) (ve : option ve_unpack).
Context (Hpad : forall n, 0 <= pad n).

Lemma tlv_loop_skip ts : forall fuel n msg,
  Forall (skippable fns) ts -> 0 <= n -> n + zlen ts <= MAX_BAD_TAG ->
  (length (tlvs_bytes pad ts) < fuel)%nat ->
  tlv_loop fuel pad too_many fns ve n msg (tlvs_bytes pad ts) = (1, msg, []).
Proof.
  unfold MAX_BAD_TAG. induction ts as [|[tag bs] ts IH]; intros [|fuel] n msg Hall Hn Hmax Hf;
    try lia; [done|].
  apply Forall_cons in Hall as [(Ht & Hl & Hve & Hun) Hall']. cbn [fst snd] in *.
  rewrite tlvs_bytes_cons in *. autorewrite with zlen in Hmax. pose proof (zlen_nonneg ts).
  rewrite tlv_loop_unknown by (try done; lia).
  destruct (Z.ltb_spec MAX_BAD_TAG (n + 1)); [unfold MAX_BAD_TAG in *; lia|].
  rewrite drop_app_length' by (by rewrite length_replicate). apply IH; try done; try lia.
  unfold tlv_bytes, be16 in Hf. rewrite !length_app in *. simpl in Hf. lia.
Qed.

(** The run that meets one unknown TLV too many. *)
Lemma tlv_loop_reject ts t rest : forall fuel n msg,
  Forall (skippable fns) (ts ++ [t]) -> 0 <= n -> n + zlen ts = MAX_BAD_TAG ->
  (length (tlvs_bytes pad ts) < fuel)%nat ->
  tlv_loop fuel pad too_many fns ve n msg (tlvs_bytes pad ts ++ tlv_bytes t.1 t.2 ++ rest) =
  (too_many, msg, t.2 ++ rest).
Proof.
  unfold MAX_BAD_TAG. induction ts as [|[tag bs] ts IH]; intros [|fuel] n msg Hall Hn Hmax Hf;
    try lia; simpl in Hall; apply Forall_cons in Hall as [(Ht & Hl & Hve & Hun) Hall'];
    cbn [fst snd] in *; autorewrite with zlen in Hmax.
  - cbn [tlvs_bytes fmap list_fmap concat app]. rewrite tlv_loop_unknown by (try done; lia).
    destruct (Z.ltb_spec MAX_BAD_TAG (n + 1)); [done|unfold MAX_BAD_TAG in *; lia].
  - rewrite tlvs_bytes_cons in *. rewrite <- !app_assoc in *. pose proof (zlen_nonneg ts).
    rewrite tlv_loop_unknown by (try done; lia).
    destruct (Z.ltb_spec MAX_BAD_TAG (n + 1)); [unfold MAX_BAD_TAG in *; lia|].
    rewrite drop_app_length' by (by rewrite length_replicate). apply IH; try done; try lia.
    unfold tlv_bytes, be16 in Hf. rewrite !length_app in *. simpl in Hf. lia.
Qed.
End skipping.

(** C38.  Unknown TLVs below the vendor range are skipped, and a list of at most
    [MAX_BAD_TAG] of them is accepted with the message unchanged; the next one
    makes the P5 lists return 0 and the P7 lists return -1, which the P7
    callers, testing for 0, take for success. *)
Theorem unknown_tlvs_are_skipped {M} (fns : list (unpack_tlv_t M)) ve (msg : M) ts t rest :
  Forall (skippable fns) (ts ++ [t]) -> zlen ts <= MAX_BAD_TAG ->
  unpack_tlv_list fns ve msg (tlvs_bytes no_pad ts) = (1, msg, []) /\
  unpack_nr_tlv_list fns ve msg (tlvs_bytes get_tlv_padding ts) = (1, msg, []) /\
  unpack_p7_tlv_list fns ve msg (tlvs_bytes no_pad ts) = (1, msg, []) /\
  unpack_nr_p7_tlv_list fns ve msg (tlvs_bytes get_tlv_padding ts) = (1, msg, []) /\
  (zlen ts = MAX_BAD_TAG ->
   let more pad := tlvs_bytes pad ts ++ tlv_bytes t.1 t.2 ++ rest in
   fst (fst (unpack_tlv_list fns ve msg (more no_pad))) = 0 /\
   fst (fst (unpack_nr_tlv_list fns ve msg (more get_tlv_padding))) = 0 /\
   fst (fst (unpack_p7_tlv_list fns ve msg (more no_pad))) = -1 /\
   fst (fst (unpack_nr_p7_tlv_list fns ve msg (more get_tlv_padding))) = -1).
Proof.
  intros Hall Hmax. pose proof Hall as [Hts _]%Forall_app.
  repeat split;
    try (apply tlv_loop_skip; auto with codec; unfold tlv_fuel; try done; lia);
    try (unfold unpack_tlv_list, unpack_nr_tlv_list, unpack_p7_tlv_list, unpack_nr_p7_tlv_list;
      rewrite tlv_loop_reject; auto with codec; try done; unfold tlv_fuel; rewrite length_app; lia).
Qed.

Lemma unknown_tlvs_are_skipped_witness :
  fst (fst (unpack_p7_tlv_list [] None tt
    (tlvs_bytes no_pad [(1, [7]); (2, []); (3, [])] ++ tlv_bytes 4 [9] ++ []))) = -1.
Proof.
  apply (unknown_tlvs_are_skipped [] None tt [(1, [7]); (2, []); (3, [])] (4, [9]) []);
    [repeat constructor; done|done|done].
Defined.

(** ** DCI payloads *)

Lemma le_split_length n z : length (le_split n z) = n.
Proof. revert z. induction n; intros; simpl; congruence. Qed.

Lemma le_split_ok n z : bytes_ok (le_split n z).
Proof. revert z. induction n; intros; simpl; constructor; [wrap_lia|apply IHn]. Qed.

Lemma le_combine_split n z : 0 <= z < 256 ^ Z.of_nat n -> le_combine (le_split n z) = z.
Proof.
  revert z. induction n as [|n IH]; intros z Hz; [simpl in *; lia|].
  cbn [le_split le_combine foldr]. change (foldr _ 0 ?l) with (le_combine l).
  rewrite IH; [lia|]. rewrite Nat2Z.inj_succ, Z.pow_succ_r in Hz by lia.
  split; [lia|apply Z.div_lt_upper_bound; lia].
Qed.

Lemma le_split_take k n z : (k <= n)%nat -> take k (le_split n z) = le_split k z.
Proof.
  revert n z. induction k as [|k IH]; intros [|n] z Hk; simpl; try done; [lia|].
  f_equal. apply IH. lia.
Qed.

Lemma le_split_0 n : le_split n 0 = replicate n 0.
Proof. induction n; simpl; f_equal; done. Qed.

(** High bytes of a small number are zero. *)
Lemma le_split_pad k n z :
  0 <= z < 256 ^ Z.of_nat k -> le_split k z ++ replicate n 0 = le_split (k + n) z.
Proof.
  revert z. induction k as [|k IH]; intros z Hz; simpl.
  - simpl in Hz. replace z with 0 by lia. by rewrite le_split_0.
  - f_equal. apply IH. rewrite Nat2Z.inj_succ, Z.pow_succ_r in Hz by lia.
    split; [lia|apply Z.div_lt_upper_bound; lia].
Qed.

(** Bits of the last payload byte that the payload does not use. *)
Definition dci_slack (bits : Z) : Z := (8 - bits mod 8) mod 8.
Definition dci_bytes (bits : Z) : Z := (bits + 7) / 8.

Lemma dci_shift_bound v bits :
  0 < bits <= 64 -> 0 <= v < 2 ^ bits ->
  0 <= Z.shiftl v (dci_slack bits) < 256 ^ dci_bytes bits /\ 256 ^ dci_bytes bits <= 2 ^ 64 /\
  0 <= dci_slack bits < 8 /\ dci_bytes bits = Z.of_nat (Z.to_nat (dci_bytes bits)) /\
  0 < dci_bytes bits <= 8.
Proof.
  intros Hb Hv. assert (0 <= dci_slack bits < 8) by (unfold dci_slack; lia).
  assert (0 < dci_bytes bits <= 8) by (unfold dci_bytes; lia).
  assert (8 * dci_bytes bits = bits + dci_slack bits) as E by (unfold dci_bytes, dci_slack; lia).
  rewrite shiftl_mul by lia. change 256 with (2 ^ 8). rewrite <- Z.pow_mul_r, E by lia.
  assert (0 < 2 ^ dci_slack bits) by (apply Z.pow_pos_nonneg; lia).
  split; [split; [nia|rewrite Z.pow_add_r by lia; nia]|].
  split; [apply Z.pow_le_mono_r; lia|lia].
Qed.

Lemma pack_dci_value v bits w :
  0 < bits <= 64 -> 0 <= v < 2 ^ bits ->
  pack_dci_payload (le_split 8 v) bits w =
  let '(r, w') := pusharray8 (rev (le_split (Z.to_nat (dci_bytes bits)) (Z.shiftl v (dci_slack bits))))
    DCI_PAYLOAD_BYTE_LEN (dci_bytes bits) w in
  Some (r, w', le_split 8 (Z.shiftl v (dci_slack bits))).
Proof.
  intros Hb Hv. destruct (dci_shift_bound v bits Hb Hv) as (Hs & H64 & Hsl & Hn & Hn8).
  unfold pack_dci_payload. rewrite !Z.rem_mod_nonneg, Z.quot_div_nonneg by lia.
  change ((bits + 7) / 8) with (dci_bytes bits).
  replace (u8 (dci_bytes bits)) with (dci_bytes bits) by wrap_lia.
  assert ((if negb (bits mod 8 =? 0)
           then le_split 8 (u64 (Z.shiftl (le_combine (le_split 8 v)) (8 - bits mod 8)))
           else le_split 8 v) = le_split 8 (Z.shiftl v (dci_slack bits))) as ->.
  { assert (v < 2 ^ 64) by (eapply Z.lt_le_trans; [apply Hv|apply Z.pow_le_mono_r; lia]).
    unfold dci_slack in *. destruct (Z.eqb_spec (bits mod 8) 0) as [->|Hne]; cbn [negb].
    - by rewrite Z.sub_0_r, Z.shiftl_0_r.
    - rewrite le_combine_split by (simpl; lia).
      replace ((8 - bits mod 8) mod 8) with (8 - bits mod 8) in * by lia.
      f_equal. unfold u64. apply Z.mod_small. lia. }
  destruct (Z.ltb_spec DCI_PAYLOAD_BYTE_LEN (dci_bytes bits)); [unfold DCI_PAYLOAD_BYTE_LEN in *; lia|].
  by rewrite le_split_take by lia.
Qed.

Lemma unpack_dci_value v bits rest :
  0 < bits <= 64 -> 0 <= v < 2 ^ bits ->
  unpack_dci_payload (replicate 8 0) bits
    (rev (le_split (Z.to_nat (dci_bytes bits)) (Z.shiftl v (dci_slack bits))) ++ rest) =
  Some (le_split 8 v, rest).
Proof.
  intros Hb Hv. destruct (dci_shift_bound v bits Hb Hv) as (Hs & H64 & Hsl & Hn & Hn8).
  set (x := Z.shiftl v (dci_slack bits)) in *.
  unfold unpack_dci_payload. rewrite !Z.rem_mod_nonneg, Z.quot_div_nonneg by lia.
  change ((bits + 7) / 8) with (dci_bytes bits).
  replace (u8 (dci_bytes bits)) with (dci_bytes bits) by wrap_lia.
  unfold mbind, reader_bind. rewrite (pa_run _ (rev (le_split _ x)) (rev (le_split _ x)))
    by (apply array8_codec; [apply Forall_rev, le_split_ok
      |unfold zlen; rewrite length_rev, le_split_length; lia|unfold DCI_PAYLOAD_BYTE_LEN; lia|lia]).
  rewrite rev_involutive, drop_replicate, le_split_pad by (rewrite <- Hn; done).
  replace (Z.to_nat (dci_bytes bits) + (8 - Z.to_nat (dci_bytes bits)))%nat with 8%nat by lia.
  unfold mret, reader_ret. do 2 f_equal. subst x. unfold dci_slack in *.
  destruct (Z.eqb_spec (bits mod 8) 0) as [->|Hne]; cbn [negb].
  - by rewrite Z.sub_0_r, Z.shiftl_0_r.
  - rewrite le_combine_split by (simpl; lia).
    replace ((8 - bits mod 8) mod 8) with (8 - bits mod 8) in * by lia.
    by rewrite Z.shiftr_shiftl_l, Z.sub_diag, Z.shiftl_0_r by lia.
Qed.

(** A DCI payload of 1 to 64 bits is written left-aligned in as many
    bytes as its bits need and read back unchanged into a cleared array, while
    the array passed to [pack_dci_payload] is left shifted. *)
Theorem dci_payload_roundtrip v bits w rest :
  0 < bits <= 64 -> 0 <= v < 2 ^ bits -> room_ok w -> dci_bytes bits <= w_room w ->
  exists r bs,
    pack_dci_payload (le_split 8 v) bits w =
      Some (r, wapp w bs, le_split 8 (Z.shiftl v (dci_slack bits))) /\
    0 < r /\ zlen bs = dci_bytes bits /\
    unpack_dci_payload (replicate 8 0) bits (bs ++ rest) = Some (le_split 8 v, rest).
Proof.
  intros Hb Hv Hw Hroom. destruct (dci_shift_bound v bits Hb Hv) as (Hs & H64 & Hsl & Hn & Hn8).
  set (bs := rev (le_split (Z.to_nat (dci_bytes bits)) (Z.shiftl v (dci_slack bits)))).
  assert (zlen bs = dci_bytes bits) as Hbs
    by (unfold bs, zlen; rewrite length_rev, le_split_length; lia).
  destruct (array8_codec bs DCI_PAYLOAD_BYTE_LEN (dci_bytes bits)) as (Hp & Hu);
    [apply Forall_rev, le_split_ok|done|unfold DCI_PAYLOAD_BYTE_LEN; lia|lia|].
  destruct (em_fit _ _ Hp w Hw) as [Hr Ho]; [lia|].
  rewrite pack_dci_value by done. fold bs.
  destruct (pusharray8 bs _ _ w) as [r w']; cbn [fst snd] in *; subst w'.
  exists r, bs. repeat split; try done. by apply unpack_dci_value.
Qed.

Lemma dci_payload_roundtrip_witness :
  exists r bs,
    pack_dci_payload (le_split 8 0x1ABCD) 17 (Wbuf [] 3) =
      Some (r, wapp (Wbuf [] 3) bs, le_split 8 (Z.shiftl 0x1ABCD (dci_slack 17))) /\
    0 < r /\ zlen bs = dci_bytes 17 /\
    unpack_dci_payload (replicate 8 0) 17 (bs ++ [0xFF]) = Some (le_split 8 0x1ABCD, [0xFF]).
Proof.
  apply (dci_payload_roundtrip 0x1ABCD 17 (Wbuf [] 3) [0xFF]); vm_compute; done.
Defined.

#[global] Arguments be16 : simpl never.
#[global] Arguments be32 : simpl never.
