(* ===== verification/Sfn.v ===== *)
(** * Frame and subframe/slot arithmetic

    The packed and decimal forms of an LTE (SFN, subframe) and an NR (SFN,
    slot) pair: the macros of [nfapi_interface.h], the increments of
    [pnf_p7.c] and the helpers of [nfapi_pnf.c].  Numerology 1 is fixed by the
    code: 20 slots per frame. *)

From S2P Require Import Prelude.

(** ** The macros of [nfapi_interface.h] *)

(* src: nfapi_interface.h :: NFAPI_SFNSLOT2DEC *)
Definition NFAPI_SFNSLOT2DEC (sfn slot : Z) : Z := sfn * 20 + slot.
(* src: nfapi_interface.h :: NFAPI_SFNSLOTDEC2SFNSLOT *)
Definition NFAPI_SFNSLOTDEC2SFNSLOT (dec : Z) : Z :=
  Z.lor (Z.shiftl (Z.quot dec 20) 6) (Z.land (dec - Z.quot dec 20 * 20) 0x3F).
(* src: nfapi_interface.h :: NFAPI_SFNSLOT2SFN *)
Definition NFAPI_SFNSLOT2SFN (sfnslot : Z) : Z := Z.shiftr sfnslot 6.
(* src: nfapi_interface.h :: NFAPI_SFNSLOT2SLOT *)
Definition NFAPI_SFNSLOT2SLOT (sfnslot : Z) : Z := Z.land sfnslot 0x3F.
(* src: nfapi_interface.h :: NFAPI_SFNSLOTDEC2SFN *)
Definition NFAPI_SFNSLOTDEC2SFN (dec : Z) : Z := Z.quot dec 20.
(* src: nfapi_interface.h :: NFAPI_SFNSLOTDEC2SLOT *)
Definition NFAPI_SFNSLOTDEC2SLOT (dec : Z) : Z := Z.rem dec 20.
(* src: nfapi_interface.h :: NFAPI_SFNSLOT2HEX *)
Definition NFAPI_SFNSLOT2HEX (sfn slot : Z) : Z := Z.lor (Z.shiftl sfn 6) (Z.land slot 0x3F).
(* src: nfapi_interface.h :: NFAPI_MAX_SFNSLOTDEC *)
Definition NFAPI_MAX_SFNSLOTDEC : Z := 1024 * 20.

(* src: nfapi_interface.h :: NFAPI_SFNSF2DEC *)
Definition NFAPI_SFNSF2DEC (sfnsf : Z) : Z := Z.shiftr sfnsf 4 * 10 + Z.land sfnsf 0xF.
(* src: nfapi_interface.h :: NFAPI_SFNSFDEC2SFNSF *)
Definition NFAPI_SFNSFDEC2SFNSF (dec : Z) : Z :=
  Z.lor (Z.shiftl (Z.quot dec 10) 4) (Z.land (dec - Z.quot dec 10 * 10) 0xF).
(* src: nfapi_interface.h :: NFAPI_SFNSF2SFN *)
Definition NFAPI_SFNSF2SFN (sfnsf : Z) : Z := Z.shiftr sfnsf 4.
(* src: nfapi_interface.h :: NFAPI_SFNSF2SF *)
Definition NFAPI_SFNSF2SF (sfnsf : Z) : Z := Z.land sfnsf 0xF.
(* src: nfapi_interface.h :: NFAPI_MAX_SFNSFDEC *)
Definition NFAPI_MAX_SFNSFDEC : Z := 10240.

(** ** [pnf_p7.c]

    A function that updates [*frameP] and [*slotP] returns the new pair. *)

(* src: pnf_p7.c :: add_slot *)
Definition add_slot (frame slot offset : Z) : Z * Z :=
  let num_slots := 20 in
  (u16 (Z.rem (frame + Z.quot (slot + offset) num_slots) 1024),
   u16 (Z.rem (slot + offset) num_slots)).

(* src: pnf_p7.c :: add_sf *)
Definition add_sf (frame subframe offset : Z) : Z * Z :=
  (u16 (Z.rem (frame + Z.quot (subframe + offset) 10) 1024),
   u16 (Z.rem (subframe + offset) 10)).

(* src: pnf_p7.c :: subtract_sf *)
Definition subtract_sf (frame subframe offset : Z) : Z * Z :=
  (if subframe <? offset then u16 (Z.rem (frame + 1024 - 1) 1024) else frame,
   u16 (Z.rem (subframe + 10 - offset) 10)).

(* src: pnf_p7.c :: sfnslot_add_slot *)
Definition sfnslot_add_slot (sfn slot offset : Z) : Z :=
  let '(sfn, slot) := add_slot sfn slot offset in
  u32 (Z.lor (Z.shiftl sfn 6) slot).

(* src: pnf_p7.c :: sfnsf_add_sf *)
Definition sfnsf_add_sf (sfnsf offset : Z) : Z :=
  let sfn := u16 (NFAPI_SFNSF2SFN sfnsf) in
  let sf := u16 (NFAPI_SFNSF2SF sfnsf) in
  let '(sfn, sf) := add_sf sfn sf offset in
  u16 (Z.lor (Z.shiftl sfn 4) sf).

(* src: pnf_p7.c :: sfnsf_subtract_sf *)
Definition sfnsf_subtract_sf (sfnsf offset : Z) : Z :=
  let sfn := u16 (NFAPI_SFNSF2SFN sfnsf) in
  let sf := u16 (NFAPI_SFNSF2SF sfnsf) in
  let '(sfn, sf) := subtract_sf sfn sf offset in
  u16 (Z.lor (Z.shiftl sfn 4) sf).

(** ** [nfapi_pnf.c] *)

(* src: nfapi_pnf.c :: get_sf_delta *)
Definition get_sf_delta (a b : Z) : Z :=
  let sfn_a := Z.shiftr a 4 in
  let sf_a := Z.land a 15 in
  let sfn_b := Z.shiftr b 4 in
  let sf_b := Z.land b 15 in
  (sfn_a * 10 + sf_a) - (sfn_b * 10 + sf_b).

(* src: nfapi_pnf.c :: get_slot_delta *)
Definition get_slot_delta (a b : Z) : Z :=
  let sfn_a := Z.shiftr a 6 in
  let slot_a := Z.land a 0x3F in
  let sfn_b := Z.shiftr b 6 in
  let slot_b := Z.land b 0x3F in
  (sfn_a * 20 + slot_a) - (sfn_b * 20 + slot_b).

(* src: nfapi_pnf.c :: sfn_sf_add *)
Definition sfn_sf_add (a add_val : Z) : Z :=
  let sfn_a := u16 (Z.shiftr a 4) in
  let sf_a := u16 (Z.land a 15) in
  let temp := u16 (sfn_a * 10 + sf_a + add_val) in
  let sf := u16 (Z.rem temp 10) in
  let sfn := u16 (Z.rem (Z.quot temp 10) 1024) in
  u16 (Z.lor (Z.shiftl sfn 4) sf).

(** [*sfn] is stored before [*slot] is read again, which is harmless. *)
(* src: nfapi_pnf.c :: sfn_slot_add *)
Definition sfn_slot_add (sfn slot add_val : Z) : Z * Z :=
  (u16 (Z.rem (sfn + Z.quot (slot + add_val) 20) 1024), u16 (Z.rem (slot + add_val) 20)).

(** The counters return the packed value and leave the pair in [*sfn], [*sf]. *)
(* src: nfapi_pnf.c :: sfn_sf_counter *)
Definition sfn_sf_counter (sfn sf : Z) : Z * (Z * Z) :=
  let sf := u16 (sf + 1) in
  let '(sfn, sf) :=
    if sf =? 10 then
      let sfn := u16 (sfn + 1) in
      if sfn =? 1024 then (0, 0) else (sfn, 0)
    else (sfn, sf) in
  (u16 (Z.lor (Z.shiftl sfn 4) sf), (sfn, sf)).

(* src: nfapi_pnf.c :: sfn_slot_counter *)
Definition sfn_slot_counter (sfn slot : Z) : Z * (Z * Z) :=
  let slot := u16 (slot + 1) in
  let '(sfn, slot) :=
    if slot =? 20 then
      let sfn := u16 (sfn + 1) in
      if sfn =? 1024 then (0, 0) else (sfn, 0)
    else (sfn, slot) in
  (u16 (Z.lor (Z.shiftl sfn 6) slot), (sfn, slot)).

(** ** The reference: positions in a hyperframe

    A subframe of the 1024-frame hyperframe is a number below 10240, a slot
    one below 20480; [sfnsf n] and [sfnslot n] are its packed forms. *)

Definition valid_sfn (sfn : Z) : Prop := 0 <= sfn < 1024.
Definition valid_sf (sf : Z) : Prop := 0 <= sf < 10.
Definition valid_slot (slot : Z) : Prop := 0 <= slot < 20.

Definition sfnsf (n : Z) : Z := n / 10 * 16 + n mod 10.
Definition sfnslot (n : Z) : Z := n / 20 * 64 + n mod 20.

(** A packed value that denotes a subframe or a slot. *)
Definition valid_sfnsf (v : Z) : Prop := 0 <= v < 16384 /\ v mod 16 < 10.
Definition valid_sfnslot (v : Z) : Prop := 0 <= v < 65536 /\ v mod 64 < 20.

Lemma sfnsf_valid n : 0 <= n < 10240 -> valid_sfnsf (sfnsf n).
Proof. unfold valid_sfnsf, sfnsf. lia. Qed.

Lemma sfnslot_valid n : 0 <= n < 20480 -> valid_sfnslot (sfnslot n).
Proof. unfold valid_sfnslot, sfnslot. lia. Qed.

Lemma sfnsf_pair sfn sf : valid_sf sf -> sfnsf (sfn * 10 + sf) = sfn * 16 + sf.
Proof. unfold valid_sf, sfnsf. lia. Qed.

Lemma sfnslot_pair sfn slot : valid_slot slot -> sfnslot (sfn * 20 + slot) = sfn * 64 + slot.
Proof. unfold valid_slot, sfnslot. lia. Qed.

Lemma NFAPI_SFNSF2DEC_sfnsf n : 0 <= n < 10240 -> NFAPI_SFNSF2DEC (sfnsf n) = n.
Proof.
  intros Hn. unfold NFAPI_SFNSF2DEC, sfnsf. change 0xF with (Z.ones 4).
  rewrite Z.land_ones, shiftr_div by lia. change (2 ^ 4) with 16. lia.
Qed.

Lemma NFAPI_SFNSFDEC2SFNSF_sfnsf n : 0 <= n < 10240 -> NFAPI_SFNSFDEC2SFNSF n = sfnsf n.
Proof.
  intros Hn. unfold NFAPI_SFNSFDEC2SFNSF, sfnsf. change 0xF with (Z.ones 4).
  rewrite Z.land_ones, Z.quot_div_nonneg by lia. change (2 ^ 4) with 16.
  rewrite lor_shiftl_add by lia. change (2 ^ 4) with 16. lia.
Qed.

Lemma NFAPI_SFNSLOT2HEX_sfnslot sfn slot :
  valid_slot slot -> NFAPI_SFNSLOT2HEX sfn slot = sfnslot (NFAPI_SFNSLOT2DEC sfn slot).
Proof.
  unfold valid_slot, NFAPI_SFNSLOT2HEX, NFAPI_SFNSLOT2DEC, sfnslot. intros Hs.
  change 0x3F with (Z.ones 6). rewrite Z.land_ones by lia. change (2 ^ 6) with 64.
  rewrite lor_shiftl_add by lia. change (2 ^ 6) with 64. lia.
Qed.

Lemma NFAPI_SFNSLOT2SFN_sfnslot n : 0 <= n -> NFAPI_SFNSLOT2SFN (sfnslot n) = n / 20.
Proof.
  intros. unfold NFAPI_SFNSLOT2SFN, sfnslot. rewrite shiftr_div by lia.
  change (2 ^ 6) with 64. lia.
Qed.

Lemma NFAPI_SFNSLOT2SLOT_sfnslot n : 0 <= n -> NFAPI_SFNSLOT2SLOT (sfnslot n) = n mod 20.
Proof.
  intros. unfold NFAPI_SFNSLOT2SLOT, sfnslot. change 0x3F with (Z.ones 6).
  rewrite Z.land_ones by lia. change (2 ^ 6) with 64. lia.
Qed.

Lemma NFAPI_SFNSLOTDEC2SFNSLOT_sfnslot n : 0 <= n -> NFAPI_SFNSLOTDEC2SFNSLOT n = sfnslot n.
Proof.
  intros. unfold NFAPI_SFNSLOTDEC2SFNSLOT, sfnslot. change 0x3F with (Z.ones 6).
  rewrite Z.land_ones, Z.quot_div_nonneg by lia. change (2 ^ 6) with 64.
  rewrite lor_shiftl_add by lia. change (2 ^ 6) with 64. lia.
Qed.

(** Every packed subframe or slot is the form of one position. *)
Lemma valid_sfnsf_inv v : valid_sfnsf v -> exists n, 0 <= n < 10240 /\ v = sfnsf n.
Proof. intros [H1 H2]. exists (v / 16 * 10 + v mod 16). unfold sfnsf. lia. Qed.

Lemma valid_sfnslot_inv v : valid_sfnslot v -> exists n, 0 <= n < 20480 /\ v = sfnslot n.
Proof. intros [H1 H2]. exists (v / 64 * 20 + v mod 64). unfold sfnslot. lia. Qed.

(** The helpers of the subframe/slot tasks are addition in the hyperframe. *)
Lemma add_sf_spec sfn sf k :
  valid_sfn sfn -> valid_sf sf -> 0 <= k < 1000000 ->
  let '(sfn', sf') := add_sf sfn sf k in
  valid_sfn sfn' /\ valid_sf sf' /\ sfn' * 10 + sf' = (sfn * 10 + sf + k) mod 10240.
Proof.
  unfold valid_sfn, valid_sf, add_sf. intros.
  rewrite Z.quot_div_nonneg, !Z.rem_mod_nonneg by lia. wrap_lia.
Qed.

Lemma add_slot_spec sfn slot k :
  valid_sfn sfn -> valid_slot slot -> 0 <= k < 1000000 ->
  let '(sfn', slot') := add_slot sfn slot k in
  valid_sfn sfn' /\ valid_slot slot' /\ sfn' * 20 + slot' = (sfn * 20 + slot + k) mod 20480.
Proof.
  unfold valid_sfn, valid_slot, add_slot. intros.
  rewrite Z.quot_div_nonneg, !Z.rem_mod_nonneg by lia. wrap_lia.
Qed.

Lemma subtract_sf_spec sfn sf k :
  valid_sfn sfn -> valid_sf sf -> 0 <= k <= 10 ->
  let '(sfn', sf') := subtract_sf sfn sf k in
  valid_sfn sfn' /\ valid_sf sf' /\ sfn' * 10 + sf' = (sfn * 10 + sf - k) mod 10240.
Proof.
  unfold valid_sfn, valid_sf, subtract_sf. intros.
  rewrite !Z.rem_mod_nonneg by lia. case_cmp; wrap_lia.
Qed.

Lemma unpack_sfnsf n :
  0 <= n < 10240 ->
  u16 (NFAPI_SFNSF2SFN (sfnsf n)) = n / 10 /\ u16 (NFAPI_SFNSF2SF (sfnsf n)) = n mod 10.
Proof.
  intros. unfold NFAPI_SFNSF2SFN, NFAPI_SFNSF2SF, sfnsf. change 0xF with (Z.ones 4).
  rewrite Z.land_ones, shiftr_div by lia. change (2 ^ 4) with 16. wrap_lia.
Qed.

Lemma pack_sfnsf sfn sf :
  valid_sfn sfn -> valid_sf sf -> u16 (Z.lor (Z.shiftl sfn 4) sf) = sfnsf (sfn * 10 + sf).
Proof.
  unfold valid_sfn, valid_sf. intros. rewrite sfnsf_pair by done.
  rewrite lor_shiftl_add by lia. change (2 ^ 4) with 16. wrap_lia.
Qed.

Lemma pack_sfnslot sfn slot :
  valid_sfn sfn -> valid_slot slot -> Z.lor (Z.shiftl sfn 6) slot = sfnslot (sfn * 20 + slot).
Proof.
  unfold valid_sfn, valid_slot. intros. rewrite sfnslot_pair by done.
  rewrite lor_shiftl_add by lia. change (2 ^ 6) with 64. lia.
Qed.

(** The deltas are differences of positions, with no wrap at the hyperframe. *)
Lemma get_sf_delta_sfnsf a b :
  0 <= a < 10240 -> 0 <= b < 10240 -> get_sf_delta (sfnsf a) (sfnsf b) = a - b.
Proof.
  intros. change (get_sf_delta (sfnsf a) (sfnsf b))
    with (NFAPI_SFNSF2DEC (sfnsf a) - NFAPI_SFNSF2DEC (sfnsf b)).
  by rewrite !NFAPI_SFNSF2DEC_sfnsf by lia.
Qed.

Lemma get_slot_delta_sfnslot a b :
  0 <= a -> 0 <= b -> get_slot_delta (sfnslot a) (sfnslot b) = a - b.
Proof.
  intros. unfold get_slot_delta. fold (NFAPI_SFNSLOT2SFN (sfnslot a)) (NFAPI_SFNSLOT2SLOT (sfnslot a)).
  fold (NFAPI_SFNSLOT2SFN (sfnslot b)) (NFAPI_SFNSLOT2SLOT (sfnslot b)).
  rewrite !NFAPI_SFNSLOT2SFN_sfnslot, !NFAPI_SFNSLOT2SLOT_sfnslot by lia. lia.
Qed.

(** Packed values fit 16 bits. *)
Lemma sfnsf_range n : 0 <= n < 10240 -> 0 <= sfnsf n < 65536.
Proof.
  intros Hn. unfold sfnsf. lia.
Qed.

Lemma sfnsf_add_sf_spec n k :
  0 <= n < 10240 -> 0 <= k <= 10 -> sfnsf_add_sf (sfnsf n) k = sfnsf ((n + k) mod 10240).
Proof.
  intros Hn Hk. destruct (unpack_sfnsf n Hn) as [E1 E2].
  assert (valid_sfn (n / 10)) by (unfold valid_sfn; lia).
  assert (valid_sf (n mod 10)) by (unfold valid_sf; lia).
  unfold sfnsf_add_sf. rewrite E1, E2.
  pose proof (add_sf_spec (n / 10) (n mod 10) k ltac:(done) ltac:(done) ltac:(lia)) as Hs.
  destruct (add_sf _ _ _) as [sfn sf]. destruct Hs as (? & ? & Hs).
  rewrite pack_sfnsf, Hs by done. f_equal. lia.
Qed.

(** The counters step to the next position of the hyperframe. *)
Lemma sfn_sf_counter_spec n : 0 <= n < 10240 -> let n' := (n + 1) mod 10240 in
  sfn_sf_counter (n / 10) (n mod 10) = (sfnsf n', (n' / 10, n' mod 10)).
Proof.
  intros Hn n'. assert (valid_sfn (n / 10)) by (unfold valid_sfn; lia).
  unfold sfn_sf_counter, valid_sfn in *. unfold n'.
  repeat case_cmp; rewrite pack_sfnsf by (unfold valid_sfn, valid_sf; wrap_lia);
    repeat (f_equal; try wrap_lia).
Qed.

Lemma sfn_slot_counter_spec n : 0 <= n < 20480 -> let n' := (n + 1) mod 20480 in
  sfn_slot_counter (n / 20) (n mod 20) = (sfnslot n', (n' / 20, n' mod 20)).
Proof.
  intros Hn n'. assert (valid_sfn (n / 20)) by (unfold valid_sfn; lia).
  unfold sfn_slot_counter, valid_sfn in *. unfold n'.
  repeat case_cmp; rewrite pack_sfnslot by (unfold valid_sfn, valid_slot; wrap_lia);
    rewrite u16_small by (unfold sfnslot; wrap_lia); repeat (f_equal; try wrap_lia).
Qed.

Lemma sfnslot_add_slot_spec m k : 0 <= m < 20480 -> 0 <= k <= 10 ->
  sfnslot_add_slot (m / 20) (m mod 20) k = sfnslot ((m + k) mod 20480).
Proof.
  intros Hm Hk. assert (valid_sfn (m / 20)) by (unfold valid_sfn; lia).
  assert (valid_slot (m mod 20)) by (unfold valid_slot; lia).
  unfold sfnslot_add_slot.
  pose proof (add_slot_spec (m / 20) (m mod 20) k ltac:(done) ltac:(done) ltac:(lia)) as Hs.
  destruct (add_slot _ _ _) as [sfn slot]. destruct Hs as (? & ? & Hs).
  rewrite pack_sfnslot by done. rewrite u32_small, Hs; [f_equal; lia|].
  unfold sfnslot, valid_sfn, valid_slot in *. wrap_lia.
Qed.

Lemma sfn_sf_add_spec n k :
  0 <= n < 10240 -> 0 <= k <= 10 -> sfn_sf_add (sfnsf n) k = sfnsf ((n + k) mod 10240).
Proof.
  intros Hn Hk. destruct (unpack_sfnsf n Hn) as [E1 E2].
  assert (valid_sfn (n / 10)) by (unfold valid_sfn; lia).
  assert (valid_sf (n mod 10)) by (unfold valid_sf; lia).
  unfold sfn_sf_add. fold (NFAPI_SFNSF2SFN (sfnsf n)) (NFAPI_SFNSF2SF (sfnsf n)).
  rewrite E1, E2, Z.quot_div_nonneg, !Z.rem_mod_nonneg by wrap_lia.
  rewrite pack_sfnsf by (unfold valid_sfn, valid_sf; wrap_lia). f_equal. wrap_lia.
Qed.

(** C39.  On packed subframes and slots the code's additions, subtraction and
    counters are addition modulo the hyperframe: 10240 subframes, 20480
    slots. *)
Theorem hyperframe_arithmetic n k m :
  0 <= n < 10240 -> 0 <= k <= 10 -> 0 <= m < 20480 ->
  sfnsf_add_sf (sfnsf n) k = sfnsf ((n + k) mod 10240) /\
  sfn_sf_add (sfnsf n) k = sfnsf ((n + k) mod 10240) /\
  sfnsf_subtract_sf (sfnsf n) k = sfnsf ((n - k) mod 10240) /\
  fst (sfn_sf_counter (n / 10) (n mod 10)) = sfnsf ((n + 1) mod 10240) /\
  sfnslot_add_slot (m / 20) (m mod 20) k = sfnslot ((m + k) mod 20480) /\
  sfn_slot_add (m / 20) (m mod 20) k = ((m + k) mod 20480 / 20, (m + k) mod 20480 mod 20) /\
  fst (sfn_slot_counter (m / 20) (m mod 20)) = sfnslot ((m + 1) mod 20480).
Proof.
  intros Hn Hk Hm. destruct (unpack_sfnsf n Hn) as [E1 E2].
  assert (valid_sfn (n / 10)) by (unfold valid_sfn; lia).
  assert (valid_sf (n mod 10)) by (unfold valid_sf; lia).
  assert (valid_sfn (m / 20)) by (unfold valid_sfn; lia).
  assert (valid_slot (m mod 20)) by (unfold valid_slot; lia).
  repeat split.
  - by apply sfnsf_add_sf_spec.
  - by apply sfn_sf_add_spec.
  - unfold sfnsf_subtract_sf. rewrite E1, E2.
    pose proof (subtract_sf_spec (n / 10) (n mod 10) k ltac:(done) ltac:(done) ltac:(lia)) as Hs.
    destruct (subtract_sf _ _ _) as [sfn sf]. destruct Hs as (? & ? & Hs).
    rewrite pack_sfnsf, Hs by done. f_equal. lia.
  - by rewrite sfn_sf_counter_spec.
  - by apply sfnslot_add_slot_spec.
  - unfold sfn_slot_add. rewrite Z.quot_div_nonneg, !Z.rem_mod_nonneg by lia. f_equal; wrap_lia.
  - by rewrite sfn_slot_counter_spec.
Qed.

Lemma hyperframe_arithmetic_witness : sfnsf_subtract_sf 0x0000 3 = 0x3FF7.
Proof.
  apply (hyperframe_arithmetic 0 3 0); lia.
Defined.
