(* ===== verification/Ids.v ===== *)
(** * Message identifiers

    The identifiers a P4, P5 or P7 header carries and the error codes, as the
    enumerations of [nfapi_interface.h] and [nfapi_nr_interface_scf.h] number
    them, and the functions of [nfapiutils.c] and [nfapi.c] that name them. *)

From S2P Require Import Prelude Codec Sfn.
From Stdlib Require Import String.
Open Scope Z_scope.

(** ** LTE P5, P7 and P4 messages *)

(* enum: nfapi_interface.h *)
Definition NFAPI_DL_CONFIG_REQUEST : Z := 0x80.
Definition NFAPI_UL_CONFIG_REQUEST : Z := 0x81.
Definition NFAPI_SUBFRAME_INDICATION : Z := 0x82.
Definition NFAPI_HI_DCI0_REQUEST : Z := 0x83.
Definition NFAPI_TX_REQUEST : Z := 0x84.
Definition NFAPI_HARQ_INDICATION : Z := 0x85.
Definition NFAPI_CRC_INDICATION : Z := 0x86.
Definition NFAPI_RX_ULSCH_INDICATION : Z := 0x87.
Definition NFAPI_RACH_INDICATION : Z := 0x88.
Definition NFAPI_SRS_INDICATION : Z := 0x89.
Definition NFAPI_RX_SR_INDICATION : Z := 0x8A.
Definition NFAPI_RX_CQI_INDICATION : Z := 0x8B.
Definition NFAPI_LBT_DL_CONFIG_REQUEST : Z := 0x8C.
Definition NFAPI_LBT_DL_INDICATION : Z := 0x8D.
Definition NFAPI_NB_HARQ_INDICATION : Z := 0x8E.
Definition NFAPI_NRACH_INDICATION : Z := 0x8F.
Definition NFAPI_UE_RELEASE_REQUEST : Z := 0x90.
Definition NFAPI_UE_RELEASE_RESPONSE : Z := 0x91.
Definition NFAPI_PNF_PARAM_REQUEST : Z := 0x100.
Definition NFAPI_PNF_PARAM_RESPONSE : Z := 0x101.
Definition NFAPI_PNF_CONFIG_REQUEST : Z := 0x102.
Definition NFAPI_PNF_CONFIG_RESPONSE : Z := 0x103.
Definition NFAPI_PNF_START_REQUEST : Z := 0x104.
Definition NFAPI_PNF_START_RESPONSE : Z := 0x105.
Definition NFAPI_PNF_STOP_REQUEST : Z := 0x106.
Definition NFAPI_PNF_STOP_RESPONSE : Z := 0x107.
Definition NFAPI_PARAM_REQUEST : Z := 0x108.
Definition NFAPI_PARAM_RESPONSE : Z := 0x109.
Definition NFAPI_CONFIG_REQUEST : Z := 0x10A.
Definition NFAPI_CONFIG_RESPONSE : Z := 0x10B.
Definition NFAPI_START_REQUEST : Z := 0x10C.
Definition NFAPI_START_RESPONSE : Z := 0x10D.
Definition NFAPI_STOP_REQUEST : Z := 0x10E.
Definition NFAPI_STOP_RESPONSE : Z := 0x10F.
Definition NFAPI_MEASUREMENT_REQUEST : Z := 0x110.
Definition NFAPI_MEASUREMENT_RESPONSE : Z := 0x111.
Definition NFAPI_UL_NODE_SYNC : Z := 0x180.
Definition NFAPI_DL_NODE_SYNC : Z := 0x181.
Definition NFAPI_TIMING_INFO : Z := 0x182.
Definition NFAPI_RSSI_REQUEST : Z := 0x200.
Definition NFAPI_RSSI_RESPONSE : Z := 0x201.
Definition NFAPI_RSSI_INDICATION : Z := 0x202.
Definition NFAPI_CELL_SEARCH_REQUEST : Z := 0x203.
Definition NFAPI_CELL_SEARCH_RESPONSE : Z := 0x204.
Definition NFAPI_CELL_SEARCH_INDICATION : Z := 0x205.
Definition NFAPI_BROADCAST_DETECT_REQUEST : Z := 0x206.
Definition NFAPI_BROADCAST_DETECT_RESPONSE : Z := 0x207.
Definition NFAPI_BROADCAST_DETECT_INDICATION : Z := 0x208.
Definition NFAPI_SYSTEM_INFORMATION_SCHEDULE_REQUEST : Z := 0x209.
Definition NFAPI_SYSTEM_INFORMATION_SCHEDULE_RESPONSE : Z := 0x20A.
Definition NFAPI_SYSTEM_INFORMATION_SCHEDULE_INDICATION : Z := 0x20B.
Definition NFAPI_SYSTEM_INFORMATION_REQUEST : Z := 0x20C.
Definition NFAPI_SYSTEM_INFORMATION_RESPONSE : Z := 0x20D.
Definition NFAPI_SYSTEM_INFORMATION_INDICATION : Z := 0x20E.
Definition NFAPI_NMM_STOP_REQUEST : Z := 0x20F.
Definition NFAPI_NMM_STOP_RESPONSE : Z := 0x210.
Definition NFAPI_VENDOR_EXT_MSG_MIN : Z := 0x300.
Definition NFAPI_VENDOR_EXT_MSG_MAX : Z := 0x3FF.
Definition NFAPI_MAX_MESSAGE_ID : Z := 0x400.
(* end enum *)

(** ** Error codes *)

(* enum: nfapi_interface.h *)
Definition NFAPI_MSG_OK : Z := 0.
Definition NFAPI_MSG_INVALID_STATE : Z := 1.
Definition NFAPI_MSG_INVALID_CONFIG : Z := 2.
Definition NFAPI_SFN_OUT_OF_SYNC : Z := 3.
Definition NFAPI_MSG_SUBFRAME_ERR : Z := 4.
Definition NFAPI_MSG_BCH_MISSING : Z := 5.
Definition NFAPI_MSG_INVALID_SFN : Z := 6.
Definition NFAPI_MSG_HI_ERR : Z := 7.
Definition NFAPI_MSG_TX_ERR : Z := 8.
Definition NFAPI_LBT_NO_PDU_IN_DL_REQ : Z := 9.
Definition NFAPI_LBT_NO_VALID_CONFIG_REQ_RECEIVED : Z := 10.
Definition NFAPI_FAPI_E_LBT_SF_SFN_PASSED_END_SF_SFN : Z := 11.
Definition NFAPI_FAPI_E_LBT_OVERLAP : Z := 12.
Definition NFAPI_MSG_BCH_PRESENT : Z := 13.
Definition NFAPI_NBIOT_UNEXPECTED_REQ : Z := 14.
Definition NFAPI_MSG_P9_RESPONSE : Z := 0xAA.
Definition NFAPI_P4_MSG_OK : Z := 0x64.
Definition NFAPI_P4_MSG_INVALID_STATE : Z := 0x65.
Definition NFAPI_P4_MSG_INVALID_CONFIG : Z := 0x66.
Definition NFAPI_P4_MSG_RAT_NOT_SUPPORTED : Z := 0x67.
Definition NFAPI_P4_MSG_NMM_STOP_OK : Z := 0xC8.
Definition NFAPI_P4_MSG_NMM_STOP_IGNOREDED : Z := 0xC9.
Definition NFAPI_P4_MSG_NMM_STOP_INVALID_STATE : Z := 0xCA.
Definition NFAPI_P4_MSG_PROCEDURE_COMPLETE : Z := 0x12C.
Definition NFAPI_P4_MSG_PROCEDURE_STOPPED : Z := 0x12D.
Definition NFAPI_P4_MSG_PARTIAL_RESULTS : Z := 0x12E.
Definition NFAPI_P4_MSG_TIMEOUT : Z := 0x12F.
(* end enum *)

(** ** NR messages *)

(* enum: nfapi_nr_interface_scf.h *)
Definition NFAPI_NR_PHY_MSG_TYPE_PARAM_REQUEST : Z := 0.
Definition NFAPI_NR_PHY_MSG_TYPE_PARAM_RESPONSE : Z := 1.
Definition NFAPI_NR_PHY_MSG_TYPE_CONFIG_REQUEST : Z := 2.
Definition NFAPI_NR_PHY_MSG_TYPE_CONFIG_RESPONSE : Z := 3.
Definition NFAPI_NR_PHY_MSG_TYPE_START_REQUEST : Z := 4.
Definition NFAPI_NR_PHY_MSG_TYPE_STOP_REQUEST : Z := 5.
Definition NFAPI_NR_PHY_MSG_TYPE_STOP_INDICATION : Z := 6.
Definition NFAPI_NR_PHY_MSG_TYPE_ERROR_INDICATION : Z := 7.
Definition NFAPI_NR_PHY_MSG_TYPE_START_RESPONSE : Z := 0x10D.
Definition NFAPI_NR_PHY_MSG_TYPE_STOP_RESPONSE : Z := 0x10F.
Definition NFAPI_NR_PHY_MSG_TYPE_DL_TTI_REQUEST : Z := 0x80.
Definition NFAPI_NR_PHY_MSG_TYPE_UL_TTI_REQUEST : Z := 0x81.
Definition NFAPI_NR_PHY_MSG_TYPE_SLOT_INDICATION : Z := 0x82.
Definition NFAPI_NR_PHY_MSG_TYPE_UL_DCI_REQUEST : Z := 0x83.
Definition NFAPI_NR_PHY_MSG_TYPE_TX_DATA_REQUEST : Z := 0x84.
Definition NFAPI_NR_PHY_MSG_TYPE_RX_DATA_INDICATION : Z := 0x85.
Definition NFAPI_NR_PHY_MSG_TYPE_CRC_INDICATION : Z := 0x86.
Definition NFAPI_NR_PHY_MSG_TYPE_UCI_INDICATION : Z := 0x87.
Definition NFAPI_NR_PHY_MSG_TYPE_SRS_INDICATION : Z := 0x88.
Definition NFAPI_NR_PHY_MSG_TYPE_RACH_INDICATION : Z := 0x89.
Definition NFAPI_NR_PHY_MSG_TYPE_PNF_PARAM_REQUEST : Z := 0x100.
Definition NFAPI_NR_PHY_MSG_TYPE_PNF_PARAM_RESPONSE : Z := 0x101.
Definition NFAPI_NR_PHY_MSG_TYPE_PNF_CONFIG_REQUEST : Z := 0x102.
Definition NFAPI_NR_PHY_MSG_TYPE_PNF_CONFIG_RESPONSE : Z := 0x103.
Definition NFAPI_NR_PHY_MSG_TYPE_PNF_START_REQUEST : Z := 0x104.
Definition NFAPI_NR_PHY_MSG_TYPE_PNF_START_RESPONSE : Z := 0x105.
Definition NFAPI_NR_PHY_MSG_TYPE_PNF_STOP_REQUEST : Z := 0x106.
Definition NFAPI_NR_PHY_MSG_TYPE_PNF_STOP_RESPONSE : Z := 0x107.
Definition NFAPI_NR_PHY_MSG_TYPE_UL_NODE_SYNC : Z := 0x180.
Definition NFAPI_NR_PHY_MSG_TYPE_DL_NODE_SYNC : Z := 0x181.
Definition NFAPI_NR_PHY_MSG_TYPE_TIMING_INFO : Z := 0x182.
(* end enum *)

(** ** Names

    A [switch] over identifiers is the first matching row of a table. *)

Fixpoint switch {A} (cases : list (Z * A)) (default : A) (id : Z) : A :=
  match cases with
  | [] => default
  | (k, v) :: cases => if id =? k then v else switch cases default id
  end.

(** [X(ID)] of the source stringises the identifier without its prefix. *)
(* src: nfapiutils.c :: nfap_message_id_to_string *)
Definition nfap_message_id_to_string (id : Z) : string :=
  switch
    [(NFAPI_DL_CONFIG_REQUEST, "DL_CONFIG_REQUEST"%string);
     (NFAPI_UL_CONFIG_REQUEST, "UL_CONFIG_REQUEST"%string);
     (NFAPI_SUBFRAME_INDICATION, "SUBFRAME_INDICATION"%string);
     (NFAPI_HI_DCI0_REQUEST, "HI_DCI0_REQUEST"%string);
     (NFAPI_TX_REQUEST, "TX_REQUEST"%string);
     (NFAPI_HARQ_INDICATION, "HARQ_INDICATION"%string);
     (NFAPI_CRC_INDICATION, "CRC_INDICATION"%string);
     (NFAPI_RX_ULSCH_INDICATION, "RX_ULSCH_INDICATION"%string);
     (NFAPI_RACH_INDICATION, "RACH_INDICATION"%string);
     (NFAPI_SRS_INDICATION, "SRS_INDICATION"%string);
     (NFAPI_RX_SR_INDICATION, "RX_SR_INDICATION"%string);
     (NFAPI_RX_CQI_INDICATION, "RX_CQI_INDICATION"%string);
     (NFAPI_LBT_DL_CONFIG_REQUEST, "LBT_DL_CONFIG_REQUEST"%string);
     (NFAPI_LBT_DL_INDICATION, "LBT_DL_INDICATION"%string);
     (NFAPI_NB_HARQ_INDICATION, "NB_HARQ_INDICATION"%string);
     (NFAPI_NRACH_INDICATION, "NRACH_INDICATION"%string);
     (NFAPI_UE_RELEASE_REQUEST, "UE_RELEASE_REQUEST"%string);
     (NFAPI_UE_RELEASE_RESPONSE, "UE_RELEASE_RESPONSE"%string);
     (NFAPI_PNF_PARAM_REQUEST, "PNF_PARAM_REQUEST"%string);
     (NFAPI_PNF_PARAM_RESPONSE, "PNF_PARAM_RESPONSE"%string);
     (NFAPI_PNF_CONFIG_REQUEST, "PNF_CONFIG_REQUEST"%string);
     (NFAPI_PNF_CONFIG_RESPONSE, "PNF_CONFIG_RESPONSE"%string);
     (NFAPI_PNF_START_REQUEST, "PNF_START_REQUEST"%string);
     (NFAPI_PNF_START_RESPONSE, "PNF_START_RESPONSE"%string);
     (NFAPI_PNF_STOP_REQUEST, "PNF_STOP_REQUEST"%string);
     (NFAPI_PNF_STOP_RESPONSE, "PNF_STOP_RESPONSE"%string);
     (NFAPI_PARAM_REQUEST, "PARAM_REQUEST"%string);
     (NFAPI_PARAM_RESPONSE, "PARAM_RESPONSE"%string);
     (NFAPI_CONFIG_REQUEST, "CONFIG_REQUEST"%string);
     (NFAPI_CONFIG_RESPONSE, "CONFIG_RESPONSE"%string);
     (NFAPI_START_REQUEST, "START_REQUEST"%string);
     (NFAPI_START_RESPONSE, "START_RESPONSE"%string);
     (NFAPI_STOP_REQUEST, "STOP_REQUEST"%string);
     (NFAPI_STOP_RESPONSE, "STOP_RESPONSE"%string);
     (NFAPI_MEASUREMENT_REQUEST, "MEASUREMENT_REQUEST"%string);
     (NFAPI_MEASUREMENT_RESPONSE, "MEASUREMENT_RESPONSE"%string);
     (NFAPI_UL_NODE_SYNC, "UL_NODE_SYNC"%string);
     (NFAPI_DL_NODE_SYNC, "DL_NODE_SYNC"%string);
     (NFAPI_TIMING_INFO, "TIMING_INFO"%string);
     (NFAPI_RSSI_REQUEST, "RSSI_REQUEST"%string);
     (NFAPI_RSSI_RESPONSE, "RSSI_RESPONSE"%string);
     (NFAPI_RSSI_INDICATION, "RSSI_INDICATION"%string);
     (NFAPI_CELL_SEARCH_REQUEST, "CELL_SEARCH_REQUEST"%string);
     (NFAPI_CELL_SEARCH_RESPONSE, "CELL_SEARCH_RESPONSE"%string);
     (NFAPI_CELL_SEARCH_INDICATION, "CELL_SEARCH_INDICATION"%string);
     (NFAPI_BROADCAST_DETECT_REQUEST, "BROADCAST_DETECT_REQUEST"%string);
     (NFAPI_BROADCAST_DETECT_RESPONSE, "BROADCAST_DETECT_RESPONSE"%string);
     (NFAPI_BROADCAST_DETECT_INDICATION, "BROADCAST_DETECT_INDICATION"%string);
     (NFAPI_SYSTEM_INFORMATION_SCHEDULE_REQUEST, "SYSTEM_INFORMATION_SCHEDULE_REQUEST"%string);
     (NFAPI_SYSTEM_INFORMATION_SCHEDULE_RESPONSE, "SYSTEM_INFORMATION_SCHEDULE_RESPONSE"%string);
     (NFAPI_SYSTEM_INFORMATION_SCHEDULE_INDICATION, "SYSTEM_INFORMATION_SCHEDULE_INDICATION"%string);
     (NFAPI_SYSTEM_INFORMATION_REQUEST, "SYSTEM_INFORMATION_REQUEST"%string);
     (NFAPI_SYSTEM_INFORMATION_RESPONSE, "SYSTEM_INFORMATION_RESPONSE"%string);
     (NFAPI_SYSTEM_INFORMATION_INDICATION, "SYSTEM_INFORMATION_INDICATION"%string);
     (NFAPI_NMM_STOP_REQUEST, "NMM_STOP_REQUEST"%string);
     (NFAPI_NMM_STOP_RESPONSE, "NMM_STOP_RESPONSE"%string);
     (NFAPI_VENDOR_EXT_MSG_MIN, "VENDOR_EXT_MSG_MIN"%string);
     (NFAPI_VENDOR_EXT_MSG_MAX, "VENDOR_EXT_MSG_MAX"%string)] "*UNKNOWN ID*"%string id.

(* src: nfapi.c :: nfapi_error_code_to_str *)
Definition nfapi_error_code_to_str (value : Z) : string :=
  switch
    [(NFAPI_MSG_OK, "NFAPI_MSG_OK"%string);
     (NFAPI_MSG_INVALID_STATE, "NFAPI_MSG_INVALID_STATE"%string);
     (NFAPI_MSG_INVALID_CONFIG, "NFAPI_MSG_INVALID_CONFIG"%string);
     (NFAPI_SFN_OUT_OF_SYNC, "NFAPI_SFN_OUT_OF_SYNC"%string);
     (NFAPI_MSG_SUBFRAME_ERR, "NFAPI_MSG_SUBFRAME_ERR"%string);
     (NFAPI_MSG_BCH_MISSING, "NFAPI_MSG_BCH_MISSING"%string);
     (NFAPI_MSG_INVALID_SFN, "NFAPI_MSG_INVALID_SFN"%string);
     (NFAPI_MSG_HI_ERR, "NFAPI_MSG_HI_ERR"%string);
     (NFAPI_MSG_TX_ERR, "NFAPI_MSG_TX_ERR"%string)] "UNKNOWN"%string value.

(* src: nfapiutils.c :: checkMsgType *)
Definition checkMsgType (header : Z) : Z :=
  switch
    ((fun id => (id, 0)) <$>
     [NFAPI_UL_NODE_SYNC; NFAPI_TIMING_INFO; NFAPI_HARQ_INDICATION; NFAPI_CRC_INDICATION;
      NFAPI_RX_ULSCH_INDICATION; NFAPI_RACH_INDICATION; NFAPI_SRS_INDICATION;
      NFAPI_RX_SR_INDICATION; NFAPI_RX_CQI_INDICATION; NFAPI_LBT_DL_INDICATION;
      NFAPI_NB_HARQ_INDICATION; NFAPI_NRACH_INDICATION; NFAPI_UE_RELEASE_RESPONSE]) 1 header.

(** ** Peeking at a packed P7 message

    [pull16] into a variable that keeps its initial value when the buffer is
    too short. *)
Definition pull16_or (old : Z) (l : list Z) : Z * list Z :=
  match pull16 l with Some r => r | None => (old, l) end.

(** The C value [(uint16_t)~0]. *)
Definition u16_ones : Z := 0xFFFF.

(* src: nfapi_interface.h 101-108 sizeof_nfapi_p7_message_header_t *)
Definition sizeof_nfapi_p7_message_header_t : nat := 16.

(** The identifier field, all ones when the buffer does not reach it. *)
(* src: nfapi_pnf.c :: get_message_id *)
Definition get_message_id (data : list Z) : Z :=
  let '(_, l) := pull16_or u16_ones data in
  fst (pull16_or u16_ones l).

(* src: nfapiutils.c :: nfapi_get_message_id *)
Definition nfapi_get_message_id (msg : list Z) : string :=
  switch
    [(NFAPI_RACH_INDICATION, "RACH"%string);
     (NFAPI_CRC_INDICATION, "CRC"%string);
     (NFAPI_RX_ULSCH_INDICATION, "RX"%string);
     (NFAPI_RX_CQI_INDICATION, "CQI"%string);
     (NFAPI_HARQ_INDICATION, "HARQ"%string);
     (NFAPI_RX_SR_INDICATION, "SR"%string);
     (0, "Dummy"%string)] "Unknown"%string (get_message_id msg).

(* src: nfapiutils.c :: nfapi_nr_get_message_id *)
Definition nfapi_nr_get_message_id (msg : list Z) : string :=
  switch
    [(NFAPI_NR_PHY_MSG_TYPE_RACH_INDICATION, "RACH_NR"%string);
     (NFAPI_NR_PHY_MSG_TYPE_CRC_INDICATION, "CRC_NR"%string);
     (NFAPI_NR_PHY_MSG_TYPE_RX_DATA_INDICATION, "RX_DATA_NR"%string);
     (NFAPI_NR_PHY_MSG_TYPE_UCI_INDICATION, "UCI_NR"%string);
     (NFAPI_NR_PHY_MSG_TYPE_SRS_INDICATION, "SRS_NR"%string);
     (0, "Dummy"%string)] "Unknown"%string (get_message_id msg).

(** The uplink indications whose subframe the code reads. *)
Definition lte_uplink_ids : list Z :=
  [NFAPI_RACH_INDICATION; NFAPI_CRC_INDICATION; NFAPI_RX_ULSCH_INDICATION;
   NFAPI_RX_CQI_INDICATION; NFAPI_HARQ_INDICATION; NFAPI_RX_SR_INDICATION].

Definition nr_uplink_ids : list Z :=
  [NFAPI_NR_PHY_MSG_TYPE_RACH_INDICATION; NFAPI_NR_PHY_MSG_TYPE_CRC_INDICATION;
   NFAPI_NR_PHY_MSG_TYPE_RX_DATA_INDICATION; NFAPI_NR_PHY_MSG_TYPE_UCI_INDICATION;
   NFAPI_NR_PHY_MSG_TYPE_SRS_INDICATION].

(** The identifier of a message, provided it is one of [ids]. *)
Definition checked_id (ids : list Z) (data : list Z) : option Z :=
  match pull16 data with
  | None => None
  | Some (_, l) =>
      match pull16 l with
      | None => None
      | Some (id, _) => if bool_decide (id ∈ ids) then Some id else None
      end
  end.

(** [false] of the C function is [None]. *)
(* src: nfapi_pnf.c :: get_sfnsf *)
Definition get_sfnsf (data : list Z) : option Z :=
  match checked_id lte_uplink_ids data with
  | None => None
  | Some _ => fst <$> pull16 (drop sizeof_nfapi_p7_message_header_t data)
  end.

(* src: nfapi_pnf.c :: get_sfnslot *)
Definition get_sfnslot (data : list Z) : option Z :=
  match checked_id nr_uplink_ids data with
  | None => None
  | Some _ =>
      match pull16 (drop sizeof_nfapi_p7_message_header_t data) with
      | None => None
      | Some (sfn, l) =>
          (fun r => u16 (NFAPI_SFNSLOT2HEX sfn (fst r))) <$> pull16 l
      end
  end.

(** The variants used for tracing also accept the identifier 0 and return all
    ones instead of failing. *)
(* src: nfapiutils.c :: nfapi_get_sfnsf *)
Definition nfapi_get_sfnsf (data : list Z) : Z :=
  match checked_id (lte_uplink_ids ++ [0]) data with
  | None => u16_ones
  | Some _ =>
      match pull16 (drop sizeof_nfapi_p7_message_header_t data) with
      | None => u16_ones
      | Some (sfn_sf, _) => sfn_sf
      end
  end.

(* src: nfapiutils.c :: nfapi_get_sfnslot *)
Definition nfapi_get_sfnslot (data : list Z) : Z :=
  match checked_id (nr_uplink_ids ++ [0]) data with
  | None => u16_ones
  | Some _ =>
      match pull16 (drop sizeof_nfapi_p7_message_header_t data) with
      | None => u16_ones
      | Some (sfn, l) =>
          match pull16 l with
          | None => u16_ones
          | Some (slot, _) => u16 (NFAPI_SFNSLOT2HEX sfn slot)
          end
      end
  end.

(** ** Facts *)

Lemma checked_id_get ids data id : checked_id ids data = Some id -> get_message_id data = id /\ id ∈ ids.
Proof.
  unfold checked_id, get_message_id, pull16_or.
  destruct (pull16 data) as [[? l]|]; [|done]. destruct (pull16 l) as [[i ?]|]; [|done].
  case_bool_decide; [|done]. by intros [= ->].
Qed.

Lemma uplink_ids_nonzero : (0 ∉ lte_uplink_ids) /\ (0 ∉ nr_uplink_ids).
Proof. split; intros H; repeat (apply elem_of_cons in H as [H|H]; [discriminate H|]); set_solver. Qed.

Lemma get_sfnsf_id data v : get_sfnsf data = Some v -> get_message_id data ∈ lte_uplink_ids.
Proof.
  unfold get_sfnsf. destruct (checked_id _ _) eqn:E; [|done].
  apply checked_id_get in E as [-> ?]. done.
Qed.

Lemma get_sfnslot_id data v : get_sfnslot data = Some v -> get_message_id data ∈ nr_uplink_ids.
Proof.
  unfold get_sfnslot. destruct (checked_id _ _) eqn:E; [|done].
  apply checked_id_get in E as [-> ?]. done.
Qed.
