(* ===== verification/PnfP5.v ===== *)
(** * The P5 side of the PNF ([pnf.c], [pnf_interface.c], [nfapi_pnf.c])

    The VNF configures and starts the proxy over P5: PNF_PARAM, PNF_CONFIG,
    PNF_START, then PARAM, CONFIG and START for a PHY, upon which the P7 thread
    is created.  This file models the handlers of [pnf.c] with their checks of
    the state of the PNF and of the PHY, the response functions of
    [pnf_interface.c] that change those states, and the callbacks the proxy
    registers in [configure_nfapi_pnf] and [configure_nr_nfapi_pnf].

    The LTE and the NR handlers are copies of each other; where they differ only
    in names, one definition takes the kind of stack [rat] as an argument and the
    NR name is an instance of it.

    A request is what the P4 and P5 unpackers make of a message: whether they
    accept it, and the fields the handlers use.  The
    result of a handler is the new state and the list of its effects.  The
    result of sending is ignored by all callers and sending is taken to succeed,
    except that the packers refuse messages whose identifier they do not know. *)

From S2P Require Import Prelude Ids.

(** ** State *)

(* src: nfapi_pnf_interface.h :: nfapi_pnf_state_e *)
Inductive nfapi_pnf_state_e := NFAPI_PNF_IDLE | NFAPI_PNF_CONFIGURED | NFAPI_PNF_RUNNING.
(* src: nfapi_pnf_interface.h :: nfapi_pnf_phy_state_e *)
Inductive nfapi_pnf_phy_state_e := NFAPI_PNF_PHY_IDLE | NFAPI_PNF_PHY_CONFIGURED | NFAPI_PNF_PHY_RUNNING.

#[export] Instance pnf_state_eq_dec : EqDecision nfapi_pnf_state_e.
Proof. solve_decision. Defined.
#[export] Instance pnf_phy_state_eq_dec : EqDecision nfapi_pnf_phy_state_e.
Proof. solve_decision. Defined.

(** [phy_p7] tells whether [user_data] points to a P7 configuration. *)
(* src: nfapi_pnf_interface.h 54-67 nfapi_pnf_phy_config_t *)
Record nfapi_pnf_phy_config_t := Phy { phy_id : Z; phy_state : nfapi_pnf_phy_state_e; phy_p7 : bool }.

(** The fields of the proxy's [pnf->phys[0]] that the callbacks set and read. *)
(* src: nfapi_pnf.h 83-116 phy_info *)
Record phy_info := PhyInfo {
  id : Z; remote_port : Z; remote_addr : list Z;
  timing_window : Z; timing_info_mode : Z; timing_info_period : Z }.

(* src: nfapi_pnf_interface.h 73-93 nfapi_pnf_config_t *)
Record pnf_t := Pnf { state : nfapi_pnf_state_e; phys : list nfapi_pnf_phy_config_t; info : phy_info }.

(** After [nfapi_pnf_config_create]; the proxy's tables are static and zero. *)
(* src: pnf_interface.c :: nfapi_pnf_config_create *)
Definition nfapi_pnf_config_create : pnf_t := Pnf NFAPI_PNF_IDLE [] (PhyInfo 0 0 [] 0 0 0).

(** ** Requests and effects *)

(** The part of a CONFIG.request that has an effect; an optional TLV is [None]
    when it is absent. *)
Record config_tlvs := ConfigTlvs {
  c_timing_window : option Z; c_timing_info_mode : option Z; c_timing_info_period : option Z;
  c_p7_vnf_port : Z; c_p7_vnf_address : list Z }.

(** [r_phy_rf] lists the PHY identifiers of the PHY RF TLV of PNF_CONFIG. *)
Record request := Request {
  r_message_id : Z; r_unpacks : bool; r_phy_id : Z; r_phy_rf : option (list Z); r_config : config_tlvs }.

Inductive effect :=
  | Response (message_id phy_id error_code : Z)
  | Indication (message_id phy_id : Z)
  | StartP7 (phy_id buffer_size : Z) (periodic aperiodic : bool) (info : phy_info)
      (** the P7 thread with its configuration *)
  | FirstIndication (phy_id : Z).  (** the first subframe or slot indication *)

(** The kind of stack: what [nfapi_pnf_start] or [nfapi_nr_pnf_start] runs. *)
Inductive rat := Lte | Nr.

Definition step := pnf_t -> pnf_t * list effect.
Definition skip : step := fun st => (st, []).
Definition emit (es : list effect) : step := fun st => (st, es).
Definition andthen (p q : step) : step := fun st =>
  let '(st, es) := p st in let '(st, es') := q st in (st, es ++ es').
Definition set_state (s : nfapi_pnf_state_e) : step := fun st => (Pnf s (phys st) (info st), []).

(** ** The PHY records *)

(** A list, linked through [next]. *)
(* src: pnf.c :: nfapi_pnf_phy_config_delete_all *)
Definition nfapi_pnf_phy_config_delete_all : step := fun st => (Pnf (state st) [] (info st), []).
(* src: pnf.c :: nfapi_pnf_phy_config_add *)
Definition nfapi_pnf_phy_config_add (phy : nfapi_pnf_phy_config_t) : step := fun st =>
  (Pnf (state st) (phy :: phys st) (info st), []).
(* src: pnf.c :: nfapi_pnf_phy_config_find *)
Fixpoint nfapi_pnf_phy_config_find (curr : list nfapi_pnf_phy_config_t) (id : Z) : option nfapi_pnf_phy_config_t :=
  match curr with
  | [] => None
  | phy :: next => if phy_id phy =? id then Some phy else nfapi_pnf_phy_config_find next id
  end.

(** Assigning to the record that [find] returns. *)
Fixpoint update_phy (f : nfapi_pnf_phy_config_t -> nfapi_pnf_phy_config_t) (id : Z)
    (curr : list nfapi_pnf_phy_config_t) : list nfapi_pnf_phy_config_t :=
  match curr with
  | [] => []
  | phy :: next => if phy_id phy =? id then f phy :: next else phy :: update_phy f id next
  end.
Definition change_phy (f : nfapi_pnf_phy_config_t -> nfapi_pnf_phy_config_t) (id : Z) : step := fun st =>
  (Pnf (state st) (update_phy f id (phys st)) (info st), []).
Definition in_state (s : nfapi_pnf_phy_state_e) (phy : nfapi_pnf_phy_config_t) : nfapi_pnf_phy_config_t :=
  Phy (phy_id phy) s (phy_p7 phy).

(** ** Sending *)

(** The identifiers the packers know (without vendor extensions, for which the
    proxy registers no callback). *)
(* src: nfapi_p5.c :: pack_p5_message_body *)
Definition pack_p5_ids : list Z :=
  [NFAPI_PNF_PARAM_REQUEST; NFAPI_PNF_PARAM_RESPONSE; NFAPI_PNF_CONFIG_REQUEST; NFAPI_PNF_CONFIG_RESPONSE;
   NFAPI_PNF_START_REQUEST; NFAPI_PNF_START_RESPONSE; NFAPI_PNF_STOP_REQUEST; NFAPI_PNF_STOP_RESPONSE;
   NFAPI_PARAM_REQUEST; NFAPI_PARAM_RESPONSE; NFAPI_CONFIG_REQUEST; NFAPI_CONFIG_RESPONSE;
   NFAPI_START_REQUEST; NFAPI_START_RESPONSE; NFAPI_STOP_REQUEST; NFAPI_STOP_RESPONSE;
   NFAPI_MEASUREMENT_REQUEST; NFAPI_MEASUREMENT_RESPONSE].
(* src: nfapi_p5.c :: pack_nr_p5_message_body *)
Definition pack_nr_p5_ids : list Z :=
  [NFAPI_NR_PHY_MSG_TYPE_PNF_PARAM_REQUEST; NFAPI_PNF_PARAM_RESPONSE;
   NFAPI_NR_PHY_MSG_TYPE_PNF_CONFIG_REQUEST; NFAPI_NR_PHY_MSG_TYPE_PNF_CONFIG_RESPONSE;
   NFAPI_NR_PHY_MSG_TYPE_PNF_START_REQUEST; NFAPI_NR_PHY_MSG_TYPE_PNF_START_RESPONSE;
   NFAPI_NR_PHY_MSG_TYPE_PNF_STOP_REQUEST; NFAPI_PNF_STOP_RESPONSE;
   NFAPI_NR_PHY_MSG_TYPE_PARAM_REQUEST; NFAPI_NR_PHY_MSG_TYPE_PARAM_RESPONSE;
   NFAPI_NR_PHY_MSG_TYPE_CONFIG_REQUEST; NFAPI_NR_PHY_MSG_TYPE_CONFIG_RESPONSE;
   NFAPI_NR_PHY_MSG_TYPE_START_REQUEST; NFAPI_NR_PHY_MSG_TYPE_START_RESPONSE;
   NFAPI_NR_PHY_MSG_TYPE_STOP_REQUEST; NFAPI_NR_PHY_MSG_TYPE_STOP_RESPONSE].

Definition pack_ids (r : rat) : list Z := match r with Lte => pack_p5_ids | Nr => pack_nr_p5_ids end.

(* src: pnf.c :: pnf_pack_and_send_p5_message *)
Definition pnf_pack_and_send_p5_message (r : rat) (message_id phy_id error_code : Z) : step :=
  if existsb (Z.eqb message_id) (pack_ids r) then emit [Response message_id phy_id error_code] else skip.
(* src: pnf.c :: pnf_nr_pack_and_send_p5_message *)
Definition pnf_nr_pack_and_send_p5_message := pnf_pack_and_send_p5_message Nr.
(** The identifiers passed here are all known to the P4 packer. *)
(* src: pnf.c :: pnf_pack_and_send_p4_message *)
Definition pnf_pack_and_send_p4_message (e : effect) : step := emit [e].
Definition p4_resp (message_id phy_id error_code : Z) : step :=
  pnf_pack_and_send_p4_message (Response message_id phy_id error_code).
Definition p4_ind (message_id phy_id : Z) : step := pnf_pack_and_send_p4_message (Indication message_id phy_id).

(** ** Responses *)

(** PNF_CONFIG, PNF_START and PNF_STOP: a response with code OK moves the PNF. *)
(* src: pnf_interface.c :: nfapi_pnf_pnf_config_resp *)
Definition pnf_level_resp (r : rat) (next : nfapi_pnf_state_e) (message_id error_code : Z) : step :=
  andthen (if error_code =? NFAPI_MSG_OK then set_state next else skip)
    (pnf_pack_and_send_p5_message r message_id 0 error_code).

(* src: pnf_interface.c :: nfapi_pnf_pnf_param_resp *)
Definition nfapi_pnf_pnf_param_resp (r : rat) (message_id error_code : Z) : step :=
  pnf_pack_and_send_p5_message r message_id 0 error_code.
(* src: pnf_interface.c :: nfapi_nr_pnf_pnf_param_resp *)
Definition nfapi_nr_pnf_pnf_param_resp := nfapi_pnf_pnf_param_resp Nr.
(* src: pnf_interface.c :: nfapi_pnf_pnf_config_resp *)
Definition nfapi_pnf_pnf_config_resp (r : rat) := pnf_level_resp r NFAPI_PNF_CONFIGURED.
(* src: pnf_interface.c :: nfapi_nr_pnf_pnf_config_resp *)
Definition nfapi_nr_pnf_pnf_config_resp := nfapi_pnf_pnf_config_resp Nr.
(* src: pnf_interface.c :: nfapi_pnf_pnf_start_resp *)
Definition nfapi_pnf_pnf_start_resp (r : rat) := pnf_level_resp r NFAPI_PNF_RUNNING.
(* src: pnf_interface.c :: nfapi_nr_pnf_pnf_start_resp *)
Definition nfapi_nr_pnf_pnf_start_resp := nfapi_pnf_pnf_start_resp Nr.
(* src: pnf_interface.c :: nfapi_pnf_pnf_stop_resp *)
Definition nfapi_pnf_pnf_stop_resp := pnf_level_resp Lte NFAPI_PNF_CONFIGURED.

(** CONFIG, START and STOP: a response for an unknown PHY is not sent, and one
    with code OK moves the PHY. *)
(* src: pnf_interface.c :: nfapi_pnf_config_resp *)
Definition phy_level_resp (r : rat) (next : nfapi_pnf_phy_state_e) (message_id phy_id error_code : Z) : step := fun st =>
  match nfapi_pnf_phy_config_find (phys st) phy_id with
  | None => (st, [])
  | Some _ =>
      andthen (if error_code =? NFAPI_MSG_OK then change_phy (in_state next) phy_id else skip)
        (pnf_pack_and_send_p5_message r message_id phy_id error_code) st
  end.

(* src: pnf_interface.c :: nfapi_pnf_param_resp *)
Definition nfapi_pnf_param_resp (r : rat) := pnf_pack_and_send_p5_message r.
(* src: pnf_interface.c :: nfapi_nr_pnf_param_resp *)
Definition nfapi_nr_pnf_param_resp := nfapi_pnf_param_resp Nr.
(* src: pnf_interface.c :: nfapi_pnf_config_resp *)
Definition nfapi_pnf_config_resp (r : rat) := phy_level_resp r NFAPI_PNF_PHY_CONFIGURED.
(* src: pnf_interface.c :: nfapi_nr_pnf_config_resp *)
Definition nfapi_nr_pnf_config_resp := nfapi_pnf_config_resp Nr.
(* src: pnf_interface.c :: nfapi_pnf_start_resp *)
Definition nfapi_pnf_start_resp (r : rat) := phy_level_resp r NFAPI_PNF_PHY_RUNNING.
(* src: pnf_interface.c :: nfapi_nr_pnf_start_resp *)
Definition nfapi_nr_pnf_start_resp := nfapi_pnf_start_resp Nr.
(* src: pnf_interface.c :: nfapi_pnf_stop_resp *)
Definition nfapi_pnf_stop_resp := phy_level_resp Lte NFAPI_PNF_PHY_CONFIGURED.
(* src: pnf_interface.c :: nfapi_pnf_measurement_resp *)
Definition nfapi_pnf_measurement_resp := pnf_pack_and_send_p5_message Lte.

(** P4: responses and indications change nothing. *)
(* src: pnf_interface.c :: nfapi_pnf_rssi_resp *)
Definition nfapi_pnf_rssi_resp := p4_resp.
(* src: pnf_interface.c :: nfapi_pnf_rssi_ind *)
Definition nfapi_pnf_rssi_ind := p4_ind.
(* src: pnf_interface.c :: nfapi_pnf_cell_search_resp *)
Definition nfapi_pnf_cell_search_resp := p4_resp.
(* src: pnf_interface.c :: nfapi_pnf_cell_search_ind *)
Definition nfapi_pnf_cell_search_ind := p4_ind.
(* src: pnf_interface.c :: nfapi_pnf_broadcast_detect_resp *)
Definition nfapi_pnf_broadcast_detect_resp := p4_resp.
(* src: pnf_interface.c :: nfapi_pnf_broadcast_detect_ind *)
Definition nfapi_pnf_broadcast_detect_ind := p4_ind.
(* src: pnf_interface.c :: nfapi_pnf_system_information_schedule_resp *)
Definition nfapi_pnf_system_information_schedule_resp := p4_resp.
(* src: pnf_interface.c :: nfapi_pnf_system_information_schedule_ind *)
Definition nfapi_pnf_system_information_schedule_ind := p4_ind.
(* src: pnf_interface.c :: nfapi_pnf_system_information_resp *)
Definition nfapi_pnf_system_information_resp := p4_resp.
(* src: pnf_interface.c :: nfapi_pnf_system_information_ind *)
Definition nfapi_pnf_system_information_ind := p4_ind.
(* src: pnf_interface.c :: nfapi_pnf_nmm_stop_resp *)
Definition nfapi_pnf_nmm_stop_resp := p4_resp.

(** ** The proxy's callbacks *)

Definition set_info (f : phy_info -> phy_info) : step := fun st => (Pnf (state st) (phys st) (f (info st)), []).

(* src: nfapi_pnf.c :: pnf_param_request *)
Definition pnf_param_request (r : rat) : step := nfapi_pnf_pnf_param_resp r NFAPI_PNF_PARAM_RESPONSE NFAPI_MSG_OK.
(* src: nfapi_pnf.c :: pnf_nr_param_request *)
Definition pnf_nr_param_request := pnf_param_request Nr.

(** The first element of the zeroed array is read even when the TLV is absent. *)
(* src: nfapi_pnf.c :: pnf_config_request *)
Definition pnf_config_request (r : rat) (req : request) : step :=
  andthen
    (set_info (fun i => PhyInfo (hd 0 (default [] (r_phy_rf req))) (remote_port i) (remote_addr i)
       (timing_window i) (timing_info_mode i) (timing_info_period i)))
    (nfapi_pnf_pnf_config_resp r NFAPI_PNF_CONFIG_RESPONSE NFAPI_MSG_OK).
(* src: nfapi_pnf.c :: pnf_nr_config_request *)
Definition pnf_nr_config_request := pnf_config_request Nr.

(* src: nfapi_pnf.c :: pnf_start_request *)
Definition pnf_start_request (r : rat) : step := fun st =>
  if negb (id (info st) =? 0) then nfapi_pnf_pnf_start_resp r NFAPI_PNF_START_RESPONSE NFAPI_MSG_OK st
  else (st, []).
(* src: nfapi_pnf.c :: pnf_nr_start_request *)
Definition pnf_nr_start_request := pnf_start_request Nr.

(* src: nfapi_pnf.c :: pnf_stop_request *)
Definition pnf_stop_request : step := nfapi_pnf_pnf_stop_resp NFAPI_PNF_STOP_RESPONSE NFAPI_MSG_OK.

Definition PARAM_RESPONSE (r : rat) : Z :=
  match r with Lte => NFAPI_PARAM_RESPONSE | Nr => NFAPI_NR_PHY_MSG_TYPE_PARAM_RESPONSE end.
Definition CONFIG_RESPONSE (r : rat) : Z :=
  match r with Lte => NFAPI_CONFIG_RESPONSE | Nr => NFAPI_NR_PHY_MSG_TYPE_CONFIG_RESPONSE end.
Definition START_RESPONSE (r : rat) : Z :=
  match r with Lte => NFAPI_START_RESPONSE | Nr => NFAPI_NR_PHY_MSG_TYPE_START_RESPONSE end.

(** The callbacks below get the PHY record that was found under the identifier
    of the request. *)
(* src: nfapi_pnf.c :: param_request *)
Definition param_request (r : rat) (phy : nfapi_pnf_phy_config_t) (req : request) : step :=
  nfapi_pnf_param_resp r (PARAM_RESPONSE r) (r_phy_id req) 0.
(* src: nfapi_pnf.c :: nr_param_request *)
Definition nr_param_request := param_request Nr.

(** The record that is configured, and answered for, is the one with the
    identifier that PNF_CONFIG listed first. *)
(* src: nfapi_pnf.c 721-909 config_request *)
Definition config_request (r : rat) (phy : nfapi_pnf_phy_config_t) (req : request) : step :=
  andthen
    (set_info (fun i => let c := r_config req in
       PhyInfo (id i) (c_p7_vnf_port c) (c_p7_vnf_address c)
         (match c_timing_window c with Some w => u8 w | None => timing_window i end)
         (match c_timing_info_mode c with Some m => u8 m | None => 0 end)
         (match c_timing_info_period c with Some p => u8 p | None => 0 end)))
    (fun st => nfapi_pnf_config_resp r (CONFIG_RESPONSE r) (id (info st)) 0 st).
(* src: nfapi_pnf.c :: nr_config_request *)
Definition nr_config_request := config_request Nr.

(* src: nfapi_pnf.c :: nfapi_send_pnf_start_resp *)
Definition nfapi_send_pnf_start_resp (r : rat) (phy_id : Z) : step :=
  nfapi_pnf_start_resp r (START_RESPONSE r) phy_id NFAPI_MSG_OK.
(* src: nfapi_pnf.c :: nfapi_nr_send_pnf_start_resp *)
Definition nfapi_nr_send_pnf_start_resp := nfapi_send_pnf_start_resp Nr.

(* src: nfapi_pnf.c :: start_request *)
Definition start_request (r : rat) (phy : nfapi_pnf_phy_config_t) (req : request) : step := fun st =>
  let p7 := StartP7 (phy_id phy) (timing_window (info st))
    (negb (Z.land (timing_info_mode (info st)) 0x1 =? 0)) (negb (Z.land (timing_info_mode (info st)) 0x2 =? 0))
    (info st) in
  andthen (change_phy (fun phy => Phy (phy_id phy) (phy_state phy) true) (r_phy_id req))
    (andthen (emit [p7])
    (andthen (nfapi_send_pnf_start_resp r (phy_id phy)) (emit [FirstIndication (phy_id phy)]))) st.
(* src: nfapi_pnf.c :: nr_start_request *)
Definition nr_start_request := start_request Nr.

(* src: nfapi_pnf.c :: measurement_request *)
Definition measurement_request (phy : nfapi_pnf_phy_config_t) (req : request) : step :=
  nfapi_pnf_measurement_resp NFAPI_MEASUREMENT_RESPONSE (r_phy_id req) NFAPI_MSG_OK.

(** The P4 procedures answer at once and, but for NMM_STOP, send one made-up
    indication. *)
(* src: nfapi_pnf.c :: rssi_request *)
Definition p4_procedure (resp : Z -> Z -> step) (ind : option (Z -> step)) (req : request) : step :=
  andthen (resp (r_phy_id req) NFAPI_P4_MSG_OK)
    (match ind with Some i => i (r_phy_id req) | None => skip end).

(* src: nfapi_pnf.c :: rssi_request *)
Definition rssi_request (phy : nfapi_pnf_phy_config_t) :=
  p4_procedure (nfapi_pnf_rssi_resp NFAPI_RSSI_RESPONSE) (Some (nfapi_pnf_rssi_ind NFAPI_RSSI_INDICATION)).
(* src: nfapi_pnf.c :: cell_search_request *)
Definition cell_search_request (phy : nfapi_pnf_phy_config_t) :=
  p4_procedure (nfapi_pnf_cell_search_resp NFAPI_CELL_SEARCH_RESPONSE) (Some (nfapi_pnf_cell_search_ind NFAPI_CELL_SEARCH_INDICATION)).
(* src: nfapi_pnf.c :: broadcast_detect_request *)
Definition broadcast_detect_request (phy : nfapi_pnf_phy_config_t) :=
  p4_procedure (nfapi_pnf_broadcast_detect_resp NFAPI_BROADCAST_DETECT_RESPONSE) (Some (nfapi_pnf_broadcast_detect_ind NFAPI_BROADCAST_DETECT_INDICATION)).
(* src: nfapi_pnf.c :: system_information_schedule_request *)
Definition system_information_schedule_request (phy : nfapi_pnf_phy_config_t) :=
  p4_procedure (nfapi_pnf_system_information_schedule_resp NFAPI_SYSTEM_INFORMATION_SCHEDULE_RESPONSE) (Some (nfapi_pnf_system_information_schedule_ind NFAPI_SYSTEM_INFORMATION_SCHEDULE_INDICATION)).
(* src: nfapi_pnf.c :: system_information_request *)
Definition system_information_request (phy : nfapi_pnf_phy_config_t) :=
  p4_procedure (nfapi_pnf_system_information_resp NFAPI_SYSTEM_INFORMATION_RESPONSE) (Some (nfapi_pnf_system_information_ind NFAPI_SYSTEM_INFORMATION_INDICATION)).
(* src: nfapi_pnf.c :: nmm_stop_request *)
Definition nmm_stop_request (phy : nfapi_pnf_phy_config_t) := p4_procedure (nfapi_pnf_nmm_stop_resp NFAPI_NMM_STOP_RESPONSE) None.

(** ** The handlers of PNF-level requests *)

(* src: pnf.c :: pnf_handle_pnf_param_request *)
Definition pnf_handle_pnf_param_request (r : rat) (req : request) : step := fun st =>
  if negb (r_unpacks req) then (st, [])
  else if decide (state st = NFAPI_PNF_IDLE) then pnf_param_request r st
  else nfapi_pnf_pnf_param_resp r NFAPI_PNF_PARAM_RESPONSE NFAPI_MSG_INVALID_STATE st.
(* src: pnf.c :: pnf_nr_handle_pnf_param_request *)
Definition pnf_nr_handle_pnf_param_request := pnf_handle_pnf_param_request Nr.

(** The [for] loop over the PHYs of the TLV: each is put in front. *)
(* src: pnf.c 197-212 pnf_handle_pnf_config_request *)
Fixpoint create_phys (ids : list Z) : step :=
  match ids with
  | [] => skip
  | i :: ids => andthen (nfapi_pnf_phy_config_add (Phy i NFAPI_PNF_PHY_IDLE false)) (create_phys ids)
  end.

(* src: pnf.c :: pnf_handle_pnf_config_request *)
Definition pnf_handle_pnf_config_request (r : rat) (req : request) : step := fun st =>
  if negb (r_unpacks req) then (st, [])
  else if decide (state st <> NFAPI_PNF_RUNNING) then
    andthen nfapi_pnf_phy_config_delete_all
      (andthen (create_phys (default [] (r_phy_rf req))) (pnf_config_request r req)) st
  else nfapi_pnf_pnf_config_resp r NFAPI_PNF_CONFIG_RESPONSE NFAPI_MSG_INVALID_STATE st.
(* src: pnf.c :: pnf_nr_handle_pnf_config_request *)
Definition pnf_nr_handle_pnf_config_request := pnf_handle_pnf_config_request Nr.

(* src: pnf.c :: pnf_handle_pnf_start_request *)
Definition pnf_handle_pnf_start_request (r : rat) (req : request) : step := fun st =>
  if negb (r_unpacks req) then (st, [])
  else if decide (state st = NFAPI_PNF_CONFIGURED) then pnf_start_request r st
  else nfapi_pnf_pnf_start_resp r NFAPI_PNF_START_RESPONSE NFAPI_MSG_INVALID_STATE st.
(* src: pnf.c :: pnf_nr_handle_pnf_start_request *)
Definition pnf_nr_handle_pnf_start_request := pnf_handle_pnf_start_request Nr.

(* src: pnf.c :: pnf_handle_pnf_stop_request *)
Definition pnf_handle_pnf_stop_request (req : request) : step := fun st =>
  if negb (r_unpacks req) then (st, [])
  else if decide (state st = NFAPI_PNF_RUNNING) then pnf_stop_request st
  else nfapi_pnf_pnf_stop_resp NFAPI_PNF_STOP_RESPONSE NFAPI_MSG_INVALID_STATE st.

(** ** The handlers of requests to a PHY

    They differ in the states of the PHY they accept, the callback (which may
    not be registered), the response, and its code for an unknown PHY. *)
(* src: pnf.c :: pnf_handle_param_request *)
Definition phy_request (accepts : nfapi_pnf_phy_state_e -> Prop) `{!forall s, Decision (accepts s)}
    (callback : option (nfapi_pnf_phy_config_t -> request -> step)) (resp : Z -> Z -> step) (unknown_phy : Z)
    (req : request) : step := fun st =>
  if negb (r_unpacks req) then (st, [])
  else if decide (state st = NFAPI_PNF_RUNNING) then
    match nfapi_pnf_phy_config_find (phys st) (r_phy_id req) with
    | Some phy =>
        if decide (accepts (phy_state phy)) then
          match callback with Some f => f phy req st | None => (st, []) end
        else resp (r_phy_id req) NFAPI_MSG_INVALID_STATE st
    | None => resp (r_phy_id req) unknown_phy st
    end
  else resp (r_phy_id req) NFAPI_MSG_INVALID_STATE st.

Definition idle (s : nfapi_pnf_phy_state_e) : Prop := s = NFAPI_PNF_PHY_IDLE.
Definition running (s : nfapi_pnf_phy_state_e) : Prop := s = NFAPI_PNF_PHY_RUNNING.
Definition not_running (s : nfapi_pnf_phy_state_e) : Prop := s <> NFAPI_PNF_PHY_RUNNING.
#[export] Instance idle_dec s : Decision (idle s). Proof. unfold idle. apply _. Defined.
#[export] Instance running_dec s : Decision (running s). Proof. unfold running. apply _. Defined.
#[export] Instance not_running_dec s : Decision (not_running s). Proof. unfold not_running. apply _. Defined.

(* src: pnf.c :: pnf_handle_param_request *)
Definition pnf_handle_param_request (r : rat) : request -> step :=
  phy_request idle (Some (param_request r)) (nfapi_pnf_param_resp r (PARAM_RESPONSE r)) NFAPI_MSG_INVALID_CONFIG.
(* src: pnf.c :: pnf_nr_handle_param_request *)
Definition pnf_nr_handle_param_request := pnf_handle_param_request Nr.

(** Both versions refuse with the LTE identifier. *)
(* src: pnf.c :: pnf_handle_config_request *)
Definition pnf_handle_config_request (r : rat) : request -> step :=
  phy_request not_running (Some (config_request r)) (nfapi_pnf_config_resp r NFAPI_CONFIG_RESPONSE)
    NFAPI_MSG_INVALID_CONFIG.
(* src: pnf.c :: pnf_nr_handle_config_request *)
Definition pnf_nr_handle_config_request := pnf_handle_config_request Nr.

(* src: nfapi_nr_interface_scf.h 466-466 NFAPI_NR_START_MSG_INVALID_STATE *)
Definition NFAPI_NR_START_MSG_INVALID_STATE : Z := 1.

(* src: pnf.c :: pnf_handle_start_request *)
Definition pnf_handle_start_request (r : rat) : request -> step :=
  phy_request not_running (Some (start_request r)) (nfapi_pnf_start_resp r (START_RESPONSE r))
    (match r with Lte => NFAPI_MSG_INVALID_CONFIG | Nr => NFAPI_NR_START_MSG_INVALID_STATE end).
(* src: pnf.c :: pnf_nr_handle_start_request *)
Definition pnf_nr_handle_start_request := pnf_handle_start_request Nr.

(** The proxy does not register [stop_req] or [nr_stop_req]. *)
(* src: pnf.c :: pnf_handle_stop_request *)
Definition pnf_handle_stop_request (r : rat) : request -> step :=
  phy_request not_running None
    (nfapi_pnf_stop_resp (match r with Lte => NFAPI_STOP_RESPONSE | Nr => NFAPI_NR_PHY_MSG_TYPE_STOP_RESPONSE end))
    NFAPI_MSG_INVALID_CONFIG.
(* src: pnf.c :: pnf_nr_handle_stop_request *)
Definition pnf_nr_handle_stop_request := pnf_handle_stop_request Nr.

(* src: pnf.c :: pnf_handle_measurement_request *)
Definition pnf_handle_measurement_request : request -> step :=
  phy_request not_running (Some measurement_request) (nfapi_pnf_measurement_resp NFAPI_MEASUREMENT_RESPONSE)
    NFAPI_MSG_INVALID_CONFIG.

(** Requests over P4. *)
(* src: pnf.c :: pnf_handle_rssi_request *)
Definition p4_request (accepts : nfapi_pnf_phy_state_e -> Prop) `{!forall s, Decision (accepts s)}
    (callback : nfapi_pnf_phy_config_t -> request -> step) (resp : Z -> Z -> step) : request -> step :=
  phy_request accepts (Some callback) resp NFAPI_MSG_INVALID_CONFIG.

(* src: pnf.c :: pnf_handle_rssi_request *)
Definition pnf_handle_rssi_request :=
  p4_request running rssi_request (nfapi_pnf_rssi_resp NFAPI_RSSI_RESPONSE).
(* src: pnf.c :: pnf_handle_cell_search_request *)
Definition pnf_handle_cell_search_request :=
  p4_request running cell_search_request (nfapi_pnf_cell_search_resp NFAPI_CELL_SEARCH_RESPONSE).
(* src: pnf.c :: pnf_handle_broadcast_detect_request *)
Definition pnf_handle_broadcast_detect_request :=
  p4_request running broadcast_detect_request (nfapi_pnf_broadcast_detect_resp NFAPI_BROADCAST_DETECT_RESPONSE).
(* src: pnf.c :: pnf_handle_system_information_schedule_request *)
Definition pnf_handle_system_information_schedule_request :=
  p4_request running system_information_schedule_request (nfapi_pnf_system_information_schedule_resp NFAPI_SYSTEM_INFORMATION_SCHEDULE_RESPONSE).
(* src: pnf.c :: pnf_handle_system_information_request *)
Definition pnf_handle_system_information_request :=
  p4_request running system_information_request (nfapi_pnf_system_information_resp NFAPI_SYSTEM_INFORMATION_RESPONSE).
(* src: pnf.c :: pnf_handle_nmm_stop_request *)
Definition pnf_handle_nmm_stop_request :=
  p4_request not_running nmm_stop_request (nfapi_pnf_nmm_stop_resp NFAPI_NMM_STOP_RESPONSE).

(** ** Dispatch *)

(** Which handler an identifier selects; identifiers of vendor extensions have
    none in the proxy. *)
Definition select (table : list (Z * (request -> step))) (req : request) : step :=
  match find (fun e => fst e =? r_message_id req) table with
  | Some (_, handler) => handler req
  | None => skip
  end.

Definition common_requests : list (Z * (request -> step)) :=
  [(NFAPI_MEASUREMENT_REQUEST, pnf_handle_measurement_request);
   (NFAPI_RSSI_REQUEST, pnf_handle_rssi_request);
   (NFAPI_CELL_SEARCH_REQUEST, pnf_handle_cell_search_request);
   (NFAPI_BROADCAST_DETECT_REQUEST, pnf_handle_broadcast_detect_request);
   (NFAPI_SYSTEM_INFORMATION_SCHEDULE_REQUEST, pnf_handle_system_information_schedule_request);
   (NFAPI_SYSTEM_INFORMATION_REQUEST, pnf_handle_system_information_request);
   (NFAPI_NMM_STOP_REQUEST, pnf_handle_nmm_stop_request)].

(* src: pnf.c :: pnf_handle_p5_message *)
Definition pnf_handle_p5_message : request -> step := select
  ([(NFAPI_PNF_PARAM_REQUEST, pnf_handle_pnf_param_request Lte);
    (NFAPI_PNF_CONFIG_REQUEST, pnf_handle_pnf_config_request Lte);
    (NFAPI_PNF_START_REQUEST, pnf_handle_pnf_start_request Lte);
    (NFAPI_PNF_STOP_REQUEST, pnf_handle_pnf_stop_request);
    (NFAPI_PARAM_REQUEST, pnf_handle_param_request Lte);
    (NFAPI_CONFIG_REQUEST, pnf_handle_config_request Lte);
    (NFAPI_START_REQUEST, pnf_handle_start_request Lte);
    (NFAPI_STOP_REQUEST, pnf_handle_stop_request Lte)] ++ common_requests).

(* src: pnf.c :: pnf_nr_handle_p5_message *)
Definition pnf_nr_handle_p5_message : request -> step := select
  ([(NFAPI_NR_PHY_MSG_TYPE_PNF_PARAM_REQUEST, pnf_nr_handle_pnf_param_request);
    (NFAPI_NR_PHY_MSG_TYPE_PNF_CONFIG_REQUEST, pnf_nr_handle_pnf_config_request);
    (NFAPI_NR_PHY_MSG_TYPE_PNF_START_REQUEST, pnf_nr_handle_pnf_start_request);
    (NFAPI_PNF_STOP_REQUEST, pnf_handle_pnf_stop_request);
    (NFAPI_NR_PHY_MSG_TYPE_PARAM_REQUEST, pnf_nr_handle_param_request);
    (NFAPI_NR_PHY_MSG_TYPE_CONFIG_REQUEST, pnf_nr_handle_config_request);
    (NFAPI_NR_PHY_MSG_TYPE_START_REQUEST, pnf_nr_handle_start_request);
    (NFAPI_NR_PHY_MSG_TYPE_STOP_REQUEST, pnf_nr_handle_stop_request)] ++ common_requests).

Definition handle_p5 (r : rat) : request -> step :=
  match r with Lte => pnf_handle_p5_message | Nr => pnf_nr_handle_p5_message end.

(** What happens to a PNF: messages, and the loss of the connection, after
    which it reconnects in state IDLE with its PHY records. *)
Inductive event := Message (req : request) | ConnectionLost.

(* src: pnf.c :: pnf_message_pump *)
Definition on_event (r : rat) (e : event) : step :=
  match e with
  | Message req => handle_p5 r req
  | ConnectionLost => set_state NFAPI_PNF_IDLE
  end.

Fixpoint run (r : rat) (es : list event) : step :=
  match es with [] => skip | e :: es => andthen (on_event r e) (run r es) end.

(** ** The state machine of one PHY

    The specification: the PNF and one PHY, driven by the kinds of requests,
    with the codes of the responses. *)
Inductive kind :=
  | PNF_PARAM | PNF_CONFIG | PNF_START | PNF_STOP | PARAM | CONFIG | START | STOP | MEASUREMENT.

Definition request_id (r : rat) (k : kind) : Z :=
  match r, k with
  | _, PNF_PARAM => NFAPI_PNF_PARAM_REQUEST
  | _, PNF_CONFIG => NFAPI_PNF_CONFIG_REQUEST
  | _, PNF_START => NFAPI_PNF_START_REQUEST
  | _, PNF_STOP => NFAPI_PNF_STOP_REQUEST
  | Lte, PARAM => NFAPI_PARAM_REQUEST | Nr, PARAM => NFAPI_NR_PHY_MSG_TYPE_PARAM_REQUEST
  | Lte, CONFIG => NFAPI_CONFIG_REQUEST | Nr, CONFIG => NFAPI_NR_PHY_MSG_TYPE_CONFIG_REQUEST
  | Lte, START => NFAPI_START_REQUEST | Nr, START => NFAPI_NR_PHY_MSG_TYPE_START_REQUEST
  | Lte, STOP => NFAPI_STOP_REQUEST | Nr, STOP => NFAPI_NR_PHY_MSG_TYPE_STOP_REQUEST
  | _, MEASUREMENT => NFAPI_MEASUREMENT_REQUEST
  end.

Definition response_id (r : rat) (k : kind) : Z :=
  match k with
  | PNF_PARAM => NFAPI_PNF_PARAM_RESPONSE | PNF_CONFIG => NFAPI_PNF_CONFIG_RESPONSE
  | PNF_START => NFAPI_PNF_START_RESPONSE | PNF_STOP => NFAPI_PNF_STOP_RESPONSE
  | PARAM => PARAM_RESPONSE r | CONFIG => CONFIG_RESPONSE r | START => START_RESPONSE r
  | STOP => NFAPI_STOP_RESPONSE | MEASUREMENT => NFAPI_MEASUREMENT_RESPONSE
  end.

(** PNF-level responses carry PHY 0. *)
Definition response_phy (k : kind) (p : Z) : Z :=
  match k with PNF_PARAM | PNF_CONFIG | PNF_START | PNF_STOP => 0 | _ => p end.

Definition fsm : Type := nfapi_pnf_state_e * option nfapi_pnf_phy_state_e.

(** The next state and the code of the response, if there is one. *)
Definition fsm_next (r : rat) (s : fsm) (k : kind) : fsm * option Z :=
  let ok := Some NFAPI_MSG_OK in
  let bad_state := Some NFAPI_MSG_INVALID_STATE in
  let bad_phy := Some NFAPI_MSG_INVALID_CONFIG in
  match k, s with
  | PNF_PARAM, (NFAPI_PNF_IDLE, _) => (s, ok)
  | PNF_PARAM, _ => (s, bad_state)
  | PNF_CONFIG, (NFAPI_PNF_RUNNING, _) => (s, bad_state)
  | PNF_CONFIG, _ => ((NFAPI_PNF_CONFIGURED, Some NFAPI_PNF_PHY_IDLE), ok)
  | PNF_START, (NFAPI_PNF_CONFIGURED, phy) => ((NFAPI_PNF_RUNNING, phy), ok)
  | PNF_START, _ => (s, bad_state)
  | PNF_STOP, (NFAPI_PNF_RUNNING, phy) => ((NFAPI_PNF_CONFIGURED, phy), ok)
  | PNF_STOP, _ => (s, bad_state)
  | PARAM, (NFAPI_PNF_RUNNING, Some NFAPI_PNF_PHY_IDLE) => (s, ok)
  | PARAM, (NFAPI_PNF_RUNNING, None) => (s, bad_phy)
  | PARAM, _ => (s, bad_state)
  | CONFIG, (_, None) => (s, None)
  | CONFIG, (NFAPI_PNF_RUNNING, Some NFAPI_PNF_PHY_RUNNING) => (s, match r with Lte => bad_state | Nr => None end)
  | CONFIG, (NFAPI_PNF_RUNNING, Some _) => ((NFAPI_PNF_RUNNING, Some NFAPI_PNF_PHY_CONFIGURED), ok)
  | CONFIG, _ => (s, match r with Lte => bad_state | Nr => None end)
  | START, (_, None) => (s, None)
  | START, (NFAPI_PNF_RUNNING, Some NFAPI_PNF_PHY_RUNNING) => (s, bad_state)
  | START, (NFAPI_PNF_RUNNING, Some _) => ((NFAPI_PNF_RUNNING, Some NFAPI_PNF_PHY_RUNNING), ok)
  | START, _ => (s, bad_state)
  | STOP, (_, None) => (s, None)
  | STOP, (NFAPI_PNF_RUNNING, Some NFAPI_PNF_PHY_RUNNING) => (s, bad_state)
  | STOP, (NFAPI_PNF_RUNNING, Some _) => (s, None)
  | STOP, _ => (s, bad_state)
  | MEASUREMENT, (NFAPI_PNF_RUNNING, None) => (s, bad_phy)
  | MEASUREMENT, (NFAPI_PNF_RUNNING, Some NFAPI_PNF_PHY_RUNNING) => (s, bad_state)
  | MEASUREMENT, (NFAPI_PNF_RUNNING, Some _) => (s, ok)
  | MEASUREMENT, _ => (s, bad_state)
  end.

(** Abstract events: a request, or the loss of the connection. *)
Definition fsm_event (r : rat) (s : fsm) (e : option kind) : fsm * option Z :=
  match e with Some k => fsm_next r s k | None => ((NFAPI_PNF_IDLE, snd s), None) end.

(** The response with a code: identifier, PHY, code. *)
Definition answer (r : rat) (p : Z) (a : option kind) (code : option Z) : list (Z * Z * Z) :=
  match a, code with
  | Some k, Some c => [(response_id r k, response_phy k p, c)]
  | _, _ => []
  end.

Fixpoint fsm_run (r : rat) (p : Z) (s : fsm) (es : list (option kind)) : fsm * list (Z * Z * Z) :=
  match es with
  | [] => (s, [])
  | e :: es =>
      let '(s1, code) := fsm_event r s e in
      let '(s2, out) := fsm_run r p s1 es in
      (s2, answer r p e code ++ out)
  end.

(** A request of kind [k] for the only PHY [p] of the PNF. *)
Definition request_of (r : rat) (p : Z) (k : kind) (req : request) : Prop :=
  r_message_id req = request_id r k /\ r_unpacks req = true /\
  match k with
  | PNF_CONFIG => r_phy_rf req = Some [p]
  | PNF_PARAM | PNF_START | PNF_STOP => True
  | _ => r_phy_id req = p
  end.

Definition event_of (r : rat) (p : Z) (a : option kind) (e : event) : Prop :=
  match a, e with
  | Some k, Message req => request_of r p k req
  | None, ConnectionLost => True
  | _, _ => False
  end.

Definition responses (es : list effect) : list (Z * Z * Z) :=
  omap (fun e => match e with Response m p c => Some (m, p, c) | _ => None end) es.

(** How the states correspond. *)
Definition represents (p : Z) (st : pnf_t) (s : fsm) : Prop :=
  state st = fst s /\ (fst s <> NFAPI_PNF_IDLE -> snd s <> None) /\
  match snd s with
  | None => phys st = []
  | Some ph => id (info st) = p /\ exists b, phys st = [Phy p ph b]
  end.

Lemma responses_app a b : responses (a ++ b) = responses a ++ responses b.
Proof. unfold responses. induction a as [|x a IH]; [done|]. cbn. destruct x; cbn; by rewrite IH. Qed.

(** Runs the handler that [find] selects on a concrete identifier. *)
Lemma handle_p5_select r k req :
  r_message_id req = request_id r k ->
  handle_p5 r req = match k with
    | PNF_PARAM => pnf_handle_pnf_param_request r req
    | PNF_CONFIG => pnf_handle_pnf_config_request r req
    | PNF_START => pnf_handle_pnf_start_request r req
    | PNF_STOP => pnf_handle_pnf_stop_request req
    | PARAM => pnf_handle_param_request r req
    | CONFIG => pnf_handle_config_request r req
    | START => pnf_handle_start_request r req
    | STOP => pnf_handle_stop_request r req
    | MEASUREMENT => pnf_handle_measurement_request req
    end.
Proof.
  intros Hid. destruct r; cbn [handle_p5]; unfold pnf_handle_p5_message, pnf_nr_handle_p5_message, select;
    rewrite Hid; destruct k; reflexivity.
Qed.

(** Runs a handler on a state whose PNF and PHY states are known. *)
Create HintDb p5.
#[export] Hint Unfold pnf_handle_pnf_param_request pnf_handle_pnf_config_request pnf_handle_pnf_start_request
  pnf_handle_pnf_stop_request pnf_handle_param_request pnf_handle_config_request pnf_handle_start_request
  pnf_handle_stop_request pnf_handle_measurement_request phy_request pnf_param_request pnf_config_request
  pnf_start_request pnf_stop_request param_request config_request start_request measurement_request
  nfapi_send_pnf_start_resp nfapi_pnf_pnf_param_resp nfapi_pnf_pnf_config_resp nfapi_pnf_pnf_start_resp
  nfapi_pnf_pnf_stop_resp nfapi_pnf_param_resp nfapi_pnf_config_resp nfapi_pnf_start_resp nfapi_pnf_stop_resp
  nfapi_pnf_measurement_resp pnf_level_resp phy_level_resp pnf_pack_and_send_p5_message
  nfapi_pnf_phy_config_delete_all nfapi_pnf_phy_config_add set_info set_state change_phy andthen emit skip
  idle running not_running : p5.

Ltac run_p5 :=
  repeat autounfold with p5;
  repeat progress (cbn;
    repeat match goal with
    | H : r_unpacks _ = _ |- _ => rewrite H
    | H : r_phy_rf _ = _ |- _ => rewrite H
    | H : r_phy_id _ = _ |- _ => rewrite H
    | H : nfapi_pnf_phy_config_find _ _ = _ |- _ => rewrite H
    | H : id _ = _ |- _ => rewrite H
    | H : ?p <> 0 |- context [?p =? 0] => rewrite (proj2 (Z.eqb_neq p 0) H)
    | |- context [?p =? ?p] => rewrite (Z.eqb_refl p)
    | |- context [decide ?P] =>
        let d := eval hnf in (decide P) in
        match d with left _ => idtac | right _ => idtac end; change (decide P) with d
    end).

(** One event. *)
Lemma event_refines r p st s a e :
  p <> 0 -> represents p st s -> event_of r p a e ->
  represents p (fst (on_event r e st)) (fst (fsm_event r s a)) /\
  responses (snd (on_event r e st)) = answer r p a (snd (fsm_event r s a)).
Proof.
  intros Hp (Hst & Hne & Hph) He. destruct st as [sp ps i]. cbn in Hst, Hph. subst sp. destruct s as [sp ph].
  cbn [fst snd] in *. destruct a as [k|], e as [req|]; try done.
  - destruct He as (Hid & Hun & Hf). cbn [on_event]. rewrite (handle_p5_select r k req Hid). cbn [fsm_event]. clear Hid.
    destruct ph as [ph|]; [destruct Hph as (Hi & b & ->)|subst ps; destruct sp; [|by destruct Hne|by destruct Hne]].
    + destruct k, r, sp, ph; (split; [|by run_p5]); run_p5; unfold represents; cbn; eauto.
    + destruct k, r; (split; [|by run_p5]); run_p5; unfold represents; cbn; eauto.
Qed.

(** Any sequence of events. *)
Lemma run_refines r p es abs : p <> 0 -> Forall2 (event_of r p) abs es -> forall st s, represents p st s ->
  represents p (fst (run r es st)) (fst (fsm_run r p s abs)) /\ responses (snd (run r es st)) = snd (fsm_run r p s abs).
Proof.
  intros Hp. induction 1 as [|a e abs es Hae Hes IH]; intros st s H0; [done|].
  destruct (event_refines r p st s a e Hp H0 Hae) as [H1 H2]. cbn [run fsm_run]. unfold andthen.
  destruct (on_event r e st) as [st1 out1]. cbn [fst snd] in H1, H2.
  destruct (fsm_event r s a) as [s1 code]. cbn [fst snd] in H1, H2. specialize (IH st1 s1 H1).
  destruct (run r es st1) as [st2 out2]. destruct (fsm_run r p s1 abs) as [s2 answers]. destruct IH as [I1 I2].
  cbn [fst snd] in *. split; [done|]. by rewrite responses_app, H2, I2.
Qed.

Lemma run_app r es es' st : run r (es ++ es') st = andthen (run r es) (run r es') st.
Proof.
  revert st. induction es as [|e es IH]; intros st; cbn [run app]; unfold andthen, skip.
  - by destruct (run r es' st).
  - destruct (on_event r e st) as [st1 out1]. rewrite IH. unfold andthen.
    destruct (run r es st1) as [st2 out2]. destruct (run r es' st2). by rewrite app_assoc.
Qed.

(** ** Properties *)

(** C14.  For a PNF with one PHY (with a non-zero identifier) the handlers,
    response functions and callbacks together implement the state machine
    [fsm_next]: over any sequence of requests and lost connections from the
    start, LTE or NR, the states of the PNF and of the PHY and the responses
    sent are those of the specification. *)
Theorem pnf_refines_fsm (r : rat) (p : Z) (es : list event) (abs : list (option kind)) :
  p <> 0 -> Forall2 (event_of r p) abs es ->
  represents p (fst (run r es nfapi_pnf_config_create)) (fst (fsm_run r p (NFAPI_PNF_IDLE, None) abs)) /\
  responses (snd (run r es nfapi_pnf_config_create)) = snd (fsm_run r p (NFAPI_PNF_IDLE, None) abs).
Proof.
  intros Hp Hes. by apply run_refines.
Qed.

(** Requests of each kind with nothing else in them. *)
Definition no_config : config_tlvs := ConfigTlvs None None None 0 [].
Definition simple_request (r : rat) (p : Z) (k : kind) : request :=
  Request (request_id r k) true p (match k with PNF_CONFIG => Some [p] | _ => None end) no_config.

Lemma simple_request_of r p k : request_of r p k (simple_request r p k).
Proof. by destruct k. Qed.

Lemma pnf_refines_fsm_witness :
  let run := run Nr [Message (simple_request Nr 5 PNF_CONFIG); ConnectionLost;
                     Message (simple_request Nr 5 PNF_START)] nfapi_pnf_config_create in
  represents 5 (fst run) (NFAPI_PNF_IDLE, Some NFAPI_PNF_PHY_IDLE) /\
  responses (snd run) =
    [(NFAPI_PNF_CONFIG_RESPONSE, 0, NFAPI_MSG_OK); (NFAPI_PNF_START_RESPONSE, 0, NFAPI_MSG_INVALID_STATE)].
Proof.
  refine (pnf_refines_fsm Nr 5 _ [Some PNF_CONFIG; None; Some PNF_START] _ _); [lia|].
  constructor; [exact (simple_request_of Nr 5 PNF_CONFIG)|]. constructor; [done|].
  constructor; [exact (simple_request_of Nr 5 PNF_START)|constructor].
Defined.

(** The start-up of a VNF succeeds: PNF_PARAM, PNF_CONFIG, PNF_START, then
    PARAM, CONFIG and START for the PHY are each answered with OK, leave the PNF
    and the PHY running, and create the P7 thread once, with the timing window
    and the VNF's address of the CONFIG.request, before the START.response and
    the first indication. *)
Theorem startup_starts_p7 (r : rat) (p : Z) (requests : list request) (config_req : request) :
  p <> 0 ->
  Forall2 (request_of r p) [PNF_PARAM; PNF_CONFIG; PNF_START; PARAM; CONFIG; START] requests ->
  nth_error requests 4 = Some config_req ->
  let c := r_config config_req in
  let i := PhyInfo p (c_p7_vnf_port c) (c_p7_vnf_address c)
    (default 0 (u8 <$> c_timing_window c)) (default 0 (u8 <$> c_timing_info_mode c))
    (default 0 (u8 <$> c_timing_info_period c)) in
  run r (map Message requests) nfapi_pnf_config_create =
  (Pnf NFAPI_PNF_RUNNING [Phy p NFAPI_PNF_PHY_RUNNING true] i,
   [Response NFAPI_PNF_PARAM_RESPONSE 0 NFAPI_MSG_OK; Response NFAPI_PNF_CONFIG_RESPONSE 0 NFAPI_MSG_OK;
    Response NFAPI_PNF_START_RESPONSE 0 NFAPI_MSG_OK; Response (PARAM_RESPONSE r) p NFAPI_MSG_OK;
    Response (CONFIG_RESPONSE r) p NFAPI_MSG_OK;
    StartP7 p (timing_window i) (negb (Z.land (timing_info_mode i) 0x1 =? 0))
      (negb (Z.land (timing_info_mode i) 0x2 =? 0)) i;
    Response (START_RESPONSE r) p NFAPI_MSG_OK; FirstIndication p]).
Proof.
  intros Hp Hrs Hc.
  do 6 (apply Forall2_cons_inv_l in Hrs as (? & ? & (?Hid & ?Hun & ?Hf) & Hrs & ->)).
  apply Forall2_nil_inv_l in Hrs as ->. injection Hc as ->.
  cbn [map run on_event].
  rewrite (handle_p5_select _ _ _ Hid), (handle_p5_select _ _ _ Hid0), (handle_p5_select _ _ _ Hid1),
    (handle_p5_select _ _ _ Hid2), (handle_p5_select _ _ _ Hid3), (handle_p5_select _ _ _ Hid4).
  unfold nfapi_pnf_config_create. destruct r; run_p5; unfold create_phys; run_p5;
  destruct (c_timing_window _), (c_timing_info_mode _), (c_timing_info_period _); reflexivity.
Qed.

Lemma startup_starts_p7_witness :
  let reqs := map (simple_request Lte 3) [PNF_PARAM; PNF_CONFIG; PNF_START; PARAM; CONFIG; START] in
  state (fst (run Lte (map Message reqs) nfapi_pnf_config_create)) = NFAPI_PNF_RUNNING.
Proof.
  cbv zeta. erewrite (startup_starts_p7 Lte 3 _ (simple_request Lte 3 CONFIG)); [reflexivity|lia| |reflexivity].
  repeat (constructor; [exact (simple_request_of Lte 3 _)|]). constructor.
Defined.

(** ** Any state, any number of PHYs *)

Lemma find_in phys p phy : nfapi_pnf_phy_config_find phys p = Some phy -> phy_id phy = p.
Proof.
  induction phys as [|x phys IH]; [done|]. cbn. destruct (Z.eqb_spec (phy_id x) p); [by intros [= <-]|done].
Qed.

Lemma find_update f phys p q phy :
  (forall x, phy_id (f x) = phy_id x) -> nfapi_pnf_phy_config_find phys p = Some phy ->
  exists phy', nfapi_pnf_phy_config_find (update_phy f q phys) p = Some phy'.
Proof.
  intros Hf. induction phys as [|x phys IH]; [done|]. cbn.
  destruct (Z.eqb_spec (phy_id x) p), (Z.eqb_spec (phy_id x) q); cbn; rewrite ?Hf;
    repeat match goal with
    | H : ?a = ?b |- context [?a =? ?b] => rewrite (proj2 (Z.eqb_eq a b) H)
    | H : ?a <> ?b |- context [?a =? ?b] => rewrite (proj2 (Z.eqb_neq a b) H)
    end; eauto.
Qed.

(** What is found after an update. *)
Lemma find_update_exact f phys p q x y :
  (forall x, phy_id (f x) = phy_id x) -> p <> q ->
  nfapi_pnf_phy_config_find phys p = Some x -> nfapi_pnf_phy_config_find phys q = Some y ->
  nfapi_pnf_phy_config_find (update_phy f p phys) p = Some (f x) /\
  nfapi_pnf_phy_config_find (update_phy f p phys) q = Some y.
Proof.
  intros Hf Hpq. induction phys as [|z phys IH]; [done|]. cbn.
  destruct (phy_id z =? p) eqn:Ep; cbn; rewrite ?Hf, Ep; [intros [= ->]|].
  - apply Z.eqb_eq in Ep. rewrite (proj2 (Z.eqb_neq (phy_id x) q)) by congruence. by intros ?.
  - destruct (phy_id z =? q); [|done]. intros Hp [= ->]. split; [|done].
    clear -Hp Hf. revert Hp. induction phys as [|z phys IH]; [done|]. cbn.
    destruct (phy_id z =? p) eqn:Ep; cbn; rewrite ?Hf, Ep; [by intros [= ->]|done].
Qed.

(** The requests that get no response although they are understood. *)
Definition silent (r : rat) (st : pnf_t) (k : kind) (req : request) : bool :=
  let known p := match nfapi_pnf_phy_config_find (phys st) p with Some _ => true | None => false end in
  let pnf_running := bool_decide (state st = NFAPI_PNF_RUNNING) in
  let phy_running := match nfapi_pnf_phy_config_find (phys st) (r_phy_id req) with
    | Some phy => bool_decide (phy_state phy = NFAPI_PNF_PHY_RUNNING) | None => false end in
  match k with
  | PNF_PARAM | PNF_CONFIG | PNF_STOP | PARAM | MEASUREMENT => false
  | PNF_START => bool_decide (state st = NFAPI_PNF_CONFIGURED) && (id (info st) =? 0)
  | CONFIG =>
      negb (known (r_phy_id req)) ||
      (if pnf_running && negb phy_running then negb (known (id (info st)))
       else match r with Nr => true | Lte => false end)
  | START => negb (known (r_phy_id req))
  | STOP => negb (known (r_phy_id req)) || (pnf_running && negb phy_running)
  end.

(** The PHY records of PNF_CONFIG, in reverse order. *)
Lemma create_phys_spec ids st :
  create_phys ids st = (Pnf (state st) (rev_append ((fun i => Phy i NFAPI_PNF_PHY_IDLE false) <$> ids) (phys st)) (info st), []).
Proof.
  revert st. induction ids as [|i ids IH]; intros st; [by destruct st|]. cbn [create_phys]. unfold andthen.
  cbn. rewrite IH. by destruct st.
Qed.

(** One response is in sight, or none. *)
Ltac answered_with := split;
  [reflexivity|let H := fresh in let H' := fresh in intros H H'; solve [reflexivity|discriminate H|destruct (H' eq_refl)]].
Ltac answered := solve [exists 0, 0; answered_with | do 2 eexists; answered_with].

(** C36.  An understood request of P5 gets exactly one response, with the
    identifier of its kind, except in the cases of [silent]: PNF_START when
    PNF_CONFIG listed no PHY (or PHY 0) first; CONFIG, START and STOP for an
    unknown PHY, whatever the state; every refused CONFIG over NR; an accepted
    CONFIG when the PHY listed first is unknown; and an accepted STOP.  A
    response with another code than OK leaves the state unchanged. *)
Theorem one_response (r : rat) (st : pnf_t) (k : kind) (req : request) :
  r_message_id req = request_id r k -> r_unpacks req = true ->
  exists phy code,
    responses (snd (handle_p5 r req st)) =
      (if silent r st k req then [] else [(response_id r k, phy, code)]) /\
    (silent r st k req = false -> code <> NFAPI_MSG_OK -> fst (handle_p5 r req st) = st).
Proof.
  intros Hid Hun. rewrite (handle_p5_select _ _ _ Hid).
  destruct st as [sp ps i].
  destruct (nfapi_pnf_phy_config_find ps (r_phy_id req)) as [[q ph b]|] eqn:Hphy;
    [pose proof (find_in _ _ _ Hphy) as Hq; cbn in Hq; subst q|];
    destruct k; try (destruct sp); run_p5; rewrite ?create_phys_spec; try answered.
  all: destruct r; try (destruct ph); run_p5; try answered.
  all: try (destruct (id i =? 0); answered); try (destruct (nfapi_pnf_phy_config_find ps (id i)); answered).
  all: (destruct (find_update (fun phy => Phy (phy_id phy) (phy_state phy) true) _ _ (r_phy_id req) _
    (fun _ => eq_refl) Hphy) as [? Hphy']; rewrite Hphy'; answered).
Qed.

Lemma one_response_witness :
  exists phy code,
    responses (snd (handle_p5 Nr (simple_request Nr 7 START) (Pnf NFAPI_PNF_IDLE [Phy 7 NFAPI_PNF_PHY_IDLE false]
      (info nfapi_pnf_config_create)))) = [(START_RESPONSE Nr, phy, code)].
Proof.
  destruct (one_response Nr (Pnf NFAPI_PNF_IDLE [Phy 7 NFAPI_PNF_PHY_IDLE false] (info nfapi_pnf_config_create))
    START (simple_request Nr 7 START) eq_refl eq_refl) as (q & c & H & _). exists q, c. exact H.
Defined.

(** ** Invariants of every reachable state *)

(** A running PHY has its P7 thread; a running PNF has a PHY identifier; and the
    PHY that PNF_CONFIG listed first is there, unless it listed none. *)
Definition phy_ok (phy : nfapi_pnf_phy_config_t) : Prop :=
  phy_state phy = NFAPI_PNF_PHY_RUNNING -> phy_p7 phy = true.
Record pnf_ok (st : pnf_t) : Prop := {
  ok_running : state st = NFAPI_PNF_RUNNING -> id (info st) <> 0;
  ok_phys : Forall phy_ok (phys st);
  ok_first : (phys st = [] /\ id (info st) = 0) \/
             exists phy, nfapi_pnf_phy_config_find (phys st) (id (info st)) = Some phy }.

Definition preserves (p : step) : Prop := forall st, pnf_ok st -> pnf_ok (fst (p st)).

Lemma preserves_andthen p q : preserves p -> preserves q -> preserves (andthen p q).
Proof.
  intros Hp Hq st Hst. unfold andthen. specialize (Hp st Hst). destruct (p st) as [st1 ?].
  specialize (Hq st1 Hp). by destruct (q st1).
Qed.

Lemma preserves_emit es : preserves (emit es).
Proof. by intros st. Qed.

Lemma preserves_skip : preserves skip.
Proof. by intros st. Qed.

Lemma preserves_if (b : bool) p q : preserves p -> preserves q -> preserves (if b then p else q).
Proof. by destruct b. Qed.

Lemma preserves_send r m p c : preserves (pnf_pack_and_send_p5_message r m p c).
Proof. apply preserves_if; [apply preserves_emit|apply preserves_skip]. Qed.

(** Leaving the state RUNNING or not entering it. *)
Lemma preserves_set_state s : s <> NFAPI_PNF_RUNNING -> preserves (set_state s).
Proof. intros Hs st [H1 H2 H3]. by split. Qed.

Lemma update_phy_ok f p phys : (forall x, phy_ok x -> phy_ok (f x)) -> Forall phy_ok phys -> Forall phy_ok (update_phy f p phys).
Proof. intros Hf. induction 1 as [|x phys Hx Hall IH]; [done|]. cbn. destruct (_ =? _); constructor; auto. Qed.

Lemma preserves_change_phy f p :
  (forall x, phy_id (f x) = phy_id x) -> (forall x, phy_ok x -> phy_ok (f x)) -> preserves (change_phy f p).
Proof.
  intros Hid Hf st [H1 H2 H3]. split; cbn; [done|by apply update_phy_ok|].
  destruct H3 as [[-> ?]|[phy H3]]; [by left|right]. by apply (find_update f _ _ p phy).
Qed.

Lemma preserves_set_info f : (forall i, id (f i) = id i) -> preserves (set_info f).
Proof. intros Hf st [H1 H2 H3]. by split; cbn; rewrite ?Hf. Qed.

Create HintDb pnf_ok.
#[export] Hint Resolve preserves_andthen preserves_emit preserves_skip preserves_if preserves_send
  preserves_set_info preserves_change_phy : pnf_ok.

Lemma preserves_phy_level_resp r next m p c :
  next <> NFAPI_PNF_PHY_RUNNING -> preserves (phy_level_resp r next m p c).
Proof.
  intros Hn st Hst. unfold phy_level_resp. destruct (nfapi_pnf_phy_config_find _ _); [|done].
  apply preserves_andthen; [|apply preserves_send|done]. apply preserves_if; [|apply preserves_skip].
  apply preserves_change_phy; [done|]. by intros x _ [= ?].
Qed.

(** A request to a PHY preserves the invariant if the callback does and the
    refusals do. *)
Lemma preserves_phy_request accepts `{!forall s, Decision (accepts s)} callback resp unknown req :
  (forall c, c <> NFAPI_MSG_OK -> preserves (resp (r_phy_id req) c)) -> unknown <> NFAPI_MSG_OK ->
  (forall f st phy, callback = Some f -> pnf_ok st ->
     nfapi_pnf_phy_config_find (phys st) (r_phy_id req) = Some phy -> pnf_ok (fst (f phy req st))) ->
  preserves (phy_request accepts callback resp unknown req).
Proof.
  intros Hresp Hu Hcb st Hst. unfold phy_request. destruct (r_unpacks req); [|done]. cbn.
  case_decide; [|by apply Hresp]. destruct (nfapi_pnf_phy_config_find _ _) as [phy|] eqn:Hf; [|by apply Hresp].
  case_decide; [|by apply Hresp]. destruct callback as [f|]; [|done]. by apply (Hcb f).
Qed.

Lemma update_phy_twice f g p phys :
  (forall x, phy_id (g x) = phy_id x) -> update_phy f p (update_phy g p phys) = update_phy (fun x => f (g x)) p phys.
Proof.
  intros Hg. induction phys as [|x phys IH]; [done|]. cbn.
  destruct (phy_id x =? p) eqn:E; cbn; rewrite ?Hg, E; [done|by rewrite IH].
Qed.

(** START: the P7 thread is created and the PHY set to RUNNING together. *)
Lemma start_request_ok r phy req st :
  pnf_ok st -> nfapi_pnf_phy_config_find (phys st) (r_phy_id req) = Some phy -> pnf_ok (fst (start_request r phy req st)).
Proof.
  intros Hst Hf. pose proof (find_in _ _ _ Hf) as Hid. unfold start_request. rewrite Hid.
  destruct (find_update (fun phy => Phy (phy_id phy) (phy_state phy) true) _ _ (r_phy_id req) _ (fun _ => eq_refl) Hf)
    as [phy' Hf'].
  pose proof (preserves_change_phy
    (fun x => in_state NFAPI_PNF_PHY_RUNNING (Phy (phy_id x) (phy_state x) true)) (r_phy_id req)
    (fun _ => eq_refl) (fun _ _ _ => eq_refl) st Hst) as Hok. unfold change_phy in Hok. cbn in Hok.
  unfold andthen, change_phy, emit. cbn. unfold nfapi_send_pnf_start_resp, nfapi_pnf_start_resp, phy_level_resp. cbn.
  rewrite Hf'. unfold andthen, change_phy, pnf_pack_and_send_p5_message, emit, skip. cbn.
  rewrite update_phy_twice by done. by destruct (existsb _ _).
Qed.

Lemma preserves_phy_resps r m p c :
  preserves (nfapi_pnf_config_resp r m p c) /\ preserves (nfapi_pnf_stop_resp m p c) /\
  (c <> NFAPI_MSG_OK -> preserves (nfapi_pnf_start_resp r m p c)).
Proof.
  split_and!; [by apply preserves_phy_level_resp..|]. intros Hc st Hst. unfold nfapi_pnf_start_resp, phy_level_resp.
  destruct (nfapi_pnf_phy_config_find _ _); [|done]. rewrite (proj2 (Z.eqb_neq _ _) Hc).
  by apply preserves_andthen; [apply preserves_skip|apply preserves_send|].
Qed.

Lemma config_request_ok r phy req : preserves (config_request r phy req).
Proof.
  apply preserves_andthen; [by apply preserves_set_info|].
  intros st. apply (proj1 (preserves_phy_resps r (CONFIG_RESPONSE r) (id (info st)) 0)).
Qed.

Lemma preserves_refusal r next m c : c <> NFAPI_MSG_OK -> preserves (pnf_level_resp r next m c).
Proof.
  intros Hc. unfold pnf_level_resp. rewrite (proj2 (Z.eqb_neq _ _) Hc).
  apply preserves_andthen; [apply preserves_skip|apply preserves_send].
Qed.

(** PNF_CONFIG: the list is replaced, with the PHY it lists first in it. *)
Lemma find_rev_append p ids acc :
  In p ids -> exists phy, nfapi_pnf_phy_config_find (rev_append ((fun i => Phy i NFAPI_PNF_PHY_IDLE false) <$> ids) acc) p = Some phy.
Proof.
  intros Hin.
  assert (Hacc : forall ids acc, (exists phy, nfapi_pnf_phy_config_find acc p = Some phy) ->
    exists phy, nfapi_pnf_phy_config_find (rev_append ((fun i => Phy i NFAPI_PNF_PHY_IDLE false) <$> ids) acc) p = Some phy).
  { clear. induction ids as [|i ids IH]; intros acc Ha; [done|]. apply IH. cbn. destruct (i =? p); eauto. }
  revert acc. induction ids as [|i ids IH]; intros acc; [done|]. cbn.
  destruct Hin as [->|Hin]; [|by apply IH]. apply Hacc. cbn. rewrite Z.eqb_refl. eauto.
Qed.

Lemma pnf_config_ok r req : preserves (pnf_handle_pnf_config_request r req).
Proof.
  intros st Hst. unfold pnf_handle_pnf_config_request. destruct (r_unpacks req); [|done]. cbn [negb]. case_decide.
  - unfold nfapi_pnf_phy_config_delete_all, pnf_config_request, andthen. cbn. rewrite create_phys_spec.
    unfold set_info, nfapi_pnf_pnf_config_resp, pnf_level_resp, andthen, set_state, pnf_pack_and_send_p5_message, emit, skip.
    cbn. enough (pnf_ok (Pnf NFAPI_PNF_CONFIGURED
      (rev_append ((fun i => Phy i NFAPI_PNF_PHY_IDLE false) <$> default [] (r_phy_rf req)) [])
      (PhyInfo (hd 0 (default [] (r_phy_rf req))) (remote_port (info st)) (remote_addr (info st))
         (timing_window (info st)) (timing_info_mode (info st)) (timing_info_period (info st))))) by (by destruct r).
    split; cbn; [done| |].
    + rewrite rev_append_rev, app_nil_r. apply Forall_rev, Forall_fmap, Forall_true. by intros i [= ?].
    + destruct (default [] (r_phy_rf req)) as [|p ids]; [by left|]. right. apply find_rev_append. by left.
  - by apply preserves_refusal.
Qed.

(** PNF_START and PNF_STOP. *)
Lemma pnf_start_ok r req : preserves (pnf_handle_pnf_start_request r req).
Proof.
  intros st Hst. unfold pnf_handle_pnf_start_request. destruct (r_unpacks req); [|done]. cbn [negb]. case_decide.
  - unfold pnf_start_request. destruct (Z.eqb_spec (id (info st)) 0) as [|Hid]; [done|]. cbn.
    unfold nfapi_pnf_pnf_start_resp, pnf_level_resp. unfold andthen, set_state. cbn.
    assert (pnf_ok (Pnf NFAPI_PNF_RUNNING (phys st) (info st))) as Hok by (by split; [|apply Hst..]).
    pose proof (preserves_send r NFAPI_PNF_START_RESPONSE 0 NFAPI_MSG_OK _ Hok).
    by destruct (pnf_pack_and_send_p5_message _ _ _ _ _).
  - by apply preserves_refusal.
Qed.

Lemma pnf_stop_ok req : preserves (pnf_handle_pnf_stop_request req).
Proof.
  intros st Hst. unfold pnf_handle_pnf_stop_request. destruct (r_unpacks req); [|done]. cbn [negb].
  case_decide; apply preserves_andthen; auto using preserves_send, preserves_skip; by apply preserves_set_state.
Qed.

Lemma pnf_param_ok r req : preserves (pnf_handle_pnf_param_request r req).
Proof.
  intros st Hst. unfold pnf_handle_pnf_param_request. destruct (r_unpacks req); [|done]. cbn [negb].
  case_decide; by apply preserves_send.
Qed.

(** Requests to a PHY whose callback and refusals only send. *)
Lemma p4_request_ok accepts `{!forall s, Decision (accepts s)} m (resp : Z -> Z -> step) ind req :
  (forall p c, preserves (m p c)) -> (forall p c, preserves (resp p c)) -> (forall i p, ind = Some i -> preserves (i p)) ->
  preserves (p4_request accepts (fun _ => p4_procedure resp ind) m req).
Proof.
  intros Hm Hresp Hind. apply preserves_phy_request; [intros; apply Hm|done|].
  intros f st phy [= <-] Hst _. apply preserves_andthen; [apply Hresp| |done].
  destruct ind; [by apply Hind|apply preserves_skip].
Qed.

Lemma phy_handlers_ok r req :
  preserves (pnf_handle_param_request r req) /\ preserves (pnf_handle_config_request r req) /\
  preserves (pnf_handle_start_request r req) /\ preserves (pnf_handle_stop_request r req) /\
  preserves (pnf_handle_measurement_request req).
Proof.
  split_and!; apply preserves_phy_request; try done.
  - intros; apply preserves_send.
  - intros f st phy [= <-] Hst _. by apply preserves_send.
  - intros c _. apply preserves_phy_resps.
  - intros f st phy [= <-] Hst _. by apply config_request_ok.
  - intros c Hc. by apply preserves_phy_resps.
  - by destruct r.
  - intros f st phy [= <-]. apply start_request_ok.
  - intros c _. apply (preserves_phy_resps r).
  - intros; apply preserves_send.
  - intros f st phy [= <-] Hst _. by apply preserves_send.
Qed.

Lemma preserves_select table req :
  Forall (fun e => preserves (snd e req)) table -> preserves (select table req).
Proof.
  intros Ht. unfold select. destruct (find _ table) as [[m h]|] eqn:Hf; [|apply preserves_skip].
  apply find_some in Hf as [Hin _]. exact (proj1 (List.Forall_forall _ _) Ht _ Hin).
Qed.

Lemma common_requests_ok req : Forall (fun e => preserves (snd e req)) common_requests.
Proof.
  unfold common_requests. constructor; [apply (phy_handlers_ok Lte)|].
  repeat (constructor; [apply p4_request_ok; intros; simplify_eq; apply preserves_emit|]). constructor.
Qed.

Lemma on_event_ok r e : preserves (on_event r e).
Proof.
  destruct e as [req|]; [|by apply preserves_set_state].
  destruct (phy_handlers_ok r req) as (Hparam & Hconfig & Hstart & Hstop & _).
  assert (forall t, Forall (fun e => preserves (snd e req)) t ->
    Forall (fun e => preserves (snd e req)) (t ++ common_requests)) as Happ
    by (intros; apply Forall_app; split; [done|apply common_requests_ok]).
  destruct r; apply preserves_select, Happ;
    repeat (constructor; [first [apply pnf_param_ok|apply pnf_config_ok|apply pnf_start_ok|apply pnf_stop_ok|assumption]|]);
    constructor.
Qed.

(** C35.  Whatever requests arrive, understood or not, of P4 or P5, for known or
    unknown PHYs, and however often the connection is lost: in every reachable
    state a running PHY has its P7 thread, a running PNF has a non-zero PHY
    identifier, and the PHY of that identifier is in the list.  So an accepted
    CONFIG always finds the PHY it configures. *)
Theorem pnf_reachable_ok (r : rat) (es : list event) :
  let st := fst (run r es nfapi_pnf_config_create) in
  Forall (fun phy => phy_state phy = NFAPI_PNF_PHY_RUNNING -> phy_p7 phy = true) (phys st) /\
  (state st = NFAPI_PNF_RUNNING ->
   id (info st) <> 0 /\ exists phy, nfapi_pnf_phy_config_find (phys st) (id (info st)) = Some phy).
Proof.
  cbv zeta. assert (pnf_ok nfapi_pnf_config_create) as H0 by (split; cbn; [done|constructor|by left]).
  assert (preserves (run r es)) as Hrun.
  { induction es as [|e es IH]; [apply preserves_skip|]. apply preserves_andthen; [apply on_event_ok|exact IH]. }
  destruct (Hrun _ H0) as [H1 H2 [[_ H3]|H3]]; split; try exact H2; intros Hr; specialize (H1 Hr); [done|by split].
Qed.

Lemma pnf_reachable_ok_witness :
  exists phy, nfapi_pnf_phy_config_find
    (phys (fst (run Lte (map (fun k => Message (simple_request Lte 4 k)) [PNF_CONFIG; PNF_START])
       nfapi_pnf_config_create))) 4 = Some phy.
Proof.
  destruct (pnf_reachable_ok Lte (map (fun k => Message (simple_request Lte 4 k)) [PNF_CONFIG; PNF_START])) as [_ H].
  destruct (H eq_refl) as [_ [phy Hphy]]. exists phy. exact Hphy.
Defined.

(** A STOP.request never stops anything: whatever the state and the PHY,
    nothing changes and no STOP.response carries OK.  The handler accepts the
    PHYs that are not running, for which no callback is registered, and answers
    a running one with INVALID_STATE. *)
Theorem stop_never_stops (r : rat) (st : pnf_t) (req : request) :
  r_message_id req = request_id r STOP ->
  fst (handle_p5 r req st) = st /\
  Forall (fun e => exists m p, e = Response m p NFAPI_MSG_INVALID_STATE) (snd (handle_p5 r req st)) /\
  (forall phy, r_unpacks req = true -> state st = NFAPI_PNF_RUNNING ->
     nfapi_pnf_phy_config_find (phys st) (r_phy_id req) = Some phy ->
     snd (handle_p5 r req st) =
       if decide (phy_state phy = NFAPI_PNF_PHY_RUNNING)
       then [Response NFAPI_STOP_RESPONSE (r_phy_id req) NFAPI_MSG_INVALID_STATE] else []).
Proof.
  intros Hid. rewrite (handle_p5_select _ _ _ Hid). destruct st as [sp ps i].
  unfold pnf_handle_stop_request, phy_request. destruct (r_unpacks req); [|by split_and!].
  assert (Hinv : forall e : effect, e = Response NFAPI_STOP_RESPONSE (r_phy_id req) NFAPI_MSG_INVALID_STATE ->
    Forall (fun e => exists m p, e = Response m p NFAPI_MSG_INVALID_STATE) [e]) by (intros e ->; eauto).
  cbn [negb state phys]. destruct (nfapi_pnf_phy_config_find ps (r_phy_id req)) as [[q [] b]|] eqn:Hphy;
    destruct sp, r; run_p5; split_and!; try done; try (by constructor); try (by apply Hinv);
    intros phy _ _ [= <-]; done.
Qed.

Lemma stop_never_stops_witness :
  let st := Pnf NFAPI_PNF_RUNNING [Phy 2 NFAPI_PNF_PHY_RUNNING true] (PhyInfo 2 0 [] 0 0 0) in
  snd (handle_p5 Lte (simple_request Lte 2 STOP) st) = [Response NFAPI_STOP_RESPONSE 2 NFAPI_MSG_INVALID_STATE].
Proof.
  intros st. destruct (stop_never_stops Lte st (simple_request Lte 2 STOP) eq_refl) as (_ & _ & H).
  exact (H (Phy 2 NFAPI_PNF_PHY_RUNNING true) eq_refl eq_refl eq_refl).
Defined.

(** A CONFIG.request for one PHY configures another: if a running PNF has
    a PHY [q] that is not running, a CONFIG for it puts the PHY [p] that
    PNF_CONFIG listed first in state CONFIGURED, even from RUNNING, leaves [q]
    as it was, and the response names [p]. *)
Theorem config_of_another_phy (r : rat) (st : pnf_t) (req : request) (p_phy q_phy : nfapi_pnf_phy_config_t) :
  r_message_id req = request_id r CONFIG -> r_unpacks req = true -> state st = NFAPI_PNF_RUNNING ->
  let p := id (info st) in
  let q := r_phy_id req in
  p <> q ->
  nfapi_pnf_phy_config_find (phys st) p = Some p_phy ->
  nfapi_pnf_phy_config_find (phys st) q = Some q_phy -> phy_state q_phy <> NFAPI_PNF_PHY_RUNNING ->
  let st' := fst (handle_p5 r req st) in
  nfapi_pnf_phy_config_find (phys st') p = Some (in_state NFAPI_PNF_PHY_CONFIGURED p_phy) /\
  nfapi_pnf_phy_config_find (phys st') q = Some q_phy /\
  snd (handle_p5 r req st) = [Response (CONFIG_RESPONSE r) p NFAPI_MSG_OK].
Proof.
  intros Hid Hun Hrun p q Hpq Hp Hq Hst. cbv zeta. rewrite (handle_p5_select _ _ _ Hid).
  unfold pnf_handle_config_request, phy_request. rewrite Hun. cbn [negb].
  rewrite decide_True by done. subst q. rewrite Hq. rewrite decide_True by exact Hst.
  destruct st as [sp ps i]. cbn in *. unfold config_request, andthen, set_info, nfapi_pnf_config_resp, phy_level_resp.
  cbn. subst p. rewrite Hp. unfold andthen, change_phy, pnf_pack_and_send_p5_message, emit, skip. cbn.
  clear -Hpq Hp Hq. destruct r; cbn.
  all: by destruct (find_update_exact (in_state NFAPI_PNF_PHY_CONFIGURED) ps _ _ _ _ (fun _ => eq_refl) Hpq Hp Hq).
Qed.

Lemma config_of_another_phy_witness :
  let st := Pnf NFAPI_PNF_RUNNING [Phy 1 NFAPI_PNF_PHY_RUNNING true; Phy 2 NFAPI_PNF_PHY_IDLE false]
    (PhyInfo 1 0 [] 0 0 0) in
  snd (handle_p5 Nr (simple_request Nr 2 CONFIG) st) = [Response (CONFIG_RESPONSE Nr) 1 NFAPI_MSG_OK].
Proof.
  intros st. refine (proj2 (proj2 (config_of_another_phy Nr st (simple_request Nr 2 CONFIG)
    (Phy 1 NFAPI_PNF_PHY_RUNNING true) (Phy 2 NFAPI_PNF_PHY_IDLE false) eq_refl eq_refl eq_refl _ eq_refl eq_refl _))); done.
Defined.
