(* ===== verification/UeQueue.v ===== *)
(** * The uplink path of [nfapi_pnf.c]: from the UEs' packets to batches

    Each UE has a queue of the packets it sent
    ([oai_subframe_handle_msg_from_ue], [oai_slot_handle_msg_from_ue]).  Once
    per subframe or slot the task empties the queues
    ([dequeue_ue_msgs], [dequeue_ue_slot_msgs]) into one small array per UE,
    and hands the packets on in batches of equal message identifier
    ([oai_subframe_aggregate_messages], [oai_slot_aggregate_messages]).

    The queues are any implementation of [BoundedDeque]; the theorems are
    proved against that interface.  A packet is [malloc]ed when it is queued
    and [free]d by whoever drops it; the model collects the freed packets in a
    log, so that "freed exactly once" is a statement about lists.  [None] is a
    failed [assert].  One task runs at a time: a producer that queues packets
    while the task is dequeuing is not part of these definitions. *)

From S2P Require Import Prelude Tags Codec Sfn Ids.
From S2P Require Queue.
From Equations Require Import Equations.
#[local] Open Scope Z_scope.
Import Queue (BoundedDeque, MAX_QUEUE_SIZE, dq_repr, dq_put, dq_get, dq_requeue,
  dq_size_bound, dq_put_room, dq_put_full, dq_get_nil, dq_get_cons, dq_requeue_room, dq_requeue_full).

(* src: nfapi_pnf.h 58-58 MIN_UE_NEM_ID *)
Definition MIN_UE_NEM_ID : Z := 2.
(* src: nfapi_pnf.h 59-59 MAX_SUBFRAME_MSGS *)
Definition MAX_SUBFRAME_MSGS : Z := 8.
(* src: nfapi_pnf.h 60-60 MAX_SLOT_MSGS *)
Definition MAX_SLOT_MSGS : Z := 8.

(** [length] bytes of [data] are valid, and only those are kept; [magic] is
    [MESSAGE_BUFFER_MAGIC] from [malloc] to [free]. *)
(* src: nfapi_pnf.h 168-174 message_buffer_t *)
Record message_buffer_t := MessageBuffer { mb_data : list Z }.
Definition mb_length (m : message_buffer_t) : Z := zlen (mb_data m).

#[export] Instance message_buffer_eq_dec : EqDecision message_buffer_t.
Proof. solve_decision. Defined.

(** One UE's packets for the current subframe; an entry becomes the null
    pointer once its packet was handed on. *)
(* src: nfapi_pnf.h 178-190 subframe_msgs_t *)
Definition subframe_msgs_t := list (option message_buffer_t).

Section ue_queue.
Context {Q : Type} `{!BoundedDeque Q message_buffer_t}.

(** The queues and the log of freed packets. *)
Record uplink := Uplink { msgs_from : list Q; freed : list message_buffer_t }.

(** ** A packet arrives *)

(** [len < sizeof(p->data)] is an assertion of the code. *)
(* src: nfapi_pnf.c :: oai_subframe_handle_msg_from_ue *)
Definition oai_subframe_handle_msg_from_ue (msg : list Z) (nem_id : Z) (st : uplink) : option uplink :=
  let len := zlen msg in
  if len =? 4 then Some st
  else
    let i := nem_id - MIN_UE_NEM_ID in
    let num_ues := zlen (msgs_from st) in
    if (i <? 0) || (num_ues <=? i) then Some st
    else if negb (len <? NFAPI_RX_IND_DATA_MAX) then None
    else
      q ← msgs_from st !! Z.to_nat i;
      '(ok, q') ← dq_put q (MessageBuffer msg);
      Some (Uplink (<[Z.to_nat i := q']> (msgs_from st))
                   (if ok : bool then freed st else freed st ++ [MessageBuffer msg])).

(** The NR function differs in its trace only. *)
(* src: nfapi_pnf.c :: oai_slot_handle_msg_from_ue *)
Definition oai_slot_handle_msg_from_ue := oai_subframe_handle_msg_from_ue.

(** ** Dequeuing

    The LTE and NR functions have the same body at different getters: [sfn_of]
    reads the packed subframe (slot) of a packet, [delta] compares two of them
    and packets more than [max_delta] behind are dropped. *)

Section dequeue.
Context (sfn_of : list Z -> option Z) (delta : Z -> Z -> Z) (max_delta max_msgs : Z) (sfn_tx : Z).

(** What the inner [for(;;)] loop threads: the subframe of the first packet
    seen, the UE's packets so far, the freed packets. *)
Record dequeue_state := DequeueState {
  ds_master : Z; ds_msgs : list message_buffer_t; ds_freed : list message_buffer_t }.

(** One UE's queue.  The boolean is false when the loop stopped at a packet of
    another subframe, which went back to the head of the queue. *)
(* src: nfapi_pnf.c 4025-4079 dequeue_ue_msgs *)
Fixpoint drain_queue (fuel : nat) (q : Q) (s : dequeue_state) : option (bool * Q * dequeue_state) :=
  match fuel with
  | O => None
  | S fuel =>
    '(r, q) ← dq_get q;
    match r with
    | None => Some (true, q, s)
    | Some msg =>
      let free := DequeueState (ds_master s) (ds_msgs s) (ds_freed s ++ [msg]) in
      if mb_length msg =? 4 then drain_queue fuel q free
      else match sfn_of (mb_data msg) with
      | None => drain_queue fuel q free
      | Some msg_sfn =>
        let master := if ds_master s =? 0xFFFF then msg_sfn else ds_master s in
        if negb (master =? msg_sfn) then
          '(ok, q) ← dq_requeue q msg;
          Some (false, q, DequeueState master (ds_msgs s)
                  (if ok : bool then ds_freed s else ds_freed s ++ [msg]))
        else
          let free := DequeueState master (ds_msgs s) (ds_freed s ++ [msg]) in
          if max_delta <? delta sfn_tx msg_sfn then drain_queue fuel q free
          else if zlen (ds_msgs s) =? max_msgs then drain_queue fuel q free
          else drain_queue fuel q (DequeueState master (ds_msgs s ++ [msg]) (ds_freed s))
      end
    end
  end.

(** More rounds than a queue can hold packets. *)
Definition drain_fuel : nat := S MAX_QUEUE_SIZE.

(** The outer loop over the UEs. *)
(* src: nfapi_pnf.c 4021-4082 dequeue_ue_msgs *)
Fixpoint drain_queues (qs : list Q) (are_queues_empty : bool) (master : Z)
    (fr : list message_buffer_t) :
    option (bool * list Q * list (list message_buffer_t) * list message_buffer_t) :=
  match qs with
  | [] => Some (are_queues_empty, [], [], fr)
  | q :: qs =>
    '(empty, q, s) ← drain_queue drain_fuel q (DequeueState master [] fr);
    '(are_queues_empty, qs, msgs, fr) ←
      drain_queues qs (are_queues_empty && empty) (ds_master s) (ds_freed s);
    Some (are_queues_empty, q :: qs, ds_msgs s :: msgs, fr)
  end.

(** The array starts out cleared, one entry per UE. *)
(* src: nfapi_pnf.c 4017-4083 dequeue_ue_msgs *)
Definition dequeue_gen (st : uplink) : option (bool * uplink * list subframe_msgs_t) :=
  match drain_queues (msgs_from st) true 0xFFFF (freed st) with
  | None => None
  | Some (are_queues_empty, qs, msgs, fr) => Some (are_queues_empty, Uplink qs fr, map Some <$> msgs)
  end.

End dequeue.

(* src: nfapi_pnf.c :: dequeue_ue_msgs *)
Definition dequeue_ue_msgs (sfn_sf_tx : Z) :=
  dequeue_gen get_sfnsf get_sf_delta 200 MAX_SUBFRAME_MSGS sfn_sf_tx.

(* src: nfapi_pnf.c :: dequeue_ue_slot_msgs *)
Definition dequeue_ue_slot_msgs (sfn_slot_tx : Z) :=
  dequeue_gen get_sfnslot get_slot_delta 400 MAX_SLOT_MSGS sfn_slot_tx.


(** ** Batches of equal identifier *)

(** One pass of the [for(;;)] loop over the arrays: the identifier looked for
    (0 until one is found), the batch, the packets that did not fit in it. *)
Record round := Round { r_found : Z; r_batch : list message_buffer_t; r_freed : list message_buffer_t }.

Section aggregate.
Context (max_msgs : Z).

(* src: nfapi_pnf.c 3794-3821 oai_subframe_aggregate_messages *)
Fixpoint collect_ue (msgs : subframe_msgs_t) (r : round) : subframe_msgs_t * round :=
  match msgs with
  | [] => ([], r)
  | None :: msgs => let '(msgs, r) := collect_ue msgs r in (None :: msgs, r)
  | Some msg :: msgs =>
      let id := get_message_id (mb_data msg) in
      let found_msg_id := if r_found r =? 0 then id else r_found r in
      if found_msg_id =? id then
        let r :=
          if zlen (r_batch r) =? max_msgs
          then Round found_msg_id (r_batch r) (r_freed r ++ [msg])
          else Round found_msg_id (r_batch r ++ [msg]) (r_freed r) in
        let '(msgs, r) := collect_ue msgs r in (None :: msgs, r)
      else
        let '(msgs, r) := collect_ue msgs (Round found_msg_id (r_batch r) (r_freed r)) in
        (Some msg :: msgs, r)
  end.

(* src: nfapi_pnf.c 3792-3822 oai_subframe_aggregate_messages *)
Fixpoint collect (all : list subframe_msgs_t) (r : round) : list subframe_msgs_t * round :=
  match all with
  | [] => ([], r)
  | msgs :: all =>
      let '(msgs, r) := collect_ue msgs r in
      let '(all, r) := collect all r in (msgs :: all, r)
  end.

(** The calls of [oai_subframe_aggregate_message_id] in order, and the freed
    packets.  [None]: the loop did not end within [fuel] rounds. *)
(* src: nfapi_pnf.c 3785-3837 oai_subframe_aggregate_messages *)
Fixpoint aggregate_gen (fuel : nat) (all : list subframe_msgs_t) :
    option (list (Z * list message_buffer_t) * list message_buffer_t) :=
  match fuel with
  | O => None
  | S fuel =>
    let '(all, r) := collect all (Round 0 [] []) in
    if r_found r =? 0 then Some ([], r_freed r)
    else match aggregate_gen fuel all with
    | None => None
    | Some (calls, fr) => Some ((r_found r, r_batch r) :: calls, r_freed r ++ r_batch r ++ fr)
    end
  end.

End aggregate.

(** The packets still to be handed on. *)
Definition flatten (all : list subframe_msgs_t) : list message_buffer_t := omap id (concat all).

(** Every round hands on a packet, so this many rounds are enough. *)
Definition aggregate_fuel (all : list subframe_msgs_t) : nat := S (length (flatten all)).

(* src: nfapi_pnf.c :: oai_subframe_aggregate_messages *)
Definition oai_subframe_aggregate_messages (subframe_msgs : list subframe_msgs_t) :=
  aggregate_gen MAX_SUBFRAME_MSGS (aggregate_fuel subframe_msgs) subframe_msgs.

(* src: nfapi_pnf.c :: oai_slot_aggregate_messages *)
Definition oai_slot_aggregate_messages (slot_msgs : list subframe_msgs_t) :=
  aggregate_gen MAX_SLOT_MSGS (aggregate_fuel slot_msgs) slot_msgs.

(** The uplink half of an iteration of [oai_subframe_task]: whether the queues
    were emptied, the batches, and the state left behind. *)
(* src: nfapi_pnf.c 4261-4268 oai_subframe_task *)
Definition subframe_uplink (sfn_sf_tx : Z) (st : uplink) :
    option (bool * list (Z * list message_buffer_t) * uplink) :=
  match dequeue_ue_msgs sfn_sf_tx st with
  | None => None
  | Some (are_queues_empty, st, subframe_msgs) =>
    match oai_subframe_aggregate_messages subframe_msgs with
    | None => None
    | Some (calls, fr) => Some (are_queues_empty, calls, Uplink (msgs_from st) (freed st ++ fr))
    end
  end.

(* src: nfapi_pnf.c 4338-4345 oai_slot_task *)
Definition slot_uplink (sfn_slot_tx : Z) (st : uplink) :
    option (bool * list (Z * list message_buffer_t) * uplink) :=
  match dequeue_ue_slot_msgs sfn_slot_tx st with
  | None => None
  | Some (are_queues_empty, st, slot_msgs) =>
    match oai_slot_aggregate_messages slot_msgs with
    | None => None
    | Some (calls, fr) => Some (are_queues_empty, calls, Uplink (msgs_from st) (freed st ++ fr))
    end
  end.

(** ** Dequeuing, on lists

    What [drain_queue] does to a queue that holds the list [l]. *)

Section dequeue_spec.
Context (sfn_of : list Z -> option Z) (delta : Z -> Z -> Z) (max_delta max_msgs : Z) (sfn_tx : Z).
Context (Hmax : 0 <= max_msgs).

Fixpoint drain_list (l : list message_buffer_t) (s : dequeue_state) :
    bool * list message_buffer_t * dequeue_state :=
  match l with
  | [] => (true, [], s)
  | msg :: l' =>
      let free := DequeueState (ds_master s) (ds_msgs s) (ds_freed s ++ [msg]) in
      if mb_length msg =? 4 then drain_list l' free
      else match sfn_of (mb_data msg) with
      | None => drain_list l' free
      | Some msg_sfn =>
        let master := if ds_master s =? 0xFFFF then msg_sfn else ds_master s in
        if negb (master =? msg_sfn) then (false, l, DequeueState master (ds_msgs s) (ds_freed s))
        else if (max_delta <? delta sfn_tx msg_sfn) || (zlen (ds_msgs s) =? max_msgs)
        then drain_list l' (DequeueState master (ds_msgs s) (ds_freed s ++ [msg]))
        else drain_list l' (DequeueState master (ds_msgs s ++ [msg]) (ds_freed s))
      end
  end.

(** The queue operations never fail: a packet is only put back into the queue
    it was just taken from. *)
Lemma drain_queue_list fuel q l s :
  dq_repr q l -> (length l < fuel)%nat ->
  exists q', drain_queue sfn_of delta max_delta max_msgs sfn_tx fuel q s =
    Some ((drain_list l s).1.1, q', (drain_list l s).2) /\ dq_repr q' (drain_list l s).1.2.
Proof.
  revert q l s. induction fuel as [|fuel IH]; intros q [|msg l] s Hq Hf; cbn [length] in Hf; try lia.
  - cbn [drain_queue drain_list]. rewrite dq_get_nil by done. by exists q.
  - cbn [drain_queue drain_list]. destruct (dq_get_cons q msg l Hq) as (q1 & -> & Hq1).
    cbn [mbind option_bind].
    destruct (mb_length msg =? 4); [apply IH; [done|lia]|].
    destruct (sfn_of (mb_data msg)) as [sfn|]; [|apply IH; [done|lia]].
    destruct (negb _) eqn:En.
    + pose proof (dq_size_bound _ _ Hq) as Hb. cbn [length] in Hb.
      destruct (dq_requeue_room q1 l msg Hq1) as (q2 & -> & Hq2); [lia|]. by exists q2.
    + destruct (max_delta <? delta sfn_tx sfn); cbn [orb]; [apply IH; [done|lia]|].
      destruct (zlen (ds_msgs s) =? max_msgs); apply IH; done || lia.
Qed.

(** What draining [l] does: [taken] packets reach the array, [dropped] ones are
    freed, [l'] stays queued. *)
Record drained (l : list message_buffer_t) (s : dequeue_state) (b : bool)
    (l' : list message_buffer_t) (s' : dequeue_state) (taken dropped : list message_buffer_t) : Prop := {
  dr_msgs : ds_msgs s' = ds_msgs s ++ taken;
  dr_freed : ds_freed s' = ds_freed s ++ dropped;
  dr_perm : l ≡ₚ taken ++ dropped ++ l';
  dr_order : taken ++ l' `sublist_of` l;
  dr_empty : b = true <-> l' = [];
  dr_master : ds_master s <> 0xFFFF -> ds_master s' = ds_master s;
  dr_taken : Forall (fun m => exists v, sfn_of (mb_data m) = Some v /\
    delta sfn_tx v <= max_delta /\ (v = 0xFFFF \/ v = ds_master s')) taken;
  dr_bound : zlen (ds_msgs s) <= max_msgs -> zlen (ds_msgs s ++ taken) <= max_msgs;
  dr_left m k : l' = m :: k -> exists v, sfn_of (mb_data m) = Some v /\ v <> ds_master s' /\
    ds_master s' <> 0xFFFF;
}.

Lemma drained_drop m l s s1 b l' s' taken dropped :
  drained l s1 b l' s' taken dropped ->
  ds_msgs s1 = ds_msgs s -> ds_freed s1 = ds_freed s ++ [m] ->
  (ds_master s <> 0xFFFF -> ds_master s1 = ds_master s) ->
  drained (m :: l) s b l' s' taken (m :: dropped).
Proof using Type.
  intros [H1 H2 H3 H4 H5 H6 H7 H8 H9] E1 E2 E3. rewrite E1 in *. split; try done.
  - rewrite H2, E2, <- app_assoc. done.
  - rewrite H3. solve_Permutation.
  - by apply sublist_cons.
  - intros Hm. rewrite <- (E3 Hm). apply H6. by rewrite E3.
Qed.

Lemma drained_keep m v l s s1 b l' s' taken dropped :
  drained l s1 b l' s' taken dropped ->
  ds_msgs s1 = ds_msgs s ++ [m] -> ds_freed s1 = ds_freed s -> ds_master s1 = v ->
  (ds_master s <> 0xFFFF -> ds_master s1 = ds_master s) ->
  sfn_of (mb_data m) = Some v -> delta sfn_tx v <= max_delta -> zlen (ds_msgs s) <> max_msgs ->
  drained (m :: l) s b l' s' (m :: taken) dropped.
Proof using Type.
  intros [H1 H2 H3 H4 H5 H6 H7 H8 H9] E1 E2 E3 E4 Hv Hd Hl.
  rewrite E1 in *. rewrite <- app_assoc in H1, H8. split; try done.
  - by rewrite H2, E2.
  - rewrite H3. solve_Permutation.
  - by apply sublist_skip.
  - intros Hm. rewrite <- (E4 Hm). apply H6. by rewrite E4.
  - constructor; [|done]. exists v. repeat split; try done.
    destruct (decide (v = 0xFFFF)); [by left|right]. rewrite H6; congruence.
  - intros Hb. apply H8. zlen_lia.
Qed.

Lemma drain_list_drained l : forall s,
  exists taken dropped,
    drained l s (drain_list l s).1.1 (drain_list l s).1.2 (drain_list l s).2 taken dropped.
Proof using Type.
  induction l as [|m l IH]; intros s; cbn [drain_list].
  - exists [], []. split; cbn [fst snd]; rewrite ?app_nil_r; done.
  - destruct (mb_length m =? 4).
    { edestruct IH as (tk & dp & H). exists tk, (m :: dp). by eapply drained_drop. }
    destruct (sfn_of (mb_data m)) as [v|] eqn:Ev; cycle 1.
    { edestruct IH as (tk & dp & H). exists tk, (m :: dp). by eapply drained_drop. }
    destruct (Z.eqb_spec (if ds_master s =? 0xFFFF then v else ds_master s) v) as [Hm|Hm]; cbn [negb].
    + rewrite Hm. assert (ds_master s <> 0xFFFF -> v = ds_master s) by (case_cmp; congruence).
      destruct (Z.ltb_spec max_delta (delta sfn_tx v)); cbn [orb].
      { edestruct IH as (tk & dp & Hd). exists tk, (m :: dp). by eapply drained_drop. }
      destruct (Z.eqb_spec (zlen (ds_msgs s)) max_msgs).
      { edestruct IH as (tk & dp & Hd). exists tk, (m :: dp). by eapply drained_drop. }
      edestruct IH as (tk & dp & Hd). exists (m :: tk), dp. by eapply drained_keep; eauto.
    + exists [], []. split; cbn [fst snd app ds_msgs ds_freed ds_master]; rewrite ?app_nil_r; try done.
      * by case_cmp.
      * intros ? ? [= <- <-]. exists v. repeat split; [done|congruence|case_cmp; congruence].
Qed.

(** The whole dequeue: [ls] and [ls'] are what the queues hold before and
    after, [master] the subframe that was selected. *)
Record dequeued (ls : list (list message_buffer_t)) (master0 : Z) (b : bool)
    (ls' msgs : list (list message_buffer_t)) (dropped : list message_buffer_t) (master : Z) : Prop := {
  dq_perm : concat ls ≡ₚ concat msgs ++ dropped ++ concat ls';
  dq_order : Forall3 (fun l tk l' => tk ++ l' `sublist_of` l) ls msgs ls';
  dq_empty : b = true <-> Forall (fun l' => l' = []) ls';
  dq_master : master0 <> 0xFFFF -> master = master0;
  dq_taken : Forall (fun m => exists v, sfn_of (mb_data m) = Some v /\
    delta sfn_tx v <= max_delta /\ (v = 0xFFFF \/ v = master)) (concat msgs);
  dq_bound : Forall (fun tk => zlen tk <= max_msgs) msgs;
  dq_left : Forall (fun l' => forall m k, l' = m :: k ->
    exists v, sfn_of (mb_data m) = Some v /\ v <> master) ls';
}.

Lemma drain_queues_spec qs ls : forall b0 master0 fr,
  Forall2 dq_repr qs ls ->
  exists b qs' ls' msgs dropped master,
    drain_queues sfn_of delta max_delta max_msgs sfn_tx qs b0 master0 fr =
      Some (b0 && b, qs', msgs, fr ++ dropped) /\
    Forall2 dq_repr qs' ls' /\ dequeued ls master0 b ls' msgs dropped master.
Proof using Type*.
  intros b0 master0 fr H. revert b0 master0 fr.
  induction H as [|q l qs ls Hq _ IH]; intros b0 master0 fr; cbn [drain_queues].
  - exists true, [], [], [], [], master0. rewrite andb_true_r, app_nil_r.
    split_and!; [done|constructor|]. split; try done; constructor.
  - pose proof (dq_size_bound _ _ Hq) as Hb.
    destruct (drain_queue_list drain_fuel q l (DequeueState master0 [] fr) Hq) as (q' & -> & Hq');
      [unfold drain_fuel; lia|].
    destruct (drain_list_drained l (DequeueState master0 [] fr)) as (tk & dp & H).
    destruct (drain_list l _) as [[b1 l'] s']. cbn [fst snd] in *. cbn [mbind option_bind].
    destruct H as [H1 H2 H3 H4 H5 H6 H7 H8 H9]. cbn [ds_msgs ds_freed ds_master app] in *.
    destruct (IH (b0 && b1) (ds_master s') (ds_freed s')) as (b & qs' & ls' & msgs & dropped & master & -> & Hqs & Hd).
    destruct Hd as [D1 D2 D3 D4 D5 D6 D7].
    exists (b1 && b), (q' :: qs'), (l' :: ls'), (tk :: msgs), (dp ++ dropped), master.
    rewrite H1, H2, <- app_assoc, andb_assoc. split_and!; [done|by constructor|].
    split; cbn [concat].
    + rewrite H3, D1. solve_Permutation.
    + by constructor.
    + rewrite andb_true_iff, Forall_cons, H5, D3. done.
    + intros Hm. rewrite <- (H6 Hm). apply D4. by rewrite H6.
    + apply Forall_app. split; [|done]. eapply Forall_impl; [exact H7|].
      intros m (v & ? & ? & Hv). exists v. repeat split; try done.
      destruct (decide (v = 0xFFFF)); [by left|]. right. destruct Hv as [|Hv]; [done|].
      rewrite D4; congruence.
    + constructor; [apply H8; done|done].
    + constructor; [|done]. intros m k Hl. destruct (H9 m k Hl) as (v & ? & ? & ?).
      exists v. split; [done|]. by rewrite D4.
Qed.
End dequeue_spec.

(** ** Batching, on lists *)

Definition msg_id (m : message_buffer_t) : Z := get_message_id (mb_data m).

Section aggregate_spec.
Context (max_msgs : Z) (Hmax : 0 < max_msgs).

(** [collect] on the packets still to be handed on. *)
Fixpoint pick (l : list message_buffer_t) (r : round) : list message_buffer_t * round :=
  match l with
  | [] => ([], r)
  | msg :: l =>
      let found := if r_found r =? 0 then msg_id msg else r_found r in
      if found =? msg_id msg then
        pick l (if zlen (r_batch r) =? max_msgs
                then Round found (r_batch r) (r_freed r ++ [msg])
                else Round found (r_batch r ++ [msg]) (r_freed r))
      else
        let '(l, r) := pick l (Round found (r_batch r) (r_freed r)) in (msg :: l, r)
  end.

Lemma pick_app l1 l2 r :
  pick (l1 ++ l2) r =
  let '(k1, r1) := pick l1 r in let '(k2, r2) := pick l2 r1 in (k1 ++ k2, r2).
Proof using Type.
  revert r. induction l1 as [|m l1 IH]; intros r; cbn [app pick].
  - by destruct (pick l2 r).
  - case_cmp; rewrite IH; [done|].
    destruct (pick l1 _) as [k1 r1]. by destruct (pick l2 r1).
Qed.

Lemma collect_ue_pick msgs r :
  (omap id (collect_ue max_msgs msgs r).1, (collect_ue max_msgs msgs r).2) = pick (omap id msgs) r.
Proof using Type.
  revert r. induction msgs as [|[m|] msgs IH]; intros r; cbn [collect_ue omap list_omap id pick]; [done| |].
  - fold (msg_id m). case_cmp; rewrite <- IH; by destruct (collect_ue _ _ _).
  - rewrite <- IH. by destruct (collect_ue _ _ _).
Qed.

Lemma flatten_cons msgs all : flatten (msgs :: all) = omap id msgs ++ flatten all.
Proof using Type. unfold flatten. cbn [concat]. by rewrite omap_app. Qed.

Lemma collect_pick all r :
  (flatten (collect max_msgs all r).1, (collect max_msgs all r).2) = pick (flatten all) r.
Proof using Type.
  revert r. induction all as [|msgs all IH]; intros r; [done|]. cbn [collect].
  rewrite flatten_cons, pick_app, <- collect_ue_pick. destruct (collect_ue _ _ _) as [msgs' r1].
  cbn [fst snd]. rewrite <- IH. destruct (collect _ _ _) as [all' r2]. cbn [fst snd].
  by rewrite flatten_cons.
Qed.

(** With an identifier chosen, a pass takes the packets that carry it. *)
Lemma pick_found f l : forall batch fr,
  f <> 0 -> zlen batch <= max_msgs ->
  pick l (Round f batch fr) =
  (filter (fun m => msg_id m <> f) l,
   Round f (take (Z.to_nat max_msgs) (batch ++ filter (fun m => msg_id m = f) l))
     (fr ++ drop (Z.to_nat max_msgs) (batch ++ filter (fun m => msg_id m = f) l))).
Proof using Hmax.
  induction l as [|m l IH]; intros batch fr Hf Hb; cbn [pick r_found r_batch r_freed].
  - rewrite !filter_nil, app_nil_r, take_ge, drop_ge, app_nil_r by (unfold zlen in *; lia). done.
  - destruct (Z.eqb_spec f 0); [done|]. rewrite !filter_cons.
    destruct (Z.eqb_spec f (msg_id m)) as [->|Hne].
    + rewrite decide_False, decide_True by tauto.
      destruct (Z.eqb_spec (zlen batch) max_msgs) as [Hfull|Hroom].
      * rewrite IH by done.
        rewrite !take_app_length', !drop_app_length' by (unfold zlen in *; lia).
        by rewrite <- app_assoc.
      * rewrite IH, <- app_assoc by (done || zlen_lia). done.
    + rewrite decide_True, decide_False by congruence. by rewrite IH.
Qed.

(** The first packet chooses the identifier. *)
Lemma pick_first m l :
  msg_id m <> 0 ->
  pick (m :: l) (Round 0 [] []) =
  let same := filter (fun m' => msg_id m' = msg_id m) (m :: l) in
  (filter (fun m' => msg_id m' <> msg_id m) (m :: l),
   Round (msg_id m) (take (Z.to_nat max_msgs) same) (drop (Z.to_nat max_msgs) same)).
Proof using Hmax.
  intros Hm. pose proof (pick_found (msg_id m) (m :: l) [] [] Hm) as H. cbv zeta.
  cbn [app] in H. rewrite <- H by zlen_lia.
  cbn [pick r_found r_batch r_freed]. by destruct (Z.eqb_spec (msg_id m) 0).
Qed.
End aggregate_spec.

(** The reference: one batch per identifier in order of first appearance, at
    most [n] packets each. *)
Equations batches (n : nat) (l : list message_buffer_t) : list (Z * list message_buffer_t)
  by wf (length l) lt :=
  batches n [] := [];
  batches n (m :: l) :=
    (msg_id m, take n (filter (fun m' => msg_id m' = msg_id m) (m :: l))) ::
    batches n (filter (fun m' => msg_id m' <> msg_id m) l).
Next Obligation. intros. pose proof (length_filter (fun m' => msg_id m' <> msg_id m) l). simpl. lia. Qed.

Lemma batches_cons n m l :
  batches n (m :: l) =
  (msg_id m, take n (filter (fun m' => msg_id m' = msg_id m) (m :: l))) ::
  batches n (filter (fun m' => msg_id m' <> msg_id m) (m :: l)).
Proof. rewrite batches_equation_2. f_equal. by rewrite (filter_cons_False (fun _ => _ <> _)) by tauto. Qed.

Lemma filter_split_perm f (l : list message_buffer_t) :
  filter (fun m => msg_id m = f) l ++ filter (fun m => msg_id m <> f) l ≡ₚ l.
Proof.
  induction l as [|m l IH]; [done|]. rewrite !filter_cons.
  destruct (decide (msg_id m = f)); [rewrite decide_False by tauto|rewrite decide_True by done].
  - cbn [app]. by rewrite IH.
  - by rewrite <- Permutation_middle, IH.
Qed.

(** Every round removes a packet, so the loop ends; its calls are the batches
    and every packet is freed exactly once. *)
Lemma aggregate_gen_batches max_msgs fuel : forall all,
  0 < max_msgs -> Forall (fun m => msg_id m <> 0) (flatten all) ->
  (length (flatten all) < fuel)%nat ->
  exists fr, aggregate_gen max_msgs fuel all = Some (batches (Z.to_nat max_msgs) (flatten all), fr) /\
    fr ≡ₚ flatten all.
Proof.
  induction fuel as [|fuel IH]; intros all Hmax Hid Hf; [lia|]. cbn [aggregate_gen].
  pose proof (collect_pick max_msgs all (Round 0 [] [])) as Hc.
  destruct (collect max_msgs all _) as [all' r]. cbn [fst snd] in Hc.
  destruct (flatten all) as [|m l] eqn:El.
  - simpl in Hc. injection Hc as _ ->. by exists [].
  - rewrite pick_first in Hc by (done || by inversion Hid). injection Hc as Hall ->.
    cbn [r_found r_batch r_freed]. pose proof Hid as [Hm _]%Forall_cons.
    destruct (Z.eqb_spec (msg_id m) 0); [done|].
    destruct (IH all') as (fr & -> & Hfr); [done|rewrite Hall; by apply Forall_filter| |].
    { rewrite Hall, filter_cons_False by tauto.
      pose proof (length_filter (fun m' => msg_id m' <> msg_id m) l). simpl in Hf. lia. }
    rewrite batches_cons, Hall. eexists. split; [done|].
    transitivity (filter (fun m' => msg_id m' = msg_id m) (m :: l) ++
      filter (fun m' => msg_id m' <> msg_id m) (m :: l)); [|apply filter_split_perm].
    rewrite Hfr, Hall, app_assoc.
    apply Permutation_app_tail. rewrite Permutation_app_comm. by rewrite take_drop.
Qed.

(** When no identifier occurs more often than a batch can hold, the batches
    contain every packet. *)
Lemma batches_complete n l :
  Forall (fun m => length (filter (fun m' => msg_id m' = msg_id m) l) <= n)%nat l ->
  concat (snd <$> batches n l) ≡ₚ l.
Proof.
  remember (length l) as k eqn:Hk. revert l Hk.
  induction (lt_wf k) as [k _ IH]; intros [|m l] -> Hn; [done|].
  rewrite batches_cons, fmap_cons. cbn [concat snd].
  pose proof Hn as [Hm _]%Forall_cons. rewrite take_ge by done.
  rewrite (IH (length (filter (fun m' => msg_id m' <> msg_id m) (m :: l)))); [apply filter_split_perm| |done|].
  - rewrite filter_cons_False by tauto.
    pose proof (length_filter (fun m' => msg_id m' <> msg_id m) l). simpl. lia.
  - apply Forall_filter. eapply Forall_impl; [exact Hn|]. intros x Hx. etrans; [|exact Hx].
    rewrite list_filter_filter, (list_filter_iff _ (fun m' => msg_id m' <> msg_id m /\ msg_id m' = msg_id x)) by tauto.
    rewrite <- list_filter_filter. apply length_filter.
Qed.

Lemma flatten_somes (msgs : list (list message_buffer_t)) : flatten (map Some <$> msgs) = concat msgs.
Proof.
  induction msgs as [|l msgs IH]; [done|]. cbn [fmap list_fmap]. rewrite flatten_cons.
  cbn [concat]. change (list_fmap _ _ ?f ?x) with (f <$> x). rewrite IH. f_equal.
  clear. induction l; cbn; congruence.
Qed.

(** ** Properties *)

Lemma dequeue_gen_spec sfn_of delta max_delta max_msgs sfn_tx st ls :
  0 <= max_msgs -> Forall2 dq_repr (msgs_from st) ls ->
  exists b qs' ls' msgs dropped master,
    dequeue_gen sfn_of delta max_delta max_msgs sfn_tx st =
      Some (b, Uplink qs' (freed st ++ dropped), map Some <$> msgs) /\
    Forall2 dq_repr qs' ls' /\
    dequeued sfn_of delta max_delta max_msgs sfn_tx ls 0xFFFF b ls' msgs dropped master.
Proof.
  intros Hmax Hq.
  destruct (drain_queues_spec sfn_of delta max_delta max_msgs sfn_tx Hmax _ _ true 0xFFFF (freed st) Hq)
    as (b & qs' & ls' & msgs & dropped & master & E & Hqs & Hd).
  exists b, qs', ls', msgs, dropped, master. unfold dequeue_gen. by rewrite E.
Qed.

(** C30.  Dequeuing always completes.  Every packet of every queue is taken,
    freed or left exactly once; each UE's packets keep their order; the result
    is true exactly when all queues ended up empty; the packets taken belong to
    one subframe (or to the impossible value 0xFFFF, which the code uses as its
    "none yet" mark) that is at most 200 subframes (400 slots) old, at most
    eight per UE; and a queue is left non-empty only behind a packet of another
    subframe. *)
Theorem dequeue_ue_msgs_spec (sfn_tx : Z) (st : uplink) (ls : list (list message_buffer_t)) :
  Forall2 dq_repr (msgs_from st) ls ->
  (exists b qs' ls' msgs dropped master,
    dequeue_ue_msgs sfn_tx st = Some (b, Uplink qs' (freed st ++ dropped), map Some <$> msgs) /\
    Forall2 dq_repr qs' ls' /\
    dequeued get_sfnsf get_sf_delta 200 8 sfn_tx ls 0xFFFF b ls' msgs dropped master) /\
  (exists b qs' ls' msgs dropped master,
    dequeue_ue_slot_msgs sfn_tx st = Some (b, Uplink qs' (freed st ++ dropped), map Some <$> msgs) /\
    Forall2 dq_repr qs' ls' /\
    dequeued get_sfnslot get_slot_delta 400 8 sfn_tx ls 0xFFFF b ls' msgs dropped master).
Proof. intros Hq. split; by apply dequeue_gen_spec. Qed.

(** The packets taken have an identifier other than 0. *)
Lemma taken_ids sfn_of delta max_delta max_msgs sfn_tx ls m0 b ls' msgs dropped master :
  (forall l v, sfn_of l = Some v -> get_message_id l <> 0) ->
  dequeued sfn_of delta max_delta max_msgs sfn_tx ls m0 b ls' msgs dropped master ->
  Forall (fun m => msg_id m <> 0) (concat msgs).
Proof.
  intros Hid Hd. eapply Forall_impl; [apply Hd|]. intros m (v & Hv & _). by apply Hid in Hv.
Qed.

Lemma get_sfnsf_nonzero l v : get_sfnsf l = Some v -> get_message_id l <> 0.
Proof. intros Hv%get_sfnsf_id E. rewrite E in Hv. exact (proj1 uplink_ids_nonzero Hv). Qed.

Lemma get_sfnslot_nonzero l v : get_sfnslot l = Some v -> get_message_id l <> 0.
Proof. intros Hv%get_sfnslot_id E. rewrite E in Hv. exact (proj2 uplink_ids_nonzero Hv). Qed.

(** What one iteration does: [st'] is [st] with the packets [msgs] delivered in
    [calls] and the packets [dropped] discarded. *)
Definition delivered (ls : list (list message_buffer_t)) (st st' : uplink)
    (calls : list (Z * list message_buffer_t)) : Prop :=
  exists ls' msgs dropped,
    Forall2 dq_repr (msgs_from st') ls' /\
    calls = batches 8 (concat msgs) /\
    freed st' ≡ₚ freed st ++ dropped ++ concat msgs /\
    concat ls ≡ₚ dropped ++ concat msgs ++ concat ls'.

Lemma uplink_delivered {st ls} (b : bool) qs' ls' (msgs : list (list message_buffer_t)) dropped :
  Forall2 dq_repr qs' ls' -> Forall (fun m => msg_id m <> 0) (concat msgs) ->
  concat ls ≡ₚ concat msgs ++ dropped ++ concat ls' ->
  exists calls fr,
    aggregate_gen 8 (aggregate_fuel (map Some <$> msgs)) (map Some <$> msgs) = Some (calls, fr) /\
    delivered ls st (Uplink qs' ((freed st ++ dropped) ++ fr)) calls.
Proof.
  intros Hqs Hid Hp.
  destruct (aggregate_gen_batches 8 (aggregate_fuel (map Some <$> msgs)) (map Some <$> msgs))
    as (fr & E & Hfr); [done|by rewrite flatten_somes|unfold aggregate_fuel; lia|].
  rewrite flatten_somes in E, Hfr. exists (batches 8 (concat msgs)), fr. split; [exact E|].
  exists ls', msgs, dropped. cbn [msgs_from freed]. split_and!; [done|done| |].
  - by rewrite Hfr, <- app_assoc.
  - rewrite Hp. solve_Permutation.
Qed.

(** C1.  The uplink half of a subframe or slot always completes, for any queue
    implementation: the aggregators are called once per message identifier in
    order of first appearance, with the first eight packets that carry it, and
    every packet removed from a queue is freed exactly once. *)
Theorem uplink_iteration_delivers (sfn_tx : Z) (st : uplink) (ls : list (list message_buffer_t)) :
  Forall2 dq_repr (msgs_from st) ls ->
  (exists b calls st', subframe_uplink sfn_tx st = Some (b, calls, st') /\ delivered ls st st' calls) /\
  (exists b calls st', slot_uplink sfn_tx st = Some (b, calls, st') /\ delivered ls st st' calls).
Proof.
  intros Hq. unfold subframe_uplink, slot_uplink, dequeue_ue_msgs, dequeue_ue_slot_msgs. split.
  - destruct (dequeue_gen_spec get_sfnsf get_sf_delta 200 MAX_SUBFRAME_MSGS sfn_tx st ls)
      as (b & qs' & ls' & msgs & dropped & master & -> & Hqs & Hd); [done|done|].
    destruct (uplink_delivered (st := st) (ls := ls) b qs' ls' msgs dropped Hqs) as (calls & fr & E & H);
      [by eapply taken_ids, Hd; apply get_sfnsf_nonzero|apply Hd|].
    unfold oai_subframe_aggregate_messages, MAX_SUBFRAME_MSGS. rewrite E. eauto.
  - destruct (dequeue_gen_spec get_sfnslot get_slot_delta 400 MAX_SLOT_MSGS sfn_tx st ls)
      as (b & qs' & ls' & msgs & dropped & master & -> & Hqs & Hd); [done|done|].
    destruct (uplink_delivered (st := st) (ls := ls) b qs' ls' msgs dropped Hqs) as (calls & fr & E & H);
      [by eapply taken_ids, Hd; apply get_sfnslot_nonzero|apply Hd|].
    unfold oai_slot_aggregate_messages, MAX_SLOT_MSGS. rewrite E. eauto.
Qed.

(** C31.  A packet that is not the 4-byte dummy, comes from one of the configured
    UEs and fits a buffer is appended to that UE's queue, or freed when the
    queue is full; a dummy or an unknown NEM id changes nothing, and a packet
    of 8192 bytes or more trips the assertion. *)
Theorem handle_msg_from_ue_spec (msg : list Z) (nem_id : Z) (st : uplink)
    (ls : list (list message_buffer_t)) :
  Forall2 dq_repr (msgs_from st) ls ->
  let i := Z.to_nat (nem_id - MIN_UE_NEM_ID) in
  let known := 2 <= nem_id < 2 + zlen ls in
  (zlen msg = 4 \/ ~ known -> oai_subframe_handle_msg_from_ue msg nem_id st = Some st) /\
  (zlen msg <> 4 -> known -> 8192 <= zlen msg -> oai_subframe_handle_msg_from_ue msg nem_id st = None) /\
  (zlen msg <> 4 -> known -> zlen msg < 8192 ->
   exists l qs',
     ls !! i = Some l /\
     if decide (length l < MAX_QUEUE_SIZE)%nat then
       oai_subframe_handle_msg_from_ue msg nem_id st = Some (Uplink qs' (freed st)) /\
       Forall2 dq_repr qs' (<[i := l ++ [MessageBuffer msg]]> ls)
     else
       oai_subframe_handle_msg_from_ue msg nem_id st =
         Some (Uplink (msgs_from st) (freed st ++ [MessageBuffer msg]))).
Proof.
  intros Hq. cbv zeta. pose proof (Forall2_length _ _ _ Hq) as Hlen.
  assert (zlen (msgs_from st) = zlen ls) as Hz by (unfold zlen; lia).
  unfold oai_subframe_handle_msg_from_ue, MIN_UE_NEM_ID, NFAPI_RX_IND_DATA_MAX. rewrite Hz. split_and!.
  - intros Hno. destruct (Z.eqb_spec (zlen msg) 4); [done|]. destruct Hno as [|Hno]; [done|].
    destruct (Z.ltb_spec (nem_id - 2) 0); [done|]. cbn [orb].
    destruct (Z.leb_spec (zlen ls) (nem_id - 2)); [done|lia].
  - intros. repeat case_cmp; try done; lia.
  - intros Hne Hk Hlt. repeat case_cmp; try lia. cbn [orb negb].
    destruct (lookup_lt_is_Some_2 ls (Z.to_nat (nem_id - 2))) as [l Hl]; [unfold zlen in *; lia|].
    destruct (Forall2_lookup_r _ _ _ _ _ Hq Hl) as (q & Hqi & Hr). rewrite Hqi. cbn [mbind option_bind].
    destruct (decide (length l < MAX_QUEUE_SIZE)%nat) as [Hroom|Hfull].
    + destruct (dq_put_room q l (MessageBuffer msg) Hr Hroom) as (q' & -> & Hr').
      eexists l, _. rewrite decide_True by done. split_and!; [done|done|].
      by apply Forall2_insert.
    + pose proof (dq_size_bound _ _ Hr). exists l, [].
      rewrite decide_False, (dq_put_full q l) by (done || lia). cbn [mbind option_bind].
      by rewrite list_insert_id.
Qed.
End ue_queue.

#[local] Existing Instance Queue.ring_deque.
#[local] Arguments Uplink {Q} _ _.
#[local] Arguments msgs_from {Q} _.

(** One UE with one CRC indication for subframe 0x0123 queued. *)
Definition sample_crc : list Z :=
  [0; 1; 0; 0x86; 0; 18; 0; 0; 0; 0; 0; 0; 0; 0; 0; 0; 0x01; 0x23].

Lemma sample_queue :
  exists q : Queue.queue_t message_buffer_t,
    Forall2 dq_repr [q] [[MessageBuffer sample_crc]].
Proof.
  assert (dq_repr (Queue.init_queue : Queue.queue_t message_buffer_t) []) as H0
    by exact Queue.init_queue_repr.
  destruct (dq_put_room _ [] (MessageBuffer sample_crc) H0) as (q & _ & Hq).
  - rewrite Queue.MAX_QUEUE_SIZE_eq. simpl. lia.
  - exists q. constructor; [exact Hq|constructor].
Qed.

Lemma dequeue_ue_msgs_spec_witness :
  exists (q : Queue.queue_t message_buffer_t) b qs' ls' msgs dropped master,
    dequeue_ue_msgs 0x0123 (Uplink [q] []) = Some (b, Uplink qs' ([] ++ dropped), map Some <$> msgs) /\
    Forall2 dq_repr qs' ls' /\
    dequeued get_sfnsf get_sf_delta 200 8 0x0123 [[MessageBuffer sample_crc]] 0xFFFF b ls' msgs dropped master.
Proof.
  destruct sample_queue as [q Hq]. exists q.
  exact (proj1 (dequeue_ue_msgs_spec 0x0123 (Uplink [q] []) _ Hq)).
Defined.

Lemma uplink_iteration_delivers_witness :
  exists (q : Queue.queue_t message_buffer_t) b calls st',
    subframe_uplink 0x0123 (Uplink [q] []) = Some (b, calls, st') /\
    delivered [[MessageBuffer sample_crc]] (Uplink [q] []) st' calls.
Proof.
  destruct sample_queue as [q Hq]. exists q.
  exact (proj1 (uplink_iteration_delivers 0x0123 (Uplink [q] []) _ Hq)).
Defined.

Lemma handle_msg_from_ue_spec_witness :
  exists q : Queue.queue_t message_buffer_t,
    oai_subframe_handle_msg_from_ue sample_crc 7 (Uplink [q] []) = Some (Uplink [q] []).
Proof.
  destruct sample_queue as [q Hq]. exists q.
  pose proof (handle_msg_from_ue_spec sample_crc 7 (Uplink [q] []) _ Hq) as [H _].
  apply H. right. unfold zlen. simpl. lia.
Defined.
