(* ===== verification/P7Header.v ===== *)
(** * The P7 message header

    The 16-byte header in front of every P7 message: packing and unpacking
    ([nfapi_p7.c]), the segment/sequence macros of [nfapi_interface.h], the
    checksum and the transmit timestamp.  The CRC itself is zlib's [crc32], a
    parameter. *)

From S2P Require Import Prelude Codec Ids.

(* src: nfapi_interface.h :: NFAPI_P7_HEADER_LENGTH *)
Definition NFAPI_P7_HEADER_LENGTH : Z := 16.

(* src: nfapi_interface.h 101-108 nfapi_p7_message_header_t *)
Record nfapi_p7_message_header_t := P7Header {
  phy_id : Z;
  message_id : Z;
  message_length : Z;
  m_segment_sequence : Z;
  checksum : Z;
  transmit_timestamp : Z;
}.

(** ** Segment and sequence *)

(* src: nfapi_interface.h :: NFAPI_P7_GET_MORE *)
Definition NFAPI_P7_GET_MORE (mss : Z) : Z := Z.shiftr (Z.land mss 0x8000) 15.
(* src: nfapi_interface.h :: NFAPI_P7_GET_SEGMENT *)
Definition NFAPI_P7_GET_SEGMENT (mss : Z) : Z := Z.shiftr (Z.land mss 0x7F00) 8.
(* src: nfapi_interface.h :: NFAPI_P7_GET_SEQUENCE *)
Definition NFAPI_P7_GET_SEQUENCE (mss : Z) : Z := Z.land mss 0x00FF.
(* src: nfapi_interface.h :: NFAPI_P7_SET_MSS *)
Definition NFAPI_P7_SET_MSS (more segm sequ : Z) : Z :=
  Z.lor (Z.lor (Z.shiftl (Z.land more 0x1) 7) (Z.shiftl (Z.land segm 0x7) 4)) (Z.land sequ 0xF).

(** ** Packing and unpacking *)

(** The length and the checksum are written as zero and patched later. *)
(* src: nfapi_p7.c 3863-3871 nfapi_p7_message_pack *)
Definition pack_p7_header (h : nfapi_p7_message_header_t) : packer :=
  push16 (phy_id h) &*
  push16 (message_id h) &*
  push16 0 &*
  push16 (m_segment_sequence h) &*
  push32 0 &*
  push32 (transmit_timestamp h).

Definition unpack_p7_header : reader nfapi_p7_message_header_t :=
  phy_id ← pull16;
  message_id ← pull16;
  message_length ← pull16;
  m_segment_sequence ← pull16;
  checksum ← pull32;
  transmit_timestamp ← pull32;
  mret (P7Header phy_id message_id message_length m_segment_sequence checksum transmit_timestamp).

(** [None] is the return value -1.  [unpackedBufLen] is the size of the
    caller's structure. *)
(* src: nfapi_p7.c :: nfapi_p7_message_header_unpack *)
Definition nfapi_p7_message_header_unpack (msg : list Z) (unpackedBufLen : Z) :
    option nfapi_p7_message_header_t :=
  if (zlen msg <? NFAPI_P7_HEADER_LENGTH) || (unpackedBufLen <? 16) then None
  else fst <$> unpack_p7_header msg.

(** Store [bs] over the bytes of [buf] from [off] on. *)
Definition overwrite (off : nat) (bs buf : list Z) : list Z :=
  take off buf ++ bs ++ drop (off + length bs) buf.

(** ** The frame around a message body

    [nfapi_p7_message_pack] and [nfapi_nr_p7_message_pack] differ in the table
    of body packers; the packer of the given message is the argument [body],
    whose result the code stores in a [uint8_t].  Result: the bytes of the
    message, or [None] for -1. *)
(* src: nfapi_p7.c 3849-3879 nfapi_p7_message_pack *)
Definition p7_frame_pack (h : nfapi_p7_message_header_t) (body : packer) (packedBufLen : Z) :
    option (list Z) :=
  let '(r, w) := pack_p7_header h (Wbuf [] packedBufLen) in
  if r =? 0 then None else
  let '(result, w) := ret_u8 body w in
  if result =? 0 then None else
  let packedMsgLen := u32 (zlen (w_out w)) in
  if (0xFFFF <? packedMsgLen) || (packedBufLen <? packedMsgLen) then None
  else
    let '(r, w) := pack_at 4 (push16 (u16 packedMsgLen)) w in
    if r =? 0 then None else Some (w_out w).

(** [body] reads what follows the header: its C result and the structure.  The
    body sees the whole rest of the buffer, not [message_length] bytes. *)
(* src: nfapi_p7.c 8353-8402 nfapi_p7_message_unpack *)
Definition p7_frame_unpack {A} (body : nfapi_p7_message_header_t -> list Z -> Z * A)
    (msg : list Z) (unpackedBufLen : Z) : option (nfapi_p7_message_header_t * A) :=
  if (zlen msg <? NFAPI_P7_HEADER_LENGTH) || (unpackedBufLen <? 16) then None
  else match unpack_p7_header msg with
  | None => None
  | Some (h, l) =>
      if zlen msg <? message_length h then None
      else let '(result, a) := body h l in
        if result =? 0 then None else Some (h, a)
  end.

(** ** Checksum *)

Section checksum.
Context (crc32 : Z -> list Z -> Z).

(** [len] is a [uint16_t] here and a [uint32_t] in the callers. *)
(* src: nfapi_p7.c :: nfapi_calculate_checksum *)
Definition nfapi_calculate_checksum (buffer : list Z) (len : Z) : Z :=
  let len := u16 len in
  let chksum := u32 (crc32 0 (take 8 buffer)) in
  let chksum := u32 (crc32 chksum [0; 0; 0; 0]) in
  let chksum := u32 (crc32 chksum (take (Z.to_nat (len - NFAPI_P7_HEADER_LENGTH)) (drop 16 buffer))) in
  u32 (Z.lnot chksum).

(* src: nfapi_p7.c :: nfapi_p7_calculate_checksum *)
Definition nfapi_p7_calculate_checksum := nfapi_calculate_checksum.

(** What [push32] stores. *)
Definition bytes32 (v : Z) : list Z := w_out (snd (push32 v (Wbuf [] 4))).

(* src: nfapi_p7.c :: nfapi_p7_update_checksum *)
Definition nfapi_p7_update_checksum (buffer : list Z) (len : Z) : Z * list Z :=
  let checksum := nfapi_calculate_checksum buffer len in
  if 4 <=? len - 8 then (0, overwrite 8 (bytes32 checksum) buffer) else (-1, buffer).

End checksum.

(* src: nfapi_p7.c :: nfapi_p7_update_transmit_timestamp *)
Definition nfapi_p7_update_transmit_timestamp (buffer : list Z) (timestamp : Z) : Z * list Z :=
  (0, overwrite 12 (bytes32 timestamp) buffer).

(** ** Facts *)

Lemma bytes32_be32 v : in_u32 v -> bytes32 v = be32 v.
Proof.
  intros Hv. unfold bytes32. pose proof (emits_push32 v Hv) as H.
  destruct (em_fit _ _ H (Wbuf [] 4)) as [_ ->]; [unfold room_ok; cbn [w_room]; lia|done|done].
Qed.

Lemma length_overwrite off bs buf :
  (off + length bs <= length buf)%nat -> length (overwrite off bs buf) = length buf.
Proof. intros. unfold overwrite. rewrite !length_app, length_take, length_drop. lia. Qed.

(** The header of a buffer, written out. *)
Definition header_bytes (h : nfapi_p7_message_header_t) : list Z :=
  be16 (phy_id h) ++ be16 (message_id h) ++ be16 (message_length h) ++
  be16 (m_segment_sequence h) ++ be32 (checksum h) ++ be32 (transmit_timestamp h).

Definition header_ok (h : nfapi_p7_message_header_t) : Prop :=
  in_u16 (phy_id h) /\ in_u16 (message_id h) /\ in_u16 (message_length h) /\
  in_u16 (m_segment_sequence h) /\ in_u32 (checksum h) /\ in_u32 (transmit_timestamp h).

Lemma parses_p7_header h : header_ok h -> parses unpack_p7_header (header_bytes h) h.
Proof.
  destruct h. intros (? & ? & ? & ? & ? & ?). unfold unpack_p7_header, header_bytes.
  cbn [phy_id message_id message_length m_segment_sequence checksum transmit_timestamp] in *.
  do 5 (eapply parses_bind; [first [by apply parses_pull16|by apply parses_pull32]|]).
  apply parses_fmap. by apply parses_pull32.
Qed.

Lemma header_bytes_length h : length (header_bytes h) = 16%nat.
Proof. done. Qed.

Lemma header_unpack_bytes h body :
  header_ok h -> nfapi_p7_message_header_unpack (header_bytes h ++ body) 16 = Some h.
Proof.
  intros Hok. unfold nfapi_p7_message_header_unpack, NFAPI_P7_HEADER_LENGTH.
  destruct (Z.ltb_spec (zlen (header_bytes h ++ body)) 16) as [Hl|_].
  { unfold zlen in Hl. rewrite length_app, header_bytes_length in Hl. lia. }
  cbn [orb]. by rewrite (pa_run _ _ _ (parses_p7_header h Hok)).
Qed.

(** The value of a field of a header is what a reader of the bytes finds. *)
Lemma zlen_header_bytes h : zlen (header_bytes h) = 16.
Proof. done. Qed.
#[export] Hint Rewrite zlen_header_bytes : zlen.

Lemma emits_p7_header h :
  header_ok h ->
  emits (pack_p7_header h) (header_bytes
    (P7Header (phy_id h) (message_id h) 0 (m_segment_sequence h) 0 (transmit_timestamp h))).
Proof.
  intros (? & ? & ? & ? & ? & ?). unfold pack_p7_header, header_bytes.
  cbn [phy_id message_id message_length m_segment_sequence checksum transmit_timestamp].
  repeat apply emits_and; first [by apply emits_push16|by apply emits_push32].
Qed.

Lemma emits_ret_u8 p bs :
  (forall w, room_ok w -> zlen bs <= w_room w -> fst (p w) < 256) -> emits p bs -> emits (ret_u8 p) bs.
Proof.
  intros Hr [H1 H2 H3]. split; [done|..]; intros w Hw Hl; unfold ret_u8.
  - specialize (H2 w Hw Hl). specialize (Hr w Hw Hl). destruct (p w) as [r w']; cbn [fst snd] in *.
    destruct H2 as [? ->]. rewrite u8_small by (unfold in_u8; lia). done.
  - specialize (H3 w Hw Hl). destruct (p w) as [r w']; cbn [fst snd] in *. by subst r.
Qed.

(** Packing a frame: the header with its length patched, then the body. *)
Lemma p7_frame_pack_ok h body bs buflen :
  header_ok h -> writes (ret_u8 body) bs -> 16 + zlen bs <= 65535 -> 16 + zlen bs <= buflen ->
  buflen < 4294967296 ->
  p7_frame_pack h body buflen =
  Some (header_bytes (P7Header (phy_id h) (message_id h) (16 + zlen bs) (m_segment_sequence h) 0
         (transmit_timestamp h)) ++ bs).
Proof.
  intros Hh Hb Hl Hlen Hbuf. pose proof (zlen_nonneg bs) as Hnn. unfold p7_frame_pack.
  set (h0 := P7Header (phy_id h) (message_id h) 0 (m_segment_sequence h) 0 (transmit_timestamp h)).
  destruct (em_fit _ _ (emits_p7_header h Hh) (Wbuf [] buflen)) as [Hr Hw];
    [unfold room_ok; cbn [w_room]; lia|cbn [w_room]; zlen_lia|].
  destruct (pack_p7_header h _) as [r w]. cbn [fst snd] in Hr, Hw. subst w.
  destruct (Z.eqb_spec r 0); [lia|].
  destruct (wr_fit _ _ Hb (wapp (Wbuf [] buflen) (header_bytes h0))) as [Hr2 Hw];
    [unfold room_ok, wapp; cbn [w_room]; zlen_lia|unfold wapp; cbn [w_room]; zlen_lia|].
  destruct (ret_u8 body _) as [r2 w]. cbn [fst snd] in Hr2, Hw. subst w.
  destruct (Z.eqb_spec r2 0); [lia|]. rewrite wapp_wapp.
  assert (zlen (header_bytes h0 ++ bs) = 16 + zlen bs) as E by (by autorewrite with zlen).
  unfold wapp. cbn [w_out w_room app]. rewrite E, u32_small by wrap_lia.
  destruct (Z.ltb_spec 0xFFFF (16 + zlen bs)); [lia|]. destruct (Z.ltb_spec buflen (16 + zlen bs)); [lia|].
  cbn [orb]. rewrite u16_small by wrap_lia.
  destruct (pack_at_overwrite (push16 (16 + zlen bs)) (be16 (16 + zlen bs))
    (be16 (phy_id h) ++ be16 (message_id h)) (be16 0)
    (be16 (m_segment_sequence h) ++ be32 0 ++ be32 (transmit_timestamp h) ++ bs)
    (buflen - (16 + zlen bs))) as [Hr3 Ho].
  - apply emits_push16. wrap_lia.
  - done.
  - lia.
  - autorewrite with zlen. rewrite ?zlen_be16, ?zlen_be32. lia.
  - change ((be16 (phy_id h) ++ be16 (message_id h)) ++ be16 0 ++
      be16 (m_segment_sequence h) ++ be32 0 ++ be32 (transmit_timestamp h) ++ bs)
      with (header_bytes h0 ++ bs) in Hr3, Ho.
    change (length (be16 (phy_id h) ++ be16 (message_id h))) with 4%nat in Hr3, Ho.
    destruct (pack_at 4 _ _) as [r3 w]. cbn [fst snd] in Hr3, Ho. subst w.
    by destruct (Z.eqb_spec r3 0); [lia|].
Qed.

(** Unpacking a frame whose length field does not exceed the buffer. *)
Lemma p7_frame_unpack_ok {A} h (body : nfapi_p7_message_header_t -> list Z -> Z * A) bs size :
  header_ok h -> message_length h <= 16 + zlen bs -> 16 <= size ->
  p7_frame_unpack body (header_bytes h ++ bs) size =
  let '(result, a) := body h bs in if result =? 0 then None else Some (h, a).
Proof.
  intros Hh Hlen Hsize. unfold p7_frame_unpack, NFAPI_P7_HEADER_LENGTH.
  destruct (Z.ltb_spec (zlen (header_bytes h ++ bs)) 16); [zlen_lia|]. destruct (Z.ltb_spec size 16); [lia|]. cbn [orb].
  rewrite (pa_run _ _ _ (parses_p7_header h Hh)).
  destruct (Z.ltb_spec (zlen (header_bytes h ++ bs)) (message_length h)); [zlen_lia|done].
Qed.

(** ** The segment/sequence word *)

(** The word whose fields are [more], [seg] and [seq], as the GET macros and
    [buffer[6]] of the segmenting code lay it out. *)
Definition mss (more : bool) (seg seq : Z) : Z := b2z more * 32768 + seg * 256 + seq.

Lemma mss_u16 more seg seq : 0 <= seg < 128 -> 0 <= seq < 256 -> in_u16 (mss more seg seq).
Proof. unfold mss. destruct more; wrap_lia. Qed.

Lemma mss_get more seg seq :
  0 <= seg < 128 -> 0 <= seq < 256 ->
  NFAPI_P7_GET_MORE (mss more seg seq) = b2z more /\
  NFAPI_P7_GET_SEGMENT (mss more seg seq) = seg /\
  NFAPI_P7_GET_SEQUENCE (mss more seg seq) = seq.
Proof.
  intros Hg Hs. unfold NFAPI_P7_GET_MORE, NFAPI_P7_GET_SEGMENT, NFAPI_P7_GET_SEQUENCE.
  change 0x8000 with (Z.shiftl (Z.ones 1) 15). change 0x7F00 with (Z.shiftl (Z.ones 7) 8).
  change 0x00FF with (Z.ones 8). rewrite !land_shiftr_mask, Z.land_ones by lia.
  change (2 ^ 15) with 32768. change (2 ^ 8) with 256. change (2 ^ 7) with 128. change (2 ^ 1) with 2.
  unfold mss. destruct more; cbn [b2z]; lia.
Qed.

(** [NFAPI_P7_SET_MSS] still builds the one-byte layout the GET macros no
    longer read: whatever it is given, the receiver sees "no more segments",
    segment 0, and a sequence number into which the flag and the segment are
    mixed and of which only four bits are the caller's. *)
Theorem set_mss_reads_back (more seg seq : Z) :
  NFAPI_P7_GET_MORE (NFAPI_P7_SET_MSS more seg seq) = 0 /\
  NFAPI_P7_GET_SEGMENT (NFAPI_P7_SET_MSS more seg seq) = 0 /\
  NFAPI_P7_GET_SEQUENCE (NFAPI_P7_SET_MSS more seg seq) =
    more mod 2 * 128 + seg mod 8 * 16 + seq mod 16.
Proof.
  assert (NFAPI_P7_SET_MSS more seg seq =
    mss false 0 (more mod 2 * 128 + seg mod 8 * 16 + seq mod 16)) as ->.
  { unfold NFAPI_P7_SET_MSS, mss. change 0x1 with (Z.ones 1). change 0x7 with (Z.ones 3).
    change 0xF with (Z.ones 4). rewrite !Z.land_ones by lia. change (Z.ones 3) with 7.
    change (2 ^ 1) with 2. change (2 ^ 3) with 8. change (2 ^ 4) with 16.
    rewrite <- Z.lor_assoc, (lor_shiftl_add (seg mod 8)) by (try change (2 ^ 4) with 16; lia).
    rewrite lor_shiftl_add by (change (2 ^ 7) with 128; change (2 ^ 4) with 16; lia).
    change (2 ^ 7) with 128. change (2 ^ 4) with 16. cbn [b2z]. lia. }
  apply (mss_get false 0); lia.
Qed.

(** ** The checksum of a message that carries it *)

Section checksum_facts.
Context (crc32 : Z -> list Z -> Z).

(** The checksum does not depend on the checksum and timestamp fields. *)
Lemma checksum_skips h c t body len :
  nfapi_calculate_checksum crc32 (header_bytes (P7Header (phy_id h) (message_id h)
    (message_length h) (m_segment_sequence h) c t) ++ body) len =
  nfapi_calculate_checksum crc32 (header_bytes h ++ body) len.
Proof. done. Qed.

Lemma calculate_checksum_range buf len : in_u32 (nfapi_calculate_checksum crc32 buf len).
Proof. apply u32_range. Qed.

(** The sender's update stores the checksum the receiver computes. *)
Lemma update_checksum_bytes h body len :
  16 <= len ->
  nfapi_p7_update_checksum crc32 (header_bytes h ++ body) len =
  (0, header_bytes (P7Header (phy_id h) (message_id h) (message_length h) (m_segment_sequence h)
        (nfapi_calculate_checksum crc32 (header_bytes h ++ body) len) (transmit_timestamp h)) ++ body).
Proof.
  intros Hl. unfold nfapi_p7_update_checksum. destruct (Z.leb_spec 4 (len - 8)); [|lia].
  rewrite bytes32_be32 by apply calculate_checksum_range. done.
Qed.
End checksum_facts.
