(* ===== verification/LteInd.v ===== *)
(** * LTE uplink indications ([nfapi_p7.c])

    The codecs of the CRC, scheduling request (SR) and RACH indications, which
    have one shape: the subframe, and a body TLV with a count and as many PDUs,
    each a length and a list of TLVs.  The length is patched after the TLVs are
    written.

    The unpackers bound a PDU by its length field and do not compare that with
    the end of the message: [behind] is what the memory behind the message
    holds.  Allocation of the PDU lists is taken to succeed, and the codec
    configuration is null, as in every call of the proxy. *)

From S2P Require Import Prelude Tags Codec P7Header.

(** ** Data *)

(* src: nfapi_interface.h :: nfapi_rx_ue_information *)
Record nfapi_rx_ue_information := RxUe { rxue_tl : nfapi_tl_t; handle : Z; rnti : Z }.

(* src: nfapi_interface.h :: nfapi_crc_indication_rel8_t *)
Record nfapi_crc_indication_rel8_t := CrcRel8 { crc8_tl : nfapi_tl_t; crc_flag : Z }.

(* src: nfapi_interface.h :: nfapi_crc_indication_pdu_t *)
Record nfapi_crc_indication_pdu_t := CrcPdu {
  crc_instance_length : Z;
  crc_rx_ue_information : nfapi_rx_ue_information;
  crc_indication_rel8 : nfapi_crc_indication_rel8_t;
}.

(* src: nfapi_interface.h :: nfapi_ul_cqi_information_t *)
Record nfapi_ul_cqi_information_t := UlCqi { ulcqi_tl : nfapi_tl_t; ul_cqi : Z; channel : Z }.

(* src: nfapi_interface.h :: nfapi_sr_indication_pdu_t *)
Record nfapi_sr_indication_pdu_t := SrPdu {
  sr_instance_length : Z;
  sr_rx_ue_information : nfapi_rx_ue_information;
  ul_cqi_information : nfapi_ul_cqi_information_t;
}.

(* src: nfapi_interface.h :: nfapi_preamble_pdu_rel8_t *)
Record nfapi_preamble_pdu_rel8_t := Preamble8 {
  pre8_tl : nfapi_tl_t; pre_rnti : Z; preamble : Z; timing_advance : Z }.
(* src: nfapi_interface.h :: nfapi_preamble_pdu_rel9_t *)
Record nfapi_preamble_pdu_rel9_t := Preamble9 { pre9_tl : nfapi_tl_t; timing_advance_r9 : Z }.
(* src: nfapi_interface.h :: nfapi_preamble_pdu_rel13_t *)
Record nfapi_preamble_pdu_rel13_t := Preamble13 { pre13_tl : nfapi_tl_t; rach_resource_type : Z }.

(* src: nfapi_interface.h :: nfapi_preamble_pdu_t *)
Record nfapi_preamble_pdu_t := PreamblePdu {
  pre_instance_length : Z;
  preamble_rel8 : nfapi_preamble_pdu_rel8_t;
  preamble_rel9 : nfapi_preamble_pdu_rel9_t;
  preamble_rel13 : nfapi_preamble_pdu_rel13_t;
}.

(** An indication without its header: [nfapi_crc_indication_t] and its
    siblings, with their body structure inlined.  The count is a field of its
    own, as in the code; the array has at least that many elements. *)
(* src: nfapi_interface.h :: nfapi_crc_indication_body_t *)
Record indication (P : Type) := Indication {
  ind_sfn_sf : Z; ind_tl : nfapi_tl_t; ind_number : Z; ind_pdus : list P }.
Arguments Indication {P}. Arguments ind_sfn_sf {P}. Arguments ind_tl {P}.
Arguments ind_number {P}. Arguments ind_pdus {P}.

(** What zeroed memory holds. *)
Definition tl0 : nfapi_tl_t := Tl 0 0.
Definition rxue0 : nfapi_rx_ue_information := RxUe tl0 0 0.
Definition ind0 {P} : indication P := Indication 0 tl0 0 [].

(** ** Values of the TLVs *)

(* src: nfapi_p7.c :: pack_rx_ue_information_value *)
Definition pack_rx_ue_information_value (v : nfapi_rx_ue_information) : packer :=
  push32 (handle v) &* push16 (rnti v).
(* src: nfapi_p7.c :: unpack_rx_ue_information_value *)
Definition unpack_rx_ue_information_value (tl : nfapi_tl_t) : reader nfapi_rx_ue_information :=
  handle ← pull32; rnti ← pull16; mret (RxUe tl handle rnti).

(* src: nfapi_p7.c :: pack_crc_indication_rel8_body *)
Definition pack_crc_indication_rel8_body (v : nfapi_crc_indication_rel8_t) : packer := push8 (crc_flag v).
(* src: nfapi_p7.c :: unpack_crc_indication_rel8_value *)
Definition unpack_crc_indication_rel8_value (tl : nfapi_tl_t) : reader nfapi_crc_indication_rel8_t :=
  crc_flag ← pull8; mret (CrcRel8 tl crc_flag).

(* src: nfapi_p7.c :: pack_ul_cqi_information_value *)
Definition pack_ul_cqi_information_value (v : nfapi_ul_cqi_information_t) : packer :=
  push8 (ul_cqi v) &* push8 (channel v).
(* src: nfapi_p7.c :: unpack_ul_cqi_information_value *)
Definition unpack_ul_cqi_information_value (tl : nfapi_tl_t) : reader nfapi_ul_cqi_information_t :=
  ul_cqi ← pull8; channel ← pull8; mret (UlCqi tl ul_cqi channel).

(* src: nfapi_p7.c :: pack_preamble_pdu_rel8_value *)
Definition pack_preamble_pdu_rel8_value (v : nfapi_preamble_pdu_rel8_t) : packer :=
  push16 (pre_rnti v) &* push8 (preamble v) &* push16 (timing_advance v).
(* src: nfapi_p7.c :: unpack_preamble_pdu_rel8_value *)
Definition unpack_preamble_pdu_rel8_value (tl : nfapi_tl_t) : reader nfapi_preamble_pdu_rel8_t :=
  rnti ← pull16; preamble ← pull8; timing_advance ← pull16; mret (Preamble8 tl rnti preamble timing_advance).

(* src: nfapi_p7.c :: pack_preamble_pdu_rel9_value *)
Definition pack_preamble_pdu_rel9_value (v : nfapi_preamble_pdu_rel9_t) : packer := push16 (timing_advance_r9 v).
(* src: nfapi_p7.c :: unpack_preamble_pdu_rel9_value *)
Definition unpack_preamble_pdu_rel9_value (tl : nfapi_tl_t) : reader nfapi_preamble_pdu_rel9_t :=
  timing_advance_r9 ← pull16; mret (Preamble9 tl timing_advance_r9).

(* src: nfapi_p7.c :: pack_preamble_pdu_rel13_value *)
Definition pack_preamble_pdu_rel13_value (v : nfapi_preamble_pdu_rel13_t) : packer := push8 (rach_resource_type v).
(* src: nfapi_p7.c :: unpack_preamble_pdu_rel13_value *)
Definition unpack_preamble_pdu_rel13_value (tl : nfapi_tl_t) : reader nfapi_preamble_pdu_rel13_t :=
  rach_resource_type ← pull8; mret (Preamble13 tl rach_resource_type).

(** ** PDUs *)

(** The length field, the TLVs, and the length again with the computed value.
    [len] is what the field of the structure happens to hold. *)
(* src: nfapi_p7.c 2490-2502 pack_crc_indication_body_value *)
Definition pack_instance (len : Z) (fields : packer) : packer := fun w =>
  let instance_length_p := length (w_out w) in
  let '(r, w1) := push16 len w in
  if r =? 0 then (0, w1) else
  let '(r2, w2) := fields w1 in
  if r2 =? 0 then (0, w2) else
  let instance_length := u16 (zlen (w_out w2) - Z.of_nat instance_length_p - 2) in
  let '(_, w3) := pack_at instance_length_p (push16 instance_length) w2 in
  (1, w3).

Section unpack.
Context (behind : nat -> Z).

(** A zeroed PDU whose length field has been read is [init]. *)
(* src: nfapi_p7.c 7137-7150 unpack_crc_indication_body_value *)
Definition unpack_instance {P} (init : Z -> P) (fns : list (unpack_tlv_t P)) : reader P := fun l =>
  match pull16 l with
  | None => None
  | Some (len, l) =>
      match unpack_tlv_list fns None (init len) (region behind (Z.to_nat len) l) with
      | (r, pdu, _) => if r =? 0 then None else Some (pdu, drop (Z.to_nat len) l)
      end
  end.

(** The body: the count, then the PDUs.  The read pointer stays within the
    message for every other read.  What has been stored when a PDU does not
    parse is not kept: nobody looks at an indication that was rejected. *)
(* src: nfapi_p7.c :: unpack_crc_indication_body_value *)
Definition unpack_body {P} (max : Z) (pdu : reader P) (tl : nfapi_tl_t) (msg : indication P) :
    reader (indication P) := fun l =>
  if zlen l <? tl_length tl then None
  else match pull16 l with
  | None => None
  | Some (number, l) =>
      if max <? number then None
      else match pull_all pdu (Z.to_nat number) l with
      | None => None
      | Some (pdus, l) => Some (Indication (ind_sfn_sf msg) tl number pdus, l)
      end
  end.

(** The message: the result and the structure. *)
(* src: nfapi_p7.c :: unpack_crc_indication *)
Definition unpack_indication {P} (tag max : Z) (pdu : reader P) (l : list Z) : Z * indication P :=
  match pull16 l with
  | None => (0, ind0)
  | Some (sfn_sf, l) =>
      let '(r, msg, _) :=
        unpack_p7_tlv_list [UnpackTlv tag (fun tl => of_reader (unpack_body max pdu tl))] None (Indication sfn_sf tl0 0 []) l in
      (b2z (negb (r =? 0)), msg)
  end.
End unpack.

(** The packers of body and message; the loop reads [ind_number] elements of
    the array.  The CRC packer asserts first that the count is at most
    [NFAPI_CRC_IND_MAX_PDU]; [Aggregate.send_crc] models that. *)
(* src: nfapi_p7.c :: pack_crc_indication_body_value *)
Definition pack_body {P} (pdu : P -> packer) (msg : indication P) : packer :=
  pack_then (push16 (ind_number msg)) (pack_elems pdu (take (Z.to_nat (ind_number msg)) (ind_pdus msg))).
(* src: nfapi_p7.c :: pack_crc_indication *)
Definition pack_indication {P} (tag : Z) (pdu : P -> packer) (msg : indication P) : packer :=
  push16 (ind_sfn_sf msg) &*
  pack_tlv tag (ind_tl msg) (pack_body pdu msg) &*
  pack_p7_vendor_extension_tlv None.

(** *** CRC *)

Definition crc_pdu0 (len : Z) : nfapi_crc_indication_pdu_t := CrcPdu len rxue0 (CrcRel8 tl0 0).
(* src: nfapi_p7.c 2488-2502 pack_crc_indication_body_value *)
Definition pack_crc_pdu (p : nfapi_crc_indication_pdu_t) : packer :=
  pack_instance (crc_instance_length p)
    (pack_tlv NFAPI_RX_UE_INFORMATION_TAG (rxue_tl (crc_rx_ue_information p))
       (pack_rx_ue_information_value (crc_rx_ue_information p)) &*
     pack_tlv NFAPI_CRC_INDICATION_REL8_TAG (crc8_tl (crc_indication_rel8 p))
       (pack_crc_indication_rel8_body (crc_indication_rel8 p))).
(* src: nfapi_p7.c 7143-7149 unpack_crc_indication_body_value *)
Definition crc_entries : list (unpack_tlv_t nfapi_crc_indication_pdu_t) :=
  [UnpackTlv NFAPI_RX_UE_INFORMATION_TAG (fun tl => of_reader (fun p =>
     v ← unpack_rx_ue_information_value tl; mret (CrcPdu (crc_instance_length p) v (crc_indication_rel8 p))));
   UnpackTlv NFAPI_CRC_INDICATION_REL8_TAG (fun tl => of_reader (fun p =>
     v ← unpack_crc_indication_rel8_value tl; mret (CrcPdu (crc_instance_length p) (crc_rx_ue_information p) v)))].

(* src: nfapi_p7.c :: pack_crc_indication *)
Definition pack_crc_indication := pack_indication NFAPI_CRC_INDICATION_BODY_TAG pack_crc_pdu.
(* src: nfapi_p7.c :: unpack_crc_indication *)
Definition unpack_crc_indication (behind : nat -> Z) :=
  unpack_indication NFAPI_CRC_INDICATION_BODY_TAG NFAPI_CRC_IND_MAX_PDU
    (unpack_instance behind crc_pdu0 crc_entries).

(** *** Scheduling requests *)

Definition sr_pdu0 (len : Z) : nfapi_sr_indication_pdu_t := SrPdu len rxue0 (UlCqi tl0 0 0).
(* src: nfapi_p7.c 2753-2768 pack_sr_indication_body_value *)
Definition pack_sr_pdu (p : nfapi_sr_indication_pdu_t) : packer :=
  pack_instance (sr_instance_length p)
    (pack_tlv NFAPI_RX_UE_INFORMATION_TAG (rxue_tl (sr_rx_ue_information p))
       (pack_rx_ue_information_value (sr_rx_ue_information p)) &*
     pack_tlv NFAPI_UL_CQI_INFORMATION_TAG (ulcqi_tl (ul_cqi_information p))
       (pack_ul_cqi_information_value (ul_cqi_information p))).
(* src: nfapi_p7.c 7550-7553 unpack_sr_indication_body_value *)
Definition sr_entries : list (unpack_tlv_t nfapi_sr_indication_pdu_t) :=
  [UnpackTlv NFAPI_RX_UE_INFORMATION_TAG (fun tl => of_reader (fun p =>
     v ← unpack_rx_ue_information_value tl; mret (SrPdu (sr_instance_length p) v (ul_cqi_information p))));
   UnpackTlv NFAPI_UL_CQI_INFORMATION_TAG (fun tl => of_reader (fun p =>
     v ← unpack_ul_cqi_information_value tl; mret (SrPdu (sr_instance_length p) (sr_rx_ue_information p) v)))].

(* src: nfapi_p7.c :: pack_sr_indication *)
Definition pack_sr_indication := pack_indication NFAPI_SR_INDICATION_BODY_TAG pack_sr_pdu.
(* src: nfapi_p7.c 7515-7569 unpack_sr_indication *)
Definition unpack_sr_indication (behind : nat -> Z) :=
  unpack_indication NFAPI_SR_INDICATION_BODY_TAG NFAPI_SR_IND_MAX_PDU
    (unpack_instance behind sr_pdu0 sr_entries).

(** *** RACH *)

Definition preamble_pdu0 (len : Z) : nfapi_preamble_pdu_t :=
  PreamblePdu len (Preamble8 tl0 0 0 0) (Preamble9 tl0 0) (Preamble13 tl0 0).
(* src: nfapi_p7.c 2633-2649 pack_rach_indication_body_value *)
Definition pack_preamble_pdu (p : nfapi_preamble_pdu_t) : packer :=
  pack_instance (pre_instance_length p)
    (pack_tlv NFAPI_PREAMBLE_REL8_TAG (pre8_tl (preamble_rel8 p)) (pack_preamble_pdu_rel8_value (preamble_rel8 p)) &*
     pack_tlv NFAPI_PREAMBLE_REL9_TAG (pre9_tl (preamble_rel9 p)) (pack_preamble_pdu_rel9_value (preamble_rel9 p)) &*
     pack_tlv NFAPI_PREAMBLE_REL13_TAG (pre13_tl (preamble_rel13 p)) (pack_preamble_pdu_rel13_value (preamble_rel13 p))).
(* src: nfapi_p7.c 7373-7378 unpack_rach_indication_body_value *)
Definition preamble_entries : list (unpack_tlv_t nfapi_preamble_pdu_t) :=
  [UnpackTlv NFAPI_PREAMBLE_REL8_TAG (fun tl => of_reader (fun p => v ← unpack_preamble_pdu_rel8_value tl;
     mret (PreamblePdu (pre_instance_length p) v (preamble_rel9 p) (preamble_rel13 p))));
   UnpackTlv NFAPI_PREAMBLE_REL9_TAG (fun tl => of_reader (fun p => v ← unpack_preamble_pdu_rel9_value tl;
     mret (PreamblePdu (pre_instance_length p) (preamble_rel8 p) v (preamble_rel13 p))));
   UnpackTlv NFAPI_PREAMBLE_REL13_TAG (fun tl => of_reader (fun p => v ← unpack_preamble_pdu_rel13_value tl;
     mret (PreamblePdu (pre_instance_length p) (preamble_rel8 p) (preamble_rel9 p) v)))].

(* src: nfapi_p7.c 2624-2659 pack_rach_indication *)
Definition pack_rach_indication := pack_indication NFAPI_RACH_INDICATION_BODY_TAG pack_preamble_pdu.
(* src: nfapi_p7.c 7339-7394 unpack_rach_indication *)
Definition unpack_rach_indication (behind : nat -> Z) :=
  unpack_indication NFAPI_RACH_INDICATION_BODY_TAG NFAPI_PREAMBLE_MAX_PDU
    (unpack_instance behind preamble_pdu0 preamble_entries).

(** ** Lists of known TLVs *)

(** [tlv_steps fns msg ts msg']: reading the TLVs [ts] in turn takes the
    structure [msg] to [msg']. *)
Inductive tlv_steps {M} (fns : list (unpack_tlv_t M)) : M -> list (Z * list Z) -> M -> Prop :=
  | steps_nil msg : tlv_steps fns msg [] msg
  | steps_cons msg tag bs msg1 ts msg' :
      in_u16 tag -> in_u16 (zlen bs) ->
      (forall rest, try_entries no_pad fns (Tl tag (zlen bs)) false msg (bs ++ rest) = inr (true, msg1, rest)) ->
      tlv_steps fns msg1 ts msg' -> tlv_steps fns msg ((tag, bs) :: ts) msg'.

Lemma tlv_loop_steps {M} (fns : list (unpack_tlv_t M)) too_many msg ts msg' :
  tlv_steps fns msg ts msg' -> forall fuel n, (length ts < fuel)%nat ->
  tlv_loop fuel no_pad too_many fns None n msg (tlvs_bytes no_pad ts) = (1, msg', []).
Proof.
  induction 1 as [msg|msg tag bs msg1 ts msg' Ht Hl Hs _ IH]; intros [|fuel] n Hf; cbn [length] in Hf;
    try lia; [done|].
  rewrite tlvs_bytes_cons. cbn [no_pad Z.to_nat replicate app].
  erewrite tlv_loop_known by (done || apply Hs). apply IH. lia.
Qed.

Lemma tlvs_bytes_length ts : (length ts <= length (tlvs_bytes no_pad ts))%nat.
Proof.
  induction ts as [|[tag bs] ts IH]; [done|]. rewrite tlvs_bytes_cons. unfold tlv_bytes.
  rewrite !length_app. cbn [length]. change (length (be16 tag)) with 2%nat. lia.
Qed.

Lemma unpack_tlv_list_steps {M} (fns : list (unpack_tlv_t M)) msg ts msg' :
  tlv_steps fns msg ts msg' -> unpack_tlv_list fns None msg (tlvs_bytes no_pad ts) = (1, msg', []).
Proof.
  intros H. unfold unpack_tlv_list, tlv_fuel. apply (tlv_loop_steps _ _ _ _ _ H).
  pose proof (tlvs_bytes_length ts). lia.
Qed.

Lemma unpack_p7_tlv_list_steps {M} (fns : list (unpack_tlv_t M)) msg ts msg' :
  tlv_steps fns msg ts msg' -> unpack_p7_tlv_list fns None msg (tlvs_bytes no_pad ts) = (1, msg', []).
Proof.
  intros H. unfold unpack_p7_tlv_list, tlv_fuel. apply (tlv_loop_steps _ _ _ _ _ H).
  pose proof (tlvs_bytes_length ts). lia.
Qed.

(** Packing TLVs one after the other. *)
Lemma tlvs_bytes_app ts us : tlvs_bytes no_pad (ts ++ us) = tlvs_bytes no_pad ts ++ tlvs_bytes no_pad us.
Proof. unfold tlvs_bytes. by rewrite fmap_app, concat_app. Qed.

Lemma emits_tlvs_and p q ts us :
  emits p (tlvs_bytes no_pad ts) -> emits q (tlvs_bytes no_pad us) ->
  emits (p &* q) (tlvs_bytes no_pad (ts ++ us)).
Proof. rewrite tlvs_bytes_app. apply emits_and. Qed.

Lemma emits_one_tlv tag tl fn bs :
  in_u16 tag -> tl = Tl tag (zlen bs) -> in_u16 (zlen bs) -> emits fn bs ->
  emits (pack_tlv tag tl fn) (tlvs_bytes no_pad [(tag, bs)]).
Proof.
  intros Ht -> Hl Hfn. unfold tlvs_bytes. cbn. rewrite !app_nil_r. by apply emits_tlv.
Qed.

Lemma emits_no_tlv tag tl fn : tl_tag tl <> tag -> emits (pack_tlv tag tl fn) (tlvs_bytes no_pad []).
Proof. apply emits_tlv_absent. Qed.

(** ** PDUs *)

Lemma emits_instance len fields bs :
  in_u16 len -> in_u16 (zlen bs) -> emits fields bs -> emits (pack_instance len fields) (be16 (zlen bs) ++ bs).
Proof.
  intros Hlen Hbs Hf. pose proof (zlen_nonneg bs). split.
  - apply bytes_ok_app. split; [by apply be16_ok|apply Hf].
  - intros w Hw Hfit. autorewrite with zlen in Hfit. unfold pack_instance.
    destruct (em_fit _ _ (emits_push16 len Hlen) w Hw) as [Hr1 Hw1]; [zlen_lia|].
    destruct (push16 len w) as [r1 w1]; cbn [fst snd] in Hr1, Hw1; subst w1.
    destruct (Z.eqb_spec r1 0); [lia|].
    destruct (em_fit _ _ Hf (wapp w (be16 len))) as [Hr2 Hw2]; [apply room_ok_wapp; [done|zlen_lia]|
      unfold wapp; cbn [w_room]; zlen_lia|].
    destruct (fields _) as [r2 w2]; cbn [fst snd] in Hr2, Hw2; subst w2. destruct (Z.eqb_spec r2 0); [lia|].
    rewrite wapp_wapp.
    replace (zlen (w_out (wapp w (be16 len ++ bs))) - Z.of_nat (length (w_out w)) - 2) with (zlen bs)
      by (unfold wapp, zlen; cbn [w_out]; rewrite !length_app; change (length (be16 len)) with 2%nat; lia).
    rewrite u16_small by done.
    destruct (pack_at_overwrite (push16 (zlen bs)) (be16 (zlen bs)) (w_out w) (be16 len) bs
      (w_room w - zlen (be16 len ++ bs))) as [_ Ho];
      [by apply emits_push16|done|zlen_lia|unfold room_ok in *; zlen_lia|].
    fold (wapp w (be16 len ++ bs)) in Ho. destruct (pack_at _ _ _) as [r3 w3]. cbn [fst snd] in Ho |- *.
    split; [done|]. rewrite Ho. unfold wapp. by f_equal.
  - intros w Hw Hfull. autorewrite with zlen in Hfull. unfold pack_instance.
    destruct (decide (2 <= w_room w)) as [H2|H2].
    + destruct (em_fit _ _ (emits_push16 len Hlen) w Hw) as [Hr1 Hw1]; [zlen_lia|].
      destruct (push16 len w) as [r1 w1]; cbn [fst snd] in Hr1, Hw1; subst w1. destruct (Z.eqb_spec r1 0); [lia|].
      pose proof (em_full _ _ Hf (wapp w (be16 len))) as Hz.
      destruct (fields _) as [r2 w2]; cbn [fst snd] in Hz |- *. rewrite Hz; [done| |].
      * apply room_ok_wapp; [done|zlen_lia].
      * unfold wapp; cbn [w_room]; zlen_lia.
    + pose proof (em_full _ _ (emits_push16 len Hlen) w Hw) as Hz.
      destruct (push16 len w) as [r1 w1]; cbn [fst snd] in Hz |- *. rewrite Hz; [done|zlen_lia].
Qed.

(** ** The codec of a PDU as an interface

    What the indications below share: a PDU is a list of TLVs, [pdu_tlvs], that
    the packer of its fields stores and its unpack table reads back. *)
Class PduCodec {P} (fields : P -> packer) (len : P -> Z) (init : Z -> P)
    (entries : list (unpack_tlv_t P)) (ok : P -> Prop) := {
  pdu_tlvs : P -> list (Z * list Z);
  pdu_emits p : ok p -> emits (fields p) (tlvs_bytes no_pad (pdu_tlvs p));
  pdu_steps p : ok p -> tlv_steps entries (init (len p)) (pdu_tlvs p) p;
  pdu_len p : ok p -> len p = zlen (tlvs_bytes no_pad (pdu_tlvs p));
  pdu_small p : ok p -> len p <= 64;
}.

Section indication_codec.
#[local] Set Default Proof Using "Type*".
Context {P : Type} {fields : P -> packer} {len : P -> Z} {init : Z -> P}.
Context {entries : list (unpack_tlv_t P)} {ok : P -> Prop}.
Context `{HC : !PduCodec fields len init entries ok}.
Context (behind : nat -> Z).

#[local] Abbreviation pack_pdu p := (pack_instance (len p) (fields p)).

(** The bytes of a PDU, and of a body. *)
Definition pdu_bytes (p : P) : list Z := be16 (len p) ++ tlvs_bytes no_pad (pdu_tlvs p).
Definition body_bytes (pdus : list P) : list Z := be16 (zlen pdus) ++ concat (pdu_bytes <$> pdus).

Lemma pdu_len_range p : ok p -> 0 <= len p <= 64.
Proof. intros H. pose proof (pdu_small p H). pose proof (zlen_nonneg (tlvs_bytes no_pad (pdu_tlvs p))). rewrite <- (pdu_len p H) in *. lia. Qed.

Lemma emits_pdu p : ok p -> emits (pack_pdu p) (pdu_bytes p).
Proof.
  intros H. unfold pdu_bytes. pose proof (pdu_len_range p H) as Hr. rewrite (pdu_len p H) at 2.
  apply emits_instance; [wrap_lia|rewrite <- (pdu_len p H); wrap_lia|by apply pdu_emits].
Qed.

Lemma unpack_pdu_run p rest : ok p ->
  unpack_instance behind init entries (pdu_bytes p ++ rest) = Some (p, rest).
Proof.
  intros H. unfold unpack_instance, pdu_bytes. pose proof (pdu_len_range p H) as Hr.
  rewrite <- app_assoc, (pa_run _ _ _ (parses_pull16 (len p) ltac:(wrap_lia))).
  rewrite region_exact by (symmetry; by apply pdu_len).
  rewrite (unpack_tlv_list_steps _ _ _ _ (pdu_steps p H)). cbn [Z.eqb]. do 2 f_equal.
  apply drop_app_length'. rewrite (pdu_len p H). unfold zlen. lia.
Qed.

Lemma unpack_pdus_run pdus rest : Forall ok pdus ->
  pull_all (unpack_instance behind init entries) (length pdus) (concat (pdu_bytes <$> pdus) ++ rest)
  = Some (pdus, rest).
Proof.
  induction 1 as [|p pdus Hp _ IH]; [done|]. cbn [length fmap list_fmap concat pull_all].
  unfold mbind, reader_bind. rewrite <- app_assoc, unpack_pdu_run by done. by rewrite IH.
Qed.

Lemma emits_pdus pdus : Forall ok pdus ->
  emits (pack_elems (fun p => pack_pdu p) pdus) (concat (pdu_bytes <$> pdus)).
Proof.
  induction 1 as [|p pdus Hp _ IH]; [apply emits_ok|].
  cbn [fmap list_fmap concat]. apply (emits_then _ _ _ _ (emits_pdu p Hp) IH).
Qed.

Lemma body_bytes_length pdus : Forall ok pdus -> zlen (body_bytes pdus) <= 2 + 66 * zlen pdus.
Proof.
  intros H. unfold body_bytes. autorewrite with zlen. apply Zplus_le_compat_l.
  induction H as [|p pdus Hp _ IH]; [done|]. cbn [fmap list_fmap concat].
  autorewrite with zlen. unfold pdu_bytes at 1. autorewrite with zlen. rewrite <- (pdu_len p Hp).
  pose proof (pdu_small p Hp). lia.
Qed.

Context (tag max : Z) (Htag : in_u16 tag) (Hmax : max <= 100).

(** An indication the sender may pack, and what the receiver makes of it: the
    length in the body's TL is the sender's business. *)
Definition indication_ok (msg : indication P) : Prop :=
  in_u16 (ind_sfn_sf msg) /\ tl_tag (ind_tl msg) = tag /\ in_u16 (tl_length (ind_tl msg)) /\
  ind_number msg = zlen (ind_pdus msg) /\ zlen (ind_pdus msg) <= max /\ Forall ok (ind_pdus msg).

Definition received (msg : indication P) : indication P :=
  Indication (ind_sfn_sf msg) (Tl tag (zlen (body_bytes (ind_pdus msg)))) (ind_number msg) (ind_pdus msg).

Definition indication_bytes (msg : indication P) : list Z :=
  be16 (ind_sfn_sf msg) ++ tlv_bytes tag (body_bytes (ind_pdus msg)).

Lemma emits_indication msg :
  indication_ok msg -> emits (ret_u8 (pack_indication tag (fun p => pack_pdu p) msg)) (indication_bytes msg).
Proof.
  intros (Hs & Ht & Hl & Hn & Hm & Hok). pose proof (zlen_nonneg (ind_pdus msg)).
  pose proof (body_bytes_length _ Hok). pose proof (zlen_nonneg (body_bytes (ind_pdus msg))).
  apply emits_ret_u8.
  { intros w _ _. unfold pack_indication, pack_and. destruct (push16 _ w) as [r w1].
    destruct (r =? 0); [done|]. destruct (pack_tlv _ _ _ _) as [r2 w2].
    destruct (r2 =? 0); done. }
  unfold pack_indication, indication_bytes. apply emits_and; [by apply emits_push16|].
  rewrite <- (app_nil_r (tlv_bytes _ _)). apply emits_and; [|apply emits_ok].
  apply emits_tlv; [done|done|wrap_lia| |done].
  unfold pack_body, body_bytes. rewrite Hn. apply emits_then; [apply emits_push16; wrap_lia|].
  rewrite take_ge by (unfold zlen; lia). by apply emits_pdus.
Qed.

Lemma unpack_indication_bytes msg :
  indication_ok msg ->
  unpack_indication tag max (unpack_instance behind init entries) (indication_bytes msg) = (1, received msg).
Proof.
  intros (Hs & Ht & Hl & Hn & Hm & Hok). pose proof (zlen_nonneg (ind_pdus msg)).
  pose proof (body_bytes_length _ Hok). pose proof (zlen_nonneg (body_bytes (ind_pdus msg))).
  unfold unpack_indication, indication_bytes.
  rewrite (pa_run _ _ _ (parses_pull16 _ Hs)).
  replace (tlv_bytes tag (body_bytes (ind_pdus msg)))
    with (tlvs_bytes no_pad [(tag, body_bytes (ind_pdus msg))])
    by (unfold tlvs_bytes; cbn; by rewrite !app_nil_r).
  erewrite unpack_p7_tlv_list_steps; [done|].
  eapply steps_cons; [done|wrap_lia| |apply steps_nil].
  intros rest. cbn [try_entries ut_tag ut_fn tl_tag tl_length]. rewrite Z.eqb_refl.
  unfold of_reader, unpack_body. cbn [tl_length].
  destruct (Z.ltb_spec (zlen (body_bytes (ind_pdus msg) ++ rest)) (zlen (body_bytes (ind_pdus msg))));
    [zlen_lia|].
  unfold body_bytes at 1. rewrite <- app_assoc.
  rewrite (pa_run _ _ _ (parses_pull16 (zlen (ind_pdus msg)) ltac:(wrap_lia))).
  destruct (Z.ltb_spec max (zlen (ind_pdus msg))); [lia|].
  replace (Z.to_nat (zlen (ind_pdus msg))) with (length (ind_pdus msg)) by (unfold zlen; lia).
  rewrite unpack_pdus_run by done. cbn [no_pad Z.to_nat drop]. unfold received. by rewrite Hn.
Qed.

(** Through the frame of a P7 message. *)
Lemma indication_packed h msg buflen :
  header_ok h -> indication_ok msg -> 8192 <= buflen < 4294967296 ->
  zlen (indication_bytes msg) <= 6608 /\
  p7_frame_pack h (pack_indication tag (fun p => pack_pdu p) msg) buflen =
    Some (header_bytes (P7Header (phy_id h) (message_id h) (16 + zlen (indication_bytes msg))
      (m_segment_sequence h) 0 (transmit_timestamp h)) ++ indication_bytes msg).
Proof.
  intros Hh Hok Hb. pose proof (emits_indication msg Hok) as He.
  pose proof Hok as (Hs & Ht & Hl & Hn & Hm & Hp). pose proof (body_bytes_length _ Hp).
  assert (zlen (indication_bytes msg) <= 6608) as Hz by (unfold indication_bytes; zlen_lia).
  split; [done|]. apply p7_frame_pack_ok; [done|by apply writes_emits|lia|lia|lia].
Qed.

Lemma indication_roundtrip h msg buflen :
  header_ok h -> indication_ok msg -> 8192 <= buflen < 4294967296 ->
  exists bytes,
    p7_frame_pack h (pack_indication tag (fun p => pack_pdu p) msg) buflen = Some bytes /\
    p7_frame_unpack (fun _ => unpack_indication tag max (unpack_instance behind init entries)) bytes 16 =
      Some (P7Header (phy_id h) (message_id h) (zlen bytes) (m_segment_sequence h) 0 (transmit_timestamp h),
            received msg).
Proof.
  intros Hh Hok Hb. destruct (indication_packed h msg buflen Hh Hok Hb) as [Hz ->].
  eexists. split; [done|]. destruct Hh as (? & ? & ? & ? & ? & ?). rewrite p7_frame_unpack_ok.
  - rewrite unpack_indication_bytes by done. cbn [Z.eqb]. do 3 f_equal. autorewrite with zlen. done.
  - unfold header_ok; cbn. pose proof (zlen_nonneg (indication_bytes msg)). repeat split; wrap_lia.
  - cbn. lia.
  - done.
Qed.
End indication_codec.

(** ** The three PDUs implement it *)

(** An optional TLV: written when the structure carries the tag. *)
Definition opt_tlv (tag : Z) (tl : nfapi_tl_t) (bs : list Z) : list (Z * list Z) :=
  if tl_tag tl =? tag then [(tag, bs)] else [].

(** A TLV structure is either present, with the length of its value, or zero. *)
Definition tlv_ok {V} (get_tl : V -> nfapi_tl_t) (zero : V) (tag size : Z) (range : V -> Prop) (v : V) : Prop :=
  (get_tl v = Tl tag size /\ range v) \/ v = zero.

Lemma emits_opt_tlv {V} (get_tl : V -> nfapi_tl_t) zero tag size range (pack : V -> packer) (bytes : V -> list Z) v :
  tlv_ok get_tl zero tag size range v -> in_u16 tag -> in_u16 size -> tl_tag (get_tl zero) <> tag ->
  zlen (bytes v) = size -> (range v -> emits (pack v) (bytes v)) ->
  emits (pack_tlv tag (get_tl v) (pack v)) (tlvs_bytes no_pad (opt_tlv tag (get_tl v) (bytes v))).
Proof.
  intros [[Ht Hr]| ->] Htag Hs H0 Hb Hp; unfold opt_tlv.
  - rewrite Ht. cbn [tl_tag]. rewrite Z.eqb_refl. apply emits_one_tlv; try done; [by rewrite Hb|
      by rewrite Hb|by apply Hp].
  - destruct (Z.eqb_spec (tl_tag (get_tl zero)) tag); [done|]. by apply emits_no_tlv.
Qed.

Lemma opt_tlv_length tag tl bs : zlen (tlvs_bytes no_pad (opt_tlv tag tl bs)) <= 4 + zlen bs.
Proof.
  unfold opt_tlv. destruct (tl_tag tl =? tag); [|cbn; zlen_lia].
  rewrite tlvs_bytes_cons. cbn. zlen_lia.
Qed.

(** Values. *)
Definition rxue_bytes (v : nfapi_rx_ue_information) : list Z := be32 (handle v) ++ be16 (rnti v).
Definition rxue_ok : nfapi_rx_ue_information -> Prop :=
  tlv_ok rxue_tl rxue0 NFAPI_RX_UE_INFORMATION_TAG 6 (fun v => in_u32 (handle v) /\ in_u16 (rnti v)).
Definition rxue_tlvs (v : nfapi_rx_ue_information) :=
  opt_tlv NFAPI_RX_UE_INFORMATION_TAG (rxue_tl v) (rxue_bytes v).

Lemma emits_rxue v : rxue_ok v ->
  emits (pack_tlv NFAPI_RX_UE_INFORMATION_TAG (rxue_tl v) (pack_rx_ue_information_value v))
    (tlvs_bytes no_pad (rxue_tlvs v)).
Proof.
  intros H. apply (emits_opt_tlv _ _ _ _ _ pack_rx_ue_information_value rxue_bytes v H); try done.
  intros [Hh Hr]. apply emits_and; [by apply emits_push32|by apply emits_push16].
Qed.

Definition crc8_bytes (v : nfapi_crc_indication_rel8_t) : list Z := [crc_flag v].
Definition crc8_ok : nfapi_crc_indication_rel8_t -> Prop :=
  tlv_ok crc8_tl (CrcRel8 tl0 0) NFAPI_CRC_INDICATION_REL8_TAG 1 (fun v => in_u8 (crc_flag v)).
Definition crc_pdu_ok (p : nfapi_crc_indication_pdu_t) : Prop :=
  rxue_ok (crc_rx_ue_information p) /\ crc8_ok (crc_indication_rel8 p) /\
  crc_instance_length p = zlen (tlvs_bytes no_pad (rxue_tlvs (crc_rx_ue_information p) ++
    opt_tlv NFAPI_CRC_INDICATION_REL8_TAG (crc8_tl (crc_indication_rel8 p)) (crc8_bytes (crc_indication_rel8 p)))).

(** Reading an optional TLV with a table whose entry for [tag] stores the value
    with [set]. *)
Lemma steps_opt_tlv {M V} (fns : list (unpack_tlv_t M)) (get_tl : V -> nfapi_tl_t) zero tag size range
    (bytes : V -> list Z) (unpack : nfapi_tl_t -> reader V) (set : V -> M -> M) v msg ts msg' :
  tlv_ok get_tl zero tag size range v -> in_u16 tag -> in_u16 size -> tl_tag (get_tl zero) <> tag ->
  zlen (bytes v) = size ->
  (forall m l, try_entries no_pad fns (Tl tag size) false m l =
     match unpack (Tl tag size) l with Some (x, l) => inr (true, set x m, l) | None => inl (m, l) end) ->
  (range v -> forall rest, unpack (get_tl v) (bytes v ++ rest) = Some (v, rest)) ->
  set zero msg = msg -> tlv_steps fns (set v msg) ts msg' ->
  tlv_steps fns msg (opt_tlv tag (get_tl v) (bytes v) ++ ts) msg'.
Proof.
  intros [[Ht Hr]| ->] Htag Hs H0 Hb Htry Hun Hset Hsteps; unfold opt_tlv.
  - specialize (Hun Hr). rewrite Ht in *. cbn [tl_tag]. rewrite Z.eqb_refl.
    eapply steps_cons; [done|by rewrite Hb| |exact Hsteps].
    intros rest. by rewrite Hb, Htry, Hun.
  - destruct (Z.eqb_spec (tl_tag (get_tl zero)) tag); [done|]. by rewrite Hset in Hsteps.
Qed.

(** Decides the tag comparisons of a table. *)
Ltac eval_tags :=
  repeat match goal with
    | |- context [?a =? ?b] =>
        let r := eval vm_compute in (a =? b) in
        lazymatch r with true => idtac | false => idtac end; change (a =? b) with r; cbn match
    end.

(** The entry of a table that a tag selects. *)
Ltac table_entry :=
  intros m l; cbn [try_entries crc_entries sr_entries preamble_entries ut_tag ut_fn tl_tag tl_length];
  eval_tags; unfold of_reader, mbind, reader_bind, mret, reader_ret;
  match goal with |- context [match ?u ?tl l with _ => _ end] => by destruct (u tl l) as [[]|] end.

Lemma unpack_rxue_run v rest : in_u32 (handle v) /\ in_u16 (rnti v) ->
  unpack_rx_ue_information_value (rxue_tl v) (rxue_bytes v ++ rest) = Some (v, rest).
Proof.
  destruct v as [tl h r]. intros [Hh Hr]. unfold rxue_bytes, unpack_rx_ue_information_value. cbn in Hh, Hr.
  unfold mbind, reader_bind. cbn [handle rnti rxue_tl]. rewrite <- app_assoc, (pa_run _ _ _ (parses_pull32 h Hh)).
  by rewrite (pa_run _ _ _ (parses_pull16 r Hr)).
Qed.

#[export, refine] Instance crc_pdu_codec : PduCodec
    (fun p => pack_tlv NFAPI_RX_UE_INFORMATION_TAG (rxue_tl (crc_rx_ue_information p))
       (pack_rx_ue_information_value (crc_rx_ue_information p)) &*
     pack_tlv NFAPI_CRC_INDICATION_REL8_TAG (crc8_tl (crc_indication_rel8 p))
       (pack_crc_indication_rel8_body (crc_indication_rel8 p)))
    crc_instance_length crc_pdu0 crc_entries crc_pdu_ok := {
  pdu_tlvs p := rxue_tlvs (crc_rx_ue_information p) ++
    opt_tlv NFAPI_CRC_INDICATION_REL8_TAG (crc8_tl (crc_indication_rel8 p)) (crc8_bytes (crc_indication_rel8 p));
}.
Proof.
  - intros p (Hu & Hc & Hl). apply emits_tlvs_and; [by apply emits_rxue|].
    apply (emits_opt_tlv _ _ _ _ _ pack_crc_indication_rel8_body crc8_bytes _ Hc); try done.
    intros. by apply emits_push8.
  - intros p (Hu & Hc & Hl).
    apply (steps_opt_tlv crc_entries _ _ _ _ _ rxue_bytes unpack_rx_ue_information_value
      (fun v p => CrcPdu (crc_instance_length p) v (crc_indication_rel8 p)) _ _ _ _ Hu); try done.
    { table_entry. }
    { intros; by apply unpack_rxue_run. }
    rewrite <- (app_nil_r (opt_tlv _ _ _)).
    apply (steps_opt_tlv crc_entries _ _ _ _ _ crc8_bytes unpack_crc_indication_rel8_value
      (fun v p => CrcPdu (crc_instance_length p) (crc_rx_ue_information p) v) _ _ _ _ Hc); try done.
    { table_entry. }
    { by destruct (crc_indication_rel8 p). }
    destruct p. cbn. apply steps_nil.
  - by intros p (_ & _ & Hl).
  - intros p (_ & _ & ->). rewrite tlvs_bytes_app. unfold rxue_tlvs.
    pose proof (opt_tlv_length NFAPI_RX_UE_INFORMATION_TAG (rxue_tl (crc_rx_ue_information p))
      (rxue_bytes (crc_rx_ue_information p))) as H1.
    pose proof (opt_tlv_length NFAPI_CRC_INDICATION_REL8_TAG (crc8_tl (crc_indication_rel8 p))
      (crc8_bytes (crc_indication_rel8 p))) as H2.
    change (zlen (rxue_bytes _)) with 6 in H1. change (zlen (crc8_bytes _)) with 1 in H2. zlen_lia.
Defined.

Definition ulcqi_bytes (v : nfapi_ul_cqi_information_t) : list Z := [ul_cqi v; channel v].
Definition ulcqi_ok : nfapi_ul_cqi_information_t -> Prop :=
  tlv_ok ulcqi_tl (UlCqi tl0 0 0) NFAPI_UL_CQI_INFORMATION_TAG 2 (fun v => in_u8 (ul_cqi v) /\ in_u8 (channel v)).
Definition sr_pdu_ok (p : nfapi_sr_indication_pdu_t) : Prop :=
  rxue_ok (sr_rx_ue_information p) /\ ulcqi_ok (ul_cqi_information p) /\
  sr_instance_length p = zlen (tlvs_bytes no_pad (rxue_tlvs (sr_rx_ue_information p) ++
    opt_tlv NFAPI_UL_CQI_INFORMATION_TAG (ulcqi_tl (ul_cqi_information p)) (ulcqi_bytes (ul_cqi_information p)))).

#[export, refine] Instance sr_pdu_codec : PduCodec
    (fun p => pack_tlv NFAPI_RX_UE_INFORMATION_TAG (rxue_tl (sr_rx_ue_information p))
       (pack_rx_ue_information_value (sr_rx_ue_information p)) &*
     pack_tlv NFAPI_UL_CQI_INFORMATION_TAG (ulcqi_tl (ul_cqi_information p))
       (pack_ul_cqi_information_value (ul_cqi_information p)))
    sr_instance_length sr_pdu0 sr_entries sr_pdu_ok := {
  pdu_tlvs p := rxue_tlvs (sr_rx_ue_information p) ++
    opt_tlv NFAPI_UL_CQI_INFORMATION_TAG (ulcqi_tl (ul_cqi_information p)) (ulcqi_bytes (ul_cqi_information p));
}.
Proof.
  - intros p (Hu & Hc & Hl). apply emits_tlvs_and; [by apply emits_rxue|].
    apply (emits_opt_tlv _ _ _ _ _ pack_ul_cqi_information_value ulcqi_bytes _ Hc); try done.
    intros [H1 H2]. apply (emits_and _ _ [_] [_]); by apply emits_push8.
  - intros p (Hu & Hc & Hl).
    apply (steps_opt_tlv sr_entries _ _ _ _ _ rxue_bytes unpack_rx_ue_information_value
      (fun v p => SrPdu (sr_instance_length p) v (ul_cqi_information p)) _ _ _ _ Hu); try done.
    { table_entry. }
    { intros; by apply unpack_rxue_run. }
    rewrite <- (app_nil_r (opt_tlv _ _ _)).
    apply (steps_opt_tlv sr_entries _ _ _ _ _ ulcqi_bytes unpack_ul_cqi_information_value
      (fun v p => SrPdu (sr_instance_length p) (sr_rx_ue_information p) v) _ _ _ _ Hc); try done.
    { table_entry. }
    { by destruct (ul_cqi_information p). }
    destruct p. cbn. apply steps_nil.
  - by intros p (_ & _ & Hl).
  - intros p (_ & _ & ->). rewrite tlvs_bytes_app. unfold rxue_tlvs.
    pose proof (opt_tlv_length NFAPI_RX_UE_INFORMATION_TAG (rxue_tl (sr_rx_ue_information p))
      (rxue_bytes (sr_rx_ue_information p))) as H1.
    pose proof (opt_tlv_length NFAPI_UL_CQI_INFORMATION_TAG (ulcqi_tl (ul_cqi_information p))
      (ulcqi_bytes (ul_cqi_information p))) as H2.
    change (zlen (rxue_bytes _)) with 6 in H1. change (zlen (ulcqi_bytes _)) with 2 in H2. zlen_lia.
Defined.

Definition pre8_bytes (v : nfapi_preamble_pdu_rel8_t) : list Z :=
  be16 (pre_rnti v) ++ [preamble v] ++ be16 (timing_advance v).
Definition pre9_bytes (v : nfapi_preamble_pdu_rel9_t) : list Z := be16 (timing_advance_r9 v).
Definition pre13_bytes (v : nfapi_preamble_pdu_rel13_t) : list Z := [rach_resource_type v].
Definition pre8_ok : nfapi_preamble_pdu_rel8_t -> Prop :=
  tlv_ok pre8_tl (Preamble8 tl0 0 0 0) NFAPI_PREAMBLE_REL8_TAG 5
    (fun v => in_u16 (pre_rnti v) /\ in_u8 (preamble v) /\ in_u16 (timing_advance v)).
Definition pre9_ok : nfapi_preamble_pdu_rel9_t -> Prop :=
  tlv_ok pre9_tl (Preamble9 tl0 0) NFAPI_PREAMBLE_REL9_TAG 2 (fun v => in_u16 (timing_advance_r9 v)).
Definition pre13_ok : nfapi_preamble_pdu_rel13_t -> Prop :=
  tlv_ok pre13_tl (Preamble13 tl0 0) NFAPI_PREAMBLE_REL13_TAG 1 (fun v => in_u8 (rach_resource_type v)).
Definition preamble_tlvs (p : nfapi_preamble_pdu_t) : list (Z * list Z) :=
  opt_tlv NFAPI_PREAMBLE_REL8_TAG (pre8_tl (preamble_rel8 p)) (pre8_bytes (preamble_rel8 p)) ++
  opt_tlv NFAPI_PREAMBLE_REL9_TAG (pre9_tl (preamble_rel9 p)) (pre9_bytes (preamble_rel9 p)) ++
  opt_tlv NFAPI_PREAMBLE_REL13_TAG (pre13_tl (preamble_rel13 p)) (pre13_bytes (preamble_rel13 p)).
Definition preamble_pdu_ok (p : nfapi_preamble_pdu_t) : Prop :=
  pre8_ok (preamble_rel8 p) /\ pre9_ok (preamble_rel9 p) /\ pre13_ok (preamble_rel13 p) /\
  pre_instance_length p = zlen (tlvs_bytes no_pad (preamble_tlvs p)).

Lemma unpack_pre8_run v rest : in_u16 (pre_rnti v) /\ in_u8 (preamble v) /\ in_u16 (timing_advance v) ->
  unpack_preamble_pdu_rel8_value (pre8_tl v) (pre8_bytes v ++ rest) = Some (v, rest).
Proof.
  destruct v as [tl r p t]. intros (Hr & Hp & Ht). unfold pre8_bytes, unpack_preamble_pdu_rel8_value. cbn in Hr, Hp, Ht.
  unfold mbind, reader_bind. cbn [pre_rnti preamble timing_advance pre8_tl].
  rewrite <- !app_assoc, (pa_run _ _ _ (parses_pull16 r Hr)), (pa_run _ _ _ (parses_pull8 p)).
  by rewrite (pa_run _ _ _ (parses_pull16 t Ht)).
Qed.

Lemma steps_preamble p : preamble_pdu_ok p ->
  tlv_steps preamble_entries (preamble_pdu0 (pre_instance_length p)) (preamble_tlvs p) p.
Proof.
  intros (H8 & H9 & H13 & _). unfold preamble_tlvs.
  apply (steps_opt_tlv preamble_entries _ _ _ _ _ pre8_bytes unpack_preamble_pdu_rel8_value
    (fun v p => PreamblePdu (pre_instance_length p) v (preamble_rel9 p) (preamble_rel13 p)) _ _ _ _ H8); try done.
  { table_entry. }
  { intros; by apply unpack_pre8_run. }
  apply (steps_opt_tlv preamble_entries _ _ _ _ _ pre9_bytes unpack_preamble_pdu_rel9_value
    (fun v p => PreamblePdu (pre_instance_length p) (preamble_rel8 p) v (preamble_rel13 p)) _ _ _ _ H9); try done.
  { table_entry. }
  { destruct (preamble_rel9 p) as [tl t]. intros Ht rest. unfold unpack_preamble_pdu_rel9_value, pre9_bytes.
    unfold mbind, reader_bind. by rewrite (pa_run _ _ _ (parses_pull16 t Ht)). }
  rewrite <- (app_nil_r (opt_tlv _ _ _)).
  apply (steps_opt_tlv preamble_entries _ _ _ _ _ pre13_bytes unpack_preamble_pdu_rel13_value
    (fun v p => PreamblePdu (pre_instance_length p) (preamble_rel8 p) (preamble_rel9 p) v) _ _ _ _ H13); try done.
  { table_entry. }
  { by destruct (preamble_rel13 p). }
  destruct p. cbn. apply steps_nil.
Qed.

#[export, refine] Instance preamble_pdu_codec : PduCodec
    (fun p => pack_tlv NFAPI_PREAMBLE_REL8_TAG (pre8_tl (preamble_rel8 p)) (pack_preamble_pdu_rel8_value (preamble_rel8 p)) &*
     pack_tlv NFAPI_PREAMBLE_REL9_TAG (pre9_tl (preamble_rel9 p)) (pack_preamble_pdu_rel9_value (preamble_rel9 p)) &*
     pack_tlv NFAPI_PREAMBLE_REL13_TAG (pre13_tl (preamble_rel13 p)) (pack_preamble_pdu_rel13_value (preamble_rel13 p)))
    pre_instance_length preamble_pdu0 preamble_entries preamble_pdu_ok := { pdu_tlvs := preamble_tlvs }.
Proof.
  - intros p (H8 & H9 & H13 & Hl). apply emits_tlvs_and; [|apply emits_tlvs_and].
    + apply (emits_opt_tlv _ _ _ _ _ pack_preamble_pdu_rel8_value pre8_bytes _ H8); try done.
      intros (Hr & Hp & Ht). repeat apply emits_and; first [by apply emits_push16|by apply emits_push8].
    + apply (emits_opt_tlv _ _ _ _ _ pack_preamble_pdu_rel9_value pre9_bytes _ H9); try done.
      intros Ht. by apply emits_push16.
    + apply (emits_opt_tlv _ _ _ _ _ pack_preamble_pdu_rel13_value pre13_bytes _ H13); try done.
      intros Ht. by apply emits_push8.
  - apply steps_preamble.
  - by intros p (_ & _ & _ & Hl).
  - intros p (_ & _ & _ & ->). unfold preamble_tlvs. rewrite !tlvs_bytes_app.
    pose proof (opt_tlv_length NFAPI_PREAMBLE_REL8_TAG (pre8_tl (preamble_rel8 p)) (pre8_bytes (preamble_rel8 p))) as H1.
    pose proof (opt_tlv_length NFAPI_PREAMBLE_REL9_TAG (pre9_tl (preamble_rel9 p)) (pre9_bytes (preamble_rel9 p))) as H2.
    pose proof (opt_tlv_length NFAPI_PREAMBLE_REL13_TAG (pre13_tl (preamble_rel13 p)) (pre13_bytes (preamble_rel13 p))) as H3.
    change (zlen (pre8_bytes _)) with 5 in H1. change (zlen (pre9_bytes _)) with 2 in H2.
    change (zlen (pre13_bytes _)) with 1 in H3. zlen_lia.
Defined.

(** ** Properties *)

(** C37.  A CRC, scheduling request or RACH indication of at most 100 well-formed
    PDUs, packed behind a P7 header into the stack's 8 KiB buffer and unpacked
    again, comes back with every PDU in place.  What the sender's structure
    says about the length of the body and of the message does not matter; the
    receiver sees the real ones. *)
Theorem lte_indication_roundtrip h behind (crc : indication nfapi_crc_indication_pdu_t)
    (sr : indication nfapi_sr_indication_pdu_t) (rach : indication nfapi_preamble_pdu_t) :
  header_ok h ->
  indication_ok (ok := crc_pdu_ok) NFAPI_CRC_INDICATION_BODY_TAG NFAPI_CRC_IND_MAX_PDU crc ->
  indication_ok (ok := sr_pdu_ok) NFAPI_SR_INDICATION_BODY_TAG NFAPI_SR_IND_MAX_PDU sr ->
  indication_ok (ok := preamble_pdu_ok) NFAPI_RACH_INDICATION_BODY_TAG NFAPI_PREAMBLE_MAX_PDU rach ->
  let h' (bytes : list Z) :=
    P7Header (phy_id h) (message_id h) (zlen bytes) (m_segment_sequence h) 0 (transmit_timestamp h) in
  (exists bytes, p7_frame_pack h (pack_crc_indication crc) 8192 = Some bytes /\
    p7_frame_unpack (fun _ => unpack_crc_indication behind) bytes 16 =
      Some (h' bytes, received NFAPI_CRC_INDICATION_BODY_TAG crc)) /\
  (exists bytes, p7_frame_pack h (pack_sr_indication sr) 8192 = Some bytes /\
    p7_frame_unpack (fun _ => unpack_sr_indication behind) bytes 16 =
      Some (h' bytes, received NFAPI_SR_INDICATION_BODY_TAG sr)) /\
  (exists bytes, p7_frame_pack h (pack_rach_indication rach) 8192 = Some bytes /\
    p7_frame_unpack (fun _ => unpack_rach_indication behind) bytes 16 =
      Some (h' bytes, received NFAPI_RACH_INDICATION_BODY_TAG rach)).
Proof. intros Hh Hc Hs Hr. repeat split; by apply indication_roundtrip. Qed.

Definition sample_p7 (id : Z) : nfapi_p7_message_header_t := P7Header 0 id 0 0 0 0.
Definition sample_rxue (h r : Z) : nfapi_rx_ue_information := RxUe (Tl NFAPI_RX_UE_INFORMATION_TAG 6) h r.

(** Two CRCs, the second without its UE. *)
Definition sample_crc_ind : indication nfapi_crc_indication_pdu_t :=
  Indication 0x0123 (Tl NFAPI_CRC_INDICATION_BODY_TAG 0) 2
    [CrcPdu 15 (sample_rxue 0xA1B2C3D4 0x1234) (CrcRel8 (Tl NFAPI_CRC_INDICATION_REL8_TAG 1) 1);
     CrcPdu 5 rxue0 (CrcRel8 (Tl NFAPI_CRC_INDICATION_REL8_TAG 1) 0)].
Definition sample_sr_ind : indication nfapi_sr_indication_pdu_t :=
  Indication 0x0123 (Tl NFAPI_SR_INDICATION_BODY_TAG 7) 1
    [SrPdu 16 (sample_rxue 1 0x1234) (UlCqi (Tl NFAPI_UL_CQI_INFORMATION_TAG 2) 0xFF 1)].
Definition sample_rach_ind : indication nfapi_preamble_pdu_t :=
  Indication 0x0123 (Tl NFAPI_RACH_INDICATION_BODY_TAG 0) 1
    [PreamblePdu 15 (Preamble8 (Tl NFAPI_PREAMBLE_REL8_TAG 5) 2 7 31)
      (Preamble9 (Tl NFAPI_PREAMBLE_REL9_TAG 2) 31) (Preamble13 tl0 0)].

(** Decides well-formedness of a concrete indication; [1] is a TLV that is present. *)
Ltac tlv_present := left; split; [reflexivity|vm_compute; repeat split; done].
Ltac tlv_zero := right; reflexivity.
Ltac range_ok := vm_compute; repeat split; done.

Lemma sample_inds_ok :
  indication_ok (ok := crc_pdu_ok) NFAPI_CRC_INDICATION_BODY_TAG NFAPI_CRC_IND_MAX_PDU sample_crc_ind /\
  indication_ok (ok := sr_pdu_ok) NFAPI_SR_INDICATION_BODY_TAG NFAPI_SR_IND_MAX_PDU sample_sr_ind /\
  indication_ok (ok := preamble_pdu_ok) NFAPI_RACH_INDICATION_BODY_TAG NFAPI_PREAMBLE_MAX_PDU sample_rach_ind.
Proof.
  split; [|split]; (split; [range_ok|]; split; [done|]; split; [range_ok|]; split; [done|]; split; [done|]).
  - constructor; [split; [tlv_present|split; [tlv_present|done]]|].
    constructor; [split; [tlv_zero|split; [tlv_present|done]]|constructor].
  - constructor; [split; [tlv_present|split; [tlv_present|done]]|constructor].
  - constructor; [split; [tlv_present|split; [tlv_present|split; [tlv_zero|done]]]|constructor].
Qed.

Lemma lte_indication_roundtrip_witness :
  exists bytes, p7_frame_pack (sample_p7 0x86) (pack_crc_indication sample_crc_ind) 8192 = Some bytes /\
    p7_frame_unpack (fun _ => unpack_crc_indication (fun _ => 0)) bytes 16 =
      Some (P7Header 0 0x86 (zlen bytes) 0 0 0, received NFAPI_CRC_INDICATION_BODY_TAG sample_crc_ind).
Proof.
  destruct sample_inds_ok as (Hc & Hs & Hr).
  refine (proj1 (lte_indication_roundtrip (sample_p7 0x86) (fun _ => 0) sample_crc_ind sample_sr_ind
    sample_rach_ind _ Hc Hs Hr)).
  range_ok.
Defined.

(** The length of a PDU is not compared with the end of the message: an SR
    indication that announces one PDU of ten bytes and stops there is accepted,
    and the UE it reports is whatever TLV the memory behind the message holds. *)
Theorem instance_length_reads_behind (behind : nat -> Z) (sfn_sf h r : Z) :
  in_u16 sfn_sf -> in_u32 h -> in_u16 r ->
  behind <$> seq 0 10 = tlv_bytes NFAPI_RX_UE_INFORMATION_TAG (rxue_bytes (sample_rxue h r)) ->
  unpack_sr_indication behind (be16 sfn_sf ++ tlv_bytes NFAPI_SR_INDICATION_BODY_TAG (be16 1 ++ be16 10)) =
  (1, Indication sfn_sf (Tl NFAPI_SR_INDICATION_BODY_TAG 4) 1
        [SrPdu 10 (sample_rxue h r) (UlCqi tl0 0 0)]).
Proof.
  intros Hs Hh Hr Hb. unfold unpack_sr_indication, unpack_indication.
  rewrite (pa_run _ _ _ (parses_pull16 _ Hs)).
  rewrite <- (app_nil_r (tlv_bytes NFAPI_SR_INDICATION_BODY_TAG _)).
  unfold unpack_p7_tlv_list, tlv_fuel.
  rewrite (tlv_loop_known no_pad (-1) _ None (fun _ => Z.le_refl 0) _ _ _ _ _ _ (Indication sfn_sf (Tl NFAPI_SR_INDICATION_BODY_TAG 4) 1
    [SrPdu 10 (sample_rxue h r) (UlCqi tl0 0 0)]) []); [done|done|done|].
  cbn [try_entries ut_tag ut_fn tl_tag tl_length]. rewrite Z.eqb_refl.
  unfold of_reader, unpack_body. cbn [tl_length]. rewrite app_nil_r.
  destruct (Z.ltb_spec (zlen (be16 1 ++ be16 10)) (zlen (be16 1 ++ be16 10))); [lia|].
  rewrite (pa_run _ _ _ (parses_pull16 1 ltac:(done))).
  change (NFAPI_SR_IND_MAX_PDU <? 1) with false. change (Z.to_nat 1) with 1%nat.
  cbn [pull_all]. unfold mbind, reader_bind, unpack_instance.
  rewrite <- (app_nil_r (be16 10)), (pa_run _ _ _ (parses_pull16 10 ltac:(done))).
  assert (region behind (Z.to_nat 10) [] =
    tlvs_bytes no_pad (rxue_tlvs (sample_rxue h r) ++ [])) as ->.
  { unfold region. change (take (Z.to_nat 10) []) with (@nil Z).
    change (Z.to_nat 10 - length (@nil Z))%nat with 10%nat. rewrite Hb. done. }
  rewrite (unpack_tlv_list_steps _ _ _ (SrPdu 10 (sample_rxue h r) (UlCqi tl0 0 0))); [done|].
  apply (steps_opt_tlv sr_entries _ rxue0 NFAPI_RX_UE_INFORMATION_TAG 6
    (fun v => in_u32 (handle v) /\ in_u16 (rnti v)) rxue_bytes unpack_rx_ue_information_value
    (fun v p => SrPdu (sr_instance_length p) v (ul_cqi_information p))); try done.
  - by left.
  - table_entry.
  - intros; by apply unpack_rxue_run.
  - apply steps_nil.
Qed.

Lemma instance_length_reads_behind_witness :
  unpack_sr_indication (fun i => nth i [0x20; 0x38; 0; 6; 0; 0; 0; 9; 0x12; 0x34] 0)
    [0x01; 0x23; 0x20; 0x2d; 0; 4; 0; 1; 0; 10] =
  (1, Indication 0x0123 (Tl NFAPI_SR_INDICATION_BODY_TAG 4) 1
        [SrPdu 10 (sample_rxue 9 0x1234) (UlCqi tl0 0 0)]).
Proof. by apply (instance_length_reads_behind _ 0x0123 9 0x1234). Defined.
