(* ===== verification/Layout.v ===== *)
(** * Layouts of structures in messages

    Most pack functions of [nfapi_p4.c], [nfapi_p5.c] and [nfapi_p7.c] are a
    sequence of pushes of the members of a structure, with loops over arrays and
    conditions on what has been pushed, and the unpack functions the sequence of
    the corresponding pulls.  Such a function is translated to the list of its
    statements, a [row] each, which [pack_rows] and [unpack_rows] execute.
    Messages that consist of TLVs are translated to the table of their TLVs in
    the same way.

    A C structure is a [struct]: its members by name, zero unless something is
    stored.  A member that is a structure itself is found under its name with
    [member], one of a nested structure under its path.  Array elements behind
    the count that goes with the array are not represented.  An unpacker that
    fails leaves the structure with what it has stored until then.

    The theorems are about any rows: if the members are in the range of what is
    pushed and the counts within the bounds of the arrays, what [pack_rows]
    stores is what [unpack_rows] reads back. *)

From S2P Require Import Prelude Codec.
From stdpp Require Export strings.
From stdpp Require Import functions.

Abbreviation string := Stdlib.Strings.String.string.
Open Scope string_scope.
Open Scope list_scope.
Open Scope Z_scope.

(** ** Structures *)

(** The TL, if the structure is the value of a TLV; numbers; arrays of numbers;
    structures and arrays of structures. *)
#[warnings="-register-all"]
Inductive struct := Struct (tl : nfapi_tl_t) (nums : string -> Z) (arrs : string -> list Z) (subs : string -> list struct).

Definition tl_of (s : struct) : nfapi_tl_t := let 'Struct t _ _ _ := s in t.
Definition num (s : struct) : string -> Z := let 'Struct _ n _ _ := s in n.
Definition arr (s : struct) : string -> list Z := let 'Struct _ _ a _ := s in a.
Definition sub (s : struct) : string -> list struct := let 'Struct _ _ _ b := s in b.

(** Zeroed memory. *)
Definition zero : struct := Struct (Tl 0 0) (fun _ => 0) (fun _ => []) (fun _ => []).

Definition set_tl (t : nfapi_tl_t) (s : struct) : struct := Struct t (num s) (arr s) (sub s).
Definition set_num (f : string) (v : Z) (s : struct) : struct := Struct (tl_of s) (<[f:=v]> (num s)) (arr s) (sub s).
Definition set_arr (f : string) (v : list Z) (s : struct) : struct := Struct (tl_of s) (num s) (<[f:=v]> (arr s)) (sub s).
Definition set_sub (f : string) (v : list struct) (s : struct) : struct := Struct (tl_of s) (num s) (arr s) (<[f:=v]> (sub s)).

Definition member (s : struct) (f : string) : struct := hd zero (sub s f).
Definition set_member (f : string) (m : struct) (s : struct) : struct := set_sub f [m] s.

(** ** Numbers *)

Inductive ctype := U8 | S8 | U16 | S16 | U32 | S32.

Definition push_as (t : ctype) : Z -> packer :=
  match t with U8 => push8 | S8 => pushs8 | U16 => push16 | S16 => pushs16 | U32 => push32 | S32 => pushs32 end.
Definition pull_as (t : ctype) : reader Z :=
  match t with U8 => pull8 | S8 => pulls8 | U16 => pull16 | S16 => pulls16 | U32 => pull32 | S32 => pulls32 end.
Definition wrap (t : ctype) : Z -> Z :=
  match t with U8 => u8 | S8 => s8 | U16 => u16 | S16 => s16 | U32 => u32 | S32 => s32 end.

(** The array functions of the library; [pusharray8] copies bytes. *)
Definition pusharray_as (t : ctype) : list Z -> Z -> Z -> packer :=
  match t with
  | U8 | S8 => pusharray8 | U16 => pusharray16 | S16 => pusharrays16 | U32 => pusharray32 | S32 => pusharrays32
  end.
Definition pullarray_as (t : ctype) : Z -> Z -> reader (list Z) :=
  match t with
  | U8 => pullarray8 | S8 => fun max len => vs ← pullarray8 max len; mret (s8 <$> vs)
  | U16 => pullarray16 | S16 => pullarrays16 | U32 => pullarray32 | S32 => pullarrays32
  end.

(** Numbers the code computes: a constant, a member, a member of the structure
    whose elements a loop visits ([Outer]), sums, products, quotients, a conversion
    to [uint16_t], whether bit [k] is set, whether two numbers are equal. *)
Inductive expr :=
  | Const (n : Z) | Member (f : string) | Outer (e : expr)
  | Plus (a b : expr) | Times (a b : expr) | Quot (a : expr) (n : Z) | Wrap16 (a : expr)
  | TestBit (a : expr) (k : Z) | Equal (a : expr) (n : Z).

(** In a list of structures, the innermost first. *)
Fixpoint eval (env : list struct) (e : expr) : Z :=
  match e with
  | Const n => n
  | Member f => num (hd zero env) f
  | Outer e => eval (tail env) e
  | Plus a b => eval env a + eval env b
  | Times a b => eval env a * eval env b
  | Quot a n => Z.quot (eval env a) n
  | Wrap16 a => u16 (eval env a)
  | TestBit a k => Z.land (Z.shiftr (eval env a) k) 1
  | Equal a n => b2z (eval env a =? n)
  end.

(** ** Rows *)

(** How many elements there may be.  [UpTo]: the library function is given the
    size of the array and checks.  [Alloc]: the unpacker allocates as many as
    there are.  [Unchecked]: a loop over an array of [max] elements, without a
    check: what is behind them is undefined behaviour.  [Strided]: [unpackarray]
    with the size of another structure than the element's: the elements behind
    the first end up outside the array.  [Dangling]: the library function is
    given as many elements as there are for an array that nobody has allocated. *)
Inductive bound := UpTo (max : Z) | Alloc | Unchecked (max : Z) | Strided (max : Z) | Dangling.

(** [Num]: [push] or [pull] of a member; [Off]: of a member less [d]; [Lit]: of a
    constant, which the receiver skips; [Values]: an array of numbers; [Items]:
    an array of structures, with the rows of an element; [When]: what is
    executed if the condition is not zero; [Try]: a call whose result is
    ignored; [Big24]: the three bytes of a number, the highest first; [Dci]: a DCI
    payload of so many bits; [Sized]: the 16-bit member [f], then rows; in the end
    the packer stores in [f]'s place how many bytes these and [d] bytes in front
    of them are; [checked]: not without a place for [f]. *)
#[warnings="-register-all"]
Inductive row :=
  | Num (t : ctype) (f : string)
  | Off (t : ctype) (f : string) (d : Z)
  | Lit (t : ctype) (v : Z)
  | Values (b : bound) (t : ctype) (f : string) (len : expr)
  | Items (b : bound) (f : string) (len : expr) (rows : list row)
  | When (c : expr) (rows : list row)
  | Try (r : row)
  | Big24 (f : string)
  | Dci (f : string) (bits : expr)
  | Sized (checked : bool) (f : string) (d : Z) (rows : list row).
(** A member that is a structure, by a call; [return 0]. *)
Abbreviation Part f rows := (Items (UpTo 1) f (Const 1) rows).
Abbreviation Return0 := (Items (UpTo 0) "" (Const 1) []).
Abbreviation Arr t f max len := (Values (UpTo max) t f len).
Abbreviation Elems f max len rows := (Items (UpTo max) f len rows).

Definition bound_max (b : bound) (n : Z) : Z := match b with UpTo max | Strided max => max | _ => n end.

#[export] Instance ctype_eq_dec : EqDecision ctype.
Proof. solve_decision. Defined.
#[export] Instance bound_eq_dec : EqDecision bound.
Proof. solve_decision. Defined.
#[export] Instance expr_eq_dec : EqDecision expr.
Proof. solve_decision. Defined.

(** *** Packing *)

Definition pack_values (b : bound) (t : ctype) (vs : list Z) (n : Z) : packer :=
  match b with
  | Unchecked _ => pack_elems (push_as t) (take (Z.to_nat n) vs)
  | _ => pusharray_as t vs (bound_max b n) n
  end.

Definition pack_sized (checked : bool) (v d : Z) (p : packer) : packer := fun w =>
  let '(r, w1) := push16 v w in
  if checked && (r =? 0) then (0, w1) else
  let '(r, w2) := p w1 in
  if r =? 0 then (0, w2)
  else (1, snd (pack_at (length (w_out w)) (push16 (u16 (d + (zlen (w_out w2) - zlen (w_out w))))) w2)).

(** [outer] are the structures around [s], for [Outer].  Each push of [Big24]
    goes on whatever the one before it has returned.  More than 64 bits of DCI
    payload are undefined behaviour. *)
Fixpoint pack_row (outer : list struct) (r : row) (s : struct) : packer :=
  let n e := eval (s :: outer) e in
  match r with
  | Num t f => push_as t (num s f)
  | Off t f d => push_as t (num s f - d)
  | Lit t v => push_as t v
  | Values b t f len => pack_values b t (arr s f) (n len)
  | Items b f len rows =>
      packarray (sub s f) (bound_max b (n len)) (n len)
        (fun e => foldr (fun r p => pack_row (s :: outer) r e &* p) pack_ok rows)
  | When c rows => if n c =? 0 then pack_ok else foldr (fun r p => pack_row outer r s &* p) pack_ok rows
  | Try r => fun w => (1, snd (pack_row outer r s w))
  | Big24 f => fun w => push8 (num s f) (snd (push8 (Z.shiftr (num s f) 8) (snd (push8 (Z.shiftr (num s f) 16) w))))
  | Dci f bits => fun w => match pack_dci_payload (arr s f) (n bits) w with Some (r, w, _) => (r, w) | None => (0, w) end
  | Sized c f d rows => pack_sized c (num s f) d (foldr (fun r p => pack_row outer r s &* p) pack_ok rows)
  end.
Definition pack_rows (outer : list struct) (rows : list row) (s : struct) : packer :=
  foldr (fun r p => pack_row outer r s &* p) pack_ok rows.

(** *** Unpacking *)

Definition andthen {M} (u v : unpacker M) : unpacker M := fun m l =>
  match u m l with inl r => inl r | inr (m, l) => v m l end.
Definition pass {M} : unpacker M := fun m l => inr (m, l).

(** A change to what was read, complete or not. *)
Definition storing {A B} (g : A -> B) (r : (A * list Z) + (A * list Z)) : (B * list Z) + (B * list Z) :=
  match r with inl (x, l) => inl (g x, l) | inr (x, l) => inr (g x, l) end.

(** A loop that fails with its first failing element, of which a part may have
    been stored. *)
Fixpoint unpack_loop {A} (u : list Z -> (option A * list Z) + (A * list Z)) (n : nat) (l : list Z) :
    (list A * list Z) + (list A * list Z) :=
  match n with
  | O => inr ([], l)
  | S n =>
      match u l with
      | inl (x, l) => inl (option_list x, l)
      | inr (x, l) => storing (cons x) (unpack_loop u n l)
      end
  end.

Definition pull_number (t : ctype) (l : list Z) : (option Z * list Z) + (Z * list Z) :=
  match pull_as t l with Some r => inr r | None => inl (None, l) end.
Definition pull_struct (u : unpacker struct) (l : list Z) : (option struct * list Z) + (struct * list Z) :=
  match u zero l with inr r => inr r | inl (e, l) => inl (Some e, l) end.

Definition unpack_values (b : bound) (t : ctype) (f : string) (n : Z) : unpacker struct := fun s l =>
  match b with
  | Unchecked _ => storing (fun vs => set_arr f vs s) (unpack_loop (pull_number t) (Z.to_nat n) l)
  | _ => match pullarray_as t (bound_max b n) n l with Some (vs, l) => inr (set_arr f vs s, l) | None => inl (s, l) end
  end.

Definition unpack_items (b : bound) (f : string) (n : Z) (u : unpacker struct) : unpacker struct := fun s l =>
  if bound_max b n <? n then inl (s, l)
  else storing (fun es => set_sub f (match b with Strided _ => take 1 es | _ => es end) s)
         (unpack_loop (pull_struct u) (Z.to_nat n) l).

Fixpoint unpack_row (outer : list struct) (r : row) : unpacker struct := fun s l =>
  let n e := eval (s :: outer) e in
  match r with
  | Num t f => match pull_as t l with Some (v, l) => inr (set_num f v s, l) | None => inl (s, l) end
  | Off t f d => match pull_as t l with Some (v, l) => inr (set_num f (wrap t (v + d)) s, l) | None => inl (s, l) end
  | Lit t _ => match pull_as t l with Some (_, l) => inr (s, l) | None => inl (s, l) end
  | Values b t f len => unpack_values b t f (n len) s l
  | Items b f len rows =>
      unpack_items b f (n len) (foldr (fun r u => andthen (unpack_row (s :: outer) r) u) pass rows) s l
  | When c rows => if n c =? 0 then inr (s, l) else foldr (fun r u => andthen (unpack_row outer r) u) pass rows s l
  | Try r => match unpack_row outer r s l with inl x => inr x | inr x => inr x end
  | Big24 f =>
      match l with
      | a :: b :: c :: l => inr (set_num f (Z.lor (Z.shiftl (Z.lor (Z.shiftl a 8) b) 8) c) s, l)
      | _ => inl (s, [])
      end
  | Dci f bits =>
      match unpack_dci_payload (replicate 8 0) (n bits) l with Some (vs, l) => inr (set_arr f vs s, l) | None => inl (s, l) end
  | Sized c f d rows =>
      match pull16 l with
      | Some (v, l) => foldr (fun r u => andthen (unpack_row outer r) u) pass rows (set_num f v s) l
      | None => if c then inl (s, l) else foldr (fun r u => andthen (unpack_row outer r) u) pass rows s l
      end
  end.
Definition unpack_rows (outer : list struct) (rows : list row) : unpacker struct :=
  foldr (fun r u => andthen (unpack_row outer r) u) pass rows.

(** ** TLVs *)

(** A TLV: its tag, the member it is stored in, the rows of its value. *)
Record tlv_row := TlvRow { t_tag : Z; t_member : string; t_rows : list row }.

Definition pack_tlv_row (pack : Z -> nfapi_tl_t -> packer -> packer) (t : tlv_row) (s : struct) : packer :=
  let v := member s (t_member t) in pack (t_tag t) (tl_of v) (pack_rows [] (t_rows t) v).
Definition pack_tlvs (pack : Z -> nfapi_tl_t -> packer -> packer) (ts : list tlv_row) (s : struct) : packer :=
  foldr (fun t p => pack_tlv_row pack t s &* p) pack_ok ts.

(** The entry of an unpack table: the TL is stored in the member, then the value. *)
Definition tlv_entry (t : tlv_row) : unpack_tlv_t struct := UnpackTlv (t_tag t) (fun tl s l =>
  storing (fun v => set_member (t_member t) v s)
    (unpack_rows [] (t_rows t) (set_tl tl (member s (t_member t))) l)).

(** A message: rows, then TLVs. *)
Definition pack_message (pack : Z -> nfapi_tl_t -> packer -> packer) (rows : list row) (ts : list tlv_row)
    (s : struct) : packer := pack_rows [] rows s &* pack_tlvs pack ts s &* pack_vendor_extension_tlv None.

Definition unpack_message (unpack : list (unpack_tlv_t struct) -> option ve_unpack -> struct -> list Z -> Z * struct * list Z)
    (rows : list row) (ts : list tlv_row) (s : struct) (l : list Z) : Z * struct :=
  match unpack_rows [] rows s l with
  | inl (s, _) => (0, s)
  | inr (s, l) => let '(r, s, _) := unpack (map tlv_entry ts) None s l in (b2z (negb (r =? 0)), s)
  end.

(** The layout of a message for a packer or an unpacker: the rows in front, and
    the TLVs with their format. *)
Record layout := Layout { l_nr : bool; l_head : list row; l_tlvs : list tlv_row }.

Definition pack_layout (L : layout) : struct -> packer :=
  pack_message (if l_nr L then pack_nr_tlv else pack_tlv) (l_head L) (l_tlvs L).
Definition unpack_layout (L : layout) : struct -> list Z -> Z * struct :=
  unpack_message (if l_nr L then unpack_nr_tlv_list else unpack_tlv_list) (l_head L) (l_tlvs L).

(** ** Writing and reading *)

(** From [m], [u] reads exactly [bs] and makes [m']. *)
Definition reads {M} (u : unpacker M) (m : M) (bs : list Z) (m' : M) : Prop :=
  forall rest, u m (bs ++ rest) = inr (m', rest).

Lemma writes_ok : writes pack_ok [].
Proof. apply writes_emits, emits_ok. Qed.

Lemma writes_and p q a b : writes p a -> writes q b -> writes (p &* q) (a ++ b).
Proof.
  intros [Ha Hp] [Hb Hq]. split; [by apply bytes_ok_app|]. intros w Hw Hfit. autorewrite with zlen in Hfit.
  unfold pack_and. destruct (Hp w Hw) as [H1 H2]; [zlen_lia|]. destruct (p w) as [r w1]. cbn [fst snd] in *. subst w1.
  destruct (Z.eqb_spec r 0); [lia|].
  destruct (Hq (wapp w a)) as [H3 H4]; [apply room_ok_wapp; [done|zlen_lia]|unfold wapp; cbn [w_room]; zlen_lia|].
  destruct (q _) as [r2 w2]. cbn [fst snd] in *. destruct (Z.eqb_spec r2 0); [lia|]. by rewrite H4, wapp_wapp.
Qed.

Lemma writes_ext p q bs : (forall w, p w = q w) -> writes q bs -> writes p bs.
Proof. intros He [H1 H2]. split; [done|]. intros w. rewrite He. by apply H2. Qed.

(** Of two calls only the second's result counts. *)
Lemma writes_seq p q a b : writes p a -> writes q b -> writes (fun w => q (snd (p w))) (a ++ b).
Proof.
  intros [Ha Hp] [Hb Hq]. split; [by apply bytes_ok_app|]. intros w Hw Hl. autorewrite with zlen in Hl.
  destruct (Hp w Hw) as [_ ->]; [zlen_lia|].
  destruct (Hq (wapp w a)) as [H1 H2]; [apply room_ok_wapp; [done|zlen_lia]|unfold wapp; cbn [w_room]; zlen_lia|].
  by rewrite H2, wapp_wapp.
Qed.

(** A result that is 0 or 1 fits a [uint8_t]. *)
Lemma writes_ret_u8 p q bs : writes (p &* q) bs -> writes (ret_u8 (p &* q)) bs.
Proof.
  intros [H1 H2]. split; [done|]. intros w Hw Hl. specialize (H2 w Hw Hl). unfold ret_u8, pack_and in *.
  destruct (p w) as [r w1]. destruct (r =? 0); [by destruct H2|]. destruct (q w1) as [r2 w2].
  destruct H2 as [H2 H3]. cbn [fst snd] in *. split; [|done]. by destruct (r2 =? 0).
Qed.

(** The result is ignored. *)
Lemma writes_try p bs : writes p bs -> writes (fun w => (1, snd (p w))) bs.
Proof. intros [H1 H2]. split; [done|]. intros w Hw Hl. split; [done|]. by apply H2. Qed.

Lemma writes_elems {A} (fn : A -> packer) (bytes : A -> list Z) l :
  Forall (fun x => writes (fn x) (bytes x)) l -> writes (pack_elems fn l) (concat (bytes <$> l)).
Proof.
  induction 1 as [|x l [Hb Hx] _ [Hbs IH]]; [apply writes_ok|]. cbn [fmap list_fmap concat].
  split; [by apply bytes_ok_app|]. intros w Hw Hl. cbn [pack_elems]. autorewrite with zlen in Hl.
  destruct (Hx w Hw) as [H3 H4]; [zlen_lia|]. destruct (fn x w) as [r w1]. cbn [fst snd] in *. subst w1.
  destruct (Z.eqb_spec r 0); [lia|].
  destruct (IH (wapp w (bytes x))) as [H5 H6]; [apply room_ok_wapp; [done|zlen_lia]|unfold wapp; cbn [w_room]; zlen_lia|].
  split; [done|]. by rewrite H6, wapp_wapp.
Qed.

Lemma reads_pass {M} (m : M) : reads pass m [] m.
Proof. by intros rest. Qed.
Lemma reads_then {M} (u v : unpacker M) m a m1 b m' : reads u m a m1 -> reads v m1 b m' -> reads (andthen u v) m (a ++ b) m'.
Proof. intros Hu Hv rest. unfold andthen. rewrite <- app_assoc, Hu. apply Hv. Qed.

Lemma loop_reads {A B} (u : list Z -> (option B * list Z) + (B * list Z)) (bytes : A -> list Z) (g : A -> B) l :
  Forall (fun x => forall rest, u (bytes x ++ rest) = inr (g x, rest)) l ->
  forall rest, unpack_loop u (length l) (concat (bytes <$> l) ++ rest) = inr (g <$> l, rest).
Proof.
  induction 1 as [|x l Hx _ IH]; intros rest; [done|]. cbn [fmap list_fmap concat length unpack_loop].
  rewrite <- app_assoc, Hx, IH. done.
Qed.

(** ** Numbers and arrays round-trip *)

Definition in_type (t : ctype) : Z -> Prop :=
  match t with U8 => in_u8 | S8 => in_s8 | U16 => in_u16 | S16 => in_s16 | U32 => in_u32 | S32 => in_s32 end.
Definition type_size (t : ctype) : Z := match t with U8 | S8 => 1 | U16 | S16 => 2 | U32 | S32 => 4 end.
Definition type_bytes (t : ctype) (v : Z) : list Z :=
  match t with
  | U8 => [v] | S8 => [u8 v] | U16 => be16 v | S16 => be16 (u16 v) | U32 => be32 v | S32 => be32 (u32 v)
  end.

Lemma zlen_type_bytes t v : zlen (type_bytes t v) = type_size t.
Proof. by destruct t. Qed.
#[export] Hint Rewrite zlen_type_bytes : zlen.

Lemma wrap_in_type t v : in_type t v -> wrap t v = v.
Proof. destruct t; cbn; wrap_lia. Qed.
Lemma in_type_wrap t v : in_type t (wrap t v).
Proof. destruct t; cbn; wrap_lia. Qed.

Lemma type_codec t v : in_type t v ->
  emits (push_as t v) (type_bytes t v) /\ parses (pull_as t) (type_bytes t v) v.
Proof.
  destruct t; intros H.
  - exact (conj (emits_push8 v H) (parses_pull8 v)).
  - exact (signed_8 v H).
  - exact (conj (emits_push16 v H) (parses_pull16 v H)).
  - exact (signed_16 v H).
  - exact (conj (emits_push32 v H) (parses_pull32 v H)).
  - exact (signed_32 v H).
Qed.

Lemma type_bytes_flat (f : Z -> Z) vs : concat ((fun v => [f v]) <$> vs) = f <$> vs.
Proof. induction vs as [|v vs IH]; [done|]. cbn. f_equal. exact IH. Qed.

(** The bytes of an array; [vs] are its elements up to the count. *)
Lemma array_codec t vs max len :
  Forall (in_type t) vs -> zlen vs = len -> len <= max -> len < 65536 ->
  emits (pusharray_as t vs max len) (concat (type_bytes t <$> vs)) /\
  parses (pullarray_as t max len) (concat (type_bytes t <$> vs)) vs /\
  zlen (concat (type_bytes t <$> vs)) = type_size t * len.
Proof.
  intros Hvs Hlen Hmax H16.
  assert (forall x, x ∈ vs -> emits (push_as t x) (type_bytes t x) /\ parses (pull_as t) (type_bytes t x) x /\
    zlen (type_bytes t x) = type_size t) as Hx.
  { intros x Hx. destruct (type_codec t x (proj1 (list.Forall_forall _ _) Hvs x Hx)). split_and!; [done..|apply zlen_type_bytes]. }
  destruct t; cbn [type_size] in *.
  3: exact (pusharray_codec 2 push16 pull16 be16 vs max len ltac:(lia) Hx Hlen Hmax ltac:(lia)).
  3: exact (pusharray_codec 2 pushs16 pulls16 (fun v => be16 (u16 v)) vs max len ltac:(lia) Hx Hlen Hmax ltac:(lia)).
  3: exact (pusharray_codec 4 push32 pull32 be32 vs max len ltac:(lia) Hx Hlen Hmax ltac:(lia)).
  3: exact (pusharray_codec 4 pushs32 pulls32 (fun v => be32 (u32 v)) vs max len ltac:(lia) Hx Hlen Hmax ltac:(lia)).
  all: cbn [pusharray_as pullarray_as in_type] in *.
  - rewrite (type_bytes_flat (fun v => v)), list_fmap_id.
    destruct (array8_codec vs max len) as [He Hp]; [exact Hvs|lia..|]. split_and!; [done..|lia].
  - rewrite (type_bytes_flat u8).
    assert (zlen (u8 <$> vs) = len) as Hlen' by (unfold zlen in *; by rewrite length_fmap).
    destruct (array8_codec (u8 <$> vs) max len) as [He Hp];
      [apply Forall_fmap, list.Forall_forall; intros v _; cbn; wrap_lia|lia..|].
    split_and!; [| |lia].
    + assert (forall w, pusharray8 vs max len w = pusharray8 (u8 <$> vs) max len w) as Heq.
      { intros w. unfold pusharray8. rewrite <- fmap_take, <- list_fmap_compose.
        by rewrite (list_fmap_ext (u8 ∘ u8) u8 (take (Z.to_nat len) vs)) by (intros; cbn; wrap_lia). }
      destruct He as [H1 H2 H3]. split; [done|..]; intros w; rewrite Heq; auto.
    + replace vs with (s8 <$> (u8 <$> vs)) at 2; [by apply parses_fmap|].
      rewrite <- list_fmap_compose. rewrite <- (list_fmap_id vs) at 2. apply list_fmap_ext.
      intros i v Hv. cbn. apply list_elem_of_lookup_2 in Hv. pose proof (proj1 (list.Forall_forall _ _) Hvs v Hv). cbn in *. wrap_lia.
Qed.

(** ** Rows round-trip *)

(** The counts that are supported: the size of the array, those of 16 bits if it
    is allocated. *)
Definition limit (b : bound) : Z :=
  match b with UpTo max | Unchecked max | Strided max => max | Alloc => 65535 | Dangling => 0 end.

(** What is written. *)
Definition dci_written (v bits : Z) : list Z :=
  rev (le_split (Z.to_nat (dci_bytes bits)) (Z.shiftl v (dci_slack bits))).

Fixpoint row_bytes (outer : list struct) (r : row) (s : struct) : list Z :=
  let n e := eval (s :: outer) e in
  match r with
  | Num t f => type_bytes t (num s f)
  | Off t f d => type_bytes t (num s f - d)
  | Lit t v => type_bytes t v
  | Values b t f len => concat (type_bytes t <$> take (Z.to_nat (n len)) (arr s f))
  | Items b f len rows =>
      concat ((fun e => foldr (fun r bs => row_bytes (s :: outer) r e ++ bs) [] rows) <$>
        take (Z.to_nat (n len)) (sub s f))
  | When c rows => if n c =? 0 then [] else foldr (fun r bs => row_bytes outer r s ++ bs) [] rows
  | Try r => row_bytes outer r s
  | Big24 f => [u8 (Z.shiftr (num s f) 16); u8 (Z.shiftr (num s f) 8); u8 (num s f)]
  | Dci f bits => dci_written (le_combine (arr s f)) (n bits)
  | Sized _ f d rows =>
      let bs := foldr (fun r bs => row_bytes outer r s ++ bs) [] rows in be16 (d + 2 + zlen bs) ++ bs
  end.
Definition rows_bytes (outer : list struct) (rows : list row) (s : struct) : list Z :=
  foldr (fun r bs => row_bytes outer r s ++ bs) [] rows.

(** A structure that may be packed: the values are in range of what is pushed,
    and a count is within the bound of the array and of what is there.  Nothing
    is said about [Strided] arrays. *)
Definition count_ok {A} (n max : Z) (l : list A) : Prop := 0 <= n <= max /\ n <= zlen l.

Fixpoint row_ok (outer : list struct) (r : row) (s : struct) : Prop :=
  let n e := eval (s :: outer) e in
  match r with
  | Num t f => in_type t (num s f)
  | Off t f d => in_type t (num s f) /\ in_type t (num s f - d)
  | Lit t v => in_type t v
  | Values b t f len => count_ok (n len) (limit b) (arr s f) /\ Forall (in_type t) (take (Z.to_nat (n len)) (arr s f))
  | Items b f len rows =>
      match b with Strided _ => False | _ => True end /\ count_ok (n len) (limit b) (sub s f) /\
      Forall (fun e => foldr (fun r P => row_ok (s :: outer) r e /\ P) True rows) (take (Z.to_nat (n len)) (sub s f))
  | When c rows => n c <> 0 -> foldr (fun r P => row_ok outer r s /\ P) True rows
  | Try r => row_ok outer r s
  | Big24 f => 0 <= num s f < 2 ^ 24
  | Dci f bits => 0 < n bits <= 64 /\ exists v, 0 <= v < 2 ^ n bits /\ arr s f = le_split 8 v
  | Sized _ f d rows =>
      in_u16 (num s f) /\ in_u16 (d + 2 + zlen (foldr (fun r bs => row_bytes outer r s ++ bs) [] rows)) /\
      foldr (fun r P => row_ok outer r s /\ P) True rows
  end.
Definition rows_ok (outer : list struct) (rows : list row) (s : struct) : Prop :=
  foldr (fun r P => row_ok outer r s /\ P) True rows.

(** What the receiver has: the members of the rows, copied to [s0]. *)
Fixpoint row_copy (outer : list struct) (r : row) (s s0 : struct) : struct :=
  let n e := eval (s :: outer) e in
  match r with
  | Num t f | Off t f _ => set_num f (num s f) s0
  | Lit _ _ => s0
  | Values b t f len => set_arr f (take (Z.to_nat (n len)) (arr s f)) s0
  | Items b f len rows =>
      set_sub f ((fun e => foldl (fun s0 r => row_copy (s :: outer) r e s0) zero rows) <$>
        take (Z.to_nat (n len)) (sub s f)) s0
  | When c rows => if n c =? 0 then s0 else foldl (fun s0 r => row_copy outer r s s0) s0 rows
  | Try r => row_copy outer r s s0
  | Big24 f => set_num f (num s f) s0
  | Dci f _ => set_arr f (arr s f) s0
  | Sized _ f d rows =>
      foldl (fun s0 r => row_copy outer r s s0)
        (set_num f (d + 2 + zlen (foldr (fun r bs => row_bytes outer r s ++ bs) [] rows)) s0) rows
  end.
Definition rows_copy (outer : list struct) (rows : list row) (s s0 : struct) : struct :=
  foldl (fun s0 r => row_copy outer r s s0) s0 rows.

(** The conditions can be evaluated. *)
Definition in_typeb (t : ctype) (v : Z) : bool := wrap t v =? v.
Definition count_okb {A} (n max : Z) (l : list A) : bool := (0 <=? n) && (n <=? max) && (n <=? zlen l).

Fixpoint row_okb (outer : list struct) (r : row) (s : struct) : bool :=
  let n e := eval (s :: outer) e in
  match r with
  | Num t f => in_typeb t (num s f)
  | Off t f d => in_typeb t (num s f) && in_typeb t (num s f - d)
  | Lit t v => in_typeb t v
  | Values b t f len =>
      count_okb (n len) (limit b) (arr s f) && forallb (in_typeb t) (take (Z.to_nat (n len)) (arr s f))
  | Items b f len rows =>
      match b with Strided _ => false | _ => true end && count_okb (n len) (limit b) (sub s f) &&
      forallb (fun e => foldr (fun r P => row_okb (s :: outer) r e && P) true rows) (take (Z.to_nat (n len)) (sub s f))
  | When c rows => if n c =? 0 then true else foldr (fun r P => row_okb outer r s && P) true rows
  | Try r => row_okb outer r s
  | Big24 f => (0 <=? num s f) && (num s f <? 2 ^ 24)
  | Dci f bits =>
      let v := le_combine (arr s f) in
      (0 <? n bits) && (n bits <=? 64) && (0 <=? v) && (v <? 2 ^ n bits) && bool_decide (arr s f = le_split 8 v)
  | Sized _ f d rows =>
      in_typeb U16 (num s f) && in_typeb U16 (d + 2 + zlen (foldr (fun r bs => row_bytes outer r s ++ bs) [] rows)) &&
      foldr (fun r P => row_okb outer r s && P) true rows
  end.
Definition rows_okb (outer : list struct) (rows : list row) (s : struct) : bool :=
  foldr (fun r P => row_okb outer r s && P) true rows.

Lemma in_typeb_spec t v : in_typeb t v = true -> in_type t v.
Proof. unfold in_typeb. intros <-%Z.eqb_eq. apply in_type_wrap. Qed.
Lemma count_okb_spec {A} n max (l : list A) : count_okb n max l = true -> count_ok n max l.
Proof. unfold count_okb, count_ok. lia. Qed.
Lemma forallb_Forall {A} (f : A -> bool) (P : A -> Prop) l : (forall x, f x = true -> P x) -> forallb f l = true -> Forall P l.
Proof. intros H. induction l as [|x l IH]; [constructor|]. cbn. intros [H1 H2]%andb_true_iff. constructor; auto. Qed.

(** Checks of a list of rows: what a count is computed from is read before, in
    the structure itself or in one around it. *)
Fixpoint expr_wf (seen : list (list string)) (e : expr) : bool :=
  match e with
  | Const _ => true
  | Member f => bool_decide (f ∈ hd [] seen)
  | Outer e => expr_wf (tail seen) e
  | Plus a b | Times a b => expr_wf seen a && expr_wf seen b
  | Quot a _ | Wrap16 a | TestBit a _ | Equal a _ => expr_wf seen a
  end.

Fixpoint stored (r : row) : list string :=
  match r with Num _ f | Off _ f _ | Big24 f => [f] | Try r => stored r | _ => [] end.
(** The members whose value is computed. *)
Fixpoint resized (r : row) : list string :=
  match r with
  | Sized _ f _ rows => f :: foldr (fun r fs => resized r ++ fs) [] rows
  | When _ rows => foldr (fun r fs => resized r ++ fs) [] rows
  | Try r => resized r
  | _ => []
  end.
Definition forget (gs : list string) (seen : list (list string)) : list (list string) :=
  match seen with [] => [] | fs :: seen => filter (fun f => f ∉ gs) fs :: seen end.
Definition learn (r : row) (seen : list (list string)) : list (list string) :=
  match forget (resized r) seen with [] => [] | fs :: seen => (stored r ++ fs) :: seen end.

Fixpoint row_wf (seen : list (list string)) (r : row) : bool :=
  match r with
  | Num _ _ | Off _ _ _ => true
  | Lit t v => wrap t v =? v
  | Values b t f len => expr_wf seen len && (limit b <? 65536)
  | Items b f len rows =>
      match b with Strided _ => false | _ => true end && expr_wf seen len && (limit b <? 65536) &&
      (fix go seen rows := match rows with [] => true | r :: rows => row_wf seen r && go (learn r seen) rows end)
        ([] :: seen) rows
  | When c rows =>
      expr_wf seen c &&
      (fix go seen rows := match rows with [] => true | r :: rows => row_wf seen r && go (learn r seen) rows end) seen rows
  | Try r => row_wf seen r
  | Big24 _ => true
  | Dci _ bits => expr_wf seen bits
  | Sized _ f _ rows =>
      (fix go seen rows := match rows with [] => true | r :: rows => row_wf seen r && go (learn r seen) rows end)
        (forget [f] seen) rows
  end.
Fixpoint rows_wf (seen : list (list string)) (rows : list row) : bool :=
  match rows with [] => true | r :: rows => row_wf seen r && rows_wf (learn r seen) rows end.

Lemma row_induction (P : row -> Prop) :
  (forall t f, P (Num t f)) -> (forall t f d, P (Off t f d)) -> (forall t v, P (Lit t v)) ->
  (forall b t f len, P (Values b t f len)) ->
  (forall b f len rows, Forall P rows -> P (Items b f len rows)) ->
  (forall c rows, Forall P rows -> P (When c rows)) -> (forall r, P r -> P (Try r)) ->
  (forall f, P (Big24 f)) -> (forall f bits, P (Dci f bits)) ->
  (forall c f d rows, Forall P rows -> P (Sized c f d rows)) -> forall r, P r.
Proof.
  intros H1 H2 H3 H4 H5 H6 H7 H8 H9 H10. fix IH 1.
  intros [t f|t f d|t v|b t f len|b f len rows|c rows|r|f|f bits|c f d rows];
    [apply H1|apply H2|apply H3|apply H4|apply H5|apply H6|apply H7, IH|apply H8|apply H9|apply H10].
  all: induction rows as [|r rows IHr]; constructor; [apply IH|exact IHr].
Qed.

Definition row_okb_sound (r : row) : Prop := forall outer s, row_okb outer r s = true -> row_ok outer r s.

Lemma rows_okb_all rows : Forall row_okb_sound rows ->
  forall outer s, rows_okb outer rows s = true -> rows_ok outer rows s.
Proof. induction 1 as [|r rows Hr _ IH]; intros outer s; [done|]. intros [H1 H2]%andb_true_iff. split; [by apply Hr|by apply IH]. Qed.

Lemma row_okb_spec : forall r, row_okb_sound r.
Proof.
  apply row_induction; unfold row_okb_sound; cbn [row_okb row_ok].
  - intros t f outer s. apply in_typeb_spec.
  - intros t f d outer s [H1%in_typeb_spec H2%in_typeb_spec]%andb_true_iff. done.
  - intros t v outer s. apply in_typeb_spec.
  - intros b t f len outer s [H1%count_okb_spec H2]%andb_true_iff. split; [done|].
    by apply (forallb_Forall (in_typeb t)); [intros; apply in_typeb_spec|].
  - intros b f len rows IH outer s [[H1 H2%count_okb_spec]%andb_true_iff H3]%andb_true_iff.
    split; [by destruct b|]. split; [done|]. eapply forallb_Forall; [|exact H3]. intros e. apply (rows_okb_all rows IH).
  - intros c rows IH outer s H Hc. destruct (Z.eqb_spec (eval (s :: outer) c) 0); [done|]. by apply (rows_okb_all rows IH).
  - intros r IH outer s. apply IH.
  - intros f outer s. lia.
  - intros f bits outer s [[[[H1%Z.ltb_lt H2%Z.leb_le]%andb_true_iff H3%Z.leb_le]%andb_true_iff H4%Z.ltb_lt]%andb_true_iff
      H5%bool_decide_eq_true]%andb_true_iff. split; [done|]. by exists (le_combine (arr s f)).
  - intros c f d rows IH outer s [[H1%in_typeb_spec H2%in_typeb_spec]%andb_true_iff H3]%andb_true_iff.
    split_and!; [done..|]. by apply (rows_okb_all rows IH).
Qed.
Lemma rows_okb_spec outer rows s : rows_okb outer rows s = true -> rows_ok outer rows s.
Proof. apply rows_okb_all, list.Forall_forall. intros r _. apply row_okb_spec. Qed.

(** *** Agreement of sender and receiver *)

Lemma num_set_num f g v s : num (set_num f v s) g = if decide (f = g) then v else num s g.
Proof. destruct s. unfold set_num, num. case_decide as E; [subst; apply fn_lookup_insert|by apply fn_lookup_insert_ne]. Qed.

(** The receiver's structures [env0] have the members of [env] that have been read. *)
Fixpoint agrees (seen : list (list string)) (env env0 : list struct) : Prop :=
  match seen, env, env0 with
  | [], _, _ => True
  | fs :: seen, s :: env, s0 :: env0 => (forall f, f ∈ fs -> num s0 f = num s f) /\ agrees seen env env0
  | _, _, _ => False
  end.

Lemma agrees_none env env0 : agrees [] env env0.
Proof. done. Qed.
Lemma agrees_new s s0 seen env env0 : agrees seen env env0 -> agrees ([] :: seen) (s :: env) (s0 :: env0).
Proof. intros H. split; [by intros f ?%elem_of_nil|done]. Qed.

Lemma eval_agrees e : forall seen env env0, expr_wf seen e = true -> agrees seen env env0 -> eval env0 e = eval env e.
Proof.
  induction e as [n|f|e IH|a IHa b IHb|a IHa b IHb|a IHa n|a IHa|a IHa k|a IHa n]; intros seen env env0 Hwf Ha;
    cbn [expr_wf eval] in *;
    try (apply andb_true_iff in Hwf as [H1 H2]; by rewrite (IHa seen env env0), (IHb seen env env0));
    try (by rewrite (IHa seen env env0)); [done| |].
  - apply bool_decide_eq_true in Hwf. destruct seen as [|fs seen]; [by apply elem_of_nil in Hwf|].
    destruct env as [|s env], env0 as [|s0 env0]; try done. by apply Ha.
  - apply (IH (tail seen)); [done|]. destruct seen as [|fs seen]; [done|].
    destruct env as [|s env], env0 as [|s0 env0]; try done. by destruct Ha.
Qed.

(** Copying keeps what already agrees, and makes what it stores agree, but for
    the members whose value is computed. *)
Definition row_copies (r : row) : Prop := forall outer s s0 g,
  g ∉ resized r -> num s0 g = num s g -> num (row_copy outer r s s0) g = num s g.

Lemma rows_copy_all rows : Forall row_copies rows -> forall outer s s0 g,
  g ∉ foldr (fun r fs => resized r ++ fs) [] rows -> num s0 g = num s g -> num (rows_copy outer rows s s0) g = num s g.
Proof.
  induction 1 as [|r rows Hr _ IH]; intros outer s s0 g Hg H0; [done|]. cbn [foldr] in Hg.
  apply not_elem_of_app in Hg as [Hg1 Hg2]. unfold rows_copy. cbn [foldl]. by apply IH; [|apply Hr].
Qed.

Lemma row_copies_all : forall r, row_copies r.
Proof.
  apply row_induction.
  6: intros c rows IH outer s s0 g Hr Hg; cbn [row_copy]; destruct (_ =? 0); [done|]; by apply rows_copy_all.
  6: intros r IH outer s s0 g; apply IH.
  8: { intros c f d rows IH outer s s0 g Hr Hg. cbn [row_copy resized] in *. apply not_elem_of_cons in Hr as [Hne Hr].
       apply (rows_copy_all rows IH); [done|]. rewrite num_set_num. by rewrite decide_False. }
  all: intros; intros outer s s0 g _ Hg; cbn [row_copy]; try (rewrite num_set_num; by case_decide; subst); done.
Qed.

Lemma copy_stores r : forall outer s s0 g, g ∈ stored r -> num (row_copy outer r s s0) g = num s g.
Proof.
  induction r as [t f|t f d|t v|b t f len|b f len rows _|c rows _|r IH|f|f bits|c f d rows _] using row_induction;
    intros outer s s0 g Hg; cbn [stored row_copy] in *; try (by apply elem_of_nil in Hg);
    try (apply list_elem_of_singleton in Hg as ->; rewrite num_set_num; by rewrite decide_True). by apply IH.
Qed.

Lemma agrees_forget gs seen s s0 outer outer0 : agrees seen (s :: outer) (s0 :: outer0) ->
  agrees (forget gs seen) (s :: outer) (s0 :: outer0).
Proof.
  destruct seen as [|fs seen]; [done|]. intros [Ha Hs]. split; [|done]. intros f [_ Hf]%list_elem_of_filter. by apply Ha.
Qed.

Lemma agrees_set f v seen s s0 outer outer0 : agrees seen (s :: outer) (s0 :: outer0) ->
  agrees (forget [f] seen) (s :: outer) (set_num f v s0 :: outer0).
Proof.
  destruct seen as [|fs seen]; [done|]. intros [Ha Hs]. split; [|done]. intros g [Hn Hg]%list_elem_of_filter.
  rewrite num_set_num. rewrite decide_False; [by apply Ha|]. intros ->. apply Hn. by left.
Qed.

Lemma agrees_learn seen r outer outer0 s s0 : agrees seen (s :: outer) (s0 :: outer0) ->
  agrees (learn r seen) (s :: outer) (row_copy outer r s s0 :: outer0).
Proof.
  destruct seen as [|fs seen]; [done|]. intros [Ha Hs]. split; [|done]. intros f [Hf|Hf]%elem_of_app.
  - by apply copy_stores.
  - apply list_elem_of_filter in Hf as [Hn Hf]. by apply row_copies_all, Ha.
Qed.

(** *** What is read *)

Lemma zlen_take_count {A} n max (l : list A) : count_ok n max l -> zlen (take (Z.to_nat n) l) = n.
Proof. unfold count_ok. intros. zlen_lia. Qed.

Lemma values_read b t f n s s0 : count_ok n (limit b) (arr s f) -> limit b < 65536 ->
  Forall (in_type t) (take (Z.to_nat n) (arr s f)) ->
  reads (unpack_values b t f n) s0 (concat (type_bytes t <$> take (Z.to_nat n) (arr s f)))
    (set_arr f (take (Z.to_nat n) (arr s f)) s0).
Proof.
  intros Hn H16 Hvs rest. unfold unpack_values. pose proof (zlen_take_count _ _ _ Hn) as Hz.
  set (vs := take _ _) in *. assert (n <= limit b) as Hl by apply Hn.
  assert (n <= bound_max b n) as Hmax by (destruct b; cbn in *; lia).
  destruct (match b with Unchecked m => Some m | _ => None end) as [m|] eqn:Hu;
    [destruct b; try done|destruct (array_codec t vs (bound_max b n) n Hvs Hz Hmax ltac:(lia)) as (_ & Hp & _);
      pose proof (pa_run _ _ _ Hp rest) as Hr; by destruct b; try (rewrite Hr)].
  replace (Z.to_nat n) with (length vs) by (rewrite <- Hz; unfold zlen; lia).
  rewrite (loop_reads (pull_number t) (type_bytes t) (fun v => v)); [by rewrite list_fmap_id|].
  refine (list.Forall_impl _ _ _ Hvs _). intros v Hv rest'. unfold pull_number.
  by rewrite (pa_run _ _ _ (proj2 (type_codec t v Hv))).
Qed.

Lemma items_read b f n u (bytes : struct -> list Z) (copy : struct -> struct) es s0 :
  match b with Strided _ => False | _ => True end -> n <= limit b -> zlen es = n ->
  Forall (fun e => reads u zero (bytes e) (copy e)) es ->
  reads (unpack_items b f n u) s0 (concat (bytes <$> es)) (set_sub f (copy <$> es) s0).
Proof.
  intros Hb Hn Hz Hes rest. unfold unpack_items.
  destruct (Z.ltb_spec (bound_max b n) n); [destruct b; cbn in *; lia|].
  replace (Z.to_nat n) with (length es) by (rewrite <- Hz; unfold zlen; lia).
  rewrite (loop_reads (pull_struct u) bytes copy); [by destruct b|].
  refine (list.Forall_impl _ _ _ Hes _). intros e He rest'. unfold pull_struct. by rewrite He.
Qed.

Lemma big24_value v : 0 <= v < 2 ^ 24 ->
  Z.lor (Z.shiftl (Z.lor (Z.shiftl (u8 (Z.shiftr v 16)) 8) (u8 (Z.shiftr v 8))) 8) (u8 v) = v.
Proof.
  intros Hv. rewrite !shiftr_div by lia. rewrite (lor_shiftl_add (u8 _) _ 8), lor_shiftl_add by wrap_lia. unfold u8. lia.
Qed.

Lemma dci_value_64 v bits : 0 < bits <= 64 -> 0 <= v < 2 ^ bits -> 0 <= v < 256 ^ Z.of_nat 8.
Proof.
  intros Hb Hv. split; [lia|]. eapply Z.lt_le_trans; [apply Hv|]. change (256 ^ Z.of_nat 8) with (2 ^ 64).
  apply Z.pow_le_mono_r; lia.
Qed.

Definition row_reads (r : row) : Prop := forall seen outer outer0 s s0,
  row_wf seen r = true -> row_ok outer r s -> agrees seen (s :: outer) (s0 :: outer0) ->
  reads (unpack_row outer0 r) s0 (row_bytes outer r s) (row_copy outer r s s0).

Lemma rows_read_all rows : Forall row_reads rows -> forall seen outer outer0 s s0,
  rows_wf seen rows = true -> rows_ok outer rows s -> agrees seen (s :: outer) (s0 :: outer0) ->
  reads (unpack_rows outer0 rows) s0 (rows_bytes outer rows s) (rows_copy outer rows s s0).
Proof.
  induction 1 as [|r rows Hr _ IH]; intros seen outer outer0 s s0 Hwf Hok Ha; [apply reads_pass|].
  cbn [rows_wf] in Hwf. apply andb_true_iff in Hwf as [Hwf Hwfs]. destruct Hok as [Hok Hoks].
  eapply reads_then; [by apply (Hr seen)|]. apply (IH (learn r seen)); [done|done|]. by apply agrees_learn.
Qed.

Lemma row_reads_all : forall r, row_reads r.
Proof.
  apply row_induction.
  - intros t f seen outer outer0 s s0 _ Hok _ rest. cbn [unpack_row row_bytes].
    by rewrite (pa_run _ _ _ (proj2 (type_codec t _ Hok))).
  - intros t f d seen outer outer0 s s0 _ [Hok Hok'] _ rest. cbn [unpack_row row_bytes].
    rewrite (pa_run _ _ _ (proj2 (type_codec t _ Hok'))). rewrite Z.sub_add. by rewrite wrap_in_type.
  - intros t v seen outer outer0 s s0 _ Hok _ rest. cbn [unpack_row row_bytes].
    by rewrite (pa_run _ _ _ (proj2 (type_codec t _ Hok))).
  - intros b t f len seen outer outer0 s s0 Hwf [Hn Hok] Ha rest. cbn [unpack_row row_wf row_bytes row_copy] in *.
    apply andb_true_iff in Hwf as [Hc Hm%Z.ltb_lt]. rewrite (eval_agrees _ _ _ _ Hc Ha). by apply values_read.
  - intros b f len rows IH seen outer outer0 s s0 Hwf (Hb & Hn & Hok) Ha rest. cbn [unpack_row row_wf row_bytes row_copy] in *.
    apply andb_true_iff in Hwf as [[[_ Hc]%andb_true_iff Hm]%andb_true_iff Hwf]. change (rows_wf ([] :: seen) rows = true) in Hwf.
    rewrite (eval_agrees _ _ _ _ Hc Ha). apply items_read; [done|apply Hn|by apply (zlen_take_count _ (limit b))|].
    refine (list.Forall_impl _ _ _ Hok _). intros e He.
    apply (rows_read_all rows IH ([] :: seen)); [done|done|by apply agrees_new].
  - intros c rows IH seen outer outer0 s s0 Hwf Hok Ha rest. cbn [unpack_row row_wf row_ok row_bytes row_copy] in *.
    apply andb_true_iff in Hwf as [Hc Hwf]. rewrite (eval_agrees _ _ _ _ Hc Ha).
    destruct (Z.eqb_spec (eval (s :: outer) c) 0) as [|Hne]; [done|].
    by apply (rows_read_all rows IH seen outer outer0 s s0 Hwf (Hok Hne) Ha).
  - intros r IH seen outer outer0 s s0 Hwf Hok Ha rest. cbn [unpack_row row_bytes row_copy].
    by rewrite (IH seen outer outer0 s s0 Hwf Hok Ha rest).
  - intros f seen outer outer0 s s0 _ Hok _ rest. cbn [unpack_row row_bytes row_copy app row_ok] in *. by rewrite big24_value.
  - intros f bits seen outer outer0 s s0 Hwf [Hn (v & Hv & Hf)] Ha rest. cbn [unpack_row row_wf row_bytes row_copy] in *.
    rewrite (eval_agrees _ _ _ _ Hwf Ha), Hf, le_combine_split by (by apply dci_value_64 with (eval (s :: outer) bits)).
    unfold dci_written. by rewrite unpack_dci_value.
  - intros c f d rows IH seen outer outer0 s s0 Hwf (Hf & Hn & Hok) Ha rest. cbn [unpack_row row_wf row_bytes row_copy] in *.
    rewrite <- app_assoc, (pa_run _ _ _ (parses_pull16 _ Hn)).
    apply (rows_read_all rows IH (forget [f] seen) outer outer0 s _ Hwf Hok). by apply agrees_set.
Qed.

(** *** What is written

    The rows of a packer need not be those of the unpacker: a loop without a
    check packs what [packarray] packs when the count is within the bound, and
    pushing a signed number as an unsigned one makes no difference; nor does
    ignoring the result of a call. *)
Lemma push_same_size t t' v w : type_size t = type_size t' -> push_as t v w = push_as t' v w.
Proof.
  assert (forall v w, pushs8 v w = push8 v w) as H8
    by (intros; unfold push8, pushs8; by replace (u8 (s8 v0)) with (u8 v0) by wrap_lia).
  assert (forall v w, pushs16 v w = push16 v w) as H16.
  { intros v0 w0. unfold push16, pushs16. rewrite !byte_of_16. by replace (u16 (s16 v0)) with (u16 (u16 v0)) by wrap_lia. }
  assert (forall v w, pushs32 v w = push32 v w) as H32.
  { intros v0 w0. unfold push32, pushs32. rewrite !byte_of_32. by replace (u32 (s32 v0)) with (u32 (u32 v0)) by wrap_lia. }
  destruct t, t'; cbn; intros E; try done; by rewrite ?H8, ?H16, ?H32.
Qed.

(** The counts are within the bounds of the packer. *)
Fixpoint row_room (outer : list struct) (r : row) (s : struct) : Prop :=
  let n e := eval (s :: outer) e in
  match r with
  | Values b _ _ len => n len <= bound_max b (n len)
  | Items b f len rows =>
      n len <= bound_max b (n len) /\
      Forall (fun e => foldr (fun r P => row_room (s :: outer) r e /\ P) True rows) (take (Z.to_nat (n len)) (sub s f))
  | When c rows => n c <> 0 -> foldr (fun r P => row_room outer r s /\ P) True rows
  | Try r => row_room outer r s
  | Sized _ _ _ rows => foldr (fun r P => row_room outer r s /\ P) True rows
  | _ => True
  end.
Definition rows_room (outer : list struct) (rows : list row) (s : struct) : Prop :=
  foldr (fun r P => row_room outer r s /\ P) True rows.

Definition bare (r : row) : row := match r with Try r => r | _ => r end.

(** A check: [return 0] on a condition.  The unpacker may have some that the packer
    does not. *)
Definition is_check (u : row) : bool :=
  match u with When _ [Items (UpTo 0) _ (Const 1) []] => true | _ => false end.
Fixpoint skip_checks (us : list row) : list row :=
  match us with u :: us' => if is_check u then skip_checks us' else us | [] => [] end.
(** What the unpacker has to read what the row [p] writes. *)
Definition beside (p : row) (us : list row) : list row := if is_check p then us else skip_checks us.

Fixpoint row_sim (p u : row) : bool :=
  match p with
  | Num t f =>
      match bare u with Num t' f' => (type_size t =? type_size t') && String.eqb f f' | _ => false end
  | Off t f d =>
      match bare u with Off t' f' d' => (type_size t =? type_size t') && String.eqb f f' && (d =? d') | _ => false end
  | Lit t v => match bare u with Lit t' v' => (type_size t =? type_size t') && (v =? v') | _ => false end
  | Values b t f len =>
      match bare u with
      | Values b' t' f' len' => bool_decide (t = t') && String.eqb f f' && bool_decide (len = len')
      | _ => false
      end
  | Items b f len rows =>
      match bare u with
      | Items b' f' len' rows' =>
          match b' with Strided _ => false | _ => true end && String.eqb f f' && bool_decide (len = len') &&
          (fix go l l' := match l, l' with
             | [], l' => forallb is_check l'
             | r :: l, l' =>
                 match beside r l' with r' :: l' => row_sim r r' && go l l' | [] => false end
             end) rows rows'
      | _ => false
      end
  | When c rows =>
      match bare u with
      | When c' rows' =>
          bool_decide (c = c') &&
          (fix go l l' := match l, l' with
             | [], l' => forallb is_check l'
             | r :: l, l' =>
                 match beside r l' with r' :: l' => row_sim r r' && go l l' | [] => false end
             end) rows rows'
      | _ => false
      end
  | Try p => row_sim p u
  | Big24 f => match bare u with Big24 f' => String.eqb f f' | _ => false end
  | Dci f bits => match bare u with Dci f' bits' => String.eqb f f' && bool_decide (bits = bits') | _ => false end
  | Sized _ f d rows =>
      match bare u with
      | Sized _ f' d' rows' =>
          String.eqb f f' && (d =? d') &&
          (fix go l l' := match l, l' with
             | [], l' => forallb is_check l'
             | r :: l, l' =>
                 match beside r l' with r' :: l' => row_sim r r' && go l l' | [] => false end
             end) rows rows'
      | _ => false
      end
  end.
Fixpoint rows_sim (ps us : list row) : bool :=
  match ps, us with
  | [], us => forallb is_check us
  | p :: ps, us => match beside p us with u :: us => row_sim p u && rows_sim ps us | [] => false end
  end.

Lemma bare_ok outer u s : row_ok outer u s -> row_ok outer (bare u) s.
Proof. by destruct u. Qed.
Lemma bare_bytes outer u s : row_bytes outer (bare u) s = row_bytes outer u s.
Proof. by destruct u. Qed.
Lemma bare_wf seen u : row_wf seen u = true -> row_wf seen (bare u) = true.
Proof. by destruct u. Qed.

Lemma writes_number t t' v : type_size t = type_size t' -> in_type t' v -> writes (push_as t v) (type_bytes t' v).
Proof.
  intros E Hv. eapply writes_ext; [intros w; by apply push_same_size|].
  apply writes_emits. by apply type_codec.
Qed.

Lemma writes_values b b' t vs n : limit b' < 65536 -> n <= bound_max b n -> count_ok n (limit b') vs ->
  Forall (in_type t) (take (Z.to_nat n) vs) ->
  writes (pack_values b t vs n) (concat (type_bytes t <$> take (Z.to_nat n) vs)).
Proof.
  intros H16 Hmax Hn Hvs. pose proof (zlen_take_count _ _ _ Hn) as Hz. assert (n <= limit b') as Hl by apply Hn.
  destruct (match b with Unchecked m => Some m | _ => None end) as [m|] eqn:Hu; [destruct b; try done|].
  - cbn [pack_values]. apply writes_elems. refine (list.Forall_impl _ _ _ Hvs _). intros v Hv. by apply writes_number.
  - destruct (array_codec t _ (bound_max b n) n Hvs Hz Hmax ltac:(lia)) as (He & _ & _).
    eapply writes_ext; [|by apply writes_emits]. intros w.
    assert (pack_values b t vs n w = pusharray_as t vs (bound_max b n) n w) as -> by (by destruct b).
    destruct t; cbn; unfold pusharray8, pusharray16, pusharrays16, pusharray32, pusharrays32, pusharray_gen;
      by rewrite take_take, Nat.min_id.
Qed.

Lemma writes_big24 v : writes (fun w => push8 v (snd (push8 (Z.shiftr v 8) (snd (push8 (Z.shiftr v 16) w)))))
  [u8 (Z.shiftr v 16); u8 (Z.shiftr v 8); u8 v].
Proof.
  assert (forall x, writes (push8 x) [u8 x]) as H8.
  { intros x. eapply writes_ext; [|apply writes_emits, (emits_push8 (u8 x)); wrap_lia].
    intros w. unfold push8. by replace (u8 (u8 x)) with (u8 x) by wrap_lia. }
  change [u8 (Z.shiftr v 16); u8 (Z.shiftr v 8); u8 v] with (([u8 (Z.shiftr v 16)] ++ [u8 (Z.shiftr v 8)]) ++ [u8 v]).
  exact (writes_seq _ _ _ _ (writes_seq _ _ _ _ (H8 _) (H8 _)) (H8 _)).
Qed.

Lemma writes_dci v bits : 0 < bits <= 64 -> 0 <= v < 2 ^ bits ->
  writes (fun w => match pack_dci_payload (le_split 8 v) bits w with Some (r, w, _) => (r, w) | None => (0, w) end)
    (dci_written v bits).
Proof.
  intros Hb Hv. destruct (dci_shift_bound v bits Hb Hv) as (Hs & H64 & Hsl & Hn & Hn8).
  assert (zlen (dci_written v bits) = dci_bytes bits) as Hbs
    by (unfold dci_written, zlen; rewrite length_rev, le_split_length; lia).
  destruct (array8_codec (dci_written v bits) DCI_PAYLOAD_BYTE_LEN (dci_bytes bits)) as (Hp & _);
    [apply Forall_rev, le_split_ok|done|unfold DCI_PAYLOAD_BYTE_LEN; lia|lia|].
  eapply writes_ext; [|by apply writes_emits]. intros w. rewrite pack_dci_value by done. fold (dci_written v bits).
  by destruct (pusharray8 _ _ _ w).
Qed.

(** The length is stored where the placeholder has been. *)
Lemma writes_sized c v d p bs : in_u16 v -> in_u16 (d + 2 + zlen bs) -> writes p bs ->
  writes (pack_sized c v d p) (be16 (d + 2 + zlen bs) ++ bs).
Proof.
  intros Hv Hn [Hbs Hp]. destruct (type_codec U16 v Hv) as [He _].
  split; [apply bytes_ok_app; split; [apply (em_bytes _ _ (proj1 (type_codec U16 _ Hn)))|done]|].
  intros w Hw Hl. autorewrite with zlen in Hl. pose proof (zlen_nonneg bs). unfold pack_sized.
  destruct (em_fit _ _ He w Hw) as [Hr1 Hw1]; [cbn; rewrite zlen_be16; lia|]. cbn in Hr1, Hw1.
  destruct (push16 v w) as [r1 w1]. cbn in Hr1, Hw1. subst w1.
  destruct (Z.eqb_spec r1 0); [lia|]. rewrite andb_false_r.
  destruct (Hp (wapp w (be16 v))) as [Hr2 Hw2];
    [apply room_ok_wapp; [done|rewrite zlen_be16; lia]|unfold wapp; cbn [w_room]; rewrite zlen_be16; lia|].
  destruct (p _) as [r2 w2]. cbn [fst snd] in Hr2, Hw2. subst w2. destruct (Z.eqb_spec r2 0); [lia|].
  split; [done|]. cbn [snd]. rewrite wapp_wapp.
  replace (d + (zlen (w_out (wapp w (be16 v ++ bs))) - zlen (w_out w))) with (d + 2 + zlen bs)
    by (unfold wapp; cbn [w_out]; rewrite !zlen_app, zlen_be16; lia).
  rewrite (u16_small (d + 2 + zlen bs)) by done.
  destruct (pack_at_overwrite (push16 (d + 2 + zlen bs)) (be16 (d + 2 + zlen bs)) (w_out w) (be16 v) bs
    (w_room w - zlen (be16 v ++ bs))) as [_ Ho].
  - by apply emits_push16.
  - done.
  - rewrite zlen_app, zlen_be16. lia.
  - rewrite !zlen_app, zlen_be16. unfold room_ok in Hw. lia.
  - unfold wapp. by rewrite Ho.
Qed.

Lemma is_check_spec u : is_check u = true -> exists c f, u = When c [Items (UpTo 0) f (Const 1) []].
Proof. unfold is_check. repeat case_match; try done; subst. eauto. Qed.
Lemma check_writes u outer s : is_check u = true -> row_ok outer u s -> row_bytes outer u s = [].
Proof.
  intros (c & f & ->)%is_check_spec Ho. cbn [row_ok row_bytes] in *.
  destruct (Z.eqb_spec (eval (s :: outer) c) 0) as [|Hn]; [done|].
  destruct (Ho Hn) as [(_ & [[_ H1] _] & _) _]. cbn in H1. lia.
Qed.

(** Checks write nothing, and the rows behind them are as they were. *)
Definition reduces (outer : list struct) (us us' : list row) (s : struct) : Prop :=
  (rows_ok outer us s -> rows_ok outer us' s /\ rows_bytes outer us s = rows_bytes outer us' s) /\
  forall seen, rows_wf seen us = true -> exists seen', rows_wf seen' us' = true.

Lemma skip_reduces us outer s : reduces outer us (skip_checks us) s.
Proof.
  induction us as [|u us [IH1 IH2]]; [split; eauto|]. cbn [skip_checks]. destruct (is_check u) eqn:Hu; [|split; eauto].
  split.
  - intros [Ho Hos]. destruct (IH1 Hos) as [H1 H2]. split; [done|]. unfold rows_bytes. cbn [foldr].
    fold (rows_bytes outer us s). by rewrite check_writes, H2.
  - intros seen [_ Hwf]%andb_true_iff. by apply (IH2 (learn u seen)).
Qed.
Lemma beside_reduces p us outer s : reduces outer us (beside p us) s.
Proof. unfold beside. destruct (is_check p); [split; eauto|apply skip_reduces]. Qed.

Lemma checks_write us outer s : forallb is_check us = true -> rows_ok outer us s -> rows_bytes outer us s = [].
Proof.
  induction us as [|u us IH]; [done|]. cbn [forallb]. intros [Hu Hus]%andb_true_iff [Ho Hos].
  unfold rows_bytes. cbn [foldr]. fold (rows_bytes outer us s). by rewrite IH, check_writes.
Qed.

Definition row_writes (p : row) : Prop := forall u seen outer s,
  row_sim p u = true -> row_wf seen u = true -> row_room outer p s -> row_ok outer u s ->
  writes (pack_row outer p s) (row_bytes outer u s).

Lemma rows_write_all ps : Forall row_writes ps -> forall us seen outer s,
  rows_sim ps us = true -> rows_wf seen us = true -> rows_room outer ps s -> rows_ok outer us s ->
  writes (pack_rows outer ps s) (rows_bytes outer us s).
Proof.
  induction 1 as [|p ps Hp _ IH]; [intros us seen outer s H _ _ Hok; rewrite (checks_write us) by done; apply writes_ok|].
  intros us seen outer s Hs Hwf [R1 R2] Hok. cbn [rows_sim] in Hs.
  destruct (beside_reduces p us outer s) as [H1 H2]. destruct (H1 Hok) as [Hok' ->], (H2 _ Hwf) as [seen' Hwf']. clear H1 H2.
  destruct (beside p us) as [|u us']; [done|]. cbn [rows_wf] in Hwf'.
  apply andb_true_iff in Hs as [H1 H2]. apply andb_true_iff in Hwf' as [W1 W2]. destruct Hok' as [Ho Hos].
  apply writes_and; [by apply (Hp u seen')|by apply (IH us' (learn u seen'))].
Qed.

Lemma row_writes_all : forall p, row_writes p.
Proof.
  apply row_induction.
  7: intros p IH u seen outer s Hs Hwf Hroom Hok; apply writes_try; by apply (IH u seen).
  all: intros; intros u seen outer s Hs Hwf%bare_wf Hroom Hok%bare_ok; rewrite <- bare_bytes; cbn [row_sim] in Hs;
    destruct (bare u) as [t' f'|t' f' d'|t' v'|b' t' f' len'|b' f' len' rows'|c' rows'|r'|f'|f' bits'|c' f' d' rows'];
    try done; clear u.
  - apply andb_true_iff in Hs as [H1%Z.eqb_eq ->%String.eqb_eq]. by apply writes_number.
  - apply andb_true_iff in Hs as [[H1%Z.eqb_eq ->%String.eqb_eq]%andb_true_iff ->%Z.eqb_eq]. by apply writes_number, Hok.
  - apply andb_true_iff in Hs as [H1%Z.eqb_eq ->%Z.eqb_eq]. by apply writes_number.
  - apply andb_true_iff in Hs as [[->%bool_decide_eq_true ->%String.eqb_eq]%andb_true_iff ->%bool_decide_eq_true].
    cbn [row_wf] in Hwf. apply andb_true_iff in Hwf as [_ Hm%Z.ltb_lt]. destruct Hok as [Hn Hok].
    by apply (writes_values b b').
  - apply andb_true_iff in Hs as [[[_ ->%String.eqb_eq]%andb_true_iff ->%bool_decide_eq_true]%andb_true_iff Hs].
    cbn [row_wf] in Hwf. apply andb_true_iff in Hwf as [[[_ Hc]%andb_true_iff Hm]%andb_true_iff Hwf].
    destruct Hok as (Hb' & Hn & Hok), Hroom as [Hmax Hroom]. cbn [pack_row row_bytes]. unfold packarray.
    eapply writes_ext; [intros w; by destruct (Z.ltb_spec (bound_max b (eval (s :: outer) len')) (eval (s :: outer) len')); [lia|]|].
    apply writes_elems. apply (list.Forall_forall _ _). intros e He.
    apply (rows_write_all rows H rows' ([] :: seen)); [done|done| |].
    + exact (proj1 (list.Forall_forall _ _) Hroom e He).
    + exact (proj1 (list.Forall_forall _ _) Hok e He).
  - apply andb_true_iff in Hs as [->%bool_decide_eq_true Hs].
    cbn [row_wf] in Hwf. apply andb_true_iff in Hwf as [Hc Hwf]. cbn [pack_row row_ok row_room row_bytes] in *.
    destruct (Z.eqb_spec (eval (s :: outer) c') 0) as [|Hne]; [apply writes_ok|].
    by apply (rows_write_all rows H rows' seen outer s Hs Hwf (Hroom Hne) (Hok Hne)).
  - apply String.eqb_eq in Hs as ->. apply writes_big24.
  - apply andb_true_iff in Hs as [->%String.eqb_eq ->%bool_decide_eq_true]. destruct Hok as [Hn (v & Hv & Hf)].
    cbn [pack_row row_bytes]. rewrite Hf, le_combine_split by (by apply dci_value_64 with (eval (s :: outer) bits')).
    by apply writes_dci.
  - apply andb_true_iff in Hs as [[->%String.eqb_eq ->%Z.eqb_eq]%andb_true_iff Hs]. destruct Hok as (Hf & Hn & Hok).
    cbn [row_wf] in Hwf. apply writes_sized; [done|done|].
    by apply (rows_write_all rows H rows' (forget [f'] seen) outer s Hs Hwf Hroom Hok).
Qed.

(** Rows that are in range for a receiver leave room to pack the same rows. *)
Lemma rows_ok_room_all rows : Forall (fun r => forall outer s, row_ok outer r s -> row_room outer r s) rows ->
  forall outer s, rows_ok outer rows s -> rows_room outer rows s.
Proof. induction 1 as [|r rows Hr _ IH]; intros outer s; [done|]. intros [H1 H2]. split; auto. Qed.

Lemma row_ok_room : forall r outer s, row_ok outer r s -> row_room outer r s.
Proof.
  apply (row_induction (fun r => forall outer s, row_ok outer r s -> row_room outer r s)); try done.
  - intros b t f len outer s [[[_ Hn] _] _]. destruct b; cbn in *; lia.
  - intros b f len rows IH outer s (Hb & [[_ Hn] _] & Hok). split; [destruct b; cbn in *; try done; lia|].
    refine (list.Forall_impl _ _ _ Hok _). intros e He. by apply (rows_ok_room_all rows IH).
  - intros c rows IH outer s Hok Hc. by apply (rows_ok_room_all rows IH), Hok.
  - intros c f d rows IH outer s (_ & _ & Hok). by apply (rows_ok_room_all rows IH).
Qed.
Lemma rows_ok_room rows outer s : rows_ok outer rows s -> rows_room outer rows s.
Proof. apply rows_ok_room_all, list.Forall_forall. intros r _. apply row_ok_room. Qed.

(** Rows in a row. *)
Lemma pack_rows_bool outer rows s w : exists b, fst (pack_rows outer rows s w) = b2z b.
Proof.
  destruct rows as [|r rows]; [by exists true|]. unfold pack_rows. cbn [foldr]. unfold pack_and.
  destruct (pack_row outer r s w) as [x w1]. destruct (x =? 0); [by exists false|].
  change (foldr _ _ _ w1) with (pack_rows outer rows s w1).
  destruct (pack_rows outer rows s w1) as [y w2]. by exists (negb (y =? 0)).
Qed.
Lemma pack_rows_app outer a b s w : pack_rows outer (a ++ b) s w = (pack_rows outer a s &* pack_rows outer b s) w.
Proof.
  revert w. induction a as [|r a IH]; intros w.
  - cbn [app]. unfold pack_and. cbn [pack_rows foldr]. unfold pack_ok at 1. cbn [Z.eqb].
    destruct (pack_rows_bool outer b s w) as [x Hx]. destruct (pack_rows outer b s w) as [y w1]. cbn [fst] in Hx. subst y. by destruct x.
  - cbn [app]. change (pack_rows outer (r :: a ++ b) s w) with ((pack_row outer r s &* pack_rows outer (a ++ b) s) w).
    change (pack_rows outer (r :: a) s) with (pack_row outer r s &* pack_rows outer a s). unfold pack_and in *.
    destruct (pack_row outer r s w) as [x w1]. destruct (x =? 0); [done|]. rewrite IH.
    destruct (pack_rows outer a s w1) as [y w2]. destruct (Z.eqb_spec y 0); [done|]. cbn [negb b2z Z.eqb].
    destruct (pack_rows outer b s w2) as [z w3]. by destruct (z =? 0).
Qed.

Fixpoint row_roomb (outer : list struct) (r : row) (s : struct) : bool :=
  let n e := eval (s :: outer) e in
  match r with
  | Values b _ _ len => n len <=? bound_max b (n len)
  | Items b f len rows =>
      (n len <=? bound_max b (n len)) &&
      forallb (fun e => foldr (fun r P => row_roomb (s :: outer) r e && P) true rows) (take (Z.to_nat (n len)) (sub s f))
  | When c rows => if n c =? 0 then true else foldr (fun r P => row_roomb outer r s && P) true rows
  | Try r => row_roomb outer r s
  | Sized _ _ _ rows => foldr (fun r P => row_roomb outer r s && P) true rows
  | _ => true
  end.
Definition rows_roomb (outer : list struct) (rows : list row) (s : struct) : bool :=
  foldr (fun r P => row_roomb outer r s && P) true rows.
Definition row_roomb_sound (r : row) : Prop := forall outer s, row_roomb outer r s = true -> row_room outer r s.

Lemma rows_roomb_all rows : Forall row_roomb_sound rows ->
  forall outer s, rows_roomb outer rows s = true -> rows_room outer rows s.
Proof. induction 1 as [|r rows Hr _ IH]; intros outer s; [done|]. intros [H1 H2]%andb_true_iff. split; [by apply Hr|by apply IH]. Qed.

Lemma row_roomb_spec : forall r, row_roomb_sound r.
Proof.
  apply row_induction; unfold row_roomb_sound; cbn [row_roomb row_room]; try done.
  - intros b t f len outer s. apply Z.leb_le.
  - intros b f len rows IH outer s [H1%Z.leb_le H2]%andb_true_iff. split; [done|].
    eapply forallb_Forall; [|exact H2]. intros e. apply (rows_roomb_all rows IH).
  - intros c rows IH outer s H Hc. destruct (Z.eqb_spec (eval (s :: outer) c) 0); [done|]. by apply (rows_roomb_all rows IH).
  - intros c f d rows IH outer s. apply (rows_roomb_all rows IH).
Qed.
Lemma rows_roomb_spec outer rows s : rows_roomb outer rows s = true -> rows_room outer rows s.
Proof. apply rows_roomb_all, list.Forall_forall. intros r _. apply row_roomb_spec. Qed.

(** What the packer's rows store, the unpacker's read. *)
Lemma rows_write ps us s : rows_sim ps us = true -> rows_wf [[]] us = true -> rows_room [] ps s -> rows_ok [] us s ->
  writes (pack_rows [] ps s) (rows_bytes [] us s).
Proof. apply rows_write_all, list.Forall_forall. intros r _. apply row_writes_all. Qed.
Lemma rows_read us s s0 : rows_wf [[]] us = true -> rows_ok [] us s ->
  reads (unpack_rows [] us) s0 (rows_bytes [] us s) (rows_copy [] us s s0).
Proof.
  intros Hwf Hok. eapply (rows_read_all us); [|done|done|apply agrees_new, agrees_none].
  apply list.Forall_forall. intros r _. apply row_reads_all.
Qed.

(** *** How much

    The size of rows whose arrays are all bounded. *)
Fixpoint row_bounded (r : row) : bool :=
  match r with
  | Num _ _ | Off _ _ _ | Lit _ _ => true
  | Values b _ _ _ => match b with Alloc => false | _ => true end
  | Items b _ _ rows => match b with Alloc => false | _ => forallb row_bounded rows end
  | When _ rows => forallb row_bounded rows
  | Try r => row_bounded r
  | Big24 _ | Dci _ _ => true
  | Sized _ _ _ rows => forallb row_bounded rows
  end.
Fixpoint row_size (r : row) : Z :=
  match r with
  | Num t _ | Off t _ _ | Lit t _ => type_size t
  | Values b t _ _ => type_size t * Z.max 0 (limit b)
  | Items b _ _ rows => foldr (fun r n => row_size r + n) 0 rows * Z.max 0 (limit b)
  | When _ rows => foldr (fun r n => row_size r + n) 0 rows
  | Try r => row_size r
  | Big24 _ => 3
  | Dci _ _ => 8
  | Sized _ _ _ rows => 2 + foldr (fun r n => row_size r + n) 0 rows
  end.
Definition rows_size (rows : list row) : Z := foldr (fun r n => row_size r + n) 0 rows.

Lemma type_size_pos t : 0 < type_size t.
Proof. by destruct t. Qed.

Lemma row_size_nonneg r : 0 <= row_size r.
Proof.
  assert (forall rows, Forall (fun r => 0 <= row_size r) rows -> 0 <= foldr (fun r n => row_size r + n) 0 rows) as Hs
    by (induction 1; cbn; lia).
  induction r as [t f|t f d|t v|b t f len|b f len rows IH%Hs|c rows IH%Hs|r IH|f|f bits|c f d rows IH%Hs] using row_induction;
    cbn [row_size]; try pose proof (type_size_pos t); nia.
Qed.
Lemma rows_size_nonneg rows : 0 <= rows_size rows.
Proof. unfold rows_size. induction rows as [|r rows IH]; cbn; [lia|]. pose proof (row_size_nonneg r). lia. Qed.

Lemma zlen_concat_le {A} (bytes : A -> list Z) size l :
  Forall (fun x => zlen (bytes x) <= size) l -> zlen (concat (bytes <$> l)) <= size * zlen l.
Proof.
  induction 1 as [|x l Hx _ IH]; [cbn; unfold zlen; cbn; lia|]. cbn [fmap list_fmap concat]. rewrite zlen_app, zlen_cons. lia.
Qed.

Definition row_fits (r : row) : Prop := forall outer s, row_bounded r = true -> row_ok outer r s ->
  zlen (row_bytes outer r s) <= row_size r.

Lemma rows_fit_all rows : Forall row_fits rows -> forall outer s, forallb row_bounded rows = true ->
  rows_ok outer rows s -> zlen (rows_bytes outer rows s) <= rows_size rows.
Proof.
  induction 1 as [|r rows Hr _ IH]; intros outer s; [done|]. cbn [forallb].
  intros [H1 H2]%andb_true_iff [Ho Hos]. unfold rows_bytes, rows_size. cbn [foldr]. rewrite zlen_app.
  apply Z.add_le_mono; [by apply Hr|by apply IH].
Qed.

Lemma row_fits_all : forall r, row_fits r.
Proof.
  apply row_induction.
  1-3: intros; intros outer s _ _; cbn [row_bytes row_size]; by rewrite zlen_type_bytes.
  - intros b t f len outer s Hb [Hn _]. cbn [row_bytes row_size].
    pose proof (zlen_take_count _ _ _ Hn) as Hz. destruct Hn as [[_ Hn] _].
    etransitivity; [apply (zlen_concat_le _ (type_size t)), list.Forall_forall; intros v _; by rewrite zlen_type_bytes|].
    rewrite Hz. pose proof (type_size_pos t). apply Z.mul_le_mono_nonneg_l; lia.
  - intros b f len rows IH outer s Hb (_ & Hn & Hok). cbn [row_bytes row_size].
    pose proof (zlen_take_count _ _ _ Hn) as Hz. destruct Hn as [[_ Hn] _].
    etransitivity; [apply (zlen_concat_le _ (rows_size rows))|].
    + refine (list.Forall_impl _ _ _ Hok _). intros e He. assert (forallb row_bounded rows = true) by (by destruct b). by apply (rows_fit_all rows IH).
    + rewrite Hz. apply Z.mul_le_mono_nonneg_l; [apply rows_size_nonneg|lia].
  - intros c rows IH outer s Hb Hok. cbn [row_bytes row_size row_ok row_bounded] in *.
    destruct (Z.eqb_spec (eval (s :: outer) c) 0) as [|Hne]; [apply rows_size_nonneg|].
    by apply (rows_fit_all rows IH outer s Hb (Hok Hne)).
  - intros r IH outer s Hb Hok. by apply IH.
  - intros f outer s _ _. done.
  - intros f bits outer s _ [Hn (v & Hv & _)]. cbn [row_bytes row_size]. unfold dci_written, zlen.
    rewrite length_rev, le_split_length. destruct (dci_shift_bound v _ Hn Hv) as (_ & _ & _ & _ & ?). unfold dci_bytes in *. lia.
  - intros c f d rows IH outer s Hb (_ & _ & Hok). cbn [row_bytes row_size]. rewrite zlen_app, zlen_be16.
    pose proof (rows_fit_all rows IH outer s Hb Hok). unfold rows_size, rows_bytes in *. lia.
Qed.

Lemma rows_fit rows s : forallb row_bounded rows = true -> rows_ok [] rows s ->
  zlen (rows_bytes [] rows s) <= rows_size rows.
Proof. apply rows_fit_all, list.Forall_forall. intros r _. apply row_fits_all. Qed.

(** ** The formats of TLVs

    The NR format appends padding and does not check that the padding fits, so
    nothing is said about too small a buffer. *)
Class TlvFormat (pack : Z -> nfapi_tl_t -> packer -> packer)
    (unpack : list (unpack_tlv_t struct) -> option ve_unpack -> struct -> list Z -> Z * struct * list Z)
    (pad : Z -> Z) := {
  tf_present tag n fn bs : in_u16 tag -> in_u16 n -> in_u16 (zlen bs) -> writes fn bs ->
    writes (pack tag (Tl tag n) fn) (tlv_bytes tag bs ++ replicate (Z.to_nat (pad (zlen bs))) 0);
  tf_absent tag tl fn w : tl_tag tl <> tag -> pack tag tl fn w = (1, w);
  tf_pad n : 0 <= pad n < 4;
  tf_unpack fns ve s l : exists too_many, unpack fns ve s l = tlv_loop (tlv_fuel l) pad too_many fns ve 0 s l }.

#[export, refine] Instance tlv_format : TlvFormat pack_tlv unpack_tlv_list no_pad := {}.
Proof.
  - intros tag n fn bs Ht Hn Hbs He. cbn. rewrite app_nil_r. by apply writes_tlv.
  - intros tag tl fn w Ht. unfold pack_tlv. by destruct (Z.eqb_spec (tl_tag tl) tag).
  - intros n. unfold no_pad. lia.
  - intros fns ve s l. by exists 0.
Defined.

#[export, refine] Instance nr_tlv_format : TlvFormat pack_nr_tlv unpack_nr_tlv_list get_tlv_padding := {}.
Proof.
  - intros tag n fn bs Ht Hn Hbs He. split.
    + apply bytes_ok_app. split; [by apply tlv_bytes_ok with fn|]. apply Forall_replicate. cbn. wrap_lia.
    + intros w Hw Hfit. autorewrite with zlen in Hfit. unfold pack_nr_tlv. cbn [tl_tag]. rewrite Z.eqb_refl.
      destruct (tlv_write tag (Tl tag n) fn bs Ht Hn Hbs He w eq_refl Hw) as (r1 & w1 & r2 & w2 & -> & H1 & -> & H2 & -> & Ho);
        [lia|]. destruct (Z.eqb_spec r1 0), (Z.eqb_spec r2 0); try done.
      destruct (pack_at _ _ w2) as [r3 w3]. cbn [fst snd] in *. subst w3. rewrite (u16_small (zlen bs)) by done.
      by rewrite wapp_wapp.
  - intros tag tl fn w Ht. unfold pack_nr_tlv. by destruct (Z.eqb_spec (tl_tag tl) tag).
  - apply get_tlv_padding_range.
  - intros fns ve s l. by exists 0.
Defined.

(** The lists of P7 differ from those of P4 and P5 in what they return. *)
#[export] Instance p7_tlv_format : TlvFormat pack_tlv unpack_p7_tlv_list no_pad := {
  tf_present := tf_present (TlvFormat := tlv_format); tf_absent := tf_absent (TlvFormat := tlv_format);
  tf_pad := tf_pad (TlvFormat := tlv_format);
  tf_unpack fns ve s l := ex_intro _ (-1) eq_refl }.
#[export] Instance nr_p7_tlv_format : TlvFormat pack_nr_tlv unpack_nr_p7_tlv_list get_tlv_padding := {
  tf_present := tf_present (TlvFormat := nr_tlv_format); tf_absent := tf_absent (TlvFormat := nr_tlv_format);
  tf_pad := tf_pad (TlvFormat := nr_tlv_format);
  tf_unpack fns ve s l := ex_intro _ (-1) eq_refl }.

(** ** Messages round-trip *)

Definition present (t : tlv_row) (s : struct) : bool := tl_tag (tl_of (member s (t_member t))) =? t_tag t.

(** A TLV that may be packed: absent, or with a value in range.  The length of
    the TL need only fit its field; the packer computes the real one. *)
Definition tlv_row_ok (s : struct) (t : tlv_row) : Prop :=
  present t s = true -> in_u16 (tl_length (tl_of (member s (t_member t)))) /\ rows_ok [] (t_rows t) (member s (t_member t)).

Definition tlv_value (t : tlv_row) (s : struct) : list Z := rows_bytes [] (t_rows t) (member s (t_member t)).

(** The receiver's member: the real TL and the members of the value. *)
Definition tlv_copy (s : struct) (s0 : struct) (t : tlv_row) : struct :=
  if present t s then
    set_member (t_member t) (rows_copy [] (t_rows t) (member s (t_member t))
      (set_tl (Tl (t_tag t) (zlen (tlv_value t s))) (member s0 (t_member t)))) s0
  else s0.
Definition tlvs_copy (ts : list tlv_row) (s s0 : struct) : struct := foldl (tlv_copy s) s0 ts.

(** What the receiver's zeroed structure holds in the end. *)
Definition received_struct (rows : list row) (ts : list tlv_row) (s : struct) : struct :=
  tlvs_copy ts s (rows_copy [] rows s zero).

Definition sent_tlvs (ts : list tlv_row) (s : struct) : list (Z * list Z) :=
  (fun t => (t_tag t, tlv_value t s)) <$> filter (fun t => present t s = true) ts.

(** The TLVs the packer may send, as the unpacker reads them. *)
Definition resolve (us : list tlv_row) (t : tlv_row) : tlv_row := default t (List.find (fun u => t_tag u =? t_tag t) us).
Definition expected (pl ul : layout) : list tlv_row := resolve (l_tlvs ul) <$> l_tlvs pl.

Definition tlv_sim (t u : tlv_row) : bool :=
  (t_tag t =? t_tag u) && String.eqb (t_member t) (t_member u) && rows_sim (t_rows t) (t_rows u).

(** Checks of the tables of a message: the rows are well-formed, tags and values
    fit their fields, the packer's TLVs are known to the unpacker, whose tags
    differ.  The formats of packer and unpacker agree unless there are no TLVs. *)
Definition tlv_row_wf (t : tlv_row) : bool :=
  (0 <=? t_tag t) && (t_tag t <? 65536) && rows_wf [[]] (t_rows t) && forallb row_bounded (t_rows t) &&
  (rows_size (t_rows t) <? 65536).
Definition known_tlv (us : list tlv_row) (t : tlv_row) : bool :=
  existsb (fun u => t_tag u =? t_tag t) us && tlv_sim t (resolve us t) && tlv_row_wf (resolve us t).

Definition layouts_wf (pl ul : layout) : bool :=
  (bool_decide (l_nr pl = l_nr ul) || bool_decide (length (l_tlvs pl) = 0)%nat) &&
  rows_sim (l_head pl) (l_head ul) && rows_wf [[]] (l_head ul) && forallb row_bounded (l_head ul) &&
  forallb (known_tlv (l_tlvs ul)) (l_tlvs pl) && bool_decide (NoDup (t_tag <$> l_tlvs ul)).

Definition message_size (rows : list row) (ts : list tlv_row) : Z :=
  rows_size rows + foldr (fun t n => 4 + rows_size (t_rows t) + 3 + n) 0 ts.

Definition message_ok (rows : list row) (ts : list tlv_row) (s : struct) : Prop :=
  rows_ok [] rows s /\ Forall (tlv_row_ok s) ts.

(** There is room for the packer. *)
Definition tlv_room (s : struct) (t : tlv_row) : Prop := present t s = true -> rows_room [] (t_rows t) (member s (t_member t)).
Lemma tlv_ok_room s t : tlv_row_ok s t -> tlv_room s t.
Proof. intros H Hp. by apply rows_ok_room, H. Qed.
Definition message_room (rows : list row) (ts : list tlv_row) (s : struct) : Prop :=
  rows_room [] rows s /\ Forall (tlv_room s) ts.

(** The message is fit for the sender and the receiver. *)
Definition fits (pl ul : layout) (s : struct) : Prop :=
  message_room (l_head pl) (l_tlvs pl) s /\ message_ok (l_head ul) (expected pl ul) s.
Definition received_message (pl ul : layout) (s : struct) : struct := received_struct (l_head ul) (expected pl ul) s.

Lemma tlv_row_wf_spec t : tlv_row_wf t = true ->
  in_u16 (t_tag t) /\ rows_wf [[]] (t_rows t) = true /\ forallb row_bounded (t_rows t) = true /\
  rows_size (t_rows t) < 65536.
Proof.
  unfold tlv_row_wf.
  intros [[[[H1%Z.leb_le H2%Z.ltb_lt]%andb_true_iff H3]%andb_true_iff H4]%andb_true_iff H5%Z.ltb_lt]%andb_true_iff.
  split_and!; done.
Qed.

(** A value in range has a length in range. *)
Lemma tlv_value_size t s : tlv_row_wf t = true -> tlv_row_ok s t -> present t s = true ->
  in_u16 (zlen (tlv_value t s)) /\ zlen (tlv_value t s) <= rows_size (t_rows t).
Proof.
  intros (H1 & H2 & H3 & H4)%tlv_row_wf_spec Hok Hp. destruct (Hok Hp) as [_ Hrows].
  pose proof (rows_fit _ _ H3 Hrows). pose proof (zlen_nonneg (tlv_value t s)). unfold tlv_value in *. split; [wrap_lia|done].
Qed.

Section messages.
#[local] Set Default Proof Using "Type*".
Context `{HF : TlvFormat pack unpack pad}.

Definition message_bytes (rows : list row) (ts : list tlv_row) (s : struct) : list Z :=
  rows_bytes [] rows s ++ tlvs_bytes pad (sent_tlvs ts s).

Lemma tlv_row_writes s t u : tlv_sim t u = true ->
  tlv_row_wf u = true -> tlv_room s t -> tlv_row_ok s u -> writes (pack_tlv_row pack t s) (tlvs_bytes pad (sent_tlvs [u] s)).
Proof.
  unfold tlv_sim. intros [[Htag%Z.eqb_eq Hmem%String.eqb_eq]%andb_true_iff Hsim]%andb_true_iff Hwf Hroom Hok.
  assert (present t s = present u s) as Hpt by (unfold present; by rewrite Htag, Hmem).
  pose proof (tlv_row_wf_spec u Hwf) as (H1 & H2 & H3 & H4).
  unfold pack_tlv_row, sent_tlvs. rewrite filter_cons, filter_nil, Htag, Hmem.
  destruct (decide (present u s = true)) as [Hp|Hp].
  - destruct (Hok Hp) as [Hn Hrows]. destruct (tlv_value_size u s Hwf Hok Hp) as [Hz _].
    assert (rows_room [] (t_rows t) (member s (t_member u))) as Hr by (rewrite <- Hmem; apply Hroom; by rewrite Hpt).
    pose proof (rows_write _ _ _ Hsim H2 Hr Hrows) as Hw.
    cbn [fmap list_fmap]. rewrite tlvs_bytes_cons. unfold tlvs_bytes. cbn [fmap list_fmap concat]. rewrite app_nil_r.
    unfold present in Hp. destruct (tl_of (member s (t_member u))) as [tag n] eqn:Htl. cbn [tl_tag tl_length] in *.
    apply Z.eqb_eq in Hp as ->. by apply tf_present.
  - split; [constructor|]. intros w _ _. rewrite tf_absent; [by rewrite wapp_nil|].
    unfold present in Hp. by destruct (Z.eqb_spec (tl_tag (tl_of (member s (t_member u)))) (t_tag u)).
Qed.

Lemma sent_tlvs_cons t ts s : sent_tlvs (t :: ts) s = sent_tlvs [t] s ++ sent_tlvs ts s.
Proof. unfold sent_tlvs. rewrite !filter_cons, filter_nil. by destruct (decide _). Qed.

Lemma tlvs_bytes_app_pad a b : tlvs_bytes pad (a ++ b) = tlvs_bytes pad a ++ tlvs_bytes pad b.
Proof. unfold tlvs_bytes. by rewrite fmap_app, concat_app. Qed.

Lemma tlvs_write us ts s : forallb (known_tlv us) ts = true -> Forall (tlv_room s) ts ->
  Forall (tlv_row_ok s) (resolve us <$> ts) ->
  writes (pack_tlvs pack ts s) (tlvs_bytes pad (sent_tlvs (resolve us <$> ts) s)).
Proof.
  induction ts as [|t ts IH]; [intros; apply writes_ok|]. cbn [forallb fmap list_fmap].
  intros [[[_ H1]%andb_true_iff H2]%andb_true_iff Hwf]%andb_true_iff [Hr Hrs]%list.Forall_cons [Ho Hos]%list.Forall_cons.
  rewrite sent_tlvs_cons, tlvs_bytes_app_pad. cbn [pack_tlvs foldr].
  apply writes_and; [by apply tlv_row_writes|by apply IH].
Qed.

(** A table has an entry that reads a TLV; the others may be anything. *)
Lemma try_entry (es : list (unpack_tlv_t struct)) e n s0 s1 l rest :
  NoDup (ut_tag <$> es) -> e ∈ es ->
  ut_fn e (Tl (ut_tag e) n) s0 l = inr (s1, replicate (Z.to_nat (pad n)) 0 ++ rest) ->
  try_entries pad es (Tl (ut_tag e) n) false s0 l = inr (true, s1, rest).
Proof.
  intros Hnd Hin He.
  assert (Hskip : forall (es : list (unpack_tlv_t struct)) b m l, ut_tag e ∉ ut_tag <$> es ->
    try_entries pad es (Tl (ut_tag e) n) b m l = inr (b, m, l)).
  { intros us b m l' Hn. apply (try_entries_unknown pad [] (fun n => proj1 (tf_pad n))), list.Forall_forall. intros e' He' Heq.
    cbn [tl_tag] in Heq. apply Hn. rewrite <- Heq. by apply list_elem_of_fmap_2. }
  induction es as [|e' es IH]; [by apply elem_of_nil in Hin|].
  cbn [fmap list_fmap] in Hnd. apply list.NoDup_cons in Hnd as [Hn Hnd]. cbn [try_entries tl_tag].
  apply elem_of_cons in Hin as [<-|Hin].
  - rewrite Z.eqb_refl, He. cbn [tl_length]. rewrite (drop_app_length' (replicate _ 0)) by (by rewrite length_replicate).
    by rewrite Hskip.
  - destruct (Z.eqb_spec (ut_tag e') (ut_tag e)) as [Heq|_]; [|by apply IH].
    exfalso. apply Hn. rewrite Heq. by apply list_elem_of_fmap_2.
Qed.

Lemma try_tlv (es : list (unpack_tlv_t struct)) t s s0 rest :
  NoDup (ut_tag <$> es) -> tlv_entry t ∈ es -> rows_wf [[]] (t_rows t) = true -> present t s = true ->
  rows_ok [] (t_rows t) (member s (t_member t)) ->
  try_entries pad es (Tl (t_tag t) (zlen (tlv_value t s))) false s0
    (tlv_value t s ++ replicate (Z.to_nat (pad (zlen (tlv_value t s)))) 0 ++ rest) =
  inr (true, tlv_copy s s0 t, rest).
Proof.
  intros Hnd Hin Hwf Hpr Hok. apply (try_entry es (tlv_entry t)); [done..|]. cbn [ut_tag ut_fn tlv_entry]. unfold tlv_value.
  rewrite (rows_read _ _ (set_tl (Tl (t_tag t) _) (member s0 (t_member t))) Hwf Hok). cbn [storing].
  unfold tlv_copy. by rewrite Hpr.
Qed.

(** The loop over the TLVs of a message. *)
Lemma tlvs_read (es : list (unpack_tlv_t struct)) too_many s ts : NoDup (ut_tag <$> es) ->
  Forall (fun t => tlv_entry t ∈ es /\ tlv_row_wf t = true) ts -> Forall (tlv_row_ok s) ts ->
  forall fuel s0, (length (sent_tlvs ts s) < fuel)%nat ->
  tlv_loop fuel pad too_many es None 0 s0 (tlvs_bytes pad (sent_tlvs ts s)) =
  (1, tlvs_copy ts s s0, []).
Proof.
  intros Hnd Hin Hok. revert Hin. induction Hok as [|t ts Ht Hts IH]; intros Hin fuel s0 Hf.
  - by destruct fuel; [lia|].
  - apply list.Forall_cons in Hin as [[Hu Hw] Hin]. destruct (tlv_row_wf_spec t Hw) as (H1 & H2 & H3 & H4).
    rewrite sent_tlvs_cons, length_app in *. unfold sent_tlvs at 1 in Hf. unfold sent_tlvs at 1.
    rewrite filter_cons, filter_nil in *. destruct (decide (present t s = true)) as [Hpr|Hpr].
    + destruct (tlv_value_size t s Hw Ht Hpr) as [Hz _]. destruct (Ht Hpr) as [_ Hrows].
      cbn [fmap list_fmap length app] in Hf |- *. destruct fuel as [|fuel]; [lia|]. rewrite tlvs_bytes_cons.
      erewrite tlv_loop_known; [|intros; apply tf_pad|done|done|by apply try_tlv].
      rewrite IH by (done || lia). done.
    + cbn [fmap list_fmap length app] in Hf |- *. rewrite IH by (done || lia). unfold tlvs_copy. cbn [foldl].
      unfold tlv_copy at 3. by destruct (present t s).
Qed.

Lemma sent_tlvs_fuel ts s : (length (sent_tlvs ts s) < tlv_fuel (tlvs_bytes pad (sent_tlvs ts s)))%nat.
Proof.
  unfold tlv_fuel. enough (length (sent_tlvs ts s) <= length (tlvs_bytes pad (sent_tlvs ts s)))%nat by lia.
  generalize (sent_tlvs ts s) as l. induction l as [|[tag bs] l IH]; [done|].
  rewrite tlvs_bytes_cons. unfold tlv_bytes. rewrite !length_app. cbn [length].
  change (length (be16 tag)) with 2%nat. lia.
Qed.

Lemma resolved us ts : forallb (known_tlv us) ts = true ->
  Forall (fun t => tlv_entry t ∈ map tlv_entry us /\ tlv_row_wf t = true) (resolve us <$> ts).
Proof.
  intros H. apply Forall_fmap, list.Forall_forall. intros t Ht%list_elem_of_In.
  pose proof (proj1 (forallb_forall _ _) H t Ht) as Hk. unfold known_tlv in Hk.
  apply andb_true_iff in Hk as [[He _]%andb_true_iff Hw]. split; [|done]. apply list_elem_of_fmap_2. cbn. unfold resolve.
  destruct (List.find _ us) as [u|] eqn:Hf; [apply find_some in Hf as [Hf _]; by apply list_elem_of_In|].
  apply existsb_exists in He as (u & Hu & Heq). by rewrite (find_none _ _ Hf u Hu) in Heq.
Qed.

(** A message whose tables check is read back as it was packed. *)
Lemma message_roundtrip ps rows ts uts s :
  rows_sim ps rows = true -> rows_wf [[]] rows = true -> forallb (known_tlv uts) ts = true -> NoDup (t_tag <$> uts) ->
  message_room ps ts s -> message_ok rows (resolve uts <$> ts) s ->
  writes (pack_message pack ps ts s) (message_bytes rows (resolve uts <$> ts) s) /\
  unpack_message unpack rows uts zero (message_bytes rows (resolve uts <$> ts) s) =
    (1, received_struct rows (resolve uts <$> ts) s).
Proof.
  intros Hsim Hwf Hk Hnd [Hroom Htroom] [Hrows Hts]. split.
  - unfold pack_message, message_bytes. apply writes_and; [by apply rows_write|].
    rewrite <- (app_nil_r (tlvs_bytes _ _)). apply writes_and; [by apply tlvs_write|apply writes_ok].
  - unfold unpack_message, message_bytes. rewrite (rows_read _ _ zero Hwf Hrows).
    destruct (tf_unpack (map tlv_entry uts) None (rows_copy [] rows s zero) (tlvs_bytes pad (sent_tlvs (resolve uts <$> ts) s)))
      as [tm ->].
    rewrite (tlvs_read (map tlv_entry uts) tm s _ ltac:(by rewrite <- list_fmap_compose) (resolved uts ts Hk) Hts)
      by apply sent_tlvs_fuel. done.
Qed.

Lemma tlvs_size_bound ts s : Forall (fun t => tlv_row_wf t = true) ts -> Forall (tlv_row_ok s) ts ->
  zlen (tlvs_bytes pad (sent_tlvs ts s)) <= foldr (fun t n => 4 + rows_size (t_rows t) + 3 + n) 0 ts.
Proof.
  intros Hw Hts. induction Hts as [|t ts Ht _ IH]; [done|].
  apply list.Forall_cons in Hw as [Hw Hws]. specialize (IH Hws). cbn [foldr].
  rewrite sent_tlvs_cons, tlvs_bytes_app_pad, zlen_app.
  unfold sent_tlvs at 1. rewrite filter_cons, filter_nil. destruct (decide (present t s = true)) as [Hpr|_].
  - destruct (tlv_value_size t s Hw Ht Hpr) as [_ Hz].
    cbn [fmap list_fmap]. rewrite tlvs_bytes_cons. unfold tlvs_bytes at 1. cbn [fmap list_fmap concat].
    rewrite app_nil_r. pose proof (tf_pad (TlvFormat := HF) (zlen (tlv_value t s))). zlen_lia.
  - cbn. rewrite zlen_nil. pose proof (rows_size_nonneg (t_rows t)). lia.
Qed.
End messages.

(** Every message whose layouts check round-trips. *)
Lemma layout_roundtrip pl ul s : layouts_wf pl ul = true -> fits pl ul s ->
  let pad := if l_nr ul then get_tlv_padding else no_pad in
  writes (pack_layout pl s) (message_bytes (pad := pad) (l_head ul) (expected pl ul) s) /\
  unpack_layout ul zero (message_bytes (pad := pad) (l_head ul) (expected pl ul) s) = (1, received_message pl ul s) /\
  zlen (message_bytes (pad := pad) (l_head ul) (expected pl ul) s) <= message_size (l_head ul) (expected pl ul).
Proof.
  intros Hwf [Hroom Hok]. unfold layouts_wf in Hwf. apply andb_true_iff in Hwf as [[[[[Hnr Hsim]%andb_true_iff Hh]%andb_true_iff
    Hb]%andb_true_iff Hk]%andb_true_iff Hnd%bool_decide_eq_true].
  assert (pack_layout pl s = pack_message (if l_nr ul then pack_nr_tlv else pack_tlv) (l_head pl) (l_tlvs pl) s) as ->.
  { unfold pack_layout. apply orb_true_iff in Hnr as [->%bool_decide_eq_true|Hnil%bool_decide_eq_true]; [done|].
    apply nil_length_inv in Hnil as ->. by destruct (l_nr pl), (l_nr ul). }
  assert (Hgen : forall pack unpack pad (HF : TlvFormat pack unpack pad),
    writes (pack_message pack (l_head pl) (l_tlvs pl) s) (message_bytes (pad := pad) (l_head ul) (expected pl ul) s) /\
    unpack_message unpack (l_head ul) (l_tlvs ul) zero (message_bytes (pad := pad) (l_head ul) (expected pl ul) s) =
      (1, received_message pl ul s) /\
    zlen (message_bytes (pad := pad) (l_head ul) (expected pl ul) s) <= message_size (l_head ul) (expected pl ul)).
  { intros pack unpack pad HF. destruct (message_roundtrip (HF := HF) _ _ _ _ s Hsim Hh Hk Hnd Hroom Hok) as [Hw Hu].
    split_and!; [exact Hw|exact Hu|]. unfold message_bytes, message_size. rewrite zlen_app. destruct Hok as [Hrows Hts].
    apply Z.add_le_mono; [by apply rows_fit|]. apply (tlvs_size_bound (HF := HF)); [|done].
    refine (list.Forall_impl _ _ _ (resolved _ _ Hk) _). by intros t [_ Ht]. }
  cbv zeta. unfold unpack_layout. destruct (l_nr ul); [apply (Hgen _ _ _ nr_tlv_format)|apply (Hgen _ _ _ tlv_format)].
Qed.

(** *** What the receiver finds *)

Lemma member_set_member f g m s : member (set_member f m s) g = if decide (f = g) then m else member s g.
Proof.
  destruct s. unfold set_member, set_sub, member, sub.
  case_decide as E; [subst; by rewrite fn_lookup_insert|by rewrite fn_lookup_insert_ne].
Qed.

Lemma tlvs_copy_num ts s s0 : num (tlvs_copy ts s s0) = num s0.
Proof.
  revert s0. induction ts as [|t ts IH]; intros s0; [done|]. unfold tlvs_copy in *. cbn. rewrite IH.
  unfold tlv_copy. by destruct (present t s).
Qed.

(** The TL is not touched by the values. *)
Lemma rows_copy_tl rows outer s s0 : tl_of (rows_copy outer rows s s0) = tl_of s0.
Proof.
  revert outer s s0. assert (Hall : forall rows, Forall (fun r => forall outer s s0, tl_of (row_copy outer r s s0) = tl_of s0) rows ->
    forall outer s s0, tl_of (rows_copy outer rows s s0) = tl_of s0).
  { induction 1 as [|r rs Hr _ IH]; [done|]. intros outer s s0. unfold rows_copy in *. cbn [foldl]. by rewrite IH, Hr. }
  apply Hall, list.Forall_forall. intros r _. revert r.
  apply (row_induction (fun r => forall outer s s0, tl_of (row_copy outer r s s0) = tl_of s0)).
  6: intros c rs IH outer s s0; cbn [row_copy]; destruct (_ =? 0); [done|by apply (Hall rs)].
  6: intros r IH outer s s0; apply IH.
  8: { intros c f d rs IH outer s s0. cbn [row_copy]. by apply (Hall rs IH outer s (set_num f _ s0)). }
  all: intros; done.
Qed.

(** A number in front of the TLVs, if it is none of those that are computed. *)
Lemma rows_copy_num rows s s0 r f : In r rows -> f ∈ stored r -> f ∉ foldr (fun r fs => resized r ++ fs) [] rows ->
  num (rows_copy [] rows s s0) f = num s f.
Proof.
  intros Hin Hf. revert s0. induction rows as [|r' rows IH]; intros s0 Hn; [done|]. cbn [foldr] in Hn.
  apply not_elem_of_app in Hn as [_ Hn]. destruct Hin as [->|Hin]; [|by apply IH].
  unfold rows_copy. cbn [foldl]. apply (rows_copy_all rows); [|done|by apply copy_stores].
  apply list.Forall_forall. intros r' _. apply row_copies_all.
Qed.

Lemma received_head pl ul s r f : In r (l_head ul) -> f ∈ stored r ->
  f ∉ foldr (fun r fs => resized r ++ fs) [] (l_head ul) -> num (received_message pl ul s) f = num s f.
Proof. intros Hin Hf Hn. unfold received_message, received_struct. rewrite tlvs_copy_num. by eapply rows_copy_num. Qed.

(** The member of a TLV: its value with the real length, or zero. *)
Lemma tlvs_copy_other ts s s0 f : f ∉ t_member <$> ts -> member (tlvs_copy ts s s0) f = member s0 f.
Proof.
  revert s0. induction ts as [|t ts IH]; intros s0 Hf; [done|]. cbn in Hf. apply not_elem_of_cons in Hf as [Hne Hf].
  unfold tlvs_copy in *. cbn. rewrite IH by done. unfold tlv_copy. destruct (present t s); [|done].
  rewrite member_set_member. rewrite decide_False; [done|]. congruence.
Qed.

Lemma tlvs_copy_member ts s s0 t : NoDup (t_member <$> ts) -> t ∈ ts ->
  member (tlvs_copy ts s s0) (t_member t) =
  if present t s then
    rows_copy [] (t_rows t) (member s (t_member t))
      (set_tl (Tl (t_tag t) (zlen (tlv_value t s))) (member s0 (t_member t)))
  else member s0 (t_member t).
Proof.
  intros Hnd. revert s0. induction ts as [|u ts IH]; intros s0 Hin; [by apply elem_of_nil in Hin|].
  cbn [fmap list_fmap] in Hnd. apply list.NoDup_cons in Hnd as [Hn Hnd]. unfold tlvs_copy in *. cbn [foldl].
  apply elem_of_cons in Hin as [->|Hin].
  - change (foldl (tlv_copy s)) with (fun x y => tlvs_copy y s x). cbn beta. rewrite tlvs_copy_other by done.
    unfold tlv_copy. destruct (present u s); [|done]. by rewrite member_set_member, decide_True.
  - rewrite IH by done. assert (t_member u <> t_member t) as Hne.
    { intros E. apply Hn. rewrite E. by apply list_elem_of_fmap_2. }
    assert (member (tlv_copy s s0 u) (t_member t) = member s0 (t_member t)) as ->; [|done].
    unfold tlv_copy. destruct (present u s); [|done]. by rewrite member_set_member, decide_False.
Qed.

(** What the receiver finds in the member of a TLV: whether it is there, and the
    numbers of its value. *)
Lemma tlvs_copy_sent ts s t f : NoDup (t_member <$> ts) -> t ∈ ts -> t_tag t <> 0 ->
  existsb (fun r => bool_decide (f ∈ stored r)) (t_rows t) && negb (bool_decide (f ∈ foldr (fun r fs => resized r ++ fs) [] (t_rows t))) = true ->
  forall s0, member s0 (t_member t) = zero ->
  present t (tlvs_copy ts s s0) = present t s /\
  (present t s = true -> num (member (tlvs_copy ts s s0) (t_member t)) f = num (member s (t_member t)) f).
Proof.
  intros Hnd Hin Hne [(r & Hr & Hs%bool_decide_eq_true)%existsb_exists Hn%negb_true_iff%bool_decide_eq_false]%andb_true_iff s0 H0.
  unfold present at 1. rewrite tlvs_copy_member by done. destruct (present t s) eqn:Hp.
  - rewrite rows_copy_tl. cbn [tl_of set_tl tl_tag]. rewrite Z.eqb_refl. split; [done|]. intros _. by eapply rows_copy_num.
  - rewrite H0. split; [|done]. unfold zero, tl_of, tl_tag. by apply Z.eqb_neq.
Qed.
