(* ===== verification/Relay.v ===== *)
(** * Sending on what has been received

    The proxy unpacks the indications of the UEs, copies their PDUs into one
    indication and packs that again.  A structure that was unpacked is not the
    sender's: members that were not sent are zero in it, and arrays end where
    their counts say.  [row_like] says that two structures agree on everything
    the rows send; such structures have the same bytes, are both in range and
    are read to the same copy, and a structure is like its own copy.  So what
    was received can be sent on, and arrives as it would have without the
    proxy: first for rows, then for TLVs. *)

From S2P Require Import Prelude Codec Layout.
From stdpp Require Import functions strings.

Open Scope string_scope.
Open Scope list_scope.
Open Scope Z_scope.

(** ** Rows *)

(** Lengths that the packer computes and DCI payloads are not considered: no
    indication has them. *)
Fixpoint row_like (outer outer' : list struct) (r : row) (s s' : struct) : Prop :=
  let n e := eval (s :: outer) e in
  match r with
  | Num _ f | Off _ f _ | Big24 f => num s' f = num s f
  | Lit _ _ => True
  | Values _ _ f len => eval (s' :: outer') len = n len /\ take (Z.to_nat (n len)) (arr s' f) = take (Z.to_nat (n len)) (arr s f)
  | Items _ f len rows =>
      eval (s' :: outer') len = n len /\
      Forall2 (fun e e' => foldr (fun r P => row_like (s :: outer) (s' :: outer') r e e' /\ P) True rows)
        (take (Z.to_nat (n len)) (sub s f)) (take (Z.to_nat (n len)) (sub s' f))
  | When c rows => eval (s' :: outer') c = n c /\ (n c <> 0 -> foldr (fun r P => row_like outer outer' r s s' /\ P) True rows)
  | Try r => row_like outer outer' r s s'
  | Dci _ _ | Sized _ _ _ _ => False
  end.
Definition rows_like (outer outer' : list struct) (rows : list row) (s s' : struct) : Prop :=
  foldr (fun r P => row_like outer outer' r s s' /\ P) True rows.

(** What follows from it. *)
Definition alike (r : row) : Prop := forall outer outer' s s', row_like outer outer' r s s' ->
  row_bytes outer' r s' = row_bytes outer r s /\ (row_ok outer r s -> row_ok outer' r s') /\
  forall s0, row_copy outer' r s' s0 = row_copy outer r s s0.

Lemma rows_alike_all rows : Forall alike rows -> forall outer outer' s s', rows_like outer outer' rows s s' ->
  rows_bytes outer' rows s' = rows_bytes outer rows s /\ (rows_ok outer rows s -> rows_ok outer' rows s') /\
  forall s0, rows_copy outer' rows s' s0 = rows_copy outer rows s s0.
Proof.
  induction 1 as [|r rows Hr _ IH]; intros outer outer' s s' Hl; [done|]. destruct Hl as [H1 H2].
  destruct (Hr _ _ _ _ H1) as (B1 & O1 & C1), (IH _ _ _ _ H2) as (B2 & O2 & C2). split_and!.
  - unfold rows_bytes in *. cbn [foldr]. by rewrite B1, B2.
  - intros [Ho Hos]. split; [by apply O1|by apply O2].
  - intros s0. unfold rows_copy in *. cbn [foldl]. by rewrite C1, C2.
Qed.

Lemma zlen_take_le {A} n max (l l' : list A) : count_ok n max l -> length (take (Z.to_nat n) l') = length (take (Z.to_nat n) l) ->
  count_ok n max l'.
Proof. unfold count_ok, zlen. rewrite !length_take. lia. Qed.

Lemma row_alike : forall r, alike r.
Proof.
  apply row_induction; try (intros; intros outer outer' s s' []; fail).
  1-2: intros; intros outer outer' s s' H; cbn [row_like row_bytes row_ok row_copy] in *; rewrite H; by split_and!.
  1: intros t v outer outer' s s' _; by split_and!.
  - intros b t f len outer outer' s s' [He Ht]. cbn [row_bytes row_ok row_copy]. rewrite He, Ht. split_and!; [done| |done].
    intros [Hc Hf]. split; [|done]. eapply zlen_take_le; [exact Hc|by rewrite Ht].
  - intros b f len rows IH outer outer' s s' [He Ht]. cbn [row_bytes row_ok row_copy]. rewrite He.
    assert (forall e e', rows_like (s :: outer) (s' :: outer') rows e e' -> _) as Ha by (intros e e'; apply (rows_alike_all rows IH)).
    set (es := take (Z.to_nat (eval (s :: outer) len)) (sub s f)) in *.
    set (es' := take (Z.to_nat (eval (s :: outer) len)) (sub s' f)) in *.
    split_and!.
    + f_equal. symmetry. apply list_eq_Forall2, Forall2_fmap. eapply Forall2_impl; [exact Ht|].
      intros e e' H. symmetry. by apply Ha.
    + intros (Hb & Hc & Hf). split; [done|]. split; [eapply zlen_take_le; [exact Hc|symmetry; exact (Forall2_length _ _ _ Ht)]|].
      eapply Forall2_Forall_r; [exact Ht|]. refine (list.Forall_impl _ _ _ Hf _). intros e Ho e' H. by eapply Ha.
    + intros s0. f_equal. symmetry. apply list_eq_Forall2, Forall2_fmap. eapply Forall2_impl; [exact Ht|].
      intros e e' H. symmetry. by apply Ha.
  - intros c rows IH outer outer' s s' [He Ht]. cbn [row_bytes row_ok row_copy]. rewrite He.
    destruct (Z.eqb_spec (eval (s :: outer) c) 0) as [H0|Hn]; [by split_and!|].
    destruct (rows_alike_all rows IH _ _ _ _ (Ht Hn)) as (B & O & C). split_and!; [exact B| |exact C].
    intros Ho _. by apply O, Ho.
  - intros r IH outer outer' s s' H. by apply IH.
  - intros f outer outer' s s' H. cbn [row_like row_bytes row_ok row_copy] in *. rewrite H. by split_and!.
Qed.

Lemma rows_alike rows outer outer' s s' : rows_like outer outer' rows s s' ->
  rows_bytes outer' rows s' = rows_bytes outer rows s /\ (rows_ok outer rows s -> rows_ok outer' rows s') /\
  forall s0, rows_copy outer' rows s' s0 = rows_copy outer rows s s0.
Proof. apply rows_alike_all, list.Forall_forall. intros r _. apply row_alike. Qed.

(** *** A structure is like its copy *)

(** The arrays, and the arrays of structures, that rows store.  Two rows are
    apart if they store different ones, or are the cases of a [switch]. *)
Fixpoint arrays (r : row) : list string :=
  match r with
  | Values _ _ f _ => [f]
  | When _ rows => foldr (fun r fs => arrays r ++ fs) [] rows
  | Try r => arrays r
  | _ => []
  end.
Fixpoint lists (r : row) : list string :=
  match r with
  | Items _ f _ _ => [f]
  | When _ rows => foldr (fun r fs => lists r ++ fs) [] rows
  | Try r => lists r
  | _ => []
  end.
Definition arrays_of (rows : list row) : list string := foldr (fun r fs => arrays r ++ fs) [] rows.
Definition lists_of (rows : list row) : list string := foldr (fun r fs => lists r ++ fs) [] rows.

Definition disjointb (a b : list string) : bool := forallb (fun f => negb (bool_decide (f ∈ b))) a.
Definition exclusive (r r' : row) : bool :=
  match r, r' with
  | When (Equal e n) _, When (Equal e' n') _ => bool_decide (e = e') && negb (n =? n')
  | _, _ => false
  end.
Definition apart (r r' : row) : bool := exclusive r r' || disjointb (arrays r) (arrays r') && disjointb (lists r) (lists r').
Fixpoint distinct (rows : list row) : bool := match rows with [] => true | r :: rows => forallb (apart r) rows && distinct rows end.

Fixpoint row_plain (r : row) : bool :=
  match r with
  | Items _ _ _ rows | When _ rows => distinct rows && forallb row_plain rows
  | Try r => row_plain r
  | Dci _ _ | Sized _ _ _ _ => false
  | _ => true
  end.
Definition rows_plain (rows : list row) : bool := distinct rows && forallb row_plain rows.

Lemma plain_resized r : row_plain r = true -> resized r = [].
Proof.
  induction r as [t f|t f d|t v|b t f len|b f len rows _|c rows IH|r IH|f|f bits|c f d rows _] using row_induction; try done.
  cbn [row_plain resized]. intros [_ Hp]%andb_true_iff. induction IH as [|r rows Hr _ IHs]; [done|]. cbn [forallb foldr] in *.
  apply andb_true_iff in Hp as [H1 H2]. by rewrite Hr, IHs.
Qed.
Lemma plain_none rows : forallb row_plain rows = true -> foldr (fun r fs => resized r ++ fs) [] rows = [].
Proof. induction rows as [|r rows IH]; [done|]. cbn. intros [H1%plain_resized H2]%andb_true_iff. by rewrite H1, IH. Qed.
Lemma plain_keeps outer rows s s0 g : forallb row_plain rows = true -> num s0 g = num s g -> num (rows_copy outer rows s s0) g = num s g.
Proof.
  intros Hp. apply (rows_copy_all rows); [apply list.Forall_forall; intros r _; apply row_copies_all|].
  rewrite plain_none by done. by intros ?%elem_of_nil.
Qed.

(** What other rows store is not touched. *)
Definition row_leaves (r : row) : Prop := forall outer s s0 f, row_plain r = true ->
  (f ∉ arrays r -> arr (row_copy outer r s s0) f = arr s0 f) /\ (f ∉ lists r -> sub (row_copy outer r s s0) f = sub s0 f).

Lemma rows_leave_all rows : Forall row_leaves rows -> forall outer s s0 f, forallb row_plain rows = true ->
  (f ∉ arrays_of rows -> arr (rows_copy outer rows s s0) f = arr s0 f) /\
  (f ∉ lists_of rows -> sub (rows_copy outer rows s s0) f = sub s0 f).
Proof.
  induction 1 as [|r rows Hr _ IH]; intros outer s s0 f; [done|]. unfold rows_copy, arrays_of, lists_of in *. cbn [foldr foldl forallb].
  intros [Hp Hps]%andb_true_iff. destruct (IH outer s (row_copy outer r s s0) f Hps) as [I1 I2], (Hr outer s s0 f Hp) as [H1 H2].
  split; intros [Ha Hb]%not_elem_of_app; [by rewrite I1, H1|by rewrite I2, H2].
Qed.

Lemma row_leaves_all : forall r, row_leaves r.
Proof.
  apply row_induction.
  6: intros c rows IH outer s s0 f; cbn [row_copy arrays lists row_plain]; intros [_ Hp]%andb_true_iff;
     destruct (_ =? 0); [done|by apply (rows_leave_all rows IH)].
  6: intros r IH outer s s0 f; apply IH.
  all: intros; intros outer s s0 g Hp; cbn [row_copy arrays lists] in *; split; intros Hn; try done;
    apply not_elem_of_cons in Hn as [Hn _]; cbn; by rewrite fn_lookup_insert_ne by congruence.
Qed.

Lemma disjointb_spec a b f : disjointb a b = true -> f ∈ a -> f ∉ b.
Proof.
  intros H Hf. pose proof (proj1 (forallb_forall _ _) H f (proj1 (list_elem_of_In _ _) Hf)) as Hn. cbn in Hn.
  by apply negb_true_iff, bool_decide_eq_false in Hn.
Qed.

(** Whether a row is executed. *)
Definition active (outer : list struct) (s : struct) (r : row) : Prop :=
  match r with When c _ => eval (s :: outer) c <> 0 | _ => True end.

Lemma apart_leaves outer s r rows : active outer s r -> forallb (apart r) rows = true -> forallb row_plain rows = true -> forall s0 f,
  (f ∈ arrays r -> arr (rows_copy outer rows s s0) f = arr s0 f) /\ (f ∈ lists r -> sub (rows_copy outer rows s s0) f = sub s0 f).
Proof.
  intros Hact. induction rows as [|r' rows IH]; [done|]. cbn [forallb]. intros [Ha Has]%andb_true_iff [Hp Hps]%andb_true_iff s0 f.
  unfold rows_copy. cbn [foldl]. fold (rows_copy outer rows s (row_copy outer r' s s0)).
  destruct (IH Has Hps (row_copy outer r' s s0) f) as [I1 I2].
  unfold apart in Ha. apply orb_true_iff in Ha as [He|[D1 D2]%andb_true_iff].
  - assert (row_copy outer r' s s0 = s0) as E; [|by rewrite E in *].
    unfold exclusive in He. destruct r as [| | | | |c rs| | | |]; try done. destruct c as [| | | | | | | |e n]; try done.
    destruct r' as [| | | | |c' rs'| | | |]; try done. destruct c' as [| | | | | | | |e' n']; try done.
    apply andb_true_iff in He as [<-%bool_decide_eq_true Hn%negb_true_iff%Z.eqb_neq]. cbn [row_copy active eval] in *.
    destruct (Z.eqb_spec (eval (s :: outer) e) n); [|done]. by destruct (Z.eqb_spec (eval (s :: outer) e) n'); [congruence|].
  - destruct (row_leaves_all r' outer s s0 f Hp) as [L1 L2].
    split; intros Hf; [rewrite I1, L1|rewrite I2, L2]; try done; by eapply disjointb_spec.
Qed.

(** [s'] has what was copied to [t]. *)
Record holds_copy (s t s' : struct) (names lists : list string) : Prop := {
  hc_num g : num t g = num s g -> num s' g = num s g;
  hc_arr f : f ∈ names -> arr s' f = arr t f;
  hc_sub f : f ∈ lists -> sub s' f = sub t f }.
Definition holds_row (outer : list struct) (s t s' : struct) (r : row) : Prop :=
  (forall g, num t g = num s g -> num s' g = num s g) /\
  (active outer s r -> forall f, (f ∈ arrays r -> arr s' f = arr t f) /\ (f ∈ lists r -> sub s' f = sub t f)).

Definition copy_alike (r : row) : Prop := forall seen outer outer' s s0 s',
  row_wf seen r = true -> row_plain r = true -> row_ok outer r s ->
  agrees seen (s :: outer) (s0 :: outer') -> holds_row outer s (row_copy outer r s s0) s' r -> row_like outer outer' r s s'.

Lemma agrees_holds seen r s s0 s' outer outer' : row_plain r = true -> agrees seen (s :: outer) (s0 :: outer') ->
  holds_row outer s (row_copy outer r s s0) s' r -> agrees seen (s :: outer) (s' :: outer').
Proof.
  destruct seen as [|fs seen]; [done|]. intros Hp [Ha Hs] [Hn _]. split; [|done]. intros f Hf.
  apply Hn, row_copies_all; [|by apply Ha]. rewrite plain_resized by done. by intros ?%elem_of_nil.
Qed.

Lemma rows_copy_alike_all rows : Forall copy_alike rows -> forall seen outer outer' s s0 s',
  rows_wf seen rows = true -> rows_plain rows = true -> rows_ok outer rows s -> agrees seen (s :: outer) (s0 :: outer') ->
  holds_copy s (rows_copy outer rows s s0) s' (arrays_of rows) (lists_of rows) -> rows_like outer outer' rows s s'.
Proof.
  unfold rows_plain. intros Hall seen outer outer' s s0 s' Hwf [Hd Hp]%andb_true_iff.
  revert seen outer outer' s s0 s' Hwf Hd Hp. induction Hall as [|r rows Hr _ IH]; intros seen outer outer' s s0 s' Hwf Hd Hp Hok Hag Hh; [done|].
  cbn [rows_wf forallb distinct] in Hwf, Hp, Hd. apply andb_true_iff in Hwf as [W1 W2]. apply andb_true_iff in Hp as [P1 P2].
  apply andb_true_iff in Hd as [D1 D2].
  destruct Hok as [O1 O2], Hh as [Hn Hx Hs]. unfold rows_copy in Hn, Hx, Hs. cbn [foldl] in Hn, Hx, Hs.
  fold (rows_copy outer rows s (row_copy outer r s s0)) in Hn, Hx, Hs. unfold arrays_of, lists_of in Hx, Hs. cbn [foldr] in Hx, Hs.
  split.
  - apply (Hr seen outer outer' s s0 s'); try done. split; [intros g Hg; by apply Hn, plain_keeps|]. intros Hact f.
    destruct (apart_leaves outer s r rows Hact D1 P2 (row_copy outer r s s0) f) as [L1 L2].
    split; intros Hf; [rewrite Hx by (apply elem_of_app; by left)|rewrite Hs by (apply elem_of_app; by left)]; auto.
  - apply (IH (learn r seen) outer outer' s (row_copy outer r s s0) s'); try done; [by apply agrees_learn|].
    split; [exact Hn|intros f Hf; apply Hx|intros f Hf; apply Hs]; apply elem_of_app; by right.
Qed.

Lemma row_copy_alike : forall r, copy_alike r.
Proof.
  apply row_induction.
  - intros t f seen outer outer' s s0 s' _ _ _ _ [Hn _]. apply Hn. cbn [row_copy]. by rewrite num_set_num, decide_True.
  - intros t f d seen outer outer' s s0 s' _ _ _ _ [Hn _]. apply Hn. cbn [row_copy]. by rewrite num_set_num, decide_True.
  - done.
  - intros b t f len seen outer outer' s s0 s' [Hwf _]%andb_true_iff _ _ Ha Hh. cbn [row_like].
    split; [exact (eval_agrees _ _ _ _ Hwf (agrees_holds _ (Values b t f len) _ _ _ _ _ eq_refl Ha Hh))|].
    destruct Hh as [_ Hx]. destruct (Hx I f) as [-> _]; [|apply list_elem_of_here]. cbn [row_copy arr set_arr]. rewrite fn_lookup_insert.
    by rewrite take_take, Nat.min_id.
  - intros b f len rows IH seen outer outer' s s0 s' Hwf Hp (_ & _ & Hok) Ha Hh. cbn [row_like].
    cbn [row_wf row_plain] in Hwf, Hp. apply andb_true_iff in Hwf as [[[_ Hwf]%andb_true_iff _]%andb_true_iff Hwfs].
    assert (agrees seen (s :: outer) (s' :: outer')) as Ha' by (exact (agrees_holds _ (Items b f len rows) _ _ _ _ _ Hp Ha Hh)).
    split; [by eapply eval_agrees|].
    destruct Hh as [_ Hs]. destruct (Hs I f) as [_ ->]; [|apply list_elem_of_here]. cbn [row_copy sub set_sub]. rewrite fn_lookup_insert.
    rewrite <- fmap_take, take_take, Nat.min_id. apply Forall2_fmap_r, Forall_Forall2_diag.
    refine (list.Forall_impl _ _ _ Hok _). intros e He.
    apply (rows_copy_alike_all rows IH ([] :: seen) _ _ e zero); [exact Hwfs|exact Hp|exact He|by apply agrees_new|by split].
  - intros c rows IH seen outer outer' s s0 s' Hwf Hp Hok Ha Hh. cbn [row_like].
    cbn [row_wf row_plain] in Hwf, Hp. apply andb_true_iff in Hwf as [Hwf Hwfs].
    split; [exact (eval_agrees _ _ _ _ Hwf (agrees_holds _ (When c rows) _ _ _ _ _ Hp Ha Hh))|].
    intros Hn. destruct Hh as [H1 H2]. specialize (H2 Hn). cbn [row_copy row_ok] in H1, H2, Hok. apply Z.eqb_neq in Hn as Hn'. rewrite Hn' in H1, H2.
    apply (rows_copy_alike_all rows IH seen outer outer' s s0 s' Hwfs Hp (Hok Hn) Ha).
    split; [exact H1|intros f; apply H2|intros f; apply H2].
  - intros r IH seen outer outer' s s0 s' Hwf Hp Hok Ha [H1 H2]. apply (IH seen outer outer' s s0 s'); try done. split; [exact H1|].
    intros _. exact (H2 I).
  - intros f seen outer outer' s s0 s' _ _ _ _ [Hn _]. apply Hn. cbn [row_copy]. by rewrite num_set_num, decide_True.
  - done.
  - done.
Qed.

(** The elements of an array are like their copies, wherever these are put. *)
Lemma rows_copy_like rows outer outer' s s0 : rows_wf [[]] rows = true -> rows_plain rows = true -> rows_ok outer rows s ->
  rows_like outer outer' rows s (rows_copy outer rows s s0).
Proof.
  intros Hwf Hp Hok. apply (rows_copy_alike_all rows) with (seen := [[]]) (s0 := s0); [|done|done|done|by apply agrees_new|by split].
  apply list.Forall_forall. intros r _. apply row_copy_alike.
Qed.

(** *** Packers without bounds *)

(** Rows that never refuse a count. *)
Definition roomy (b : bound) (len : expr) : bool :=
  match b with UpTo max | Strided max => match len with Const n => n <=? max | _ => false end | _ => true end.
Fixpoint row_roomy (r : row) : bool :=
  match r with
  | Values b _ _ len => roomy b len
  | Items b _ len rows => roomy b len && forallb row_roomy rows
  | When _ rows | Sized _ _ _ rows => forallb row_roomy rows
  | Try r => row_roomy r
  | _ => true
  end.

Lemma roomy_bound b len env : roomy b len = true -> eval env len <= bound_max b (eval env len).
Proof. destruct b; cbn; try done; destruct len; try done; cbn; lia. Qed.

Lemma rows_roomy_all rows : Forall (fun r => row_roomy r = true -> forall outer s, row_room outer r s) rows ->
  forallb row_roomy rows = true -> forall outer s, rows_room outer rows s.
Proof. induction 1 as [|r rows Hr _ IH]; [done|]. intros [H1 H2]%andb_true_iff outer s. split; [by apply Hr|by apply IH]. Qed.

Lemma row_roomy_room : forall r, row_roomy r = true -> forall outer s, row_room outer r s.
Proof.
  apply (row_induction (fun r => row_roomy r = true -> forall outer s, row_room outer r s)); try done.
  - intros b t f len H outer s. by apply roomy_bound.
  - intros b f len rows IH [Hb Hr]%andb_true_iff outer s. split; [by apply roomy_bound|].
    apply list.Forall_forall. intros e _. by apply (rows_roomy_all rows IH).
  - intros c rows IH Hr outer s _. by apply (rows_roomy_all rows IH).
  - intros c f d rows IH Hr outer s. by apply (rows_roomy_all rows IH).
Qed.
Lemma rows_roomy_room rows outer s : forallb row_roomy rows = true -> rows_room outer rows s.
Proof. intros H. apply rows_roomy_all; [|done]. apply list.Forall_forall. intros r _. apply row_roomy_room. Qed.

(** *** Room for a packer with other bounds *)

Lemma like_bare outer outer' u s s' : row_like outer outer' u s s' -> row_like outer outer' (bare u) s s'.
Proof. by destruct u. Qed.
Lemma like_skip outer outer' us s s' : rows_like outer outer' us s s' -> rows_like outer outer' (skip_checks us) s s'.
Proof. induction us as [|u us IH]; [done|]. intros [H1 H2]. cbn [skip_checks]. destruct (is_check u); [by apply IH|by split]. Qed.
Lemma like_beside p outer outer' us s s' : rows_like outer outer' us s s' -> rows_like outer outer' (beside p us) s s'.
Proof. unfold beside. destruct (is_check p); [done|apply like_skip]. Qed.

Definition room_alike (p : row) : Prop := forall u outer outer' s s', row_sim p u = true -> row_like outer outer' u s s' ->
  row_room outer p s -> row_room outer' p s'.

Lemma rows_room_all ps : Forall room_alike ps -> forall us outer outer' s s', rows_sim ps us = true -> rows_like outer outer' us s s' ->
  rows_room outer ps s -> rows_room outer' ps s'.
Proof.
  induction 1 as [|p ps Hp _ IH]; intros us outer outer' s s' Hs Hl Hr; [done|]. cbn [rows_sim] in Hs. apply (like_beside p) in Hl.
  destruct (beside p us) as [|u us']; [done|]. apply andb_true_iff in Hs as [S1 S2]. destruct Hl as [L1 L2], Hr as [R1 R2].
  split; [by apply (Hp u outer outer' s s')|by apply (IH us' outer outer' s s')].
Qed.

Lemma row_room_alike : forall p, room_alike p.
Proof.
  apply row_induction; try done.
  - intros b t f len u outer outer' s s' Hs Hl%like_bare Hr. cbn [row_sim] in Hs. destruct (bare u); try done.
    apply andb_true_iff in Hs as [_ <-%bool_decide_eq_true]. destruct Hl as [He _]. cbn [row_room] in *. by rewrite He.
  - intros b f len rows IH u outer outer' s s' Hs Hl%like_bare Hr. cbn [row_sim] in Hs. destruct (bare u) as [| | | |b' f' len' rows'| | | | |]; try done.
    apply andb_true_iff in Hs as [[[_ <-%String.eqb_eq]%andb_true_iff <-%bool_decide_eq_true]%andb_true_iff Hs].
    destruct Hl as [He Hl], Hr as [Hb Hr]. cbn [row_room]. rewrite He. split; [done|].
    eapply Forall2_Forall_r; [exact Hl|]. refine (list.Forall_impl _ _ _ Hr _). intros e Hre e' Hle.
    exact (rows_room_all rows IH rows' (s :: outer) (s' :: outer') e e' Hs Hle Hre).
  - intros c rows IH u outer outer' s s' Hs Hl%like_bare Hr. cbn [row_sim] in Hs. destruct (bare u) as [| | | | |c' rows'| | | |]; try done.
    apply andb_true_iff in Hs as [<-%bool_decide_eq_true Hs]. destruct Hl as [He Hl]. cbn [row_room] in *. rewrite He. intros Hn.
    exact (rows_room_all rows IH rows' outer outer' s s' Hs (Hl Hn) (Hr Hn)).
  - intros c f d rows IH u outer outer' s s' Hs Hl%like_bare Hr. cbn [row_sim] in Hs. by destruct (bare u).
Qed.
Lemma rows_room_like ps us outer outer' s s' : rows_sim ps us = true -> rows_like outer outer' us s s' ->
  rows_room outer ps s -> rows_room outer' ps s'.
Proof. apply rows_room_all, list.Forall_forall. intros r _. apply row_room_alike. Qed.

(** ** TLVs *)

Definition tlv_like (p p' : struct) (t : tlv_row) : Prop :=
  present t p' = present t p /\
  (present t p = true -> rows_like [] [] (t_rows t) (member p (t_member t)) (member p' (t_member t)) /\
     in_u16 (tl_length (tl_of (member p' (t_member t))))).

Lemma tlv_alike p p' t : tlv_like p p' t -> sent_tlvs [t] p' = sent_tlvs [t] p /\
  (forall s0, tlv_copy p' s0 t = tlv_copy p s0 t) /\ (tlv_row_ok p t -> tlv_row_ok p' t).
Proof.
  intros [Hp Hl]. unfold sent_tlvs, tlv_copy, tlv_row_ok. rewrite !filter_cons, !filter_nil, Hp.
  destruct (present t p) eqn:E.
  - destruct (Hl eq_refl) as [Hr H16]. destruct (rows_alike _ _ _ _ _ Hr) as (B & O & C).
    assert (tlv_value t p' = tlv_value t p) as Hv by exact B. split_and!.
    + rewrite decide_True by done. cbn [fmap list_fmap]. by rewrite Hv.
    + intros s0. by rewrite C, Hv.
    + intros Hok _. split; [done|]. apply O, Hok. done.
  - by split_and!.
Qed.

Lemma tlvs_alike ts p p' : Forall (tlv_like p p') ts -> sent_tlvs ts p' = sent_tlvs ts p /\
  (forall s0, tlvs_copy ts p' s0 = tlvs_copy ts p s0) /\ (Forall (tlv_row_ok p) ts -> Forall (tlv_row_ok p') ts).
Proof.
  induction 1 as [|t ts Ht _ (I1 & I2 & I3)]; [done|]. destruct (tlv_alike p p' t Ht) as (A1 & A2 & A3). split_and!.
  - rewrite (sent_tlvs_cons t ts p'), (sent_tlvs_cons t ts p). by rewrite A1, I1.
  - intros s0. unfold tlvs_copy in *. cbn [foldl]. by rewrite A2.
  - intros [H1 H2]%list.Forall_cons. constructor; auto.
Qed.

(** A structure whose TLVs are in range is like what the receiver makes of it. *)
Lemma tlvs_copy_like ts p s0 : NoDup (t_member <$> ts) -> forallb tlv_row_wf ts = true -> forallb (fun t => rows_plain (t_rows t)) ts = true ->
  Forall (fun t => t_tag t <> 0) ts -> Forall (tlv_row_ok p) ts -> sub s0 = sub zero -> Forall (tlv_like p (tlvs_copy ts p s0)) ts.
Proof.
  intros Hnd Hwf Hpl Hne Hok H0. apply list.Forall_forall. intros t Hin.
  pose proof (proj1 (forallb_forall _ _) Hwf t (proj1 (list_elem_of_In _ _) Hin)) as Hw.
  pose proof (proj1 (forallb_forall _ _) Hpl t (proj1 (list_elem_of_In _ _) Hin)) as Hp. cbn beta in Hp.
  pose proof (proj1 (list.Forall_forall _ _) Hok t Hin) as Ho. pose proof (proj1 (list.Forall_forall _ _) Hne t Hin) as Htag.
  assert (member s0 (t_member t) = zero) as Hm by (unfold member; by rewrite H0).
  unfold tlv_like, present at 1. rewrite tlvs_copy_member by done. destruct (present t p) eqn:E.
  - rewrite rows_copy_tl. cbn [tl_of set_tl tl_tag tl_length]. rewrite Z.eqb_refl. split; [done|]. intros _.
    destruct (tlv_row_wf_spec t Hw) as (_ & Hrw & _). split; [|by apply tlv_value_size]. apply rows_copy_like; [done|done|by apply Ho].
  - rewrite Hm. cbn [tl_of zero tl_tag]. split; [|done]. apply Z.eqb_neq. congruence.
Qed.
