(* ===== verification/LtePdu.v ===== *)
(** * LTE P7 messages: lists of PDUs ([nfapi_p7.c])

    The LTE messages of P7 have one shape: the subframe and a body TLV, in which
    some numbers and the counts are followed by PDUs.  A PDU is framed in one of
    three ways: by its type and a size of eight bits (the requests), by a length
    of 16 bits (the indications), or not at all; inside are TLVs, of which the
    type selects the table.  Bodies are data here, as the values of the TLVs are
    in [Layout], and one theorem shows that what a packer writes an unpacker
    with matching tables reads. *)

From S2P Require Import Prelude Codec Layout.
From stdpp Require Import functions strings.

Open Scope string_scope.
Open Scope list_scope.
Open Scope Z_scope.

(** ** Tables *)

(** An entry of an unpack table: a value of rows, or one with code of its own;
    and a call of [pack_tlv]. *)
Inductive entry := Rows (t : tlv_row) | Special (tag : Z) (f : string) (u : unpacker struct).
Inductive pentry := PRows (t : tlv_row) | PSpecial (tag : Z) (f : string) (p : struct -> packer).
Abbreviation Read tag f rows := (Rows (TlvRow tag f rows)).
Abbreviation Write tag f rows := (PRows (TlvRow tag f rows)).

Definition entry_fn (e : entry) : unpack_tlv_t struct :=
  match e with
  | Rows t => tlv_entry t
  | Special tag f u => UnpackTlv tag (fun tl s l => storing (fun v => set_member f v s) (u (set_tl tl (member s f)) l))
  end.
Definition pack_entry (e : pentry) (s : struct) : packer :=
  match e with
  | PRows t => pack_tlv_row pack_tlv t s
  | PSpecial tag f p => pack_tlv tag (tl_of (member s f)) (p (member s f))
  end.
Definition pack_entries (es : list pentry) (s : struct) : packer :=
  foldr (fun e p => pack_entry e s &* p) pack_ok es.

(** A [switch] on the type of a PDU. *)
Definition case_of {A} (ts : list (Z * A)) (k : Z) : option A := snd <$> List.find (fun c => fst c =? k) ts.

(** ** PDUs *)

Inductive pframe := PTyped (ts : list (Z * list pentry)) | PInstance (es : list pentry) | PBare (es : list pentry).
(** [strict]: an unknown type is an error.  [UBare]: the TLVs are taken to have
    [n] bytes. *)
Inductive uframe := UTyped (strict : bool) (ts : list (Z * list entry)) | UInstance (es : list entry) | UBare (n : Z) (es : list entry).

(** The size of a PDU in its second byte, with the type in front of it: a zero is
    replaced once the TLVs are written. *)
Definition pack_pdu_size (p : packer) : packer := fun w =>
  let '(r, w1) := push8 0 w in
  if r =? 0 then (0, w1) else
  let '(r, w2) := p w1 in
  if r =? 0 then (0, w2)
  else (1, snd (pack_at (length (w_out w)) (push8 (u8 (1 + (zlen (w_out w2) - zlen (w_out w))))) w2)).

Definition pack_pdu (f : pframe) (s : struct) : packer :=
  match f with
  | PTyped ts => push8 (num s "pdu_type") &* pack_pdu_size (pack_entries (default [] (case_of ts (num s "pdu_type"))) s)
  | PInstance es => pack_sized true (num s "instance_length") (-2) (pack_entries es s)
  | PBare es => pack_entries es s
  end.

Section unpack.
Context (behind : nat -> Z).

(** TLVs up to an end that is not compared with that of the message. *)
Definition unpack_within (n : Z) (es : list entry) : unpacker struct := fun s l =>
  let '(r, s, rest) := unpack_tlv_list (entry_fn <$> es) None s (region behind (Z.to_nat n) l) in
  if r =? 0 then inl (s, rest) else inr (s, drop (Z.to_nat n) l).

(** The result of [unpack_tlv_list] is ignored for a PDU with a type, and nothing
    is read of one whose type the [switch] does not have. *)
Definition unpack_pdu (f : uframe) : unpacker struct :=
  match f with
  | UTyped strict ts =>
      andthen (unpack_rows [] [Num U8 "pdu_type"; Num U8 "pdu_size"]) (fun s l =>
        let n := num s "pdu_size" - 2 in
        if zlen l <? n then inl (s, l) else
        match case_of ts (num s "pdu_type") with
        | Some es =>
            let '(_, s, rest) := unpack_tlv_list (entry_fn <$> es) None s (take (Z.to_nat n) l) in
            inr (s, rest ++ drop (Z.to_nat n) l)
        | None => if strict then inl (s, l) else inr (s, l)
        end)
  | UInstance es =>
      andthen (unpack_rows [] [Num U16 "instance_length"]) (fun s l => unpack_within (num s "instance_length") es s l)
  | UBare n es => unpack_within n es
  end.

(** ** Bodies and messages *)

(** The numbers in front, those of them whose sum is the number of PDUs, the list
    and its PDUs. *)
Record pbody := PBody { pb_head : list row; pb_counts : list string; pb_list : string; pb_frame : pframe }.
(** [ub_checked]: the length of the TLV is compared with that of the message.
    [ub_some]: there is no list of no PDUs ([nfapi_p7_allocate] of no bytes returns
    a null pointer).  [ub_wrap]: the type the sum is computed in. *)
Record ubody := UBody { ub_checked : bool; ub_some : bool; ub_head : list row; ub_counts : list string; ub_wrap : Z -> Z; ub_max : Z;
  ub_list : string; ub_frame : uframe }.

Definition count_of (fs : list string) (s : struct) : Z := foldr (fun f n => num s f + n) 0 fs.

Definition pack_pdu_body (b : pbody) (s : struct) : packer :=
  pack_rows [] (pb_head b) s &*
  pack_elems (pack_pdu (pb_frame b)) (take (Z.to_nat (count_of (pb_counts b) s)) (sub s (pb_list b))).
Definition unpack_pdu_body (b : ubody) : unpacker struct := fun s l =>
  if ub_checked b && (zlen l <? tl_length (tl_of s)) then inl (s, l) else
  andthen (unpack_rows [] (ub_head b)) (fun s l =>
    let n := ub_wrap b (count_of (ub_counts b) s) in
    if ub_some b && (n =? 0) then inl (s, l)
    else unpack_items (UpTo (ub_max b)) (ub_list b) n (unpack_pdu (ub_frame b)) s l) s l.

(** A message whose body is the TLV [tag] in the member [f]. *)
Definition pack_pdu_message (tag : Z) (f : string) (body : struct -> packer) (s : struct) : packer :=
  push16 (num s "sfn_sf") &* pack_tlv tag (tl_of (member s f)) (body (member s f)) &* pack_p7_vendor_extension_tlv None.
(** The same, where each part is packed whether the one before was or not. *)
Definition pack_pdu_message_all (tag : Z) (f : string) (body : struct -> packer) (s : struct) : packer := fun w =>
  let '(x, w) := push16 (num s "sfn_sf") w in
  let '(y, w) := pack_tlv tag (tl_of (member s f)) (body (member s f)) w in
  let '(z, w) := pack_p7_vendor_extension_tlv None w in
  (b2z (negb (x =? 0) && negb (y =? 0) && negb (z =? 0)), w).
Definition unpack_pdu_message (tag : Z) (f : string) (body : unpacker struct) (s : struct) (l : list Z) : Z * struct :=
  match pull16 l with
  | None => (0, s)
  | Some (sfn_sf, l) =>
      let '(r, s, _) := unpack_p7_tlv_list [entry_fn (Special tag f body)] None (set_num "sfn_sf" sfn_sf s) l in
      (b2z (negb (r =? 0)), s)
  end.
End unpack.

(** The [while] loop over TLs with which two messages are read: what follows an
    unknown TL is taken for the next.  A round takes four bytes at least. *)
Fixpoint body_loop (tag : Z) (f : string) (body : unpacker struct) (fuel : nat) : unpacker struct := fun s l =>
  match fuel, l with
  | O, _ | _, [] => inr (s, l)
  | S fuel, _ =>
      match unpack_tl l with
      | None => inl (s, l)
      | Some (tl, l) =>
          if tl_tag tl =? tag then
            match storing (fun v => set_member f v s) (body (set_tl tl (member s f)) l) with
            | inl r => inl r
            | inr (s, l) => body_loop tag f body fuel s l
            end
          else body_loop tag f body fuel s l
      end
  end.
Definition unpack_body_loop (tag : Z) (f : string) (body : unpacker struct) : unpacker struct :=
  andthen (unpack_rows [] [Num U16 "sfn_sf"]) (fun s l => body_loop tag f body (S (length l)) s l).

(** ** Which tables match *)

Definition rows_of (es : list entry) : list tlv_row := omap (fun e => match e with Rows t => Some t | Special _ _ _ => None end) es.
Definition prows_of (es : list pentry) : list tlv_row := omap (fun e => match e with PRows t => Some t | PSpecial _ _ _ => None end) es.

(** The rows of the packer's table that can be read back, as the unpacker reads
    them; the others must not be sent. *)
Definition sendable (us : list entry) (t : tlv_row) : bool := known_tlv (rows_of us) t.
Definition agreed (ps : list pentry) (us : list entry) : list tlv_row :=
  resolve (rows_of us) <$> filter (fun t => sendable us t = true) (prows_of ps).

Definition absent (e : pentry) (s : struct) : Prop :=
  match e with
  | PRows t => present t s = false
  | PSpecial tag f _ => tl_tag (tl_of (member s f)) <> tag
  end.
Definition entry_ok (us : list entry) (s : struct) (e : pentry) : Prop :=
  match e with
  | PRows t => if sendable us t then tlv_room s t /\ tlv_row_ok s (resolve (rows_of us) t) else absent e s
  | PSpecial _ _ _ => absent e s
  end.
Definition entries_ok (ps : list pentry) (us : list entry) (s : struct) : Prop := Forall (entry_ok us s) ps.

Lemma pack_absent tag tl fn : tl_tag tl <> tag -> writes (pack_tlv tag tl fn) [].
Proof. intros H. eapply writes_ext; [intros w; by rewrite (tf_absent (TlvFormat := tlv_format))|apply writes_ok]. Qed.

Lemma absent_writes e s : absent e s -> writes (pack_entry e s) [].
Proof.
  destruct e as [t|tag f p]; [|by apply pack_absent]. unfold absent, present, pack_entry, pack_tlv_row.
  intros H%Z.eqb_neq. by apply pack_absent.
Qed.

Lemma agreed_cons e ps us :
  agreed (e :: ps) us =
  match e with PRows t => if sendable us t then [resolve (rows_of us) t] else [] | _ => [] end ++ agreed ps us.
Proof.
  unfold agreed, prows_of. destruct e as [t|tag f p]; [|done]. cbn [omap list_omap]. rewrite filter_cons.
  destruct (decide _) as [->|Hn]; [done|]. by destruct (sendable us t).
Qed.

Lemma sendable_spec us t : sendable us t = true ->
  let u := resolve (rows_of us) t in tlv_sim t u = true /\ tlv_row_wf u = true /\ tlv_entry u ∈ entry_fn <$> us.
Proof.
  intros H. assert (forallb (known_tlv (rows_of us)) [t] = true) as Hr%resolved by (cbn; by rewrite andb_true_r).
  apply list.Forall_cons in Hr as [[Hin Hwf] _]. unfold sendable, known_tlv in H.
  apply andb_true_iff in H as [[_ Hs]%andb_true_iff _]. split_and!; [done|done|].
  apply list_elem_of_In, in_map_iff in Hin as (u & Hu & Hin). cbn in Hu. rewrite <- Hu.
  apply list_elem_of_In, list_elem_of_omap in Hin as (e & He & Heq). destruct e as [t'|]; [|done]. injection Heq as ->.
  change (tlv_entry u) with (entry_fn (Rows u)). by apply list_elem_of_fmap_2.
Qed.

Lemma entries_write ps us s : entries_ok ps us s ->
  writes (pack_entries ps s) (tlvs_bytes no_pad (sent_tlvs (agreed ps us) s)).
Proof.
  induction 1 as [|e ps He _ IH]; [apply writes_ok|]. rewrite agreed_cons. cbn [pack_entries foldr].
  assert (Hno : absent e s -> writes (pack_entry e s &* pack_entries ps s) (tlvs_bytes no_pad (sent_tlvs (agreed ps us) s)))
    by (intros Ha; apply (writes_and _ _ []); [by apply absent_writes|done]).
  destruct e as [t|tag f p]; [|by apply Hno]. cbn [entry_ok] in He. destruct (sendable us t) eqn:Hs; [|by apply Hno].
  destruct (sendable_spec us t Hs) as (Hsim & Hwf & _). cbn [app].
  rewrite sent_tlvs_cons, tlvs_bytes_app_pad. apply writes_and; [|done]. destruct He as [Hr Ho].
  by apply (tlv_row_writes (HF := tlv_format)).
Qed.

Lemma entries_sent_ok ps us s : entries_ok ps us s -> Forall (tlv_row_ok s) (agreed ps us).
Proof.
  induction 1 as [|e ps He _ IH]; [constructor|]. rewrite agreed_cons. destruct e as [t|]; [|done]. cbn [entry_ok] in He.
  destruct (sendable us t); [|done]. constructor; [by destruct He|done].
Qed.

Lemma agreed_known ps us : Forall (fun t => tlv_entry t ∈ entry_fn <$> us /\ tlv_row_wf t = true) (agreed ps us).
Proof.
  apply Forall_fmap, list.Forall_forall. intros t [Hs _]%list_elem_of_filter. cbn.
  by destruct (sendable_spec us t Hs) as (_ & Hwf & Hin).
Qed.

Definition entries_wf (us : list entry) : bool := bool_decide (NoDup (ut_tag <$> (entry_fn <$> us))).

Lemma entries_read ps us s s0 : entries_wf us = true -> entries_ok ps us s ->
  unpack_tlv_list (entry_fn <$> us) None s0 (tlvs_bytes no_pad (sent_tlvs (agreed ps us) s)) =
  (1, tlvs_copy (agreed ps us) s s0, []).
Proof.
  intros Hnd%bool_decide_eq_true Hok. unfold unpack_tlv_list.
  apply (tlvs_read (HF := tlv_format)); [done|apply agreed_known|by eapply entries_sent_ok|apply (sent_tlvs_fuel (HF := tlv_format))].
Qed.

(** ** PDUs round-trip *)

Definition frame_tables (pf : pframe) (uf : uframe) (s : struct) : option (list pentry * list entry) :=
  match pf, uf with
  | PTyped ps, UTyped _ us =>
      (fun u => (default [] (case_of ps (num s "pdu_type")), u)) <$> case_of us (num s "pdu_type")
  | PInstance p, UInstance u | PBare p, UBare _ u => Some (p, u)
  | _, _ => None
  end.
Definition frame_wf (uf : uframe) : bool :=
  match uf with
  | UTyped _ us => forallb (fun c => entries_wf (snd c)) us
  | UInstance u | UBare _ u => entries_wf u
  end.

(** The TLVs that are sent and received, and their bytes. *)
Definition pdu_rows (pf : pframe) (uf : uframe) (s : struct) : list tlv_row :=
  match frame_tables pf uf s with Some (p, u) => agreed p u | None => [] end.
Definition pdu_value (pf : pframe) (uf : uframe) (s : struct) : list Z :=
  tlvs_bytes no_pad (sent_tlvs (pdu_rows pf uf s) s).

(** A PDU that may be sent: its type has tables, the TLVs are in range and, with
    what is in front of them, short enough for the size field. *)
Definition pdu_ok (pf : pframe) (uf : uframe) (s : struct) : Prop :=
  match frame_tables pf uf s with Some (p, u) => entries_ok p u s | None => False end /\
  match uf with
  | UTyped _ _ => in_u8 (num s "pdu_type") /\ 2 + zlen (pdu_value pf uf s) < 256
  | UInstance _ => in_u16 (num s "instance_length") /\ in_u16 (zlen (pdu_value pf uf s))
  | UBare n _ => zlen (pdu_value pf uf s) = n
  end.

Definition pdu_bytes (pf : pframe) (uf : uframe) (s : struct) : list Z :=
  match uf with
  | UTyped _ _ => [num s "pdu_type"; 2 + zlen (pdu_value pf uf s)]
  | UInstance _ => be16 (zlen (pdu_value pf uf s))
  | UBare _ _ => []
  end ++ pdu_value pf uf s.
Definition pdu_copy (pf : pframe) (uf : uframe) (s : struct) : struct :=
  tlvs_copy (pdu_rows pf uf s) s
    match uf with
    | UTyped _ _ => set_num "pdu_size" (2 + zlen (pdu_value pf uf s)) (set_num "pdu_type" (num s "pdu_type") zero)
    | UInstance _ => set_num "instance_length" (zlen (pdu_value pf uf s)) zero
    | UBare _ _ => zero
    end.

Lemma case_of_in {A} (ts : list (Z * A)) k x : case_of ts k = Some x -> In (k, x) ts.
Proof.
  unfold case_of. destruct (List.find _ ts) as [[k' y]|] eqn:E; [|done]. intros [= <-].
  by apply find_some in E as [Hin Hk%Z.eqb_eq]; cbn in *; subst.
Qed.

Lemma tables_wf pf uf s p u : frame_wf uf = true -> frame_tables pf uf s = Some (p, u) -> entries_wf u = true.
Proof.
  destruct pf, uf; cbn; try done; try by intros H [= <- <-].
  intros H. destruct (case_of ts0 _) as [u'|] eqn:E; [|done]. intros [= <- <-].
  apply case_of_in in E. by apply (proj1 (forallb_forall _ _) H (_, _) E).
Qed.

Lemma pdu_entries_write pf uf s p u : frame_tables pf uf s = Some (p, u) -> entries_ok p u s ->
  writes (pack_entries p s) (pdu_value pf uf s).
Proof. intros Hp Hok. unfold pdu_value, pdu_rows. rewrite Hp. by apply entries_write. Qed.

Lemma pdu_entries_read pf uf s p u s0 : frame_wf uf = true -> frame_tables pf uf s = Some (p, u) -> entries_ok p u s ->
  unpack_tlv_list (entry_fn <$> u) None s0 (pdu_value pf uf s) = (1, tlvs_copy (pdu_rows pf uf s) s s0, []).
Proof.
  intros Hwf Hp Hok. pose proof (tables_wf _ _ _ _ _ Hwf Hp). unfold pdu_value, pdu_rows. rewrite Hp. by apply entries_read.
Qed.

Lemma writes_pdu_size p bs : 1 + (1 + zlen bs) < 256 -> writes p bs -> writes (pack_pdu_size p) ((2 + zlen bs) :: bs).
Proof.
  intros Hn [Hbs Hp]. pose proof (zlen_nonneg bs).
  split; [constructor; [wrap_lia|done]|]. intros w Hw Hl. autorewrite with zlen in Hl. unfold pack_pdu_size.
  destruct (em_fit _ _ (emits_push8 0 ltac:(wrap_lia)) w Hw) as [Hr1 Hw1]; [zlen_lia|].
  destruct (push8 0 w) as [r1 w1]. cbn [fst snd] in Hr1, Hw1. subst w1. destruct (Z.eqb_spec r1 0); [lia|].
  destruct (Hp (wapp w [0])) as [Hr2 Hw2]; [apply room_ok_wapp; [done|zlen_lia]|unfold wapp; cbn [w_room]; zlen_lia|].
  destruct (p _) as [r2 w2]. cbn [fst snd] in Hr2, Hw2. subst w2. destruct (Z.eqb_spec r2 0); [lia|].
  split; [done|]. cbn [snd]. rewrite wapp_wapp. cbn [app].
  replace (1 + (zlen (w_out (wapp w (0 :: bs))) - zlen (w_out w))) with (2 + zlen bs)
    by (unfold wapp; cbn [w_out]; zlen_lia).
  rewrite (u8_small (2 + zlen bs)) by wrap_lia.
  destruct (pack_at_overwrite (push8 (2 + zlen bs)) [2 + zlen bs] (w_out w) [0] bs (w_room w - zlen (0 :: bs))) as [_ Ho].
  - apply emits_push8. wrap_lia.
  - done.
  - zlen_lia.
  - unfold room_ok in Hw. zlen_lia.
  - unfold wapp. cbn [app] in Ho. by rewrite Ho.
Qed.

Lemma pdu_writes pf uf s : pdu_ok pf uf s -> writes (pack_pdu pf s) (pdu_bytes pf uf s).
Proof.
  intros [Ht Hs]. destruct (frame_tables pf uf s) as [[p u]|] eqn:E; [|done].
  pose proof (pdu_entries_write _ _ _ _ _ E Ht) as Hw. unfold pdu_bytes.
  destruct pf, uf; cbn [frame_tables] in E; try done.
  - destruct (case_of ts0 _) as [u'|]; [|done]. injection E as <- <-. destruct Hs as [H8 Hz]. cbn [pack_pdu app].
    apply (writes_and _ _ [_]); [by apply writes_emits, emits_push8|]. apply writes_pdu_size; [lia|done].
  - injection E as -> ->. destruct Hs as [H1 H2]. cbn [pack_pdu].
    replace (zlen (pdu_value (PInstance p) (UInstance u) s)) with (-2 + 2 + zlen (pdu_value (PInstance p) (UInstance u) s)) by lia.
    apply writes_sized; [done|by rewrite Z.add_0_l|done].
  - by injection E as -> ->.
Qed.

Section reading.
#[local] Set Default Proof Using "Type*".
Context (behind : nat -> Z).

Lemma take_drop_exact {A} (a b : list A) n : length a = n -> take n (a ++ b) = a /\ drop n (a ++ b) = b.
Proof. intros <-. split; [apply take_app_length|apply drop_app_length]. Qed.

Lemma within_reads pf uf s p u s0 n : frame_wf uf = true -> frame_tables pf uf s = Some (p, u) -> entries_ok p u s ->
  zlen (pdu_value pf uf s) = n ->
  reads (unpack_within behind n u) s0 (pdu_value pf uf s) (tlvs_copy (pdu_rows pf uf s) s s0).
Proof.
  intros Hwf E Ht Hn rest. unfold unpack_within. rewrite region_exact by done.
  rewrite (pdu_entries_read _ _ _ _ _ s0 Hwf E Ht). cbn [Z.eqb].
  destruct (take_drop_exact (pdu_value pf uf s) rest (Z.to_nat n)) as [_ ->]; [unfold zlen in Hn; lia|done].
Qed.

Lemma pdu_reads pf uf s : frame_wf uf = true -> pdu_ok pf uf s ->
  reads (unpack_pdu behind uf) zero (pdu_bytes pf uf s) (pdu_copy pf uf s).
Proof.
  intros Hwf [Ht Hs] rest. destruct (frame_tables pf uf s) as [[p u]|] eqn:E; [|done].
  pose proof (zlen_nonneg (pdu_value pf uf s)) as Hz. unfold pdu_bytes, pdu_copy.
  destruct uf as [strict us|us|n us].
  - destruct Hs as [H8 Hl]. pose proof (pdu_entries_read _ _ _ _ _
      (set_num "pdu_size" (2 + zlen (pdu_value pf (UTyped strict us) s)) (set_num "pdu_type" (num s "pdu_type") zero)) Hwf E Ht) as Hr.
    assert (case_of us (num s "pdu_type") = Some u) as Hu.
    { destruct pf; try done. cbn [frame_tables] in E. destruct (case_of us _); [|done]. by injection E as _ ->. }
    set (v := pdu_value pf (UTyped strict us) s) in *.
    cbn [app unpack_pdu unpack_rows foldr unpack_row pull_as]. unfold andthen, pass, pull8. cbn [num set_num].
    rewrite fn_lookup_insert, fn_lookup_insert_ne, fn_lookup_insert by done.
    destruct (Z.ltb_spec (zlen (v ++ rest)) (2 + zlen v - 2)); [zlen_lia|]. rewrite Hu.
    destruct (take_drop_exact v rest (Z.to_nat (2 + zlen v - 2))) as [-> ->]; [unfold zlen; lia|].
    cbn [num set_num] in Hr. by rewrite Hr.
  - destruct Hs as [_ Hl]. set (v := pdu_value pf (UInstance us) s) in *.
    cbn [unpack_pdu unpack_rows foldr unpack_row pull_as]. unfold andthen, pass.
    rewrite <- app_assoc, (pa_run _ _ _ (parses_pull16 _ Hl)). cbn [num set_num]. rewrite fn_lookup_insert.
    assert (u = us) as -> by (destruct pf; try done; by injection E).
    by apply within_reads with (p := p).
  - assert (u = us) as -> by (destruct pf; try done; by injection E).
    by apply within_reads with (p := p).
Qed.
End reading.

(** ** Bodies round-trip *)

Definition counted (rows : list row) (f : string) : bool :=
  existsb (fun r => bool_decide (f ∈ stored r)) rows &&
  negb (bool_decide (f ∈ foldr (fun r fs => resized r ++ fs) [] rows)).
Definition body_wf (pb : pbody) (ub : ubody) : bool :=
  rows_sim (pb_head pb) (ub_head ub) && rows_wf [[]] (ub_head ub) && forallb (counted (ub_head ub)) (ub_counts ub) &&
  String.eqb (pb_list pb) (ub_list ub) && frame_wf (ub_frame ub).

Definition body_pdus (pb : pbody) (s : struct) : list struct := take (Z.to_nat (count_of (pb_counts pb) s)) (sub s (pb_list pb)).

(** A body that may be sent: the numbers are in range, both sides compute the same
    number of PDUs, which are there, not too many, perhaps not too few, and in range
    themselves. *)
Definition body_ok (pb : pbody) (ub : ubody) (s : struct) : Prop :=
  let n := count_of (pb_counts pb) s in
  rows_room [] (pb_head pb) s /\ rows_ok [] (ub_head ub) s /\
  ub_wrap ub (count_of (ub_counts ub) s) = n /\ (ub_some ub = true -> n <> 0) /\ count_ok n (ub_max ub) (sub s (pb_list pb)) /\
  Forall (pdu_ok (pb_frame pb) (ub_frame ub)) (body_pdus pb s).

Definition body_bytes (pb : pbody) (ub : ubody) (s : struct) : list Z :=
  rows_bytes [] (ub_head ub) s ++ concat (pdu_bytes (pb_frame pb) (ub_frame ub) <$> body_pdus pb s).
Definition body_copy (pb : pbody) (ub : ubody) (s s0 : struct) : struct :=
  set_sub (pb_list pb) (pdu_copy (pb_frame pb) (ub_frame ub) <$> body_pdus pb s) (rows_copy [] (ub_head ub) s s0).

Lemma body_wf_spec pb ub : body_wf pb ub = true ->
  rows_sim (pb_head pb) (ub_head ub) = true /\ rows_wf [[]] (ub_head ub) = true /\
  forallb (counted (ub_head ub)) (ub_counts ub) = true /\ pb_list pb = ub_list ub /\ frame_wf (ub_frame ub) = true.
Proof.
  unfold body_wf. intros [[[[H1 H2]%andb_true_iff H3]%andb_true_iff H4%String.eqb_eq]%andb_true_iff H5]%andb_true_iff.
  by split_and!.
Qed.

Lemma count_copy rows fs s s0 : forallb (counted rows) fs = true -> count_of fs (rows_copy [] rows s s0) = count_of fs s.
Proof.
  induction fs as [|f fs IH]; [done|]. cbn [forallb]. intros [Hf Hfs]%andb_true_iff. unfold count_of in *. cbn [foldr].
  rewrite IH by done. f_equal. unfold counted in Hf.
  apply andb_true_iff in Hf as [(r & Hr & Hs%bool_decide_eq_true)%existsb_exists Hn%negb_true_iff%bool_decide_eq_false].
  by eapply rows_copy_num.
Qed.

Lemma body_writes pb ub s : body_wf pb ub = true -> body_ok pb ub s -> writes (pack_pdu_body pb s) (body_bytes pb ub s).
Proof.
  intros (Hsim & Hwf & _ & _ & _)%body_wf_spec (Hroom & Hrows & _ & _ & _ & Hp). unfold pack_pdu_body, body_bytes, pack_elems.
  apply writes_and; [by apply rows_write|]. apply writes_elems. refine (list.Forall_impl _ _ _ Hp _). intros. by apply pdu_writes.
Qed.

Lemma body_reads behind pb ub s tag rest : body_wf pb ub = true -> body_ok pb ub s ->
  unpack_pdu_body behind ub (set_tl (Tl tag (zlen (body_bytes pb ub s))) zero) (body_bytes pb ub s ++ rest) =
  inr (body_copy pb ub s (set_tl (Tl tag (zlen (body_bytes pb ub s))) zero), rest).
Proof.
  intros (_ & Hwf & Hc & Hl & Hf)%body_wf_spec (_ & Hrows & Hn & Hs & Hco & Hp). unfold unpack_pdu_body. cbn [tl_of set_tl tl_length].
  destruct (Z.ltb_spec (zlen (body_bytes pb ub s ++ rest)) (zlen (body_bytes pb ub s))) as [|_]; [zlen_lia|].
  rewrite andb_false_r. unfold body_bytes at 2. rewrite <- app_assoc. unfold andthen.
  rewrite (rows_read _ _ (set_tl _ zero) Hwf Hrows). rewrite count_copy, Hn by done. cbv zeta.
  assert (ub_some ub && (count_of (pb_counts pb) s =? 0) = false) as -> by (destruct (ub_some ub); [specialize (Hs eq_refl)|done]; cbn; lia).
  pose proof (items_read (UpTo (ub_max ub)) (ub_list ub) (count_of (pb_counts pb) s) (unpack_pdu behind (ub_frame ub))
    (pdu_bytes (pb_frame pb) (ub_frame ub)) (pdu_copy (pb_frame pb) (ub_frame ub)) (body_pdus pb s)
    (rows_copy [] (ub_head ub) s (set_tl (Tl tag (zlen (body_bytes pb ub s))) zero))) as Hi.
  rewrite Hi; [unfold body_copy; by rewrite Hl|done|by apply Hco|by apply (zlen_take_count _ (ub_max ub))|].
  refine (list.Forall_impl _ _ _ Hp _). intros. by apply pdu_reads.
Qed.

(** *** Messages *)

(** A message is read as it was packed if the body is, to the structure [copy]. *)
Definition message_fits (tag : Z) (f : string) (bs : list Z) (s : struct) : Prop :=
  in_u16 (num s "sfn_sf") /\ tl_tag (tl_of (member s f)) = tag /\ in_u16 (tl_length (tl_of (member s f))) /\ in_u16 (zlen bs).
Definition message_bytes (tag : Z) (bs : list Z) (s : struct) : list Z := be16 (num s "sfn_sf") ++ tlv_bytes tag bs.
Definition message_copy (f : string) (copy s : struct) : struct := set_member f copy (set_num "sfn_sf" (num s "sfn_sf") zero).
(** What the unpacker of the body is given. *)
Definition fresh_body (tag : Z) (bs : list Z) : struct := set_tl (Tl tag (zlen bs)) zero.

Lemma message_writes tag f body bs s : in_u16 tag -> message_fits tag f bs s -> writes (body (member s f)) bs ->
  writes (pack_pdu_message tag f body s) (message_bytes tag bs s).
Proof.
  intros Ht (Hs & Htag & Hl & Hz) Hb. unfold pack_pdu_message, message_bytes.
  apply writes_and; [by apply writes_emits, emits_push16|]. rewrite <- (app_nil_r (tlv_bytes _ _)).
  apply writes_and; [|apply writes_ok]. destruct (tl_of (member s f)) as [tag' n]. cbn [tl_tag tl_length] in *. subst tag'.
  pose proof (tf_present (TlvFormat := tlv_format) tag n _ _ Ht Hl Hz Hb) as H.
  cbn [no_pad Z.to_nat replicate] in H. by rewrite app_nil_r in H.
Qed.

Lemma message_all_writes tag f body bs s : in_u16 tag -> message_fits tag f bs s -> writes (body (member s f)) bs ->
  writes (pack_pdu_message_all tag f body s) (message_bytes tag bs s).
Proof.
  intros Ht Hf Hb. destruct (message_writes _ _ _ _ _ Ht Hf Hb) as [Hbs Hw]. split; [done|].
  intros w Hrw Hl. specialize (Hw w Hrw Hl). unfold pack_pdu_message, pack_pdu_message_all, pack_and in *.
  destruct (push16 _ w) as [x w1]. destruct (Z.eqb_spec x 0); [by destruct Hw|].
  destruct (pack_tlv _ _ _ w1) as [y w2]. destruct (Z.eqb_spec y 0); [by destruct Hw|].
  destruct (pack_p7_vendor_extension_tlv None w2) as [z w3]. destruct Hw as [Hz Hw]. cbn [fst snd] in *.
  split; [|done]. by destruct (Z.eqb_spec z 0).
Qed.

Lemma message_reads tag f body bs copy s : in_u16 tag -> message_fits tag f bs s ->
  body (fresh_body tag bs) (bs ++ []) = inr (copy, []) ->
  unpack_pdu_message tag f body zero (message_bytes tag bs s) = (1, message_copy f copy s).
Proof.
  intros Ht (Hs & _ & _ & Hz) Hb. unfold unpack_pdu_message, message_bytes.
  rewrite (pa_run _ _ _ (parses_pull16 _ Hs)). unfold unpack_p7_tlv_list.
  assert (try_entries no_pad [entry_fn (Special tag f body)] (Tl tag (zlen bs))
    false (set_num "sfn_sf" (num s "sfn_sf") zero) (bs ++ []) = inr (true, message_copy f copy s, [])) as Htry.
  { cbn [try_entries entry_fn ut_tag ut_fn tl_tag tl_length]. rewrite Z.eqb_refl.
    change (member (set_num "sfn_sf" (num s "sfn_sf") zero) f) with zero. fold (fresh_body tag bs). by rewrite Hb. }
  rewrite <- (app_nil_r (tlv_bytes _ _)). unfold tlv_fuel.
  rewrite (tlv_loop_known _ _ _ _ (fun _ => Z.le_refl 0) _ _ _ _ _ _ _ _ Ht Hz Htry).
  destruct (length _) eqn:E; [|done]. unfold tlv_bytes in E. by rewrite !length_app in E.
Qed.

Lemma body_loop_reads tag f body bs copy s : in_u16 tag -> message_fits tag f bs s ->
  body (fresh_body tag bs) (bs ++ []) = inr (copy, []) ->
  unpack_body_loop tag f body zero (message_bytes tag bs s) = inr (message_copy f copy s, []).
Proof.
  intros Ht (Hs & _ & _ & Hz) Hb. unfold unpack_body_loop, message_bytes. cbn [unpack_rows foldr unpack_row pull_as].
  unfold andthen, pass. rewrite (pa_run _ _ _ (parses_pull16 _ Hs)).
  assert (unpack_tl (tlv_bytes tag bs) = Some (Tl tag (zlen bs), bs ++ [])) as Htl.
  { unfold tlv_bytes. rewrite app_assoc, app_nil_r. by apply (pa_run _ _ _ (parses_tl tag _ Ht Hz)). }
  pose proof (unpack_tl_length _ _ _ Htl) as Hlen. destruct (tlv_bytes _ bs) as [|b l]; [done|].
  cbn [body_loop]. rewrite Htl. cbn [tl_tag]. rewrite Z.eqb_refl.
  change (member (set_num _ _ zero) _) with zero. fold (fresh_body tag bs). rewrite Hb. cbn [storing length].
  by destruct (length l).
Qed.

(** A message whose body tables match is read as it was packed. *)
Definition pdu_message_ok (tag : Z) (f : string) (pb : pbody) (ub : ubody) (s : struct) : Prop :=
  message_fits tag f (body_bytes pb ub (member s f)) s /\ body_ok pb ub (member s f).
Definition pdu_message_bytes (tag : Z) (f : string) (pb : pbody) (ub : ubody) (s : struct) : list Z :=
  message_bytes tag (body_bytes pb ub (member s f)) s.
Definition pdu_message_copy (tag : Z) (f : string) (pb : pbody) (ub : ubody) (s : struct) : struct :=
  let body := member s f in message_copy f (body_copy pb ub body (fresh_body tag (body_bytes pb ub body))) s.

Lemma pdu_message_writes tag f pb ub s : in_u16 tag -> body_wf pb ub = true -> pdu_message_ok tag f pb ub s ->
  writes (pack_pdu_message tag f (pack_pdu_body pb) s) (pdu_message_bytes tag f pb ub s).
Proof. intros Ht Hwf [Hf Hok]. apply message_writes; [done..|]. by apply body_writes. Qed.

Lemma pdu_message_all_writes tag f pb ub s : in_u16 tag -> body_wf pb ub = true -> pdu_message_ok tag f pb ub s ->
  writes (pack_pdu_message_all tag f (pack_pdu_body pb) s) (pdu_message_bytes tag f pb ub s).
Proof. intros Ht Hwf [Hf Hok]. apply message_all_writes; [done..|]. by apply body_writes. Qed.

Lemma pdu_message_reads behind tag f pb ub s : in_u16 tag -> body_wf pb ub = true -> pdu_message_ok tag f pb ub s ->
  unpack_pdu_message tag f (unpack_pdu_body behind ub) zero (pdu_message_bytes tag f pb ub s) =
  (1, pdu_message_copy tag f pb ub s).
Proof. intros Ht Hwf [Hf Hok]. apply message_reads; [done..|]. unfold fresh_body. by apply body_reads. Qed.

(** *** The conditions can be evaluated *)

Definition tlv_row_okb (s : struct) (t : tlv_row) : bool :=
  negb (present t s) ||
  in_typeb U16 (tl_length (tl_of (member s (t_member t)))) && rows_okb [] (t_rows t) (member s (t_member t)).
Definition entry_okb (us : list entry) (s : struct) (e : pentry) : bool :=
  match e with
  | PRows t =>
      if sendable us t then
        (negb (present t s) || rows_roomb [] (t_rows t) (member s (t_member t))) && tlv_row_okb s (resolve (rows_of us) t)
      else negb (present t s)
  | PSpecial tag f _ => negb (tl_tag (tl_of (member s f)) =? tag)
  end.
Definition pdu_okb (pf : pframe) (uf : uframe) (s : struct) : bool :=
  match frame_tables pf uf s with Some (p, u) => forallb (entry_okb u s) p | None => false end &&
  match uf with
  | UTyped _ _ => in_typeb U8 (num s "pdu_type") && (2 + zlen (pdu_value pf uf s) <? 256)
  | UInstance _ => in_typeb U16 (num s "instance_length") && in_typeb U16 (zlen (pdu_value pf uf s))
  | UBare n _ => zlen (pdu_value pf uf s) =? n
  end.
Definition body_okb (pb : pbody) (ub : ubody) (s : struct) : bool :=
  let n := count_of (pb_counts pb) s in
  rows_roomb [] (pb_head pb) s && rows_okb [] (ub_head ub) s &&
  (ub_wrap ub (count_of (ub_counts ub) s) =? n) && negb (ub_some ub && (n =? 0)) && count_okb n (ub_max ub) (sub s (pb_list pb)) &&
  forallb (pdu_okb (pb_frame pb) (ub_frame ub)) (body_pdus pb s).
Definition message_fitsb (tag : Z) (f : string) (bs : list Z) (s : struct) : bool :=
  in_typeb U16 (num s "sfn_sf") && (tl_tag (tl_of (member s f)) =? tag) &&
  in_typeb U16 (tl_length (tl_of (member s f))) && in_typeb U16 (zlen bs).
Definition pdu_message_okb (tag : Z) (f : string) (pb : pbody) (ub : ubody) (s : struct) : bool :=
  message_fitsb tag f (body_bytes pb ub (member s f)) s && body_okb pb ub (member s f).

Lemma tlv_row_okb_spec s t : tlv_row_okb s t = true -> tlv_row_ok s t.
Proof.
  unfold tlv_row_okb, tlv_row_ok. intros H Hp. rewrite Hp in H. cbn in H.
  apply andb_true_iff in H as [H1%in_typeb_spec H2%rows_okb_spec]. done.
Qed.

Lemma entry_okb_spec us s e : entry_okb us s e = true -> entry_ok us s e.
Proof.
  destruct e as [t|tag f p]; cbn [entry_okb entry_ok absent]; [|by intros H%negb_true_iff%Z.eqb_neq].
  destruct (sendable us t); [|by intros H%negb_true_iff].
  intros [H1 H2%tlv_row_okb_spec]%andb_true_iff. split; [|done]. intros Hp. rewrite Hp in H1. by apply rows_roomb_spec.
Qed.

Lemma pdu_okb_spec pf uf s : pdu_okb pf uf s = true -> pdu_ok pf uf s.
Proof.
  unfold pdu_okb, pdu_ok. intros [H1 H2]%andb_true_iff. split.
  - destruct (frame_tables pf uf s) as [[p u]|]; [|done]. by apply (forallb_Forall (entry_okb u s)); [intros; apply entry_okb_spec|].
  - destruct uf as [strict us|us|n us].
    + apply andb_true_iff in H2 as [H2%in_typeb_spec H3]. split; [done|lia].
    + by apply andb_true_iff in H2 as [H2%in_typeb_spec H3%in_typeb_spec].
    + lia.
Qed.

Lemma body_okb_spec pb ub s : body_okb pb ub s = true -> body_ok pb ub s.
Proof.
  unfold body_okb, body_ok. intros [[[[[H1%rows_roomb_spec H2%rows_okb_spec]%andb_true_iff H3%Z.eqb_eq]%andb_true_iff
    Hs%negb_true_iff]%andb_true_iff H4%count_okb_spec]%andb_true_iff H5]%andb_true_iff.
  split_and!; [done..| |done|]; [intros Hb; rewrite Hb in Hs; cbn in Hs; lia|].
  by apply (forallb_Forall (pdu_okb (pb_frame pb) (ub_frame ub))); [intros; apply pdu_okb_spec|].
Qed.

Lemma message_fitsb_spec tag f bs s : message_fitsb tag f bs s = true -> message_fits tag f bs s.
Proof.
  unfold message_fitsb, message_fits. intros [[[H1%in_typeb_spec H2%Z.eqb_eq]%andb_true_iff H3%in_typeb_spec]%andb_true_iff
    H4%in_typeb_spec]%andb_true_iff. done.
Qed.

Lemma pdu_message_okb_spec tag f pb ub s : pdu_message_okb tag f pb ub s = true -> pdu_message_ok tag f pb ub s.
Proof.
  unfold pdu_message_okb, pdu_message_ok. intros [H1%message_fitsb_spec H2%body_okb_spec]%andb_true_iff. done.
Qed.
