(* ===== verification/LteDownlink.v ===== *)
(** * LTE requests ([nfapi_p7.c])

    The bodies of the P7 requests a VNF sends in LTE that are lists of PDUs with a
    type: DL_CONFIG, HI_DCI0 and LBT_DL_CONFIG; UL_CONFIG is in [LteUplink]; and
    TX, which is read by a loop of its own.  The index of a PDU is signed. *)

From S2P Require Import Prelude Tags Codec Layout LtePdu.
From stdpp Require Import functions strings.

Open Scope string_scope.
Open Scope list_scope.
Open Scope Z_scope.

(** ** DL_CONFIG.request *)

(* src: nfapi_p7.c :: pack_dl_config_dci_dl_pdu_rel8_value *)
Definition pack_dl_config_dci_dl_pdu_rel8_value : list row :=
  [Num U8 "dci_format"; Num U8 "cce_idx"; Num U8 "aggregation_level"; Num U16 "rnti";
   Num U8 "resource_allocation_type"; Num U8 "virtual_resource_block_assignment_flag";
   Num U32 "resource_block_coding"; Num U8 "mcs_1"; Num U8 "redundancy_version_1"; Num U8 "new_data_indicator_1";
   Num U8 "transport_block_to_codeword_swap_flag"; Num U8 "mcs_2"; Num U8 "redundancy_version_2";
   Num U8 "new_data_indicator_2"; Num U8 "harq_process"; Num U8 "tpmi"; Num U8 "pmi"; Num U8 "precoding_information";
   Num U8 "tpc"; Num U8 "downlink_assignment_index"; Num U8 "ngap"; Num U8 "transport_block_size_index";
   Num U8 "downlink_power_offset"; Num U8 "allocate_prach_flag"; Num U8 "preamble_index"; Num U8 "prach_mask_index";
   Num U8 "rnti_type"; Num U16 "transmission_power"].
(* src: nfapi_p7.c :: pack_dl_config_dci_dl_pdu_rel9_value *)
Definition pack_dl_config_dci_dl_pdu_rel9_value : list row :=
  [Num U8 "mcch_flag"; Num U8 "mcch_change_notification"; Num U8 "scrambling_identity"].
(* src: nfapi_p7.c :: pack_dl_config_dci_dl_pdu_rel10_value *)
Definition pack_dl_config_dci_dl_pdu_rel10_value : list row :=
  [Num U8 "cross_carrier_scheduling_flag"; Num U8 "carrier_indicator"; Num U8 "srs_flag"; Num U8 "srs_request";
   Num U8 "antenna_ports_scrambling_and_layers"; Num U8 "total_dci_length_including_padding"; Num U8 "n_dl_rb"].
(* src: nfapi_p7.c :: pack_dl_config_dci_dl_pdu_rel11_value *)
Definition pack_dl_config_dci_dl_pdu_rel11_value : list row :=
  [Num U8 "harq_ack_resource_offset"; Num U8 "pdsch_re_mapping_quasi_co_location_indicator"].
(* src: nfapi_p7.c :: pack_dl_config_dci_dl_pdu_rel12_value *)
Definition pack_dl_config_dci_dl_pdu_rel12_value : list row :=
  [Num U8 "primary_cell_type"; Num U8 "ul_dl_configuration_flag"; Num U8 "number_ul_dl_configurations";
   Arr U8 "ul_dl_configuration_indication" NFAPI_MAX_UL_DL_CONFIGURATIONS (Member "number_ul_dl_configurations")].
(* src: nfapi_p7.c :: pack_tpm_value *)
Definition pack_tpm_value : list row :=
  [Num U8 "num_prb_per_subband"; Num U8 "number_of_subbands"; Num U8 "num_antennas";
   Items (Unchecked NFAPI_MAX_NUM_SUBBANDS) "subband_info" (Member "number_of_subbands")
     [Num U8 "subband_index"; Num U8 "scheduled_ues";
      Items (Unchecked NFAPI_MAX_NUM_PHYSICAL_ANTENNAS) "precoding_value" (Outer (Member "num_antennas"))
        [Values (Unchecked NFAPI_MAX_NUM_SCHEDULED_UES) U16 "value" (Outer (Member "scheduled_ues"))]]].
(* src: nfapi_p7.c :: pack_dl_config_dci_dl_pdu_rel13_value *)
Definition pack_dl_config_dci_dl_pdu_rel13_value : list row :=
  [Num U8 "laa_end_partial_sf_flag"; Num U8 "laa_end_partial_sf_configuration"; Num U8 "initial_lbt_sf";
   Num U8 "codebook_size_determination"; Num U8 "drms_table_flag"; Num U8 "tpm_struct_flag";
   When (Equal (Member "tpm_struct_flag") 1) [Part "tpm" pack_tpm_value]].
(* src: nfapi_p7.c :: pack_dl_config_bch_pdu_rel8_value *)
Definition pack_dl_config_bch_pdu_rel8_value : list row :=
  [Num U16 "length"; Num U16 "pdu_index"; Num U16 "transmission_power"].
(* src: nfapi_p7.c :: pack_dl_config_mch_pdu_rel8_value *)
Definition pack_dl_config_mch_pdu_rel8_value : list row :=
  [Num U16 "length"; Num U16 "pdu_index"; Num U16 "rnti"; Num U8 "resource_allocation_type";
   Num U32 "resource_block_coding"; Num U8 "modulation"; Num U16 "transmission_power"; Num U16 "mbsfn_area_id"].
(* src: nfapi_p7.c :: pack_bf_vector_info *)
Definition pack_bf_vector_info : list row :=
  [Num U8 "subband_index"; Num U8 "num_antennas"; Arr U16 "bf_value" NFAPI_MAX_NUM_ANTENNAS (Member "num_antennas")].
(* src: nfapi_p7.c :: pack_dl_config_dlsch_pdu_rel8_value *)
Definition pack_dl_config_dlsch_pdu_rel8_value : list row :=
  [Num U16 "length"; Num U16 "pdu_index"; Num U16 "rnti"; Num U8 "resource_allocation_type";
   Num U8 "virtual_resource_block_assignment_flag"; Num U32 "resource_block_coding"; Num U8 "modulation";
   Num U8 "redundancy_version"; Num U8 "transport_blocks"; Num U8 "transport_block_to_codeword_swap_flag";
   Num U8 "transmission_scheme"; Num U8 "number_of_layers"; Num U8 "number_of_subbands";
   Arr U8 "codebook_index" NFAPI_MAX_NUM_SUBBANDS (Member "number_of_subbands"); Num U8 "ue_category_capacity";
   Num U8 "pa"; Num U8 "delta_power_offset_index"; Num U8 "ngap"; Num U8 "nprb"; Num U8 "transmission_mode";
   Num U8 "num_bf_prb_per_subband"; Num U8 "num_bf_vector";
   Elems "bf_vector" NFAPI_MAX_BF_VECTORS (Member "num_bf_vector") pack_bf_vector_info].
(* src: nfapi_p7.c :: pack_dl_config_dlsch_pdu_rel9_value *)
Definition pack_dl_config_dlsch_pdu_rel9_value : list row :=
  [Num U8 "nscid"].
(* src: nfapi_p7.c :: pack_dl_config_dlsch_pdu_rel10_value *)
Definition pack_dl_config_dlsch_pdu_rel10_value : list row :=
  [Num U8 "csi_rs_flag"; Num U8 "csi_rs_resource_config_r10";
   Num U16 "csi_rs_zero_tx_power_resource_config_bitmap_r10"; Num U8 "csi_rs_number_nzp_configuration";
   Arr U8 "csi_rs_resource_config" NFAPI_MAX_CSI_RS_RESOURCE_CONFIG (Member "csi_rs_number_nzp_configuration");
   Num U8 "pdsch_start"].
(* src: nfapi_p7.c :: pack_dl_config_dlsch_pdu_rel11_value *)
Definition pack_dl_config_dlsch_pdu_rel11_value : list row :=
  [Num U8 "drms_config_flag"; Num U16 "drms_scrambling"; Num U8 "csi_config_flag"; Num U16 "csi_scrambling";
   Num U8 "pdsch_re_mapping_flag"; Num U8 "pdsch_re_mapping_atenna_ports"; Num U8 "pdsch_re_mapping_freq_shift"].
(* src: nfapi_p7.c :: pack_dl_config_dlsch_pdu_rel12_value *)
Definition pack_dl_config_dlsch_pdu_rel12_value : list row :=
  [Num U8 "altcqi_table_r12"; Num U8 "maxlayers"; Num U8 "n_dl_harq"].
(* src: nfapi_p7.c :: pack_dl_config_dlsch_pdu_rel13_value *)
Definition pack_dl_config_dlsch_pdu_rel13_value : list row :=
  [Num U8 "dwpts_symbols"; Num U8 "initial_lbt_sf"; Num U8 "ue_type"; Num U8 "pdsch_payload_type";
   Num U16 "initial_transmission_sf_io"; Num U8 "drms_table_flag"].
(* src: nfapi_p7.c :: pack_dl_config_pch_pdu_rel8_value *)
Definition pack_dl_config_pch_pdu_rel8_value : list row :=
  [Num U16 "length"; Num U16 "pdu_index"; Num U16 "p_rnti"; Num U8 "resource_allocation_type";
   Num U8 "virtual_resource_block_assignment_flag"; Num U32 "resource_block_coding"; Num U8 "mcs";
   Num U8 "redundancy_version"; Num U8 "number_of_transport_blocks"; Num U8 "transport_block_to_codeword_swap_flag";
   Num U8 "transmission_scheme"; Num U8 "number_of_layers"; Num U8 "codebook_index"; Num U8 "ue_category_capacity";
   Num U8 "pa"; Num U16 "transmission_power"; Num U8 "nprb"; Num U8 "ngap"].
(* src: nfapi_p7.c :: pack_dl_config_pch_pdu_rel13_value *)
Definition pack_dl_config_pch_pdu_rel13_value : list row :=
  [Num U8 "ue_mode"; Num U16 "initial_transmission_sf_io"].
(* src: nfapi_p7.c :: pack_dl_config_prs_pdu_rel9_value *)
Definition pack_dl_config_prs_pdu_rel9_value : list row :=
  [Num U16 "transmission_power"; Num U8 "prs_bandwidth"; Num U8 "prs_cyclic_prefix_type"; Num U8 "prs_muting"].
(* src: nfapi_p7.c :: pack_dl_config_csi_rs_pdu_rel10_value *)
Definition pack_dl_config_csi_rs_pdu_rel10_value : list row :=
  [Num U8 "csi_rs_antenna_port_count_r10"; Num U8 "csi_rs_resource_config_r10"; Num U16 "transmission_power";
   Num U16 "csi_rs_zero_tx_power_resource_config_bitmap_r10"; Num U8 "csi_rs_number_of_nzp_configuration";
   Arr U8 "csi_rs_resource_config" NFAPI_MAX_CSI_RS_RESOURCE_CONFIG (Member "csi_rs_number_of_nzp_configuration")].
(* src: nfapi_p7.c :: pack_dl_config_csi_rs_pdu_rel13_value *)
Definition pack_dl_config_csi_rs_pdu_rel13_value : list row :=
  [Num U8 "csi_rs_class"; Num U8 "cdm_type"; Num U8 "num_bf_vector";
   Items (Unchecked NFAPI_MAX_BF_VECTORS) "bf_vector" (Member "num_bf_vector")
     [Num U8 "csi_rs_resource_index";
      Arr U16 "bf_value" NFAPI_MAX_ANTENNA_PORT_COUNT (Const NFAPI_MAX_ANTENNA_PORT_COUNT)]].
(* src: nfapi_p7.c :: pack_bf_vector *)
Definition pack_bf_vector : list row :=
  [Num U8 "subband_index"; Num U8 "num_antennas"; Arr U16 "bf_value" NFAPI_MAX_NUM_ANTENNAS (Member "num_antennas")].
(* src: nfapi_p7.c :: pack_dl_config_epdcch_parameters_rel11_value *)
Definition pack_dl_config_epdcch_parameters_rel11_value : list row :=
  [Num U8 "epdcch_resource_assignment_flag"; Num U16 "epdcch_id"; Num U8 "epdcch_start_symbol"; Num U8 "epdcch_num_prb";
   Arr U8 "epdcch_prb_index" NFAPI_MAX_EPDCCH_PRB (Member "epdcch_num_prb"); Part "bf_vector" pack_bf_vector].
(* src: nfapi_p7.c :: pack_dl_config_epdcch_parameters_rel13_value *)
Definition pack_dl_config_epdcch_parameters_rel13_value : list row :=
  [Num U8 "dwpts_symbols"; Num U8 "initial_lbt_sf"].
(* src: nfapi_p7.c :: pack_dl_config_mpdcch_pdu_rel13_value *)
Definition pack_dl_config_mpdcch_pdu_rel13_value : list row :=
  [Num U8 "mpdcch_narrow_band"; Num U8 "number_of_prb_pairs"; Num U8 "resource_block_assignment";
   Num U8 "mpdcch_tansmission_type"; Num U8 "start_symbol"; Num U8 "ecce_index"; Num U8 "aggregation_level";
   Num U8 "rnti_type"; Num U16 "rnti"; Num U8 "ce_mode"; Num U16 "drms_scrambling_init";
   Num U16 "initial_transmission_sf_io"; Num U16 "transmission_power"; Num U8 "dci_format";
   Num U16 "resource_block_coding"; Num U8 "mcs"; Num U8 "pdsch_reptition_levels"; Num U8 "redundancy_version";
   Num U8 "new_data_indicator"; Num U8 "harq_process"; Num U8 "tpmi_length"; Num U8 "tpmi"; Num U8 "pmi_flag";
   Num U8 "pmi"; Num U8 "harq_resource_offset"; Num U8 "dci_subframe_repetition_number"; Num U8 "tpc";
   Num U8 "downlink_assignment_index_length"; Num U8 "downlink_assignment_index"; Num U8 "allocate_prach_flag";
   Num U8 "preamble_index"; Num U8 "prach_mask_index"; Num U8 "starting_ce_level"; Num U8 "srs_request";
   Num U8 "antenna_ports_and_scrambling_identity_flag"; Num U8 "antenna_ports_and_scrambling_identity";
   Num U8 "frequency_hopping_enabled_flag"; Num U8 "paging_direct_indication_differentiation_flag";
   Num U8 "direct_indication"; Num U8 "total_dci_length_including_padding"; Num U8 "number_of_tx_antenna_ports";
   Arr U16 "precoding_value" NFAPI_MAX_TX_PHYSICAL_ANTENNA_PORTS (Member "number_of_tx_antenna_ports")].
(* src: nfapi_p7.c :: pack_dl_config_nbch_pdu_rel13_value *)
Definition pack_dl_config_nbch_pdu_rel13_value : list row :=
  [Num U16 "length"; Num U16 "pdu_index"; Num U16 "transmission_power"; Num U16 "hyper_sfn_2_lsbs"].
(* src: nfapi_p7.c :: pack_dl_config_npdcch_pdu_rel13_value *)
Definition pack_dl_config_npdcch_pdu_rel13_value : list row :=
  [Num U16 "length"; Num U16 "pdu_index"; Num U8 "ncce_index"; Num U8 "aggregation_level"; Num U8 "start_symbol";
   Num U8 "rnti_type"; Num U16 "rnti"; Num U8 "scrambling_reinitialization_batch_index";
   Num U8 "nrs_antenna_ports_assumed_by_the_ue"; Num U8 "dci_format"; Num U8 "scheduling_delay";
   Num U8 "resource_assignment"; Num U8 "repetition_number"; Num U8 "mcs"; Num U8 "new_data_indicator";
   Num U8 "harq_ack_resource"; Num U8 "npdcch_order_indication"; Num U8 "starting_number_of_nprach_repetitions";
   Num U8 "subcarrier_indication_of_nprach"; Num U8 "paging_direct_indication_differentation_flag";
   Num U8 "direct_indication"; Num U8 "dci_subframe_repetition_number"; Num U8 "total_dci_length_including_padding"].
(* src: nfapi_p7.c :: pack_dl_config_ndlsch_pdu_rel13_value *)
Definition pack_dl_config_ndlsch_pdu_rel13_value : list row :=
  [Num U16 "length"; Num U16 "pdu_index"; Num U8 "start_symbol"; Num U8 "rnti_type"; Num U16 "rnti";
   Num U16 "resource_assignment"; Num U16 "repetition_number"; Num U8 "modulation";
   Num U8 "number_of_subframes_for_resource_assignment"; Num U8 "scrambling_sequence_initialization_cinit";
   Num U16 "sf_idx"; Num U8 "nrs_antenna_ports_assumed_by_the_ue"].
(* src: nfapi_p7.c :: unpack_dl_config_dci_dl_pdu_rel8_value *)
Definition unpack_dl_config_dci_dl_pdu_rel8_value : list row :=
  [Num U8 "dci_format"; Num U8 "cce_idx"; Num U8 "aggregation_level"; Num U16 "rnti";
   Num U8 "resource_allocation_type"; Num U8 "virtual_resource_block_assignment_flag";
   Num U32 "resource_block_coding"; Num U8 "mcs_1"; Num U8 "redundancy_version_1"; Num U8 "new_data_indicator_1";
   Num U8 "transport_block_to_codeword_swap_flag"; Num U8 "mcs_2"; Num U8 "redundancy_version_2";
   Num U8 "new_data_indicator_2"; Num U8 "harq_process"; Num U8 "tpmi"; Num U8 "pmi"; Num U8 "precoding_information";
   Num U8 "tpc"; Num U8 "downlink_assignment_index"; Num U8 "ngap"; Num U8 "transport_block_size_index";
   Num U8 "downlink_power_offset"; Num U8 "allocate_prach_flag"; Num U8 "preamble_index"; Num U8 "prach_mask_index";
   Num U8 "rnti_type"; Num U16 "transmission_power"].
(* src: nfapi_p7.c :: unpack_dl_config_dci_dl_pdu_rel9_value *)
Definition unpack_dl_config_dci_dl_pdu_rel9_value : list row :=
  [Num U8 "mcch_flag"; Num U8 "mcch_change_notification"; Num U8 "scrambling_identity"].
(* src: nfapi_p7.c :: unpack_dl_config_dci_dl_pdu_rel10_value *)
Definition unpack_dl_config_dci_dl_pdu_rel10_value : list row :=
  [Num U8 "cross_carrier_scheduling_flag"; Num U8 "carrier_indicator"; Num U8 "srs_flag"; Num U8 "srs_request";
   Num U8 "antenna_ports_scrambling_and_layers"; Num U8 "total_dci_length_including_padding"; Num U8 "n_dl_rb"].
(* src: nfapi_p7.c :: unpack_dl_config_dci_dl_pdu_rel11_value *)
Definition unpack_dl_config_dci_dl_pdu_rel11_value : list row :=
  [Num U8 "harq_ack_resource_offset"; Num U8 "pdsch_re_mapping_quasi_co_location_indicator"].
(* src: nfapi_p7.c :: unpack_dl_config_dci_dl_pdu_rel12_value *)
Definition unpack_dl_config_dci_dl_pdu_rel12_value : list row :=
  [Num U8 "primary_cell_type"; Num U8 "ul_dl_configuration_flag"; Num U8 "number_ul_dl_configurations";
   Arr U8 "ul_dl_configuration_indication" NFAPI_MAX_UL_DL_CONFIGURATIONS (Member "number_ul_dl_configurations")].
(* src: nfapi_p7.c :: unpack_tpm_value *)
Definition unpack_tpm_value : list row :=
  [Num U8 "num_prb_per_subband"; Num U8 "number_of_subbands"; Num U8 "num_antennas";
   Items (Unchecked NFAPI_MAX_NUM_SUBBANDS) "subband_info" (Member "number_of_subbands")
     [Num U8 "subband_index"; Num U8 "scheduled_ues";
      Items (Unchecked NFAPI_MAX_NUM_PHYSICAL_ANTENNAS) "precoding_value" (Outer (Member "num_antennas"))
        [Values (Unchecked NFAPI_MAX_NUM_SCHEDULED_UES) U16 "value" (Outer (Member "scheduled_ues"))]]].
(** The flag is sent if the value has more than five bytes. *)
(* src: nfapi_p7.c :: unpack_dl_config_dci_dl_pdu_rel13_value *)
Definition unpack_dl_config_dci_dl_pdu_rel13_value : unpacker struct := fun s l =>
  unpack_rows []
    ([Num U8 "laa_end_partial_sf_flag"; Num U8 "laa_end_partial_sf_configuration"; Num U8 "initial_lbt_sf";
      Num U8 "codebook_size_determination"; Num U8 "drms_table_flag"] ++
     if 5 <? tl_length (tl_of s) then
       [Num U8 "tpm_struct_flag"; When (Equal (Member "tpm_struct_flag") 1) [Part "tpm" unpack_tpm_value]]
     else [])
    (set_num "tpm_struct_flag" 0 s) l.
(* src: nfapi_p7.c :: unpack_dl_config_bch_pdu_rel8_value *)
Definition unpack_dl_config_bch_pdu_rel8_value : list row :=
  [Num U16 "length"; Num S16 "pdu_index"; Num U16 "transmission_power"].
(* src: nfapi_p7.c :: unpack_dl_config_mch_pdu_rel8_value *)
Definition unpack_dl_config_mch_pdu_rel8_value : list row :=
  [Num U16 "length"; Num S16 "pdu_index"; Num U16 "rnti"; Num U8 "resource_allocation_type";
   Num U32 "resource_block_coding"; Num U8 "modulation"; Num U16 "transmission_power"; Num U16 "mbsfn_area_id"].
(** There is no check of the number of vectors. *)
(* src: nfapi_p7.c :: unpack_dl_config_dlsch_pdu_rel8_value *)
Definition unpack_dl_config_dlsch_pdu_rel8_value : list row :=
  [Num U16 "length"; Num S16 "pdu_index"; Num U16 "rnti"; Num U8 "resource_allocation_type";
   Num U8 "virtual_resource_block_assignment_flag"; Num U32 "resource_block_coding"; Num U8 "modulation";
   Num U8 "redundancy_version"; Num U8 "transport_blocks"; Num U8 "transport_block_to_codeword_swap_flag";
   Num U8 "transmission_scheme"; Num U8 "number_of_layers"; Num U8 "number_of_subbands";
   Arr U8 "codebook_index" NFAPI_MAX_NUM_SUBBANDS (Member "number_of_subbands"); Num U8 "ue_category_capacity"; Num U8 "pa";
   Num U8 "delta_power_offset_index"; Num U8 "ngap"; Num U8 "nprb"; Num U8 "transmission_mode";
   Num U8 "num_bf_prb_per_subband"; Num U8 "num_bf_vector"; 
   Items (Unchecked NFAPI_MAX_BF_VECTORS) "bf_vector" (Member "num_bf_vector")
     [Num U8 "subband_index"; Num U8 "num_antennas"; Arr U16 "bf_value" NFAPI_MAX_NUM_ANTENNAS (Member "num_antennas")]].
(* src: nfapi_p7.c :: unpack_dl_config_dlsch_pdu_rel9_value *)
Definition unpack_dl_config_dlsch_pdu_rel9_value : list row :=
  [Num U8 "nscid"].
(* src: nfapi_p7.c :: unpack_dl_config_dlsch_pdu_rel10_value *)
Definition unpack_dl_config_dlsch_pdu_rel10_value : list row :=
  [Num U8 "csi_rs_flag"; Num U8 "csi_rs_resource_config_r10";
   Num U16 "csi_rs_zero_tx_power_resource_config_bitmap_r10"; Num U8 "csi_rs_number_nzp_configuration";
   Arr U8 "csi_rs_resource_config" NFAPI_MAX_CSI_RS_RESOURCE_CONFIG (Member "csi_rs_number_nzp_configuration");
   Num U8 "pdsch_start"].
(* src: nfapi_p7.c :: unpack_dl_config_dlsch_pdu_rel11_value *)
Definition unpack_dl_config_dlsch_pdu_rel11_value : list row :=
  [Num U8 "drms_config_flag"; Num U16 "drms_scrambling"; Num U8 "csi_config_flag"; Num U16 "csi_scrambling";
   Num U8 "pdsch_re_mapping_flag"; Num U8 "pdsch_re_mapping_atenna_ports"; Num U8 "pdsch_re_mapping_freq_shift"].
(* src: nfapi_p7.c :: unpack_dl_config_dlsch_pdu_rel12_value *)
Definition unpack_dl_config_dlsch_pdu_rel12_value : list row :=
  [Num U8 "altcqi_table_r12"; Num U8 "maxlayers"; Num U8 "n_dl_harq"].
(* src: nfapi_p7.c :: unpack_dl_config_dlsch_pdu_rel13_value *)
Definition unpack_dl_config_dlsch_pdu_rel13_value : list row :=
  [Num U8 "dwpts_symbols"; Num U8 "initial_lbt_sf"; Num U8 "ue_type"; Num U8 "pdsch_payload_type";
   Num U16 "initial_transmission_sf_io"; Num U8 "drms_table_flag"].
(* src: nfapi_p7.c :: unpack_dl_config_pch_pdu_rel8_value *)
Definition unpack_dl_config_pch_pdu_rel8_value : list row :=
  [Num U16 "length"; Num S16 "pdu_index"; Num U16 "p_rnti"; Num U8 "resource_allocation_type";
   Num U8 "virtual_resource_block_assignment_flag"; Num U32 "resource_block_coding"; Num U8 "mcs";
   Num U8 "redundancy_version"; Num U8 "number_of_transport_blocks"; Num U8 "transport_block_to_codeword_swap_flag";
   Num U8 "transmission_scheme"; Num U8 "number_of_layers"; Num U8 "codebook_index"; Num U8 "ue_category_capacity";
   Num U8 "pa"; Num U16 "transmission_power"; Num U8 "nprb"; Num U8 "ngap"].
(* src: nfapi_p7.c :: unpack_dl_config_pch_pdu_rel13_value *)
Definition unpack_dl_config_pch_pdu_rel13_value : list row :=
  [Num U8 "ue_mode"; Num U16 "initial_transmission_sf_io"].
(* src: nfapi_p7.c :: unpack_dl_config_prs_pdu_rel9_value *)
Definition unpack_dl_config_prs_pdu_rel9_value : list row :=
  [Num U16 "transmission_power"; Num U8 "prs_bandwidth"; Num U8 "prs_cyclic_prefix_type"; Num U8 "prs_muting"].
(* src: nfapi_p7.c :: unpack_dl_config_csi_rs_pdu_rel10_value *)
Definition unpack_dl_config_csi_rs_pdu_rel10_value : list row :=
  [Num U8 "csi_rs_antenna_port_count_r10"; Num U8 "csi_rs_resource_config_r10"; Num U16 "transmission_power";
   Num U16 "csi_rs_zero_tx_power_resource_config_bitmap_r10"; Num U8 "csi_rs_number_of_nzp_configuration";
   Arr U8 "csi_rs_resource_config" NFAPI_MAX_CSI_RS_RESOURCE_CONFIG (Member "csi_rs_number_of_nzp_configuration")].
(** The values of the vectors are not read. *)
(* src: nfapi_p7.c :: unpack_dl_config_csi_rs_pdu_rel13_value *)
Definition unpack_dl_config_csi_rs_pdu_rel13_value : list row :=
  [Num U8 "csi_rs_class"; Num U8 "cdm_type"; Num U8 "num_bf_vector";
   Items (Unchecked NFAPI_MAX_BF_VECTORS) "bf_vector" (Member "num_bf_vector")
     [Num U8 "csi_rs_resource_index"]].
(* src: nfapi_p7.c :: unpack_dl_config_epdcch_params_rel11_value *)
Definition unpack_dl_config_epdcch_params_rel11_value : list row :=
  [Num U8 "epdcch_resource_assignment_flag"; Num U16 "epdcch_id"; Num U8 "epdcch_start_symbol"; Num U8 "epdcch_num_prb";
   Arr U8 "epdcch_prb_index" NFAPI_MAX_EPDCCH_PRB (Member "epdcch_num_prb"); 
   Part "bf_vector"
     [Num U8 "subband_index"; Num U8 "num_antennas"; Arr U16 "bf_value" NFAPI_MAX_NUM_ANTENNAS (Member "num_antennas")]].
(* src: nfapi_p7.c :: unpack_dl_config_epdcch_params_rel13_value *)
Definition unpack_dl_config_epdcch_params_rel13_value : list row :=
  [Num U8 "dwpts_symbols"; Num U8 "initial_lbt_sf"].
(* src: nfapi_p7.c :: unpack_dl_config_mpdcch_pdu_rel13_value *)
Definition unpack_dl_config_mpdcch_pdu_rel13_value : list row :=
  [Num U8 "mpdcch_narrow_band"; Num U8 "number_of_prb_pairs"; Num U8 "resource_block_assignment";
   Num U8 "mpdcch_tansmission_type"; Num U8 "start_symbol"; Num U8 "ecce_index"; Num U8 "aggregation_level";
   Num U8 "rnti_type"; Num U16 "rnti"; Num U8 "ce_mode"; Num U16 "drms_scrambling_init";
   Num U16 "initial_transmission_sf_io"; Num U16 "transmission_power"; Num U8 "dci_format";
   Num U16 "resource_block_coding"; Num U8 "mcs"; Num U8 "pdsch_reptition_levels"; Num U8 "redundancy_version";
   Num U8 "new_data_indicator"; Num U8 "harq_process"; Num U8 "tpmi_length"; Num U8 "tpmi"; Num U8 "pmi_flag";
   Num U8 "pmi"; Num U8 "harq_resource_offset"; Num U8 "dci_subframe_repetition_number"; Num U8 "tpc";
   Num U8 "downlink_assignment_index_length"; Num U8 "downlink_assignment_index"; Num U8 "allocate_prach_flag";
   Num U8 "preamble_index"; Num U8 "prach_mask_index"; Num U8 "starting_ce_level"; Num U8 "srs_request";
   Num U8 "antenna_ports_and_scrambling_identity_flag"; Num U8 "antenna_ports_and_scrambling_identity";
   Num U8 "frequency_hopping_enabled_flag"; Num U8 "paging_direct_indication_differentiation_flag";
   Num U8 "direct_indication"; Num U8 "total_dci_length_including_padding"; Num U8 "number_of_tx_antenna_ports";
   Arr U16 "precoding_value" NFAPI_MAX_TX_PHYSICAL_ANTENNA_PORTS (Member "number_of_tx_antenna_ports")].
(* src: nfapi_p7.c :: unpack_dl_config_nbch_pdu_rel13_value *)
Definition unpack_dl_config_nbch_pdu_rel13_value : list row :=
  [Num U16 "length"; Num S16 "pdu_index"; Num U16 "transmission_power"; Num U16 "hyper_sfn_2_lsbs"].
(* src: nfapi_p7.c :: unpack_dl_config_npdcch_pdu_rel13_value *)
Definition unpack_dl_config_npdcch_pdu_rel13_value : list row :=
  [Num U16 "length"; Num S16 "pdu_index"; Num U8 "ncce_index"; Num U8 "aggregation_level"; Num U8 "start_symbol";
   Num U8 "rnti_type"; Num U16 "rnti"; Num U8 "scrambling_reinitialization_batch_index";
   Num U8 "nrs_antenna_ports_assumed_by_the_ue"; Num U8 "dci_format"; Num U8 "scheduling_delay";
   Num U8 "resource_assignment"; Num U8 "repetition_number"; Num U8 "mcs"; Num U8 "new_data_indicator";
   Num U8 "harq_ack_resource"; Num U8 "npdcch_order_indication"; Num U8 "starting_number_of_nprach_repetitions";
   Num U8 "subcarrier_indication_of_nprach"; Num U8 "paging_direct_indication_differentation_flag";
   Num U8 "direct_indication"; Num U8 "dci_subframe_repetition_number"; Num U8 "total_dci_length_including_padding"].
(* src: nfapi_p7.c :: unpack_dl_config_ndlsch_pdu_rel13_value *)
Definition unpack_dl_config_ndlsch_pdu_rel13_value : list row :=
  [Num U16 "length"; Num S16 "pdu_index"; Num U8 "start_symbol"; Num U8 "rnti_type"; Num U16 "rnti";
   Num U16 "resource_assignment"; Num U16 "repetition_number"; Num U8 "modulation";
   Num U8 "number_of_subframes_for_resource_assignment"; Num U8 "scrambling_sequence_initialization_cinit";
   Num U16 "sf_idx"; Num U8 "nrs_antenna_ports_assumed_by_the_ue"].
(* src: nfapi_p7.c :: pack_dl_config_request_body_value *)
Definition pack_dl_config_request_body_value : pbody :=
  PBody [Num U8 "number_pdcch_ofdm_symbols"; Num U8 "number_dci"; Num U16 "number_pdu";
    Num U8 "number_pdsch_rnti"; Num U16 "transmission_power_pcfich"] ["number_pdu"] "dl_config_pdu_list"
    (PTyped [
      (NFAPI_DL_CONFIG_DCI_DL_PDU_TYPE,
        [Write NFAPI_DL_CONFIG_REQUEST_DCI_DL_PDU_REL8_TAG "dci_dl_pdu.dci_dl_pdu_rel8"
           pack_dl_config_dci_dl_pdu_rel8_value;
         Write NFAPI_DL_CONFIG_REQUEST_DCI_DL_PDU_REL9_TAG "dci_dl_pdu.dci_dl_pdu_rel9"
           pack_dl_config_dci_dl_pdu_rel9_value;
         Write NFAPI_DL_CONFIG_REQUEST_DCI_DL_PDU_REL10_TAG "dci_dl_pdu.dci_dl_pdu_rel10"
           pack_dl_config_dci_dl_pdu_rel10_value;
         Write NFAPI_DL_CONFIG_REQUEST_DCI_DL_PDU_REL11_TAG "dci_dl_pdu.dci_dl_pdu_rel11"
           pack_dl_config_dci_dl_pdu_rel11_value;
         Write NFAPI_DL_CONFIG_REQUEST_DCI_DL_PDU_REL12_TAG "dci_dl_pdu.dci_dl_pdu_rel12"
           pack_dl_config_dci_dl_pdu_rel12_value;
         Write NFAPI_DL_CONFIG_REQUEST_DCI_DL_PDU_REL13_TAG "dci_dl_pdu.dci_dl_pdu_rel13"
           pack_dl_config_dci_dl_pdu_rel13_value]);
      (NFAPI_DL_CONFIG_BCH_PDU_TYPE,
        [Write NFAPI_DL_CONFIG_REQUEST_BCH_PDU_REL8_TAG "bch_pdu.bch_pdu_rel8"
           pack_dl_config_bch_pdu_rel8_value]);
      (NFAPI_DL_CONFIG_MCH_PDU_TYPE,
        [Write NFAPI_DL_CONFIG_REQUEST_MCH_PDU_REL8_TAG "mch_pdu.mch_pdu_rel8"
           pack_dl_config_mch_pdu_rel8_value]);
      (NFAPI_DL_CONFIG_DLSCH_PDU_TYPE,
        [Write NFAPI_DL_CONFIG_REQUEST_DLSCH_PDU_REL8_TAG "dlsch_pdu.dlsch_pdu_rel8"
           pack_dl_config_dlsch_pdu_rel8_value;
         Write NFAPI_DL_CONFIG_REQUEST_DLSCH_PDU_REL9_TAG "dlsch_pdu.dlsch_pdu_rel9"
           pack_dl_config_dlsch_pdu_rel9_value;
         Write NFAPI_DL_CONFIG_REQUEST_DLSCH_PDU_REL10_TAG "dlsch_pdu.dlsch_pdu_rel10"
           pack_dl_config_dlsch_pdu_rel10_value;
         Write NFAPI_DL_CONFIG_REQUEST_DLSCH_PDU_REL11_TAG "dlsch_pdu.dlsch_pdu_rel11"
           pack_dl_config_dlsch_pdu_rel11_value;
         Write NFAPI_DL_CONFIG_REQUEST_DLSCH_PDU_REL12_TAG "dlsch_pdu.dlsch_pdu_rel12"
           pack_dl_config_dlsch_pdu_rel12_value;
         Write NFAPI_DL_CONFIG_REQUEST_DLSCH_PDU_REL13_TAG "dlsch_pdu.dlsch_pdu_rel13"
           pack_dl_config_dlsch_pdu_rel13_value]);
      (NFAPI_DL_CONFIG_PCH_PDU_TYPE,
        [Write NFAPI_DL_CONFIG_REQUEST_PCH_PDU_REL8_TAG "pch_pdu.pch_pdu_rel8"
           pack_dl_config_pch_pdu_rel8_value;
         Write NFAPI_DL_CONFIG_REQUEST_PCH_PDU_REL13_TAG "pch_pdu.pch_pdu_rel13"
           pack_dl_config_pch_pdu_rel13_value]);
      (NFAPI_DL_CONFIG_PRS_PDU_TYPE,
        [Write NFAPI_DL_CONFIG_REQUEST_PRS_PDU_REL9_TAG "prs_pdu.prs_pdu_rel9"
           pack_dl_config_prs_pdu_rel9_value]);
      (NFAPI_DL_CONFIG_CSI_RS_PDU_TYPE,
        [Write NFAPI_DL_CONFIG_REQUEST_CSI_RS_PDU_REL10_TAG "csi_rs_pdu.csi_rs_pdu_rel10"
           pack_dl_config_csi_rs_pdu_rel10_value;
         Write NFAPI_DL_CONFIG_REQUEST_CSI_RS_PDU_REL13_TAG "csi_rs_pdu.csi_rs_pdu_rel13"
           pack_dl_config_csi_rs_pdu_rel13_value]);
      (NFAPI_DL_CONFIG_EPDCCH_DL_PDU_TYPE,
        [Write NFAPI_DL_CONFIG_REQUEST_EPDCCH_PDU_REL8_TAG "epdcch_pdu.epdcch_pdu_rel8"
           pack_dl_config_dci_dl_pdu_rel8_value;
         Write NFAPI_DL_CONFIG_REQUEST_EPDCCH_PDU_REL9_TAG "epdcch_pdu.epdcch_pdu_rel9"
           pack_dl_config_dci_dl_pdu_rel9_value;
         Write NFAPI_DL_CONFIG_REQUEST_EPDCCH_PDU_REL10_TAG "epdcch_pdu.epdcch_pdu_rel10"
           pack_dl_config_dci_dl_pdu_rel10_value;
         Write NFAPI_DL_CONFIG_REQUEST_EPDCCH_PDU_REL11_TAG "epdcch_pdu.epdcch_pdu_rel11"
           pack_dl_config_dci_dl_pdu_rel11_value;
         Write NFAPI_DL_CONFIG_REQUEST_EPDCCH_PDU_REL12_TAG "epdcch_pdu.epdcch_pdu_rel12"
           pack_dl_config_dci_dl_pdu_rel12_value;
         Write NFAPI_DL_CONFIG_REQUEST_EPDCCH_PDU_REL13_TAG "epdcch_pdu.epdcch_pdu_rel13"
           pack_dl_config_dci_dl_pdu_rel13_value;
         Write NFAPI_DL_CONFIG_REQUEST_EPDCCH_PARAM_REL11_TAG "epdcch_pdu.epdcch_params_rel11"
           pack_dl_config_epdcch_parameters_rel11_value;
         Write NFAPI_DL_CONFIG_REQUEST_EPDCCH_PARAM_REL13_TAG "epdcch_pdu.epdcch_params_rel13"
           pack_dl_config_epdcch_parameters_rel13_value]);
      (NFAPI_DL_CONFIG_MPDCCH_PDU_TYPE,
        [Write NFAPI_DL_CONFIG_REQUEST_MPDCCH_PDU_REL13_TAG "mpdcch_pdu.mpdcch_pdu_rel13"
           pack_dl_config_mpdcch_pdu_rel13_value]);
      (NFAPI_DL_CONFIG_NBCH_PDU_TYPE,
        [Write NFAPI_DL_CONFIG_REQUEST_NBCH_PDU_REL13_TAG "nbch_pdu.nbch_pdu_rel13"
           pack_dl_config_nbch_pdu_rel13_value]);
      (NFAPI_DL_CONFIG_NPDCCH_PDU_TYPE,
        [Write NFAPI_DL_CONFIG_REQUEST_NPDCCH_PDU_REL13_TAG "npdcch_pdu.npdcch_pdu_rel13"
           pack_dl_config_npdcch_pdu_rel13_value]);
      (NFAPI_DL_CONFIG_NDLSCH_PDU_TYPE,
        [Write NFAPI_DL_CONFIG_REQUEST_NDLSCH_PDU_REL13_TAG "ndlsch_pdu.ndlsch_pdu_rel13"
           pack_dl_config_ndlsch_pdu_rel13_value])]).
(* src: nfapi_p7.c :: unpack_dl_config_request_body_value *)
Definition unpack_dl_config_request_body_value : ubody :=
  UBody false false [Num U8 "number_pdcch_ofdm_symbols"; Num U8 "number_dci"; Num U16 "number_pdu";
    Num U8 "number_pdsch_rnti"; Num U16 "transmission_power_pcfich"] ["number_pdu"] (fun n => n) NFAPI_DL_CONFIG_MAX_PDU "dl_config_pdu_list"
    (UTyped false [
      (NFAPI_DL_CONFIG_DCI_DL_PDU_TYPE,
        [Read NFAPI_DL_CONFIG_REQUEST_DCI_DL_PDU_REL8_TAG "dci_dl_pdu.dci_dl_pdu_rel8"
           unpack_dl_config_dci_dl_pdu_rel8_value;
         Read NFAPI_DL_CONFIG_REQUEST_DCI_DL_PDU_REL9_TAG "dci_dl_pdu.dci_dl_pdu_rel9"
           unpack_dl_config_dci_dl_pdu_rel9_value;
         Read NFAPI_DL_CONFIG_REQUEST_DCI_DL_PDU_REL10_TAG "dci_dl_pdu.dci_dl_pdu_rel10"
           unpack_dl_config_dci_dl_pdu_rel10_value;
         Read NFAPI_DL_CONFIG_REQUEST_DCI_DL_PDU_REL11_TAG "dci_dl_pdu.dci_dl_pdu_rel11"
           unpack_dl_config_dci_dl_pdu_rel11_value;
         Read NFAPI_DL_CONFIG_REQUEST_DCI_DL_PDU_REL12_TAG "dci_dl_pdu.dci_dl_pdu_rel12"
           unpack_dl_config_dci_dl_pdu_rel12_value;
         Special NFAPI_DL_CONFIG_REQUEST_DCI_DL_PDU_REL13_TAG "dci_dl_pdu.dci_dl_pdu_rel13" unpack_dl_config_dci_dl_pdu_rel13_value]);
      (NFAPI_DL_CONFIG_BCH_PDU_TYPE,
        [Read NFAPI_DL_CONFIG_REQUEST_BCH_PDU_REL8_TAG "bch_pdu.bch_pdu_rel8"
           unpack_dl_config_bch_pdu_rel8_value]);
      (NFAPI_DL_CONFIG_MCH_PDU_TYPE,
        [Read NFAPI_DL_CONFIG_REQUEST_MCH_PDU_REL8_TAG "mch_pdu.mch_pdu_rel8"
           unpack_dl_config_mch_pdu_rel8_value]);
      (NFAPI_DL_CONFIG_DLSCH_PDU_TYPE,
        [Read NFAPI_DL_CONFIG_REQUEST_DLSCH_PDU_REL8_TAG "dlsch_pdu.dlsch_pdu_rel8"
           unpack_dl_config_dlsch_pdu_rel8_value;
         Read NFAPI_DL_CONFIG_REQUEST_DLSCH_PDU_REL9_TAG "dlsch_pdu.dlsch_pdu_rel9"
           unpack_dl_config_dlsch_pdu_rel9_value;
         Read NFAPI_DL_CONFIG_REQUEST_DLSCH_PDU_REL10_TAG "dlsch_pdu.dlsch_pdu_rel10"
           unpack_dl_config_dlsch_pdu_rel10_value;
         Read NFAPI_DL_CONFIG_REQUEST_DLSCH_PDU_REL11_TAG "dlsch_pdu.dlsch_pdu_rel11"
           unpack_dl_config_dlsch_pdu_rel11_value;
         Read NFAPI_DL_CONFIG_REQUEST_DLSCH_PDU_REL12_TAG "dlsch_pdu.dlsch_pdu_rel12"
           unpack_dl_config_dlsch_pdu_rel12_value;
         Read NFAPI_DL_CONFIG_REQUEST_DLSCH_PDU_REL13_TAG "dlsch_pdu.dlsch_pdu_rel13"
           unpack_dl_config_dlsch_pdu_rel13_value]);
      (NFAPI_DL_CONFIG_PCH_PDU_TYPE,
        [Read NFAPI_DL_CONFIG_REQUEST_PCH_PDU_REL8_TAG "pch_pdu.pch_pdu_rel8"
           unpack_dl_config_pch_pdu_rel8_value;
         Read NFAPI_DL_CONFIG_REQUEST_PCH_PDU_REL13_TAG "pch_pdu.pch_pdu_rel13"
           unpack_dl_config_pch_pdu_rel13_value]);
      (NFAPI_DL_CONFIG_PRS_PDU_TYPE,
        [Read NFAPI_DL_CONFIG_REQUEST_PRS_PDU_REL9_TAG "prs_pdu.prs_pdu_rel9"
           unpack_dl_config_prs_pdu_rel9_value]);
      (NFAPI_DL_CONFIG_CSI_RS_PDU_TYPE,
        [Read NFAPI_DL_CONFIG_REQUEST_CSI_RS_PDU_REL10_TAG "csi_rs_pdu.csi_rs_pdu_rel10"
           unpack_dl_config_csi_rs_pdu_rel10_value;
         Read NFAPI_DL_CONFIG_REQUEST_CSI_RS_PDU_REL13_TAG "csi_rs_pdu.csi_rs_pdu_rel13"
           unpack_dl_config_csi_rs_pdu_rel13_value]);
      (NFAPI_DL_CONFIG_EPDCCH_DL_PDU_TYPE,
        [Read NFAPI_DL_CONFIG_REQUEST_EPDCCH_PDU_REL8_TAG "epdcch_pdu.epdcch_pdu_rel8"
           unpack_dl_config_dci_dl_pdu_rel8_value;
         Read NFAPI_DL_CONFIG_REQUEST_EPDCCH_PDU_REL9_TAG "epdcch_pdu.epdcch_pdu_rel9"
           unpack_dl_config_dci_dl_pdu_rel9_value;
         Read NFAPI_DL_CONFIG_REQUEST_EPDCCH_PDU_REL10_TAG "epdcch_pdu.epdcch_pdu_rel10"
           unpack_dl_config_dci_dl_pdu_rel10_value;
         Read NFAPI_DL_CONFIG_REQUEST_EPDCCH_PDU_REL11_TAG "epdcch_pdu.epdcch_pdu_rel11"
           unpack_dl_config_dci_dl_pdu_rel11_value;
         Read NFAPI_DL_CONFIG_REQUEST_EPDCCH_PDU_REL12_TAG "epdcch_pdu.epdcch_pdu_rel12"
           unpack_dl_config_dci_dl_pdu_rel12_value;
         Special NFAPI_DL_CONFIG_REQUEST_EPDCCH_PDU_REL13_TAG "epdcch_pdu.epdcch_pdu_rel13" unpack_dl_config_dci_dl_pdu_rel13_value;
         Read NFAPI_DL_CONFIG_REQUEST_EPDCCH_PARAM_REL11_TAG "epdcch_pdu.epdcch_params_rel11"
           unpack_dl_config_epdcch_params_rel11_value;
         Read NFAPI_DL_CONFIG_REQUEST_EPDCCH_PARAM_REL13_TAG "epdcch_pdu.epdcch_params_rel13"
           unpack_dl_config_epdcch_params_rel13_value]);
      (NFAPI_DL_CONFIG_MPDCCH_PDU_TYPE,
        [Read NFAPI_DL_CONFIG_REQUEST_MPDCCH_PDU_REL13_TAG "mpdcch_pdu.mpdcch_pdu_rel13"
           unpack_dl_config_mpdcch_pdu_rel13_value]);
      (NFAPI_DL_CONFIG_NBCH_PDU_TYPE,
        [Read NFAPI_DL_CONFIG_REQUEST_NBCH_PDU_REL13_TAG "nbch_pdu.nbch_pdu_rel13"
           unpack_dl_config_nbch_pdu_rel13_value]);
      (NFAPI_DL_CONFIG_NPDCCH_PDU_TYPE,
        [Read NFAPI_DL_CONFIG_REQUEST_NPDCCH_PDU_REL13_TAG "npdcch_pdu.npdcch_pdu_rel13"
           unpack_dl_config_npdcch_pdu_rel13_value]);
      (NFAPI_DL_CONFIG_NDLSCH_PDU_TYPE,
        [Read NFAPI_DL_CONFIG_REQUEST_NDLSCH_PDU_REL13_TAG "ndlsch_pdu.ndlsch_pdu_rel13"
           unpack_dl_config_ndlsch_pdu_rel13_value])]).
(* src: nfapi_p7.c :: pack_dl_config_request *)
Definition pack_dl_config_request : struct -> packer :=
  pack_pdu_message_all NFAPI_DL_CONFIG_REQUEST_BODY_TAG "dl_config_request_body"
    (pack_pdu_body pack_dl_config_request_body_value).
(* src: nfapi_p7.c :: unpack_dl_config_request *)
Definition unpack_dl_config_request : struct -> list Z -> Z * struct :=
  unpack_pdu_message NFAPI_DL_CONFIG_REQUEST_BODY_TAG "dl_config_request_body"
    (unpack_pdu_body (fun _ => 0) unpack_dl_config_request_body_value).

(** ** HI_DCI0.request *)

(* src: nfapi_p7.c :: pack_hi_dci0_hi_rel8_pdu_value *)
Definition pack_hi_dci0_hi_rel8_pdu_value : list row :=
  [Num U8 "resource_block_start"; Num U8 "cyclic_shift_2_for_drms"; Num U8 "hi_value"; Num U8 "i_phich";
   Num U16 "transmission_power"].
(* src: nfapi_p7.c :: pack_hi_dci0_hi_rel10_pdu_value *)
Definition pack_hi_dci0_hi_rel10_pdu_value : list row :=
  [Num U8 "flag_tb2"; Num U8 "hi_value_2"].
(* src: nfapi_p7.c :: pack_hi_dci0_dci_rel8_pdu_value *)
Definition pack_hi_dci0_dci_rel8_pdu_value : list row :=
  [Num U8 "dci_format"; Num U8 "cce_index"; Num U8 "aggregation_level"; Num U16 "rnti"; Num U8 "resource_block_start";
   Num U8 "number_of_resource_block"; Num U8 "mcs_1"; Num U8 "cyclic_shift_2_for_drms";
   Num U8 "frequency_hopping_enabled_flag"; Num U8 "frequency_hopping_bits"; Num U8 "new_data_indication_1";
   Num U8 "ue_tx_antenna_seleciton"; Num U8 "tpc"; Num U8 "cqi_csi_request"; Num U8 "ul_index";
   Num U8 "dl_assignment_index"; Num U32 "tpc_bitmap"; Num U16 "transmission_power"].
(* src: nfapi_p7.c :: pack_hi_dci0_dci_rel10_pdu_value *)
Definition pack_hi_dci0_dci_rel10_pdu_value : list row :=
  [Num U8 "cross_carrier_scheduling_flag"; Num U8 "carrier_indicator"; Num U8 "size_of_cqi_csi_feild";
   Num U8 "srs_flag"; Num U8 "srs_request"; Num U8 "resource_allocation_flag"; Num U8 "resource_allocation_type";
   Num U32 "resource_block_coding"; Num U8 "mcs_2"; Num U8 "new_data_indication_2"; Num U8 "number_of_antenna_ports";
   Num U8 "tpmi"; Num U8 "total_dci_length_including_padding"; Num U8 "n_ul_rb"].
(* src: nfapi_p7.c :: pack_hi_dci0_dci_rel12_pdu_value *)
Definition pack_hi_dci0_dci_rel12_pdu_value : list row :=
  [Num U8 "pscch_resource"; Num U8 "time_resource_pattern"].
(* src: nfapi_p7.c :: pack_hi_dci0_mpdcch_dci_rel13_pdu_value *)
Definition pack_hi_dci0_mpdcch_dci_rel13_pdu_value : list row :=
  [Num U8 "mpdcch_narrowband"; Num U8 "number_of_prb_pairs"; Num U8 "resource_block_assignment";
   Num U8 "mpdcch_transmission_type"; Num U8 "start_symbol"; Num U8 "ecce_index"; Num U8 "aggreagation_level";
   Num U8 "rnti_type"; Num U16 "rnti"; Num U8 "ce_mode"; Num U16 "drms_scrambling_init";
   Num U16 "initial_transmission_sf_io"; Num U16 "transmission_power"; Num U8 "dci_format";
   Num U8 "resource_block_start"; Num U8 "number_of_resource_blocks"; Num U8 "mcs"; Num U8 "pusch_repetition_levels";
   Num U8 "frequency_hopping_flag"; Num U8 "new_data_indication"; Num U8 "harq_process"; Num U8 "redudency_version";
   Num U8 "tpc"; Num U8 "csi_request"; Num U8 "ul_inex"; Num U8 "dai_presence_flag"; Num U8 "dl_assignment_index";
   Num U8 "srs_request"; Num U8 "dci_subframe_repetition_number"; Num U32 "tcp_bitmap";
   Num U8 "total_dci_length_include_padding"; Num U8 "number_of_tx_antenna_ports";
   Arr U16 "precoding_value" NFAPI_MAX_TX_PHYSICAL_ANTENNA_PORTS (Member "number_of_tx_antenna_ports")].
(* src: nfapi_p7.c :: pack_hi_dci0_npdcch_dci_rel13_pdu_value *)
Definition pack_hi_dci0_npdcch_dci_rel13_pdu_value : list row :=
  [Num U8 "ncce_index"; Num U8 "aggregation_level"; Num U8 "start_symbol"; Num U16 "rnti";
   Num U8 "scrambling_reinitialization_batch_index"; Num U8 "nrs_antenna_ports_assumed_by_the_ue";
   Num U8 "subcarrier_indication"; Num U8 "resource_assignment"; Num U8 "scheduling_delay"; Num U8 "mcs";
   Num U8 "redudancy_version"; Num U8 "repetition_number"; Num U8 "new_data_indicator";
   Num U8 "dci_subframe_repetition_number"].
(* src: nfapi_p7.c :: unpack_hi_dci0_hi_pdu_rel8_value *)
Definition unpack_hi_dci0_hi_pdu_rel8_value : list row :=
  [Num U8 "resource_block_start"; Num U8 "cyclic_shift_2_for_drms"; Num U8 "hi_value"; Num U8 "i_phich";
   Num U16 "transmission_power"].
(* src: nfapi_p7.c :: unpack_hi_dci0_hi_pdu_rel10_value *)
Definition unpack_hi_dci0_hi_pdu_rel10_value : list row :=
  [Num U8 "flag_tb2"; Num U8 "hi_value_2"].
(* src: nfapi_p7.c :: unpack_hi_dci0_dci_pdu_rel8_value *)
Definition unpack_hi_dci0_dci_pdu_rel8_value : list row :=
  [Num U8 "dci_format"; Num U8 "cce_index"; Num U8 "aggregation_level"; Num U16 "rnti"; Num U8 "resource_block_start";
   Num U8 "number_of_resource_block"; Num U8 "mcs_1"; Num U8 "cyclic_shift_2_for_drms";
   Num U8 "frequency_hopping_enabled_flag"; Num U8 "frequency_hopping_bits"; Num U8 "new_data_indication_1";
   Num U8 "ue_tx_antenna_seleciton"; Num U8 "tpc"; Num U8 "cqi_csi_request"; Num U8 "ul_index";
   Num U8 "dl_assignment_index"; Num U32 "tpc_bitmap"; Num U16 "transmission_power"].
(* src: nfapi_p7.c :: unpack_hi_dci0_dci_pdu_rel10_value *)
Definition unpack_hi_dci0_dci_pdu_rel10_value : list row :=
  [Num U8 "cross_carrier_scheduling_flag"; Num U8 "carrier_indicator"; Num U8 "size_of_cqi_csi_feild";
   Num U8 "srs_flag"; Num U8 "srs_request"; Num U8 "resource_allocation_flag"; Num U8 "resource_allocation_type";
   Num U32 "resource_block_coding"; Num U8 "mcs_2"; Num U8 "new_data_indication_2"; Num U8 "number_of_antenna_ports";
   Num U8 "tpmi"; Num U8 "total_dci_length_including_padding"; Num U8 "n_ul_rb"].
(* src: nfapi_p7.c :: unpack_hi_dci0_dci_pdu_rel12_value *)
Definition unpack_hi_dci0_dci_pdu_rel12_value : list row :=
  [Num U8 "pscch_resource"; Num U8 "time_resource_pattern"].
(* src: nfapi_p7.c :: unpack_hi_dci0_mpdcch_dci_pdu_rel13_value *)
Definition unpack_hi_dci0_mpdcch_dci_pdu_rel13_value : list row :=
  [Num U8 "mpdcch_narrowband"; Num U8 "number_of_prb_pairs"; Num U8 "resource_block_assignment";
   Num U8 "mpdcch_transmission_type"; Num U8 "start_symbol"; Num U8 "ecce_index"; Num U8 "aggreagation_level";
   Num U8 "rnti_type"; Num U16 "rnti"; Num U8 "ce_mode"; Num U16 "drms_scrambling_init";
   Num U16 "initial_transmission_sf_io"; Num U16 "transmission_power"; Num U8 "dci_format";
   Num U8 "resource_block_start"; Num U8 "number_of_resource_blocks"; Num U8 "mcs"; Num U8 "pusch_repetition_levels";
   Num U8 "frequency_hopping_flag"; Num U8 "new_data_indication"; Num U8 "harq_process"; Num U8 "redudency_version";
   Num U8 "tpc"; Num U8 "csi_request"; Num U8 "ul_inex"; Num U8 "dai_presence_flag"; Num U8 "dl_assignment_index";
   Num U8 "srs_request"; Num U8 "dci_subframe_repetition_number"; Num U32 "tcp_bitmap";
   Num U8 "total_dci_length_include_padding"; Num U8 "number_of_tx_antenna_ports";
   Arr U16 "precoding_value" NFAPI_MAX_TX_PHYSICAL_ANTENNA_PORTS (Member "number_of_tx_antenna_ports")].
(* src: nfapi_p7.c :: unpack_hi_dci0_npdcch_dci_pdu_rel13_value *)
Definition unpack_hi_dci0_npdcch_dci_pdu_rel13_value : list row :=
  [Num U8 "ncce_index"; Num U8 "aggregation_level"; Num U8 "start_symbol"; Num U16 "rnti";
   Num U8 "scrambling_reinitialization_batch_index"; Num U8 "nrs_antenna_ports_assumed_by_the_ue";
   Num U8 "subcarrier_indication"; Num U8 "resource_assignment"; Num U8 "scheduling_delay"; Num U8 "mcs";
   Num U8 "redudancy_version"; Num U8 "repetition_number"; Num U8 "new_data_indicator";
   Num U8 "dci_subframe_repetition_number"].
(* src: nfapi_p7.c :: pack_hi_dci0_request_body_value *)
Definition pack_hi_dci0_request_body_value : pbody :=
  PBody [Num U16 "sfnsf"; Num U8 "number_of_dci"; Num U8 "number_of_hi"] ["number_of_dci"; "number_of_hi"] "hi_dci0_pdu_list"
    (PTyped [
      (NFAPI_HI_DCI0_HI_PDU_TYPE,
        [Write NFAPI_HI_DCI0_REQUEST_HI_PDU_REL8_TAG "hi_pdu.hi_pdu_rel8"
           pack_hi_dci0_hi_rel8_pdu_value;
         Write NFAPI_HI_DCI0_REQUEST_HI_PDU_REL10_TAG "hi_pdu.hi_pdu_rel10"
           pack_hi_dci0_hi_rel10_pdu_value]);
      (NFAPI_HI_DCI0_DCI_PDU_TYPE,
        [Write NFAPI_HI_DCI0_REQUEST_DCI_PDU_REL8_TAG "dci_pdu.dci_pdu_rel8"
           pack_hi_dci0_dci_rel8_pdu_value;
         Write NFAPI_HI_DCI0_REQUEST_DCI_PDU_REL10_TAG "dci_pdu.dci_pdu_rel10"
           pack_hi_dci0_dci_rel10_pdu_value;
         Write NFAPI_HI_DCI0_REQUEST_DCI_PDU_REL12_TAG "dci_pdu.dci_pdu_rel12"
           pack_hi_dci0_dci_rel12_pdu_value]);
      (NFAPI_HI_DCI0_EPDCCH_DCI_PDU_TYPE,
        [Write NFAPI_HI_DCI0_REQUEST_EPDCCH_DCI_PDU_REL8_TAG "epdcch_dci_pdu.epdcch_dci_pdu_rel8"
           pack_hi_dci0_dci_rel8_pdu_value;
         Write NFAPI_HI_DCI0_REQUEST_EPDCCH_DCI_PDU_REL10_TAG "epdcch_dci_pdu.epdcch_dci_pdu_rel10"
           pack_hi_dci0_dci_rel10_pdu_value;
         Write NFAPI_HI_DCI0_REQUEST_EPDCCH_PARAMETERS_REL11_TAG "epdcch_dci_pdu.epdcch_parameters_rel11"
           pack_dl_config_epdcch_parameters_rel11_value]);
      (NFAPI_HI_DCI0_MPDCCH_DCI_PDU_TYPE,
        [Write NFAPI_HI_DCI0_REQUEST_MPDCCH_DCI_PDU_REL13_TAG "mpdcch_dci_pdu.mpdcch_dci_pdu_rel13"
           pack_hi_dci0_mpdcch_dci_rel13_pdu_value]);
      (NFAPI_HI_DCI0_NPDCCH_DCI_PDU_TYPE,
        [Write NFAPI_HI_DCI0_REQUEST_NPDCCH_DCI_PDU_REL13_TAG "npdcch_dci_pdu.npdcch_dci_pdu_rel13"
           pack_hi_dci0_npdcch_dci_rel13_pdu_value])]).
(** The sum is computed in eight bits. *)
(* src: nfapi_p7.c :: unpack_hi_dci0_request_body_value *)
Definition unpack_hi_dci0_request_body_value : ubody :=
  UBody false false [Num U16 "sfnsf"; Num U8 "number_of_dci"; Num U8 "number_of_hi"] ["number_of_hi"; "number_of_dci"] u8 NFAPI_HI_DCI0_MAX_PDU "hi_dci0_pdu_list"
    (UTyped false [
      (NFAPI_HI_DCI0_HI_PDU_TYPE,
        [Read NFAPI_HI_DCI0_REQUEST_HI_PDU_REL8_TAG "hi_pdu.hi_pdu_rel8"
           unpack_hi_dci0_hi_pdu_rel8_value;
         Read NFAPI_HI_DCI0_REQUEST_HI_PDU_REL10_TAG "hi_pdu.hi_pdu_rel10"
           unpack_hi_dci0_hi_pdu_rel10_value]);
      (NFAPI_HI_DCI0_DCI_PDU_TYPE,
        [Read NFAPI_HI_DCI0_REQUEST_DCI_PDU_REL8_TAG "dci_pdu.dci_pdu_rel8"
           unpack_hi_dci0_dci_pdu_rel8_value;
         Read NFAPI_HI_DCI0_REQUEST_DCI_PDU_REL10_TAG "dci_pdu.dci_pdu_rel10"
           unpack_hi_dci0_dci_pdu_rel10_value;
         Read NFAPI_HI_DCI0_REQUEST_DCI_PDU_REL12_TAG "dci_pdu.dci_pdu_rel12"
           unpack_hi_dci0_dci_pdu_rel12_value]);
      (NFAPI_HI_DCI0_EPDCCH_DCI_PDU_TYPE,
        [Read NFAPI_HI_DCI0_REQUEST_EPDCCH_DCI_PDU_REL8_TAG "epdcch_dci_pdu.epdcch_dci_pdu_rel8"
           unpack_hi_dci0_dci_pdu_rel8_value;
         Read NFAPI_HI_DCI0_REQUEST_EPDCCH_DCI_PDU_REL10_TAG "epdcch_dci_pdu.epdcch_dci_pdu_rel10"
           unpack_hi_dci0_dci_pdu_rel10_value;
         Read NFAPI_HI_DCI0_REQUEST_EPDCCH_PARAMETERS_REL11_TAG "epdcch_dci_pdu.epdcch_parameters_rel11"
           unpack_dl_config_epdcch_params_rel11_value]);
      (NFAPI_HI_DCI0_MPDCCH_DCI_PDU_TYPE,
        [Read NFAPI_HI_DCI0_REQUEST_MPDCCH_DCI_PDU_REL13_TAG "mpdcch_dci_pdu.mpdcch_dci_pdu_rel13"
           unpack_hi_dci0_mpdcch_dci_pdu_rel13_value]);
      (NFAPI_HI_DCI0_NPDCCH_DCI_PDU_TYPE,
        [Read NFAPI_HI_DCI0_REQUEST_NPDCCH_DCI_PDU_REL13_TAG "npdcch_dci_pdu.npdcch_dci_pdu_rel13"
           unpack_hi_dci0_npdcch_dci_pdu_rel13_value])]).
(* src: nfapi_p7.c :: pack_hi_dci0_request *)
Definition pack_hi_dci0_request : struct -> packer :=
  pack_pdu_message NFAPI_HI_DCI0_REQUEST_BODY_TAG "hi_dci0_request_body"
    (pack_pdu_body pack_hi_dci0_request_body_value).
(* src: nfapi_p7.c :: unpack_hi_dci0_request *)
Definition unpack_hi_dci0_request : struct -> list Z -> Z * struct :=
  unpack_pdu_message NFAPI_HI_DCI0_REQUEST_BODY_TAG "hi_dci0_request_body"
    (unpack_pdu_body (fun _ => 0) unpack_hi_dci0_request_body_value).

(** ** LBT_DL_CONFIG.request *)

(* src: nfapi_p7.c :: pack_lbt_pdsch_req_pdu_rel13_value *)
Definition pack_lbt_pdsch_req_pdu_rel13_value : list row :=
  [Num U32 "handle"; Num U32 "mp_cca"; Num U32 "n_cca"; Num U32 "offset"; Num U32 "lte_txop_sf";
   Num U16 "txop_sfn_sf_end"; Num U32 "lbt_mode"].
(* src: nfapi_p7.c :: pack_lbt_drs_req_pdu_rel13_value *)
Definition pack_lbt_drs_req_pdu_rel13_value : list row :=
  [Num U32 "handle"; Num U32 "offset"; Num U16 "sfn_sf_end"; Num U32 "lbt_mode"].
(* src: nfapi_p7.c :: unpack_lbt_pdsch_req_pdu_rel13_value *)
Definition unpack_lbt_pdsch_req_pdu_rel13_value : list row :=
  [Num U32 "handle"; Num U32 "mp_cca"; Num U32 "n_cca"; Num U32 "offset"; Num U32 "lte_txop_sf";
   Num U16 "txop_sfn_sf_end"; Num U32 "lbt_mode"].
(* src: nfapi_p7.c :: unpack_lbt_drs_req_pdu_rel13_value *)
Definition unpack_lbt_drs_req_pdu_rel13_value : list row :=
  [Num U32 "handle"; Num U32 "offset"; Num U16 "sfn_sf_end"; Num U32 "lbt_mode"].
(* src: nfapi_p7.c :: pack_lbt_dl_config_request_body_value *)
Definition pack_lbt_dl_config_request_body_value : pbody :=
  PBody [Num U16 "number_of_pdus"] ["number_of_pdus"] "lbt_dl_config_req_pdu_list"
    (PTyped [
      (NFAPI_LBT_DL_CONFIG_REQUEST_PDSCH_PDU_TYPE,
        [Write NFAPI_LBT_PDSCH_REQ_PDU_REL13_TAG "lbt_pdsch_req_pdu.lbt_pdsch_req_pdu_rel13"
           pack_lbt_pdsch_req_pdu_rel13_value]);
      (NFAPI_LBT_DL_CONFIG_REQUEST_DRS_PDU_TYPE,
        [Write NFAPI_LBT_DRS_REQ_PDU_REL13_TAG "lbt_drs_req_pdu.lbt_drs_req_pdu_rel13"
           pack_lbt_drs_req_pdu_rel13_value])]).
(* src: nfapi_p7.c :: unpack_lbt_config_request_body_value *)
Definition unpack_lbt_config_request_body_value : ubody :=
  UBody false false [Num U16 "number_of_pdus"] ["number_of_pdus"] (fun n => n) NFAPI_LBT_DL_CONFIG_REQ_MAX_PDU "lbt_dl_config_req_pdu_list"
    (UTyped true [
      (NFAPI_LBT_DL_CONFIG_REQUEST_PDSCH_PDU_TYPE,
        [Read NFAPI_LBT_PDSCH_REQ_PDU_REL13_TAG "lbt_pdsch_req_pdu.lbt_pdsch_req_pdu_rel13"
           unpack_lbt_pdsch_req_pdu_rel13_value]);
      (NFAPI_LBT_DL_CONFIG_REQUEST_DRS_PDU_TYPE,
        [Read NFAPI_LBT_DRS_REQ_PDU_REL13_TAG "lbt_drs_req_pdu.lbt_drs_req_pdu_rel13"
           unpack_lbt_drs_req_pdu_rel13_value])]).
(* src: nfapi_p7.c :: pack_lbt_dl_config_request *)
Definition pack_lbt_dl_config_request : struct -> packer :=
  pack_pdu_message NFAPI_LBT_DL_CONFIG_REQUEST_BODY_TAG "lbt_dl_config_request_body"
    (pack_pdu_body pack_lbt_dl_config_request_body_value).
(* src: nfapi_p7.c :: unpack_lbt_dl_config_request *)
Definition unpack_lbt_dl_config_request : struct -> list Z -> Z * struct :=
  unpack_pdu_message NFAPI_LBT_DL_CONFIG_REQUEST_BODY_TAG "lbt_dl_config_request_body"
    (unpack_pdu_body (fun _ => 0) unpack_lbt_config_request_body_value).

(** ** TX.request

    The packer sends the segments of a PDU one after the other; the unpacker
    makes one segment of as many bytes as the length of the PDU says. *)

(* src: nfapi_p7.c :: pack_tx_request_body_value *)
Definition pack_tx_request_body_value : list row :=
  [Num U16 "number_of_pdus";
   Items (Unchecked NFAPI_TX_MAX_PDU) "tx_pdu_list" (Member "number_of_pdus")
     [Num U16 "pdu_length"; Num U16 "pdu_index";
      Items (Unchecked NFAPI_TX_MAX_SEGMENTS) "segments" (Member "num_segments")
        [Values (UpTo 65535) U8 "segment_data" (Member "segment_length")]]].
(* src: nfapi_p7.c :: pack_tx_request *)
Definition pack_tx_request : struct -> packer :=
  pack_pdu_message_all NFAPI_TX_REQUEST_BODY_TAG "tx_request_body" (pack_rows [] pack_tx_request_body_value).

(** Allocation succeeds but for no bytes, of which none are read either. *)
(* src: nfapi_p7.c 6135-6176 unpack_tx_request *)
Definition unpack_tx_pdu : unpacker struct :=
  andthen (unpack_rows [] [Num U16 "pdu_length"; Num S16 "pdu_index"]) (fun s l =>
    storing (fun g => set_sub "segments" [g] (set_num "num_segments" 1 s))
      (unpack_rows [] [Values Alloc U8 "segment_data" (Member "segment_length")]
        (set_num "segment_length" (num s "pdu_length") zero) l)).
(* src: nfapi_p7.c 6111-6177 unpack_tx_request *)
Definition unpack_tx_request_body_value : unpacker struct :=
  andthen (unpack_rows [] [Num U16 "number_of_pdus"]) (fun s l =>
    unpack_items (UpTo NFAPI_TX_MAX_PDU) "tx_pdu_list" (num s "number_of_pdus") unpack_tx_pdu s l).

(* src: nfapi_p7.c :: unpack_tx_request *)
Definition unpack_tx_request : unpacker struct :=
  unpack_body_loop NFAPI_TX_REQUEST_BODY_TAG "tx_request_body" unpack_tx_request_body_value.

(** *** A TX.request is read with the segments of each PDU joined *)

Definition tx_data (p : struct) : list Z :=
  concat ((fun g => take (Z.to_nat (num g "segment_length")) (arr g "segment_data")) <$>
    take (Z.to_nat (num p "num_segments")) (sub p "segments")).
Definition tx_segment_ok (g : struct) : Prop :=
  count_ok (num g "segment_length") 65535 (arr g "segment_data") /\
  bytes_ok (take (Z.to_nat (num g "segment_length")) (arr g "segment_data")).
(** The length of the PDU must be that of its segments. *)
Definition tx_pdu_ok (p : struct) : Prop :=
  in_u16 (num p "pdu_length") /\ in_type S16 (num p "pdu_index") /\ zlen (tx_data p) = num p "pdu_length" /\
  Forall tx_segment_ok (take (Z.to_nat (num p "num_segments")) (sub p "segments")).
Definition tx_pdus (s : struct) : list struct := take (Z.to_nat (num s "number_of_pdus")) (sub s "tx_pdu_list").
Definition tx_body_ok (s : struct) : Prop :=
  in_u16 (num s "number_of_pdus") /\ count_ok (num s "number_of_pdus") NFAPI_TX_MAX_PDU (sub s "tx_pdu_list") /\
  Forall tx_pdu_ok (tx_pdus s).

Definition tx_pdu_bytes (p : struct) : list Z :=
  be16 (num p "pdu_length") ++ type_bytes S16 (num p "pdu_index") ++ tx_data p.
Definition tx_pdu_copy (p : struct) : struct :=
  set_sub "segments" [set_arr "segment_data" (tx_data p) (set_num "segment_length" (num p "pdu_length") zero)]
    (set_num "num_segments" 1 (set_num "pdu_index" (num p "pdu_index") (set_num "pdu_length" (num p "pdu_length") zero))).
Definition tx_body_bytes (s : struct) : list Z := be16 (num s "number_of_pdus") ++ concat (tx_pdu_bytes <$> tx_pdus s).
Definition tx_body_copy (s s0 : struct) : struct :=
  set_sub "tx_pdu_list" (tx_pdu_copy <$> tx_pdus s) (set_num "number_of_pdus" (num s "number_of_pdus") s0).

Lemma bytes_ok_concat (bss : list (list Z)) : Forall bytes_ok bss -> bytes_ok (concat bss).
Proof. induction 1; [constructor|]. by apply bytes_ok_app. Qed.

(** An array without a check is packed element by element. *)
Lemma writes_items max f len rows outer s (bytes : struct -> list Z) :
  let n := eval (s :: outer) len in
  Forall (fun e => writes (pack_rows (s :: outer) rows e) (bytes e)) (take (Z.to_nat n) (sub s f)) ->
  writes (pack_row outer (Items (Unchecked max) f len rows) s) (concat (bytes <$> take (Z.to_nat n) (sub s f))).
Proof.
  cbv zeta. intros H. eapply writes_ext; [|by apply (writes_elems _ _ _ H)].
  intros w. cbn [pack_row bound_max]. unfold packarray. by rewrite Z.ltb_irrefl.
Qed.

Lemma tx_segment_writes outer g : tx_segment_ok g ->
  writes (pack_rows outer [Values (UpTo 65535) U8 "segment_data" (Member "segment_length")] g)
    (take (Z.to_nat (num g "segment_length")) (arr g "segment_data")).
Proof.
  intros [Hc Hb]. rewrite <- (app_nil_r (take _ _)). apply (writes_and _ pack_ok); [|apply writes_ok].
  pose proof (writes_values (UpTo 65535) (UpTo 65535) U8 _ _ ltac:(done) (proj2 (proj1 Hc)) Hc Hb) as H.
  by rewrite (type_bytes_flat (fun v => v)), list_fmap_id in H.
Qed.

Lemma tx_pdu_writes outer p : tx_pdu_ok p ->
  writes (pack_rows outer
     [Num U16 "pdu_length"; Num U16 "pdu_index";
      Items (Unchecked NFAPI_TX_MAX_SEGMENTS) "segments" (Member "num_segments")
        [Values (UpTo 65535) U8 "segment_data" (Member "segment_length")]] p) (tx_pdu_bytes p).
Proof.
  intros (Hl & Hi & Hz & Hg). unfold tx_pdu_bytes. rewrite <- (app_nil_r (tx_data p)).
  apply (writes_and (push16 (num p "pdu_length"))); [by apply writes_emits, emits_push16|].
  apply (writes_and (push16 (num p "pdu_index"))); [by apply (writes_number U16 S16)|].
  apply (writes_and _ pack_ok); [|apply writes_ok].
  apply (writes_items NFAPI_TX_MAX_SEGMENTS "segments" (Member "num_segments") _ outer p
    (fun g => take (Z.to_nat (num g "segment_length")) (arr g "segment_data"))).
  refine (list.Forall_impl _ _ _ Hg _). intros g. apply tx_segment_writes.
Qed.

Lemma tx_body_writes s : tx_body_ok s -> writes (pack_rows [] pack_tx_request_body_value s) (tx_body_bytes s).
Proof.
  intros (Hn & _ & Hp). unfold tx_body_bytes. rewrite <- (app_nil_r (concat _)).
  apply (writes_and (push16 (num s "number_of_pdus"))); [by apply writes_emits, emits_push16|].
  apply (writes_and _ pack_ok); [|apply writes_ok].
  apply (writes_items NFAPI_TX_MAX_PDU "tx_pdu_list" (Member "number_of_pdus") _ [] s tx_pdu_bytes).
  refine (list.Forall_impl _ _ _ Hp _). intros p. apply tx_pdu_writes.
Qed.

Lemma tx_pdu_reads p : tx_pdu_ok p -> reads unpack_tx_pdu zero (tx_pdu_bytes p) (tx_pdu_copy p).
Proof.
  intros (Hl & Hi & Hz & Hg) rest. unfold tx_pdu_bytes, unpack_tx_pdu. rewrite <- !app_assoc.
  cbn [unpack_rows foldr unpack_row pull_as]. unfold andthen, pass.
  rewrite (pa_run _ _ _ (parses_pull16 _ Hl)), (pa_run _ _ _ (proj2 (type_codec S16 _ Hi))).
  rewrite num_set_num, decide_False, num_set_num, decide_True by done. cbn [eval nth_default hd].
  assert (bytes_ok (tx_data p)) as Hb.
  { apply bytes_ok_concat, Forall_fmap. refine (list.Forall_impl _ _ _ Hg _). by intros g [_ Hg']. }
  unfold unpack_values. cbn [bound_max pullarray_as]. 
  destruct (array8_codec (tx_data p) (num p "pdu_length") (num p "pdu_length") Hb Hz) as [_ Hp]; [lia|wrap_lia|].
  rewrite num_set_num, decide_True by done. by rewrite (pa_run _ _ _ Hp).
Qed.

Lemma tx_body_reads s s0 : tx_body_ok s -> reads unpack_tx_request_body_value s0 (tx_body_bytes s) (tx_body_copy s s0).
Proof.
  intros (Hn & Hc & Hp) rest. unfold tx_body_bytes, unpack_tx_request_body_value. rewrite <- app_assoc.
  cbn [unpack_rows foldr unpack_row pull_as]. unfold andthen, pass. rewrite (pa_run _ _ _ (parses_pull16 _ Hn)).
  rewrite num_set_num, decide_True by done.
  rewrite (items_read (UpTo NFAPI_TX_MAX_PDU) "tx_pdu_list" _ unpack_tx_pdu tx_pdu_bytes tx_pdu_copy (tx_pdus s));
    [done|done|apply Hc|by eapply zlen_take_count|].
  refine (list.Forall_impl _ _ _ Hp _). intros p. apply tx_pdu_reads.
Qed.
