(* ===== verification/LteUplink.v ===== *)
(** * LTE uplink messages ([nfapi_p7.c])

    UL_CONFIG.request, in which the VNF says what is sent in the uplink, and the
    indications of what was received that are lists of PDUs: HARQ, SRS, NB_HARQ,
    NRACH and the LBT response. *)

From S2P Require Import Prelude Tags Codec Layout LtePdu.
From stdpp Require Import strings.

Open Scope string_scope.
Open Scope list_scope.
Open Scope Z_scope.

(** ** UL_CONFIG.request *)

(** The numbers of an NULSCH PDU. *)
Definition nulsch_rows : list row :=
  [Num U8 "nulsch_format"; Num U32 "handle"; Num U16 "size"; Num U16 "rnti"; Num U8 "subcarrier_indication";
   Num U8 "resource_assignment"; Num U8 "mcs"; Num U8 "redudancy_version"; Num U8 "repetition_number";
   Num U8 "new_data_indication"; Num U8 "n_srs"; Num U16 "scrambling_sequence_initialization_cinit"; Num U16 "sf_idx"].
(* src: nfapi_p7.c :: pack_ul_config_request_ulsch_rel8_value *)
Definition pack_ul_config_request_ulsch_rel8_value : list row :=
  [Num U32 "handle"; Num U16 "size"; Num U16 "rnti"; Num U8 "resource_block_start";
   Num U8 "number_of_resource_blocks"; Num U8 "modulation_type"; Num U8 "cyclic_shift_2_for_drms";
   Num U8 "frequency_hopping_enabled_flag"; Num U8 "frequency_hopping_bits"; Num U8 "new_data_indication";
   Num U8 "redundancy_version"; Num U8 "harq_process_number"; Num U8 "ul_tx_mode"; Num U8 "current_tx_nb";
   Num U8 "n_srs"].
(* src: nfapi_p7.c :: pack_ul_config_request_ulsch_rel10_value *)
Definition pack_ul_config_request_ulsch_rel10_value : list row :=
  [Num U8 "resource_allocation_type"; Num U32 "resource_block_coding"; Num U8 "transport_blocks";
   Num U8 "transmission_scheme"; Num U8 "number_of_layers"; Num U8 "codebook_index";
   Num U8 "disable_sequence_hopping_flag"].
(* src: nfapi_p7.c :: pack_ul_config_request_ulsch_rel11_value *)
Definition pack_ul_config_request_ulsch_rel11_value : list row :=
  [Num U8 "virtual_cell_id_enabled_flag"; Num U16 "npusch_identity"; Num U8 "dmrs_config_flag";
   Num U16 "ndmrs_csh_identity"].
(* src: nfapi_p7.c :: pack_ul_config_request_ulsch_rel13_value *)
Definition pack_ul_config_request_ulsch_rel13_value : list row :=
  [Num U8 "ue_type"; Num U16 "total_number_of_repetitions"; Num U16 "repetition_number";
   Num U16 "initial_transmission_sf_io"; Num U8 "empty_symbols_due_to_re_tunning"].
(* src: nfapi_p7.c :: pack_ul_config_request_ulsch_pdu *)
Definition pack_ul_config_request_ulsch_pdu (p : string) : list pentry :=
  [Write NFAPI_UL_CONFIG_REQUEST_ULSCH_PDU_REL8_TAG (p +:+ ".ulsch_pdu_rel8")
     pack_ul_config_request_ulsch_rel8_value;
   Write NFAPI_UL_CONFIG_REQUEST_ULSCH_PDU_REL10_TAG (p +:+ ".ulsch_pdu_rel10")
     pack_ul_config_request_ulsch_rel10_value;
   Write NFAPI_UL_CONFIG_REQUEST_ULSCH_PDU_REL11_TAG (p +:+ ".ulsch_pdu_rel11")
     pack_ul_config_request_ulsch_rel11_value;
   Write NFAPI_UL_CONFIG_REQUEST_ULSCH_PDU_REL13_TAG (p +:+ ".ulsch_pdu_rel13")
     pack_ul_config_request_ulsch_rel13_value].
(* src: nfapi_p7.c :: pack_ul_config_request_cqi_ri_rel8_value *)
Definition pack_ul_config_request_cqi_ri_rel8_value : list row :=
  [Num U8 "dl_cqi_pmi_size_rank_1"; Num U8 "dl_cqi_pmi_size_rank_greater_1"; Num U8 "ri_size";
   Num U8 "delta_offset_cqi"; Num U8 "delta_offset_ri"].
(* src: nfapi_p7.c :: pack_ul_config_request_cqi_ri_rel9_value *)
Definition pack_ul_config_request_cqi_ri_rel9_value : list row :=
  [Num U8 "report_type"; Num U8 "delta_offset_cqi"; Num U8 "delta_offset_ri";
   When (Equal (Member "report_type") NFAPI_CSI_REPORT_TYPE_PERIODIC)
     [Num U8 "periodic_cqi_pmi_ri_report.dl_cqi_pmi_ri_size"; Num U8 "periodic_cqi_pmi_ri_report.control_type"];
   When (Equal (Member "report_type") NFAPI_CSI_REPORT_TYPE_APERIODIC)
     [Num U8 "aperiodic_cqi_pmi_ri_report.number_of_cc";
      Items (Unchecked NFAPI_MAX_CC) "aperiodic_cqi_pmi_ri_report.cc" (Member "aperiodic_cqi_pmi_ri_report.number_of_cc")
        [Num U8 "ri_size"; Values (Unchecked 8) U8 "dl_cqi_pmi_size" (Const 8)]]].
(* src: nfapi_p7.c :: pack_ul_config_request_cqi_ri_rel13_value *)
Definition pack_ul_config_request_cqi_ri_rel13_value : list row :=
  [When (Equal (Member "report_type") NFAPI_CSI_REPORT_TYPE_PERIODIC)
     [Num U16 "periodic_cqi_pmi_ri_report.dl_cqi_pmi_ri_size_2"]].
(* src: nfapi_p7.c :: pack_ul_config_request_cqi_ri_information *)
Definition pack_ul_config_request_cqi_ri_information (p : string) : list pentry :=
  [Write NFAPI_UL_CONFIG_REQUEST_CQI_RI_INFORMATION_REL8_TAG (p +:+ ".cqi_ri_information_rel8")
     pack_ul_config_request_cqi_ri_rel8_value;
   Write NFAPI_UL_CONFIG_REQUEST_CQI_RI_INFORMATION_REL9_TAG (p +:+ ".cqi_ri_information_rel9")
     pack_ul_config_request_cqi_ri_rel9_value;
   Write NFAPI_UL_CONFIG_REQUEST_CQI_RI_INFORMATION_REL13_TAG (p +:+ ".cqi_ri_information_rel13")
     pack_ul_config_request_cqi_ri_rel13_value].
(* src: nfapi_p7.c :: pack_ul_config_request_init_tx_params_rel8_value *)
Definition pack_ul_config_request_init_tx_params_rel8_value : list row :=
  [Num U8 "n_srs_initial"; Num U8 "initial_number_of_resource_blocks"].
(* src: nfapi_p7.c :: pack_ul_config_request_initial_transmission_parameters *)
Definition pack_ul_config_request_initial_transmission_parameters (p : string) : list pentry :=
  [Write NFAPI_UL_CONFIG_REQUEST_INITIAL_TRANSMISSION_PARAMETERS_REL8_TAG (p +:+ ".initial_transmission_parameters_rel8")
     pack_ul_config_request_init_tx_params_rel8_value].
(* src: nfapi_p7.c :: pack_ul_config_request_ulsch_harq_info_rel10_value *)
Definition pack_ul_config_request_ulsch_harq_info_rel10_value : list row :=
  [Num U8 "harq_size"; Num U8 "delta_offset_harq"; Num U8 "ack_nack_mode"].
(* src: nfapi_p7.c :: pack_ul_config_request_ulsch_harq_info_rel13_value *)
Definition pack_ul_config_request_ulsch_harq_info_rel13_value : list row :=
  [Num U16 "harq_size_2"; Num U8 "delta_offset_harq_2"].
(* src: nfapi_p7.c :: pack_ul_config_request_ulsch_harq_information *)
Definition pack_ul_config_request_ulsch_harq_information (p : string) : list pentry :=
  [Write NFAPI_UL_CONFIG_REQUEST_ULSCH_HARQ_INFORMATION_REL10_TAG (p +:+ ".harq_information_rel10")
     pack_ul_config_request_ulsch_harq_info_rel10_value;
   Write NFAPI_UL_CONFIG_REQUEST_ULSCH_HARQ_INFORMATION_REL13_TAG (p +:+ ".harq_information_rel13")
     pack_ul_config_request_ulsch_harq_info_rel13_value].
(* src: nfapi_p7.c :: pack_ul_config_request_ue_info_rel8_value *)
Definition pack_ul_config_request_ue_info_rel8_value : list row :=
  [Num U32 "handle"; Num U16 "rnti"].
(* src: nfapi_p7.c :: pack_ul_config_request_ue_info_rel11_value *)
Definition pack_ul_config_request_ue_info_rel11_value : list row :=
  [Num U8 "virtual_cell_id_enabled_flag"; Num U16 "npusch_identity"].
(* src: nfapi_p7.c :: pack_ul_config_request_ue_info_rel13_value *)
Definition pack_ul_config_request_ue_info_rel13_value : list row :=
  [Num U8 "ue_type"; Num U8 "empty_symbols"; Num U16 "total_number_of_repetitions"; Num U16 "repetition_number"].
(* src: nfapi_p7.c :: pack_ul_config_request_ue_information *)
Definition pack_ul_config_request_ue_information (p : string) : list pentry :=
  [Write NFAPI_UL_CONFIG_REQUEST_UE_INFORMATION_REL8_TAG (p +:+ ".ue_information_rel8")
     pack_ul_config_request_ue_info_rel8_value;
   Write NFAPI_UL_CONFIG_REQUEST_UE_INFORMATION_REL11_TAG (p +:+ ".ue_information_rel11")
     pack_ul_config_request_ue_info_rel11_value;
   Write NFAPI_UL_CONFIG_REQUEST_UE_INFORMATION_REL13_TAG (p +:+ ".ue_information_rel13")
     pack_ul_config_request_ue_info_rel13_value].
(* src: nfapi_p7.c :: pack_ul_config_request_harq_info_rel10_tdd_value *)
Definition pack_ul_config_request_harq_info_rel10_tdd_value : list row :=
  [Num U8 "harq_size"; Num U8 "ack_nack_mode"; Num U8 "number_of_pucch_resources"; Num U16 "n_pucch_1_0";
   Num U16 "n_pucch_1_1"; Num U16 "n_pucch_1_2"; Num U16 "n_pucch_1_3"].
(* src: nfapi_p7.c :: pack_ul_config_request_harq_info_rel8_fdd_value *)
Definition pack_ul_config_request_harq_info_rel8_fdd_value : list row :=
  [Num U16 "n_pucch_1_0"; Num U8 "harq_size"].
(* src: nfapi_p7.c :: pack_ul_config_request_harq_info_rel9_fdd_value *)
Definition pack_ul_config_request_harq_info_rel9_fdd_value : list row :=
  [Num U8 "harq_size"; Num U8 "ack_nack_mode"; Num U8 "number_of_pucch_resources"; Num U16 "n_pucch_1_0";
   Num U16 "n_pucch_1_1"; Num U16 "n_pucch_1_2"; Num U16 "n_pucch_1_3"].
(* src: nfapi_p7.c :: pack_ul_config_request_harq_info_rel11_value *)
Definition pack_ul_config_request_harq_info_rel11_value : list row :=
  [Num U8 "num_ant_ports"; Num U16 "n_pucch_2_0"; Num U16 "n_pucch_2_1"; Num U16 "n_pucch_2_2"; Num U16 "n_pucch_2_3"].
(* src: nfapi_p7.c :: pack_ul_config_request_harq_info_rel13_value *)
Definition pack_ul_config_request_harq_info_rel13_value : list row :=
  [Num U16 "harq_size_2"; Num U8 "starting_prb"; Num U8 "n_prb"; Num U8 "cdm_index"; Num U8 "n_srs"].
(* src: nfapi_p7.c :: pack_ul_config_request_harq_information *)
Definition pack_ul_config_request_harq_information (p : string) : list pentry :=
  [Write NFAPI_UL_CONFIG_REQUEST_HARQ_INFORMATION_REL10_TDD_TAG (p +:+ ".harq_information_rel10_tdd")
     pack_ul_config_request_harq_info_rel10_tdd_value;
   Write NFAPI_UL_CONFIG_REQUEST_HARQ_INFORMATION_REL8_FDD_TAG (p +:+ ".harq_information_rel8_fdd")
     pack_ul_config_request_harq_info_rel8_fdd_value;
   Write NFAPI_UL_CONFIG_REQUEST_HARQ_INFORMATION_REL9_FDD_TAG (p +:+ ".harq_information_rel9_fdd")
     pack_ul_config_request_harq_info_rel9_fdd_value;
   Write NFAPI_UL_CONFIG_REQUEST_HARQ_INFORMATION_REL11_TAG (p +:+ ".harq_information_rel11")
     pack_ul_config_request_harq_info_rel11_value;
   Write NFAPI_UL_CONFIG_REQUEST_HARQ_INFORMATION_REL13_TAG (p +:+ ".harq_information_rel13")
     pack_ul_config_request_harq_info_rel13_value].
(* src: nfapi_p7.c :: pack_ul_config_request_cqi_info_rel8_value *)
Definition pack_ul_config_request_cqi_info_rel8_value : list row :=
  [Num U16 "pucch_index"; Num U8 "dl_cqi_pmi_size"].
(* src: nfapi_p7.c :: pack_ul_config_request_cqi_info_rel10_value *)
Definition pack_ul_config_request_cqi_info_rel10_value : list row :=
  [Num U8 "number_of_pucch_resource"; Num U16 "pucch_index_p1"].
(* src: nfapi_p7.c :: pack_ul_config_request_cqi_info_rel13_value *)
Definition pack_ul_config_request_cqi_info_rel13_value : list row :=
  [Num U8 "csi_mode"; Num U16 "dl_cqi_pmi_size_2"; Num U8 "starting_prb"; Num U8 "n_prb"; Num U8 "cdm_index";
   Num U8 "n_srs"].
(* src: nfapi_p7.c :: pack_ul_config_request_cqi_information *)
Definition pack_ul_config_request_cqi_information (p : string) : list pentry :=
  [Write NFAPI_UL_CONFIG_REQUEST_CQI_INFORMATION_REL8_TAG (p +:+ ".cqi_information_rel8")
     pack_ul_config_request_cqi_info_rel8_value;
   Write NFAPI_UL_CONFIG_REQUEST_CQI_INFORMATION_REL10_TAG (p +:+ ".cqi_information_rel10")
     pack_ul_config_request_cqi_info_rel10_value;
   Write NFAPI_UL_CONFIG_REQUEST_CQI_INFORMATION_REL13_TAG (p +:+ ".cqi_information_rel13")
     pack_ul_config_request_cqi_info_rel13_value].
(* src: nfapi_p7.c :: pack_ul_config_request_sr_info_rel8_value *)
Definition pack_ul_config_request_sr_info_rel8_value : list row :=
  [Num U16 "pucch_index"].
(* src: nfapi_p7.c :: pack_ul_config_request_sr_info_rel10_value *)
Definition pack_ul_config_request_sr_info_rel10_value : list row :=
  [Num U8 "number_of_pucch_resources"; Num U16 "pucch_index_p1"].
(* src: nfapi_p7.c :: pack_ul_config_request_sr_information *)
Definition pack_ul_config_request_sr_information (p : string) : list pentry :=
  [Write NFAPI_UL_CONFIG_REQUEST_SR_INFORMATION_REL8_TAG (p +:+ ".sr_information_rel8")
     pack_ul_config_request_sr_info_rel8_value;
   Write NFAPI_UL_CONFIG_REQUEST_SR_INFORMATION_REL10_TAG (p +:+ ".sr_information_rel10")
     pack_ul_config_request_sr_info_rel10_value].
(* src: nfapi_p7.c :: pack_ul_config_request_srs_pdu_rel8_value *)
Definition pack_ul_config_request_srs_pdu_rel8_value : list row :=
  [Num U32 "handle"; Num U16 "size"; Num U16 "rnti"; Num U8 "srs_bandwidth"; Num U8 "frequency_domain_position";
   Num U8 "srs_hopping_bandwidth"; Num U8 "transmission_comb"; Num U16 "i_srs";
   Num U8 "sounding_reference_cyclic_shift"].
(* src: nfapi_p7.c :: pack_ul_config_request_srs_pdu_rel10_value *)
Definition pack_ul_config_request_srs_pdu_rel10_value : list row :=
  [Num U8 "antenna_port"].
(* src: nfapi_p7.c :: pack_ul_config_request_srs_pdu_rel13_value *)
Definition pack_ul_config_request_srs_pdu_rel13_value : list row :=
  [Num U8 "number_of_combs"].
(* src: nfapi_p7.c :: pack_ul_config_request_nb_harq_rel13_value *)
Definition pack_ul_config_request_nb_harq_rel13_value : list row :=
  [Num U8 "harq_ack_resource"].
(** The value ends with TLVs. *)
(* src: nfapi_p7.c :: pack_ul_config_request_nulsch_pdu_rel13_value *)
Definition pack_ul_config_request_nulsch_pdu_rel13_value (s : struct) : packer :=
  pack_rows [] nulsch_rows s &*
  pack_entries (pack_ul_config_request_ue_information "ue_information" ++
    [Write NFAPI_UL_CONFIG_REQUEST_NB_HARQ_INFORMATION_REL13_FDD_TAG "nb_harq_information.nb_harq_information_rel13_fdd"
       pack_ul_config_request_nb_harq_rel13_value]) s.
(* src: nfapi_p7.c :: pack_ul_config_request_nrach_pdu_rel13_value *)
Definition pack_ul_config_request_nrach_pdu_rel13_value : list row :=
  [Num U8 "nprach_config_0"; Num U8 "nprach_config_1"; Num U8 "nprach_config_2"].
(* src: nfapi_p7.c :: unpack_ul_config_ulsch_pdu_rel8_value *)
Definition unpack_ul_config_ulsch_pdu_rel8_value : list row :=
  [Num U32 "handle"; Num U16 "size"; Num U16 "rnti"; Num U8 "resource_block_start";
   Num U8 "number_of_resource_blocks"; Num U8 "modulation_type"; Num U8 "cyclic_shift_2_for_drms";
   Num U8 "frequency_hopping_enabled_flag"; Num U8 "frequency_hopping_bits"; Num U8 "new_data_indication";
   Num U8 "redundancy_version"; Num U8 "harq_process_number"; Num U8 "ul_tx_mode"; Num U8 "current_tx_nb";
   Num U8 "n_srs"].
(* src: nfapi_p7.c :: unpack_ul_config_ulsch_pdu_rel10_value *)
Definition unpack_ul_config_ulsch_pdu_rel10_value : list row :=
  [Num U8 "resource_allocation_type"; Num U32 "resource_block_coding"; Num U8 "transport_blocks";
   Num U8 "transmission_scheme"; Num U8 "number_of_layers"; Num U8 "codebook_index";
   Num U8 "disable_sequence_hopping_flag"].
(* src: nfapi_p7.c :: unpack_ul_config_ulsch_pdu_rel11_value *)
Definition unpack_ul_config_ulsch_pdu_rel11_value : list row :=
  [Num U8 "virtual_cell_id_enabled_flag"; Num U16 "npusch_identity"; Num U8 "dmrs_config_flag";
   Num U16 "ndmrs_csh_identity"].
(* src: nfapi_p7.c :: unpack_ul_config_ulsch_pdu_rel13_value *)
Definition unpack_ul_config_ulsch_pdu_rel13_value : list row :=
  [Num U8 "ue_type"; Num U16 "total_number_of_repetitions"; Num U16 "repetition_number";
   Num U16 "initial_transmission_sf_io"; Num U8 "empty_symbols_due_to_re_tunning"].
(* src: nfapi_p7.c :: unpack_ul_config_cqi_ri_info_rel8_value *)
Definition unpack_ul_config_cqi_ri_info_rel8_value : list row :=
  [Num U8 "dl_cqi_pmi_size_rank_1"; Num U8 "dl_cqi_pmi_size_rank_greater_1"; Num U8 "ri_size";
   Num U8 "delta_offset_cqi"; Num U8 "delta_offset_ri"].
(** Another report type is an error; nothing bounds the number of component
    carriers. *)
(* src: nfapi_p7.c :: unpack_ul_config_cqi_ri_info_rel9_value *)
Definition unpack_ul_config_cqi_ri_info_rel9_value : list row :=
  [Num U8 "report_type"; Num U8 "delta_offset_cqi"; Num U8 "delta_offset_ri";
   When (Equal (Member "report_type") NFAPI_CSI_REPORT_TYPE_PERIODIC)
     [Num U8 "periodic_cqi_pmi_ri_report.dl_cqi_pmi_ri_size"; Num U8 "periodic_cqi_pmi_ri_report.control_type"];
   When (Equal (Member "report_type") NFAPI_CSI_REPORT_TYPE_APERIODIC)
     [Num U8 "aperiodic_cqi_pmi_ri_report.number_of_cc";
      Items (Unchecked NFAPI_MAX_CC) "aperiodic_cqi_pmi_ri_report.cc" (Member "aperiodic_cqi_pmi_ri_report.number_of_cc")
        [Num U8 "ri_size"; Values (Unchecked 8) U8 "dl_cqi_pmi_size" (Const 8)]];
   When (Equal (Plus (Equal (Member "report_type") NFAPI_CSI_REPORT_TYPE_PERIODIC)
     (Equal (Member "report_type") NFAPI_CSI_REPORT_TYPE_APERIODIC)) 0) [Return0]].
(** The report type is not sent: the length tells. *)
(* src: nfapi_p7.c :: unpack_ul_config_cqi_ri_info_rel13_value *)
Definition unpack_ul_config_cqi_ri_info_rel13_value : unpacker struct := fun s l =>
  if tl_length (tl_of s) =? 0 then inr (set_num "report_type" NFAPI_CSI_REPORT_TYPE_APERIODIC s, l)
  else
    unpack_rows [] [Num U16 "periodic_cqi_pmi_ri_report.dl_cqi_pmi_ri_size_2"]
      (set_num "report_type" NFAPI_CSI_REPORT_TYPE_PERIODIC s) l.
(* src: nfapi_p7.c :: unpack_ul_config_cqi_init_tx_params_rel8_value *)
Definition unpack_ul_config_cqi_init_tx_params_rel8_value : list row :=
  [Num U8 "n_srs_initial"; Num U8 "initial_number_of_resource_blocks"].
(* src: nfapi_p7.c :: unpack_ul_config_ulsch_harq_info_rel10_value *)
Definition unpack_ul_config_ulsch_harq_info_rel10_value : list row :=
  [Num U8 "harq_size"; Num U8 "delta_offset_harq"; Num U8 "ack_nack_mode"].
(* src: nfapi_p7.c :: unpack_ul_config_ulsch_harq_info_rel13_value *)
Definition unpack_ul_config_ulsch_harq_info_rel13_value : list row :=
  [Num U16 "harq_size_2"; Num U8 "delta_offset_harq_2"].
(* src: nfapi_p7.c :: unpack_ul_config_ue_info_rel8_value *)
Definition unpack_ul_config_ue_info_rel8_value : list row :=
  [Num U32 "handle"; Num U16 "rnti"].
(* src: nfapi_p7.c :: unpack_ul_config_ue_info_rel11_value *)
Definition unpack_ul_config_ue_info_rel11_value : list row :=
  [Num U8 "virtual_cell_id_enabled_flag"; Num U16 "npusch_identity"].
(* src: nfapi_p7.c :: unpack_ul_config_ue_info_rel13_value *)
Definition unpack_ul_config_ue_info_rel13_value : list row :=
  [Num U8 "ue_type"; Num U8 "empty_symbols"; Num U16 "total_number_of_repetitions"; Num U16 "repetition_number"].
(* src: nfapi_p7.c :: unpack_ul_config_cqi_info_rel8_value *)
Definition unpack_ul_config_cqi_info_rel8_value : list row :=
  [Num U16 "pucch_index"; Num U8 "dl_cqi_pmi_size"].
(* src: nfapi_p7.c :: unpack_ul_config_cqi_info_rel10_value *)
Definition unpack_ul_config_cqi_info_rel10_value : list row :=
  [Num U8 "number_of_pucch_resource"; Num U16 "pucch_index_p1"].
(* src: nfapi_p7.c :: unpack_ul_config_cqi_info_rel13_value *)
Definition unpack_ul_config_cqi_info_rel13_value : list row :=
  [Num U8 "csi_mode"; Num U16 "dl_cqi_pmi_size_2"; Num U8 "starting_prb"; Num U8 "n_prb"; Num U8 "cdm_index";
   Num U8 "n_srs"].
(* src: nfapi_p7.c :: unpack_ul_config_sr_info_rel8_value *)
Definition unpack_ul_config_sr_info_rel8_value : list row :=
  [Num U16 "pucch_index"].
(* src: nfapi_p7.c :: unpack_ul_config_sr_info_rel10_value *)
Definition unpack_ul_config_sr_info_rel10_value : list row :=
  [Num U8 "number_of_pucch_resources"; Num U16 "pucch_index_p1"].
(* src: nfapi_p7.c :: unpack_ul_config_harq_info_rel10_tdd_value *)
Definition unpack_ul_config_harq_info_rel10_tdd_value : list row :=
  [Num U8 "harq_size"; Num U8 "ack_nack_mode"; Num U8 "number_of_pucch_resources"; Num U16 "n_pucch_1_0";
   Num U16 "n_pucch_1_1"; Num U16 "n_pucch_1_2"; Num U16 "n_pucch_1_3"].
(* src: nfapi_p7.c :: unpack_ul_config_harq_info_rel8_fdd_value *)
Definition unpack_ul_config_harq_info_rel8_fdd_value : list row :=
  [Num U16 "n_pucch_1_0"; Num U8 "harq_size"].
(* src: nfapi_p7.c :: unpack_ul_config_harq_info_rel9_fdd_value *)
Definition unpack_ul_config_harq_info_rel9_fdd_value : list row :=
  [Num U8 "harq_size"; Num U8 "ack_nack_mode"; Num U8 "number_of_pucch_resources"; Num U16 "n_pucch_1_0";
   Num U16 "n_pucch_1_1"; Num U16 "n_pucch_1_2"; Num U16 "n_pucch_1_3"].
(* src: nfapi_p7.c :: unpack_ul_config_harq_info_rel11_value *)
Definition unpack_ul_config_harq_info_rel11_value : list row :=
  [Num U8 "num_ant_ports"; Num U16 "n_pucch_2_0"; Num U16 "n_pucch_2_1"; Num U16 "n_pucch_2_2"; Num U16 "n_pucch_2_3"].
(* src: nfapi_p7.c :: unpack_ul_config_harq_info_rel13_value *)
Definition unpack_ul_config_harq_info_rel13_value : list row :=
  [Num U16 "harq_size_2"; Num U8 "starting_prb"; Num U8 "n_prb"; Num U8 "cdm_index"; Num U8 "n_srs"].
(* src: nfapi_p7.c :: unpack_ul_config_srs_pdu_rel8_value *)
Definition unpack_ul_config_srs_pdu_rel8_value : list row :=
  [Num U32 "handle"; Num U16 "size"; Num U16 "rnti"; Num U8 "srs_bandwidth"; Num U8 "frequency_domain_position";
   Num U8 "srs_hopping_bandwidth"; Num U8 "transmission_comb"; Num U16 "i_srs";
   Num U8 "sounding_reference_cyclic_shift"].
(* src: nfapi_p7.c :: unpack_ul_config_srs_pdu_rel10_value *)
Definition unpack_ul_config_srs_pdu_rel10_value : list row :=
  [Num U8 "antenna_port"].
(* src: nfapi_p7.c :: unpack_ul_config_srs_pdu_rel13_value *)
Definition unpack_ul_config_srs_pdu_rel13_value : list row :=
  [Num U8 "number_of_combs"].
(* src: nfapi_p7.c :: unpack_ul_nb_harq_info_rel13_fdd_value *)
Definition unpack_ul_nb_harq_info_rel13_fdd_value : list row :=
  [Num U8 "harq_ack_resource"].
(** The TLVs are read up to the end of the PDU, not of the value. *)
(* src: nfapi_p7.c :: unpack_ul_config_nulsch_pdu_rel13_value *)
Definition unpack_ul_config_nulsch_pdu_rel13_value : unpacker struct :=
  andthen (unpack_rows [] nulsch_rows) (fun s l =>
    let '(r, s, rest) := unpack_tlv_list (entry_fn <$>
      [Read NFAPI_UL_CONFIG_REQUEST_UE_INFORMATION_REL8_TAG "ue_information.ue_information_rel8" unpack_ul_config_ue_info_rel8_value;
       Read NFAPI_UL_CONFIG_REQUEST_UE_INFORMATION_REL11_TAG "ue_information.ue_information_rel11" unpack_ul_config_ue_info_rel11_value;
       Read NFAPI_UL_CONFIG_REQUEST_UE_INFORMATION_REL13_TAG "ue_information.ue_information_rel13" unpack_ul_config_ue_info_rel13_value;
       Read NFAPI_UL_CONFIG_REQUEST_NB_HARQ_INFORMATION_REL13_FDD_TAG "nb_harq_information.nb_harq_information_rel13_fdd"
         unpack_ul_nb_harq_info_rel13_fdd_value]) None s l in
    if r =? 0 then inl (s, rest) else inr (s, rest)).
(* src: nfapi_p7.c :: unpack_ul_config_nrach_pdu_rel13_value *)
Definition unpack_ul_config_nrach_pdu_rel13_value : list row :=
  [Num U8 "nprach_config_0"; Num U8 "nprach_config_1"; Num U8 "nprach_config_2"].
(* src: nfapi_p7.c :: UL_CONFIG_ULSCH_PDU_UNPACK_FNS *)
Definition UL_CONFIG_ULSCH_PDU_UNPACK_FNS (p : string) : list entry :=
  [Read NFAPI_UL_CONFIG_REQUEST_ULSCH_PDU_REL8_TAG (p +:+ ".ulsch_pdu_rel8")
     unpack_ul_config_ulsch_pdu_rel8_value;
   Read NFAPI_UL_CONFIG_REQUEST_ULSCH_PDU_REL10_TAG (p +:+ ".ulsch_pdu_rel10")
     unpack_ul_config_ulsch_pdu_rel10_value;
   Read NFAPI_UL_CONFIG_REQUEST_ULSCH_PDU_REL11_TAG (p +:+ ".ulsch_pdu_rel11")
     unpack_ul_config_ulsch_pdu_rel11_value;
   Read NFAPI_UL_CONFIG_REQUEST_ULSCH_PDU_REL13_TAG (p +:+ ".ulsch_pdu_rel13")
     unpack_ul_config_ulsch_pdu_rel13_value].
(* src: nfapi_p7.c :: UL_CONFIG_CQI_RI_INFO_UNPACK_FNS *)
Definition UL_CONFIG_CQI_RI_INFO_UNPACK_FNS (p : string) : list entry :=
  [Read NFAPI_UL_CONFIG_REQUEST_CQI_RI_INFORMATION_REL8_TAG (p +:+ ".cqi_ri_information_rel8")
     unpack_ul_config_cqi_ri_info_rel8_value;
   Read NFAPI_UL_CONFIG_REQUEST_CQI_RI_INFORMATION_REL9_TAG (p +:+ ".cqi_ri_information_rel9")
     unpack_ul_config_cqi_ri_info_rel9_value;
   Special NFAPI_UL_CONFIG_REQUEST_CQI_RI_INFORMATION_REL13_TAG (p +:+ ".cqi_ri_information_rel13")
     unpack_ul_config_cqi_ri_info_rel13_value].
(* src: nfapi_p7.c :: UL_CONFIG_ULSCH_HARQ_INFO_UNPACK_FNS *)
Definition UL_CONFIG_ULSCH_HARQ_INFO_UNPACK_FNS (p : string) : list entry :=
  [Read NFAPI_UL_CONFIG_REQUEST_ULSCH_HARQ_INFORMATION_REL10_TAG (p +:+ ".harq_information_rel10")
     unpack_ul_config_ulsch_harq_info_rel10_value;
   Read NFAPI_UL_CONFIG_REQUEST_ULSCH_HARQ_INFORMATION_REL13_TAG (p +:+ ".harq_information_rel13")
     unpack_ul_config_ulsch_harq_info_rel13_value].
(* src: nfapi_p7.c :: UL_CONFIG_INIT_TX_PARAMS_UNPACK_FNS *)
Definition UL_CONFIG_INIT_TX_PARAMS_UNPACK_FNS (p : string) : list entry :=
  [Read NFAPI_UL_CONFIG_REQUEST_INITIAL_TRANSMISSION_PARAMETERS_REL8_TAG (p +:+ ".initial_transmission_parameters_rel8")
     unpack_ul_config_cqi_init_tx_params_rel8_value].
(* src: nfapi_p7.c :: UL_CONFIG_UCI_UE_INFO_UNPACK_FNS *)
Definition UL_CONFIG_UCI_UE_INFO_UNPACK_FNS (p : string) : list entry :=
  [Read NFAPI_UL_CONFIG_REQUEST_UE_INFORMATION_REL8_TAG (p +:+ ".ue_information_rel8")
     unpack_ul_config_ue_info_rel8_value;
   Read NFAPI_UL_CONFIG_REQUEST_UE_INFORMATION_REL11_TAG (p +:+ ".ue_information_rel11")
     unpack_ul_config_ue_info_rel11_value;
   Read NFAPI_UL_CONFIG_REQUEST_UE_INFORMATION_REL13_TAG (p +:+ ".ue_information_rel13")
     unpack_ul_config_ue_info_rel13_value].
(* src: nfapi_p7.c :: UL_CONFIG_UCI_CQI_INFO_UNPACK_FNS *)
Definition UL_CONFIG_UCI_CQI_INFO_UNPACK_FNS (p : string) : list entry :=
  [Read NFAPI_UL_CONFIG_REQUEST_CQI_INFORMATION_REL8_TAG (p +:+ ".cqi_information_rel8")
     unpack_ul_config_cqi_info_rel8_value;
   Read NFAPI_UL_CONFIG_REQUEST_CQI_INFORMATION_REL10_TAG (p +:+ ".cqi_information_rel10")
     unpack_ul_config_cqi_info_rel10_value;
   Read NFAPI_UL_CONFIG_REQUEST_CQI_INFORMATION_REL13_TAG (p +:+ ".cqi_information_rel13")
     unpack_ul_config_cqi_info_rel13_value].
(* src: nfapi_p7.c :: UL_CONFIG_UCI_SR_INFO_UNPACK_FNS *)
Definition UL_CONFIG_UCI_SR_INFO_UNPACK_FNS (p : string) : list entry :=
  [Read NFAPI_UL_CONFIG_REQUEST_SR_INFORMATION_REL8_TAG (p +:+ ".sr_information_rel8")
     unpack_ul_config_sr_info_rel8_value;
   Read NFAPI_UL_CONFIG_REQUEST_SR_INFORMATION_REL10_TAG (p +:+ ".sr_information_rel10")
     unpack_ul_config_sr_info_rel10_value].
(* src: nfapi_p7.c :: UL_CONFIG_UCI_HARQ_INFO_UNPACK_FNS *)
Definition UL_CONFIG_UCI_HARQ_INFO_UNPACK_FNS (p : string) : list entry :=
  [Read NFAPI_UL_CONFIG_REQUEST_HARQ_INFORMATION_REL10_TDD_TAG (p +:+ ".harq_information_rel10_tdd")
     unpack_ul_config_harq_info_rel10_tdd_value;
   Read NFAPI_UL_CONFIG_REQUEST_HARQ_INFORMATION_REL8_FDD_TAG (p +:+ ".harq_information_rel8_fdd")
     unpack_ul_config_harq_info_rel8_fdd_value;
   Read NFAPI_UL_CONFIG_REQUEST_HARQ_INFORMATION_REL9_FDD_TAG (p +:+ ".harq_information_rel9_fdd")
     unpack_ul_config_harq_info_rel9_fdd_value;
   Read NFAPI_UL_CONFIG_REQUEST_HARQ_INFORMATION_REL11_TAG (p +:+ ".harq_information_rel11")
     unpack_ul_config_harq_info_rel11_value;
   Read NFAPI_UL_CONFIG_REQUEST_HARQ_INFORMATION_REL13_TAG (p +:+ ".harq_information_rel13")
     unpack_ul_config_harq_info_rel13_value].
(* src: nfapi_p7.c :: UL_CONFIG_SRS_PDU_UNPACK_FNS *)
Definition UL_CONFIG_SRS_PDU_UNPACK_FNS (p : string) : list entry :=
  [Read NFAPI_UL_CONFIG_REQUEST_SRS_PDU_REL8_TAG (p +:+ ".srs_pdu_rel8")
     unpack_ul_config_srs_pdu_rel8_value;
   Read NFAPI_UL_CONFIG_REQUEST_SRS_PDU_REL10_TAG (p +:+ ".srs_pdu_rel10")
     unpack_ul_config_srs_pdu_rel10_value;
   Read NFAPI_UL_CONFIG_REQUEST_SRS_PDU_REL13_TAG (p +:+ ".srs_pdu_rel13")
     unpack_ul_config_srs_pdu_rel13_value].
(* src: nfapi_p7.c :: UL_CONFIG_NULSCH_PDU_UNPACK_FNS *)
Definition UL_CONFIG_NULSCH_PDU_UNPACK_FNS (p : string) : list entry :=
  [Special NFAPI_UL_CONFIG_REQUEST_NULSCH_PDU_REL13_TAG (p +:+ ".nulsch_pdu_rel13")
     unpack_ul_config_nulsch_pdu_rel13_value].
(* src: nfapi_p7.c :: UL_CONFIG_NRACH_PDU_UNPACK_FNS *)
Definition UL_CONFIG_NRACH_PDU_UNPACK_FNS (p : string) : list entry :=
  [Read NFAPI_UL_CONFIG_REQUEST_NRACH_PDU_REL13_TAG (p +:+ ".nrach_pdu_rel13")
     unpack_ul_config_nrach_pdu_rel13_value].
(* src: nfapi_p7.c :: pack_ul_config_request_body_value *)
Definition pack_ul_config_request_body_value : pbody :=
  PBody [Num U8 "number_of_pdus"; Num U8 "rach_prach_frequency_resources"; Num U8 "srs_present"] ["number_of_pdus"] "ul_config_pdu_list"
    (PTyped [
      (NFAPI_UL_CONFIG_ULSCH_PDU_TYPE,
        pack_ul_config_request_ulsch_pdu "ulsch_pdu");
      (NFAPI_UL_CONFIG_ULSCH_CQI_RI_PDU_TYPE,
        pack_ul_config_request_ulsch_pdu "ulsch_cqi_ri_pdu.ulsch_pdu" ++
        pack_ul_config_request_cqi_ri_information "ulsch_cqi_ri_pdu.cqi_ri_information" ++
        pack_ul_config_request_initial_transmission_parameters "ulsch_cqi_ri_pdu.initial_transmission_parameters");
      (NFAPI_UL_CONFIG_ULSCH_HARQ_PDU_TYPE,
        pack_ul_config_request_ulsch_pdu "ulsch_harq_pdu.ulsch_pdu" ++
        pack_ul_config_request_ulsch_harq_information "ulsch_harq_pdu.harq_information" ++
        pack_ul_config_request_initial_transmission_parameters "ulsch_harq_pdu.initial_transmission_parameters");
      (NFAPI_UL_CONFIG_ULSCH_CQI_HARQ_RI_PDU_TYPE,
        pack_ul_config_request_ulsch_pdu "ulsch_cqi_harq_ri_pdu.ulsch_pdu" ++
        pack_ul_config_request_cqi_ri_information "ulsch_cqi_harq_ri_pdu.cqi_ri_information" ++
        pack_ul_config_request_ulsch_harq_information "ulsch_cqi_harq_ri_pdu.harq_information" ++
        pack_ul_config_request_initial_transmission_parameters "ulsch_cqi_harq_ri_pdu.initial_transmission_parameters");
      (NFAPI_UL_CONFIG_UCI_CQI_PDU_TYPE,
        pack_ul_config_request_ue_information "uci_cqi_pdu.ue_information" ++
        pack_ul_config_request_cqi_information "uci_cqi_pdu.cqi_information");
      (NFAPI_UL_CONFIG_UCI_SR_PDU_TYPE,
        pack_ul_config_request_ue_information "uci_sr_pdu.ue_information" ++
        pack_ul_config_request_sr_information "uci_sr_pdu.sr_information");
      (NFAPI_UL_CONFIG_UCI_HARQ_PDU_TYPE,
        pack_ul_config_request_ue_information "uci_harq_pdu.ue_information" ++
        pack_ul_config_request_harq_information "uci_harq_pdu.harq_information");
      (NFAPI_UL_CONFIG_UCI_SR_HARQ_PDU_TYPE,
        pack_ul_config_request_ue_information "uci_sr_harq_pdu.ue_information" ++
        pack_ul_config_request_sr_information "uci_sr_harq_pdu.sr_information" ++
        pack_ul_config_request_harq_information "uci_sr_harq_pdu.harq_information");
      (NFAPI_UL_CONFIG_UCI_CQI_HARQ_PDU_TYPE,
        pack_ul_config_request_ue_information "uci_cqi_harq_pdu.ue_information" ++
        pack_ul_config_request_cqi_information "uci_cqi_harq_pdu.cqi_information" ++
        pack_ul_config_request_harq_information "uci_cqi_harq_pdu.harq_information");
      (NFAPI_UL_CONFIG_UCI_CQI_SR_PDU_TYPE,
        pack_ul_config_request_ue_information "uci_cqi_sr_pdu.ue_information" ++
        pack_ul_config_request_cqi_information "uci_cqi_sr_pdu.cqi_information" ++
        pack_ul_config_request_sr_information "uci_cqi_sr_pdu.sr_information");
      (NFAPI_UL_CONFIG_UCI_CQI_SR_HARQ_PDU_TYPE,
        pack_ul_config_request_ue_information "uci_cqi_sr_harq_pdu.ue_information" ++
        pack_ul_config_request_cqi_information "uci_cqi_sr_harq_pdu.cqi_information" ++
        pack_ul_config_request_sr_information "uci_cqi_sr_harq_pdu.sr_information" ++
        pack_ul_config_request_harq_information "uci_cqi_sr_harq_pdu.harq_information");
      (NFAPI_UL_CONFIG_SRS_PDU_TYPE,
        [Write NFAPI_UL_CONFIG_REQUEST_SRS_PDU_REL8_TAG "srs_pdu.srs_pdu_rel8"
           pack_ul_config_request_srs_pdu_rel8_value;
         Write NFAPI_UL_CONFIG_REQUEST_SRS_PDU_REL10_TAG "srs_pdu.srs_pdu_rel10"
           pack_ul_config_request_srs_pdu_rel10_value;
         Write NFAPI_UL_CONFIG_REQUEST_SRS_PDU_REL13_TAG "srs_pdu.srs_pdu_rel13"
           pack_ul_config_request_srs_pdu_rel13_value]);
      (NFAPI_UL_CONFIG_HARQ_BUFFER_PDU_TYPE,
        pack_ul_config_request_ue_information "harq_buffer_pdu.ue_information");
      (NFAPI_UL_CONFIG_ULSCH_UCI_CSI_PDU_TYPE,
        pack_ul_config_request_ulsch_pdu "ulsch_uci_csi_pdu.ulsch_pdu" ++
        pack_ul_config_request_cqi_information "ulsch_uci_csi_pdu.csi_information");
      (NFAPI_UL_CONFIG_ULSCH_UCI_HARQ_PDU_TYPE,
        pack_ul_config_request_ulsch_pdu "ulsch_uci_harq_pdu.ulsch_pdu" ++
        pack_ul_config_request_harq_information "ulsch_uci_harq_pdu.harq_information");
      (NFAPI_UL_CONFIG_ULSCH_CSI_UCI_HARQ_PDU_TYPE,
        pack_ul_config_request_ulsch_pdu "ulsch_csi_uci_harq_pdu.ulsch_pdu" ++
        pack_ul_config_request_cqi_information "ulsch_csi_uci_harq_pdu.csi_information" ++
        pack_ul_config_request_harq_information "ulsch_csi_uci_harq_pdu.harq_information");
      (NFAPI_UL_CONFIG_NULSCH_PDU_TYPE,
        [PSpecial NFAPI_UL_CONFIG_REQUEST_NULSCH_PDU_REL13_TAG "nulsch_pdu.nulsch_pdu_rel13" pack_ul_config_request_nulsch_pdu_rel13_value]);
      (NFAPI_UL_CONFIG_NRACH_PDU_TYPE,
        [Write NFAPI_UL_CONFIG_REQUEST_NRACH_PDU_REL13_TAG "nrach_pdu.nrach_pdu_rel13"
           pack_ul_config_request_nrach_pdu_rel13_value])]).
(* src: nfapi_p7.c :: unpack_ul_config_request_body_value *)
Definition unpack_ul_config_request_body_value : ubody :=
  UBody false false [Num U8 "number_of_pdus"; Num U8 "rach_prach_frequency_resources"; Num U8 "srs_present"] ["number_of_pdus"] (fun n => n) NFAPI_UL_CONFIG_MAX_PDU "ul_config_pdu_list"
    (UTyped false [
      (NFAPI_UL_CONFIG_ULSCH_PDU_TYPE,
        UL_CONFIG_ULSCH_PDU_UNPACK_FNS "ulsch_pdu");
      (NFAPI_UL_CONFIG_ULSCH_CQI_RI_PDU_TYPE,
        UL_CONFIG_ULSCH_PDU_UNPACK_FNS "ulsch_cqi_ri_pdu.ulsch_pdu" ++
        UL_CONFIG_CQI_RI_INFO_UNPACK_FNS "ulsch_cqi_ri_pdu.cqi_ri_information" ++
        UL_CONFIG_INIT_TX_PARAMS_UNPACK_FNS "ulsch_cqi_ri_pdu.initial_transmission_parameters");
      (NFAPI_UL_CONFIG_ULSCH_HARQ_PDU_TYPE,
        UL_CONFIG_ULSCH_PDU_UNPACK_FNS "ulsch_harq_pdu.ulsch_pdu" ++
        UL_CONFIG_ULSCH_HARQ_INFO_UNPACK_FNS "ulsch_harq_pdu.harq_information" ++
        UL_CONFIG_INIT_TX_PARAMS_UNPACK_FNS "ulsch_harq_pdu.initial_transmission_parameters");
      (NFAPI_UL_CONFIG_ULSCH_CQI_HARQ_RI_PDU_TYPE,
        UL_CONFIG_ULSCH_PDU_UNPACK_FNS "ulsch_cqi_harq_ri_pdu.ulsch_pdu" ++
        UL_CONFIG_CQI_RI_INFO_UNPACK_FNS "ulsch_cqi_harq_ri_pdu.cqi_ri_information" ++
        UL_CONFIG_ULSCH_HARQ_INFO_UNPACK_FNS "ulsch_cqi_harq_ri_pdu.harq_information" ++
        UL_CONFIG_INIT_TX_PARAMS_UNPACK_FNS "ulsch_cqi_harq_ri_pdu.initial_transmission_parameters");
      (NFAPI_UL_CONFIG_UCI_CQI_PDU_TYPE,
        UL_CONFIG_UCI_UE_INFO_UNPACK_FNS "uci_cqi_pdu.ue_information" ++
        UL_CONFIG_UCI_CQI_INFO_UNPACK_FNS "uci_cqi_pdu.cqi_information");
      (NFAPI_UL_CONFIG_UCI_SR_PDU_TYPE,
        UL_CONFIG_UCI_UE_INFO_UNPACK_FNS "uci_sr_pdu.ue_information" ++
        UL_CONFIG_UCI_SR_INFO_UNPACK_FNS "uci_sr_pdu.sr_information");
      (NFAPI_UL_CONFIG_UCI_HARQ_PDU_TYPE,
        UL_CONFIG_UCI_UE_INFO_UNPACK_FNS "uci_harq_pdu.ue_information" ++
        UL_CONFIG_UCI_HARQ_INFO_UNPACK_FNS "uci_harq_pdu.harq_information");
      (NFAPI_UL_CONFIG_UCI_SR_HARQ_PDU_TYPE,
        UL_CONFIG_UCI_UE_INFO_UNPACK_FNS "uci_sr_harq_pdu.ue_information" ++
        UL_CONFIG_UCI_SR_INFO_UNPACK_FNS "uci_sr_harq_pdu.sr_information" ++
        UL_CONFIG_UCI_HARQ_INFO_UNPACK_FNS "uci_sr_harq_pdu.harq_information");
      (NFAPI_UL_CONFIG_UCI_CQI_HARQ_PDU_TYPE,
        UL_CONFIG_UCI_UE_INFO_UNPACK_FNS "uci_cqi_harq_pdu.ue_information" ++
        UL_CONFIG_UCI_CQI_INFO_UNPACK_FNS "uci_cqi_harq_pdu.cqi_information" ++
        UL_CONFIG_UCI_HARQ_INFO_UNPACK_FNS "uci_cqi_harq_pdu.harq_information");
      (NFAPI_UL_CONFIG_UCI_CQI_SR_PDU_TYPE,
        UL_CONFIG_UCI_UE_INFO_UNPACK_FNS "uci_cqi_sr_pdu.ue_information" ++
        UL_CONFIG_UCI_CQI_INFO_UNPACK_FNS "uci_cqi_sr_pdu.cqi_information" ++
        UL_CONFIG_UCI_SR_INFO_UNPACK_FNS "uci_cqi_sr_pdu.sr_information");
      (NFAPI_UL_CONFIG_UCI_CQI_SR_HARQ_PDU_TYPE,
        UL_CONFIG_UCI_UE_INFO_UNPACK_FNS "uci_cqi_sr_harq_pdu.ue_information" ++
        UL_CONFIG_UCI_CQI_INFO_UNPACK_FNS "uci_cqi_sr_harq_pdu.cqi_information" ++
        UL_CONFIG_UCI_SR_INFO_UNPACK_FNS "uci_cqi_sr_harq_pdu.sr_information" ++
        UL_CONFIG_UCI_HARQ_INFO_UNPACK_FNS "uci_cqi_sr_harq_pdu.harq_information");
      (NFAPI_UL_CONFIG_SRS_PDU_TYPE,
        UL_CONFIG_SRS_PDU_UNPACK_FNS "srs_pdu");
      (NFAPI_UL_CONFIG_HARQ_BUFFER_PDU_TYPE,
        UL_CONFIG_UCI_UE_INFO_UNPACK_FNS "harq_buffer_pdu.ue_information");
      (NFAPI_UL_CONFIG_ULSCH_UCI_CSI_PDU_TYPE,
        UL_CONFIG_ULSCH_PDU_UNPACK_FNS "ulsch_uci_csi_pdu.ulsch_pdu" ++
        UL_CONFIG_UCI_CQI_INFO_UNPACK_FNS "ulsch_uci_csi_pdu.csi_information");
      (NFAPI_UL_CONFIG_ULSCH_UCI_HARQ_PDU_TYPE,
        UL_CONFIG_ULSCH_PDU_UNPACK_FNS "ulsch_uci_harq_pdu.ulsch_pdu" ++
        UL_CONFIG_UCI_HARQ_INFO_UNPACK_FNS "ulsch_uci_harq_pdu.harq_information");
      (NFAPI_UL_CONFIG_ULSCH_CSI_UCI_HARQ_PDU_TYPE,
        UL_CONFIG_ULSCH_PDU_UNPACK_FNS "ulsch_csi_uci_harq_pdu.ulsch_pdu" ++
        UL_CONFIG_UCI_CQI_INFO_UNPACK_FNS "ulsch_csi_uci_harq_pdu.csi_information" ++
        UL_CONFIG_UCI_HARQ_INFO_UNPACK_FNS "ulsch_csi_uci_harq_pdu.harq_information");
      (NFAPI_UL_CONFIG_NULSCH_PDU_TYPE,
        UL_CONFIG_NULSCH_PDU_UNPACK_FNS "nulsch_pdu");
      (NFAPI_UL_CONFIG_NRACH_PDU_TYPE,
        UL_CONFIG_NRACH_PDU_UNPACK_FNS "nrach_pdu")]).
(* src: nfapi_p7.c :: pack_ul_config_request *)
Definition pack_ul_config_request : struct -> packer :=
  pack_pdu_message NFAPI_UL_CONFIG_REQUEST_BODY_TAG "ul_config_request_body"
    (pack_pdu_body pack_ul_config_request_body_value).
(* src: nfapi_p7.c :: unpack_ul_config_request *)
Definition unpack_ul_config_request : struct -> list Z -> Z * struct :=
  unpack_pdu_message NFAPI_UL_CONFIG_REQUEST_BODY_TAG "ul_config_request_body"
    (unpack_pdu_body (fun _ => 0) unpack_ul_config_request_body_value).

(** ** Values of several indications

    Those of [LteInd], as rows. *)

Definition rx_ue_information_value : list row := [Num U32 "handle"; Num U16 "rnti"].
Definition ul_cqi_information_value : list row := [Num U8 "ul_cqi"; Num U8 "channel"].
Definition crc_indication_rel8_value : list row := [Num U8 "crc_flag"].
Definition preamble_pdu_rel8_value : list row := [Num U16 "rnti"; Num U8 "preamble"; Num U16 "timing_advance"].
Definition preamble_pdu_rel9_value : list row := [Num U16 "timing_advance_r9"].
Definition preamble_pdu_rel13_value : list row := [Num U8 "rach_resource_type"].


(** ** HARQ.indication

    The alternatives of [harq_data] are a union whose members begin in the same
    place: one structure here. *)

Definition one_of (e : expr) (vs : list Z) : expr := foldr (fun v c => Plus (Equal e v) c) (Const 0) vs.
(** Special bundling has a function of its own. *)
Definition harq_modes_rel8 : list Z :=
  [NFAPI_HARQ_INDICATION_TDD_HARQ_ACK_NACK_FORMAT_BUNDLING; NFAPI_HARQ_INDICATION_TDD_HARQ_ACK_NACK_FORMAT_MULIPLEXING;
   NFAPI_HARQ_INDICATION_TDD_HARQ_ACK_NACK_FORMAT_SPECIAL_BUNDLING;
   NFAPI_HARQ_INDICATION_TDD_HARQ_ACK_NACK_FORMAT_CHANNEL_SELECTION; NFAPI_HARQ_INDICATION_TDD_HARQ_ACK_NACK_FORMAT_FORMAT_3].
Definition harq_modes_rel9 : list Z :=
  [NFAPI_HARQ_INDICATION_TDD_HARQ_ACK_NACK_FORMAT_BUNDLING; NFAPI_HARQ_INDICATION_TDD_HARQ_ACK_NACK_FORMAT_MULIPLEXING;
   NFAPI_HARQ_INDICATION_TDD_HARQ_ACK_NACK_FORMAT_CHANNEL_SELECTION; NFAPI_HARQ_INDICATION_TDD_HARQ_ACK_NACK_FORMAT_FORMAT_3].
Definition harq_modes_rel13 : list Z :=
  harq_modes_rel9 ++
  [NFAPI_HARQ_INDICATION_TDD_HARQ_ACK_NACK_FORMAT_FORMAT_4; NFAPI_HARQ_INDICATION_TDD_HARQ_ACK_NACK_FORMAT_FORMAT_5].
(** The [switch] on the mode for each element: those of the other modes look alike. *)
Definition harq_data_switch (modes : list Z) (data special : list row) : list row :=
  let mode := Outer (Member "mode") in
  [When (one_of mode modes) data;
   When (Equal mode NFAPI_HARQ_INDICATION_TDD_HARQ_ACK_NACK_FORMAT_SPECIAL_BUNDLING) special;
   When (Equal (one_of mode (NFAPI_HARQ_INDICATION_TDD_HARQ_ACK_NACK_FORMAT_SPECIAL_BUNDLING :: modes)) 0) [Return0]].

(* src: nfapi_p7.c :: pack_harq_indication_tdd_harq_data_bundling *)
Definition pack_harq_indication_tdd_harq_data_bundling : list row :=
  [Num U8 "value_0"; Num U8 "value_1"].
(* src: nfapi_p7.c :: pack_harq_indication_tdd_harq_data_multiplexing *)
Definition pack_harq_indication_tdd_harq_data_multiplexing : list row :=
  [Num U8 "value_0"; Num U8 "value_1"; Num U8 "value_2"; Num U8 "value_3"].
(* src: nfapi_p7.c :: pack_harq_indication_tdd_harq_data_special_bundling *)
Definition pack_harq_indication_tdd_harq_data_special_bundling : list row :=
  [Num U8 "value_0"].
(* src: nfapi_p7.c :: pack_harq_indication_tdd_harq_data *)
Definition pack_harq_indication_tdd_harq_data : list row :=
  [Num U8 "value_0"].
(* src: nfapi_p7.c :: pack_harq_indication_tdd_rel8_value *)
Definition pack_harq_indication_tdd_rel8_value : list row :=
  [Num U8 "mode"; Num U8 "number_of_ack_nack";
   When (Equal (Member "mode") NFAPI_HARQ_INDICATION_TDD_HARQ_ACK_NACK_FORMAT_BUNDLING)
     [Part "harq_data" pack_harq_indication_tdd_harq_data_bundling];
   When (Equal (Member "mode") NFAPI_HARQ_INDICATION_TDD_HARQ_ACK_NACK_FORMAT_MULIPLEXING)
     [Part "harq_data" pack_harq_indication_tdd_harq_data_multiplexing];
   When (Equal (Member "mode") NFAPI_HARQ_INDICATION_TDD_HARQ_ACK_NACK_FORMAT_SPECIAL_BUNDLING)
     [Part "harq_data" pack_harq_indication_tdd_harq_data_special_bundling];
   When (Equal (one_of (Member "mode") harq_modes_rel8) 0) [Return0]].
(* src: nfapi_p7.c :: pack_harq_indication_tdd_rel9_value *)
Definition pack_harq_indication_tdd_rel9_value : list row :=
  [Num U8 "mode"; Num U8 "number_of_ack_nack";
   Items (Unchecked NFAPI_MAX_NUMBER_ACK_NACK_TDD) "harq_data" (Member "number_of_ack_nack")
     (harq_data_switch harq_modes_rel9 pack_harq_indication_tdd_harq_data
        pack_harq_indication_tdd_harq_data_special_bundling)].
(** The index has eight bits and the count 16: from 256 on the loop ends only at
    the end of the buffer, and the call fails. *)
(* src: nfapi_p7.c :: pack_harq_indication_tdd_rel13_value *)
Definition pack_harq_indication_tdd_rel13_value : list row :=
  [Num U8 "mode"; Num U16 "number_of_ack_nack";
   Items (UpTo 255) "harq_data" (Member "number_of_ack_nack")
     (harq_data_switch harq_modes_rel13 pack_harq_indication_tdd_harq_data
        pack_harq_indication_tdd_harq_data_special_bundling)].
(* src: nfapi_p7.c :: pack_harq_indication_fdd_rel8_value *)
Definition pack_harq_indication_fdd_rel8_value : list row :=
  [Num U8 "harq_tb1"; Num U8 "harq_tb2"].
(* src: nfapi_p7.c :: pack_harq_indication_fdd_rel9_value *)
Definition pack_harq_indication_fdd_rel9_value : list row :=
  [Num U8 "mode"; Num U8 "number_of_ack_nack";
   Arr U8 "harq_tb_n" NFAPI_HARQ_ACK_NACK_REL9_MAX (Member "number_of_ack_nack")].
(* src: nfapi_p7.c :: pack_harq_indication_fdd_rel13_value *)
Definition pack_harq_indication_fdd_rel13_value : list row :=
  [Num U8 "mode"; Num U16 "number_of_ack_nack";
   Arr U8 "harq_tb_n" NFAPI_HARQ_ACK_NACK_REL13_MAX (Member "number_of_ack_nack")].
(* src: nfapi_p7.c :: unpack_harq_indication_tdd_harq_data_bundling *)
Definition unpack_harq_indication_tdd_harq_data_bundling : list row :=
  [Num U8 "value_0"; Num U8 "value_1"].
(* src: nfapi_p7.c :: unpack_harq_indication_tdd_harq_data_multiplexing *)
Definition unpack_harq_indication_tdd_harq_data_multiplexing : list row :=
  [Num U8 "value_0"; Num U8 "value_1"; Num U8 "value_2"; Num U8 "value_3"].
(* src: nfapi_p7.c :: unpack_harq_indication_tdd_harq_data_special_bundling *)
Definition unpack_harq_indication_tdd_harq_data_special_bundling : list row :=
  [Num U8 "value_0"].
(* src: nfapi_p7.c :: unpack_harq_indication_tdd_harq_data *)
Definition unpack_harq_indication_tdd_harq_data : list row :=
  [Num U8 "value_0"].
(* src: nfapi_p7.c :: unpack_harq_indication_tdd_rel8_value *)
Definition unpack_harq_indication_tdd_rel8_value : list row :=
  [Num U8 "mode"; Num U8 "number_of_ack_nack";
   When (Equal (Member "mode") NFAPI_HARQ_INDICATION_TDD_HARQ_ACK_NACK_FORMAT_BUNDLING)
     [Part "harq_data" unpack_harq_indication_tdd_harq_data_bundling];
   When (Equal (Member "mode") NFAPI_HARQ_INDICATION_TDD_HARQ_ACK_NACK_FORMAT_MULIPLEXING)
     [Part "harq_data" unpack_harq_indication_tdd_harq_data_multiplexing];
   When (Equal (Member "mode") NFAPI_HARQ_INDICATION_TDD_HARQ_ACK_NACK_FORMAT_SPECIAL_BUNDLING)
     [Part "harq_data" unpack_harq_indication_tdd_harq_data_special_bundling];
   When (Equal (one_of (Member "mode") harq_modes_rel8) 0) [Return0]].
(* src: nfapi_p7.c :: unpack_harq_indication_tdd_rel9_value *)
Definition unpack_harq_indication_tdd_rel9_value : list row :=
  [Num U8 "mode"; Num U8 "number_of_ack_nack";
   Items (UpTo NFAPI_MAX_NUMBER_ACK_NACK_TDD) "harq_data" (Member "number_of_ack_nack")
     (harq_data_switch harq_modes_rel9 unpack_harq_indication_tdd_harq_data
        unpack_harq_indication_tdd_harq_data_special_bundling)].
(* src: nfapi_p7.c :: unpack_harq_indication_tdd_rel13_value *)
Definition unpack_harq_indication_tdd_rel13_value : list row :=
  [Num U8 "mode"; Num U16 "number_of_ack_nack";
   Items (UpTo NFAPI_MAX_NUMBER_ACK_NACK_TDD) "harq_data" (Member "number_of_ack_nack")
     (harq_data_switch harq_modes_rel13 unpack_harq_indication_tdd_harq_data
        unpack_harq_indication_tdd_harq_data_special_bundling)].
(* src: nfapi_p7.c :: unpack_harq_indication_fdd_rel8_value *)
Definition unpack_harq_indication_fdd_rel8_value : list row :=
  [Num U8 "harq_tb1"; Num U8 "harq_tb2"].
(* src: nfapi_p7.c :: unpack_harq_indication_fdd_rel9_value *)
Definition unpack_harq_indication_fdd_rel9_value : list row :=
  [Num U8 "mode"; Num U8 "number_of_ack_nack";
   Arr U8 "harq_tb_n" NFAPI_HARQ_ACK_NACK_REL9_MAX (Member "number_of_ack_nack")].
(* src: nfapi_p7.c :: unpack_harq_indication_fdd_rel13_value *)
Definition unpack_harq_indication_fdd_rel13_value : list row :=
  [Num U8 "mode"; Num U16 "number_of_ack_nack";
   Arr U8 "harq_tb_n" NFAPI_HARQ_ACK_NACK_REL13_MAX (Member "number_of_ack_nack")].
(* src: nfapi_p7.c :: pack_harq_indication_body_value *)
Definition pack_harq_indication_body_value : pbody :=
  PBody [Num U16 "number_of_harqs"] ["number_of_harqs"] "harq_pdu_list"
    (PInstance [
     Write NFAPI_RX_UE_INFORMATION_TAG "rx_ue_information" rx_ue_information_value;
     Write NFAPI_HARQ_INDICATION_TDD_REL8_TAG "harq_indication_tdd_rel8" pack_harq_indication_tdd_rel8_value;
     Write NFAPI_HARQ_INDICATION_TDD_REL9_TAG "harq_indication_tdd_rel9" pack_harq_indication_tdd_rel9_value;
     Write NFAPI_HARQ_INDICATION_TDD_REL13_TAG "harq_indication_tdd_rel13" pack_harq_indication_tdd_rel13_value;
     Write NFAPI_HARQ_INDICATION_FDD_REL8_TAG "harq_indication_fdd_rel8" pack_harq_indication_fdd_rel8_value;
     Write NFAPI_HARQ_INDICATION_FDD_REL9_TAG "harq_indication_fdd_rel9" pack_harq_indication_fdd_rel9_value;
     Write NFAPI_HARQ_INDICATION_FDD_REL13_TAG "harq_indication_fdd_rel13" pack_harq_indication_fdd_rel13_value;
     Write NFAPI_UL_CQI_INFORMATION_TAG "ul_cqi_information" ul_cqi_information_value]).
(** There is no list of no PDUs. *)
(* src: nfapi_p7.c :: unpack_harq_indication_body_value *)
Definition unpack_harq_indication_body_value : ubody :=
  UBody true true [Num U16 "number_of_harqs"] ["number_of_harqs"] (fun n => n) NFAPI_HARQ_IND_MAX_PDU "harq_pdu_list"
    (UInstance [
     Read NFAPI_RX_UE_INFORMATION_TAG "rx_ue_information" rx_ue_information_value;
     Read NFAPI_HARQ_INDICATION_TDD_REL8_TAG "harq_indication_tdd_rel8" unpack_harq_indication_tdd_rel8_value;
     Read NFAPI_HARQ_INDICATION_TDD_REL9_TAG "harq_indication_tdd_rel9" unpack_harq_indication_tdd_rel9_value;
     Read NFAPI_HARQ_INDICATION_TDD_REL13_TAG "harq_indication_tdd_rel13" unpack_harq_indication_tdd_rel13_value;
     Read NFAPI_HARQ_INDICATION_FDD_REL8_TAG "harq_indication_fdd_rel8" unpack_harq_indication_fdd_rel8_value;
     Read NFAPI_HARQ_INDICATION_FDD_REL9_TAG "harq_indication_fdd_rel9" unpack_harq_indication_fdd_rel9_value;
     Read NFAPI_HARQ_INDICATION_FDD_REL13_TAG "harq_indication_fdd_rel13" unpack_harq_indication_fdd_rel13_value;
     Read NFAPI_UL_CQI_INFORMATION_TAG "ul_cqi_information" ul_cqi_information_value]).
(* src: nfapi_p7.c :: pack_harq_indication *)
Definition pack_harq_indication : struct -> packer :=
  pack_pdu_message NFAPI_HARQ_INDICATION_BODY_TAG "harq_indication_body"
    (pack_pdu_body pack_harq_indication_body_value).
(* src: nfapi_p7.c :: unpack_harq_indication *)
Definition unpack_harq_indication (behind : nat -> Z) : struct -> list Z -> Z * struct :=
  unpack_pdu_message NFAPI_HARQ_INDICATION_BODY_TAG "harq_indication_body"
    (unpack_pdu_body behind unpack_harq_indication_body_value).

(** ** SRS.indication *)

(* src: nfapi_p7.c :: pack_srs_indication_fdd_rel8_value *)
Definition pack_srs_indication_fdd_rel8_value : list row :=
  [Num U16 "doppler_estimation"; Num U16 "timing_advance"; Num U8 "number_of_resource_blocks"; Num U8 "rb_start";
   Arr U8 "snr" NFAPI_NUM_RB_MAX (Member "number_of_resource_blocks")].
(* src: nfapi_p7.c :: pack_srs_indication_fdd_rel9_value *)
Definition pack_srs_indication_fdd_rel9_value : list row :=
  [Num U16 "timing_advance_r9"].
(* src: nfapi_p7.c :: pack_srs_indication_tdd_rel10_value *)
Definition pack_srs_indication_tdd_rel10_value : list row :=
  [Num U8 "uppts_symbol"].
(* src: nfapi_p7.c :: pack_srs_indication_fdd_rel11_value *)
Definition pack_srs_indication_fdd_rel11_value : list row :=
  [Num U16 "ul_rtoa"].
(* src: nfapi_p7.c :: pack_tdd_channel_measurement_value *)
Definition pack_tdd_channel_measurement_value : list row :=
  [Num U8 "num_prb_per_subband"; Num U8 "number_of_subbands"; Num U8 "num_atennas";
   Items (Unchecked NFAPI_MAX_NUM_SUBBANDS) "subands" (Member "number_of_subbands")
     [Num U8 "subband_index"; Arr U16 "channel" NFAPI_MAX_NUM_PHYSICAL_ANTENNAS (Outer (Member "num_atennas"))]].
(* src: nfapi_p7.c :: unpack_srs_indication_fdd_rel8_value *)
Definition unpack_srs_indication_fdd_rel8_value : list row :=
  [Num U16 "doppler_estimation"; Num U16 "timing_advance"; Num U8 "number_of_resource_blocks"; Num U8 "rb_start";
   Arr U8 "snr" NFAPI_NUM_RB_MAX (Member "number_of_resource_blocks")].
(* src: nfapi_p7.c :: unpack_srs_indication_fdd_rel9_value *)
Definition unpack_srs_indication_fdd_rel9_value : list row :=
  [Num U16 "timing_advance_r9"].
(* src: nfapi_p7.c :: unpack_srs_indication_tdd_rel10_value *)
Definition unpack_srs_indication_tdd_rel10_value : list row :=
  [Num U8 "uppts_symbol"].
(* src: nfapi_p7.c :: unpack_srs_indication_fdd_rel11_value *)
Definition unpack_srs_indication_fdd_rel11_value : list row :=
  [Num U16 "ul_rtoa"].
(* src: nfapi_p7.c :: unpack_tdd_channel_measurement_value *)
Definition unpack_tdd_channel_measurement_value : list row :=
  [Num U8 "num_prb_per_subband"; Num U8 "number_of_subbands"; Num U8 "num_atennas";
   When (Quot (Member "num_atennas") (NFAPI_MAX_NUM_PHYSICAL_ANTENNAS + 1)) [Return0];
   Items (UpTo NFAPI_MAX_NUM_SUBBANDS) "subands" (Member "number_of_subbands")
     [Num U8 "subband_index"; Arr U16 "channel" NFAPI_MAX_NUM_PHYSICAL_ANTENNAS (Outer (Member "num_atennas"))]].
(* src: nfapi_p7.c :: pack_srs_indication_body_value *)
Definition pack_srs_indication_body_value : pbody :=
  PBody [Num U8 "number_of_ues"] ["number_of_ues"] "srs_pdu_list"
    (PInstance [
     Write NFAPI_RX_UE_INFORMATION_TAG "rx_ue_information" rx_ue_information_value;
     Write NFAPI_SRS_INDICATION_FDD_REL8_TAG "srs_indication_fdd_rel8" pack_srs_indication_fdd_rel8_value;
     Write NFAPI_SRS_INDICATION_FDD_REL9_TAG "srs_indication_fdd_rel9" pack_srs_indication_fdd_rel9_value;
     Write NFAPI_SRS_INDICATION_TDD_REL10_TAG "srs_indication_tdd_rel10" pack_srs_indication_tdd_rel10_value;
     Write NFAPI_SRS_INDICATION_FDD_REL11_TAG "srs_indication_fdd_rel11" pack_srs_indication_fdd_rel11_value;
     Write NFAPI_TDD_CHANNEL_MEASUREMENT_TAG "tdd_channel_measurement" pack_tdd_channel_measurement_value]).
(* src: nfapi_p7.c :: unpack_srs_indication_body_value *)
Definition unpack_srs_indication_body_value : ubody :=
  UBody true false [Num U8 "number_of_ues"] ["number_of_ues"] (fun n => n) NFAPI_SRS_IND_MAX_PDU "srs_pdu_list"
    (UInstance [
     Read NFAPI_RX_UE_INFORMATION_TAG "rx_ue_information" rx_ue_information_value;
     Read NFAPI_SRS_INDICATION_FDD_REL8_TAG "srs_indication_fdd_rel8" unpack_srs_indication_fdd_rel8_value;
     Read NFAPI_SRS_INDICATION_FDD_REL9_TAG "srs_indication_fdd_rel9" unpack_srs_indication_fdd_rel9_value;
     Read NFAPI_SRS_INDICATION_TDD_REL10_TAG "srs_indication_tdd_rel10" unpack_srs_indication_tdd_rel10_value;
     Read NFAPI_SRS_INDICATION_FDD_REL11_TAG "srs_indication_fdd_rel11" unpack_srs_indication_fdd_rel11_value;
     Read NFAPI_TDD_CHANNEL_MEASUREMENT_TAG "tdd_channel_measurement" unpack_tdd_channel_measurement_value]).
(* src: nfapi_p7.c :: pack_srs_indication *)
Definition pack_srs_indication : struct -> packer :=
  pack_pdu_message NFAPI_SRS_INDICATION_BODY_TAG "srs_indication_body"
    (pack_pdu_body pack_srs_indication_body_value).
(* src: nfapi_p7.c :: unpack_srs_indication *)
Definition unpack_srs_indication (behind : nat -> Z) : struct -> list Z -> Z * struct :=
  unpack_pdu_message NFAPI_SRS_INDICATION_BODY_TAG "srs_indication_body"
    (unpack_pdu_body behind unpack_srs_indication_body_value).

(** ** NB_HARQ.indication and NRACH.indication *)

(* src: nfapi_p7.c :: pack_nb_harq_indication_fdd_rel13_value *)
Definition pack_nb_harq_indication_fdd_rel13_value : list row :=
  [Num U8 "harq_tb1"].
(* src: nfapi_p7.c :: unpack_nb_harq_indication_fdd_rel13_value *)
Definition unpack_nb_harq_indication_fdd_rel13_value : list row :=
  [Num U8 "harq_tb1"].
(* src: nfapi_p7.c :: pack_nrach_indication_rel13_value *)
Definition pack_nrach_indication_rel13_value : list row :=
  [Num U16 "rnti"; Num U8 "initial_sc"; Num U16 "timing_advance"; Num U8 "nrach_ce_level"].
(* src: nfapi_p7.c :: unpack_nrach_indication_rel13_value *)
Definition unpack_nrach_indication_rel13_value : list row :=
  [Num U16 "rnti"; Num U8 "initial_sc"; Num U16 "timing_advance"; Num U8 "nrach_ce_level"].
(* src: nfapi_p7.c :: pack_nb_harq_indication_body_value *)
Definition pack_nb_harq_indication_body_value : pbody :=
  PBody [Num U16 "number_of_harqs"] ["number_of_harqs"] "nb_harq_pdu_list"
    (PInstance [
     Write NFAPI_RX_UE_INFORMATION_TAG "rx_ue_information" rx_ue_information_value;
     Write NFAPI_NB_HARQ_INDICATION_FDD_REL13_TAG "nb_harq_indication_fdd_rel13" pack_nb_harq_indication_fdd_rel13_value;
     Write NFAPI_UL_CQI_INFORMATION_TAG "ul_cqi_information" ul_cqi_information_value]).
(* src: nfapi_p7.c :: unpack_nb_harq_indication_body_value *)
Definition unpack_nb_harq_indication_body_value : ubody :=
  UBody true true [Num U16 "number_of_harqs"] ["number_of_harqs"] (fun n => n) NFAPI_HARQ_IND_MAX_PDU "nb_harq_pdu_list"
    (UInstance [
     Read NFAPI_RX_UE_INFORMATION_TAG "rx_ue_information" rx_ue_information_value;
     Read NFAPI_NB_HARQ_INDICATION_FDD_REL13_TAG "nb_harq_indication_fdd_rel13" unpack_nb_harq_indication_fdd_rel13_value;
     Read NFAPI_UL_CQI_INFORMATION_TAG "ul_cqi_information" ul_cqi_information_value]).
(* src: nfapi_p7.c :: pack_nb_harq_indication *)
Definition pack_nb_harq_indication : struct -> packer :=
  pack_pdu_message NFAPI_NB_HARQ_INDICATION_BODY_TAG "nb_harq_indication_body"
    (pack_pdu_body pack_nb_harq_indication_body_value).
(* src: nfapi_p7.c :: unpack_nb_harq_indication *)
Definition unpack_nb_harq_indication (behind : nat -> Z) : struct -> list Z -> Z * struct :=
  unpack_pdu_message NFAPI_NB_HARQ_INDICATION_BODY_TAG "nb_harq_indication_body"
    (unpack_pdu_body behind unpack_nb_harq_indication_body_value).
(* src: nfapi_p7.c :: pack_nrach_indication_body_value *)
Definition pack_nrach_indication_body_value : pbody :=
  PBody [Num U8 "number_of_initial_scs_detected"] ["number_of_initial_scs_detected"] "nrach_pdu_list"
    (PBare [
     Write NFAPI_NRACH_INDICATION_REL13_TAG "nrach_indication_rel13" pack_nrach_indication_rel13_value]).
(** The PDUs have no length: the one TLV is taken to be there. *)
(* src: nfapi_p7.c :: unpack_nrach_indication_body_value *)
Definition unpack_nrach_indication_body_value : ubody :=
  UBody true true [Num U8 "number_of_initial_scs_detected"] ["number_of_initial_scs_detected"] (fun n => n) NFAPI_PREAMBLE_MAX_PDU "nrach_pdu_list"
    (UBare (4 + 6) [
     Read NFAPI_NRACH_INDICATION_REL13_TAG "nrach_indication_rel13" unpack_nrach_indication_rel13_value]).
(* src: nfapi_p7.c :: pack_nrach_indication *)
Definition pack_nrach_indication : struct -> packer :=
  pack_pdu_message NFAPI_NRACH_INDICATION_BODY_TAG "nrach_indication_body"
    (pack_pdu_body pack_nrach_indication_body_value).
(* src: nfapi_p7.c :: unpack_nrach_indication *)
Definition unpack_nrach_indication (behind : nat -> Z) : struct -> list Z -> Z * struct :=
  unpack_pdu_message NFAPI_NRACH_INDICATION_BODY_TAG "nrach_indication_body"
    (unpack_pdu_body behind unpack_nrach_indication_body_value).

(** ** CRC, SR and RACH, as tables *)

(** More than [NFAPI_CRC_IND_MAX_PDU] PDUs fail an assertion ([Aggregate.send_crc]). *)
(* src: nfapi_p7.c :: pack_crc_indication_body_value *)
Definition pack_crc_indication_body_value : pbody :=
  PBody [Num U16 "number_of_crcs"] ["number_of_crcs"] "crc_pdu_list"
    (PInstance [
     Write NFAPI_RX_UE_INFORMATION_TAG "rx_ue_information" rx_ue_information_value;
     Write NFAPI_CRC_INDICATION_REL8_TAG "crc_indication_rel8" crc_indication_rel8_value]).
(* src: nfapi_p7.c :: unpack_crc_indication_body_value *)
Definition unpack_crc_indication_body_value : ubody :=
  UBody true false [Num U16 "number_of_crcs"] ["number_of_crcs"] (fun n => n) NFAPI_CRC_IND_MAX_PDU "crc_pdu_list"
    (UInstance [
     Read NFAPI_RX_UE_INFORMATION_TAG "rx_ue_information" rx_ue_information_value;
     Read NFAPI_CRC_INDICATION_REL8_TAG "crc_indication_rel8" crc_indication_rel8_value]).
(* src: nfapi_p7.c :: pack_sr_indication_body_value *)
Definition pack_sr_indication_body_value : pbody :=
  PBody [Num U16 "number_of_srs"] ["number_of_srs"] "sr_pdu_list"
    (PInstance [
     Write NFAPI_RX_UE_INFORMATION_TAG "rx_ue_information" rx_ue_information_value;
     Write NFAPI_UL_CQI_INFORMATION_TAG "ul_cqi_information" ul_cqi_information_value]).
(* src: nfapi_p7.c :: unpack_sr_indication_body_value *)
Definition unpack_sr_indication_body_value : ubody :=
  UBody true false [Num U16 "number_of_srs"] ["number_of_srs"] (fun n => n) NFAPI_SR_IND_MAX_PDU "sr_pdu_list"
    (UInstance [
     Read NFAPI_RX_UE_INFORMATION_TAG "rx_ue_information" rx_ue_information_value;
     Read NFAPI_UL_CQI_INFORMATION_TAG "ul_cqi_information" ul_cqi_information_value]).
(* src: nfapi_p7.c :: pack_rach_indication_body_value *)
Definition pack_rach_indication_body_value : pbody :=
  PBody [Num U16 "number_of_preambles"] ["number_of_preambles"] "preamble_list"
    (PInstance [
     Write NFAPI_PREAMBLE_REL8_TAG "preamble_rel8" preamble_pdu_rel8_value;
     Write NFAPI_PREAMBLE_REL9_TAG "preamble_rel9" preamble_pdu_rel9_value;
     Write NFAPI_PREAMBLE_REL13_TAG "preamble_rel13" preamble_pdu_rel13_value]).
(* src: nfapi_p7.c :: unpack_rach_indication_body_value *)
Definition unpack_rach_indication_body_value : ubody :=
  UBody true false [Num U16 "number_of_preambles"] ["number_of_preambles"] (fun n => n) NFAPI_PREAMBLE_MAX_PDU "preamble_list"
    (UInstance [
     Read NFAPI_PREAMBLE_REL8_TAG "preamble_rel8" preamble_pdu_rel8_value;
     Read NFAPI_PREAMBLE_REL9_TAG "preamble_rel9" preamble_pdu_rel9_value;
     Read NFAPI_PREAMBLE_REL13_TAG "preamble_rel13" preamble_pdu_rel13_value]).


(** ** LBT_DL.indication *)

(* src: nfapi_p7.c :: pack_lbt_pdsch_rsp_pdu_rel13_value *)
Definition pack_lbt_pdsch_rsp_pdu_rel13_value : list row :=
  [Num U32 "handle"; Num U32 "result"; Num U32 "lte_txop_symbols"; Num U32 "initial_partial_sf"].
(* src: nfapi_p7.c :: pack_lbt_drs_rsp_pdu_rel13_value *)
Definition pack_lbt_drs_rsp_pdu_rel13_value : list row :=
  [Num U32 "handle"; Num U32 "result"].
(* src: nfapi_p7.c :: unpack_lbt_pdsch_rsp_pdu_rel13_value *)
Definition unpack_lbt_pdsch_rsp_pdu_rel13_value : list row :=
  [Num U32 "handle"; Num U32 "result"; Num U32 "lte_txop_symbols"; Num U32 "initial_partial_sf"].
(* src: nfapi_p7.c :: unpack_lbt_drs_rsp_pdu_rel13_value *)
Definition unpack_lbt_drs_rsp_pdu_rel13_value : list row :=
  [Num U32 "handle"; Num U32 "result"].
(* src: nfapi_p7.c :: pack_lbt_dl_config_indication_value *)
Definition pack_lbt_dl_config_indication_value : pbody :=
  PBody [Num U16 "number_of_pdus"] ["number_of_pdus"] "lbt_indication_pdu_list"
    (PTyped [
      (NFAPI_LBT_DL_RSP_PDSCH_PDU_TYPE,
        [Write NFAPI_LBT_PDSCH_RSP_PDU_REL13_TAG "lbt_pdsch_rsp_pdu.lbt_pdsch_rsp_pdu_rel13"
           pack_lbt_pdsch_rsp_pdu_rel13_value]);
      (NFAPI_LBT_DL_RSP_DRS_PDU_TYPE,
        [Write NFAPI_LBT_DRS_RSP_PDU_REL13_TAG "lbt_drs_rsp_pdu.lbt_drs_rsp_pdu_rel13"
           pack_lbt_drs_rsp_pdu_rel13_value])]).
(* src: nfapi_p7.c :: unpack_lbt_indication_body_value *)
Definition unpack_lbt_indication_body_value : ubody :=
  UBody false false [Num U16 "number_of_pdus"] ["number_of_pdus"] (fun n => n) NFAPI_LBT_IND_MAX_PDU "lbt_indication_pdu_list"
    (UTyped true [
      (NFAPI_LBT_DL_RSP_PDSCH_PDU_TYPE,
        [Read NFAPI_LBT_PDSCH_RSP_PDU_REL13_TAG "lbt_pdsch_rsp_pdu.lbt_pdsch_rsp_pdu_rel13"
           unpack_lbt_pdsch_rsp_pdu_rel13_value]);
      (NFAPI_LBT_DL_RSP_DRS_PDU_TYPE,
        [Read NFAPI_LBT_DRS_RSP_PDU_REL13_TAG "lbt_drs_rsp_pdu.lbt_drs_rsp_pdu_rel13"
           unpack_lbt_drs_rsp_pdu_rel13_value])]).
(* src: nfapi_p7.c :: pack_lbt_dl_indication *)
Definition pack_lbt_dl_indication : struct -> packer :=
  pack_pdu_message NFAPI_LBT_DL_INDICATION_BODY_TAG "lbt_dl_indication_body"
    (pack_pdu_body pack_lbt_dl_config_indication_value).
(* src: nfapi_p7.c :: unpack_lbt_dl_indication *)
Definition unpack_lbt_dl_indication : struct -> list Z -> Z * struct :=
  unpack_pdu_message NFAPI_LBT_DL_INDICATION_BODY_TAG "lbt_dl_indication_body"
    (unpack_pdu_body (fun _ => 0) unpack_lbt_indication_body_value).
