(* ===== verification/LteData.v ===== *)
(** * LTE indications with data ([nfapi_p7.c])

    RX_ULSCH.indication and CQI.indication: behind the PDUs follow the bytes that
    were received, for each PDU as many as it says.  The packers compute first
    where these will begin.  The unpackers read the TLVs of a PDU with code of
    their own.

    The packers fail an assertion if there are more than 100 PDUs, after the
    count; that is not modelled. *)

From S2P Require Import Prelude Tags Codec Layout LtePdu LteUplink.
From stdpp Require Import functions strings.

Open Scope string_scope.
Open Scope list_scope.
Open Scope Z_scope.

(** Whether the member [f] has the tag of a TLV; what is added to an offset then. *)
Definition tagged (f : string) (tag : Z) (s : struct) : bool := tl_tag (tl_of (member s f)) =? tag.
Definition add_if (b : bool) (n : Z) : Z := if b then n else 0.

(** A pass over the first [n] elements of an array, with a number that is handed on
    from element to element. *)
Fixpoint pass_over (step : Z -> struct -> Z * struct) (offset : Z) (es : list struct) : Z * list struct :=
  match es with
  | [] => (offset, [])
  | e :: es => let '(offset, e) := step offset e in let '(offset, es) := pass_over step offset es in (offset, e :: es)
  end.
Definition update_first (n : nat) (g : list struct -> list struct) (es : list struct) : list struct := g (take n es) ++ drop n es.

(** The value of a TLV whose TL has been read. *)
Definition read_value (t : tlv_row) (tl : nfapi_tl_t) : unpacker struct := fun s l =>
  storing (fun v => set_member (t_member t) v s) (unpack_rows [] (t_rows t) (set_tl tl (member s (t_member t))) l).

(** A loop that reads the data of the elements of an array and stores it with
    [store]; [None] is an element without. *)
Fixpoint data_loop (max : Z) (length_of : struct -> option Z) (store : struct -> list Z -> struct) (es : list struct)
    (l : list Z) : (list struct * list Z) + (list struct * list Z) :=
  match es with
  | [] => inr ([], l)
  | e :: es' =>
      match length_of e with
      | None => storing (cons (store e [])) (data_loop max length_of store es' l)
      | Some n =>
          match pullarray8 max n l with
          | None => inl ((fun e => store e []) <$> es, l)
          | Some (vs, l) => storing (cons (store e vs)) (data_loop max length_of store es' l)
          end
      end
  end.

(** ** RX_ULSCH.indication *)

(* src: nfapi_p7.c :: pack_rx_indication_rel8_value *)
Definition pack_rx_indication_rel8_value : list row :=
  [Num U16 "length"; Num U16 "offset"; Num U8 "ul_cqi"; Num U16 "timing_advance"].
(* src: nfapi_p7.c :: pack_rx_indication_rel9_value *)
Definition pack_rx_indication_rel9_value : list row := [Num U16 "timing_advance_r9"].
(* src: nfapi_p7.c :: unpack_rx_indication_rel8_value *)
Definition unpack_rx_indication_rel8_value : list row :=
  [Num U16 "length"; Num U16 "offset"; Num U8 "ul_cqi"; Num U16 "timing_advance"].
(* src: nfapi_p7.c :: unpack_rx_indication_rel9_value *)
Definition unpack_rx_indication_rel9_value : list row := [Num U16 "timing_advance_r9"].

(** The bytes of a PDU's TLVs. *)
(* src: nfapi_p7.c 2542-2561 pack_rx_ulsch_indication_body_value *)
Definition rx_pdu_size (p : struct) : Z :=
  add_if (tagged "rx_ue_information" NFAPI_RX_UE_INFORMATION_TAG p) (4 + 6) +
  add_if (tagged "rx_indication_rel8" NFAPI_RX_INDICATION_REL8_TAG p) (4 + 7) +
  add_if (tagged "rx_indication_rel9" NFAPI_RX_INDICATION_REL9_TAG p) (4 + 2).
(** An offset of 1 asks for the computed one. *)
(* src: nfapi_p7.c 2565-2574 pack_rx_ulsch_indication_body_value *)
Definition set_rx_offset (offset : Z) (p : struct) : Z * struct :=
  let v := member p "rx_indication_rel8" in
  if tagged "rx_indication_rel8" NFAPI_RX_INDICATION_REL8_TAG p && (num v "offset" =? 1) then
    (u16 (offset + num v "length"), set_member "rx_indication_rel8" (set_num "offset" offset v) p)
  else (offset, p).
(* src: nfapi_p7.c 2534-2574 pack_rx_ulsch_indication_body_value *)
Definition prepare_rx_ulsch_indication_body (s : struct) : struct :=
  let n := Z.to_nat (num s "number_of_pdus") in
  let pdus := sub s "rx_pdu_list" in
  let offset := foldl (fun offset p => u16 (offset + rx_pdu_size p)) 2 (take n pdus) in
  set_sub "rx_pdu_list" (update_first n (fun es => snd (pass_over set_rx_offset offset es)) pdus) s.

Definition rx_entries : list pentry :=
  [Write NFAPI_RX_UE_INFORMATION_TAG "rx_ue_information" rx_ue_information_value;
   Write NFAPI_RX_INDICATION_REL8_TAG "rx_indication_rel8" pack_rx_indication_rel8_value;
   Write NFAPI_RX_INDICATION_REL9_TAG "rx_indication_rel9" pack_rx_indication_rel9_value].
Definition rx_length (p : struct) : Z :=
  add_if (tagged "rx_indication_rel8" NFAPI_RX_INDICATION_REL8_TAG p) (num (member p "rx_indication_rel8") "length").
(* src: nfapi_p7.c :: pack_rx_ulsch_indication_body_value *)
Definition pack_rx_ulsch_indication_body_value (s0 : struct) : packer :=
  let s := prepare_rx_ulsch_indication_body s0 in
  let pdus := take (Z.to_nat (num s "number_of_pdus")) (sub s "rx_pdu_list") in
  push16 (num s "number_of_pdus") &*
  pack_elems (pack_entries rx_entries) pdus &*
  pack_elems (fun p => pusharray8 (arr p "rx_ind_data") NFAPI_RX_IND_DATA_MAX (rx_length p)) pdus.
(* src: nfapi_p7.c :: pack_rx_ulsch_indication *)
Definition pack_rx_ulsch_indication : struct -> packer :=
  pack_pdu_message NFAPI_RX_INDICATION_BODY_TAG "rx_indication_body" pack_rx_ulsch_indication_body_value.

(** A TLV that must come next; its length is not looked at. *)
(* src: nfapi_p7.c 7219-7242 unpack_rx_indication_body_value *)
Definition expect_tlv (t : tlv_row) : unpacker struct := fun s l =>
  match unpack_tl l with
  | None => inl (s, l)
  | Some (tl, l) =>
      if tl_tag tl =? t_tag t then read_value t tl s l else inl (s, l)
  end.
Definition rx_rows : list tlv_row :=
  [TlvRow NFAPI_RX_UE_INFORMATION_TAG "rx_ue_information" rx_ue_information_value;
   TlvRow NFAPI_RX_INDICATION_REL8_TAG "rx_indication_rel8" unpack_rx_indication_rel8_value;
   TlvRow NFAPI_RX_INDICATION_REL9_TAG "rx_indication_rel9" unpack_rx_indication_rel9_value].
(* src: nfapi_p7.c 7214-7292 unpack_rx_indication_body_value *)
Definition unpack_rx_pdu : unpacker struct := foldr (fun t u => andthen (expect_tlv t) u) pass rx_rows.

Definition rx_data_length (p : struct) : option Z :=
  if tagged "rx_indication_rel8" NFAPI_RX_INDICATION_REL8_TAG p then Some (num (member p "rx_indication_rel8") "length") else None.
Definition store_rx_data (p : struct) (vs : list Z) : struct := set_arr "rx_ind_data" vs p.
(* src: nfapi_p7.c :: unpack_rx_indication_body_value *)
Definition unpack_rx_indication_body_value : unpacker struct := fun s l =>
  if zlen l <? tl_length (tl_of s) then inl (s, l) else
  andthen (unpack_rows [] [Num U16 "number_of_pdus"])
    (andthen (fun s l => unpack_items (UpTo NFAPI_RX_IND_MAX_PDU) "rx_pdu_list" (num s "number_of_pdus") unpack_rx_pdu s l)
      (fun s l => storing (fun es => set_sub "rx_pdu_list" es s)
         (data_loop NFAPI_RX_IND_DATA_MAX rx_data_length store_rx_data (sub s "rx_pdu_list") l))) s l.
(* src: nfapi_p7.c :: unpack_rx_indication *)
Definition unpack_rx_indication : struct -> list Z -> Z * struct :=
  unpack_pdu_message NFAPI_RX_INDICATION_BODY_TAG "rx_indication_body" unpack_rx_indication_body_value.

(** ** CQI.indication *)

(* src: nfapi_p7.c :: pack_cqi_indication_rel8_value *)
Definition pack_cqi_indication_rel8_value : list row :=
  [Num U16 "length"; Num U16 "data_offset"; Num U8 "ul_cqi"; Num U8 "ri"; Num U16 "timing_advance"].
(* src: nfapi_p7.c :: pack_cqi_indication_rel9_value *)
Definition pack_cqi_indication_rel9_value : list row :=
  [Num U16 "length"; Num U16 "data_offset"; Num U8 "ul_cqi"; Num U8 "number_of_cc_reported";
   Arr U8 "ri" NFAPI_CC_MAX (Member "number_of_cc_reported"); Num U16 "timing_advance"; Num U16 "timing_advance_r9"].
(* src: nfapi_p7.c :: unpack_cqi_indication_rel8_value *)
Definition unpack_cqi_indication_rel8_value : list row :=
  [Num U16 "length"; Num U16 "data_offset"; Num U8 "ul_cqi"; Num U8 "ri"; Num U16 "timing_advance"].
(* src: nfapi_p7.c :: unpack_cqi_indication_rel9_value *)
Definition unpack_cqi_indication_rel9_value : list row :=
  [Num U16 "length"; Num U16 "data_offset"; Num U8 "ul_cqi"; Num U8 "number_of_cc_reported";
   Arr U8 "ri" NFAPI_CC_MAX (Member "number_of_cc_reported"); Num U16 "timing_advance"; Num U16 "timing_advance_r9"].

(* src: nfapi_p7.c 2814-2833 pack_cqi_indication_body_value *)
Definition cqi_pdu_size (p : struct) : Z :=
  2 + add_if (tagged "rx_ue_information" NFAPI_RX_UE_INFORMATION_TAG p) (4 + 6) +
  add_if (tagged "cqi_indication_rel8" NFAPI_CQI_INDICATION_REL8_TAG p) (4 + 8) +
  add_if (tagged "cqi_indication_rel9" NFAPI_CQI_INDICATION_REL9_TAG p)
    (4 + 10 + num (member p "cqi_indication_rel9") "number_of_cc_reported") +
  add_if (tagged "ul_cqi_information" NFAPI_UL_CQI_INFORMATION_TAG p) (4 + 2).
Definition set_data_offset (f : string) (tag : Z) (offset : Z) (p : struct) : Z * struct :=
  let v := member p f in
  if tagged f tag p && (num v "data_offset" =? 1) then
    (u16 (offset + num v "length"), set_member f (set_num "data_offset" offset v) p)
  else (offset, p).
(* src: nfapi_p7.c 2836-2853 pack_cqi_indication_body_value *)
Definition set_cqi_offset (offset : Z) (p : struct) : Z * struct :=
  let '(offset, p) := set_data_offset "cqi_indication_rel8" NFAPI_CQI_INDICATION_REL8_TAG offset p in
  set_data_offset "cqi_indication_rel9" NFAPI_CQI_INDICATION_REL9_TAG offset p.
(* src: nfapi_p7.c 2806-2853 pack_cqi_indication_body_value *)
Definition prepare_cqi_indication_body (s : struct) : struct :=
  let n := Z.to_nat (num s "number_of_cqis") in
  let pdus := sub s "cqi_pdu_list" in
  let offset := foldl (fun offset p => u16 (offset + cqi_pdu_size p)) 2 (take n pdus) in
  set_sub "cqi_pdu_list" (update_first n (fun es => snd (pass_over set_cqi_offset offset es)) pdus) s.

Definition cqi_entries : list pentry :=
  [Write NFAPI_RX_UE_INFORMATION_TAG "rx_ue_information" rx_ue_information_value;
   Write NFAPI_CQI_INDICATION_REL8_TAG "cqi_indication_rel8" pack_cqi_indication_rel8_value;
   Write NFAPI_CQI_INDICATION_REL9_TAG "cqi_indication_rel9" pack_cqi_indication_rel9_value;
   Write NFAPI_UL_CQI_INFORMATION_TAG "ul_cqi_information" ul_cqi_information_value].
(** The length of the raw data, the one of REL9 if there are two. *)
(* src: nfapi_p7.c 2881-2887 pack_cqi_indication_body_value *)
Definition cqi_length (p : struct) : Z :=
  if tagged "cqi_indication_rel9" NFAPI_CQI_INDICATION_REL9_TAG p then num (member p "cqi_indication_rel9") "length"
  else if tagged "cqi_indication_rel8" NFAPI_CQI_INDICATION_REL8_TAG p then num (member p "cqi_indication_rel8") "length"
  else 0.
(* src: nfapi_p7.c :: pack_cqi_indication_body_value *)
Definition pack_cqi_indication_body_value (s0 : struct) : packer :=
  let s := prepare_cqi_indication_body s0 in
  let n := Z.to_nat (num s "number_of_cqis") in
  push16 (num s "number_of_cqis") &*
  pack_elems (pack_pdu (PInstance cqi_entries)) (take n (sub s "cqi_pdu_list")) &*
  pack_elems (fun e => pusharray8 (arr e.2 "pdu") NFAPI_CQI_RAW_MAX_LEN (cqi_length e.1))
    (zip (take n (sub s "cqi_pdu_list")) (take n (sub s "cqi_raw_pdu_list"))).
(* src: nfapi_p7.c :: pack_cqi_indication *)
Definition pack_cqi_indication : struct -> packer :=
  pack_pdu_message NFAPI_CQI_INDICATION_BODY_TAG "cqi_indication_body" pack_cqi_indication_body_value.

Definition cqi_rows : list tlv_row :=
  [TlvRow NFAPI_RX_UE_INFORMATION_TAG "rx_ue_information" rx_ue_information_value;
   TlvRow NFAPI_CQI_INDICATION_REL8_TAG "cqi_indication_rel8" unpack_cqi_indication_rel8_value;
   TlvRow NFAPI_CQI_INDICATION_REL9_TAG "cqi_indication_rel9" unpack_cqi_indication_rel9_value;
   TlvRow NFAPI_UL_CQI_INFORMATION_TAG "ul_cqi_information" ul_cqi_information_value].
(** The [while] loop, up to where [stop] bytes of the message are left (less than
    none, if the PDU's length is wrong).  What follows an unknown TL is taken for
    the next; lengths are not looked at.  A round takes four bytes at least. *)
(* src: nfapi_p7.c 7652-7693 unpack_cqi_indication_body_value *)
Fixpoint cqi_loop (fuel : nat) (stop : Z) : unpacker struct := fun s l =>
  match fuel with
  | O => inl (s, l)
  | S fuel =>
      if zlen l <=? stop then inr (s, l) else
      match unpack_tl l with
      | None => inl (s, l)
      | Some (tl, l) =>
          match List.find (fun t => t_tag t =? tl_tag tl) cqi_rows with
          | None => cqi_loop fuel stop s l
          | Some t =>
              match read_value t tl s l with
              | inl r => inl r
              | inr (s, l) => cqi_loop fuel stop s l
              end
          end
      end
  end.
(* src: nfapi_p7.c 7642-7693 unpack_cqi_indication_body_value *)
Definition unpack_cqi_pdu : unpacker struct :=
  andthen (unpack_rows [] [Num U16 "instance_length"]) (fun s l =>
    cqi_loop (S (length l)) (zlen l - num s "instance_length") s l).
(** The length of the raw data, the one of REL8 if there are two. *)
(* src: nfapi_p7.c 7700-7707 unpack_cqi_indication_body_value *)
Definition cqi_data_length (p : struct) : option Z :=
  if tagged "cqi_indication_rel8" NFAPI_CQI_INDICATION_REL8_TAG p then Some (num (member p "cqi_indication_rel8") "length")
  else if tagged "cqi_indication_rel9" NFAPI_CQI_INDICATION_REL9_TAG p then Some (num (member p "cqi_indication_rel9") "length")
  else None.
Definition store_cqi_data (_ : struct) (vs : list Z) : struct := match vs with [] => zero | _ => set_arr "pdu" vs zero end.
(** The result for too many PDUs, -1, becomes 255, which is success: there are no
    lists then. *)
(* src: nfapi_p7.c :: unpack_cqi_indication_body_value *)
Definition unpack_cqi_indication_body_value : unpacker struct := fun s l =>
  if zlen l <? tl_length (tl_of s) then inl (s, l) else
  andthen (unpack_rows [] [Num U16 "number_of_cqis"]) (fun s l =>
    if NFAPI_CQI_IND_MAX_PDU <? num s "number_of_cqis" then inr (s, l) else
    andthen (fun s l => unpack_items (UpTo NFAPI_CQI_IND_MAX_PDU) "cqi_pdu_list" (num s "number_of_cqis") unpack_cqi_pdu s l)
      (fun s l => storing (fun es => set_sub "cqi_raw_pdu_list" es s)
         (data_loop NFAPI_CQI_RAW_MAX_LEN cqi_data_length store_cqi_data (sub s "cqi_pdu_list") l)) s l) s l.
(* src: nfapi_p7.c :: unpack_cqi_indication *)
Definition unpack_cqi_indication : struct -> list Z -> Z * struct :=
  unpack_pdu_message NFAPI_CQI_INDICATION_BODY_TAG "cqi_indication_body" unpack_cqi_indication_body_value.

(** ** Round trips *)

Lemma value_reads t s s0 : tlv_row_wf t = true -> tlv_row_ok s t -> present t s = true ->
  tlvs_bytes no_pad (sent_tlvs [t] s) = tlv_bytes (t_tag t) (tlv_value t s) /\
  (forall rest, unpack_tl (tlv_bytes (t_tag t) (tlv_value t s) ++ rest) =
    Some (Tl (t_tag t) (zlen (tlv_value t s)), tlv_value t s ++ rest)) /\
  reads (read_value t (Tl (t_tag t) (zlen (tlv_value t s)))) s0 (tlv_value t s) (tlv_copy s s0 t).
Proof.
  intros Hwf Hok Hp. destruct (tlv_row_wf_spec t Hwf) as (H1 & H2 & _ & _). destruct (tlv_value_size t s Hwf Hok Hp) as [Hz _].
  split_and!.
  - unfold sent_tlvs. rewrite filter_cons_True by done. rewrite filter_nil. cbn [fmap list_fmap]. rewrite tlvs_bytes_cons.
    cbn [no_pad Z.to_nat replicate app]. by rewrite app_nil_r.
  - intros rest. unfold tlv_bytes. rewrite (app_assoc (be16 _)), <- (app_assoc _ _ rest). by apply (pa_run _ _ _ (parses_tl _ _ H1 Hz)).
  - intros rest. unfold read_value. destruct (Hok Hp) as [_ Hrows]. unfold tlv_value at 2.
    rewrite (rows_read _ _ _ H2 Hrows). unfold tlv_copy. by rewrite Hp.
Qed.

Lemma expect_reads s ts : Forall (fun t => tlv_row_wf t = true /\ tlv_row_ok s t /\ present t s = true) ts -> forall s0,
  reads (foldr (fun t u => andthen (expect_tlv t) u) pass ts) s0 (tlvs_bytes no_pad (sent_tlvs ts s)) (tlvs_copy ts s s0).
Proof.
  induction 1 as [|t ts (Hwf & Hok & Hp) _ IH]; intros s0; [apply reads_pass|]. cbn [foldr].
  destruct (value_reads t s s0 Hwf Hok Hp) as (Hb & Htl & Hr).
  rewrite sent_tlvs_cons, tlvs_bytes_app_pad, Hb. eapply reads_then; [|apply IH].
  intros rest. unfold expect_tlv. by rewrite Htl, Z.eqb_refl, Hr.
Qed.

Lemma cqi_loop_reads s ts :
  Forall (fun t => tlv_row_wf t = true /\ tlv_row_ok s t /\ List.find (fun u => t_tag u =? t_tag t) cqi_rows = Some t) ts ->
  forall fuel s0 rest, (length (sent_tlvs ts s) < fuel)%nat ->
  cqi_loop fuel (zlen rest) s0 (tlvs_bytes no_pad (sent_tlvs ts s) ++ rest) = inr (tlvs_copy ts s s0, rest).
Proof.
  induction 1 as [|t ts (Hwf & Hok & Hf) _ IH]; intros fuel s0 rest Hfuel; (destruct fuel as [|fuel]; [lia|]).
  - change (tlvs_bytes no_pad (sent_tlvs [] s) ++ rest) with rest. cbn [cqi_loop]. by rewrite Z.leb_refl.
  - destruct (present t s) eqn:Hp.
    + destruct (value_reads t s s0 Hwf Hok Hp) as (Hb & Htl & Hr). rewrite sent_tlvs_cons, length_app in Hfuel.
      unfold sent_tlvs at 1 in Hfuel. rewrite filter_cons_True, filter_nil in Hfuel by done. cbn [fmap list_fmap length] in Hfuel.
      rewrite sent_tlvs_cons, tlvs_bytes_app_pad, Hb, <- app_assoc. cbn [cqi_loop].
      destruct (Z.leb_spec (zlen (tlv_bytes (t_tag t) (tlv_value t s) ++ tlvs_bytes no_pad (sent_tlvs ts s) ++ rest)) (zlen rest)) as [Hle|_].
      { unfold tlv_bytes in Hle. autorewrite with zlen in Hle.
        pose proof (zlen_nonneg (tlv_value t s)). pose proof (zlen_nonneg (tlvs_bytes no_pad (sent_tlvs ts s))). lia. }
      rewrite Htl. cbn [tl_tag]. rewrite Hf, Hr. rewrite IH by lia. done.
    + rewrite sent_tlvs_cons in *. unfold sent_tlvs at 1 in Hfuel. unfold sent_tlvs at 1.
      rewrite filter_cons_False, filter_nil in * by (by rewrite Hp). cbn [fmap list_fmap app] in Hfuel |- *.
      rewrite IH by done. unfold tlvs_copy. cbn [foldl]. unfold tlv_copy at 3. by rewrite Hp.
Qed.

(** The data of the elements [es], [bs] of each. *)
Definition data_fits (max : Z) (n : option Z) (bs : list Z) : Prop :=
  bytes_ok bs /\ zlen bs <= max /\ zlen bs = default 0 n.

Lemma data_writes {A} (data : A -> list Z) max (n : A -> Z) es : max < 65536 ->
  Forall (fun e => count_ok (n e) max (data e) /\ bytes_ok (take (Z.to_nat (n e)) (data e))) es ->
  writes (pack_elems (fun e => pusharray8 (data e) max (n e)) es) (concat ((fun e => take (Z.to_nat (n e)) (data e)) <$> es)).
Proof.
  intros Hmax Hes. apply (writes_elems (fun e => pusharray8 (data e) max (n e)) (fun e => take (Z.to_nat (n e)) (data e))).
  refine (list.Forall_impl _ _ _ Hes _). intros e [Hn Hb].
  pose proof (writes_values (UpTo max) (UpTo max) U8 (data e) (n e) Hmax (proj2 (proj1 Hn)) Hn Hb) as H.
  by rewrite (type_bytes_flat (fun v => v)), list_fmap_id in H.
Qed.

Lemma data_reads max length_of store es bss : max < 65536 -> Forall2 (fun e bs => data_fits max (length_of e) bs) es bss ->
  forall rest, data_loop max length_of store es (concat bss ++ rest) = inr (zip_with store es bss, rest).
Proof.
  intros Hmax. induction 1 as [|e bs es bss (Hb & Hn & Hl) _ IH]; intros rest; [done|].
  cbn [data_loop concat zip_with]. rewrite <- app_assoc. destruct (length_of e) as [n|]; cbn in Hl.
  - destruct (array8_codec bs max n) as [_ Hp]; [done|done|lia|lia|]. rewrite (pa_run _ _ _ Hp). by rewrite IH.
  - destruct bs; [|unfold zlen in Hl; cbn in Hl; lia]. cbn [app]. by rewrite IH.
Qed.

(** *** RX_ULSCH.indication *)

(** A PDU that may be sent: all three TLVs are there and in range, and so is the
    data. *)
Definition rx_data (p : struct) : list Z := take (Z.to_nat (rx_length p)) (arr p "rx_ind_data").
Definition rx_pdu_ok (p : struct) : Prop :=
  entries_ok rx_entries (Rows <$> rx_rows) p /\ Forall (fun t => present t p = true) rx_rows /\
  count_ok (rx_length p) NFAPI_RX_IND_DATA_MAX (arr p "rx_ind_data") /\ bytes_ok (rx_data p).
Definition rx_pdus (s : struct) : list struct := take (Z.to_nat (num s "number_of_pdus")) (sub s "rx_pdu_list").
Definition rx_body_ok (s : struct) : Prop :=
  in_u16 (num s "number_of_pdus") /\ count_ok (num s "number_of_pdus") NFAPI_RX_IND_MAX_PDU (sub s "rx_pdu_list") /\
  Forall rx_pdu_ok (rx_pdus s).

Definition rx_pdu_bytes (p : struct) : list Z := tlvs_bytes no_pad (sent_tlvs rx_rows p).
Definition rx_body_bytes (s : struct) : list Z :=
  be16 (num s "number_of_pdus") ++ concat (rx_pdu_bytes <$> rx_pdus s) ++ concat (rx_data <$> rx_pdus s).
(** The structure is stored in twice: the PDUs, and then what was received. *)
Definition rx_body_copy (s s0 : struct) : struct :=
  set_sub "rx_pdu_list" ((fun p => store_rx_data (tlvs_copy rx_rows p zero) (rx_data p)) <$> rx_pdus s)
    (set_sub "rx_pdu_list" ((fun p => tlvs_copy rx_rows p zero) <$> rx_pdus s)
      (set_num "number_of_pdus" (num s "number_of_pdus") s0)).

Lemma rx_tables : agreed rx_entries (Rows <$> rx_rows) = rx_rows /\
  forallb tlv_row_wf rx_rows = true /\ NoDup (t_member <$> rx_rows).
Proof. split; [vm_compute; reflexivity|]. split; [vm_compute; reflexivity|]. apply (bool_decide_unpack _). by vm_compute. Qed.

Lemma rx_body_writes s : rx_body_ok (prepare_rx_ulsch_indication_body s) ->
  writes (pack_rx_ulsch_indication_body_value s) (rx_body_bytes (prepare_rx_ulsch_indication_body s)).
Proof.
  unfold pack_rx_ulsch_indication_body_value. cbv zeta. generalize (prepare_rx_ulsch_indication_body s) as p. intros p (Hn & _ & Hp).
  apply writes_and; [by apply writes_emits, emits_push16|]. destruct rx_tables as [Hr _].
  apply writes_and.
  - apply (writes_elems _ rx_pdu_bytes). refine (list.Forall_impl _ _ _ Hp _). intros e [He _].
    pose proof (entries_write _ _ _ He) as Hw. by rewrite Hr in Hw.
  - apply (data_writes (fun p => arr p "rx_ind_data") NFAPI_RX_IND_DATA_MAX rx_length); [done|].
    refine (list.Forall_impl _ _ _ Hp _). by intros e (_ & _ & Hc & Hb).
Qed.

Lemma rx_pdu_tlvs p : rx_pdu_ok p ->
  Forall (fun t => tlv_row_wf t = true /\ tlv_row_ok p t /\ present t p = true) rx_rows.
Proof.
  intros (He%entries_sent_ok & Hp & _). destruct rx_tables as (Hr & Hwf & _). rewrite Hr in He.
  apply list.Forall_forall. intros t Ht. split_and!; [|by apply (proj1 (list.Forall_forall _ _) He)|by apply (proj1 (list.Forall_forall _ _) Hp)].
  by apply (proj1 (forallb_forall _ _) Hwf), list_elem_of_In.
Qed.

Lemma rx_pdu_data p : rx_pdu_ok p -> data_fits NFAPI_RX_IND_DATA_MAX (rx_data_length (tlvs_copy rx_rows p zero)) (rx_data p).
Proof.
  intros (_ & Hp & Hc & Hb). destruct rx_tables as (_ & _ & Hnd).
  set (t := TlvRow NFAPI_RX_INDICATION_REL8_TAG "rx_indication_rel8" unpack_rx_indication_rel8_value).
  assert (t ∈ rx_rows) as Hin by apply list_elem_of_further, list_elem_of_here.
  destruct (tlvs_copy_sent rx_rows p t "length" Hnd Hin ltac:(done) ltac:(vm_compute; reflexivity) zero eq_refl) as [H1 H2].
  pose proof (proj1 (list.Forall_forall _ _) Hp t Hin) as Hpt. rewrite Hpt in H1.
  unfold rx_data_length. change (tagged _ _ (tlvs_copy rx_rows p zero)) with (present t (tlvs_copy rx_rows p zero)). rewrite H1.
  change (member (tlvs_copy rx_rows p zero) _) with (member (tlvs_copy rx_rows p zero) (t_member t)). rewrite H2 by done.
  pose proof (zlen_take_count _ _ _ Hc) as Hz. fold (rx_data p) in Hz.
  assert (rx_length p = num (member p "rx_indication_rel8") "length") as Hl.
  { unfold rx_length. change (tagged _ _ p) with (present t p). by rewrite Hpt. }
  split_and!; [done|rewrite Hz; apply Hc|by rewrite Hz].
Qed.

Lemma rx_body_reads s tag rest : rx_body_ok s ->
  unpack_rx_indication_body_value (fresh_body tag (rx_body_bytes s)) (rx_body_bytes s ++ rest) =
  inr (rx_body_copy s (fresh_body tag (rx_body_bytes s)), rest).
Proof.
  intros (Hn & Hc & Hp). unfold unpack_rx_indication_body_value. cbn [tl_of fresh_body set_tl tl_length].
  destruct (Z.ltb_spec (zlen (rx_body_bytes s ++ rest)) (zlen (rx_body_bytes s))) as [|_]; [zlen_lia|].
  unfold rx_body_bytes at 2. rewrite <- !app_assoc. unfold andthen at 1.
  cbn [unpack_rows foldr unpack_row pull_as]. unfold andthen at 1. rewrite (pa_run _ _ _ (parses_pull16 _ Hn)). unfold pass at 1.
  unfold andthen. rewrite num_set_num, decide_True by done.
  rewrite (items_read (UpTo NFAPI_RX_IND_MAX_PDU) "rx_pdu_list" (num s "number_of_pdus") unpack_rx_pdu rx_pdu_bytes
    (fun p => tlvs_copy rx_rows p zero) (rx_pdus s)); [|done|apply Hc|by eapply zlen_take_count|].
  2: { refine (list.Forall_impl _ _ _ Hp _). intros p H. apply expect_reads. by apply rx_pdu_tlvs. }
  cbn [sub set_sub]. rewrite fn_lookup_insert.
  rewrite (data_reads NFAPI_RX_IND_DATA_MAX rx_data_length store_rx_data _ (rx_data <$> rx_pdus s)); [|done|].
  - unfold rx_body_copy. cbn [storing]. do 3 f_equal. rewrite zip_with_fmap_l, zip_with_fmap_r, zip_with_diag. done.
  - apply Forall2_fmap, Forall_Forall2_diag. refine (list.Forall_impl _ _ _ Hp _). intros p H. by apply rx_pdu_data.
Qed.

(** *** CQI.indication *)

(** A PDU and its raw data that may be sent: in range, and with one length if
    there are TLVs of REL8 and REL9. *)
Definition cqi_receives : list entry := Rows <$> cqi_rows.
Definition cqi_raw (e : struct * struct) : list Z := take (Z.to_nat (cqi_length e.1)) (arr e.2 "pdu").
Definition cqi_pdu_ok (e : struct * struct) : Prop :=
  pdu_ok (PInstance cqi_entries) (UInstance cqi_receives) e.1 /\
  count_ok (cqi_length e.1) NFAPI_CQI_RAW_MAX_LEN (arr e.2 "pdu") /\ bytes_ok (cqi_raw e) /\
  default 0 (cqi_data_length e.1) = cqi_length e.1.
Definition cqi_pdus (s : struct) : list (struct * struct) :=
  let n := Z.to_nat (num s "number_of_cqis") in zip (take n (sub s "cqi_pdu_list")) (take n (sub s "cqi_raw_pdu_list")).
Definition cqi_body_ok (s : struct) : Prop :=
  in_u16 (num s "number_of_cqis") /\ count_ok (num s "number_of_cqis") NFAPI_CQI_IND_MAX_PDU (sub s "cqi_pdu_list") /\
  num s "number_of_cqis" <= zlen (sub s "cqi_raw_pdu_list") /\ Forall cqi_pdu_ok (cqi_pdus s).

Definition cqi_pdu_bytes (e : struct * struct) : list Z := pdu_bytes (PInstance cqi_entries) (UInstance cqi_receives) e.1.
Definition cqi_pdu_copy (e : struct * struct) : struct := pdu_copy (PInstance cqi_entries) (UInstance cqi_receives) e.1.
Definition cqi_body_bytes (s : struct) : list Z :=
  be16 (num s "number_of_cqis") ++ concat (cqi_pdu_bytes <$> cqi_pdus s) ++ concat (cqi_raw <$> cqi_pdus s).
Definition cqi_body_copy (s s0 : struct) : struct :=
  set_sub "cqi_raw_pdu_list" ((fun e => store_cqi_data (cqi_pdu_copy e) (cqi_raw e)) <$> cqi_pdus s)
    (set_sub "cqi_pdu_list" (cqi_pdu_copy <$> cqi_pdus s) (set_num "number_of_cqis" (num s "number_of_cqis") s0)).

Lemma cqi_tables s : pdu_rows (PInstance cqi_entries) (UInstance cqi_receives) s = cqi_rows /\
  forallb tlv_row_wf cqi_rows = true /\ NoDup (t_member <$> cqi_rows).
Proof. split; [vm_compute; reflexivity|]. split; [vm_compute; reflexivity|]. apply (bool_decide_unpack _). by vm_compute. Qed.

Lemma cqi_pdus_fst s : cqi_body_ok s -> (cqi_pdus s).*1 = take (Z.to_nat (num s "number_of_cqis")) (sub s "cqi_pdu_list").
Proof. intros (_ & Hc & Hr & _). unfold cqi_pdus. apply fst_zip. rewrite !length_take. unfold count_ok, zlen in *. lia. Qed.

Lemma cqi_body_writes s : cqi_body_ok (prepare_cqi_indication_body s) ->
  writes (pack_cqi_indication_body_value s) (cqi_body_bytes (prepare_cqi_indication_body s)).
Proof.
  unfold pack_cqi_indication_body_value. cbv zeta. generalize (prepare_cqi_indication_body s) as p. intros p Hok.
  pose proof (cqi_pdus_fst p Hok) as Hf. destruct Hok as (Hn & _ & _ & Hp).
  apply writes_and; [by apply writes_emits, emits_push16|]. apply writes_and.
  - rewrite <- Hf. replace (cqi_pdu_bytes <$> cqi_pdus p)
      with (pdu_bytes (PInstance cqi_entries) (UInstance cqi_receives) <$> (cqi_pdus p).*1) by (by rewrite <- list_fmap_compose).
    apply (writes_elems _ (pdu_bytes (PInstance cqi_entries) (UInstance cqi_receives))). apply Forall_fmap.
    refine (list.Forall_impl _ _ _ Hp _). intros e [He _]. by apply pdu_writes.
  - apply (data_writes (fun e : struct * struct => arr e.2 "pdu") NFAPI_CQI_RAW_MAX_LEN (fun e => cqi_length e.1)); [done|].
    refine (list.Forall_impl _ _ _ Hp _). by intros e (_ & Hc & Hb & _).
Qed.

Lemma cqi_pdu_reads e : cqi_pdu_ok e -> reads unpack_cqi_pdu zero (cqi_pdu_bytes e) (cqi_pdu_copy e).
Proof.
  destruct e as [p raw]. intros [[Ht [_ Hl]] _] rest. cbn [fst] in *. destruct (cqi_tables p) as (Hr & Hwf & _).
  unfold cqi_pdu_bytes, cqi_pdu_copy, pdu_bytes, pdu_copy. cbn [fst]. set (v := pdu_value _ _ p) in *.
  rewrite <- app_assoc. unfold unpack_cqi_pdu. cbn [unpack_rows foldr unpack_row pull_as]. unfold andthen, pass.
  rewrite (pa_run _ _ _ (parses_pull16 _ Hl)), num_set_num, decide_True by done.
  replace (zlen (v ++ rest) - zlen v) with (zlen rest) by zlen_lia. unfold v, pdu_value. rewrite Hr.
  apply cqi_loop_reads.
  - cbn [frame_tables] in Ht. apply entries_sent_ok in Ht. change (agreed _ _) with (pdu_rows (PInstance cqi_entries) (UInstance cqi_receives) p) in Ht.
    rewrite Hr in Ht. apply list.Forall_forall. intros t Hin.
    split_and!; [by apply (proj1 (forallb_forall _ _) Hwf), list_elem_of_In|by apply (proj1 (list.Forall_forall _ _) Ht)|].
    apply list_elem_of_In in Hin. cbn in Hin. by destruct Hin as [<-|[<-|[<-|[<-|[]]]]]; vm_compute.
  - pose proof (sent_tlvs_fuel (HF := tlv_format) cqi_rows p) as Hf. unfold tlv_fuel in Hf. rewrite length_app. lia.
Qed.

Lemma cqi_copy_member p t f : t ∈ cqi_rows -> t_tag t <> 0 ->
  existsb (fun r => bool_decide (f ∈ stored r)) (t_rows t) && negb (bool_decide (f ∈ foldr (fun r fs => resized r ++ fs) [] (t_rows t))) = true ->
  let c := pdu_copy (PInstance cqi_entries) (UInstance cqi_receives) p in
  present t c = present t p /\ (present t p = true -> num (member c (t_member t)) f = num (member p (t_member t)) f).
Proof.
  intros Hin Hne Hf. destruct (cqi_tables p) as (Hr & _ & Hnd). cbv zeta. unfold pdu_copy. rewrite Hr.
  by apply (tlvs_copy_sent cqi_rows p t f Hnd Hin Hne Hf).
Qed.

Lemma cqi_pdu_data e : cqi_pdu_ok e -> data_fits NFAPI_CQI_RAW_MAX_LEN (cqi_data_length (cqi_pdu_copy e)) (cqi_raw e).
Proof.
  destruct e as [p raw]. intros (_ & Hc & Hb & Hd). unfold data_fits. cbn [fst snd] in *.
  assert (cqi_data_length (cqi_pdu_copy (p, raw)) = cqi_data_length p) as ->.
  { set (t8 := TlvRow NFAPI_CQI_INDICATION_REL8_TAG "cqi_indication_rel8" unpack_cqi_indication_rel8_value).
    set (t9 := TlvRow NFAPI_CQI_INDICATION_REL9_TAG "cqi_indication_rel9" unpack_cqi_indication_rel9_value).
    destruct (cqi_copy_member p t8 "length") as [H8 L8]; [apply list_elem_of_In; cbn; tauto|done|by vm_compute|].
    destruct (cqi_copy_member p t9 "length") as [H9 L9]; [apply list_elem_of_In; cbn; tauto|done|by vm_compute|].
    unfold cqi_data_length, cqi_pdu_copy. cbn [fst]. unfold present, t8, t9 in *. cbn [t_member t_tag] in *. unfold tagged.
    rewrite H8, H9. destruct (tl_tag (tl_of (member p "cqi_indication_rel8")) =? _); [by rewrite L8 by done|].
    destruct (tl_tag (tl_of (member p "cqi_indication_rel9")) =? _); [by rewrite L9 by done|done]. }
  pose proof (zlen_take_count _ _ _ Hc) as Hz. unfold cqi_raw in *. cbn [fst snd] in *. rewrite Hz, Hd. split_and!; [done|apply Hc|done].
Qed.

Lemma cqi_body_reads s tag rest : cqi_body_ok s ->
  unpack_cqi_indication_body_value (fresh_body tag (cqi_body_bytes s)) (cqi_body_bytes s ++ rest) =
  inr (cqi_body_copy s (fresh_body tag (cqi_body_bytes s)), rest).
Proof.
  intros Hok. pose proof (cqi_pdus_fst s Hok) as Hf. destruct Hok as (Hn & Hc & _ & Hp).
  unfold unpack_cqi_indication_body_value. cbn [tl_of fresh_body set_tl tl_length].
  destruct (Z.ltb_spec (zlen (cqi_body_bytes s ++ rest)) (zlen (cqi_body_bytes s))) as [|_]; [zlen_lia|].
  unfold cqi_body_bytes at 2. rewrite <- !app_assoc. unfold andthen at 1.
  cbn [unpack_rows foldr unpack_row pull_as]. unfold andthen at 1. rewrite (pa_run _ _ _ (parses_pull16 _ Hn)). unfold pass at 1.
  unfold andthen. rewrite !num_set_num, !decide_True by done.
  destruct (Z.ltb_spec NFAPI_CQI_IND_MAX_PDU (num s "number_of_cqis")) as [|_]; [destruct Hc; lia|].
  replace (cqi_pdu_bytes <$> cqi_pdus s)
    with (pdu_bytes (PInstance cqi_entries) (UInstance cqi_receives) <$> (cqi_pdus s).*1) by (by rewrite <- list_fmap_compose).
  rewrite (items_read (UpTo NFAPI_CQI_IND_MAX_PDU) "cqi_pdu_list" (num s "number_of_cqis") unpack_cqi_pdu
    (pdu_bytes (PInstance cqi_entries) (UInstance cqi_receives)) (pdu_copy (PInstance cqi_entries) (UInstance cqi_receives)) ((cqi_pdus s).*1));
    [|done|apply Hc|rewrite Hf; by eapply zlen_take_count|].
  2: { apply Forall_fmap. refine (list.Forall_impl _ _ _ Hp _). intros e H. by apply cqi_pdu_reads. }
  cbn [sub set_sub]. rewrite fn_lookup_insert.
  rewrite (data_reads NFAPI_CQI_RAW_MAX_LEN cqi_data_length store_cqi_data _ (cqi_raw <$> cqi_pdus s)); [|done|].
  - unfold cqi_body_copy. cbn [storing]. rewrite <- list_fmap_compose, zip_with_fmap_l, zip_with_fmap_r, zip_with_diag. done.
  - rewrite <- list_fmap_compose. apply Forall2_fmap, Forall_Forall2_diag. refine (list.Forall_impl _ _ _ Hp _). intros p H. by apply cqi_pdu_data.
Qed.
