(* ===== verification/NrUplink.v ===== *)
(** * NR uplink indications ([nfapi_p7.c])

    The bodies of the P7 indications a PNF sends in NR, as rows: SLOT, RX_DATA,
    CRC, SRS, RACH and UCI, with the two reports that an SRS indication can
    carry.  A function that is called for a member is a [Part]; one case of a
    [switch] is a [When] on the type; the PDUs of a union are members of their
    own, of which the type selects one.  Lists the unpacker allocates are
    [Alloc]. *)

From S2P Require Import Prelude Codec Layout.

Open Scope string_scope.
Open Scope list_scope.
Open Scope Z_scope.

(** ** SLOT.indication *)

(* src: nfapi_p7.c :: pack_nr_slot_indication *)
Definition pack_nr_slot_indication : list row := [Num U16 "sfn"; Num U16 "slot"].
(* src: nfapi_p7.c :: unpack_nr_slot_indication *)
Definition unpack_nr_slot_indication : list row := [Num U16 "sfn"; Num U16 "slot"].

(** ** RX_DATA.indication *)

(* src: nfapi_p7.c :: pack_nr_rx_data_indication_body *)
Definition pack_nr_rx_data_indication_body : list row :=
  [Num U32 "handle"; Num U16 "rnti"; Num U8 "harq_id"; Num U16 "pdu_length"; Num U8 "ul_cqi"; Num U16 "timing_advance";
   Num U16 "rssi"; Values Alloc U8 "pdu" (Member "pdu_length")].
(* src: nfapi_p7.c :: pack_nr_rx_data_indication *)
Definition pack_nr_rx_data_indication : list row :=
  [Num U16 "sfn"; Num U16 "slot"; Num U16 "number_of_pdus";
   Items Alloc "pdu_list" (Member "number_of_pdus") pack_nr_rx_data_indication_body].

(* src: nfapi_p7.c :: unpack_nr_rx_data_indication_body *)
Definition unpack_nr_rx_data_indication_body : list row :=
  [Num U32 "handle"; Num U16 "rnti"; Num U8 "harq_id"; Num U16 "pdu_length"; Num U8 "ul_cqi"; Num U16 "timing_advance";
   Num U16 "rssi"; Values Alloc U8 "pdu" (Member "pdu_length")].
(* src: nfapi_p7.c :: unpack_nr_rx_data_indication *)
Definition unpack_nr_rx_data_indication : list row :=
  [Num U16 "sfn"; Num U16 "slot"; Num U16 "number_of_pdus";
   Items Alloc "pdu_list" (Member "number_of_pdus") unpack_nr_rx_data_indication_body].

(** ** CRC.indication *)

(** The comment at the length of the code block status says "ceil(NumCb/8)"; a
    multiple of 8 takes one more byte. *)
(* src: nfapi_p7.c :: pack_nr_crc_indication_body *)
Definition pack_nr_crc_indication_body : list row :=
  [Try (Num U32 "handle"); Try (Num U16 "rnti"); Try (Num U8 "harq_id"); Try (Num U8 "tb_crc_status"); Try (Num U16 "num_cb");
   When (Member "num_cb") [Try (Values Alloc U8 "cb_crc_status" (Plus (Quot (Member "num_cb") 8) (Const 1)))];
   Try (Num U8 "ul_cqi"); Try (Num U16 "timing_advance"); Try (Num U16 "rssi")].
(* src: nfapi_p7.c :: pack_nr_crc_indication *)
Definition pack_nr_crc_indication : list row :=
  [Num U16 "sfn"; Num U16 "slot"; Num U16 "number_crcs";
   Items Alloc "crc_list" (Member "number_crcs") pack_nr_crc_indication_body].

(** Nobody allocates [cb_crc_status]. *)
(* src: nfapi_p7.c :: unpack_nr_crc_indication_body *)
Definition unpack_nr_crc_indication_body : list row :=
  [Try (Num U32 "handle"); Try (Num U16 "rnti"); Try (Num U8 "harq_id"); Try (Num U8 "tb_crc_status"); Try (Num U16 "num_cb");
   When (Member "num_cb") [Try (Values Dangling U8 "cb_crc_status" (Plus (Quot (Member "num_cb") 8) (Const 1)))];
   Try (Num U8 "ul_cqi"); Try (Num U16 "timing_advance"); Try (Num U16 "rssi")].
(* src: nfapi_p7.c :: unpack_nr_crc_indication *)
Definition unpack_nr_crc_indication : list row :=
  [Num U16 "sfn"; Num U16 "slot"; Num U16 "number_crcs";
   Items Alloc "crc_list" (Member "number_crcs") unpack_nr_crc_indication_body].

(** ** SRS reports

    Packed to and unpacked from buffers of their own, which the report TLV of an
    SRS indication carries. *)

(** The number of bytes is computed in a [uint16_t]: twice the number of entries
    for 16 bits, four times for 32 bits. *)
Definition channel_matrix_size : expr :=
  Wrap16 (Times (Times (Times (Member "num_prgs") (Member "num_ue_srs_ports")) (Member "num_gnb_antenna_elements"))
    (Plus (Const 4) (Times (Const (-2)) (Equal (Member "normalized_iq_representation") 0)))).

Definition channel_iq_matrix_head : list row :=
  [Num U8 "normalized_iq_representation"; Num U16 "num_gnb_antenna_elements"; Num U16 "num_ue_srs_ports";
   Num U16 "prg_size"; Num U16 "num_prgs"].

(** The length of the message, or 0. *)
Definition pack_buffer (rows : list row) (s : struct) (packedBufLen : Z) : Z * list Z :=
  let '(r, w) := pack_rows [] rows s (Wbuf [] packedBufLen) in
  (if r =? 0 then 0 else zlen (w_out w), w_out w).

(** 0 or -1. *)
Definition unpack_buffer (rows : list row) (msg : list Z) : Z * struct :=
  match unpack_rows [] rows zero msg with inl (s, _) => (-1, s) | inr (s, _) => (0, s) end.

(* src: nfapi_p7.c :: pack_nr_srs_normalized_channel_iq_matrix *)
Definition pack_nr_srs_normalized_channel_iq_matrix : struct -> Z -> Z * list Z :=
  pack_buffer (channel_iq_matrix_head ++ [Values (Unchecked 17408) U8 "channel_matrix" channel_matrix_size]).
(** A matrix that is cut off is accepted. *)
(* src: nfapi_p7.c :: unpack_nr_srs_normalized_channel_iq_matrix *)
Definition unpack_nr_srs_normalized_channel_iq_matrix : list Z -> Z * struct :=
  unpack_buffer (channel_iq_matrix_head ++ [Try (Values (Unchecked 17408) U8 "channel_matrix" channel_matrix_size)]).

(* src: nfapi_p7.c :: pack_nr_srs_reported_symbol *)
Definition pack_nr_srs_reported_symbol : list row :=
  [Num U16 "num_prgs"; Items (Unchecked 272) "prg_list" (Member "num_prgs") [Num U8 "rb_snr"]].
(* src: nfapi_p7.c :: pack_nr_srs_beamforming_report *)
Definition pack_nr_srs_beamforming_report : struct -> Z -> Z * list Z :=
  pack_buffer [Num U16 "prg_size"; Num U8 "num_symbols"; Num U8 "wide_band_snr"; Num U8 "num_reported_symbols";
    Part "prgs" pack_nr_srs_reported_symbol].

(* src: nfapi_p7.c :: unpack_nr_srs_reported_symbol *)
Definition unpack_nr_srs_reported_symbol : list row :=
  [Num U16 "num_prgs"; Items (Unchecked 272) "prg_list" (Member "num_prgs") [Num U8 "rb_snr"]].
(* src: nfapi_p7.c :: unpack_nr_srs_beamforming_report *)
Definition unpack_nr_srs_beamforming_report : list Z -> Z * struct :=
  unpack_buffer [Num U16 "prg_size"; Num U8 "num_symbols"; Num U8 "wide_band_snr"; Num U8 "num_reported_symbols";
    Part "prgs" unpack_nr_srs_reported_symbol].

(** ** SRS.indication *)

(* src: nfapi_p7.c :: pack_nr_srs_report_tlv *)
Definition pack_nr_srs_report_tlv : list row :=
  [Num U16 "tag"; Num U32 "length"; Values (Unchecked 16384) U32 "value" (Member "length")].
(* src: nfapi_p7.c :: pack_nr_srs_indication_body *)
Definition pack_nr_srs_indication_body : list row :=
  [Num U32 "handle"; Num U16 "rnti"; Num U16 "timing_advance_offset"; Num S16 "timing_advance_offset_nsec";
   Num U8 "srs_usage"; Num U8 "report_type"; Part "report_tlv" pack_nr_srs_report_tlv].
(* src: nfapi_p7.c :: pack_nr_srs_indication *)
Definition pack_nr_srs_indication : list row :=
  [Num U16 "sfn"; Num U16 "slot"; Num U16 "control_length"; Num U8 "number_of_pdus";
   Items Alloc "pdu_list" (Member "number_of_pdus") pack_nr_srs_indication_body].

(* src: nfapi_p7.c :: unpack_nr_srs_report_tlv *)
Definition unpack_nr_srs_report_tlv : list row :=
  [Num U16 "tag"; Num U32 "length"; Values (Unchecked 16384) U32 "value" (Member "length")].
(* src: nfapi_p7.c :: unpack_nr_srs_indication_body *)
Definition unpack_nr_srs_indication_body : list row :=
  [Num U32 "handle"; Num U16 "rnti"; Num U16 "timing_advance_offset"; Num S16 "timing_advance_offset_nsec";
   Num U8 "srs_usage"; Num U8 "report_type"; Part "report_tlv" unpack_nr_srs_report_tlv].
(** The caller has allocated one PDU. *)
(* src: nfapi_p7.c :: unpack_nr_srs_indication *)
Definition unpack_nr_srs_indication : list row :=
  [Num U16 "sfn"; Num U16 "slot"; Num U16 "control_length"; Num U8 "number_of_pdus";
   Items (Unchecked 1) "pdu_list" (Member "number_of_pdus") unpack_nr_srs_indication_body].

(** ** RACH.indication *)

(* src: nfapi_p7.c :: pack_nr_rach_indication_body *)
Definition pack_nr_rach_indication_body : list row :=
  [Num U16 "phy_cell_id"; Num U8 "symbol_index"; Num U8 "slot_index"; Num U8 "freq_index"; Num U8 "avg_rssi";
   Num U8 "avg_snr"; Num U8 "num_preamble";
   Items Alloc "preamble_list" (Member "num_preamble")
     [Num U8 "preamble_index"; Num U16 "timing_advance"; Num U32 "preamble_pwr"]].
(* src: nfapi_p7.c :: pack_nr_rach_indication *)
Definition pack_nr_rach_indication : list row :=
  [Num U16 "sfn"; Num U16 "slot"; Num U8 "number_of_pdus";
   Items Alloc "pdu_list" (Member "number_of_pdus") pack_nr_rach_indication_body].

(** Only the last result counts. *)
(* src: nfapi_p7.c :: unpack_nr_rach_indication_body *)
Definition unpack_nr_rach_indication_body : list row :=
  [Try (Num U16 "phy_cell_id"); Try (Num U8 "symbol_index"); Try (Num U8 "slot_index"); Try (Num U8 "freq_index");
   Try (Num U8 "avg_rssi"); Try (Num U8 "avg_snr"); Num U8 "num_preamble";
   Items Alloc "preamble_list" (Member "num_preamble")
     [Try (Num U8 "preamble_index"); Try (Num U16 "timing_advance"); Num U32 "preamble_pwr"]].
(* src: nfapi_p7.c :: unpack_nr_rach_indication *)
Definition unpack_nr_rach_indication : list row :=
  [Try (Num U16 "sfn"); Try (Num U16 "slot"); Num U8 "number_of_pdus";
   Items Alloc "pdu_list" (Member "number_of_pdus") unpack_nr_rach_indication_body].

(** ** UCI.indication *)

(* enum: nfapi_nr_interface_scf.h *)
Definition NFAPI_NR_UCI_PUSCH_PDU_TYPE : Z := 0.
Definition NFAPI_NR_UCI_FORMAT_0_1_PDU_TYPE : Z := 1.
Definition NFAPI_NR_UCI_FORMAT_2_3_4_PDU_TYPE : Z := 2.
(* end enum *)

(** A payload of [len] bits: one byte more than the whole bytes. *)
Definition payload (f len : string) : row := Values Alloc U8 f (Plus (Quot (Member len) 8) (Const 1)).

(* src: nfapi_p7.c :: pack_nr_uci_pucch_0_1 *)
Definition pack_nr_uci_pucch_0_1 : list row :=
  [Num U8 "pduBitmap"; Num U32 "handle"; Num U16 "rnti"; Num U8 "pucch_format"; Num U8 "ul_cqi"; Num U16 "timing_advance";
   Num U16 "rssi";
   When (TestBit (Member "pduBitmap") 0) [Num U8 "sr.sr_indication"; Num U8 "sr.sr_confidence_level"];
   When (TestBit (Member "pduBitmap") 1)
     [Num U8 "harq.num_harq"; Num U8 "harq.harq_confidence_level";
      Items Alloc "harq.harq_list" (Member "harq.num_harq") [Num U8 "harq_value"]]].
(* src: nfapi_p7.c :: pack_nr_uci_pucch_2_3_4 *)
Definition pack_nr_uci_pucch_2_3_4 : list row :=
  [Num U8 "pduBitmap"; Num U32 "handle"; Num U16 "rnti"; Off U8 "pucch_format" 2; Num U8 "ul_cqi"; Num U16 "timing_advance";
   Num U16 "rssi";
   When (TestBit (Member "pduBitmap") 0) [Num U16 "sr.sr_bit_len"; payload "sr.sr_payload" "sr.sr_bit_len"];
   When (TestBit (Member "pduBitmap") 1)
     [Num U8 "harq.harq_crc"; Num U16 "harq.harq_bit_len"; payload "harq.harq_payload" "harq.harq_bit_len"];
   When (TestBit (Member "pduBitmap") 2)
     [Num U8 "csi_part1.csi_part1_crc"; Num U16 "csi_part1.csi_part1_bit_len";
      payload "csi_part1.csi_part1_payload" "csi_part1.csi_part1_bit_len"];
   When (TestBit (Member "pduBitmap") 3)
     [Num U8 "csi_part2.csi_part2_crc"; Num U16 "csi_part2.csi_part2_bit_len";
      payload "csi_part2.csi_part2_payload" "csi_part2.csi_part2_bit_len"]].
(* src: nfapi_p7.c :: pack_nr_uci_pusch *)
Definition pack_nr_uci_pusch : list row :=
  [Num U8 "pduBitmap"; Num U32 "handle"; Num U16 "rnti"; Num U8 "ul_cqi"; Num U16 "timing_advance"; Num U16 "rssi";
   When (TestBit (Member "pduBitmap") 1)
     [Num U8 "harq.harq_crc"; Num U16 "harq.harq_bit_len"; payload "harq.harq_payload" "harq.harq_bit_len"];
   When (TestBit (Member "pduBitmap") 2)
     [Num U8 "csi_part1.csi_part1_crc"; Num U16 "csi_part1.csi_part1_bit_len";
      payload "csi_part1.csi_part1_payload" "csi_part1.csi_part1_bit_len"];
   When (TestBit (Member "pduBitmap") 3)
     [Num U8 "csi_part2.csi_part2_crc"; Num U16 "csi_part2.csi_part2_bit_len";
      payload "csi_part2.csi_part2_payload" "csi_part2.csi_part2_bit_len"]].
(* src: nfapi_p7.c :: pack_nr_uci_indication_body *)
Definition pack_nr_uci_indication_body : list row :=
  [Num U16 "pdu_type"; Num U16 "pdu_size";
   When (Equal (Member "pdu_type") NFAPI_NR_UCI_PUSCH_PDU_TYPE) [Try (Part "pusch_pdu" pack_nr_uci_pusch)];
   When (Equal (Member "pdu_type") NFAPI_NR_UCI_FORMAT_0_1_PDU_TYPE)
     [Try (Part "pucch_pdu_format_0_1" pack_nr_uci_pucch_0_1)];
   When (Equal (Member "pdu_type") NFAPI_NR_UCI_FORMAT_2_3_4_PDU_TYPE)
     [Try (Part "pucch_pdu_format_2_3_4" pack_nr_uci_pucch_2_3_4)]].
(* src: nfapi_p7.c :: pack_nr_uci_indication *)
Definition pack_nr_uci_indication : list row :=
  [Num U16 "sfn"; Num U16 "slot"; Num U16 "num_ucis";
   Items Alloc "uci_list" (Member "num_ucis") pack_nr_uci_indication_body].

(* src: nfapi_p7.c :: unpack_nr_uci_pucch_0_1 *)
Definition unpack_nr_uci_pucch_0_1 : list row :=
  [Num U8 "pduBitmap"; Num U32 "handle"; Num U16 "rnti"; Num U8 "pucch_format"; Num U8 "ul_cqi"; Num U16 "timing_advance";
   Num U16 "rssi";
   When (TestBit (Member "pduBitmap") 0) [Num U8 "sr.sr_indication"; Num U8 "sr.sr_confidence_level"];
   When (TestBit (Member "pduBitmap") 1)
     [Num U8 "harq.num_harq"; Num U8 "harq.harq_confidence_level";
      Items Alloc "harq.harq_list" (Member "harq.num_harq") [Num U8 "harq_value"]]].
(** The code adds 2 to the format once the PDU is read; it differs only in what a
    rejected message leaves behind. *)
(* src: nfapi_p7.c :: unpack_nr_uci_pucch_2_3_4 *)
Definition unpack_nr_uci_pucch_2_3_4 : list row :=
  [Num U8 "pduBitmap"; Num U32 "handle"; Num U16 "rnti"; Off U8 "pucch_format" 2; Num U8 "ul_cqi"; Num U16 "timing_advance";
   Num U16 "rssi";
   When (TestBit (Member "pduBitmap") 0) [Num U16 "sr.sr_bit_len"; payload "sr.sr_payload" "sr.sr_bit_len"];
   When (TestBit (Member "pduBitmap") 1)
     [Num U8 "harq.harq_crc"; Num U16 "harq.harq_bit_len"; payload "harq.harq_payload" "harq.harq_bit_len"];
   When (TestBit (Member "pduBitmap") 2)
     [Num U8 "csi_part1.csi_part1_crc"; Num U16 "csi_part1.csi_part1_bit_len";
      payload "csi_part1.csi_part1_payload" "csi_part1.csi_part1_bit_len"];
   When (TestBit (Member "pduBitmap") 3)
     [Num U8 "csi_part2.csi_part2_crc"; Num U16 "csi_part2.csi_part2_bit_len";
      payload "csi_part2.csi_part2_payload" "csi_part2.csi_part2_bit_len"]].
(* src: nfapi_p7.c :: unpack_nr_uci_pusch *)
Definition unpack_nr_uci_pusch : list row :=
  [Num U8 "pduBitmap"; Num U32 "handle"; Num U16 "rnti"; Num U8 "ul_cqi"; Num U16 "timing_advance"; Num U16 "rssi";
   When (TestBit (Member "pduBitmap") 1)
     [Num U8 "harq.harq_crc"; Num U16 "harq.harq_bit_len"; payload "harq.harq_payload" "harq.harq_bit_len"];
   When (TestBit (Member "pduBitmap") 2)
     [Num U8 "csi_part1.csi_part1_crc"; Num U16 "csi_part1.csi_part1_bit_len";
      payload "csi_part1.csi_part1_payload" "csi_part1.csi_part1_bit_len"];
   When (TestBit (Member "pduBitmap") 3)
     [Num U8 "csi_part2.csi_part2_crc"; Num U16 "csi_part2.csi_part2_bit_len";
      payload "csi_part2.csi_part2_payload" "csi_part2.csi_part2_bit_len"]].
(* src: nfapi_p7.c :: unpack_nr_uci_indication_body *)
Definition unpack_nr_uci_indication_body : list row :=
  [Num U16 "pdu_type"; Num U16 "pdu_size";
   When (Equal (Member "pdu_type") NFAPI_NR_UCI_PUSCH_PDU_TYPE) [Part "pusch_pdu" unpack_nr_uci_pusch];
   When (Equal (Member "pdu_type") NFAPI_NR_UCI_FORMAT_0_1_PDU_TYPE)
     [Part "pucch_pdu_format_0_1" unpack_nr_uci_pucch_0_1];
   When (Equal (Member "pdu_type") NFAPI_NR_UCI_FORMAT_2_3_4_PDU_TYPE)
     [Part "pucch_pdu_format_2_3_4" unpack_nr_uci_pucch_2_3_4]].
(* src: nfapi_p7.c :: unpack_nr_uci_indication *)
Definition unpack_nr_uci_indication : list row :=
  [Num U16 "sfn"; Num U16 "slot"; Num U16 "num_ucis";
   Items Alloc "uci_list" (Member "num_ucis") unpack_nr_uci_indication_body].
