(* ===== verification/NrDownlink.v ===== *)
(** * NR requests ([nfapi_p7.c])

    The bodies of the P7 requests a VNF sends in NR: DL_TTI, UL_TTI, UL_DCI,
    TX_DATA and UE_RELEASE, in the way of the uplink indications.  A packer that
    changes the caller's structure before it pushes is a function on the
    structure ([prepare_...]) and rows; the size of a PDU is a [Sized] row.  The
    parallel arrays of the code words of a PDSCH are one array of structures. *)

From S2P Require Import Prelude Tags Codec Layout LtePdu.

Open Scope string_scope.
Open Scope list_scope.
Open Scope Z_scope.

(** ** Precoding and beamforming *)

(** The member [p] of a downlink PDU: its arrays have one element each. *)
Definition precoding (p : string) : list row :=
  [Try (Num U16 (p +:+ ".num_prgs")); Try (Num U16 (p +:+ ".prg_size")); Try (Num U8 (p +:+ ".dig_bf_interfaces"));
   Items (Unchecked 1) (p +:+ ".prgs_list") (Member (p +:+ ".num_prgs"))
     [Try (Num U16 "pm_idx");
      Items (Unchecked 1) "dig_bf_interface_list" (Outer (Member (p +:+ ".dig_bf_interfaces"))) [Try (Num U16 "beam_idx")]]].

(** The [beamforming] of an uplink PDU, with arrays as given. *)
Definition beamforming (b : bound) : list row :=
  [Try (Num U16 "beamforming.num_prgs"); Try (Num U16 "beamforming.prg_size"); Try (Num U8 "beamforming.dig_bf_interface");
   Items b "beamforming.prgs_list" (Member "beamforming.num_prgs")
     [Items b "dig_bf_interface_list" (Outer (Member "beamforming.dig_bf_interface")) [Try (Num U16 "beam_idx")]]].
(** It is skipped. *)
Definition no_beamforming : list row := [Lit U16 0; Lit U16 0; Lit U8 0].

(** The elements of an array, or the structure in a member. *)
Definition map_sub (f : string) (g : struct -> struct) (s : struct) : struct := set_sub f (g <$> sub s f) s.
Definition map_head (f : string) (g : struct -> struct) (s : struct) : struct :=
  match sub s f with e :: es => set_sub f (g e :: es) s | [] => s end.

(** ** DL_TTI.request *)

(* enum: nfapi_nr_interface_scf.h *)
Definition NFAPI_NR_DL_TTI_PDCCH_PDU_TYPE : Z := 0.
Definition NFAPI_NR_DL_TTI_PDSCH_PDU_TYPE : Z := 1.
Definition NFAPI_NR_DL_TTI_CSI_RS_PDU_TYPE : Z := 2.
Definition NFAPI_NR_DL_TTI_SSB_PDU_TYPE : Z := 3.
Definition MAX_DCI_CORESET : Z := 8.
Definition NFAPI_NR_MAX_DL_TTI_PDUS : Z := 32.
(* end enum *)

(** Precoding is hard-coded: zeros are sent. *)
(* src: nfapi_p7.c :: pack_dl_tti_csi_rs_pdu_rel15_value *)
Definition pack_dl_tti_csi_rs_pdu_rel15_value : list row :=
  [Try (Num U16 "bwp_size"); Try (Num U16 "bwp_start"); Try (Num U8 "subcarrier_spacing"); Try (Num U8 "cyclic_prefix");
   Try (Num U16 "start_rb"); Try (Num U16 "nr_of_rbs"); Try (Num U8 "csi_type"); Try (Num U8 "row");
   Try (Num U16 "freq_domain"); Try (Num U8 "symb_l0"); Try (Num U8 "symb_l1"); Try (Num U8 "cdm_type");
   Try (Num U8 "freq_density"); Try (Num U16 "scramb_id"); Try (Num U8 "power_control_offset");
   Try (Num U8 "power_control_offset_ss"); Try (Lit U16 0); Try (Lit U16 0); Try (Lit U8 0)].
(* src: nfapi_p7.c :: unpack_dl_tti_csi_rs_pdu_rel15_value *)
Definition unpack_dl_tti_csi_rs_pdu_rel15_value : list row :=
  [Num U16 "bwp_size"; Num U16 "bwp_start"; Num U8 "subcarrier_spacing"; Num U8 "cyclic_prefix";
   Num U16 "start_rb"; Num U16 "nr_of_rbs"; Num U8 "csi_type"; Num U8 "row";
   Num U16 "freq_domain"; Num U8 "symb_l0"; Num U8 "symb_l1"; Num U8 "cdm_type";
   Num U8 "freq_density"; Num U16 "scramb_id"; Num U8 "power_control_offset";
   Num U8 "power_control_offset_ss"; Lit U16 0; Lit U16 0; Lit U8 0].

(** The precoding of each DCI is set to zero before it is pushed. *)
Definition clear_precoding (dci : struct) : struct :=
  map_head "precodingAndBeamforming.prgs_list"
    (fun prg => map_head "dig_bf_interface_list" (set_num "beam_idx" 0) (set_num "pm_idx" 0 prg))
    (set_num "precodingAndBeamforming.dig_bf_interfaces" 0 (set_num "precodingAndBeamforming.prg_size" 0
      (set_num "precodingAndBeamforming.num_prgs" 0 dci))).
Definition prepare_pdcch (s : struct) : struct := map_sub "dci_pdu" clear_precoding s.

(* src: nfapi_p7.c :: pack_dl_tti_pdcch_pdu_rel15_value *)
Definition pack_dl_tti_pdcch_pdu_rel15_value : list row :=
  [Try (Num U16 "BWPSize"); Try (Num U16 "BWPStart"); Try (Num U8 "SubcarrierSpacing"); Try (Num U8 "CyclicPrefix");
   Try (Num U8 "StartSymbolIndex"); Try (Num U8 "DurationSymbols"); Try (Arr U8 "FreqDomainResource" 6 (Const 6));
   Try (Num U8 "CceRegMappingType"); Try (Num U8 "RegBundleSize"); Try (Num U8 "InterleaverSize"); Try (Num U8 "CoreSetType");
   Try (Num U16 "ShiftIndex"); Try (Num U8 "precoderGranularity"); Try (Num U16 "numDlDci");
   Items (Unchecked MAX_DCI_CORESET) "dci_pdu" (Member "numDlDci")
     ([Try (Num U16 "RNTI"); Try (Num U16 "ScramblingId"); Try (Num U16 "ScramblingRNTI"); Try (Num U8 "CceIndex");
       Try (Num U8 "AggregationLevel")] ++ precoding "precodingAndBeamforming" ++
      [Try (Num U8 "beta_PDCCH_1_0"); Try (Num U8 "powerControlOffsetSS"); Try (Num U16 "PayloadSizeBits");
       Try (Dci "Payload" (Member "PayloadSizeBits"))])].
(* src: nfapi_p7.c :: unpack_dl_tti_pdcch_pdu_rel15_value *)
Definition unpack_dl_tti_pdcch_pdu_rel15_value : list row :=
  [Try (Num U16 "BWPSize"); Try (Num U16 "BWPStart"); Try (Num U8 "SubcarrierSpacing"); Try (Num U8 "CyclicPrefix");
   Try (Num U8 "StartSymbolIndex"); Try (Num U8 "DurationSymbols"); Try (Arr U8 "FreqDomainResource" 6 (Const 6));
   Try (Num U8 "CceRegMappingType"); Try (Num U8 "RegBundleSize"); Try (Num U8 "InterleaverSize"); Try (Num U8 "CoreSetType");
   Try (Num U16 "ShiftIndex"); Try (Num U8 "precoderGranularity"); Try (Num U16 "numDlDci");
   Items (Unchecked MAX_DCI_CORESET) "dci_pdu" (Member "numDlDci")
     ([Try (Num U16 "RNTI"); Try (Num U16 "ScramblingId"); Try (Num U16 "ScramblingRNTI"); Try (Num U8 "CceIndex");
       Try (Num U8 "AggregationLevel")] ++ precoding "precodingAndBeamforming" ++
      [Try (Num U8 "beta_PDCCH_1_0"); Try (Num U8 "powerControlOffsetSS"); Try (Num U16 "PayloadSizeBits");
       Try (Dci "Payload" (Member "PayloadSizeBits"))])].

(** The transmission powers are hard-coded. *)
(* src: nfapi_p7.c :: pack_dl_tti_pdsch_pdu_rel15_value *)
Definition pack_dl_tti_pdsch_pdu_rel15_value : list row :=
  [Try (Num U16 "pduBitmap"); Try (Num U16 "rnti"); Try (Num U16 "pduIndex"); Try (Num U16 "BWPSize"); Try (Num U16 "BWPStart");
   Try (Num U8 "SubcarrierSpacing"); Try (Num U8 "CyclicPrefix"); Try (Num U8 "NrOfCodewords");
   Items (Unchecked 2) "codeword" (Member "NrOfCodewords")
     [Try (Num U16 "targetCodeRate"); Try (Num U8 "qamModOrder"); Try (Num U8 "mcsIndex"); Try (Num U8 "mcsTable");
      Try (Num U8 "rvIndex"); Try (Num U32 "TBSize")];
   Try (Num U16 "dataScramblingId"); Try (Num U8 "nrOfLayers"); Try (Num U8 "transmissionScheme"); Try (Num U8 "refPoint");
   Try (Num U16 "dlDmrsSymbPos"); Try (Num U8 "dmrsConfigType"); Try (Num U16 "dlDmrsScramblingId"); Try (Num U8 "SCID");
   Try (Num U8 "numDmrsCdmGrpsNoData"); Try (Num U16 "dmrsPorts"); Try (Num U8 "resourceAlloc");
   Try (Arr U8 "rbBitmap" 36 (Const 36)); Try (Num U16 "rbStart"); Try (Num U16 "rbSize"); Try (Num U8 "VRBtoPRBMapping");
   Try (Num U8 "StartSymbolIndex"); Try (Num U8 "NrOfSymbols");
   When (TestBit (Member "pduBitmap") 0)
     [Try (Num U8 "PTRSPortIndex"); Try (Num U8 "PTRSTimeDensity"); Try (Num U8 "PTRSFreqDensity"); Try (Num U8 "PTRSReOffset");
      Try (Num U8 "nEpreRatioOfPDSCHToPTRS")]] ++
  precoding "precodingAndBeamforming" ++ [Try (Lit U8 8); Lit U8 1].
(* src: nfapi_p7.c :: unpack_dl_tti_pdsch_pdu_rel15_value *)
Definition unpack_dl_tti_pdsch_pdu_rel15_value : list row :=
  [Try (Num U16 "pduBitmap"); Try (Num U16 "rnti"); Try (Num U16 "pduIndex"); Try (Num U16 "BWPSize"); Try (Num U16 "BWPStart");
   Try (Num U8 "SubcarrierSpacing"); Try (Num U8 "CyclicPrefix"); Try (Num U8 "NrOfCodewords");
   Items (Unchecked 2) "codeword" (Member "NrOfCodewords")
     [Try (Num U16 "targetCodeRate"); Try (Num U8 "qamModOrder"); Try (Num U8 "mcsIndex"); Try (Num U8 "mcsTable");
      Try (Num U8 "rvIndex"); Try (Num U32 "TBSize")];
   Try (Num U16 "dataScramblingId"); Try (Num U8 "nrOfLayers"); Try (Num U8 "transmissionScheme"); Try (Num U8 "refPoint");
   Try (Num U16 "dlDmrsSymbPos"); Try (Num U8 "dmrsConfigType"); Try (Num U16 "dlDmrsScramblingId"); Try (Num U8 "SCID");
   Try (Num U8 "numDmrsCdmGrpsNoData"); Try (Num U16 "dmrsPorts"); Try (Num U8 "resourceAlloc");
   Try (Arr U8 "rbBitmap" 36 (Const 36)); Try (Num U16 "rbStart"); Try (Num U16 "rbSize"); Try (Num U8 "VRBtoPRBMapping");
   Try (Num U8 "StartSymbolIndex"); Try (Num U8 "NrOfSymbols");
   When (TestBit (Member "pduBitmap") 0)
     [Try (Num U8 "PTRSPortIndex"); Try (Num U8 "PTRSTimeDensity"); Try (Num U8 "PTRSFreqDensity"); Try (Num U8 "PTRSReOffset");
      Try (Num U8 "nEpreRatioOfPDSCHToPTRS")]] ++
  precoding "precodingAndBeamforming" ++ [Try (Lit U8 8); Try (Lit U8 1)].

(** A fourth byte follows the 24 bits of the BCH payload. *)
(* src: nfapi_p7.c :: pack_dl_tti_ssb_pdu_rel15_value *)
Definition pack_dl_tti_ssb_pdu_rel15_value : list row :=
  [Try (Num U16 "PhysCellId"); Try (Num U8 "BetaPss"); Try (Num U8 "SsbBlockIndex"); Try (Num U8 "SsbSubcarrierOffset");
   Try (Num U16 "ssbOffsetPointA"); Try (Num U8 "bchPayloadFlag"); Try (Big24 "bchPayload"); Try (Lit U8 0);
   Try (Lit U8 0); Try (Lit U8 0)] ++ precoding "precoding_and_beamforming".
(* src: nfapi_p7.c :: unpack_dl_tti_ssb_pdu_rel15_value *)
Definition unpack_dl_tti_ssb_pdu_rel15_value : list row :=
  [Try (Num U16 "PhysCellId"); Try (Num U8 "BetaPss"); Try (Num U8 "SsbBlockIndex"); Try (Num U8 "SsbSubcarrierOffset");
   Try (Num U16 "ssbOffsetPointA"); Try (Num U8 "bchPayloadFlag"); Try (Big24 "bchPayload"); Try (Lit U8 0);
   Try (Lit U8 0); Try (Lit U8 0)] ++ precoding "precoding_and_beamforming".

(* src: nfapi_p7.c :: pack_dl_tti_request_body_value *)
Definition pack_dl_tti_request_body_value : list row :=
  [Try (Num U16 "PDUType");
   Sized true "PDUSize" 2
     [When (Equal (Member "PDUType") NFAPI_NR_DL_TTI_CSI_RS_PDU_TYPE)
        [Part "csi_rs_pdu.csi_rs_pdu_rel15" pack_dl_tti_csi_rs_pdu_rel15_value];
      When (Equal (Member "PDUType") NFAPI_NR_DL_TTI_PDCCH_PDU_TYPE)
        [Part "pdcch_pdu.pdcch_pdu_rel15" pack_dl_tti_pdcch_pdu_rel15_value];
      When (Equal (Member "PDUType") NFAPI_NR_DL_TTI_PDSCH_PDU_TYPE)
        [Part "pdsch_pdu.pdsch_pdu_rel15" pack_dl_tti_pdsch_pdu_rel15_value];
      When (Equal (Member "PDUType") NFAPI_NR_DL_TTI_SSB_PDU_TYPE)
        [Part "ssb_pdu.ssb_pdu_rel15" pack_dl_tti_ssb_pdu_rel15_value]]].
(* src: nfapi_p7.c :: unpack_dl_tti_request_body_value *)
Definition unpack_dl_tti_request_body_value : list row :=
  [Num U16 "PDUType";
   Sized true "PDUSize" 2
     [When (Equal (Member "PDUType") NFAPI_NR_DL_TTI_CSI_RS_PDU_TYPE)
        [Part "csi_rs_pdu.csi_rs_pdu_rel15" unpack_dl_tti_csi_rs_pdu_rel15_value];
      When (Equal (Member "PDUType") NFAPI_NR_DL_TTI_PDCCH_PDU_TYPE)
        [Part "pdcch_pdu.pdcch_pdu_rel15" unpack_dl_tti_pdcch_pdu_rel15_value];
      When (Equal (Member "PDUType") NFAPI_NR_DL_TTI_PDSCH_PDU_TYPE)
        [Part "pdsch_pdu.pdsch_pdu_rel15" unpack_dl_tti_pdsch_pdu_rel15_value];
      When (Equal (Member "PDUType") NFAPI_NR_DL_TTI_SSB_PDU_TYPE)
        [Part "ssb_pdu.ssb_pdu_rel15" unpack_dl_tti_ssb_pdu_rel15_value]]].

Definition prepare_dl_tti_pdu (s : struct) : struct :=
  if num s "PDUType" =? NFAPI_NR_DL_TTI_PDCCH_PDU_TYPE then map_head "pdcch_pdu.pdcch_pdu_rel15" prepare_pdcch s else s.
Definition prepare_dl_tti_request (s : struct) : struct :=
  map_sub "dl_tti_request_body.dl_tti_pdu_list" prepare_dl_tti_pdu s.

Definition pack_dl_tti_head : list row :=
  [Num U16 "SFN"; Num U16 "Slot"; Num U8 "dl_tti_request_body.nPDUs"; Num U8 "dl_tti_request_body.nGroup";
   Items (Unchecked NFAPI_NR_MAX_DL_TTI_PDUS) "dl_tti_request_body.dl_tti_pdu_list" (Member "dl_tti_request_body.nPDUs")
     pack_dl_tti_request_body_value].
Definition unpack_dl_tti_head : list row :=
  [Num U16 "SFN"; Num U16 "Slot"; Num U8 "dl_tti_request_body.nPDUs"; Num U8 "dl_tti_request_body.nGroup";
   Items (Unchecked NFAPI_NR_MAX_DL_TTI_PDUS) "dl_tti_request_body.dl_tti_pdu_list" (Member "dl_tti_request_body.nPDUs")
     unpack_dl_tti_request_body_value].

(** The loop over the groups ends with [return 0] in its first round. *)
(* src: nfapi_p7.c :: pack_dl_tti_request *)
Definition pack_dl_tti_request (s : struct) : packer :=
  let nUe := nth 0 (arr s "dl_tti_request_body.nUe") 0 in
  pack_rows [] pack_dl_tti_head (prepare_dl_tti_request s) &*
  (if 0 <? num s "dl_tti_request_body.nGroup" then
     (fun w => (1, snd (push8 nUe w))) &*
     pack_elems push32 (take (Z.to_nat nUe) (arr s "dl_tti_request_body.PduIdx")) &* (fun w => (0, w))
   else pack_ok).

(** What is read of the groups goes to a local array of 12. *)
Fixpoint skip_groups (ns : list Z) (l : list Z) : list Z + list Z :=
  match ns with
  | [] => inr l
  | n :: ns => match pullarrays32 12 n l with Some (_, l) => skip_groups ns l | None => inl l end
  end.
(* src: nfapi_p7.c :: unpack_dl_tti_request *)
Definition unpack_dl_tti_request : unpacker struct :=
  andthen (unpack_rows [] (unpack_dl_tti_head ++
             [Try (Arr U8 "dl_tti_request_body.nUe" 256 (Member "dl_tti_request_body.nGroup"))]))
    (fun s l => match skip_groups (arr s "dl_tti_request_body.nUe") l with inl l => inl (s, l) | inr l => inr (s, l) end).

(** ** UL_TTI.request *)

(* enum: nfapi_nr_interface_scf.h *)
Definition NFAPI_NR_UL_CONFIG_PRACH_PDU_TYPE : Z := 0.
Definition NFAPI_NR_UL_CONFIG_PUSCH_PDU_TYPE : Z := 1.
Definition NFAPI_NR_UL_CONFIG_PUCCH_PDU_TYPE : Z := 2.
Definition NFAPI_NR_UL_CONFIG_SRS_PDU_TYPE : Z := 3.
Definition PUSCH_PDU_BITMAP_PUSCH_DATA : Z := 0x1.
Definition PUSCH_PDU_BITMAP_PUSCH_UCI : Z := 0x2.
Definition PUSCH_PDU_BITMAP_PUSCH_PTRS : Z := 0x4.
Definition PUSCH_PDU_BITMAP_DFTS_OFDM : Z := 0x8.
Definition NFAPI_MAX_NUM_UL_PDU : Z := 255.
Definition NFAPI_MAX_NUM_UL_UE_PER_GROUP : Z := 6.
Definition NFAPI_MAX_NUM_GROUPS : Z := 8.
Definition NFAPI_MAX_NUM_CB : Z := 8.
(* end enum *)

(** The beamforming is set to zero.  (The pointers to its lists are followed
    before that, whether they point to something or not.) *)
Definition prepare_prach_pdu (s : struct) : struct :=
  set_num "beamforming.dig_bf_interface" 0 (set_num "beamforming.prg_size" 0 (set_num "beamforming.num_prgs" 0 s)).

(* src: nfapi_p7.c :: pack_ul_tti_request_prach_pdu *)
Definition pack_ul_tti_request_prach_pdu : list row :=
  [Try (Num U16 "phys_cell_id"); Try (Num U8 "num_prach_ocas"); Try (Num U8 "prach_format"); Try (Num U8 "num_ra");
   Try (Num U8 "prach_start_symbol"); Try (Num U16 "num_cs")] ++ beamforming Alloc.
(** The lists are allocated with no elements before the numbers are read. *)
(* src: nfapi_p7.c :: unpack_ul_tti_request_prach_pdu *)
Definition unpack_ul_tti_request_prach_pdu : list row :=
  [Try (Num U16 "phys_cell_id"); Try (Num U8 "num_prach_ocas"); Try (Num U8 "prach_format"); Try (Num U8 "num_ra");
   Try (Num U8 "prach_start_symbol"); Try (Num U16 "num_cs")] ++ beamforming Dangling.

(** The packer pushes [bit_len_harq] as 16 bits, the unpacker pulls 8. *)
(* src: nfapi_p7.c :: pack_ul_tti_request_pucch_pdu *)
Definition pack_ul_tti_request_pucch_pdu : list row :=
  [Try (Num U16 "rnti"); Try (Num U32 "handle"); Try (Num U16 "bwp_size"); Try (Num U16 "bwp_start");
   Try (Num U8 "subcarrier_spacing"); Try (Num U8 "cyclic_prefix"); Try (Num U8 "format_type");
   Try (Num U8 "multi_slot_tx_indicator"); Try (Num U8 "pi_2bpsk"); Try (Num U16 "prb_start"); Try (Num U16 "prb_size");
   Try (Num U8 "start_symbol_index"); Try (Num U8 "nr_of_symbols"); Try (Num U8 "freq_hop_flag");
   Try (Num U16 "second_hop_prb"); Try (Num U8 "group_hop_flag"); Try (Num U8 "sequence_hop_flag");
   Try (Num U16 "hopping_id"); Try (Num U16 "initial_cyclic_shift"); Try (Num U16 "data_scrambling_id");
   Try (Num U8 "time_domain_occ_idx"); Try (Num U8 "pre_dft_occ_idx"); Try (Num U8 "pre_dft_occ_len");
   Try (Num U8 "add_dmrs_flag"); Try (Num U16 "dmrs_scrambling_id"); Try (Num U8 "dmrs_cyclic_shift");
   Try (Num U8 "sr_flag"); Try (Num U16 "bit_len_harq"); Try (Num U16 "bit_len_csi_part1");
   Try (Num U16 "bit_len_csi_part2")] ++ beamforming Alloc.
(* src: nfapi_p7.c :: unpack_ul_tti_request_pucch_pdu *)
Definition unpack_ul_tti_request_pucch_pdu : list row :=
  [Num U16 "rnti"; Num U32 "handle"; Num U16 "bwp_size"; Num U16 "bwp_start";
   Num U8 "subcarrier_spacing"; Num U8 "cyclic_prefix"; Num U8 "format_type";
   Num U8 "multi_slot_tx_indicator"; Num U8 "pi_2bpsk"; Num U16 "prb_start"; Num U16 "prb_size";
   Num U8 "start_symbol_index"; Num U8 "nr_of_symbols"; Num U8 "freq_hop_flag";
   Num U16 "second_hop_prb"; Num U8 "group_hop_flag"; Num U8 "sequence_hop_flag";
   Num U16 "hopping_id"; Num U16 "initial_cyclic_shift"; Num U16 "data_scrambling_id";
   Num U8 "time_domain_occ_idx"; Num U8 "pre_dft_occ_idx"; Num U8 "pre_dft_occ_len";
   Num U8 "add_dmrs_flag"; Num U16 "dmrs_scrambling_id"; Num U8 "dmrs_cyclic_shift";
   Num U8 "sr_flag"; Num U8 "bit_len_harq"; Num U16 "bit_len_csi_part1";
   Num U16 "bit_len_csi_part2"] ++ no_beamforming.

(** The optional part is selected by the whole bitmap. *)
(* src: nfapi_p7.c :: pack_ul_tti_request_pusch_pdu *)
Definition pack_ul_tti_request_pusch_pdu : list row :=
  [Num U16 "pdu_bit_map"; Num U16 "rnti"; Num U32 "handle"; Num U16 "bwp_size"; Num U16 "bwp_start";
   Num U8 "subcarrier_spacing"; Num U8 "cyclic_prefix"; Num U16 "target_code_rate"; Num U8 "qam_mod_order";
   Num U8 "mcs_index"; Num U8 "mcs_table"; Num U8 "transform_precoding"; Num U16 "data_scrambling_id";
   Num U8 "nrOfLayers"; Num U16 "ul_dmrs_symb_pos"; Num U8 "dmrs_config_type"; Num U16 "ul_dmrs_scrambling_id";
   Num U16 "pusch_identity"; Num U8 "scid"; Num U8 "num_dmrs_cdm_grps_no_data"; Num U16 "dmrs_ports";
   Num U8 "resource_alloc"; Arr U8 "rb_bitmap" 36 (Const 36); Num U16 "rb_start"; Num U16 "rb_size";
   Num U8 "vrb_to_prb_mapping"; Num U8 "frequency_hopping"; Num U16 "tx_direct_current_location";
   Num U8 "uplink_frequency_shift_7p5khz"; Num U8 "start_symbol_index"; Num U8 "nr_of_symbols";
   When (Equal (Member "pdu_bit_map") PUSCH_PDU_BITMAP_PUSCH_DATA)
     [Try (Num U8 "pusch_data.rv_index"); Try (Num U8 "pusch_data.harq_process_id");
      Try (Num U8 "pusch_data.new_data_indicator"); Try (Num U32 "pusch_data.tb_size"); Try (Num U16 "pusch_data.num_cb");
      Try (Values Alloc U8 "pusch_data.cb_present_and_position" (Quot (Plus (Member "pusch_data.num_cb") (Const 7)) 8))];
   When (Equal (Member "pdu_bit_map") PUSCH_PDU_BITMAP_PUSCH_UCI)
     [Try (Num U16 "pusch_uci.harq_ack_bit_length"); Try (Num U16 "pusch_uci.csi_part1_bit_length");
      Try (Num U16 "pusch_uci.csi_part2_bit_length"); Try (Num U8 "pusch_uci.alpha_scaling");
      Try (Num U8 "pusch_uci.beta_offset_harq_ack"); Try (Num U8 "pusch_uci.beta_offset_csi1");
      Try (Num U8 "pusch_uci.beta_offset_csi2")];
   When (Equal (Member "pdu_bit_map") PUSCH_PDU_BITMAP_PUSCH_PTRS)
     [Try (Num U8 "pusch_ptrs.num_ptrs_ports");
      Items Alloc "pusch_ptrs.ptrs_ports_list" (Member "pusch_ptrs.num_ptrs_ports")
        [Try (Num U16 "ptrs_port_index"); Try (Num U8 "ptrs_dmrs_port"); Try (Num U8 "ptrs_re_offset")];
      Try (Num U8 "pusch_ptrs.ptrs_time_density"); Try (Num U8 "pusch_ptrs.ptrs_freq_density");
      Try (Num U8 "pusch_ptrs.ul_ptrs_power")];
   When (Equal (Member "pdu_bit_map") PUSCH_PDU_BITMAP_DFTS_OFDM)
     [Try (Num U8 "dfts_ofdm.low_papr_group_number"); Try (Num U16 "dfts_ofdm.low_papr_sequence_number");
      Try (Num U8 "dfts_ofdm.ul_ptrs_sample_density"); Try (Num U8 "dfts_ofdm.ul_ptrs_time_density_transform_precoding")]] ++
  beamforming Alloc.

(** None of the four optional parts. *)
Definition no_pusch_option : expr :=
  Equal (Plus (Plus (Equal (Member "pdu_bit_map") PUSCH_PDU_BITMAP_PUSCH_DATA)
                    (Equal (Member "pdu_bit_map") PUSCH_PDU_BITMAP_PUSCH_UCI))
              (Plus (Equal (Member "pdu_bit_map") PUSCH_PDU_BITMAP_PUSCH_PTRS)
                    (Equal (Member "pdu_bit_map") PUSCH_PDU_BITMAP_DFTS_OFDM))) 0.
(** [pusch_identity], the bitmap of resource blocks and the new data indicator
    are not pulled, two members are pulled twice; after an optional part the
    function returns. *)
(* src: nfapi_p7.c :: unpack_ul_tti_request_pusch_pdu *)
Definition unpack_ul_tti_request_pusch_pdu : list row :=
  [Num U16 "pdu_bit_map"; Num U16 "rnti"; Num U32 "handle"; Num U16 "bwp_size"; Num U16 "bwp_start";
   Num U8 "subcarrier_spacing"; Num U8 "cyclic_prefix"; Num U16 "target_code_rate"; Num U8 "qam_mod_order";
   Num U8 "mcs_index"; Num U8 "mcs_table"; Num U8 "transform_precoding"; Num U16 "data_scrambling_id";
   Num U8 "nrOfLayers"; Num U16 "ul_dmrs_symb_pos"; Num U8 "dmrs_config_type"; Num U16 "ul_dmrs_scrambling_id";
   Num U8 "scid"; Num U8 "num_dmrs_cdm_grps_no_data"; Num U16 "dmrs_ports";
   Num U8 "resource_alloc"; Num U8 "resource_alloc"; Num U16 "dmrs_ports"; Num U16 "rb_start"; Num U16 "rb_size";
   Num U8 "vrb_to_prb_mapping"; Num U8 "frequency_hopping"; Num U16 "tx_direct_current_location";
   Num U8 "uplink_frequency_shift_7p5khz"; Num U8 "start_symbol_index"; Num U8 "nr_of_symbols";
   When (Equal (Member "pdu_bit_map") PUSCH_PDU_BITMAP_PUSCH_DATA)
     [Num U8 "pusch_data.rv_index"; Num U8 "pusch_data.harq_process_id"; Num U32 "pusch_data.tb_size";
      Num U16 "pusch_data.num_cb"; Arr U8 "pusch_data.cb_present_and_position" 1 (Const 1)];
   When (Equal (Member "pdu_bit_map") PUSCH_PDU_BITMAP_PUSCH_UCI)
     [Num U16 "pusch_uci.harq_ack_bit_length"; Num U16 "pusch_uci.csi_part1_bit_length";
      Num U16 "pusch_uci.csi_part2_bit_length"; Num U8 "pusch_uci.alpha_scaling";
      Num U8 "pusch_uci.beta_offset_harq_ack"; Num U8 "pusch_uci.beta_offset_csi1"; Num U8 "pusch_uci.beta_offset_csi2"];
   When (Equal (Member "pdu_bit_map") PUSCH_PDU_BITMAP_PUSCH_PTRS)
     [Num U8 "pusch_ptrs.num_ptrs_ports";
      Items Dangling "pusch_ptrs.ptrs_ports_list" (Const 1)
        [Num U8 "ptrs_dmrs_port"; Num U16 "ptrs_port_index"; Num U8 "ptrs_re_offset"];
      Num U8 "pusch_ptrs.ptrs_time_density"; Num U8 "pusch_ptrs.ptrs_freq_density"; Num U8 "pusch_ptrs.ul_ptrs_power"];
   When (Equal (Member "pdu_bit_map") PUSCH_PDU_BITMAP_DFTS_OFDM)
     [Num U8 "dfts_ofdm.low_papr_group_number"; Num U16 "dfts_ofdm.low_papr_sequence_number";
      Num U8 "dfts_ofdm.ul_ptrs_sample_density"; Num U8 "dfts_ofdm.ul_ptrs_time_density_transform_precoding"];
   When no_pusch_option [Try (Lit U16 0); Try (Lit U16 0); Try (Lit U8 0)]].

(* src: nfapi_p7.c :: pack_ul_tti_request_srs_pdu *)
Definition pack_ul_tti_request_srs_pdu : list row :=
  [Num U16 "rnti"; Num U32 "handle"; Num U16 "bwp_size"; Num U16 "bwp_start"; Num U8 "subcarrier_spacing";
   Num U8 "cyclic_prefix"; Num U8 "num_ant_ports"; Num U8 "num_symbols"; Num U8 "num_repetitions";
   Num U8 "time_start_position"; Num U8 "config_index"; Num U16 "sequence_id"; Num U8 "bandwidth_index";
   Num U8 "comb_size"; Num U8 "comb_offset"; Num U8 "cyclic_shift"; Num U8 "frequency_position"; Num U16 "frequency_shift";
   Num U8 "frequency_hopping"; Num U8 "group_or_sequence_hopping"; Num U8 "resource_type"; Num U16 "t_srs"; Num U16 "t_offset"].
(* src: nfapi_p7.c :: unpack_ul_tti_request_srs_pdu *)
Definition unpack_ul_tti_request_srs_pdu : list row :=
  [Num U16 "rnti"; Num U32 "handle"; Num U16 "bwp_size"; Num U16 "bwp_start"; Num U8 "subcarrier_spacing";
   Num U8 "cyclic_prefix"; Num U8 "num_ant_ports"; Num U8 "num_symbols"; Num U8 "num_repetitions";
   Num U8 "time_start_position"; Num U8 "config_index"; Num U16 "sequence_id"; Num U8 "bandwidth_index";
   Num U8 "comb_size"; Num U8 "comb_offset"; Num U8 "cyclic_shift"; Num U8 "frequency_position"; Num U16 "frequency_shift";
   Num U8 "frequency_hopping"; Num U8 "group_or_sequence_hopping"; Num U8 "resource_type"; Num U16 "t_srs"; Num U16 "t_offset"].

(* src: nfapi_p7.c :: pack_ul_tti_pdu_list_value *)
Definition pack_ul_tti_pdu_list_value : list row :=
  [Try (Num U16 "pdu_type");
   Sized true "pdu_size" 2
     [When (Equal (Member "pdu_type") NFAPI_NR_UL_CONFIG_PRACH_PDU_TYPE) [Part "prach_pdu" pack_ul_tti_request_prach_pdu];
      When (Equal (Member "pdu_type") NFAPI_NR_UL_CONFIG_PUCCH_PDU_TYPE) [Part "pucch_pdu" pack_ul_tti_request_pucch_pdu];
      When (Equal (Member "pdu_type") NFAPI_NR_UL_CONFIG_PUSCH_PDU_TYPE) [Part "pusch_pdu" pack_ul_tti_request_pusch_pdu];
      When (Equal (Member "pdu_type") NFAPI_NR_UL_CONFIG_SRS_PDU_TYPE) [Part "srs_pdu" pack_ul_tti_request_srs_pdu]]].
(* src: nfapi_p7.c :: unpack_ul_tti_pdu_list_value *)
Definition unpack_ul_tti_pdu_list_value : list row :=
  [Num U16 "pdu_type";
   Sized true "pdu_size" 2
     [When (Equal (Member "pdu_type") NFAPI_NR_UL_CONFIG_PRACH_PDU_TYPE) [Part "prach_pdu" unpack_ul_tti_request_prach_pdu];
      When (Equal (Member "pdu_type") NFAPI_NR_UL_CONFIG_PUCCH_PDU_TYPE) [Part "pucch_pdu" unpack_ul_tti_request_pucch_pdu];
      When (Equal (Member "pdu_type") NFAPI_NR_UL_CONFIG_PUSCH_PDU_TYPE) [Part "pusch_pdu" unpack_ul_tti_request_pusch_pdu];
      When (Equal (Member "pdu_type") NFAPI_NR_UL_CONFIG_SRS_PDU_TYPE) [Part "srs_pdu" unpack_ul_tti_request_srs_pdu]]].

(* src: nfapi_p7.c :: pack_ul_tti_groups_list_value *)
Definition pack_ul_tti_groups_list_value : list row :=
  [Num U8 "n_ue"; Items (Unchecked NFAPI_MAX_NUM_UL_UE_PER_GROUP) "ue_list" (Member "n_ue") [Num U8 "pdu_idx"]].
(* src: nfapi_p7.c :: unpack_ul_tti_groups_list_value *)
Definition unpack_ul_tti_groups_list_value : list row :=
  [Num U8 "n_ue"; Items (Unchecked NFAPI_MAX_NUM_UL_UE_PER_GROUP) "ue_list" (Member "n_ue") [Num U8 "pdu_idx"]].

(** The PUCCH and PUSCH PDUs are counted. *)
Definition of_type (t : Z) (pdus : list struct) : Z :=
  u8 (zlen (filter (fun p => num p "pdu_type" = t) pdus)).
Definition prepare_ul_tti_request (s : struct) : struct :=
  let pdus := take (Z.to_nat (num s "n_pdus")) (sub s "pdus_list") in
  map_sub "pdus_list" (fun p =>
      if num p "pdu_type" =? NFAPI_NR_UL_CONFIG_PRACH_PDU_TYPE then map_head "prach_pdu" prepare_prach_pdu p else p)
    (set_num "n_ulsch" (of_type NFAPI_NR_UL_CONFIG_PUSCH_PDU_TYPE pdus)
      (set_num "n_ulcch" (of_type NFAPI_NR_UL_CONFIG_PUCCH_PDU_TYPE pdus) s)).

(** [n_ulsch] goes before [n_ulcch] here and after it in the unpacker. *)
Definition pack_ul_tti_rows : list row :=
  [Num U16 "SFN"; Num U16 "Slot"; Num U8 "n_pdus"; Num U8 "rach_present"; Num U8 "n_ulsch"; Num U8 "n_ulcch"; Num U8 "n_group";
   Items (Unchecked NFAPI_MAX_NUM_UL_PDU) "pdus_list" (Member "n_pdus") pack_ul_tti_pdu_list_value;
   Items (Unchecked NFAPI_MAX_NUM_GROUPS) "groups_list" (Member "n_group") pack_ul_tti_groups_list_value].
(* src: nfapi_p7.c :: pack_ul_tti_request *)
Definition pack_ul_tti_request (s : struct) : packer := pack_rows [] pack_ul_tti_rows (prepare_ul_tti_request s).
(* src: nfapi_p7.c :: unpack_ul_tti_request *)
Definition unpack_ul_tti_request : list row :=
  [Num U16 "SFN"; Num U16 "Slot"; Num U8 "n_pdus"; Num U8 "rach_present"; Num U8 "n_ulcch"; Num U8 "n_ulsch"; Num U8 "n_group";
   Items (Unchecked NFAPI_MAX_NUM_UL_PDU) "pdus_list" (Member "n_pdus") unpack_ul_tti_pdu_list_value;
   Items (Unchecked NFAPI_MAX_NUM_GROUPS) "groups_list" (Member "n_group") unpack_ul_tti_groups_list_value].

(** ** UL_DCI.request *)

Definition NFAPI_NR_MAX_NB_CORESETS : Z := 12.

(* src: nfapi_p7.c :: pack_ul_dci_pdu_list_value *)
Definition pack_ul_dci_pdu_list_value : list row :=
  [Try (Num U16 "PDUType"); Sized false "PDUSize" 2 [Part "pdcch_pdu.pdcch_pdu_rel15" pack_dl_tti_pdcch_pdu_rel15_value]].
(* src: nfapi_p7.c :: unpack_ul_dci_pdu_list_value *)
Definition unpack_ul_dci_pdu_list_value : list row :=
  [Try (Num U16 "PDUType"); Sized false "PDUSize" 2 [Part "pdcch_pdu.pdcch_pdu_rel15" unpack_dl_tti_pdcch_pdu_rel15_value]].

Definition prepare_ul_dci_request (s : struct) : struct :=
  map_sub "ul_dci_pdu_list" (map_head "pdcch_pdu.pdcch_pdu_rel15" prepare_pdcch) s.
Definition pack_ul_dci_rows : list row :=
  [Num U16 "SFN"; Num U16 "Slot"; Num U8 "numPdus";
   Items (Unchecked NFAPI_NR_MAX_NB_CORESETS) "ul_dci_pdu_list" (Member "numPdus") pack_ul_dci_pdu_list_value].
(* src: nfapi_p7.c :: pack_ul_dci_request *)
Definition pack_ul_dci_request (s : struct) : packer := pack_rows [] pack_ul_dci_rows (prepare_ul_dci_request s).
(* src: nfapi_p7.c :: unpack_ul_dci_request *)
Definition unpack_ul_dci_request : list row :=
  [Num U16 "SFN"; Num U16 "Slot"; Num U8 "numPdus";
   Items (Unchecked NFAPI_NR_MAX_NB_CORESETS) "ul_dci_pdu_list" (Member "numPdus") unpack_ul_dci_pdu_list_value].

(** ** TX_DATA.request *)

(* enum: nfapi_nr_interface_scf.h *)
Definition NFAPI_NR_MAX_TX_REQUEST_TLV : Z := 2.
Definition NFAPI_NR_MAX_TX_REQUEST_PDUS : Z := 16.
(* end enum *)

(* src: nfapi_p7.c :: pack_tx_data_pdu_list_value *)
Definition pack_tx_data_pdu_list_value : list row :=
  [Num U16 "PDU_length"; Num U16 "PDU_index"; Num U32 "num_TLV";
   Items (Unchecked NFAPI_NR_MAX_TX_REQUEST_TLV) "TLVs" (Wrap16 (Member "num_TLV"))
     [Num U16 "tag"; Num U16 "length";
      When (Equal (Member "tag") 0) [Arr U32 "value.direct" 16384 (Quot (Plus (Member "length") (Const 3)) 4)];
      When (Equal (Member "tag") 1) [Values Alloc U32 "value.ptr" (Member "length")]]].
(** [value.ptr] points to nothing. *)
(* src: nfapi_p7.c :: unpack_tx_data_pdu_list_value *)
Definition unpack_tx_data_pdu_list_value : list row :=
  [Num U16 "PDU_length"; Num U16 "PDU_index"; Num U32 "num_TLV";
   Items (Unchecked NFAPI_NR_MAX_TX_REQUEST_TLV) "TLVs" (Wrap16 (Member "num_TLV"))
     [Num U16 "tag"; Num U16 "length";
      When (Equal (Member "tag") 0) [Arr U32 "value.direct" 38016 (Quot (Plus (Member "length") (Const 3)) 4)];
      When (Equal (Member "tag") 1) [Values Dangling U32 "value.ptr" (Member "length")]]].

(** With no PDUs, loops for another format visit no PDUs. *)
(* src: nfapi_p7.c :: pack_tx_data_request *)
Definition pack_tx_data_request : list row :=
  [Num U16 "SFN"; Num U16 "Slot"; Num U16 "Number_of_PDUs";
   Items (Unchecked NFAPI_NR_MAX_TX_REQUEST_PDUS) "pdu_list" (Member "Number_of_PDUs") pack_tx_data_pdu_list_value].
(* src: nfapi_p7.c :: unpack_tx_data_request *)
Definition unpack_tx_data_request : list row :=
  [Num U16 "SFN"; Num U16 "Slot"; Num U16 "Number_of_PDUs";
   Items (Unchecked NFAPI_NR_MAX_TX_REQUEST_PDUS) "pdu_list" (Member "Number_of_PDUs") unpack_tx_data_pdu_list_value].

(** ** UE_RELEASE *)

(* enum: nfapi_interface.h *)
Definition NFAPI_RELEASE_MAX_RNTI : Z := 256.
Definition NFAPI_UE_RELEASE_BODY_TAG : Z := 0x2068.
(* end enum *)

(** The counter is a [uint8_t]: with more than 255 RNTIs it goes round until the
    buffer is full or empty, and the call fails. *)
Definition release_rntis : row := Items (UpTo 255) "ue_release_request_TLVs_list" (Member "number_of_TLVs") [Num U16 "rnti"].

(* src: nfapi_p7.c :: pack_release_request_body_value *)
Definition pack_release_request_body_value : list row := [Num U16 "number_of_TLVs"; release_rntis].

(** The three parts are packed whatever the one before returns. *)
(* src: nfapi_p7.c :: pack_nr_ue_release_request *)
Definition pack_nr_ue_release_request (s : struct) : packer := fun w =>
  let body := member s "ue_release_request_body" in
  let '(x, w) := push16 (num s "sfn_sf") w in
  let '(y, w) := pack_nr_tlv NFAPI_UE_RELEASE_BODY_TAG (tl_of body) (pack_rows [] pack_release_request_body_value body) w in
  let '(z, w) := pack_p7_vendor_extension_tlv None w in
  (b2z (negb (x =? 0) && negb (y =? 0) && negb (z =? 0)), w).
(* src: nfapi_p7.c :: pack_ue_release_request *)
Definition pack_ue_release_request : struct -> packer :=
  pack_pdu_message_all NFAPI_UE_RELEASE_BODY_TAG "ue_release_request_body" (pack_rows [] pack_release_request_body_value).
(* src: nfapi_p7.c :: unpack_ue_release_request *)
Definition unpack_ue_release_request : unpacker struct :=
  unpack_body_loop NFAPI_UE_RELEASE_BODY_TAG "ue_release_request_body" (unpack_rows [] pack_release_request_body_value).

(* src: nfapi_p7.c :: pack_ue_release_response *)
Definition pack_ue_release_response (s : struct) : packer := fun w =>
  let '(x, w) := push32 (num s "error_code") w in
  let '(z, w) := pack_p7_vendor_extension_tlv None w in (b2z (negb (x =? 0) && negb (z =? 0)), w).
(* src: nfapi_p7.c :: unpack_ue_release_resp *)
Definition unpack_ue_release_resp : list row := [Num U32 "error_code"].
