(* ===== verification/NrP7.v ===== *)
(** * NR P7 messages ([nfapi_p7.c])

    The tables of [nfapi_nr_p7_message_pack] and [nfapi_nr_p7_message_unpack], the
    size check of the latter and the synchronisation messages.  The frame is that
    of [P7Header].  The sizes of the C structures, [sizeof], and the vendor's
    callbacks are parameters. *)

From S2P Require Import Prelude Codec Ids P7Header Layout LtePdu NrUplink NrDownlink.
From stdpp Require Import functions.

Open Scope string_scope.
Open Scope list_scope.
Open Scope Z_scope.

(** ** Synchronisation and timing *)

Definition nr_dl_node_sync : list row := [Num U32 "t1"; Num S32 "delta_sfn_slot"].
Definition nr_ul_node_sync : list row := [Num U32 "t1"; Num U32 "t2"; Num U32 "t3"].
Definition nr_timing_info : list row :=
  [Num U32 "last_sfn"; Num U32 "last_slot"; Num U32 "time_since_last_timing_info"; Num U32 "dl_tti_jitter";
   Num U32 "tx_data_request_jitter"; Num U32 "ul_tti_jitter"; Num U32 "ul_dci_jitter"; Num S32 "dl_tti_latest_delay";
   Num S32 "tx_data_request_latest_delay"; Num S32 "ul_tti_latest_delay"; Num S32 "ul_dci_latest_delay";
   Num S32 "dl_tti_earliest_arrival"; Num S32 "tx_data_request_earliest_arrival"; Num S32 "ul_tti_earliest_arrival";
   Num S32 "ul_dci_earliest_arrival"].

(* src: nfapi_p7.c :: pack_nr_dl_node_sync *)
Definition pack_nr_dl_node_sync : struct -> packer := pack_message pack_nr_tlv nr_dl_node_sync [].
(* src: nfapi_p7.c :: pack_nr_ul_node_sync *)
Definition pack_nr_ul_node_sync : struct -> packer := pack_message pack_nr_tlv nr_ul_node_sync [].
(* src: nfapi_p7.c :: pack_nr_timing_info *)
Definition pack_nr_timing_info : struct -> packer := pack_message pack_nr_tlv nr_timing_info [].
(* src: nfapi_p7.c :: unpack_nr_dl_node_sync *)
Definition unpack_nr_dl_node_sync : struct -> list Z -> Z * struct := unpack_message unpack_nr_p7_tlv_list nr_dl_node_sync [].
(* src: nfapi_p7.c :: unpack_nr_ul_node_sync *)
Definition unpack_nr_ul_node_sync : struct -> list Z -> Z * struct := unpack_message unpack_nr_p7_tlv_list nr_ul_node_sync [].
(* src: nfapi_p7.c :: unpack_nr_timing_info *)
Definition unpack_nr_timing_info : struct -> list Z -> Z * struct := unpack_message unpack_nr_p7_tlv_list nr_timing_info [].

(** ** The tables *)

(** A function that returns 1 or 0. *)
Definition run (u : unpacker struct) (s : struct) (l : list Z) : Z * struct :=
  match u s l with inl (s, _) => (0, s) | inr (s, _) => (1, s) end.
Definition run_rows (rows : list row) : struct -> list Z -> Z * struct := run (unpack_rows [] rows).

Section messages.
Context (sizeof : string -> Z).
Context (pack_p7_vendor_extension : option (struct -> packer)).
Context (unpack_p7_vendor_extension : option (Z -> list Z -> Z * struct)).

Definition fits_in (type : string) (unpackedBufLen : Z) : Z :=
  if sizeof type <=? unpackedBufLen then sizeof type else 0.
Definition is_vendor_extension (id : Z) : bool := (NFAPI_VENDOR_EXT_MSG_MIN <=? id) && (id <=? NFAPI_VENDOR_EXT_MSG_MAX).

(** There is no entry for SLOT.indication; the size of TIMING_INFO is that of the
    LTE message. *)
(* src: nfapi_p7.c :: check_nr_unpack_length *)
Definition check_nr_unpack_length (id unpackedBufLen : Z) : Z :=
  switch
    [(NFAPI_NR_PHY_MSG_TYPE_DL_TTI_REQUEST, fits_in "nfapi_nr_dl_tti_request_t");
     (NFAPI_NR_PHY_MSG_TYPE_UL_TTI_REQUEST, fits_in "nfapi_nr_ul_tti_request_t");
     (NFAPI_SUBFRAME_INDICATION, fits_in "nfapi_subframe_indication_t");
     (NFAPI_NR_PHY_MSG_TYPE_UL_DCI_REQUEST, fits_in "nfapi_nr_ul_dci_request_t");
     (NFAPI_NR_PHY_MSG_TYPE_TX_DATA_REQUEST, fits_in "nfapi_nr_tx_data_request_t");
     (NFAPI_NR_PHY_MSG_TYPE_RX_DATA_INDICATION, fits_in "nfapi_nr_rx_data_indication_t");
     (NFAPI_NR_PHY_MSG_TYPE_CRC_INDICATION, fits_in "nfapi_nr_crc_indication_t");
     (NFAPI_NR_PHY_MSG_TYPE_RACH_INDICATION, fits_in "nfapi_nr_rach_indication_t");
     (NFAPI_NR_PHY_MSG_TYPE_UCI_INDICATION, fits_in "nfapi_nr_uci_indication_t");
     (NFAPI_NR_PHY_MSG_TYPE_SRS_INDICATION, fits_in "nfapi_nr_srs_indication_t");
     (NFAPI_NR_PHY_MSG_TYPE_DL_NODE_SYNC, fits_in "nfapi_nr_dl_node_sync_t");
     (NFAPI_NR_PHY_MSG_TYPE_UL_NODE_SYNC, fits_in "nfapi_nr_ul_node_sync_t");
     (NFAPI_TIMING_INFO, fits_in "nfapi_timing_info_t");
     (NFAPI_UE_RELEASE_REQUEST, fits_in "nfapi_ue_release_request_t");
     (NFAPI_UE_RELEASE_RESPONSE, fits_in "nfapi_ue_release_response_t")]
    (fun _ => 0) id unpackedBufLen.

Definition pack_nr_p7_message_body (id : Z) (s : struct) : packer :=
  switch
    [(NFAPI_NR_PHY_MSG_TYPE_DL_TTI_REQUEST, pack_dl_tti_request s);
     (NFAPI_NR_PHY_MSG_TYPE_UL_TTI_REQUEST, pack_ul_tti_request s);
     (NFAPI_NR_PHY_MSG_TYPE_TX_DATA_REQUEST, pack_rows [] pack_tx_data_request s);
     (NFAPI_NR_PHY_MSG_TYPE_UL_DCI_REQUEST, pack_ul_dci_request s);
     (NFAPI_UE_RELEASE_REQUEST, pack_nr_ue_release_request s);
     (NFAPI_UE_RELEASE_RESPONSE, pack_ue_release_response s);
     (NFAPI_NR_PHY_MSG_TYPE_SLOT_INDICATION, pack_rows [] pack_nr_slot_indication s);
     (NFAPI_NR_PHY_MSG_TYPE_RX_DATA_INDICATION, pack_rows [] pack_nr_rx_data_indication s);
     (NFAPI_NR_PHY_MSG_TYPE_CRC_INDICATION, pack_rows [] pack_nr_crc_indication s);
     (NFAPI_NR_PHY_MSG_TYPE_UCI_INDICATION, pack_rows [] pack_nr_uci_indication s);
     (NFAPI_NR_PHY_MSG_TYPE_SRS_INDICATION, pack_rows [] pack_nr_srs_indication s);
     (NFAPI_NR_PHY_MSG_TYPE_RACH_INDICATION, pack_rows [] pack_nr_rach_indication s);
     (NFAPI_NR_PHY_MSG_TYPE_DL_NODE_SYNC, pack_nr_dl_node_sync s);
     (NFAPI_NR_PHY_MSG_TYPE_UL_NODE_SYNC, pack_nr_ul_node_sync s);
     (NFAPI_TIMING_INFO, pack_nr_timing_info s)]
    (if is_vendor_extension id then
       match pack_p7_vendor_extension with Some fn => fn s | None => pack_fail end
     else pack_fail) id.

(** The lists that are allocated for one element before the body is unpacked are
    replaced by the unpackers that allocate them again. *)
Definition unpack_nr_p7_message_body (id unpackedBufLen : Z) (l : list Z) : Z * struct :=
  let checked (u : struct -> list Z -> Z * struct) :=
    if check_nr_unpack_length id unpackedBufLen =? 0 then (0, zero) else u zero l in
  switch
    [(NFAPI_NR_PHY_MSG_TYPE_DL_TTI_REQUEST, checked (run unpack_dl_tti_request));
     (NFAPI_NR_PHY_MSG_TYPE_UL_TTI_REQUEST, checked (run_rows unpack_ul_tti_request));
     (NFAPI_NR_PHY_MSG_TYPE_TX_DATA_REQUEST, checked (run_rows unpack_tx_data_request));
     (NFAPI_NR_PHY_MSG_TYPE_UL_DCI_REQUEST, checked (run_rows unpack_ul_dci_request));
     (NFAPI_UE_RELEASE_REQUEST, checked (run unpack_ue_release_request));
     (NFAPI_NR_PHY_MSG_TYPE_SLOT_INDICATION, checked (run_rows unpack_nr_slot_indication));
     (NFAPI_NR_PHY_MSG_TYPE_RX_DATA_INDICATION, checked (run_rows unpack_nr_rx_data_indication));
     (NFAPI_NR_PHY_MSG_TYPE_CRC_INDICATION, checked (run_rows unpack_nr_crc_indication));
     (NFAPI_NR_PHY_MSG_TYPE_UCI_INDICATION, checked (run_rows unpack_nr_uci_indication));
     (NFAPI_NR_PHY_MSG_TYPE_SRS_INDICATION, checked (run_rows unpack_nr_srs_indication));
     (NFAPI_NR_PHY_MSG_TYPE_RACH_INDICATION, checked (run_rows unpack_nr_rach_indication));
     (NFAPI_NR_PHY_MSG_TYPE_DL_NODE_SYNC, checked unpack_nr_dl_node_sync);
     (NFAPI_NR_PHY_MSG_TYPE_UL_NODE_SYNC, checked unpack_nr_ul_node_sync);
     (NFAPI_TIMING_INFO, checked unpack_nr_timing_info);
     (NFAPI_UE_RELEASE_RESPONSE, checked (run_rows unpack_ue_release_resp))]
    (if is_vendor_extension id then
       match unpack_p7_vendor_extension with Some fn => fn id l | None => (0, zero) end
     else (0, zero)) id.

(* src: nfapi_p7.c :: nfapi_nr_p7_message_pack *)
Definition nfapi_nr_p7_message_pack (h : nfapi_p7_message_header_t) (s : struct) (packedBufLen : Z) : option (list Z) :=
  p7_frame_pack h (pack_nr_p7_message_body (message_id h) s) packedBufLen.
(* src: nfapi_p7.c :: nfapi_nr_p7_message_unpack *)
Definition nfapi_nr_p7_message_unpack (msg : list Z) (unpackedBufLen : Z) : option (nfapi_p7_message_header_t * struct) :=
  p7_frame_unpack (fun h => unpack_nr_p7_message_body (message_id h) unpackedBufLen) msg unpackedBufLen.
End messages.

(** ** Which messages round-trip *)

(** The rows of the messages that the receiver reads as the sender writes them,
    with what the packer does to the structure before.  A DL_TTI request must not
    have groups.  (UL_TTI requests, release requests and slot indications are not
    read back.) *)
Definition no_groups (b : bound) : list row :=
  [Try (Values b U8 "dl_tti_request_body.nUe" (Member "dl_tti_request_body.nGroup"));
   When (Member "dl_tti_request_body.nGroup") [Return0]].
Definition nr_p7_codecs : list (Z * ((struct -> struct) * list row * list row)) :=
  [(NFAPI_NR_PHY_MSG_TYPE_DL_TTI_REQUEST,
      (prepare_dl_tti_request, pack_dl_tti_head ++ no_groups (UpTo 256), unpack_dl_tti_head ++ no_groups (UpTo 256)));
   (NFAPI_NR_PHY_MSG_TYPE_TX_DATA_REQUEST, (fun s => s, pack_tx_data_request, unpack_tx_data_request));
   (NFAPI_NR_PHY_MSG_TYPE_UL_DCI_REQUEST, (prepare_ul_dci_request, pack_ul_dci_rows, unpack_ul_dci_request));
   (NFAPI_UE_RELEASE_RESPONSE, (fun s => s, [Num U32 "error_code"], unpack_ue_release_resp));
   (NFAPI_NR_PHY_MSG_TYPE_RX_DATA_INDICATION, (fun s => s, pack_nr_rx_data_indication, unpack_nr_rx_data_indication));
   (NFAPI_NR_PHY_MSG_TYPE_CRC_INDICATION, (fun s => s, pack_nr_crc_indication, unpack_nr_crc_indication));
   (NFAPI_NR_PHY_MSG_TYPE_UCI_INDICATION, (fun s => s, pack_nr_uci_indication, unpack_nr_uci_indication));
   (NFAPI_NR_PHY_MSG_TYPE_SRS_INDICATION, (fun s => s, pack_nr_srs_indication, unpack_nr_srs_indication));
   (NFAPI_NR_PHY_MSG_TYPE_RACH_INDICATION, (fun s => s, pack_nr_rach_indication, unpack_nr_rach_indication));
   (NFAPI_NR_PHY_MSG_TYPE_DL_NODE_SYNC, (fun s => s, nr_dl_node_sync, nr_dl_node_sync));
   (NFAPI_NR_PHY_MSG_TYPE_UL_NODE_SYNC, (fun s => s, nr_ul_node_sync, nr_ul_node_sync));
   (NFAPI_TIMING_INFO, (fun s => s, nr_timing_info, nr_timing_info))].

Lemma nr_p7_codecs_checked :
  forallb (fun '(_, (_, ps, us)) => rows_sim ps us && rows_wf [[]] us) nr_p7_codecs = true.
Proof. vm_compute. reflexivity. Qed.

(** A message of rows without TLVs. *)
Lemma writes_bare_message pack rows s bs : writes (pack_rows [] rows s) bs -> writes (pack_message pack rows [] s) bs.
Proof. intros H. rewrite <- (app_nil_r bs), <- (app_nil_r bs), <- app_assoc. repeat (apply writes_and; [done||apply writes_ok|]). apply writes_ok. Qed.

Lemma dl_tti_no_groups rest s : rows_ok [] (rest ++ no_groups (UpTo 256)) s -> num s "dl_tti_request_body.nGroup" = 0.
Proof.
  induction rest as [|r rest IH]; [|intros [_ H]; by apply IH].
  intros (_ & H & _). destruct (Z.eq_dec (num s "dl_tti_request_body.nGroup") 0) as [|Hne]; [done|].
  destruct (H Hne) as [(_ & [[_ Hn] _] & _) _]. cbn in Hn. lia.
Qed.

Ltac case_codecs H :=
  repeat first [ apply elem_of_nil in H; contradiction
               | apply elem_of_cons in H; destruct H as [H|H]; [injection H as -> -> -> ->|] ].

Lemma writes_dl_tti s bs :
  rows_ok [] (unpack_dl_tti_head ++ no_groups (UpTo 256)) (prepare_dl_tti_request s) ->
  writes (pack_rows [] (pack_dl_tti_head ++ no_groups (UpTo 256)) (prepare_dl_tti_request s)) bs ->
  writes (ret_u8 (pack_dl_tti_request s)) bs.
Proof.
  intros Hg%dl_tti_no_groups Hw. apply writes_ret_u8.
  assert (num s "dl_tti_request_body.nGroup" = 0) as -> by (by destruct s).
  eapply writes_ext; [|exact Hw]. intros w. rewrite pack_rows_app. unfold pack_and.
  destruct (pack_rows [] pack_dl_tti_head _ w) as [r w1]. destruct (r =? 0); [done|].
  unfold no_groups. cbn [pack_rows foldr pack_row eval hd]. by rewrite Hg.
Qed.

Lemma writes_release_response s bs :
  writes (pack_rows [] [Num U32 "error_code"] s) bs -> writes (ret_u8 (pack_ue_release_response s)) bs.
Proof.
  intros Hw. eapply writes_ext; [|apply (writes_ret_u8 _ _ _ Hw)]. intros w.
  cbn [pack_rows foldr pack_row]. unfold ret_u8, pack_ue_release_response, pack_and, push_as.
  destruct (push32 (num s "error_code") w) as [r w1]. by destruct (r =? 0).
Qed.

Lemma nr_p7_packs vp id prep ps us s bs : (id, (prep, ps, us)) ∈ nr_p7_codecs -> rows_ok [] us (prep s) ->
  writes (pack_rows [] ps (prep s)) bs -> writes (ret_u8 (pack_nr_p7_message_body vp id s)) bs.
Proof.
  unfold nr_p7_codecs. intros H Hok Hw. case_codecs H.
  1: by apply writes_dl_tti.
  3: by apply writes_release_response.
  all: try (exact (writes_ret_u8 _ _ _ Hw)); exact (writes_ret_u8 _ _ _ (writes_bare_message pack_nr_tlv _ _ _ Hw)).
Qed.

(** The rows of a prefix of well-formed rows. *)
Lemma rows_ok_prefix outer a b s : rows_ok outer (a ++ b) s -> rows_ok outer a s.
Proof. induction a as [|r a IH]; [done|]. intros [H1 H2]. split; [done|by apply IH]. Qed.
Lemma rows_bytes_app outer a b s : rows_bytes outer (a ++ b) s = rows_bytes outer a s ++ rows_bytes outer b s.
Proof. unfold rows_bytes. induction a as [|r a IH]; [done|]. cbn [app foldr]. by rewrite IH, app_assoc. Qed.

Lemma dl_tti_read s : rows_ok [] (unpack_dl_tti_head ++ no_groups (UpTo 256)) s ->
  run unpack_dl_tti_request zero (rows_bytes [] (unpack_dl_tti_head ++ no_groups (UpTo 256)) s) =
  (1, rows_copy [] (unpack_dl_tti_head ++ no_groups (UpTo 256)) s zero).
Proof.
  intros Hok. pose proof (dl_tti_no_groups _ _ Hok) as Hg.
  set (a := unpack_dl_tti_head ++ [Try (Arr U8 "dl_tti_request_body.nUe" 256 (Member "dl_tti_request_body.nGroup"))]).
  change (unpack_dl_tti_head ++ no_groups (UpTo 256)) with (a ++ [When (Member "dl_tti_request_body.nGroup") [Return0]]) in *.
  assert (rows_bytes [] [When (Member "dl_tti_request_body.nGroup") [Return0]] s = []) as Hb
    by (cbn [rows_bytes foldr row_bytes eval hd]; by rewrite Hg).
  rewrite rows_bytes_app, Hb.
  pose proof (rows_read a s zero ltac:(vm_compute; reflexivity) (rows_ok_prefix _ _ _ _ Hok) []) as Hr.
  unfold run, unpack_dl_tti_request, andthen. fold a. rewrite Hr.
  assert (rows_copy [] (a ++ [When (Member "dl_tti_request_body.nGroup") [Return0]]) s zero = rows_copy [] a s zero) as ->.
  { unfold rows_copy. rewrite foldl_app. cbn [foldl row_copy eval hd]. by rewrite Hg. }
  assert (arr (rows_copy [] a s zero) "dl_tti_request_body.nUe" = []) as ->; [|done].
  unfold a, rows_copy. rewrite foldl_app. cbn [foldl row_copy eval hd]. rewrite Hg.
  destruct (foldl _ zero unpack_dl_tti_head). cbn. by rewrite fn_lookup_insert.
Qed.

Lemma run_rows_read us s bs s' : unpack_rows [] us s bs = inr (s', []) -> run_rows us s bs = (1, s').
Proof. unfold run_rows, run. by intros ->. Qed.
Lemma message_read us s bs s' : unpack_rows [] us s bs = inr (s', []) -> unpack_message unpack_nr_p7_tlv_list us [] s bs = (1, s').
Proof. unfold unpack_message. by intros ->. Qed.

Lemma nr_p7_unpacks sizeof vu id prep ps us s size : (id, (prep, ps, us)) ∈ nr_p7_codecs ->
  rows_ok [] us (prep s) -> check_nr_unpack_length sizeof id size <> 0 ->
  unpack_nr_p7_message_body sizeof vu id size (rows_bytes [] us (prep s)) = (1, rows_copy [] us (prep s) zero).
Proof.
  intros H Hok Hc.
  pose proof (proj1 (forallb_forall _ _) nr_p7_codecs_checked _ (proj1 (list_elem_of_In _ _) H)) as Hwf. cbn beta iota in Hwf.
  apply andb_true_iff in Hwf as [_ Hwf]. pose proof (rows_read us (prep s) zero Hwf Hok []) as Hr. rewrite app_nil_r in Hr.
  unfold unpack_nr_p7_message_body. apply Z.eqb_neq in Hc. rewrite Hc. clear Hwf Hc.
  unfold nr_p7_codecs in H. case_codecs H.
  1: by apply dl_tti_read.
  all: cbn [switch]; first [ exact (run_rows_read _ _ _ _ Hr) | exact (message_read _ _ _ _ Hr) ].
Qed.

(** C20. An NR message of these types whose members are in range, whose counts are
    within the arrays of both sides and that fits the buffer and 65535 bytes is
    packed and unpacked again: the unpacked header is the sender's with the
    length filled in, the body has the members the packer wrote, with the sizes
    of the PDUs as the packer computed them and what it set to zero as zero. *)
Theorem nr_p7_roundtrip sizeof vp vu id prep ps us h s buflen size :
  (id, (prep, ps, us)) ∈ nr_p7_codecs -> message_id h = id -> header_ok h ->
  rows_room [] ps (prep s) -> rows_ok [] us (prep s) ->
  16 + zlen (rows_bytes [] us (prep s)) <= 65535 -> 16 + zlen (rows_bytes [] us (prep s)) <= buflen < 4294967296 ->
  16 <= size -> check_nr_unpack_length sizeof id size <> 0 ->
  exists bytes, nfapi_nr_p7_message_pack vp h s buflen = Some bytes /\
    nfapi_nr_p7_message_unpack sizeof vu bytes size =
      Some (P7Header (phy_id h) id (zlen bytes) (m_segment_sequence h) 0 (transmit_timestamp h),
            rows_copy [] us (prep s) zero).
Proof.
  intros Hin <- Hh Hroom Hok H16 Hbuf Hs Hc.
  pose proof (proj1 (forallb_forall _ _) nr_p7_codecs_checked _ (proj1 (list_elem_of_In _ _) Hin)) as Hwf. cbn beta iota in Hwf.
  apply andb_true_iff in Hwf as [Hsim Hwf]. pose proof (rows_write _ _ _ Hsim Hwf Hroom Hok) as Hw.
  pose proof (nr_p7_unpacks sizeof vu _ _ _ _ _ size Hin Hok Hc) as Hu.
  unfold nfapi_nr_p7_message_pack, nfapi_nr_p7_message_unpack.
  rewrite (p7_frame_pack_ok _ _ _ _ Hh (nr_p7_packs vp _ _ _ _ _ _ Hin Hok Hw)) by lia.
  eexists. split; [reflexivity|]. destruct Hh as (? & ? & ? & ? & ? & ?). pose proof (zlen_nonneg (rows_bytes [] us (prep s))).
  rewrite p7_frame_unpack_ok; [|unfold header_ok; cbn; repeat split; wrap_lia|cbn; lia|done].
  cbn [message_id]. rewrite Hu. cbn [Z.eqb]. do 3 f_equal. by autorewrite with zlen.
Qed.

(** A DL_TTI request with an SSB and a PDCCH PDU with one DCI of 17 bits. *)
Definition sample_dl_tti : struct :=
  set_num "SFN" 5 (set_num "Slot" 3 (set_num "dl_tti_request_body.nPDUs" 2 (set_sub "dl_tti_request_body.dl_tti_pdu_list"
    [set_num "PDUType" NFAPI_NR_DL_TTI_SSB_PDU_TYPE
       (set_member "ssb_pdu.ssb_pdu_rel15" (set_num "bchPayload" 0x123456 zero) zero);
     set_num "PDUType" NFAPI_NR_DL_TTI_PDCCH_PDU_TYPE
       (set_member "pdcch_pdu.pdcch_pdu_rel15"
          (set_arr "FreqDomainResource" [1; 2; 3; 4; 5; 6] (set_num "numDlDci" 1 (set_sub "dci_pdu"
            [set_num "PayloadSizeBits" 17 (set_arr "Payload" (le_split 8 0x1ABCD) zero)] zero))) zero)] zero))).
Definition sample_p7_header (id : Z) : nfapi_p7_message_header_t := P7Header 3 id 0 (mss false 0 9) 0 77.

Lemma nr_p7_roundtrip_witness : exists bytes,
  nfapi_nr_p7_message_pack None (sample_p7_header NFAPI_NR_PHY_MSG_TYPE_DL_TTI_REQUEST) sample_dl_tti 65535 = Some bytes /\
  nfapi_nr_p7_message_unpack (fun _ => 1) None bytes 65535 =
    Some (P7Header 3 NFAPI_NR_PHY_MSG_TYPE_DL_TTI_REQUEST (zlen bytes) (mss false 0 9) 0 77,
          rows_copy [] (unpack_dl_tti_head ++ no_groups (UpTo 256)) (prepare_dl_tti_request sample_dl_tti) zero).
Proof.
  apply (nr_p7_roundtrip (fun _ => 1) None None NFAPI_NR_PHY_MSG_TYPE_DL_TTI_REQUEST prepare_dl_tti_request
    (pack_dl_tti_head ++ no_groups (UpTo 256)) (unpack_dl_tti_head ++ no_groups (UpTo 256))
    (sample_p7_header NFAPI_NR_PHY_MSG_TYPE_DL_TTI_REQUEST) sample_dl_tti 65535 65535).
  - apply list_elem_of_here.
  - reflexivity.
  - repeat split; discriminate.
  - apply rows_roomb_spec. vm_compute. reflexivity.
  - apply rows_okb_spec. vm_compute. reflexivity.
  - vm_compute. discriminate.
  - vm_compute. split; [discriminate|reflexivity].
  - discriminate.
  - vm_compute. discriminate.
Defined.

(** ** Release requests

    [pack_nr_tlv] pads the list of RNTIs to a multiple of four bytes; the receiver
    reads TLs until the end of the message and does not skip the padding. *)

Definition release_value (s : struct) : list Z :=
  rows_bytes [] pack_release_request_body_value (member s "ue_release_request_body").

Lemma release_value_size outer s : rows_ok outer pack_release_request_body_value s ->
  zlen (rows_bytes outer pack_release_request_body_value s) = 2 + 2 * num s "number_of_TLVs".
Proof.
  cbn. intros (_ & (_ & [H1 H2] & _) & _). rewrite app_nil_r, zlen_app, zlen_be16.
  assert (forall es : list struct, zlen (concat ((fun e => be16 (num e "rnti") ++ []) <$> es)) = 2 * zlen es) as ->.
  { induction es as [|e es IH]; [done|]. cbn [fmap list_fmap concat]. rewrite zlen_app, IH, zlen_cons, app_nil_r, zlen_be16. lia. }
  rewrite zlen_take_count with (max := 255); [lia|]. by split.
Qed.

Lemma release_body_read tl s s0 rest : rows_ok [] pack_release_request_body_value (member s "ue_release_request_body") ->
  storing (fun body => set_member "ue_release_request_body" body s0)
    (unpack_rows [] pack_release_request_body_value (set_tl tl zero) (release_value s ++ rest)) =
  inr (set_member "ue_release_request_body" (rows_copy [] pack_release_request_body_value
    (member s "ue_release_request_body") (set_tl tl zero)) s0, rest).
Proof.
  intros Hok. unfold release_value. by rewrite (rows_read pack_release_request_body_value _ _ ltac:(vm_compute; reflexivity) Hok rest).
Qed.

Definition release_tlv (s : struct) : list Z :=
  tlv_bytes NFAPI_UE_RELEASE_BODY_TAG (release_value s) ++ replicate (Z.to_nat (get_tlv_padding (zlen (release_value s)))) 0.
Definition release_bytes (s : struct) : list Z := be16 (num s "sfn_sf") ++ release_tlv s.

(** A release request whose members are in range and whose body TLV is there. *)
Definition release_ok (s : struct) : Prop :=
  let body := member s "ue_release_request_body" in
  in_u16 (num s "sfn_sf") /\ tl_tag (tl_of body) = NFAPI_UE_RELEASE_BODY_TAG /\ in_u16 (tl_length (tl_of body)) /\
  rows_ok [] pack_release_request_body_value body.

Lemma release_room s : release_ok s -> 0 <= num (member s "ue_release_request_body") "number_of_TLVs" <= 255.
Proof. by intros (_ & _ & _ & _ & (_ & [H _] & _) & _). Qed.

Lemma release_writes vp s : release_ok s ->
  writes (ret_u8 (pack_nr_p7_message_body vp NFAPI_UE_RELEASE_REQUEST s)) (release_bytes s).
Proof.
  intros Hs. pose proof (release_room s Hs) as Hn. destruct Hs as (Hf & Ht & Hl & Hok).
  assert (writes (pack_nr_tlv NFAPI_UE_RELEASE_BODY_TAG (tl_of (member s "ue_release_request_body"))
    (pack_rows [] pack_release_request_body_value (member s "ue_release_request_body"))) (release_tlv s)) as Htlv.
  { destruct (tl_of _) as [tag n]. cbn [tl_tag tl_length] in *. subst tag. apply tf_present; [done|done| |].
    - unfold release_value. rewrite release_value_size by done. wrap_lia.
    - apply (rows_write _ pack_release_request_body_value); [vm_compute; reflexivity..|by apply rows_ok_room|done]. }
  pose proof (writes_emits _ _ (emits_push16 _ Hf)) as H16. pose proof (writes_and _ _ _ _ H16 Htlv) as [Hb Hw].
  split; [done|]. intros w Hr Hfit. specialize (Hw w Hr Hfit).
  destruct (wr_fit _ _ H16 w Hr) as [Hx _]; [unfold release_bytes in Hfit; autorewrite with zlen in *; zlen_lia|].
  unfold pack_and in Hw. cbn [switch]. unfold ret_u8, pack_nr_p7_message_body. cbn [switch].
  change (0 < fst (let '(r, w1) := pack_nr_ue_release_request s w in (u8 r, w1)) /\
          snd (let '(r, w1) := pack_nr_ue_release_request s w in (u8 r, w1)) = wapp w (release_bytes s)).
  unfold pack_nr_ue_release_request.
  destruct (push16 _ w) as [x w1]. cbn [fst] in Hx. destruct (Z.eqb_spec x 0); [lia|].
  destruct (pack_nr_tlv _ _ _ w1) as [y w2]. cbn [fst snd] in Hw. destruct (Z.eqb_spec y 0); [by destruct Hw|].
  cbn. by destruct Hw.
Qed.

Lemma release_read s : release_ok s ->
  run unpack_ue_release_request zero (release_bytes s) =
  let s' := set_member "ue_release_request_body"
      (rows_copy [] pack_release_request_body_value (member s "ue_release_request_body")
        (set_tl (Tl NFAPI_UE_RELEASE_BODY_TAG (zlen (release_value s))) zero)) (set_num "sfn_sf" (num s "sfn_sf") zero) in
  (b2z (zlen (release_value s) mod 4 =? 0), s').
Proof.
  intros Hs. pose proof (release_room s Hs) as Hn. destruct Hs as (Hf & _ & _ & Hok).
  assert (in_u16 (zlen (release_value s)) /\ 0 <= zlen (release_value s) /\
    exists pad, replicate (Z.to_nat (get_tlv_padding (zlen (release_value s)))) 0 = pad /\
      (if zlen (release_value s) mod 4 =? 0 then pad = [] else pad = [0; 0])) as (Hv & _ & pad & Hpad & Hcase).
  { unfold release_value. rewrite release_value_size by done. set (n := num _ "number_of_TLVs") in *. split; [wrap_lia|]. split; [lia|].
    eexists. split; [reflexivity|]. unfold get_tlv_padding. rewrite !Z.rem_mod_nonneg by lia.
    destruct (Z.eqb_spec ((2 + 2 * n) mod 4) 0) as [->|]; [done|]. by replace ((2 + 2 * n) mod 4) with 2 by lia. }
  unfold release_bytes, release_tlv, tlv_bytes, run, unpack_ue_release_request, unpack_body_loop, andthen. rewrite Hpad, <- !app_assoc.
  cbn [unpack_rows foldr unpack_row pull_number]. unfold andthen, pass.
  rewrite (pa_run _ _ _ (parses_pull16 _ Hf)).
  remember (be16 NFAPI_UE_RELEASE_BODY_TAG ++ _) as l eqn:El.
  assert (l <> [] /\ unpack_tl l = Some (Tl NFAPI_UE_RELEASE_BODY_TAG (zlen (release_value s)), release_value s ++ pad))
    as [Hne Htl].
  { subst l. split; [done|]. rewrite app_assoc. apply (pa_run _ _ _ (parses_tl NFAPI_UE_RELEASE_BODY_TAG _ ltac:(done) Hv)). }
  pose proof (unpack_tl_length _ _ _ Htl) as Hlen. destruct l as [|b l]; [done|].
  cbn [body_loop]. rewrite Htl. cbn [tl_tag]. rewrite Z.eqb_refl.
  change (member (set_num _ _ zero) _) with zero. rewrite release_body_read by done.
  cbn [length] in Hlen |- *. rewrite Hlen. destruct (zlen (release_value s) mod 4 =? 0); by rewrite Hcase.
Qed.

(** An NR release request of [n] RNTIs (255 at most), with its body TLV, in
    range and in a large enough buffer is packed.  It is unpacked, with the header
    and the RNTIs of the sender, if [n] is odd and rejected if [n] is even: the
    two bytes of padding are taken for a TL that is cut off. *)
Theorem nr_release_request_parity sizeof vp vu h s buflen size :
  message_id h = NFAPI_UE_RELEASE_REQUEST -> header_ok h -> release_ok s -> 1024 <= buflen < 4294967296 ->
  16 <= size -> check_nr_unpack_length sizeof NFAPI_UE_RELEASE_REQUEST size <> 0 ->
  let body := member s "ue_release_request_body" in
  exists bytes, nfapi_nr_p7_message_pack vp h s buflen = Some bytes /\
    nfapi_nr_p7_message_unpack sizeof vu bytes size =
      if Z.odd (num body "number_of_TLVs") then
        Some (P7Header (phy_id h) (message_id h) (zlen bytes) (m_segment_sequence h) 0 (transmit_timestamp h),
              set_member "ue_release_request_body" (rows_copy [] pack_release_request_body_value body
                (set_tl (Tl NFAPI_UE_RELEASE_BODY_TAG (2 + 2 * num body "number_of_TLVs")) zero))
                (set_num "sfn_sf" (num s "sfn_sf") zero))
      else None.
Proof.
  intros Hid Hh Hs Hbuf Hsize Hc body. pose proof (release_room s Hs) as Hn. fold body in Hn.
  assert (zlen (release_value s) = 2 + 2 * num body "number_of_TLVs") as Hv by (apply release_value_size, Hs).
  assert (zlen (release_bytes s) <= 521).
  { pose proof (get_tlv_padding_range (zlen (release_value s))). unfold release_bytes, release_tlv. autorewrite with zlen. lia. }
  unfold nfapi_nr_p7_message_pack, nfapi_nr_p7_message_unpack. rewrite Hid.
  rewrite (p7_frame_pack_ok _ _ _ _ Hh (release_writes vp s Hs)) by lia.
  eexists. split; [reflexivity|]. destruct Hh as (? & ? & ? & ? & ? & ?). pose proof (zlen_nonneg (release_bytes s)).
  rewrite p7_frame_unpack_ok; [|unfold header_ok; cbn; repeat split; wrap_lia|cbn; lia|done].
  cbn [message_id]. apply Z.eqb_neq in Hc. unfold unpack_nr_p7_message_body. rewrite Hid, Hc. cbn [switch].
  transitivity (let '(result, a) := run unpack_ue_release_request zero (release_bytes s) in
    if result =? 0 then None else
      Some (P7Header (phy_id h) NFAPI_UE_RELEASE_REQUEST (16 + zlen (release_bytes s)) (m_segment_sequence h) 0
        (transmit_timestamp h), a)); [reflexivity|].
  rewrite release_read, Hv by done. cbn zeta.
  assert (((2 + 2 * num body "number_of_TLVs") mod 4 =? 0) = Z.odd (num body "number_of_TLVs")) as ->.
  { rewrite <- Z.bit0_odd, Z.bit0_eqb. apply eq_true_iff_eq. rewrite !Z.eqb_eq. lia. }
  destruct (Z.odd _); [|done]. cbn [b2z Z.eqb]. do 3 f_equal. by autorewrite with zlen.
Qed.

Definition sample_release (rntis : list Z) : struct :=
  set_num "sfn_sf" 7 (set_member "ue_release_request_body"
    (set_tl (Tl NFAPI_UE_RELEASE_BODY_TAG 0) (set_num "number_of_TLVs" (zlen rntis)
      (set_sub "ue_release_request_TLVs_list" ((fun r => set_num "rnti" r zero) <$> rntis) zero))) zero).

Lemma nr_release_request_parity_witness : exists bytes,
  nfapi_nr_p7_message_pack None (sample_p7_header NFAPI_UE_RELEASE_REQUEST) (sample_release [66; 67]) 65535 = Some bytes /\
  nfapi_nr_p7_message_unpack (fun _ => 1) None bytes 65535 = None.
Proof.
  apply (nr_release_request_parity (fun _ => 1) None None (sample_p7_header NFAPI_UE_RELEASE_REQUEST)
    (sample_release [66; 67]) 65535 65535).
  - reflexivity.
  - repeat split; discriminate.
  - split; [by vm_compute|]. split; [reflexivity|]. split; [by vm_compute|]. apply rows_okb_spec. vm_compute. reflexivity.
  - split; [discriminate|reflexivity].
  - discriminate.
  - vm_compute. discriminate.
Defined.
