(* ===== verification/LteP7.v ===== *)
(** * LTE P7 messages ([nfapi_p7.c])

    [nfapi_p7_message_pack] and [nfapi_p7_message_unpack]: the tables of messages
    over the bodies of [LteDownlink], [LteUplink] and [LteData], the size check of
    the latter and the synchronisation messages.  The frame is that of
    [P7Header]; sizes of C structures and the vendor's callbacks are parameters,
    as in [NrP7], and so is what lies behind the message for the unpackers that
    read TLVs up to an end they compute themselves. *)

From S2P Require Import Prelude Tags Codec Ids P7Header Layout LtePdu LteDownlink LteUplink LteData NrDownlink NrP7.
From stdpp Require Import functions strings.

Open Scope string_scope.
Open Scope list_scope.
Open Scope Z_scope.

(** ** Synchronisation and timing *)

Definition dl_node_sync : list row := [Num U32 "t1"; Num S32 "delta_sfn_sf"].
Definition ul_node_sync : list row := [Num U32 "t1"; Num U32 "t2"; Num U32 "t3"].
Definition timing_info : list row :=
  [Num U32 "last_sfn_sf"; Num U32 "time_since_last_timing_info"; Num U32 "dl_config_jitter"; Num U32 "tx_request_jitter";
   Num U32 "ul_config_jitter"; Num U32 "hi_dci0_jitter"; Num S32 "dl_config_latest_delay"; Num S32 "tx_request_latest_delay";
   Num S32 "ul_config_latest_delay"; Num S32 "hi_dci0_latest_delay"; Num S32 "dl_config_earliest_arrival";
   Num S32 "tx_request_earliest_arrival"; Num S32 "ul_config_earliest_arrival"; Num S32 "hi_dci0_earliest_arrival"].

(* src: nfapi_p7.c :: pack_dl_node_sync *)
Definition pack_dl_node_sync : struct -> packer := pack_message pack_tlv dl_node_sync [].
(* src: nfapi_p7.c :: pack_ul_node_sync *)
Definition pack_ul_node_sync : struct -> packer := pack_message pack_tlv ul_node_sync [].
(* src: nfapi_p7.c :: pack_timing_info *)
Definition pack_timing_info : struct -> packer := pack_message pack_tlv timing_info [].
(* src: nfapi_p7.c :: unpack_dl_node_sync *)
Definition unpack_dl_node_sync : struct -> list Z -> Z * struct := unpack_message unpack_p7_tlv_list dl_node_sync [].
(* src: nfapi_p7.c :: unpack_ul_node_sync *)
Definition unpack_ul_node_sync : struct -> list Z -> Z * struct := unpack_message unpack_p7_tlv_list ul_node_sync [].
(* src: nfapi_p7.c :: unpack_timing_info *)
Definition unpack_timing_info : struct -> list Z -> Z * struct := unpack_message unpack_p7_tlv_list timing_info [].

(** ** The tables *)

Section messages.
Context (sizeof : string -> Z) (behind : nat -> Z).
Context (pack_p7_vendor_extension : option (struct -> packer)).
Context (unpack_p7_vendor_extension : option (Z -> list Z -> Z * struct)).

(* src: nfapi_p7.c :: check_unpack_length *)
Definition check_unpack_length (id unpackedBufLen : Z) : Z :=
  switch
    [(NFAPI_DL_CONFIG_REQUEST, fits_in sizeof "nfapi_dl_config_request_t");
     (NFAPI_UL_CONFIG_REQUEST, fits_in sizeof "nfapi_ul_config_request_t");
     (NFAPI_SUBFRAME_INDICATION, fits_in sizeof "nfapi_subframe_indication_t");
     (NFAPI_HI_DCI0_REQUEST, fits_in sizeof "nfapi_hi_dci0_request_t");
     (NFAPI_TX_REQUEST, fits_in sizeof "nfapi_tx_request_t");
     (NFAPI_HARQ_INDICATION, fits_in sizeof "nfapi_harq_indication_t");
     (NFAPI_CRC_INDICATION, fits_in sizeof "nfapi_crc_indication_t");
     (NFAPI_RX_ULSCH_INDICATION, fits_in sizeof "nfapi_rx_indication_t");
     (NFAPI_RACH_INDICATION, fits_in sizeof "nfapi_rach_indication_t");
     (NFAPI_SRS_INDICATION, fits_in sizeof "nfapi_srs_indication_t");
     (NFAPI_RX_SR_INDICATION, fits_in sizeof "nfapi_sr_indication_t");
     (NFAPI_RX_CQI_INDICATION, fits_in sizeof "nfapi_cqi_indication_t");
     (NFAPI_LBT_DL_CONFIG_REQUEST, fits_in sizeof "nfapi_lbt_dl_config_request_t");
     (NFAPI_LBT_DL_INDICATION, fits_in sizeof "nfapi_lbt_dl_indication_t");
     (NFAPI_NB_HARQ_INDICATION, fits_in sizeof "nfapi_nb_harq_indication_t");
     (NFAPI_NRACH_INDICATION, fits_in sizeof "nfapi_nrach_indication_t");
     (NFAPI_DL_NODE_SYNC, fits_in sizeof "nfapi_dl_node_sync_t");
     (NFAPI_UL_NODE_SYNC, fits_in sizeof "nfapi_ul_node_sync_t");
     (NFAPI_TIMING_INFO, fits_in sizeof "nfapi_timing_info_t");
     (NFAPI_UE_RELEASE_REQUEST, fits_in sizeof "nfapi_ue_release_request_t");
     (NFAPI_UE_RELEASE_RESPONSE, fits_in sizeof "nfapi_ue_release_response_t")]
    (fun _ => 0) id unpackedBufLen.

(** CRC, SR and RACH indications have the same shape as the others; [LteInd] models
    the same functions on records of their own, for the clients in [Aggregate]. *)
Definition pack_p7_message_body (id : Z) (s : struct) : packer :=
  switch
    [(NFAPI_DL_CONFIG_REQUEST, pack_dl_config_request s);
     (NFAPI_UL_CONFIG_REQUEST, pack_ul_config_request s);
     (NFAPI_TX_REQUEST, pack_tx_request s);
     (NFAPI_HI_DCI0_REQUEST, pack_hi_dci0_request s);
     (NFAPI_UE_RELEASE_REQUEST, pack_ue_release_request s);
     (NFAPI_UE_RELEASE_RESPONSE, pack_ue_release_response s);
     (NFAPI_HARQ_INDICATION, pack_harq_indication s);
     (NFAPI_CRC_INDICATION,
        pack_pdu_message NFAPI_CRC_INDICATION_BODY_TAG "crc_indication_body" (pack_pdu_body pack_crc_indication_body_value) s);
     (NFAPI_RX_ULSCH_INDICATION, pack_rx_ulsch_indication s);
     (NFAPI_RACH_INDICATION,
        pack_pdu_message NFAPI_RACH_INDICATION_BODY_TAG "rach_indication_body" (pack_pdu_body pack_rach_indication_body_value) s);
     (NFAPI_SRS_INDICATION, pack_srs_indication s);
     (NFAPI_RX_SR_INDICATION,
        pack_pdu_message NFAPI_SR_INDICATION_BODY_TAG "sr_indication_body" (pack_pdu_body pack_sr_indication_body_value) s);
     (NFAPI_RX_CQI_INDICATION, pack_cqi_indication s);
     (NFAPI_LBT_DL_CONFIG_REQUEST, pack_lbt_dl_config_request s);
     (NFAPI_LBT_DL_INDICATION, pack_lbt_dl_indication s);
     (NFAPI_NB_HARQ_INDICATION, pack_nb_harq_indication s);
     (NFAPI_NRACH_INDICATION, pack_nrach_indication s);
     (NFAPI_DL_NODE_SYNC, pack_dl_node_sync s);
     (NFAPI_UL_NODE_SYNC, pack_ul_node_sync s);
     (NFAPI_TIMING_INFO, pack_timing_info s)]
    (if is_vendor_extension id then
       match pack_p7_vendor_extension with Some fn => fn s | None => pack_fail end
     else pack_fail) id.

Definition unpack_p7_message_body (id unpackedBufLen : Z) (l : list Z) : Z * struct :=
  let checked (u : struct -> list Z -> Z * struct) :=
    if check_unpack_length id unpackedBufLen =? 0 then (0, zero) else u zero l in
  switch
    [(NFAPI_DL_CONFIG_REQUEST, checked unpack_dl_config_request);
     (NFAPI_UL_CONFIG_REQUEST, checked unpack_ul_config_request);
     (NFAPI_TX_REQUEST, checked (run unpack_tx_request));
     (NFAPI_HI_DCI0_REQUEST, checked unpack_hi_dci0_request);
     (NFAPI_UE_RELEASE_REQUEST, checked (run unpack_ue_release_request));
     (NFAPI_HARQ_INDICATION, checked (unpack_harq_indication behind));
     (NFAPI_CRC_INDICATION, checked
        (unpack_pdu_message NFAPI_CRC_INDICATION_BODY_TAG "crc_indication_body"
          (unpack_pdu_body behind unpack_crc_indication_body_value)));
     (NFAPI_RX_ULSCH_INDICATION, checked unpack_rx_indication);
     (NFAPI_RACH_INDICATION, checked
        (unpack_pdu_message NFAPI_RACH_INDICATION_BODY_TAG "rach_indication_body"
          (unpack_pdu_body behind unpack_rach_indication_body_value)));
     (NFAPI_SRS_INDICATION, checked (unpack_srs_indication behind));
     (NFAPI_RX_SR_INDICATION, checked
        (unpack_pdu_message NFAPI_SR_INDICATION_BODY_TAG "sr_indication_body"
          (unpack_pdu_body behind unpack_sr_indication_body_value)));
     (NFAPI_RX_CQI_INDICATION, checked unpack_cqi_indication);
     (NFAPI_LBT_DL_CONFIG_REQUEST, checked unpack_lbt_dl_config_request);
     (NFAPI_LBT_DL_INDICATION, checked unpack_lbt_dl_indication);
     (NFAPI_NB_HARQ_INDICATION, checked (unpack_nb_harq_indication behind));
     (NFAPI_NRACH_INDICATION, checked (unpack_nrach_indication behind));
     (NFAPI_DL_NODE_SYNC, checked unpack_dl_node_sync);
     (NFAPI_UL_NODE_SYNC, checked unpack_ul_node_sync);
     (NFAPI_TIMING_INFO, checked unpack_timing_info);
     (NFAPI_UE_RELEASE_RESPONSE, checked (run_rows unpack_ue_release_resp))]
    (if is_vendor_extension id then
       match unpack_p7_vendor_extension with Some fn => fn id l | None => (0, zero) end
     else (0, zero)) id.

(* src: nfapi_p7.c :: nfapi_p7_message_pack *)
Definition nfapi_p7_message_pack (h : nfapi_p7_message_header_t) (s : struct) (packedBufLen : Z) : option (list Z) :=
  p7_frame_pack h (pack_p7_message_body (message_id h) s) packedBufLen.
(* src: nfapi_p7.c :: nfapi_p7_message_unpack *)
Definition nfapi_p7_message_unpack (msg : list Z) (unpackedBufLen : Z) : option (nfapi_p7_message_header_t * struct) :=
  p7_frame_unpack (fun h => unpack_p7_message_body (message_id h) unpackedBufLen) msg unpackedBufLen.
End messages.

(** ** Every message round-trips

    For each message: which structures may be sent, the bytes and what the receiver
    finds.  The messages of two tables are described by the tables, the others by
    the functions of their file. *)

Record lte_codec := LteCodec { lc_ok : struct -> Prop; lc_bytes : struct -> list Z; lc_copy : struct -> struct }.

Definition body_codec (tag : Z) (f : string) (ok : struct -> Prop) (bs : struct -> list Z) (copy : struct -> struct -> struct) : lte_codec :=
  LteCodec (fun s => message_fits tag f (bs (member s f)) s /\ ok (member s f))
    (fun s => message_bytes tag (bs (member s f)) s)
    (fun s => message_copy f (copy (member s f) (fresh_body tag (bs (member s f)))) s).
Definition pdu_codec (tag : Z) (f : string) (pb : pbody) (ub : ubody) : lte_codec :=
  body_codec tag f (body_ok pb ub) (body_bytes pb ub) (body_copy pb ub).
Definition rows_codec (rows : list row) : lte_codec :=
  LteCodec (rows_ok [] rows) (rows_bytes [] rows) (fun s => rows_copy [] rows s zero).

Definition lte_p7_codecs : list (Z * lte_codec) :=
  [(NFAPI_DL_CONFIG_REQUEST, pdu_codec NFAPI_DL_CONFIG_REQUEST_BODY_TAG "dl_config_request_body"
      pack_dl_config_request_body_value unpack_dl_config_request_body_value);
   (NFAPI_UL_CONFIG_REQUEST, pdu_codec NFAPI_UL_CONFIG_REQUEST_BODY_TAG "ul_config_request_body"
      pack_ul_config_request_body_value unpack_ul_config_request_body_value);
   (NFAPI_TX_REQUEST, body_codec NFAPI_TX_REQUEST_BODY_TAG "tx_request_body" tx_body_ok tx_body_bytes tx_body_copy);
   (NFAPI_HI_DCI0_REQUEST, pdu_codec NFAPI_HI_DCI0_REQUEST_BODY_TAG "hi_dci0_request_body"
      pack_hi_dci0_request_body_value unpack_hi_dci0_request_body_value);
   (NFAPI_UE_RELEASE_REQUEST, body_codec NFAPI_UE_RELEASE_BODY_TAG "ue_release_request_body"
      (rows_ok [] pack_release_request_body_value) (rows_bytes [] pack_release_request_body_value)
      (rows_copy [] pack_release_request_body_value));
   (NFAPI_UE_RELEASE_RESPONSE, rows_codec unpack_ue_release_resp);
   (NFAPI_HARQ_INDICATION, pdu_codec NFAPI_HARQ_INDICATION_BODY_TAG "harq_indication_body"
      pack_harq_indication_body_value unpack_harq_indication_body_value);
   (NFAPI_CRC_INDICATION, pdu_codec NFAPI_CRC_INDICATION_BODY_TAG "crc_indication_body"
      pack_crc_indication_body_value unpack_crc_indication_body_value);
   (NFAPI_RX_ULSCH_INDICATION, body_codec NFAPI_RX_INDICATION_BODY_TAG "rx_indication_body"
      (fun b => rx_body_ok (prepare_rx_ulsch_indication_body b)) (fun b => rx_body_bytes (prepare_rx_ulsch_indication_body b))
      (fun b => rx_body_copy (prepare_rx_ulsch_indication_body b)));
   (NFAPI_RACH_INDICATION, pdu_codec NFAPI_RACH_INDICATION_BODY_TAG "rach_indication_body"
      pack_rach_indication_body_value unpack_rach_indication_body_value);
   (NFAPI_SRS_INDICATION, pdu_codec NFAPI_SRS_INDICATION_BODY_TAG "srs_indication_body"
      pack_srs_indication_body_value unpack_srs_indication_body_value);
   (NFAPI_RX_SR_INDICATION, pdu_codec NFAPI_SR_INDICATION_BODY_TAG "sr_indication_body"
      pack_sr_indication_body_value unpack_sr_indication_body_value);
   (NFAPI_RX_CQI_INDICATION, body_codec NFAPI_CQI_INDICATION_BODY_TAG "cqi_indication_body"
      (fun b => cqi_body_ok (prepare_cqi_indication_body b)) (fun b => cqi_body_bytes (prepare_cqi_indication_body b))
      (fun b => cqi_body_copy (prepare_cqi_indication_body b)));
   (NFAPI_LBT_DL_CONFIG_REQUEST, pdu_codec NFAPI_LBT_DL_CONFIG_REQUEST_BODY_TAG "lbt_dl_config_request_body"
      pack_lbt_dl_config_request_body_value unpack_lbt_config_request_body_value);
   (NFAPI_LBT_DL_INDICATION, pdu_codec NFAPI_LBT_DL_INDICATION_BODY_TAG "lbt_dl_indication_body"
      pack_lbt_dl_config_indication_value unpack_lbt_indication_body_value);
   (NFAPI_NB_HARQ_INDICATION, pdu_codec NFAPI_NB_HARQ_INDICATION_BODY_TAG "nb_harq_indication_body"
      pack_nb_harq_indication_body_value unpack_nb_harq_indication_body_value);
   (NFAPI_NRACH_INDICATION, pdu_codec NFAPI_NRACH_INDICATION_BODY_TAG "nrach_indication_body"
      pack_nrach_indication_body_value unpack_nrach_indication_body_value);
   (NFAPI_DL_NODE_SYNC, rows_codec dl_node_sync);
   (NFAPI_UL_NODE_SYNC, rows_codec ul_node_sync);
   (NFAPI_TIMING_INFO, rows_codec timing_info)].

Definition lte_tables : list (pbody * ubody) :=
  [(pack_dl_config_request_body_value, unpack_dl_config_request_body_value);
   (pack_ul_config_request_body_value, unpack_ul_config_request_body_value);
   (pack_hi_dci0_request_body_value, unpack_hi_dci0_request_body_value);
   (pack_harq_indication_body_value, unpack_harq_indication_body_value);
   (pack_crc_indication_body_value, unpack_crc_indication_body_value);
   (pack_rach_indication_body_value, unpack_rach_indication_body_value);
   (pack_srs_indication_body_value, unpack_srs_indication_body_value);
   (pack_sr_indication_body_value, unpack_sr_indication_body_value);
   (pack_lbt_dl_config_request_body_value, unpack_lbt_config_request_body_value);
   (pack_lbt_dl_config_indication_value, unpack_lbt_indication_body_value);
   (pack_nb_harq_indication_body_value, unpack_nb_harq_indication_body_value);
   (pack_nrach_indication_body_value, unpack_nrach_indication_body_value)].
Lemma lte_tables_checked : forallb (fun t => body_wf (fst t) (snd t)) lte_tables = true.
Proof. vm_compute. reflexivity. Qed.
Lemma lte_table_wf pb ub : In (pb, ub) lte_tables -> body_wf pb ub = true.
Proof. intros H. exact (proj1 (forallb_forall _ _) lte_tables_checked _ H). Qed.

Lemma writes_ret_all tag f body s bs :
  writes (pack_pdu_message_all tag f body s) bs -> writes (ret_u8 (pack_pdu_message_all tag f body s)) bs.
Proof.
  apply writes_ext. intros w. unfold ret_u8, pack_pdu_message_all. destruct (push16 _ w) as [x w1].
  destruct (pack_tlv _ _ _ w1) as [y w2]. destruct (pack_p7_vendor_extension_tlv None w2) as [z w3]. by destruct (_ && _ && _).
Qed.

Lemma body_codec_writes tag f ok bs copy body s : in_u16 tag -> (forall b, ok b -> writes (body b) (bs b)) ->
  lc_ok (body_codec tag f ok bs copy) s -> writes (ret_u8 (pack_pdu_message tag f body s)) (lc_bytes (body_codec tag f ok bs copy) s).
Proof. intros Ht Hb [Hf Hok]. apply writes_ret_u8, message_writes; auto. Qed.
Lemma body_codec_writes_all tag f ok bs copy body s : in_u16 tag -> (forall b, ok b -> writes (body b) (bs b)) ->
  lc_ok (body_codec tag f ok bs copy) s -> writes (ret_u8 (pack_pdu_message_all tag f body s)) (lc_bytes (body_codec tag f ok bs copy) s).
Proof. intros Ht Hb [Hf Hok]. apply writes_ret_all, message_all_writes; auto. Qed.
Lemma rows_codec_writes rows s : rows_sim rows rows = true -> rows_wf [[]] rows = true ->
  lc_ok (rows_codec rows) s -> writes (ret_u8 (pack_message pack_tlv rows [] s)) (lc_bytes (rows_codec rows) s).
Proof. intros Hs Hw Hok. apply writes_ret_u8, writes_bare_message, rows_write; [done|done|by apply rows_ok_room|done]. Qed.

Lemma body_codec_reads tag f ok bs copy body s : in_u16 tag ->
  (forall b, ok b -> body (fresh_body tag (bs b)) (bs b ++ []) = inr (copy b (fresh_body tag (bs b)), [])) ->
  lc_ok (body_codec tag f ok bs copy) s ->
  unpack_pdu_message tag f body zero (lc_bytes (body_codec tag f ok bs copy) s) = (1, lc_copy (body_codec tag f ok bs copy) s).
Proof. intros Ht Hb [Hf Hok]. apply message_reads; auto. Qed.
Lemma loop_codec_reads tag f ok bs copy body s : in_u16 tag ->
  (forall b, ok b -> body (fresh_body tag (bs b)) (bs b ++ []) = inr (copy b (fresh_body tag (bs b)), [])) ->
  lc_ok (body_codec tag f ok bs copy) s ->
  run (unpack_body_loop tag f body) zero (lc_bytes (body_codec tag f ok bs copy) s) = (1, lc_copy (body_codec tag f ok bs copy) s).
Proof. intros Ht Hb [Hf Hok]. unfold run. cbn [lc_bytes lc_copy body_codec]. erewrite (body_loop_reads tag f body); auto. Qed.
Lemma rows_codec_reads rows s : rows_wf [[]] rows = true -> lc_ok (rows_codec rows) s ->
  unpack_rows [] rows zero (lc_bytes (rows_codec rows) s) = inr (lc_copy (rows_codec rows) s, []).
Proof. intros Hw Hok. pose proof (rows_read rows s zero Hw Hok []) as H. by rewrite app_nil_r in H. Qed.

Lemma message_read_p7 us s bs s' : unpack_rows [] us s bs = inr (s', []) -> unpack_message unpack_p7_tlv_list us [] s bs = (1, s').
Proof. unfold unpack_message. by intros ->. Qed.

Ltac case_lte H :=
  repeat first [ apply elem_of_nil in H; contradiction
               | apply elem_of_cons in H; destruct H as [H|H]; [injection H as -> ->|] ].

Lemma lte_p7_packs vp id c s : (id, c) ∈ lte_p7_codecs -> lc_ok c s -> writes (ret_u8 (pack_p7_message_body vp id s)) (lc_bytes c s).
Proof.
  unfold lte_p7_codecs. intros H Hok. case_lte H.
  6: { eapply writes_release_response, (rows_write _ unpack_ue_release_resp);
         [vm_compute; reflexivity..|apply (rows_ok_room unpack_ue_release_resp)|]; exact Hok. }
  17-19: refine (rows_codec_writes _ s _ _ Hok); vm_compute; reflexivity.
  1,3,5: refine (body_codec_writes_all _ _ _ _ _ _ s _ _ Hok); [done|].
  4-16: refine (body_codec_writes _ _ _ _ _ _ s _ _ Hok); [done|].
  all: intros b Hb.
  all: lazymatch goal with
    | |- writes (pack_pdu_body ?pb _) (body_bytes _ ?ub _) => apply (body_writes pb ub); [apply lte_table_wf; unfold lte_tables; cbn [In]; tauto|exact Hb]
    | |- writes _ (tx_body_bytes _) => exact (tx_body_writes _ Hb)
    | |- writes _ (rx_body_bytes _) => exact (rx_body_writes _ Hb)
    | |- writes _ (cqi_body_bytes _) => exact (cqi_body_writes _ Hb)
    | |- _ => apply (rows_write _ pack_release_request_body_value); [vm_compute; reflexivity..|by apply rows_ok_room|exact Hb]
    end.
Qed.

Lemma lte_p7_unpacks sizeof behind vu id c s size : (id, c) ∈ lte_p7_codecs -> lc_ok c s ->
  check_unpack_length sizeof id size <> 0 ->
  unpack_p7_message_body sizeof behind vu id size (lc_bytes c s) = (1, lc_copy c s).
Proof.
  intros H Hok Hc. unfold unpack_p7_message_body. apply Z.eqb_neq in Hc. rewrite Hc. clear Hc.
  unfold lte_p7_codecs in H. case_lte H.
  18-20: refine (message_read_p7 _ _ _ _ (rows_codec_reads _ s _ Hok)); vm_compute; reflexivity.
  6: refine (run_rows_read _ _ _ _ (rows_codec_reads _ s _ Hok)); vm_compute; reflexivity.
  all: lazymatch type of Hok with
    | lc_ok (body_codec NFAPI_TX_REQUEST_BODY_TAG _ _ _ _) _ => refine (loop_codec_reads _ _ _ _ _ _ s _ _ Hok)
    | lc_ok (body_codec NFAPI_UE_RELEASE_BODY_TAG _ _ _ _) _ => refine (loop_codec_reads _ _ _ _ _ _ s _ _ Hok)
    | _ => refine (body_codec_reads _ _ _ _ _ _ s _ _ Hok)
    end; [done|].
  all: intros b Hb.
  all: lazymatch goal with
    | |- unpack_pdu_body ?bh ?ub _ (body_bytes ?pb _ _ ++ _) = _ =>
        apply (body_reads bh pb ub); [apply lte_table_wf; unfold lte_tables; cbn [In]; tauto|exact Hb]
    | |- _ _ (tx_body_bytes _ ++ _) = _ => exact (tx_body_reads _ _ Hb [])
    | |- _ _ (rx_body_bytes _ ++ _) = _ => exact (rx_body_reads _ _ _ Hb)
    | |- _ _ (cqi_body_bytes _ ++ _) = _ => exact (cqi_body_reads _ _ _ Hb)
    | |- _ => exact (rows_read pack_release_request_body_value b _ ltac:(vm_compute; reflexivity) Hb [])
    end.
Qed.

(** C21. An LTE message of P7 whose structure may be sent ([lc_ok]: members in range,
    counts within the arrays of both sides, PDUs of known types and short enough for
    their size field) and that fits the buffer and 65535 bytes is packed and
    unpacked again: the unpacked header is the sender's with the length filled in,
    the body has the members the packer wrote, with the real lengths of the TLVs
    and of the PDUs, the offsets the packer computed and each PDU of a TX request
    in one segment. *)
Theorem lte_p7_roundtrip sizeof behind vp vu id c h s buflen size :
  (id, c) ∈ lte_p7_codecs -> message_id h = id -> header_ok h -> lc_ok c s ->
  16 + zlen (lc_bytes c s) <= 65535 -> 16 + zlen (lc_bytes c s) <= buflen < 4294967296 ->
  16 <= size -> check_unpack_length sizeof id size <> 0 ->
  exists bytes, nfapi_p7_message_pack vp h s buflen = Some bytes /\
    nfapi_p7_message_unpack sizeof behind vu bytes size =
      Some (P7Header (phy_id h) id (zlen bytes) (m_segment_sequence h) 0 (transmit_timestamp h), lc_copy c s).
Proof.
  intros Hin <- Hh Hok H16 Hbuf Hs Hc. pose proof (lte_p7_packs vp _ _ _ Hin Hok) as Hw.
  pose proof (lte_p7_unpacks sizeof behind vu _ _ _ size Hin Hok Hc) as Hu.
  unfold nfapi_p7_message_pack, nfapi_p7_message_unpack.
  rewrite (p7_frame_pack_ok _ _ _ _ Hh Hw) by lia.
  eexists. split; [reflexivity|]. destruct Hh as (? & ? & ? & ? & ? & ?). pose proof (zlen_nonneg (lc_bytes c s)).
  rewrite p7_frame_unpack_ok; [|unfold header_ok; cbn; repeat split; wrap_lia|cbn; lia|done].
  cbn [message_id]. rewrite Hu. cbn [Z.eqb]. do 3 f_equal. by autorewrite with zlen.
Qed.

(** A DL_CONFIG request with a DCI, the TLVs of releases 8 and 12, and a BCH PDU
    without data. *)
Definition with_tag (tag : Z) (s : struct) : struct := set_tl (Tl tag 0) s.
Definition sample_dl_config : struct :=
  set_num "sfn_sf" 0x1234 (set_member "dl_config_request_body" (with_tag NFAPI_DL_CONFIG_REQUEST_BODY_TAG
    (set_num "number_pdcch_ofdm_symbols" 3 (set_num "number_dci" 1 (set_num "number_pdu" 2 (set_sub "dl_config_pdu_list"
      [set_num "pdu_type" NFAPI_DL_CONFIG_DCI_DL_PDU_TYPE
         (set_member "dci_dl_pdu.dci_dl_pdu_rel8" (with_tag NFAPI_DL_CONFIG_REQUEST_DCI_DL_PDU_REL8_TAG
            (set_num "rnti" 0x4321 (set_num "resource_block_coding" 0xABCDEF01 zero)))
         (set_member "dci_dl_pdu.dci_dl_pdu_rel12" (with_tag NFAPI_DL_CONFIG_REQUEST_DCI_DL_PDU_REL12_TAG
            (set_num "number_ul_dl_configurations" 3 (set_arr "ul_dl_configuration_indication" [4; 5; 6; 0; 0] zero))) zero));
       set_num "pdu_type" NFAPI_DL_CONFIG_BCH_PDU_TYPE
         (set_member "bch_pdu.bch_pdu_rel8" (with_tag NFAPI_DL_CONFIG_REQUEST_BCH_PDU_REL8_TAG
            (set_num "length" 3 (set_num "pdu_index" (-1) zero))) zero)] zero))))) zero).

Lemma lte_p7_roundtrip_witness :
  let c := pdu_codec NFAPI_DL_CONFIG_REQUEST_BODY_TAG "dl_config_request_body"
    pack_dl_config_request_body_value unpack_dl_config_request_body_value in
  exists bytes,
  nfapi_p7_message_pack None (sample_p7_header NFAPI_DL_CONFIG_REQUEST) sample_dl_config 65535 = Some bytes /\
  nfapi_p7_message_unpack (fun _ => 1) (fun _ => 0) None bytes 65535 =
    Some (P7Header 3 NFAPI_DL_CONFIG_REQUEST (zlen bytes) (mss false 0 9) 0 77, lc_copy c sample_dl_config).
Proof.
  cbv zeta. apply (lte_p7_roundtrip (fun _ => 1) (fun _ => 0) None None NFAPI_DL_CONFIG_REQUEST _
    (sample_p7_header NFAPI_DL_CONFIG_REQUEST) sample_dl_config 65535 65535).
  - apply list_elem_of_here.
  - reflexivity.
  - repeat split; discriminate.
  - apply (pdu_message_okb_spec NFAPI_DL_CONFIG_REQUEST_BODY_TAG "dl_config_request_body"
      pack_dl_config_request_body_value unpack_dl_config_request_body_value). vm_compute. reflexivity.
  - vm_compute. discriminate.
  - vm_compute. split; [discriminate|reflexivity].
  - discriminate.
  - vm_compute. discriminate.
Defined.

(** The same for the messages with data: what is sent and what the receiver finds. *)
Definition exchange (id : Z) (s : struct) : option struct :=
  bytes ← nfapi_p7_message_pack None (sample_p7_header id) s 65535;
  snd <$> nfapi_p7_message_unpack (fun _ => 1) (fun _ => 0) None bytes 65535.

Definition sample_tx : struct :=
  set_member "tx_request_body" (with_tag NFAPI_TX_REQUEST_BODY_TAG (set_num "number_of_pdus" 1 (set_sub "tx_pdu_list"
    [set_num "pdu_length" 5 (set_num "pdu_index" (-1) (set_num "num_segments" 2 (set_sub "segments"
       [set_num "segment_length" 3 (set_arr "segment_data" [1; 2; 3; 99] zero);
        set_num "segment_length" 2 (set_arr "segment_data" [4; 5] zero)] zero)))] zero))) zero.
Example tx_segments_joined :
  (fun s => (fun p => (num p "pdu_index", num p "num_segments", (fun g => arr g "segment_data") <$> sub p "segments")) <$>
    sub (member s "tx_request_body") "tx_pdu_list") <$> exchange NFAPI_TX_REQUEST sample_tx = Some [(-1, 1, [[1; 2; 3; 4; 5]])].
Proof. vm_compute. reflexivity. Qed.

Definition sample_rx_pdu (bs : list Z) : struct :=
  set_member "rx_ue_information" (with_tag NFAPI_RX_UE_INFORMATION_TAG (set_num "rnti" 0x4321 zero))
    (set_member "rx_indication_rel8" (with_tag NFAPI_RX_INDICATION_REL8_TAG (set_num "length" (zlen bs) (set_num "offset" 1 zero)))
    (set_member "rx_indication_rel9" (with_tag NFAPI_RX_INDICATION_REL9_TAG zero) (set_arr "rx_ind_data" bs zero))).
Definition sample_rx (pdus : list struct) : struct :=
  set_member "rx_indication_body" (with_tag NFAPI_RX_INDICATION_BODY_TAG
    (set_num "number_of_pdus" (zlen pdus) (set_sub "rx_pdu_list" pdus zero))) zero.
(** The offsets are from the start of the body's value: 2 bytes and 27 per PDU. *)
Example rx_offsets :
  (fun s => (fun p => (num (member p "rx_indication_rel8") "offset", arr p "rx_ind_data")) <$>
    sub (member s "rx_indication_body") "rx_pdu_list") <$>
    exchange NFAPI_RX_ULSCH_INDICATION (sample_rx [sample_rx_pdu [7; 8; 9]; sample_rx_pdu [5]]) =
  Some [(56, [7; 8; 9]); (59, [5])].
Proof. vm_compute. reflexivity. Qed.
(** A PDU without the TLV of release 9 is packed but not accepted. *)
Example rx_without_rel9 :
  exchange NFAPI_RX_ULSCH_INDICATION (sample_rx [set_member "rx_indication_rel9" zero (sample_rx_pdu [7])]) = None.
Proof. vm_compute. reflexivity. Qed.

Definition sample_cqi : struct :=
  set_member "cqi_indication_body" (with_tag NFAPI_CQI_INDICATION_BODY_TAG (set_num "number_of_cqis" 1
    (set_sub "cqi_pdu_list"
      [set_member "rx_ue_information" (with_tag NFAPI_RX_UE_INFORMATION_TAG (set_num "rnti" 0x4321 zero))
        (set_member "cqi_indication_rel9" (with_tag NFAPI_CQI_INDICATION_REL9_TAG
          (set_num "length" 2 (set_num "number_of_cc_reported" 1 (set_arr "ri" [3] zero)))) zero)]
      (set_sub "cqi_raw_pdu_list" [set_arr "pdu" [0xAB; 0xCD; 0; 0] zero] zero)))) zero.
Example cqi_raw_data :
  (fun s => ((fun p => (num p "instance_length", arr (member p "cqi_indication_rel9") "ri")) <$> sub (member s "cqi_indication_body") "cqi_pdu_list",
    (fun p => arr p "pdu") <$> sub (member s "cqi_indication_body") "cqi_raw_pdu_list")) <$> exchange NFAPI_RX_CQI_INDICATION sample_cqi =
  Some ([(25, [3])], [[0xAB; 0xCD]]).
Proof. vm_compute. reflexivity. Qed.
