(* ===== verification/TlvLoop.v ===== *)
(** * The loop over the TLVs of a message

    The four [unpack_*_tlv_list] are a [while] loop over the TLVs with a [for]
    loop over the table inside.  [Codec] computes them with fuel.  Here one
    execution of the body of the [while] loop is a function of its own, runs of
    the loop are sequences of executions, and the theorem is that every run
    ends, after at most one execution for every four bytes and a last one, with
    what the computation with fuel yields.  What is needed of the entries of
    the table and of the vendor's callback is that they do not move the read
    pointer back; the entries made of rows do not ([layout_forward]). *)

From S2P Require Import Prelude Tags Codec LteInd Layout.

Open Scope string_scope.
Open Scope list_scope.
Open Scope Z_scope.

(** ** One execution of the body *)

Section tlv_round.
#[local] Set Default Proof Using "Type*".
Context {M : Type} (pad : Z -> Z) (too_many : Z) (fns : list (unpack_tlv_t M)) (ve : option ve_unpack).

(** The loop's variables: the number of bad tags, the message, the read pointer. *)
Definition loop_state : Type := Z * M * list Z.
(** The value returned, the message, the read pointer. *)
Definition loop_result : Type := Z * M * list Z.

(** A TLV that nobody knows is counted and skipped. *)
(* src: nfapi.c 707-725 unpack_tlv_list *)
Definition bad_tag (generic_tl : nfapi_tl_t) (numBadTags : Z) (msg : M) (l : list Z) : loop_result + loop_state :=
  if MAX_BAD_TAG <? u8 (numBadTags + 1) then inl (too_many, msg, l)
  else if tl_length generic_tl <=? zlen l then
    inr (u8 (numBadTags + 1), msg, drop (Z.to_nat (tl_length generic_tl + pad (tl_length generic_tl))) l)
  else inl (0, msg, l).

(** The condition of the loop and its body: the loop returns, or goes on. *)
(* src: nfapi.c 653-726 unpack_tlv_list *)
Definition tlv_round (st : loop_state) : loop_result + loop_state :=
  let '(numBadTags, msg, l) := st in
  if zlen l =? 0 then inl (1, msg, l)
  else match unpack_tl l with
  | None => inl (0, msg, l)
  | Some (generic_tl, l) =>
    match try_entries pad fns generic_tl false msg l with
    | inl (msg, l) => inl (0, msg, l)
    | inr (true, msg, l) => inr (numBadTags, msg, l)
    | inr (false, msg, l) =>
      if (NFAPI_VENDOR_EXTENSION_MIN_TAG_VALUE <=? tl_tag generic_tl)
         && (tl_tag generic_tl <=? NFAPI_VENDOR_EXTENSION_MAX_TAG_VALUE)
      then
        let '(result, l) := unpack_vendor_extension_tlv ve generic_tl l in
        if result =? 0 then inl (0, msg, l)
        else if result <? 0 then bad_tag generic_tl numBadTags msg l
        else inr (numBadTags, msg, l)
      else bad_tag generic_tl numBadTags msg l
    end
  end.

(** The loop goes on from one state to another; it has ended with a result. *)
Definition goes_on (st st' : loop_state) : Prop := tlv_round st = inr st'.
Definition ends (st : loop_state) (r : loop_result) : Prop := tlv_round st = inl r.

Lemma tlv_loop_round fuel n msg l :
  tlv_loop (S fuel) pad too_many fns ve n msg l =
  match tlv_round (n, msg, l) with
  | inl r => r
  | inr (n, msg, l) => tlv_loop fuel pad too_many fns ve n msg l
  end.
Proof.
  cbn [tlv_loop tlv_round]. destruct (zlen l =? 0); [done|]. destruct (unpack_tl l) as [[tl l1]|]; [|done].
  destruct (try_entries pad fns tl false msg l1) as [[msg2 l2]|[[[] msg2] l2]]; [done|done|].
  assert (forall l3, match bad_tag tl n msg2 l3 with
      | inl r => r | inr (n, msg, l) => tlv_loop fuel pad too_many fns ve n msg l end =
    (if MAX_BAD_TAG <? u8 (n + 1) then (too_many, msg2, l3)
     else if tl_length tl <=? zlen l3 then
       tlv_loop fuel pad too_many fns ve (u8 (n + 1)) msg2 (drop (Z.to_nat (tl_length tl + pad (tl_length tl))) l3)
     else (0, msg2, l3))) as Hbad.
  { intros l3. unfold bad_tag. destruct (MAX_BAD_TAG <? _); [done|]. by destruct (_ <=? _). }
  destruct (_ && _); [|by rewrite Hbad].
  destruct (unpack_vendor_extension_tlv ve tl l2) as [res l3].
  destruct (res =? 0); [done|]. destruct (res <? 0); [by rewrite Hbad|done].
Qed.

Context (Hpad : forall n, 0 <= pad n) (Hfwd : forward fns ve).

(** Going on takes the four bytes of a TL at least. *)
Lemma round_reads n msg l n' msg' l' :
  goes_on (n, msg, l) (n', msg', l') -> (length l' + 4 <= length l)%nat.
Proof.
  unfold goes_on, tlv_round. destruct Hfwd as [Hf Hve]. destruct (zlen l =? 0); [done|].
  destruct (unpack_tl l) as [[tl l1]|] eqn:El; [|done]. apply unpack_tl_length in El.
  destruct (try_entries pad fns tl false msg l1) as [[msg2 l2]|[[b msg2] l2]] eqn:Et; [done|].
  apply (try_entries_forward pad [] Hpad) in Et; [|done].
  assert (forall l3, (length l3 <= length l2)%nat -> bad_tag tl n msg2 l3 = inr (n', msg', l') ->
    (length l' + 4 <= length l)%nat) as Hbad.
  { intros l3 H3. unfold bad_tag. destruct (_ <? _); [done|]. destruct (_ <=? _); [|done].
    intros [= <- <- <-]. rewrite length_drop. lia. }
  destruct b; [intros [= <- <- <-]; lia|]. destruct (_ && _); [|by apply Hbad].
  assert (length (snd (unpack_vendor_extension_tlv ve tl l2)) <= length l2)%nat as Hv.
  { destruct ve as [fn|]; [by apply (Hve fn)|done]. }
  destruct (unpack_vendor_extension_tlv ve tl l2) as [res l3]. cbn [snd] in Hv.
  destruct (res =? 0); [done|]. destruct (res <? 0); [by apply Hbad|]. intros [= <- <- <-]. lia.
Qed.

Lemma loop_terminates n msg l : exists k st,
  nsteps goes_on k (n, msg, l) st /\ ends st (tlv_loop (tlv_fuel l) pad too_many fns ve n msg l) /\
  4 * Z.of_nat k <= zlen l.
Proof.
  unfold tlv_fuel. remember (length l) as m eqn:Hm. revert n msg l Hm.
  induction (lt_wf m) as [m _ IH]. intros n msg l ->. rewrite tlv_loop_round.
  destruct (tlv_round (n, msg, l)) as [r|[[n' msg'] l']] eqn:E.
  - exists 0%nat, (n, msg, l). split_and!; [constructor|done|]. pose proof (zlen_nonneg l). lia.
  - pose proof (round_reads _ _ _ _ _ _ E) as Hr.
    destruct (IH (length l') ltac:(lia) n' msg' l' eq_refl) as (k & st & Hk & He & Hb).
    exists (S k), st. split_and!; [by econstructor| |unfold zlen in *; lia].
    by rewrite (tlv_loop_fuel pad too_many fns ve Hpad (length l)) by (done || lia).
Qed.

End tlv_round.

(** Runs are deterministic: one that has ended is the only one. *)
Lemma run_unique {M} pad tm (fns : list (unpack_tlv_t M)) ve k k' st st1 st2 r r' :
  nsteps (goes_on pad tm fns ve) k st st1 -> ends pad tm fns ve st1 r ->
  nsteps (goes_on pad tm fns ve) k' st st2 -> ends pad tm fns ve st2 r' -> k = k' /\ r = r'.
Proof.
  unfold ends, goes_on. intros H Hr. revert k'. induction H as [st|k st st' st1 Hs _ IH]; intros k' H' Hr'.
  - inversion H'; subst; [split; congruence|congruence].
  - inversion H' as [|k2 ? st2' ? Hs' Hn]; subst; [congruence|].
    rewrite Hs in Hs'. injection Hs' as <-. destruct (IH Hr k2 Hn Hr') as [-> ->]. done.
Qed.

(** ** Entries made of rows *)

(** What a reader leaves is what it was given, without a front part. *)
Definition advances {A} (u : reader A) : Prop := forall l v l', u l = Some (v, l') -> (length l' <= length l)%nat.

Lemma advances_bind {A B} (u : reader A) (k : A -> reader B) :
  advances u -> (forall v, advances (k v)) -> advances (v ← u; k v).
Proof.
  intros Hu Hk l v l'. unfold mbind, reader_bind. destruct (u l) as [[x l1]|] eqn:E; [|done].
  intros H%Hk. apply Hu in E. lia.
Qed.
Lemma advances_ret {A} (v : A) : advances (mret v).
Proof. intros l w l' [= <- <-]. done. Qed.

Lemma advances_number t : advances (pull_as t).
Proof.
  intros l v l'. unfold pull_as. destruct t; cbn; unfold pull8, pulls8, pull16, pulls16, pull32, pulls32;
    repeat (destruct l as [|? l]; [done|]); intros [= <- <-]; cbn; lia.
Qed.

Lemma advances_pull_all {A} (u : reader A) n : advances u -> advances (pull_all u n).
Proof.
  intros Hu. induction n as [|n IH]; [apply advances_ret|]. cbn [pull_all].
  apply advances_bind; [done|]. intros v. apply advances_bind; [done|]. intros vs. apply advances_ret.
Qed.

Lemma advances_array_gen size (pull : reader Z) max len : advances pull -> advances (pullarray_gen size pull max len).
Proof.
  intros Hp l v l'. unfold pullarray_gen. repeat case_match; try done; [by intros [= <- <-]|]. by apply advances_pull_all.
Qed.

Lemma advances_array8 max len : advances (pullarray8 max len).
Proof.
  intros l v l'. unfold pullarray8. repeat case_match; try done; intros [= <- <-]; [done|]. rewrite length_drop. lia.
Qed.

Lemma advances_array t max len : advances (pullarray_as t max len).
Proof.
  destruct t; cbn [pullarray_as]; [apply advances_array8| |apply advances_array_gen; apply (advances_number U16)
    |apply advances_array_gen; apply (advances_number S16)|apply advances_array_gen; apply (advances_number U32)
    |apply advances_array_gen; apply (advances_number S32)].
  apply advances_bind; [apply advances_array8|]. intros. apply advances_ret.
Qed.

Lemma advances_dci payload bits : advances (unpack_dci_payload payload bits).
Proof. apply advances_bind; [apply advances_array8|]. intros. apply advances_ret. Qed.

(** The same for functions that store, whatever they return. *)
Definition remaining {A B} (r : (A * list Z) + (B * list Z)) : list Z := match r with inl (_, l) | inr (_, l) => l end.
Definition proceeds {M} (u : unpacker M) : Prop := forall m l, (length (remaining (u m l)) <= length l)%nat.

Lemma remaining_storing {A B} (g : A -> B) r : remaining (storing g r) = remaining r.
Proof. by destruct r as [[x l]|[x l]]. Qed.

Lemma loop_proceeds {A} (u : list Z -> (option A * list Z) + (A * list Z)) n :
  (forall l, (length (remaining (u l)) <= length l)%nat) ->
  forall l, (length (remaining (unpack_loop u n l)) <= length l)%nat.
Proof.
  intros Hu. induction n as [|n IH]; intros l; [done|]. cbn [unpack_loop]. specialize (Hu l).
  destruct (u l) as [[x l1]|[x l1]]; [done|]. rewrite remaining_storing. specialize (IH l1). cbn in Hu. lia.
Qed.

Lemma values_proceed b t f n : proceeds (unpack_values b t f n).
Proof.
  intros s l. unfold unpack_values. destruct (match b with Unchecked m => Some m | _ => None end) as [m|] eqn:Hb; [destruct b; try done|].
  - rewrite remaining_storing. apply loop_proceeds. intros l1. unfold pull_number.
    destruct (pull_as t l1) as [[v l2]|] eqn:E; [by apply advances_number in E|done].
  - destruct (pullarray_as t (bound_max b n) n l) as [[vs l1]|] eqn:E; destruct b; rewrite ?E; try done;
      by apply advances_array in E.
Qed.

Lemma items_proceed b f n u : proceeds u -> proceeds (unpack_items b f n u).
Proof.
  intros Hu s l. unfold unpack_items. destruct (_ <? _); [done|]. rewrite remaining_storing.
  apply loop_proceeds. intros l1. unfold pull_struct. specialize (Hu zero l1). by destruct (u zero l1) as [[]|[]].
Qed.

Lemma proceeds_pass {M} : proceeds (@pass M).
Proof. by intros m l. Qed.
Lemma proceeds_then {M} (u v : unpacker M) : proceeds u -> proceeds v -> proceeds (andthen u v).
Proof.
  intros Hu Hv m l. unfold andthen. specialize (Hu m l). destruct (u m l) as [[m1 l1]|[m1 l1]]; [done|].
  specialize (Hv m1 l1). cbn in Hu. lia.
Qed.
Lemma proceeds_rows outer rows :
  Forall (fun r => forall outer, proceeds (unpack_row outer r)) rows -> proceeds (unpack_rows outer rows).
Proof. induction 1 as [|r rows Hr _ IH]; [apply proceeds_pass|by apply proceeds_then]. Qed.

Lemma row_proceeds : forall r outer, proceeds (unpack_row outer r).
Proof.
  apply (row_induction (fun r => forall outer, proceeds (unpack_row outer r))).
  1-3: intros; intros s l; cbn [unpack_row]; destruct (pull_as t l) as [[v' l1]|] eqn:E; [by apply advances_number in E|done].
  - intros b t f len outer s l. apply values_proceed.
  - intros b f len rows IH outer s l. apply items_proceed. by apply proceeds_rows.
  - intros c rows IH outer s l. cbn [unpack_row]. destruct (_ =? 0); [done|]. by apply proceeds_rows.
  - intros r IH outer s l. cbn [unpack_row]. specialize (IH outer s l). by destruct (unpack_row outer r s l) as [[]|[]].
  - intros f outer s l. cbn [unpack_row]. destruct l as [|? [|? [|? l]]]; cbn; lia.
  - intros f bits outer s l. cbn [unpack_row]. destruct (unpack_dci_payload _ _ l) as [[vs l1]|] eqn:E; [|done].
    by apply advances_dci in E.
  - intros c f d rows IH outer s l. cbn [unpack_row]. pose proof (proceeds_rows outer rows IH) as Hr.
    destruct (pull16 l) as [[v l1]|] eqn:E; [|destruct c; [done|apply Hr]].
    apply (advances_number U16) in E. etransitivity; [apply Hr|lia].
Qed.

(** The table of any layout, with any callback that does not go back. *)
Lemma layout_forward L ve :
  (forall fn, ve = Some fn -> forall tl l, (length (snd (fn tl l)) <= length l)%nat) ->
  forward (map tlv_entry (l_tlvs L)) ve.
Proof.
  intros Hve. split; [|done]. intros e (t & <- & _)%list_elem_of_In%in_map_iff tl msg.
  intros l msg' l' H. replace l' with (remaining (ut_fn (tlv_entry t) tl msg l)) by (by rewrite H).
  cbn [tlv_entry ut_fn]. rewrite remaining_storing. apply proceeds_rows, list.Forall_forall. intros r _. apply row_proceeds.
Qed.

(** ** The four loops *)

(** The [while] loop with this padding and this value for too many unknown
    TLVs, started on [l], ends with [r] after [k] rounds and a last one. *)
Definition tlv_list_run {M} pad tm (fns : list (unpack_tlv_t M)) ve msg l k r : Prop :=
  exists st, nsteps (goes_on pad tm fns ve) k (0, msg, l) st /\ ends pad tm fns ve st r.

(** C24. On any bytes each of the four TLV list loops ends, after at most one
    round for every four bytes and a last one, if no function of the table and
    no vendor callback moves the read pointer back; every run that ends ends
    with the result that the model computes with its fuel. *)
Theorem tlv_lists_terminate {M} (fns : list (unpack_tlv_t M)) ve msg l :
  forward fns ve ->
  let terminates pad tm result :=
    (exists k, tlv_list_run pad tm fns ve msg l k result /\ 4 * Z.of_nat k <= zlen l) /\
    (forall k r, tlv_list_run pad tm fns ve msg l k r -> r = result) in
  terminates no_pad 0 (unpack_tlv_list fns ve msg l) /\
  terminates get_tlv_padding 0 (unpack_nr_tlv_list fns ve msg l) /\
  terminates no_pad (-1) (unpack_p7_tlv_list fns ve msg l) /\
  terminates get_tlv_padding (-1) (unpack_nr_p7_tlv_list fns ve msg l).
Proof.
  intros Hf terminates.
  assert (forall pad tm, (forall n, 0 <= pad n) ->
    terminates pad tm (tlv_loop (tlv_fuel l) pad tm fns ve 0 msg l)) as H.
  { intros pad tm Hpad. destruct (loop_terminates pad tm fns ve Hpad Hf 0 msg l) as (k & st & Hk & He & Hb).
    split; [exists k; split; [by exists st|done]|]. intros k' r (st' & Hk' & He').
    by destruct (run_unique _ _ _ _ _ _ _ _ _ _ _ Hk He Hk' He'). }
  split_and!; apply H; try apply get_tlv_padding_nonneg; done.
Qed.

(** A table with one 16-bit value, and a list that ends in the middle of a TL. *)
Definition sample_table : list (unpack_tlv_t struct) := map tlv_entry [TlvRow 7 "value" [Num U16 "value"]].

Lemma tlv_lists_terminate_witness : exists k r,
  tlv_list_run get_tlv_padding 0 sample_table None zero [0;7;0;2;1;1;0;0;0;7;0] k r /\ 4 * Z.of_nat k <= 11 /\ r.1.1 = 0.
Proof.
  destruct (tlv_lists_terminate sample_table None zero [0;7;0;2;1;1;0;0;0;7;0]) as (_ & [(k & Hk & Hb) _] & _).
  - apply (layout_forward (Layout true [] [TlvRow 7 "value" [Num U16 "value"]]) None). discriminate.
  - exists k. eexists. split; [exact Hk|]. split; [exact Hb|reflexivity].
Defined.
