(* ===== verification/Typing.v ===== *)
(** * Types of structures

    The declaration of a C structure is the list of its members with their
    types.  [typed] says that a [struct] is a value of a declaration: numbers are
    in the range of their type and no array has more elements than declared.
    A row is checked against a declaration: what it reads has the type of the
    member it is stored in, and its bound is not above the size of the array.
    The theorem: from any bytes whatsoever, an unpacker that checks makes a value
    of the declared type, whether it accepts the bytes or not, so nothing is
    stored outside an array. *)

From S2P Require Import Prelude Codec Layout.
From stdpp Require Import functions.

Open Scope string_scope.
Open Scope list_scope.
Open Scope Z_scope.

(** [TList] and [TMany] are arrays that are allocated with as many elements as
    there are.  [TSubs] is an array of structures.  A member that is a structure with a TL is
    an array of at most one; the members of other structures within structures
    are listed under their paths. *)
#[warnings="-register-all"]
Inductive mtype :=
  | TNum (t : ctype)
  | TArr (t : ctype) (size : Z)
  | TList (t : ctype)
  | TMany (members : list (string * mtype))
  | TSubs (size : Z) (members : list (string * mtype)).
Abbreviation decl := (list (string * mtype)).

Definition TTlv (d : decl) : mtype := TSubs 1 d.
(** The members of the structure member [p]. *)
Definition within (p : string) (d : decl) : decl := (fun '(f, T) => (p +:+ "." +:+ f, T)) <$> d.

Fixpoint has_type (T : mtype) (s : struct) (f : string) : Prop :=
  match T with
  | TNum t => in_type t (num s f)
  | TArr t size => zlen (arr s f) <= size /\ Forall (in_type t) (arr s f)
  | TList t => Forall (in_type t) (arr s f)
  | TMany d => Forall (fun e => foldr (fun '(g, U) P => has_type U e g /\ P) True d) (sub s f)
  | TSubs size d =>
      zlen (sub s f) <= size /\
      Forall (fun e => foldr (fun '(g, U) P => has_type U e g /\ P) True d) (sub s f)
  end.
Definition typed (d : decl) (s : struct) : Prop := foldr (fun '(g, U) P => has_type U s g /\ P) True d.

Fixpoint mtype_wf (T : mtype) : bool :=
  match T with
  | TNum _ | TList _ => true
  | TArr _ size => 0 <=? size
  | TMany d => bool_decide (NoDup d.*1) && foldr (fun '(g, U) b => mtype_wf U && b) true d
  | TSubs size d => (0 <=? size) && bool_decide (NoDup d.*1) && foldr (fun '(g, U) b => mtype_wf U && b) true d
  end.
Definition decl_wf (d : decl) : bool := bool_decide (NoDup d.*1) && forallb (fun '(g, U) => mtype_wf U) d.

Fixpoint type_of (d : decl) (f : string) : option mtype :=
  match d with [] => None | (g, T) :: d => if String.eqb g f then Some T else type_of d f end.

Fixpoint row_typed (d : decl) (r : row) : bool :=
  match r with
  | Num t f | Off t f _ => match type_of d f with Some (TNum u) => bool_decide (t = u) | _ => false end
  | Lit _ _ => true
  | Values b t f _ =>
      match type_of d f, b with
      | Some (TArr u size), UpTo max => bool_decide (t = u) && (max <=? size)
      | Some (TList u), Alloc => bool_decide (t = u)
      | _, _ => false
      end
  | Items b f _ rows =>
      match type_of d f, b with
      | Some (TSubs size d'), UpTo max => (max <=? size) && forallb (row_typed d') rows
      | Some (TMany d'), Alloc => forallb (row_typed d') rows
      | _, _ => false
      end
  | When _ rows => forallb (row_typed d) rows
  | Try r => row_typed d r
  | Big24 f => match type_of d f with Some (TNum U32) => true | _ => false end
  | Dci f _ => match type_of d f with Some (TArr u n) => bool_decide (u = U8) && (8 <=? n) | _ => false end
  | Sized _ f _ rows => match type_of d f with Some (TNum U16) => true | _ => false end && forallb (row_typed d) rows
  end.
Definition rows_typed (d : decl) (rows : list row) : bool := forallb (row_typed d) rows.
Definition tlv_typed (d : decl) (t : tlv_row) : bool :=
  match type_of d (t_member t) with Some (TSubs size d') => (1 <=? size) && rows_typed d' (t_rows t) | _ => false end.
Definition layout_typed (d : decl) (L : layout) : bool :=
  decl_wf d && rows_typed d (l_head L) && forallb (tlv_typed d) (l_tlvs L).

(** ** Structures *)

Lemma typed_forall d s : typed d s <-> forall g U, (g, U) ∈ d -> has_type U s g.
Proof.
  unfold typed. induction d as [|[g U] d IH]; cbn; [split; [intros _ g U []%elem_of_nil|done]|].
  rewrite IH. split.
  - intros [H1 H2] g' U' [[= -> ->]|Hin]%elem_of_cons; [done|by apply H2].
  - intros H. split; [apply H; left|intros g' U' Hin; apply H; by right].
Qed.

Lemma decl_wf_sub size d : mtype_wf (TSubs size d) = true -> 0 <= size /\ decl_wf d = true.
Proof.
  cbn. intros [[H1%Z.leb_le H2]%andb_true_iff H3]%andb_true_iff. split; [done|]. unfold decl_wf. rewrite H2. cbn.
  clear -H3. induction d as [|[g U] d IH]; [done|]. cbn in *. apply andb_true_iff in H3 as [-> H3]. by apply IH.
Qed.

Lemma type_of_elem d f T : type_of d f = Some T -> (f, T) ∈ d.
Proof.
  induction d as [|[g U] d IH]; [done|]. cbn. destruct (String.eqb_spec g f) as [->|_]; [intros [= ->]; left|right; auto].
Qed.

Lemma type_of_unique d f T U : decl_wf d = true -> type_of d f = Some T -> (f, U) ∈ d -> U = T.
Proof.
  unfold decl_wf. intros [Hnd%bool_decide_eq_true _]%andb_true_iff Hf.
  induction d as [|[g V] d IH]; [done|]. cbn in *. apply list.NoDup_cons in Hnd as [Hn Hnd].
  destruct (String.eqb_spec g f) as [->|Hne].
  - injection Hf as ->. intros [[= ->]|Hin]%elem_of_cons; [done|]. destruct Hn. by apply (list_elem_of_fmap_2 fst) in Hin.
  - intros [[= -> ->]|Hin]%elem_of_cons; [done|]. by apply IH.
Qed.

Lemma decl_wf_many d : mtype_wf (TMany d) = true -> decl_wf d = true.
Proof. intros H. apply (decl_wf_sub 0 d). cbn in *. by rewrite H. Qed.

Lemma decl_wf_type d f T : decl_wf d = true -> type_of d f = Some T -> mtype_wf T = true.
Proof.
  unfold decl_wf. intros [_ H]%andb_true_iff Hf%type_of_elem.
  exact (proj1 (forallb_forall _ _) H (f, T) (proj1 (list_elem_of_In _ _) Hf)).
Qed.

Lemma typed_type d s f T : typed d s -> type_of d f = Some T -> has_type T s f.
Proof. rewrite typed_forall. intros H Hf. by apply H, type_of_elem. Qed.

(** Zeroed memory is a value of any type. *)
Lemma typed_zero d : decl_wf d = true -> typed d zero.
Proof.
  unfold decl_wf. intros [_ H]%andb_true_iff. apply typed_forall. intros g U Hin.
  pose proof (proj1 (forallb_forall _ _) H (g, U) (proj1 (list_elem_of_In _ _) Hin)) as Hw. cbn in Hw.
  destruct U as [t|t n|t|d'|n d']; cbn in *; [by destruct t|by apply Z.leb_le in Hw|constructor|constructor|].
  apply andb_true_iff in Hw as [[Hw%Z.leb_le _]%andb_true_iff _]. by split.
Qed.

(** Storing to one member keeps the others. *)
Lemma typed_update d s s' f T : decl_wf d = true -> typed d s -> type_of d f = Some T -> has_type T s' f ->
  (forall g U, g <> f -> has_type U s g -> has_type U s' g) -> typed d s'.
Proof.
  rewrite !typed_forall. intros Hd Hs Hf Ht Ho g U Hin. destruct (decide (g = f)) as [->|Hne].
  - by rewrite (type_of_unique d f T U Hd Hf Hin).
  - apply Ho; [done|by apply Hs].
Qed.

Lemma has_type_congr U s s' g :
  num s g = num s' g -> arr s g = arr s' g -> sub s g = sub s' g -> has_type U s g -> has_type U s' g.
Proof. intros H1 H2 H3. destruct U; cbn; by rewrite ?H1, ?H2, ?H3. Qed.

Lemma typed_set_num d s f t v : decl_wf d = true -> typed d s -> type_of d f = Some (TNum t) -> in_type t v ->
  typed d (set_num f v s).
Proof.
  intros Hd Hs Hf Hv. eapply (typed_update _ s); [done..| |].
  - destruct s. cbn. by rewrite fn_lookup_insert.
  - intros g U Hne. apply has_type_congr; destruct s; cbn; [by rewrite fn_lookup_insert_ne|done..].
Qed.
Lemma typed_set_arr d s f T t vs : decl_wf d = true -> typed d s -> type_of d f = Some T ->
  match T with TArr u n => u = t /\ zlen vs <= n | TList u => u = t | _ => False end -> Forall (in_type t) vs ->
  typed d (set_arr f vs s).
Proof.
  intros Hd Hs Hf Hn Hv. eapply (typed_update _ s); [done..| |].
  - destruct s, T as [|u n|u| |]; try done; cbn; rewrite fn_lookup_insert; [by destruct Hn as [-> Hn]|by subst u].
  - intros g U Hne. apply has_type_congr; destruct s; cbn; [done|by rewrite fn_lookup_insert_ne|done].
Qed.
Lemma typed_set_sub d s f T d' es : decl_wf d = true -> typed d s -> type_of d f = Some T ->
  match T with TSubs n u => u = d' /\ zlen es <= n | TMany u => u = d' | _ => False end -> Forall (typed d') es ->
  typed d (set_sub f es s).
Proof.
  intros Hd Hs Hf Hn Hv. eapply (typed_update _ s); [done..| |].
  - destruct s, T as [| | |u|n u]; try done; cbn; rewrite fn_lookup_insert; [by subst u|by destruct Hn as [-> Hn]].
  - intros g U Hne. apply has_type_congr; destruct s; cbn; [done..|by rewrite fn_lookup_insert_ne].
Qed.

Lemma typed_set_tl d s tl : typed d (set_tl tl s) <-> typed d s.
Proof. rewrite !typed_forall. split; intros H g U Hin; specialize (H g U Hin); destruct s, U; done. Qed.

(** ** Readers *)

(** From any bytes, a result that satisfies [P], and bytes. *)
Definition makes {A} (u : reader A) (P : A -> Prop) : Prop := forall l v l',
  bytes_ok l -> u l = Some (v, l') -> P v /\ bytes_ok l'.

Lemma makes_bind {A B} (u : reader A) (k : A -> reader B) P Q :
  makes u P -> (forall v, P v -> makes (k v) Q) -> makes (v ← u; k v) Q.
Proof.
  intros Hu Hk l v l' Hl. unfold mbind, reader_bind. destruct (u l) as [[x l1]|] eqn:E; [|done].
  destruct (Hu l x l1 Hl E) as [HP Hl1]. by apply Hk.
Qed.
Lemma makes_ret {A} (v : A) (P : A -> Prop) : P v -> makes (mret v) P.
Proof. intros HP l w l' Hl [= <- <-]. done. Qed.
Lemma makes_impl {A} (u : reader A) (P Q : A -> Prop) : makes u P -> (forall v, P v -> Q v) -> makes u Q.
Proof. intros Hu H l v l' Hl E. destruct (Hu l v l' Hl E). auto. Qed.

Lemma bytes_ok_cons b l : bytes_ok (b :: l) -> in_u8 b /\ bytes_ok l.
Proof. unfold bytes_ok. by rewrite list.Forall_cons. Qed.

Lemma makes_number t : makes (pull_as t) (in_type t).
Proof.
  intros l v l' Hl. unfold pull_as.
  destruct t; cbn; unfold pull8, pulls8, pull16, pulls16, pull32, pulls32;
    repeat (destruct l as [|? l]; [done|]; apply bytes_ok_cons in Hl as [? Hl]); intros [= <- <-]; (split; [|done]);
    wrap_lia.
Qed.

Lemma makes_pull_all {A} (u : reader A) P n : makes u P ->
  makes (pull_all u n) (fun vs => length vs = n /\ Forall P vs).
Proof.
  intros Hu. induction n as [|n IH]; [by apply makes_ret|]. cbn [pull_all].
  eapply makes_bind; [exact Hu|]. intros v Hv. eapply makes_bind; [exact IH|]. intros vs [Hn Hvs].
  apply makes_ret. cbn. auto.
Qed.

(** What an array function reads fits the array. *)
Definition within_bound {A} (max : Z) (P : A -> Prop) (vs : list A) : Prop := zlen vs <= Z.max 0 max /\ Forall P vs.

Lemma makes_array_gen size pull P max len : makes pull P -> makes (pullarray_gen size pull max len) (within_bound max P).
Proof.
  intros Hp l v l' Hl. unfold pullarray_gen. case_match; [|case_match; [done|case_match; [|done]]].
  - intros [= <- <-]. repeat split; [unfold zlen; cbn; lia|done|done].
  - intros Hv. destruct (makes_pull_all pull P _ Hp l v l' Hl Hv) as [[Hn Hvs] Hl']. repeat split; [|done..].
    unfold zlen. rewrite Hn. lia.
Qed.

Lemma makes_array8 max len : makes (pullarray8 max len) (within_bound max in_u8).
Proof.
  intros l v l' Hl. unfold pullarray8. case_match; [|case_match; [done|case_match; [|done]]].
  - intros [= <- <-]. repeat split; [unfold zlen; cbn; lia|done|done].
  - intros [= <- <-]. repeat split; [|by apply Forall_take|by apply Forall_drop].
    unfold zlen. rewrite length_take. lia.
Qed.

Lemma makes_array t max len : makes (pullarray_as t max len) (within_bound max (in_type t)).
Proof.
  destruct t.
  - apply makes_array8.
  - eapply makes_bind; [apply makes_array8|]. intros vs [Hn Hvs]. apply makes_ret. split.
    + unfold zlen in *. by rewrite length_fmap.
    + apply Forall_fmap. eapply list.Forall_impl; [exact Hvs|]. intros v Hv. cbn in *. wrap_lia.
  - apply makes_array_gen, (makes_number U16).
  - apply makes_array_gen, (makes_number S16).
  - apply makes_array_gen, (makes_number U32).
  - apply makes_array_gen, (makes_number S32).
Qed.

Lemma bytes_of_number n z : bytes_ok (le_split n z).
Proof. revert z. induction n as [|n IH]; intros z; constructor; [cbn; wrap_lia|apply IH]. Qed.

Lemma makes_dci bits : makes (unpack_dci_payload (replicate 8 0) bits) (within_bound 8 in_u8).
Proof.
  unfold unpack_dci_payload. set (k := u8 _).
  apply (makes_bind _ _ (fun vs => within_bound 8 in_u8 vs /\ zlen vs <= k)).
  - intros l vs l1 Hl E. destruct (makes_array8 _ _ l vs l1 Hl E) as [Hb Hl1]. split_and!; [apply Hb..| |done].
    revert E. unfold pullarray8. case_match; [intros [= <- <-]; unfold zlen; cbn; unfold k; wrap_lia|].
    case_match; [done|case_match; [|done]]. intros [= <- <-]. unfold zlen. rewrite length_take. unfold k in *. wrap_lia.
  - intros vs [[Hn Hvs] Hk]. apply makes_ret. destruct (negb _); [split; [unfold zlen; rewrite le_split_length; lia|apply bytes_of_number]|].
    split; [|apply Forall_app; split; [by apply Forall_rev|apply Forall_drop, Forall_replicate; cbn; wrap_lia]].
    revert Hn Hk. unfold zlen. rewrite length_app, length_rev, length_drop, length_replicate. lia.
Qed.

Lemma big24_type a b c : in_u8 a -> in_u8 b -> in_u8 c -> in_type U32 (Z.lor (Z.shiftl (Z.lor (Z.shiftl a 8) b) 8) c).
Proof.
  intros Ha Hb Hc. cbn. unfold in_u8, in_u32 in *. rewrite (lor_shiftl_add a b 8) by (cbn; lia).
  rewrite (lor_shiftl_add _ c 8) by (cbn; lia). lia.
Qed.

(** ** Rows *)

(** The same for functions that store: whatever they return, [P] holds again. *)
Definition keeps {M} (u : unpacker M) (P : M -> Prop) : Prop := forall m l, P m -> bytes_ok l ->
  match u m l with inl (m', l') | inr (m', l') => P m' /\ bytes_ok l' end.

Lemma keeps_pass {M} (P : M -> Prop) : keeps pass P.
Proof. by intros m l. Qed.
Lemma keeps_then {M} (u v : unpacker M) P : keeps u P -> keeps v P -> keeps (andthen u v) P.
Proof.
  intros Hu Hv m l HP Hl. unfold andthen. specialize (Hu m l HP Hl). destruct (u m l) as [[m1 l1]|[m1 l1]]; [done|].
  destruct Hu. by apply Hv.
Qed.
Lemma keeps_storing {M N} (r : (M * list Z) + (M * list Z)) (g : M -> N) (P : M -> Prop) (Q : N -> Prop) :
  match r with inl (x, l) | inr (x, l) => P x /\ bytes_ok l end -> (forall x, P x -> Q (g x)) ->
  match storing g r with inl (x, l) | inr (x, l) => Q x /\ bytes_ok l end.
Proof. intros H Hg. destruct r as [[x l]|[x l]]; cbn; destruct H; auto. Qed.

(** What a loop reads, complete or not. *)
Lemma loop_makes {A} (u : list Z -> (option A * list Z) + (A * list Z)) (P : A -> Prop) :
  (forall l, bytes_ok l -> match u l with
     | inl (x, l') => (forall y, x = Some y -> P y) /\ bytes_ok l' | inr (x, l') => P x /\ bytes_ok l' end) ->
  forall n l, bytes_ok l -> match unpack_loop u n l with
    inl (xs, l') | inr (xs, l') => (length xs <= n)%nat /\ Forall P xs /\ bytes_ok l' end.
Proof.
  intros Hu. induction n as [|n IH]; intros l Hl; cbn [unpack_loop]; [done|]. specialize (Hu l Hl).
  destruct (u l) as [[[y|] l1]|[x l1]]; cbn [option_list].
  - destruct Hu as [Hy Hl1]. split_and!; [cbn; lia|constructor; [by apply Hy|done]|done].
  - destruct Hu as [_ Hl1]. split_and!; [cbn; lia|done|done].
  - destruct Hu as [Hx Hl1]. specialize (IH l1 Hl1).
    destruct (unpack_loop u n l1) as [[xs l2]|[xs l2]]; cbn; destruct IH as (H1 & H2 & H3); split_and!; auto; lia.
Qed.

Definition row_keeps (r : row) : Prop := forall outer d, decl_wf d = true -> row_typed d r = true ->
  keeps (unpack_row outer r) (typed d).

Lemma rows_keep_all rows : Forall row_keeps rows -> forall outer d,
  decl_wf d = true -> rows_typed d rows = true -> keeps (unpack_rows outer rows) (typed d).
Proof.
  induction 1 as [|r rows Hr _ IH]; intros outer d Hd Hrows; [apply keeps_pass|].
  cbn in Hrows. apply andb_true_iff in Hrows as [Ht Hrows]. apply keeps_then; [by apply Hr|by apply IH].
Qed.

(** A number that is stored if it is there. *)
Lemma number_keeps d t f g : decl_wf d = true -> type_of d f = Some (TNum t) -> (forall v, in_type t v -> in_type t (g v)) ->
  keeps (fun s l => match pull_as t l with Some (v, l) => inr (set_num f (g v) s, l) | None => inl (s, l) end) (typed d).
Proof.
  intros Hd Hf Hg s l Hs Hl. destruct (pull_as t l) as [[v l1]|] eqn:E; [|done].
  destruct (makes_number t l v l1 Hl E) as [Hv Hl1]. split; [eapply typed_set_num; eauto|done].
Qed.

Lemma values_keep d b t f n T : decl_wf d = true -> type_of d f = Some T ->
  match T, b with TArr u size, UpTo max => u = t /\ max <= size | TList u, Alloc => u = t | _, _ => False end ->
  keeps (unpack_values b t f n) (typed d).
Proof.
  intros Hd Hf HT s l Hs Hl. pose proof (decl_wf_type d f _ Hd Hf) as Hw.
  destruct T as [|u size|u| |], b as [max| | | |]; try done; cbn [unpack_values bound_max].
  - destruct (pullarray_as t max n l) as [[vs l1]|] eqn:E; [|done]. destruct (makes_array t max n l vs l1 Hl E) as [[Hn Hvs] Hl1].
    split; [|done]. apply (typed_set_arr d s f (TArr u size) t); [done..| |done]. cbn in Hw. apply Z.leb_le in Hw. destruct HT. split; [done|lia].
  - destruct (pullarray_as t n n l) as [[vs l1]|] eqn:E; [|done]. destruct (makes_array t n n l vs l1 Hl E) as [[Hn Hvs] Hl1].
    split; [|done]. by apply (typed_set_arr d s f (TList u) t).
Qed.

Lemma items_keep d b f n u T d' : decl_wf d = true -> type_of d f = Some T -> decl_wf d' = true ->
  match T, b with TSubs size d1, UpTo max => d1 = d' /\ max <= size /\ 0 <= size | TMany d1, Alloc => d1 = d' | _, _ => False end ->
  keeps u (typed d') -> keeps (unpack_items b f n u) (typed d).
Proof.
  intros Hd Hf Hd' HT Hu s l Hs Hl. unfold unpack_items. destruct (Z.ltb_spec (bound_max b n) n) as [|Hn]; [done|].
  assert (forall l, bytes_ok l -> match pull_struct u l with
    | inl (x, l') => (forall y, x = Some y -> typed d' y) /\ bytes_ok l' | inr (x, l') => typed d' x /\ bytes_ok l' end) as Hp.
  { intros l0 Hl0. unfold pull_struct. specialize (Hu zero l0 (typed_zero d' Hd') Hl0).
    destruct (u zero l0) as [[e l1]|[e l1]]; [|done]. destruct Hu. split; [by intros y [= <-]|done]. }
  eapply keeps_storing with (P := fun es => (length es <= Z.to_nat n)%nat /\ Forall (typed d') es).
  - pose proof (loop_makes (pull_struct u) (typed d') Hp (Z.to_nat n) l Hl) as Hloop.
    destruct (unpack_loop _ _ l) as [[es l1]|[es l1]]; tauto.
  - intros es [Hle Hes]. assert (es = match b with Strided _ => take 1 es | _ => es end) as <- by (by destruct T, b).
    apply (typed_set_sub d s f T d'); [done..| |done]. destruct T as [| | |d1|size d1], b as [max| | | |]; try done.
    destruct HT as (-> & Hm & Hs0). split; [done|]. cbn in Hn. unfold zlen. lia.
Qed.

Lemma row_keeps_all : forall r, row_keeps r.
Proof.
  apply row_induction.
  - intros t f outer d Hd Hr. cbn in Hr. destruct (type_of d f) as [[u| | | |]|] eqn:E; try done.
    apply bool_decide_eq_true in Hr as ->. by apply (number_keeps d u f (fun v => v)).
  - intros t f k outer d Hd Hr. cbn in Hr. destruct (type_of d f) as [[u| | | |]|] eqn:E; try done.
    apply bool_decide_eq_true in Hr as ->. apply (number_keeps d u f (fun v => wrap u (v + k))); [done..|].
    intros. apply in_type_wrap.
  - intros t v outer d Hd Hr s l Hs Hl. cbn [unpack_row]. destruct (pull_as t l) as [[v' l1]|] eqn:E; [|done].
    split; [done|]. by apply (makes_number t l v' l1).
  - intros b t f len outer d Hd Hr s l. cbn [unpack_row]. cbn in Hr. destruct (type_of d f) as [T|] eqn:E; [|done].
    apply (values_keep d _ _ _ _ T); [done..|]. destruct T, b; try done.
    + by apply andb_true_iff in Hr as [->%bool_decide_eq_true Hm%Z.leb_le].
    + by apply bool_decide_eq_true in Hr as ->.
  - intros b f len rows IH outer d Hd Hr s l. cbn [unpack_row]. cbn in Hr. destruct (type_of d f) as [T|] eqn:E; [|done].
    pose proof (decl_wf_type d f _ Hd E) as Hw. destruct T as [| | |d'|size d'], b as [max| | | |]; try done.
    + apply decl_wf_many in Hw. apply (items_keep d Alloc f _ _ (TMany d') d'); [done..|].
      by apply (rows_keep_all rows IH).
    + apply decl_wf_sub in Hw as [Hsz Hw]. apply andb_true_iff in Hr as [Hm%Z.leb_le Hr].
      apply (items_keep d (UpTo max) f _ _ (TSubs size d') d'); [done..|]. by apply (rows_keep_all rows IH).
  - intros c rows IH outer d Hd Hr s l Hs Hl. cbn [unpack_row]. destruct (_ =? 0); [done|].
    by apply (rows_keep_all rows IH outer d Hd Hr).
  - intros r IH outer d Hd Hr s l Hs Hl. cbn [unpack_row]. specialize (IH outer d Hd Hr s l Hs Hl).
    by destruct (unpack_row outer r s l) as [[]|[]].
  - intros f outer d Hd Hr s l Hs Hl. cbn [unpack_row row_typed] in *.
    destruct (type_of d f) as [[[]| | | |]|] eqn:E; try done.
    destruct l as [|a [|b [|c l]]]; [split; [done|constructor]..|].
    apply bytes_ok_cons in Hl as [Ha [Hb [Hc Hl]%bytes_ok_cons]%bytes_ok_cons]. split; [|done].
    eapply typed_set_num; [done..|]. by apply big24_type.
  - intros f bits outer d Hd Hr s l Hs Hl. cbn [unpack_row row_typed] in *.
    destruct (type_of d f) as [T|] eqn:E; [|done].
    destruct (unpack_dci_payload _ _ l) as [[vs l1]|] eqn:E1; [|done].
    destruct (makes_dci _ l vs l1 Hl E1) as [[Hn Hvs] Hl1]. split; [|done].
    apply (typed_set_arr d s f T U8); [done..| |done]. destruct T as [|u n| | |]; try done.
    apply andb_true_iff in Hr as [->%bool_decide_eq_true Hr%Z.leb_le]. split; [done|lia].
  - intros c f k rows IH outer d Hd Hr s l Hs Hl. cbn [unpack_row row_typed] in *. apply andb_true_iff in Hr as [Hf Hr].
    destruct (type_of d f) as [[[]| | | |]|] eqn:E; try done. pose proof (rows_keep_all rows IH outer d Hd Hr) as Hrows.
    destruct (pull16 l) as [[v l1]|] eqn:E1; [|destruct c; [done|by apply Hrows]].
    destruct (makes_number U16 l v l1 Hl E1) as [Hv Hl1]. apply Hrows; [|done]. by eapply typed_set_num.
Qed.

Lemma rows_keep outer d rows : decl_wf d = true -> rows_typed d rows = true -> keeps (unpack_rows outer rows) (typed d).
Proof. apply rows_keep_all, list.Forall_forall. intros r _. apply row_keeps_all. Qed.

(** ** TLVs and messages *)

Lemma makes_tl : makes unpack_tl (fun _ => True).
Proof. eapply makes_bind; [apply (makes_number U16)|]. intros. eapply makes_bind; [apply (makes_number U16)|]. by intros; apply makes_ret. Qed.

(** What the entries of a table keep, reading the TLVs keeps. *)
Section tlv_loop.
Context {M : Type} (P : M -> Prop) (pad : Z -> Z).

Definition entries_keep (fns : list (unpack_tlv_t M)) : Prop :=
  Forall (fun e => forall tl, keeps (ut_fn e tl) P) fns.

Lemma try_entries_keep fns tl : entries_keep fns -> forall b msg l, P msg -> bytes_ok l ->
  match try_entries pad fns tl b msg l with
  | inl (msg', l') | inr (_, msg', l') => P msg' /\ bytes_ok l'
  end.
Proof.
  induction 1 as [|e fns He _ IH]; intros b msg l HP Hl; cbn [try_entries]; [done|].
  destruct (_ =? _); [|by apply IH]. specialize (He tl msg l HP Hl).
  destruct (ut_fn e tl msg l) as [[msg1 l1]|[msg1 l1]]; [done|]. destruct He as [HP1 Hl1].
  apply IH; [done|by apply Forall_drop].
Qed.

Lemma tlv_loop_keeps too_many fns : entries_keep fns -> forall fuel n msg l,
  P msg -> bytes_ok l -> P (snd (fst (tlv_loop fuel pad too_many fns None n msg l))).
Proof.
  intros Hfns. induction fuel as [|fuel IH]; intros n msg l HP Hl; [done|]. cbn [tlv_loop].
  case_match; [done|]. destruct (unpack_tl l) as [[tl l1]|] eqn:E; [|done].
  destruct (makes_tl l tl l1 Hl E) as [_ Hl1]. clear E.
  pose proof (try_entries_keep fns tl Hfns false msg l1 HP Hl1) as Ht.
  destruct (try_entries pad fns tl false msg l1) as [[msg2 l2]|[[b msg2] l2]]; [apply Ht|]. destruct Ht as [HP2 Hl2].
  destruct b; [by apply IH|]. cbn.
  repeat (case_match; try done); apply IH; try done; by apply Forall_drop.
Qed.
End tlv_loop.

Lemma tlv_entry_keeps d t tl : decl_wf d = true -> tlv_typed d t = true -> keeps (ut_fn (tlv_entry t) tl) (typed d).
Proof.
  unfold tlv_typed. intros Hd Ht s l Hs Hl. destruct (type_of d (t_member t)) as [[| | | |n d']|] eqn:E; try done.
  apply andb_true_iff in Ht as [Hn%Z.leb_le Ht]. destruct (decl_wf_sub n d' (decl_wf_type d _ _ Hd E)) as [_ Hd'].
  cbn [tlv_entry ut_fn]. eapply keeps_storing; [apply (rows_keep [] d' (t_rows t) Hd' Ht)|].
  - apply typed_set_tl. unfold member. destruct (typed_type d s _ _ Hs E) as [_ Hes].
    destruct (sub s (t_member t)) as [|e es]; [by apply typed_zero|]. by apply list.Forall_cons in Hes as [He _].
  - done.
  - intros v Hv. apply (typed_set_sub d s (t_member t) (TSubs n d') d'); [done..| |by repeat constructor]. split; [done|]. unfold zlen. cbn. lia.
Qed.

Lemma unpack_message_typed `{HF : TlvFormat pack unpack pad} d rows ts s l :
  decl_wf d = true -> rows_typed d rows = true -> forallb (tlv_typed d) ts = true -> typed d s -> bytes_ok l ->
  typed d (snd (unpack_message unpack rows ts s l)).
Proof.
  intros Hd Hr Ht Hs Hl. unfold unpack_message. pose proof (rows_keep [] d rows Hd Hr s l Hs Hl) as Hk.
  destruct (unpack_rows [] rows s l) as [[s1 l1]|[s1 l1]]; destruct Hk as [Hs1 Hl1]; [done|].
  destruct (tf_unpack (map tlv_entry ts) None s1 l1) as [tm Heq].
  assert (entries_keep (typed d) (map tlv_entry ts)) as Hk.
  { apply list.Forall_forall. intros e (t & <- & Hin)%list_elem_of_In%in_map_iff tl.
    apply tlv_entry_keeps; [done|]. exact (proj1 (forallb_forall _ _) Ht t Hin). }
  pose proof (tlv_loop_keeps (typed d) pad tm _ Hk (tlv_fuel l1) 0 s1 l1 Hs1 Hl1) as Hres. rewrite <- Heq in Hres.
  destruct (unpack _ None s1 l1) as [[r s2] l2]. exact Hres.
Qed.

(** An unpacker that checks makes a value of the declared type from any bytes. *)
Lemma unpack_layout_typed d L s l :
  layout_typed d L = true -> typed d s -> bytes_ok l -> typed d (snd (unpack_layout L s l)).
Proof.
  unfold layout_typed. intros [[Hd Hr]%andb_true_iff Ht]%andb_true_iff Hs Hl.
  unfold unpack_layout. destruct (l_nr L).
  - by apply (unpack_message_typed (HF := nr_tlv_format)).
  - by apply (unpack_message_typed (HF := tlv_format)).
Qed.
