(* ===== verification/P5Codec.v ===== *)
(** * P5 messages ([nfapi_p5.c])

    The bodies of the P5 messages of LTE and NR as layouts, in the order of the
    source, the header and the two frames: the length field holds the length of
    the message for LTE and of the body for NR. *)

From S2P Require Import Prelude Tags Codec Ids LteInd Layout.
From stdpp Require Import pretty.

Open Scope string_scope.
Open Scope list_scope.
Open Scope Z_scope.

(** ** Values of TLVs *)

(* src: nfapi_p5.c :: pack_pnf_param_general_value *)
Definition pack_pnf_param_general_value : list row :=
  [Num U8 "nfapi_sync_mode"; Num U8 "location_mode"; Num U16 "location_coordinates_length";
   Arr U8 "location_coordinates" NFAPI_PNF_PARAM_GENERAL_LOCATION_LENGTH (Member "location_coordinates_length");
   Num U32 "dl_config_timing"; Num U32 "tx_timing"; Num U32 "ul_config_timing"; Num U32 "hi_dci0_timing";
   Num U16 "maximum_number_phys"; Num U16 "maximum_total_bandwidth"; Num U8 "maximum_total_number_dl_layers";
   Num U8 "maximum_total_number_ul_layers"; Num U8 "shared_bands"; Num U8 "shared_pa"; Num S16 "maximum_total_power";
   Arr U8 "oui" NFAPI_PNF_PARAM_GENERAL_OUI_LENGTH (Const NFAPI_PNF_PARAM_GENERAL_OUI_LENGTH)].
(* src: nfapi_p5.c :: pack_rf_config_info *)
Definition pack_rf_config_info : list row :=
  [Num U16 "rf_config_index"].
(* src: nfapi_p5.c :: pack_pnf_phy_info *)
Definition pack_pnf_phy_info : list row :=
  [Num U16 "phy_config_index"; Num U16 "number_of_rfs";
   Elems "rf_config" NFAPI_MAX_PNF_PHY_RF_CONFIG (Member "number_of_rfs") pack_rf_config_info;
   Num U16 "number_of_rf_exclusions";
   Elems "excluded_rf_config" NFAPI_MAX_PNF_PHY_RF_CONFIG (Member "number_of_rf_exclusions") pack_rf_config_info;
   Num U16 "downlink_channel_bandwidth_supported"; Num U16 "uplink_channel_bandwidth_supported";
   Num U8 "number_of_dl_layers_supported"; Num U8 "number_of_ul_layers_supported";
   Num U16 "maximum_3gpp_release_supported"; Num U8 "nmm_modes_supported"].
(* src: nfapi_p5.c :: pack_pnf_phy_value *)
Definition pack_pnf_phy_value : list row :=
  [Num U16 "number_of_phys"; Elems "phy" NFAPI_MAX_PNF_PHY (Member "number_of_phys") pack_pnf_phy_info].
(* src: nfapi_p5.c :: pack_pnf_rf_value *)
Definition pack_pnf_rf_value : list row :=
  [Num U16 "number_of_rfs";
   Items (Unchecked NFAPI_MAX_PNF_RF) "rf" (Member "number_of_rfs")
     [Num U16 "rf_config_index"; Num U16 "band"; Num S16 "maximum_transmit_power"; Num S16 "minimum_transmit_power";
      Num U8 "number_of_antennas_suppported"; Num U32 "minimum_downlink_frequency";
      Num U32 "maximum_downlink_frequency"; Num U32 "minimum_uplink_frequency"; Num U32 "maximum_uplink_frequency"]].
(* src: nfapi_p5.c :: pack_pnf_phy_rel10_info *)
Definition pack_pnf_phy_rel10_info : list row :=
  [Num U16 "phy_config_index"; Num U16 "transmission_mode_7_supported"; Num U16 "transmission_mode_8_supported";
   Num U16 "two_antenna_ports_for_pucch"; Num U16 "transmission_mode_9_supported"; Num U16 "simultaneous_pucch_pusch";
   Num U16 "four_layer_tx_with_tm3_and_tm4"].
(* src: nfapi_p5.c :: pack_pnf_phy_rel10_value *)
Definition pack_pnf_phy_rel10_value : list row :=
  [Num U16 "number_of_phys"; Elems "phy" NFAPI_MAX_PNF_PHY (Member "number_of_phys") pack_pnf_phy_rel10_info].
(* src: nfapi_p5.c :: pack_pnf_phy_rel11_info *)
Definition pack_pnf_phy_rel11_info : list row :=
  [Num U16 "phy_config_index"; Num U16 "edpcch_supported"; Num U16 "multi_ack_csi_reporting";
   Num U16 "pucch_tx_diversity"; Num U16 "ul_comp_supported"; Num U16 "transmission_mode_5_supported"].
(* src: nfapi_p5.c :: pack_pnf_phy_rel11_value *)
Definition pack_pnf_phy_rel11_value : list row :=
  [Num U16 "number_of_phys"; Elems "phy" NFAPI_MAX_PNF_PHY (Member "number_of_phys") pack_pnf_phy_rel11_info].
(* src: nfapi_p5.c :: pack_pnf_phy_rel12_info *)
Definition pack_pnf_phy_rel12_info : list row :=
  [Num U16 "phy_config_index"; Num U16 "csi_subframe_set"; Num U16 "enhanced_4tx_codebook"; Num U16 "drs_supported";
   Num U16 "ul_64qam_supported"; Num U16 "transmission_mode_10_supported"; Num U16 "alternative_bts_indices"].
(* src: nfapi_p5.c :: pack_pnf_phy_rel12_value *)
Definition pack_pnf_phy_rel12_value : list row :=
  [Num U16 "number_of_phys"; Elems "phy" NFAPI_MAX_PNF_PHY (Member "number_of_phys") pack_pnf_phy_rel12_info].
(* src: nfapi_p5.c :: pack_pnf_phy_rel13_info *)
Definition pack_pnf_phy_rel13_info : list row :=
  [Num U16 "phy_config_index"; Num U16 "pucch_format4_supported"; Num U16 "pucch_format5_supported";
   Num U16 "more_than_5_ca_support"; Num U16 "laa_supported"; Num U16 "laa_ending_in_dwpts_supported";
   Num U16 "laa_starting_in_second_slot_supported"; Num U16 "beamforming_supported";
   Num U16 "csi_rs_enhancement_supported"; Num U16 "drms_enhancement_supported"; Num U16 "srs_enhancement_supported"].
(* src: nfapi_p5.c :: pack_pnf_phy_rel13_value *)
Definition pack_pnf_phy_rel13_value : list row :=
  [Num U16 "number_of_phys"; Elems "phy" NFAPI_MAX_PNF_PHY (Member "number_of_phys") pack_pnf_phy_rel13_info].
(* src: nfapi_p5.c :: pack_pnf_phy_rel13_nb_iot_info *)
Definition pack_pnf_phy_rel13_nb_iot_info : list row :=
  [Num U16 "phy_config_index"; Num U16 "number_of_rfs";
   Elems "rf_config" NFAPI_MAX_PNF_PHY_RF_CONFIG (Member "number_of_rfs") pack_rf_config_info;
   Num U16 "number_of_rf_exclusions";
   Elems "excluded_rf_config" NFAPI_MAX_PNF_PHY_RF_CONFIG (Member "number_of_rf_exclusions") pack_rf_config_info;
   Num U8 "number_of_dl_layers_supported"; Num U8 "number_of_ul_layers_supported";
   Num U16 "maximum_3gpp_release_supported"; Num U8 "nmm_modes_supported"].
(* src: nfapi_p5.c :: pack_pnf_phy_rel13_nb_iot_value *)
Definition pack_pnf_phy_rel13_nb_iot_value : list row :=
  [Num U16 "number_of_phys"; Elems "phy" NFAPI_MAX_PNF_PHY (Member "number_of_phys") pack_pnf_phy_rel13_nb_iot_info].
(* src: nfapi_p5.c :: pack_phy_rf_config_info *)
Definition pack_phy_rf_config_info : list row :=
  [Num U16 "phy_id"; Num U16 "phy_config_index"; Num U16 "rf_config_index"].
(* src: nfapi_p5.c :: pack_pnf_phy_rf_config_value *)
Definition pack_pnf_phy_rf_config_value : list row :=
  [Num U16 "number_phy_rf_config_info";
   Elems "phy_rf_config" NFAPI_MAX_PHY_RF_INSTANCES (Member "number_phy_rf_config_info") pack_phy_rf_config_info].
(* src: nfapi_p5.c :: pack_uint32_tlv_value *)
Definition pack_uint32_tlv_value : list row :=
  [Num U32 "value"].
(* src: nfapi_p5.c :: unpack_uint32_tlv_value *)
Definition unpack_uint32_tlv_value : list row :=
  [Num U32 "value"].
(* src: nfapi_p5.c :: pack_uint16_tlv_value *)
Definition pack_uint16_tlv_value : list row :=
  [Num U16 "value"].
(* src: nfapi_p5.c :: unpack_uint16_tlv_value *)
Definition unpack_uint16_tlv_value : list row :=
  [Num U16 "value"].
(* src: nfapi_p5.c :: pack_int16_tlv_value *)
Definition pack_int16_tlv_value : list row :=
  [Num S16 "value"].
(* src: nfapi_p5.c :: unpack_int16_tlv_value *)
Definition unpack_int16_tlv_value : list row :=
  [Num S16 "value"].
(* src: nfapi_p5.c :: pack_uint8_tlv_value *)
Definition pack_uint8_tlv_value : list row :=
  [Num U8 "value"].
(* src: nfapi_p5.c :: unpack_uint8_tlv_value *)
Definition unpack_uint8_tlv_value : list row :=
  [Num U8 "value"].
(* src: nfapi_p5.c :: pack_ipv4_address_value *)
Definition pack_ipv4_address_value : list row :=
  [Arr U8 "address" NFAPI_IPV4_ADDRESS_LENGTH (Const NFAPI_IPV4_ADDRESS_LENGTH)].
(* src: nfapi_p5.c :: unpack_ipv4_address_value *)
Definition unpack_ipv4_address_value : list row :=
  [Arr U8 "address" NFAPI_IPV4_ADDRESS_LENGTH (Const NFAPI_IPV4_ADDRESS_LENGTH)].
(* src: nfapi_p5.c :: pack_ipv6_address_value *)
Definition pack_ipv6_address_value : list row :=
  [Arr U8 "address" NFAPI_IPV6_ADDRESS_LENGTH (Const NFAPI_IPV6_ADDRESS_LENGTH)].
(* src: nfapi_p5.c :: unpack_ipv6_address_value *)
Definition unpack_ipv6_address_value : list row :=
  [Arr U8 "address" NFAPI_IPV6_ADDRESS_LENGTH (Const NFAPI_IPV6_ADDRESS_LENGTH)].
(* src: nfapi_p5.c :: pack_rf_bands_value *)
Definition pack_rf_bands_value : list row :=
  [Num U16 "number_rf_bands"; Arr U16 "rf_band" NFAPI_MAX_NUM_RF_BANDS (Member "number_rf_bands")].
(* src: nfapi_p5.c :: unpack_rf_bands_value *)
Definition unpack_rf_bands_value : list row :=
  [Num U16 "number_rf_bands"; Arr U16 "rf_band" NFAPI_MAX_NUM_RF_BANDS (Member "number_rf_bands")].
(* src: nfapi_p5.c :: pack_nmm_frequency_bands_value *)
Definition pack_nmm_frequency_bands_value : list row :=
  [Num U16 "number_of_rf_bands"; Arr U16 "bands" NFAPI_MAX_NMM_FREQUENCY_BANDS (Member "number_of_rf_bands")].
(* src: nfapi_p5.c :: unpack_nmm_frequency_bands_value *)
Definition unpack_nmm_frequency_bands_value : list row :=
  [Num U16 "number_of_rf_bands"; Arr U16 "bands" NFAPI_MAX_NMM_FREQUENCY_BANDS (Member "number_of_rf_bands")].
(* src: nfapi_p5.c :: pack_embms_mbsfn_config_value *)
Definition pack_embms_mbsfn_config_value : list row :=
  [Num U16 "num_mbsfn_config"; Arr U16 "radioframe_allocation_period" 8 (Member "num_mbsfn_config");
   Arr U16 "radioframe_allocation_offset" 8 (Member "num_mbsfn_config");
   Arr U8 "fourframes_flag" 8 (Member "num_mbsfn_config");
   Arr S32 "mbsfn_subframeconfig" 8 (Member "num_mbsfn_config")].
(* src: nfapi_p5.c :: pack_recevied_interference_power_measurement_value *)
Definition pack_recevied_interference_power_measurement_value : list row :=
  [Num U16 "number_of_resource_blocks";
   Arr S16 "received_interference_power" NFAPI_MAX_RECEIVED_INTERFERENCE_POWER_RESULTS (Member "number_of_resource_blocks")].
(* src: nfapi_p5.c :: unpack_pnf_param_general_value *)
Definition unpack_pnf_param_general_value : list row :=
  [Num U8 "nfapi_sync_mode"; Num U8 "location_mode"; Num U16 "location_coordinates_length";
   Arr U8 "location_coordinates" NFAPI_PNF_PARAM_GENERAL_LOCATION_LENGTH (Member "location_coordinates_length");
   Num U32 "dl_config_timing"; Num U32 "tx_timing"; Num U32 "ul_config_timing"; Num U32 "hi_dci0_timing";
   Num U16 "maximum_number_phys"; Num U16 "maximum_total_bandwidth"; Num U8 "maximum_total_number_dl_layers";
   Num U8 "maximum_total_number_ul_layers"; Num U8 "shared_bands"; Num U8 "shared_pa"; Num S16 "maximum_total_power";
   Arr U8 "oui" NFAPI_PNF_PARAM_GENERAL_OUI_LENGTH (Const NFAPI_PNF_PARAM_GENERAL_OUI_LENGTH)].
(* src: nfapi_p5.c :: unpack_rf_config_info *)
Definition unpack_rf_config_info : list row :=
  [Num U16 "rf_config_index"].
(* src: nfapi_p5.c :: unpack_pnf_phy_info *)
Definition unpack_pnf_phy_info : list row :=
  [Num U16 "phy_config_index"; Num U16 "number_of_rfs";
   Elems "rf_config" NFAPI_MAX_PNF_PHY_RF_CONFIG (Member "number_of_rfs") unpack_rf_config_info;
   Num U16 "number_of_rf_exclusions";
   Elems "excluded_rf_config" NFAPI_MAX_PNF_PHY_RF_CONFIG (Member "number_of_rf_exclusions") unpack_rf_config_info;
   Num U16 "downlink_channel_bandwidth_supported"; Num U16 "uplink_channel_bandwidth_supported";
   Num U8 "number_of_dl_layers_supported"; Num U8 "number_of_ul_layers_supported";
   Num U16 "maximum_3gpp_release_supported"; Num U8 "nmm_modes_supported"].
(* src: nfapi_p5.c :: unpack_pnf_phy_value *)
Definition unpack_pnf_phy_value : list row :=
  [Num U16 "number_of_phys"; Elems "phy" NFAPI_MAX_PNF_PHY (Member "number_of_phys") unpack_pnf_phy_info].
(* src: nfapi_p5.c :: unpack_pnf_rf_info *)
Definition unpack_pnf_rf_info : list row :=
  [Num U16 "rf_config_index"; Num U16 "band"; Num S16 "maximum_transmit_power"; Num S16 "minimum_transmit_power";
   Num U8 "number_of_antennas_suppported"; Num U32 "minimum_downlink_frequency"; Num U32 "maximum_downlink_frequency";
   Num U32 "minimum_uplink_frequency"; Num U32 "maximum_uplink_frequency"].
(* src: nfapi_p5.c :: unpack_pnf_rf_value *)
Definition unpack_pnf_rf_value : list row :=
  [Num U16 "number_of_rfs"; Elems "rf" NFAPI_MAX_PNF_RF (Member "number_of_rfs") unpack_pnf_rf_info].
(* src: nfapi_p5.c :: unpack_pnf_phy_rel10_info *)
Definition unpack_pnf_phy_rel10_info : list row :=
  [Num U16 "phy_config_index"; Num U16 "transmission_mode_7_supported"; Num U16 "transmission_mode_8_supported";
   Num U16 "two_antenna_ports_for_pucch"; Num U16 "transmission_mode_9_supported"; Num U16 "simultaneous_pucch_pusch";
   Num U16 "four_layer_tx_with_tm3_and_tm4"].
(* src: nfapi_p5.c :: unpack_pnf_phy_rel10_value *)
Definition unpack_pnf_phy_rel10_value : list row :=
  [Num U16 "number_of_phys"; Elems "phy" NFAPI_MAX_PNF_PHY (Member "number_of_phys") unpack_pnf_phy_rel10_info].
(* src: nfapi_p5.c :: unpack_pnf_phy_rel11_info *)
Definition unpack_pnf_phy_rel11_info : list row :=
  [Num U16 "phy_config_index"; Num U16 "edpcch_supported"; Num U16 "multi_ack_csi_reporting";
   Num U16 "pucch_tx_diversity"; Num U16 "ul_comp_supported"; Num U16 "transmission_mode_5_supported"].
(* src: nfapi_p5.c :: unpack_pnf_phy_rel11_value *)
Definition unpack_pnf_phy_rel11_value : list row :=
  [Num U16 "number_of_phys"; Elems "phy" NFAPI_MAX_PNF_PHY (Member "number_of_phys") unpack_pnf_phy_rel11_info].
(* src: nfapi_p5.c :: unpack_phy_phy_rel12_info *)
Definition unpack_phy_phy_rel12_info : list row :=
  [Num U16 "phy_config_index"; Num U16 "csi_subframe_set"; Num U16 "enhanced_4tx_codebook"; Num U16 "drs_supported";
   Num U16 "ul_64qam_supported"; Num U16 "transmission_mode_10_supported"; Num U16 "alternative_bts_indices"].
(* src: nfapi_p5.c :: unpack_pnf_phy_rel12_value *)
Definition unpack_pnf_phy_rel12_value : list row :=
  [Num U16 "number_of_phys"; Items (Strided NFAPI_MAX_PNF_PHY) "phy" (Member "number_of_phys") unpack_phy_phy_rel12_info].
(* src: nfapi_p5.c :: unpack_pnf_phy_rel13_info *)
Definition unpack_pnf_phy_rel13_info : list row :=
  [Num U16 "phy_config_index"; Num U16 "pucch_format4_supported"; Num U16 "pucch_format5_supported";
   Num U16 "more_than_5_ca_support"; Num U16 "laa_supported"; Num U16 "laa_ending_in_dwpts_supported";
   Num U16 "laa_starting_in_second_slot_supported"; Num U16 "beamforming_supported";
   Num U16 "csi_rs_enhancement_supported"; Num U16 "drms_enhancement_supported"; Num U16 "srs_enhancement_supported"].
(* src: nfapi_p5.c :: unpack_pnf_phy_rel13_value *)
Definition unpack_pnf_phy_rel13_value : list row :=
  [Num U16 "number_of_phys"; Elems "phy" NFAPI_MAX_PNF_PHY (Member "number_of_phys") unpack_pnf_phy_rel13_info].
(* src: nfapi_p5.c :: unpack_pnf_phy_rel13_nb_info_info *)
Definition unpack_pnf_phy_rel13_nb_info_info : list row :=
  [Num U16 "phy_config_index"; Num U16 "number_of_rfs";
   Elems "rf_config" NFAPI_MAX_PNF_PHY_RF_CONFIG (Member "number_of_rfs") unpack_rf_config_info;
   Num U16 "number_of_rf_exclusions";
   Elems "excluded_rf_config" NFAPI_MAX_PNF_PHY_RF_CONFIG (Member "number_of_rf_exclusions") unpack_rf_config_info;
   Num U8 "number_of_dl_layers_supported"; Num U8 "number_of_ul_layers_supported";
   Num U16 "maximum_3gpp_release_supported"; Num U8 "nmm_modes_supported"].
(* src: nfapi_p5.c :: unpack_pnf_phy_rel13_nb_iot_value *)
Definition unpack_pnf_phy_rel13_nb_iot_value : list row :=
  [Num U16 "number_of_phys";
   Elems "phy" NFAPI_MAX_PNF_PHY (Member "number_of_phys") unpack_pnf_phy_rel13_nb_info_info].
(* src: nfapi_p5.c :: unpack_phy_rf_config_info *)
Definition unpack_phy_rf_config_info : list row :=
  [Num U16 "phy_id"; Num U16 "phy_config_index"; Num U16 "rf_config_index"].
(* src: nfapi_p5.c :: unpack_pnf_phy_rf_config_value *)
Definition unpack_pnf_phy_rf_config_value : list row :=
  [Num U16 "number_phy_rf_config_info";
   Elems "phy_rf_config" NFAPI_MAX_PHY_RF_INSTANCES (Member "number_phy_rf_config_info") unpack_phy_rf_config_info].
(* src: nfapi_p5.c :: unpack_received_interference_power_measurement_value *)
Definition unpack_received_interference_power_measurement_value : list row :=
  [Num U16 "number_of_resource_blocks";
   Arr S16 "received_interference_power" NFAPI_MAX_RECEIVED_INTERFERENCE_POWER_RESULTS (Member "number_of_resource_blocks")].

(** ** Bodies *)

(* src: nfapi_p5.c :: pack_nr_pnf_param_request *)
Definition pack_nr_pnf_param_request : layout := Layout true [] [].
(* src: nfapi_p5.c :: pack_pnf_param_request *)
Definition pack_pnf_param_request : layout := Layout false [] [].
(* src: nfapi_p5.c :: pack_nr_pnf_param_response *)
Definition pack_nr_pnf_param_response : layout := Layout true [Num U8 "error_code"; Num U8 "num_tlvs"] [
   TlvRow NFAPI_PNF_PARAM_GENERAL_TAG "pnf_param_general" pack_pnf_param_general_value;
   TlvRow NFAPI_PNF_PHY_TAG "pnf_phy" pack_pnf_phy_value].
(* src: nfapi_p5.c :: pack_pnf_param_response *)
Definition pack_pnf_param_response : layout := Layout false [Num U32 "error_code"] [
   TlvRow NFAPI_PNF_PARAM_GENERAL_TAG "pnf_param_general" pack_pnf_param_general_value;
   TlvRow NFAPI_PNF_PHY_TAG "pnf_phy" pack_pnf_phy_value;
   TlvRow NFAPI_PNF_RF_TAG "pnf_rf" pack_pnf_rf_value;
   TlvRow NFAPI_PNF_PHY_REL10_TAG "pnf_phy_rel10" pack_pnf_phy_rel10_value;
   TlvRow NFAPI_PNF_PHY_REL11_TAG "pnf_phy_rel11" pack_pnf_phy_rel11_value;
   TlvRow NFAPI_PNF_PHY_REL12_TAG "pnf_phy_rel12" pack_pnf_phy_rel12_value;
   TlvRow NFAPI_PNF_PHY_REL13_TAG "pnf_phy_rel13" pack_pnf_phy_rel13_value;
   TlvRow NFAPI_PNF_PHY_REL13_NB_IOT_TAG "pnf_phy_rel13_nb_iot" pack_pnf_phy_rel13_nb_iot_value].
(* src: nfapi_p5.c :: pack_nr_pnf_config_request *)
Definition pack_nr_pnf_config_request : layout := Layout true [Num U8 "num_tlvs"] [
   TlvRow NFAPI_PNF_PHY_RF_TAG "pnf_phy_rf_config" pack_pnf_phy_rf_config_value].
(* src: nfapi_p5.c :: pack_pnf_config_request *)
Definition pack_pnf_config_request : layout := Layout false [Num U8 "num_tlvs"] [
   TlvRow NFAPI_PNF_PHY_RF_TAG "pnf_phy_rf_config" pack_pnf_phy_rf_config_value].
(* src: nfapi_p5.c :: pack_nr_pnf_config_response *)
Definition pack_nr_pnf_config_response : layout := Layout true [Num U8 "error_code"] [].
(* src: nfapi_p5.c :: pack_pnf_config_response *)
Definition pack_pnf_config_response : layout := Layout false [Num U32 "error_code"] [].
(* src: nfapi_p5.c :: pack_nr_pnf_start_request *)
Definition pack_nr_pnf_start_request : layout := Layout true [] [].
(* src: nfapi_p5.c :: pack_pnf_start_request *)
Definition pack_pnf_start_request : layout := Layout false [] [].
(* src: nfapi_p5.c :: pack_nr_pnf_start_response *)
Definition pack_nr_pnf_start_response : layout := Layout true [Num U32 "error_code"] [].
(* src: nfapi_p5.c :: pack_pnf_start_response *)
Definition pack_pnf_start_response : layout := Layout false [Num U32 "error_code"] [].
(* src: nfapi_p5.c :: pack_nr_pnf_stop_request *)
Definition pack_nr_pnf_stop_request : layout := Layout true [] [].
(* src: nfapi_p5.c :: pack_pnf_stop_request *)
Definition pack_pnf_stop_request : layout := Layout false [] [].
(* src: nfapi_p5.c :: pack_nr_pnf_stop_response *)
Definition pack_nr_pnf_stop_response : layout := Layout true [Num U32 "error_code"] [].
(* src: nfapi_p5.c :: pack_pnf_stop_response *)
Definition pack_pnf_stop_response : layout := Layout false [Num U32 "error_code"] [].
(* src: nfapi_p5.c :: pack_nr_param_request *)
Definition pack_nr_param_request : layout := Layout true [] [].
(* src: nfapi_p5.c :: pack_param_request *)
Definition pack_param_request : layout := Layout false [] [].
(* src: nfapi_p5.c :: pack_param_response *)
Definition pack_param_response : layout := Layout false [Num U8 "error_code"; Num U8 "num_tlv"] [
   TlvRow NFAPI_L1_STATUS_PHY_STATE_TAG "l1_status.phy_state" pack_uint16_tlv_value;
   TlvRow NFAPI_PHY_CAPABILITIES_DL_BANDWIDTH_SUPPORT_TAG "phy_capabilities.dl_bandwidth_support" pack_uint16_tlv_value;
   TlvRow NFAPI_PHY_CAPABILITIES_UL_BANDWIDTH_SUPPORT_TAG "phy_capabilities.ul_bandwidth_support" pack_uint16_tlv_value;
   TlvRow NFAPI_PHY_CAPABILITIES_DL_MODULATION_SUPPORT_TAG "phy_capabilities.dl_modulation_support" pack_uint16_tlv_value;
   TlvRow NFAPI_PHY_CAPABILITIES_UL_MODULATION_SUPPORT_TAG "phy_capabilities.ul_modulation_support" pack_uint16_tlv_value;
   TlvRow NFAPI_PHY_CAPABILITIES_PHY_ANTENNA_CAPABILITY_TAG "phy_capabilities.phy_antenna_capability" pack_uint16_tlv_value;
   TlvRow NFAPI_PHY_CAPABILITIES_RELEASE_CAPABILITY_TAG "phy_capabilities.release_capability" pack_uint16_tlv_value;
   TlvRow NFAPI_PHY_CAPABILITIES_MBSFN_CAPABILITY_TAG "phy_capabilities.mbsfn_capability" pack_uint16_tlv_value;
   TlvRow NFAPI_SUBFRAME_CONFIG_DUPLEX_MODE_TAG "subframe_config.duplex_mode" pack_uint16_tlv_value;
   TlvRow NFAPI_SUBFRAME_CONFIG_PCFICH_POWER_OFFSET_TAG "subframe_config.pcfich_power_offset" pack_uint16_tlv_value;
   TlvRow NFAPI_SUBFRAME_CONFIG_PB_TAG "subframe_config.pb" pack_uint16_tlv_value;
   TlvRow NFAPI_SUBFRAME_CONFIG_DL_CYCLIC_PREFIX_TYPE_TAG "subframe_config.dl_cyclic_prefix_type" pack_uint16_tlv_value;
   TlvRow NFAPI_SUBFRAME_CONFIG_UL_CYCLIC_PREFIX_TYPE_TAG "subframe_config.ul_cyclic_prefix_type" pack_uint16_tlv_value;
   TlvRow NFAPI_RF_CONFIG_DL_CHANNEL_BANDWIDTH_TAG "rf_config.dl_channel_bandwidth" pack_uint16_tlv_value;
   TlvRow NFAPI_RF_CONFIG_UL_CHANNEL_BANDWIDTH_TAG "rf_config.ul_channel_bandwidth" pack_uint16_tlv_value;
   TlvRow NFAPI_RF_CONFIG_REFERENCE_SIGNAL_POWER_TAG "rf_config.reference_signal_power" pack_uint16_tlv_value;
   TlvRow NFAPI_RF_CONFIG_TX_ANTENNA_PORTS_TAG "rf_config.tx_antenna_ports" pack_uint16_tlv_value;
   TlvRow NFAPI_RF_CONFIG_RX_ANTENNA_PORTS_TAG "rf_config.rx_antenna_ports" pack_uint16_tlv_value;
   TlvRow NFAPI_PHICH_CONFIG_PHICH_RESOURCE_TAG "phich_config.phich_resource" pack_uint16_tlv_value;
   TlvRow NFAPI_PHICH_CONFIG_PHICH_DURATION_TAG "phich_config.phich_duration" pack_uint16_tlv_value;
   TlvRow NFAPI_PHICH_CONFIG_PHICH_POWER_OFFSET_TAG "phich_config.phich_power_offset" pack_uint16_tlv_value;
   TlvRow NFAPI_SCH_CONFIG_PRIMARY_SYNCHRONIZATION_SIGNAL_EPRE_EPRERS_TAG "sch_config.primary_synchronization_signal_epre_eprers" pack_uint16_tlv_value;
   TlvRow NFAPI_SCH_CONFIG_SECONDARY_SYNCHRONIZATION_SIGNAL_EPRE_EPRERS_TAG "sch_config.secondary_synchronization_signal_epre_eprers" pack_uint16_tlv_value;
   TlvRow NFAPI_SCH_CONFIG_PHYSICAL_CELL_ID_TAG "sch_config.physical_cell_id" pack_uint16_tlv_value;
   TlvRow NFAPI_PRACH_CONFIG_CONFIGURATION_INDEX_TAG "prach_config.configuration_index" pack_uint16_tlv_value;
   TlvRow NFAPI_PRACH_CONFIG_ROOT_SEQUENCE_INDEX_TAG "prach_config.root_sequence_index" pack_uint16_tlv_value;
   TlvRow NFAPI_PRACH_CONFIG_ZERO_CORRELATION_ZONE_CONFIGURATION_TAG "prach_config.zero_correlation_zone_configuration" pack_uint16_tlv_value;
   TlvRow NFAPI_PRACH_CONFIG_HIGH_SPEED_FLAG_TAG "prach_config.high_speed_flag" pack_uint16_tlv_value;
   TlvRow NFAPI_PRACH_CONFIG_FREQUENCY_OFFSET_TAG "prach_config.frequency_offset" pack_uint16_tlv_value;
   TlvRow NFAPI_PUSCH_CONFIG_HOPPING_MODE_TAG "pusch_config.hopping_mode" pack_uint16_tlv_value;
   TlvRow NFAPI_PUSCH_CONFIG_HOPPING_OFFSET_TAG "pusch_config.hopping_offset" pack_uint16_tlv_value;
   TlvRow NFAPI_PUSCH_CONFIG_NUMBER_OF_SUBBANDS_TAG "pusch_config.number_of_subbands" pack_uint16_tlv_value;
   TlvRow NFAPI_PUCCH_CONFIG_DELTA_PUCCH_SHIFT_TAG "pucch_config.delta_pucch_shift" pack_uint16_tlv_value;
   TlvRow NFAPI_PUCCH_CONFIG_N_CQI_RB_TAG "pucch_config.n_cqi_rb" pack_uint16_tlv_value;
   TlvRow NFAPI_PUCCH_CONFIG_N_AN_CS_TAG "pucch_config.n_an_cs" pack_uint16_tlv_value;
   TlvRow NFAPI_PUCCH_CONFIG_N1_PUCCH_AN_TAG "pucch_config.n1_pucch_an" pack_uint16_tlv_value;
   TlvRow NFAPI_EMBMS_MBSFN_CONFIG_AREA_IDX_TAG "embms_sib13_config.mbsfn_area_idx" pack_uint8_tlv_value;
   TlvRow NFAPI_EMBMS_MBSFN_CONFIG_AREA_IDR9_TAG "embms_sib13_config.mbsfn_area_id_r9" pack_uint16_tlv_value;
   TlvRow NFAPI_EMBMS_MBSFN_CONFIG_TAG "embms_mbsfn_config" pack_embms_mbsfn_config_value;
   TlvRow NFAPI_FEMBMS_CONFIG_RADIOFRAME_ALLOCATION_PERIOD_TAG "fembms_config.radioframe_allocation_period" pack_uint8_tlv_value;
   TlvRow NFAPI_FEMBMS_CONFIG_RADIOFRAME_ALLOCATION_OFFSET_TAG "fembms_config.radioframe_allocation_offset" pack_uint8_tlv_value;
   TlvRow NFAPI_FEMBMS_CONFIG_NON_MBSFN_FLAG_TAG "fembms_config.non_mbsfn_config_flag" pack_uint8_tlv_value;
   TlvRow NFAPI_FEMBMS_CONFIG_NON_MBSFN_SUBFRAMECONFIG_TAG "fembms_config.non_mbsfn_subframeconfig" pack_uint16_tlv_value;
   TlvRow NFAPI_SRS_CONFIG_BANDWIDTH_CONFIGURATION_TAG "srs_config.bandwidth_configuration" pack_uint16_tlv_value;
   TlvRow NFAPI_SRS_CONFIG_MAX_UP_PTS_TAG "srs_config.max_up_pts" pack_uint16_tlv_value;
   TlvRow NFAPI_SRS_CONFIG_SRS_SUBFRAME_CONFIGURATION_TAG "srs_config.srs_subframe_configuration" pack_uint16_tlv_value;
   TlvRow NFAPI_SRS_CONFIG_SRS_ACKNACK_SRS_SIMULTANEOUS_TRANSMISSION_TAG "srs_config.srs_acknack_srs_simultaneous_transmission" pack_uint16_tlv_value;
   TlvRow NFAPI_UPLINK_REFERENCE_SIGNAL_CONFIG_UPLINK_RS_HOPPING_TAG "uplink_reference_signal_config.uplink_rs_hopping" pack_uint16_tlv_value;
   TlvRow NFAPI_UPLINK_REFERENCE_SIGNAL_CONFIG_GROUP_ASSIGNMENT_TAG "uplink_reference_signal_config.group_assignment" pack_uint16_tlv_value;
   TlvRow NFAPI_UPLINK_REFERENCE_SIGNAL_CONFIG_CYCLIC_SHIFT_1_FOR_DRMS_TAG "uplink_reference_signal_config.cyclic_shift_1_for_drms" pack_uint16_tlv_value;
   TlvRow NFAPI_TDD_FRAME_STRUCTURE_SUBFRAME_ASSIGNMENT_TAG "tdd_frame_structure_config.subframe_assignment" pack_uint16_tlv_value;
   TlvRow NFAPI_TDD_FRAME_STRUCTURE_SPECIAL_SUBFRAME_PATTERNS_TAG "tdd_frame_structure_config.special_subframe_patterns" pack_uint16_tlv_value;
   TlvRow NFAPI_L23_CONFIG_DATA_REPORT_MODE_TAG "l23_config.data_report_mode" pack_uint16_tlv_value;
   TlvRow NFAPI_L23_CONFIG_SFNSF_TAG "l23_config.sfnsf" pack_uint16_tlv_value;
   TlvRow NFAPI_NFAPI_P7_VNF_ADDRESS_IPV4_TAG "nfapi_config.p7_vnf_address_ipv4" pack_ipv4_address_value;
   TlvRow NFAPI_NFAPI_P7_VNF_ADDRESS_IPV6_TAG "nfapi_config.p7_vnf_address_ipv6" pack_ipv6_address_value;
   TlvRow NFAPI_NFAPI_P7_VNF_PORT_TAG "nfapi_config.p7_vnf_port" pack_uint16_tlv_value;
   TlvRow NFAPI_NFAPI_P7_PNF_ADDRESS_IPV4_TAG "nfapi_config.p7_pnf_address_ipv4" pack_ipv4_address_value;
   TlvRow NFAPI_NFAPI_P7_PNF_ADDRESS_IPV6_TAG "nfapi_config.p7_pnf_address_ipv6" pack_ipv6_address_value;
   TlvRow NFAPI_NFAPI_P7_PNF_PORT_TAG "nfapi_config.p7_pnf_port" pack_uint16_tlv_value;
   TlvRow NFAPI_NFAPI_DOWNLINK_UES_PER_SUBFRAME_TAG "nfapi_config.dl_ue_per_sf" pack_uint8_tlv_value;
   TlvRow NFAPI_NFAPI_UPLINK_UES_PER_SUBFRAME_TAG "nfapi_config.ul_ue_per_sf" pack_uint8_tlv_value;
   TlvRow NFAPI_NFAPI_RF_BANDS_TAG "nfapi_config.rf_bands" pack_rf_bands_value;
   TlvRow NFAPI_NFAPI_TIMING_WINDOW_TAG "nfapi_config.timing_window" pack_uint8_tlv_value;
   TlvRow NFAPI_NFAPI_TIMING_INFO_MODE_TAG "nfapi_config.timing_info_mode" pack_uint8_tlv_value;
   TlvRow NFAPI_NFAPI_TIMING_INFO_PERIOD_TAG "nfapi_config.timing_info_period" pack_uint8_tlv_value;
   TlvRow NFAPI_NFAPI_MAXIMUM_TRANSMIT_POWER_TAG "nfapi_config.max_transmit_power" pack_uint16_tlv_value;
   TlvRow NFAPI_NFAPI_EARFCN_TAG "nfapi_config.earfcn" pack_uint32_tlv_value;
   TlvRow NFAPI_NFAPI_NMM_GSM_FREQUENCY_BANDS_TAG "nfapi_config.nmm_gsm_frequency_bands" pack_nmm_frequency_bands_value;
   TlvRow NFAPI_NFAPI_NMM_UMTS_FREQUENCY_BANDS_TAG "nfapi_config.nmm_umts_frequency_bands" pack_nmm_frequency_bands_value;
   TlvRow NFAPI_NFAPI_NMM_LTE_FREQUENCY_BANDS_TAG "nfapi_config.nmm_lte_frequency_bands" pack_nmm_frequency_bands_value;
   TlvRow NFAPI_NFAPI_NMM_UPLINK_RSSI_SUPPORTED_TAG "nfapi_config.nmm_uplink_rssi_supported" pack_uint8_tlv_value].
(* src: nfapi_p5.c :: pack_nr_param_response *)
Definition pack_nr_param_response : layout := Layout true [Num U8 "error_code"; Num U8 "num_tlv"] [
   TlvRow NFAPI_NR_PARAM_TLV_RELEASE_CAPABILITY_TAG "cell_param.release_capability" pack_uint16_tlv_value;
   TlvRow NFAPI_NR_PARAM_TLV_PHY_STATE_TAG "cell_param.phy_state" pack_uint16_tlv_value;
   TlvRow NFAPI_NR_PARAM_TLV_SKIP_BLANK_DL_CONFIG_TAG "cell_param.skip_blank_dl_config" pack_uint8_tlv_value;
   TlvRow NFAPI_NR_PARAM_TLV_SKIP_BLANK_UL_CONFIG_TAG "cell_param.skip_blank_ul_config" pack_uint8_tlv_value;
   TlvRow NFAPI_NR_PARAM_TLV_NUM_CONFIG_TLVS_TO_REPORT_TAG "cell_param.num_config_tlvs_to_report" pack_uint16_tlv_value;
   TlvRow NFAPI_NR_PARAM_TLV_CYCLIC_PREFIX_TAG "carrier_param.cyclic_prefix" pack_uint8_tlv_value;
   TlvRow NFAPI_NR_PARAM_TLV_SUPPORTED_SUBCARRIER_SPACINGS_DL_TAG "carrier_param.supported_subcarrier_spacings_dl" pack_uint16_tlv_value;
   TlvRow NFAPI_NR_PARAM_TLV_SUPPORTED_BANDWIDTH_DL_TAG "carrier_param.supported_bandwidth_dl" pack_uint16_tlv_value;
   TlvRow NFAPI_NR_PARAM_TLV_SUPPORTED_SUBCARRIER_SPACINGS_UL_TAG "carrier_param.supported_subcarrier_spacings_ul" pack_uint8_tlv_value;
   TlvRow NFAPI_NR_PARAM_TLV_SUPPORTED_BANDWIDTH_UL_TAG "carrier_param.supported_bandwidth_ul" pack_uint16_tlv_value;
   TlvRow NFAPI_NR_PARAM_TLV_CCE_MAPPING_TYPE_TAG "pdcch_param.cce_mapping_type" pack_uint8_tlv_value;
   TlvRow NFAPI_NR_PARAM_TLV_CORESET_OUTSIDE_FIRST_3_OFDM_SYMS_OF_SLOT_TAG "pdcch_param.coreset_outside_first_3_of_ofdm_syms_of_slot" pack_uint8_tlv_value;
   TlvRow NFAPI_NR_PARAM_TLV_PRECODER_GRANULARITY_CORESET_TAG "pdcch_param.coreset_precoder_granularity_coreset" pack_uint8_tlv_value;
   TlvRow NFAPI_NR_PARAM_TLV_PDCCH_MU_MIMO_TAG "pdcch_param.pdcch_mu_mimo" pack_uint8_tlv_value;
   TlvRow NFAPI_NR_PARAM_TLV_PDCCH_PRECODER_CYCLING_TAG "pdcch_param.pdcch_precoder_cycling" pack_uint8_tlv_value;
   TlvRow NFAPI_NR_PARAM_TLV_MAX_PDCCHS_PER_SLOT_TAG "pdcch_param.max_pdcch_per_slot" pack_uint8_tlv_value;
   TlvRow NFAPI_NR_PARAM_TLV_PUCCH_FORMATS_TAG "pucch_param.pucch_formats" pack_uint8_tlv_value;
   TlvRow NFAPI_NR_PARAM_TLV_MAX_PUCCHS_PER_SLOT_TAG "pucch_param.max_pucchs_per_slot" pack_uint8_tlv_value;
   TlvRow NFAPI_NR_PARAM_TLV_PDSCH_MAPPING_TYPE_TAG "pdsch_param.pdsch_mapping_type" pack_uint8_tlv_value;
   TlvRow NFAPI_NR_PARAM_TLV_PDSCH_ALLOCATION_TYPES_TAG "pdsch_param.pdsch_allocation_types" pack_uint8_tlv_value;
   TlvRow NFAPI_NR_PARAM_TLV_PDSCH_VRB_TO_PRB_MAPPING_TAG "pdsch_param.pdsch_vrb_to_prb_mapping" pack_uint8_tlv_value;
   TlvRow NFAPI_NR_PARAM_TLV_PDSCH_CBG_TAG "pdsch_param.pdsch_cbg" pack_uint8_tlv_value;
   TlvRow NFAPI_NR_PARAM_TLV_PDSCH_DMRS_CONFIG_TYPES_TAG "pdsch_param.pdsch_dmrs_config_types" pack_uint8_tlv_value;
   TlvRow NFAPI_NR_PARAM_TLV_PDSCH_DMRS_MAX_LENGTH_TAG "pdsch_param.pdsch_dmrs_max_length" pack_uint8_tlv_value;
   TlvRow NFAPI_NR_PARAM_TLV_PDSCH_DMRS_ADDITIONAL_POS_TAG "pdsch_param.pdsch_dmrs_additional_pos" pack_uint8_tlv_value;
   TlvRow NFAPI_NR_PARAM_TLV_MAX_PDSCH_S_YBS_PER_SLOT_TAG "pdsch_param.max_pdsch_tbs_per_slot" pack_uint8_tlv_value;
   TlvRow NFAPI_NR_PARAM_TLV_MAX_NUMBER_MIMO_LAYERS_PDSCH_TAG "pdsch_param.max_number_mimo_layers_pdsch" pack_uint8_tlv_value;
   TlvRow NFAPI_NR_PARAM_TLV_MAX_MU_MIMO_USERS_DL_TAG "pdsch_param.max_mu_mimo_users_dl" pack_uint8_tlv_value;
   TlvRow NFAPI_NR_PARAM_TLV_PDSCH_DATA_IN_DMRS_SYMBOLS_TAG "pdsch_param.pdsch_data_in_dmrs_symbols" pack_uint8_tlv_value;
   TlvRow NFAPI_NR_PARAM_TLV_PREMPTION_SUPPORT_TAG "pdsch_param.premption_support" pack_uint8_tlv_value;
   TlvRow NFAPI_NR_PARAM_TLV_PDSCH_NON_SLOT_SUPPORT_TAG "pdsch_param.pdsch_non_slot_support" pack_uint8_tlv_value;
   TlvRow NFAPI_NR_PARAM_TLV_UCI_MUX_ULSCH_IN_PUSCH_TAG "pusch_param.uci_mux_ulsch_in_pusch" pack_uint8_tlv_value;
   TlvRow NFAPI_NR_PARAM_TLV_UCI_ONLY_PUSCH_TAG "pusch_param.uci_only_pusch" pack_uint8_tlv_value;
   TlvRow NFAPI_NR_PARAM_TLV_PUSCH_FREQUENCY_HOPPING_TAG "pusch_param.pusch_frequency_hopping" pack_uint8_tlv_value;
   TlvRow NFAPI_NR_PARAM_TLV_PUSCH_DMRS_CONFIG_TYPES_TAG "pusch_param.pusch_dmrs_config_types" pack_uint8_tlv_value;
   TlvRow NFAPI_NR_PARAM_TLV_PUSCH_DMRS_MAX_LEN_TAG "pusch_param.pusch_dmrs_max_len" pack_uint8_tlv_value;
   TlvRow NFAPI_NR_PARAM_TLV_PUSCH_DMRS_ADDITIONAL_POS_TAG "pusch_param.pusch_dmrs_additional_pos" pack_uint8_tlv_value;
   TlvRow NFAPI_NR_PARAM_TLV_PUSCH_CBG_TAG "pusch_param.pusch_cbg" pack_uint8_tlv_value;
   TlvRow NFAPI_NR_PARAM_TLV_PUSCH_MAPPING_TYPE_TAG "pusch_param.pusch_mapping_type" pack_uint8_tlv_value;
   TlvRow NFAPI_NR_PARAM_TLV_PUSCH_ALLOCATION_TYPES_TAG "pusch_param.pusch_allocation_types" pack_uint8_tlv_value;
   TlvRow NFAPI_NR_PARAM_TLV_PUSCH_VRB_TO_PRB_MAPPING_TAG "pusch_param.pusch_vrb_to_prb_mapping" pack_uint8_tlv_value;
   TlvRow NFAPI_NR_PARAM_TLV_PUSCH_MAX_PTRS_PORTS_TAG "pusch_param.pusch_max_ptrs_ports" pack_uint8_tlv_value;
   TlvRow NFAPI_NR_PARAM_TLV_MAX_PDUSCHS_TBS_PER_SLOT_TAG "pusch_param.max_pduschs_tbs_per_slot" pack_uint8_tlv_value;
   TlvRow NFAPI_NR_PARAM_TLV_MAX_NUMBER_MIMO_LAYERS_NON_CB_PUSCH_TAG "pusch_param.max_number_mimo_layers_non_cb_pusch" pack_uint8_tlv_value;
   TlvRow NFAPI_NR_PARAM_TLV_SUPPORTED_MODULATION_ORDER_UL_TAG "pusch_param.supported_modulation_order_ul" pack_uint8_tlv_value;
   TlvRow NFAPI_NR_PARAM_TLV_MAX_MU_MIMO_USERS_UL_TAG "pusch_param.max_mu_mimo_users_ul" pack_uint8_tlv_value;
   TlvRow NFAPI_NR_PARAM_TLV_DFTS_OFDM_SUPPORT_TAG "pusch_param.dfts_ofdm_support" pack_uint8_tlv_value;
   TlvRow NFAPI_NR_PARAM_TLV_PUSCH_AGGREGATION_FACTOR_TAG "pusch_param.pusch_aggregation_factor" pack_uint8_tlv_value;
   TlvRow NFAPI_NR_PARAM_TLV_PRACH_LONG_FORMATS_TAG "prach_param.prach_long_formats" pack_uint8_tlv_value;
   TlvRow NFAPI_NR_PARAM_TLV_PRACH_SHORT_FORMATS_TAG "prach_param.prach_short_formats" pack_uint8_tlv_value;
   TlvRow NFAPI_NR_PARAM_TLV_PRACH_RESTRICTED_SETS_TAG "prach_param.prach_restricted_sets" pack_uint8_tlv_value;
   TlvRow NFAPI_NR_PARAM_TLV_MAX_PRACH_FD_OCCASIONS_IN_A_SLOT_TAG "prach_param.max_prach_fd_occasions_in_a_slot" pack_uint8_tlv_value;
   TlvRow NFAPI_NR_PARAM_TLV_RSSI_MEASUREMENT_SUPPORT_TAG "measurement_param.rssi_measurement_support" pack_uint8_tlv_value;
   TlvRow NFAPI_NR_NFAPI_P7_VNF_ADDRESS_IPV4_TAG "nfapi_config.p7_vnf_address_ipv4" pack_ipv4_address_value;
   TlvRow NFAPI_NR_NFAPI_P7_VNF_ADDRESS_IPV6_TAG "nfapi_config.p7_vnf_address_ipv6" pack_ipv6_address_value;
   TlvRow NFAPI_NR_NFAPI_P7_VNF_PORT_TAG "nfapi_config.p7_vnf_port" pack_uint16_tlv_value;
   TlvRow NFAPI_NR_NFAPI_P7_PNF_ADDRESS_IPV4_TAG "nfapi_config.p7_pnf_address_ipv4" pack_ipv4_address_value;
   TlvRow NFAPI_NR_NFAPI_P7_PNF_ADDRESS_IPV6_TAG "nfapi_config.p7_pnf_address_ipv6" pack_ipv6_address_value;
   TlvRow NFAPI_NR_NFAPI_P7_PNF_PORT_TAG "nfapi_config.p7_pnf_port" pack_uint16_tlv_value;
   TlvRow NFAPI_NR_NFAPI_TIMING_WINDOW_TAG "nfapi_config.timing_window" pack_uint8_tlv_value;
   TlvRow NFAPI_NR_NFAPI_TIMING_INFO_MODE_TAG "nfapi_config.timing_info_mode" pack_uint8_tlv_value;
   TlvRow NFAPI_NR_NFAPI_TIMING_INFO_PERIOD_TAG "nfapi_config.timing_info_period" pack_uint8_tlv_value].
(* src: nfapi_p5.c :: pack_config_request *)
Definition pack_config_request : layout := Layout false [Num U8 "num_tlv"] [
   TlvRow NFAPI_SUBFRAME_CONFIG_DUPLEX_MODE_TAG "subframe_config.duplex_mode" pack_uint16_tlv_value;
   TlvRow NFAPI_SUBFRAME_CONFIG_PCFICH_POWER_OFFSET_TAG "subframe_config.pcfich_power_offset" pack_uint16_tlv_value;
   TlvRow NFAPI_SUBFRAME_CONFIG_PB_TAG "subframe_config.pb" pack_uint16_tlv_value;
   TlvRow NFAPI_SUBFRAME_CONFIG_DL_CYCLIC_PREFIX_TYPE_TAG "subframe_config.dl_cyclic_prefix_type" pack_uint16_tlv_value;
   TlvRow NFAPI_SUBFRAME_CONFIG_UL_CYCLIC_PREFIX_TYPE_TAG "subframe_config.ul_cyclic_prefix_type" pack_uint16_tlv_value;
   TlvRow NFAPI_RF_CONFIG_DL_CHANNEL_BANDWIDTH_TAG "rf_config.dl_channel_bandwidth" pack_uint16_tlv_value;
   TlvRow NFAPI_RF_CONFIG_UL_CHANNEL_BANDWIDTH_TAG "rf_config.ul_channel_bandwidth" pack_uint16_tlv_value;
   TlvRow NFAPI_RF_CONFIG_REFERENCE_SIGNAL_POWER_TAG "rf_config.reference_signal_power" pack_uint16_tlv_value;
   TlvRow NFAPI_RF_CONFIG_TX_ANTENNA_PORTS_TAG "rf_config.tx_antenna_ports" pack_uint16_tlv_value;
   TlvRow NFAPI_RF_CONFIG_RX_ANTENNA_PORTS_TAG "rf_config.rx_antenna_ports" pack_uint16_tlv_value;
   TlvRow NFAPI_PHICH_CONFIG_PHICH_RESOURCE_TAG "phich_config.phich_resource" pack_uint16_tlv_value;
   TlvRow NFAPI_PHICH_CONFIG_PHICH_DURATION_TAG "phich_config.phich_duration" pack_uint16_tlv_value;
   TlvRow NFAPI_PHICH_CONFIG_PHICH_POWER_OFFSET_TAG "phich_config.phich_power_offset" pack_uint16_tlv_value;
   TlvRow NFAPI_SCH_CONFIG_PRIMARY_SYNCHRONIZATION_SIGNAL_EPRE_EPRERS_TAG "sch_config.primary_synchronization_signal_epre_eprers" pack_uint16_tlv_value;
   TlvRow NFAPI_SCH_CONFIG_SECONDARY_SYNCHRONIZATION_SIGNAL_EPRE_EPRERS_TAG "sch_config.secondary_synchronization_signal_epre_eprers" pack_uint16_tlv_value;
   TlvRow NFAPI_SCH_CONFIG_PHYSICAL_CELL_ID_TAG "sch_config.physical_cell_id" pack_uint16_tlv_value;
   TlvRow NFAPI_PRACH_CONFIG_CONFIGURATION_INDEX_TAG "prach_config.configuration_index" pack_uint16_tlv_value;
   TlvRow NFAPI_PRACH_CONFIG_ROOT_SEQUENCE_INDEX_TAG "prach_config.root_sequence_index" pack_uint16_tlv_value;
   TlvRow NFAPI_PRACH_CONFIG_ZERO_CORRELATION_ZONE_CONFIGURATION_TAG "prach_config.zero_correlation_zone_configuration" pack_uint16_tlv_value;
   TlvRow NFAPI_PRACH_CONFIG_HIGH_SPEED_FLAG_TAG "prach_config.high_speed_flag" pack_uint16_tlv_value;
   TlvRow NFAPI_PRACH_CONFIG_FREQUENCY_OFFSET_TAG "prach_config.frequency_offset" pack_uint16_tlv_value;
   TlvRow NFAPI_PUSCH_CONFIG_HOPPING_MODE_TAG "pusch_config.hopping_mode" pack_uint16_tlv_value;
   TlvRow NFAPI_PUSCH_CONFIG_HOPPING_OFFSET_TAG "pusch_config.hopping_offset" pack_uint16_tlv_value;
   TlvRow NFAPI_PUSCH_CONFIG_NUMBER_OF_SUBBANDS_TAG "pusch_config.number_of_subbands" pack_uint16_tlv_value;
   TlvRow NFAPI_PUCCH_CONFIG_DELTA_PUCCH_SHIFT_TAG "pucch_config.delta_pucch_shift" pack_uint16_tlv_value;
   TlvRow NFAPI_PUCCH_CONFIG_N_CQI_RB_TAG "pucch_config.n_cqi_rb" pack_uint16_tlv_value;
   TlvRow NFAPI_PUCCH_CONFIG_N_AN_CS_TAG "pucch_config.n_an_cs" pack_uint16_tlv_value;
   TlvRow NFAPI_PUCCH_CONFIG_N1_PUCCH_AN_TAG "pucch_config.n1_pucch_an" pack_uint16_tlv_value;
   TlvRow NFAPI_SRS_CONFIG_BANDWIDTH_CONFIGURATION_TAG "srs_config.bandwidth_configuration" pack_uint16_tlv_value;
   TlvRow NFAPI_SRS_CONFIG_MAX_UP_PTS_TAG "srs_config.max_up_pts" pack_uint16_tlv_value;
   TlvRow NFAPI_SRS_CONFIG_SRS_SUBFRAME_CONFIGURATION_TAG "srs_config.srs_subframe_configuration" pack_uint16_tlv_value;
   TlvRow NFAPI_SRS_CONFIG_SRS_ACKNACK_SRS_SIMULTANEOUS_TRANSMISSION_TAG "srs_config.srs_acknack_srs_simultaneous_transmission" pack_uint16_tlv_value;
   TlvRow NFAPI_UPLINK_REFERENCE_SIGNAL_CONFIG_UPLINK_RS_HOPPING_TAG "uplink_reference_signal_config.uplink_rs_hopping" pack_uint16_tlv_value;
   TlvRow NFAPI_UPLINK_REFERENCE_SIGNAL_CONFIG_GROUP_ASSIGNMENT_TAG "uplink_reference_signal_config.group_assignment" pack_uint16_tlv_value;
   TlvRow NFAPI_UPLINK_REFERENCE_SIGNAL_CONFIG_CYCLIC_SHIFT_1_FOR_DRMS_TAG "uplink_reference_signal_config.cyclic_shift_1_for_drms" pack_uint16_tlv_value;
   TlvRow NFAPI_LAA_CONFIG_ED_THRESHOLD_FOR_LBT_FOR_PDSCH_TAG "laa_config.ed_threshold_lbt_pdsch" pack_uint16_tlv_value;
   TlvRow NFAPI_LAA_CONFIG_ED_THRESHOLD_FOR_LBT_FOR_DRS_TAG "laa_config.ed_threshold_lbt_drs" pack_uint16_tlv_value;
   TlvRow NFAPI_LAA_CONFIG_PD_THRESHOLD_TAG "laa_config.pd_threshold" pack_uint16_tlv_value;
   TlvRow NFAPI_LAA_CONFIG_MULTI_CARRIER_TYPE_TAG "laa_config.multi_carrier_type" pack_uint16_tlv_value;
   TlvRow NFAPI_LAA_CONFIG_MULTI_CARRIER_TX_TAG "laa_config.multi_carrier_tx" pack_uint16_tlv_value;
   TlvRow NFAPI_LAA_CONFIG_MULTI_CARRIER_FREEZE_TAG "laa_config.multi_carrier_freeze" pack_uint16_tlv_value;
   TlvRow NFAPI_LAA_CONFIG_TX_ANTENNA_PORTS_FOR_DRS_TAG "laa_config.tx_antenna_ports_drs" pack_uint16_tlv_value;
   TlvRow NFAPI_LAA_CONFIG_TRANSMISSION_POWER_FOR_DRS_TAG "laa_config.tx_power_drs" pack_uint16_tlv_value;
   TlvRow NFAPI_EMTC_CONFIG_PBCH_REPETITIONS_ENABLE_R13_TAG "emtc_config.pbch_repetitions_enable_r13" pack_uint16_tlv_value;
   TlvRow NFAPI_EMTC_CONFIG_PRACH_CATM_ROOT_SEQUENCE_INDEX_TAG "emtc_config.prach_catm_root_sequence_index" pack_uint16_tlv_value;
   TlvRow NFAPI_EMTC_CONFIG_PRACH_CATM_ZERO_CORRELATION_ZONE_CONFIGURATION_TAG "emtc_config.prach_catm_zero_correlation_zone_configuration" pack_uint16_tlv_value;
   TlvRow NFAPI_EMTC_CONFIG_PRACH_CATM_HIGH_SPEED_FLAG "emtc_config.prach_catm_high_speed_flag" pack_uint16_tlv_value;
   TlvRow NFAPI_EMTC_CONFIG_PRACH_CE_LEVEL_0_ENABLE_TAG "emtc_config.prach_ce_level_0_enable" pack_uint16_tlv_value;
   TlvRow NFAPI_EMTC_CONFIG_PRACH_CE_LEVEL_0_CONFIGURATION_INDEX_TAG "emtc_config.prach_ce_level_0_configuration_index" pack_uint16_tlv_value;
   TlvRow NFAPI_EMTC_CONFIG_PRACH_CE_LEVEL_0_FREQUENCY_OFFSET_TAG "emtc_config.prach_ce_level_0_frequency_offset" pack_uint16_tlv_value;
   TlvRow NFAPI_EMTC_CONFIG_PRACH_CE_LEVEL_0_NUMBER_OF_REPETITIONS_PER_ATTEMPT_TAG "emtc_config.prach_ce_level_0_number_of_repetitions_per_attempt" pack_uint16_tlv_value;
   TlvRow NFAPI_EMTC_CONFIG_PRACH_CE_LEVEL_0_STARTING_SUBFRAME_PERIODICITY_TAG "emtc_config.prach_ce_level_0_starting_subframe_periodicity" pack_uint16_tlv_value;
   TlvRow NFAPI_EMTC_CONFIG_PRACH_CE_LEVEL_0_HOPPING_ENABLE_TAG "emtc_config.prach_ce_level_0_hopping_enable" pack_uint16_tlv_value;
   TlvRow NFAPI_EMTC_CONFIG_PRACH_CE_LEVEL_0_HOPPING_OFFSET_TAG "emtc_config.prach_ce_level_0_hopping_offset" pack_uint16_tlv_value;
   TlvRow NFAPI_EMTC_CONFIG_PRACH_CE_LEVEL_1_ENABLE_TAG "emtc_config.prach_ce_level_1_enable" pack_uint16_tlv_value;
   TlvRow NFAPI_EMTC_CONFIG_PRACH_CE_LEVEL_1_CONFIGURATION_INDEX_TAG "emtc_config.prach_ce_level_1_configuration_index" pack_uint16_tlv_value;
   TlvRow NFAPI_EMTC_CONFIG_PRACH_CE_LEVEL_1_FREQUENCY_OFFSET_TAG "emtc_config.prach_ce_level_1_frequency_offset" pack_uint16_tlv_value;
   TlvRow NFAPI_EMTC_CONFIG_PRACH_CE_LEVEL_1_NUMBER_OF_REPETITIONS_PER_ATTEMPT_TAG "emtc_config.prach_ce_level_1_number_of_repetitions_per_attempt" pack_uint16_tlv_value;
   TlvRow NFAPI_EMTC_CONFIG_PRACH_CE_LEVEL_1_STARTING_SUBFRAME_PERIODICITY_TAG "emtc_config.prach_ce_level_1_starting_subframe_periodicity" pack_uint16_tlv_value;
   TlvRow NFAPI_EMTC_CONFIG_PRACH_CE_LEVEL_1_HOPPING_ENABLE_TAG "emtc_config.prach_ce_level_1_hopping_enable" pack_uint16_tlv_value;
   TlvRow NFAPI_EMTC_CONFIG_PRACH_CE_LEVEL_1_HOPPING_OFFSET_TAG "emtc_config.prach_ce_level_1_hopping_offset" pack_uint16_tlv_value;
   TlvRow NFAPI_EMTC_CONFIG_PRACH_CE_LEVEL_2_ENABLE_TAG "emtc_config.prach_ce_level_2_enable" pack_uint16_tlv_value;
   TlvRow NFAPI_EMTC_CONFIG_PRACH_CE_LEVEL_2_CONFIGURATION_INDEX_TAG "emtc_config.prach_ce_level_2_configuration_index" pack_uint16_tlv_value;
   TlvRow NFAPI_EMTC_CONFIG_PRACH_CE_LEVEL_2_FREQUENCY_OFFSET_TAG "emtc_config.prach_ce_level_2_frequency_offset" pack_uint16_tlv_value;
   TlvRow NFAPI_EMTC_CONFIG_PRACH_CE_LEVEL_2_NUMBER_OF_REPETITIONS_PER_ATTEMPT_TAG "emtc_config.prach_ce_level_2_number_of_repetitions_per_attempt" pack_uint16_tlv_value;
   TlvRow NFAPI_EMTC_CONFIG_PRACH_CE_LEVEL_2_STARTING_SUBFRAME_PERIODICITY_TAG "emtc_config.prach_ce_level_2_starting_subframe_periodicity" pack_uint16_tlv_value;
   TlvRow NFAPI_EMTC_CONFIG_PRACH_CE_LEVEL_2_HOPPING_ENABLE_TAG "emtc_config.prach_ce_level_2_hopping_enable" pack_uint16_tlv_value;
   TlvRow NFAPI_EMTC_CONFIG_PRACH_CE_LEVEL_2_HOPPING_OFFSET_TAG "emtc_config.prach_ce_level_2_hopping_offset" pack_uint16_tlv_value;
   TlvRow NFAPI_EMTC_CONFIG_PRACH_CE_LEVEL_3_ENABLE_TAG "emtc_config.prach_ce_level_3_enable" pack_uint16_tlv_value;
   TlvRow NFAPI_EMTC_CONFIG_PRACH_CE_LEVEL_3_CONFIGURATION_INDEX_TAG "emtc_config.prach_ce_level_3_configuration_index" pack_uint16_tlv_value;
   TlvRow NFAPI_EMTC_CONFIG_PRACH_CE_LEVEL_3_FREQUENCY_OFFSET_TAG "emtc_config.prach_ce_level_3_frequency_offset" pack_uint16_tlv_value;
   TlvRow NFAPI_EMTC_CONFIG_PRACH_CE_LEVEL_3_NUMBER_OF_REPETITIONS_PER_ATTEMPT_TAG "emtc_config.prach_ce_level_3_number_of_repetitions_per_attempt" pack_uint16_tlv_value;
   TlvRow NFAPI_EMTC_CONFIG_PRACH_CE_LEVEL_3_STARTING_SUBFRAME_PERIODICITY_TAG "emtc_config.prach_ce_level_3_starting_subframe_periodicity" pack_uint16_tlv_value;
   TlvRow NFAPI_EMTC_CONFIG_PRACH_CE_LEVEL_3_HOPPING_ENABLE_TAG "emtc_config.prach_ce_level_3_hopping_enable" pack_uint16_tlv_value;
   TlvRow NFAPI_EMTC_CONFIG_PRACH_CE_LEVEL_3_HOPPING_OFFSET_TAG "emtc_config.prach_ce_level_3_hopping_offset" pack_uint16_tlv_value;
   TlvRow NFAPI_EMTC_CONFIG_PUCCH_INTERVAL_ULHOPPINGCONFIGCOMMONMODEA_TAG "emtc_config.pucch_interval_ulhoppingconfigcommonmodea" pack_uint16_tlv_value;
   TlvRow NFAPI_EMTC_CONFIG_PUCCH_INTERVAL_ULHOPPINGCONFIGCOMMONMODEB_TAG "emtc_config.pucch_interval_ulhoppingconfigcommonmodeb" pack_uint16_tlv_value;
   TlvRow NFAPI_TDD_FRAME_STRUCTURE_SUBFRAME_ASSIGNMENT_TAG "tdd_frame_structure_config.subframe_assignment" pack_uint16_tlv_value;
   TlvRow NFAPI_TDD_FRAME_STRUCTURE_SPECIAL_SUBFRAME_PATTERNS_TAG "tdd_frame_structure_config.special_subframe_patterns" pack_uint16_tlv_value;
   TlvRow NFAPI_L23_CONFIG_DATA_REPORT_MODE_TAG "l23_config.data_report_mode" pack_uint16_tlv_value;
   TlvRow NFAPI_L23_CONFIG_SFNSF_TAG "l23_config.sfnsf" pack_uint16_tlv_value;
   TlvRow NFAPI_NFAPI_P7_VNF_ADDRESS_IPV4_TAG "nfapi_config.p7_vnf_address_ipv4" pack_ipv4_address_value;
   TlvRow NFAPI_NFAPI_P7_VNF_ADDRESS_IPV6_TAG "nfapi_config.p7_vnf_address_ipv6" pack_ipv6_address_value;
   TlvRow NFAPI_NFAPI_P7_VNF_PORT_TAG "nfapi_config.p7_vnf_port" pack_uint16_tlv_value;
   TlvRow NFAPI_NFAPI_P7_PNF_ADDRESS_IPV4_TAG "nfapi_config.p7_pnf_address_ipv4" pack_ipv4_address_value;
   TlvRow NFAPI_NFAPI_P7_PNF_ADDRESS_IPV6_TAG "nfapi_config.p7_pnf_address_ipv6" pack_ipv6_address_value;
   TlvRow NFAPI_NFAPI_P7_PNF_PORT_TAG "nfapi_config.p7_pnf_port" pack_uint16_tlv_value;
   TlvRow NFAPI_NFAPI_DOWNLINK_UES_PER_SUBFRAME_TAG "nfapi_config.dl_ue_per_sf" pack_uint8_tlv_value;
   TlvRow NFAPI_NFAPI_UPLINK_UES_PER_SUBFRAME_TAG "nfapi_config.ul_ue_per_sf" pack_uint8_tlv_value;
   TlvRow NFAPI_PHY_RF_BANDS_TAG "nfapi_config.rf_bands" pack_rf_bands_value;
   TlvRow NFAPI_NFAPI_TIMING_WINDOW_TAG "nfapi_config.timing_window" pack_uint8_tlv_value;
   TlvRow NFAPI_NFAPI_TIMING_INFO_MODE_TAG "nfapi_config.timing_info_mode" pack_uint8_tlv_value;
   TlvRow NFAPI_NFAPI_TIMING_INFO_PERIOD_TAG "nfapi_config.timing_info_period" pack_uint8_tlv_value;
   TlvRow NFAPI_NFAPI_MAXIMUM_TRANSMIT_POWER_TAG "nfapi_config.max_transmit_power" pack_uint16_tlv_value;
   TlvRow NFAPI_NFAPI_EARFCN_TAG "nfapi_config.earfcn" pack_uint32_tlv_value;
   TlvRow NFAPI_NFAPI_NMM_GSM_FREQUENCY_BANDS_TAG "nfapi_config.nmm_gsm_frequency_bands" pack_nmm_frequency_bands_value;
   TlvRow NFAPI_NFAPI_NMM_UMTS_FREQUENCY_BANDS_TAG "nfapi_config.nmm_umts_frequency_bands" pack_nmm_frequency_bands_value;
   TlvRow NFAPI_NFAPI_NMM_LTE_FREQUENCY_BANDS_TAG "nfapi_config.nmm_lte_frequency_bands" pack_nmm_frequency_bands_value;
   TlvRow NFAPI_NFAPI_NMM_UPLINK_RSSI_SUPPORTED_TAG "nfapi_config.nmm_uplink_rssi_supported" pack_uint8_tlv_value].
(* src: nfapi_p5.c :: pack_nr_config_response *)
Definition pack_nr_config_response : layout := Layout true
  [Num U8 "error_code"; Num U8 "num_invalid_tlvs"; Num U8 "num_invalid_tlvs_configured_in_idle"; Num U8 "num_invalid_tlvs_configured_in_running"; Num U8 "num_missing_tlvs"]
  [].
(* src: nfapi_p5.c :: pack_config_response *)
Definition pack_config_response : layout := Layout false [Num U32 "error_code"] [].
(* src: nfapi_p5.c :: pack_nr_start_request *)
Definition pack_nr_start_request : layout := Layout true [] [].
(* src: nfapi_p5.c :: pack_start_request *)
Definition pack_start_request : layout := Layout false [] [].
(* src: nfapi_p5.c :: pack_nr_start_response *)
Definition pack_nr_start_response : layout := Layout true [Num U32 "error_code"] [].
(* src: nfapi_p5.c :: pack_start_response *)
Definition pack_start_response : layout := Layout false [Num U32 "error_code"] [].
(* src: nfapi_p5.c :: pack_stop_request *)
Definition pack_stop_request : layout := Layout false [] [].
(* src: nfapi_p5.c :: pack_stop_response *)
Definition pack_stop_response : layout := Layout false [Num U32 "error_code"] [].
(* src: nfapi_p5.c :: pack_measurement_request *)
Definition pack_measurement_request : layout := Layout false [] [
   TlvRow NFAPI_MEASUREMENT_REQUEST_DL_RS_XTX_POWER_TAG "dl_rs_tx_power" pack_uint16_tlv_value;
   TlvRow NFAPI_MEASUREMENT_REQUEST_RECEIVED_INTERFERENCE_POWER_TAG "received_interference_power" pack_uint16_tlv_value;
   TlvRow NFAPI_MEASUREMENT_REQUEST_THERMAL_NOISE_POWER_TAG "thermal_noise_power" pack_uint16_tlv_value].
(* src: nfapi_p5.c :: pack_measurement_response *)
Definition pack_measurement_response : layout := Layout false [Num U32 "error_code"] [
   TlvRow NFAPI_MEASUREMENT_RESPONSE_DL_RS_POWER_MEASUREMENT_TAG "dl_rs_tx_power_measurement" pack_int16_tlv_value;
   TlvRow NFAPI_MEASUREMENT_RESPONSE_RECEIVED_INTERFERENCE_POWER_MEASUREMENT_TAG "received_interference_power_measurement" pack_recevied_interference_power_measurement_value;
   TlvRow NFAPI_MEASUREMENT_RESPONSE_THERMAL_NOISE_MEASUREMENT_TAG "thermal_noise_power_measurement" pack_uint16_tlv_value].
(* src: nfapi_p5.c :: unpack_nr_pnf_param_request *)
Definition unpack_nr_pnf_param_request : layout := Layout true [] [].
(* src: nfapi_p5.c :: unpack_pnf_param_request *)
Definition unpack_pnf_param_request : layout := Layout false [] [].
(* src: nfapi_p5.c :: unpack_nr_pnf_param_response *)
Definition unpack_nr_pnf_param_response : layout := Layout true [Num U8 "error_code"; Num U8 "num_tlvs"] [
   TlvRow NFAPI_PNF_PARAM_GENERAL_TAG "pnf_param_general" unpack_pnf_param_general_value;
   TlvRow NFAPI_PNF_PHY_TAG "pnf_phy" unpack_pnf_phy_value].
(* src: nfapi_p5.c :: unpack_pnf_param_response *)
Definition unpack_pnf_param_response : layout := Layout false [Num U32 "error_code"] [
   TlvRow NFAPI_PNF_PARAM_GENERAL_TAG "pnf_param_general" unpack_pnf_param_general_value;
   TlvRow NFAPI_PNF_PHY_TAG "pnf_phy" unpack_pnf_phy_value;
   TlvRow NFAPI_PNF_RF_TAG "pnf_rf" unpack_pnf_rf_value;
   TlvRow NFAPI_PNF_PHY_REL10_TAG "pnf_phy_rel10" unpack_pnf_phy_rel10_value;
   TlvRow NFAPI_PNF_PHY_REL11_TAG "pnf_phy_rel11" unpack_pnf_phy_rel11_value;
   TlvRow NFAPI_PNF_PHY_REL12_TAG "pnf_phy_rel12" unpack_pnf_phy_rel12_value;
   TlvRow NFAPI_PNF_PHY_REL13_TAG "pnf_phy_rel13" unpack_pnf_phy_rel13_value;
   TlvRow NFAPI_PNF_PHY_REL13_NB_IOT_TAG "pnf_phy_rel13_nb_iot" unpack_pnf_phy_rel13_nb_iot_value].
(* src: nfapi_p5.c :: unpack_nr_pnf_config_request *)
Definition unpack_nr_pnf_config_request : layout := Layout true [Try (Num U8 "num_tlvs")] [
   TlvRow NFAPI_PNF_PHY_RF_TAG "pnf_phy_rf_config" unpack_pnf_phy_rf_config_value].
(* src: nfapi_p5.c :: unpack_pnf_config_request *)
Definition unpack_pnf_config_request : layout := Layout false [Num U8 "num_tlvs"] [
   TlvRow NFAPI_PNF_PHY_RF_TAG "pnf_phy_rf_config" unpack_pnf_phy_rf_config_value].
(* src: nfapi_p5.c :: unpack_nr_pnf_config_response *)
Definition unpack_nr_pnf_config_response : layout := Layout true [Num U8 "error_code"] [].
(* src: nfapi_p5.c :: unpack_pnf_config_response *)
Definition unpack_pnf_config_response : layout := Layout false [Num U32 "error_code"] [].
(* src: nfapi_p5.c :: unpack_nr_pnf_start_request *)
Definition unpack_nr_pnf_start_request : layout := Layout true [] [].
(* src: nfapi_p5.c :: unpack_pnf_start_request *)
Definition unpack_pnf_start_request : layout := Layout false [] [].
(* src: nfapi_p5.c :: unpack_pnf_start_response *)
Definition unpack_pnf_start_response : layout := Layout false [Num U32 "error_code"] [].
(* src: nfapi_p5.c :: unpack_nr_pnf_start_response *)
Definition unpack_nr_pnf_start_response : layout := Layout true [Num U32 "error_code"] [].
(* src: nfapi_p5.c :: unpack_pnf_stop_request *)
Definition unpack_pnf_stop_request : layout := Layout false [] [].
(* src: nfapi_p5.c :: unpack_pnf_stop_response *)
Definition unpack_pnf_stop_response : layout := Layout false [Num U32 "error_code"] [].
(* src: nfapi_p5.c :: unpack_param_request *)
Definition unpack_param_request : layout := Layout false [] [].
(* src: nfapi_p5.c :: unpack_nr_param_request *)
Definition unpack_nr_param_request : layout := Layout true [] [].
(* src: nfapi_p5.c :: unpack_param_response *)
Definition unpack_param_response : layout := Layout false [Num U8 "error_code"; Num U8 "num_tlv"] [
   TlvRow NFAPI_L1_STATUS_PHY_STATE_TAG "l1_status.phy_state" unpack_uint16_tlv_value;
   TlvRow NFAPI_PHY_CAPABILITIES_DL_BANDWIDTH_SUPPORT_TAG "phy_capabilities.dl_bandwidth_support" unpack_uint16_tlv_value;
   TlvRow NFAPI_PHY_CAPABILITIES_UL_BANDWIDTH_SUPPORT_TAG "phy_capabilities.ul_bandwidth_support" unpack_uint16_tlv_value;
   TlvRow NFAPI_PHY_CAPABILITIES_DL_MODULATION_SUPPORT_TAG "phy_capabilities.dl_modulation_support" unpack_uint16_tlv_value;
   TlvRow NFAPI_PHY_CAPABILITIES_UL_MODULATION_SUPPORT_TAG "phy_capabilities.ul_modulation_support" unpack_uint16_tlv_value;
   TlvRow NFAPI_PHY_CAPABILITIES_PHY_ANTENNA_CAPABILITY_TAG "phy_capabilities.phy_antenna_capability" unpack_uint16_tlv_value;
   TlvRow NFAPI_PHY_CAPABILITIES_RELEASE_CAPABILITY_TAG "phy_capabilities.release_capability" unpack_uint16_tlv_value;
   TlvRow NFAPI_PHY_CAPABILITIES_MBSFN_CAPABILITY_TAG "phy_capabilities.mbsfn_capability" unpack_uint16_tlv_value;
   TlvRow NFAPI_LAA_CAPABILITY_LAA_SUPPORT_TAG "laa_capability.laa_support" unpack_uint16_tlv_value;
   TlvRow NFAPI_LAA_CAPABILITY_PD_SENSING_LBT_SUPPORT_TAG "laa_capability.pd_sensing_lbt_support" unpack_uint16_tlv_value;
   TlvRow NFAPI_LAA_CAPABILITY_MULTI_CARRIER_LBT_SUPPORT_TAG "laa_capability.multi_carrier_lbt_support" unpack_uint16_tlv_value;
   TlvRow NFAPI_LAA_CAPABILITY_PARTIAL_SF_SUPPORT_TAG "laa_capability.partial_sf_support" unpack_uint16_tlv_value;
   TlvRow NFAPI_SUBFRAME_CONFIG_DUPLEX_MODE_TAG "subframe_config.duplex_mode" unpack_uint16_tlv_value;
   TlvRow NFAPI_SUBFRAME_CONFIG_PCFICH_POWER_OFFSET_TAG "subframe_config.pcfich_power_offset" unpack_uint16_tlv_value;
   TlvRow NFAPI_SUBFRAME_CONFIG_PB_TAG "subframe_config.pb" unpack_uint16_tlv_value;
   TlvRow NFAPI_SUBFRAME_CONFIG_DL_CYCLIC_PREFIX_TYPE_TAG "subframe_config.dl_cyclic_prefix_type" unpack_uint16_tlv_value;
   TlvRow NFAPI_SUBFRAME_CONFIG_UL_CYCLIC_PREFIX_TYPE_TAG "subframe_config.ul_cyclic_prefix_type" unpack_uint16_tlv_value;
   TlvRow NFAPI_RF_CONFIG_DL_CHANNEL_BANDWIDTH_TAG "rf_config.dl_channel_bandwidth" unpack_uint16_tlv_value;
   TlvRow NFAPI_RF_CONFIG_UL_CHANNEL_BANDWIDTH_TAG "rf_config.ul_channel_bandwidth" unpack_uint16_tlv_value;
   TlvRow NFAPI_RF_CONFIG_REFERENCE_SIGNAL_POWER_TAG "rf_config.reference_signal_power" unpack_uint16_tlv_value;
   TlvRow NFAPI_RF_CONFIG_TX_ANTENNA_PORTS_TAG "rf_config.tx_antenna_ports" unpack_uint16_tlv_value;
   TlvRow NFAPI_RF_CONFIG_RX_ANTENNA_PORTS_TAG "rf_config.rx_antenna_ports" unpack_uint16_tlv_value;
   TlvRow NFAPI_PHICH_CONFIG_PHICH_RESOURCE_TAG "phich_config.phich_resource" unpack_uint16_tlv_value;
   TlvRow NFAPI_PHICH_CONFIG_PHICH_DURATION_TAG "phich_config.phich_duration" unpack_uint16_tlv_value;
   TlvRow NFAPI_PHICH_CONFIG_PHICH_POWER_OFFSET_TAG "phich_config.phich_power_offset" unpack_uint16_tlv_value;
   TlvRow NFAPI_SCH_CONFIG_PRIMARY_SYNCHRONIZATION_SIGNAL_EPRE_EPRERS_TAG "sch_config.primary_synchronization_signal_epre_eprers" unpack_uint16_tlv_value;
   TlvRow NFAPI_SCH_CONFIG_SECONDARY_SYNCHRONIZATION_SIGNAL_EPRE_EPRERS_TAG "sch_config.secondary_synchronization_signal_epre_eprers" unpack_uint16_tlv_value;
   TlvRow NFAPI_SCH_CONFIG_PHYSICAL_CELL_ID_TAG "sch_config.physical_cell_id" unpack_uint16_tlv_value;
   TlvRow NFAPI_PRACH_CONFIG_CONFIGURATION_INDEX_TAG "prach_config.configuration_index" unpack_uint16_tlv_value;
   TlvRow NFAPI_PRACH_CONFIG_ROOT_SEQUENCE_INDEX_TAG "prach_config.root_sequence_index" unpack_uint16_tlv_value;
   TlvRow NFAPI_PRACH_CONFIG_ZERO_CORRELATION_ZONE_CONFIGURATION_TAG "prach_config.zero_correlation_zone_configuration" unpack_uint16_tlv_value;
   TlvRow NFAPI_PRACH_CONFIG_HIGH_SPEED_FLAG_TAG "prach_config.high_speed_flag" unpack_uint16_tlv_value;
   TlvRow NFAPI_PRACH_CONFIG_FREQUENCY_OFFSET_TAG "prach_config.frequency_offset" unpack_uint16_tlv_value;
   TlvRow NFAPI_PUSCH_CONFIG_HOPPING_MODE_TAG "pusch_config.hopping_mode" unpack_uint16_tlv_value;
   TlvRow NFAPI_PUSCH_CONFIG_HOPPING_OFFSET_TAG "pusch_config.hopping_offset" unpack_uint16_tlv_value;
   TlvRow NFAPI_PUSCH_CONFIG_NUMBER_OF_SUBBANDS_TAG "pusch_config.number_of_subbands" unpack_uint16_tlv_value;
   TlvRow NFAPI_PUCCH_CONFIG_DELTA_PUCCH_SHIFT_TAG "pucch_config.delta_pucch_shift" unpack_uint16_tlv_value;
   TlvRow NFAPI_PUCCH_CONFIG_N_CQI_RB_TAG "pucch_config.n_cqi_rb" unpack_uint16_tlv_value;
   TlvRow NFAPI_PUCCH_CONFIG_N_AN_CS_TAG "pucch_config.n_an_cs" unpack_uint16_tlv_value;
   TlvRow NFAPI_PUCCH_CONFIG_N1_PUCCH_AN_TAG "pucch_config.n1_pucch_an" unpack_uint16_tlv_value;
   TlvRow NFAPI_SRS_CONFIG_BANDWIDTH_CONFIGURATION_TAG "srs_config.bandwidth_configuration" unpack_uint16_tlv_value;
   TlvRow NFAPI_SRS_CONFIG_MAX_UP_PTS_TAG "srs_config.max_up_pts" unpack_uint16_tlv_value;
   TlvRow NFAPI_SRS_CONFIG_SRS_SUBFRAME_CONFIGURATION_TAG "srs_config.srs_subframe_configuration" unpack_uint16_tlv_value;
   TlvRow NFAPI_SRS_CONFIG_SRS_ACKNACK_SRS_SIMULTANEOUS_TRANSMISSION_TAG "srs_config.srs_acknack_srs_simultaneous_transmission" unpack_uint16_tlv_value;
   TlvRow NFAPI_UPLINK_REFERENCE_SIGNAL_CONFIG_UPLINK_RS_HOPPING_TAG "uplink_reference_signal_config.uplink_rs_hopping" unpack_uint16_tlv_value;
   TlvRow NFAPI_UPLINK_REFERENCE_SIGNAL_CONFIG_GROUP_ASSIGNMENT_TAG "uplink_reference_signal_config.group_assignment" unpack_uint16_tlv_value;
   TlvRow NFAPI_UPLINK_REFERENCE_SIGNAL_CONFIG_CYCLIC_SHIFT_1_FOR_DRMS_TAG "uplink_reference_signal_config.cyclic_shift_1_for_drms" unpack_uint16_tlv_value;
   TlvRow NFAPI_TDD_FRAME_STRUCTURE_SUBFRAME_ASSIGNMENT_TAG "tdd_frame_structure_config.subframe_assignment" unpack_uint16_tlv_value;
   TlvRow NFAPI_TDD_FRAME_STRUCTURE_SPECIAL_SUBFRAME_PATTERNS_TAG "tdd_frame_structure_config.special_subframe_patterns" unpack_uint16_tlv_value;
   TlvRow NFAPI_L23_CONFIG_DATA_REPORT_MODE_TAG "l23_config.data_report_mode" unpack_uint16_tlv_value;
   TlvRow NFAPI_L23_CONFIG_SFNSF_TAG "l23_config.sfnsf" unpack_uint16_tlv_value;
   TlvRow NFAPI_NFAPI_P7_VNF_ADDRESS_IPV4_TAG "nfapi_config.p7_vnf_address_ipv4" unpack_ipv4_address_value;
   TlvRow NFAPI_NFAPI_P7_VNF_ADDRESS_IPV6_TAG "nfapi_config.p7_vnf_address_ipv6" unpack_ipv6_address_value;
   TlvRow NFAPI_NFAPI_P7_VNF_PORT_TAG "nfapi_config.p7_vnf_port" unpack_uint16_tlv_value;
   TlvRow NFAPI_NFAPI_P7_PNF_ADDRESS_IPV4_TAG "nfapi_config.p7_pnf_address_ipv4" unpack_ipv4_address_value;
   TlvRow NFAPI_NFAPI_P7_PNF_ADDRESS_IPV6_TAG "nfapi_config.p7_pnf_address_ipv6" unpack_ipv6_address_value;
   TlvRow NFAPI_NFAPI_P7_PNF_PORT_TAG "nfapi_config.p7_pnf_port" unpack_uint16_tlv_value;
   TlvRow NFAPI_NFAPI_DOWNLINK_UES_PER_SUBFRAME_TAG "nfapi_config.dl_ue_per_sf" unpack_uint8_tlv_value;
   TlvRow NFAPI_NFAPI_UPLINK_UES_PER_SUBFRAME_TAG "nfapi_config.ul_ue_per_sf" unpack_uint8_tlv_value;
   TlvRow NFAPI_NFAPI_RF_BANDS_TAG "nfapi_config.rf_bands" unpack_rf_bands_value;
   TlvRow NFAPI_NFAPI_TIMING_WINDOW_TAG "nfapi_config.timing_window" unpack_uint8_tlv_value;
   TlvRow NFAPI_NFAPI_TIMING_INFO_MODE_TAG "nfapi_config.timing_info_mode" unpack_uint8_tlv_value;
   TlvRow NFAPI_NFAPI_TIMING_INFO_PERIOD_TAG "nfapi_config.timing_info_period" unpack_uint8_tlv_value;
   TlvRow NFAPI_NFAPI_MAXIMUM_TRANSMIT_POWER_TAG "nfapi_config.max_transmit_power" unpack_uint16_tlv_value;
   TlvRow NFAPI_NFAPI_EARFCN_TAG "nfapi_config.earfcn" unpack_uint32_tlv_value;
   TlvRow NFAPI_NFAPI_NMM_GSM_FREQUENCY_BANDS_TAG "nfapi_config.nmm_gsm_frequency_bands" unpack_nmm_frequency_bands_value;
   TlvRow NFAPI_NFAPI_NMM_UMTS_FREQUENCY_BANDS_TAG "nfapi_config.nmm_umts_frequency_bands" unpack_nmm_frequency_bands_value;
   TlvRow NFAPI_NFAPI_NMM_LTE_FREQUENCY_BANDS_TAG "nfapi_config.nmm_lte_frequency_bands" unpack_nmm_frequency_bands_value;
   TlvRow NFAPI_NFAPI_NMM_UPLINK_RSSI_SUPPORTED_TAG "nfapi_config.nmm_uplink_rssi_supported" unpack_uint8_tlv_value].
(* src: nfapi_p5.c :: unpack_nr_param_response *)
Definition unpack_nr_param_response : layout := Layout true [Num U8 "error_code"; Num U8 "num_tlv"] [
   TlvRow NFAPI_NR_PARAM_TLV_RELEASE_CAPABILITY_TAG "cell_param.release_capability" unpack_uint16_tlv_value;
   TlvRow NFAPI_NR_PARAM_TLV_PHY_STATE_TAG "cell_param.phy_state" unpack_uint16_tlv_value;
   TlvRow NFAPI_NR_PARAM_TLV_SKIP_BLANK_DL_CONFIG_TAG "cell_param.skip_blank_dl_config" unpack_uint8_tlv_value;
   TlvRow NFAPI_NR_PARAM_TLV_SKIP_BLANK_UL_CONFIG_TAG "cell_param.skip_blank_ul_config" unpack_uint8_tlv_value;
   TlvRow NFAPI_NR_PARAM_TLV_NUM_CONFIG_TLVS_TO_REPORT_TAG "cell_param.num_config_tlvs_to_report" unpack_uint16_tlv_value;
   TlvRow NFAPI_NR_PARAM_TLV_CYCLIC_PREFIX_TAG "carrier_param.cyclic_prefix" unpack_uint8_tlv_value;
   TlvRow NFAPI_NR_PARAM_TLV_SUPPORTED_SUBCARRIER_SPACINGS_DL_TAG "carrier_param.supported_subcarrier_spacings_dl" unpack_uint16_tlv_value;
   TlvRow NFAPI_NR_PARAM_TLV_SUPPORTED_BANDWIDTH_DL_TAG "carrier_param.supported_bandwidth_dl" unpack_uint16_tlv_value;
   TlvRow NFAPI_NR_PARAM_TLV_SUPPORTED_SUBCARRIER_SPACINGS_UL_TAG "carrier_param.supported_subcarrier_spacings_ul" unpack_uint8_tlv_value;
   TlvRow NFAPI_NR_PARAM_TLV_SUPPORTED_BANDWIDTH_UL_TAG "carrier_param.supported_bandwidth_ul" unpack_uint16_tlv_value;
   TlvRow NFAPI_NR_PARAM_TLV_CCE_MAPPING_TYPE_TAG "pdcch_param.cce_mapping_type" unpack_uint8_tlv_value;
   TlvRow NFAPI_NR_PARAM_TLV_CORESET_OUTSIDE_FIRST_3_OFDM_SYMS_OF_SLOT_TAG "pdcch_param.coreset_outside_first_3_of_ofdm_syms_of_slot" unpack_uint8_tlv_value;
   TlvRow NFAPI_NR_PARAM_TLV_PRECODER_GRANULARITY_CORESET_TAG "pdcch_param.coreset_precoder_granularity_coreset" unpack_uint8_tlv_value;
   TlvRow NFAPI_NR_PARAM_TLV_PDCCH_MU_MIMO_TAG "pdcch_param.pdcch_mu_mimo" unpack_uint8_tlv_value;
   TlvRow NFAPI_NR_PARAM_TLV_PDCCH_PRECODER_CYCLING_TAG "pdcch_param.pdcch_precoder_cycling" unpack_uint8_tlv_value;
   TlvRow NFAPI_NR_PARAM_TLV_MAX_PDCCHS_PER_SLOT_TAG "pdcch_param.max_pdcch_per_slot" unpack_uint8_tlv_value;
   TlvRow NFAPI_NR_PARAM_TLV_PUCCH_FORMATS_TAG "pucch_param.pucch_formats" unpack_uint8_tlv_value;
   TlvRow NFAPI_NR_PARAM_TLV_MAX_PUCCHS_PER_SLOT_TAG "pucch_param.max_pucchs_per_slot" unpack_uint8_tlv_value;
   TlvRow NFAPI_NR_PARAM_TLV_PDSCH_MAPPING_TYPE_TAG "pdsch_param.pdsch_mapping_type" unpack_uint8_tlv_value;
   TlvRow NFAPI_NR_PARAM_TLV_PDSCH_ALLOCATION_TYPES_TAG "pdsch_param.pdsch_allocation_types" unpack_uint8_tlv_value;
   TlvRow NFAPI_NR_PARAM_TLV_PDSCH_VRB_TO_PRB_MAPPING_TAG "pdsch_param.pdsch_vrb_to_prb_mapping" unpack_uint8_tlv_value;
   TlvRow NFAPI_NR_PARAM_TLV_PDSCH_CBG_TAG "pdsch_param.pdsch_cbg" unpack_uint8_tlv_value;
   TlvRow NFAPI_NR_PARAM_TLV_PDSCH_DMRS_CONFIG_TYPES_TAG "pdsch_param.pdsch_dmrs_config_types" unpack_uint8_tlv_value;
   TlvRow NFAPI_NR_PARAM_TLV_PDSCH_DMRS_MAX_LENGTH_TAG "pdsch_param.pdsch_dmrs_max_length" unpack_uint8_tlv_value;
   TlvRow NFAPI_NR_PARAM_TLV_PDSCH_DMRS_ADDITIONAL_POS_TAG "pdsch_param.pdsch_dmrs_additional_pos" unpack_uint8_tlv_value;
   TlvRow NFAPI_NR_PARAM_TLV_MAX_PDSCH_S_YBS_PER_SLOT_TAG "pdsch_param.max_pdsch_tbs_per_slot" unpack_uint8_tlv_value;
   TlvRow NFAPI_NR_PARAM_TLV_MAX_NUMBER_MIMO_LAYERS_PDSCH_TAG "pdsch_param.max_number_mimo_layers_pdsch" unpack_uint8_tlv_value;
   TlvRow NFAPI_NR_PARAM_TLV_MAX_MU_MIMO_USERS_DL_TAG "pdsch_param.max_mu_mimo_users_dl" unpack_uint8_tlv_value;
   TlvRow NFAPI_NR_PARAM_TLV_PDSCH_DATA_IN_DMRS_SYMBOLS_TAG "pdsch_param.pdsch_data_in_dmrs_symbols" unpack_uint8_tlv_value;
   TlvRow NFAPI_NR_PARAM_TLV_PREMPTION_SUPPORT_TAG "pdsch_param.premption_support" unpack_uint8_tlv_value;
   TlvRow NFAPI_NR_PARAM_TLV_PDSCH_NON_SLOT_SUPPORT_TAG "pdsch_param.pdsch_non_slot_support" unpack_uint8_tlv_value;
   TlvRow NFAPI_NR_PARAM_TLV_UCI_MUX_ULSCH_IN_PUSCH_TAG "pusch_param.uci_mux_ulsch_in_pusch" unpack_uint8_tlv_value;
   TlvRow NFAPI_NR_PARAM_TLV_UCI_ONLY_PUSCH_TAG "pusch_param.uci_only_pusch" unpack_uint8_tlv_value;
   TlvRow NFAPI_NR_PARAM_TLV_PUSCH_FREQUENCY_HOPPING_TAG "pusch_param.pusch_frequency_hopping" unpack_uint8_tlv_value;
   TlvRow NFAPI_NR_PARAM_TLV_PUSCH_DMRS_CONFIG_TYPES_TAG "pusch_param.pusch_dmrs_config_types" unpack_uint8_tlv_value;
   TlvRow NFAPI_NR_PARAM_TLV_PUSCH_DMRS_MAX_LEN_TAG "pusch_param.pusch_dmrs_max_len" unpack_uint8_tlv_value;
   TlvRow NFAPI_NR_PARAM_TLV_PUSCH_DMRS_ADDITIONAL_POS_TAG "pusch_param.pusch_dmrs_additional_pos" unpack_uint8_tlv_value;
   TlvRow NFAPI_NR_PARAM_TLV_PUSCH_CBG_TAG "pusch_param.pusch_cbg" unpack_uint8_tlv_value;
   TlvRow NFAPI_NR_PARAM_TLV_PUSCH_MAPPING_TYPE_TAG "pusch_param.pusch_mapping_type" unpack_uint8_tlv_value;
   TlvRow NFAPI_NR_PARAM_TLV_PUSCH_ALLOCATION_TYPES_TAG "pusch_param.pusch_allocation_types" unpack_uint8_tlv_value;
   TlvRow NFAPI_NR_PARAM_TLV_PUSCH_VRB_TO_PRB_MAPPING_TAG "pusch_param.pusch_vrb_to_prb_mapping" unpack_uint8_tlv_value;
   TlvRow NFAPI_NR_PARAM_TLV_PUSCH_MAX_PTRS_PORTS_TAG "pusch_param.pusch_max_ptrs_ports" unpack_uint8_tlv_value;
   TlvRow NFAPI_NR_PARAM_TLV_MAX_PDUSCHS_TBS_PER_SLOT_TAG "pusch_param.max_pduschs_tbs_per_slot" unpack_uint8_tlv_value;
   TlvRow NFAPI_NR_PARAM_TLV_MAX_NUMBER_MIMO_LAYERS_NON_CB_PUSCH_TAG "pusch_param.max_number_mimo_layers_non_cb_pusch" unpack_uint8_tlv_value;
   TlvRow NFAPI_NR_PARAM_TLV_SUPPORTED_MODULATION_ORDER_UL_TAG "pusch_param.supported_modulation_order_ul" unpack_uint8_tlv_value;
   TlvRow NFAPI_NR_PARAM_TLV_MAX_MU_MIMO_USERS_UL_TAG "pusch_param.max_mu_mimo_users_ul" unpack_uint8_tlv_value;
   TlvRow NFAPI_NR_PARAM_TLV_DFTS_OFDM_SUPPORT_TAG "pusch_param.dfts_ofdm_support" unpack_uint8_tlv_value;
   TlvRow NFAPI_NR_PARAM_TLV_PUSCH_AGGREGATION_FACTOR_TAG "pusch_param.pusch_aggregation_factor" unpack_uint8_tlv_value;
   TlvRow NFAPI_NR_PARAM_TLV_PRACH_LONG_FORMATS_TAG "prach_param.prach_long_formats" unpack_uint8_tlv_value;
   TlvRow NFAPI_NR_PARAM_TLV_PRACH_SHORT_FORMATS_TAG "prach_param.prach_short_formats" unpack_uint8_tlv_value;
   TlvRow NFAPI_NR_PARAM_TLV_PRACH_RESTRICTED_SETS_TAG "prach_param.prach_restricted_sets" unpack_uint8_tlv_value;
   TlvRow NFAPI_NR_PARAM_TLV_MAX_PRACH_FD_OCCASIONS_IN_A_SLOT_TAG "prach_param.max_prach_fd_occasions_in_a_slot" unpack_uint8_tlv_value;
   TlvRow NFAPI_NR_PARAM_TLV_RSSI_MEASUREMENT_SUPPORT_TAG "measurement_param.rssi_measurement_support" unpack_uint8_tlv_value;
   TlvRow NFAPI_NR_NFAPI_P7_VNF_ADDRESS_IPV4_TAG "nfapi_config.p7_vnf_address_ipv4" unpack_ipv4_address_value;
   TlvRow NFAPI_NR_NFAPI_P7_VNF_ADDRESS_IPV6_TAG "nfapi_config.p7_vnf_address_ipv6" unpack_ipv6_address_value;
   TlvRow NFAPI_NR_NFAPI_P7_VNF_PORT_TAG "nfapi_config.p7_vnf_port" unpack_uint16_tlv_value;
   TlvRow NFAPI_NR_NFAPI_P7_PNF_ADDRESS_IPV4_TAG "nfapi_config.p7_pnf_address_ipv4" unpack_ipv4_address_value;
   TlvRow NFAPI_NR_NFAPI_P7_PNF_ADDRESS_IPV6_TAG "nfapi_config.p7_pnf_address_ipv6" unpack_ipv6_address_value;
   TlvRow NFAPI_NR_NFAPI_P7_PNF_PORT_TAG "nfapi_config.p7_pnf_port" unpack_uint16_tlv_value;
   TlvRow NFAPI_NR_NFAPI_TIMING_WINDOW_TAG "nfapi_config.timing_window" unpack_uint8_tlv_value;
   TlvRow NFAPI_NR_NFAPI_TIMING_INFO_MODE_TAG "nfapi_config.timing_info_mode" unpack_uint8_tlv_value;
   TlvRow NFAPI_NR_NFAPI_TIMING_INFO_PERIOD_TAG "nfapi_config.timing_info_period" unpack_uint8_tlv_value].
(* src: nfapi_p5.c :: unpack_config_request *)
Definition unpack_config_request : layout := Layout false [Num U8 "num_tlv"] [
   TlvRow NFAPI_SUBFRAME_CONFIG_DUPLEX_MODE_TAG "subframe_config.duplex_mode" unpack_uint16_tlv_value;
   TlvRow NFAPI_SUBFRAME_CONFIG_PCFICH_POWER_OFFSET_TAG "subframe_config.pcfich_power_offset" unpack_uint16_tlv_value;
   TlvRow NFAPI_SUBFRAME_CONFIG_PB_TAG "subframe_config.pb" unpack_uint16_tlv_value;
   TlvRow NFAPI_SUBFRAME_CONFIG_DL_CYCLIC_PREFIX_TYPE_TAG "subframe_config.dl_cyclic_prefix_type" unpack_uint16_tlv_value;
   TlvRow NFAPI_SUBFRAME_CONFIG_UL_CYCLIC_PREFIX_TYPE_TAG "subframe_config.ul_cyclic_prefix_type" unpack_uint16_tlv_value;
   TlvRow NFAPI_RF_CONFIG_DL_CHANNEL_BANDWIDTH_TAG "rf_config.dl_channel_bandwidth" unpack_uint16_tlv_value;
   TlvRow NFAPI_RF_CONFIG_UL_CHANNEL_BANDWIDTH_TAG "rf_config.ul_channel_bandwidth" unpack_uint16_tlv_value;
   TlvRow NFAPI_RF_CONFIG_REFERENCE_SIGNAL_POWER_TAG "rf_config.reference_signal_power" unpack_uint16_tlv_value;
   TlvRow NFAPI_RF_CONFIG_TX_ANTENNA_PORTS_TAG "rf_config.tx_antenna_ports" unpack_uint16_tlv_value;
   TlvRow NFAPI_RF_CONFIG_RX_ANTENNA_PORTS_TAG "rf_config.rx_antenna_ports" unpack_uint16_tlv_value;
   TlvRow NFAPI_PHICH_CONFIG_PHICH_RESOURCE_TAG "phich_config.phich_resource" unpack_uint16_tlv_value;
   TlvRow NFAPI_PHICH_CONFIG_PHICH_DURATION_TAG "phich_config.phich_duration" unpack_uint16_tlv_value;
   TlvRow NFAPI_PHICH_CONFIG_PHICH_POWER_OFFSET_TAG "phich_config.phich_power_offset" unpack_uint16_tlv_value;
   TlvRow NFAPI_SCH_CONFIG_PRIMARY_SYNCHRONIZATION_SIGNAL_EPRE_EPRERS_TAG "sch_config.primary_synchronization_signal_epre_eprers" unpack_uint16_tlv_value;
   TlvRow NFAPI_SCH_CONFIG_SECONDARY_SYNCHRONIZATION_SIGNAL_EPRE_EPRERS_TAG "sch_config.secondary_synchronization_signal_epre_eprers" unpack_uint16_tlv_value;
   TlvRow NFAPI_SCH_CONFIG_PHYSICAL_CELL_ID_TAG "sch_config.physical_cell_id" unpack_uint16_tlv_value;
   TlvRow NFAPI_PRACH_CONFIG_CONFIGURATION_INDEX_TAG "prach_config.configuration_index" unpack_uint16_tlv_value;
   TlvRow NFAPI_PRACH_CONFIG_ROOT_SEQUENCE_INDEX_TAG "prach_config.root_sequence_index" unpack_uint16_tlv_value;
   TlvRow NFAPI_PRACH_CONFIG_ZERO_CORRELATION_ZONE_CONFIGURATION_TAG "prach_config.zero_correlation_zone_configuration" unpack_uint16_tlv_value;
   TlvRow NFAPI_PRACH_CONFIG_HIGH_SPEED_FLAG_TAG "prach_config.high_speed_flag" unpack_uint16_tlv_value;
   TlvRow NFAPI_PRACH_CONFIG_FREQUENCY_OFFSET_TAG "prach_config.frequency_offset" unpack_uint16_tlv_value;
   TlvRow NFAPI_PUSCH_CONFIG_HOPPING_MODE_TAG "pusch_config.hopping_mode" unpack_uint16_tlv_value;
   TlvRow NFAPI_PUSCH_CONFIG_HOPPING_OFFSET_TAG "pusch_config.hopping_offset" unpack_uint16_tlv_value;
   TlvRow NFAPI_PUSCH_CONFIG_NUMBER_OF_SUBBANDS_TAG "pusch_config.number_of_subbands" unpack_uint16_tlv_value;
   TlvRow NFAPI_PUCCH_CONFIG_DELTA_PUCCH_SHIFT_TAG "pucch_config.delta_pucch_shift" unpack_uint16_tlv_value;
   TlvRow NFAPI_PUCCH_CONFIG_N_CQI_RB_TAG "pucch_config.n_cqi_rb" unpack_uint16_tlv_value;
   TlvRow NFAPI_PUCCH_CONFIG_N_AN_CS_TAG "pucch_config.n_an_cs" unpack_uint16_tlv_value;
   TlvRow NFAPI_PUCCH_CONFIG_N1_PUCCH_AN_TAG "pucch_config.n1_pucch_an" unpack_uint16_tlv_value;
   TlvRow NFAPI_SRS_CONFIG_BANDWIDTH_CONFIGURATION_TAG "srs_config.bandwidth_configuration" unpack_uint16_tlv_value;
   TlvRow NFAPI_SRS_CONFIG_MAX_UP_PTS_TAG "srs_config.max_up_pts" unpack_uint16_tlv_value;
   TlvRow NFAPI_SRS_CONFIG_SRS_SUBFRAME_CONFIGURATION_TAG "srs_config.srs_subframe_configuration" unpack_uint16_tlv_value;
   TlvRow NFAPI_SRS_CONFIG_SRS_ACKNACK_SRS_SIMULTANEOUS_TRANSMISSION_TAG "srs_config.srs_acknack_srs_simultaneous_transmission" unpack_uint16_tlv_value;
   TlvRow NFAPI_UPLINK_REFERENCE_SIGNAL_CONFIG_UPLINK_RS_HOPPING_TAG "uplink_reference_signal_config.uplink_rs_hopping" unpack_uint16_tlv_value;
   TlvRow NFAPI_UPLINK_REFERENCE_SIGNAL_CONFIG_GROUP_ASSIGNMENT_TAG "uplink_reference_signal_config.group_assignment" unpack_uint16_tlv_value;
   TlvRow NFAPI_UPLINK_REFERENCE_SIGNAL_CONFIG_CYCLIC_SHIFT_1_FOR_DRMS_TAG "uplink_reference_signal_config.cyclic_shift_1_for_drms" unpack_uint16_tlv_value;
   TlvRow NFAPI_LAA_CONFIG_ED_THRESHOLD_FOR_LBT_FOR_PDSCH_TAG "laa_config.ed_threshold_lbt_pdsch" unpack_uint16_tlv_value;
   TlvRow NFAPI_LAA_CONFIG_ED_THRESHOLD_FOR_LBT_FOR_DRS_TAG "laa_config.ed_threshold_lbt_drs" unpack_uint16_tlv_value;
   TlvRow NFAPI_LAA_CONFIG_PD_THRESHOLD_TAG "laa_config.pd_threshold" unpack_uint16_tlv_value;
   TlvRow NFAPI_LAA_CONFIG_MULTI_CARRIER_TYPE_TAG "laa_config.multi_carrier_type" unpack_uint16_tlv_value;
   TlvRow NFAPI_LAA_CONFIG_MULTI_CARRIER_TX_TAG "laa_config.multi_carrier_tx" unpack_uint16_tlv_value;
   TlvRow NFAPI_LAA_CONFIG_MULTI_CARRIER_FREEZE_TAG "laa_config.multi_carrier_freeze" unpack_uint16_tlv_value;
   TlvRow NFAPI_LAA_CONFIG_TX_ANTENNA_PORTS_FOR_DRS_TAG "laa_config.tx_antenna_ports_drs" unpack_uint16_tlv_value;
   TlvRow NFAPI_LAA_CONFIG_TRANSMISSION_POWER_FOR_DRS_TAG "laa_config.tx_power_drs" unpack_uint16_tlv_value;
   TlvRow NFAPI_EMTC_CONFIG_PBCH_REPETITIONS_ENABLE_R13_TAG "emtc_config.pbch_repetitions_enable_r13" unpack_uint16_tlv_value;
   TlvRow NFAPI_EMTC_CONFIG_PRACH_CATM_ROOT_SEQUENCE_INDEX_TAG "emtc_config.prach_catm_root_sequence_index" unpack_uint16_tlv_value;
   TlvRow NFAPI_EMTC_CONFIG_PRACH_CATM_ZERO_CORRELATION_ZONE_CONFIGURATION_TAG "emtc_config.prach_catm_zero_correlation_zone_configuration" unpack_uint16_tlv_value;
   TlvRow NFAPI_EMTC_CONFIG_PRACH_CATM_HIGH_SPEED_FLAG "emtc_config.prach_catm_high_speed_flag" unpack_uint16_tlv_value;
   TlvRow NFAPI_EMTC_CONFIG_PRACH_CE_LEVEL_0_ENABLE_TAG "emtc_config.prach_ce_level_0_enable" unpack_uint16_tlv_value;
   TlvRow NFAPI_EMTC_CONFIG_PRACH_CE_LEVEL_0_CONFIGURATION_INDEX_TAG "emtc_config.prach_ce_level_0_configuration_index" unpack_uint16_tlv_value;
   TlvRow NFAPI_EMTC_CONFIG_PRACH_CE_LEVEL_0_FREQUENCY_OFFSET_TAG "emtc_config.prach_ce_level_0_frequency_offset" unpack_uint16_tlv_value;
   TlvRow NFAPI_EMTC_CONFIG_PRACH_CE_LEVEL_0_NUMBER_OF_REPETITIONS_PER_ATTEMPT_TAG "emtc_config.prach_ce_level_0_number_of_repetitions_per_attempt" unpack_uint16_tlv_value;
   TlvRow NFAPI_EMTC_CONFIG_PRACH_CE_LEVEL_0_STARTING_SUBFRAME_PERIODICITY_TAG "emtc_config.prach_ce_level_0_starting_subframe_periodicity" unpack_uint16_tlv_value;
   TlvRow NFAPI_EMTC_CONFIG_PRACH_CE_LEVEL_0_HOPPING_ENABLE_TAG "emtc_config.prach_ce_level_0_hopping_enable" unpack_uint16_tlv_value;
   TlvRow NFAPI_EMTC_CONFIG_PRACH_CE_LEVEL_0_HOPPING_OFFSET_TAG "emtc_config.prach_ce_level_0_hopping_offset" unpack_uint16_tlv_value;
   TlvRow NFAPI_EMTC_CONFIG_PRACH_CE_LEVEL_1_ENABLE_TAG "emtc_config.prach_ce_level_1_enable" unpack_uint16_tlv_value;
   TlvRow NFAPI_EMTC_CONFIG_PRACH_CE_LEVEL_1_CONFIGURATION_INDEX_TAG "emtc_config.prach_ce_level_1_configuration_index" unpack_uint16_tlv_value;
   TlvRow NFAPI_EMTC_CONFIG_PRACH_CE_LEVEL_1_FREQUENCY_OFFSET_TAG "emtc_config.prach_ce_level_1_frequency_offset" unpack_uint16_tlv_value;
   TlvRow NFAPI_EMTC_CONFIG_PRACH_CE_LEVEL_1_NUMBER_OF_REPETITIONS_PER_ATTEMPT_TAG "emtc_config.prach_ce_level_1_number_of_repetitions_per_attempt" unpack_uint16_tlv_value;
   TlvRow NFAPI_EMTC_CONFIG_PRACH_CE_LEVEL_1_STARTING_SUBFRAME_PERIODICITY_TAG "emtc_config.prach_ce_level_1_starting_subframe_periodicity" unpack_uint16_tlv_value;
   TlvRow NFAPI_EMTC_CONFIG_PRACH_CE_LEVEL_1_HOPPING_ENABLE_TAG "emtc_config.prach_ce_level_1_hopping_enable" unpack_uint16_tlv_value;
   TlvRow NFAPI_EMTC_CONFIG_PRACH_CE_LEVEL_1_HOPPING_OFFSET_TAG "emtc_config.prach_ce_level_1_hopping_offset" unpack_uint16_tlv_value;
   TlvRow NFAPI_EMTC_CONFIG_PRACH_CE_LEVEL_2_ENABLE_TAG "emtc_config.prach_ce_level_2_enable" unpack_uint16_tlv_value;
   TlvRow NFAPI_EMTC_CONFIG_PRACH_CE_LEVEL_2_CONFIGURATION_INDEX_TAG "emtc_config.prach_ce_level_2_configuration_index" unpack_uint16_tlv_value;
   TlvRow NFAPI_EMTC_CONFIG_PRACH_CE_LEVEL_2_FREQUENCY_OFFSET_TAG "emtc_config.prach_ce_level_2_frequency_offset" unpack_uint16_tlv_value;
   TlvRow NFAPI_EMTC_CONFIG_PRACH_CE_LEVEL_2_NUMBER_OF_REPETITIONS_PER_ATTEMPT_TAG "emtc_config.prach_ce_level_2_number_of_repetitions_per_attempt" unpack_uint16_tlv_value;
   TlvRow NFAPI_EMTC_CONFIG_PRACH_CE_LEVEL_2_STARTING_SUBFRAME_PERIODICITY_TAG "emtc_config.prach_ce_level_2_starting_subframe_periodicity" unpack_uint16_tlv_value;
   TlvRow NFAPI_EMTC_CONFIG_PRACH_CE_LEVEL_2_HOPPING_ENABLE_TAG "emtc_config.prach_ce_level_2_hopping_enable" unpack_uint16_tlv_value;
   TlvRow NFAPI_EMTC_CONFIG_PRACH_CE_LEVEL_2_HOPPING_OFFSET_TAG "emtc_config.prach_ce_level_2_hopping_offset" unpack_uint16_tlv_value;
   TlvRow NFAPI_EMTC_CONFIG_PRACH_CE_LEVEL_3_ENABLE_TAG "emtc_config.prach_ce_level_3_enable" unpack_uint16_tlv_value;
   TlvRow NFAPI_EMTC_CONFIG_PRACH_CE_LEVEL_3_CONFIGURATION_INDEX_TAG "emtc_config.prach_ce_level_3_configuration_index" unpack_uint16_tlv_value;
   TlvRow NFAPI_EMTC_CONFIG_PRACH_CE_LEVEL_3_FREQUENCY_OFFSET_TAG "emtc_config.prach_ce_level_3_frequency_offset" unpack_uint16_tlv_value;
   TlvRow NFAPI_EMTC_CONFIG_PRACH_CE_LEVEL_3_NUMBER_OF_REPETITIONS_PER_ATTEMPT_TAG "emtc_config.prach_ce_level_3_number_of_repetitions_per_attempt" unpack_uint16_tlv_value;
   TlvRow NFAPI_EMTC_CONFIG_PRACH_CE_LEVEL_3_STARTING_SUBFRAME_PERIODICITY_TAG "emtc_config.prach_ce_level_3_starting_subframe_periodicity" unpack_uint16_tlv_value;
   TlvRow NFAPI_EMTC_CONFIG_PRACH_CE_LEVEL_3_HOPPING_ENABLE_TAG "emtc_config.prach_ce_level_3_hopping_enable" unpack_uint16_tlv_value;
   TlvRow NFAPI_EMTC_CONFIG_PRACH_CE_LEVEL_3_HOPPING_OFFSET_TAG "emtc_config.prach_ce_level_3_hopping_offset" unpack_uint16_tlv_value;
   TlvRow NFAPI_EMTC_CONFIG_PUCCH_INTERVAL_ULHOPPINGCONFIGCOMMONMODEA_TAG "emtc_config.pucch_interval_ulhoppingconfigcommonmodea" unpack_uint16_tlv_value;
   TlvRow NFAPI_EMTC_CONFIG_PUCCH_INTERVAL_ULHOPPINGCONFIGCOMMONMODEB_TAG "emtc_config.pucch_interval_ulhoppingconfigcommonmodeb" unpack_uint16_tlv_value;
   TlvRow NFAPI_TDD_FRAME_STRUCTURE_SUBFRAME_ASSIGNMENT_TAG "tdd_frame_structure_config.subframe_assignment" unpack_uint16_tlv_value;
   TlvRow NFAPI_TDD_FRAME_STRUCTURE_SPECIAL_SUBFRAME_PATTERNS_TAG "tdd_frame_structure_config.special_subframe_patterns" unpack_uint16_tlv_value;
   TlvRow NFAPI_L23_CONFIG_DATA_REPORT_MODE_TAG "l23_config.data_report_mode" unpack_uint16_tlv_value;
   TlvRow NFAPI_L23_CONFIG_SFNSF_TAG "l23_config.sfnsf" unpack_uint16_tlv_value;
   TlvRow NFAPI_NFAPI_P7_VNF_ADDRESS_IPV4_TAG "nfapi_config.p7_vnf_address_ipv4" unpack_ipv4_address_value;
   TlvRow NFAPI_NFAPI_P7_VNF_ADDRESS_IPV6_TAG "nfapi_config.p7_vnf_address_ipv6" unpack_ipv6_address_value;
   TlvRow NFAPI_NFAPI_P7_VNF_PORT_TAG "nfapi_config.p7_vnf_port" unpack_uint16_tlv_value;
   TlvRow NFAPI_NFAPI_P7_PNF_ADDRESS_IPV4_TAG "nfapi_config.p7_pnf_address_ipv4" unpack_ipv4_address_value;
   TlvRow NFAPI_NFAPI_P7_PNF_ADDRESS_IPV6_TAG "nfapi_config.p7_pnf_address_ipv6" unpack_ipv6_address_value;
   TlvRow NFAPI_NFAPI_P7_PNF_PORT_TAG "nfapi_config.p7_pnf_port" unpack_uint16_tlv_value;
   TlvRow NFAPI_NFAPI_DOWNLINK_UES_PER_SUBFRAME_TAG "nfapi_config.dl_ue_per_sf" unpack_uint8_tlv_value;
   TlvRow NFAPI_NFAPI_UPLINK_UES_PER_SUBFRAME_TAG "nfapi_config.ul_ue_per_sf" unpack_uint8_tlv_value;
   TlvRow NFAPI_NFAPI_RF_BANDS_TAG "nfapi_config.rf_bands" unpack_rf_bands_value;
   TlvRow NFAPI_NFAPI_TIMING_WINDOW_TAG "nfapi_config.timing_window" unpack_uint8_tlv_value;
   TlvRow NFAPI_NFAPI_TIMING_INFO_MODE_TAG "nfapi_config.timing_info_mode" unpack_uint8_tlv_value;
   TlvRow NFAPI_NFAPI_TIMING_INFO_PERIOD_TAG "nfapi_config.timing_info_period" unpack_uint8_tlv_value;
   TlvRow NFAPI_NFAPI_MAXIMUM_TRANSMIT_POWER_TAG "nfapi_config.max_transmit_power" unpack_uint16_tlv_value;
   TlvRow NFAPI_NFAPI_EARFCN_TAG "nfapi_config.earfcn" unpack_uint32_tlv_value;
   TlvRow NFAPI_NFAPI_NMM_GSM_FREQUENCY_BANDS_TAG "nfapi_config.nmm_gsm_frequency_bands" unpack_nmm_frequency_bands_value;
   TlvRow NFAPI_NFAPI_NMM_UMTS_FREQUENCY_BANDS_TAG "nfapi_config.nmm_umts_frequency_bands" unpack_nmm_frequency_bands_value;
   TlvRow NFAPI_NFAPI_NMM_LTE_FREQUENCY_BANDS_TAG "nfapi_config.nmm_lte_frequency_bands" unpack_nmm_frequency_bands_value;
   TlvRow NFAPI_NFAPI_NMM_UPLINK_RSSI_SUPPORTED_TAG "nfapi_config.nmm_uplink_rssi_supported" unpack_uint8_tlv_value].
(* src: nfapi_p5.c :: unpack_config_response *)
Definition unpack_config_response : layout := Layout false [Num U32 "error_code"] [].
(* src: nfapi_p5.c :: unpack_nr_config_response *)
Definition unpack_nr_config_response : layout := Layout true
  [Num U8 "error_code"; Num U8 "local invalid_unsupported_TLVs"; Num U8 "local invalidTLVsIdle"; Num U8 "local InvalidTLVsRunning"; Num U8 "local missingTLVS"]
  [].
(* src: nfapi_p5.c :: unpack_nr_start_request *)
Definition unpack_nr_start_request : layout := Layout true [] [].
(* src: nfapi_p5.c :: unpack_start_request *)
Definition unpack_start_request : layout := Layout false [] [].
(* src: nfapi_p5.c :: unpack_start_response *)
Definition unpack_start_response : layout := Layout false [Num U32 "error_code"] [].
(* src: nfapi_p5.c :: unpack_nr_start_response *)
Definition unpack_nr_start_response : layout := Layout true [Num U32 "error_code"] [].
(* src: nfapi_p5.c :: unpack_stop_request *)
Definition unpack_stop_request : layout := Layout false [] [].
(* src: nfapi_p5.c :: unpack_stop_response *)
Definition unpack_stop_response : layout := Layout false [Num U32 "error_code"] [].
(* src: nfapi_p5.c :: unpack_measurement_request *)
Definition unpack_measurement_request : layout := Layout false [] [
   TlvRow NFAPI_MEASUREMENT_REQUEST_DL_RS_XTX_POWER_TAG "dl_rs_tx_power" unpack_uint16_tlv_value;
   TlvRow NFAPI_MEASUREMENT_REQUEST_RECEIVED_INTERFERENCE_POWER_TAG "received_interference_power" unpack_uint16_tlv_value;
   TlvRow NFAPI_MEASUREMENT_REQUEST_THERMAL_NOISE_POWER_TAG "thermal_noise_power" unpack_uint16_tlv_value].
(* src: nfapi_p5.c :: unpack_measurement_response *)
Definition unpack_measurement_response : layout := Layout false [Num U32 "error_code"] [
   TlvRow NFAPI_MEASUREMENT_RESPONSE_DL_RS_POWER_MEASUREMENT_TAG "dl_rs_tx_power_measurement" unpack_int16_tlv_value;
   TlvRow NFAPI_MEASUREMENT_RESPONSE_RECEIVED_INTERFERENCE_POWER_MEASUREMENT_TAG "received_interference_power_measurement" unpack_received_interference_power_measurement_value;
   TlvRow NFAPI_MEASUREMENT_RESPONSE_THERMAL_NOISE_MEASUREMENT_TAG "thermal_noise_power_measurement" unpack_int16_tlv_value].

(** ** CONFIG.request for NR

    The packer ignores the results of the functions it calls, counts the TLVs
    it tries to pack and puts the count in front of them. *)

Definition calls (ps : list packer) (w : wbuf) : wbuf := foldl (fun w (p : packer) => snd (p w)) w ps.

(** The member of an element of an array. *)
Definition at_index (a : string) (i : nat) (b : string) : string := a +:+ "[" +:+ pretty i +:+ "]" +:+ b.

(** A TLV, or a TLV of five numbers that is written out with its padding. *)
Inductive nr_item := NrTlv (t : tlv_row) | NrGrid (tag : Z) (f : string).

Definition pack_nr_item (s : struct) (it : nr_item) : packer :=
  match it with
  | NrTlv t => pack_tlv_row pack_nr_tlv t s
  | NrGrid tag f => fun w =>
      (1, calls ([push16 tag; push16 (5 * 2)] ++
        ((fun i => push16 (num (member s (at_index f i "")) "value")) <$> seq 0 5) ++ [push16 0]) w)
  end.

Definition value_of (f : string) (s : struct) : Z := num (member s f) "value".

(* src: nfapi_p5.c 711-914 pack_nr_config_request *)
Definition nr_config_items (s : struct) : list nr_item :=
  [
   NrTlv (TlvRow NFAPI_NR_CONFIG_DL_BANDWIDTH_TAG "carrier_config.dl_bandwidth" pack_uint16_tlv_value);
   NrTlv (TlvRow NFAPI_NR_CONFIG_DL_FREQUENCY_TAG "carrier_config.dl_frequency" pack_uint32_tlv_value);
   NrGrid NFAPI_NR_CONFIG_DL_K0_TAG "carrier_config.dl_k0";
   NrGrid NFAPI_NR_CONFIG_DL_GRID_SIZE_TAG "carrier_config.dl_grid_size";
   NrTlv (TlvRow NFAPI_NR_CONFIG_NUM_TX_ANT_TAG "carrier_config.num_tx_ant" pack_uint16_tlv_value);
   NrTlv (TlvRow NFAPI_NR_CONFIG_UPLINK_BANDWIDTH_TAG "carrier_config.uplink_bandwidth" pack_uint16_tlv_value);
   NrTlv (TlvRow NFAPI_NR_CONFIG_UPLINK_FREQUENCY_TAG "carrier_config.uplink_frequency" pack_uint32_tlv_value);
   NrGrid NFAPI_NR_CONFIG_UL_K0_TAG "carrier_config.ul_k0";
   NrGrid NFAPI_NR_CONFIG_UL_GRID_SIZE_TAG "carrier_config.ul_grid_size";
   NrTlv (TlvRow NFAPI_NR_CONFIG_NUM_RX_ANT_TAG "carrier_config.num_rx_ant" pack_uint16_tlv_value);
   NrTlv (TlvRow NFAPI_NR_CONFIG_PHY_CELL_ID_TAG "cell_config.phy_cell_id" pack_uint16_tlv_value);
   NrTlv (TlvRow NFAPI_NR_CONFIG_FRAME_DUPLEX_TYPE_TAG "cell_config.frame_duplex_type" pack_uint8_tlv_value);
   NrTlv (TlvRow NFAPI_NR_CONFIG_SS_PBCH_POWER_TAG "ssb_config.ss_pbch_power" pack_uint32_tlv_value);
   NrTlv (TlvRow NFAPI_NR_CONFIG_BCH_PAYLOAD_TAG "ssb_config.bch_payload" pack_uint8_tlv_value);
   NrTlv (TlvRow NFAPI_NR_CONFIG_SCS_COMMON_TAG "ssb_config.scs_common" pack_uint8_tlv_value);
   NrTlv (TlvRow NFAPI_NR_CONFIG_PRACH_SEQUENCE_LENGTH_TAG "prach_config.prach_sequence_length" pack_uint8_tlv_value);
   NrTlv (TlvRow NFAPI_NR_CONFIG_PRACH_SUB_C_SPACING_TAG "prach_config.prach_sub_c_spacing" pack_uint8_tlv_value);
   NrTlv (TlvRow NFAPI_NR_CONFIG_RESTRICTED_SET_CONFIG_TAG "prach_config.restricted_set_config" pack_uint8_tlv_value);
   NrTlv (TlvRow NFAPI_NR_CONFIG_NUM_PRACH_FD_OCCASIONS_TAG "prach_config.num_prach_fd_occasions" pack_uint8_tlv_value);
   NrTlv (TlvRow NFAPI_NR_CONFIG_PRACH_CONFIG_INDEX_TAG "prach_config.prach_ConfigurationIndex" pack_uint8_tlv_value)] ++
  concat ((fun i => [
     NrTlv (TlvRow NFAPI_NR_CONFIG_PRACH_ROOT_SEQUENCE_INDEX_TAG (at_index "prach_config.num_prach_fd_occasions_list" i ".prach_root_sequence_index") pack_uint16_tlv_value);
     NrTlv (TlvRow NFAPI_NR_CONFIG_NUM_ROOT_SEQUENCES_TAG (at_index "prach_config.num_prach_fd_occasions_list" i ".num_root_sequences") pack_uint8_tlv_value);
     NrTlv (TlvRow NFAPI_NR_CONFIG_K1_TAG (at_index "prach_config.num_prach_fd_occasions_list" i ".k1") pack_uint16_tlv_value);
     NrTlv (TlvRow NFAPI_NR_CONFIG_PRACH_ZERO_CORR_CONF_TAG (at_index "prach_config.num_prach_fd_occasions_list" i ".prach_zero_corr_conf") pack_uint8_tlv_value);
     NrTlv (TlvRow NFAPI_NR_CONFIG_NUM_UNUSED_ROOT_SEQUENCES_TAG (at_index "prach_config.num_prach_fd_occasions_list" i ".num_unused_root_sequences") pack_uint16_tlv_value)]) <$>
    seq 0 (Z.to_nat (value_of "prach_config.num_prach_fd_occasions" s))) ++
  [
   NrTlv (TlvRow NFAPI_NR_CONFIG_SSB_PER_RACH_TAG "prach_config.ssb_per_rach" pack_uint8_tlv_value);
   NrTlv (TlvRow NFAPI_NR_CONFIG_SSB_OFFSET_POINT_A_TAG "ssb_table.ssb_offset_point_a" pack_uint16_tlv_value);
   NrTlv (TlvRow NFAPI_NR_CONFIG_SSB_PERIOD_TAG "ssb_table.ssb_period" pack_uint8_tlv_value);
   NrTlv (TlvRow NFAPI_NR_CONFIG_SSB_SUBCARRIER_OFFSET_TAG "ssb_table.ssb_subcarrier_offset" pack_uint8_tlv_value);
   NrTlv (TlvRow NFAPI_NR_CONFIG_SSB_MASK_TAG "ssb_table.ssb_mask_list[0].ssb_mask" pack_uint32_tlv_value);
   NrTlv (TlvRow NFAPI_NR_CONFIG_SSB_MASK_TAG "ssb_table.ssb_mask_list[1].ssb_mask" pack_uint32_tlv_value)] ++
  ((fun i => NrTlv (TlvRow NFAPI_NR_CONFIG_BEAM_ID_TAG (at_index "ssb_table.ssb_beam_id_list" i ".beam_id") pack_uint8_tlv_value)) <$> seq 0 64) ++
  [
   NrTlv (TlvRow NFAPI_NR_CONFIG_TDD_PERIOD_TAG "tdd_table.tdd_period" pack_uint8_tlv_value);
   NrTlv (TlvRow NFAPI_NR_NFAPI_P7_VNF_ADDRESS_IPV4_TAG "nfapi_config.p7_vnf_address_ipv4" pack_ipv4_address_value);
   NrTlv (TlvRow NFAPI_NR_NFAPI_P7_VNF_ADDRESS_IPV6_TAG "nfapi_config.p7_vnf_address_ipv6" pack_ipv6_address_value);
   NrTlv (TlvRow NFAPI_NR_NFAPI_P7_VNF_PORT_TAG "nfapi_config.p7_vnf_port" pack_uint16_tlv_value);
   NrTlv (TlvRow NFAPI_NR_NFAPI_TIMING_WINDOW_TAG "nfapi_config.timing_window" pack_uint8_tlv_value);
   NrTlv (TlvRow NFAPI_NR_NFAPI_TIMING_INFO_MODE_TAG "nfapi_config.timing_info_mode" pack_uint8_tlv_value);
   NrTlv (TlvRow NFAPI_NR_NFAPI_TIMING_INFO_PERIOD_TAG "nfapi_config.timing_info_period" pack_uint8_tlv_value)].

(** The byte in front is written last. *)
(* src: nfapi_p5.c :: pack_nr_config_request *)
Definition pack_nr_config_request (s : struct) : packer := fun w =>
  let pNumTLVFields := length (w_out w) in
  let tlvs := nr_config_items s in
  let w := calls (pack_nr_item s <$> tlvs) (wapp w [0]) in
  pack_at pNumTLVFields (push8 (u8 (Z.of_nat (length tlvs)))) w.

(** The unpacker keeps indices for the TLVs that occur several times.
    [nc_outside] tells whether anything was stored outside the arrays. *)
(* src: nfapi_p5.c 1887-1892 unpack_nr_config_request *)
Record nr_config := NrConfig {
  nc_msg : struct; prach_root_seq_idx : nat; unused_root_seq_idx : nat; ssb_mask_idx : nat; config_beam_idx : nat;
  tdd_periodicity_idx : nat; symbol_per_slot_idx : nat; nc_outside : bool }.

(* src: nfapi_p5.c 1905-1956 unpack_nr_config_request *)
Definition nr_config_rows : list tlv_row := [
   TlvRow NFAPI_NR_CONFIG_DL_BANDWIDTH_TAG "carrier_config.dl_bandwidth" unpack_uint16_tlv_value;
   TlvRow NFAPI_NR_CONFIG_DL_FREQUENCY_TAG "carrier_config.dl_frequency" unpack_uint32_tlv_value;
   TlvRow NFAPI_NR_CONFIG_DL_GRID_SIZE_TAG "carrier_config.dl_grid_size[1]" unpack_uint16_tlv_value;
   TlvRow NFAPI_NR_CONFIG_DL_K0_TAG "carrier_config.dl_k0[1]" unpack_uint16_tlv_value;
   TlvRow NFAPI_NR_CONFIG_NUM_TX_ANT_TAG "carrier_config.num_tx_ant" unpack_uint16_tlv_value;
   TlvRow NFAPI_NR_CONFIG_UPLINK_BANDWIDTH_TAG "carrier_config.uplink_bandwidth" unpack_uint16_tlv_value;
   TlvRow NFAPI_NR_CONFIG_UPLINK_FREQUENCY_TAG "carrier_config.uplink_frequency" unpack_uint32_tlv_value;
   TlvRow NFAPI_NR_CONFIG_UL_GRID_SIZE_TAG "carrier_config.ul_grid_size[1]" unpack_uint16_tlv_value;
   TlvRow NFAPI_NR_CONFIG_UL_K0_TAG "carrier_config.ul_k0[1]" unpack_uint16_tlv_value;
   TlvRow NFAPI_NR_CONFIG_NUM_RX_ANT_TAG "carrier_config.num_rx_ant" unpack_uint16_tlv_value;
   TlvRow NFAPI_NR_CONFIG_FREQUENCY_SHIFT_7P5KHZ_TAG "carrier_config.frequency_shift_7p5khz" unpack_uint8_tlv_value;
   TlvRow NFAPI_NR_CONFIG_PHY_CELL_ID_TAG "cell_config.phy_cell_id" unpack_uint16_tlv_value;
   TlvRow NFAPI_NR_CONFIG_FRAME_DUPLEX_TYPE_TAG "cell_config.frame_duplex_type" unpack_uint8_tlv_value;
   TlvRow NFAPI_NR_CONFIG_SS_PBCH_POWER_TAG "ssb_config.ss_pbch_power" unpack_uint32_tlv_value;
   TlvRow NFAPI_NR_CONFIG_BCH_PAYLOAD_TAG "ssb_config.bch_payload" unpack_uint8_tlv_value;
   TlvRow NFAPI_NR_CONFIG_SCS_COMMON_TAG "ssb_config.scs_common" unpack_uint8_tlv_value;
   TlvRow NFAPI_NR_CONFIG_PRACH_SEQUENCE_LENGTH_TAG "prach_config.prach_sequence_length" unpack_uint8_tlv_value;
   TlvRow NFAPI_NR_CONFIG_PRACH_SUB_C_SPACING_TAG "prach_config.prach_sub_c_spacing" unpack_uint8_tlv_value;
   TlvRow NFAPI_NR_CONFIG_RESTRICTED_SET_CONFIG_TAG "prach_config.restricted_set_config" unpack_uint8_tlv_value;
   TlvRow NFAPI_NR_CONFIG_NUM_PRACH_FD_OCCASIONS_TAG "prach_config.num_prach_fd_occasions" unpack_uint8_tlv_value;
   TlvRow NFAPI_NR_CONFIG_PRACH_CONFIG_INDEX_TAG "prach_config.prach_ConfigurationIndex" unpack_uint8_tlv_value;
   TlvRow NFAPI_NR_CONFIG_PRACH_ROOT_SEQUENCE_INDEX_TAG "prach_config.num_prach_fd_occasions_list[0].prach_root_sequence_index" unpack_uint16_tlv_value;
   TlvRow NFAPI_NR_CONFIG_NUM_ROOT_SEQUENCES_TAG "prach_config.num_prach_fd_occasions_list[0].num_root_sequences" unpack_uint8_tlv_value;
   TlvRow NFAPI_NR_CONFIG_K1_TAG "prach_config.num_prach_fd_occasions_list[0].k1" unpack_uint16_tlv_value;
   TlvRow NFAPI_NR_CONFIG_PRACH_ZERO_CORR_CONF_TAG "prach_config.num_prach_fd_occasions_list[0].prach_zero_corr_conf" unpack_uint8_tlv_value;
   TlvRow NFAPI_NR_CONFIG_NUM_UNUSED_ROOT_SEQUENCES_TAG "prach_config.num_prach_fd_occasions_list[0].num_unused_root_sequences" unpack_uint16_tlv_value;
   TlvRow NFAPI_NR_CONFIG_UNUSED_ROOT_SEQUENCES_TAG "prach_config.num_prach_fd_occasions_list[0].unused_root_sequences_list[0]" unpack_uint16_tlv_value;
   TlvRow NFAPI_NR_CONFIG_SSB_PER_RACH_TAG "prach_config.ssb_per_rach" unpack_uint8_tlv_value;
   TlvRow NFAPI_NR_CONFIG_PRACH_MULTIPLE_CARRIERS_IN_A_BAND_TAG "prach_config.prach_multiple_carriers_in_a_band" unpack_uint8_tlv_value;
   TlvRow NFAPI_NR_CONFIG_SSB_OFFSET_POINT_A_TAG "ssb_table.ssb_offset_point_a" unpack_uint16_tlv_value;
   TlvRow NFAPI_NR_CONFIG_BETA_PSS_TAG "ssb_table.beta_pss" unpack_uint8_tlv_value;
   TlvRow NFAPI_NR_CONFIG_SSB_PERIOD_TAG "ssb_table.ssb_period" unpack_uint8_tlv_value;
   TlvRow NFAPI_NR_CONFIG_SSB_SUBCARRIER_OFFSET_TAG "ssb_table.ssb_subcarrier_offset" unpack_uint8_tlv_value;
   TlvRow NFAPI_NR_CONFIG_MIB_TAG "ssb_table.MIB" unpack_uint32_tlv_value;
   TlvRow NFAPI_NR_CONFIG_SSB_MASK_TAG "ssb_table.ssb_mask_list[0].ssb_mask" unpack_uint32_tlv_value;
   TlvRow NFAPI_NR_CONFIG_BEAM_ID_TAG "ssb_table.ssb_beam_id_list[0].beam_id" unpack_uint8_tlv_value;
   TlvRow NFAPI_NR_CONFIG_SS_PBCH_MULTIPLE_CARRIERS_IN_A_BAND_TAG "ssb_table.ss_pbch_multiple_carriers_in_a_band" unpack_uint8_tlv_value;
   TlvRow NFAPI_NR_CONFIG_MULTIPLE_CELLS_SS_PBCH_IN_A_CARRIER_TAG "ssb_table.multiple_cells_ss_pbch_in_a_carrier" unpack_uint8_tlv_value;
   TlvRow NFAPI_NR_CONFIG_TDD_PERIOD_TAG "tdd_table.tdd_period" unpack_uint8_tlv_value;
   TlvRow NFAPI_NR_CONFIG_SLOT_CONFIG_TAG "tdd_table.max_tdd_periodicity_list[0].max_num_of_symbol_per_slot_list[0].slot_config" unpack_uint8_tlv_value;
   TlvRow NFAPI_NR_CONFIG_RSSI_MEASUREMENT_TAG "measurement_config.rssi_measurement" unpack_uint8_tlv_value;
   TlvRow NFAPI_NR_NFAPI_P7_VNF_ADDRESS_IPV4_TAG "nfapi_config.p7_vnf_address_ipv4" unpack_ipv4_address_value;
   TlvRow NFAPI_NR_NFAPI_P7_VNF_ADDRESS_IPV6_TAG "nfapi_config.p7_vnf_address_ipv6" unpack_ipv6_address_value;
   TlvRow NFAPI_NR_NFAPI_P7_VNF_PORT_TAG "nfapi_config.p7_vnf_port" unpack_uint16_tlv_value;
   TlvRow NFAPI_NR_NFAPI_TIMING_WINDOW_TAG "nfapi_config.timing_window" unpack_uint8_tlv_value;
   TlvRow NFAPI_NR_NFAPI_TIMING_INFO_MODE_TAG "nfapi_config.timing_info_mode" unpack_uint8_tlv_value;
   TlvRow NFAPI_NR_NFAPI_TIMING_INFO_PERIOD_TAG "nfapi_config.timing_info_period" unpack_uint8_tlv_value;
   TlvRow NFAPI_NR_NFAPI_P7_PNF_ADDRESS_IPV6_TAG "nfapi_config.p7_pnf_address_ipv6" unpack_ipv6_address_value;
   TlvRow NFAPI_NR_NFAPI_P7_PNF_PORT_TAG "nfapi_config.p7_pnf_port" unpack_uint16_tlv_value].

(** Reading a value into the member [f], whose TL is stored first; [ok] tells
    whether the member exists. *)
Definition store (rows : list row) (tl : nfapi_tl_t) (f : string) (ok : bool) : unpacker nr_config := fun c l =>
  storing (fun v => NrConfig (set_member f v (nc_msg c)) (prach_root_seq_idx c) (unused_root_seq_idx c) (ssb_mask_idx c)
    (config_beam_idx c) (tdd_periodicity_idx c) (symbol_per_slot_idx c) (nc_outside c || negb ok))
    (unpack_rows [] rows (set_tl tl (member (nc_msg c) f)) l).
(** What is done after a value has been read or not. *)
Definition afterwards {M} (u : unpacker M) (g : M -> M) : unpacker M := fun m l => storing g (u m l).

Definition set_indices (p u m b t sy : nat) (c : nr_config) : nr_config :=
  NrConfig (nc_msg c) p u m b t sy (nc_outside c).

(** The list of FD occasions is allocated with one element, and that element's
    list of unused root sequences too.  A CONFIG.request says nothing about the
    TLs of the five values of a grid.  In the loop over these five values only
    the last result counts, which is zero if an earlier one is. *)
Definition fd_occasion (f : string) (t : tlv_row) (tl : nfapi_tl_t) : unpacker nr_config := fun c =>
  store (t_rows t) tl (at_index "prach_config.num_prach_fd_occasions_list" (prach_root_seq_idx c) f)
    (prach_root_seq_idx c <? 1)%nat c.
Fixpoint nr_grid_values (f : string) (ix : list nat) : unpacker nr_config :=
  match ix with
  | [] => pass
  | i :: ix =>
      andthen (fun c =>
        store unpack_uint16_tlv_value (tl_of (member (nc_msg c) (at_index f i ""))) (at_index f i "") true c)
        (nr_grid_values f ix)
  end.

(* src: nfapi_p5.c 1979-2054 unpack_nr_config_request *)
Definition nr_config_switch (t : tlv_row) (tl : nfapi_tl_t) : unpacker nr_config := fun c =>
  switch
    [(NFAPI_NR_CONFIG_PRACH_ROOT_SEQUENCE_INDEX_TAG,
       afterwards (fd_occasion ".prach_root_sequence_index" t tl) (fun c =>
         set_indices (S (prach_root_seq_idx c)) (unused_root_seq_idx c) (ssb_mask_idx c) (config_beam_idx c)
         (tdd_periodicity_idx c) (symbol_per_slot_idx c) c) c);
     (NFAPI_NR_CONFIG_K1_TAG, fd_occasion ".k1" t tl c);
     (NFAPI_NR_CONFIG_PRACH_ZERO_CORR_CONF_TAG, fd_occasion ".prach_zero_corr_conf" t tl c);
     (NFAPI_NR_CONFIG_NUM_ROOT_SEQUENCES_TAG, fd_occasion ".num_root_sequences" t tl c);
     (NFAPI_NR_CONFIG_NUM_UNUSED_ROOT_SEQUENCES_TAG, fd_occasion ".num_unused_root_sequences" t tl c);
     (NFAPI_NR_CONFIG_UNUSED_ROOT_SEQUENCES_TAG,
       afterwards (store (t_rows t) tl
         (at_index "prach_config.num_prach_fd_occasions_list" (prach_root_seq_idx c)
           (at_index ".unused_root_sequences_list" (unused_root_seq_idx c) ""))
         ((prach_root_seq_idx c <? 1) && (unused_root_seq_idx c <? 1))%nat) (fun c =>
         set_indices (prach_root_seq_idx c) (S (unused_root_seq_idx c)) (ssb_mask_idx c) (config_beam_idx c)
         (tdd_periodicity_idx c) (symbol_per_slot_idx c) c) c);
     (NFAPI_NR_CONFIG_SSB_MASK_TAG,
       afterwards (store unpack_uint32_tlv_value tl (at_index "ssb_table.ssb_mask_list" (ssb_mask_idx c) ".ssb_mask")
         (ssb_mask_idx c <? 2)%nat) (fun c =>
         set_indices (prach_root_seq_idx c) (unused_root_seq_idx c) (S (ssb_mask_idx c)) (config_beam_idx c)
         (tdd_periodicity_idx c) (symbol_per_slot_idx c) c) c);
     (NFAPI_NR_CONFIG_DL_GRID_SIZE_TAG, nr_grid_values "carrier_config.dl_grid_size" (seq 0 5) c);
     (NFAPI_NR_CONFIG_DL_K0_TAG, nr_grid_values "carrier_config.dl_k0" (seq 0 5) c);
     (NFAPI_NR_CONFIG_UL_GRID_SIZE_TAG, nr_grid_values "carrier_config.ul_grid_size" (seq 0 5) c);
     (NFAPI_NR_CONFIG_UL_K0_TAG, nr_grid_values "carrier_config.ul_k0" (seq 0 5) c);
     (NFAPI_NR_CONFIG_BEAM_ID_TAG,
       afterwards (store (t_rows t) tl (at_index "ssb_table.ssb_beam_id_list" (config_beam_idx c) ".beam_id")
         (config_beam_idx c <? 64)%nat) (fun c =>
         set_indices (prach_root_seq_idx c) (unused_root_seq_idx c) (ssb_mask_idx c) (S (config_beam_idx c))
         (tdd_periodicity_idx c) (symbol_per_slot_idx c) c) c);
     (NFAPI_NR_CONFIG_SLOT_CONFIG_TAG,
       afterwards (store (t_rows t) tl
         (at_index "tdd_table.max_tdd_periodicity_list" (tdd_periodicity_idx c)
           (at_index ".max_num_of_symbol_per_slot_list" (symbol_per_slot_idx c) ".slot_config"))
         (tdd_periodicity_idx c <? 40)%nat) (fun c =>
       let sy := ((symbol_per_slot_idx c + 1) mod 14)%nat in
       set_indices (prach_root_seq_idx c) (unused_root_seq_idx c) (ssb_mask_idx c) (config_beam_idx c)
         (if sy =? 0 then S (tdd_periodicity_idx c) else tdd_periodicity_idx c)%nat sy c) c)]
    (store (t_rows t) tl (t_member t) true c) (tl_tag tl).

(** The TL goes to the member that the table names, whatever the switch does. *)
Definition nr_config_entry (t : tlv_row) : unpack_tlv_t nr_config := UnpackTlv (t_tag t) (fun tl c =>
  nr_config_switch t tl
    (NrConfig (set_member (t_member t) (set_tl tl (member (nc_msg c) (t_member t))) (nc_msg c)) (prach_root_seq_idx c)
      (unused_root_seq_idx c) (ssb_mask_idx c) (config_beam_idx c) (tdd_periodicity_idx c) (symbol_per_slot_idx c)
      (nc_outside c))).

(** The result of reading the count is ignored.  The loop is the one of
    [unpack_nr_tlv_list] with another table. *)
(* src: nfapi_p5.c :: unpack_nr_config_request *)
Definition unpack_nr_config_request (s : struct) (l : list Z) : Z * nr_config :=
  let '(s, l) := match pull8 l with Some (v, l) => (set_num "num_tlv" v s, l) | None => (s, l) end in
  let '(r, c, _) := unpack_nr_tlv_list (map nr_config_entry nr_config_rows) None (NrConfig s 0 0 0 0 0 0 false) l in
  (r, c).

(** ** The messages *)

(* src: nfapi_interface.h 94-99 nfapi_p4_p5_message_header_t *)
Record nfapi_p4_p5_message_header_t := P5Header {
  h_phy_id : Z; h_message_id : Z; h_message_length : Z; h_spare : Z }.

(* src: nfapi_interface.h :: NFAPI_HEADER_LENGTH *)
Definition NFAPI_HEADER_LENGTH : Z := 8.

(** The size of a C type, by its name. *)
Section messages.
Context (sizeof : string -> Z).
(** The callbacks for vendor extension messages; the proxy sets none. *)
Context (pack_p4_p5_vendor_extension : option (struct -> packer)).
Context (unpack_p4_p5_vendor_extension : option (Z -> list Z -> Z * struct)).

Definition is_vendor_extension (id : Z) : bool :=
  (NFAPI_VENDOR_EXT_MSG_MIN <=? id) && (id <=? NFAPI_VENDOR_EXT_MSG_MAX).

Definition pack_other (id : Z) (s : struct) : packer :=
  if is_vendor_extension id then
    match pack_p4_p5_vendor_extension with Some fn => fn s | None => pack_fail end
  else pack_fail.
Definition unpack_other (id : Z) (l : list Z) : Z * struct :=
  if is_vendor_extension id then
    match unpack_p4_p5_vendor_extension with Some fn => fn id l | None => (-1, zero) end
  else (-1, zero).

(* src: nfapi_p5.c :: pack_nr_p5_message_body *)
Definition pack_nr_p5_message_body (id : Z) (s : struct) : packer :=
  switch
    [(NFAPI_NR_PHY_MSG_TYPE_PNF_PARAM_REQUEST, pack_layout pack_nr_pnf_param_request s);
     (NFAPI_PNF_PARAM_RESPONSE, pack_layout pack_nr_pnf_param_response s);
     (NFAPI_NR_PHY_MSG_TYPE_PNF_CONFIG_REQUEST, pack_layout pack_nr_pnf_config_request s);
     (NFAPI_NR_PHY_MSG_TYPE_PNF_CONFIG_RESPONSE, pack_layout pack_nr_pnf_config_response s);
     (NFAPI_NR_PHY_MSG_TYPE_PNF_START_REQUEST, pack_layout pack_nr_pnf_start_request s);
     (NFAPI_NR_PHY_MSG_TYPE_PNF_START_RESPONSE, pack_layout pack_nr_pnf_start_response s);
     (NFAPI_NR_PHY_MSG_TYPE_PNF_STOP_REQUEST, pack_layout pack_nr_pnf_stop_request s);
     (NFAPI_PNF_STOP_RESPONSE, pack_layout pack_nr_pnf_stop_response s);
     (NFAPI_NR_PHY_MSG_TYPE_PARAM_REQUEST, pack_layout pack_nr_param_request s);
     (NFAPI_NR_PHY_MSG_TYPE_PARAM_RESPONSE, pack_layout pack_nr_param_response s);
     (NFAPI_NR_PHY_MSG_TYPE_CONFIG_REQUEST, pack_nr_config_request s);
     (NFAPI_NR_PHY_MSG_TYPE_CONFIG_RESPONSE, pack_layout pack_nr_config_response s);
     (NFAPI_NR_PHY_MSG_TYPE_START_REQUEST, pack_layout pack_nr_start_request s);
     (NFAPI_NR_PHY_MSG_TYPE_START_RESPONSE, pack_layout pack_nr_start_response s);
     (NFAPI_NR_PHY_MSG_TYPE_STOP_REQUEST, pack_layout pack_stop_request s);
     (NFAPI_NR_PHY_MSG_TYPE_STOP_RESPONSE, pack_layout pack_stop_response s)]
    (pack_other id s) id.
(* src: nfapi_p5.c :: pack_p5_message_body *)
Definition pack_p5_message_body (id : Z) (s : struct) : packer :=
  switch
    [(NFAPI_PNF_PARAM_REQUEST, pack_layout pack_pnf_param_request s);
     (NFAPI_PNF_PARAM_RESPONSE, pack_layout pack_pnf_param_response s);
     (NFAPI_PNF_CONFIG_REQUEST, pack_layout pack_pnf_config_request s);
     (NFAPI_PNF_CONFIG_RESPONSE, pack_layout pack_pnf_config_response s);
     (NFAPI_PNF_START_REQUEST, pack_layout pack_pnf_start_request s);
     (NFAPI_PNF_START_RESPONSE, pack_layout pack_pnf_start_response s);
     (NFAPI_PNF_STOP_REQUEST, pack_layout pack_pnf_stop_request s);
     (NFAPI_PNF_STOP_RESPONSE, pack_layout pack_pnf_stop_response s);
     (NFAPI_PARAM_REQUEST, pack_layout pack_param_request s);
     (NFAPI_PARAM_RESPONSE, pack_layout pack_param_response s);
     (NFAPI_CONFIG_REQUEST, pack_layout pack_config_request s);
     (NFAPI_CONFIG_RESPONSE, pack_layout pack_config_response s);
     (NFAPI_START_REQUEST, pack_layout pack_start_request s);
     (NFAPI_START_RESPONSE, pack_layout pack_start_response s);
     (NFAPI_STOP_REQUEST, pack_layout pack_stop_request s);
     (NFAPI_STOP_RESPONSE, pack_layout pack_stop_response s);
     (NFAPI_MEASUREMENT_REQUEST, pack_layout pack_measurement_request s);
     (NFAPI_MEASUREMENT_RESPONSE, pack_layout pack_measurement_response s)]
    (pack_other id s) id.

Definition fits_in (type : string) (unpackedBufLen : Z) : Z :=
  if sizeof type <=? unpackedBufLen then sizeof type else 0.

(** The type each message is unpacked into. *)
(* src: nfapi_p5.c :: check_nr_unpack_length *)
Definition check_nr_unpack_length (id : Z) (unpackedBufLen : Z) : Z :=
  switch
    [(NFAPI_NR_PHY_MSG_TYPE_PNF_PARAM_REQUEST, fits_in "nfapi_pnf_param_request_t");
     (NFAPI_NR_PHY_MSG_TYPE_PNF_PARAM_RESPONSE, fits_in "nfapi_nr_pnf_param_response_t");
     (NFAPI_NR_PHY_MSG_TYPE_PNF_CONFIG_REQUEST, fits_in "nfapi_nr_pnf_config_request_t");
     (NFAPI_NR_PHY_MSG_TYPE_PNF_CONFIG_RESPONSE, fits_in "nfapi_nr_pnf_config_response_t");
     (NFAPI_NR_PHY_MSG_TYPE_PNF_START_REQUEST, fits_in "nfapi_nr_pnf_start_request_t");
     (NFAPI_NR_PHY_MSG_TYPE_PNF_START_RESPONSE, fits_in "nfapi_nr_pnf_start_response_t");
     (NFAPI_NR_PHY_MSG_TYPE_PNF_STOP_REQUEST, fits_in "nfapi_nr_pnf_stop_request_t");
     (NFAPI_NR_PHY_MSG_TYPE_PNF_STOP_RESPONSE, fits_in "nfapi_nr_pnf_stop_response_t");
     (NFAPI_NR_PHY_MSG_TYPE_PARAM_REQUEST, fits_in "nfapi_nr_param_request_scf_t");
     (NFAPI_NR_PHY_MSG_TYPE_PARAM_RESPONSE, fits_in "nfapi_nr_param_response_scf_t");
     (NFAPI_NR_PHY_MSG_TYPE_CONFIG_REQUEST, fits_in "nfapi_nr_config_request_scf_t");
     (NFAPI_NR_PHY_MSG_TYPE_CONFIG_RESPONSE, fits_in "nfapi_nr_config_response_scf_t");
     (NFAPI_NR_PHY_MSG_TYPE_START_REQUEST, fits_in "nfapi_nr_start_request_scf_t");
     (NFAPI_NR_PHY_MSG_TYPE_START_RESPONSE, fits_in "nfapi_nr_start_response_scf_t");
     (NFAPI_NR_PHY_MSG_TYPE_STOP_REQUEST, fits_in "nfapi_stop_request_t");
     (NFAPI_NR_PHY_MSG_TYPE_STOP_RESPONSE, fits_in "nfapi_stop_response_t")]
    (fun _ => 0) id unpackedBufLen.
(* src: nfapi_p5.c :: check_unpack_length *)
Definition check_unpack_length (id : Z) (unpackedBufLen : Z) : Z :=
  switch
    [(NFAPI_PNF_PARAM_REQUEST, fits_in "nfapi_pnf_param_request_t");
     (NFAPI_PNF_PARAM_RESPONSE, fits_in "nfapi_pnf_param_response_t");
     (NFAPI_PNF_CONFIG_REQUEST, fits_in "nfapi_pnf_config_request_t");
     (NFAPI_PNF_CONFIG_RESPONSE, fits_in "nfapi_pnf_config_response_t");
     (NFAPI_PNF_START_REQUEST, fits_in "nfapi_pnf_start_request_t");
     (NFAPI_PNF_START_RESPONSE, fits_in "nfapi_pnf_start_response_t");
     (NFAPI_PNF_STOP_REQUEST, fits_in "nfapi_pnf_stop_request_t");
     (NFAPI_PNF_STOP_RESPONSE, fits_in "nfapi_pnf_stop_response_t");
     (NFAPI_PARAM_REQUEST, fits_in "nfapi_param_request_t");
     (NFAPI_PARAM_RESPONSE, fits_in "nfapi_param_response_t");
     (NFAPI_CONFIG_REQUEST, fits_in "nfapi_config_request_t");
     (NFAPI_CONFIG_RESPONSE, fits_in "nfapi_config_response_t");
     (NFAPI_START_REQUEST, fits_in "nfapi_start_request_t");
     (NFAPI_START_RESPONSE, fits_in "nfapi_start_response_t");
     (NFAPI_STOP_REQUEST, fits_in "nfapi_stop_request_t");
     (NFAPI_STOP_RESPONSE, fits_in "nfapi_stop_response_t");
     (NFAPI_MEASUREMENT_REQUEST, fits_in "nfapi_measurement_request_t");
     (NFAPI_MEASUREMENT_RESPONSE, fits_in "nfapi_measurement_response_t")]
    (fun _ => 0) id unpackedBufLen.

(* src: nfapi_p5.c 2504-2590 nfapi_nr_p5_message_unpack *)
Definition unpack_nr_p5_message_body (id : Z) : struct -> list Z -> Z * struct :=
  switch
    [(NFAPI_NR_PHY_MSG_TYPE_PNF_PARAM_REQUEST, unpack_layout unpack_nr_pnf_param_request);
     (NFAPI_NR_PHY_MSG_TYPE_PNF_PARAM_RESPONSE, unpack_layout unpack_nr_pnf_param_response);
     (NFAPI_NR_PHY_MSG_TYPE_PNF_CONFIG_REQUEST, unpack_layout unpack_nr_pnf_config_request);
     (NFAPI_NR_PHY_MSG_TYPE_PNF_CONFIG_RESPONSE, unpack_layout unpack_nr_pnf_config_response);
     (NFAPI_NR_PHY_MSG_TYPE_PNF_START_REQUEST, unpack_layout unpack_nr_pnf_start_request);
     (NFAPI_NR_PHY_MSG_TYPE_PNF_START_RESPONSE, unpack_layout unpack_nr_pnf_start_response);
     (NFAPI_NR_PHY_MSG_TYPE_PNF_STOP_REQUEST, unpack_layout unpack_pnf_stop_request);
     (NFAPI_NR_PHY_MSG_TYPE_PNF_STOP_RESPONSE, unpack_layout unpack_pnf_stop_response);
     (NFAPI_NR_PHY_MSG_TYPE_PARAM_REQUEST, unpack_layout unpack_nr_param_request);
     (NFAPI_NR_PHY_MSG_TYPE_PARAM_RESPONSE, unpack_layout unpack_nr_param_response);
     (NFAPI_NR_PHY_MSG_TYPE_CONFIG_REQUEST, (fun s l => let '(r, c) := unpack_nr_config_request s l in (r, nc_msg c)));
     (NFAPI_NR_PHY_MSG_TYPE_CONFIG_RESPONSE, unpack_layout unpack_nr_config_response);
     (NFAPI_NR_PHY_MSG_TYPE_START_REQUEST, unpack_layout unpack_nr_start_request);
     (NFAPI_NR_PHY_MSG_TYPE_START_RESPONSE, unpack_layout unpack_nr_start_response);
     (NFAPI_NR_PHY_MSG_TYPE_STOP_REQUEST, unpack_layout unpack_stop_request);
     (NFAPI_NR_PHY_MSG_TYPE_STOP_RESPONSE, unpack_layout unpack_stop_response);
     (NFAPI_MEASUREMENT_REQUEST, unpack_layout unpack_measurement_request);
     (NFAPI_MEASUREMENT_RESPONSE, unpack_layout unpack_measurement_response)]
    (fun _ => unpack_other id) id.
(* src: nfapi_p5.c 2639-2725 nfapi_p5_message_unpack *)
Definition unpack_p5_message_body (id : Z) : struct -> list Z -> Z * struct :=
  switch
    [(NFAPI_PNF_PARAM_REQUEST, unpack_layout unpack_pnf_param_request);
     (NFAPI_PNF_PARAM_RESPONSE, unpack_layout unpack_pnf_param_response);
     (NFAPI_PNF_CONFIG_REQUEST, unpack_layout unpack_pnf_config_request);
     (NFAPI_PNF_CONFIG_RESPONSE, unpack_layout unpack_pnf_config_response);
     (NFAPI_PNF_START_REQUEST, unpack_layout unpack_pnf_start_request);
     (NFAPI_PNF_START_RESPONSE, unpack_layout unpack_pnf_start_response);
     (NFAPI_PNF_STOP_REQUEST, unpack_layout unpack_pnf_stop_request);
     (NFAPI_PNF_STOP_RESPONSE, unpack_layout unpack_pnf_stop_response);
     (NFAPI_PARAM_REQUEST, unpack_layout unpack_param_request);
     (NFAPI_PARAM_RESPONSE, unpack_layout unpack_param_response);
     (NFAPI_CONFIG_REQUEST, unpack_layout unpack_config_request);
     (NFAPI_CONFIG_RESPONSE, unpack_layout unpack_config_response);
     (NFAPI_START_REQUEST, unpack_layout unpack_start_request);
     (NFAPI_START_RESPONSE, unpack_layout unpack_start_response);
     (NFAPI_STOP_REQUEST, unpack_layout unpack_stop_request);
     (NFAPI_STOP_RESPONSE, unpack_layout unpack_stop_response);
     (NFAPI_MEASUREMENT_REQUEST, unpack_layout unpack_measurement_request);
     (NFAPI_MEASUREMENT_RESPONSE, unpack_layout unpack_measurement_response)]
    (fun _ => unpack_other id) id.

Definition pack_p5_header (h : nfapi_p4_p5_message_header_t) : packer :=
  push16 (h_phy_id h) &* push16 (h_message_id h) &* push16 0 &* push16 (h_spare h).
Definition unpack_p5_header : reader nfapi_p4_p5_message_header_t :=
  phy_id ← pull16; message_id ← pull16; message_length ← pull16; spare ← pull16;
  mret (P5Header phy_id message_id message_length spare).

(** The two functions differ in the packer of the body and in what is counted
    in the length field.  Result: the bytes, or [None] for -1. *)
Definition p5_frame_pack (counted_from : Z) (body : Z -> struct -> packer) (h : nfapi_p4_p5_message_header_t)
    (s : struct) (packedBufLen : Z) : option (list Z) :=
  let '(r, w) := pack_p5_header h (Wbuf [] packedBufLen) in
  if r =? 0 then None else
  let '(result, w) := ret_u8 (body (h_message_id h) s) w in
  if result =? 0 then None else
  let packedMsgLen := u32 (zlen (w_out w)) in
  if (0xFFFF <? packedMsgLen) || (packedBufLen <? packedMsgLen) then None
  else
    let packedMsgLen16 := u16 (u32 (zlen (w_out w) - counted_from)) in
    let '(r, w) := pack_at 4 (push16 packedMsgLen16) w in
    if r =? 0 then None else Some (w_out w).
(* src: nfapi_p5.c :: nfapi_nr_p5_message_pack *)
Definition nfapi_nr_p5_message_pack := p5_frame_pack NFAPI_HEADER_LENGTH pack_nr_p5_message_body.
(* src: nfapi_p5.c :: nfapi_p5_message_pack *)
Definition nfapi_p5_message_pack := p5_frame_pack 0 pack_p5_message_body.

(** Result: the value returned and the contents of the zeroed buffer. *)
Definition p5_frame_unpack (check : Z -> Z -> Z) (body : Z -> struct -> list Z -> Z * struct)
    (msg : list Z) (unpackedBufLen : Z) : Z * nfapi_p4_p5_message_header_t * struct :=
  let h0 := P5Header 0 0 0 0 in
  if (zlen msg <? NFAPI_HEADER_LENGTH) || (unpackedBufLen <? sizeof "nfapi_p4_p5_message_header_t") then (-1, h0, zero)
  else match unpack_p5_header msg with
  | None => (-1, h0, zero)
  | Some (h, l) =>
      if check (h_message_id h) unpackedBufLen =? 0 then (-1, h, zero)
      else let '(result, s) := body (h_message_id h) zero l in (result, h, s)
  end.
(* src: nfapi_p5.c :: nfapi_nr_p5_message_unpack *)
Definition nfapi_nr_p5_message_unpack := p5_frame_unpack check_nr_unpack_length unpack_nr_p5_message_body.
(* src: nfapi_p5.c :: nfapi_p5_message_unpack *)
Definition nfapi_p5_message_unpack := p5_frame_unpack check_unpack_length unpack_p5_message_body.

(** The value 0 of a failing [pull16] is not an error for the caller, but all
    eight bytes are there. *)
(* src: nfapi_p5.c :: nfapi_p5_message_header_unpack *)
Definition nfapi_p5_message_header_unpack (msg : list Z) (unpackedBufLen : Z) : Z * nfapi_p4_p5_message_header_t :=
  let h0 := P5Header 0 0 0 0 in
  if (zlen msg <? NFAPI_HEADER_LENGTH) || (unpackedBufLen <? sizeof "nfapi_p4_p5_message_header_t") then (-1, h0)
  else match unpack_p5_header msg with None => (0, h0) | Some (h, _) => (1, h) end.
End messages.

(** ** The frames *)

Definition p5_header_ok (h : nfapi_p4_p5_message_header_t) : Prop :=
  in_u16 (h_phy_id h) /\ in_u16 (h_message_id h) /\ in_u16 (h_message_length h) /\ in_u16 (h_spare h).
Definition p5_header_bytes (h : nfapi_p4_p5_message_header_t) : list Z :=
  be16 (h_phy_id h) ++ be16 (h_message_id h) ++ be16 (h_message_length h) ++ be16 (h_spare h).
Definition with_length (n : Z) (h : nfapi_p4_p5_message_header_t) : nfapi_p4_p5_message_header_t :=
  P5Header (h_phy_id h) (h_message_id h) n (h_spare h).

Lemma zlen_p5_header_bytes h : zlen (p5_header_bytes h) = 8.
Proof. done. Qed.
#[export] Hint Rewrite zlen_p5_header_bytes : zlen.

Lemma parses_p5_header h : p5_header_ok h -> parses unpack_p5_header (p5_header_bytes h) h.
Proof.
  intros (H1 & H2 & H3 & H4). unfold unpack_p5_header, p5_header_bytes.
  repeat (eapply parses_bind; [by apply parses_pull16|]). rewrite <- (app_nil_r (be16 (h_spare h))).
  eapply parses_bind; [by apply parses_pull16|]. destruct h. apply parses_ret.
Qed.

Lemma emits_p5_header h : p5_header_ok h -> emits (pack_p5_header h) (p5_header_bytes (with_length 0 h)).
Proof. intros (H1 & H2 & H3 & H4). unfold pack_p5_header. repeat apply emits_and; by apply emits_push16. Qed.

Lemma p5_frame_pack_ok from body h s bs buflen :
  0 <= from <= 8 -> p5_header_ok h -> writes (ret_u8 (body (h_message_id h) s)) bs ->
  8 + zlen bs <= 65535 -> 8 + zlen bs <= buflen -> buflen < 4294967296 ->
  p5_frame_pack from body h s buflen = Some (p5_header_bytes (with_length (8 + zlen bs - from) h) ++ bs).
Proof.
  intros Hfrom Hh [Hbb Hb] Hl Hlen Hbuf. pose proof (zlen_nonneg bs) as Hnn. unfold p5_frame_pack.
  destruct (em_fit _ _ (emits_p5_header h Hh) (Wbuf [] buflen)) as [Hr Hw];
    [unfold room_ok; cbn [w_room]; lia|cbn [w_room]; zlen_lia|].
  destruct (pack_p5_header h _) as [r w]. cbn [fst snd] in Hr, Hw. subst w.
  destruct (Z.eqb_spec r 0); [lia|].
  destruct (Hb (wapp (Wbuf [] buflen) (p5_header_bytes (with_length 0 h)))) as [Hr2 Hw];
    [unfold room_ok, wapp; cbn [w_room]; zlen_lia|unfold wapp; cbn [w_room]; zlen_lia|].
  destruct (ret_u8 _ _) as [r2 w]. cbn [fst snd] in Hr2, Hw. subst w.
  destruct (Z.eqb_spec r2 0); [lia|]. rewrite wapp_wapp.
  assert (zlen (p5_header_bytes (with_length 0 h) ++ bs) = 8 + zlen bs) as E by (by autorewrite with zlen).
  unfold wapp. cbn [w_out w_room app]. rewrite E, (u32_small (8 + zlen bs)) by wrap_lia.
  destruct (Z.ltb_spec 0xFFFF (8 + zlen bs)); [lia|]. destruct (Z.ltb_spec buflen (8 + zlen bs)); [lia|].
  cbn [orb]. rewrite u32_small, u16_small by wrap_lia.
  destruct (pack_at_overwrite (push16 (8 + zlen bs - from)) (be16 (8 + zlen bs - from))
    (be16 (h_phy_id h) ++ be16 (h_message_id h)) (be16 0) (be16 (h_spare h) ++ bs)
    (buflen - (8 + zlen bs))) as [Hr3 Ho].
  - apply emits_push16. wrap_lia.
  - done.
  - lia.
  - autorewrite with zlen. rewrite ?zlen_be16. lia.
  - change ((be16 (h_phy_id h) ++ be16 (h_message_id h)) ++ be16 0 ++ be16 (h_spare h) ++ bs)
      with (p5_header_bytes (with_length 0 h) ++ bs) in Hr3, Ho.
    change (length (be16 (h_phy_id h) ++ be16 (h_message_id h))) with 4%nat in Hr3, Ho.
    destruct (pack_at 4 _ _) as [r3 w]. cbn [fst snd] in Hr3, Ho. subst w.
    by destruct (Z.eqb_spec r3 0); [lia|].
Qed.

Lemma p5_frame_unpack_ok sizeof check body h bs size :
  p5_header_ok h -> sizeof "nfapi_p4_p5_message_header_t" <= size -> check (h_message_id h) size <> 0 ->
  p5_frame_unpack sizeof check body (p5_header_bytes h ++ bs) size =
  let '(result, s) := body (h_message_id h) zero bs in (result, h, s).
Proof.
  intros Hh Hs Hc. unfold p5_frame_unpack, NFAPI_HEADER_LENGTH.
  destruct (Z.ltb_spec (zlen (p5_header_bytes h ++ bs)) 8); [pose proof (zlen_nonneg bs); zlen_lia|].
  destruct (Z.ltb_spec size (sizeof "nfapi_p4_p5_message_header_t")); [lia|]. cbn [orb].
  rewrite (pa_run _ _ _ (parses_p5_header h Hh)). by destruct (Z.eqb_spec (check (h_message_id h) size) 0).
Qed.

(** ** Which messages round-trip *)

(** The messages whose unpacker matches the packer, with the layouts of both. *)
Definition lte_p5_layouts : list (Z * (layout * layout)) :=
  [(NFAPI_PNF_PARAM_REQUEST, (pack_pnf_param_request, unpack_pnf_param_request));
   (NFAPI_PNF_CONFIG_REQUEST, (pack_pnf_config_request, unpack_pnf_config_request));
   (NFAPI_PNF_CONFIG_RESPONSE, (pack_pnf_config_response, unpack_pnf_config_response));
   (NFAPI_PNF_START_REQUEST, (pack_pnf_start_request, unpack_pnf_start_request));
   (NFAPI_PNF_START_RESPONSE, (pack_pnf_start_response, unpack_pnf_start_response));
   (NFAPI_PNF_STOP_REQUEST, (pack_pnf_stop_request, unpack_pnf_stop_request));
   (NFAPI_PNF_STOP_RESPONSE, (pack_pnf_stop_response, unpack_pnf_stop_response));
   (NFAPI_PARAM_REQUEST, (pack_param_request, unpack_param_request));
   (NFAPI_CONFIG_REQUEST, (pack_config_request, unpack_config_request));
   (NFAPI_CONFIG_RESPONSE, (pack_config_response, unpack_config_response));
   (NFAPI_START_REQUEST, (pack_start_request, unpack_start_request));
   (NFAPI_START_RESPONSE, (pack_start_response, unpack_start_response));
   (NFAPI_STOP_REQUEST, (pack_stop_request, unpack_stop_request));
   (NFAPI_STOP_RESPONSE, (pack_stop_response, unpack_stop_response));
   (NFAPI_MEASUREMENT_REQUEST, (pack_measurement_request, unpack_measurement_request));
   (NFAPI_MEASUREMENT_RESPONSE, (pack_measurement_response, unpack_measurement_response))].
Definition nr_p5_layouts : list (Z * (layout * layout)) :=
  [(NFAPI_NR_PHY_MSG_TYPE_PNF_PARAM_REQUEST, (pack_nr_pnf_param_request, unpack_nr_pnf_param_request));
   (NFAPI_NR_PHY_MSG_TYPE_PNF_PARAM_RESPONSE, (pack_nr_pnf_param_response, unpack_nr_pnf_param_response));
   (NFAPI_NR_PHY_MSG_TYPE_PNF_CONFIG_REQUEST, (pack_nr_pnf_config_request, unpack_nr_pnf_config_request));
   (NFAPI_NR_PHY_MSG_TYPE_PNF_CONFIG_RESPONSE, (pack_nr_pnf_config_response, unpack_nr_pnf_config_response));
   (NFAPI_NR_PHY_MSG_TYPE_PNF_START_REQUEST, (pack_nr_pnf_start_request, unpack_nr_pnf_start_request));
   (NFAPI_NR_PHY_MSG_TYPE_PNF_START_RESPONSE, (pack_nr_pnf_start_response, unpack_nr_pnf_start_response));
   (NFAPI_NR_PHY_MSG_TYPE_PNF_STOP_REQUEST, (pack_nr_pnf_stop_request, unpack_pnf_stop_request));
   (NFAPI_NR_PHY_MSG_TYPE_PNF_STOP_RESPONSE, (pack_nr_pnf_stop_response, unpack_pnf_stop_response));
   (NFAPI_NR_PHY_MSG_TYPE_PARAM_REQUEST, (pack_nr_param_request, unpack_nr_param_request));
   (NFAPI_NR_PHY_MSG_TYPE_PARAM_RESPONSE, (pack_nr_param_response, unpack_nr_param_response));
   (NFAPI_NR_PHY_MSG_TYPE_START_REQUEST, (pack_nr_start_request, unpack_nr_start_request));
   (NFAPI_NR_PHY_MSG_TYPE_START_RESPONSE, (pack_nr_start_response, unpack_nr_start_response));
   (NFAPI_NR_PHY_MSG_TYPE_STOP_REQUEST, (pack_stop_request, unpack_stop_request));
   (NFAPI_NR_PHY_MSG_TYPE_STOP_RESPONSE, (pack_stop_response, unpack_stop_response))].

Definition p5_size (pl ul : layout) : Z := 8 + message_size (l_head ul) (expected pl ul).

Definition p5_layouts_ok (ls : list (Z * (layout * layout))) : bool :=
  forallb (fun '(id, (pl, ul)) => layouts_wf pl ul && (p5_size pl ul <=? 65535)) ls.

Lemma p5_layouts_checked : p5_layouts_ok lte_p5_layouts = true /\ p5_layouts_ok nr_p5_layouts = true.
Proof. split; vm_compute; reflexivity. Qed.

(** The rows of the tables are those of the switch statements. *)
Ltac case_layouts H :=
  repeat first [ apply elem_of_nil in H; contradiction
               | apply elem_of_cons in H; destruct H as [H|H]; [injection H as -> -> ->; split; reflexivity|] ].

Lemma lte_p5_bodies vp vu id pl ul s : (id, (pl, ul)) ∈ lte_p5_layouts ->
  pack_p5_message_body vp id s = pack_layout pl s /\ unpack_p5_message_body vu id zero = unpack_layout ul zero.
Proof. unfold lte_p5_layouts. intros H. case_layouts H. Qed.
Lemma nr_p5_bodies vp vu id pl ul s : (id, (pl, ul)) ∈ nr_p5_layouts ->
  pack_nr_p5_message_body vp id s = pack_layout pl s /\ unpack_nr_p5_message_body vu id zero = unpack_layout ul zero.
Proof. unfold nr_p5_layouts. intros H. case_layouts H. Qed.

Lemma p5_frame_roundtrip sizeof from pbody check ubody ls h id pl ul s buflen size :
  0 <= from <= 8 -> p5_layouts_ok ls = true -> (id, (pl, ul)) ∈ ls ->
  pbody id s = pack_layout pl s -> ubody id zero = unpack_layout ul zero ->
  h_message_id h = id -> p5_header_ok h -> fits pl ul s -> p5_size pl ul <= buflen < 4294967296 ->
  sizeof "nfapi_p4_p5_message_header_t" <= size -> check id size <> 0 ->
  exists bs, p5_frame_pack from pbody h s buflen = Some bs /\
    p5_frame_unpack sizeof check ubody bs size = (1, with_length (zlen bs - from) h, received_message pl ul s).
Proof.
  intros Hfrom Hls Hin Hp Hu <- Hh Hok Hbuf Hs Hc.
  pose proof (proj1 (forallb_forall _ _) Hls _ (proj1 (list_elem_of_In _ _) Hin)) as Hl. cbn in Hl.
  apply andb_true_iff in Hl as [Hwf Hsz%Z.leb_le]. unfold p5_size in *.
  destruct (layout_roundtrip pl ul s Hwf Hok) as (Hw & Hr & Hn). set (bs := message_bytes _ _ _) in *.
  pose proof (zlen_nonneg bs). pose proof Hh as (H1 & H2 & H3 & H4).
  rewrite (p5_frame_pack_ok from pbody h s bs) by (rewrite ?Hp; try done; try lia; by apply writes_ret_u8).
  eexists. split; [reflexivity|]. rewrite p5_frame_unpack_ok by (try done; split_and!; cbn; wrap_lia).
  cbn [with_length h_message_id]. rewrite Hu, Hr. f_equal. f_equal. f_equal. zlen_lia.
Qed.

(** C19. A P5 message that is in range and fits the buffer is packed and unpacked
    again: the unpacked header is the sender's with the length filled in, of the
    whole message for LTE and without the header for NR, and the structure has
    the same numbers and, for every TLV whose tag is set, the same value with
    its real length.  This holds for all messages but PNF_PARAM.response and
    PARAM.response of LTE and CONFIG.request and CONFIG.response of NR. *)
Theorem p5_roundtrip sizeof vp vu (nr : bool) id pl ul h s buflen size :
  (id, (pl, ul)) ∈ (if nr then nr_p5_layouts else lte_p5_layouts) ->
  h_message_id h = id -> p5_header_ok h -> fits pl ul s -> p5_size pl ul <= buflen < 4294967296 ->
  sizeof "nfapi_p4_p5_message_header_t" <= size ->
  (if nr then check_nr_unpack_length sizeof id size else check_unpack_length sizeof id size) <> 0 ->
  exists bs,
    (if nr then nfapi_nr_p5_message_pack vp h s buflen else nfapi_p5_message_pack vp h s buflen) = Some bs /\
    (if nr then nfapi_nr_p5_message_unpack sizeof vu bs size else nfapi_p5_message_unpack sizeof vu bs size) =
      (1, with_length (if nr then zlen bs - 8 else zlen bs) h, received_message pl ul s).
Proof.
  intros Hin Hid Hh Hok Hbuf Hs Hc. destruct nr.
  - destruct (nr_p5_bodies vp vu id pl ul s Hin) as [Hp Hu].
    exact (p5_frame_roundtrip sizeof 8 _ _ _ _ h id pl ul s buflen size ltac:(lia) (proj2 p5_layouts_checked) Hin
      Hp Hu Hid Hh Hok Hbuf Hs Hc).
  - destruct (lte_p5_bodies vp vu id pl ul s Hin) as [Hp Hu].
    destruct (p5_frame_roundtrip sizeof 0 _ _ _ _ h id pl ul s buflen size ltac:(lia) (proj1 p5_layouts_checked) Hin
      Hp Hu Hid Hh Hok Hbuf Hs Hc) as (bs & H1 & H2). exists bs. by rewrite Z.sub_0_r in H2.
Qed.

Definition sample_sizeof (_ : string) : Z := 1.
Definition sample_p5_header (id : Z) : nfapi_p4_p5_message_header_t := P5Header 3 id 0 0.
(** One RF configuration for PHY 7. *)
Definition sample_pnf_config : struct :=
  set_num "num_tlvs" 1 (set_member "pnf_phy_rf_config" (set_tl (Tl NFAPI_PNF_PHY_RF_TAG 0)
    (set_num "number_phy_rf_config_info" 1 (set_sub "phy_rf_config"
      [set_num "phy_id" 7 (set_num "phy_config_index" 2 (set_num "rf_config_index" 1 zero))] zero))) zero).

Lemma p5_roundtrip_witness : exists bs,
  nfapi_nr_p5_message_pack None (sample_p5_header NFAPI_NR_PHY_MSG_TYPE_PNF_CONFIG_REQUEST) sample_pnf_config 65535 = Some bs /\
  nfapi_nr_p5_message_unpack sample_sizeof None bs 1 =
    (1, with_length (zlen bs - 8) (sample_p5_header NFAPI_NR_PHY_MSG_TYPE_PNF_CONFIG_REQUEST),
     received_message pack_nr_pnf_config_request unpack_nr_pnf_config_request sample_pnf_config).
Proof.
  apply (p5_roundtrip sample_sizeof None None true NFAPI_NR_PHY_MSG_TYPE_PNF_CONFIG_REQUEST).
  - do 2 apply list_elem_of_further. apply list_elem_of_here.
  - reflexivity.
  - repeat split; discriminate.
  - repeat (constructor || discriminate).
  - split; [discriminate|reflexivity].
  - discriminate.
  - discriminate.
Defined.
