(* ===== verification/P4Codec.v ===== *)
(** * P4 messages ([nfapi_p4.c])

    The messages of network monitor mode: the values of the TLVs as layouts, in
    the order of the source, the messages over them, and
    [nfapi_p4_message_pack] and [nfapi_p4_message_unpack] over the header of
    P5.  Three things differ from P5: opaque data, of which only the TL has the
    length; the requests, of which the packer writes the TLV of one radio access
    technology (RAT) and the unpacker may check that it did; and the size check,
    which is part of the cases of the [switch]. *)

From S2P Require Import Prelude Tags Codec Ids LteInd Layout LtePdu P5Codec.
From stdpp Require Import functions strings.

Open Scope string_scope.
Open Scope list_scope.
Open Scope Z_scope.

(** ** Values of TLVs *)

(* src: nfapi_p4.c :: pack_lte_rssi_request_value *)
Definition pack_lte_rssi_request_value : list row :=
  [Num U8 "frequency_band_indicator"; Num U16 "measurement_period"; Num U8 "bandwidth"; Num U32 "timeout";
   Num U8 "number_of_earfcns"; Arr U16 "earfcn" NFAPI_MAX_CARRIER_LIST (Member "number_of_earfcns")].
(* src: nfapi_p4.c :: pack_utran_rssi_request_value *)
Definition pack_utran_rssi_request_value : list row :=
  [Num U8 "frequency_band_indicator"; Num U16 "measurement_period"; Num U32 "timeout"; Num U8 "number_of_uarfcns";
   Arr U16 "uarfcn" NFAPI_MAX_CARRIER_LIST (Member "number_of_uarfcns")].
(* src: nfapi_p4.c :: pack_geran_rssi_request_value *)
Definition pack_geran_rssi_request_value : list row :=
  [Num U8 "frequency_band_indicator"; Num U16 "measurement_period"; Num U32 "timeout"; Num U8 "number_of_arfcns";
   Items (Unchecked NFAPI_MAX_CARRIER_LIST) "arfcn" (Member "number_of_arfcns")
     [Num U16 "arfcn"; Num U8 "direction"]].
(* src: nfapi_p4.c :: pack_nb_iot_rssi_request_value *)
Definition pack_nb_iot_rssi_request_value : list row :=
  [Num U8 "frequency_band_indicator"; Num U16 "measurement_period"; Num U32 "timeout"; Num U8 "number_of_earfcns";
   Items (Unchecked NFAPI_MAX_CARRIER_LIST) "earfcn" (Member "number_of_earfcns")
     [Num U16 "earfcn"; Num U8 "number_of_ro_dl";
      Values (Unchecked NFAPI_MAX_RO_DL) U8 "ro_dl" (Member "number_of_ro_dl")]].
(* src: nfapi_p4.c :: pack_rssi_indication_body_value *)
Definition pack_rssi_indication_body_value : list row :=
  [Num U16 "number_of_rssi"; Arr S16 "rssi" NFAPI_MAX_RSSI (Member "number_of_rssi")].
(* src: nfapi_p4.c :: pack_lte_cell_search_request_value *)
Definition pack_lte_cell_search_request_value : list row :=
  [Num U16 "earfcn"; Num U8 "measurement_bandwidth"; Num U8 "exhaustive_search"; Num U32 "timeout";
   Num U8 "number_of_pci"; Arr U16 "pci" NFAPI_MAX_PCI_LIST (Member "number_of_pci")].
(* src: nfapi_p4.c :: pack_utran_cell_search_request_value *)
Definition pack_utran_cell_search_request_value : list row :=
  [Num U16 "uarfcn"; Num U8 "exhaustive_search"; Num U32 "timeout"; Num U8 "number_of_psc";
   Arr U16 "psc" NFAPI_MAX_PSC_LIST (Member "number_of_psc")].
(* src: nfapi_p4.c :: pack_geran_cell_search_request_value *)
Definition pack_geran_cell_search_request_value : list row :=
  [Num U32 "timeout"; Num U8 "number_of_arfcn"; Arr U16 "arfcn" NFAPI_MAX_ARFCN_LIST (Member "number_of_arfcn")].
(* src: nfapi_p4.c :: pack_nb_iot_cell_search_request_value *)
Definition pack_nb_iot_cell_search_request_value : list row :=
  [Num U16 "earfcn"; Num U8 "ro_dl"; Num U8 "exhaustive_search"; Num U32 "timeout"; Num U8 "number_of_pci";
   Arr U16 "pci" NFAPI_MAX_PCI_LIST (Member "number_of_pci")].
(* src: nfapi_p4.c :: pack_lte_cell_search_indication_value *)
Definition pack_lte_cell_search_indication_value : list row :=
  [Num U16 "number_of_lte_cells_found";
   Items (Unchecked NFAPI_MAX_LTE_CELLS_FOUND) "lte_found_cells" (Member "number_of_lte_cells_found")
     [Num U16 "pci"; Num U8 "rsrp"; Num U8 "rsrq"; Num S16 "frequency_offset"]].
(* src: nfapi_p4.c :: pack_utran_cell_search_indication_value *)
Definition pack_utran_cell_search_indication_value : list row :=
  [Num U16 "number_of_utran_cells_found";
   Items (Unchecked NFAPI_MAX_UTRAN_CELLS_FOUND) "utran_found_cells" (Member "number_of_utran_cells_found")
     [Num U16 "psc"; Num U8 "rscp"; Num U8 "ecno"; Num S16 "frequency_offset"]].
(* src: nfapi_p4.c :: pack_geran_cell_search_indication_value *)
Definition pack_geran_cell_search_indication_value : list row :=
  [Num U16 "number_of_gsm_cells_found";
   Items (Unchecked NFAPI_MAX_GSM_CELLS_FOUND) "gsm_found_cells" (Member "number_of_gsm_cells_found")
     [Num U16 "arfcn"; Num U8 "bsic"; Num U8 "rxlev"; Num U8 "rxqual"; Num S16 "frequency_offset";
      Num U32 "sfn_offset"]].
(* src: nfapi_p4.c :: pack_nb_iot_cell_search_indication_value *)
Definition pack_nb_iot_cell_search_indication_value : list row :=
  [Num U16 "number_of_nb_iot_cells_found";
   Items (Unchecked NFAPI_MAX_NB_IOT_CELLS_FOUND) "nb_iot_found_cells" (Member "number_of_nb_iot_cells_found")
     [Num U16 "pci"; Num U8 "rsrp"; Num U8 "rsrq"; Num S16 "frequency_offset"]].
(* src: nfapi_p4.c :: pack_lte_broadcast_detect_request_value *)
Definition pack_lte_broadcast_detect_request_value : list row :=
  [Num U16 "earfcn"; Num U16 "pci"; Num U32 "timeout"].
(* src: nfapi_p4.c :: pack_utran_broadcast_detect_request_value *)
Definition pack_utran_broadcast_detect_request_value : list row :=
  [Num U16 "uarfcn"; Num U16 "psc"; Num U32 "timeout"].
(* src: nfapi_p4.c :: pack_nb_iot_broadcast_detect_request_value *)
Definition pack_nb_iot_broadcast_detect_request_value : list row :=
  [Num U16 "earfcn"; Num U8 "ro_dl"; Num U16 "pci"; Num U32 "timeout"].
(* src: nfapi_p4.c :: pack_lte_broadcast_detect_indication_value *)
Definition pack_lte_broadcast_detect_indication_value : list row :=
  [Num U8 "number_of_tx_antenna"; Num U16 "mib_length"; Arr U8 "mib" NFAPI_MAX_MIB_LENGTH (Member "mib_length");
   Num U32 "sfn_offset"].
(* src: nfapi_p4.c :: pack_utran_broadcast_detect_indication_value *)
Definition pack_utran_broadcast_detect_indication_value : list row :=
  [Num U16 "mib_length"; Arr U8 "mib" NFAPI_MAX_MIB_LENGTH (Member "mib_length"); Num U32 "sfn_offset"].
(* src: nfapi_p4.c :: pack_nb_iot_broadcast_detect_indication_value *)
Definition pack_nb_iot_broadcast_detect_indication_value : list row :=
  [Num U8 "number_of_tx_antenna"; Num U16 "mib_length"; Arr U8 "mib" NFAPI_MAX_MIB_LENGTH (Member "mib_length");
   Num U32 "sfn_offset"].
(* src: nfapi_p4.c :: pack_lte_system_information_schedule_request_value *)
Definition pack_lte_system_information_schedule_request_value : list row :=
  [Num U16 "earfcn"; Num U16 "pci"; Num U16 "downlink_channel_bandwidth"; Num U8 "phich_configuration";
   Num U8 "number_of_tx_antenna"; Num U8 "retry_count"; Num U32 "timeout"].
(* src: nfapi_p4.c :: pack_nb_iot_system_information_schedule_request_value *)
Definition pack_nb_iot_system_information_schedule_request_value : list row :=
  [Num U16 "earfcn"; Num U8 "ro_dl"; Num U16 "pci"; Num U8 "scheduling_info_sib1_nb"; Num U32 "timeout"].
(* src: nfapi_p4.c :: pack_lte_system_information_indication_value *)
Definition pack_lte_system_information_indication_value : list row :=
  [Num U8 "sib_type"; Num U16 "sib_length"; Arr U8 "sib" NFAPI_MAX_SIB_LENGTH (Member "sib_length")].
(* src: nfapi_p4.c :: pack_nb_iot_system_information_indication_value *)
Definition pack_nb_iot_system_information_indication_value : list row :=
  [Num U8 "sib_type"; Num U16 "sib_length"; Arr U8 "sib" NFAPI_MAX_SIB_LENGTH (Member "sib_length")].
(* src: nfapi_p4.c :: pack_lte_system_information_request_value *)
Definition pack_lte_system_information_request_value : list row :=
  [Num U16 "earfcn"; Num U16 "pci"; Num U16 "downlink_channel_bandwidth"; Num U8 "phich_configuration";
   Num U8 "number_of_tx_antenna"; Num U8 "number_of_si_periodicity";
   Items (Unchecked NFAPI_MAX_SI_PERIODICITY) "si_periodicity" (Member "number_of_si_periodicity")
     [Num U8 "si_periodicity"; Num U8 "si_index"];
   Num U8 "si_window_length"; Num U32 "timeout"].
(* src: nfapi_p4.c :: pack_utran_system_information_request_value *)
Definition pack_utran_system_information_request_value : list row :=
  [Num U16 "uarfcn"; Num U16 "psc"; Num U32 "timeout"].
(* src: nfapi_p4.c :: pack_geran_system_information_request_value *)
Definition pack_geran_system_information_request_value : list row :=
  [Num U16 "arfcn"; Num U8 "bsic"; Num U32 "timeout"].
(* src: nfapi_p4.c :: pack_nb_iot_system_information_request_value *)
Definition pack_nb_iot_system_information_request_value : list row :=
  [Num U16 "earfcn"; Num U8 "ro_dl"; Num U16 "pci"; Num U8 "number_of_si_periodicity";
   Items (Unchecked NFAPI_MAX_SI_PERIODICITY) "si_periodicity" (Member "number_of_si_periodicity")
     [Num U8 "si_periodicity"; Num U8 "si_repetition_pattern"; Num U8 "si_tb_size"; Num U8 "number_of_si_index";
      Values (Unchecked NFAPI_MAX_SI_INDEX) U8 "si_index" (Member "number_of_si_index")];
   Num U8 "si_window_length"; Num U32 "timeout"].
(* src: nfapi_p4.c :: pack_utran_system_information_indication_value *)
Definition pack_utran_system_information_indication_value : list row :=
  [Num U16 "sib_length"; Arr U8 "sib" NFAPI_MAX_SIB_LENGTH (Member "sib_length")].
(* src: nfapi_p4.c :: pack_geran_system_information_indication_value *)
Definition pack_geran_system_information_indication_value : list row :=
  [Num U16 "si_length"; Arr U8 "si" NFAPI_MAX_SIB_LENGTH (Member "si_length")].
(* src: nfapi_p4.c :: unpack_lte_rssi_request_value *)
Definition unpack_lte_rssi_request_value : list row :=
  [Num U8 "frequency_band_indicator"; Num U16 "measurement_period"; Num U8 "bandwidth"; Num U32 "timeout";
   Num U8 "number_of_earfcns"; Arr U16 "earfcn" NFAPI_MAX_CARRIER_LIST (Member "number_of_earfcns")].
(* src: nfapi_p4.c :: unpack_utran_rssi_request_value *)
Definition unpack_utran_rssi_request_value : list row :=
  [Num U8 "frequency_band_indicator"; Num U16 "measurement_period"; Num U32 "timeout"; Num U8 "number_of_uarfcns";
   Arr U16 "uarfcn" NFAPI_MAX_CARRIER_LIST (Member "number_of_uarfcns")].
(* src: nfapi_p4.c :: unpack_geran_rssi_request_value *)
Definition unpack_geran_rssi_request_value : list row :=
  [Num U8 "frequency_band_indicator"; Num U16 "measurement_period"; Num U32 "timeout"; Num U8 "number_of_arfcns";
   Items (UpTo NFAPI_MAX_CARRIER_LIST) "arfcn" (Member "number_of_arfcns")
     [Num U16 "arfcn"; Num U8 "direction"]].
(* src: nfapi_p4.c :: unpack_nb_iot_rssi_request_value *)
Definition unpack_nb_iot_rssi_request_value : list row :=
  [Num U8 "frequency_band_indicator"; Num U16 "measurement_period"; Num U32 "timeout"; Num U8 "number_of_earfcns";
   Items (UpTo NFAPI_MAX_CARRIER_LIST) "earfcn" (Member "number_of_earfcns")
     [Num U16 "earfcn"; Num U8 "number_of_ro_dl";
      When (Quot (Member "number_of_ro_dl") (NFAPI_MAX_RO_DL + 1)) [Return0];
      Values (Unchecked NFAPI_MAX_RO_DL) U8 "ro_dl" (Member "number_of_ro_dl")]].
(* src: nfapi_p4.c :: unpack_rssi_indication_value *)
Definition unpack_rssi_indication_value : list row :=
  [Num U16 "number_of_rssi"; Arr S16 "rssi" NFAPI_MAX_RSSI (Member "number_of_rssi")].
(* src: nfapi_p4.c :: unpack_lte_cell_search_request_value *)
Definition unpack_lte_cell_search_request_value : list row :=
  [Num U16 "earfcn"; Num U8 "measurement_bandwidth"; Num U8 "exhaustive_search"; Num U32 "timeout";
   Num U8 "number_of_pci"; Arr U16 "pci" NFAPI_MAX_PCI_LIST (Member "number_of_pci")].
(* src: nfapi_p4.c :: unpack_utran_cell_search_request_value *)
Definition unpack_utran_cell_search_request_value : list row :=
  [Num U16 "uarfcn"; Num U8 "exhaustive_search"; Num U32 "timeout"; Num U8 "number_of_psc";
   Arr U16 "psc" NFAPI_MAX_PSC_LIST (Member "number_of_psc")].
(* src: nfapi_p4.c :: unpack_geran_cell_search_request_value *)
Definition unpack_geran_cell_search_request_value : list row :=
  [Num U32 "timeout"; Num U8 "number_of_arfcn"; Arr U16 "arfcn" NFAPI_MAX_ARFCN_LIST (Member "number_of_arfcn")].
(* src: nfapi_p4.c :: unpack_nb_iot_cell_search_request_value *)
Definition unpack_nb_iot_cell_search_request_value : list row :=
  [Num U16 "earfcn"; Num U8 "ro_dl"; Num U8 "exhaustive_search"; Num U32 "timeout"; Num U8 "number_of_pci";
   Arr U16 "pci" NFAPI_MAX_PCI_LIST (Member "number_of_pci")].
(* src: nfapi_p4.c :: unpack_lte_cell_search_indication_value *)
Definition unpack_lte_cell_search_indication_value : list row :=
  [Num U16 "number_of_lte_cells_found";
   Items (UpTo NFAPI_MAX_LTE_CELLS_FOUND) "lte_found_cells" (Member "number_of_lte_cells_found")
     [Num U16 "pci"; Num U8 "rsrp"; Num U8 "rsrq"; Num S16 "frequency_offset"]].
(* src: nfapi_p4.c :: unpack_utran_cell_search_indication_value *)
Definition unpack_utran_cell_search_indication_value : list row :=
  [Num U16 "number_of_utran_cells_found";
   Items (UpTo NFAPI_MAX_UTRAN_CELLS_FOUND) "utran_found_cells" (Member "number_of_utran_cells_found")
     [Num U16 "psc"; Num U8 "rscp"; Num U8 "ecno"; Num S16 "frequency_offset"]].
(* src: nfapi_p4.c :: unpack_geran_cell_search_indication_value *)
Definition unpack_geran_cell_search_indication_value : list row :=
  [Num U16 "number_of_gsm_cells_found";
   Items (UpTo NFAPI_MAX_GSM_CELLS_FOUND) "gsm_found_cells" (Member "number_of_gsm_cells_found")
     [Num U16 "arfcn"; Num U8 "bsic"; Num U8 "rxlev"; Num U8 "rxqual"; Num S16 "frequency_offset";
      Num U32 "sfn_offset"]].
(* src: nfapi_p4.c :: unpack_nb_iot_cell_search_indication_value *)
Definition unpack_nb_iot_cell_search_indication_value : list row :=
  [Num U16 "number_of_nb_iot_cells_found";
   Items (UpTo NFAPI_MAX_NB_IOT_CELLS_FOUND) "nb_iot_found_cells" (Member "number_of_nb_iot_cells_found")
     [Num U16 "pci"; Num U8 "rsrp"; Num U8 "rsrq"; Num S16 "frequency_offset"]].
(* src: nfapi_p4.c :: unpack_lte_broadcast_detect_request_value *)
Definition unpack_lte_broadcast_detect_request_value : list row :=
  [Num U16 "earfcn"; Num U16 "pci"; Num U32 "timeout"].
(* src: nfapi_p4.c :: unpack_utran_broadcast_detect_request_value *)
Definition unpack_utran_broadcast_detect_request_value : list row :=
  [Num U16 "uarfcn"; Num U16 "psc"; Num U32 "timeout"].
(* src: nfapi_p4.c :: unpack_nb_iot_broadcast_detect_request_value *)
Definition unpack_nb_iot_broadcast_detect_request_value : list row :=
  [Num U16 "earfcn"; Num U8 "ro_dl"; Num U16 "pci"; Num U32 "timeout"].
(* src: nfapi_p4.c :: unpack_lte_broadcast_detect_indication_value *)
Definition unpack_lte_broadcast_detect_indication_value : list row :=
  [Num U8 "number_of_tx_antenna"; Num U16 "mib_length"; Arr U8 "mib" NFAPI_MAX_MIB_LENGTH (Member "mib_length");
   Num U32 "sfn_offset"].
(* src: nfapi_p4.c :: unpack_utran_broadcast_detect_indication_value *)
Definition unpack_utran_broadcast_detect_indication_value : list row :=
  [Num U16 "mib_length"; Arr U8 "mib" NFAPI_MAX_MIB_LENGTH (Member "mib_length"); Num U32 "sfn_offset"].
(* src: nfapi_p4.c :: unpack_nb_iot_broadcast_detect_indication_value *)
Definition unpack_nb_iot_broadcast_detect_indication_value : list row :=
  [Num U8 "number_of_tx_antenna"; Num U16 "mib_length"; Arr U8 "mib" NFAPI_MAX_MIB_LENGTH (Member "mib_length");
   Num U32 "sfn_offset"].
(* src: nfapi_p4.c :: unpack_lte_system_information_schedule_request_value *)
Definition unpack_lte_system_information_schedule_request_value : list row :=
  [Num U16 "earfcn"; Num U16 "pci"; Num U16 "downlink_channel_bandwidth"; Num U8 "phich_configuration";
   Num U8 "number_of_tx_antenna"; Num U8 "retry_count"; Num U32 "timeout"].
(* src: nfapi_p4.c :: unpack_nb_iot_system_information_schedule_request_value *)
Definition unpack_nb_iot_system_information_schedule_request_value : list row :=
  [Num U16 "earfcn"; Num U8 "ro_dl"; Num U16 "pci"; Num U8 "scheduling_info_sib1_nb"; Num U32 "timeout"].
(* src: nfapi_p4.c :: unpack_lte_system_information_indication_value *)
Definition unpack_lte_system_information_indication_value : list row :=
  [Num U8 "sib_type"; Num U16 "sib_length"; Arr U8 "sib" NFAPI_MAX_SIB_LENGTH (Member "sib_length")].
(* src: nfapi_p4.c :: unpack_nb_iot_system_information_indication_value *)
Definition unpack_nb_iot_system_information_indication_value : list row :=
  [Num U8 "sib_type"; Num U16 "sib_length"; Arr U8 "sib" NFAPI_MAX_SIB_LENGTH (Member "sib_length")].
(* src: nfapi_p4.c :: unpack_lte_system_information_request_value *)
Definition unpack_lte_system_information_request_value : list row :=
  [Num U16 "earfcn"; Num U16 "pci"; Num U16 "downlink_channel_bandwidth"; Num U8 "phich_configuration";
   Num U8 "number_of_tx_antenna"; Num U8 "number_of_si_periodicity";
   Items (UpTo NFAPI_MAX_SI_PERIODICITY) "si_periodicity" (Member "number_of_si_periodicity")
     [Num U8 "si_periodicity"; Num U8 "si_index"];
   Num U8 "si_window_length"; Num U32 "timeout"].
(* src: nfapi_p4.c :: unpack_utran_system_information_request_value *)
Definition unpack_utran_system_information_request_value : list row :=
  [Num U16 "uarfcn"; Num U16 "psc"; Num U32 "timeout"].
(* src: nfapi_p4.c :: unpack_geran_system_information_request_value *)
Definition unpack_geran_system_information_request_value : list row :=
  [Num U16 "arfcn"; Num U8 "bsic"; Num U32 "timeout"].
(* src: nfapi_p4.c :: unpack_nb_iot_system_information_request_value *)
Definition unpack_nb_iot_system_information_request_value : list row :=
  [Num U16 "earfcn"; Num U8 "ro_dl"; Num U16 "pci"; Num U8 "number_of_si_periodicity";
   Items (UpTo NFAPI_MAX_SI_PERIODICITY) "si_periodicity" (Member "number_of_si_periodicity")
     [Num U8 "si_periodicity"; Num U8 "si_repetition_pattern"; Num U8 "si_tb_size"; Num U8 "number_of_si_index";
      Values (Unchecked NFAPI_MAX_SI_INDEX) U8 "si_index" (Member "number_of_si_index")];
   Num U8 "si_window_length"; Num U32 "timeout"].
(* src: nfapi_p4.c :: unpack_utran_system_information_indication_value *)
Definition unpack_utran_system_information_indication_value : list row :=
  [Num U16 "sib_length"; Arr U8 "sib" NFAPI_MAX_SIB_LENGTH (Member "sib_length")].
(* src: nfapi_p4.c :: unpack_geran_system_information_indication_value *)
Definition unpack_geran_system_information_indication_value : list row :=
  [Num U16 "si_length"; Arr U8 "si" NFAPI_MAX_SI_LENGTH (Member "si_length")].

(** *** Opaque data *)

(* src: nfapi_p4.c :: pack_opaque_data_value *)
Definition pack_opaque_data_value (s : struct) : packer :=
  pack_values (UpTo NFAPI_MAX_OPAQUE_DATA) U8 (arr s "value") (num s "length").
(* src: nfapi_p4.c :: unpack_opaque_data_value *)
Definition unpack_opaque_data_value : unpacker struct := fun s l =>
  let s := set_num "length" (tl_length (tl_of s)) s in
  if num s "length" <=? NFAPI_MAX_OPAQUE_DATA then
    unpack_values (UpTo NFAPI_MAX_OPAQUE_DATA) U8 "value" (num s "length") s l
  else inl (s, l).

(** ** Messages *)

(** A TLV of a message. *)
Inductive p4_tlv := Tlv (t : tlv_row) | Opaque (tag : Z) (f : string).

Definition pack_p4_tlv (e : p4_tlv) (s : struct) : packer :=
  match e with
  | Tlv t => pack_tlv_row pack_tlv t s
  | Opaque tag f => pack_tlv tag (tl_of (member s f)) (pack_opaque_data_value (member s f))
  end.
Definition pack_p4_tlvs (es : list p4_tlv) (s : struct) : packer := foldr (fun e p => pack_p4_tlv e s &* p) pack_ok es.
Definition p4_entry (e : p4_tlv) : unpack_tlv_t struct :=
  match e with
  | Tlv t => tlv_entry t
  | Opaque tag f => UnpackTlv tag (fun tl s l =>
      storing (fun v => set_member f v s) (unpack_opaque_data_value (set_tl tl (member s f)) l))
  end.

(** The requests of the RATs are members of a union, which is one member,
    ["request"], here: the TL is that of all of them, and of the other members
    only those of the request that the TL names mean something. *)
Abbreviation Value tag f rows := (Tlv (TlvRow tag f rows)).
Abbreviation Request tag rows := (Tlv (TlvRow tag "request" rows)).

(** The rows in front, the cases of the [switch] on the RAT, and the TLVs that are
    packed in any case. *)
Record p4_packer := P4Packer { pk_head : list row; pk_rats : list (Z * list p4_tlv); pk_tlvs : list p4_tlv }.
(** The rows in front, the table, and the pairs of a RAT and a tag one of which
    must be there, if that is checked. *)
Record p4_unpacker := P4Unpacker { uk_head : list row; uk_tlvs : list p4_tlv; uk_rats : option (list (Z * Z)) }.

(** What [L] packs of [s] after the rows. *)
Definition p4_sent (L : p4_packer) (s : struct) : list p4_tlv :=
  default [] (case_of (pk_rats L) (num s "rat_type")) ++ pk_tlvs L.

Definition pack_p4 (L : p4_packer) (s : struct) : packer :=
  pack_rows [] (pk_head L) s &*
  pack_p4_tlvs (default [] (case_of (pk_rats L) (num s "rat_type"))) s &*
  pack_p4_tlvs (pk_tlvs L) s &* pack_vendor_extension_tlv None.

Definition rat_matches (cs : list (Z * Z)) (s : struct) : bool :=
  existsb (fun c => (num s "rat_type" =? fst c) && (tl_tag (tl_of (member s "request")) =? snd c)) cs.

Definition unpack_p4 (L : p4_unpacker) (s : struct) (l : list Z) : Z * struct :=
  match unpack_rows [] (uk_head L) s l with
  | inl (s, _) => (0, s)
  | inr (s, l) =>
      let '(r, s, _) := unpack_tlv_list (p4_entry <$> uk_tlvs L) None s l in
      let result := b2z (negb (r =? 0)) in
      match uk_rats L with
      | Some cs => if (result =? 1) && negb (rat_matches cs s) then (0, s) else (result, s)
      | None => (result, s)
      end
  end.

(* src: nfapi_p4.c :: pack_rssi_request *)
Definition pack_rssi_request : p4_packer :=
  P4Packer [Num U8 "rat_type"]
    [(NFAPI_RAT_TYPE_LTE, [Request NFAPI_LTE_RSSI_REQUEST_TAG pack_lte_rssi_request_value]);
     (NFAPI_RAT_TYPE_UTRAN, [Request NFAPI_UTRAN_RSSI_REQUEST_TAG pack_utran_rssi_request_value]);
     (NFAPI_RAT_TYPE_GERAN, [Request NFAPI_GERAN_RSSI_REQUEST_TAG pack_geran_rssi_request_value]);
     (NFAPI_RAT_TYPE_NB_IOT, [Request NFAPI_NB_IOT_RSSI_REQUEST_TAG pack_nb_iot_rssi_request_value])] [].
(* src: nfapi_p4.c :: pack_rssi_response *)
Definition pack_rssi_response : p4_packer :=
  P4Packer [Num U32 "error_code"] [] [].
(* src: nfapi_p4.c :: pack_rssi_indication *)
Definition pack_rssi_indication : p4_packer :=
  P4Packer [Num U32 "error_code"] []
    [Value NFAPI_RSSI_INDICATION_TAG "rssi_indication_body" pack_rssi_indication_body_value].
(* src: nfapi_p4.c :: pack_cell_search_request *)
Definition pack_cell_search_request : p4_packer :=
  P4Packer [Num U8 "rat_type"]
    [(NFAPI_RAT_TYPE_LTE, [Request NFAPI_LTE_CELL_SEARCH_REQUEST_TAG pack_lte_cell_search_request_value]);
     (NFAPI_RAT_TYPE_UTRAN, [Request NFAPI_UTRAN_CELL_SEARCH_REQUEST_TAG pack_utran_cell_search_request_value]);
     (NFAPI_RAT_TYPE_GERAN, [Request NFAPI_GERAN_CELL_SEARCH_REQUEST_TAG pack_geran_cell_search_request_value]);
     (NFAPI_RAT_TYPE_NB_IOT, [Request NFAPI_NB_IOT_CELL_SEARCH_REQUEST_TAG pack_nb_iot_cell_search_request_value])] [].
(* src: nfapi_p4.c :: pack_cell_search_response *)
Definition pack_cell_search_response : p4_packer :=
  P4Packer [Num U32 "error_code"] [] [].
(* src: nfapi_p4.c :: pack_cell_search_indication *)
Definition pack_cell_search_indication : p4_packer :=
  P4Packer [Num U32 "error_code"] []
    [Value NFAPI_LTE_CELL_SEARCH_INDICATION_TAG "lte_cell_search_indication" pack_lte_cell_search_indication_value;
     Value NFAPI_UTRAN_CELL_SEARCH_INDICATION_TAG "utran_cell_search_indication" pack_utran_cell_search_indication_value;
     Value NFAPI_GERAN_CELL_SEARCH_INDICATION_TAG "geran_cell_search_indication" pack_geran_cell_search_indication_value;
     Opaque NFAPI_PNF_CELL_SEARCH_STATE_TAG "pnf_cell_search_state";
     Value NFAPI_NB_IOT_CELL_SEARCH_INDICATION_TAG "nb_iot_cell_search_indication" pack_nb_iot_cell_search_indication_value].
(* src: nfapi_p4.c :: pack_broadcast_detect_request *)
Definition pack_broadcast_detect_request : p4_packer :=
  P4Packer [Num U8 "rat_type"]
    [(NFAPI_RAT_TYPE_LTE, [Request NFAPI_LTE_BROADCAST_DETECT_REQUEST_TAG pack_lte_broadcast_detect_request_value]);
     (NFAPI_RAT_TYPE_UTRAN, [Request NFAPI_UTRAN_BROADCAST_DETECT_REQUEST_TAG pack_utran_broadcast_detect_request_value]);
     (NFAPI_RAT_TYPE_NB_IOT, [Request NFAPI_NB_IOT_BROADCAST_DETECT_REQUEST_TAG pack_nb_iot_broadcast_detect_request_value])]
    [Opaque NFAPI_PNF_CELL_SEARCH_STATE_TAG "pnf_cell_search_state"].
(* src: nfapi_p4.c :: pack_broadcast_detect_response *)
Definition pack_broadcast_detect_response : p4_packer :=
  P4Packer [Num U32 "error_code"] [] [].
(* src: nfapi_p4.c :: pack_broadcast_detect_indication *)
Definition pack_broadcast_detect_indication : p4_packer :=
  P4Packer [Num U32 "error_code"] []
    [Value NFAPI_LTE_BROADCAST_DETECT_INDICATION_TAG "lte_broadcast_detect_indication" pack_lte_broadcast_detect_indication_value;
     Value NFAPI_UTRAN_BROADCAST_DETECT_INDICATION_TAG "utran_broadcast_detect_indication" pack_utran_broadcast_detect_indication_value;
     Opaque NFAPI_PNF_CELL_BROADCAST_STATE_TAG "pnf_cell_broadcast_state";
     Value NFAPI_NB_IOT_BROADCAST_DETECT_INDICATION_TAG "nb_iot_broadcast_detect_indication" pack_nb_iot_broadcast_detect_indication_value].
(* src: nfapi_p4.c :: pack_system_information_schedule_request *)
Definition pack_system_information_schedule_request : p4_packer :=
  P4Packer [Num U8 "rat_type"]
    [(NFAPI_RAT_TYPE_LTE, [Request NFAPI_LTE_SYSTEM_INFORMATION_SCHEDULE_REQUEST_TAG pack_lte_system_information_schedule_request_value]);
     (NFAPI_RAT_TYPE_NB_IOT, [Request NFAPI_NB_IOT_SYSTEM_INFORMATION_SCHEDULE_REQUEST_TAG pack_nb_iot_system_information_schedule_request_value])]
    [Opaque NFAPI_PNF_CELL_BROADCAST_STATE_TAG "pnf_cell_broadcast_state"].
(* src: nfapi_p4.c :: pack_system_information_schedule_response *)
Definition pack_system_information_schedule_response : p4_packer :=
  P4Packer [Num U32 "error_code"] [] [].
(* src: nfapi_p4.c :: pack_system_information_schedule_indication *)
Definition pack_system_information_schedule_indication : p4_packer :=
  P4Packer [Num U32 "error_code"] []
    [Value NFAPI_LTE_SYSTEM_INFORMATION_INDICATION_TAG "lte_system_information_indication" pack_lte_system_information_indication_value;
     Value NFAPI_NB_IOT_SYSTEM_INFORMATION_INDICATION_TAG "nb_iot_system_information_indication" pack_nb_iot_system_information_indication_value].
(* src: nfapi_p4.c :: pack_system_information_request *)
Definition pack_system_information_request : p4_packer :=
  P4Packer [Num U8 "rat_type"]
    [(NFAPI_RAT_TYPE_LTE, [Request NFAPI_LTE_SYSTEM_INFORMATION_REQUEST_TAG pack_lte_system_information_request_value]);
     (NFAPI_RAT_TYPE_UTRAN, [Request NFAPI_UTRAN_SYSTEM_INFORMATION_REQUEST_TAG pack_utran_system_information_request_value]);
     (NFAPI_RAT_TYPE_GERAN, [Request NFAPI_GERAN_SYSTEM_INFORMATION_REQUEST_TAG pack_geran_system_information_request_value]);
     (NFAPI_RAT_TYPE_NB_IOT, [Request NFAPI_NB_IOT_SYSTEM_INFORMATION_REQUEST_TAG pack_nb_iot_system_information_request_value])]
    [Opaque NFAPI_PNF_CELL_BROADCAST_STATE_TAG "pnf_cell_broadcast_state"].
(* src: nfapi_p4.c :: pack_system_information_response *)
Definition pack_system_information_response : p4_packer :=
  P4Packer [Num U32 "error_code"] [] [].
(* src: nfapi_p4.c :: pack_system_information_indication *)
Definition pack_system_information_indication : p4_packer :=
  P4Packer [Num U32 "error_code"] []
    [Value NFAPI_LTE_SYSTEM_INFORMATION_INDICATION_TAG "lte_system_information_indication" pack_lte_system_information_indication_value;
     Value NFAPI_UTRAN_SYSTEM_INFORMATION_INDICATION_TAG "utran_system_information_indication" pack_utran_system_information_indication_value;
     Value NFAPI_GERAN_SYSTEM_INFORMATION_INDICATION_TAG "geran_system_information_indication" pack_geran_system_information_indication_value;
     Value NFAPI_NB_IOT_SYSTEM_INFORMATION_INDICATION_TAG "nb_iot_system_information_indication" pack_nb_iot_system_information_indication_value].
(* src: nfapi_p4.c :: pack_nmm_stop_request *)
Definition pack_nmm_stop_request : p4_packer :=
  P4Packer [] [] [].
(* src: nfapi_p4.c :: pack_nmm_stop_response *)
Definition pack_nmm_stop_response : p4_packer :=
  P4Packer [Num U32 "error_code"] [] [].
(* src: nfapi_p4.c :: unpack_rssi_request *)
Definition unpack_rssi_request : p4_unpacker :=
  P4Unpacker [Num U8 "rat_type"]
    [Request NFAPI_LTE_RSSI_REQUEST_TAG unpack_lte_rssi_request_value;
     Request NFAPI_UTRAN_RSSI_REQUEST_TAG unpack_utran_rssi_request_value;
     Request NFAPI_GERAN_RSSI_REQUEST_TAG unpack_geran_rssi_request_value;
     Request NFAPI_NB_IOT_RSSI_REQUEST_TAG unpack_nb_iot_rssi_request_value]
    (Some [(NFAPI_RAT_TYPE_LTE, NFAPI_LTE_RSSI_REQUEST_TAG);
           (NFAPI_RAT_TYPE_UTRAN, NFAPI_UTRAN_RSSI_REQUEST_TAG);
           (NFAPI_RAT_TYPE_GERAN, NFAPI_GERAN_RSSI_REQUEST_TAG);
           (NFAPI_RAT_TYPE_NB_IOT, NFAPI_NB_IOT_RSSI_REQUEST_TAG)]).
(* src: nfapi_p4.c :: unpack_rssi_response *)
Definition unpack_rssi_response : p4_unpacker :=
  P4Unpacker [Num U32 "error_code"] [] None.
(* src: nfapi_p4.c :: unpack_rssi_indication *)
Definition unpack_rssi_indication : p4_unpacker :=
  P4Unpacker [Num U32 "error_code"]
    [Value NFAPI_RSSI_INDICATION_TAG "rssi_indication_body" unpack_rssi_indication_value] None.
(* src: nfapi_p4.c :: unpack_cell_search_request *)
Definition unpack_cell_search_request : p4_unpacker :=
  P4Unpacker [Num U8 "rat_type"]
    [Request NFAPI_LTE_CELL_SEARCH_REQUEST_TAG unpack_lte_cell_search_request_value;
     Request NFAPI_UTRAN_CELL_SEARCH_REQUEST_TAG unpack_utran_cell_search_request_value;
     Request NFAPI_GERAN_CELL_SEARCH_REQUEST_TAG unpack_geran_cell_search_request_value;
     Request NFAPI_NB_IOT_CELL_SEARCH_REQUEST_TAG unpack_nb_iot_cell_search_request_value]
    (Some [(NFAPI_RAT_TYPE_LTE, NFAPI_LTE_CELL_SEARCH_REQUEST_TAG);
           (NFAPI_RAT_TYPE_UTRAN, NFAPI_UTRAN_CELL_SEARCH_REQUEST_TAG);
           (NFAPI_RAT_TYPE_GERAN, NFAPI_GERAN_CELL_SEARCH_REQUEST_TAG);
           (NFAPI_RAT_TYPE_NB_IOT, NFAPI_NB_IOT_CELL_SEARCH_REQUEST_TAG)]).
(* src: nfapi_p4.c :: unpack_cell_search_response *)
Definition unpack_cell_search_response : p4_unpacker :=
  P4Unpacker [Num U32 "error_code"] [] None.
(* src: nfapi_p4.c :: unpack_cell_search_indication *)
Definition unpack_cell_search_indication : p4_unpacker :=
  P4Unpacker [Num U32 "error_code"]
    [Value NFAPI_LTE_CELL_SEARCH_INDICATION_TAG "lte_cell_search_indication" unpack_lte_cell_search_indication_value;
     Value NFAPI_UTRAN_CELL_SEARCH_INDICATION_TAG "utran_cell_search_indication" unpack_utran_cell_search_indication_value;
     Value NFAPI_GERAN_CELL_SEARCH_INDICATION_TAG "geran_cell_search_indication" unpack_geran_cell_search_indication_value;
     Opaque NFAPI_PNF_CELL_SEARCH_STATE_TAG "pnf_cell_search_state";
     Value NFAPI_NB_IOT_CELL_SEARCH_INDICATION_TAG "nb_iot_cell_search_indication" unpack_nb_iot_cell_search_indication_value] None.
(* src: nfapi_p4.c :: unpack_broadcast_detect_request *)
Definition unpack_broadcast_detect_request : p4_unpacker :=
  P4Unpacker [Num U8 "rat_type"]
    [Request NFAPI_LTE_BROADCAST_DETECT_REQUEST_TAG unpack_lte_broadcast_detect_request_value;
     Request NFAPI_UTRAN_BROADCAST_DETECT_REQUEST_TAG unpack_utran_broadcast_detect_request_value;
     Opaque NFAPI_PNF_CELL_SEARCH_STATE_TAG "pnf_cell_search_state";
     Request NFAPI_NB_IOT_BROADCAST_DETECT_REQUEST_TAG unpack_nb_iot_broadcast_detect_request_value] None.
(* src: nfapi_p4.c :: unpack_broadcast_detect_response *)
Definition unpack_broadcast_detect_response : p4_unpacker :=
  P4Unpacker [Num U32 "error_code"] [] None.
(* src: nfapi_p4.c :: unpack_broadcast_detect_indication *)
Definition unpack_broadcast_detect_indication : p4_unpacker :=
  P4Unpacker [Num U32 "error_code"]
    [Value NFAPI_LTE_BROADCAST_DETECT_INDICATION_TAG "lte_broadcast_detect_indication" unpack_lte_broadcast_detect_indication_value;
     Value NFAPI_UTRAN_BROADCAST_DETECT_INDICATION_TAG "utran_broadcast_detect_indication" unpack_utran_broadcast_detect_indication_value;
     Value NFAPI_NB_IOT_BROADCAST_DETECT_INDICATION_TAG "nb_iot_broadcast_detect_indication" unpack_nb_iot_broadcast_detect_indication_value;
     Opaque NFAPI_PNF_CELL_BROADCAST_STATE_TAG "pnf_cell_broadcast_state"] None.
(* src: nfapi_p4.c :: unpack_system_information_schedule_request *)
Definition unpack_system_information_schedule_request : p4_unpacker :=
  P4Unpacker [Num U8 "rat_type"]
    [Request NFAPI_LTE_SYSTEM_INFORMATION_SCHEDULE_REQUEST_TAG unpack_lte_system_information_schedule_request_value;
     Request NFAPI_NB_IOT_SYSTEM_INFORMATION_SCHEDULE_REQUEST_TAG unpack_nb_iot_system_information_schedule_request_value;
     Opaque NFAPI_PNF_CELL_BROADCAST_STATE_TAG "pnf_cell_broadcast_state"] None.
(* src: nfapi_p4.c :: unpack_system_information_schedule_response *)
Definition unpack_system_information_schedule_response : p4_unpacker :=
  P4Unpacker [Num U32 "error_code"] [] None.
(* src: nfapi_p4.c :: unpack_system_information_schedule_indication *)
Definition unpack_system_information_schedule_indication : p4_unpacker :=
  P4Unpacker [Num U32 "error_code"]
    [Value NFAPI_LTE_SYSTEM_INFORMATION_INDICATION_TAG "lte_system_information_indication" unpack_lte_system_information_indication_value;
     Value NFAPI_NB_IOT_SYSTEM_INFORMATION_INDICATION_TAG "nb_iot_system_information_indication" unpack_nb_iot_system_information_indication_value] None.
(* src: nfapi_p4.c :: unpack_system_information_request *)
Definition unpack_system_information_request : p4_unpacker :=
  P4Unpacker [Num U8 "rat_type"]
    [Request NFAPI_LTE_SYSTEM_INFORMATION_REQUEST_TAG unpack_lte_system_information_request_value;
     Request NFAPI_UTRAN_SYSTEM_INFORMATION_REQUEST_TAG unpack_utran_system_information_request_value;
     Request NFAPI_GERAN_SYSTEM_INFORMATION_REQUEST_TAG unpack_geran_system_information_request_value;
     Request NFAPI_NB_IOT_SYSTEM_INFORMATION_REQUEST_TAG unpack_nb_iot_system_information_request_value;
     Opaque NFAPI_PNF_CELL_BROADCAST_STATE_TAG "pnf_cell_broadcast_state"]
    (Some [(NFAPI_RAT_TYPE_LTE, NFAPI_LTE_SYSTEM_INFORMATION_REQUEST_TAG);
           (NFAPI_RAT_TYPE_UTRAN, NFAPI_UTRAN_SYSTEM_INFORMATION_REQUEST_TAG);
           (NFAPI_RAT_TYPE_GERAN, NFAPI_GERAN_SYSTEM_INFORMATION_REQUEST_TAG)]).
(* src: nfapi_p4.c :: unpack_system_information_response *)
Definition unpack_system_information_response : p4_unpacker :=
  P4Unpacker [Num U32 "error_code"] [] None.
(* src: nfapi_p4.c :: unpack_system_information_indication *)
Definition unpack_system_information_indication : p4_unpacker :=
  P4Unpacker [Num U32 "error_code"]
    [Value NFAPI_LTE_SYSTEM_INFORMATION_INDICATION_TAG "lte_system_information_indication" unpack_lte_system_information_indication_value;
     Value NFAPI_UTRAN_SYSTEM_INFORMATION_INDICATION_TAG "utran_system_information_indication" unpack_utran_system_information_indication_value;
     Value NFAPI_GERAN_SYSTEM_INFORMATION_INDICATION_TAG "geran_system_information_indication" unpack_geran_system_information_indication_value;
     Value NFAPI_NB_IOT_SYSTEM_INFORMATION_INDICATION_TAG "nb_iot_system_information_indication" unpack_nb_iot_system_information_indication_value] None.
(* src: nfapi_p4.c :: unpack_nmm_stop_request *)
Definition unpack_nmm_stop_request : p4_unpacker :=
  P4Unpacker [] [] None.
(* src: nfapi_p4.c :: unpack_nmm_stop_response *)
Definition unpack_nmm_stop_response : p4_unpacker :=
  P4Unpacker [Num U32 "error_code"] [] None.

(** ** The frame *)

Section messages.
Context (sizeof : string -> Z).
(** The callbacks for vendor extension messages; the proxy sets none. *)
Context (pack_p4_p5_vendor_extension : option (struct -> packer)).
Context (unpack_p4_p5_vendor_extension : option (Z -> list Z -> Z * struct)).

(* src: nfapi_p4.c :: check_unpack_length *)
Definition check_unpack_length (id unpackedBufLen : Z) : Z :=
  switch
    [(NFAPI_RSSI_REQUEST, fits_in sizeof "nfapi_rssi_request_t");
     (NFAPI_RSSI_RESPONSE, fits_in sizeof "nfapi_rssi_response_t");
     (NFAPI_RSSI_INDICATION, fits_in sizeof "nfapi_rssi_indication_t");
     (NFAPI_CELL_SEARCH_REQUEST, fits_in sizeof "nfapi_cell_search_request_t");
     (NFAPI_CELL_SEARCH_RESPONSE, fits_in sizeof "nfapi_cell_search_response_t");
     (NFAPI_CELL_SEARCH_INDICATION, fits_in sizeof "nfapi_cell_search_indication_t");
     (NFAPI_BROADCAST_DETECT_REQUEST, fits_in sizeof "nfapi_broadcast_detect_request_t");
     (NFAPI_BROADCAST_DETECT_RESPONSE, fits_in sizeof "nfapi_broadcast_detect_response_t");
     (NFAPI_BROADCAST_DETECT_INDICATION, fits_in sizeof "nfapi_broadcast_detect_indication_t");
     (NFAPI_SYSTEM_INFORMATION_SCHEDULE_REQUEST, fits_in sizeof "nfapi_system_information_schedule_request_t");
     (NFAPI_SYSTEM_INFORMATION_SCHEDULE_RESPONSE, fits_in sizeof "nfapi_system_information_schedule_response_t");
     (NFAPI_SYSTEM_INFORMATION_SCHEDULE_INDICATION, fits_in sizeof "nfapi_system_information_schedule_indication_t");
     (NFAPI_SYSTEM_INFORMATION_REQUEST, fits_in sizeof "nfapi_system_information_request_t");
     (NFAPI_SYSTEM_INFORMATION_RESPONSE, fits_in sizeof "nfapi_system_information_response_t");
     (NFAPI_SYSTEM_INFORMATION_INDICATION, fits_in sizeof "nfapi_system_information_indication_t");
     (NFAPI_NMM_STOP_REQUEST, fits_in sizeof "nfapi_nmm_stop_request_t");
     (NFAPI_NMM_STOP_RESPONSE, fits_in sizeof "nfapi_nmm_stop_response_t")]
    (fun _ => 0) id unpackedBufLen.

(** Of the range of vendor extensions only the first message is packed. *)
(* src: nfapi_p4.c 1509-1592 nfapi_p4_message_pack *)
Definition pack_p4_message_body (id : Z) (s : struct) : packer :=
  switch
    [(NFAPI_RSSI_REQUEST, pack_p4 pack_rssi_request s);
     (NFAPI_RSSI_RESPONSE, pack_p4 pack_rssi_response s);
     (NFAPI_RSSI_INDICATION, pack_p4 pack_rssi_indication s);
     (NFAPI_CELL_SEARCH_REQUEST, pack_p4 pack_cell_search_request s);
     (NFAPI_CELL_SEARCH_RESPONSE, pack_p4 pack_cell_search_response s);
     (NFAPI_CELL_SEARCH_INDICATION, pack_p4 pack_cell_search_indication s);
     (NFAPI_BROADCAST_DETECT_REQUEST, pack_p4 pack_broadcast_detect_request s);
     (NFAPI_BROADCAST_DETECT_RESPONSE, pack_p4 pack_broadcast_detect_response s);
     (NFAPI_BROADCAST_DETECT_INDICATION, pack_p4 pack_broadcast_detect_indication s);
     (NFAPI_SYSTEM_INFORMATION_SCHEDULE_REQUEST, pack_p4 pack_system_information_schedule_request s);
     (NFAPI_SYSTEM_INFORMATION_SCHEDULE_RESPONSE, pack_p4 pack_system_information_schedule_response s);
     (NFAPI_SYSTEM_INFORMATION_SCHEDULE_INDICATION, pack_p4 pack_system_information_schedule_indication s);
     (NFAPI_SYSTEM_INFORMATION_REQUEST, pack_p4 pack_system_information_request s);
     (NFAPI_SYSTEM_INFORMATION_RESPONSE, pack_p4 pack_system_information_response s);
     (NFAPI_SYSTEM_INFORMATION_INDICATION, pack_p4 pack_system_information_indication s);
     (NFAPI_NMM_STOP_REQUEST, pack_p4 pack_nmm_stop_request s);
     (NFAPI_NMM_STOP_RESPONSE, pack_p4 pack_nmm_stop_response s)]
    (if (NFAPI_VENDOR_EXT_MSG_MIN <=? id) && (id <=? NFAPI_VENDOR_EXT_MSG_MIN) then
       match pack_p4_p5_vendor_extension with Some fn => fn s | None => pack_fail end
     else pack_fail) id.

(* src: nfapi_p4.c 1673-1824 nfapi_p4_message_unpack *)
Definition unpack_p4_message_body (id unpackedBufLen : Z) (s : struct) (l : list Z) : Z * struct :=
  let checked L := if check_unpack_length id unpackedBufLen =? 0 then (-1, s) else unpack_p4 L s l in
  switch
    [(NFAPI_RSSI_REQUEST, checked unpack_rssi_request);
     (NFAPI_RSSI_RESPONSE, checked unpack_rssi_response);
     (NFAPI_RSSI_INDICATION, checked unpack_rssi_indication);
     (NFAPI_CELL_SEARCH_REQUEST, checked unpack_cell_search_request);
     (NFAPI_CELL_SEARCH_RESPONSE, checked unpack_cell_search_response);
     (NFAPI_CELL_SEARCH_INDICATION, checked unpack_cell_search_indication);
     (NFAPI_BROADCAST_DETECT_REQUEST, checked unpack_broadcast_detect_request);
     (NFAPI_BROADCAST_DETECT_RESPONSE, checked unpack_broadcast_detect_response);
     (NFAPI_BROADCAST_DETECT_INDICATION, checked unpack_broadcast_detect_indication);
     (NFAPI_SYSTEM_INFORMATION_SCHEDULE_REQUEST, checked unpack_system_information_schedule_request);
     (NFAPI_SYSTEM_INFORMATION_SCHEDULE_RESPONSE, checked unpack_system_information_schedule_response);
     (NFAPI_SYSTEM_INFORMATION_SCHEDULE_INDICATION, checked unpack_system_information_schedule_indication);
     (NFAPI_SYSTEM_INFORMATION_REQUEST, checked unpack_system_information_request);
     (NFAPI_SYSTEM_INFORMATION_RESPONSE, checked unpack_system_information_response);
     (NFAPI_SYSTEM_INFORMATION_INDICATION, checked unpack_system_information_indication);
     (NFAPI_NMM_STOP_REQUEST, checked unpack_nmm_stop_request);
     (NFAPI_NMM_STOP_RESPONSE, checked unpack_nmm_stop_response)]
    (if is_vendor_extension id then
       match unpack_p4_p5_vendor_extension with Some fn => fn id l | None => (0, s) end
     else (0, s)) id.

(** Result: the bytes, or [None] for -1. *)
(* src: nfapi_p4.c :: nfapi_p4_message_pack *)
Definition nfapi_p4_message_pack := p5_frame_pack 0 pack_p4_message_body.

(** Result: the value returned and the contents of the zeroed buffer. *)
(* src: nfapi_p4.c :: nfapi_p4_message_unpack *)
Definition nfapi_p4_message_unpack (msg : list Z) (unpackedBufLen : Z) : Z * nfapi_p4_p5_message_header_t * struct :=
  let h0 := P5Header 0 0 0 0 in
  if (zlen msg <? NFAPI_HEADER_LENGTH) || (unpackedBufLen <? sizeof "nfapi_p4_p5_message_header_t") then (-1, h0, zero)
  else match unpack_p5_header msg with
  | None => (-1, h0, zero)
  | Some (h, l) =>
      let '(result, s) := unpack_p4_message_body (h_message_id h) unpackedBufLen zero l in
      (if result =? 0 then -1 else result, h, s)
  end.

(** The condition is the wrong way round: reading the whole header is an error. *)
(* src: nfapi_p4.c :: nfapi_p4_message_header_unpack *)
Definition nfapi_p4_message_header_unpack (msg : list Z) (unpackedBufLen : Z) : Z * nfapi_p4_p5_message_header_t :=
  let h0 := P5Header 0 0 0 0 in
  if (zlen msg <? NFAPI_HEADER_LENGTH) || (unpackedBufLen <? sizeof "nfapi_p4_p5_message_header_t") then (-1, h0)
  else match unpack_p5_header msg with Some (h, _) => (-1, h) | None => (0, h0) end.
End messages.

(** ** What is written is read

    For a TLV: whether it may be sent, its tag and value if it is sent, what the
    receiver's structure is after it has been read. *)

Definition opaque_bytes (s : struct) : list Z := take (Z.to_nat (num s "length")) (arr s "value").
Definition opaque_ok (s : struct) : Prop :=
  count_ok (num s "length") NFAPI_MAX_OPAQUE_DATA (arr s "value") /\ Forall in_u8 (opaque_bytes s).
(** The receiver has the length from the TL. *)
Definition opaque_copy (s s0 : struct) : struct :=
  set_arr "value" (opaque_bytes s) (set_num "length" (num s "length") s0).

Definition tagged (tag : Z) (f : string) (s : struct) : bool := tl_tag (tl_of (member s f)) =? tag.

(** The unpacker's row for a TLV of the packer. *)
Definition p4_rows (us : list p4_tlv) : list tlv_row :=
  omap (fun e => match e with Tlv t => Some t | Opaque _ _ => None end) us.
Definition p4_resolve (us : list p4_tlv) (t : tlv_row) : tlv_row := resolve (p4_rows us) t.

Definition p4_tlv_ok (us : list p4_tlv) (s : struct) (e : p4_tlv) : Prop :=
  match e with
  | Tlv t => tlv_room s t /\ tlv_row_ok s (p4_resolve us t)
  | Opaque tag f => tagged tag f s = true -> in_u16 (tl_length (tl_of (member s f))) /\ opaque_ok (member s f)
  end.
Definition p4_value (us : list p4_tlv) (s : struct) (e : p4_tlv) : list (Z * list Z) :=
  match e with
  | Tlv t => sent_tlvs [p4_resolve us t] s
  | Opaque tag f => if tagged tag f s then [(tag, opaque_bytes (member s f))] else []
  end.
Definition p4_copy (us : list p4_tlv) (s s0 : struct) (e : p4_tlv) : struct :=
  match e with
  | Tlv t => tlv_copy s s0 (p4_resolve us t)
  | Opaque tag f =>
      if tagged tag f s then
        set_member f (opaque_copy (member s f) (set_tl (Tl tag (zlen (opaque_bytes (member s f)))) (member s0 f))) s0
      else s0
  end.

(** The unpacker knows the TLV. *)
Definition p4_known (us : list p4_tlv) (e : p4_tlv) : bool :=
  match e with
  | Tlv t => known_tlv (p4_rows us) t
  | Opaque tag f =>
      (0 <=? tag) && (tag <? 65536) &&
      existsb (fun u => match u with Opaque tag' f' => (tag' =? tag) && String.eqb f' f | Tlv _ => false end) us
  end.

Lemma p4_known_row us t : known_tlv (p4_rows us) t = true ->
  let u := p4_resolve us t in tlv_sim t u = true /\ tlv_row_wf u = true /\ tlv_entry u ∈ p4_entry <$> us.
Proof.
  intros H. assert (forallb (known_tlv (p4_rows us)) [t] = true) as Hr%resolved by (cbn; by rewrite H).
  apply list.Forall_cons in Hr as [[Hin Hwf] _]. unfold known_tlv in H.
  apply andb_true_iff in H as [[_ Hs]%andb_true_iff _]. split_and!; [done|done|].
  apply list_elem_of_In, in_map_iff in Hin as (u & Hu & Hin). cbn in Hu. unfold p4_resolve. rewrite <- Hu.
  apply list_elem_of_In, list_elem_of_omap in Hin as (e & He & Heq). destruct e as [t'|]; [|done]. injection Heq as ->.
  change (tlv_entry u) with (p4_entry (Tlv u)). by apply list_elem_of_fmap_2.
Qed.

Lemma p4_known_opaque us tag f : p4_known us (Opaque tag f) = true -> in_u16 tag /\ Opaque tag f ∈ us.
Proof.
  cbn [p4_known]. intros [[H1%Z.leb_le H2%Z.ltb_lt]%andb_true_iff (u & Hu & H3)%existsb_exists]%andb_true_iff.
  split; [done|]. destruct u as [|tag' f']; [done|]. apply andb_true_iff in H3 as [->%Z.eqb_eq ->%String.eqb_eq].
  by apply list_elem_of_In.
Qed.

(** *** Opaque data *)

Lemma opaque_writes s : opaque_ok s -> writes (pack_opaque_data_value s) (opaque_bytes s).
Proof.
  intros [Hc Hv]. pose proof (writes_values (UpTo NFAPI_MAX_OPAQUE_DATA) (UpTo NFAPI_MAX_OPAQUE_DATA) U8 (arr s "value") (num s "length")
    ltac:(done) (proj2 (proj1 Hc)) Hc Hv) as H. cbn [type_bytes] in H.
  by rewrite (type_bytes_flat (fun v => v)), list_fmap_id in H.
Qed.

Lemma zlen_opaque s : opaque_ok s ->
  in_u16 (zlen (opaque_bytes s)) /\ zlen (opaque_bytes s) = num s "length" /\ num s "length" <= NFAPI_MAX_OPAQUE_DATA.
Proof.
  intros [Hc _]. unfold opaque_bytes. rewrite (zlen_take_count _ _ _ Hc). destruct Hc as [[H1 H2] _].
  unfold NFAPI_MAX_OPAQUE_DATA in *. split_and!; [wrap_lia|done|done].
Qed.

Lemma opaque_reads s s0 : opaque_ok s -> tl_length (tl_of s0) = zlen (opaque_bytes s) ->
  reads unpack_opaque_data_value s0 (opaque_bytes s) (opaque_copy s s0).
Proof.
  intros Hok Htl rest. destruct (zlen_opaque s Hok) as (_ & Hz & Hmax). destruct Hok as [Hc Hv].
  unfold unpack_opaque_data_value. rewrite Htl, Hz, num_set_num, decide_True by done.
  destruct (Z.leb_spec (num s "length") NFAPI_MAX_OPAQUE_DATA); [|lia].
  pose proof (values_read (UpTo NFAPI_MAX_OPAQUE_DATA) U8 "value" (num s "length") s (set_num "length" (num s "length") s0)
    Hc ltac:(done) Hv rest) as H1. cbn [type_bytes] in H1. by rewrite (type_bytes_flat (fun v => v)), list_fmap_id in H1.
Qed.

(** *** A TLV *)

Lemma p4_tlv_writes us s e : p4_known us e = true -> p4_tlv_ok us s e ->
  writes (pack_p4_tlv e s) (tlvs_bytes no_pad (p4_value us s e)).
Proof.
  destruct e as [t|tag f]; intros Hk Hok; cbn [pack_p4_tlv p4_value].
  - destruct Hok as [Hr Ho]. destruct (p4_known_row us t Hk) as (Hsim & Hwf & _). by apply (tlv_row_writes (HF := tlv_format)).
  - destruct (p4_known_opaque us tag f Hk) as [Ht _]. cbn [p4_tlv_ok] in Hok. destruct (tagged tag f s) eqn:E.
    + destruct (Hok eq_refl) as [Hl Ho]. destruct (zlen_opaque _ Ho) as [Hz _].
      rewrite tlvs_bytes_cons. unfold tlvs_bytes. cbn [fmap list_fmap concat]. rewrite app_nil_r.
      unfold tagged in E. destruct (tl_of (member s f)) as [tag' n]. cbn [tl_tag tl_length] in *. apply Z.eqb_eq in E as ->.
      pose proof (tf_present (TlvFormat := tlv_format) tag n _ _ Ht Hl Hz (opaque_writes _ Ho)) as Hw.
      cbn [no_pad Z.to_nat replicate] in Hw. by rewrite app_nil_r in Hw.
    + apply pack_absent. unfold tagged in E. by apply Z.eqb_neq.
Qed.

Lemma p4_tlv_steps us s s0 e : NoDup (ut_tag <$> (p4_entry <$> us)) -> p4_known us e = true -> p4_tlv_ok us s e ->
  tlv_steps (p4_entry <$> us) s0 (p4_value us s e) (p4_copy us s s0 e).
Proof.
  destruct e as [t|tag f]; intros Hnd Hk Hok; cbn [p4_value p4_copy].
  - destruct Hok as [_ Ho]. destruct (p4_known_row us t Hk) as (_ & Hwf & Hin). set (u := p4_resolve us t) in *.
    destruct (tlv_row_wf_spec u Hwf) as (H1 & H2 & _). unfold sent_tlvs, tlv_copy. rewrite filter_cons, filter_nil.
    destruct (decide (present u s = true)) as [Hp|Hp]; [|destruct (present u s); [done|constructor]].
    destruct (tlv_value_size u s Hwf Ho Hp) as [Hz _]. destruct (Ho Hp) as [_ Hrows].
    eapply steps_cons; [done|done| |constructor].
    intros rest. etransitivity; [exact (try_tlv (HF := tlv_format) _ u s s0 rest Hnd Hin H2 Hp Hrows)|].
    unfold tlv_copy. by rewrite Hp.
  - destruct (p4_known_opaque us tag f Hk) as [Ht Hin]. cbn [p4_tlv_ok] in Hok. destruct (tagged tag f s); [|constructor].
    destruct (Hok eq_refl) as [_ Ho]. destruct (zlen_opaque _ Ho) as [Hz _]. eapply steps_cons; [done|done| |constructor].
    intros rest. apply (try_entry (HF := tlv_format) _ (p4_entry (Opaque tag f))); [done|by apply list_elem_of_fmap_2|].
    cbn [p4_entry ut_fn no_pad Z.to_nat replicate app].
    rewrite (opaque_reads (member s f) (set_tl (Tl tag (zlen (opaque_bytes (member s f)))) (member s0 f)) Ho eq_refl). done.
Qed.

(** *** A message *)

Lemma tlv_steps_app {M} (fns : list (unpack_tlv_t M)) m ts m1 ts' m' :
  tlv_steps fns m ts m1 -> tlv_steps fns m1 ts' m' -> tlv_steps fns m (ts ++ ts') m'.
Proof. induction 1; [done|]. intros. cbn [app]. econstructor; eauto. Qed.

Definition p4_values (us es : list p4_tlv) (s : struct) : list (Z * list Z) := concat (p4_value us s <$> es).
Definition p4_copies (us es : list p4_tlv) (s s0 : struct) : struct := foldl (p4_copy us s) s0 es.

Lemma p4_tlvs_steps us s es : NoDup (ut_tag <$> (p4_entry <$> us)) -> forallb (p4_known us) es = true ->
  Forall (p4_tlv_ok us s) es -> forall s0, tlv_steps (p4_entry <$> us) s0 (p4_values us es s) (p4_copies us es s s0).
Proof.
  intros Hnd. induction es as [|e es IH]; [constructor|]. cbn [forallb].
  intros [Hk Hks]%andb_true_iff [Hok Hoks]%list.Forall_cons s0. unfold p4_values. cbn [fmap list_fmap concat].
  eapply tlv_steps_app; [by apply p4_tlv_steps|by apply IH].
Qed.

Lemma p4_tlvs_write us s es : forallb (p4_known us) es = true -> Forall (p4_tlv_ok us s) es ->
  writes (pack_p4_tlvs es s) (tlvs_bytes no_pad (p4_values us es s)).
Proof.
  induction es as [|e es IH]; [intros; apply writes_ok|]. cbn [forallb].
  intros [Hk Hks]%andb_true_iff [Hok Hoks]%list.Forall_cons. unfold p4_values. cbn [fmap list_fmap concat pack_p4_tlvs foldr].
  rewrite tlvs_bytes_app_pad. apply writes_and; [by apply p4_tlv_writes|by apply IH].
Qed.

(** A request is known by its RAT and the tag of the union. *)
Definition p4_member (e : p4_tlv) : string := match e with Tlv t => t_member t | Opaque _ f => f end.
Definition rat_wf (pl : p4_packer) (c : Z * Z) : bool :=
  match case_of (pk_rats pl) (fst c) with
  | Some [Tlv t] => (t_tag t =? snd c) && String.eqb (t_member t) "request"
  | _ => false
  end.

(** The checks of the tables. *)
Definition p4_wf (pl : p4_packer) (ul : p4_unpacker) : bool :=
  let known := forallb (p4_known (uk_tlvs ul)) in
  rows_sim (pk_head pl) (uk_head ul) && rows_wf [[]] (uk_head ul) &&
  bool_decide (NoDup (ut_tag <$> (p4_entry <$> uk_tlvs ul))) &&
  forallb (fun c => known (snd c)) (pk_rats pl) && known (pk_tlvs pl) &&
  match uk_rats ul with
  | Some cs =>
      counted (uk_head ul) "rat_type" && forallb (rat_wf pl) cs &&
      forallb (fun e => negb (String.eqb (p4_member e) "request")) (pk_tlvs pl)
  | None => true
  end.

(** A message that may be sent: the numbers and the values are in range.  It is
    accepted if the request is that of the RAT, where that is checked. *)
Definition p4_fits (pl : p4_packer) (ul : p4_unpacker) (s : struct) : Prop :=
  rows_room [] (pk_head pl) s /\ rows_ok [] (uk_head ul) s /\ Forall (p4_tlv_ok (uk_tlvs ul) s) (p4_sent pl s).
Definition rat_accepted (ul : p4_unpacker) (s : struct) : bool :=
  match uk_rats ul with Some cs => rat_matches cs s | None => true end.

Definition p4_bytes (pl : p4_packer) (ul : p4_unpacker) (s : struct) : list Z :=
  rows_bytes [] (uk_head ul) s ++ tlvs_bytes no_pad (p4_values (uk_tlvs ul) (p4_sent pl s) s).
Definition p4_received (pl : p4_packer) (ul : p4_unpacker) (s : struct) : struct :=
  p4_copies (uk_tlvs ul) (p4_sent pl s) s (rows_copy [] (uk_head ul) s zero).

Lemma p4_wf_spec pl ul : p4_wf pl ul = true ->
  rows_sim (pk_head pl) (uk_head ul) = true /\ rows_wf [[]] (uk_head ul) = true /\
  NoDup (ut_tag <$> (p4_entry <$> uk_tlvs ul)) /\
  (forall rat es, case_of (pk_rats pl) rat = Some es -> forallb (p4_known (uk_tlvs ul)) es = true) /\
  forallb (p4_known (uk_tlvs ul)) (pk_tlvs pl) = true.
Proof.
  unfold p4_wf. intros [[[[[H1 H2]%andb_true_iff H3%bool_decide_eq_true]%andb_true_iff H4]%andb_true_iff
    H5]%andb_true_iff _]%andb_true_iff. split_and!; try done.
  intros rat es H%case_of_in. exact (proj1 (forallb_forall _ _) H4 _ H).
Qed.

Lemma p4_sent_known pl ul s : p4_wf pl ul = true ->
  forallb (p4_known (uk_tlvs ul)) (default [] (case_of (pk_rats pl) (num s "rat_type"))) = true /\
  forallb (p4_known (uk_tlvs ul)) (p4_sent pl s) = true.
Proof.
  intros (_ & _ & _ & H4 & H5)%p4_wf_spec. unfold p4_sent. rewrite forallb_app, H5, andb_true_r.
  specialize (H4 (num s "rat_type")). destruct (case_of _ _) as [es|]; [|done].
  split; exact (H4 es eq_refl).
Qed.

Lemma p4_writes pl ul s : p4_wf pl ul = true -> p4_fits pl ul s -> writes (pack_p4 pl s) (p4_bytes pl ul s).
Proof.
  intros Hwf (Hroom & Hrows & Hok). destruct (p4_sent_known pl ul s Hwf) as [Hk _].
  destruct (p4_wf_spec pl ul Hwf) as (H1 & H2 & _ & _ & Hkt). unfold p4_sent in Hok. apply Forall_app in Hok as [Ho1 Ho2].
  unfold pack_p4, p4_bytes, p4_sent, p4_values. rewrite fmap_app, concat_app, tlvs_bytes_app_pad.
  apply writes_and; [by apply rows_write|]. apply writes_and; [by apply p4_tlvs_write|].
  rewrite <- (app_nil_r (tlvs_bytes _ _)). apply writes_and; [by apply p4_tlvs_write|apply writes_ok].
Qed.

(** *** The request is still that of the RAT *)

Lemma p4_copies_num us es s s0 : num (p4_copies us es s s0) = num s0.
Proof.
  revert s0. induction es as [|e es IH]; intros s0; [done|]. unfold p4_copies in *. cbn [foldl]. rewrite IH.
  destruct e as [t|tag f]; cbn [p4_copy]; [unfold tlv_copy; by destruct (present _ s)|by destruct (tagged tag f s)].
Qed.

Lemma p4_copies_other us es s s0 f : forallb (p4_known us) es = true -> f ∉ p4_member <$> es ->
  member (p4_copies us es s s0) f = member s0 f.
Proof.
  revert s0. induction es as [|e es IH]; intros s0; [done|]. cbn [forallb fmap list_fmap].
  intros [Hk Hks]%andb_true_iff [Hne Hn]%not_elem_of_cons. unfold p4_copies in *. cbn [foldl]. rewrite IH by done.
  destruct e as [t|tag f']; cbn [p4_copy p4_member] in *.
  - destruct (p4_known_row us t Hk) as (Hsim & _). unfold tlv_sim in Hsim.
    apply andb_true_iff in Hsim as [[_ Hm%String.eqb_eq]%andb_true_iff _]. unfold tlv_copy. destruct (present _ s); [|done].
    rewrite member_set_member, decide_False by congruence. done.
  - destruct (tagged tag f' s); [|done]. rewrite member_set_member, decide_False by congruence. done.
Qed.

Lemma p4_rat_kept pl ul s cs : p4_wf pl ul = true -> uk_rats ul = Some cs -> rat_matches cs s = true ->
  rat_matches cs (p4_received pl ul s) = true.
Proof.
  intros Hwf Hcs (c & Hc & [Hrat%Z.eqb_eq Htag%Z.eqb_eq]%andb_true_iff)%existsb_exists.
  destruct (p4_sent_known pl ul s Hwf) as [Hk _]. destruct (p4_wf_spec pl ul Hwf) as (_ & _ & _ & _ & Hkt).
  unfold p4_wf in Hwf. apply andb_true_iff in Hwf as [_ Hwf]. rewrite Hcs in Hwf.
  apply andb_true_iff in Hwf as [[Hcnt Hr]%andb_true_iff Hothers]. pose proof (proj1 (forallb_forall _ _) Hr c Hc) as Hw.
  unfold rat_wf in Hw. rewrite <- Hrat in Hw. unfold p4_received, p4_sent.
  destruct (case_of (pk_rats pl) (num s "rat_type")) as [[|[t|] [|]]|]; try done.
  apply andb_true_iff in Hw as [Ht%Z.eqb_eq Hm%String.eqb_eq]. change (default [] (Some [Tlv t])) with [Tlv t] in *.
  cbn [forallb] in Hk. rewrite andb_true_r in Hk. destruct (p4_known_row _ t Hk) as (Hsim & _). unfold tlv_sim in Hsim.
  apply andb_true_iff in Hsim as [[Ht'%Z.eqb_eq Hm'%String.eqb_eq]%andb_true_iff _].
  apply existsb_exists. exists c. split; [done|]. rewrite p4_copies_num. unfold p4_copies. cbn [app foldl].
  change (foldl (p4_copy (uk_tlvs ul) s) ?x (pk_tlvs pl)) with (p4_copies (uk_tlvs ul) (pk_tlvs pl) s x).
  rewrite p4_copies_other; [|done|].
  2: { intros (e & He & Hin%list_elem_of_In)%list_elem_of_fmap.
       pose proof (proj1 (forallb_forall _ _) Hothers e Hin) as Hne. cbn beta in Hne. by rewrite <- He in Hne. }
  set (u := p4_resolve (uk_tlvs ul) t) in *.
  assert (present u s = true) as Hp by (unfold present; rewrite <- Hm', <- Ht', Hm, Ht; by apply Z.eqb_eq).
  cbn [p4_copy]. unfold tlv_copy. fold u. rewrite Hp, member_set_member, decide_True by congruence.
  rewrite rows_copy_tl. cbn [tl_of set_tl tl_tag]. rewrite <- Ht', Ht, Z.eqb_refl, andb_true_r.
  pose proof (count_copy (uk_head ul) ["rat_type"] s zero) as Hn. cbn [forallb count_of foldr] in Hn.
  rewrite Hcnt, !Z.add_0_r in Hn. specialize (Hn eq_refl).
  apply Z.eqb_eq. rewrite <- Hrat, <- Hn. unfold tlv_copy. done.
Qed.

Lemma p4_reads pl ul s : p4_wf pl ul = true -> p4_fits pl ul s -> rat_accepted ul s = true ->
  unpack_p4 ul zero (p4_bytes pl ul s) = (1, p4_received pl ul s).
Proof.
  intros Hwf (_ & Hrows & Hok) Hrat. destruct (p4_sent_known pl ul s Hwf) as [_ Hk]. unfold rat_accepted in Hrat.
  destruct (p4_wf_spec pl ul Hwf) as (_ & H2 & Hnd & _). unfold unpack_p4, p4_bytes.
  rewrite (rows_read _ _ zero H2 Hrows).
  rewrite (unpack_tlv_list_steps _ _ _ _ (p4_tlvs_steps _ s (p4_sent pl s) Hnd Hk Hok _)). cbn [Z.eqb negb b2z].
  fold (p4_received pl ul s). destruct (uk_rats ul) as [cs|] eqn:E; [|done]. by rewrite (p4_rat_kept pl ul s cs).
Qed.

(** *** The conditions can be evaluated *)

Definition p4_tlv_okb (us : list p4_tlv) (s : struct) (e : p4_tlv) : bool :=
  match e with
  | Tlv t =>
      (negb (present t s) || rows_roomb [] (t_rows t) (member s (t_member t))) && tlv_row_okb s (p4_resolve us t)
  | Opaque tag f =>
      let v := member s f in
      negb (tagged tag f s) ||
      in_typeb U16 (tl_length (tl_of v)) && count_okb (num v "length") NFAPI_MAX_OPAQUE_DATA (arr v "value") &&
      forallb (in_typeb U8) (opaque_bytes v)
  end.
Definition p4_fitsb (pl : p4_packer) (ul : p4_unpacker) (s : struct) : bool :=
  rows_roomb [] (pk_head pl) s && rows_okb [] (uk_head ul) s && forallb (p4_tlv_okb (uk_tlvs ul) s) (p4_sent pl s).

Lemma p4_tlv_okb_spec us s e : p4_tlv_okb us s e = true -> p4_tlv_ok us s e.
Proof.
  destruct e as [t|tag f]; cbn [p4_tlv_okb p4_tlv_ok].
  - intros [H1 H2%tlv_row_okb_spec]%andb_true_iff. split; [|done]. intros Hp. rewrite Hp in H1. by apply rows_roomb_spec.
  - intros H Hp. rewrite Hp in H. cbn [negb orb] in H.
    apply andb_true_iff in H as [[H1%in_typeb_spec H2%count_okb_spec]%andb_true_iff H3]. split; [done|split; [done|]].
    by apply (forallb_Forall (in_typeb U8)); [intros v; apply (in_typeb_spec U8)|].
Qed.

Lemma p4_fitsb_spec pl ul s : p4_fitsb pl ul s = true -> p4_fits pl ul s.
Proof.
  unfold p4_fitsb, p4_fits. intros [[H1%rows_roomb_spec H2%rows_okb_spec]%andb_true_iff H3]%andb_true_iff. split_and!; [done..|].
  by apply (forallb_Forall (p4_tlv_okb (uk_tlvs ul) s)); [intros; apply p4_tlv_okb_spec|].
Qed.

(** *** All messages *)

Definition p4_messages : list (Z * (p4_packer * p4_unpacker)) :=
  [(NFAPI_RSSI_REQUEST, (pack_rssi_request, unpack_rssi_request));
   (NFAPI_RSSI_RESPONSE, (pack_rssi_response, unpack_rssi_response));
   (NFAPI_RSSI_INDICATION, (pack_rssi_indication, unpack_rssi_indication));
   (NFAPI_CELL_SEARCH_REQUEST, (pack_cell_search_request, unpack_cell_search_request));
   (NFAPI_CELL_SEARCH_RESPONSE, (pack_cell_search_response, unpack_cell_search_response));
   (NFAPI_CELL_SEARCH_INDICATION, (pack_cell_search_indication, unpack_cell_search_indication));
   (NFAPI_BROADCAST_DETECT_REQUEST, (pack_broadcast_detect_request, unpack_broadcast_detect_request));
   (NFAPI_BROADCAST_DETECT_RESPONSE, (pack_broadcast_detect_response, unpack_broadcast_detect_response));
   (NFAPI_BROADCAST_DETECT_INDICATION, (pack_broadcast_detect_indication, unpack_broadcast_detect_indication));
   (NFAPI_SYSTEM_INFORMATION_SCHEDULE_REQUEST, (pack_system_information_schedule_request, unpack_system_information_schedule_request));
   (NFAPI_SYSTEM_INFORMATION_SCHEDULE_RESPONSE, (pack_system_information_schedule_response, unpack_system_information_schedule_response));
   (NFAPI_SYSTEM_INFORMATION_SCHEDULE_INDICATION, (pack_system_information_schedule_indication, unpack_system_information_schedule_indication));
   (NFAPI_SYSTEM_INFORMATION_REQUEST, (pack_system_information_request, unpack_system_information_request));
   (NFAPI_SYSTEM_INFORMATION_RESPONSE, (pack_system_information_response, unpack_system_information_response));
   (NFAPI_SYSTEM_INFORMATION_INDICATION, (pack_system_information_indication, unpack_system_information_indication));
   (NFAPI_NMM_STOP_REQUEST, (pack_nmm_stop_request, unpack_nmm_stop_request));
   (NFAPI_NMM_STOP_RESPONSE, (pack_nmm_stop_response, unpack_nmm_stop_response))].

Lemma p4_messages_checked : forallb (fun '(_, (pl, ul)) => p4_wf pl ul) p4_messages = true.
Proof. vm_compute. reflexivity. Qed.

Lemma p4_bodies sizeof vp vu id pl ul s size l : (id, (pl, ul)) ∈ p4_messages ->
  pack_p4_message_body vp id s = pack_p4 pl s /\
  (check_unpack_length sizeof id size <> 0 -> unpack_p4_message_body sizeof vu id size zero l = unpack_p4 ul zero l).
Proof.
  intros H. unfold unpack_p4_message_body. split.
  - unfold p4_messages in H. case_layouts H.
  - intros Hc%Z.eqb_neq. rewrite Hc. unfold p4_messages in H. clear Hc. case_layouts H.
Qed.

Lemma p4_frame_pack vp id pl ul h s buflen :
  (id, (pl, ul)) ∈ p4_messages -> h_message_id h = id -> p5_header_ok h -> p4_fits pl ul s ->
  8 + zlen (p4_bytes pl ul s) <= 65535 -> 8 + zlen (p4_bytes pl ul s) <= buflen < 4294967296 ->
  nfapi_p4_message_pack vp h s buflen =
    Some (p5_header_bytes (with_length (8 + zlen (p4_bytes pl ul s)) h) ++ p4_bytes pl ul s).
Proof.
  intros Hin <- Hh Hok H16 Hbuf.
  pose proof (proj1 (forallb_forall _ _) p4_messages_checked _ (proj1 (list_elem_of_In _ _) Hin)) as Hwf.
  destruct (p4_bodies (fun _ => 0) vp None _ _ _ s 0 [] Hin) as [Hp _]. unfold nfapi_p4_message_pack.
  rewrite (p5_frame_pack_ok 0 _ h s (p4_bytes pl ul s)) by (done || lia || (rewrite Hp; by apply writes_ret_u8, p4_writes)).
  by rewrite Z.sub_0_r.
Qed.

Lemma with_length_ok n h : p5_header_ok h -> in_u16 n -> p5_header_ok (with_length n h).
Proof. by intros (? & ? & _ & ?) ?. Qed.

Lemma p4_frame_unpack sizeof vu h bs size : p5_header_ok h -> sizeof "nfapi_p4_p5_message_header_t" <= size ->
  nfapi_p4_message_unpack sizeof vu (p5_header_bytes h ++ bs) size =
  let '(result, s) := unpack_p4_message_body sizeof vu (h_message_id h) size zero bs in
  (if result =? 0 then -1 else result, h, s).
Proof.
  intros Hh Hs. pose proof (zlen_nonneg bs). unfold nfapi_p4_message_unpack, NFAPI_HEADER_LENGTH.
  rewrite zlen_app, zlen_p5_header_bytes. destruct (Z.ltb_spec (8 + zlen bs) 8); [lia|].
  destruct (Z.ltb_spec size (sizeof "nfapi_p4_p5_message_header_t")); [lia|]. cbn [orb].
  by rewrite (pa_run _ _ _ (parses_p5_header h Hh)).
Qed.

(** C22. Every message of P4 whose members and counts are in range, with the request
    of the RAT in the union where the unpacker checks that, is packed if it fits the
    buffer, and unpacked again: the unpacked header is the sender's with the length
    filled in, and the structure has the same numbers, for every TLV whose tag is
    set the same value with its real length, and opaque data with the length of
    its TLV. *)
Theorem p4_roundtrip sizeof vp vu id pl ul h s buflen size :
  (id, (pl, ul)) ∈ p4_messages -> h_message_id h = id -> p5_header_ok h -> p4_fits pl ul s ->
  rat_accepted ul s = true ->
  8 + zlen (p4_bytes pl ul s) <= 65535 -> 8 + zlen (p4_bytes pl ul s) <= buflen < 4294967296 ->
  sizeof "nfapi_p4_p5_message_header_t" <= size -> check_unpack_length sizeof id size <> 0 ->
  exists bs, nfapi_p4_message_pack vp h s buflen = Some bs /\
    nfapi_p4_message_unpack sizeof vu bs size = (1, with_length (zlen bs) h, p4_received pl ul s).
Proof.
  intros Hin Hid Hh Hok Hrat H16 Hbuf Hs Hc. pose proof (zlen_nonneg (p4_bytes pl ul s)).
  pose proof (proj1 (forallb_forall _ _) p4_messages_checked _ (proj1 (list_elem_of_In _ _) Hin)) as Hwf.
  destruct (p4_bodies sizeof vp vu _ _ _ s size (p4_bytes pl ul s) Hin) as [_ Hu].
  rewrite (p4_frame_pack vp id pl ul h s buflen) by done. eexists. split; [reflexivity|].
  rewrite p4_frame_unpack; [|apply with_length_ok; [done|wrap_lia]|done].
  cbn [with_length h_message_id]. rewrite Hid, (Hu Hc), (p4_reads pl ul s Hwf Hok Hrat). by rewrite zlen_app.
Qed.

(** A search in three NB-IoT cells. *)
Definition sample_cell_search : struct :=
  set_num "rat_type" NFAPI_RAT_TYPE_NB_IOT (set_member "request" (set_tl (Tl NFAPI_NB_IOT_CELL_SEARCH_REQUEST_TAG 0)
    (set_num "earfcn" 3000 (set_num "timeout" 100000 (set_num "number_of_pci" 3 (set_arr "pci" [17; 42; 503] zero))))) zero).

Lemma p4_roundtrip_witness : exists bs,
  nfapi_p4_message_pack None (sample_p5_header NFAPI_CELL_SEARCH_REQUEST) sample_cell_search 65535 = Some bs /\
  nfapi_p4_message_unpack sample_sizeof None bs 1 =
    (1, with_length (zlen bs) (sample_p5_header NFAPI_CELL_SEARCH_REQUEST),
     p4_received pack_cell_search_request unpack_cell_search_request sample_cell_search).
Proof.
  apply (p4_roundtrip sample_sizeof None None NFAPI_CELL_SEARCH_REQUEST).
  - do 3 apply list_elem_of_further. apply list_elem_of_here.
  - reflexivity.
  - repeat split; discriminate.
  - apply p4_fitsb_spec. vm_compute. reflexivity.
  - vm_compute. reflexivity.
  - vm_compute. discriminate.
  - vm_compute. split; [discriminate|reflexivity].
  - discriminate.
  - vm_compute. discriminate.
Defined.

(** What is sent and what the receiver finds. *)
Definition p4_exchange (id : Z) (s : struct) : option (Z * struct) :=
  bs ← nfapi_p4_message_pack None (sample_p5_header id) s 65535;
  let '(r, _, s) := nfapi_p4_message_unpack sample_sizeof None bs 65535 in Some (r, s).

(** Two GSM cells and three bytes of state. *)
Definition sample_cells : struct :=
  set_member "geran_cell_search_indication" (set_tl (Tl NFAPI_GERAN_CELL_SEARCH_INDICATION_TAG 0)
    (set_num "number_of_gsm_cells_found" 2 (set_sub "gsm_found_cells"
      [set_num "arfcn" 700 (set_num "frequency_offset" (-5) zero); set_num "arfcn" 701 (set_num "sfn_offset" 70000 zero)] zero)))
  (set_member "pnf_cell_search_state" (set_tl (Tl NFAPI_PNF_CELL_SEARCH_STATE_TAG 0)
    (set_num "length" 3 (set_arr "value" [1; 2; 3; 0] zero))) zero).
Example cells_and_state :
  (fun r => (fst r, (fun c => (num c "arfcn", num c "frequency_offset", num c "sfn_offset")) <$>
      sub (member (snd r) "geran_cell_search_indication") "gsm_found_cells",
     tl_length (tl_of (member (snd r) "pnf_cell_search_state")), arr (member (snd r) "pnf_cell_search_state") "value")) <$>
    p4_exchange NFAPI_CELL_SEARCH_INDICATION sample_cells =
  Some (1, [(700, -5, 0); (701, 0, 70000)], 3, [1; 2; 3]).
Proof. vm_compute. reflexivity. Qed.

(** A request whose TLV is not that of the RAT is packed without it and rejected. *)
Example wrong_rat :
  fst <$> p4_exchange NFAPI_CELL_SEARCH_REQUEST (set_num "rat_type" NFAPI_RAT_TYPE_LTE sample_cell_search) = Some (-1).
Proof. vm_compute. reflexivity. Qed.

(** *** NB-IoT system information *)

Definition stopped {M} (r : (M * list Z) + (M * list Z)) : M := match r with inl (m, _) | inr (m, _) => m end.

Lemma try_entries_invariant {M} (P : M -> Prop) pad (fns : list (unpack_tlv_t M)) tl :
  Forall (fun e => forall tl m l, P m -> P (stopped (ut_fn e tl m l))) fns -> forall b m l, P m ->
  match try_entries pad fns tl b m l with inl (m, _) | inr (_, m, _) => P m end.
Proof.
  induction 1 as [|e fns He _ IH]; intros b m l HP; cbn [try_entries]; [done|].
  destruct (_ =? _); [|by apply IH]. specialize (He tl m l HP). destruct (ut_fn e tl m l) as [[m1 l1]|[m1 l1]]; [done|].
  by apply IH.
Qed.

Lemma tlv_loop_invariant {M} (P : M -> Prop) pad tm (fns : list (unpack_tlv_t M)) :
  Forall (fun e => forall tl m l, P m -> P (stopped (ut_fn e tl m l))) fns -> forall fuel n m l,
  P m -> P (snd (fst (tlv_loop fuel pad tm fns None n m l))).
Proof.
  intros Hfns. induction fuel as [|fuel IH]; intros n m l HP; [done|]. cbn [tlv_loop].
  case_match; [done|]. destruct (unpack_tl l) as [[tl l1]|]; [|done].
  pose proof (try_entries_invariant P pad fns tl Hfns false m l1 HP) as Ht.
  destruct (try_entries pad fns tl false m l1) as [[m2 l2]|[[b m2] l2]]; [done|].
  destruct b; [by apply IH|]. cbn. repeat (case_match; try done); by apply IH.
Qed.

(** Members of TLVs are structures: the numbers in front stay. *)
Lemma p4_entry_num e tl s l : num (stopped (ut_fn (p4_entry e) tl s l)) = num s.
Proof.
  destruct e as [t|tag f]; cbn [p4_entry tlv_entry ut_fn].
  - by destruct (unpack_rows _ _ _ _) as [[]|[]].
  - by destruct (unpack_opaque_data_value _ _) as [[]|[]].
Qed.

Lemma nb_iot_request_read s l : num s "rat_type" = NFAPI_RAT_TYPE_NB_IOT ->
  fst (unpack_p4 unpack_system_information_request zero (rows_bytes [] [Num U8 "rat_type"] s ++ l)) = 0.
Proof.
  intros Hrat. unfold unpack_p4. cbn [rows_bytes foldr row_bytes type_bytes app]. rewrite Hrat.
  cbn [uk_head unpack_system_information_request unpack_rows foldr]. unfold andthen, pass. cbn [unpack_row pull_as pull8].
  set (s1 := set_num "rat_type" NFAPI_RAT_TYPE_NB_IOT zero). cbn [uk_tlvs uk_rats].
  pose proof (tlv_loop_invariant (fun m => num m = num s1) no_pad 0
    (p4_entry <$> uk_tlvs unpack_system_information_request)) as Hinv.
  specialize (Hinv ltac:(apply Forall_fmap, list.Forall_forall; intros e _ tl m l' Hm; cbn; by rewrite p4_entry_num)
    (tlv_fuel l) 0 s1 l eq_refl). cbn [uk_tlvs unpack_system_information_request] in Hinv.
  unfold unpack_tlv_list. destruct (tlv_loop _ _ _ _ _ _ _ _) as [[r m] l']. cbn [fst snd] in Hinv.
  unfold rat_matches. cbn [existsb fst snd]. rewrite Hinv. cbn. by destruct (r =? 0).
Qed.

(** A SYSTEM_INFORMATION request for NB-IoT that may be sent is packed but never
    unpacked: the check that the RAT and the tag match does not know NB-IoT. *)
Theorem nb_iot_system_information_rejected sizeof vp vu h s buflen :
  let pl := pack_system_information_request in let ul := unpack_system_information_request in
  num s "rat_type" = NFAPI_RAT_TYPE_NB_IOT -> h_message_id h = NFAPI_SYSTEM_INFORMATION_REQUEST ->
  p5_header_ok h -> p4_fits pl ul s ->
  8 + zlen (p4_bytes pl ul s) <= 65535 -> 8 + zlen (p4_bytes pl ul s) <= buflen < 4294967296 ->
  exists bs, nfapi_p4_message_pack vp h s buflen = Some bs /\
    forall size, fst (fst (nfapi_p4_message_unpack sizeof vu bs size)) = -1.
Proof.
  intros pl ul Hrat Hid Hh Hok H16 Hbuf. pose proof (zlen_nonneg (p4_bytes pl ul s)).
  assert ((NFAPI_SYSTEM_INFORMATION_REQUEST, (pl, ul)) ∈ p4_messages) as Hin
    by (do 12 apply list_elem_of_further; apply list_elem_of_here).
  rewrite (p4_frame_pack vp _ pl ul h s buflen Hin) by done. eexists. split; [reflexivity|]. intros size.
  destruct (Z.le_gt_cases (sizeof "nfapi_p4_p5_message_header_t") size) as [Hs|Hs].
  - rewrite p4_frame_unpack; [|apply with_length_ok; [done|wrap_lia]|done].
    cbn [with_length h_message_id]. rewrite Hid.
    destruct (Z.eq_dec (check_unpack_length sizeof NFAPI_SYSTEM_INFORMATION_REQUEST size) 0) as [Hc|Hc].
    + unfold unpack_p4_message_body. rewrite Hc. reflexivity.
    + destruct (p4_bodies sizeof vp vu _ _ _ s size (p4_bytes pl ul s) Hin) as [_ ->]; [|done].
      pose proof (nb_iot_request_read s (tlvs_bytes no_pad (p4_values (uk_tlvs ul) (p4_sent pl s) s)) Hrat) as Hr.
      fold ul in Hr. unfold p4_bytes. cbn [uk_head ul unpack_system_information_request] in *.
      destruct (unpack_p4 _ _ _) as [r m]. cbn [fst] in Hr. by subst r.
  - unfold nfapi_p4_message_unpack. destruct (Z.ltb_spec size (sizeof "nfapi_p4_p5_message_header_t")); [|lia].
    by rewrite orb_true_r.
Qed.

Definition sample_nb_iot : struct :=
  set_num "rat_type" NFAPI_RAT_TYPE_NB_IOT (set_member "request" (set_tl (Tl NFAPI_NB_IOT_SYSTEM_INFORMATION_REQUEST_TAG 0)
    (set_num "earfcn" 3000 (set_num "number_of_si_periodicity" 1 (set_sub "si_periodicity"
      [set_num "number_of_si_index" 2 (set_arr "si_index" [4; 5] zero)] zero)))) zero).
Lemma nb_iot_system_information_rejected_witness : exists bs,
  nfapi_p4_message_pack None (sample_p5_header NFAPI_SYSTEM_INFORMATION_REQUEST) sample_nb_iot 65535 = Some bs /\
  forall size, fst (fst (nfapi_p4_message_unpack sample_sizeof None bs size)) = -1.
Proof.
  apply (nb_iot_system_information_rejected sample_sizeof None None).
  - reflexivity.
  - reflexivity.
  - repeat split; discriminate.
  - apply p4_fitsb_spec. vm_compute. reflexivity.
  - vm_compute. discriminate.
  - vm_compute. split; [discriminate|reflexivity].
Defined.
