(* ===== verification/P5Types.v ===== *)
(** * Declarations of the P5 structures

    The structures of the P5 messages as [nfapi_interface.h] and
    [nfapi_nr_interface_scf.h] declare them, without the headers, the pointers and
    the TLs.  An enumeration is a 32-bit number.  The theorem checks the
    unpackers of [P5Codec] against them. *)

From S2P Require Import Prelude Tags Codec Ids LteInd Layout Typing P5Codec.

Open Scope string_scope.
Open Scope list_scope.
Open Scope Z_scope.

(** ** Declarations *)

(* src: nfapi_interface.h 1119-1122 nfapi_pnf_param_request_t *)
Definition nfapi_pnf_param_request_t : decl := [].
(* src: nfapi_interface.h 416-434 nfapi_pnf_param_general_t *)
Definition nfapi_pnf_param_general_t : decl :=
   [("nfapi_sync_mode", TNum U8); ("location_mode", TNum U8); ("location_coordinates_length", TNum U16);
    ("location_coordinates", TArr U8 NFAPI_PNF_PARAM_GENERAL_LOCATION_LENGTH); ("dl_config_timing", TNum U32);
    ("tx_timing", TNum U32); ("ul_config_timing", TNum U32); ("hi_dci0_timing", TNum U32);
    ("maximum_number_phys", TNum U16); ("maximum_total_bandwidth", TNum U16);
    ("maximum_total_number_dl_layers", TNum U8); ("maximum_total_number_ul_layers", TNum U8);
    ("shared_bands", TNum U8); ("shared_pa", TNum U8); ("maximum_total_power", TNum S16);
    ("oui", TArr U8 NFAPI_PNF_PARAM_GENERAL_OUI_LENGTH)].
(* src: nfapi_interface.h 441-443 nfapi_rf_config_info_t *)
Definition nfapi_rf_config_info_t : decl := [("rf_config_index", TNum U16)].
(* src: nfapi_interface.h 445-457 nfapi_pnf_phy_info_t *)
Definition nfapi_pnf_phy_info_t : decl :=
   [("phy_config_index", TNum U16); ("number_of_rfs", TNum U16);
    ("rf_config", TSubs NFAPI_MAX_PNF_PHY_RF_CONFIG nfapi_rf_config_info_t);
    ("number_of_rf_exclusions", TNum U16);
    ("excluded_rf_config", TSubs NFAPI_MAX_PNF_PHY_RF_CONFIG nfapi_rf_config_info_t);
    ("downlink_channel_bandwidth_supported", TNum U16); ("uplink_channel_bandwidth_supported", TNum U16);
    ("number_of_dl_layers_supported", TNum U8); ("number_of_ul_layers_supported", TNum U8);
    ("maximum_3gpp_release_supported", TNum U16); ("nmm_modes_supported", TNum U8)].
(* src: nfapi_interface.h 460-464 nfapi_pnf_phy_t *)
Definition nfapi_pnf_phy_t : decl :=
   [("number_of_phys", TNum U16); ("phy", TSubs NFAPI_MAX_PNF_PHY nfapi_pnf_phy_info_t)].
(* src: nfapi_interface.h 570-580 nfapi_pnf_rf_info_t *)
Definition nfapi_pnf_rf_info_t : decl :=
   [("rf_config_index", TNum U16); ("band", TNum U16); ("maximum_transmit_power", TNum S16);
    ("minimum_transmit_power", TNum S16); ("number_of_antennas_suppported", TNum U8);
    ("minimum_downlink_frequency", TNum U32); ("maximum_downlink_frequency", TNum U32);
    ("minimum_uplink_frequency", TNum U32); ("maximum_uplink_frequency", TNum U32)].
(* src: nfapi_interface.h 582-586 nfapi_pnf_rf_t *)
Definition nfapi_pnf_rf_t : decl :=
   [("number_of_rfs", TNum U16); ("rf", TSubs NFAPI_MAX_PNF_RF nfapi_pnf_rf_info_t)].
(* src: nfapi_interface.h 467-475 nfapi_pnf_phy_rel10_info_t *)
Definition nfapi_pnf_phy_rel10_info_t : decl :=
   [("phy_config_index", TNum U16); ("transmission_mode_7_supported", TNum U16);
    ("transmission_mode_8_supported", TNum U16); ("two_antenna_ports_for_pucch", TNum U16);
    ("transmission_mode_9_supported", TNum U16); ("simultaneous_pucch_pusch", TNum U16);
    ("four_layer_tx_with_tm3_and_tm4", TNum U16)].
(* src: nfapi_interface.h 477-481 nfapi_pnf_phy_rel10_t *)
Definition nfapi_pnf_phy_rel10_t : decl :=
   [("number_of_phys", TNum U16); ("phy", TSubs NFAPI_MAX_PNF_PHY nfapi_pnf_phy_rel10_info_t)].
(* src: nfapi_interface.h 484-491 nfapi_pnf_phy_rel11_info_t *)
Definition nfapi_pnf_phy_rel11_info_t : decl :=
   [("phy_config_index", TNum U16); ("edpcch_supported", TNum U16); ("multi_ack_csi_reporting", TNum U16);
    ("pucch_tx_diversity", TNum U16); ("ul_comp_supported", TNum U16);
    ("transmission_mode_5_supported", TNum U16)].
(* src: nfapi_interface.h 493-497 nfapi_pnf_phy_rel11_t *)
Definition nfapi_pnf_phy_rel11_t : decl :=
   [("number_of_phys", TNum U16); ("phy", TSubs NFAPI_MAX_PNF_PHY nfapi_pnf_phy_rel11_info_t)].
(* src: nfapi_interface.h 501-509 nfapi_pnf_phy_rel12_info_t *)
Definition nfapi_pnf_phy_rel12_info_t : decl :=
   [("phy_config_index", TNum U16); ("csi_subframe_set", TNum U16); ("enhanced_4tx_codebook", TNum U16);
    ("drs_supported", TNum U16); ("ul_64qam_supported", TNum U16); ("transmission_mode_10_supported", TNum U16);
    ("alternative_bts_indices", TNum U16)].
(* src: nfapi_interface.h 511-515 nfapi_pnf_phy_rel12_t *)
Definition nfapi_pnf_phy_rel12_t : decl :=
   [("number_of_phys", TNum U16); ("phy", TSubs NFAPI_MAX_PNF_PHY nfapi_pnf_phy_rel12_info_t)].
(* src: nfapi_interface.h 518-530 nfapi_pnf_phy_rel13_info_t *)
Definition nfapi_pnf_phy_rel13_info_t : decl :=
   [("phy_config_index", TNum U16); ("pucch_format4_supported", TNum U16); ("pucch_format5_supported", TNum U16);
    ("more_than_5_ca_support", TNum U16); ("laa_supported", TNum U16);
    ("laa_ending_in_dwpts_supported", TNum U16); ("laa_starting_in_second_slot_supported", TNum U16);
    ("beamforming_supported", TNum U16); ("csi_rs_enhancement_supported", TNum U16);
    ("drms_enhancement_supported", TNum U16); ("srs_enhancement_supported", TNum U16)].
(* src: nfapi_interface.h 532-536 nfapi_pnf_phy_rel13_t *)
Definition nfapi_pnf_phy_rel13_t : decl :=
   [("number_of_phys", TNum U16); ("phy", TSubs NFAPI_MAX_PNF_PHY nfapi_pnf_phy_rel13_info_t)].
(* src: nfapi_interface.h 539-549 nfapi_pnf_phy_rel13_nb_iot_info_t *)
Definition nfapi_pnf_phy_rel13_nb_iot_info_t : decl :=
   [("phy_config_index", TNum U16); ("number_of_rfs", TNum U16);
    ("rf_config", TSubs NFAPI_MAX_PNF_PHY_RF_CONFIG nfapi_rf_config_info_t);
    ("number_of_rf_exclusions", TNum U16);
    ("excluded_rf_config", TSubs NFAPI_MAX_PNF_PHY_RF_CONFIG nfapi_rf_config_info_t);
    ("number_of_dl_layers_supported", TNum U8); ("number_of_ul_layers_supported", TNum U8);
    ("maximum_3gpp_release_supported", TNum U16); ("nmm_modes_supported", TNum U8)].
(* src: nfapi_interface.h 551-555 nfapi_pnf_phy_rel13_nb_iot_t *)
Definition nfapi_pnf_phy_rel13_nb_iot_t : decl :=
   [("number_of_phys", TNum U16); ("phy", TSubs NFAPI_MAX_PNF_PHY nfapi_pnf_phy_rel13_nb_iot_info_t)].
(* src: nfapi_interface.h 558-560 nfapi_pnf_phy_rel15_info_t *)
Definition nfapi_pnf_phy_rel15_info_t : decl := [("phy_config_index", TNum U16)].
(* src: nfapi_interface.h 562-566 nfapi_pnf_phy_rel15_t *)
Definition nfapi_pnf_phy_rel15_t : decl :=
   [("number_of_phys", TNum U16); ("phy", TSubs NFAPI_MAX_PNF_PHY nfapi_pnf_phy_rel15_info_t)].
(* src: nfapi_interface.h 1124-1137 nfapi_pnf_param_response_t *)
Definition nfapi_pnf_param_response_t : decl :=
   [("error_code", TNum U32); ("pnf_param_general", TTlv nfapi_pnf_param_general_t);
    ("pnf_phy", TTlv nfapi_pnf_phy_t); ("pnf_rf", TTlv nfapi_pnf_rf_t);
    ("pnf_phy_rel10", TTlv nfapi_pnf_phy_rel10_t); ("pnf_phy_rel11", TTlv nfapi_pnf_phy_rel11_t);
    ("pnf_phy_rel12", TTlv nfapi_pnf_phy_rel12_t); ("pnf_phy_rel13", TTlv nfapi_pnf_phy_rel13_t);
    ("pnf_phy_rel13_nb_iot", TTlv nfapi_pnf_phy_rel13_nb_iot_t); ("pnf_phy_rel15", TTlv nfapi_pnf_phy_rel15_t)].
(* src: nfapi_interface.h 589-593 nfapi_phy_rf_config_info_t *)
Definition nfapi_phy_rf_config_info_t : decl :=
   [("phy_id", TNum U16); ("phy_config_index", TNum U16); ("rf_config_index", TNum U16)].
(* src: nfapi_interface.h 595-599 nfapi_pnf_phy_rf_config_t *)
Definition nfapi_pnf_phy_rf_config_t : decl :=
   [("number_phy_rf_config_info", TNum U16);
    ("phy_rf_config", TSubs NFAPI_MAX_PHY_RF_INSTANCES nfapi_phy_rf_config_info_t)].
(* src: nfapi_interface.h 1139-1144 nfapi_pnf_config_request_t *)
Definition nfapi_pnf_config_request_t : decl :=
   [("num_tlvs", TNum U8); ("pnf_phy_rf_config", TTlv nfapi_pnf_phy_rf_config_t)].
(* src: nfapi_interface.h 1146-1150 nfapi_pnf_config_response_t *)
Definition nfapi_pnf_config_response_t : decl := [("error_code", TNum U32)].
(* src: nfapi_interface.h 1152-1155 nfapi_pnf_start_request_t *)
Definition nfapi_pnf_start_request_t : decl := [].
(* src: nfapi_interface.h 1157-1161 nfapi_pnf_start_response_t *)
Definition nfapi_pnf_start_response_t : decl := [("error_code", TNum U32)].
(* src: nfapi_interface.h 1163-1166 nfapi_pnf_stop_request_t *)
Definition nfapi_pnf_stop_request_t : decl := [].
(* src: nfapi_interface.h 1168-1172 nfapi_pnf_stop_response_t *)
Definition nfapi_pnf_stop_response_t : decl := [("error_code", TNum U32)].
(* src: nfapi_interface.h 1174-1177 nfapi_param_request_t *)
Definition nfapi_param_request_t : decl := [].
(* src: nfapi_interface.h 623-626 nfapi_uint16_tlv_t *)
Definition nfapi_uint16_tlv_t : decl := [("value", TNum U16)].
(* src: nfapi_interface.h 638-640 nfapi_l1_status *)
Definition nfapi_l1_status : decl := [("phy_state", TTlv nfapi_uint16_tlv_t)].
(* src: nfapi_interface.h 644-652 nfapi_phy_capabilities_t *)
Definition nfapi_phy_capabilities_t : decl :=
   [("dl_bandwidth_support", TTlv nfapi_uint16_tlv_t); ("ul_bandwidth_support", TTlv nfapi_uint16_tlv_t);
    ("dl_modulation_support", TTlv nfapi_uint16_tlv_t); ("ul_modulation_support", TTlv nfapi_uint16_tlv_t);
    ("phy_antenna_capability", TTlv nfapi_uint16_tlv_t); ("release_capability", TTlv nfapi_uint16_tlv_t);
    ("mbsfn_capability", TTlv nfapi_uint16_tlv_t)].
(* src: nfapi_interface.h 989-994 nfapi_laa_capability_t *)
Definition nfapi_laa_capability_t : decl :=
   [("laa_support", TTlv nfapi_uint16_tlv_t); ("pd_sensing_lbt_support", TTlv nfapi_uint16_tlv_t);
    ("multi_carrier_lbt_support", TTlv nfapi_uint16_tlv_t); ("partial_sf_support", TTlv nfapi_uint16_tlv_t)].
(* src: nfapi_interface.h 1001-1004 nfapi_nb_iot_capability_t *)
Definition nfapi_nb_iot_capability_t : decl :=
   [("nb_iot_support", TTlv nfapi_uint16_tlv_t); ("nb_iot_operating_mode_capability", TTlv nfapi_uint16_tlv_t)].
(* src: nfapi_interface.h 672-679 nfapi_subframe_config_t *)
Definition nfapi_subframe_config_t : decl :=
   [("numerology_index_mu", TTlv nfapi_uint16_tlv_t); ("duplex_mode", TTlv nfapi_uint16_tlv_t);
    ("pcfich_power_offset", TTlv nfapi_uint16_tlv_t); ("pb", TTlv nfapi_uint16_tlv_t);
    ("dl_cyclic_prefix_type", TTlv nfapi_uint16_tlv_t); ("ul_cyclic_prefix_type", TTlv nfapi_uint16_tlv_t)].
(* src: nfapi_interface.h 688-694 nfapi_rf_config_t *)
Definition nfapi_rf_config_t : decl :=
   [("dl_channel_bandwidth", TTlv nfapi_uint16_tlv_t); ("ul_channel_bandwidth", TTlv nfapi_uint16_tlv_t);
    ("reference_signal_power", TTlv nfapi_uint16_tlv_t); ("tx_antenna_ports", TTlv nfapi_uint16_tlv_t);
    ("rx_antenna_ports", TTlv nfapi_uint16_tlv_t)].
(* src: nfapi_interface.h 702-706 nfapi_phich_config_t *)
Definition nfapi_phich_config_t : decl :=
   [("phich_resource", TTlv nfapi_uint16_tlv_t); ("phich_duration", TTlv nfapi_uint16_tlv_t);
    ("phich_power_offset", TTlv nfapi_uint16_tlv_t)].
(* src: nfapi_interface.h 712-722 nfapi_sch_config_t *)
Definition nfapi_sch_config_t : decl :=
   [("primary_synchronization_signal_epre_eprers", TTlv nfapi_uint16_tlv_t);
    ("secondary_synchronization_signal_epre_eprers", TTlv nfapi_uint16_tlv_t);
    ("physical_cell_id", TTlv nfapi_uint16_tlv_t); ("half_frame_index", TTlv nfapi_uint16_tlv_t);
    ("ssb_subcarrier_offset", TTlv nfapi_uint16_tlv_t); ("ssb_position_in_burst", TTlv nfapi_uint16_tlv_t);
    ("ssb_periodicity", TTlv nfapi_uint16_tlv_t); ("ss_pbch_block_power", TTlv nfapi_uint16_tlv_t);
    ("n_ssb_crb", TTlv nfapi_uint16_tlv_t)].
(* src: nfapi_interface.h 734-740 nfapi_prach_config_t *)
Definition nfapi_prach_config_t : decl :=
   [("configuration_index", TTlv nfapi_uint16_tlv_t); ("root_sequence_index", TTlv nfapi_uint16_tlv_t);
    ("zero_correlation_zone_configuration", TTlv nfapi_uint16_tlv_t);
    ("high_speed_flag", TTlv nfapi_uint16_tlv_t); ("frequency_offset", TTlv nfapi_uint16_tlv_t)].
(* src: nfapi_interface.h 748-752 nfapi_pusch_config_t *)
Definition nfapi_pusch_config_t : decl :=
   [("hopping_mode", TTlv nfapi_uint16_tlv_t); ("hopping_offset", TTlv nfapi_uint16_tlv_t);
    ("number_of_subbands", TTlv nfapi_uint16_tlv_t)].
(* src: nfapi_interface.h 758-763 nfapi_pucch_config_t *)
Definition nfapi_pucch_config_t : decl :=
   [("delta_pucch_shift", TTlv nfapi_uint16_tlv_t); ("n_cqi_rb", TTlv nfapi_uint16_tlv_t);
    ("n_an_cs", TTlv nfapi_uint16_tlv_t); ("n1_pucch_an", TTlv nfapi_uint16_tlv_t)].
(* src: nfapi_interface.h 633-636 nfapi_uint8_tlv_t *)
Definition nfapi_uint8_tlv_t : decl := [("value", TNum U8)].
(* src: nfapi_interface.h 770-773 nfapi_embms_sib13_config_t *)
Definition nfapi_embms_sib13_config_t : decl :=
   [("mbsfn_area_idx", TTlv nfapi_uint8_tlv_t); ("mbsfn_area_id_r9", TTlv nfapi_uint16_tlv_t)].
(* src: nfapi_interface.h 777-784 nfapi_embms_mbsfn_config_t *)
Definition nfapi_embms_mbsfn_config_t : decl :=
   [("num_mbsfn_config", TNum U16); ("radioframe_allocation_period", TArr U16 8);
    ("radioframe_allocation_offset", TArr U16 8); ("fourframes_flag", TArr U8 8);
    ("mbsfn_subframeconfig", TArr S32 8)].
(* src: nfapi_interface.h 787-792 nfapi_fembms_config_t *)
Definition nfapi_fembms_config_t : decl :=
   [("radioframe_allocation_period", TTlv nfapi_uint8_tlv_t);
    ("radioframe_allocation_offset", TTlv nfapi_uint8_tlv_t); ("non_mbsfn_config_flag", TTlv nfapi_uint8_tlv_t);
    ("non_mbsfn_subframeconfig", TTlv nfapi_uint16_tlv_t)].
(* src: nfapi_interface.h 799-804 nfapi_srs_config_t *)
Definition nfapi_srs_config_t : decl :=
   [("bandwidth_configuration", TTlv nfapi_uint16_tlv_t); ("max_up_pts", TTlv nfapi_uint16_tlv_t);
    ("srs_subframe_configuration", TTlv nfapi_uint16_tlv_t);
    ("srs_acknack_srs_simultaneous_transmission", TTlv nfapi_uint16_tlv_t)].
(* src: nfapi_interface.h 811-815 nfapi_uplink_reference_signal_config_t *)
Definition nfapi_uplink_reference_signal_config_t : decl :=
   [("uplink_rs_hopping", TTlv nfapi_uint16_tlv_t); ("group_assignment", TTlv nfapi_uint16_tlv_t);
    ("cyclic_shift_1_for_drms", TTlv nfapi_uint16_tlv_t)].
(* src: nfapi_interface.h 1009-1012 nfapi_tdd_frame_structure_t *)
Definition nfapi_tdd_frame_structure_t : decl :=
   [("subframe_assignment", TTlv nfapi_uint16_tlv_t); ("special_subframe_patterns", TTlv nfapi_uint16_tlv_t)].
(* src: nfapi_interface.h 663-666 nfapi_l23_config_t *)
Definition nfapi_l23_config_t : decl :=
   [("data_report_mode", TTlv nfapi_uint16_tlv_t); ("sfnsf", TTlv nfapi_uint16_tlv_t)].
(* src: nfapi_interface.h 915-951 nfapi_nb_iot_config_t *)
Definition nfapi_nb_iot_config_t : decl :=
   [("operating_mode", TTlv nfapi_uint16_tlv_t); ("anchor", TTlv nfapi_uint16_tlv_t);
    ("prb_index", TTlv nfapi_uint16_tlv_t); ("control_region_size", TTlv nfapi_uint16_tlv_t);
    ("assumed_crs_aps", TTlv nfapi_uint16_tlv_t); ("nprach_config_0_enabled", TTlv nfapi_uint16_tlv_t);
    ("nprach_config_0_sf_periodicity", TTlv nfapi_uint16_tlv_t);
    ("nprach_config_0_start_time", TTlv nfapi_uint16_tlv_t);
    ("nprach_config_0_subcarrier_offset", TTlv nfapi_uint16_tlv_t);
    ("nprach_config_0_number_of_subcarriers", TTlv nfapi_uint16_tlv_t);
    ("nprach_config_0_cp_length", TTlv nfapi_uint16_tlv_t);
    ("nprach_config_0_number_of_repetitions_per_attempt", TTlv nfapi_uint16_tlv_t);
    ("nprach_config_1_enabled", TTlv nfapi_uint16_tlv_t);
    ("nprach_config_1_sf_periodicity", TTlv nfapi_uint16_tlv_t);
    ("nprach_config_1_start_time", TTlv nfapi_uint16_tlv_t);
    ("nprach_config_1_subcarrier_offset", TTlv nfapi_uint16_tlv_t);
    ("nprach_config_1_number_of_subcarriers", TTlv nfapi_uint16_tlv_t);
    ("nprach_config_1_cp_length", TTlv nfapi_uint16_tlv_t);
    ("nprach_config_1_number_of_repetitions_per_attempt", TTlv nfapi_uint16_tlv_t);
    ("nprach_config_2_enabled", TTlv nfapi_uint16_tlv_t);
    ("nprach_config_2_sf_periodicity", TTlv nfapi_uint16_tlv_t);
    ("nprach_config_2_start_time", TTlv nfapi_uint16_tlv_t);
    ("nprach_config_2_subcarrier_offset", TTlv nfapi_uint16_tlv_t);
    ("nprach_config_2_number_of_subcarriers", TTlv nfapi_uint16_tlv_t);
    ("nprach_config_2_cp_length", TTlv nfapi_uint16_tlv_t);
    ("nprach_config_2_number_of_repetitions_per_attempt", TTlv nfapi_uint16_tlv_t);
    ("three_tone_base_sequence", TTlv nfapi_uint16_tlv_t); ("six_tone_base_sequence", TTlv nfapi_uint16_tlv_t);
    ("twelve_tone_base_sequence", TTlv nfapi_uint16_tlv_t); ("three_tone_cyclic_shift", TTlv nfapi_uint16_tlv_t);
    ("six_tone_cyclic_shift", TTlv nfapi_uint16_tlv_t); ("dl_gap_config_enable", TTlv nfapi_uint16_tlv_t);
    ("dl_gap_threshold", TTlv nfapi_uint16_tlv_t); ("dl_gap_periodicity", TTlv nfapi_uint16_tlv_t);
    ("dl_gap_duration_coefficient", TTlv nfapi_uint16_tlv_t)].
(* src: nfapi_interface.h 1044-1047 nfapi_ipv4_address_t *)
Definition nfapi_ipv4_address_t : decl := [("address", TArr U8 NFAPI_IPV4_ADDRESS_LENGTH)].
(* src: nfapi_interface.h 1049-1052 nfapi_ipv6_address_t *)
Definition nfapi_ipv6_address_t : decl := [("address", TArr U8 NFAPI_IPV6_ADDRESS_LENGTH)].
(* src: nfapi_interface.h 1017-1021 nfapi_rf_bands_t *)
Definition nfapi_rf_bands_t : decl :=
   [("number_rf_bands", TNum U16); ("rf_band", TArr U16 NFAPI_MAX_NUM_RF_BANDS)].
(* src: nfapi_interface.h 608-611 nfapi_uint32_tlv_t *)
Definition nfapi_uint32_tlv_t : decl := [("value", TNum U32)].
(* src: nfapi_interface.h 1056-1060 nfapi_nmm_frequency_bands_t *)
Definition nfapi_nmm_frequency_bands_t : decl :=
   [("number_of_rf_bands", TNum U16); ("bands", TArr U16 NFAPI_MAX_NMM_FREQUENCY_BANDS)].
(* src: nfapi_interface.h 1063-1095 nfapi_nfapi_t *)
Definition nfapi_nfapi_t : decl :=
   [("p7_vnf_address_ipv4", TTlv nfapi_ipv4_address_t); ("p7_vnf_address_ipv6", TTlv nfapi_ipv6_address_t);
    ("p7_vnf_port", TTlv nfapi_uint16_tlv_t); ("p7_pnf_address_ipv4", TTlv nfapi_ipv4_address_t);
    ("p7_pnf_address_ipv6", TTlv nfapi_ipv6_address_t); ("p7_pnf_port", TTlv nfapi_uint16_tlv_t);
    ("dl_ue_per_sf", TTlv nfapi_uint8_tlv_t); ("ul_ue_per_sf", TTlv nfapi_uint8_tlv_t);
    ("rf_bands", TTlv nfapi_rf_bands_t); ("timing_window", TTlv nfapi_uint8_tlv_t);
    ("timing_info_mode", TTlv nfapi_uint8_tlv_t); ("timing_info_period", TTlv nfapi_uint8_tlv_t);
    ("max_transmit_power", TTlv nfapi_uint16_tlv_t); ("earfcn", TTlv nfapi_uint32_tlv_t);
    ("nmm_gsm_frequency_bands", TTlv nfapi_nmm_frequency_bands_t);
    ("nmm_umts_frequency_bands", TTlv nfapi_nmm_frequency_bands_t);
    ("nmm_lte_frequency_bands", TTlv nfapi_nmm_frequency_bands_t);
    ("nmm_uplink_rssi_supported", TTlv nfapi_uint8_tlv_t)].
(* src: nfapi_interface.h 1179-1209 nfapi_param_response_t *)
Definition nfapi_param_response_t : decl :=
   [("error_code", TNum U8); ("num_tlv", TNum U8)] ++
   within "l1_status" nfapi_l1_status ++
   within "phy_capabilities" nfapi_phy_capabilities_t ++
   within "laa_capability" nfapi_laa_capability_t ++
   within "nb_iot_capability" nfapi_nb_iot_capability_t ++
   within "subframe_config" nfapi_subframe_config_t ++
   within "rf_config" nfapi_rf_config_t ++
   within "phich_config" nfapi_phich_config_t ++
   within "sch_config" nfapi_sch_config_t ++
   within "prach_config" nfapi_prach_config_t ++
   within "pusch_config" nfapi_pusch_config_t ++
   within "pucch_config" nfapi_pucch_config_t ++
   within "embms_sib13_config" nfapi_embms_sib13_config_t ++
   [("embms_mbsfn_config", TTlv nfapi_embms_mbsfn_config_t)] ++
   within "fembms_config" nfapi_fembms_config_t ++
   within "srs_config" nfapi_srs_config_t ++
   within "uplink_reference_signal_config" nfapi_uplink_reference_signal_config_t ++
   within "tdd_frame_structure_config" nfapi_tdd_frame_structure_t ++
   within "l23_config" nfapi_l23_config_t ++
   within "nb_iot_config" nfapi_nb_iot_config_t ++
   within "nfapi_config" nfapi_nfapi_t.
(* src: nfapi_interface.h 822-831 nfapi_laa_config_t *)
Definition nfapi_laa_config_t : decl :=
   [("ed_threshold_lbt_pdsch", TTlv nfapi_uint16_tlv_t); ("ed_threshold_lbt_drs", TTlv nfapi_uint16_tlv_t);
    ("pd_threshold", TTlv nfapi_uint16_tlv_t); ("multi_carrier_type", TTlv nfapi_uint16_tlv_t);
    ("multi_carrier_tx", TTlv nfapi_uint16_tlv_t); ("multi_carrier_freeze", TTlv nfapi_uint16_tlv_t);
    ("tx_antenna_ports_drs", TTlv nfapi_uint16_tlv_t); ("tx_power_drs", TTlv nfapi_uint16_tlv_t)].
(* src: nfapi_interface.h 842-878 nfapi_emtc_config_t *)
Definition nfapi_emtc_config_t : decl :=
   [("pbch_repetitions_enable_r13", TTlv nfapi_uint16_tlv_t);
    ("prach_catm_root_sequence_index", TTlv nfapi_uint16_tlv_t);
    ("prach_catm_zero_correlation_zone_configuration", TTlv nfapi_uint16_tlv_t);
    ("prach_catm_high_speed_flag", TTlv nfapi_uint16_tlv_t);
    ("prach_ce_level_0_enable", TTlv nfapi_uint16_tlv_t);
    ("prach_ce_level_0_configuration_index", TTlv nfapi_uint16_tlv_t);
    ("prach_ce_level_0_frequency_offset", TTlv nfapi_uint16_tlv_t);
    ("prach_ce_level_0_number_of_repetitions_per_attempt", TTlv nfapi_uint16_tlv_t);
    ("prach_ce_level_0_starting_subframe_periodicity", TTlv nfapi_uint16_tlv_t);
    ("prach_ce_level_0_hopping_enable", TTlv nfapi_uint16_tlv_t);
    ("prach_ce_level_0_hopping_offset", TTlv nfapi_uint16_tlv_t);
    ("prach_ce_level_1_enable", TTlv nfapi_uint16_tlv_t);
    ("prach_ce_level_1_configuration_index", TTlv nfapi_uint16_tlv_t);
    ("prach_ce_level_1_frequency_offset", TTlv nfapi_uint16_tlv_t);
    ("prach_ce_level_1_number_of_repetitions_per_attempt", TTlv nfapi_uint16_tlv_t);
    ("prach_ce_level_1_starting_subframe_periodicity", TTlv nfapi_uint16_tlv_t);
    ("prach_ce_level_1_hopping_enable", TTlv nfapi_uint16_tlv_t);
    ("prach_ce_level_1_hopping_offset", TTlv nfapi_uint16_tlv_t);
    ("prach_ce_level_2_enable", TTlv nfapi_uint16_tlv_t);
    ("prach_ce_level_2_configuration_index", TTlv nfapi_uint16_tlv_t);
    ("prach_ce_level_2_frequency_offset", TTlv nfapi_uint16_tlv_t);
    ("prach_ce_level_2_number_of_repetitions_per_attempt", TTlv nfapi_uint16_tlv_t);
    ("prach_ce_level_2_starting_subframe_periodicity", TTlv nfapi_uint16_tlv_t);
    ("prach_ce_level_2_hopping_enable", TTlv nfapi_uint16_tlv_t);
    ("prach_ce_level_2_hopping_offset", TTlv nfapi_uint16_tlv_t);
    ("prach_ce_level_3_enable", TTlv nfapi_uint16_tlv_t);
    ("prach_ce_level_3_configuration_index", TTlv nfapi_uint16_tlv_t);
    ("prach_ce_level_3_frequency_offset", TTlv nfapi_uint16_tlv_t);
    ("prach_ce_level_3_number_of_repetitions_per_attempt", TTlv nfapi_uint16_tlv_t);
    ("prach_ce_level_3_starting_subframe_periodicity", TTlv nfapi_uint16_tlv_t);
    ("prach_ce_level_3_hopping_enable", TTlv nfapi_uint16_tlv_t);
    ("prach_ce_level_3_hopping_offset", TTlv nfapi_uint16_tlv_t);
    ("pucch_interval_ulhoppingconfigcommonmodea", TTlv nfapi_uint16_tlv_t);
    ("pucch_interval_ulhoppingconfigcommonmodeb", TTlv nfapi_uint16_tlv_t)].
(* src: nfapi_interface.h 1211-1237 nfapi_config_request_t *)
Definition nfapi_config_request_t : decl :=
   [("num_tlv", TNum U8)] ++
   within "subframe_config" nfapi_subframe_config_t ++
   within "rf_config" nfapi_rf_config_t ++
   within "phich_config" nfapi_phich_config_t ++
   within "sch_config" nfapi_sch_config_t ++
   within "prach_config" nfapi_prach_config_t ++
   within "pusch_config" nfapi_pusch_config_t ++
   within "pucch_config" nfapi_pucch_config_t ++
   within "embms_sib13_config" nfapi_embms_sib13_config_t ++
   [("embms_mbsfn_config", TTlv nfapi_embms_mbsfn_config_t)] ++
   within "fembms_config" nfapi_fembms_config_t ++
   within "srs_config" nfapi_srs_config_t ++
   within "uplink_reference_signal_config" nfapi_uplink_reference_signal_config_t ++
   within "laa_config" nfapi_laa_config_t ++
   within "emtc_config" nfapi_emtc_config_t ++
   within "tdd_frame_structure_config" nfapi_tdd_frame_structure_t ++
   within "l23_config" nfapi_l23_config_t ++
   within "nb_iot_config" nfapi_nb_iot_config_t ++
   within "nfapi_config" nfapi_nfapi_t.
(* src: nfapi_interface.h 1239-1243 nfapi_config_response_t *)
Definition nfapi_config_response_t : decl := [("error_code", TNum U32)].
(* src: nfapi_interface.h 1245-1248 nfapi_start_request_t *)
Definition nfapi_start_request_t : decl := [].
(* src: nfapi_interface.h 1250-1254 nfapi_start_response_t *)
Definition nfapi_start_response_t : decl := [("error_code", TNum U32)].
(* src: nfapi_interface.h 1256-1259 nfapi_stop_request_t *)
Definition nfapi_stop_request_t : decl := [].
(* src: nfapi_interface.h 1261-1265 nfapi_stop_response_t *)
Definition nfapi_stop_response_t : decl := [("error_code", TNum U32)].
(* src: nfapi_interface.h 1267-1273 nfapi_measurement_request_t *)
Definition nfapi_measurement_request_t : decl :=
   [("dl_rs_tx_power", TTlv nfapi_uint16_tlv_t); ("received_interference_power", TTlv nfapi_uint16_tlv_t);
    ("thermal_noise_power", TTlv nfapi_uint16_tlv_t)].
(* src: nfapi_interface.h 628-631 nfapi_int16_tlv_t *)
Definition nfapi_int16_tlv_t : decl := [("value", TNum S16)].
(* src: nfapi_interface.h 1281-1285 nfapi_received_interference_power_measurement_t *)
Definition nfapi_received_interference_power_measurement_t : decl :=
   [("number_of_resource_blocks", TNum U16);
    ("received_interference_power", TArr S16 NFAPI_MAX_RECEIVED_INTERFERENCE_POWER_RESULTS)].
(* src: nfapi_interface.h 1287-1294 nfapi_measurement_response_t *)
Definition nfapi_measurement_response_t : decl :=
   [("error_code", TNum U32); ("dl_rs_tx_power_measurement", TTlv nfapi_int16_tlv_t);
    ("received_interference_power_measurement", TTlv nfapi_received_interference_power_measurement_t);
    ("thermal_noise_power_measurement", TTlv nfapi_int16_tlv_t)].
(* src: nfapi_nr_interface_scf.h 470-473 nfapi_nr_pnf_param_request_t *)
Definition nfapi_nr_pnf_param_request_t : decl := [].
(* src: nfapi_nr_interface_scf.h 475-482 nfapi_nr_pnf_param_response_t *)
Definition nfapi_nr_pnf_param_response_t : decl :=
   [("error_code", TNum U8); ("num_tlvs", TNum U8); ("pnf_param_general", TTlv nfapi_pnf_param_general_t);
    ("pnf_phy", TTlv nfapi_pnf_phy_t)].
(* src: nfapi_nr_interface_scf.h 484-489 nfapi_nr_pnf_config_request_t *)
Definition nfapi_nr_pnf_config_request_t : decl :=
   [("num_tlvs", TNum U8); ("pnf_phy_rf_config", TTlv nfapi_pnf_phy_rf_config_t)].
(* src: nfapi_nr_interface_scf.h 491-495 nfapi_nr_pnf_config_response_t *)
Definition nfapi_nr_pnf_config_response_t : decl := [("error_code", TNum U8)].
(* src: nfapi_nr_interface_scf.h 497-500 nfapi_nr_pnf_start_request_t *)
Definition nfapi_nr_pnf_start_request_t : decl := [].
(* src: nfapi_nr_interface_scf.h 502-506 nfapi_nr_pnf_start_response_t *)
Definition nfapi_nr_pnf_start_response_t : decl := [("error_code", TNum U32)].
(* src: nfapi_nr_interface_scf.h 521-524 nfapi_nr_param_request_scf_t *)
Definition nfapi_nr_param_request_scf_t : decl := [].
(* src: nfapi_nr_interface_scf.h 169-177 nfapi_nr_cell_param_t *)
Definition nfapi_nr_cell_param_t : decl :=
   [("release_capability", TTlv nfapi_uint16_tlv_t); ("phy_state", TTlv nfapi_uint16_tlv_t);
    ("skip_blank_dl_config", TTlv nfapi_uint8_tlv_t); ("skip_blank_ul_config", TTlv nfapi_uint8_tlv_t);
    ("num_config_tlvs_to_report", TTlv nfapi_uint16_tlv_t)].
(* src: nfapi_nr_interface_scf.h 180-188 nfapi_nr_carrier_param_t *)
Definition nfapi_nr_carrier_param_t : decl :=
   [("cyclic_prefix", TTlv nfapi_uint8_tlv_t); ("supported_subcarrier_spacings_dl", TTlv nfapi_uint16_tlv_t);
    ("supported_bandwidth_dl", TTlv nfapi_uint16_tlv_t);
    ("supported_subcarrier_spacings_ul", TTlv nfapi_uint8_tlv_t);
    ("supported_bandwidth_ul", TTlv nfapi_uint16_tlv_t)].
(* src: nfapi_nr_interface_scf.h 191-200 nfapi_nr_pdcch_param_t *)
Definition nfapi_nr_pdcch_param_t : decl :=
   [("cce_mapping_type", TTlv nfapi_uint8_tlv_t);
    ("coreset_outside_first_3_of_ofdm_syms_of_slot", TTlv nfapi_uint8_tlv_t);
    ("coreset_precoder_granularity_coreset", TTlv nfapi_uint8_tlv_t); ("pdcch_mu_mimo", TTlv nfapi_uint8_tlv_t);
    ("pdcch_precoder_cycling", TTlv nfapi_uint8_tlv_t); ("max_pdcch_per_slot", TTlv nfapi_uint8_tlv_t)].
(* src: nfapi_nr_interface_scf.h 203-208 nfapi_nr_pucch_param_t *)
Definition nfapi_nr_pucch_param_t : decl :=
   [("pucch_formats", TTlv nfapi_uint8_tlv_t); ("max_pucchs_per_slot", TTlv nfapi_uint8_tlv_t)].
(* src: nfapi_nr_interface_scf.h 211-228 nfapi_nr_pdsch_param_t *)
Definition nfapi_nr_pdsch_param_t : decl :=
   [("pdsch_mapping_type", TTlv nfapi_uint8_tlv_t); ("pdsch_allocation_types", TTlv nfapi_uint8_tlv_t);
    ("pdsch_vrb_to_prb_mapping", TTlv nfapi_uint8_tlv_t); ("pdsch_cbg", TTlv nfapi_uint8_tlv_t);
    ("pdsch_dmrs_config_types", TTlv nfapi_uint8_tlv_t); ("pdsch_dmrs_max_length", TTlv nfapi_uint8_tlv_t);
    ("pdsch_dmrs_additional_pos", TTlv nfapi_uint8_tlv_t); ("max_pdsch_tbs_per_slot", TTlv nfapi_uint8_tlv_t);
    ("max_number_mimo_layers_pdsch", TTlv nfapi_uint8_tlv_t);
    ("supported_max_modulation_order_dl", TTlv nfapi_uint8_tlv_t);
    ("max_mu_mimo_users_dl", TTlv nfapi_uint8_tlv_t); ("pdsch_data_in_dmrs_symbols", TTlv nfapi_uint8_tlv_t);
    ("premption_support", TTlv nfapi_uint8_tlv_t); ("pdsch_non_slot_support", TTlv nfapi_uint8_tlv_t)].
(* src: nfapi_nr_interface_scf.h 231-251 nfapi_nr_pusch_param_t *)
Definition nfapi_nr_pusch_param_t : decl :=
   [("uci_mux_ulsch_in_pusch", TTlv nfapi_uint8_tlv_t); ("uci_only_pusch", TTlv nfapi_uint8_tlv_t);
    ("pusch_frequency_hopping", TTlv nfapi_uint8_tlv_t); ("pusch_dmrs_config_types", TTlv nfapi_uint8_tlv_t);
    ("pusch_dmrs_max_len", TTlv nfapi_uint8_tlv_t); ("pusch_dmrs_additional_pos", TTlv nfapi_uint8_tlv_t);
    ("pusch_cbg", TTlv nfapi_uint8_tlv_t); ("pusch_mapping_type", TTlv nfapi_uint8_tlv_t);
    ("pusch_allocation_types", TTlv nfapi_uint8_tlv_t); ("pusch_vrb_to_prb_mapping", TTlv nfapi_uint8_tlv_t);
    ("pusch_max_ptrs_ports", TTlv nfapi_uint8_tlv_t); ("max_pduschs_tbs_per_slot", TTlv nfapi_uint8_tlv_t);
    ("max_number_mimo_layers_non_cb_pusch", TTlv nfapi_uint8_tlv_t);
    ("supported_modulation_order_ul", TTlv nfapi_uint8_tlv_t); ("max_mu_mimo_users_ul", TTlv nfapi_uint8_tlv_t);
    ("dfts_ofdm_support", TTlv nfapi_uint8_tlv_t); ("pusch_aggregation_factor", TTlv nfapi_uint8_tlv_t)].
(* src: nfapi_nr_interface_scf.h 254-260 nfapi_nr_prach_param_t *)
Definition nfapi_nr_prach_param_t : decl :=
   [("prach_long_formats", TTlv nfapi_uint8_tlv_t); ("prach_short_formats", TTlv nfapi_uint8_tlv_t);
    ("prach_restricted_sets", TTlv nfapi_uint8_tlv_t);
    ("max_prach_fd_occasions_in_a_slot", TTlv nfapi_uint8_tlv_t)].
(* src: nfapi_nr_interface_scf.h 263-266 nfapi_nr_measurement_param_t *)
Definition nfapi_nr_measurement_param_t : decl := [("rssi_measurement_support", TTlv nfapi_uint8_tlv_t)].
(* src: nfapi_interface.h 3727-3769 nfapi_nr_nfapi_t *)
Definition nfapi_nr_nfapi_t : decl :=
   [("p7_vnf_address_ipv4", TTlv nfapi_ipv4_address_t); ("p7_vnf_address_ipv6", TTlv nfapi_ipv6_address_t);
    ("p7_vnf_port", TTlv nfapi_uint16_tlv_t); ("p7_pnf_address_ipv4", TTlv nfapi_ipv4_address_t);
    ("p7_pnf_address_ipv6", TTlv nfapi_ipv6_address_t); ("p7_pnf_port", TTlv nfapi_uint16_tlv_t);
    ("timing_window", TTlv nfapi_uint8_tlv_t); ("timing_info_mode", TTlv nfapi_uint8_tlv_t);
    ("timing_info_period", TTlv nfapi_uint8_tlv_t); ("dl_tti_timing_offset", TTlv nfapi_uint32_tlv_t);
    ("ul_tti_timing_offset", TTlv nfapi_uint32_tlv_t); ("ul_dci_timing_offset", TTlv nfapi_uint32_tlv_t);
    ("tx_data_timing_offset", TTlv nfapi_uint32_tlv_t)].
(* src: nfapi_nr_interface_scf.h 527-543 nfapi_nr_param_response_scf_t *)
Definition nfapi_nr_param_response_scf_t : decl :=
   [("error_code", TNum U8); ("num_tlv", TNum U8)] ++
   within "cell_param" nfapi_nr_cell_param_t ++
   within "carrier_param" nfapi_nr_carrier_param_t ++
   within "pdcch_param" nfapi_nr_pdcch_param_t ++
   within "pucch_param" nfapi_nr_pucch_param_t ++
   within "pdsch_param" nfapi_nr_pdsch_param_t ++
   within "pusch_param" nfapi_nr_pusch_param_t ++
   within "prach_param" nfapi_nr_prach_param_t ++
   within "measurement_param" nfapi_nr_measurement_param_t ++
   within "nfapi_config" nfapi_nr_nfapi_t.
(* src: nfapi_nr_interface_scf.h 567-576 nfapi_nr_config_response_scf_t *)
Definition nfapi_nr_config_response_scf_t : decl :=
   [("error_code", TNum U8); ("num_invalid_tlvs", TNum U8); ("num_invalid_tlvs_configured_in_idle", TNum U8);
    ("num_invalid_tlvs_configured_in_running", TNum U8); ("num_missing_tlvs", TNum U8)].
(* src: nfapi_nr_interface_scf.h 581-584 nfapi_nr_start_request_scf_t *)
Definition nfapi_nr_start_request_scf_t : decl := [].
(* src: nfapi_nr_interface_scf.h 586-590 nfapi_nr_start_response_scf_t *)
Definition nfapi_nr_start_response_scf_t : decl := [("error_code", TNum U32)].

(** The counts that [unpack_nr_config_response] reads into local variables. *)
(* src: nfapi_p5.c 2133-2133 unpack_nr_config_response *)
Definition nr_config_response_locals : decl :=
  [("local invalid_unsupported_TLVs", TNum U8); ("local invalidTLVsIdle", TNum U8); ("local InvalidTLVsRunning", TNum U8);
   ("local missingTLVS", TNum U8)].

(** ** What is unpacked into which structure

    Not PNF_PARAM.response of LTE, whose Release 12 TLV is stored with the wrong
    stride, and not CONFIG.request of NR. *)

Definition lte_p5_decls : list (Z * decl) :=
  [(NFAPI_PNF_PARAM_REQUEST, nfapi_pnf_param_request_t);
   (NFAPI_PNF_CONFIG_REQUEST, nfapi_pnf_config_request_t);
   (NFAPI_PNF_CONFIG_RESPONSE, nfapi_pnf_config_response_t);
   (NFAPI_PNF_START_REQUEST, nfapi_pnf_start_request_t);
   (NFAPI_PNF_START_RESPONSE, nfapi_pnf_start_response_t);
   (NFAPI_PNF_STOP_REQUEST, nfapi_pnf_stop_request_t);
   (NFAPI_PNF_STOP_RESPONSE, nfapi_pnf_stop_response_t);
   (NFAPI_PARAM_REQUEST, nfapi_param_request_t);
   (NFAPI_PARAM_RESPONSE, nfapi_param_response_t);
   (NFAPI_CONFIG_REQUEST, nfapi_config_request_t);
   (NFAPI_CONFIG_RESPONSE, nfapi_config_response_t);
   (NFAPI_START_REQUEST, nfapi_start_request_t);
   (NFAPI_START_RESPONSE, nfapi_start_response_t);
   (NFAPI_STOP_REQUEST, nfapi_stop_request_t);
   (NFAPI_STOP_RESPONSE, nfapi_stop_response_t);
   (NFAPI_MEASUREMENT_REQUEST, nfapi_measurement_request_t);
   (NFAPI_MEASUREMENT_RESPONSE, nfapi_measurement_response_t)].
Definition nr_p5_decls : list (Z * decl) :=
  [(NFAPI_NR_PHY_MSG_TYPE_PNF_PARAM_REQUEST, nfapi_nr_pnf_param_request_t);
   (NFAPI_NR_PHY_MSG_TYPE_PNF_PARAM_RESPONSE, nfapi_nr_pnf_param_response_t);
   (NFAPI_NR_PHY_MSG_TYPE_PNF_CONFIG_REQUEST, nfapi_nr_pnf_config_request_t);
   (NFAPI_NR_PHY_MSG_TYPE_PNF_CONFIG_RESPONSE, nfapi_nr_pnf_config_response_t);
   (NFAPI_NR_PHY_MSG_TYPE_PNF_START_REQUEST, nfapi_nr_pnf_start_request_t);
   (NFAPI_NR_PHY_MSG_TYPE_PNF_START_RESPONSE, nfapi_nr_pnf_start_response_t);
   (NFAPI_NR_PHY_MSG_TYPE_PNF_STOP_REQUEST, nfapi_pnf_stop_request_t);
   (NFAPI_NR_PHY_MSG_TYPE_PNF_STOP_RESPONSE, nfapi_pnf_stop_response_t);
   (NFAPI_NR_PHY_MSG_TYPE_PARAM_REQUEST, nfapi_nr_param_request_scf_t);
   (NFAPI_NR_PHY_MSG_TYPE_PARAM_RESPONSE, nfapi_nr_param_response_scf_t);
   (NFAPI_NR_PHY_MSG_TYPE_CONFIG_RESPONSE, nfapi_nr_config_response_scf_t ++ nr_config_response_locals);
   (NFAPI_NR_PHY_MSG_TYPE_START_REQUEST, nfapi_nr_start_request_scf_t);
   (NFAPI_NR_PHY_MSG_TYPE_START_RESPONSE, nfapi_nr_start_response_scf_t);
   (NFAPI_NR_PHY_MSG_TYPE_STOP_REQUEST, nfapi_stop_request_t);
   (NFAPI_NR_PHY_MSG_TYPE_STOP_RESPONSE, nfapi_stop_response_t);
   (NFAPI_MEASUREMENT_REQUEST, nfapi_measurement_request_t);
   (NFAPI_MEASUREMENT_RESPONSE, nfapi_measurement_response_t)].

Ltac case_decls H :=
  repeat first [ apply elem_of_nil in H; contradiction
               | apply elem_of_cons in H; destruct H as [H|H];
                 [injection H as -> ->; eexists; split; [reflexivity|vm_compute; reflexivity]|] ].

Lemma lte_p5_checked vu id d : (id, d) ∈ lte_p5_decls ->
  exists L, unpack_p5_message_body vu id = unpack_layout L /\ layout_typed d L = true.
Proof. unfold lte_p5_decls. intros H. case_decls H. Qed.
Lemma nr_p5_checked vu id d : (id, d) ∈ nr_p5_decls ->
  exists L, unpack_nr_p5_message_body vu id = unpack_layout L /\ layout_typed d L = true.
Proof. unfold nr_p5_decls. intros H. case_decls H. Qed.

Lemma p5_frame_typed sizeof check body id d msg size :
  (exists L, body id = unpack_layout L /\ layout_typed d L = true) -> bytes_ok msg ->
  let '(r, h, s) := p5_frame_unpack sizeof check body msg size in h_message_id h = id -> typed d s.
Proof.
  intros (L & HL & Hd) Hb. assert (typed d zero) as Hz.
  { apply typed_zero. unfold layout_typed in Hd. by apply andb_true_iff in Hd as [[Hd _]%andb_true_iff _]. }
  unfold p5_frame_unpack. destruct ((zlen msg <? NFAPI_HEADER_LENGTH) || _); [by intros _|].
  destruct (unpack_p5_header msg) as [[h l]|] eqn:E; [|by intros _].
  destruct (check (h_message_id h) size =? 0); [by intros _|].
  destruct (body (h_message_id h) zero l) as [r s] eqn:Hbody. intros <-. rewrite HL in Hbody.
  assert (bytes_ok l) as Hl.
  { assert (makes unpack_p5_header (fun _ => True)) as Hm
      by (unfold unpack_p5_header; repeat (eapply makes_bind; [apply (makes_number U16)|intros ? _]); by apply makes_ret).
    exact (proj2 (Hm msg h l Hb E)). }
  replace s with (snd (unpack_layout L zero l)) by (by rewrite Hbody).
  by apply unpack_layout_typed.
Qed.

Lemma p5_frame_other sizeof check body msg size : let '(r, h, s) := p5_frame_unpack sizeof check body msg size in
  body (h_message_id h) = (fun _ _ => (-1, zero)) -> r < 0 /\ s = zero.
Proof.
  unfold p5_frame_unpack. destruct (_ || _); [done|]. destruct (unpack_p5_header msg) as [[h l]|]; [|done].
  destruct (_ =? 0); [done|]. destruct (body (h_message_id h) zero l) as [r s] eqn:E. intros Hb. rewrite Hb in E. by injection E as <- <-.
Qed.

(** The message that is not declared. *)
Definition undeclared (nr : bool) : Z := if nr then NFAPI_NR_PHY_MSG_TYPE_CONFIG_REQUEST else NFAPI_PNF_PARAM_RESPONSE.
Definition p5_decls (nr : bool) : list (Z * decl) := if nr then nr_p5_decls else lte_p5_decls.
Definition p5_unpack_body (vu : option (Z -> list Z -> Z * struct)) (nr : bool) : Z -> struct -> list Z -> Z * struct :=
  if nr then unpack_nr_p5_message_body vu else unpack_p5_message_body vu.

Lemma p5_unpack_declared vu nr id d : (id, d) ∈ p5_decls nr ->
  exists L, p5_unpack_body vu nr id = unpack_layout L /\ layout_typed d L = true.
Proof. destruct nr; [apply nr_p5_checked|apply lte_p5_checked]. Qed.

(** All other messages are unknown to the unpackers. *)
Lemma p5_unpack_unknown vu nr id : id ∉ (p5_decls nr).*1 -> id <> undeclared nr ->
  p5_unpack_body vu nr id = fun _ => unpack_other vu id.
Proof.
  intros Hn Hu. destruct nr; cbn [p5_unpack_body p5_decls undeclared] in *;
    unfold unpack_nr_p5_message_body, unpack_p5_message_body, nr_p5_decls, lte_p5_decls in *;
    rewrite ?fmap_cons, fmap_nil in Hn; cbn [fst] in Hn; rewrite ?not_elem_of_cons in Hn; destruct_and? Hn;
    cbn [switch]; rewrite !(proj2 (Z.eqb_neq _ _)) by done; reflexivity.
Qed.

(** C23. Whatever bytes arrive, the structure that the unpacker of a P5 message leaves
    behind is a value of the type its message is declared with, also when the message
    is rejected: every number is in the range of its member, and no array holds more
    elements than it was declared with, so nothing is stored outside the arrays.  This
    holds for every message the unpackers know with two exceptions, for which it is
    false: the PNF_PARAM.response of LTE and the CONFIG.request of NR, which can be
    stored outside an array.  A message the unpackers do not know is rejected, and
    nothing is stored, unless it is a vendor extension. *)
Theorem p5_unpack_typed sizeof vu (nr : bool) msg size : bytes_ok msg ->
  let '(r, h, s) := if nr then nfapi_nr_p5_message_unpack sizeof vu msg size
                    else nfapi_p5_message_unpack sizeof vu msg size in
  (forall d, (h_message_id h, d) ∈ p5_decls nr -> typed d s) /\
  (h_message_id h ∉ (p5_decls nr).*1 -> h_message_id h <> undeclared nr -> is_vendor_extension (h_message_id h) = false ->
   r < 0 /\ s = zero).
Proof.
  intros Hb.
  assert (exists check, (if nr then nfapi_nr_p5_message_unpack sizeof vu msg size else nfapi_p5_message_unpack sizeof vu msg size) =
    p5_frame_unpack sizeof check (p5_unpack_body vu nr) msg size) as [check ->] by (destruct nr; by eexists).
  pose proof (fun id d Hin => p5_frame_typed sizeof check _ id d msg size (p5_unpack_declared vu nr id d Hin) Hb) as Ht.
  pose proof (p5_frame_other sizeof check (p5_unpack_body vu nr) msg size) as Ho.
  destruct (p5_frame_unpack _ _ _ _ _) as [[r h] s]. split; [intros d Hd; by apply (Ht (h_message_id h))|].
  intros Hn Hu Hv. apply Ho. rewrite p5_unpack_unknown by done. unfold unpack_other. by rewrite Hv.
Qed.

(** A MEASUREMENT.response that claims 101 resource blocks: rejected. *)
Definition sample_measurement : list Z :=
  [0; 1; 1; 0x11; 0; 0; 0; 0; 0; 0; 0; 0; 0x10; 0x08; 0; 2; 0; 101].

Lemma p5_unpack_typed_witness :
  let '(r, h, s) := nfapi_p5_message_unpack sample_sizeof None sample_measurement 1 in
  r = 0 /\ h_message_id h = NFAPI_MEASUREMENT_RESPONSE /\ typed nfapi_measurement_response_t s.
Proof.
  pose proof (p5_unpack_typed sample_sizeof None false sample_measurement 1 ltac:(repeat constructor; discriminate)) as H.
  destruct (nfapi_p5_message_unpack sample_sizeof None sample_measurement 1) as [[r h] s] eqn:E.
  assert (r = 0 /\ h_message_id h = NFAPI_MEASUREMENT_RESPONSE) as [Hr Hh].
  { split; [apply (f_equal (fun x => fst (fst x))) in E|apply (f_equal (fun x => h_message_id (snd (fst x)))) in E];
      cbn [fst snd] in E; rewrite <- E; vm_compute; reflexivity. }
  split; [exact Hr|]. split; [exact Hh|]. apply H. rewrite Hh.
  do 16 apply list_elem_of_further. apply list_elem_of_here.
Defined.
