(* ===== verification/P5Config.v ===== *)
(** * What becomes of an NR CONFIG.request

    The packer of CONFIG.request ([pack_nr_config_request]) writes five TLVs for
    every PRACH FD occasion.  The unpacker counts the occasions by the first of
    the five and stores the other four behind the element it has allocated. *)

From S2P Require Import Prelude Tags Codec Ids LteInd Layout P5Codec.

Open Scope string_scope.
Open Scope list_scope.
Open Scope Z_scope.

(** ** Packing *)

Lemma calls_writes ps bss : Forall2 writes ps bss -> forall w,
  room_ok w -> zlen (concat bss) <= w_room w -> calls ps w = wapp w (concat bss).
Proof.
  induction 1 as [|p bs ps bss [_ Hp] _ IH]; intros w Hw Hl; [cbn; by rewrite wapp_nil|].
  cbn [concat] in *. pose proof (zlen_nonneg bs). pose proof (zlen_nonneg (concat bss)).
  rewrite zlen_app in Hl. destruct (Hp w Hw ltac:(lia)) as [_ Hs]. unfold calls. cbn [foldl].
  change (foldl _ ?w ps) with (calls ps w). rewrite Hs, IH; [by rewrite wapp_wapp|apply room_ok_wapp; [done|lia]|].
  unfold wapp. cbn [w_room]. lia.
Qed.

Definition grid_values (f : string) (s : struct) : list Z :=
  (fun i => num (member s (at_index f i "")) "value") <$> seq 0 5.

(** The TLVs an item stands for. *)
Definition item_tlvs (s : struct) (it : nr_item) : list (Z * list Z) :=
  match it with
  | NrTlv t => sent_tlvs [t] s
  | NrGrid tag f => [(tag, concat (be16 <$> grid_values f s))]
  end.
Definition item_ok (s : struct) (it : nr_item) : Prop :=
  match it with NrTlv t => tlv_row_ok s t | NrGrid tag f => Forall in_u16 (grid_values f s) end.

(** Values of CONFIG.request are numbers and addresses. *)
Definition row_eqb (r r' : row) : bool :=
  match r, r' with
  | Num t f, Num t' f' => bool_decide (t = t') && String.eqb f f'
  | Values b t f len, Values b' t' f' len' =>
      bool_decide (b = b') && bool_decide (t = t') && String.eqb f f' && bool_decide (len = len')
  | _, _ => false
  end.
Fixpoint rows_eqb (l l' : list row) : bool :=
  match l, l' with [], [] => true | r :: l, r' :: l' => row_eqb r r' && rows_eqb l l' | _, _ => false end.

Lemma rows_eqb_eq l l' : rows_eqb l l' = true -> l = l'.
Proof.
  revert l'. induction l as [|r l IH]; intros [|r' l']; try done. cbn [rows_eqb].
  intros [H1 H2%IH]%andb_true_iff. subst l'. f_equal. destruct r, r'; try done; cbn in H1.
  - apply andb_true_iff in H1 as [->%bool_decide_eq_true ->%String.eqb_eq]. done.
  - by apply andb_true_iff in H1 as [[[->%bool_decide_eq_true ->%bool_decide_eq_true]%andb_true_iff
      ->%String.eqb_eq]%andb_true_iff ->%bool_decide_eq_true].
Qed.

Definition grid_tags : list Z :=
  [NFAPI_NR_CONFIG_DL_GRID_SIZE_TAG; NFAPI_NR_CONFIG_DL_K0_TAG; NFAPI_NR_CONFIG_UL_GRID_SIZE_TAG;
   NFAPI_NR_CONFIG_UL_K0_TAG].
(** The unpacker has a row for the item. *)
Definition item_wf (it : nr_item) : bool :=
  match it with
  | NrTlv t => negb (bool_decide (t_tag t ∈ grid_tags)) && tlv_row_wf t && rows_sim (t_rows t) (t_rows t) &&
      existsb (fun u => (t_tag u =? t_tag t) && rows_eqb (t_rows u) (t_rows t)) nr_config_rows
  | NrGrid tag f => bool_decide (tag ∈ grid_tags)
  end.

Lemma items_wf s : Forall (fun it => item_wf it = true) (nr_config_items s).
Proof.
  unfold nr_config_items. repeat apply Forall_app_2; try (repeat (constructor; [reflexivity|]); constructor).
  apply Forall_concat, Forall_fmap, list.Forall_forall. intros i _. repeat (constructor; [reflexivity|]). constructor.
Qed.

Lemma u16_pushes vs : Forall in_u16 vs -> Forall2 writes (push16 <$> vs) (be16 <$> vs).
Proof. induction 1; constructor; [by apply writes_emits, emits_push16|done]. Qed.

Lemma zlen_be16s vs : zlen (concat (be16 <$> vs)) = 2 * zlen vs.
Proof. induction vs as [|v vs IH]; [done|]. cbn [fmap list_fmap concat]. rewrite zlen_app, IH, zlen_cons. change (zlen (be16 v)) with 2. lia. Qed.

Lemma bytes_ok_be16s vs : Forall in_u16 vs -> bytes_ok (concat (be16 <$> vs)).
Proof. induction 1 as [|v vs Hv _ IH]; [constructor|]. apply bytes_ok_app. split; [by apply be16_ok|exact IH]. Qed.

Lemma grid_bytes tag vs : zlen vs = 5 ->
  tlvs_bytes get_tlv_padding [(tag, concat (be16 <$> vs))] = concat (be16 <$> ([tag; 10] ++ vs ++ [0])).
Proof.
  intros H5. rewrite tlvs_bytes_cons. unfold tlv_bytes. rewrite zlen_be16s, H5. change (2 * 5) with 10.
  rewrite !fmap_app, !concat_app, <- !app_assoc. done.
Qed.

Lemma item_writes s it : item_wf it = true -> item_ok s it ->
  writes (pack_nr_item s it) (tlvs_bytes get_tlv_padding (item_tlvs s it)).
Proof.
  destruct it as [t|tag f]; cbn [item_wf item_ok item_tlvs pack_nr_item].
  - intros [[[_ Hwf]%andb_true_iff Hsim]%andb_true_iff _]%andb_true_iff Hok.
    apply (tlv_row_writes (HF := nr_tlv_format)); [|done|by apply tlv_ok_room|done]. unfold tlv_sim. by rewrite Z.eqb_refl, String.eqb_refl, Hsim.
  - intros Htag%bool_decide_eq_true Hok. assert (in_u16 tag) as Ht.
    { unfold grid_tags in Htag. repeat (apply elem_of_cons in Htag as [->|Htag]; [split; reflexivity || discriminate|]).
      by apply elem_of_nil in Htag. }
    set (vs := grid_values f s) in *. assert (zlen vs = 5) as H5 by done.
    rewrite (grid_bytes tag vs H5).
    assert (Forall in_u16 ([tag; 10] ++ vs ++ [0])) as Hall.
    { apply list.Forall_cons_2; [done|]. apply list.Forall_cons_2; [split; [discriminate|reflexivity]|].
      apply Forall_app_2; [done|repeat constructor; discriminate]. }
    split; [by apply bytes_ok_be16s|]. intros w Hw Hl. cbn [fst snd]. split; [lia|].
    rewrite <- (calls_writes _ _ (u16_pushes _ Hall) w Hw Hl). rewrite !fmap_app. unfold vs, grid_values.
    by rewrite <- list_fmap_compose.
Qed.

Definition config_tlvs_of (s : struct) : list (Z * list Z) := concat (item_tlvs s <$> nr_config_items s).

(** A structure that may be packed. *)
Definition nr_config_ok (s : struct) : Prop := Forall (item_ok s) (nr_config_items s).

Definition nr_config_bytes (s : struct) : list Z :=
  [u8 (Z.of_nat (length (nr_config_items s)))] ++ tlvs_bytes get_tlv_padding (config_tlvs_of s).

Lemma items_write s its : Forall (fun it => item_wf it = true) its -> Forall (item_ok s) its ->
  Forall2 writes (pack_nr_item s <$> its) ((fun it => tlvs_bytes get_tlv_padding (item_tlvs s it)) <$> its).
Proof.
  intros Hwf. induction 1 as [|it its Hit _ IH]; [constructor|]. apply list.Forall_cons in Hwf as [H1 H2].
  constructor; [by apply item_writes|by apply IH].
Qed.

Lemma tlvs_bytes_concat {A} (g : A -> list (Z * list Z)) l :
  concat ((fun it => tlvs_bytes get_tlv_padding (g it)) <$> l) = tlvs_bytes get_tlv_padding (concat (g <$> l)).
Proof.
  induction l as [|x l IH]; [done|]. cbn [fmap list_fmap concat]. rewrite IH. unfold tlvs_bytes.
  by rewrite fmap_app, concat_app.
Qed.

Lemma nr_config_writes s : nr_config_ok s -> writes (pack_nr_config_request s) (nr_config_bytes s).
Proof.
  intros Hok. pose proof (items_write s _ (items_wf s) Hok) as Hw.
  assert (bytes_ok (tlvs_bytes get_tlv_padding (config_tlvs_of s))) as Hb.
  { unfold config_tlvs_of. rewrite <- tlvs_bytes_concat. clear -Hw.
    induction Hw as [|p bs ps bss [Hbs _] _ IH]; [constructor|]. by apply bytes_ok_app. }
  assert (in_u8 (u8 (Z.of_nat (length (nr_config_items s))))) as H8 by apply u8_range.
  split; [apply bytes_ok_app; split; [apply list.Forall_cons_2; [exact H8|constructor]|done]|]. intros w Hr Hl. unfold nr_config_bytes in *.
  set (n := u8 _) in *. set (bs := tlvs_bytes _ _) in *. rewrite zlen_app in Hl. change (zlen [n]) with 1 in Hl.
  pose proof (zlen_nonneg bs). unfold pack_nr_config_request. fold n.
  assert (room_ok (wapp w [0])) as Hr0 by (apply room_ok_wapp; [done|]; change (zlen [0]) with 1; lia).
  assert (zlen bs <= w_room (wapp w [0])) as Hl0 by (cbn [wapp w_room]; change (zlen [0]) with 1; lia).
  pose proof (calls_writes _ _ Hw (wapp w [0]) Hr0) as Hcalls. rewrite tlvs_bytes_concat in Hcalls.
  rewrite (Hcalls Hl0). fold (config_tlvs_of s). fold bs. rewrite wapp_wapp. unfold wapp. cbn [w_out w_room].
  destruct (pack_at_overwrite (push8 n) [n] (w_out w) [0] bs (w_room w - zlen ([0] ++ bs))) as [H1 H2].
  - by apply emits_push8.
  - done.
  - unfold room_ok in Hr. zlen_lia.
  - unfold room_ok in Hr. zlen_lia.
  - destruct (pack_at _ _ _) as [r w']. cbn [fst snd] in *. split; [lia|exact H2].
Qed.

(** ** Unpacking *)

Lemma try_entries_hit {M} (pad : Z -> Z) (fns : list (unpack_tlv_t M)) e tl m l m' l' :
  (forall n, 0 <= pad n) -> NoDup (ut_tag <$> fns) -> e ∈ fns -> ut_tag e = tl_tag tl ->
  ut_fn e tl m l = inr (m', l') ->
  try_entries pad fns tl false m l = inr (true, m', drop (Z.to_nat (pad (tl_length tl))) l').
Proof.
  intros Hpad Hnd Hin Htag Hfn. induction fns as [|x fns IH]; [by apply elem_of_nil in Hin|].
  cbn [fmap list_fmap] in Hnd. apply list.NoDup_cons in Hnd as [Hn Hnd]. cbn [try_entries].
  assert (Hout : forall y, y ∈ fns -> ut_tag y <> ut_tag x).
  { intros y Hy E. apply Hn. rewrite <- E. by apply list_elem_of_fmap_2. }
  apply elem_of_cons in Hin as [->|Hin].
  - rewrite Htag, Z.eqb_refl, Hfn. apply (try_entries_unknown pad [] Hpad), list.Forall_forall.
    intros y Hy. rewrite <- Htag. by apply Hout.
  - destruct (Z.eqb_spec (ut_tag x) (tl_tag tl)) as [E|_]; [|by apply IH].
    destruct (Hout e Hin). congruence.
Qed.

Lemma reads_store rows tl f ok c m : rows_wf [[]] rows = true -> rows_ok [] rows m ->
  exists c', reads (store rows tl f ok) c (rows_bytes [] rows m) c'.
Proof.
  intros Hwf Hok. eexists. intros rest. unfold store.
  by rewrite (rows_read rows m (set_tl tl (member (nc_msg c) f)) Hwf Hok).
Qed.

(** What storing does to the indices. *)
Lemma store_spec rows tl f ok c l c' l' : store rows tl f ok c l = inr (c', l') ->
  nc_outside c' = nc_outside c || negb ok /\ prach_root_seq_idx c' = prach_root_seq_idx c.
Proof.
  unfold store. destruct (unpack_rows _ _ _ l) as [[v l1]|[v l1]]; [done|]. by intros [= <- <-].
Qed.

Lemma grid_spec f ix c l c' l' : nr_grid_values f ix c l = inr (c', l') ->
  nc_outside c' = nc_outside c /\ prach_root_seq_idx c' = prach_root_seq_idx c.
Proof.
  revert c l. induction ix as [|i ix IH]; intros c l; cbn [nr_grid_values]; [by intros [= <- <-]|].
  unfold andthen. destruct (store _ _ _ _ c l) as [[c1 l1]|[c1 l1]] eqn:E; [done|].
  apply store_spec in E as [H1 H2]. intros H. apply IH in H as [H3 H4]. rewrite orb_false_r in H1. split; congruence.
Qed.

(** The effect of one TLV on the count of occasions and on [nc_outside]. *)
Lemma entry_spec t tl c l c' l' : tl_tag tl = t_tag t -> ut_fn (nr_config_entry t) tl c l = inr (c', l') ->
  (nc_outside c = true -> nc_outside c' = true) /\ (prach_root_seq_idx c <= prach_root_seq_idx c')%nat /\
  (t_tag t = NFAPI_NR_CONFIG_PRACH_ROOT_SEQUENCE_INDEX_TAG -> (0 < prach_root_seq_idx c')%nat) /\
  (t_tag t = NFAPI_NR_CONFIG_NUM_ROOT_SEQUENCES_TAG -> (0 < prach_root_seq_idx c)%nat -> nc_outside c' = true).
Proof.
  intros Htag. cbn [nr_config_entry ut_fn]. unfold nr_config_switch, fd_occasion. rewrite Htag. cbn [switch].
  repeat match goal with |- (if ?a =? ?b then _ else _) _ = _ -> _ => destruct (Z.eqb_spec a b) as [?E|?E] end;
    cbv zeta; unfold afterwards;
    try (destruct (store _ _ _ _ _ l) as [[c1 l1]|[c1 l1]] eqn:Hs; [done|]; intros [= <- <-]);
    try intros Hs; try apply store_spec in Hs as [H1 H2]; try apply grid_spec in Hs as [H1 H2];
    cbn [nc_outside prach_root_seq_idx set_indices] in *; rewrite ?H1, ?H2;
    (split_and!; [intros Ho; by rewrite ?Ho|lia| |]); intros Ht; try lia; try done;
    try (match goal with E : t_tag t = _ |- _ => rewrite E in Ht; discriminate Ht end).
Qed.

(** A known TLV is read, whatever came before. *)
Definition nr_known (x : Z * list Z) : Prop :=
  in_u16 (fst x) /\ in_u16 (zlen (snd x)) /\
  exists u, u ∈ nr_config_rows /\ t_tag u = fst x /\
    forall c, exists c', forall rest, ut_fn (nr_config_entry u) (Tl (fst x) (zlen (snd x))) c (snd x ++ rest) = inr (c', rest).

(** Whether a count of root sequences comes behind a root sequence index. *)
Fixpoint count_behind_index (index : bool) (ts : list (Z * list Z)) : bool :=
  match ts with
  | [] => false
  | (tag, _) :: ts =>
      (index && (tag =? NFAPI_NR_CONFIG_NUM_ROOT_SEQUENCES_TAG)) ||
      count_behind_index (index || (tag =? NFAPI_NR_CONFIG_PRACH_ROOT_SEQUENCE_INDEX_TAG)) ts
  end.

Lemma count_mono b b' ts : (b = true -> b' = true) -> count_behind_index b ts = true -> count_behind_index b' ts = true.
Proof.
  revert b b'. induction ts as [|[tag bs] ts IH]; intros b b' Hb; [done|]. cbn [count_behind_index].
  intros [H|H]%orb_true_iff; apply orb_true_iff.
  - left. apply andb_true_iff in H as [H ->]. by rewrite Hb.
  - right. refine (IH _ _ _ H). intros [?%Hb|?]%orb_true_iff; apply orb_true_iff; auto.
Qed.

Lemma nr_config_tags : NoDup (ut_tag <$> map nr_config_entry nr_config_rows).
Proof. apply (bool_decide_unpack _). vm_compute. exact I. Qed.

Lemma nr_read ts : Forall nr_known ts -> forall fuel n c, (length ts < fuel)%nat ->
  exists c', tlv_loop fuel get_tlv_padding 0 (map nr_config_entry nr_config_rows) None n c
    (tlvs_bytes get_tlv_padding ts) = (1, c', []) /\
  (nc_outside c = true -> nc_outside c' = true) /\
  (count_behind_index (0 <? prach_root_seq_idx c)%nat ts = true -> nc_outside c' = true).
Proof.
  induction 1 as [|[tag bs] ts (Ht & Hb & u & Hu & Htag & Hread) _ IH]; intros fuel n c Hf.
  { exists c. by destruct fuel; [cbn in Hf; lia|]. }
  destruct fuel as [|fuel]; [lia|]. cbn [length] in Hf. rewrite tlvs_bytes_cons. cbn [fst snd] in *.
  destruct (Hread c) as [c1 Hfn].
  assert (Hpad : forall n, 0 <= get_tlv_padding n) by apply get_tlv_padding_nonneg.
  pose proof (try_entries_hit get_tlv_padding _ (nr_config_entry u) (Tl tag (zlen bs)) c _ c1 _ Hpad nr_config_tags
    (proj2 (list_elem_of_In _ _) (in_map nr_config_entry _ _ (proj1 (list_elem_of_In _ _) Hu))) Htag
    (Hfn (replicate (Z.to_nat (get_tlv_padding (zlen bs))) 0 ++ tlvs_bytes get_tlv_padding ts))) as Htry.
  erewrite tlv_loop_known; [|exact Hpad|exact Ht|exact Hb|exact Htry].
  destruct (entry_spec u (Tl tag (zlen bs)) c _ c1 _ ltac:(done) (Hfn [])) as (Ho & Hi & H1 & H2).
  cbn [tl_length]. rewrite drop_app_length' by (by rewrite length_replicate).
  destruct (IH fuel n c1 ltac:(lia)) as (c' & Hc' & I1 & I2). exists c'. split; [exact Hc'|]. split; [auto|].
  cbn [count_behind_index]. rewrite <- Htag. intros [[H3 H4%Z.eqb_eq]%andb_true_iff|H3]%orb_true_iff.
  - apply I1, H2; [done|]. by apply Nat.ltb_lt.
  - apply I2. eapply count_mono; [|exact H3]. intros [H|H%Z.eqb_eq]%orb_true_iff; apply Nat.ltb_lt.
    + apply Nat.ltb_lt in H. lia.
    + by apply H1.
Qed.

Lemma mask_rows u : u ∈ nr_config_rows -> t_tag u = NFAPI_NR_CONFIG_SSB_MASK_TAG -> t_rows u = unpack_uint32_tlv_value.
Proof.
  intros Hu Ht. assert (forallb (fun u => negb (t_tag u =? NFAPI_NR_CONFIG_SSB_MASK_TAG) ||
    rows_eqb (t_rows u) unpack_uint32_tlv_value) nr_config_rows = true) as H by (vm_compute; reflexivity).
  pose proof (proj1 (forallb_forall _ _) H u (proj1 (list_elem_of_In _ _) Hu)) as Hr.
  apply orb_true_iff in Hr as [Hr|Hr]; [by rewrite Ht in Hr|exact (rows_eqb_eq _ _ Hr)].
Qed.

(** Reading a value that is not a grid. *)
Lemma entry_reads u m c tl : u ∈ nr_config_rows -> t_tag u ∉ grid_tags -> rows_wf [[]] (t_rows u) = true ->
  rows_ok [] (t_rows u) m -> tl_tag tl = t_tag u ->
  exists c', reads (ut_fn (nr_config_entry u) tl) c (rows_bytes [] (t_rows u) m) c'.
Proof.
  intros Hu Hg Hwf Hok Htag. unfold reads. cbn [nr_config_entry ut_fn]. set (c0 := NrConfig _ _ _ _ _ _ _ _).
  assert (Hst : forall f ok, exists c', reads (store (t_rows u) tl f ok) c0 (rows_bytes [] (t_rows u) m) c')
    by (intros; by apply reads_store).
  assert (Haf : forall f ok g, exists c', reads (afterwards (store (t_rows u) tl f ok) g) c0 (rows_bytes [] (t_rows u) m) c').
  { intros f ok g. destruct (Hst f ok) as [c' Hc']. exists (g c'). intros rest. unfold afterwards. by rewrite Hc'. }
  unfold nr_config_switch, fd_occasion. rewrite Htag. cbn [switch].
  repeat match goal with |- exists c', forall rest, (if ?a =? ?b then _ else _) _ = _ => destruct (Z.eqb_spec a b) as [?E|?E] end;
    try apply Hst; try apply Haf;
    try (match goal with E : t_tag u = _ |- _ => destruct Hg; rewrite E; apply (bool_decide_unpack _); exact I end).
  rewrite <- (mask_rows u Hu) by assumption. apply Haf.
Qed.

Lemma grid_reads f vs : Forall in_u16 vs -> forall ix c, length ix = length vs ->
  exists c', reads (nr_grid_values f ix) c (concat (be16 <$> vs)) c'.
Proof.
  induction 1 as [|v vs Hv _ IH]; intros [|i ix] c Hlen; try done; [eexists; apply reads_pass|].
  cbn [nr_grid_values fmap list_fmap concat]. set (m := set_num "value" v zero).
  assert (num m "value" = v) as Hm by (unfold m; rewrite num_set_num; by rewrite decide_True).
  destruct (reads_store unpack_uint16_tlv_value (tl_of (member (nc_msg c) (at_index f i ""))) (at_index f i "") true c m)
    as [c1 Hc1]; [done|by split; [cbn [row_ok in_type]; rewrite Hm|]|].
  replace (rows_bytes [] unpack_uint16_tlv_value m) with (be16 v) in Hc1
    by (cbn [rows_bytes unpack_uint16_tlv_value foldr row_bytes type_bytes]; by rewrite Hm, app_nil_r).
  destruct (IH ix c1 ltac:(by injection Hlen)) as [c' Hc']. exists c'. by eapply reads_then.
Qed.

(** The TLVs of the packer are known to the unpacker. *)
Lemma item_known s it : item_wf it = true -> item_ok s it -> Forall nr_known (item_tlvs s it).
Proof.
  destruct it as [t|tag f]; cbn [item_wf item_ok item_tlvs].
  - intros [[[Hg%negb_true_iff%bool_decide_eq_false Hwf]%andb_true_iff _]%andb_true_iff Hu]%andb_true_iff Hok.
    unfold sent_tlvs. rewrite filter_cons, filter_nil. destruct (decide _) as [Hp|Hp]; [|constructor].
    destruct (Hok Hp) as [_ Hrows]. destruct (tlv_value_size t s Hwf Hok Hp) as [Hz _].
    destruct (tlv_row_wf_spec t Hwf) as (H1 & H2 & H3 & H4).
    constructor; [|constructor]. unfold nr_known. cbn [fst snd]. split; [done|]. split; [done|].
    apply existsb_exists in Hu as (u & Hu%list_elem_of_In & [Htag%Z.eqb_eq Hr%rows_eqb_eq]%andb_true_iff).
    exists u. split_and!; [done..|]. intros c.
    destruct (entry_reads u (member s (t_member t)) c (Tl (t_tag t) (zlen (tlv_value t s)))) as [c' Hc'];
      rewrite ?Htag, ?Hr; try done. exists c'. intros rest. rewrite Hr in Hc'. exact (Hc' rest).
  - intros Htag%bool_decide_eq_true Hok. constructor; [|constructor]. unfold nr_known. cbn [fst snd].
    assert (exists u, u ∈ nr_config_rows /\ t_tag u = tag /\ in_u16 tag /\
      exists f', forall c, ut_fn (nr_config_entry u) (Tl tag (zlen (concat (be16 <$> grid_values f s)))) c =
        nr_grid_values f' (seq 0 5) (NrConfig (set_member (t_member u)
          (set_tl (Tl tag (zlen (concat (be16 <$> grid_values f s)))) (member (nc_msg c) (t_member u))) (nc_msg c))
          (prach_root_seq_idx c) (unused_root_seq_idx c) (ssb_mask_idx c) (config_beam_idx c) (tdd_periodicity_idx c)
          (symbol_per_slot_idx c) (nc_outside c))) as (u & Hu & Ht & H16 & f' & Hf').
    { destruct (List.find (fun u => t_tag u =? tag) nr_config_rows) as [u|] eqn:E.
      - apply find_some in E as [Hu Ht%Z.eqb_eq]. exists u. split; [by apply list_elem_of_In|]. split; [done|].
        unfold grid_tags in Htag. cbn [nr_config_entry ut_fn].
        repeat (apply elem_of_cons in Htag as [->|Htag]; [split; [split; [discriminate|reflexivity]|]; eexists; intros c; reflexivity|]).
        by apply elem_of_nil in Htag.
      - exfalso. unfold grid_tags in Htag.
        repeat (apply elem_of_cons in Htag as [->|Htag]; [discriminate E|]). by apply elem_of_nil in Htag. }
    rewrite zlen_be16s. change (2 * zlen (grid_values f s)) with 10.
    rewrite zlen_be16s in Hf'. change (2 * zlen (grid_values f s)) with 10 in Hf'.
    split; [done|]. split; [split; [discriminate|reflexivity]|]. exists u. split; [done|]. split; [done|].
    intros c. rewrite Hf'. destruct (grid_reads f' _ Hok (seq 0 5)
      (NrConfig (set_member (t_member u) (set_tl (Tl tag 10) (member (nc_msg c) (t_member u))) (nc_msg c))
        (prach_root_seq_idx c) (unused_root_seq_idx c) (ssb_mask_idx c) (config_beam_idx c) (tdd_periodicity_idx c)
        (symbol_per_slot_idx c) (nc_outside c)) ltac:(done)) as [c' Hc'].
    exists c'. intros rest. exact (Hc' rest).
Qed.

Lemma count_skip ts1 ts2 b : count_behind_index false ts2 = true -> count_behind_index b (ts1 ++ ts2) = true.
Proof.
  intros H. revert b. induction ts1 as [|[tag bs] ts1 IH]; intros b; cbn [app count_behind_index].
  - by apply (count_mono false).
  - by rewrite IH, orb_true_r.
Qed.

(** The first two TLVs of the first FD occasion. *)
Definition first_occasion (f : string) : string := at_index "prach_config.num_prach_fd_occasions_list" 0 f.
Definition root_sequence_index : tlv_row :=
  TlvRow NFAPI_NR_CONFIG_PRACH_ROOT_SEQUENCE_INDEX_TAG (first_occasion ".prach_root_sequence_index") pack_uint16_tlv_value.
Definition num_root_sequences : tlv_row :=
  TlvRow NFAPI_NR_CONFIG_NUM_ROOT_SEQUENCES_TAG (first_occasion ".num_root_sequences") pack_uint8_tlv_value.

Lemma config_counts s : 1 <= value_of "prach_config.num_prach_fd_occasions" s ->
  present root_sequence_index s = true -> present num_root_sequences s = true ->
  count_behind_index false (config_tlvs_of s) = true.
Proof.
  intros Hn Hr Hc. unfold config_tlvs_of, nr_config_items.
  destruct (Z.to_nat (value_of _ s)) as [|k] eqn:E; [lia|]. rewrite !fmap_app, concat_app. apply count_skip.
  assert (item_tlvs s (NrTlv root_sequence_index) =
    [(NFAPI_NR_CONFIG_PRACH_ROOT_SEQUENCE_INDEX_TAG, tlv_value root_sequence_index s)]) as E1
    by (cbn [item_tlvs]; unfold sent_tlvs; by rewrite filter_cons, filter_nil, decide_True).
  assert (item_tlvs s (NrTlv num_root_sequences) =
    [(NFAPI_NR_CONFIG_NUM_ROOT_SEQUENCES_TAG, tlv_value num_root_sequences s)]) as E2
    by (cbn [item_tlvs]; unfold sent_tlvs; by rewrite filter_cons, filter_nil, decide_True).
  change (seq 0 (S k)) with (0%nat :: seq 1 k). rewrite fmap_cons. cbn [concat app]. rewrite !fmap_cons. cbn [concat app].
  fold root_sequence_index. fold num_root_sequences.
  change (TlvRow _ (at_index _ 0 ".prach_root_sequence_index") _) with root_sequence_index.
  change (TlvRow _ (at_index _ 0 ".num_root_sequences") _) with num_root_sequences.
  rewrite E1, E2. reflexivity.
Qed.

(** C25. An NR CONFIG.request with at least one PRACH FD occasion makes the
    unpacker write outside the memory it allocated: the number of root
    sequences of the first occasion is stored behind the only element of the
    list, because the index was advanced by the root sequence index in front.
    The message is accepted nevertheless. *)
Theorem nr_config_request_overflows s :
  nr_config_ok s -> 1 <= value_of "prach_config.num_prach_fd_occasions" s ->
  present root_sequence_index s = true -> present num_root_sequences s = true ->
  exists bs, writes (pack_nr_config_request s) bs /\
    let '(result, c) := unpack_nr_config_request zero bs in result = 1 /\ nc_outside c = true.
Proof.
  intros Hok Hn Hr Hc. exists (nr_config_bytes s). split; [by apply nr_config_writes|].
  unfold unpack_nr_config_request, nr_config_bytes. cbn [app pull8]. unfold unpack_nr_tlv_list.
  set (c0 := NrConfig _ _ _ _ _ _ _ _).
  assert (Forall nr_known (config_tlvs_of s)) as Hk.
  { apply Forall_concat, Forall_fmap. pose proof (items_wf s) as Hwf. unfold nr_config_ok in Hok.
    apply list.Forall_forall. intros it Hit. apply item_known; [exact (proj1 (list.Forall_forall _ _) Hwf it Hit)|].
    exact (proj1 (list.Forall_forall _ _) Hok it Hit). }
  destruct (nr_read _ Hk (tlv_fuel (tlvs_bytes get_tlv_padding (config_tlvs_of s))) 0 c0) as (c' & -> & _ & H).
  - unfold tlv_fuel. clear. induction (config_tlvs_of s) as [|[tag bs] ts IH]; [cbn; lia|].
    rewrite tlvs_bytes_cons. unfold tlv_bytes. rewrite !length_app. cbn [length]. change (length (be16 tag)) with 2%nat. lia.
  - split; [done|]. apply H. by apply config_counts.
Qed.

(** One FD occasion and nothing else. *)
Definition sample_nr_config : struct :=
  set_member "prach_config.num_prach_fd_occasions" (set_tl (Tl NFAPI_NR_CONFIG_NUM_PRACH_FD_OCCASIONS_TAG 0) (set_num "value" 1 zero))
  (set_member (first_occasion ".prach_root_sequence_index")
     (set_tl (Tl NFAPI_NR_CONFIG_PRACH_ROOT_SEQUENCE_INDEX_TAG 0) (set_num "value" 10 zero))
  (set_member (first_occasion ".num_root_sequences")
     (set_tl (Tl NFAPI_NR_CONFIG_NUM_ROOT_SEQUENCES_TAG 0) (set_num "value" 16 zero)) zero)).

Lemma nr_config_request_overflows_witness : exists bs, writes (pack_nr_config_request sample_nr_config) bs /\
  let '(result, c) := unpack_nr_config_request zero bs in result = 1 /\ nc_outside c = true.
Proof.
  apply (nr_config_request_overflows sample_nr_config); [|discriminate|reflexivity|reflexivity].
  unfold nr_config_ok. vm_compute nr_config_items.
  repeat (constructor; [first [intros H; discriminate H | intros _; repeat (constructor || discriminate) | repeat (constructor || discriminate)]|]).
  constructor.
Defined.
