(* ===== verification/Segmentation.v ===== *)
(** * Segmentation and reassembly of P7 messages

    A P7 message longer than the configured segment size is sent as several
    datagrams, each with a copy of the header whose length, segment number and
    "more" flag are rewritten ([pnf_p7_pack_and_send_p7_message],
    [vnf_p7_pack_and_send_p7_msg]); the receiver collects the segments of a
    sequence number until it has as many as the last segment announces
    ([pnf_handle_p7_message], [vnf_handle_p7_message]).  The LTE and NR
    variants of these functions differ in the pack and dispatch functions they
    call.  Locks are taken to succeed, allocation is taken to succeed, and a
    datagram handed to [sendto] is an element of a list. *)

From S2P Require Import Prelude Codec Ids P7Header.

(** A handler that is given one thing after the other. *)
Fixpoint feed {St A B} (step : St -> A -> option (list B * St)) (s : St) (l : list A) : option (list B * St) :=
  match l with
  | [] => Some ([], s)
  | a :: l =>
      match step s a with
      | None => None
      | Some (out, s) =>
          match feed step s l with
          | None => None
          | Some (out', s) => Some (out ++ out', s)
          end
      end
  end.

Section segmentation.
Context (crc32 : Z -> list Z -> Z).

(** ** Sending *)

(** The configuration both sides keep in [_public]. *)
Record p7_config := P7Config { segment_size : Z; checksum_enabled : bool }.

Section send.
Context (cfg : p7_config).

(** The assignments to [buffer[4]], [buffer[5]] and [buffer[6]]. *)
Definition segment_header (buffer : list Z) (size segment : Z) (last : bool) : list Z :=
  overwrite 4 [Z.shiftr (Z.land size 0xFF00) 8; Z.land size 0xFF;
               u8 (Z.shiftl (b2z (negb last)) 7 + segment)]
    (take 16 buffer).

Definition with_checksum (tx : list Z) (len : Z) : list Z :=
  if checksum_enabled cfg then snd (nfapi_p7_update_checksum crc32 tx len) else tx.

(** The [for(segment...)] loop from segment [segment] on, [n] segments to go.
    [touch] is what the sender does to its message buffer after copying a
    segment out of it. *)
Fixpoint segment_loop (touch : Z -> list Z -> list Z) (msg_body_len seg_body_len segment_count : Z)
    (n : nat) (segment offset : Z) (buffer : list Z) : list (list Z) :=
  match n with
  | O => []
  | S n =>
      let last := segment + 1 =? segment_count in
      let size :=
        if last then u16 (msg_body_len - seg_body_len * segment)
        else u16 (segment_size cfg - NFAPI_P7_HEADER_LENGTH) in
      let seg_size := u16 (size + NFAPI_P7_HEADER_LENGTH) in
      let tx := segment_header buffer seg_size segment last ++
                take (Z.to_nat size) (drop (Z.to_nat offset) buffer) in
      with_checksum tx seg_size ::
      segment_loop touch msg_body_len seg_body_len segment_count n (segment + 1) (offset + size)
        (touch segment buffer)
  end.

(** The datagrams for a packed message. *)
Definition datagrams (touch : Z -> list Z -> list Z) (buffer : list Z) : list (list Z) :=
  let len := zlen buffer in
  if segment_size cfg <? len then
    let msg_body_len := len - NFAPI_P7_HEADER_LENGTH in
    let seg_body_len := segment_size cfg - NFAPI_P7_HEADER_LENGTH in
    let segment_count :=
      Z.quot msg_body_len seg_body_len +
      (if negb (Z.rem msg_body_len seg_body_len =? 0) then 1 else 0) in
    segment_loop touch msg_body_len seg_body_len segment_count (Z.to_nat segment_count) 0
      NFAPI_P7_HEADER_LENGTH buffer
  else [touch 0 (with_checksum buffer len)].

(** [pack] is [nfapi_p7_message_pack] on the caller's message as a function of
    the segment/sequence word put into its header; [None] is a negative
    result.  Result: return value, new [sequence_number], datagrams sent. *)
(* src: pnf_p7.c :: pnf_p7_pack_and_send_p7_message *)
Definition pnf_p7_pack_and_send_p7_message (pack : Z -> option (list Z)) (sequence_number : Z) :
    Z * Z * list (list Z) :=
  match pack (NFAPI_P7_SET_MSS 0 0 sequence_number) with
  | None => (-1, sequence_number, [])
  | Some buffer => (0, u32 (sequence_number + 1), datagrams (fun _ b => b) buffer)
  end.

(* src: pnf_p7.c :: pnf_nr_p7_pack_and_send_p7_message *)
Definition pnf_nr_p7_pack_and_send_p7_message := pnf_p7_pack_and_send_p7_message.

(** The VNF stamps the message buffer after each segment was copied out of it,
    so the first segment carries no stamp and each later one the stamp of its
    predecessor.  [timestamp i] is [calculate_transmit_timestamp] at that
    moment.  [connection] is the sequence number of the connection of
    [header->phy_id], [None] when there is no such connection. *)
(* src: vnf_p7.c :: vnf_p7_pack_and_send_p7_msg *)
Definition vnf_p7_pack_and_send_p7_msg (timestamp : Z -> Z) (pack : Z -> option (list Z))
    (connection : option Z) : Z * option Z * list (list Z) :=
  match connection with
  | None => (-1, None, [])
  | Some sequence_number =>
    match pack (NFAPI_P7_SET_MSS 0 0 sequence_number) with
    | None => (-1, connection, [])
    | Some buffer =>
        (0, Some (u32 (sequence_number + 1)),
         datagrams (fun i b => snd (nfapi_p7_update_transmit_timestamp b (timestamp i))) buffer)
    end
  end.

(* src: vnf_p7.c :: vnf_nr_p7_pack_and_send_p7_msg *)
Definition vnf_nr_p7_pack_and_send_p7_msg := vnf_p7_pack_and_send_p7_msg.

End send.

(** ** The reassembly queue *)

(** [segments[i]] is [None] while its [buffer] is null. *)
(* src: pnf_p7.h 57-74 pnf_p7_rx_message_t *)
Record rx_message := RxMessage {
  sequence_number : Z;
  num_segments_received : Z;
  num_segments_expected : Z;
  rx_segments : list (option (list Z));
  rx_hr_time : Z;
}.

Definition reassembly_queue := list rx_message.

(** The entry with the sequence number gets the segment; [None] when there is
    no such entry. *)
Fixpoint add_to_entry (seq seg : Z) (m : Z) (data : list Z) (q : reassembly_queue) :
    option (rx_message * reassembly_queue) :=
  match q with
  | [] => None
  | e :: q =>
      if sequence_number e =? seq then
        let e := RxMessage (sequence_number e) (u8 (num_segments_received e + 1))
                   (if m =? 0 then u8 (seg + 1) else num_segments_expected e)
                   (<[Z.to_nat seg := Some data]> (rx_segments e)) (rx_hr_time e) in
        Some (e, e :: q)
      else match add_to_entry seq seg m data q with
      | None => None
      | Some (r, q) => Some (r, e :: q)
      end
  end.

(* src: pnf_p7.c :: pnf_p7_rx_reassembly_queue_add_segment *)
Definition pnf_p7_rx_reassembly_queue_add_segment (q : reassembly_queue) (now seq seg m : Z)
    (data : list Z) : rx_message * reassembly_queue :=
  match add_to_entry seq seg m data q with
  | Some r => r
  | None =>
      let e := RxMessage (u8 seq) 1 (if negb (m =? 0) then 255 else u8 (seg + 1))
                 (<[Z.to_nat seg := Some data]> (replicate 128 None)) now in
      (e, e :: q)
  end.

(* src: pnf_p7.c :: pnf_p7_rx_reassembly_queue_remove_msg *)
Fixpoint pnf_p7_rx_reassembly_queue_remove_msg (q : reassembly_queue) (msg : rx_message) :
    reassembly_queue :=
  match q with
  | [] => []
  | e :: q =>
      if sequence_number e =? sequence_number msg then q
      else e :: pnf_p7_rx_reassembly_queue_remove_msg q msg
  end.

(* src: pnf_p7.c :: pnf_p7_rx_reassembly_queue_remove_old_msgs *)
Fixpoint pnf_p7_rx_reassembly_queue_remove_old_msgs (q : reassembly_queue) (now delta : Z) :
    reassembly_queue :=
  match q with
  | [] => []
  | e :: q =>
      if delta <? u32 (now - rx_hr_time e) then pnf_p7_rx_reassembly_queue_remove_old_msgs q now delta
      else e :: pnf_p7_rx_reassembly_queue_remove_old_msgs q now delta
  end.

(** The VNF's copies; it reads the clock instead of being given the time. *)
(* src: vnf_p7.c :: vnf_p7_rx_reassembly_queue_add_segment *)
Definition vnf_p7_rx_reassembly_queue_add_segment := pnf_p7_rx_reassembly_queue_add_segment.
(* src: vnf_p7.c :: vnf_p7_rx_reassembly_queue_remove_msg *)
Definition vnf_p7_rx_reassembly_queue_remove_msg := pnf_p7_rx_reassembly_queue_remove_msg.
(* src: vnf_p7.c :: vnf_p7_rx_reassembly_queue_remove_old_msgs *)
Definition vnf_p7_rx_reassembly_queue_remove_old_msgs := pnf_p7_rx_reassembly_queue_remove_old_msgs.

(** ** Receiving *)

(** What segment [i] contributes to the reassembly buffer: all of segment 0,
    the others without their header.  [None] where the code dereferences a
    null buffer, reads behind [segments[]], or copies a negative size. *)
(* src: pnf_p7.c 2627-2639 pnf_handle_p7_message *)
Definition segment_bytes (msg : rx_message) (i : nat) : option (list Z) :=
  match rx_segments msg !! i with
  | None => None
  | Some None => if decide (i = O) then Some [] else None
  | Some (Some b) =>
      if decide (i = O) then Some b
      else if zlen b <? NFAPI_P7_HEADER_LENGTH then None
      else Some (drop (Z.to_nat NFAPI_P7_HEADER_LENGTH) b)
  end.

(** The buffer is sized by a [uint16_t] sum, so a longer message overruns it. *)
(* src: pnf_p7.c 2598-2639 pnf_handle_p7_message *)
Definition reassemble (msg : rx_message) : option (list Z) :=
  parts ← mapM (segment_bytes msg) (seq 0 (Z.to_nat (num_segments_expected msg)));
  if 65535 <? zlen (concat parts) then None else Some (concat parts).

(** Messages passed to [pnf_dispatch_p7_message], with their receive time. *)
Definition dispatched := list (list Z * Z).

(** The part of the handlers behind the header check: [now] is the arrival
    time.  [None] is a memory error of the C code. *)
(* src: pnf_p7.c 2594-2648 pnf_handle_p7_message *)
Definition handle_segment (q : reassembly_queue) (now m seq seg : Z) (data : list Z) :
    option (dispatched * reassembly_queue) :=
  let '(rx_msg, q) := pnf_p7_rx_reassembly_queue_add_segment q now seq seg m data in
  if num_segments_received rx_msg =? num_segments_expected rx_msg then
    match reassemble rx_msg with
    | None => None
    | Some buffer =>
        Some ([(buffer, rx_hr_time rx_msg)], pnf_p7_rx_reassembly_queue_remove_msg q rx_msg)
    end
  else Some ([], q).

(** The checks in front: [None] where the handler returns early. *)
(* src: pnf_p7.c 2552-2578 pnf_handle_p7_message *)
Definition accepted_header (cksum_enabled : bool) (data : list Z) : option nfapi_p7_message_header_t :=
  if zlen data <? 4 then None
  else match nfapi_p7_message_header_unpack data 16 with
  | None => None
  | Some h =>
      if cksum_enabled && negb (nfapi_p7_calculate_checksum crc32 data (zlen data) =? checksum h)
      then None else Some h
  end.

(* src: pnf_p7.c :: pnf_handle_p7_message *)
Definition pnf_handle_p7_message (cksum_enabled : bool) (q : reassembly_queue) (now : Z)
    (data : list Z) : option (dispatched * reassembly_queue) :=
  match accepted_header cksum_enabled data with
  | None => Some ([], q)
  | Some h =>
    let m := NFAPI_P7_GET_MORE (m_segment_sequence h) in
    let sequence_num := NFAPI_P7_GET_SEQUENCE (m_segment_sequence h) in
    let segment_num := NFAPI_P7_GET_SEGMENT (m_segment_sequence h) in
    match
      (if (m =? 0) && (segment_num =? 0) then Some ([(data, now)], q)
       else handle_segment q now m sequence_num segment_num data)
    with
    | None => None
    | Some (out, q) => Some (out, pnf_p7_rx_reassembly_queue_remove_old_msgs q now 1000)
    end
  end.

(* src: pnf_p7.c :: pnf_nr_handle_p7_message *)
Definition pnf_nr_handle_p7_message := pnf_handle_p7_message.

(** The VNF keeps one queue per connection and cleans it only after a
    segment; [now] and [now'] are its two clock reads. *)
Fixpoint on_connection (phy : Z) (f : reassembly_queue -> option (dispatched * reassembly_queue))
    (conns : list (Z * reassembly_queue)) : option (dispatched * list (Z * reassembly_queue)) :=
  match conns with
  | [] => Some ([], [])
  | (id, q) :: conns =>
      if id =? phy then
        match f q with None => None | Some (out, q) => Some (out, (id, q) :: conns) end
      else match on_connection phy f conns with
      | None => None
      | Some (out, conns) => Some (out, (id, q) :: conns)
      end
  end.

(* src: vnf_p7.c :: vnf_handle_p7_message *)
Definition vnf_handle_p7_message (cksum_enabled : bool) (conns : list (Z * reassembly_queue))
    (now now' : Z) (data : list Z) : option (dispatched * list (Z * reassembly_queue)) :=
  match accepted_header cksum_enabled data with
  | None => Some ([], conns)
  | Some h =>
    let m := NFAPI_P7_GET_MORE (m_segment_sequence h) in
    let segment_num := NFAPI_P7_GET_SEGMENT (m_segment_sequence h) in
    let sequence_num := NFAPI_P7_GET_SEQUENCE (m_segment_sequence h) in
    if (m =? 0) && (segment_num =? 0) then Some ([(data, now)], conns)
    else on_connection (phy_id h)
      (fun q =>
        match handle_segment q now m sequence_num segment_num data with
        | None => None
        | Some (out, q) => Some (out, vnf_p7_rx_reassembly_queue_remove_old_msgs q now' 1000)
        end) conns
  end.

(* src: vnf_p7.c :: vnf_nr_handle_p7_message *)
Definition vnf_nr_handle_p7_message := vnf_handle_p7_message.

(** Datagrams arriving one after the other, with their arrival times. *)
Definition receive (cksum_enabled : bool) : reassembly_queue -> list (Z * list Z) -> option (dispatched * reassembly_queue) :=
  feed (fun q a => pnf_handle_p7_message cksum_enabled q a.1 a.2).

End segmentation.

(** ** A handler that collects

    A handler that is given [n] things, each once, and keeps what it has been given,
    [Q], until it has all and gives the result. *)
Lemma feed_collects {St A B} (step : St -> A -> option (list B * St)) (index : A -> nat) (n : nat)
    (ok first : A -> Prop) (Q : list nat -> St -> Prop) (D : St -> Prop) (result : list B) :
  (forall recv a s, Q recv s -> NoDup (index a :: recv) -> Forall (fun j => j < n)%nat (index a :: recv) ->
     ok a -> (recv = [] -> first a) ->
     exists out s', step s a = Some (out, s') /\
       if decide (S (length recv) = n) then out = result /\ D s' else out = [] /\ Q (index a :: recv) s') ->
  forall l recv s, Q recv s -> l <> [] -> recv ++ (index <$> l) ≡ₚ seq 0 n -> Forall ok l ->
    (recv = [] -> forall a, head l = Some a -> first a) ->
    exists s', feed step s l = Some (result, s') /\ D s'.
Proof.
  intros Hstep. induction l as [|a l IH]; intros recv s Hq Hne Hp Hok Hfirst; [done|].
  apply Forall_cons in Hok as [Ha Hok].
  assert (NoDup (recv ++ index a :: (index <$> l))) as Hnd by (rewrite Hp; apply NoDup_seq).
  assert (forall j, j ∈ recv ++ index a :: (index <$> l) -> (j < n)%nat) as Hlt.
  { intros j Hj. rewrite Hp in Hj. apply elem_of_seq in Hj. lia. }
  apply NoDup_app in Hnd as (Hndr & Hdis & _).
  destruct (Hstep recv a s Hq) as (out & s' & E & Hcase); [| |done| |].
  - constructor; [|done]. intros Hi. apply (Hdis _ Hi). left.
  - apply Forall_forall. intros j [->|Hj]%elem_of_cons; apply Hlt, elem_of_app; [by right; left|by left].
  - intros ->. by apply Hfirst.
  - cbn [feed]. rewrite E. pose proof (Permutation_length Hp) as Hlen.
    rewrite length_app, length_seq, fmap_cons in Hlen. cbn [length] in Hlen. rewrite length_fmap in Hlen.
    destruct (decide (S (length recv) = n)) as [Hfull|Hmore]; destruct Hcase as [-> Hs'].
    + destruct l; [|simpl in Hlen; lia]. exists s'. cbn [feed]. by rewrite app_nil_r.
    + destruct l as [|b l]; [simpl in Hlen; lia|].
      destruct (IH (index a :: recv) s' Hs') as (s2 & -> & Hs2); [done| |done|done|by exists s2].
      rewrite <- Hp. apply (Permutation_middle recv).
Qed.

Lemma feed_fmap {St A A' B} (step : St -> A -> option (list B * St)) (f : A' -> A) l : forall s,
  feed step s (f <$> l) = feed (fun s a => step s (f a)) s l.
Proof.
  induction l as [|a l IH]; intros s; [done|]. rewrite fmap_cons. cbn [feed].
  destruct (step s (f a)) as [[out s']|]; [|done]. by rewrite IH.
Qed.

(** ** The reassembly queue while the segments of one message arrive *)

Section reassembly.
#[local] Set Default Proof Using "All".
Context (ds : list (list Z)) (sq t0 : Z).
Context (Hk : (2 <= length ds <= 128)%nat) (Hsq : 0 <= sq < 256).

Definition seg_count : nat := length ds.

(** [segments[]] when the segments [recv] have arrived. *)
Definition slots (recv : list nat) : list (option (list Z)) :=
  (fun i => if decide (i ∈ recv) then ds !! i else None) <$> seq 0 128.

Definition entry (recv : list nat) : rx_message :=
  RxMessage sq (Z.of_nat (length recv))
    (if decide ((seg_count - 1)%nat ∈ recv) then Z.of_nat seg_count else 255) (slots recv) t0.

Definition other (e : rx_message) : Prop := sequence_number e <> sq.

(** The queue holds the segments [recv] of the message, and anything of other
    sequence numbers. *)
Definition holding (recv : list nat) (q : reassembly_queue) : Prop :=
  match recv with
  | [] => Forall other q
  | _ => exists l1 l2, q = l1 ++ entry recv :: l2 /\ Forall other l1 /\ Forall other l2
  end.

Lemma slots_lookup recv i :
  (i < 128)%nat -> slots recv !! i = Some (if decide (i ∈ recv) then ds !! i else None).
Proof. intros Hi. unfold slots. by rewrite list_lookup_fmap, lookup_seq_lt by lia. Qed.

Lemma slots_insert recv i d :
  (i < 128)%nat -> ds !! i = Some d -> <[i := Some d]> (slots recv) = slots (i :: recv).
Proof.
  intros Hi Hd. assert (length (slots recv) = 128%nat) as Hl by (unfold slots; by rewrite length_fmap, length_seq).
  apply list_eq. intros j. destruct (decide (j < 128)%nat) as [Hj|Hj].
  - rewrite slots_lookup by done. destruct (decide (i = j)) as [<-|Hne].
    + rewrite list_lookup_insert_eq, decide_True by (lia || left). by rewrite Hd.
    + rewrite list_lookup_insert_ne, slots_lookup by done. f_equal.
      apply decide_ext. rewrite elem_of_cons. split; [by right|by intros [->|]].
  - rewrite !lookup_ge_None_2; [done|..];
      rewrite ?length_insert, ?Hl; unfold slots; rewrite ?length_fmap, ?length_seq; lia.
Qed.

Lemma slots_nil : slots [] = replicate 128 None.
Proof. done. Qed.

(** The new values of the counters. *)
Lemma entry_add recv i d :
  ds !! i = Some d -> (length recv < seg_count)%nat ->
  RxMessage sq (u8 (Z.of_nat (length recv) + 1))
    (if decide (i = (seg_count - 1)%nat) then u8 (Z.of_nat i + 1)
     else num_segments_expected (entry recv))
    (<[i := Some d]> (slots recv)) t0 = entry (i :: recv).
Proof.
  intros Hd Hl. pose proof (lookup_lt_Some _ _ _ Hd) as Hi. unfold seg_count in *. unfold entry.
  rewrite (slots_insert recv i d) by (done || lia). cbn [length num_segments_expected]. f_equal.
  - rewrite u8_small by wrap_lia. lia.
  - destruct (decide (i = (length ds - 1)%nat)) as [->|Hne].
    + rewrite decide_True by left. rewrite u8_small by wrap_lia. unfold seg_count. lia.
    + unfold seg_count. apply decide_ext. rewrite elem_of_cons. split; [by right|by intros [<-|]].
Qed.

Lemma add_to_entry_other m i data q : Forall other q -> add_to_entry sq i m data q = None.
Proof.
  induction 1 as [|e q He _ IH]; cbn [add_to_entry]; [done|].
  destruct (Z.eqb_spec (sequence_number e) sq); [done|]. by rewrite IH.
Qed.

Lemma add_to_entry_found m i data l1 e l2 :
  Forall other l1 -> sequence_number e = sq ->
  add_to_entry sq i m data (l1 ++ e :: l2) =
  let e' := RxMessage sq (u8 (num_segments_received e + 1))
              (if m =? 0 then u8 (i + 1) else num_segments_expected e)
              (<[Z.to_nat i := Some data]> (rx_segments e)) (rx_hr_time e) in
  Some (e', l1 ++ e' :: l2).
Proof.
  intros Hl1 He. induction Hl1 as [|e1 l1 He1 _ IH]; cbn [app add_to_entry].
  - by rewrite He, Z.eqb_refl.
  - destruct (Z.eqb_spec (sequence_number e1) sq); [done|]. by rewrite IH.
Qed.

(** Adding segment [i]. *)
Lemma add_segment_holding recv i d q now :
  holding recv q -> ds !! i = Some d -> (length recv < seg_count)%nat ->
  (recv = [] -> now = t0) ->
  exists l1 l2,
    pnf_p7_rx_reassembly_queue_add_segment q now sq (Z.of_nat i) (b2z (negb (i =? seg_count - 1)%nat)) d =
      (entry (i :: recv), l1 ++ entry (i :: recv) :: l2) /\ Forall other l1 /\ Forall other l2.
Proof.
  intros Hq Hd Hl Hnow. pose proof (entry_add recv i d Hd Hl) as He.
  assert (forall A (x y : A), (if b2z (negb (i =? seg_count - 1)%nat) =? 0 then x else y) =
    if decide (i = (seg_count - 1)%nat) then x else y) as Hm.
  { intros. destruct (Nat.eqb_spec i (seg_count - 1)) as [->|]; [by rewrite decide_True|by rewrite decide_False]. }
  unfold pnf_p7_rx_reassembly_queue_add_segment. destruct recv as [|r recv].
  - rewrite add_to_entry_other by done. rewrite Nat2Z.id, (u8_small sq) by wrap_lia.
    rewrite slots_nil in He. exists [], q. rewrite <- He, Hnow by done. split; [|by split].
    assert (num_segments_expected (entry []) = 255) as -> by done. rewrite <- Hm.
    by destruct (b2z _ =? 0).
  - destruct Hq as (l1 & l2 & -> & H1 & H2). rewrite add_to_entry_found by done. cbv zeta.
    exists l1, l2. rewrite <- He, Hm, Nat2Z.id. done.
Qed.

Lemma remove_msg_found recv l1 l2 :
  Forall other l1 ->
  pnf_p7_rx_reassembly_queue_remove_msg (l1 ++ entry recv :: l2) (entry recv) = l1 ++ l2.
Proof.
  induction 1 as [|e l1 He _ IH]; cbn [app pnf_p7_rx_reassembly_queue_remove_msg].
  - by rewrite Z.eqb_refl.
  - cbn [sequence_number entry]. destruct (Z.eqb_spec (sequence_number e) sq); [done|by rewrite <- IH].
Qed.

Lemma remove_old_other q now delta :
  Forall other q -> Forall other (pnf_p7_rx_reassembly_queue_remove_old_msgs q now delta).
Proof using Type. induction 1; simpl; [done|]. case_match; [done|by constructor]. Qed.

Lemma remove_old_app q1 q2 now delta :
  pnf_p7_rx_reassembly_queue_remove_old_msgs (q1 ++ q2) now delta =
  pnf_p7_rx_reassembly_queue_remove_old_msgs q1 now delta ++
  pnf_p7_rx_reassembly_queue_remove_old_msgs q2 now delta.
Proof.
  induction q1 as [|e q1 IH]; simpl; [done|]. destruct (_ <? _); [done|].
  cbn [app]. by rewrite IH.
Qed.

(** A young entry survives the clean-up. *)
Lemma remove_old_holding recv l1 l2 now :
  recv <> [] -> u32 (now - t0) <= 1000 -> Forall other l1 -> Forall other l2 ->
  holding recv (pnf_p7_rx_reassembly_queue_remove_old_msgs (l1 ++ entry recv :: l2) now 1000).
Proof.
  intros Hr Ht H1 H2. rewrite remove_old_app. cbn [pnf_p7_rx_reassembly_queue_remove_old_msgs rx_hr_time entry].
  destruct (Z.ltb_spec 1000 (u32 (now - t0))); [lia|]. destruct recv; [done|].
  eexists _, _. split; [done|]. split; by apply remove_old_other.
Qed.

(** Once all segments arrived, the buffer is their concatenation. *)
Lemma reassemble_entry recv d0 :
  recv ≡ₚ seq 0 seg_count -> ds !! 0%nat = Some d0 -> Forall (fun d => 16 <= zlen d) ds ->
  zlen d0 + zlen (concat (drop 16 <$> tail ds)) <= 65535 ->
  reassemble (entry recv) = Some (d0 ++ concat (drop 16 <$> tail ds)).
Proof.
  intros Hp Hd0 Hds Hlen. unfold reassemble.
  assert (num_segments_expected (entry recv) = Z.of_nat seg_count) as ->.
  { unfold entry. cbn [num_segments_expected]. rewrite decide_True; [done|].
    rewrite Hp. apply elem_of_seq. unfold seg_count. lia. }
  rewrite Nat2Z.id.
  assert (mapM (segment_bytes (entry recv)) (seq 0 seg_count) = Some (d0 :: (drop 16 <$> tail ds))) as ->.
  { apply mapM_Some_2, Forall2_same_length_lookup_2.
    { cbn [length]. rewrite length_seq, length_fmap, length_tail. unfold seg_count. lia. }
    intros j y x [-> Hj]%lookup_seq Hx. unfold segment_bytes. cbn [Nat.add rx_segments entry].
    unfold seg_count in Hj. rewrite slots_lookup, decide_True
      by (lia || (rewrite Hp; apply elem_of_seq; unfold seg_count; lia)).
    destruct j as [|j].
    - rewrite Hd0. by injection Hx as ->.
    - change ((drop 16 <$> tail ds) !! j = Some x) in Hx.
      rewrite list_lookup_fmap, lookup_tail in Hx.
      destruct (ds !! S j) as [d|] eqn:Ed; [|done]. injection Hx as <-.
      rewrite decide_False by done. unfold NFAPI_P7_HEADER_LENGTH.
      destruct (Z.ltb_spec (zlen d) 16); [|done].
      apply (Forall_lookup_1 _ _ _ _ Hds) in Ed. simpl in Ed. lia. }
  cbn [mbind option_bind concat].
  destruct (Z.ltb_spec 65535 (zlen (d0 ++ concat (drop 16 <$> tail ds)))); [zlen_lia|done].
Qed.
End reassembly.

(** ** Segmented messages *)

Definition datagram (p : nfapi_p7_message_header_t * list Z) : list Z := header_bytes p.1 ++ p.2.

(** Headers and bodies that make up one message with sequence number [sq]. *)
Record segmented (crc32 : Z -> list Z -> Z) (ce : bool) (sq : Z)
    (hs : list (nfapi_p7_message_header_t * list Z)) : Prop := {
  sg_count : (2 <= length hs <= 128)%nat;
  sg_sq : 0 <= sq < 256;
  sg_header i h b : hs !! i = Some (h, b) ->
    header_ok h /\ m_segment_sequence h = mss (negb (i =? length hs - 1)%nat) (Z.of_nat i) sq;
  sg_checksum i h b : hs !! i = Some (h, b) -> ce = true ->
    checksum h = nfapi_calculate_checksum crc32 (header_bytes h ++ b) (16 + zlen b);
  sg_length : 16 + zlen (concat (snd <$> hs)) <= 65535;
}.

(** The message that reaches the dispatcher: the first segment's header, all
    bodies. *)
Definition message (hs : list (nfapi_p7_message_header_t * list Z)) : list Z :=
  match hs with [] => [] | (h, _) :: _ => header_bytes h ++ concat (snd <$> hs) end.

Section receiving.
#[local] Set Default Proof Using "All".
Context (crc32 : Z -> list Z -> Z) (ce : bool) (sq : Z) (hs : list (nfapi_p7_message_header_t * list Z)).
Context (Hs : segmented crc32 ce sq hs) (t0 : Z).

#[local] Abbreviation ds := (datagram <$> hs).

Lemma ds_count : (2 <= length ds <= 128)%nat.
Proof. rewrite length_fmap. apply Hs. Qed.

Lemma accepted i h b :
  hs !! i = Some (h, b) -> accepted_header crc32 ce (datagram (h, b)) = Some h.
Proof.
  intros Hi. destruct (sg_header _ _ _ _ Hs _ _ _ Hi) as [Hok Hmss].
  unfold accepted_header, datagram. cbn [fst snd].
  destruct (Z.ltb_spec (zlen (header_bytes h ++ b)) 4); [zlen_lia|].
  rewrite header_unpack_bytes by done. destruct ce eqn:Ece; cbn [andb]; [|done].
  rewrite (sg_checksum _ _ _ _ Hs _ _ _ Hi eq_refl). unfold nfapi_p7_calculate_checksum.
  replace (zlen (header_bytes h ++ b)) with (16 + zlen b) by (autorewrite with zlen; lia).
  by rewrite Z.eqb_refl.
Qed.

Lemma message_ds d0 :
  ds !! 0%nat = Some d0 -> d0 ++ concat (drop 16 <$> tail ds) = message hs.
Proof.
  destruct hs as [|[h b] hs'] eqn:E; [done|]. intros [= <-]. unfold message, datagram.
  cbn [fmap list_fmap concat tail fst snd]. rewrite <- app_assoc. do 2 f_equal.
  change (list_fmap _ _ ?f ?l) with (f <$> l). rewrite <- list_fmap_compose. f_equal.
Qed.

(** All segments have arrived. *)
Lemma all_received (l : list nat) k :
  NoDup l -> Forall (fun j => j < k)%nat l -> length l = k -> l ≡ₚ seq 0 k.
Proof.
  intros Hn Hl Hlen. apply submseteq_length_Permutation; [|rewrite length_seq; lia].
  apply NoDup_submseteq; [done|]. intros j Hj. apply elem_of_seq.
  rewrite Forall_forall in Hl. specialize (Hl j Hj). lia.
Qed.

(** The flags of segment [i] send it to the reassembly queue. *)
Lemma handle_is_segment i h b q now :
  hs !! i = Some (h, b) ->
  pnf_handle_p7_message crc32 ce q now (datagram (h, b)) =
  match handle_segment q now (b2z (negb (i =? length hs - 1)%nat)) sq (Z.of_nat i) (datagram (h, b)) with
  | None => None
  | Some (out, q) => Some (out, pnf_p7_rx_reassembly_queue_remove_old_msgs q now 1000)
  end.
Proof.
  intros Hi. destruct (sg_header _ _ _ _ Hs _ _ _ Hi) as [Hok Hmss].
  pose proof (sg_count _ _ _ _ Hs) as Hk. pose proof (sg_sq _ _ _ _ Hs) as Hsq.
  pose proof (lookup_lt_Some _ _ _ Hi) as Hlt.
  unfold pnf_handle_p7_message. rewrite (accepted i) by done.
  destruct (mss_get (negb (i =? length hs - 1)%nat) (Z.of_nat i) sq) as (E1 & E2 & E3); [lia|lia|].
  rewrite Hmss, E1, E2, E3.
  assert ((b2z (negb (i =? length hs - 1)%nat) =? 0) && (Z.of_nat i =? 0) = false) as ->; [|done].
  destruct (Nat.eqb_spec i (length hs - 1)); [|done]. cbn [negb b2z andb Z.eqb].
  destruct (Z.eqb_spec (Z.of_nat i) 0); [lia|done].
Qed.

Lemma entry_count recv :
  (length recv <= length hs)%nat -> Forall (fun j => j < length hs)%nat recv -> NoDup recv ->
  (num_segments_received (entry ds sq t0 recv) =? num_segments_expected (entry ds sq t0 recv)) =
  bool_decide (length recv = length hs).
Proof.
  intros Hl Hb Hn. pose proof (sg_count _ _ _ _ Hs) as Hk.
  unfold entry, seg_count. cbn [num_segments_received num_segments_expected]. rewrite length_fmap.
  apply eq_true_iff_eq. rewrite bool_decide_eq_true, Z.eqb_eq. case_decide as Hin; split; try lia.
  intros Hall. destruct Hin. rewrite (all_received recv (length hs)) by done. apply elem_of_seq. lia.
Qed.

(** Segment [i] arrives while the segments [recv] are held. *)
Lemma segment_step recv i d q now :
  holding ds sq t0 recv q -> ds !! i = Some d -> NoDup (i :: recv) ->
  Forall (fun j => j < length hs)%nat recv -> (recv = [] -> now = t0) ->
  exists out q',
    handle_segment q now (b2z (negb (i =? length hs - 1)%nat)) sq (Z.of_nat i) d = Some (out, q') /\
    forall now', u32 (now' - t0) <= 1000 ->
      let q' := pnf_p7_rx_reassembly_queue_remove_old_msgs q' now' 1000 in
      if decide (S (length recv) = length hs) then out = [(message hs, t0)] /\ Forall (other sq) q'
      else out = [] /\ holding ds sq t0 (i :: recv) q'.
Proof.
  intros Hq Hd Hnd Hr Hfirst. pose proof ds_count as Hdk. pose proof (sg_count _ _ _ _ Hs) as Hk. pose proof (sg_sq _ _ _ _ Hs) as Hsq.
  pose proof (lookup_lt_Some _ _ _ Hd) as Hi. rewrite length_fmap in Hi.
  assert (Forall (fun j => j < length hs)%nat (i :: recv)) as Hir by (by constructor).
  assert (length (i :: recv) <= length hs)%nat as Hlen.
  { rewrite <- (length_seq (length hs) 0). apply submseteq_length, NoDup_submseteq; [done|].
    intros j Hj. apply elem_of_seq. rewrite Forall_forall in Hir. specialize (Hir j Hj). lia. }
  pose proof Hd as Hd'. rewrite list_lookup_fmap in Hd'.
  destruct (hs !! i) as [[h b]|] eqn:Eh; [|done]. injection Hd' as <-.
  destruct (add_segment_holding ds sq t0 ds_count Hsq recv i _ q now Hq Hd) as (l1 & l2 & E & H1 & H2);
    [unfold seg_count; rewrite length_fmap; simpl in Hlen; lia|done|].
  unfold seg_count in E. rewrite length_fmap in E. unfold handle_segment. rewrite E, entry_count by done.
  cbn [length]. destruct (decide (S (length recv) = length hs)) as [Hfull|Hfull];
    [rewrite bool_decide_true by done|rewrite bool_decide_false by done].
  - destruct (lookup_lt_is_Some_2 ds 0) as [d0 Hd0]; [rewrite length_fmap; lia|].
    pose proof (message_ds d0 Hd0) as Hm.
    rewrite (reassemble_entry ds sq t0 ds_count Hsq (i :: recv) d0), Hm.
    + rewrite remove_msg_found by done. eexists _, _. split; [done|]. intros now' Ht. split; [done|].
      by eapply remove_old_other, Forall_app.
    + unfold seg_count. rewrite length_fmap. by apply all_received.
    + done.
    + apply Forall_fmap, Forall_forall. intros [h' b'] _. unfold datagram. cbn. zlen_lia.
    + rewrite <- zlen_app, Hm. pose proof (sg_length _ _ _ _ Hs). unfold message.
      destruct hs as [|[h' b'] ?]; [simpl in Hk; lia|]. rewrite zlen_app, zlen_header_bytes. done.
  - eexists _, _. split; [done|]. intros now' Ht. split; [done|]. by apply remove_old_holding.
Qed.

(** The datagrams in an order and at times of the network's choosing. *)
Definition arriving (arr : list (Z * nat)) : list (Z * list Z) :=
  (fun a => (a.1, default [] (ds !! a.2))) <$> arr.

Lemma receive_all arr q :
  Forall (other sq) q -> arr <> [] -> arr.*2 ≡ₚ seq 0 (length hs) ->
  Forall (fun a => u32 (a.1 - t0) <= 1000) arr -> (forall a, head arr = Some a -> a.1 = t0) ->
  exists q', receive crc32 ce q (arriving arr) = Some ([(message hs, t0)], q') /\ Forall (other sq) q'.
Proof.
  intros Hq Hne Hp Ht Hfirst. unfold receive, arriving. rewrite feed_fmap. cbn [fst snd].
  refine (feed_collects _ snd (length hs) (fun a => u32 (a.1 - t0) <= 1000) (fun a => a.1 = t0)
    (holding ds sq t0) (Forall (other sq)) _ _ arr [] q Hq Hne Hp Ht _); [|by intros _].
  clear q Hq arr Hne Hp Ht Hfirst. intros recv [now i] q Hq Hnd [Hi Hr]%Forall_cons Ht Hfirst. cbn [fst snd] in *.
  destruct (lookup_lt_is_Some_2 hs i Hi) as [[h b] Eh]. assert (ds !! i = Some (datagram (h, b))) as Hd by (by rewrite list_lookup_fmap, Eh).
  rewrite Hd. cbn [from_option]. unfold id. rewrite (handle_is_segment i) by done.
  destruct (segment_step recv i _ q now Hq Hd Hnd Hr Hfirst) as (out & q' & -> & Hcase).
  do 2 eexists. split; [done|]. by apply Hcase.
Qed.
End receiving.

(** ** What the sender produces *)

(** [h] with another length, flag and segment number. *)
Definition as_segment (h : nfapi_p7_message_header_t) (len : Z) (more : bool) (seg : Z)
    (ck : Z) : nfapi_p7_message_header_t :=
  P7Header (phy_id h) (message_id h) len (mss more seg (m_segment_sequence h)) ck (transmit_timestamp h).

Lemma segment_header_bytes h body size seg last :
  in_u16 size -> 0 <= seg < 128 -> in_u8 (m_segment_sequence h) ->
  segment_header (header_bytes h ++ body) size seg last =
  header_bytes (as_segment h size (negb last) seg (checksum h)).
Proof.
  intros Hsize Hseg Hsq. unfold segment_header.
  change (take 16 (header_bytes h ++ body)) with (header_bytes h).
  assert (Z.shiftr (Z.land size 0xFF00) 8 = size / 256) as ->.
  { change 0xFF00 with (Z.shiftl (Z.ones 8) 8). rewrite land_shiftr_mask by lia.
    change (2 ^ 8) with 256. wrap_lia. }
  assert (Z.land size 0xFF = size mod 256) as ->.
  { change 0xFF with (Z.ones 8). by rewrite Z.land_ones by lia. }
  assert (u8 (Z.shiftl (b2z (negb last)) 7 + seg) = mss (negb last) seg (m_segment_sequence h) / 256) as ->.
  { rewrite shiftl_mul by lia. change (2 ^ 7) with 128. unfold mss. destruct last; cbn [negb b2z]; wrap_lia. }
  assert (m_segment_sequence h mod 256 = mss (negb last) seg (m_segment_sequence h) mod 256) as E.
  { unfold mss. destruct last; cbn [negb b2z]; wrap_lia. }
  unfold header_bytes, as_segment, overwrite, be16.
  cbn [phy_id message_id message_length m_segment_sequence checksum transmit_timestamp take drop app length Nat.add].
  by rewrite E.
Qed.

(** What a sender may do to its buffer between two segments. *)
Definition touch_ok (touch : Z -> list Z -> list Z) : Prop :=
  forall i h body, header_ok h -> exists t,
    in_u32 t /\
    touch i (header_bytes h ++ body) =
      header_bytes (P7Header (phy_id h) (message_id h) (message_length h) (m_segment_sequence h)
        (checksum h) t) ++ body.

Lemma touch_id_ok : touch_ok (fun _ b => b).
Proof. intros i [] body (? & ? & ? & ? & ? & ?). eexists. split; [|done]. done. Qed.

Lemma touch_timestamp_ok ts :
  (forall i, in_u32 (ts i)) ->
  touch_ok (fun i b => snd (nfapi_p7_update_transmit_timestamp b (ts i))).
Proof.
  intros Hts i h body _. exists (ts i). split; [done|].
  unfold nfapi_p7_update_transmit_timestamp. cbn [snd]. by rewrite bytes32_be32.
Qed.

(** Two headers of the same message. *)
Definition same_message (h h' : nfapi_p7_message_header_t) : Prop :=
  phy_id h' = phy_id h /\ message_id h' = message_id h.

Section sending.
#[local] Set Default Proof Using "All".
Context (crc32 : Z -> list Z -> Z) (cfg : p7_config) (touch : Z -> list Z -> list Z).
Context (Htouch : touch_ok touch).
Context (body : list Z) (count : Z) (sq : Z).
#[local] Abbreviation sb := (segment_size cfg - 16).
Context (Hss : 16 < segment_size cfg < 65536) (Hsq : 0 <= sq < 256).
Context (Hcount : (count - 1) * sb < zlen body <= count * sb) (Hc : 2 <= count <= 128).

(** One datagram: header [h'] and body [b]. *)
Definition good_segment (h : nfapi_p7_message_header_t) (i : Z) (p : nfapi_p7_message_header_t * list Z) : Prop :=
  header_ok p.1 /\ same_message h p.1 /\ message_length p.1 = 16 + zlen p.2 /\
  m_segment_sequence p.1 = mss (negb (i =? count - 1)) i sq /\
  (checksum_enabled cfg = true ->
   checksum p.1 = nfapi_calculate_checksum crc32 (header_bytes p.1 ++ p.2) (16 + zlen p.2)).

Lemma one_segment h i b :
  header_ok h -> m_segment_sequence h = sq -> 0 <= i < count -> zlen b < segment_size cfg - 15 ->
  exists h', good_segment h i (h', b) /\
    with_checksum crc32 cfg
      (segment_header (header_bytes h ++ body) (16 + zlen b) i (i + 1 =? count) ++ b) (16 + zlen b) =
    datagram (h', b).
Proof.
  intros Hh Hmss Hi Hb. pose proof (zlen_nonneg b). destruct Hh as (? & ? & ? & ? & ? & ?).
  assert (negb (i + 1 =? count) = negb (i =? count - 1)) as El by (f_equal; lia).
  rewrite segment_header_bytes by (wrap_lia || (rewrite Hmss; wrap_lia)).
  set (h1 := as_segment h (16 + zlen b) (negb (i + 1 =? count)) i (checksum h)).
  assert (m_segment_sequence h1 = mss (negb (i =? count - 1)) i sq) as E1 by (unfold h1; simpl; congruence).
  assert (in_u16 (m_segment_sequence h1)) by (rewrite E1; apply mss_u16; lia).
  assert (in_u16 (16 + zlen b)) by (unfold in_u16; lia).
  unfold with_checksum. destruct (checksum_enabled cfg) eqn:Ece.
  - rewrite update_checksum_bytes by lia. cbn [snd]. eexists. split; [|reflexivity].
    unfold good_segment. rewrite Ece. cbn [fst snd]. split; [|split; [done|split; [done|split; [done|]]]].
    + split_and!; try done. apply calculate_checksum_range.
    + intros _. by rewrite checksum_skips.
  - exists h1. split; [|done]. unfold good_segment. rewrite Ece. cbn [fst snd].
    by split_and!.
Qed.

Lemma segment_loop_spec n : forall i off h,
  header_ok h -> m_segment_sequence h = sq -> 0 <= i -> i + Z.of_nat n = count ->
  (n <> O -> off = 16 + i * sb) ->
  exists hs,
    segment_loop crc32 cfg touch (zlen body) sb count n i off (header_bytes h ++ body) =
      (datagram <$> hs) /\
    length hs = n /\
    (forall j p, hs !! j = Some p -> good_segment h (i + Z.of_nat j) p) /\
    concat (snd <$> hs) = drop (Z.to_nat (i * sb)) body.
Proof.
  induction n as [|n IH]; intros i off h Hh Hmss Hi Hn Hoff; cbn [segment_loop].
  { exists []. split_and!; try done. symmetry. apply drop_ge. unfold zlen in Hcount. nia. }
  rewrite (Hoff ltac:(done)). clear Hoff off. unfold NFAPI_P7_HEADER_LENGTH.
  set (size := if i + 1 =? count then u16 (zlen body - sb * i) else u16 (segment_size cfg - 16)).
  assert (size = if i + 1 =? count then zlen body - sb * i else sb) as Hsize.
  { unfold size. destruct (Z.eqb_spec (i + 1) count); apply u16_small; unfold in_u16; nia. }
  assert (0 < size < segment_size cfg - 15) as Hb.
  { rewrite Hsize. destruct (Z.eqb_spec (i + 1) count); nia. }
  assert (i * sb + size <= zlen body) as Hfit.
  { rewrite Hsize. destruct (Z.eqb_spec (i + 1) count); nia. }
  clearbody size.
  assert (drop (Z.to_nat (16 + i * sb)) (header_bytes h ++ body) = drop (Z.to_nat (i * sb)) body) as ->.
  { rewrite Z2Nat.inj_add by nia. change (Z.to_nat 16) with (length (header_bytes h)).
    by rewrite drop_app_add. }
  set (b := take (Z.to_nat size) (drop (Z.to_nat (i * sb)) body)).
  assert (zlen b = size) as Hbl.
  { unfold b. rewrite zlen_take, zlen_drop, !Z2Nat.id by nia. lia. }
  destruct (one_segment h i b Hh Hmss) as (h' & Hgood & Hseg); [lia|lia|].
  assert (u16 (size + 16) = 16 + zlen b) as -> by (rewrite u16_small; unfold in_u16; lia).
  rewrite Hseg.
  destruct (Htouch i h body Hh) as (t & Ht & ->).
  destruct Hh as (? & ? & ? & ? & ? & ?).
  destruct (IH (i + 1) (16 + i * sb + size) (P7Header (phy_id h) (message_id h) (message_length h)
    (m_segment_sequence h) (checksum h) t)) as (hs & E & Hlen & Hall & Hcat); [done|done|lia|lia| |].
  { intros Hn0. rewrite Hsize. destruct (Z.eqb_spec (i + 1) count); lia. }
  rewrite E. exists ((h', b) :: hs). split_and!.
  - done.
  - cbn [length]. by rewrite Hlen.
  - intros [|j] p Hj; [injection Hj as <-; by rewrite Z.add_0_r|].
    replace (i + Z.of_nat (S j)) with (i + 1 + Z.of_nat j) by lia. by apply Hall.
  - rewrite fmap_cons. cbn [concat snd]. rewrite Hcat. unfold b.
    rewrite <- (take_drop (Z.to_nat size) (drop (Z.to_nat (i * sb)) body)) at 2. f_equal.
    rewrite drop_drop, <- Z2Nat.inj_add by nia.
    rewrite Hsize. destruct (Z.eqb_spec (i + 1) count).
    + rewrite !drop_ge by (unfold zlen in *; nia). done.
    + do 2 f_equal. lia.
Qed.
End sending.

(** ** Segmentation and reassembly, end to end *)

Lemma segment_count_spec B sb :
  0 < sb -> 0 <= B ->
  let count := Z.quot B sb + (if negb (Z.rem B sb =? 0) then 1 else 0) in
  B <= count * sb /\ (0 < B -> (count - 1) * sb < B).
Proof.
  intros Hsb HB. cbv zeta. rewrite Z.quot_div_nonneg, Z.rem_mod_nonneg by lia.
  pose proof (Z.div_mod B sb ltac:(lia)). pose proof (Z.mod_pos_bound B sb ltac:(lia)).
  destruct (Z.eqb_spec (B mod sb) 0); cbn [negb]; nia.
Qed.

Lemma datagrams_segmented crc32 cfg touch h body :
  touch_ok touch -> header_ok h -> in_u8 (m_segment_sequence h) ->
  16 < segment_size cfg < 65536 -> segment_size cfg < 16 + zlen body <= 65535 ->
  zlen body <= 128 * (segment_size cfg - 16) ->
  exists hs h',
    datagrams crc32 cfg touch (header_bytes h ++ body) = (datagram <$> hs) /\
    segmented crc32 (checksum_enabled cfg) (m_segment_sequence h) hs /\
    message hs = header_bytes h' ++ body /\ same_message h h' /\ header_ok h' /\
    message_length h' <= 16 + zlen body /\ Forall (fun p => same_message h p.1) hs.
Proof.
  intros Ht Hh Hsq Hss Hlen H128. unfold datagrams.
  destruct (Z.ltb_spec (segment_size cfg) (zlen (header_bytes h ++ body))); [|zlen_lia].
  unfold NFAPI_P7_HEADER_LENGTH.
  replace (zlen (header_bytes h ++ body) - 16) with (zlen body) by (autorewrite with zlen; lia).
  destruct (segment_count_spec (zlen body) (segment_size cfg - 16)) as [Hc1 Hc2]; [lia|lia|].
  set (count := Z.quot _ _ + _) in *. clearbody count.
  assert (2 <= count <= 128) as Hc by nia.
  destruct (segment_loop_spec crc32 cfg touch Ht body count (m_segment_sequence h) Hss Hsq
    ltac:(lia) Hc (Z.to_nat count) 0 16 h Hh eq_refl ltac:(lia) ltac:(lia) ltac:(lia))
    as (hs & E & Hn & Hall & Hcat).
  rewrite Z.mul_0_l in Hcat. change (drop (Z.to_nat 0) body) with body in Hcat. rewrite E.
  destruct hs as [|[h0 b0] hs'] eqn:Ehs; [simpl in Hn; lia|]. rewrite <- Ehs in *.
  exists hs, h0. split; [done|]. split; [|split; [by rewrite <- Hcat, Ehs|split; [|split; [|split]]]].
  - split; [lia|done| | |].
    + intros i h' b Hi. destruct (Hall i _ Hi) as (Hok & _ & _ & Hm & _). cbn [fst snd] in *.
      split; [done|]. rewrite Hm, Hn. do 2 f_equal; lia.
    + intros i h' b Hi Hce. destruct (Hall i _ Hi) as (_ & _ & _ & _ & Hck). by apply Hck.
    + rewrite Hcat. lia.
  - destruct (Hall 0%nat (h0, b0)) as (_ & Hsame & _); [by rewrite Ehs|done].
  - by destruct (Hall 0%nat (h0, b0)) as (Hok & _); [by rewrite Ehs|].
  - destruct (Hall 0%nat (h0, b0)) as (_ & _ & Hl & _); [by rewrite Ehs|]. cbn [fst snd] in Hl. rewrite Hl, <- Hcat, Ehs.
    rewrite fmap_cons. cbn [concat snd]. rewrite zlen_app. pose proof (zlen_nonneg (concat (snd <$> hs'))). lia.
  - apply Forall_lookup_2. intros i p Hi. by destruct (Hall i p Hi) as (_ & ? & _).
Qed.

(** The arrival of datagrams [ds]: which one comes when. *)
Definition arrivals (ds : list (list Z)) (arr : list (Z * nat)) : list (Z * list Z) :=
  (fun a => (a.1, default [] (ds !! a.2))) <$> arr.

(** Whatever the order of arrival, provided no datagram is lost or duplicated
    and all come within 1000 microseconds of the first. *)
Definition delivered_once (crc32 : Z -> list Z -> Z) (ce : bool) (h : nfapi_p7_message_header_t)
    (body : list Z) (ds : list (list Z)) : Prop :=
  forall q t0 i0 arr,
    (i0 :: arr.*2) ≡ₚ seq 0 (length ds) ->
    Forall (fun a => u32 (a.1 - t0) <= 1000) arr ->
    Forall (fun e => sequence_number e <> m_segment_sequence h) q ->
    exists h' q',
      receive crc32 ce q (arrivals ds ((t0, i0) :: arr)) = Some ([(header_bytes h' ++ body, t0)], q') /\
      same_message h h' /\ Forall (fun e => sequence_number e <> m_segment_sequence h) q'.

Lemma segmented_delivered crc32 ce h h' body hs :
  segmented crc32 ce (m_segment_sequence h) hs -> message hs = header_bytes h' ++ body ->
  same_message h h' -> delivered_once crc32 ce h body (datagram <$> hs).
Proof.
  intros Hs Hm Hsame q t0 i0 arr Hp Ht Hq. rewrite length_fmap in Hp.
  destruct (receive_all crc32 ce _ hs Hs t0 ((t0, i0) :: arr) q) as (q' & E & Hq'); try done.
  - constructor; [|done]. cbn [fst]. by rewrite Z.sub_diag.
  - by intros a [= <-].
  - exists h', q'. rewrite <- Hm. by split.
Qed.

(** C2.  A message longer than the segment size is sent as several datagrams
    by the PNF and the VNF alike, and whatever order they arrive in, the
    receiver dispatches exactly one message, once, with the original body and
    the original PHY and message identifiers, and forgets the segments. *)
Theorem segmentation_roundtrip crc32 cfg ts h body (pack : Z -> option (list Z)) (sequ : Z) :
  (forall i, in_u32 (ts i)) -> header_ok h ->
  m_segment_sequence h = NFAPI_P7_SET_MSS 0 0 sequ ->
  pack (NFAPI_P7_SET_MSS 0 0 sequ) = Some (header_bytes h ++ body) ->
  16 < segment_size cfg < 65536 -> segment_size cfg < 16 + zlen body <= 65535 ->
  zlen body <= 128 * (segment_size cfg - 16) ->
  (exists ds, pnf_p7_pack_and_send_p7_message crc32 cfg pack sequ = (0, u32 (sequ + 1), ds) /\
     delivered_once crc32 (checksum_enabled cfg) h body ds) /\
  (exists ds, vnf_p7_pack_and_send_p7_msg crc32 cfg ts pack (Some sequ) = (0, Some (u32 (sequ + 1)), ds) /\
     delivered_once crc32 (checksum_enabled cfg) h body ds).
Proof.
  intros Hts Hh Hmss Hpack Hss Hlen H128.
  assert (in_u8 (m_segment_sequence h)) as H8.
  { rewrite Hmss. unfold NFAPI_P7_SET_MSS. cbn [Z.land Z.shiftl Z.lor]. change 0xF with (Z.ones 4).
    rewrite Z.lor_0_l, Z.land_ones by lia. change (2 ^ 4) with 16. unfold in_u8. lia. }
  unfold pnf_p7_pack_and_send_p7_message, vnf_p7_pack_and_send_p7_msg. rewrite Hpack. split.
  - destruct (datagrams_segmented crc32 cfg _ h body touch_id_ok Hh H8 Hss Hlen H128)
      as (hs & h' & E & Hs & Hm & Hsame & _).
    rewrite E. eexists. split; [done|]. by eapply segmented_delivered.
  - destruct (datagrams_segmented crc32 cfg _ h body (touch_timestamp_ok ts Hts) Hh H8 Hss Hlen H128)
      as (hs & h' & E & Hs & Hm & Hsame & _).
    rewrite E. eexists. split; [done|]. by eapply segmented_delivered.
Qed.

Definition sample_header : nfapi_p7_message_header_t :=
  P7Header 1 0x80 21 (NFAPI_P7_SET_MSS 0 0 35) 0 0.

Lemma segmentation_roundtrip_witness :
  exists ds,
    pnf_p7_pack_and_send_p7_message (fun c l => c + foldr Z.add 0 l) (P7Config 20 true)
      (fun _ => Some (header_bytes sample_header ++ [1; 2; 3; 4; 5])) 35 = (0, u32 (35 + 1), ds) /\
    delivered_once (fun c l => c + foldr Z.add 0 l) true sample_header [1; 2; 3; 4; 5] ds.
Proof.
  apply (segmentation_roundtrip (fun c l => c + foldr Z.add 0 l) (P7Config 20 true) (fun _ => 0)
    sample_header [1; 2; 3; 4; 5] (fun _ => Some (header_bytes sample_header ++ [1; 2; 3; 4; 5])) 35).
  - intros _. wrap_lia.
  - repeat split; vm_compute; done.
  - done.
  - done.
  - vm_compute. done.
  - vm_compute. done.
  - vm_compute. done.
Defined.

Lemma set_mss_plain sequ : NFAPI_P7_SET_MSS 0 0 sequ = mss false 0 (sequ mod 16).
Proof.
  unfold NFAPI_P7_SET_MSS, mss. change 0xF with (Z.ones 4). rewrite Z.land_ones by lia.
  change (2 ^ 4) with 16. by rewrite Z.add_0_l.
Qed.

(** A message that fits one segment is one datagram, which the receiver accepts. *)
Lemma datagrams_single crc32 cfg touch h body :
  touch_ok touch -> header_ok h -> 16 + zlen body <= segment_size cfg ->
  exists h', datagrams crc32 cfg touch (header_bytes h ++ body) = [header_bytes h' ++ body] /\
    same_message h h' /\ header_ok h' /\ message_length h' = message_length h /\
    m_segment_sequence h' = m_segment_sequence h /\
    accepted_header crc32 (checksum_enabled cfg) (header_bytes h' ++ body) = Some h'.
Proof.
  intros Ht Hh Hlen. pose proof (zlen_nonneg body). unfold datagrams.
  assert (forall h, zlen (header_bytes h ++ body) = 16 + zlen body) as E by (intros; by autorewrite with zlen).
  rewrite E. destruct (Z.ltb_spec (segment_size cfg) (16 + zlen body)); [lia|].
  set (c := if checksum_enabled cfg then nfapi_calculate_checksum crc32 (header_bytes h ++ body) (16 + zlen body) else checksum h).
  set (h1 := P7Header (phy_id h) (message_id h) (message_length h) (m_segment_sequence h) c (transmit_timestamp h)).
  destruct Hh as (? & ? & ? & ? & ? & ?).
  assert (in_u32 c) as Hc by (unfold c; destruct (checksum_enabled cfg); [apply calculate_checksum_range|done]).
  assert (with_checksum crc32 cfg (header_bytes h ++ body) (16 + zlen body) = header_bytes h1 ++ body) as ->.
  { unfold with_checksum, h1, c. destruct (checksum_enabled cfg); [by rewrite update_checksum_bytes by lia|by destruct h]. }
  assert (header_ok h1) as Hh1 by done. destruct (Ht 0 h1 body Hh1) as (t & Hu & ->).
  set (h' := P7Header _ _ _ _ _ t). assert (header_ok h') as Hok by done.
  exists h'. do 5 (split; [done|]). unfold accepted_header. rewrite E, header_unpack_bytes by done.
  destruct (Z.ltb_spec (16 + zlen body) 4); [lia|].
  assert (checksum_enabled cfg &&
    negb (nfapi_p7_calculate_checksum crc32 (header_bytes h' ++ body) (16 + zlen body) =? checksum h') = false) as ->; [|done].
  unfold nfapi_p7_calculate_checksum, h', h1. rewrite checksum_skips. cbn [checksum]. unfold c.
  destruct (checksum_enabled cfg); [|done]. cbn [andb]. rewrite (checksum_skips crc32 h), Z.eqb_refl. done.
Qed.

(** It is dispatched on arrival, and the queue is only cleaned. *)
Theorem short_message_roundtrip crc32 cfg h body (pack : Z -> option (list Z)) (sequ : Z) q now :
  header_ok h -> m_segment_sequence h = NFAPI_P7_SET_MSS 0 0 sequ ->
  pack (NFAPI_P7_SET_MSS 0 0 sequ) = Some (header_bytes h ++ body) ->
  16 + zlen body <= segment_size cfg -> segment_size cfg < 65536 ->
  exists h' d,
    pnf_p7_pack_and_send_p7_message crc32 cfg pack sequ = (0, u32 (sequ + 1), [d]) /\
    d = header_bytes h' ++ body /\ same_message h h' /\
    pnf_handle_p7_message crc32 (checksum_enabled cfg) q now d =
      Some ([(d, now)], pnf_p7_rx_reassembly_queue_remove_old_msgs q now 1000).
Proof.
  intros Hh Hmss Hpack Hlen Hss. unfold pnf_p7_pack_and_send_p7_message. rewrite Hpack.
  destruct (datagrams_single crc32 cfg _ h body touch_id_ok Hh Hlen) as (h' & -> & Hsame & _ & _ & Hm & Ha).
  exists h', (header_bytes h' ++ body). split; [done|]. split; [done|]. split; [done|].
  unfold pnf_handle_p7_message. rewrite Ha, Hm, Hmss, set_mss_plain.
  by destruct (mss_get false 0 (sequ mod 16)) as (-> & -> & _); [lia|lia|].
Qed.

Lemma short_message_roundtrip_witness :
  exists h' d,
    pnf_p7_pack_and_send_p7_message (fun c l => c + foldr Z.add 0 l) (P7Config 1400 true)
      (fun _ => Some (header_bytes sample_header ++ [1; 2; 3; 4; 5])) 35 = (0, u32 (35 + 1), [d]) /\
    d = header_bytes h' ++ [1; 2; 3; 4; 5] /\ same_message sample_header h' /\
    pnf_handle_p7_message (fun c l => c + foldr Z.add 0 l) true [] 7 d =
      Some ([(d, 7)], pnf_p7_rx_reassembly_queue_remove_old_msgs [] 7 1000).
Proof.
  apply (short_message_roundtrip (fun c l => c + foldr Z.add 0 l) (P7Config 1400 true)
    sample_header [1; 2; 3; 4; 5] (fun _ => Some (header_bytes sample_header ++ [1; 2; 3; 4; 5])) 35 [] 7);
    [repeat split|..]; vm_compute; done.
Defined.

(** Segments are counted, not recorded: when segment 0 of a three-segment
    message arrives twice and then the last one, the counts agree and the
    reassembly loop copies from the null buffer of segment 1. *)
Theorem duplicate_segment_null_copy (d0 d0' d2 : list Z) (s t : Z) :
  exists q1 q2,
    handle_segment [] t 1 (u8 s) 0 d0 = Some ([], q1) /\
    handle_segment q1 t 1 (u8 s) 0 d0' = Some ([], q2) /\
    handle_segment q2 t 0 (u8 s) 2 d2 = None.
Proof.
  unfold handle_segment, pnf_p7_rx_reassembly_queue_add_segment. cbn [add_to_entry negb Z.eqb].
  rewrite u8_small by apply u8_range. eexists _, _. split; [done|].
  cbn [add_to_entry sequence_number]. rewrite Z.eqb_refl. split; [done|].
  cbn [add_to_entry sequence_number]. by rewrite Z.eqb_refl.
Qed.
