(* ===== verification/Aggregate.v ===== *)
(** * Aggregation of uplink indications ([nfapi_pnf.c])

    What the subframe task does with one batch of packets of the same message
    identifier: the CRC and SR aggregators merge the PDUs of all packets into
    one indication for the eNB, the RACH aggregator passes every packet on.

    The merged PDU array is a zeroed array of the aggregator's capacity whose
    elements are stored by index, with the count kept apart, as in the code.
    [oai_nfapi_crc_indication] and its siblings overwrite header fields and send
    the message through [pnf_p7_pack_and_send_p7_message], whose counter is
    threaded through as [sequence_number].

    The packets of a batch carry the identifier of the aggregator (that is how
    the batch was collected), so [nfapi_p7_message_unpack] decodes them with the
    body that goes with it; the caller's structure is large enough. *)

From S2P Require Import Prelude Codec Sfn Ids UeQueue P7Header Segmentation Tags LteInd.

(* src: pnf_p7.h 29-29 NFAPI_MAX_PACKED_MESSAGE_SIZE *)
Definition NFAPI_MAX_PACKED_MESSAGE_SIZE : Z := 8192.

Definition header0 : nfapi_p7_message_header_t := P7Header 0 0 0 0 0 0.

Section aggregate.
Context {P : Type} (max : nat) (zero : P).
Context (unpack : list Z -> option (nfapi_p7_message_header_t * indication P)).

(** The aggregate and [pduIndex]. *)
Record aggregation := Agg { agg_header : nfapi_p7_message_header_t; agg : indication P; pduIndex : nat }.

(* src: nfapi_pnf.c 2729-2735 oai_subframe_aggregate_crc_ind *)
Definition agg0 : aggregation := Agg header0 (Indication 0 tl0 0 (replicate max zero)) 0.

(** The inner loop over the PDUs of one packet: array and index. *)
(* src: nfapi_pnf.c 2760-2769 oai_subframe_aggregate_crc_ind *)
Fixpoint copy_pdus (pdus : list P) (pdu_list : list P) (idx : nat) : list P * nat :=
  match pdus with
  | [] => (pdu_list, idx)
  | pdu :: pdus =>
      if (idx =? max)%nat then (pdu_list, idx) else copy_pdus pdus (<[idx := pdu]> pdu_list) (S idx)
  end.

(** One packet that was unpacked. *)
(* src: nfapi_pnf.c 2749-2770 oai_subframe_aggregate_crc_ind *)
Definition add_ind (h : nfapi_p7_message_header_t) (ind : indication P) (a : aggregation) : aggregation :=
  let '(pdu_list, idx) :=
    copy_pdus (take (Z.to_nat (ind_number ind)) (ind_pdus ind)) (ind_pdus (agg a)) (pduIndex a) in
  Agg h (Indication (ind_sfn_sf ind) (ind_tl ind) (u16 (ind_number (agg a) + ind_number ind)) pdu_list) idx.

(** The loop over the packets; [None] when one does not unpack, after which
    nothing is sent. *)
(* src: nfapi_pnf.c 2737-2775 oai_subframe_aggregate_crc_ind *)
Fixpoint aggregate_inds (msgs : list message_buffer_t) (a : aggregation) : option aggregation :=
  match msgs with
  | [] => Some a
  | msg :: msgs =>
      match unpack (mb_data msg) with
      | None => None
      | Some (h, ind) =>
          let a := add_ind h ind a in
          if (pduIndex a =? max)%nat then Some a else aggregate_inds msgs a
      end
  end.
End aggregate.
Arguments Agg {P}. Arguments agg_header {P}. Arguments agg {P}. Arguments pduIndex {P}.

(** What a call of a sender comes to: the result, counter and datagrams of the
    send, or the ways it goes wrong. *)
Inductive sent :=
  | Sent (r : Z * Z * list (list Z))
  | AssertionFailed
  | ArrayOverread.  (** the packer reads behind the PDU array *)

Section senders.
Context (crc32 : Z -> list Z -> Z) (cfg : p7_config) (behind : nat -> Z).

(** [header.phy_id] and [header.message_id] are overwritten; [mss] is the word
    the send puts in. *)
Definition set_ids (message : Z) (h : nfapi_p7_message_header_t) (mss : Z) : nfapi_p7_message_header_t :=
  P7Header 1 message (message_length h) mss (checksum h) (transmit_timestamp h).

Definition send_ind {P} (message : Z) (pack : indication P -> packer)
    (sequence_number : Z) (h : nfapi_p7_message_header_t) (ind : indication P) : sent :=
  if zlen (ind_pdus ind) <? ind_number ind then ArrayOverread
  else Sent (pnf_p7_pack_and_send_p7_message crc32 cfg (fun mss =>
         p7_frame_pack (set_ids message h mss) (pack ind) NFAPI_MAX_PACKED_MESSAGE_SIZE) sequence_number).

(** The CRC packer asserts the bound on the count before it reads the array. *)
(* src: nfapi_pnf.c :: oai_nfapi_crc_indication *)
Definition oai_nfapi_crc_indication (sequence_number : Z) (h : nfapi_p7_message_header_t)
    (ind : indication nfapi_crc_indication_pdu_t) : sent :=
  if NFAPI_CRC_IND_MAX_PDU <? ind_number ind then AssertionFailed
  else send_ind NFAPI_CRC_INDICATION pack_crc_indication sequence_number h ind.

(* src: nfapi_pnf.c :: oai_nfapi_sr_indication *)
Definition oai_nfapi_sr_indication (sequence_number : Z) (h : nfapi_p7_message_header_t)
    (ind : indication nfapi_sr_indication_pdu_t) : sent :=
  send_ind (message_id h) pack_sr_indication sequence_number h ind.

(* src: nfapi_pnf.c :: oai_nfapi_rach_ind *)
Definition oai_nfapi_rach_ind (sequence_number : Z) (h : nfapi_p7_message_header_t)
    (ind : indication nfapi_preamble_pdu_t) : sent :=
  send_ind (message_id h) pack_rach_indication sequence_number h ind.

(** The aggregators: the call they end in, if any. *)
(* src: nfapi_pnf.c :: oai_subframe_aggregate_crc_ind *)
Definition oai_subframe_aggregate_crc_ind (sequence_number : Z) (msgs : list message_buffer_t) : option sent :=
  let max := Z.to_nat NFAPI_CRC_IND_MAX_PDU in
  a ← aggregate_inds max (fun data => p7_frame_unpack (fun _ => unpack_crc_indication behind) data 16)
    msgs (agg0 max (crc_pdu0 0));
  Some (oai_nfapi_crc_indication sequence_number (agg_header a) (agg a)).

(* src: nfapi_pnf.c :: oai_subframe_aggregate_sr_ind *)
Definition oai_subframe_aggregate_sr_ind (sequence_number : Z) (msgs : list message_buffer_t) : option sent :=
  let max := Z.to_nat NFAPI_SR_IND_MAX_PDU in
  a ← aggregate_inds max (fun data => p7_frame_unpack (fun _ => unpack_sr_indication behind) data 16)
    msgs (agg0 max (sr_pdu0 0));
  Some (oai_nfapi_sr_indication sequence_number (agg_header a) (agg a)).

(** The counter moves when the send succeeded. *)
Definition next_sequence (sequence_number : Z) (s : sent) : Z :=
  match s with Sent (_, n, _) => n | _ => sequence_number end.

(** A packet that does not unpack is skipped; all others are sent, five
    subframes later than they say. *)
(* src: nfapi_pnf.c :: oai_subframe_aggregate_rach_ind *)
Fixpoint oai_subframe_aggregate_rach_ind (sequence_number : Z) (msgs : list message_buffer_t) : list sent :=
  match msgs with
  | [] => []
  | msg :: msgs =>
      match p7_frame_unpack (fun _ => unpack_rach_indication behind) (mb_data msg) 16 with
      | None => oai_subframe_aggregate_rach_ind sequence_number msgs
      | Some (h, ind) =>
          let ind := Indication (sfn_sf_add (ind_sfn_sf ind) 5) (ind_tl ind) (ind_number ind) (ind_pdus ind) in
          let s := oai_nfapi_rach_ind sequence_number h ind in
          s :: oai_subframe_aggregate_rach_ind (next_sequence sequence_number s) msgs
      end
  end.
End senders.

(** ** The merge loop *)

Section merging.
Context {P : Type} (max : nat) (zero : P).
Context (unpack : list Z -> option (nfapi_p7_message_header_t * indication P)).

Lemma copy_pdus_fit pdus : forall acc,
  (length acc + length pdus <= max)%nat ->
  copy_pdus max pdus (acc ++ replicate (max - length acc) zero) (length acc) =
  ((acc ++ pdus) ++ replicate (max - length (acc ++ pdus)) zero, length (acc ++ pdus)).
Proof.
  induction pdus as [|p pdus IH]; intros acc Hl; cbn [copy_pdus length] in *; [by rewrite app_nil_r|].
  destruct (Nat.eqb_spec (length acc) max); [lia|].
  destruct (max - length acc)%nat as [|k] eqn:Ek; [lia|].
  rewrite insert_app_r_alt, Nat.sub_diag by lia. cbn [replicate insert list_insert].
  replace (acc ++ p :: replicate k zero)
    with ((acc ++ [p]) ++ replicate (max - length (acc ++ [p])) zero).
  2: { rewrite <- app_assoc, length_app. cbn [app length].
       by replace (max - (length acc + 1))%nat with k by lia. }
  replace (S (length acc)) with (length (acc ++ [p])) by (rewrite length_app; cbn; lia).
  rewrite IH by (rewrite length_app; cbn; lia). by rewrite <- !app_assoc.
Qed.

(** The array is full and the loop leaves the rest. *)
Lemma copy_pdus_over pdus acc :
  (length acc <= max < length acc + length pdus)%nat ->
  exists l, copy_pdus max pdus (acc ++ replicate (max - length acc) zero) (length acc) = (l, max) /\
    length l = max.
Proof.
  intros Hl. rewrite <- (take_drop (max - length acc) pdus).
  assert (length (take (max - length acc) pdus) = (max - length acc)%nat) as Ht
    by (rewrite length_take; lia).
  assert (forall (a b l : list P) i, copy_pdus max (a ++ b) l i =
    let '(l, i) := copy_pdus max a l i in if (i =? max)%nat then (l, i) else copy_pdus max b l i) as Happ.
  { induction a as [|x a IH]; intros b l i; cbn [copy_pdus app].
    - destruct (Nat.eqb_spec i max); [|done]. destruct b; cbn; [done|]. by destruct (Nat.eqb_spec i max).
    - destruct (Nat.eqb_spec i max) as [->|]; [by rewrite Nat.eqb_refl|]. apply IH. }
  rewrite Happ, copy_pdus_fit by lia.
  rewrite !length_app, Ht. replace (length acc + (max - length acc))%nat with max by lia.
  rewrite Nat.eqb_refl. eexists. split; [done|].
  rewrite !length_app, Ht, length_replicate. lia.
Qed.

(** What was merged so far. *)
Definition merged (pdus : list P) (a : aggregation) : Prop :=
  ind_pdus (agg a) = pdus ++ replicate (max - length pdus) zero /\
  pduIndex a = length pdus /\ ind_number (agg a) = zlen pdus.

Lemma agg0_merged : merged [] (agg0 max zero).
Proof. unfold merged, agg0. cbn. by rewrite Nat.sub_0_r. Qed.

Definition consistent (u : nfapi_p7_message_header_t * indication P) : Prop :=
  ind_number u.2 = zlen (ind_pdus u.2).
Definition all_pdus (us : list (nfapi_p7_message_header_t * indication P)) : list P :=
  concat (map (fun u => ind_pdus u.2) us).

Lemma add_ind_fit pdus a h ind :
  merged pdus a -> ind_number ind = zlen (ind_pdus ind) -> (length pdus + length (ind_pdus ind) <= max)%nat ->
  Z.of_nat max < 65536 ->
  merged (pdus ++ ind_pdus ind) (add_ind max h ind a) /\
  agg_header (add_ind max h ind a) = h /\ ind_sfn_sf (agg (add_ind max h ind a)) = ind_sfn_sf ind /\
  ind_tl (agg (add_ind max h ind a)) = ind_tl ind.
Proof.
  intros (Hp & Hi & Hn) Hc Hl Hm. unfold add_ind. rewrite Hp, Hi, Hn, Hc.
  rewrite take_ge by (unfold zlen; lia). rewrite copy_pdus_fit by done.
  split; [|done]. split; [done|]. split; [done|]. cbn. rewrite zlen_app, u16_small; [done|].
  unfold in_u16, zlen. lia.
Qed.

(** Everything fits: the PDUs of all packets in order.  The header, subframe and
    TL are those of one of the packets: the last, unless the array was full
    before and the remaining packets have no PDUs. *)
Lemma aggregate_inds_fit us : forall msgs pdus a,
  Forall2 (fun m u => unpack (mb_data m) = Some u) msgs us -> Forall consistent us ->
  merged pdus a -> (length pdus + length (all_pdus us) <= max)%nat -> Z.of_nat max < 65536 -> us <> [] ->
  exists a' u, aggregate_inds max unpack msgs a = Some a' /\ merged (pdus ++ all_pdus us) a' /\
    u ∈ us /\ agg_header a' = u.1 /\ ind_sfn_sf (agg a') = ind_sfn_sf u.2 /\ ind_tl (agg a') = ind_tl u.2.
Proof.
  induction us as [|[h ind] us IH]; intros msgs pdus a Hm Hc Ha Hl Hmax Hne; [done|].
  apply Forall2_cons_inv_r in Hm as (m & msgs' & Hu & Hm & ->). apply Forall_cons in Hc as [Hc1 Hc].
  unfold all_pdus in Hl. cbn [map concat snd] in Hl. rewrite length_app in Hl. fold (all_pdus us) in Hl.
  cbn [aggregate_inds]. rewrite Hu. unfold consistent in Hc1. cbn [snd] in Hc1.
  destruct (add_ind_fit pdus a h ind Ha Hc1) as (Ha' & Hh & Hs & Ht); [lia|done|].
  change (all_pdus ((h, ind) :: us)) with (ind_pdus ind ++ all_pdus us). rewrite app_assoc.
  destruct (Nat.eqb_spec (pduIndex (add_ind max h ind a)) max) as [Hfull|_].
  - destruct Ha' as (Hp' & Hi' & Hn'). rewrite Hi', length_app in Hfull.
    assert (all_pdus us = []) as -> by (apply length_zero_iff_nil; lia).
    eexists _, (h, ind). split; [done|]. rewrite app_nil_r.
    split; [done|]. split; [by left|done].
  - destruct us as [|u us].
    + apply Forall2_nil_inv_r in Hm as ->. eexists _, (h, ind).
      split; [done|]. cbn. rewrite app_nil_r. split; [done|]. split; [by left|done].
    + destruct (IH msgs' (pdus ++ ind_pdus ind) _ Hm Hc Ha') as (a' & u' & He & Hme & Hin & Hrest);
        [rewrite length_app; lia|done|done|].
      exists a', u'. split; [done|]. split; [done|]. split; [by right|done].
Qed.

(** One packet too many: the count exceeds the capacity. *)
Lemma aggregate_inds_over us1 h ind : forall msgs pdus a us2,
  Forall2 (fun m u => unpack (mb_data m) = Some u) msgs (us1 ++ (h, ind) :: us2) ->
  Forall consistent (us1 ++ [(h, ind)]) -> merged pdus a ->
  (length pdus + length (all_pdus us1) < max < length pdus + length (all_pdus us1) + length (ind_pdus ind))%nat ->
  Z.of_nat max + zlen (ind_pdus ind) < 65536 ->
  exists a', aggregate_inds max unpack msgs a = Some a' /\ agg_header a' = h /\
    Z.of_nat max < ind_number (agg a') /\ length (ind_pdus (agg a')) = max.
Proof.
  induction us1 as [|[h1 ind1] us1 IH]; intros msgs pdus a us2 Hm Hc Ha Hl Hb;
    cbn [app] in *; apply Forall2_cons_inv_r in Hm as (m & msgs' & Hu & Hm & ->);
    apply Forall_cons in Hc as [Hc1 Hc]; unfold consistent in Hc1; cbn [snd] in Hc1;
    cbn [aggregate_inds]; rewrite Hu.
  - destruct Ha as (Hp & Hi & Hn). unfold add_ind. rewrite Hp, Hi, Hn, Hc1.
    rewrite take_ge by (unfold zlen; lia). cbn in Hl.
    destruct (copy_pdus_over (ind_pdus ind) pdus) as (l & -> & Hlen); [lia|].
    cbn [pduIndex]. rewrite Nat.eqb_refl. eexists. split; [done|]. cbn [agg ind_number ind_pdus agg_header].
    split; [done|]. split; [|done].
    rewrite u16_small by (unfold in_u16, zlen in *; lia). unfold zlen. lia.
  - change (all_pdus ((h1, ind1) :: us1)) with (ind_pdus ind1 ++ all_pdus us1) in Hl.
    rewrite length_app in Hl. pose proof (zlen_nonneg (ind_pdus ind)).
    destruct (add_ind_fit pdus a h1 ind1 Ha Hc1) as (Ha' & _); [lia|lia|].
    destruct (Nat.eqb_spec (pduIndex (add_ind max h1 ind1 a)) max) as [Hfull|_].
    + destruct Ha' as (_ & Hi' & _). rewrite Hi', length_app in Hfull. lia.
    + apply (IH msgs' (pdus ++ ind_pdus ind1) _ us2 Hm Hc Ha'); [rewrite length_app; lia|done].
Qed.

(** A packet that does not unpack while there is room. *)
Lemma aggregate_inds_bad us1 : forall msgs1 m msgs2 pdus a,
  Forall2 (fun m u => unpack (mb_data m) = Some u) msgs1 us1 -> Forall consistent us1 -> merged pdus a ->
  (length pdus + length (all_pdus us1) < max)%nat -> Z.of_nat max < 65536 -> unpack (mb_data m) = None ->
  aggregate_inds max unpack (msgs1 ++ m :: msgs2) a = None.
Proof.
  induction us1 as [|[h1 ind1] us1 IH]; intros msgs1 m msgs2 pdus a Hm Hc Ha Hl Hmax Hb.
  - apply Forall2_nil_inv_r in Hm as ->. cbn [app aggregate_inds]. by rewrite Hb.
  - apply Forall2_cons_inv_r in Hm as (m1 & msgs' & Hu & Hm & ->).
    apply Forall_cons in Hc as [Hc1 Hc]. unfold consistent in Hc1. cbn [snd] in Hc1.
    change (all_pdus ((h1, ind1) :: us1)) with (ind_pdus ind1 ++ all_pdus us1) in Hl.
    rewrite length_app in Hl. cbn [app aggregate_inds]. rewrite Hu.
    destruct (add_ind_fit pdus a h1 ind1 Ha Hc1) as (Ha' & _); [lia|done|].
    destruct (Nat.eqb_spec (pduIndex (add_ind max h1 ind1 a)) max) as [Hfull|_].
    + destruct Ha' as (_ & Hi' & _). rewrite Hi', length_app in Hfull. lia.
    + apply (IH msgs' m msgs2 (pdus ++ ind_pdus ind1)); try done. rewrite length_app. lia.
Qed.
End merging.

(** ** From the UEs' packets to the eNB's message *)

(** Only the counted elements of the array are packed. *)
Lemma pack_indication_trim {P} tag (pdu : P -> packer) s tl pdus junk :
  pack_indication tag pdu (Indication s tl (zlen pdus) (pdus ++ junk)) =
  pack_indication tag pdu (Indication s tl (zlen pdus) pdus).
Proof.
  unfold pack_indication, pack_body. cbn [ind_number ind_pdus ind_tl ind_sfn_sf].
  replace (Z.to_nat (zlen pdus)) with (length pdus) by (unfold zlen; lia).
  by rewrite take_app_length, firstn_all.
Qed.

Lemma set_mss_u16 n : in_u16 (NFAPI_P7_SET_MSS 0 0 n).
Proof.
  unfold NFAPI_P7_SET_MSS. change (Z.lor _ (Z.land n 0xF)) with (Z.land n (Z.ones 4)).
  rewrite Z.land_ones by lia. change (2 ^ 4) with 16. wrap_lia.
Qed.

(** The packets of a batch and what the UEs meant: each packet is one packed
    indication with identifier [id] for subframe [s]. *)
Definition batch_of {P} (pack : indication P -> packer) (ok : indication P -> Prop) (id s : Z)
    (msgs : list message_buffer_t) (us : list (nfapi_p7_message_header_t * indication P)) : Prop :=
  Forall (fun u => header_ok u.1 /\ message_id u.1 = id /\ ok u.2 /\ ind_sfn_sf u.2 = s) us /\
  Forall2 (fun m u => p7_frame_pack u.1 (pack u.2) 8192 = Some (mb_data m)) msgs us.

Section end_to_end.
#[local] Set Default Proof Using "Type*".
Context {P : Type} {fields : P -> packer} {len : P -> Z} {init : Z -> P}.
Context {entries : list (unpack_tlv_t P)} {ok : P -> Prop}.
Context `{HC : !PduCodec fields len init entries ok}.
Context (behind : nat -> Z) (tag : Z) (Htag : in_u16 tag).

#[local] Abbreviation pack := (pack_indication tag (fun p => pack_instance (len p) (fields p))).
#[local] Abbreviation unpack :=
  (fun data => p7_frame_unpack (fun _ => unpack_indication tag 100 (unpack_instance behind init entries)) data 16).
#[local] Abbreviation ind_ok := (indication_ok (ok := ok) tag 100).

(** What unpacking makes of a packet. *)
Definition seen (u : nfapi_p7_message_header_t * indication P) (data : list Z) :
    nfapi_p7_message_header_t * indication P :=
  (P7Header (phy_id u.1) (message_id u.1) (zlen data) (m_segment_sequence u.1) 0 (transmit_timestamp u.1),
   received (HC := HC) tag u.2).

Lemma unpack_packet u data :
  header_ok u.1 -> ind_ok u.2 -> p7_frame_pack u.1 (pack u.2) 8192 = Some data -> unpack data = Some (seen u data).
Proof.
  intros Hh Hok Hp.
  destruct (indication_roundtrip behind tag 100 Htag ltac:(lia) u.1 u.2 8192 Hh Hok ltac:(lia)) as (bytes & Hb & Hu).
  rewrite Hp in Hb. by injection Hb as <-.
Qed.

Lemma seen_header_ok u data :
  header_ok u.1 -> ind_ok u.2 -> p7_frame_pack u.1 (pack u.2) 8192 = Some data -> header_ok (seen u data).1.
Proof.
  intros Hh Hok Hm.
  destruct (indication_packed tag 100 Htag ltac:(lia) u.1 u.2 8192 Hh Hok ltac:(lia)) as [Hl Hp8].
  rewrite Hm in Hp8. injection Hp8 as ->.
  destruct Hh as (? & ? & ? & ? & ? & ?). pose proof (zlen_nonneg (indication_bytes (HC := HC) tag u.2)) as Hnn.
  unfold header_ok; cbn. autorewrite with zlen. repeat (split; [first [done|clear -Hl Hnn; wrap_lia]|]). done.
Qed.

Definition views (us : list (nfapi_p7_message_header_t * indication P)) (msgs : list message_buffer_t) :=
  zip_with (fun u m => seen u (mb_data m)) us msgs.

Lemma batch_views id s msgs us :
  batch_of pack ind_ok id s msgs us ->
  Forall2 (fun m u => unpack (mb_data m) = Some u) msgs (views us msgs) /\
  Forall consistent (views us msgs) /\ all_pdus (views us msgs) = all_pdus us /\
  Forall (fun v => exists u, u ∈ us /\ message_id v.1 = id /\ transmit_timestamp v.1 = transmit_timestamp u.1 /\
    ind_sfn_sf v.2 = s /\ tl_tag (ind_tl v.2) = tag /\ in_u16 (tl_length (ind_tl v.2)) /\ header_ok v.1) (views us msgs).
Proof.
  intros [Hus Hp]. induction Hp as [|m u msgs us Hm Hp IH]; [split; [constructor|split; [constructor|done]]|].
  apply Forall_cons in Hus as [(Hh & Hid & Hok & Hs) Hus]. destruct (IH Hus) as (I1 & I2 & I3 & I4).
  pose proof Hok as (_ & _ & _ & Hn & Hz & Hpdus).
  split; [constructor; [by apply unpack_packet|done]|].
  split; [constructor; [done|done]|]. split; [unfold all_pdus in *; cbn; by f_equal|].
  constructor.
  - exists u. split; [by left|]. cbn. split; [done|]. split; [done|]. split; [done|]. split; [done|].
    pose proof (body_bytes_length (ind_pdus u.2) Hpdus).
    pose proof (zlen_nonneg (body_bytes (HC := HC) (ind_pdus u.2))). split; [wrap_lia|].
    by apply (seen_header_ok u (mb_data m)).
  - eapply Forall_impl; [exact I4|]. intros v (u' & Hin & Hrest). exists u'. split; [by right|done].
Qed.

Lemma all_pdus_ok id s msgs us : batch_of pack ind_ok id s msgs us -> Forall ok (all_pdus us).
Proof.
  intros [Hus _]. unfold all_pdus. apply Forall_concat, Forall_map. eapply Forall_impl; [exact Hus|].
  by intros u (_ & _ & (_ & _ & _ & _ & _ & H) & _).
Qed.

(** What is sent for an array with a well-formed prefix of counted elements. *)
Lemma send_ind_ok crc32 cfg id seq h s tl pdus junk :
  header_ok (set_ids id h 0) -> in_u16 s -> tl_tag tl = tag -> in_u16 (tl_length tl) -> Forall ok pdus ->
  zlen pdus <= 100 ->
  exists bytes,
    send_ind crc32 cfg id pack seq h (Indication s tl (zlen pdus) (pdus ++ junk)) =
      Sent (0, u32 (seq + 1), datagrams crc32 cfg (fun _ b => b) bytes) /\
    unpack bytes = Some
      (P7Header 1 id (zlen bytes) (NFAPI_P7_SET_MSS 0 0 seq) 0 (transmit_timestamp h),
       received (HC := HC) tag (Indication s tl (zlen pdus) pdus)).
Proof.
  intros (_ & Hid & Hml & _ & Hck & Hts) Hs Ht Hl Hok Hz. unfold send_ind. cbn [ind_pdus ind_number].
  destruct (Z.ltb_spec (zlen (pdus ++ junk)) (zlen pdus)); [zlen_lia|].
  unfold pnf_p7_pack_and_send_p7_message. rewrite pack_indication_trim.
  destruct (indication_roundtrip behind tag 100 Htag ltac:(lia) (set_ids id h (NFAPI_P7_SET_MSS 0 0 seq))
    (Indication s tl (zlen pdus) pdus) NFAPI_MAX_PACKED_MESSAGE_SIZE) as (bytes & Hb & Hu).
  - split; [done|]. split; [done|]. split; [done|]. split; [apply set_mss_u16|done].
  - done.
  - done.
  - rewrite Hb. by exists bytes.
Qed.

Context (zero : P).

(** The merged array of a batch that fits, and the message made of it. *)
Lemma merge_batch id s msgs us :
  batch_of pack ind_ok id s msgs us -> us <> [] -> zlen (all_pdus us) <= 100 -> in_u16 s -> in_u16 id ->
  exists a u, aggregate_inds 100 unpack msgs (agg0 100 zero) = Some a /\ u ∈ us /\
    ind_number (agg a) <= 100 /\ message_id (agg_header a) = id /\
    forall crc32 cfg seq, exists bytes,
      send_ind crc32 cfg id pack seq (agg_header a) (agg a) =
        Sent (0, u32 (seq + 1), datagrams crc32 cfg (fun _ b => b) bytes) /\
      unpack bytes = Some
        (P7Header 1 id (zlen bytes) (NFAPI_P7_SET_MSS 0 0 seq) 0 (transmit_timestamp u.1),
         received (HC := HC) tag (Indication s tl0 (zlen (all_pdus us)) (all_pdus us))).
Proof.
  intros Hb Hne Hz Hs Hid. destruct (batch_views _ _ _ _ Hb) as (V1 & V2 & V3 & V4).
  pose proof (all_pdus_ok _ _ _ _ Hb) as Hok.
  assert (views us msgs <> []) as Hvne.
  { destruct Hb as [_ Hp]. destruct Hp; [done|]. done. }
  destruct (aggregate_inds_fit 100 zero unpack _ _ [] _ V1 V2 (agg0_merged 100 zero)) as
    (a & v & Ha & (Hp & _ & Hn) & Hv & Hh & Hsf & Htl); [rewrite V3; cbn; unfold zlen in Hz; lia|done|done|].
  rewrite V3 in Hp, Hn. cbn [app] in Hp, Hn. rewrite Forall_forall in V4.
  destruct (V4 v Hv) as (u & Hu & Hvid & Hts & Hvs & Hvt & Hvl & (_ & _ & Hm1 & _ & Hm2 & Hm3)).
  exists a, u. split; [done|]. split; [done|]. split; [lia|]. split; [by rewrite Hh|].
  intros crc32 cfg seq. destruct a as [h [s' tl n pdus] i]. cbn in Hp, Hn, Hh, Hsf, Htl |- *. subst h n pdus tl.
  rewrite Hsf, Hvs, <- Hts.
  change (received (HC := HC) tag (Indication s tl0 _ _))
    with (received (HC := HC) tag (Indication s (ind_tl v.2) (zlen (all_pdus us)) (all_pdus us))).
  apply send_ind_ok; [|exact Hs|exact Hvt|exact Hvl|exact Hok|exact Hz].
  split; [done|]. split; [exact Hid|]. split; [exact Hm1|]. split; [done|]. split; [exact Hm2|exact Hm3].
Qed.

(** The other two ways a batch can go. *)
Lemma overfull_batch id s msgs us1 u us2 :
  batch_of pack ind_ok id s msgs (us1 ++ u :: us2) ->
  zlen (all_pdus us1) < 100 < zlen (all_pdus us1) + zlen (ind_pdus u.2) ->
  exists a, aggregate_inds 100 unpack msgs (agg0 100 zero) = Some a /\
    100 < ind_number (agg a) /\ zlen (ind_pdus (agg a)) = 100.
Proof.
  intros Hb Hz. pose proof Hb as [Hus Hp].
  apply Forall2_app_inv_r in Hp as (ms1 & ms' & Hp1 & Hp' & ->).
  apply Forall2_cons_inv_r in Hp' as (m & ms2 & Hm & Hp2 & ->).
  apply Forall_app in Hus as [Hus1 Hus']. pose proof Hus' as [(_ & _ & (_ & _ & _ & Hn & Hu100 & _) & _) _]%Forall_cons.
  destruct (batch_views id s ms1 us1 (conj Hus1 Hp1)) as (V1 & V2 & V3 & _).
  destruct (batch_views id s (m :: ms2) (u :: us2)) as (W1 & W2 & _); [split; [done|by constructor]|].
  apply Forall_cons in W2 as [W2 _].
  destruct (aggregate_inds_over 100 zero unpack (views us1 ms1) (seen u (mb_data m)).1 (seen u (mb_data m)).2
    (ms1 ++ m :: ms2) [] (agg0 100 zero) (views us2 ms2)) as (a & Ha & _ & Hnum & Hlen).
  - apply Forall2_app; [exact V1|exact W1].
  - apply Forall_app. split; [done|]. constructor; [done|constructor].
  - apply agg0_merged.
  - rewrite V3. cbn. unfold zlen in Hz. lia.
  - cbn. lia.
  - exists a. split; [done|]. split; [lia|]. unfold zlen. lia.
Qed.

Lemma bad_packet_batch id s msgs us bad msgs2 :
  batch_of pack ind_ok id s msgs us -> zlen (all_pdus us) < 100 -> unpack (mb_data bad) = None ->
  aggregate_inds 100 unpack (msgs ++ bad :: msgs2) (agg0 100 zero) = None.
Proof.
  intros Hb Hz Hbad. destruct (batch_views _ _ _ _ Hb) as (V1 & V2 & V3 & _).
  apply (aggregate_inds_bad 100 zero unpack (views us msgs) msgs bad msgs2 [] (agg0 100 zero)); try done.
  rewrite V3. cbn. unfold zlen in Hz. lia.
Qed.
End end_to_end.

(** ** Properties *)

Section properties.
Context (crc32 : Z -> list Z -> Z) (cfg : p7_config) (behind : nat -> Z).

(** The message [bytes] in the datagrams of a successful send. *)
Definition sends (o : option sent) (seq : Z) (bytes : list Z) : Prop :=
  o = Some (Sent (0, u32 (seq + 1), datagrams crc32 cfg (fun _ b => b) bytes)).

(** What the eNB unpacks: one indication for subframe [s] with the PDUs of all
    UEs in the order of the packets. *)
Definition merged_header (id seq : Z) (bytes : list Z) (ts : Z) : nfapi_p7_message_header_t :=
  P7Header 1 id (zlen bytes) (NFAPI_P7_SET_MSS 0 0 seq) 0 ts.
Definition merged_ind {P} (s : Z) (us : list (nfapi_p7_message_header_t * indication P)) : indication P :=
  Indication s tl0 (zlen (all_pdus us)) (all_pdus us).

Definition crc_batch (s : Z) := batch_of pack_crc_indication
  (indication_ok (ok := crc_pdu_ok) NFAPI_CRC_INDICATION_BODY_TAG NFAPI_CRC_IND_MAX_PDU) NFAPI_CRC_INDICATION s.
Definition sr_batch (s : Z) := batch_of pack_sr_indication
  (indication_ok (ok := sr_pdu_ok) NFAPI_SR_INDICATION_BODY_TAG NFAPI_SR_IND_MAX_PDU) NFAPI_RX_SR_INDICATION s.

(** C7.  The CRC or SR indications the UEs packed for one subframe, at most 100
    PDUs together, reach the eNB as one indication: the aggregator sends one
    message, which unpacks to all PDUs of all UEs in the order of the packets,
    with their number, under PHY 1 and the identifier of the batch. *)
Theorem indications_are_merged (seq s : Z) (msgs : list message_buffer_t) :
  in_u16 s ->
  (forall us, crc_batch s msgs us -> us <> [] -> zlen (all_pdus us) <= 100 ->
   exists bytes u, u ∈ us /\ sends (oai_subframe_aggregate_crc_ind crc32 cfg behind seq msgs) seq bytes /\
     p7_frame_unpack (fun _ => unpack_crc_indication behind) bytes 16 =
       Some (merged_header NFAPI_CRC_INDICATION seq bytes (transmit_timestamp u.1),
             received NFAPI_CRC_INDICATION_BODY_TAG (merged_ind s us))) /\
  (forall us, sr_batch s msgs us -> us <> [] -> zlen (all_pdus us) <= 100 ->
   exists bytes u, u ∈ us /\ sends (oai_subframe_aggregate_sr_ind crc32 cfg behind seq msgs) seq bytes /\
     p7_frame_unpack (fun _ => unpack_sr_indication behind) bytes 16 =
       Some (merged_header NFAPI_RX_SR_INDICATION seq bytes (transmit_timestamp u.1),
             received NFAPI_SR_INDICATION_BODY_TAG (merged_ind s us))).
Proof.
  intros Hs. split; intros us Hb Hne Hz.
  - destruct (merge_batch (HC := crc_pdu_codec) behind NFAPI_CRC_INDICATION_BODY_TAG ltac:(done) (crc_pdu0 0) NFAPI_CRC_INDICATION s
      msgs us Hb Hne Hz Hs ltac:(done)) as (a & u & Ha & Hu & Hn & _ & Hsend).
    destruct (Hsend crc32 cfg seq) as (bytes & H1 & H2). exists bytes, u. split; [done|]. split; [|exact H2].
    unfold sends, oai_subframe_aggregate_crc_ind. change (Z.to_nat NFAPI_CRC_IND_MAX_PDU) with 100%nat.
    unfold unpack_crc_indication. change NFAPI_CRC_IND_MAX_PDU with 100. rewrite Ha. cbn [mbind option_bind].
    f_equal. unfold oai_nfapi_crc_indication. change NFAPI_CRC_IND_MAX_PDU with 100.
    destruct (Z.ltb_spec 100 (ind_number (agg a))); [lia|exact H1].
  - destruct (merge_batch (HC := sr_pdu_codec) behind NFAPI_SR_INDICATION_BODY_TAG ltac:(done) (sr_pdu0 0) NFAPI_RX_SR_INDICATION s
      msgs us Hb Hne Hz Hs ltac:(done)) as (a & u & Ha & Hu & Hn & Hid & Hsend).
    destruct (Hsend crc32 cfg seq) as (bytes & H1 & H2). exists bytes, u. split; [done|]. split; [|exact H2].
    unfold sends, oai_subframe_aggregate_sr_ind. change (Z.to_nat NFAPI_SR_IND_MAX_PDU) with 100%nat.
    unfold unpack_sr_indication. change NFAPI_SR_IND_MAX_PDU with 100. rewrite Ha. cbn [mbind option_bind].
    f_equal. unfold oai_nfapi_sr_indication. rewrite Hid. exact H1.
Qed.

(** When the packets of a batch hold more than 100 PDUs together, copying
    stops at 100 but the count does not: the CRC message then fails an assertion
    of its packer, and the packer of the SR message reads behind the array. *)
Theorem too_many_pdus (seq s : Z) (msgs : list message_buffer_t) :
  (forall us1 u us2, crc_batch s msgs (us1 ++ u :: us2) ->
   zlen (all_pdus us1) < 100 < zlen (all_pdus us1) + zlen (ind_pdus u.2) ->
   oai_subframe_aggregate_crc_ind crc32 cfg behind seq msgs = Some AssertionFailed) /\
  (forall us1 u us2, sr_batch s msgs (us1 ++ u :: us2) ->
   zlen (all_pdus us1) < 100 < zlen (all_pdus us1) + zlen (ind_pdus u.2) ->
   oai_subframe_aggregate_sr_ind crc32 cfg behind seq msgs = Some ArrayOverread).
Proof.
  split; intros us1 u us2 Hb Hz.
  - destruct (overfull_batch (HC := crc_pdu_codec) behind NFAPI_CRC_INDICATION_BODY_TAG ltac:(done) (crc_pdu0 0)
      _ _ _ _ _ _ Hb Hz) as (a & Ha & Hn & Hl).
    unfold oai_subframe_aggregate_crc_ind. change (Z.to_nat NFAPI_CRC_IND_MAX_PDU) with 100%nat.
    unfold unpack_crc_indication. change NFAPI_CRC_IND_MAX_PDU with 100. rewrite Ha. cbn [mbind option_bind].
    f_equal. unfold oai_nfapi_crc_indication. change NFAPI_CRC_IND_MAX_PDU with 100.
    by destruct (Z.ltb_spec 100 (ind_number (agg a))); [|lia].
  - destruct (overfull_batch (HC := sr_pdu_codec) behind NFAPI_SR_INDICATION_BODY_TAG ltac:(done) (sr_pdu0 0)
      _ _ _ _ _ _ Hb Hz) as (a & Ha & Hn & Hl).
    unfold oai_subframe_aggregate_sr_ind. change (Z.to_nat NFAPI_SR_IND_MAX_PDU) with 100%nat.
    unfold unpack_sr_indication. change NFAPI_SR_IND_MAX_PDU with 100. rewrite Ha. cbn [mbind option_bind].
    f_equal. unfold oai_nfapi_sr_indication, send_ind.
    by destruct (Z.ltb_spec (zlen (ind_pdus (agg a))) (ind_number (agg a))); [|lia].
Qed.

(** A packet that does not unpack makes the CRC and SR aggregators drop the
    whole batch, including the indications of all other UEs, as long as the
    packets before it leave room in the array. *)
Theorem bad_packet_drops_batch (seq s : Z) (msgs : list message_buffer_t) (bad : message_buffer_t)
    (rest : list message_buffer_t) :
  (forall us, crc_batch s msgs us -> zlen (all_pdus us) < 100 ->
   p7_frame_unpack (fun _ => unpack_crc_indication behind) (mb_data bad) 16 = None ->
   oai_subframe_aggregate_crc_ind crc32 cfg behind seq (msgs ++ bad :: rest) = None) /\
  (forall us, sr_batch s msgs us -> zlen (all_pdus us) < 100 ->
   p7_frame_unpack (fun _ => unpack_sr_indication behind) (mb_data bad) 16 = None ->
   oai_subframe_aggregate_sr_ind crc32 cfg behind seq (msgs ++ bad :: rest) = None).
Proof.
  split; intros us Hb Hz Hbad.
  - unfold oai_subframe_aggregate_crc_ind. change (Z.to_nat NFAPI_CRC_IND_MAX_PDU) with 100%nat.
    unfold unpack_crc_indication in *. change NFAPI_CRC_IND_MAX_PDU with 100 in *.
    by rewrite (bad_packet_batch (HC := crc_pdu_codec) behind NFAPI_CRC_INDICATION_BODY_TAG ltac:(done)
      (crc_pdu0 0) _ _ _ _ bad rest Hb Hz Hbad).
  - unfold oai_subframe_aggregate_sr_ind. change (Z.to_nat NFAPI_SR_IND_MAX_PDU) with 100%nat.
    unfold unpack_sr_indication in *. change NFAPI_SR_IND_MAX_PDU with 100 in *.
    by rewrite (bad_packet_batch (HC := sr_pdu_codec) behind NFAPI_SR_INDICATION_BODY_TAG ltac:(done)
      (sr_pdu0 0) _ _ _ _ bad rest Hb Hz Hbad).
Qed.

(** RACH packets and their meaning: [None] is a packet that does not unpack. *)
Definition rach_batch (msgs : list message_buffer_t)
    (us : list (option (nfapi_p7_message_header_t * Z * indication nfapi_preamble_pdu_t))) : Prop :=
  Forall2 (fun m o => match o with
    | None => p7_frame_unpack (fun _ => unpack_rach_indication behind) (mb_data m) 16 = None
    | Some (h, n, ind) => header_ok h /\ 0 <= n < 10240 /\ ind_sfn_sf ind = sfnsf n /\
        indication_ok (ok := preamble_pdu_ok) NFAPI_RACH_INDICATION_BODY_TAG NFAPI_PREAMBLE_MAX_PDU ind /\
        p7_frame_pack h (pack_rach_indication ind) 8192 = Some (mb_data m)
    end) msgs us.

(** One message per packet, in order, with consecutive sequence numbers. *)
Fixpoint each_sent (seq : Z) (us : list (nfapi_p7_message_header_t * Z * indication nfapi_preamble_pdu_t))
    (outs : list sent) : Prop :=
  match us, outs with
  | [], [] => True
  | (h, n, ind) :: us, out :: outs =>
      (exists bytes, sends (Some out) seq bytes /\
        p7_frame_unpack (fun _ => unpack_rach_indication behind) bytes 16 =
          Some (merged_header (message_id h) seq bytes (transmit_timestamp h),
                received NFAPI_RACH_INDICATION_BODY_TAG (Indication (sfnsf ((n + 5) mod 10240))
                  (ind_tl ind) (ind_number ind) (ind_pdus ind)))) /\
      each_sent (u32 (seq + 1)) us outs
  | _, _ => False
  end.

(** Every RACH packet of a batch that unpacks is sent to the eNB, not only
    the first: with its preambles unchanged, in order, under PHY 1, and dated
    five subframes later. *)
Theorem every_rach_is_sent (seq : Z) (msgs : list message_buffer_t)
    (us : list (option (nfapi_p7_message_header_t * Z * indication nfapi_preamble_pdu_t))) :
  rach_batch msgs us ->
  each_sent seq (omap id us) (oai_subframe_aggregate_rach_ind crc32 cfg behind seq msgs).
Proof.
  intros Hb. revert seq. induction Hb as [|m [[[h n] ind]|] msgs us Hm Hb IH]; intros seq; [done| |].
  - destruct Hm as (Hh & Hn & Hs & Hok & Hp). cbn [oai_subframe_aggregate_rach_ind].
    pose proof (unpack_packet (HC := preamble_pdu_codec) behind NFAPI_RACH_INDICATION_BODY_TAG ltac:(done)
      (h, ind) (mb_data m) Hh Hok Hp) as Hu.
    change (unpack_indication NFAPI_RACH_INDICATION_BODY_TAG 100 (unpack_instance behind preamble_pdu0 preamble_entries))
      with (unpack_rach_indication behind) in Hu. rewrite Hu. clear Hu.
    unfold seen, received. cbn [fst snd ind_sfn_sf ind_tl ind_number ind_pdus].
    pose proof Hok as (Hsr & Ht & Hl & Hnum & H100 & Hall).
    pose proof (body_bytes_length (HC := preamble_pdu_codec) _ Hall) as Hlen.
    pose proof (zlen_nonneg (body_bytes (HC := preamble_pdu_codec) (ind_pdus ind))) as Hnn.
    rewrite Hs, Hnum, sfn_sf_add_spec by (done || lia).
    pose proof (seen_header_ok (HC := preamble_pdu_codec) NFAPI_RACH_INDICATION_BODY_TAG ltac:(done)
      (h, ind) (mb_data m) Hh Hok Hp) as (Hs1 & Hs2 & Hs3 & _ & Hs5 & Hs6).
    set (h' := P7Header (phy_id h) _ _ _ _ _).
    destruct (send_ind_ok (HC := preamble_pdu_codec) behind NFAPI_RACH_INDICATION_BODY_TAG ltac:(done) crc32 cfg
      (message_id h) seq h' (sfnsf ((n + 5) mod 10240))
      (Tl NFAPI_RACH_INDICATION_BODY_TAG (zlen (body_bytes (HC := preamble_pdu_codec) (ind_pdus ind)))) (ind_pdus ind) [])
      as (bytes & Hsend & Hun).
    + split; [done|]. split; [exact Hs2|]. split; [exact Hs3|]. by split.
    + apply sfnsf_range. lia.
    + done.
    + change NFAPI_PREAMBLE_MAX_PDU with 100 in H100. cbn [tl_length]. clear -Hlen Hnn H100. wrap_lia.
    + exact Hall.
    + exact H100.
    + rewrite app_nil_r in Hsend. unfold oai_nfapi_rach_ind. cbn [message_id h'].
      change (pack_indication NFAPI_RACH_INDICATION_BODY_TAG _) with pack_rach_indication in Hsend.
      rewrite Hsend. cbn [omap list_omap id next_sequence each_sent].
      split; [|apply IH]. exists bytes. split; [done|]. rewrite Hnum. exact Hun.
  - cbn [oai_subframe_aggregate_rach_ind]. rewrite Hm. apply IH.
Qed.
End properties.

(** Two UEs with one indication each. *)
Definition packet (bytes : option (list Z)) : message_buffer_t := MessageBuffer (default [] bytes).
Definition crc_packet (u : nfapi_p7_message_header_t * indication nfapi_crc_indication_pdu_t) : message_buffer_t :=
  packet (p7_frame_pack u.1 (pack_crc_indication u.2) 8192).
Definition sample_cfg : p7_config := P7Config 1400 false.
Definition sample_crcs : list (nfapi_p7_message_header_t * indication nfapi_crc_indication_pdu_t) :=
  [(sample_p7 NFAPI_CRC_INDICATION, sample_crc_ind); (sample_p7 NFAPI_CRC_INDICATION, sample_crc_ind)].

Lemma crc_batch_of us :
  Forall (fun u => header_ok u.1 /\ message_id u.1 = NFAPI_CRC_INDICATION /\
    indication_ok (ok := crc_pdu_ok) NFAPI_CRC_INDICATION_BODY_TAG NFAPI_CRC_IND_MAX_PDU u.2 /\
    ind_sfn_sf u.2 = 0x0123) us ->
  crc_batch 0x0123 (map crc_packet us) us.
Proof.
  intros Hus. split; [done|]. induction Hus as [|u us (Hh & _ & Hok & _) _ IH]; [constructor|].
  constructor; [|exact IH]. unfold crc_packet.
  destruct (indication_roundtrip (HC := crc_pdu_codec) (fun _ => 0) NFAPI_CRC_INDICATION_BODY_TAG 100 ltac:(done)
    ltac:(lia) u.1 u.2 8192 Hh Hok ltac:(lia)) as (bytes & Hb & _).
  change (pack_indication NFAPI_CRC_INDICATION_BODY_TAG _) with pack_crc_indication in Hb. by rewrite Hb.
Qed.

Lemma sample_crcs_batch : crc_batch 0x0123 (map crc_packet sample_crcs) sample_crcs.
Proof.
  apply crc_batch_of. repeat constructor; try (vm_compute; done); apply sample_inds_ok.
Qed.

Lemma indications_are_merged_witness :
  exists bytes u, u ∈ sample_crcs /\
    sends (fun c l => c) sample_cfg
      (oai_subframe_aggregate_crc_ind (fun c l => c) sample_cfg (fun _ => 0) 7 (map crc_packet sample_crcs)) 7 bytes /\
    p7_frame_unpack (fun _ => unpack_crc_indication (fun _ => 0)) bytes 16 =
      Some (merged_header NFAPI_CRC_INDICATION 7 bytes (transmit_timestamp u.1),
            received NFAPI_CRC_INDICATION_BODY_TAG (merged_ind 0x0123 sample_crcs)).
Proof.
  refine (proj1 (indications_are_merged (fun c l => c) sample_cfg (fun _ => 0) 7 0x0123
    (map crc_packet sample_crcs) _) sample_crcs sample_crcs_batch _ _); vm_compute; done.
Defined.

(** Sixty CRCs from each of two UEs. *)
Definition many_crcs : nfapi_p7_message_header_t * indication nfapi_crc_indication_pdu_t :=
  (sample_p7 NFAPI_CRC_INDICATION,
   Indication 0x0123 (Tl NFAPI_CRC_INDICATION_BODY_TAG 0) 60
     (replicate 60 (CrcPdu 5 rxue0 (CrcRel8 (Tl NFAPI_CRC_INDICATION_REL8_TAG 1) 0)))).

Lemma many_crcs_batch : crc_batch 0x0123 (map crc_packet [many_crcs; many_crcs]) ([many_crcs] ++ [many_crcs]).
Proof.
  apply crc_batch_of. apply (Forall_replicate _ 2).
  split; [vm_compute; done|]. split; [done|]. split; [|done].
  split; [vm_compute; done|]. split; [done|]. split; [vm_compute; done|]. split; [done|]. split; [vm_compute; done|].
  apply Forall_replicate. split; [tlv_zero|split; [tlv_present|done]].
Qed.

Lemma too_many_pdus_witness :
  oai_subframe_aggregate_crc_ind (fun c l => c) sample_cfg (fun _ => 0) 7 (map crc_packet [many_crcs; many_crcs]) =
  Some AssertionFailed.
Proof.
  refine (proj1 (too_many_pdus (fun c l => c) sample_cfg (fun _ => 0) 7 0x0123
    (map crc_packet [many_crcs; many_crcs])) [many_crcs] many_crcs [] many_crcs_batch _).
  vm_compute. done.
Defined.

Lemma bad_packet_drops_batch_witness :
  oai_subframe_aggregate_crc_ind (fun c l => c) sample_cfg (fun _ => 0) 7
    (map crc_packet sample_crcs ++ MessageBuffer [] :: []) = None.
Proof.
  refine (proj1 (bad_packet_drops_batch (fun c l => c) sample_cfg (fun _ => 0) 7 0x0123
    (map crc_packet sample_crcs) (MessageBuffer []) []) sample_crcs sample_crcs_batch _ _); vm_compute; done.
Defined.

Lemma every_rach_is_sent_witness :
  each_sent (fun c l => c) sample_cfg (fun _ => 0) 7 [(sample_p7 NFAPI_RACH_INDICATION, 0x12 * 10 + 3, sample_rach_ind)]
    (oai_subframe_aggregate_rach_ind (fun c l => c) sample_cfg (fun _ => 0) 7
       [MessageBuffer [];
        packet (p7_frame_pack (sample_p7 NFAPI_RACH_INDICATION) (pack_rach_indication sample_rach_ind) 8192)]).
Proof.
  apply (every_rach_is_sent (fun c l => c) sample_cfg (fun _ => 0) 7 _
    [None; Some (sample_p7 NFAPI_RACH_INDICATION, 0x12 * 10 + 3, sample_rach_ind)]).
  constructor; [done|]. constructor; [|constructor].
  split; [vm_compute; done|]. split; [lia|]. split; [done|]. split; [apply sample_inds_ok|]. by vm_compute.
Defined.
