(* ===== verification/Merge.v ===== *)
(** * Merging the indications of a batch ([nfapi_pnf.c])

    The aggregators of [nfapi_pnf.c] differ in their types and in little else:
    each unpacks the packets of a batch one after the other into a structure on
    the stack, copies the header, subframe or slot and, in LTE, the TL of the
    body into the aggregate, adds the count, and copies the PDUs by index into
    a zeroed array of the aggregator's capacity.  A packet that does not unpack
    makes it return without sending; some call [abort()] on an empty indication.
    An [aggregator] is what they differ in, and [aggregate] is the loop.  (The
    CRC and SR aggregators of LTE are in [Aggregate], on records of their own.)

    The searches for RNTIs that appear twice only log, and are left out. *)

From S2P Require Import Prelude Codec Ids UeQueue P7Header Layout Segmentation Aggregate.
From stdpp Require Import functions strings.

Open Scope string_scope.
Open Scope list_scope.
Open Scope Z_scope.

(** [ag_body]: the member with the PDUs, in LTE; [ag_copied]: the members that
    are copied besides; [ag_count], of the type to which [ag_width] wraps; the
    parallel arrays [ag_lists] of capacity [ag_max]; [ag_aborts]: whether the
    aggregator aborts when it has unpacked this structure. *)
Record aggregator := Aggregator { ag_body : option string; ag_copied : list string; ag_count : string; ag_width : Z -> Z;
  ag_lists : list string; ag_max : nat; ag_aborts : struct -> bool }.

Section aggregator.
Context (g : aggregator).

Definition part (s : struct) : struct := match ag_body g with Some f => member s f | None => s end.
Definition with_part (p s : struct) : struct := match ag_body g with Some f => set_member f p s | None => p end.
Definition count (s : struct) : Z := num (part s) (ag_count g).
Definition pdus (f : string) (s : struct) : list struct := take (Z.to_nat (count s)) (sub (part s) f).

(** The aggregate on the stack, with its arrays allocated. *)
(* src: nfapi_pnf.c 3543-3546 oai_subframe_aggregate_harq_ind *)
Definition empty_aggregate : struct :=
  with_part (foldl (fun p f => set_sub f (replicate (ag_max g) zero) p) zero (ag_lists g)) zero.

(** The inner loop: PDU [i] of [p] is copied to the place [idx] of [q]. *)
(* src: nfapi_pnf.c 3572-3581 oai_subframe_aggregate_harq_ind *)
Fixpoint copy_loop (ixs : list nat) (p q : struct) (idx : nat) : struct * nat :=
  match ixs with
  | [] => (q, idx)
  | i :: ixs =>
      if (idx =? ag_max g)%nat then (q, idx)
      else copy_loop ixs p (foldl (fun q f => set_sub f (<[idx := nth i (sub p f) zero]> (sub q f)) q) q (ag_lists g)) (S idx)
  end.

(** One packet that was unpacked. *)
(* src: nfapi_pnf.c 3566-3581 oai_subframe_aggregate_harq_ind *)
Definition add_indication (ind a : struct) (idx : nat) : struct * nat :=
  let p := part ind in
  let a := foldl (fun a f => set_num f (num ind f) a) a (ag_copied g) in
  let q := match ag_body g with Some _ => set_tl (tl_of p) (part a) | None => part a end in
  let q := set_num (ag_count g) (ag_width g (num q (ag_count g) + num p (ag_count g))) q in
  let '(q, idx) := copy_loop (seq 0 (Z.to_nat (num p (ag_count g)))) p q idx in
  (with_part q a, idx).

Inductive merge := Dropped | Aborted | Merged (h : nfapi_p7_message_header_t) (s : struct).

Context (unpack : list Z -> option (nfapi_p7_message_header_t * struct)).

(** The loop over the packets. *)
(* src: nfapi_pnf.c 3549-3587 oai_subframe_aggregate_harq_ind *)
Fixpoint aggregate (msgs : list message_buffer_t) (h : nfapi_p7_message_header_t) (a : struct) (idx : nat) : merge :=
  match msgs with
  | [] => Merged h a
  | msg :: msgs =>
      match unpack (mb_data msg) with
      | None => Dropped
      | Some (h, ind) =>
          if ag_aborts g ind then Aborted else
          let '(a, idx) := add_indication ind a idx in
          if (idx =? ag_max g)%nat then Merged h a else aggregate msgs h a idx
      end
  end.
Definition aggregate_batch (msgs : list message_buffer_t) : merge := aggregate msgs header0 empty_aggregate 0.
End aggregator.

(** With several packets, the first must have a subframe or slot for some
    aggregators. *)
Definition undated (sfn_of : list Z -> option Z) (msgs : list message_buffer_t) : bool :=
  match msgs with m :: _ :: _ => bool_decide (sfn_of (mb_data m) = None) | _ => false end.

(** What a call of an aggregator comes to. *)
Inductive outcome := NotSent | Crash | Call (s : sent).

Definition send_merged (m : merge) (send : nfapi_p7_message_header_t -> struct -> sent) : outcome :=
  match m with Dropped => NotSent | Aborted => Crash | Merged h s => Call (send h s) end.

(** ** What is merged *)

Lemma sub_set_sub f f' v s : sub (set_sub f v s) f' = if decide (f = f') then v else sub s f'.
Proof. destruct s. cbn. case_decide as E; [subst; apply fn_lookup_insert|by apply fn_lookup_insert_ne]. Qed.

Lemma set_nums_spec ind fs a : let a' := foldl (fun a f => set_num f (num ind f) a) a fs in
  sub a' = sub a /\ tl_of a' = tl_of a /\ forall f, num a' f = if decide (f ∈ fs) then num ind f else num a f.
Proof.
  cbv zeta. revert a. induction fs as [|f fs IH]; intros a; cbn [foldl]; [split_and!; [done..|]; intros f; by rewrite decide_False by apply not_elem_of_nil|].
  destruct (IH (set_num f (num ind f) a)) as (-> & -> & Hn). split_and!; [done..|]. intros f'. rewrite Hn, num_set_num.
  destruct (decide (f' ∈ fs)) as [Hi|Hi]; [by rewrite decide_True by (by right)|].
  destruct (decide (f = f')) as [->|Hne]; [by rewrite decide_True by (by left)|].
  rewrite decide_False; [done|]. intros [->|?]%elem_of_cons; done.
Qed.

(** One PDU is stored. *)
Lemma store_pdu_spec idx (x : string -> struct) fs q : NoDup fs ->
  let q' := foldl (fun q f => set_sub f (<[idx := x f]> (sub q f)) q) q fs in
  num q' = num q /\ tl_of q' = tl_of q /\ forall f, sub q' f = if decide (f ∈ fs) then <[idx := x f]> (sub q f) else sub q f.
Proof.
  cbv zeta. intros Hnd. revert q. induction Hnd as [|f fs Hf _ IH]; intros q; cbn [foldl];
    [split_and!; [done..|]; intros f; by rewrite decide_False by apply not_elem_of_nil|].
  destruct (IH (set_sub f (<[idx := x f]> (sub q f)) q)) as (-> & -> & Hs). split_and!; [done..|]. intros f'. rewrite Hs, sub_set_sub.
  destruct (decide (f' ∈ fs)) as [Hi|Hi].
  - rewrite (decide_True (P := f' ∈ f :: fs)) by (by right). rewrite decide_False by (by intros ->). done.
  - destruct (decide (f = f')) as [->|Hne]; [by rewrite decide_True by (by left)|].
    rewrite decide_False; [done|]. intros [->|?]%elem_of_cons; done.
Qed.

Lemma insert_end {A} (acc rest : list A) x y : <[length acc := y]> (acc ++ x :: rest) = (acc ++ [y]) ++ rest.
Proof. rewrite insert_app_r_alt, Nat.sub_diag by lia. cbn. by rewrite <- app_assoc. Qed.

Lemma take_drop_nth {A} (d : A) n : forall i l, (i < length l)%nat -> take (S n) (drop i l) = nth i l d :: take n (drop (S i) l).
Proof. induction i as [|i IH]; intros [|x l] Hi; cbn [length] in Hi; try lia; [done|]. cbn [drop nth]. apply IH. lia. Qed.

Section merging.
#[local] Set Default Proof Using "Type*".
Context (g : aggregator) (Hlists : NoDup (ag_lists g)) (Hcount : ag_count g ∉ ag_copied g).

(** The arrays hold the PDUs [acc] of each list, [k] of each. *)
Definition filled (acc : string -> list struct) (k : nat) (q : struct) : Prop :=
  (k <= ag_max g)%nat /\
  forall f, f ∈ ag_lists g -> length (acc f) = k /\ sub q f = acc f ++ replicate (ag_max g - k) zero.

Lemma copy_loop_fit p n : forall i acc k q, filled acc k q -> (k + n <= ag_max g)%nat ->
  (forall f, f ∈ ag_lists g -> (i + n <= length (sub p f))%nat) ->
  exists q', copy_loop g (seq i n) p q k = (q', k + n)%nat /\ num q' = num q /\ tl_of q' = tl_of q /\
    filled (fun f => acc f ++ take n (drop i (sub p f))) (k + n) q'.
Proof.
  induction n as [|n IH]; intros i acc k q Hf Hk Hp; cbn [seq copy_loop].
  - exists q. rewrite Nat.add_0_r. split_and!; [done..|]. destruct Hf as [H1 H2]. split; [done|]. intros f Hin. rewrite take_0, app_nil_r. by apply H2.
  - destruct (Nat.eqb_spec k (ag_max g)) as [|_]; [lia|]. destruct Hf as [H1 H2].
    set (q1 := foldl _ q (ag_lists g)).
    destruct (store_pdu_spec k (fun f => nth i (sub p f) zero) (ag_lists g) q Hlists) as (S1 & S2 & S3). fold q1 in S1, S2, S3.
    destruct (IH (S i) (fun f => acc f ++ [nth i (sub p f) zero]) (S k) q1) as (q' & E & N & T & F).
    + split; [lia|]. intros f Hin. destruct (H2 f Hin) as [Hl Hs]. rewrite length_app. split; [cbn; lia|].
      rewrite S3, decide_True, Hs by done. rewrite <- Hl.
      replace (ag_max g - length (acc f))%nat with (S (ag_max g - S (length (acc f)))) by lia. cbn [replicate]. by rewrite insert_end.
    + lia.
    + intros f Hin. specialize (Hp f Hin). lia.
    + exists q'. rewrite E, N, T, S1, S2. split_and!; [f_equal; lia|done|done|]. destruct F as [F1 F2]. split; [lia|].
      intros f Hin. destruct (F2 f Hin) as [Hl Hs]. rewrite Hs. specialize (Hp f Hin).
      rewrite (take_drop_nth zero) by lia.
      rewrite !length_app in Hl. rewrite !length_app. cbn [length] in Hl |- *. rewrite <- !app_assoc. cbn [app].
      split; [lia|]. by replace (ag_max g - (k + S n))%nat with (ag_max g - (S k + n))%nat by lia.
Qed.

(** The array is full, and the rest is left. *)
Lemma copy_loop_over p ixs : forall q k, (k <= ag_max g < k + length ixs)%nat ->
  exists q', copy_loop g ixs p q k = (q', ag_max g) /\ num q' = num q /\
    forall f, length (sub q' f) = length (sub q f).
Proof.
  induction ixs as [|i ixs IH]; intros q k Hk; cbn [copy_loop length] in *; [lia|].
  destruct (Nat.eqb_spec k (ag_max g)) as [->|Hne]; [by exists q|].
  destruct (store_pdu_spec k (fun f => nth i (sub p f) zero) (ag_lists g) q Hlists) as (S1 & S2 & S3).
  set (q1 := foldl _ q (ag_lists g)) in *. destruct (IH q1 (S k)) as (q' & E & N & L); [lia|].
  exists q'. split_and!; [done|by rewrite N|]. intros f. rewrite L, S3. case_decide; [apply length_insert|done].
Qed.

(** What was merged so far: [acc] and the count. *)
Definition merged (acc : string -> list struct) (k : nat) (a : struct) : Prop :=
  filled acc k (part g a) /\ count g a = Z.of_nat k.

Lemma part_with_part p s : part g (with_part g p s) = p.
Proof. unfold part, with_part. destruct (ag_body g) as [f|]; [|done]. by rewrite member_set_member, decide_True. Qed.

Lemma empty_merged : merged (fun _ => []) 0 (empty_aggregate g).
Proof.
  unfold merged, count, empty_aggregate. rewrite part_with_part.
  assert (Hall : forall fs q, num (foldl (fun p f => set_sub f (replicate (ag_max g) zero) p) q fs) = num q /\
    forall f, sub (foldl (fun p f => set_sub f (replicate (ag_max g) zero) p) q fs) f =
      if decide (f ∈ fs) then replicate (ag_max g) zero else sub q f).
  { induction fs as [|f fs IH]; intros q; cbn [foldl]; [split; [done|]; intros f; by rewrite decide_False by apply not_elem_of_nil|].
    destruct (IH (set_sub f (replicate (ag_max g) zero) q)) as [-> Hs]. split; [done|]. intros f'. rewrite Hs, sub_set_sub.
    destruct (decide (f' ∈ fs)) as [Hi|Hi]; [by rewrite decide_True by (by right)|].
    destruct (decide (f = f')) as [->|Hne]; [by rewrite decide_True by (by left)|].
    rewrite decide_False; [done|]. intros [->|?]%elem_of_cons; done. }
  destruct (Hall (ag_lists g) zero) as [-> Hs]. split; [|done]. split; [lia|]. intros f Hin. split; [done|].
  rewrite Hs, decide_True by done. cbn [app]. by rewrite Nat.sub_0_r.
Qed.

Lemma empty_num f : num (empty_aggregate g) f = 0.
Proof.
  unfold empty_aggregate, with_part. destruct (ag_body g); [done|].
  assert (Hall : forall fs q, num (foldl (fun p f => set_sub f (replicate (ag_max g) zero) p) q fs) = num q)
    by (induction fs as [|f' fs IH]; intros q; cbn [foldl]; [done|by rewrite IH]).
  by rewrite Hall.
Qed.

(** An indication whose arrays have as many PDUs as it says. *)
Definition consistent (ind : struct) : Prop := forall f, f ∈ ag_lists g -> 0 <= count g ind <= zlen (sub (part g ind) f).
Definition n_of (ind : struct) : nat := Z.to_nat (count g ind).

(** The copied members, elsewhere than in the part with the PDUs. *)
Definition outside (f : string) : Prop := match ag_body g with Some _ => True | None => f <> ag_count g end.

Lemma copied_part ind a : let a' := foldl (fun a f => set_num f (num ind f) a) a (ag_copied g) in
  sub (part g a') = sub (part g a) /\ count g a' = count g a.
Proof.
  cbv zeta. destruct (set_nums_spec ind (ag_copied g) a) as (Hs & _ & Hn). unfold count, part, member.
  destruct (ag_body g) as [f|]; [by rewrite !Hs|]. rewrite Hs, Hn. split; [done|]. by rewrite decide_False.
Qed.

Lemma add_fit acc k a ind : merged acc k a -> consistent ind -> 0 <= count g ind -> (k + n_of ind <= ag_max g)%nat ->
  (forall n, 0 <= n <= Z.of_nat (ag_max g) -> ag_width g n = n) ->
  exists a', add_indication g ind a k = (a', k + n_of ind)%nat /\
    merged (fun f => acc f ++ pdus g f ind) (k + n_of ind) a' /\
    (forall f, f ∈ ag_copied g -> num a' f = num ind f) /\ (forall f, f ∉ ag_copied g -> outside f -> num a' f = num a f) /\
    (ag_body g <> None -> tl_of (part g a') = tl_of (part g ind)).
Proof.
  intros [Hf Hc] Hcon H0 Hk Hw. unfold add_indication. destruct (copied_part ind a) as [P1 P2].
  destruct (set_nums_spec ind (ag_copied g) a) as (_ & _ & Hn).
  set (a1 := foldl _ a (ag_copied g)) in *.
  set (q1 := match ag_body g with Some _ => set_tl (tl_of (part g ind)) (part g a1) | None => part g a1 end).
  assert (sub q1 = sub (part g a) /\ num q1 = num (part g a1)) as [Q1 Q2] by (unfold q1; rewrite <- P1; by destruct (ag_body g)).
  assert (num q1 (ag_count g) = Z.of_nat k) as Q3 by (rewrite Q2; exact (eq_trans P2 Hc)).
  rewrite Q3. fold (count g ind). rewrite Hw by (unfold n_of in Hk; lia).
  set (q2 := set_num (ag_count g) _ q1).
  destruct (copy_loop_fit (part g ind) (n_of ind) 0 acc k q2) as (q' & E & N & T & F); [|done| |].
  - destruct Hf as [F1 F2]. split; [done|]. intros f Hin. change (sub q2 f) with (sub q1 f). rewrite Q1. by apply F2.
  - intros f Hin. specialize (Hcon f Hin). unfold n_of, zlen in *. lia.
  - unfold n_of in E at 1. fold (count g ind) in E. rewrite E. eexists. split; [reflexivity|].
    assert (forall f, outside f -> num (with_part g q' a1) f = num a1 f) as Ho.
    { intros f Hout. unfold with_part, outside, part in *. destruct (ag_body g); [done|]. rewrite N. unfold q2.
      rewrite num_set_num, decide_False by congruence. by rewrite Q2. }
    split_and!.
    + unfold merged, count. rewrite part_with_part. split; [exact F|]. rewrite N. unfold q2. rewrite num_set_num, decide_True by done.
      unfold n_of. lia.
    + intros f Hin. rewrite Ho; [by rewrite Hn, decide_True|]. unfold outside. destruct (ag_body g); [done|]. by intros ->.
    + intros f Hin Hout. by rewrite Ho, Hn, decide_False.
    + intros Hb. rewrite part_with_part, T. change (tl_of q2) with (tl_of q1). unfold q1. by destruct (ag_body g).
Qed.

Context (unpack : list Z -> option (nfapi_p7_message_header_t * struct)) (Hwidth : forall n, 0 <= n <= Z.of_nat (ag_max g) -> ag_width g n = n).

Definition received_as (m : message_buffer_t) (u : nfapi_p7_message_header_t * struct) : Prop := unpack (mb_data m) = Some u.
(** What the loop needs of a packet: it does not abort, and is consistent. *)
Definition accepted (u : nfapi_p7_message_header_t * struct) : Prop :=
  ag_aborts g u.2 = false /\ 0 <= count g u.2 /\ consistent u.2.
Definition all_pdus (us : list (nfapi_p7_message_header_t * struct)) (f : string) : list struct := concat ((fun u => pdus g f u.2) <$> us).
Definition total_pdus (us : list (nfapi_p7_message_header_t * struct)) : nat := sum_list ((fun u => n_of u.2) <$> us).

(** The header and what else is copied come from one of the packets. *)
Definition heads (u : nfapi_p7_message_header_t * struct) (h : nfapi_p7_message_header_t) (a : struct) : Prop :=
  h = u.1 /\ (forall f, f ∈ ag_copied g -> num a f = num u.2 f) /\ (ag_body g <> None -> tl_of (part g a) = tl_of (part g u.2)).
(** The members that are never stored. *)
Definition untouched (a a' : struct) : Prop := forall f, f ∉ ag_copied g -> outside f -> num a' f = num a f.

Lemma merged_ext acc acc' k a : (forall f, acc f = acc' f) -> merged acc k a -> merged acc' k a.
Proof. intros E [[H1 H2] H3]. split; [split; [done|]|done]. intros f Hin. rewrite <- E. by apply H2. Qed.

Lemma aggregate_fit us : forall msgs acc k h a,
  Forall2 received_as msgs us -> Forall accepted us -> merged acc k a -> (k + total_pdus us <= ag_max g)%nat -> us <> [] ->
  exists h' a' u, aggregate g unpack msgs h a k = Merged h' a' /\
    merged (fun f => acc f ++ all_pdus us f) (k + total_pdus us) a' /\ u ∈ us /\ heads u h' a' /\ untouched a a'.
Proof.
  induction us as [|u us IH]; intros msgs acc k h a Hm Ha Hk Hl Hne; [done|].
  apply Forall2_cons_inv_r in Hm as (m & msgs' & Hu & Hm & ->). apply list.Forall_cons in Ha as [(Hab & H0 & Hcon) Ha].
  cbn [aggregate]. unfold received_as in Hu. rewrite Hu. destruct u as [h1 ind]. cbn [fst snd] in *. rewrite Hab.
  change (total_pdus ((h1, ind) :: us)) with (n_of ind + total_pdus us)%nat in *.
  destruct (add_fit acc k a ind Hk Hcon H0 ltac:(lia) Hwidth) as (a1 & E & Hm1 & Hc1 & Hu1 & Ht1). rewrite E.
  assert (forall f, (acc f ++ pdus g f ind) ++ all_pdus us f = acc f ++ all_pdus ((h1, ind) :: us) f) as Hacc
    by (intros f; unfold all_pdus; cbn [fmap list_fmap concat snd]; by rewrite app_assoc).
  rewrite Nat.add_assoc in *.
  assert (Hlast : total_pdus us = 0%nat -> (forall f, f ∈ ag_lists g -> all_pdus us f = []) -> exists h' a' u,
    Merged h1 a1 = Merged h' a' /\ merged (fun f => acc f ++ all_pdus ((h1, ind) :: us) f) (k + n_of ind + total_pdus us) a' /\
    u ∈ (h1, ind) :: us /\ heads u h' a' /\ untouched a a').
  { intros Hz Hnil. exists h1, a1, (h1, ind). split_and!; [done| |by left|by split_and!|done].
    rewrite Hz, Nat.add_0_r. destruct Hm1 as [[M1 M2] M3]. split; [split; [done|]|done]. intros f Hin.
    rewrite <- Hacc, Hnil, app_nil_r by done. by apply M2. }
  destruct (Nat.eqb_spec (k + n_of ind) (ag_max g)) as [Hfull|_]; [|destruct us as [|u us]].
  - apply Hlast; [lia|]. intros f Hin. assert (total_pdus us = 0)%nat as Hz by lia. clear - Hz. induction us as [|u us IHu]; [done|].
    change (total_pdus (u :: us)) with (n_of u.2 + total_pdus us)%nat in Hz. unfold all_pdus in *. cbn [fmap list_fmap concat].
    rewrite IHu by lia. unfold pdus. unfold n_of in Hz. by replace (Z.to_nat (count g u.2)) with 0%nat by lia.
  - apply Forall2_nil_inv_r in Hm as ->. cbn [aggregate]. by apply Hlast.
  - destruct (IH msgs' _ _ h1 a1 Hm Ha Hm1 ltac:(lia) ltac:(done)) as (h' & a' & u' & E' & Hm' & Hin & Hh & Hut).
    exists h', a', u'. split_and!; [done|exact (merged_ext _ _ _ _ Hacc Hm')|by right|done|].
    intros f Hf Ho. by rewrite Hut, Hu1.
Qed.

(** A packet that does not unpack, while there is room. *)
Lemma aggregate_bad us : forall msgs bad rest acc k h a,
  Forall2 received_as msgs us -> Forall accepted us -> merged acc k a -> (k + total_pdus us < ag_max g)%nat ->
  unpack (mb_data bad) = None -> aggregate g unpack (msgs ++ bad :: rest) h a k = Dropped.
Proof.
  induction us as [|u us IH]; intros msgs bad rest acc k h a Hm Ha Hk Hl Hbad.
  - apply Forall2_nil_inv_r in Hm as ->. cbn [app aggregate]. by rewrite Hbad.
  - apply Forall2_cons_inv_r in Hm as (m & msgs' & Hu & Hm & ->). apply list.Forall_cons in Ha as [(Hab & H0 & Hcon) Ha].
    cbn [app aggregate]. unfold received_as in Hu. rewrite Hu. destruct u as [h1 ind]. cbn [fst snd] in *. rewrite Hab.
    change (total_pdus ((h1, ind) :: us)) with (n_of ind + total_pdus us)%nat in *.
    destruct (add_fit acc k a ind Hk Hcon H0 ltac:(lia) Hwidth) as (a1 & E & Hm1 & _). rewrite E.
    destruct (Nat.eqb_spec (k + n_of ind) (ag_max g)) as [Hfull|_]; [lia|].
    apply (IH msgs' bad rest _ _ h1 a1 Hm Ha Hm1); [lia|done].
Qed.
End merging.
