(* ===== verification/LteRelay.v ===== *)
(** * Sending on the PDUs of LTE indications

    What [Relay] shows of rows, for the PDUs of the LTE indications that the proxy
    merges: a PDU that was unpacked may be packed again, has the bytes it had and
    is unpacked to itself.  A [lte_shape] describes an indication as its
    aggregator and packer see it: the PDUs with what follows them, how each is
    written, read and sent on; [LteRelay] are the laws the three indications
    fulfil, against which [LteAggregate] proves what the eNB receives. *)

From S2P Require Import Prelude Tags Codec Ids UeQueue P7Header Segmentation Aggregate Layout Relay Merge LtePdu LteUplink LteData LteP7.
From stdpp Require Import functions strings.

Open Scope string_scope.
Open Scope list_scope.
Open Scope Z_scope.

(** ** PDUs of TLVs *)

(** Tables all of whose TLVs are received, each in a member of its own. *)
Definition relayable (ps : list pentry) (us : list entry) : bool :=
  forallb (fun e => match e with PRows t => sendable us t | _ => false end) ps &&
  bool_decide (NoDup (t_member <$> agreed ps us)) &&
  forallb (fun t => rows_plain (t_rows t) && negb (t_tag t =? 0)) (agreed ps us).

Lemma agreed_in ps us t : PRows t ∈ ps -> sendable us t = true -> resolve (rows_of us) t ∈ agreed ps us.
Proof.
  intros Hin Hs. unfold agreed. apply list_elem_of_fmap_2. apply list_elem_of_filter. split; [done|].
  unfold prows_of. apply list_elem_of_omap. by exists (PRows t).
Qed.

Lemma tlv_room_like s c t u : tlv_sim t u = true -> tlv_like s c u -> tlv_room s t -> tlv_room c t.
Proof.
  unfold tlv_sim. intros [[Htag%Z.eqb_eq Hmem%String.eqb_eq]%andb_true_iff Hsim]%andb_true_iff [Hp Hl] Hr Hpc.
  assert (forall s, present t s = present u s) as Ht by (intros x; unfold present; by rewrite Htag, Hmem).
  rewrite Ht, Hp in Hpc. destruct (Hl Hpc) as [Hrows _]. rewrite Hmem.
  apply (rows_room_like _ _ _ _ _ _ Hsim Hrows). rewrite <- Hmem. apply Hr. by rewrite Ht.
Qed.

Lemma entries_relayed ps us s s0 : relayable ps us = true -> entries_ok ps us s -> sub s0 = sub zero ->
  let c := tlvs_copy (agreed ps us) s s0 in
  entries_ok ps us c /\ sent_tlvs (agreed ps us) c = sent_tlvs (agreed ps us) s /\
  forall s1, tlvs_copy (agreed ps us) c s1 = tlvs_copy (agreed ps us) s s1.
Proof.
  intros [[Hall Hnd%bool_decide_eq_true]%andb_true_iff Hts]%andb_true_iff Hok H0 c.
  pose proof (agreed_known ps us) as Hk. pose proof (entries_sent_ok ps us s Hok) as Hs.
  assert (Forall (tlv_like s c) (agreed ps us)) as Hl.
  { apply tlvs_copy_like; [done|..|done|done].
    - apply forallb_forall. intros t Ht%list_elem_of_In. by apply (proj1 (list.Forall_forall _ _) Hk).
    - apply forallb_forall. intros t Ht. pose proof (proj1 (forallb_forall _ _) Hts t Ht) as H. by apply andb_true_iff in H as [H _].
    - apply list.Forall_forall. intros t Ht%list_elem_of_In. pose proof (proj1 (forallb_forall _ _) Hts t Ht) as H.
      apply andb_true_iff in H as [_ H]. lia. }
  destruct (tlvs_alike _ _ _ Hl) as (A1 & A2 & A3). split; [|done]. specialize (A3 Hs).
  apply list.Forall_forall. intros e He. pose proof (proj1 (list.Forall_forall _ _) Hok e He) as Hoke.
  pose proof (proj1 (forallb_forall _ _) Hall e (proj1 (list_elem_of_In _ _) He)) as Hse. destruct e as [t|]; [|done].
  cbn [entry_ok] in *. rewrite Hse in *. destruct Hoke as [Hroom _]. pose proof (agreed_in ps us t He Hse) as Hin.
  destruct (sendable_spec us t Hse) as (Hsim & _). split; [|by apply (proj1 (list.Forall_forall _ _) A3)].
  apply (tlv_room_like s c t _ Hsim); [by apply (proj1 (list.Forall_forall _ _) Hl)|done].
Qed.

(** PDUs with a length in front. *)
Lemma instance_relayed ps us s : relayable ps us = true -> pdu_ok (PInstance ps) (UInstance us) s ->
  let c := pdu_copy (PInstance ps) (UInstance us) s in
  pdu_ok (PInstance ps) (UInstance us) c /\ pdu_bytes (PInstance ps) (UInstance us) c = pdu_bytes (PInstance ps) (UInstance us) s /\
  pdu_copy (PInstance ps) (UInstance us) c = c.
Proof.
  intros Hr [Hok [_ Hz]] c. cbn [frame_tables] in Hok.
  set (s0 := set_num "instance_length" (zlen (pdu_value (PInstance ps) (UInstance us) s)) zero) in *.
  destruct (entries_relayed ps us s s0 Hr Hok eq_refl) as (O & B & C).
  change (tlvs_copy (agreed ps us) s s0) with c in O, B, C.
  assert (pdu_value (PInstance ps) (UInstance us) c = pdu_value (PInstance ps) (UInstance us) s) as Hv
    by (unfold pdu_value, pdu_rows; cbn [frame_tables]; by rewrite B).
  assert (num c "instance_length" = zlen (pdu_value (PInstance ps) (UInstance us) s)) as Hn.
  { unfold c, pdu_copy. clear. generalize (pdu_rows (PInstance ps) (UInstance us) s) as ts.
    assert (forall ts s0, num (tlvs_copy ts s s0) "instance_length" = num s0 "instance_length") as H.
    { induction ts as [|t ts IH]; intros s0; [done|]. unfold tlvs_copy in *. cbn [foldl]. rewrite IH. unfold tlv_copy. by destruct (present t s). }
    intros ts. by rewrite H, num_set_num, decide_True. }
  split_and!; [split; [exact O|]; rewrite Hv, Hn; done|unfold pdu_bytes; by rewrite Hv|].
  unfold pdu_copy at 1. rewrite Hv. apply C.
Qed.

(** ** The indications *)

(** The PDUs are pairs: of the PDU and of what the parallel array has for it, if
    there is one.  [l_ok] says which bodies may be sent, [l_bytes] how and
    [l_copy] what is received; [l_prepare] is what the packer does first to the
    structure it is given, and the PDUs [l_settled] are those it leaves. *)
Record lte_shape := LteShape { l_agg : aggregator; l_tag : Z; l_body : string;
  l_ok : struct -> Prop; l_bytes : struct -> list Z; l_copy : struct -> struct -> struct; l_prepare : struct -> struct;
  l_pdu_ok : struct * struct -> Prop; l_pdu_bytes : struct * struct -> list Z; l_pdu_data : struct * struct -> list Z;
  l_pdu_copy : struct * struct -> struct * struct; l_settled : struct * struct -> Prop }.

Definition l_count (sh : lte_shape) : string := ag_count (l_agg sh).
Definition l_codec (sh : lte_shape) : lte_codec := body_codec (l_tag sh) (l_body sh) (l_ok sh) (l_bytes sh) (l_copy sh).
Definition l_pdus (sh : lte_shape) (p : struct) : list (struct * struct) :=
  let n := Z.to_nat (num p (l_count sh)) in
  match ag_lists (l_agg sh) with
  | [f; f'] => zip (take n (sub p f)) (take n (sub p f'))
  | f :: _ => (fun e => (e, zero)) <$> take n (sub p f)
  | [] => []
  end.

(** There are as many PDUs as the body says, and room for them. *)
Definition l_full (sh : lte_shape) (p : struct) : Prop :=
  forall f, f ∈ ag_lists (l_agg sh) -> count_ok (num p (l_count sh)) 100 (sub p f).

Class LteRelay (sh : lte_shape) : Prop := {
  lr_body : ag_body (l_agg sh) = Some (l_body sh);
  lr_copied : ag_copied (l_agg sh) = ["sfn_sf"];
  lr_width : ag_width (l_agg sh) = u16;
  lr_max : ag_max (l_agg sh) = 100%nat;
  lr_lists : (exists f, ag_lists (l_agg sh) = [f]) \/ (exists f f', ag_lists (l_agg sh) = [f; f'] /\ f <> f');
  lr_tag : in_u16 (l_tag sh);
  lr_ok p : l_ok sh p -> l_full sh p /\ Forall (l_pdu_ok sh) (l_pdus sh (l_prepare sh p));
  lr_bytes p : l_ok sh p -> l_bytes sh p =
    be16 (num p (l_count sh)) ++ concat (l_pdu_bytes sh <$> l_pdus sh (l_prepare sh p)) ++
    concat (l_pdu_data sh <$> l_pdus sh (l_prepare sh p));
  lr_copy p s0 : l_ok sh p -> l_full sh (l_copy sh p s0) /\ num (l_copy sh p s0) (l_count sh) = num p (l_count sh) /\
    l_pdus sh (l_copy sh p s0) = l_pdu_copy sh <$> l_pdus sh (l_prepare sh p) /\
    tl_of (l_copy sh p s0) = tl_of s0 /\
    forall f, f ∈ ag_lists (l_agg sh) -> zlen (sub (l_copy sh p s0) f) = num p (l_count sh);
  lr_prepared p : num (l_prepare sh p) = num p /\ tl_of (l_prepare sh p) = tl_of p /\
    forall f, f ∈ ag_lists (l_agg sh) -> zlen (sub (l_prepare sh p) f) = zlen (sub p f);
  lr_prepare p : l_full sh p -> Forall (l_settled sh) (l_pdus sh p) -> l_pdus sh (l_prepare sh p) = l_pdus sh p;
  lr_relay e : l_pdu_ok sh e -> l_pdu_ok sh (l_pdu_copy sh e) /\ l_pdu_bytes sh (l_pdu_copy sh e) = l_pdu_bytes sh e /\
    l_pdu_data sh (l_pdu_copy sh e) = l_pdu_data sh e /\ l_pdu_copy sh (l_pdu_copy sh e) = l_pdu_copy sh e;
  lr_settled e : l_pdu_ok sh e -> l_settled sh e -> l_settled sh (l_pdu_copy sh e);
  lr_send p : l_full sh p -> num p (l_count sh) <> 0 -> Forall (l_settled sh) (l_pdus sh p) -> Forall (l_pdu_ok sh) (l_pdus sh p) -> l_ok sh p }.

Definition harq_aggregator : aggregator :=
  Aggregator (Some "harq_indication_body") ["sfn_sf"] "number_of_harqs" u16 ["harq_pdu_list"]
    (Z.to_nat NFAPI_HARQ_IND_MAX_PDU) (fun _ => false).
Definition rx_aggregator : aggregator :=
  Aggregator (Some "rx_indication_body") ["sfn_sf"] "number_of_pdus" u16 ["rx_pdu_list"]
    (Z.to_nat NFAPI_RX_IND_MAX_PDU) (fun ind => num (member ind "rx_indication_body") "number_of_pdus" =? 0).
(** The unpacker leaves the lists null if there are too many PDUs; the aggregator
    then reads the RNTI of the first. *)
Definition cqi_aggregator : aggregator :=
  Aggregator (Some "cqi_indication_body") ["sfn_sf"] "number_of_cqis" u16 ["cqi_pdu_list"; "cqi_raw_pdu_list"]
    (Z.to_nat NFAPI_CQI_IND_MAX_PDU)
    (fun ind => let body := member ind "cqi_indication_body" in
       (num body "number_of_cqis" =? 0) || bool_decide (length (sub body "cqi_pdu_list") = 0%nat)).

Definition table_pack (b : pbody) : list pentry := match pb_frame b with PInstance es => es | _ => [] end.
Definition table_unpack (b : ubody) : list entry := match ub_frame b with UInstance es => es | _ => [] end.
Definition harq_shape : lte_shape :=
  let pf := pb_frame pack_harq_indication_body_value in
  let uf := ub_frame unpack_harq_indication_body_value in
  LteShape harq_aggregator NFAPI_HARQ_INDICATION_BODY_TAG "harq_indication_body"
    (body_ok pack_harq_indication_body_value unpack_harq_indication_body_value)
    (body_bytes pack_harq_indication_body_value unpack_harq_indication_body_value)
    (body_copy pack_harq_indication_body_value unpack_harq_indication_body_value) (fun p => p)
    (fun e => pdu_ok pf uf e.1) (fun e => pdu_bytes pf uf e.1) (fun _ => []) (fun e => (pdu_copy pf uf e.1, zero)) (fun _ => True).

(** Offsets that the packer would not compute again. *)
Definition settled (f : string) (tag : Z) (offset : string) (p : struct) : Prop :=
  tagged f tag p = true -> num (member p f) offset <> 1.
Definition rx_shape : lte_shape :=
  LteShape rx_aggregator NFAPI_RX_INDICATION_BODY_TAG "rx_indication_body"
    (fun b => rx_body_ok (prepare_rx_ulsch_indication_body b)) (fun b => rx_body_bytes (prepare_rx_ulsch_indication_body b))
    (fun b => rx_body_copy (prepare_rx_ulsch_indication_body b)) prepare_rx_ulsch_indication_body
    (fun e => rx_pdu_ok e.1) (fun e => rx_pdu_bytes e.1) (fun e => rx_data e.1)
    (fun e => (store_rx_data (tlvs_copy rx_rows e.1 zero) (rx_data e.1), zero))
    (fun e => settled "rx_indication_rel8" NFAPI_RX_INDICATION_REL8_TAG "offset" e.1).
Definition cqi_shape : lte_shape :=
  LteShape cqi_aggregator NFAPI_CQI_INDICATION_BODY_TAG "cqi_indication_body"
    (fun b => cqi_body_ok (prepare_cqi_indication_body b)) (fun b => cqi_body_bytes (prepare_cqi_indication_body b))
    (fun b => cqi_body_copy (prepare_cqi_indication_body b)) prepare_cqi_indication_body
    cqi_pdu_ok cqi_pdu_bytes cqi_raw (fun e => (cqi_pdu_copy e, store_cqi_data (cqi_pdu_copy e) (cqi_raw e)))
    (fun e => settled "cqi_indication_rel8" NFAPI_CQI_INDICATION_REL8_TAG "data_offset" e.1 /\
              settled "cqi_indication_rel9" NFAPI_CQI_INDICATION_REL9_TAG "data_offset" e.1).

(** The types the aggregators unpack to. *)
Definition lte_shapes : list (Z * (string * lte_shape)) :=
  [(NFAPI_HARQ_INDICATION, ("nfapi_harq_indication_t", harq_shape));
   (NFAPI_RX_ULSCH_INDICATION, ("nfapi_rx_indication_t", rx_shape));
   (NFAPI_RX_CQI_INDICATION, ("nfapi_cqi_indication_t", cqi_shape))].

Lemma tables_relayable :
  relayable (table_pack pack_harq_indication_body_value) (table_unpack unpack_harq_indication_body_value) = true /\
  relayable rx_entries (Rows <$> rx_rows) = true /\ relayable cqi_entries cqi_receives = true.
Proof. vm_compute. done. Qed.

Lemma one_list_full sh p f : ag_lists (l_agg sh) = [f] -> count_ok (num p (l_count sh)) 100 (sub p f) -> l_full sh p.
Proof. intros E H f' Hf. rewrite E in Hf. apply list_elem_of_singleton in Hf as ->. exact H. Qed.
Lemma sub_copied f (v : list struct) n s : n = zlen v -> 0 <= n <= 100 -> count_ok n 100 (sub (set_sub f v s) f).
Proof. intros -> H. rewrite sub_set_sub, decide_True by done. unfold count_ok. lia. Qed.

Lemma zlen_map {A B} (f : A -> B) l : zlen (f <$> l) = zlen l.
Proof. unfold zlen. by rewrite length_fmap. Qed.
Lemma pairs_fst {A} (P : A -> Prop) (es : list A) : Forall P es -> Forall (fun e => P e.1) ((fun e => (e, zero)) <$> es).
Proof. intros H. by apply Forall_fmap. Qed.

#[export] Instance harq_relay : LteRelay harq_shape.
Proof.
  assert (body_wf pack_harq_indication_body_value unpack_harq_indication_body_value = true) as Hwf by (apply lte_table_wf; unfold lte_tables; cbn [In]; tauto).
  assert (Hn : forall p, count_of ["number_of_harqs"] p = num p "number_of_harqs") by (intros p; unfold count_of; cbn [foldr]; lia).
  split; try done.
  - left. by exists "harq_pdu_list".
  - intros p (_ & _ & _ & _ & Hc & Hp). unfold body_pdus in Hp. cbn [pb_counts pb_list pack_harq_indication_body_value] in Hc, Hp.
    rewrite Hn in Hc, Hp. split; [exact (one_list_full harq_shape p "harq_pdu_list" eq_refl Hc)|]. by apply Forall_fmap.
  - intros p (_ & _ & _ & _ & Hc & Hp). cbn [l_bytes l_prepare l_pdu_bytes l_pdu_data harq_shape]. unfold body_bytes, body_pdus.
    cbn [pb_counts pb_list pack_harq_indication_body_value] in *. rewrite Hn. unfold l_pdus. cbn [ag_lists l_agg harq_shape harq_aggregator].
    rewrite <- !list_fmap_compose. cbn [ub_head unpack_harq_indication_body_value rows_bytes foldr row_bytes type_bytes]. rewrite app_nil_r.
    f_equal. change (l_count harq_shape) with "number_of_harqs". set (es := take _ _).
    assert (concat (((fun _ => []) ∘ (fun e : struct => (e, zero))) <$> es) = ([] : list Z)) as -> by (induction es; done).
    by rewrite app_nil_r.
  - intros p s0 (_ & _ & _ & _ & Hc & Hp). cbn [l_copy harq_shape]. unfold body_copy, body_pdus.
    cbn [pb_counts pb_list pack_harq_indication_body_value ub_head unpack_harq_indication_body_value rows_copy foldl row_copy] in *. rewrite Hn in *.
    change (l_count harq_shape) with "number_of_harqs". pose proof (zlen_take_count _ _ _ Hc) as Hz.
    change (num (set_sub ?f ?v ?s)) with (num s). rewrite num_set_num, decide_True by done. split_and!; [..|done|].
    + apply (one_list_full harq_shape _ "harq_pdu_list"); [done|]. change (l_count harq_shape) with "number_of_harqs".
      change (num (set_sub ?f ?v ?s)) with (num s). rewrite num_set_num, decide_True by done. apply sub_copied; [by rewrite zlen_map, Hz|apply Hc].
    + done.
    + unfold l_pdus. cbn [ag_lists l_agg harq_shape harq_aggregator]. change (l_count harq_shape) with "number_of_harqs".
      change (num (set_sub ?f ?v ?s)) with (num s). rewrite num_set_num, decide_True by done. rewrite sub_set_sub, decide_True by done.
      rewrite take_ge by (rewrite length_fmap; unfold zlen in Hz; lia). cbn [l_prepare harq_shape].
      rewrite <- !list_fmap_compose. apply list_fmap_ext. intros i e _. unfold compose. cbn [l_pdu_copy harq_shape fst]. reflexivity.
    + intros f ->%list_elem_of_singleton. rewrite sub_set_sub, decide_True by done. by rewrite zlen_map.
  - intros [e x] He. cbn [l_pdu_ok l_pdu_bytes l_pdu_data l_pdu_copy harq_shape fst] in *. destruct tables_relayable as [Ht _].
    destruct (instance_relayed _ _ e Ht He) as (O & B & C). split_and!; [exact O|exact B|done|]. f_equal. exact C.
  - intros p Hf H0 _ Hp. specialize (Hf "harq_pdu_list" (list_elem_of_here _ _)). change (l_count harq_shape) with "number_of_harqs" in *.
    change (body_ok pack_harq_indication_body_value unpack_harq_indication_body_value p). unfold body_ok, body_pdus. cbv zeta. cbn [pb_counts pb_list pack_harq_indication_body_value ub_counts unpack_harq_indication_body_value].
    rewrite Hn. split_and!; try done.
    + cbn. split; [|done]. destruct Hf. wrap_lia.
    + unfold l_pdus in Hp. cbn [ag_lists l_agg harq_shape harq_aggregator] in Hp. rewrite Forall_fmap in Hp. exact Hp.
Qed.

(** Only the members of a structure are sent in TLVs. *)
Lemma same_members ts c d : sub c = sub d -> sent_tlvs ts c = sent_tlvs ts d /\ forall s0, tlvs_copy ts c s0 = tlvs_copy ts d s0.
Proof.
  intros Hs. assert (forall f, member c f = member d f) as Hm by (intros f; unfold member; by rewrite Hs).
  assert (Hp : forall t, present t c = present t d) by (intros t; unfold present; by rewrite Hm).
  assert (Hv : forall t, tlv_value t c = tlv_value t d) by (intros t; unfold tlv_value; by rewrite Hm).
  split.
  - induction ts as [|t ts IH]; [done|]. rewrite (sent_tlvs_cons t ts c), (sent_tlvs_cons t ts d), IH. f_equal.
    unfold sent_tlvs. rewrite !filter_cons, !filter_nil, Hp. case_decide; [|done]. cbn [fmap list_fmap]. by rewrite Hv.
  - induction ts as [|t ts IH]; intros s0; [done|]. unfold tlvs_copy in *. cbn [foldl]. rewrite IH. f_equal.
    unfold tlv_copy. by rewrite Hp, Hv, Hm.
Qed.

(** What the packers do first. *)
Lemma pass_over_length step o es : length (snd (pass_over step o es)) = length es.
Proof.
  revert o. induction es as [|e es IH]; intros o; [done|]. cbn [pass_over]. destruct (step o e) as [o' e']. specialize (IH o').
  destruct (pass_over step o' es). cbn in *. by rewrite IH.
Qed.
Lemma pass_over_same step es : Forall (fun e => forall o, snd (step o e) = e) es -> forall o, snd (pass_over step o es) = es.
Proof.
  induction 1 as [|e es He _ IH]; intros o; [done|]. cbn [pass_over]. specialize (He o). destruct (step o e) as [o' e']. specialize (IH o').
  destruct (pass_over step o' es). cbn in *. by rewrite He, IH.
Qed.
Lemma update_first_spec n g (es : list struct) : (forall l, length (g l) = length l) ->
  length (update_first n g es) = length es /\ take n (update_first n g es) = g (take n es).
Proof.
  intros Hg. unfold update_first. pose proof (Hg (take n es)) as Hl. rewrite length_take in Hl. split.
  - rewrite length_app, length_drop. lia.
  - destruct (decide (n <= length es)%nat).
    + rewrite take_app_le by lia. apply take_ge. lia.
    + rewrite (drop_ge es) by lia. rewrite app_nil_r. apply take_ge. lia.
Qed.

Lemma rx_prepared p : let q := prepare_rx_ulsch_indication_body p in
  num q = num p /\ tl_of q = tl_of p /\ zlen (sub q "rx_pdu_list") = zlen (sub p "rx_pdu_list") /\
  (Forall (l_settled rx_shape) (l_pdus rx_shape p) -> rx_pdus q = rx_pdus p).
Proof.
  cbv zeta. unfold prepare_rx_ulsch_indication_body. set (o := foldl _ 2 _). set (n := Z.to_nat (num p "number_of_pdus")).
  destruct (update_first_spec n (fun es => snd (pass_over set_rx_offset o es)) (sub p "rx_pdu_list")) as [Hl Ht];
    [intros; apply pass_over_length|]. split_and!; [done|done| |].
  - rewrite sub_set_sub, decide_True by done. unfold zlen. by rewrite Hl.
  - intros Hs. unfold rx_pdus. change (num (set_sub ?f ?v ?s)) with (num s). fold n. rewrite sub_set_sub, decide_True, Ht by done.
    apply pass_over_same. unfold l_pdus in Hs. cbn [ag_lists l_agg rx_shape rx_aggregator] in Hs. rewrite Forall_fmap in Hs.
    refine (list.Forall_impl _ _ _ Hs _). intros e He o'. unfold compose in He. cbn [l_settled rx_shape fst] in He. unfold settled in He.
    unfold set_rx_offset. destruct (tagged _ _ e); [|done]. cbn [andb]. destruct (Z.eqb_spec (num (member e "rx_indication_rel8") "offset") 1); [by apply He in e0|done].
Qed.

(** The rows of REL8 as they are received. *)
Lemma rx_copy_rel8 p x : rx_pdu_ok p -> let c := store_rx_data (tlvs_copy rx_rows p zero) x in
  tagged "rx_indication_rel8" NFAPI_RX_INDICATION_REL8_TAG c = true /\ tagged "rx_indication_rel8" NFAPI_RX_INDICATION_REL8_TAG p = true /\
  num (member c "rx_indication_rel8") "length" = num (member p "rx_indication_rel8") "length" /\
  num (member c "rx_indication_rel8") "offset" = num (member p "rx_indication_rel8") "offset".
Proof.
  intros (_ & Hp & _). cbv zeta. destruct rx_tables as (_ & _ & Hnd).
  set (t := TlvRow NFAPI_RX_INDICATION_REL8_TAG "rx_indication_rel8" unpack_rx_indication_rel8_value).
  assert (t ∈ rx_rows) as Hin by apply list_elem_of_further, list_elem_of_here.
  pose proof (proj1 (list.Forall_forall _ _) Hp t Hin) as Hpt.
  destruct (tlvs_copy_sent rx_rows p t "length" Hnd Hin ltac:(done) ltac:(vm_compute; reflexivity) zero eq_refl) as [H1 H2].
  destruct (tlvs_copy_sent rx_rows p t "offset" Hnd Hin ltac:(done) ltac:(vm_compute; reflexivity) zero eq_refl) as [_ H3].
  rewrite Hpt in H1. specialize (H2 Hpt). specialize (H3 Hpt). split_and!; [exact H1|exact Hpt|exact H2|exact H3].
Qed.

Lemma rx_relayed p : rx_pdu_ok p -> let c := store_rx_data (tlvs_copy rx_rows p zero) (rx_data p) in
  rx_pdu_ok c /\ rx_pdu_bytes c = rx_pdu_bytes p /\ rx_data c = rx_data p /\ store_rx_data (tlvs_copy rx_rows c zero) (rx_data c) = c.
Proof.
  intros Hok. cbv zeta. pose proof (rx_copy_rel8 p (rx_data p) Hok) as (C1 & C2 & C3 & _). set (c := store_rx_data _ _) in *.
  destruct tables_relayable as (_ & Ht & _). destruct Hok as (He & Hp & Hc & Hb). destruct rx_tables as (Hr & _ & Hnd).
  destruct (entries_relayed _ _ p zero Ht He eq_refl) as (O & B & C). rewrite Hr in O, B, C.
  assert (sub c = sub (tlvs_copy rx_rows p zero)) as Hsub by done.
  assert (Hmem : forall f, member c f = member (tlvs_copy rx_rows p zero) f) by (intros f; unfold member; by rewrite Hsub).
  assert (Hpres : forall t, present t c = present t (tlvs_copy rx_rows p zero)) by (intros t; unfold present; by rewrite Hmem).
  assert (Hd : rx_length c = rx_length p) by (unfold rx_length; by rewrite C1, C2, C3).
  pose proof (zlen_take_count _ _ _ Hc) as Hz. fold (rx_data p) in Hz.
  assert (rx_data c = rx_data p) as Hdata.
  { unfold rx_data at 1. rewrite Hd. unfold c. cbn [arr store_rx_data set_arr]. rewrite fn_lookup_insert.
    apply take_ge. unfold zlen in Hz. lia. }
  destruct (same_members rx_rows c _ Hsub) as [S1 S2].
  split_and!; [|by unfold rx_pdu_bytes; rewrite S1, B|done|].
  - split_and!.
    + refine (list.Forall_impl _ _ _ O _). intros [t|tag f u]; cbn [entry_ok]; unfold tlv_room, tlv_row_ok, absent; rewrite ?Hpres, ?Hmem; done.
    + apply list.Forall_forall. intros t Hin. rewrite Hpres. unfold present. rewrite tlvs_copy_member by done.
      rewrite (proj1 (list.Forall_forall _ _) Hp t Hin), rows_copy_tl. cbn [tl_of set_tl tl_tag]. lia.
    + rewrite Hd. unfold c. cbn [arr store_rx_data set_arr]. rewrite fn_lookup_insert. unfold count_ok in *. rewrite Hz. lia.
    + by rewrite Hdata.
  - rewrite Hdata, S2, C. done.
Qed.

#[export] Instance rx_relay : LteRelay rx_shape.
Proof.
  assert (Hfst : forall p, l_pdus rx_shape p = (fun e => (e, zero)) <$> rx_pdus p) by done.
  assert (Hfull : forall p, rx_body_ok p -> count_ok (num p "number_of_pdus") 100 (sub p "rx_pdu_list")) by (by intros p (_ & H & _)).
  split; try done.
  - left. by exists "rx_pdu_list".
  - intros p Hok. destruct (rx_prepared p) as (Hn & _ & Hz & _). cbn [l_ok l_prepare rx_shape] in *.
    rewrite Hfst. split; [|apply pairs_fst; apply Hok]. apply (one_list_full rx_shape p "rx_pdu_list"); [done|].
    destruct Hok as (_ & Hc & _). unfold count_ok in *. by rewrite Hn, Hz in Hc.
  - intros p Hok. cbn [l_bytes l_prepare l_pdu_bytes l_pdu_data rx_shape]. rewrite Hfst, <- !list_fmap_compose.
    unfold rx_body_bytes. by rewrite (proj1 (rx_prepared p)).
  - intros p s0 Hok. destruct (rx_prepared p) as (Hn & _). cbn [l_ok l_copy l_prepare rx_shape] in *.
    set (q := prepare_rx_ulsch_indication_body p) in *. rewrite <- Hn. clearbody q. clear Hn p. rename q into p.
    pose proof (zlen_take_count _ _ _ (Hfull p Hok)) as Hz. fold (rx_pdus p) in Hz. change (l_count rx_shape) with "number_of_pdus".
    assert (num (rx_body_copy p s0) "number_of_pdus" = num p "number_of_pdus") as E.
    { unfold rx_body_copy. do 2 change (num (set_sub ?f ?v ?s)) with (num s). by rewrite num_set_num, decide_True. }
    assert (sub (rx_body_copy p s0) "rx_pdu_list" = (fun p => store_rx_data (tlvs_copy rx_rows p zero) (rx_data p)) <$> rx_pdus p) as Es
      by (unfold rx_body_copy; by rewrite sub_set_sub, decide_True).
    split_and!; [|exact E|..|done|].
    + apply (one_list_full rx_shape _ "rx_pdu_list"); [done|]. change (l_count rx_shape) with "number_of_pdus". rewrite E, Es.
      unfold count_ok. rewrite zlen_map, Hz. pose proof (Hfull p Hok) as [? _]. lia.
    + rewrite !Hfst. unfold rx_pdus at 1. rewrite E, Es, <- list_fmap_compose. rewrite take_ge by (rewrite length_fmap; unfold zlen in Hz; lia).
      by rewrite <- list_fmap_compose.
    + intros f ->%list_elem_of_singleton. by rewrite Es, zlen_map.
  - intros p. destruct (rx_prepared p) as (H1 & H2 & H3 & _). split_and!; [exact H1|exact H2|]. intros f ->%list_elem_of_singleton. exact H3.
  - intros p _ Hs. cbn [l_prepare rx_shape]. rewrite !Hfst. by rewrite (proj2 (proj2 (proj2 (rx_prepared p))) Hs).
  - intros [e x] He. cbn [l_pdu_ok l_pdu_bytes l_pdu_data l_pdu_copy rx_shape fst] in *.
    destruct (rx_relayed e He) as (O & B & D & C). split_and!; [exact O|exact B|exact D|]. by rewrite C.
  - intros [e x] He Hs. cbn [l_pdu_ok l_settled l_pdu_copy rx_shape fst] in *. intros _.
    destruct (rx_copy_rel8 e (rx_data e) He) as (_ & Ht & _ & ->). by apply Hs.
  - intros p Hf _ Hs Hp. destruct (rx_prepared p) as (Hn & _ & Hz & Hst). specialize (Hst Hs). specialize (Hf "rx_pdu_list" (list_elem_of_here _ _)).
    change (l_count rx_shape) with "number_of_pdus" in *. cbn [l_ok rx_shape]. unfold rx_body_ok. rewrite Hn, Hst. split_and!.
    + destruct Hf. wrap_lia.
    + unfold count_ok in *. by rewrite Hz.
    + rewrite Hfst, Forall_fmap in Hp. exact Hp.
Qed.

Lemma data_offset_same f tag o p : settled f tag "data_offset" p -> snd (set_data_offset f tag o p) = p.
Proof.
  unfold settled, set_data_offset. intros H. destruct (tagged f tag p); [|done]. cbn [andb].
  destruct (Z.eqb_spec (num (member p f) "data_offset") 1); [by apply H in e|done].
Qed.

Lemma cqi_prepared p : let q := prepare_cqi_indication_body p in
  num q = num p /\ tl_of q = tl_of p /\ sub q "cqi_raw_pdu_list" = sub p "cqi_raw_pdu_list" /\
  zlen (sub q "cqi_pdu_list") = zlen (sub p "cqi_pdu_list") /\
  (Forall (l_settled cqi_shape) (cqi_pdus p) -> num p "number_of_cqis" <= zlen (sub p "cqi_raw_pdu_list") -> cqi_pdus q = cqi_pdus p).
Proof.
  cbv zeta. unfold prepare_cqi_indication_body. set (o := foldl _ 2 _). set (n := Z.to_nat (num p "number_of_cqis")).
  destruct (update_first_spec n (fun es => snd (pass_over set_cqi_offset o es)) (sub p "cqi_pdu_list")) as [Hl Ht];
    [intros; apply pass_over_length|]. split_and!; [done|done|by rewrite sub_set_sub, decide_False| |].
  - rewrite sub_set_sub, decide_True by done. unfold zlen. by rewrite Hl.
  - intros Hs Hr. unfold cqi_pdus. change (num (set_sub ?f ?v ?s)) with (num s). fold n. rewrite !sub_set_sub, decide_True, decide_False, Ht by done.
    f_equal. apply pass_over_same. fold n in Hs.
    assert ((cqi_pdus p).*1 = take n (sub p "cqi_pdu_list")) as <- by (unfold cqi_pdus; apply fst_zip; rewrite !length_take; unfold zlen in Hr; lia).
    apply Forall_fmap. refine (list.Forall_impl _ _ _ Hs _). intros [e x] [H8 H9] o'. unfold compose. cbn [fst] in *. unfold set_cqi_offset.
    pose proof (data_offset_same _ _ o' e H8) as E8. destruct (set_data_offset _ _ o' e) as [o1 e1]. cbn in E8. subst e1.
    by apply data_offset_same.
Qed.

(** The TLVs of a CQI PDU as they are received. *)
Lemma cqi_copy_tagged p f tag rows : TlvRow tag f rows ∈ cqi_rows -> tag <> 0 ->
  tagged f tag (pdu_copy (PInstance cqi_entries) (UInstance cqi_receives) p) = tagged f tag p /\
  forall m, existsb (fun r => bool_decide (m ∈ stored r)) rows && negb (bool_decide (m ∈ foldr (fun r fs => resized r ++ fs) [] rows)) = true ->
    tagged f tag p = true -> num (member (pdu_copy (PInstance cqi_entries) (UInstance cqi_receives) p) f) m = num (member p f) m.
Proof.
  intros Hin Hne. destruct (cqi_tables p) as (Hr & _ & Hnd). unfold pdu_copy at 1. rewrite Hr. split.
  - change (present (TlvRow tag f rows) (tlvs_copy cqi_rows p (set_num "instance_length" (zlen (pdu_value (PInstance cqi_entries) (UInstance cqi_receives) p)) zero)) =
      present (TlvRow tag f rows) p). unfold present at 1. rewrite tlvs_copy_member by done. destruct (present (TlvRow tag f rows) p).
    + rewrite rows_copy_tl. cbn [tl_of set_tl tl_tag t_tag]. apply Z.eqb_refl.
    + change ((0 =? tag) = false). apply Z.eqb_neq. congruence.
  - intros m Hm Ht. by apply (cqi_copy_member p (TlvRow tag f rows) m).
Qed.

Lemma cqi_lengths p : let c := pdu_copy (PInstance cqi_entries) (UInstance cqi_receives) p in
  cqi_length c = cqi_length p /\ cqi_data_length c = cqi_data_length p.
Proof.
  cbv zeta. destruct (cqi_copy_tagged p "cqi_indication_rel8" NFAPI_CQI_INDICATION_REL8_TAG unpack_cqi_indication_rel8_value) as [T8 N8];
    [apply list_elem_of_In; cbn; tauto|done|].
  destruct (cqi_copy_tagged p "cqi_indication_rel9" NFAPI_CQI_INDICATION_REL9_TAG unpack_cqi_indication_rel9_value) as [T9 N9];
    [apply list_elem_of_In; cbn; tauto|done|].
  specialize (N8 "length" ltac:(vm_compute; reflexivity)). specialize (N9 "length" ltac:(vm_compute; reflexivity)).
  unfold cqi_length, cqi_data_length. rewrite T8, T9. destruct (tagged "cqi_indication_rel9" _ p), (tagged "cqi_indication_rel8" _ p);
    rewrite ?N8, ?N9 by done; done.
Qed.

Lemma cqi_relayed e : cqi_pdu_ok e -> let c := (cqi_pdu_copy e, store_cqi_data (cqi_pdu_copy e) (cqi_raw e)) in
  cqi_pdu_ok c /\ cqi_pdu_bytes c = cqi_pdu_bytes e /\ cqi_raw c = cqi_raw e /\ cqi_pdu_copy c = cqi_pdu_copy e.
Proof.
  destruct e as [p raw]. intros (He & Hc & Hb & Hd). cbv zeta. destruct tables_relayable as (_ & _ & Ht). cbn [fst snd] in *.
  destruct (instance_relayed _ _ p Ht He) as (O & B & C). destruct (cqi_lengths p) as [L1 L2].
  assert (zlen (cqi_raw (p, raw)) = cqi_length p) as Hz by exact (zlen_take_count _ _ _ Hc).
  unfold cqi_pdu_bytes, cqi_pdu_copy, cqi_pdu_ok in *. cbn [fst snd] in *.
  set (c := pdu_copy (PInstance cqi_entries) (UInstance cqi_receives) p) in *.
  assert (arr (store_cqi_data c (cqi_raw (p, raw))) "pdu" = cqi_raw (p, raw)) as Ha.
  { unfold store_cqi_data. destruct (cqi_raw (p, raw)); [done|]. cbn [arr set_arr]. by rewrite fn_lookup_insert. }
  assert (cqi_raw (c, store_cqi_data c (cqi_raw (p, raw))) = cqi_raw (p, raw)) as Hr.
  { unfold cqi_raw at 1. cbn [fst snd]. rewrite L1, Ha. apply take_ge. unfold zlen in Hz. lia. }
  rewrite Hr, Ha, L1, L2. split_and!; try done. unfold count_ok in *. rewrite Hz. lia.
Qed.

#[export] Instance cqi_relay : LteRelay cqi_shape.
Proof.
  assert (Hfst : forall p, l_pdus cqi_shape p = cqi_pdus p) by done.
  assert (Hfull : forall p, count_ok (num p "number_of_cqis") 100 (sub p "cqi_pdu_list") ->
    num p "number_of_cqis" <= zlen (sub p "cqi_raw_pdu_list") -> l_full cqi_shape p).
  { intros p Hc Hr f [->|[->|Hf%elem_of_nil]%elem_of_cons]%elem_of_cons; [exact Hc| |done].
    change (l_count cqi_shape) with "number_of_cqis". unfold count_ok in *. lia. }
  split; try done.
  - right. by exists "cqi_pdu_list", "cqi_raw_pdu_list".
  - intros p Hok. destruct (cqi_prepared p) as (Hn & _ & Hs & Hz & _). cbn [l_ok l_prepare cqi_shape] in *. rewrite Hfst.
    destruct Hok as (_ & Hc & Hr & Hp). split; [|exact Hp]. rewrite Hn in *. rewrite Hs in Hr.
    apply Hfull; [|done]. unfold count_ok in *. by rewrite Hz in Hc.
  - intros p s0 Hok. destruct (cqi_prepared p) as (Hn & _). cbn [l_ok l_copy l_prepare cqi_shape] in *.
    set (q := prepare_cqi_indication_body p) in *. rewrite <- Hn. clearbody q. clear Hn p. rename q into p.
    pose proof (cqi_pdus_fst p Hok) as Hf. destruct Hok as (_ & Hc & Hr & _). pose proof (zlen_take_count _ _ _ Hc) as Hz.
    rewrite <- Hf, zlen_map in Hz. change (l_count cqi_shape) with "number_of_cqis".
    assert (num (cqi_body_copy p s0) "number_of_cqis" = num p "number_of_cqis") as E.
    { unfold cqi_body_copy. do 2 change (num (set_sub ?f ?v ?s)) with (num s). by rewrite num_set_num, decide_True. }
    assert (sub (cqi_body_copy p s0) "cqi_pdu_list" = cqi_pdu_copy <$> cqi_pdus p) as E1
      by (unfold cqi_body_copy; by rewrite !sub_set_sub, decide_False, decide_True).
    assert (sub (cqi_body_copy p s0) "cqi_raw_pdu_list" = (fun e => store_cqi_data (cqi_pdu_copy e) (cqi_raw e)) <$> cqi_pdus p) as E2
      by (unfold cqi_body_copy; by rewrite sub_set_sub, decide_True).
    split_and!; [|exact E|..|done|].
    + apply Hfull; rewrite E, ?E1, ?E2, ?zlen_map, ?Hz; [|lia]. unfold count_ok, NFAPI_CQI_IND_MAX_PDU in *. rewrite zlen_map, Hz. lia.
    + rewrite !Hfst. unfold cqi_pdus at 1. rewrite E, E1, E2.
      rewrite !take_ge by (rewrite length_fmap; unfold zlen in Hz; lia). rewrite zip_with_fmap_l, zip_with_fmap_r, zip_with_diag. done.
    + intros f [->|[->|Hi%elem_of_nil]%elem_of_cons]%elem_of_cons; [by rewrite E1, zlen_map|by rewrite E2, zlen_map|done].
  - intros p. destruct (cqi_prepared p) as (H1 & H2 & H3 & H4 & _). split_and!; [exact H1|exact H2|].
    intros f [->|[->|Hi%elem_of_nil]%elem_of_cons]%elem_of_cons; [exact H4|cbn [l_prepare cqi_shape]; by rewrite H3|done].
  - intros p Hf Hs. destruct (cqi_prepared p) as (_ & _ & _ & _ & Hst). apply (Hst Hs).
    pose proof (Hf "cqi_raw_pdu_list" ltac:(apply list_elem_of_further, list_elem_of_here)) as H2. unfold count_ok in H2. apply H2.
  - intros e He. cbn [l_pdu_ok l_pdu_bytes l_pdu_data l_pdu_copy cqi_shape] in *. destruct (cqi_relayed e He) as (O & B & D & C).
    split_and!; [exact O|exact B|exact D|]. by rewrite C, D.
  - intros [p raw] He [H8 H9]. cbn [l_settled l_pdu_copy cqi_shape fst] in *. unfold cqi_pdu_copy. cbn [fst].
    split.
    + destruct (cqi_copy_tagged p "cqi_indication_rel8" NFAPI_CQI_INDICATION_REL8_TAG unpack_cqi_indication_rel8_value) as [T N];
        [apply list_elem_of_In; cbn; tauto|done|].
      specialize (N "data_offset" ltac:(vm_compute; reflexivity)). unfold settled in *. rewrite T. intros Ht. rewrite N by done. auto.
    + destruct (cqi_copy_tagged p "cqi_indication_rel9" NFAPI_CQI_INDICATION_REL9_TAG unpack_cqi_indication_rel9_value) as [T N];
        [apply list_elem_of_In; cbn; tauto|done|].
      specialize (N "data_offset" ltac:(vm_compute; reflexivity)). unfold settled in *. rewrite T. intros Ht. rewrite N by done. auto.
  - intros p Hf _ Hs Hp. destruct (cqi_prepared p) as (Hn & _ & Hr & Hz & Hst).
    pose proof (Hf "cqi_pdu_list" (list_elem_of_here _ _)) as H1. pose proof (Hf "cqi_raw_pdu_list" ltac:(apply list_elem_of_further, list_elem_of_here)) as H2.
    change (l_count cqi_shape) with "number_of_cqis" in *. specialize (Hst Hs ltac:(unfold count_ok in H2; lia)).
    cbn [l_ok cqi_shape]. unfold cqi_body_ok. rewrite Hn, Hr, Hst. split_and!.
    + destruct H1. wrap_lia.
    + unfold count_ok in *. by rewrite Hz.
    + unfold count_ok in H2. lia.
    + exact Hp.
Qed.

(** ** PDUs of several bodies *)

Lemma fmap_concat {A B} (f : A -> B) (ls : list (list A)) : @fmap list _ _ _ f (concat ls) = concat (@fmap list _ _ _ (@fmap list _ _ _ f) ls).
Proof. apply concat_map. Qed.

Lemma zip_concat {A B} (ls : list (list A * list B)) : Forall (fun l => length l.1 = length l.2) ls ->
  zip (concat (fst <$> ls)) (concat (snd <$> ls)) = concat ((fun l => zip l.1 l.2) <$> ls).
Proof.
  induction 1 as [|[a b] ls Hl _ IH]; [done|]. cbn [fmap list_fmap concat fst snd] in *. rewrite zip_with_app by done. by f_equal.
Qed.

(** The array [f] of the pairs. *)
Definition l_proj (sh : lte_shape) (f : string) (e : struct * struct) : struct :=
  if decide (Some f = head (ag_lists (l_agg sh))) then e.1 else e.2.

Section pdus.
#[local] Set Default Proof Using "Type*".
Context `{HR : LteRelay sh}.
#[local] Abbreviation lists := (ag_lists (l_agg sh)).

(** Arrays as long as the count. *)
Definition l_exact (p : struct) : Prop := forall f, f ∈ lists -> zlen (sub p f) = num p (l_count sh).

Lemma l_pdus_concat q ps : Forall l_exact ps ->
  (forall f, f ∈ lists -> take (Z.to_nat (num q (l_count sh))) (sub q f) = concat ((fun p => sub p f) <$> ps)) ->
  l_pdus sh q = concat (l_pdus sh <$> ps).
Proof.
  intros Hps Hq. assert (Hall : forall p f, p ∈ ps -> f ∈ lists -> take (Z.to_nat (num p (l_count sh))) (sub p f) = sub p f).
  { intros p f Hp Hf. apply take_ge. pose proof (proj1 (list.Forall_forall _ _) Hps p Hp f Hf) as Hz. unfold zlen in Hz. lia. }
  unfold l_pdus. destruct lr_lists as [[f E]|(f & f' & E & Hne)]; rewrite E in *.
  - rewrite Hq by apply list_elem_of_here. rewrite fmap_concat. f_equal. rewrite <- list_fmap_compose. apply Forall_fmap_ext.
    apply list.Forall_forall. intros p Hp. unfold compose. rewrite Hall; [done|done|apply list_elem_of_here].
  - rewrite !Hq by (apply list_elem_of_here || apply list_elem_of_further, list_elem_of_here).
    pose proof (zip_concat ((fun p => (sub p f, sub p f')) <$> ps)) as Hz. rewrite <- !list_fmap_compose in Hz. cbn [compose fst snd] in Hz.
    transitivity (concat ((fun p => zip (sub p f) (sub p f')) <$> ps)).
    + apply Hz. apply Forall_fmap. refine (list.Forall_impl _ _ _ Hps _). intros p Hp. unfold compose. cbn [fst snd].
      pose proof (Hp f) as H1. pose proof (Hp f') as H2. rewrite E in H1, H2. unfold zlen in *.
      specialize (H1 (list_elem_of_here _ _)). specialize (H2 (list_elem_of_further _ _ _ (list_elem_of_here _ _))). lia.
    + f_equal. apply Forall_fmap_ext. apply list.Forall_forall. intros p Hp.
      by rewrite !Hall by (done || apply list_elem_of_here || apply list_elem_of_further, list_elem_of_here).
Qed.

Lemma l_pdus_proj p f : l_exact p -> f ∈ lists -> l_proj sh f <$> l_pdus sh p = sub p f.
Proof.
  intros Hx Hf. assert (Hall : forall f, f ∈ lists -> take (Z.to_nat (num p (l_count sh))) (sub p f) = sub p f)
    by (intros g Hg; apply take_ge; pose proof (Hx g Hg) as Hz; unfold zlen in Hz; lia).
  unfold l_pdus, l_proj. destruct lr_lists as [[g E]|(g & g' & E & Hne)]; rewrite E in *; cbn [head].
  - apply list_elem_of_singleton in Hf as ->. rewrite Hall by apply list_elem_of_here. rewrite <- list_fmap_compose.
    rewrite <- (list_fmap_id (sub p g)) at 2. apply list_fmap_ext. intros i e _. unfold compose. by rewrite decide_True.
  - rewrite !Hall by (apply list_elem_of_here || apply list_elem_of_further, list_elem_of_here).
    assert (length (sub p g) = length (sub p g')) as Hl.
    { pose proof (Hx g) as H1. pose proof (Hx g') as H2. rewrite E in H1, H2. unfold zlen in *.
      specialize (H1 (list_elem_of_here _ _)). specialize (H2 (list_elem_of_further _ _ _ (list_elem_of_here _ _))). lia. }
    apply elem_of_cons in Hf as [-> | ->%list_elem_of_singleton].
    + rewrite <- (fst_zip (sub p g) (sub p g')) at 2 by lia. apply list_fmap_ext. intros i e _. by rewrite decide_True.
    + rewrite <- (snd_zip (sub p g) (sub p g')) at 2 by lia. apply list_fmap_ext. intros i e _. by rewrite decide_False by congruence.
Qed.
End pdus.
