(* ===== verification/LteAggregate.v ===== *)
(** * Aggregation of LTE uplink indications ([nfapi_pnf.c])

    The HARQ, RX_ULSCH and CQI aggregators of the subframe task, their senders and
    the dispatcher to all aggregators of LTE ([Aggregate] has CRC, SR and RACH).
    The RX sender packs the message and unpacks it again before it sends it; the
    packers of RX_ULSCH and CQI fail an assertion if there are more than 100 PDUs,
    that of HARQ reads behind the array.

    The indications of a batch that the UEs packed reach the eNB as one, with all
    PDUs as the eNB would have unpacked them from the UEs' packets.  That includes
    the offsets of the received data: these are not computed again, so they say
    where the data was in the packet of the UE. *)

From S2P Require Import Prelude Tags Codec Sfn Ids UeQueue P7Header Segmentation Aggregate Layout Relay Merge LtePdu LteUplink LteData NrP7 LteP7 LteRelay.
From stdpp Require Import functions strings.

Open Scope string_scope.
Open Scope list_scope.
Open Scope Z_scope.

Section aggregators.
Context (crc32 : Z -> list Z -> Z) (cfg : p7_config) (sizeof : string -> Z) (behind : nat -> Z).
Context (pack_p7_vendor_extension : option (struct -> packer)).

Definition lte_unpack (type : string) (data : list Z) : option (nfapi_p7_message_header_t * struct) :=
  nfapi_p7_message_unpack sizeof behind None data (sizeof type).
Definition send_lte (message sequence_number : Z) (h : nfapi_p7_message_header_t) (ind : struct) : sent :=
  Sent (pnf_p7_pack_and_send_p7_message crc32 cfg (fun mss =>
    nfapi_p7_message_pack pack_p7_vendor_extension (set_ids message h mss) ind NFAPI_MAX_PACKED_MESSAGE_SIZE) sequence_number).

(** Whether a packer gets to the PDUs of a body. *)
Definition body_packed (sh : lte_shape) (ind : struct) : bool := tl_tag (tl_of (member ind (l_body sh))) =? l_tag sh.
Definition body_count (sh : lte_shape) (ind : struct) : Z := num (member ind (l_body sh)) (l_count sh).

(* src: nfapi_pnf.c :: oai_nfapi_harq_indication *)
Definition oai_nfapi_harq_indication (sequence_number : Z) (h : nfapi_p7_message_header_t) (ind : struct) : sent :=
  if body_packed harq_shape ind && (zlen (sub (member ind "harq_indication_body") "harq_pdu_list") <? body_count harq_shape ind) then ArrayOverread
  else send_lte NFAPI_HARQ_INDICATION sequence_number h ind.
(* src: nfapi_pnf.c :: oai_nfapi_cqi_indication *)
Definition oai_nfapi_cqi_indication (sequence_number : Z) (h : nfapi_p7_message_header_t) (ind : struct) : sent :=
  if body_packed cqi_shape ind && (NFAPI_CQI_IND_MAX_PDU <? body_count cqi_shape ind) then AssertionFailed
  else send_lte NFAPI_RX_CQI_INDICATION sequence_number h ind.

(** The first packing, into a buffer of [NFAPI_RX_IND_DATA_MAX] bytes, leaves its
    offsets in the structure. *)
Definition prepared_body (f : string) (prepare : struct -> struct) (ind : struct) : struct :=
  set_member f (prepare (member ind f)) ind.
Definition fails (r : Z * Z * list (list Z)) : Z * Z * list (list Z) :=
  let '(r, n, ds) := r in (if r =? 0 then 0 else -1, n, ds).
(* src: nfapi_pnf.c :: oai_nfapi_rx_ind *)
Definition oai_nfapi_rx_ind (sequence_number : Z) (h : nfapi_p7_message_header_t) (ind : struct) : sent :=
  if body_packed rx_shape ind && (NFAPI_RX_IND_MAX_PDU <? body_count rx_shape ind) then AssertionFailed else
  match nfapi_p7_message_pack None (set_ids NFAPI_RX_ULSCH_INDICATION h (m_segment_sequence h)) ind NFAPI_RX_IND_DATA_MAX with
  | None => Sent (-1, sequence_number, [])
  | Some buffer =>
      let ind := if body_packed rx_shape ind then prepared_body "rx_indication_body" prepare_rx_ulsch_indication_body ind else ind in
      match lte_unpack "nfapi_rx_indication_t" buffer with
      | None => Sent (-1, sequence_number, [])
      | Some _ =>
          match send_lte NFAPI_RX_ULSCH_INDICATION sequence_number h ind with
          | Sent r => Sent (fails r)
          | s => s
          end
      end
  end.

(* src: nfapi_pnf.c :: oai_subframe_aggregate_harq_ind *)
Definition oai_subframe_aggregate_harq_ind (sequence_number : Z) (msgs : list message_buffer_t) : outcome :=
  send_merged (aggregate_batch harq_aggregator (lte_unpack "nfapi_harq_indication_t") msgs)
    (oai_nfapi_harq_indication sequence_number).
(* src: nfapi_pnf.c :: oai_subframe_aggregate_rx_ind *)
Definition oai_subframe_aggregate_rx_ind (sequence_number : Z) (msgs : list message_buffer_t) : outcome :=
  if undated get_sfnsf msgs then Crash else
  send_merged (aggregate_batch rx_aggregator (lte_unpack "nfapi_rx_indication_t") msgs) (oai_nfapi_rx_ind sequence_number).
(* src: nfapi_pnf.c :: oai_subframe_aggregate_cqi_ind *)
Definition oai_subframe_aggregate_cqi_ind (sequence_number : Z) (msgs : list message_buffer_t) : outcome :=
  send_merged (aggregate_batch cqi_aggregator (lte_unpack "nfapi_cqi_indication_t") msgs)
    (oai_nfapi_cqi_indication sequence_number).

(** What comes of a batch with the identifier [msg_id]. *)
Definition call_of (o : option sent) : outcome := match o with Some s => Call s | None => NotSent end.
(* src: nfapi_pnf.c :: oai_subframe_aggregate_message_id *)
Definition oai_subframe_aggregate_message_id (msg_id sequence_number : Z) (msgs : list message_buffer_t) : list outcome :=
  switch
    [(NFAPI_RACH_INDICATION, Call <$> oai_subframe_aggregate_rach_ind crc32 cfg behind sequence_number msgs);
     (NFAPI_CRC_INDICATION, [call_of (oai_subframe_aggregate_crc_ind crc32 cfg behind sequence_number msgs)]);
     (NFAPI_RX_ULSCH_INDICATION, [oai_subframe_aggregate_rx_ind sequence_number msgs]);
     (NFAPI_RX_CQI_INDICATION, [oai_subframe_aggregate_cqi_ind sequence_number msgs]);
     (NFAPI_HARQ_INDICATION, [oai_subframe_aggregate_harq_ind sequence_number msgs]);
     (NFAPI_RX_SR_INDICATION, [call_of (oai_subframe_aggregate_sr_ind crc32 cfg behind sequence_number msgs)])]
    [] msg_id.
End aggregators.

(** ** From the UEs' packets to the eNB's message *)

Ltac case_shape H :=
  unfold lte_shapes in H;
  repeat first [ apply elem_of_nil in H; contradiction
               | apply elem_of_cons in H; destruct H as [H|H]; [injection H as -> -> ->|] ].

Section batch.
#[local] Set Default Proof Using "Type*".
Context (id : Z) (type : string) (sh : lte_shape) (Hin : (id, (type, sh)) ∈ lte_shapes).
#[local] Abbreviation g := (l_agg sh).
#[local] Abbreviation codec := (l_codec sh).
#[local] Abbreviation body u := (member u (l_body sh)).

Lemma lte_in : LteRelay sh /\ (id, codec) ∈ lte_p7_codecs /\ id ∈ lte_uplink_ids /\ in_u16 id.
Proof.
  case_shape Hin; (split; [typeclasses eauto|]); (split; [|split; [|done]]).
  all: try (unfold lte_uplink_ids; repeat first [apply list_elem_of_here | apply list_elem_of_further]).
  all: unfold lte_p7_codecs; repeat first [apply list_elem_of_here | apply list_elem_of_further].
Qed.

#[local] Instance lte_relay_in : LteRelay sh.
Proof. apply lte_in. Qed.

(** Packing and unpacking, with the bytes. *)
Definition lte_frame (h : nfapi_p7_message_header_t) (s : struct) : list Z :=
  header_bytes (P7Header (phy_id h) id (16 + zlen (lc_bytes codec s)) (m_segment_sequence h) 0 (transmit_timestamp h)) ++ lc_bytes codec s.

Lemma lte_packed vp h s buflen : message_id h = id -> header_ok h -> lc_ok codec s ->
  16 + zlen (lc_bytes codec s) <= 65535 -> 16 + zlen (lc_bytes codec s) <= buflen < 4294967296 ->
  nfapi_p7_message_pack vp h s buflen = Some (lte_frame h s).
Proof.
  intros Hid Hh Hok H16 Hb. destruct lte_in as (_ & Hc & _). unfold nfapi_p7_message_pack, lte_frame. rewrite Hid.
  rewrite (p7_frame_pack_ok _ _ _ _ Hh (lte_p7_packs vp _ _ _ Hc Hok)) by lia. by rewrite Hid.
Qed.

Lemma lte_unpacked sizeof behind vu h s size : header_ok h -> message_id h = id -> lc_ok codec s ->
  16 + zlen (lc_bytes codec s) <= 65535 -> 16 <= size -> check_unpack_length sizeof id size <> 0 ->
  nfapi_p7_message_unpack sizeof behind vu (lte_frame h s) size =
  Some (P7Header (phy_id h) id (zlen (lte_frame h s)) (m_segment_sequence h) 0 (transmit_timestamp h), lc_copy codec s).
Proof.
  intros (? & ? & ? & ? & ? & ?) Hid Hok H16 Hs Hc. destruct lte_in as (_ & Hco & _ & Hi). pose proof (zlen_nonneg (lc_bytes codec s)).
  pose proof (lte_p7_unpacks sizeof behind vu _ _ _ size Hco Hok Hc) as Hu.
  unfold nfapi_p7_message_unpack, lte_frame. rewrite p7_frame_unpack_ok; [| |cbn [message_length]; lia|done].
  2: { unfold header_ok. cbn [phy_id message_id message_length m_segment_sequence checksum transmit_timestamp]. repeat split; wrap_lia. }
  cbn [message_id]. rewrite Hu. cbn [Z.eqb]. do 3 f_equal. by autorewrite with zlen.
Qed.

(** A packet a UE packed: an indication in range that fits a packet, and whose
    offsets, once packed, do not ask to be computed. *)
Definition lte_packet (vp : option (struct -> packer)) (m : message_buffer_t) (u : nfapi_p7_message_header_t * struct) : Prop :=
  header_ok u.1 /\ message_id u.1 = id /\ lc_ok codec u.2 /\ 16 + zlen (lc_bytes codec u.2) <= 8192 /\
  Forall (l_settled sh) (l_pdus sh (l_prepare sh (body u.2))) /\ nfapi_p7_message_pack vp u.1 u.2 8192 = Some (mb_data m).

Lemma lte_packet_frame vp m u : lte_packet vp m u -> mb_data m = lte_frame u.1 u.2.
Proof. intros (Hh & Hid & Hok & Hz & _ & Hp). rewrite (lte_packed vp u.1 u.2 8192) in Hp by (done || lia). by injection Hp. Qed.

(** What the aggregator unpacks. *)
Definition lte_received (u : struct) : struct := lc_copy codec u.
Definition seen_as (u : nfapi_p7_message_header_t * struct) : nfapi_p7_message_header_t * struct :=
  (P7Header (phy_id u.1) id (zlen (lte_frame u.1 u.2)) (m_segment_sequence u.1) 0 (transmit_timestamp u.1), lte_received u.2).

Lemma lte_check_size sizeof : 16 <= sizeof type -> check_unpack_length sizeof id (sizeof type) <> 0.
Proof.
  intros H16. assert (check_unpack_length sizeof id (sizeof type) = fits_in sizeof type (sizeof type)) as ->;
    [|unfold fits_in; rewrite Z.leb_refl; lia].
  clear H16. case_shape Hin; reflexivity.
Qed.

Lemma lte_packets_seen sizeof behind vp msgs us : 16 <= sizeof type -> Forall2 (lte_packet vp) msgs us ->
  Forall2 (received_as (lte_unpack sizeof behind type)) msgs (seen_as <$> us).
Proof.
  intros H16 Hb. apply Forall2_fmap_r. eapply Forall2_impl; [exact Hb|]. intros m u Hp. unfold received_as, lte_unpack.
  rewrite (lte_packet_frame vp m u Hp). destruct Hp as (Hh & Hid & Hok & Hz & _).
  rewrite lte_unpacked; [done..|lia|done|by apply lte_check_size].
Qed.

Definition number_of_pdus (us : list (nfapi_p7_message_header_t * struct)) : Z := foldr (fun u n => num (body u.2) (l_count sh) + n) 0 us.

(** The body that was received. *)
Lemma received_body u : lc_ok codec u ->
  part g (lte_received u) = l_copy sh (body u) (fresh_body (l_tag sh) (l_bytes sh (body u))) /\
  num (lte_received u) "sfn_sf" = num u "sfn_sf" /\ l_ok sh (body u) /\
  l_exact (sh := sh) (part g (lte_received u)) /\ count g (lte_received u) = num (body u) (l_count sh) /\
  0 <= num (body u) (l_count sh) /\ tl_of (part g (lte_received u)) = Tl (l_tag sh) (zlen (l_bytes sh (body u))) /\
  l_pdus sh (part g (lte_received u)) = l_pdu_copy sh <$> l_pdus sh (l_prepare sh (body u)).
Proof.
  intros [Hfit Hok]. unfold lte_received. cbn [lc_copy l_codec body_codec] in *. unfold message_copy.
  set (c := l_copy sh _ _). assert (part g (set_member (l_body sh) c (set_num "sfn_sf" (num u "sfn_sf") zero)) = c) as Hc
    by (unfold part; rewrite lr_body; by rewrite member_set_member, decide_True).
  unfold count. rewrite Hc. destruct (lr_copy _ (fresh_body (l_tag sh) (l_bytes sh (body u))) Hok) as (C1 & C2 & C3 & C4 & C5).
  fold c in C1, C2, C3, C4, C5. destruct (lr_ok _ Hok) as [Hf _].
  assert (exists f, f ∈ ag_lists g) as [f Hf'] by (destruct lr_lists as [[f ->]|(f & f' & -> & _)]; exists f; apply list_elem_of_here).
  split_and!; [done| |done|intros f0 Hf0; rewrite C2; by apply C5|exact C2|by apply (Hf f Hf')|exact C4|exact C3].
  change (num (set_member ?f ?m ?s)) with (num s). by rewrite num_set_num, decide_True.
Qed.

(** *** What is merged *)

(** [a] holds the PDUs that are received from the indications [us]. *)
Record lte_aggregate (us : list struct) (a : struct) : Prop := {
  la_us : Forall (fun u => lc_ok codec u /\ Forall (l_settled sh) (l_pdus sh (l_prepare sh (body u)))) us;
  la_full : l_full sh (body a);
  la_some : num (body a) (l_count sh) <> 0;
  la_pdus : l_pdus sh (body a) = concat ((fun u => l_pdus sh (part g (lte_received u))) <$> us);
  la_sfn : in_u16 (num a "sfn_sf");
  la_tag : tl_tag (tl_of (body a)) = l_tag sh;
  la_length : in_u16 (tl_length (tl_of (body a))) }.

(** The bytes of the PDUs and of what follows them. *)
Definition pdus_size (l : list (struct * struct)) : Z := zlen (concat (l_pdu_bytes sh <$> l)) + zlen (concat (l_pdu_data sh <$> l)).
Lemma pdus_size_app a b : pdus_size (a ++ b) = pdus_size a + pdus_size b.
Proof. unfold pdus_size. rewrite !fmap_app, !concat_app, !zlen_app. lia. Qed.

(** PDUs that were received are sent on. *)
Lemma received_pdus u : lc_ok codec u -> Forall (l_settled sh) (l_pdus sh (l_prepare sh (body u))) ->
  Forall (fun e => l_pdu_ok sh e /\ l_settled sh e /\ l_pdu_copy sh e = e) (l_pdus sh (part g (lte_received u))) /\
  pdus_size (l_pdus sh (part g (lte_received u))) = zlen (l_bytes sh (body u)) - 2.
Proof.
  intros Hok Hs. destruct (received_body u Hok) as (_ & _ & Hl & _ & _ & _ & _ & ->). destruct (lr_ok _ Hl) as [_ Hp].
  rewrite (lr_bytes _ Hl), !zlen_app, zlen_be16. split.
  - apply Forall_fmap. assert (Forall (fun e => l_pdu_ok sh e /\ l_settled sh e) (l_pdus sh (l_prepare sh (body u)))) as Ha
      by (apply Forall_and; by split).
    refine (list.Forall_impl _ _ _ Ha _). intros e [He Hse]. unfold compose. destruct (lr_relay e He) as (R1 & _ & _ & R4).
    split_and!; [done|by apply lr_settled|done].
  - unfold pdus_size. rewrite <- !list_fmap_compose.
    assert (l_pdu_bytes sh ∘ l_pdu_copy sh <$> l_pdus sh (l_prepare sh (body u)) = l_pdu_bytes sh <$> l_pdus sh (l_prepare sh (body u))) as ->.
    { apply Forall_fmap_ext. refine (list.Forall_impl _ _ _ Hp _). intros e He. by apply lr_relay. }
    assert (l_pdu_data sh ∘ l_pdu_copy sh <$> l_pdus sh (l_prepare sh (body u)) = l_pdu_data sh <$> l_pdus sh (l_prepare sh (body u))) as ->.
    { apply Forall_fmap_ext. refine (list.Forall_impl _ _ _ Hp _). intros e He. by apply lr_relay. }
    lia.
Qed.

Lemma aggregate_pdus us a : lte_aggregate us a ->
  Forall (fun e => l_pdu_ok sh e /\ l_settled sh e /\ l_pdu_copy sh e = e) (l_pdus sh (body a)) /\
  pdus_size (l_pdus sh (body a)) = foldr (fun u n => zlen (l_bytes sh (body u)) - 2 + n) 0 us.
Proof.
  intros [Hus _ _ -> _ _ _]. induction Hus as [|u us [Hu Hs] _ [I1 I2]]; [done|]. cbn [fmap list_fmap concat foldr].
  destruct (received_pdus u Hu Hs) as [R1 R2]. rewrite pdus_size_app, R2, I2. split; [by apply Forall_app|done].
Qed.

(** The aggregate may be sent. *)
Lemma aggregate_sendable us a : lte_aggregate us a -> us <> [] ->
  foldr (fun u n => 16 + zlen (lc_bytes codec u) + n) 0 us <= 8192 ->
  lc_ok codec a /\ 16 + zlen (lc_bytes codec a) <= 8192.
Proof.
  intros Ha Hne Hz. destruct (aggregate_pdus us a Ha) as [Hp Hsz]. destruct Ha as [Hus Hf Hsome Hpdus Hsfn Htag Hlen].
  assert (Forall (l_settled sh) (l_pdus sh (body a))) as Hset by (refine (list.Forall_impl _ _ _ Hp _); by intros e (_ & ? & _)).
  assert (Forall (l_pdu_ok sh) (l_pdus sh (body a))) as Hok by (refine (list.Forall_impl _ _ _ Hp _); by intros e (? & _)).
  pose proof (lr_send _ Hf Hsome Hset Hok) as Hl.
  assert (zlen (l_bytes sh (body a)) = 2 + pdus_size (l_pdus sh (body a))) as Hb
    by (rewrite (lr_bytes _ Hl), (lr_prepare _ Hf Hset), !zlen_app, zlen_be16; unfold pdus_size; lia).
  assert (Hmsg : forall u, zlen (lc_bytes codec u) = 6 + zlen (l_bytes sh (body u)))
    by (intros u; cbn [lc_bytes l_codec body_codec]; unfold message_bytes, tlv_bytes; autorewrite with zlen; rewrite ?zlen_be16; lia).
  assert (16 + zlen (lc_bytes codec a) <= foldr (fun u n => 16 + zlen (lc_bytes codec u) + n) 0 us) as Hle.
  { rewrite Hmsg, Hb, Hsz. destruct us as [|u us]; [done|]. cbn [foldr]. rewrite Hmsg.
    assert (foldr (fun u n => zlen (l_bytes sh (body u)) - 2 + n) 0 us <= foldr (fun u n => 16 + zlen (lc_bytes codec u) + n) 0 us); [|lia].
    clear - Hmsg. induction us as [|v us IH]; [done|]. cbn [foldr]. rewrite Hmsg. lia. }
  split; [|lia]. cbn [lc_ok l_codec body_codec]. split; [|exact Hl]. split_and!; [done..|].
  rewrite Hmsg in Hle. pose proof (zlen_nonneg (l_bytes sh (body a))). wrap_lia.
Qed.

(** The receiver has the PDUs of all packets as it would have unpacked them. *)
Lemma lte_aggregate_received us a : lte_aggregate us a -> lc_ok codec a ->
  (forall f, f ∈ ag_lists g -> sub (body (lc_copy codec a)) f = concat ((fun u => sub (part g (lte_received u)) f) <$> us)) /\
  num (body (lc_copy codec a)) (l_count sh) = num (body a) (l_count sh) /\ num (lc_copy codec a) "sfn_sf" = num a "sfn_sf".
Proof.
  intros Ha Hok. destruct (aggregate_pdus us a Ha) as [Hp _]. destruct Ha as [Hus Hf Hsome Hpdus Hsfn Htag Hlen].
  assert (Forall (l_settled sh) (l_pdus sh (body a))) as Hset by (refine (list.Forall_impl _ _ _ Hp _); by intros e (_ & ? & _)).
  destruct (received_body a Hok) as (_ & R2 & _ & R4 & R5 & _ & _ & R8).
  assert (part g (lte_received a) = body (lc_copy codec a)) as Hpart by (unfold part, lte_received; by rewrite lr_body).
  unfold count in R5. rewrite Hpart in R4, R5, R8. split_and!; [|exact R5|exact R2].
  intros f Hfl. rewrite <- (l_pdus_proj _ f R4 Hfl), R8, (lr_prepare _ Hf Hset).
  assert (l_pdu_copy sh <$> l_pdus sh (body a) = l_pdus sh (body a)) as ->.
  { rewrite <- (list_fmap_id (l_pdus sh (body a))) at 2. apply Forall_fmap_ext. refine (list.Forall_impl _ _ _ Hp _). by intros e (_ & _ & ?). }
  rewrite Hpdus, fmap_concat, <- list_fmap_compose. f_equal. apply Forall_fmap_ext.
  refine (list.Forall_impl _ _ _ Hus _). intros u [Hu _]. unfold compose. destruct (received_body u Hu) as (_ & _ & _ & Hx & _).
  by apply l_pdus_proj.
Qed.

Lemma count_not_copied : ag_count g ∉ ag_copied g.
Proof. rewrite lr_copied. intros H%list_elem_of_singleton. revert H. clear - Hin. case_shape Hin; done. Qed.
Lemma lists_distinct : NoDup (ag_lists g).
Proof.
  destruct lr_lists as [[f ->]|(f & f' & -> & Hne)]; [apply NoDup_singleton|]. constructor; [by intros ?%list_elem_of_singleton|apply NoDup_singleton].
Qed.

Lemma lte_seen_accepted us : Forall (fun u => lc_ok codec u.2 /\ ag_aborts g (lte_received u.2) = false) us ->
  Forall (accepted g) (seen_as <$> us).
Proof.
  intros Hus. apply Forall_fmap. refine (list.Forall_impl _ _ _ Hus _). intros u [Hok Hab].
  destruct (received_body u.2 Hok) as (_ & _ & _ & Hx & Hc & H0 & _). unfold accepted, compose, seen_as. cbn [snd].
  split_and!; [done|by rewrite Hc|]. intros f Hf. pose proof (Hx f Hf) as Hz. fold (count g (lte_received u.2)) in Hz. rewrite Hz, Hc.
  unfold count in Hc. change (num (part g (lte_received u.2)) (l_count sh) = num (body u.2) (l_count sh)) in Hc. rewrite Hc. lia.
Qed.

Lemma lte_total_number us : Forall (fun u => lc_ok codec u.2) us ->
  Z.of_nat (total_pdus g (seen_as <$> us)) = number_of_pdus us.
Proof.
  unfold total_pdus. induction 1 as [|u us Hok _ IH]; [done|]. cbn [fmap list_fmap sum_list number_of_pdus foldr] in *.
  fold (number_of_pdus us). rewrite <- IH, Nat2Z.inj_add. f_equal. destruct (received_body u.2 Hok) as (_ & _ & _ & _ & Hc & H0 & _).
  change (Datatypes.id ?x) with x. unfold n_of, compose, seen_as. cbn [snd]. rewrite Hc. by rewrite Z2Nat.id.
Qed.

(** The aggregate of a batch that fits. *)
Lemma lte_batch_merged sizeof behind vp msgs us : 16 <= sizeof type -> Forall2 (lte_packet vp) msgs us ->
  Forall (fun u => ag_aborts g (lte_received u.2) = false) us -> 0 < number_of_pdus us <= 100 ->
  exists a u, aggregate_batch g (lte_unpack sizeof behind type) msgs = Merged (seen_as u).1 a /\ u ∈ us /\
    lte_aggregate (snd <$> us) a /\ num a "sfn_sf" = num u.2 "sfn_sf" /\ num (body a) (l_count sh) = number_of_pdus us.
Proof.
  intros H16 Hb Hab Hn.
  assert (Forall (fun u => lc_ok codec u.2 /\ Forall (l_settled sh) (l_pdus sh (l_prepare sh (body u.2)))) us) as Hok
    by (eapply Forall2_Forall_r; [exact Hb|]; apply list.Forall_forall; by intros m _ u (_ & _ & H & _ & Hs & _)).
  assert (Forall (fun u => lc_ok codec u.2) us) as Hlc by (refine (list.Forall_impl _ _ _ Hok _); by intros u [? _]).
  pose proof (lte_total_number us Hlc) as Ht.
  assert (forall n, 0 <= n <= Z.of_nat (ag_max g) -> ag_width g n = n) as Hw
    by (intros n Hm; rewrite lr_width; rewrite lr_max in Hm; apply u16_small; wrap_lia).
  destruct (aggregate_fit g lists_distinct count_not_copied (lte_unpack sizeof behind type) Hw (seen_as <$> us) msgs (fun _ => []) 0 header0 (empty_aggregate g))
    as (h' & a & v & E & [[Hk Hf] Hc] & Hv & (-> & Hcopy & Htl) & _).
  - by apply lte_packets_seen with vp.
  - apply lte_seen_accepted, Forall_and. split; [exact Hlc|exact Hab].
  - exact (empty_merged g lists_distinct count_not_copied).
  - rewrite lr_max. lia.
  - destruct us; [cbn in Hn; lia|done].
  - apply list_elem_of_fmap in Hv as (u & -> & Hu). exists a, u.
    assert (part g a = body a) as Hpart by (unfold part; by rewrite lr_body). rewrite Hpart in Hf, Htl. unfold count in Hc. rewrite Hpart in Hc.
    change (num (body a) (l_count sh) = Z.of_nat (0 + total_pdus g (seen_as <$> us))) in Hc. cbn [Nat.add] in Hc, Hf. rewrite Ht in Hc.
    pose proof (proj1 (list.Forall_forall _ _) Hlc u Hu) as Hu2. destruct (received_body u.2 Hu2) as (_ & R2 & _ & _ & _ & _ & R7 & _).
    assert (num a "sfn_sf" = num u.2 "sfn_sf") as Hsfn by (rewrite Hcopy by (rewrite lr_copied; apply list_elem_of_here); exact R2).
    assert (forall f, f ∈ ag_lists g -> pdus g f = fun s => take (Z.to_nat (count g s)) (sub (part g s) f)) as Hpd by done.
    assert (Hacc : forall f, f ∈ ag_lists g -> all_pdus g (seen_as <$> us) f = concat ((fun p => sub p f) <$> ((fun u => part g (lte_received u)) <$> (snd <$> us)))).
    { intros f Hfl. unfold all_pdus. rewrite <- !list_fmap_compose. f_equal. apply Forall_fmap_ext. refine (list.Forall_impl _ _ _ Hlc _).
      intros w Hw2. unfold compose, seen_as, pdus. cbn [snd]. destruct (received_body w.2 Hw2) as (_ & _ & _ & Hx & _). pose proof (Hx f Hfl) as Hz.
      fold (l_count sh) in *. unfold count. change (ag_count g) with (l_count sh). apply take_ge. unfold zlen in Hz. lia. }
    split_and!; [exact E|done| |exact Hsfn|exact Hc]. split.
    + rewrite Forall_fmap. exact Hok.
    + intros f Hfl. destruct (Hf f Hfl) as [Hl ->]. rewrite Hc. unfold count_ok. rewrite zlen_app. unfold zlen at 1. rewrite Hl.
      pose proof (zlen_nonneg (replicate (ag_max g - total_pdus g (seen_as <$> us)) zero)). lia.
    + rewrite Hc. lia.
    + rewrite (l_pdus_concat (body a) ((fun u => part g (lte_received u)) <$> (snd <$> us))).
      * by rewrite <- list_fmap_compose.
      * apply Forall_fmap, Forall_fmap. refine (list.Forall_impl _ _ _ Hlc _). intros w Hw2. apply (received_body w.2 Hw2).
      * intros f Hfl. rewrite <- Hacc by done. destruct (Hf f Hfl) as [Hl ->]. rewrite Hc, <- Ht, Nat2Z.id, <- Hl.
        cbn [app]. by rewrite take_app_length.
    + rewrite Hsfn. destruct Hu2 as [(? & _) _]. done.
    + rewrite Htl by (by rewrite lr_body). cbn [seen_as snd]. by rewrite R7.
    + rewrite Htl by (by rewrite lr_body). cbn [seen_as snd]. rewrite R7. by destruct Hu2 as [(_ & _ & _ & ?) _].
Qed.
End batch.

(** ** Sending the aggregate *)

Section sending.
#[local] Set Default Proof Using "Type*".
Context (id : Z) (type : string) (sh : lte_shape) (Hin : (id, (type, sh)) ∈ lte_shapes).
#[local] Instance lte_relay_sh : LteRelay sh.
Proof. by apply (lte_in id type). Qed.
#[local] Abbreviation body u := (member u (l_body sh)).

Lemma frames_length us msgs vp' : Forall2 (lte_packet id sh vp') msgs us ->
  foldr (fun u n => 16 + zlen (lc_bytes (l_codec sh) u) + n) 0 (snd <$> us) = foldr (fun m n => mb_length m + n) 0 msgs.
Proof.
  induction 1 as [|m u msgs us Hm _ IH]; [done|]. cbn [fmap list_fmap foldr]. rewrite IH. f_equal.
  unfold mb_length. rewrite (lte_packet_frame id type sh Hin vp' m u Hm). unfold lte_frame. autorewrite with zlen. lia.
Qed.

(** What the packer leaves of it holds the same PDUs. *)
Lemma prepared_aggregate us a : lte_aggregate sh us a -> lte_aggregate sh us (prepared_body (l_body sh) (l_prepare sh) a).
Proof.
  intros Ha. destruct (aggregate_pdus id type sh Hin us a Ha) as [Hp _]. destruct Ha as [Hus Hf Hsome Hpdus Hsfn Htag Hlen].
  destruct (lr_prepared (body a)) as (P1 & P2 & P3).
  assert (body (prepared_body (l_body sh) (l_prepare sh) a) = l_prepare sh (body a)) as E
    by (unfold prepared_body; by rewrite member_set_member, decide_True).
  split; rewrite ?E, ?P1, ?P2; try done.
  - intros f Hfl. specialize (Hf f Hfl). unfold count_ok in *. by rewrite P1, P3.
  - rewrite lr_prepare; [done|done|]. refine (list.Forall_impl _ _ _ Hp _). by intros e (_ & ? & _).
Qed.
Context (crc32 : Z -> list Z -> Z) (cfg : p7_config) (vp : option (struct -> packer)).

(** What the eNB gets. *)
Definition arrives (seq : Z) (h : nfapi_p7_message_header_t) (a : struct) (s : sent) : Prop :=
  exists bytes, s = Sent (0, u32 (seq + 1), datagrams crc32 cfg (fun _ b => b) bytes) /\
    forall sizeof behind vu size, 16 <= size -> check_unpack_length sizeof id size <> 0 ->
      nfapi_p7_message_unpack sizeof behind vu bytes size =
        Some (merged_header id seq bytes (transmit_timestamp h), lc_copy (l_codec sh) a).

Lemma send_arrives seq h a : message_id h = id -> header_ok h -> lc_ok (l_codec sh) a ->
  16 + zlen (lc_bytes (l_codec sh) a) <= 8192 -> arrives seq h a (send_lte crc32 cfg vp id seq h a).
Proof.
  intros Hid (Hh1 & Hh2 & Hh3 & Hh4 & Hh5 & Hh6) Hok Hz. set (h' := set_ids id h (NFAPI_P7_SET_MSS 0 0 seq)).
  assert (header_ok h') as Hh' by (rewrite Hid in Hh2; split; [done|]; split; [exact Hh2|]; split; [done|]; split; [apply set_mss_u16|done]).
  exists (lte_frame id sh h' a). split.
  - unfold send_lte, pnf_p7_pack_and_send_p7_message. cbv beta. fold h'.
    rewrite (lte_packed id type sh Hin vp h' a NFAPI_MAX_PACKED_MESSAGE_SIZE);
      [done..|lia|unfold NFAPI_MAX_PACKED_MESSAGE_SIZE; lia].
  - intros sizeof' behind' vu size Hs Hc. rewrite (lte_unpacked id type sh Hin sizeof' behind' vu h' a size); [done..|lia|done|done].
Qed.

End sending.

(** The senders of the three aggregators. *)
Definition lte_sender (crc32 : Z -> list Z -> Z) (cfg : p7_config) (sizeof : string -> Z) (behind : nat -> Z)
    (vp : option (struct -> packer)) (id : Z) : Z -> nfapi_p7_message_header_t -> struct -> sent :=
  switch
    [(NFAPI_HARQ_INDICATION, oai_nfapi_harq_indication crc32 cfg vp);
     (NFAPI_RX_ULSCH_INDICATION, oai_nfapi_rx_ind crc32 cfg sizeof behind vp)]
    (oai_nfapi_cqi_indication crc32 cfg vp) id.

Lemma count_in_range {A} n (l : list A) : count_ok n 100 l -> (zlen l <? n) = false /\ (100 <? n) = false.
Proof. unfold count_ok. lia. Qed.

(** They send the aggregate, the one of RX after packing it once. *)
Lemma senders_send crc32 cfg sizeof behind vp id type sh seq h a us : (id, (type, sh)) ∈ lte_shapes -> 16 <= sizeof type ->
  message_id h = id -> header_ok h -> lte_aggregate sh us a -> us <> [] ->
  foldr (fun u n => 16 + zlen (lc_bytes (l_codec sh) u) + n) 0 us <= 8192 ->
  exists a', lte_aggregate sh us a' /\ num a' "sfn_sf" = num a "sfn_sf" /\
    num (member a' (l_body sh)) (l_count sh) = num (member a (l_body sh)) (l_count sh) /\
    arrives id sh crc32 cfg seq h a' (lte_sender crc32 cfg sizeof behind vp id seq h a).
Proof.
  intros Hin H16 Hid Hh Ha Hne Hz. destruct (aggregate_sendable id type sh Hin us a Ha Hne Hz) as [Hok Hs].
  pose proof (prepared_aggregate id type sh Hin us a Ha) as Ha'. destruct (aggregate_sendable id type sh Hin us _ Ha' Hne Hz) as [Hok' Hs'].
  pose proof (send_arrives id type sh Hin crc32 cfg vp seq h a Hid Hh Hok Hs) as Hsend.
  pose proof (send_arrives id type sh Hin crc32 cfg vp seq h _ Hid Hh Hok' Hs') as Hsend'.
  set (h0 := set_ids id h (m_segment_sequence h)).
  assert (header_ok h0 /\ message_id h0 = id) as [Hh0 Hid0].
  { unfold header_ok in *. destruct (lte_in id type sh Hin) as (_ & _ & _ & ?). split; [|done]. subst h0.
    cbn [set_ids phy_id message_id message_length m_segment_sequence checksum transmit_timestamp]. rewrite Hid in Hh. by intuition. }
  pose proof (lte_unpacked id type sh Hin sizeof behind None h0 a (sizeof type) Hh0 Hid0 Hok ltac:(lia) H16 (lte_check_size id type sh Hin sizeof H16)) as Hun.
  pose proof (lte_packed id type sh Hin None h0 a NFAPI_RX_IND_DATA_MAX Hid0 Hh0 Hok ltac:(lia) ltac:(unfold NFAPI_RX_IND_DATA_MAX; lia)) as Hpk.
  assert (body_packed sh a = true) as Hbp by (unfold body_packed; rewrite (la_tag _ _ _ Ha); apply Z.eqb_refl).
  pose proof (la_full _ _ _ Ha) as Hf. pose proof (proj1 (lr_prepared (LteRelay := lte_relay_sh id type sh Hin) (member a (l_body sh)))) as Hn.
  case_shape Hin.
  - exists a. split_and!; [done..|]. change (lte_sender crc32 cfg sizeof behind vp _ seq h a) with (oai_nfapi_harq_indication crc32 cfg vp seq h a).
    unfold oai_nfapi_harq_indication. destruct (count_in_range _ _ (Hf "harq_pdu_list" (list_elem_of_here _ _))) as [E _].
    rewrite Hbp. unfold body_count. change (l_body harq_shape) with "harq_indication_body" in *. rewrite E. exact Hsend.
  - exists (prepared_body "rx_indication_body" prepare_rx_ulsch_indication_body a). split_and!; [done|done| |].
    { unfold prepared_body. rewrite member_set_member, decide_True by done. by rewrite <- Hn. }
    change (lte_sender crc32 cfg sizeof behind vp _ seq h a) with (oai_nfapi_rx_ind crc32 cfg sizeof behind vp seq h a).
    unfold oai_nfapi_rx_ind. destruct (count_in_range _ _ (Hf "rx_pdu_list" (list_elem_of_here _ _))) as [_ E].
    rewrite Hbp. unfold body_count. change NFAPI_RX_IND_MAX_PDU with 100. rewrite E. cbn [andb]. fold h0. rewrite Hpk.
    unfold lte_unpack. rewrite Hun. destruct Hsend' as (bytes & Eb & Hr). exists bytes. split; [|exact Hr].
    change (prepared_body (l_body rx_shape) (l_prepare rx_shape) a) with (prepared_body "rx_indication_body" prepare_rx_ulsch_indication_body a) in Eb.
    rewrite Eb. done.
  - exists a. split_and!; [done..|]. change (lte_sender crc32 cfg sizeof behind vp _ seq h a) with (oai_nfapi_cqi_indication crc32 cfg vp seq h a).
    unfold oai_nfapi_cqi_indication. destruct (count_in_range _ _ (Hf "cqi_pdu_list" (list_elem_of_here _ _))) as [_ E].
    rewrite Hbp. unfold body_count. change NFAPI_CQI_IND_MAX_PDU with 100. rewrite E. exact Hsend.
Qed.

(** The branch of the dispatcher. *)
Lemma lte_merging_branch crc32 cfg sizeof behind vp id type sh seq msgs h a : (id, (type, sh)) ∈ lte_shapes ->
  undated get_sfnsf msgs = false -> aggregate_batch (l_agg sh) (lte_unpack sizeof behind type) msgs = Merged h a ->
  oai_subframe_aggregate_message_id crc32 cfg sizeof behind vp id seq msgs =
  [Call (lte_sender crc32 cfg sizeof behind vp id seq h a)].
Proof.
  intros Hin Hd E. case_shape Hin; cbn [l_agg harq_shape rx_shape cqi_shape] in E;
    unfold oai_subframe_aggregate_message_id; cbn [switch];
    unfold oai_subframe_aggregate_harq_ind, oai_subframe_aggregate_rx_ind, oai_subframe_aggregate_cqi_ind;
    rewrite E, ?Hd; reflexivity.
Qed.

Lemma lte_batch_dated id type sh vp msgs us : (id, (type, sh)) ∈ lte_shapes -> Forall2 (lte_packet id sh vp) msgs us ->
  undated get_sfnsf msgs = false.
Proof.
  intros Hin Hb. destruct Hb as [|m u msgs us Hp Hb]; [done|]. unfold undated. destruct Hb; [done|]. apply bool_decide_eq_false.
  rewrite (lte_packet_frame id type sh Hin vp m u Hp). destruct Hp as ((Hphy & _) & _ & [(Hs & _) _] & _).
  destruct (lte_in id type sh Hin) as (_ & _ & Hid & H16).
  unfold lte_frame, header_bytes. cbn [phy_id message_id]. rewrite <- !app_assoc.
  unfold get_sfnsf, checked_id. rewrite (pa_run _ _ _ (parses_pull16 _ Hphy)), (pa_run _ _ _ (parses_pull16 _ H16)).
  rewrite bool_decide_eq_true_2 by done. by cbn.
Qed.

(** The PDUs of a packet in the array [f], as whoever unpacks it has them. *)
Definition lte_pdus (sizeof : string -> Z) (behind : nat -> Z) (type body f : string) (m : message_buffer_t) : list struct :=
  match lte_unpack sizeof behind type (mb_data m) with Some (_, ind) => sub (member ind body) f | None => [] end.

(** C8. The HARQ, RX_ULSCH or CQI indications that the UEs packed for one subframe
    reach the eNB as one indication: if together they have between one and 100
    PDUs and no more than 8192 bytes, and the aggregator does not abort on one,
    it sends one message, which unpacks to the PDUs of all packets in the order of
    the packets, each exactly as it is in the packet itself, data and offsets
    included, with their number, for that subframe, under PHY 1. *)
Theorem lte_indications_are_merged crc32 cfg sizeof behind vp vp' id type sh seq s msgs us :
  (id, (type, sh)) ∈ lte_shapes -> 16 <= sizeof type -> Forall2 (lte_packet id sh vp') msgs us ->
  Forall (fun u => ag_aborts (l_agg sh) (lte_received sh u.2) = false /\ num u.2 "sfn_sf" = s) us ->
  0 < number_of_pdus sh us <= 100 -> foldr (fun m n => mb_length m + n) 0 msgs <= 8192 ->
  exists bytes u ind, u ∈ us /\
    oai_subframe_aggregate_message_id crc32 cfg sizeof behind vp id seq msgs =
      [Call (Sent (0, u32 (seq + 1), datagrams crc32 cfg (fun _ b => b) bytes))] /\
    (forall sizeof' behind' vu size, 16 <= size -> check_unpack_length sizeof' id size <> 0 ->
      nfapi_p7_message_unpack sizeof' behind' vu bytes size =
        Some (merged_header id seq bytes (transmit_timestamp u.1), ind)) /\
    (forall f, f ∈ ag_lists (l_agg sh) ->
      sub (member ind (l_body sh)) f = concat (lte_pdus sizeof behind type (l_body sh) f <$> msgs)) /\
    num (member ind (l_body sh)) (l_count sh) = number_of_pdus sh us /\ num ind "sfn_sf" = s.
Proof.
  intros Hin H16 Hb Hus Hn Hz. apply Forall_and in Hus as [Hab Hsub].
  assert (us <> []) as Hne by (destruct us; [cbn in Hn; lia|done]).
  destruct (lte_batch_merged id type sh Hin sizeof behind vp' msgs us H16 Hb Hab Hn) as (a & u & E & Hu & Ha & Hsfn & Hnum).
  rewrite (lte_merging_branch crc32 cfg sizeof behind vp id type sh seq msgs (seen_as id sh u).1 a Hin) by (done || by eapply lte_batch_dated).
  assert (header_ok (seen_as id sh u).1) as Hhu.
  { apply list_elem_of_lookup in Hu as [i Hi]. destruct (Forall2_lookup_r _ _ _ _ _ Hb Hi) as (m & _ & (? & ? & ? & ? & ? & ?) & Hid & Hv & H8 & _).
    pose proof (zlen_nonneg (lc_bytes (l_codec sh) u.2)). destruct (lte_in id type sh Hin) as (_ & _ & _ & Hid16).
    unfold header_ok. cbn [seen_as fst phy_id message_id message_length m_segment_sequence checksum transmit_timestamp].
    split_and!; try done; unfold lte_frame; autorewrite with zlen; wrap_lia. }
  assert (foldr (fun u n => 16 + zlen (lc_bytes (l_codec sh) u) + n) 0 (snd <$> us) <= 8192) as Hsz
    by (by rewrite (frames_length id type sh Hin us msgs vp' Hb)).
  assert ((snd <$> us) <> []) as Hne2 by (by destruct us).
  destruct (senders_send crc32 cfg sizeof behind vp id type sh seq (seen_as id sh u).1 a (snd <$> us) Hin H16 eq_refl Hhu Ha Hne2 Hsz)
    as (a' & Ha' & Hsfn' & Hnum' & bytes & Hsend & Hr).
  destruct (aggregate_sendable id type sh Hin _ a' Ha' Hne2 Hsz) as [Hok' _].
  destruct (lte_aggregate_received id type sh Hin _ a' Ha' Hok') as (R1 & R2 & R3).
  exists bytes, u, (lc_copy (l_codec sh) a'). split; [done|]. split; [by rewrite Hsend|]. split; [exact Hr|]. split_and!.
  - intros f Hf. rewrite (R1 f Hf), <- list_fmap_compose. f_equal.
    pose proof (lte_packets_seen id type sh Hin sizeof behind vp' msgs us H16 Hb) as Hseen. rewrite Forall2_fmap_r in Hseen.
    symmetry. apply list_eq_Forall2, Forall2_fmap. eapply Forall2_impl; [exact Hseen|]. intros m v Hv. unfold lte_pdus. rewrite Hv.
    unfold compose, seen_as. cbn [snd]. unfold part. by rewrite (lr_body (LteRelay := lte_relay_sh id type sh Hin)).
  - by rewrite R2, Hnum'.
  - rewrite R3, Hsfn', Hsfn. by apply (proj1 (list.Forall_forall _ _) Hsub).
Qed.

(** Two UEs: an FDD HARQ PDU from the first, two from the second. *)
Definition sample_harq_pdu (rnti : Z) : struct :=
  set_member "rx_ue_information" (with_tag NFAPI_RX_UE_INFORMATION_TAG (set_num "rnti" rnti zero))
    (set_member "harq_indication_fdd_rel8" (with_tag NFAPI_HARQ_INDICATION_FDD_REL8_TAG (set_num "harq_tb1" 1 zero)) zero).
Definition sample_harq (pdus : list struct) : nfapi_p7_message_header_t * struct :=
  (sample_p7_header NFAPI_HARQ_INDICATION,
   set_num "sfn_sf" 0x1234 (set_member "harq_indication_body" (with_tag NFAPI_HARQ_INDICATION_BODY_TAG
     (set_num "number_of_harqs" (zlen pdus) (set_sub "harq_pdu_list" pdus zero))) zero)).
Definition two_harqs : list (nfapi_p7_message_header_t * struct) :=
  [sample_harq [sample_harq_pdu 0x4601]; sample_harq [sample_harq_pdu 0x4602; sample_harq_pdu 0x4603]].
Definition lte_packet_of (u : nfapi_p7_message_header_t * struct) : message_buffer_t :=
  MessageBuffer (default [] (nfapi_p7_message_pack None u.1 u.2 8192)).

Lemma packed_packet id type sh u : (id, (type, sh)) ∈ lte_shapes -> header_ok u.1 -> message_id u.1 = id ->
  lc_ok (l_codec sh) u.2 -> 16 + zlen (lc_bytes (l_codec sh) u.2) <= 8192 ->
  Forall (l_settled sh) (l_pdus sh (l_prepare sh (member u.2 (l_body sh)))) -> lte_packet id sh None (lte_packet_of u) u.
Proof.
  intros Hin Hh Hid Hok Hz Hs. split_and!; try done. unfold lte_packet_of. cbn [mb_data].
  rewrite (lte_packed id type sh Hin None u.1 u.2 8192) by (done || lia). done.
Qed.

Lemma sample_harqs_packets : Forall2 (lte_packet NFAPI_HARQ_INDICATION harq_shape None) (lte_packet_of <$> two_harqs) two_harqs.
Proof.
  apply Forall2_fmap_l, Forall_Forall2_diag. unfold two_harqs.
  assert (forall l, l ∈ [[sample_harq_pdu 0x4601]; [sample_harq_pdu 0x4602; sample_harq_pdu 0x4603]] ->
    lte_packet NFAPI_HARQ_INDICATION harq_shape None (lte_packet_of (sample_harq l)) (sample_harq l)) as H.
  { intros l Hl. apply (packed_packet _ _ _ _ (list_elem_of_here _ _)).
    - cbn [sample_harq fst]. repeat split; discriminate.
    - reflexivity.
    - apply (pdu_message_okb_spec NFAPI_HARQ_INDICATION_BODY_TAG "harq_indication_body"
        pack_harq_indication_body_value unpack_harq_indication_body_value).
      repeat first [apply elem_of_nil in Hl; contradiction | apply elem_of_cons in Hl; destruct Hl as [-> | Hl]]; vm_compute; reflexivity.
    - repeat first [apply elem_of_nil in Hl; contradiction | apply elem_of_cons in Hl; destruct Hl as [-> | Hl]]; vm_compute; discriminate.
    - apply list.Forall_forall. done. }
  constructor; [apply H, list_elem_of_here|]. constructor; [apply H, list_elem_of_further, list_elem_of_here|constructor].
Qed.

Lemma lte_indications_are_merged_witness : exists bytes u ind, u ∈ two_harqs /\
  oai_subframe_aggregate_message_id (fun c _ => c) sample_cfg (fun _ => 64) (fun _ => 0) None NFAPI_HARQ_INDICATION 7 (lte_packet_of <$> two_harqs) =
    [Call (Sent (0, 8, datagrams (fun c _ => c) sample_cfg (fun _ b => b) bytes))] /\
  (forall sizeof' behind' vu size, 16 <= size -> check_unpack_length sizeof' NFAPI_HARQ_INDICATION size <> 0 ->
    nfapi_p7_message_unpack sizeof' behind' vu bytes size =
      Some (merged_header NFAPI_HARQ_INDICATION 7 bytes (transmit_timestamp u.1), ind)) /\
  (forall f, f ∈ ["harq_pdu_list"] -> sub (member ind "harq_indication_body") f =
    concat (lte_pdus (fun _ => 64) (fun _ => 0) "nfapi_harq_indication_t" "harq_indication_body" f <$> (lte_packet_of <$> two_harqs))) /\
  num (member ind "harq_indication_body") "number_of_harqs" = 3 /\ num ind "sfn_sf" = 0x1234.
Proof.
  apply (lte_indications_are_merged (fun c _ => c) sample_cfg (fun _ => 64) (fun _ => 0) None None NFAPI_HARQ_INDICATION
    "nfapi_harq_indication_t" harq_shape 7 0x1234 (lte_packet_of <$> two_harqs) two_harqs).
  - apply list_elem_of_here.
  - done.
  - apply sample_harqs_packets.
  - repeat constructor.
  - vm_compute. done.
  - vm_compute. done.
Defined.

(** What the eNB unpacks of two merged RX indications: the data is that of the UEs,
    and so are the offsets, for which 56 and 59 would be right. *)
Definition rx_packet (bs : list Z) : message_buffer_t :=
  lte_packet_of (sample_p7_header NFAPI_RX_ULSCH_INDICATION, sample_rx [sample_rx_pdu bs]).
Definition rx_of (m : message_buffer_t) : list (Z * list Z) :=
  (fun p => (num (member p "rx_indication_rel8") "offset", arr p "rx_ind_data")) <$>
    lte_pdus (fun _ => 64) (fun _ => 0) "nfapi_rx_indication_t" "rx_indication_body" "rx_pdu_list" m.
Definition merged_packet (g : aggregator) (type : string) (msgs : list message_buffer_t) : message_buffer_t :=
  match aggregate_batch g (lte_unpack (fun _ => 64) (fun _ => 0) type) msgs with
  | Merged h a => lte_packet_of (h, a)
  | _ => MessageBuffer []
  end.
Example rx_offsets_are_kept :
  rx_of (merged_packet rx_aggregator "nfapi_rx_indication_t" [rx_packet [7; 8; 9]; rx_packet [5]]) = [(29, [7; 8; 9]); (29, [5])] /\
  rx_of (lte_packet_of (sample_p7_header NFAPI_RX_ULSCH_INDICATION, sample_rx [sample_rx_pdu [7; 8; 9]; sample_rx_pdu [5]])) =
    [(56, [7; 8; 9]); (59, [5])].
Proof. vm_compute. done. Qed.
(** The test before the sending is passed, and an empty indication aborts. *)
Example rx_sent :
  match oai_subframe_aggregate_rx_ind (fun c _ => c) sample_cfg (fun _ => 64) (fun _ => 0) None 7 [rx_packet [7; 8; 9]; rx_packet [5]] with
  | Call (Sent (r, n, ds)) => (r, n, length ds) = (0, 8, 1%nat) | _ => False end /\
  oai_subframe_aggregate_rx_ind (fun c _ => c) sample_cfg (fun _ => 64) (fun _ => 0) None 7
    [lte_packet_of (sample_p7_header NFAPI_RX_ULSCH_INDICATION, sample_rx [])] = Crash.
Proof. vm_compute. done. Qed.
(** A CQI packet that says it has 101 PDUs is accepted, without lists. *)
Example too_many_cqis_crash :
  oai_subframe_aggregate_cqi_ind (fun c _ => c) sample_cfg (fun _ => 64) (fun _ => 0) None 7
    [let bytes := mb_data (lte_packet_of (sample_p7_header NFAPI_RX_CQI_INDICATION, sample_cqi)) in
     MessageBuffer (take 4 bytes ++ [0; 24] ++ drop 6 (take 20 bytes) ++ [0; 2; 0; 101])] = Crash.
Proof. vm_compute. reflexivity. Qed.
