(* ===== verification/NrAggregate.v ===== *)
(** * Aggregation of NR uplink indications ([nfapi_pnf.c])

    What the slot task does with one batch of packets of the same message
    identifier: the CRC, RX_DATA, UCI and SRS aggregators merge the PDUs of all
    packets into one indication for the gNB ([Merge]), the RACH aggregator
    passes every packet on.  [oai_nfapi_nr_crc_indication] and its siblings
    overwrite header fields and send the message through
    [pnf_nr_p7_pack_and_send_p7_message], whose counter is threaded through as
    [sequence_number].

    The indications of a batch that the UEs packed reach the gNB as one
    indication with all PDUs, each as if the gNB had unpacked the UE's packet
    itself.  The SRS indication is an exception: the unpacker has room for one
    PDU, and [control_length] is not copied. *)

From S2P Require Import Prelude Codec Sfn Ids UeQueue P7Header Layout Relay LtePdu NrUplink NrP7 Segmentation Aggregate Merge.
From stdpp Require Import functions strings.

Open Scope string_scope.
Open Scope list_scope.
Open Scope Z_scope.

(* src: nfapi_nr_interface_scf.h 1509-1509 NFAPI_NR_RX_DATA_IND_MAX_PDU *)
Definition NFAPI_NR_RX_DATA_IND_MAX_PDU : nat := 100.
(* src: nfapi_nr_interface_scf.h 1536-1536 NFAPI_NR_CRC_IND_MAX_PDU *)
Definition NFAPI_NR_CRC_IND_MAX_PDU : nat := 100.
(* src: nfapi_nr_interface_scf.h 1676-1676 NFAPI_NR_UCI_IND_MAX_PDU *)
Definition NFAPI_NR_UCI_IND_MAX_PDU : nat := 100.
(* src: nfapi_nr_interface_scf.h 1726-1726 NFAPI_NR_SRS_IND_MAX_PDU *)
Definition NFAPI_NR_SRS_IND_MAX_PDU : nat := 100.

(** ** The aggregators *)

(** [rnti] of a PDU, or -1. *)
(* src: nfapi_pnf.c :: get_nr_uci_rnti *)
Definition get_nr_uci_rnti (pdu : struct) (pdu_type : Z) : Z :=
  if pdu_type =? NFAPI_NR_UCI_PUSCH_PDU_TYPE then num (member pdu "pusch_pdu") "rnti"
  else if pdu_type =? NFAPI_NR_UCI_FORMAT_0_1_PDU_TYPE then num (member pdu "pucch_pdu_format_0_1") "rnti"
  else if pdu_type =? NFAPI_NR_UCI_FORMAT_2_3_4_PDU_TYPE then num (member pdu "pucch_pdu_format_2_3_4") "rnti"
  else -1.

Definition nr_crc_aggregator : aggregator :=
  Aggregator None ["sfn"; "slot"] "number_crcs" u16 ["crc_list"] NFAPI_NR_CRC_IND_MAX_PDU (fun _ => false).
Definition nr_rx_data_aggregator : aggregator :=
  Aggregator None ["sfn"; "slot"] "number_of_pdus" u16 ["pdu_list"] NFAPI_NR_RX_DATA_IND_MAX_PDU
    (fun ind => num ind "number_of_pdus" =? 0).
Definition nr_uci_aggregator : aggregator :=
  Aggregator None ["sfn"; "slot"] "num_ucis" u16 ["uci_list"] NFAPI_NR_UCI_IND_MAX_PDU
    (fun ind => (num ind "num_ucis" =? 0) ||
       let pdu := hd zero (sub ind "uci_list") in get_nr_uci_rnti pdu (num pdu "pdu_type") =? -1).
Definition nr_srs_aggregator : aggregator :=
  Aggregator None ["sfn"; "slot"] "number_of_pdus" u8 ["pdu_list"] NFAPI_NR_SRS_IND_MAX_PDU (fun _ => false).

Section aggregators.
Context (crc32 : Z -> list Z -> Z) (cfg : p7_config) (sizeof : string -> Z) (pack_p7_vendor_extension : option (struct -> packer)).

(** The packers read as many elements of the array as the count says. *)
Definition send_nr_ind (message : Z) (list_of count_of : string) (sequence_number : Z) (h : nfapi_p7_message_header_t) (ind : struct) : sent :=
  if zlen (sub ind list_of) <? num ind count_of then ArrayOverread
  else Sent (pnf_nr_p7_pack_and_send_p7_message crc32 cfg (fun mss =>
         nfapi_nr_p7_message_pack pack_p7_vendor_extension (set_ids message h mss) ind NFAPI_MAX_PACKED_MESSAGE_SIZE) sequence_number).

(* src: nfapi_pnf.c :: oai_nfapi_nr_rx_data_indication *)
Definition oai_nfapi_nr_rx_data_indication : Z -> nfapi_p7_message_header_t -> struct -> sent :=
  send_nr_ind NFAPI_NR_PHY_MSG_TYPE_RX_DATA_INDICATION "pdu_list" "number_of_pdus".
(* src: nfapi_pnf.c :: oai_nfapi_nr_crc_indication *)
Definition oai_nfapi_nr_crc_indication : Z -> nfapi_p7_message_header_t -> struct -> sent :=
  send_nr_ind NFAPI_NR_PHY_MSG_TYPE_CRC_INDICATION "crc_list" "number_crcs".
(* src: nfapi_pnf.c :: oai_nfapi_nr_srs_indication *)
Definition oai_nfapi_nr_srs_indication : Z -> nfapi_p7_message_header_t -> struct -> sent :=
  send_nr_ind NFAPI_NR_PHY_MSG_TYPE_SRS_INDICATION "pdu_list" "number_of_pdus".
(* src: nfapi_pnf.c :: oai_nfapi_nr_uci_indication *)
Definition oai_nfapi_nr_uci_indication : Z -> nfapi_p7_message_header_t -> struct -> sent :=
  send_nr_ind NFAPI_NR_PHY_MSG_TYPE_UCI_INDICATION "uci_list" "num_ucis".
(* src: nfapi_pnf.c :: oai_nfapi_nr_rach_indication *)
Definition oai_nfapi_nr_rach_indication : Z -> nfapi_p7_message_header_t -> struct -> sent :=
  send_nr_ind NFAPI_NR_PHY_MSG_TYPE_RACH_INDICATION "pdu_list" "number_of_pdus".

Definition nr_unpack (type : string) (data : list Z) : option (nfapi_p7_message_header_t * struct) :=
  nfapi_nr_p7_message_unpack sizeof None data (sizeof type).

(* src: nfapi_pnf.c :: oai_slot_aggregate_crc_ind *)
Definition oai_slot_aggregate_crc_ind (sequence_number : Z) (msgs : list message_buffer_t) : outcome :=
  send_merged (aggregate_batch nr_crc_aggregator (nr_unpack "nfapi_nr_crc_indication_t") msgs)
    (oai_nfapi_nr_crc_indication sequence_number).
(* src: nfapi_pnf.c :: oai_slot_aggregate_rx_data_ind *)
Definition oai_slot_aggregate_rx_data_ind (sequence_number : Z) (msgs : list message_buffer_t) : outcome :=
  if undated get_sfnslot msgs then Crash else
  send_merged (aggregate_batch nr_rx_data_aggregator (nr_unpack "nfapi_nr_rx_data_indication_t") msgs)
    (oai_nfapi_nr_rx_data_indication sequence_number).
(* src: nfapi_pnf.c :: oai_slot_aggregate_uci_ind *)
Definition oai_slot_aggregate_uci_ind (sequence_number : Z) (msgs : list message_buffer_t) : outcome :=
  send_merged (aggregate_batch nr_uci_aggregator (nr_unpack "nfapi_nr_uci_indication_t") msgs)
    (oai_nfapi_nr_uci_indication sequence_number).
(* src: nfapi_pnf.c :: oai_slot_aggregate_srs_ind *)
Definition oai_slot_aggregate_srs_ind (sequence_number : Z) (msgs : list message_buffer_t) : outcome :=
  send_merged (aggregate_batch nr_srs_aggregator (nr_unpack "nfapi_nr_srs_indication_t") msgs)
    (oai_nfapi_nr_srs_indication sequence_number).

(** A packet that does not unpack is skipped; all others are sent as they are. *)
(* src: nfapi_pnf.c :: oai_slot_aggregate_rach_ind *)
Fixpoint oai_slot_aggregate_rach_ind (sequence_number : Z) (msgs : list message_buffer_t) : list outcome :=
  match msgs with
  | [] => []
  | msg :: msgs =>
      match nr_unpack "nfapi_nr_rach_indication_t" (mb_data msg) with
      | None => oai_slot_aggregate_rach_ind sequence_number msgs
      | Some (h, ind) =>
          let s := oai_nfapi_nr_rach_indication sequence_number h ind in
          Call s :: oai_slot_aggregate_rach_ind (next_sequence sequence_number s) msgs
      end
  end.

(** What comes of a batch with the identifier [msg_id]. *)
(* src: nfapi_pnf.c :: oai_slot_aggregate_message_id *)
Definition oai_slot_aggregate_message_id (msg_id sequence_number : Z) (msgs : list message_buffer_t) : list outcome :=
  switch
    [(NFAPI_NR_PHY_MSG_TYPE_RACH_INDICATION, oai_slot_aggregate_rach_ind sequence_number msgs);
     (NFAPI_NR_PHY_MSG_TYPE_CRC_INDICATION, [oai_slot_aggregate_crc_ind sequence_number msgs]);
     (NFAPI_NR_PHY_MSG_TYPE_RX_DATA_INDICATION, [oai_slot_aggregate_rx_data_ind sequence_number msgs]);
     (NFAPI_NR_PHY_MSG_TYPE_UCI_INDICATION, [oai_slot_aggregate_uci_ind sequence_number msgs]);
     (NFAPI_NR_PHY_MSG_TYPE_SRS_INDICATION, [oai_slot_aggregate_srs_ind sequence_number msgs])]
    [] msg_id.
End aggregators.

(** ** The indications as rows *)

(** The numbers in front, the count and the array of an indication: [ns_heads]
    has 16 bits each, the rows of an element are [ns_body]; [ns_rows] is what the
    unpacker reads, [ns_pack] what the packer writes. *)
Record nr_shape := NrShape { ns_agg : aggregator; ns_heads : list string; ns_type : ctype; ns_list : string; ns_bound : bound;
  ns_pack : list row; ns_body : list row }.
Definition ns_count (sh : nr_shape) : string := ag_count (ns_agg sh).
Definition ns_rows (sh : nr_shape) : list row :=
  (Num U16 <$> ns_heads sh) ++ [Num (ns_type sh) (ns_count sh); Items (ns_bound sh) (ns_list sh) (Member (ns_count sh)) (ns_body sh)].

(** The type the aggregator unpacks to, and the indication. *)
Definition nr_shapes : list (Z * (string * nr_shape)) :=
  [(NFAPI_NR_PHY_MSG_TYPE_CRC_INDICATION, ("nfapi_nr_crc_indication_t",
      NrShape nr_crc_aggregator ["sfn"; "slot"] U16 "crc_list" Alloc pack_nr_crc_indication unpack_nr_crc_indication_body));
   (NFAPI_NR_PHY_MSG_TYPE_RX_DATA_INDICATION, ("nfapi_nr_rx_data_indication_t",
      NrShape nr_rx_data_aggregator ["sfn"; "slot"] U16 "pdu_list" Alloc pack_nr_rx_data_indication unpack_nr_rx_data_indication_body));
   (NFAPI_NR_PHY_MSG_TYPE_UCI_INDICATION, ("nfapi_nr_uci_indication_t",
      NrShape nr_uci_aggregator ["sfn"; "slot"] U16 "uci_list" Alloc pack_nr_uci_indication unpack_nr_uci_indication_body));
   (NFAPI_NR_PHY_MSG_TYPE_SRS_INDICATION, ("nfapi_nr_srs_indication_t",
      NrShape nr_srs_aggregator ["sfn"; "slot"; "control_length"] U8 "pdu_list" (Unchecked 1) pack_nr_srs_indication
        unpack_nr_srs_indication_body))].

(** What is needed of a shape. *)
Definition shape_wf (sh : nr_shape) : bool :=
  rows_sim (ns_pack sh) (ns_rows sh) && rows_wf [[]] (ns_rows sh) && forallb row_roomy (ns_pack sh) &&
  rows_wf [[]] (ns_body sh) && rows_plain (ns_body sh) && (limit (ns_bound sh) <? 65536) &&
  bool_decide (ns_count sh ∉ ns_heads sh) && forallb (fun f => bool_decide (f ∈ ns_heads sh)) (ag_copied (ns_agg sh)) &&
  bool_decide (ag_body (ns_agg sh) = None) && bool_decide (ag_lists (ns_agg sh) = [ns_list sh]) &&
  bool_decide (ag_max (ns_agg sh) = 100%nat) &&
  match ns_bound sh with Strided _ => false | _ => true end.
Lemma nr_shapes_checked : forallb (fun '(_, (_, sh)) => shape_wf sh) nr_shapes = true.
Proof. vm_compute. reflexivity. Qed.
Lemma nr_shapes_codecs : Forall (fun '(id, (_, sh)) => (id, (fun s => s, ns_pack sh, ns_rows sh)) ∈ nr_p7_codecs) nr_shapes.
Proof.
  repeat (apply list.Forall_cons; split; [|]); [..|constructor];
    unfold nr_p7_codecs; repeat first [apply list_elem_of_here | apply list_elem_of_further].
Qed.

Section shape.
#[local] Set Default Proof Using "Type*".
Context (sh : nr_shape) (Hwf : shape_wf sh = true).
#[local] Abbreviation g := (ns_agg sh).
#[local] Abbreviation rows := (ns_rows sh).
#[local] Abbreviation body := (ns_body sh).

Lemma shape_facts :
  rows_sim (ns_pack sh) rows = true /\ rows_wf [[]] rows = true /\ forallb row_roomy (ns_pack sh) = true /\
  rows_wf [[]] body = true /\ rows_plain body = true /\ limit (ns_bound sh) < 65536 /\ (ns_count sh ∉ ns_heads sh) /\
  (forall f, f ∈ ag_copied g -> f ∈ ns_heads sh) /\ ag_body g = None /\ ag_lists g = [ns_list sh] /\ ag_max g = 100%nat /\
  match ns_bound sh with Strided _ => False | _ => True end.
Proof.
  unfold shape_wf in Hwf. repeat apply andb_true_iff in Hwf as [Hwf ?].
  repeat match goal with H : (bool_decide _ = true) |- _ => apply bool_decide_eq_true in H | H : ((_ <? _) = true) |- _ => apply Z.ltb_lt in H end.
  split_and!; try done; [|by destruct (ns_bound sh)].
  intros f Hf. match goal with H : (forallb _ (ag_copied _) = true) |- _ => pose proof (proj1 (forallb_forall _ _) H f (proj1 (list_elem_of_In _ _) Hf)) as Hb end.
  by apply bool_decide_eq_true in Hb.
Qed.

(** What the receiver has. *)
Lemma shape_copy u s0 : rows_copy [] rows u s0 =
  set_sub (ns_list sh) ((fun e => rows_copy [u] body e zero) <$> take (Z.to_nat (num u (ns_count sh))) (sub u (ns_list sh)))
    (set_num (ns_count sh) (num u (ns_count sh)) (foldl (fun s0 f => set_num f (num u f) s0) s0 (ns_heads sh))).
Proof. unfold ns_rows, rows_copy. rewrite foldl_app, foldl_fmap. reflexivity. Qed.

Lemma shape_bytes u : rows_bytes [] rows u =
  concat ((fun f => be16 (num u f)) <$> ns_heads sh) ++ type_bytes (ns_type sh) (num u (ns_count sh)) ++
  concat (rows_bytes [u] body <$> take (Z.to_nat (num u (ns_count sh))) (sub u (ns_list sh))).
Proof.
  unfold ns_rows. rewrite rows_bytes_app. f_equal; [|cbn [rows_bytes foldr row_bytes eval hd]; by rewrite app_nil_r].
  induction (ns_heads sh) as [|f fs IH]; [done|]. cbn [fmap list_fmap concat rows_bytes foldr row_bytes]. f_equal. exact IH.
Qed.

Lemma shape_ok u : rows_ok [] rows u <->
  Forall (fun f => in_u16 (num u f)) (ns_heads sh) /\ in_type (ns_type sh) (num u (ns_count sh)) /\
  count_ok (num u (ns_count sh)) (limit (ns_bound sh)) (sub u (ns_list sh)) /\
  Forall (rows_ok [u] body) (take (Z.to_nat (num u (ns_count sh))) (sub u (ns_list sh))).
Proof.
  destruct shape_facts as (_ & _ & _ & _ & _ & _ & _ & _ & _ & _ & _ & Hb).
  unfold ns_rows. induction (ns_heads sh) as [|f fs IH].
  - cbn [fmap list_fmap app rows_ok foldr row_ok eval hd]. rewrite list.Forall_nil. tauto.
  - cbn [fmap list_fmap app rows_ok foldr row_ok]. unfold rows_ok in IH. rewrite IH, list.Forall_cons. cbn [in_type]. tauto.
Qed.

(** An element that was received, wherever it is put. *)
Definition relayed (e : struct) : Prop := forall outer, rows_ok outer body e /\ rows_copy outer body e zero = e.

Lemma element_relayed u e : rows_ok [u] body e ->
  relayed (rows_copy [u] body e zero) /\ forall outer, rows_bytes outer body (rows_copy [u] body e zero) = rows_bytes [u] body e.
Proof.
  intros He. destruct shape_facts as (_ & _ & _ & Hw & Hp & _).
  assert (forall outer, _) as Ha by (intros outer; exact (rows_alike _ _ _ _ _ (rows_copy_like body [u] outer e zero Hw Hp He))).
  split; [|intros outer; apply Ha]. intros outer. destruct (Ha outer) as (_ & Ho & Hc). split; [by apply Ho|apply Hc].
Qed.

(** The unpacked indication. *)
Definition ns_received (u : struct) : struct := rows_copy [] rows u zero.
Definition element_bytes (u : struct) : list Z :=
  concat (rows_bytes [u] body <$> take (Z.to_nat (num u (ns_count sh))) (sub u (ns_list sh))).

Lemma received_facts u : rows_ok [] rows u ->
  (forall f, f ∈ ns_heads sh -> num (ns_received u) f = num u f) /\ count g (ns_received u) = num u (ns_count sh) /\
  pdus g (ns_list sh) (ns_received u) = sub (ns_received u) (ns_list sh) /\
  zlen (sub (ns_received u) (ns_list sh)) = num u (ns_count sh) /\
  Forall relayed (sub (ns_received u) (ns_list sh)) /\
  forall outer, concat (rows_bytes outer body <$> sub (ns_received u) (ns_list sh)) = element_bytes u.
Proof.
  intros (_ & _ & Hc & He)%shape_ok. destruct shape_facts as (_ & _ & _ & _ & _ & _ & Hn & _ & Hb & _).
  unfold ns_received. rewrite shape_copy. destruct (set_nums_spec u (ns_heads sh) zero) as (_ & _ & Hnum).
  set (s1 := foldl _ zero (ns_heads sh)) in *.
  assert (zlen (sub (set_sub (ns_list sh) ((fun e => rows_copy [u] body e zero) <$> take (Z.to_nat (num u (ns_count sh))) (sub u (ns_list sh)))
    (set_num (ns_count sh) (num u (ns_count sh)) s1)) (ns_list sh)) = num u (ns_count sh)) as Hz.
  { rewrite sub_set_sub, decide_True by done. unfold zlen. rewrite length_fmap. exact (zlen_take_count _ _ _ Hc). }
  split_and!.
  - intros f Hf. change (num (set_sub _ _ ?s)) with (num s). rewrite num_set_num, decide_False by (by intros <-). by rewrite Hnum, decide_True.
  - unfold count, part. rewrite Hb. change (num (set_sub _ _ ?s)) with (num s). fold (ns_count sh). by rewrite num_set_num, decide_True.
  - unfold pdus, count, part. rewrite Hb. change (num (set_sub _ _ ?s)) with (num s). fold (ns_count sh).
    rewrite num_set_num, decide_True by done. apply take_ge. unfold zlen in Hz. lia.
  - exact Hz.
  - rewrite sub_set_sub, decide_True by done. apply Forall_fmap. refine (list.Forall_impl _ _ _ He _). intros e Ho. by apply element_relayed.
  - intros outer. rewrite sub_set_sub, decide_True by done. unfold element_bytes. rewrite <- list_fmap_compose. f_equal.
    apply Forall_fmap_ext. refine (list.Forall_impl _ _ _ He _). intros e Ho. cbn. by apply element_relayed.
Qed.

(** *** What is merged *)

(** The aggregate of a batch: [a] holds the PDUs of all packets, [u1] is one of
    the UEs' indications, from which the numbers come. *)
Record aggregate_of (us : list struct) (a : struct) : Prop := {
  ao_us : Forall (rows_ok [] rows) us;
  ao_merged : merged g (fun f => concat ((fun u => pdus g f (ns_received u)) <$> us)) (sum_list ((fun u => n_of g (ns_received u)) <$> us)) a;
  ao_few : Z.of_nat (sum_list ((fun u => n_of g (ns_received u)) <$> us)) <= Z.min 100 (limit (ns_bound sh));
  ao_nums f : f ∈ ns_heads sh -> in_u16 (num a f) }.

Definition all_received (us : list struct) : list struct := concat ((fun u => sub (ns_received u) (ns_list sh)) <$> us).

Lemma aggregate_facts us a : aggregate_of us a ->
  take (Z.to_nat (num a (ns_count sh))) (sub a (ns_list sh)) = all_received us /\ num a (ns_count sh) = zlen (all_received us) /\
  Forall relayed (all_received us) /\ zlen (all_received us) <= zlen (sub a (ns_list sh)) /\
  zlen (all_received us) <= Z.min 100 (limit (ns_bound sh)) /\
  concat (rows_bytes [a] body <$> all_received us) = concat (element_bytes <$> us).
Proof.
  intros [Hus [[Hk Hf] Hc] Hfew _]. destruct shape_facts as (_ & _ & _ & _ & _ & _ & _ & _ & Hb & Hls & _ & _).
  assert (In (ns_list sh) (ag_lists g)) as Hin by (rewrite Hls; by left). apply list_elem_of_In in Hin.
  destruct (Hf _ Hin) as [Hlen Hsub]. unfold count, part in Hc, Hsub. rewrite Hb in Hc, Hsub. fold (ns_count sh) in Hc.
  assert (concat ((fun u => pdus g (ns_list sh) (ns_received u)) <$> us) = all_received us) as E.
  { unfold all_received. f_equal. apply Forall_fmap_ext. refine (list.Forall_impl _ _ _ Hus _). intros u Hu. by apply received_facts. }
  rewrite E in Hlen, Hsub. rewrite Hc, Hsub, <- Hlen, Nat2Z.id. split_and!.
  - by rewrite take_app_length.
  - done.
  - apply Forall_concat, Forall_fmap. refine (list.Forall_impl _ _ _ Hus _). intros u Hu. by apply received_facts.
  - rewrite zlen_app. pose proof (zlen_nonneg (replicate (ag_max g - length (all_received us)) zero)). lia.
  - unfold zlen. by rewrite Hlen.
  - unfold all_received. clear - Hus Hwf. induction Hus as [|u us Hu _ IH]; [done|]. cbn [fmap list_fmap concat].
    rewrite fmap_app, concat_app. f_equal; [by apply received_facts|exact IH].
Qed.

Lemma aggregate_ok us a : aggregate_of us a -> rows_ok [] rows a.
Proof.
  intros Ha. destruct (aggregate_facts us a Ha) as (E & Hn & Hr & Hl & Hm & _). apply shape_ok. rewrite E, Hn.
  pose proof (zlen_nonneg (all_received us)). split_and!.
  - apply list.Forall_forall. apply Ha.
  - destruct (ns_type sh); cbn; wrap_lia.
  - unfold count_ok. lia.
  - refine (list.Forall_impl _ _ _ Hr _). intros e He. apply He.
Qed.

(** The receiver has the PDUs of all packets as it would have unpacked them. *)
Lemma aggregate_received us a : aggregate_of us a ->
  sub (ns_received a) (ns_list sh) = all_received us /\ num (ns_received a) (ns_count sh) = zlen (all_received us) /\
  forall f, f ∈ ns_heads sh -> num (ns_received a) f = num a f.
Proof.
  intros Ha. destruct (aggregate_facts us a Ha) as (E & Hn & Hr & _).
  pose proof (received_facts a (aggregate_ok us a Ha)) as (R1 & R2 & _).
  destruct shape_facts as (_ & _ & _ & _ & _ & _ & _ & _ & Hb & _). unfold count, part in R2. rewrite Hb in R2. fold (ns_count sh) in R2.
  split; [|by rewrite R2]. unfold ns_received. rewrite shape_copy, sub_set_sub, decide_True, E by done.
  rewrite <- (list_fmap_id (all_received us)) at 2. apply Forall_fmap_ext. refine (list.Forall_impl _ _ _ Hr _). intros e He. apply He.
Qed.

(** One message is no longer than all packets. *)
Lemma aggregate_size us a : aggregate_of us a -> us <> [] ->
  16 + zlen (rows_bytes [] rows a) <= foldr (fun u n => 16 + zlen (rows_bytes [] rows u) + n) 0 us.
Proof.
  intros Ha Hne. destruct (aggregate_facts us a Ha) as (E & _ & _ & _ & _ & Hb).
  assert (Hhd : forall u, zlen (concat ((fun f => be16 (num u f)) <$> ns_heads sh)) = 2 * zlen (ns_heads sh)).
  { intros u. clear. induction (ns_heads sh) as [|f fs IH]; [done|]. cbn [fmap list_fmap concat]. rewrite zlen_app, zlen_cons, zlen_be16, IH. lia. }
  set (c := 16 + 2 * zlen (ns_heads sh) + type_size (ns_type sh)).
  assert (Hsz : forall u, 16 + zlen (rows_bytes [] rows u) = c + zlen (concat (rows_bytes [u] body <$> take (Z.to_nat (num u (ns_count sh))) (sub u (ns_list sh)))))
    by (intros u; rewrite shape_bytes, !zlen_app, Hhd, zlen_type_bytes; unfold c; lia).
  rewrite Hsz, E, Hb.
  assert (Hsum : forall us, foldr (fun u n => 16 + zlen (rows_bytes [] rows u) + n) 0 us = c * zlen us + zlen (concat (element_bytes <$> us))).
  { clear - Hsz. induction us as [|u us IH]; [by rewrite Z.mul_0_r|]. cbn [foldr fmap list_fmap concat].
    rewrite zlen_cons, zlen_app, IH, Hsz. unfold element_bytes. lia. }
  rewrite Hsum. pose proof (zlen_nonneg (ns_heads sh)). pose proof (type_size_pos (ns_type sh)).
  destruct us as [|u us]; [done|]. rewrite zlen_cons. pose proof (zlen_nonneg us). unfold c. nia.
Qed.
End shape.

(** ** From the UEs' packets to the gNB's message *)

Definition shape_width (sh : nr_shape) : Prop := forall n, 0 <= n <= Z.of_nat (ag_max (ns_agg sh)) -> ag_width (ns_agg sh) n = n.
Lemma nr_shapes_width : Forall (fun '(_, (_, sh)) => shape_width sh) nr_shapes.
Proof.
  repeat (apply list.Forall_cons; split; [|]); [..|constructor]; intros n Hn; cbn in *;
    unfold NFAPI_NR_CRC_IND_MAX_PDU, NFAPI_NR_RX_DATA_IND_MAX_PDU, NFAPI_NR_UCI_IND_MAX_PDU, NFAPI_NR_SRS_IND_MAX_PDU in *; wrap_lia.
Qed.

Section batch.
#[local] Set Default Proof Using "Type*".
Context (id : Z) (type : string) (sh : nr_shape) (Hin : (id, (type, sh)) ∈ nr_shapes).
#[local] Abbreviation g := (ns_agg sh).
#[local] Abbreviation rows := (ns_rows sh).

Lemma shape_in : shape_wf sh = true /\ (id, (fun s => s, ns_pack sh, rows)) ∈ nr_p7_codecs /\ shape_width sh.
Proof.
  split_and!.
  - pose proof (proj1 (forallb_forall _ _) nr_shapes_checked _ (proj1 (list_elem_of_In _ _) Hin)) as H. exact H.
  - exact (proj1 (list.Forall_forall _ _) nr_shapes_codecs _ Hin).
  - exact (proj1 (list.Forall_forall _ _) nr_shapes_width _ Hin).
Qed.

(** Packing and unpacking, with the bytes. *)
Definition nr_frame (h : nfapi_p7_message_header_t) (s : struct) : list Z :=
  header_bytes (P7Header (phy_id h) id (16 + zlen (rows_bytes [] rows s)) (m_segment_sequence h) 0 (transmit_timestamp h)) ++
  rows_bytes [] rows s.

Lemma nr_packed vp h s buflen : message_id h = id -> header_ok h -> rows_ok [] rows s ->
  16 + zlen (rows_bytes [] rows s) <= 65535 -> 16 + zlen (rows_bytes [] rows s) <= buflen < 4294967296 ->
  nfapi_nr_p7_message_pack vp h s buflen = Some (nr_frame h s).
Proof.
  intros Hid Hh Hok H16 Hb. destruct shape_in as (Hwf & Hc & _). destruct (shape_facts sh Hwf) as (Hsim & Hrw & Hr & _).
  pose proof (rows_write _ _ _ Hsim Hrw (rows_roomy_room _ [] s Hr) Hok) as Hw.
  unfold nfapi_nr_p7_message_pack, nr_frame. rewrite Hid.
  rewrite (p7_frame_pack_ok _ _ _ _ Hh (nr_p7_packs vp _ _ _ _ _ _ Hc Hok Hw)) by lia. by rewrite Hid.
Qed.

Lemma nr_unpacked sizeof vu h s size : header_ok h -> message_id h = id -> rows_ok [] rows s ->
  16 + zlen (rows_bytes [] rows s) <= 65535 -> 16 <= size -> check_nr_unpack_length sizeof id size <> 0 ->
  nfapi_nr_p7_message_unpack sizeof vu (nr_frame h s) size =
  Some (P7Header (phy_id h) id (zlen (nr_frame h s)) (m_segment_sequence h) 0 (transmit_timestamp h), ns_received sh s).
Proof.
  intros (? & ? & ? & ? & ? & ?) Hid Hok H16 Hs Hc. destruct shape_in as (_ & Hco & _). pose proof (zlen_nonneg (rows_bytes [] rows s)).
  pose proof (nr_p7_unpacks sizeof vu _ _ _ _ s size Hco Hok Hc) as Hu.
  unfold nfapi_nr_p7_message_unpack, nr_frame. rewrite p7_frame_unpack_ok; [|unfold header_ok; cbn; subst; repeat split; wrap_lia|cbn; lia|done].
  cbn [message_id]. rewrite Hu. cbn [Z.eqb]. unfold ns_received. do 3 f_equal. by autorewrite with zlen.
Qed.


(** A packet a UE packed: an indication in range that fits a packet. *)
Definition nr_packet (vp : option (struct -> packer)) (m : message_buffer_t) (u : nfapi_p7_message_header_t * struct) : Prop :=
  header_ok u.1 /\ message_id u.1 = id /\ rows_ok [] rows u.2 /\ 16 + zlen (rows_bytes [] rows u.2) <= 8192 /\
  nfapi_nr_p7_message_pack vp u.1 u.2 8192 = Some (mb_data m).

Lemma packet_frame vp m u : nr_packet vp m u -> mb_data m = nr_frame u.1 u.2.
Proof. intros (Hh & Hid & Hok & Hz & Hp). rewrite (nr_packed vp u.1 u.2 8192) in Hp by (done || lia). by injection Hp. Qed.

(** What the aggregator unpacks. *)
Definition seen_as (u : nfapi_p7_message_header_t * struct) : nfapi_p7_message_header_t * struct :=
  (P7Header (phy_id u.1) id (zlen (nr_frame u.1 u.2)) (m_segment_sequence u.1) 0 (transmit_timestamp u.1), ns_received sh u.2).

Lemma check_size sizeof : 16 <= sizeof type -> check_nr_unpack_length sizeof id (sizeof type) <> 0.
Proof.
  intros H16. assert (check_nr_unpack_length sizeof id (sizeof type) = fits_in sizeof type (sizeof type)) as ->;
    [|unfold fits_in; rewrite Z.leb_refl; lia].
  unfold nr_shapes in Hin. repeat first [ apply elem_of_nil in Hin; contradiction
               | apply elem_of_cons in Hin; destruct Hin as [Hin|Hin]; [injection Hin as -> -> _; reflexivity|] ].
Qed.

Lemma packets_seen sizeof vp msgs us : 16 <= sizeof type -> Forall2 (nr_packet vp) msgs us ->
  Forall2 (received_as (nr_unpack sizeof type)) msgs (seen_as <$> us).
Proof.
  intros H16 Hb. apply Forall2_fmap_r. eapply Forall2_impl; [exact Hb|]. intros m u Hp. unfold received_as, nr_unpack.
  rewrite (packet_frame vp m u Hp). destruct Hp as (Hh & Hid & Hok & Hz & _).
  rewrite nr_unpacked; [done..|lia|done|by apply check_size].
Qed.

Lemma seen_accepted us : Forall (fun u => rows_ok [] rows u.2 /\ ag_aborts g (ns_received sh u.2) = false) us ->
  Forall (accepted g) (seen_as <$> us).
Proof.
  destruct shape_in as (Hwf & _). destruct (shape_facts sh Hwf) as (_ & _ & _ & _ & _ & _ & _ & _ & Hb & Hl & _).
  intros Hus. apply Forall_fmap. refine (list.Forall_impl _ _ _ Hus _). intros u [Hok Hab].
  destruct (received_facts sh Hwf u.2 Hok) as (_ & R2 & _ & R4 & _). pose proof (proj1 (shape_ok sh Hwf u.2) Hok) as (_ & _ & [Hc _] & _).
  unfold accepted, compose, seen_as. cbn [snd]. split_and!; [done|rewrite R2; apply Hc|]. intros f Hf. rewrite Hl in Hf. apply list_elem_of_singleton in Hf as ->.
  unfold part. rewrite Hb, R4, R2. lia.
Qed.

Definition number_of_pdus (us : list (nfapi_p7_message_header_t * struct)) : Z := foldr (fun u n => num u.2 (ns_count sh) + n) 0 us.

Lemma total_number us : Forall (fun u => rows_ok [] rows u.2) us ->
  Z.of_nat (sum_list ((fun u => n_of g (ns_received sh u)) <$> (snd <$> us))) = number_of_pdus us.
Proof.
  destruct shape_in as (Hwf & _). induction 1 as [|u us Hok _ IH]; [done|]. cbn [fmap list_fmap sum_list number_of_pdus foldr].
  fold (number_of_pdus us). rewrite <- IH, Nat2Z.inj_add. f_equal. destruct (received_facts sh Hwf u.2 Hok) as (_ & R2 & _).
  pose proof (proj1 (shape_ok sh Hwf u.2) Hok) as (_ & _ & [Hc _] & _). change (Datatypes.id ?x) with x. unfold n_of. rewrite R2. by rewrite Z2Nat.id by apply Hc.
Qed.

(** The aggregate of a batch that fits. *)
Lemma batch_merged sizeof vp msgs us : 16 <= sizeof type -> us <> [] -> Forall2 (nr_packet vp) msgs us ->
  Forall (fun u => ag_aborts g (ns_received sh u.2) = false) us -> number_of_pdus us <= Z.min 100 (limit (ns_bound sh)) ->
  exists a u, aggregate_batch g (nr_unpack sizeof type) msgs = Merged (seen_as u).1 a /\ u ∈ us /\
    aggregate_of sh (snd <$> us) a /\ forall f, f ∈ ag_copied g -> num a f = num u.2 f.
Proof.
  intros H16 Hne Hb Hab Hn. destruct shape_in as (Hwf & _ & Hw).
  destruct (shape_facts sh Hwf) as (_ & _ & _ & _ & _ & _ & Hcount & Hcop & Hbody & Hl & Hmax & _).
  assert (Forall (fun u => rows_ok [] rows u.2) us) as Hok by (eapply Forall2_Forall_r; [exact Hb|]; apply list.Forall_forall; by intros m _ u (_ & _ & H & _)).
  assert (NoDup (ag_lists g)) as Hnd by (rewrite Hl; apply NoDup_singleton).
  assert (ag_count g ∉ ag_copied g) as Hc by (intros Hi; apply Hcount, Hcop, Hi).
  pose proof (total_number us Hok) as Ht.
  assert (total_pdus g (seen_as <$> us) = sum_list ((fun u => n_of g (ns_received sh u)) <$> (snd <$> us))) as Htot
    by (unfold total_pdus; by rewrite <- !list_fmap_compose).
  destruct (aggregate_fit g Hnd Hc (nr_unpack sizeof type) Hw (seen_as <$> us) msgs (fun _ => []) 0 header0 (empty_aggregate g))
    as (h' & a & v & E & Hm & Hv & (-> & Hcopy & _) & Hun).
  - by apply packets_seen with vp.
  - apply seen_accepted. apply Forall_and. by split.
  - by apply empty_merged.
  - rewrite Htot, Hmax. lia.
  - by destruct us.
  - apply list_elem_of_fmap in Hv as (u & -> & Hu). exists a, u. split_and!; [exact E|done| |].
    + split.
      * by apply Forall_fmap.
      * rewrite Htot in Hm. unfold all_pdus in Hm. eapply merged_ext; [..|exact Hm]; try done. intros f. by rewrite <- !list_fmap_compose.
      * rewrite Ht. done.
      * intros f Hf. pose proof (proj1 (list.Forall_forall _ _) Hok u Hu) as Hu2. pose proof (proj1 (shape_ok sh Hwf u.2) Hu2) as (Hh & _).
        destruct (decide (f ∈ ag_copied g)) as [Hi|Hni].
        -- rewrite Hcopy by done. cbn [seen_as snd]. destruct (received_facts sh Hwf u.2 Hu2) as (-> & _); [|done].
           exact (proj1 (list.Forall_forall _ _) Hh f Hf).
        -- rewrite Hun; [by rewrite empty_num|done|]. unfold outside. rewrite Hbody. intros ->. by apply Hcount.
    + intros f Hf. rewrite Hcopy by done. cbn [seen_as snd]. pose proof (proj1 (list.Forall_forall _ _) Hok u Hu) as Hu2.
      destruct (received_facts sh Hwf u.2 Hu2) as (-> & _); [done|by apply Hcop].
Qed.
End batch.

Lemma frame_dated id type sh h s : (id, (type, sh)) ∈ nr_shapes -> header_ok h -> id ∈ nr_uplink_ids ->
  get_sfnslot (nr_frame id sh h s) <> None.
Proof.
  intros Hin (Hp & _) Hid. assert (exists a b fs, ns_heads sh = a :: b :: fs) as (a & b & fs & Hh).
  { unfold nr_shapes in Hin. repeat first [ apply elem_of_nil in Hin; contradiction
      | apply elem_of_cons in Hin; destruct Hin as [Hin|Hin]; [injection Hin as _ _ ->; cbn; eauto|] ]. }
  destruct (shape_in _ _ _ Hin) as (Hwf & Hco & _).
  assert (in_u16 id) as H16.
  { unfold nr_uplink_ids in Hid. repeat first [apply elem_of_nil in Hid; contradiction
      | apply elem_of_cons in Hid; destruct Hid as [->|Hid]; [done|]]. }
  unfold nr_frame, header_bytes. cbn [phy_id message_id]. rewrite <- !app_assoc. rewrite shape_bytes, Hh by done.
  unfold get_sfnslot, checked_id. rewrite (pa_run _ _ _ (parses_pull16 _ Hp)), (pa_run _ _ _ (parses_pull16 _ H16)).
  rewrite bool_decide_eq_true_2 by done. cbn [fmap list_fmap concat]. by cbn.
Qed.

(** Sending the aggregate. *)
Section sending.
#[local] Set Default Proof Using "Type*".
Context (id : Z) (type : string) (sh : nr_shape) (Hin : (id, (type, sh)) ∈ nr_shapes).
Lemma frame_length us msgs vp' : Forall2 (nr_packet id sh vp') msgs us ->
  foldr (fun u n => 16 + zlen (rows_bytes [] (ns_rows sh) u) + n) 0 (snd <$> us) = foldr (fun m n => mb_length m + n) 0 msgs.
Proof.
  induction 1 as [|m u msgs us Hm _ IH]; [done|]. cbn [fmap list_fmap foldr]. rewrite IH. f_equal.
  unfold mb_length. rewrite (packet_frame id type sh Hin vp' m u Hm). unfold nr_frame. autorewrite with zlen. lia.
Qed.

Context (crc32 : Z -> list Z -> Z) (cfg : p7_config) (vp : option (struct -> packer)).

Lemma send_aggregate seq h us a : message_id h = id -> header_ok h -> us <> [] -> aggregate_of sh us a ->
  16 + zlen (rows_bytes [] (ns_rows sh) a) <= 8192 ->
  exists bytes, send_nr_ind crc32 cfg vp id (ns_list sh) (ns_count sh) seq h a =
      Sent (0, u32 (seq + 1), datagrams crc32 cfg (fun _ b => b) bytes) /\
    forall sizeof' vu size, 16 <= size -> check_nr_unpack_length sizeof' id size <> 0 ->
      nfapi_nr_p7_message_unpack sizeof' vu bytes size =
        Some (merged_header id seq bytes (transmit_timestamp h), ns_received sh a).
Proof.
  intros Hid (Hh1 & Hh2 & Hh3 & Hh4 & Hh5 & Hh6) Hne Ha Hz. destruct (shape_in _ _ _ Hin) as (Hwf & _).
  destruct (aggregate_facts sh Hwf us a Ha) as (_ & Hn & _ & Hl & _). pose proof (aggregate_ok sh Hwf us a Ha) as Hok.
  set (h' := set_ids id h (NFAPI_P7_SET_MSS 0 0 seq)).
  assert (header_ok h') as Hh'.
  { rewrite Hid in Hh2. split; [done|]. split; [exact Hh2|]. split; [done|]. split; [apply set_mss_u16|done]. }
  exists (nr_frame id sh h' a). split.
  - unfold send_nr_ind. destruct (Z.ltb_spec (zlen (sub a (ns_list sh))) (num a (ns_count sh))); [lia|].
    unfold pnf_nr_p7_pack_and_send_p7_message, pnf_p7_pack_and_send_p7_message. cbv beta. fold h'.
    rewrite (nr_packed id type sh Hin vp h' a NFAPI_MAX_PACKED_MESSAGE_SIZE);
      [done..|lia|unfold NFAPI_MAX_PACKED_MESSAGE_SIZE; lia].
  - intros sizeof' vu size Hs Hc. rewrite (nr_unpacked id type sh Hin sizeof' vu h' a size); [done..|lia|done|done].
Qed.
End sending.

(** The branch of the dispatcher. *)
Lemma merging_branch crc32 cfg sizeof vp id type sh seq msgs h a : (id, (type, sh)) ∈ nr_shapes ->
  undated get_sfnslot msgs = false -> aggregate_batch (ns_agg sh) (nr_unpack sizeof type) msgs = Merged h a ->
  oai_slot_aggregate_message_id crc32 cfg sizeof vp id seq msgs =
  [Call (send_nr_ind crc32 cfg vp id (ns_list sh) (ns_count sh) seq h a)].
Proof.
  intros Hin Hd E. unfold nr_shapes in Hin.
  repeat first [ apply elem_of_nil in Hin; contradiction
    | apply elem_of_cons in Hin; destruct Hin as [Hin|Hin]; [injection Hin as -> -> ->|] ]; cbn [ns_agg] in E;
    unfold oai_slot_aggregate_message_id; cbn [switch];
    unfold oai_slot_aggregate_crc_ind, oai_slot_aggregate_rx_data_ind, oai_slot_aggregate_uci_ind, oai_slot_aggregate_srs_ind;
    rewrite E, ?Hd; reflexivity.
Qed.

Lemma batch_dated id type sh vp msgs us : (id, (type, sh)) ∈ nr_shapes -> Forall2 (nr_packet id sh vp) msgs us ->
  undated get_sfnslot msgs = false.
Proof.
  intros Hin Hb. destruct Hb as [|m u msgs us Hp Hb]; [done|]. unfold undated. destruct Hb; [done|]. apply bool_decide_eq_false.
  rewrite (packet_frame id type sh Hin vp m u Hp). apply (frame_dated id type); [done|by destruct Hp|].
  unfold nr_shapes in Hin. repeat first [ apply elem_of_nil in Hin; contradiction
    | apply elem_of_cons in Hin; destruct Hin as [Hin|Hin]; [injection Hin as -> _ _; unfold nr_uplink_ids; repeat (first [by left|right])|] ].
Qed.

(** The PDUs of a packet, as whoever unpacks it has them. *)
Definition nr_pdus (sizeof : string -> Z) (type list_of : string) (m : message_buffer_t) : list struct :=
  match nr_unpack sizeof type (mb_data m) with Some (_, ind) => sub ind list_of | None => [] end.

(** Memory for the PDUs is allocated by their number, but in SRS indications. *)
Lemma unbounded_shape id type sh : (id, (type, sh)) ∈ nr_shapes -> id <> NFAPI_NR_PHY_MSG_TYPE_SRS_INDICATION ->
  Z.min 100 (limit (ns_bound sh)) = 100.
Proof.
  intros Hin Hn. unfold nr_shapes in Hin. repeat first [ apply elem_of_nil in Hin; contradiction
    | apply elem_of_cons in Hin; destruct Hin as [Hin|Hin]; [injection Hin as -> _ ->; done|] ].
Qed.

(** C9. The RX_DATA, UCI and CRC indications that the UEs packed for one slot reach the
    gNB as one indication: if together they have at most 100 PDUs and 8192 bytes, and
    the aggregator does not abort on one, it sends one message, which unpacks to the
    PDUs of all packets in the order of the packets, each exactly as it is in the
    packet itself, with their number, for that slot, under PHY 1.  The PDUs of the CRC
    indications have no status of code blocks ([num_cb] is 0): if one has any, the
    unpacker stores them through a pointer it has not set.  SRS indications are left
    out: the unpacker allocates one PDU, whatever their number. *)
Theorem nr_indications_are_merged crc32 cfg sizeof vp vp' id type sh seq sfn slot msgs us :
  (id, (type, sh)) ∈ nr_shapes -> id <> NFAPI_NR_PHY_MSG_TYPE_SRS_INDICATION ->
  16 <= sizeof type -> us <> [] -> Forall2 (nr_packet id sh vp') msgs us ->
  Forall (fun u => ag_aborts (ns_agg sh) (ns_received sh u.2) = false /\ num u.2 "sfn" = sfn /\ num u.2 "slot" = slot) us ->
  number_of_pdus sh us <= 100 -> foldr (fun m n => mb_length m + n) 0 msgs <= 8192 ->
  exists bytes u ind, u ∈ us /\
    oai_slot_aggregate_message_id crc32 cfg sizeof vp id seq msgs =
      [Call (Sent (0, u32 (seq + 1), datagrams crc32 cfg (fun _ b => b) bytes))] /\
    (forall sizeof' vu size, 16 <= size -> check_nr_unpack_length sizeof' id size <> 0 ->
      nfapi_nr_p7_message_unpack sizeof' vu bytes size =
        Some (merged_header id seq bytes (transmit_timestamp u.1), ind)) /\
    sub ind (ns_list sh) = concat (nr_pdus sizeof type (ns_list sh) <$> msgs) /\
    num ind (ns_count sh) = number_of_pdus sh us /\ num ind "sfn" = sfn /\ num ind "slot" = slot.
Proof.
  intros Hin Hsrs H16 Hne Hb Hus Hn Hz. rewrite <- (unbounded_shape id type sh Hin Hsrs) in Hn. apply Forall_and in Hus as [Hab Hslot]. destruct (shape_in _ _ _ Hin) as (Hwf & _).
  destruct (batch_merged id type sh Hin sizeof vp' msgs us H16 Hne Hb Hab Hn) as (a & u & E & Hu & Ha & Hcopy).
  rewrite (merging_branch crc32 cfg sizeof vp id type sh seq msgs (seen_as id sh u).1 a Hin) by (done || by eapply batch_dated).
  assert (Forall (fun u => rows_ok [] (ns_rows sh) u.2 /\ header_ok (seen_as id sh u).1) us) as Hok.
  { eapply Forall2_Forall_r; [exact Hb|]. apply list.Forall_forall. intros m _ v Hp. pose proof (packet_frame id type sh Hin vp' m v Hp) as Hf.
    destruct Hp as ((? & Hi & ? & ? & ? & ?) & Hid & Hv & H8 & _). split; [done|]. pose proof (zlen_nonneg (rows_bytes [] (ns_rows sh) v.2)).
    unfold header_ok. cbn [seen_as fst phy_id message_id message_length m_segment_sequence checksum transmit_timestamp].
    rewrite <- Hid. split_and!; try done; unfold nr_frame; autorewrite with zlen; wrap_lia. }
  apply Forall_and in Hok as [Hok Hhok]. pose proof (proj1 (list.Forall_forall _ _) Hhok u Hu) as Hhu.
  destruct (send_aggregate id type sh Hin crc32 cfg vp seq (seen_as id sh u).1 (snd <$> us) a) as (bytes & Hs & Hr);
    [done|exact Hhu|by destruct us|done| |].
  { etransitivity; [apply (aggregate_size sh Hwf _ _ Ha); by destruct us|]. rewrite (frame_length id type sh Hin us msgs vp' Hb). done. }
  destruct (aggregate_received sh Hwf _ _ Ha) as (A1 & A2 & A3). destruct (shape_facts sh Hwf) as (_ & _ & _ & _ & _ & _ & _ & Hcop & _).
  exists bytes, u, (ns_received sh a). split; [done|]. split; [by rewrite Hs|]. split; [exact Hr|].
  assert (Hnum : forall f, f ∈ ag_copied (ns_agg sh) -> num (ns_received sh a) f = num u.2 f) by (intros f Hf; rewrite A3 by (by apply Hcop); by apply Hcopy).
  assert ("sfn" ∈ ag_copied (ns_agg sh) /\ "slot" ∈ ag_copied (ns_agg sh)) as [Hsfn Hslt].
  { clear - Hin. unfold nr_shapes in Hin. repeat first [ apply elem_of_nil in Hin; contradiction
      | apply elem_of_cons in Hin; destruct Hin as [Hin|Hin]; [injection Hin as _ _ ->; split; cbn; repeat (first [by left|right])|] ]. }
  pose proof (proj1 (list.Forall_forall _ _) Hslot u Hu) as [S1 S2]. rewrite (Hnum _ Hsfn), (Hnum _ Hslt). split_and!; [| |done|done].
  - rewrite A1. unfold all_received. f_equal. rewrite <- list_fmap_compose.
    pose proof (packets_seen id type sh Hin sizeof vp' msgs us H16 Hb) as Hseen. rewrite Forall2_fmap_r in Hseen.
    symmetry. apply list_eq_Forall2, Forall2_fmap. eapply Forall2_impl; [exact Hseen|]. intros m v Hv. unfold nr_pdus.
    by rewrite Hv.
  - rewrite A2. destruct (aggregate_facts sh Hwf _ _ Ha) as (_ & <- & _). rewrite <- (total_number id type sh Hin us Hok).
    destruct Ha as [_ [_ Hc] _ _]. unfold count, part in Hc. destruct (shape_facts sh Hwf) as (_ & _ & _ & _ & _ & _ & _ & _ & Hbd & _).
    rewrite Hbd in Hc. exact Hc.
Qed.

(** Two UEs: one PDU of three bytes from the first, two from the second. *)
Definition sample_rx_pdu (rnti : Z) (bs : list Z) : struct :=
  set_num "rnti" rnti (set_num "pdu_length" (zlen bs) (set_arr "pdu" bs zero)).
Definition sample_rx_data (l : list struct) : nfapi_p7_message_header_t * struct :=
  (sample_p7_header NFAPI_NR_PHY_MSG_TYPE_RX_DATA_INDICATION,
   set_num "sfn" 5 (set_num "slot" 3 (set_num "number_of_pdus" (zlen l) (set_sub "pdu_list" l zero)))).
Definition two_ues : list (nfapi_p7_message_header_t * struct) :=
  [sample_rx_data [sample_rx_pdu 0x4601 [1; 2; 3]]; sample_rx_data [sample_rx_pdu 0x4602 [4]; sample_rx_pdu 0x4603 []]].
Definition nr_packet_of (u : nfapi_p7_message_header_t * struct) : message_buffer_t :=
  MessageBuffer (default [] (nfapi_nr_p7_message_pack None u.1 u.2 8192)).
Definition rx_data_shape : nr_shape :=
  NrShape nr_rx_data_aggregator ["sfn"; "slot"] U16 "pdu_list" Alloc pack_nr_rx_data_indication unpack_nr_rx_data_indication_body.

Lemma nr_indications_are_merged_witness : exists bytes u ind, u ∈ two_ues /\
  oai_slot_aggregate_message_id (fun c _ => c) sample_cfg (fun _ => 64) None NFAPI_NR_PHY_MSG_TYPE_RX_DATA_INDICATION 7 (nr_packet_of <$> two_ues) =
    [Call (Sent (0, 8, datagrams (fun c _ => c) sample_cfg (fun _ b => b) bytes))] /\
  (forall sizeof' vu size, 16 <= size -> check_nr_unpack_length sizeof' NFAPI_NR_PHY_MSG_TYPE_RX_DATA_INDICATION size <> 0 ->
    nfapi_nr_p7_message_unpack sizeof' vu bytes size =
      Some (merged_header NFAPI_NR_PHY_MSG_TYPE_RX_DATA_INDICATION 7 bytes (transmit_timestamp u.1), ind)) /\
  sub ind "pdu_list" = concat (nr_pdus (fun _ => 64) "nfapi_nr_rx_data_indication_t" "pdu_list" <$> (nr_packet_of <$> two_ues)) /\
  num ind "number_of_pdus" = 3 /\ num ind "sfn" = 5 /\ num ind "slot" = 3.
Proof.
  apply (nr_indications_are_merged (fun c _ => c) sample_cfg (fun _ => 64) None None NFAPI_NR_PHY_MSG_TYPE_RX_DATA_INDICATION
    "nfapi_nr_rx_data_indication_t" rx_data_shape 7 5 3 (nr_packet_of <$> two_ues) two_ues).
  - apply list_elem_of_further, list_elem_of_here.
  - discriminate.
  - done.
  - done.
  - repeat constructor; try (vm_compute; done); try (apply rows_okb_spec; vm_compute; reflexivity).
  - repeat constructor.
  - vm_compute. done.
  - vm_compute. done.
Defined.

(** Each packet of a batch is sent on or, if it does not unpack, skipped. *)
Example nr_rach_packets :
  (fun o => match o with Call (Sent (r, n, ds)) => Some (r, n, length ds) | _ => None end) <$>
    oai_slot_aggregate_message_id (fun c _ => c) sample_cfg (fun _ => 64) None NFAPI_NR_PHY_MSG_TYPE_RACH_INDICATION 7
      [nr_packet_of (sample_p7_header NFAPI_NR_PHY_MSG_TYPE_RACH_INDICATION, zero); MessageBuffer [];
       nr_packet_of (sample_p7_header NFAPI_NR_PHY_MSG_TYPE_RACH_INDICATION, zero)] = [Some (0, 8, 1%nat); Some (0, 9, 1%nat)].
Proof. vm_compute. reflexivity. Qed.

(** [control_length] does not survive, and an empty UCI indication aborts. *)
Definition sample_srs : nfapi_p7_message_header_t * struct :=
  (sample_p7_header NFAPI_NR_PHY_MSG_TYPE_SRS_INDICATION,
   set_num "sfn" 5 (set_num "slot" 3 (set_num "control_length" 9 (set_num "number_of_pdus" 0 zero)))).
Example srs_control_length_lost :
  let merged := aggregate_batch nr_srs_aggregator (nr_unpack (fun _ => 64) "nfapi_nr_srs_indication_t") [nr_packet_of sample_srs] in
  match merged with Merged _ a => (num a "sfn", num a "control_length") | _ => (0, 0) end = (5, 0) /\
  match nr_unpack (fun _ => 64) "nfapi_nr_srs_indication_t" (mb_data (nr_packet_of sample_srs)) with
  | Some (_, s) => num s "control_length" | None => 0 end = 9.
Proof. vm_compute. done. Qed.
Example empty_uci_aborts :
  oai_slot_aggregate_message_id (fun c _ => c) sample_cfg (fun _ => 64) None NFAPI_NR_PHY_MSG_TYPE_UCI_INDICATION 7
    [nr_packet_of (sample_p7_header NFAPI_NR_PHY_MSG_TYPE_UCI_INDICATION, zero)] = [Crash].
Proof. vm_compute. reflexivity. Qed.
