(* ===== verification/Ownership.v ===== *)
(** * Ownership of allocated requests

    The PNF keeps unpacked requests in rings of buffers ([pnf_p7.c]): subframe
    buffers for LTE, slot buffers for NR.  This file has what both share: the
    log of what happens to a request, the rule that nothing is used after it is
    freed or freed twice, the interface of a buffer with one slot for each kind
    of request, and rings of such buffers. *)

From S2P Require Import Prelude.

(** ** The log *)

Section log.
  Context {K R X : Type}.

(** A request of kind [k] is allocated, freed, transferred to the UEs, or
    passed to a PHY callback; [Note] is anything else. *)
Inductive event :=
  | Alloc (k : K) (r : R)
  | Free (k : K) (r : R)
  | Transfer (k : K) (r : R)
  | Callback (k : K) (r : R)
  | Note (x : X).

Definition freed (evs : list event) : list (K * R) :=
  omap (fun e => match e with Free k r => Some (k, r) | _ => None end) evs.
Definition called (evs : list event) : list (K * R) :=
  omap (fun e => match e with Callback k r => Some (k, r) | _ => None end) evs.

Definition free_opt (k : K) (r : option R) : list event :=
  match r with Some r => [Free k r] | None => [] end.
Definition opt_list (k : K) (r : option R) : list (K * R) :=
  match r with Some r => [(k, r)] | None => [] end.

(** The log against the live requests [h]: what is used or freed is live, so
    nothing is used after it is freed or freed twice. *)
Inductive heap_run : list (K * R) -> list event -> list (K * R) -> Prop :=
  | hr_nil h h' : h ≡ₚ h' -> heap_run h [] h'
  | hr_alloc h k r evs h' : heap_run ((k, r) :: h) evs h' -> heap_run h (Alloc k r :: evs) h'
  | hr_free h h1 k r evs h' :
      h ≡ₚ (k, r) :: h1 -> heap_run h1 evs h' -> heap_run h (Free k r :: evs) h'
  | hr_transfer h k r evs h' : (k, r) ∈ h -> heap_run h evs h' -> heap_run h (Transfer k r :: evs) h'
  | hr_callback h k r evs h' : (k, r) ∈ h -> heap_run h evs h' -> heap_run h (Callback k r :: evs) h'
  | hr_note h x evs h' : heap_run h evs h' -> heap_run h (Note x :: evs) h'.

Lemma freed_app e1 e2 : freed (e1 ++ e2) = freed e1 ++ freed e2.
Proof. apply omap_app. Qed.
Lemma called_app e1 e2 : called (e1 ++ e2) = called e1 ++ called e2.
Proof. apply omap_app. Qed.

#[export] Instance heap_run_proper : Proper ((≡ₚ) ==> (=) ==> (≡ₚ) ==> iff) heap_run.
Proof.
  assert (forall h evs h', heap_run h evs h' -> forall g g', h ≡ₚ g -> h' ≡ₚ g' -> heap_run g evs g') as H.
  { induction 1 as [h h' Hp|h k r evs h' _ IH|h h1 k r evs h' Hp _ IH| | |]; intros g g' Hg Hg'.
    - constructor. by rewrite <- Hg, <- Hg'.
    - constructor. apply IH; [by rewrite Hg|done].
    - apply hr_free with h1; [by rewrite <- Hg|by apply IH].
    - constructor; [by rewrite <- Hg|eauto].
    - constructor; [by rewrite <- Hg|eauto].
    - constructor; eauto. }
  intros g h Hgh ? evs -> g' h' Hgh'. split; intros; eapply H; eauto; done.
Qed.

Lemma heap_run_app h e1 h1 e2 h2 : heap_run h e1 h1 -> heap_run h1 e2 h2 -> heap_run h (e1 ++ e2) h2.
Proof.
  induction 1 as [h h1 Hp| | | | |]; intros; cbn [app]; [by rewrite Hp|..]; econstructor; eauto.
Qed.

(** The frame rule. *)
Lemma heap_run_frame f h evs h' : heap_run h evs h' -> heap_run (f ++ h) evs (f ++ h').
Proof.
  induction 1 as [h h' Hp| |h h1 k r evs h' Hp|h k r evs h' Hin|h k r evs h' Hin|].
  - constructor. by rewrite Hp.
  - constructor. by rewrite Permutation_middle.
  - econstructor; [|done]. rewrite Hp. by rewrite Permutation_middle.
  - constructor; [|done]. rewrite elem_of_app. by right.
  - constructor; [|done]. rewrite elem_of_app. by right.
  - by constructor.
Qed.

Lemma heap_run_framed f h evs h' g g' :
  heap_run h evs h' -> g ≡ₚ f ++ h -> g' ≡ₚ f ++ h' -> heap_run g evs g'.
Proof. intros H -> ->. by apply heap_run_frame. Qed.

Lemma heap_run_free_opt k r h : heap_run (opt_list k r ++ h) (free_opt k r) h.
Proof. destruct r; cbn; [eapply hr_free; [done|]|]; by constructor. Qed.

(** Allocate, perhaps transfer, free. *)
Lemma heap_run_through (tr : bool) k r h :
  heap_run h (Alloc k r :: (if tr then [Transfer k r] else []) ++ [Free k r]) h.
Proof.
  constructor. assert (heap_run ((k, r) :: h) [Free k r] h) as Hf by (eapply hr_free; by constructor).
  destruct tr; [|exact Hf]. constructor; [by left|exact Hf].
Qed.

Lemma freed_free_opt k r : freed (free_opt k r) = opt_list k r.
Proof. by destruct r. Qed.
End log.

Arguments event : clear implicits.

Create HintDb own.
#[export] Hint Constructors heap_run : own.

(** ** Buffers

    A buffer has room for one request of each kind. *)
Class ReqBuffer (B K R : Type) `{EqDecision K} := {
  buf_get : K -> B -> option R;
  buf_set : K -> option R -> B -> B;
  buf_kinds : list K;
  buf_get_set k k' r b : buf_get k (buf_set k' r b) = if decide (k = k') then r else buf_get k b;
  buf_kinds_nodup : NoDup buf_kinds;
  buf_kinds_all k : k ∈ buf_kinds;
}.

Section buffers.
  Context {B K R X : Type} `{ReqBuffer B K R}.
  Implicit Types (b : B) (k : K) (ks : list K) (evs : list (event K R X)).

Definition stored_in (b : B) : list (K * R) := concat ((fun k => opt_list k (buf_get k b)) <$> buf_kinds).

Lemma fmap_opt_list_ext b b' ks : (forall k, k ∈ ks -> buf_get k b = buf_get k b') ->
  (fun k => opt_list k (buf_get k b)) <$> ks = (fun k => opt_list k (buf_get k b')) <$> ks.
Proof.
  induction ks as [|k ks IH]; intros E; [done|]. rewrite !fmap_cons, IH, E; [done|by left|].
  intros k' Hk. apply E. by right.
Qed.

(** Buffers that agree but for kind [k] store the same but for that. *)
Lemma stored_in_differ k b b' : (forall k', k' <> k -> buf_get k' b = buf_get k' b') ->
  opt_list k (buf_get k b') ++ stored_in b ≡ₚ opt_list k (buf_get k b) ++ stored_in b'.
Proof.
  intros E. unfold stored_in. destruct (list_elem_of_split _ _ (buf_kinds_all k)) as (k1 & k2 & Ek).
  pose proof buf_kinds_nodup as Hnd. rewrite Ek in *.
  apply NoDup_app in Hnd as (_ & Hnd1 & Hnd2). apply NoDup_cons in Hnd2 as [Hnd2 _].
  rewrite !fmap_app, !fmap_cons, !concat_app. cbn [concat].
  rewrite (fmap_opt_list_ext b b' k1), (fmap_opt_list_ext b b' k2).
  - solve_Permutation.
  - intros k' Hk. apply E. intros ->. done.
  - intros k' Hk. apply E. intros ->. apply (Hnd1 k); [done|by left].
Qed.

Lemma stored_in_get k r b : buf_get k b = Some r -> (k, r) ∈ stored_in b.
Proof.
  intros E. apply list_elem_of_In, in_concat. exists (opt_list k (buf_get k b)). rewrite E.
  split; [|by left]. apply in_map_iff. exists k. rewrite E. split; [done|].
  apply list_elem_of_In, buf_kinds_all.
Qed.

Lemma stored_in_none b : (forall k, buf_get k b = None) -> stored_in b = [].
Proof. intros E. unfold stored_in. induction buf_kinds as [|k ks IH]; [done|]. rewrite fmap_cons. cbn. by rewrite E. Qed.

(** Freeing and clearing some kinds. *)
Definition release (b : B) (k : K) : list (event K R X) := free_opt k (buf_get k b).
Definition clear_kinds (ks : list K) (b : B) : B := foldr (fun k => buf_set k None) b ks.

Lemma clear_kinds_get k ks b : buf_get k (clear_kinds ks b) = if decide (k ∈ ks) then None else buf_get k b.
Proof.
  induction ks as [|k' ks IH]; [done|]. cbn [clear_kinds foldr]. rewrite buf_get_set.
  fold (clear_kinds ks b). rewrite IH. repeat case_decide; rewrite ?elem_of_cons in *; done || tauto.
Qed.

Lemma releases_heap ks b : NoDup ks ->
  heap_run (stored_in b) (concat (release b <$> ks)) (stored_in (clear_kinds ks b)).
Proof.
  intros Hks. assert (stored_in b ≡ₚ
    concat ((fun k => opt_list k (buf_get k b)) <$> ks) ++ stored_in (clear_kinds ks b)) as ->.
  { induction Hks as [|k ks Hk Hks IH]; [done|]. rewrite fmap_cons. cbn [concat].
    rewrite IH at 1. rewrite <- app_assoc, Permutation_app_swap_app. apply Permutation_app_head.
    pose proof (stored_in_differ k (clear_kinds (k :: ks) b) (clear_kinds ks b)) as E.
    rewrite !clear_kinds_get, decide_False, decide_True in E by (done || by left). cbn [opt_list app] in E.
    symmetry. apply E. intros k' Hk'. rewrite !clear_kinds_get.
    repeat case_decide; rewrite ?elem_of_cons in *; done || tauto. }
  generalize (stored_in (clear_kinds ks b)). intros f.
  clear Hks. induction ks as [|k ks IH]; [by constructor|]. rewrite !fmap_cons. cbn [concat].
  rewrite <- app_assoc. eapply heap_run_app; [apply heap_run_free_opt|exact IH].
Qed.

(** Storing a request and freeing the one it displaces. *)
Lemma store_heap k r b b' evs :
  (forall k', buf_get k' b' = buf_get k' (buf_set k (Some r) b)) ->
  heap_run (stored_in b') evs (stored_in b') ->
  heap_run (stored_in b) (Alloc k r :: free_opt k (buf_get k b) ++ evs) (stored_in b').
Proof.
  intros E Hevs. constructor. eapply heap_run_app; [|exact Hevs].
  pose proof (stored_in_differ k b b') as P. rewrite E, buf_get_set, decide_True in P by done.
  cbn [opt_list app] in P. rewrite P; [apply heap_run_free_opt|].
  intros k' Hk. by rewrite E, buf_get_set, decide_False.
Qed.

(** A callback on a stored request. *)
Lemma callback_heap (cb : bool) k r b h : buf_get k b = Some r -> stored_in b ⊆ h ->
  heap_run (X := X) h (if cb then [Callback k r] else []) h.
Proof. intros E Hh. apply stored_in_get in E. destruct cb; repeat constructor; auto. Qed.

(** Steps that leave the heap alone, one for each kind. *)
Lemma each_heap (f : K -> list (event K R X)) ks h :
  (forall k, heap_run h (f k) h) -> heap_run h (concat (f <$> ks)) h.
Proof.
  intros Hf. induction ks as [|k ks IH]; [by constructor|]. rewrite fmap_cons. cbn [concat].
  by apply heap_run_app with h.
Qed.

(** ** Rings *)

Definition stored_ring (bs : list B) : list (K * R) := concat (stored_in <$> bs).

Lemma stored_ring_nil bs : Forall (fun b => forall k, buf_get k b = None) bs -> stored_ring bs = [].
Proof.
  unfold stored_ring. induction 1 as [|b bs Hb _ IH]; [done|]. rewrite fmap_cons. cbn [concat].
  by rewrite IH, stored_in_none.
Qed.

(** What a step does to the requests of one buffer it does to the ring's. *)
Lemma ring_heap_run bs i b b' lost evs :
  bs !! i = Some b -> heap_run (stored_in b) evs (lost ++ stored_in b') ->
  heap_run (stored_ring bs) evs (lost ++ stored_ring (<[i := b']> bs)).
Proof.
  intros Hi Hr. destruct (list_elem_of_split_length bs i b Hi) as (l1 & l2 & -> & ->).
  unfold stored_ring. rewrite insert_app_r_alt, Nat.sub_diag by lia. cbn [insert list_insert].
  rewrite !fmap_app, !fmap_cons, !concat_app. cbn [concat].
  eapply (heap_run_framed (concat (stored_in <$> l1) ++ concat (stored_in <$> l2))); [done| |];
    solve_Permutation.
Qed.
End buffers.

Lemma Forall_repeat {A} (P : A -> Prop) x n : P x -> Forall P (repeat x n).
Proof. intros H. induction n; constructor; auto. Qed.

(** ** Delivery

    [handed_over]: a callback that is set gets the request, which is freed
    afterwards. *)
Definition handed_over {K R X} (has_callback : K -> bool) (k : K) (r : R) (evs : list (event K R X)) : Prop :=
  Free k r ∈ evs /\ (has_callback k = true -> exists e1 e2,
    evs = e1 ++ Callback k r :: e2 /\ Free k r ∈ e2).

Lemma handed_over_app {K R X} hc (k : K) (r : R) (e1 e2 e3 : list (event K R X)) :
  handed_over hc k r e2 -> handed_over hc k r (e1 ++ e2 ++ e3).
Proof.
  intros [Hf Hc]. split; [rewrite !elem_of_app; tauto|]. intros H. destruct (Hc H) as (a1 & a2 & -> & Ha).
  exists (e1 ++ a1), (a2 ++ e3). split; [|rewrite elem_of_app; tauto]. by rewrite <- !app_assoc.
Qed.

(** Deliver some kinds, then release some. *)
Lemma handed_over_halves {B K R X} `{ReqBuffer B K R} hc (deliver : K -> list (event K R X))
    (b : B) k r ks ks' :
  buf_get k b = Some r -> (hc k = true -> deliver k = [Callback k r]) -> k ∈ ks -> k ∈ ks' ->
  handed_over hc k r (concat (deliver <$> ks) ++ concat (release b <$> ks')).
Proof.
  intros Hb Hd Hk Hk'. assert (Free k r ∈ (concat (release b <$> ks') : list (event K R X))) as Hf.
  { apply list_elem_of_In, in_concat. exists [Free k r]. split; [|by left].
    apply in_map_iff. exists k. unfold release. rewrite Hb. split; [done|]. by apply list_elem_of_In. }
  split; [rewrite elem_of_app; tauto|]. intros Hc. apply list_elem_of_split in Hk as (k1 & k2 & ->).
  exists (concat (deliver <$> k1)), (concat (deliver <$> k2) ++ concat (release b <$> ks')).
  split; [|rewrite elem_of_app; tauto]. rewrite fmap_app, fmap_cons, concat_app. cbn [concat].
  rewrite Hd by done. by rewrite <- !app_assoc.
Qed.
