(* ===== verification/PnfP7.v ===== *)
(** * The PNF's subframe buffers ([pnf_p7.c], LTE)

    Downlink requests from the VNF are passed to the UEs at once
    ([transfer_downstream_nfapi_msg_to_proxy]) and kept in a ring of subframe
    buffers ([pnf_handle_dl_config_request] and its siblings) until the
    subframe indication that is [sf_ahead] subframes early
    ([pnf_p7_subframe_ind]) hands them to the PHY callbacks and frees them.

    A request is an allocated structure: the model keeps its address and the
    fields the buffers look at, and logs what happens to it as events, so that
    ownership (freed once, not used after) is a statement about the log.
    Callbacks belong to the user of the library; the configuration says which
    are set.  The mutex is taken to be free and allocation to succeed.  [None]
    is an access outside the buffer array. *)

From S2P Require Import Prelude Sfn Ownership.

(** ** Time *)

(* src: pnf_p7.h :: TIMEHR_SEC *)
Definition TIMEHR_SEC (time_hr : Z) : Z := Z.shiftr time_hr 20.
(* src: pnf_p7.h :: TIMEHR_USEC *)
Definition TIMEHR_USEC (time_hr : Z) : Z := Z.land time_hr 0xFFFFF.
(* src: pnf_p7.h :: TIME2TIMEHR *)
Definition TIME2TIMEHR (tv_sec tv_usec : Z) : Z :=
  Z.lor (u32 (Z.shiftl (Z.land tv_sec 0xFFF) 20)) (Z.land tv_usec 0xFFFFF).

(* src: pnf_p7.c :: get_slot_time *)
Definition get_slot_time (now_hr slot_start_hr : Z) : Z :=
  if now_hr <? slot_start_hr then 0
  else
    let now_us := TIMEHR_USEC now_hr in
    let slot_start_us := TIMEHR_USEC slot_start_hr in
    let now_us := if now_hr <? slot_start_us then u32 (now_us + 500000) else now_us in
    u32 (now_us - slot_start_us).

(* src: pnf_p7.c :: get_sf_time *)
Definition get_sf_time (now_hr sf_start_hr : Z) : Z :=
  if now_hr <? sf_start_hr then 0
  else
    let now_us := TIMEHR_USEC now_hr in
    let sf_start_us := TIMEHR_USEC sf_start_hr in
    let now_us := if now_hr <? sf_start_us then u32 (now_us + 1000000) else now_us in
    u32 (now_us - sf_start_us).

(* src: pnf_p7.c :: calculate_t2 *)
Definition calculate_t2 (now_time_hr sfn_sf sf_start_time_hr : Z) : Z :=
  u32 (NFAPI_SFNSF2DEC sfn_sf * 1000 + get_sf_time now_time_hr sf_start_time_hr).

(* src: pnf_p7.c :: calculate_nr_t2 *)
Definition calculate_nr_t2 (now_time_hr sfn slot slot_start_time_hr : Z) : Z :=
  u32 (NFAPI_SFNSLOT2DEC sfn slot * 500 + get_slot_time now_time_hr slot_start_time_hr).

(** [now_time_hr] is the clock read inside. *)
(* src: pnf_p7.c :: calculate_t3 *)
Definition calculate_t3 (now_time_hr sfn_sf sf_start_time_hr : Z) : Z :=
  u32 (NFAPI_SFNSF2DEC sfn_sf * 1000 + get_sf_time now_time_hr sf_start_time_hr).

(* src: pnf_p7.c :: calculate_nr_t3 *)
Definition calculate_nr_t3 (now_time_hr sfn slot slot_start_time_hr : Z) : Z :=
  u32 (NFAPI_SFNSLOT2DEC sfn slot * 500 + get_slot_time now_time_hr slot_start_time_hr).

(** ** The timing windows *)

(** [cur] is [phy->sfn_sf], [window] is [subframe_buffer_size]. *)
(* src: pnf_p7.c :: is_p7_request_in_window *)
Definition is_p7_request_in_window (sfnsf cur window : Z) : Z :=
  let recv_sfn_sf_dec := NFAPI_SFNSF2DEC sfnsf in
  let current_sfn_sf_dec := NFAPI_SFNSF2DEC cur in
  let timing_window := window in
  if recv_sfn_sf_dec <=? current_sfn_sf_dec then
    if Z.rem (current_sfn_sf_dec + timing_window) NFAPI_MAX_SFNSFDEC <? current_sfn_sf_dec then
      if Z.rem (current_sfn_sf_dec + timing_window) NFAPI_MAX_SFNSFDEC <? recv_sfn_sf_dec then 0 else 1
    else 0
  else if recv_sfn_sf_dec - current_sfn_sf_dec <=? timing_window then 1 else 0.

(** Unsigned 32-bit arithmetic; [NFAPI_MAX_SFNSLOTDEC] is the unparenthesised
    [1024*20], which is harmless in a sum. *)
(* src: pnf_p7.c :: is_nr_p7_request_in_window *)
Definition is_nr_p7_request_in_window (sfn slot cur_sfn cur_slot window : Z) : Z :=
  let recv_sfn_slot_dec := u32 (NFAPI_SFNSLOT2DEC sfn slot) in
  let current_sfn_slot_dec := u32 (NFAPI_SFNSLOT2DEC cur_sfn cur_slot) in
  let timing_window := window in
  if current_sfn_slot_dec <=? u32 (recv_sfn_slot_dec + timing_window) then 1
  else if u32 (current_sfn_slot_dec + NFAPI_MAX_SFNSLOTDEC) <=? u32 (recv_sfn_slot_dec + timing_window) then 1
  else 1.

(** ** State *)

(** The requests a subframe buffer holds. *)
Inductive req_kind := DlConfig | UlConfig | HiDci0 | Tx | LbtDlConfig | UeRelease.
#[export] Instance req_kind_eq_dec : EqDecision req_kind.
Proof. solve_decision. Defined.

(** An allocated request: its address, [sfn_sf] and [header.phy_id]. *)
Record request := Request { rq_ptr : Z; rq_sfn_sf : Z; rq_phy_id : Z }.

(** A null pointer is [None]. *)
(* src: nfapi_pnf_interface.h :: nfapi_pnf_p7_subframe_buffer_t *)
Record nfapi_pnf_p7_subframe_buffer_t := SubframeBuffer {
  sb_sfn_sf : Z;
  dl_config_req : option request;
  ul_config_req : option request;
  hi_dci0_req : option request;
  tx_req : option request;
  lbt_dl_config_req : option request;
  ue_release_req : option request;
}.

Definition sb_get (k : req_kind) (b : nfapi_pnf_p7_subframe_buffer_t) : option request :=
  match k with
  | DlConfig => dl_config_req b | UlConfig => ul_config_req b | HiDci0 => hi_dci0_req b
  | Tx => tx_req b | LbtDlConfig => lbt_dl_config_req b | UeRelease => ue_release_req b
  end.

Definition sb_set (k : req_kind) (r : option request) (b : nfapi_pnf_p7_subframe_buffer_t) :
    nfapi_pnf_p7_subframe_buffer_t :=
  let 'SubframeBuffer s dl ul hi tx lbt ue := b in
  match k with
  | DlConfig => SubframeBuffer s r ul hi tx lbt ue
  | UlConfig => SubframeBuffer s dl r hi tx lbt ue
  | HiDci0 => SubframeBuffer s dl ul r tx lbt ue
  | Tx => SubframeBuffer s dl ul hi r lbt ue
  | LbtDlConfig => SubframeBuffer s dl ul hi tx r ue
  | UeRelease => SubframeBuffer s dl ul hi tx lbt r
  end.

Definition sb_set_sfn_sf (s : Z) (b : nfapi_pnf_p7_subframe_buffer_t) : nfapi_pnf_p7_subframe_buffer_t :=
  let 'SubframeBuffer _ dl ul hi tx lbt ue := b in SubframeBuffer s dl ul hi tx lbt ue.

Lemma sb_get_set k k' r b : sb_get k (sb_set k' r b) = if decide (k = k') then r else sb_get k b.
Proof. destruct b, k, k'; reflexivity. Qed.

Definition all_kinds : list req_kind := [DlConfig; UlConfig; HiDci0; Tx; LbtDlConfig; UeRelease].

#[export, refine] Instance subframe_buffer_ReqBuffer : ReqBuffer nfapi_pnf_p7_subframe_buffer_t req_kind request := {
  buf_get := sb_get; buf_set := sb_set; buf_kinds := all_kinds; buf_get_set := sb_get_set;
}.
Proof.
  - by apply (bool_decide_unpack _).
  - intros k. apply list_elem_of_In. destruct k; cbn; tauto.
Defined.

(** [memset] followed by [sfn_sf = -1] in a [uint16_t]. *)
Definition sb_clear : nfapi_pnf_p7_subframe_buffer_t :=
  SubframeBuffer 0xFFFF None None None None None None.

(* src: pnf_p7.h 31-48 pnf_p7_stats_t *)
Record pnf_p7_stats_t := Stats {
  dl_conf_ontime : Z; dl_conf_late : Z;
  ul_conf_ontime : Z; ul_conf_late : Z;
  hi_dci0_ontime : Z; hi_dci0_late : Z;
  tx_ontime : Z; tx_late : Z;
}.
Definition stats_zero : pnf_p7_stats_t := Stats 0 0 0 0 0 0 0 0.

(** The counters are [uint16_t]; a UE release counts as a TX request and an
    LBT request is not counted. *)
Definition count_ontime (k : req_kind) (s : pnf_p7_stats_t) : pnf_p7_stats_t :=
  let 'Stats a b c d e f g h := s in
  match k with
  | DlConfig => Stats (u16 (a + 1)) b c d e f g h
  | UlConfig => Stats a b (u16 (c + 1)) d e f g h
  | HiDci0 => Stats a b c d (u16 (e + 1)) f g h
  | Tx | UeRelease => Stats a b c d e f (u16 (g + 1)) h
  | LbtDlConfig => s
  end.
Definition count_late (k : req_kind) (s : pnf_p7_stats_t) : pnf_p7_stats_t :=
  let 'Stats a b c d e f g h := s in
  match k with
  | DlConfig => Stats a (u16 (b + 1)) c d e f g h
  | UlConfig => Stats a b c (u16 (d + 1)) e f g h
  | HiDci0 => Stats a b c d e (u16 (f + 1)) g h
  | Tx | UeRelease => Stats a b c d e f g (u16 (h + 1))
  | LbtDlConfig => s
  end.

(** What [_public] configures: the ring size, the timing information modes,
    which callbacks and which dummy requests are set. *)
Record pnf_p7_config := PnfP7Config {
  subframe_buffer_size : Z;
  timing_info_mode_periodic : bool;
  timing_info_mode_aperiodic : bool;
  timing_info_period : Z;
  has_callback : req_kind -> bool;
  has_dummy : req_kind -> bool;
}.

(** The fields of [pnf_p7_t] the LTE functions use. *)
(* src: pnf_p7.h 83-144 pnf_p7_t *)
Record pnf_p7_t := PnfP7 {
  subframe_buffer : list nfapi_pnf_p7_subframe_buffer_t;
  p_sfn_sf : Z;
  sf_start_time_hr : Z;
  sfn_sf_shift : Z;
  timing_info_period_counter : Z;
  timing_info_aperiodic_send : bool;
  timing_info_ms_counter : Z;
  tick : Z;
  stats : pnf_p7_stats_t;
}.

(** What the functions do to the outside besides the requests: a PHY callback
    on the dummy request, a timing information message, the answer to a UE
    release. *)
Inductive note :=
  | DummyCall (k : req_kind) (sfn_sf : Z)
  | TimingInfo (last_sfn_sf ms : Z)
  | UeReleaseResp (phy_id : Z).
Abbreviation pnf_event := (event req_kind request note).

(** Replace the buffers, the flag or the statistics. *)
Definition with_buffers (p : pnf_p7_t) (bs : list nfapi_pnf_p7_subframe_buffer_t) : pnf_p7_t :=
  PnfP7 bs (p_sfn_sf p) (sf_start_time_hr p) (sfn_sf_shift p) (timing_info_period_counter p)
    (timing_info_aperiodic_send p) (timing_info_ms_counter p) (tick p) (stats p).
Definition with_late (c : pnf_p7_config) (k : req_kind) (p : pnf_p7_t) : pnf_p7_t :=
  PnfP7 (subframe_buffer p) (p_sfn_sf p) (sf_start_time_hr p) (sfn_sf_shift p)
    (timing_info_period_counter p)
    (if timing_info_mode_aperiodic c then true else timing_info_aperiodic_send p)
    (timing_info_ms_counter p) (tick p) (count_late k (stats p)).
Definition with_ontime (k : req_kind) (p : pnf_p7_t) : pnf_p7_t :=
  PnfP7 (subframe_buffer p) (p_sfn_sf p) (sf_start_time_hr p) (sfn_sf_shift p)
    (timing_info_period_counter p) (timing_info_aperiodic_send p)
    (timing_info_ms_counter p) (tick p) (count_ontime k (stats p)).

(** ** The request handlers

    The six handlers have one shape.  [unpacked] says whether
    [nfapi_p7_message_unpack] succeeded on the structure just allocated.  DL,
    UL, HI and TX requests are transferred to the UEs when stored; a UE release
    is answered whether stored or not. *)
Definition transferred (k : req_kind) : bool :=
  match k with LbtDlConfig | UeRelease => false | _ => true end.

(* src: pnf_p7.c 1599-1691 pnf_handle_dl_config_request *)
Definition handle_request (k : req_kind) (c : pnf_p7_config) (p : pnf_p7_t) (req : request)
    (unpacked : bool) : option (pnf_p7_t * list pnf_event) :=
  if negb unpacked then Some (p, [Alloc k req; Free k req])
  else
    let answer := match k with UeRelease => [Note (UeReleaseResp (rq_phy_id req))] | _ => [] end in
    if negb (is_p7_request_in_window (rq_sfn_sf req) (p_sfn_sf p) (subframe_buffer_size c) =? 0) then
      let sfn_sf_dec := NFAPI_SFNSF2DEC (rq_sfn_sf req) in
      let buffer_index := Z.to_nat (u8 (Z.rem sfn_sf_dec (subframe_buffer_size c))) in
      match subframe_buffer p !! buffer_index with
      | None => None
      | Some b =>
          let b' := sb_set k (Some req) (sb_set_sfn_sf (rq_sfn_sf req) b) in
          Some (with_ontime k (with_buffers p (<[buffer_index := b']> (subframe_buffer p))),
                Alloc k req :: free_opt k (sb_get k b) ++ (if transferred k then [Transfer k req] else []) ++ answer)
      end
    else Some (with_late c k p, Alloc k req :: Free k req :: answer).

(* src: pnf_p7.c :: pnf_handle_dl_config_request *)
Definition pnf_handle_dl_config_request := handle_request DlConfig.
(* src: pnf_p7.c :: pnf_handle_ul_config_request *)
Definition pnf_handle_ul_config_request := handle_request UlConfig.
(* src: pnf_p7.c :: pnf_handle_hi_dci0_request *)
Definition pnf_handle_hi_dci0_request := handle_request HiDci0.
(* src: pnf_p7.c :: pnf_handle_tx_request *)
Definition pnf_handle_tx_request := handle_request Tx.
(* src: pnf_p7.c :: pnf_handle_lbt_dl_config_request *)
Definition pnf_handle_lbt_dl_config_request := handle_request LbtDlConfig.
(* src: pnf_p7.c :: pnf_handle_ue_release_request *)
Definition pnf_handle_ue_release_request := handle_request UeRelease.

(** ** The subframe indication *)

(* src: pnf_p7.c 35-35 sf_ahead *)
Definition sf_ahead : Z := 4.

(** A dummy request, when both the callback and the dummy are set. *)
(* src: pnf_p7.c 1274-1281 pnf_p7_subframe_ind *)
Definition send_dummy (c : pnf_p7_config) (sfn_sf : Z) (k : req_kind) : list pnf_event :=
  if has_callback c k && has_dummy c k then [Note (DummyCall k sfn_sf)] else [].

(** A stored request goes to the callback, its absence is a dummy. *)
(* src: pnf_p7.c 1242-1264 pnf_p7_subframe_ind *)
Definition deliver (c : pnf_p7_config) (b : nfapi_pnf_p7_subframe_buffer_t) (sfn_sf : Z) (k : req_kind) :
    list pnf_event :=
  match sb_get k b with
  | Some r => if has_callback c k then [Callback k r] else []
  | None => send_dummy c sfn_sf k
  end.

(* src: pnf_p7.c :: send_dummy_subframe *)
Definition send_dummy_subframe (c : pnf_p7_config) (sfn_sf : Z) : list pnf_event :=
  concat (send_dummy c sfn_sf <$> [Tx; DlConfig; UlConfig; HiDci0; LbtDlConfig]).

(** The transmit half: the buffer [sf_ahead] subframes in the future. *)
(* src: pnf_p7.c 1223-1322 pnf_p7_subframe_ind *)
Definition tx_half (c : pnf_p7_config) (sfn_sf_tx : Z) (b : nfapi_pnf_p7_subframe_buffer_t) :
    nfapi_pnf_p7_subframe_buffer_t * list pnf_event :=
  if sb_sfn_sf b =? sfn_sf_tx then
    (clear_kinds [DlConfig; Tx; HiDci0; UeRelease] b,
     concat (deliver c b sfn_sf_tx <$> [Tx; DlConfig; HiDci0; UeRelease]) ++
     concat (release b <$> [DlConfig; Tx; HiDci0; UeRelease]))
  else (b, send_dummy_subframe c sfn_sf_tx).

(** The receive half: the buffer of the current subframe. *)
(* src: pnf_p7.c 1324-1379 pnf_p7_subframe_ind *)
Definition rx_half (c : pnf_p7_config) (sfn_sf : Z) (b : nfapi_pnf_p7_subframe_buffer_t) :
    nfapi_pnf_p7_subframe_buffer_t * list pnf_event :=
  if sb_sfn_sf b =? sfn_sf then
    (clear_kinds [UlConfig; LbtDlConfig] b,
     concat (deliver c b sfn_sf <$> [UlConfig; LbtDlConfig]) ++
     concat (release b <$> [UlConfig; LbtDlConfig]))
  else (b, []).

(** The reset at the end does not look at [hi_dci0_req]. *)
Definition is_null (r : option request) : bool := match r with None => true | Some _ => false end.
(* src: pnf_p7.c 1381-1385 pnf_p7_subframe_ind *)
Definition reset_buffer (b : nfapi_pnf_p7_subframe_buffer_t) : nfapi_pnf_p7_subframe_buffer_t :=
  if is_null (dl_config_req b) && is_null (tx_req b) && is_null (ul_config_req b) &&
     is_null (lbt_dl_config_req b) && is_null (ue_release_req b)
  then sb_clear else b.

(** The shift asked for by the last node sync, applied to the decimal form.
    The code stores the decimal result where the packed form belongs. *)
(* src: pnf_p7.c 1174-1195 pnf_p7_subframe_ind *)
Definition apply_shift (sfn_sf shift : Z) : Z :=
  if negb (shift =? 0) then
    let shifted := s32 (NFAPI_SFNSF2DEC sfn_sf + shift) in
    u16 (if shifted <? 0 then shifted + NFAPI_MAX_SFNSFDEC
         else if NFAPI_MAX_SFNSFDEC <? shifted then shifted - NFAPI_MAX_SFNSFDEC else shifted)
  else sfn_sf.

(* src: pnf_p7.c :: pnf_pack_and_send_timing_info *)
Definition pnf_pack_and_send_timing_info (p : pnf_p7_t) : pnf_p7_t * list pnf_event :=
  (PnfP7 (subframe_buffer p) (p_sfn_sf p) (sf_start_time_hr p) (sfn_sf_shift p)
     (timing_info_period_counter p) (timing_info_aperiodic_send p) 0 (tick p) (stats p),
   [Note (TimingInfo (p_sfn_sf p) (timing_info_ms_counter p))]).

(** The three-way choice between periodic, aperiodic and no timing info.  The
    [uint8_t] counter is incremented by the test itself. *)
(* src: pnf_p7.c 1391-1407 pnf_p7_subframe_ind *)
Definition timing_info_step (c : pnf_p7_config) (p : pnf_p7_t) : pnf_p7_t * list pnf_event :=
  let counter := timing_info_period_counter p in
  let counted :=
    if timing_info_mode_periodic c then u8 (counter + 1) else counter in
  let p1 := PnfP7 (subframe_buffer p) (p_sfn_sf p) (sf_start_time_hr p) (sfn_sf_shift p)
              counted (timing_info_aperiodic_send p) (timing_info_ms_counter p) (tick p) (stats p) in
  if timing_info_mode_periodic c && (counter =? timing_info_period c) then
    let '(p2, evs) := pnf_pack_and_send_timing_info p1 in
    (PnfP7 (subframe_buffer p2) (p_sfn_sf p2) (sf_start_time_hr p2) (sfn_sf_shift p2)
       0 (timing_info_aperiodic_send p2) (timing_info_ms_counter p2) (tick p2) (stats p2), evs)
  else if timing_info_mode_aperiodic c && timing_info_aperiodic_send p then
    let '(p2, evs) := pnf_pack_and_send_timing_info p1 in
    (PnfP7 (subframe_buffer p2) (p_sfn_sf p2) (sf_start_time_hr p2) (sfn_sf_shift p2)
       (timing_info_period_counter p2) false (timing_info_ms_counter p2) (tick p2) (stats p2), evs)
  else
    (PnfP7 (subframe_buffer p1) (p_sfn_sf p1) (sf_start_time_hr p1) (sfn_sf_shift p1)
       (timing_info_period_counter p1) (timing_info_aperiodic_send p1)
       (u32 (timing_info_ms_counter p1 + 1)) (tick p1) (stats p1), []).

(** Every 1000 subframes the statistics are traced and cleared. *)
(* src: pnf_p7.c 1416-1427 pnf_p7_subframe_ind *)
Definition tick_step (p : pnf_p7_t) : pnf_p7_t :=
  let '(t, s) := if tick p =? 1000 then (0, stats_zero) else (tick p, stats p) in
  PnfP7 (subframe_buffer p) (p_sfn_sf p) (sf_start_time_hr p) (sfn_sf_shift p)
    (timing_info_period_counter p) (timing_info_aperiodic_send p) (timing_info_ms_counter p)
    (u32 (t + 1)) s.

(** [now_hr] is the clock read at the start. *)
(* src: pnf_p7.c :: pnf_p7_subframe_ind *)
Definition pnf_p7_subframe_ind (c : pnf_p7_config) (p : pnf_p7_t) (sfn_sf now_hr : Z) :
    option (pnf_p7_t * list pnf_event) :=
  let p := PnfP7 (subframe_buffer p) sfn_sf now_hr (sfn_sf_shift p) (timing_info_period_counter p)
             (timing_info_aperiodic_send p) (timing_info_ms_counter p) (tick p) (stats p) in
  let sfn_sf_tx := u32 (sfnsf_add_sf sfn_sf sf_ahead) in
  let tx_sfn_sf_dec := NFAPI_SFNSF2DEC sfn_sf_tx in
  if negb (subframe_buffer_size c =? 0) then
    let sfn_sf := apply_shift sfn_sf (sfn_sf_shift p) in
    let p := PnfP7 (subframe_buffer p) (p_sfn_sf p) (sf_start_time_hr p) 0 (timing_info_period_counter p)
               (timing_info_aperiodic_send p) (timing_info_ms_counter p) (tick p) (stats p) in
    let sfn_sf_dec := NFAPI_SFNSF2DEC sfn_sf in
    let buffer_index := Z.to_nat (u8 (Z.rem sfn_sf_dec (subframe_buffer_size c))) in
    let tx_buffer_index := Z.to_nat (u8 (Z.rem tx_sfn_sf_dec (subframe_buffer_size c))) in
    tb ← subframe_buffer p !! tx_buffer_index;
    let '(tb', evs_tx) := tx_half c sfn_sf_tx tb in
    let bufs := <[tx_buffer_index := tb']> (subframe_buffer p) in
    rb ← bufs !! buffer_index;
    let '(rb', evs_rx) := rx_half c sfn_sf rb in
    let bufs := <[buffer_index := reset_buffer rb']> bufs in
    let '(p, evs_ti) := timing_info_step c (with_buffers p bufs) in
    Some (tick_step p, evs_tx ++ evs_rx ++ evs_ti)
  else Some (tick_step p, []).

(** The answer to a node sync: [t2] and [t3] of the reply, the phy it names. *)
(* src: pnf_p7.c :: pnf_handle_dl_node_sync *)
Definition pnf_handle_dl_node_sync (p : pnf_p7_t) (phy_id t1 delta_sfn_sf rx_hr_time now_hr : Z) :
    pnf_p7_t * (Z * Z * Z * Z) :=
  let p :=
    if negb (delta_sfn_sf =? 0) then
      PnfP7 (subframe_buffer p) (p_sfn_sf p) (sf_start_time_hr p) delta_sfn_sf
        (timing_info_period_counter p) (timing_info_aperiodic_send p) (timing_info_ms_counter p)
        (tick p) (stats p)
    else p in
  (p, (phy_id, t1, calculate_t2 rx_hr_time (p_sfn_sf p) (sf_start_time_hr p),
       calculate_t3 now_hr (p_sfn_sf p) (sf_start_time_hr p))).

(** ** Times *)

(** A start time never exceeds a later reading's microsecond field, so the
    adjustment for a wrapped microsecond counter is never taken. *)
Lemma TIMEHR_USEC_le t : 0 <= t -> 0 <= TIMEHR_USEC t <= t.
Proof.
  intros Ht. unfold TIMEHR_USEC. change 0xFFFFF with (Z.ones 20). rewrite Z.land_ones by lia.
  change (2 ^ 20) with 1048576. lia.
Qed.

Lemma TIME2TIMEHR_pack sec usec :
  0 <= sec < 4096 -> 0 <= usec < 1000000 -> TIME2TIMEHR sec usec = sec * 1048576 + usec.
Proof.
  intros Hs Hu. unfold TIME2TIMEHR. change 0xFFF with (Z.ones 12). change 0xFFFFF with (Z.ones 20).
  rewrite !Z.land_ones by lia. change (2 ^ 12) with 4096. change (2 ^ 20) with 1048576.
  rewrite !Z.mod_small by lia. rewrite u32_small.
  - rewrite lor_shiftl_add by (try change (2 ^ 20) with 1048576; lia). done.
  - rewrite shiftl_mul by lia. change (2 ^ 20) with 1048576. wrap_lia.
Qed.

(** The elapsed time since the start of a subframe or slot is the
    difference of the microsecond fields, in 32 bits: both tests for a wrapped
    microsecond counter compare a full time with a microsecond field and never
    succeed, so across a second boundary the result is about 2^32 - 10^6
    microseconds instead of a few. *)
Theorem elapsed_time_never_adjusted (sec sec' us us' : Z) :
  0 <= sec <= sec' -> sec' < 4096 -> 0 <= us < 1000000 -> 0 <= us' < 1000000 ->
  (sec = sec' -> us <= us') ->
  get_sf_time (TIME2TIMEHR sec' us') (TIME2TIMEHR sec us) = u32 (us' - us) /\
  get_slot_time (TIME2TIMEHR sec' us') (TIME2TIMEHR sec us) = u32 (us' - us).
Proof.
  intros Hs Hs' Hu Hu' Hord. rewrite !TIME2TIMEHR_pack by lia.
  unfold get_sf_time, get_slot_time.
  destruct (Z.ltb_spec (sec' * 1048576 + us') (sec * 1048576 + us)); [lia|].
  assert (forall s u, 0 <= s -> 0 <= u < 1000000 -> TIMEHR_USEC (s * 1048576 + u) = u) as E.
  { intros s u Hs1 Hu1. unfold TIMEHR_USEC. change 0xFFFFF with (Z.ones 20). rewrite Z.land_ones by lia.
    change (2 ^ 20) with 1048576. lia. }
  rewrite !E by lia. destruct (Z.ltb_spec (sec' * 1048576 + us') us); [lia|done].
Qed.

Lemma elapsed_time_never_adjusted_witness :
  get_sf_time (TIME2TIMEHR 8 10) (TIME2TIMEHR 7 999990) = u32 (10 - 999990) /\
  get_slot_time (TIME2TIMEHR 8 10) (TIME2TIMEHR 7 999990) = u32 (10 - 999990).
Proof. apply (elapsed_time_never_adjusted 7 8 999990 10); lia. Defined.

(** ** Windows *)

Lemma in_window_iff r n w : 0 <= r < 10240 -> 0 <= n < 10240 -> 0 <= w < 256 ->
  is_p7_request_in_window (sfnsf r) (sfnsf n) w = 1 <-> 1 <= (r - n) mod 10240 <= w.
Proof.
  intros Hr Hn Hw. unfold is_p7_request_in_window, NFAPI_MAX_SFNSFDEC. rewrite !NFAPI_SFNSF2DEC_sfnsf by done.
  rewrite !Z.rem_mod_nonneg by lia. repeat case_cmp; lia.
Qed.

(** An LTE request is in the window exactly when its subframe is 1 to
    [subframe_buffer_size] subframes ahead of the current one, modulo the
    hyperframe; the NR test, whose comment promises 0 outside the window,
    accepts every request. *)
Theorem request_window (r n w : Z) (sfn slot cur_sfn cur_slot w' : Z) :
  0 <= r < 10240 -> 0 <= n < 10240 -> 0 <= w < 256 ->
  (is_p7_request_in_window (sfnsf r) (sfnsf n) w = 1 <-> 1 <= (r - n) mod 10240 <= w) /\
  (is_p7_request_in_window (sfnsf r) (sfnsf n) w = 0 <-> ~ 1 <= (r - n) mod 10240 <= w) /\
  is_nr_p7_request_in_window sfn slot cur_sfn cur_slot w' = 1.
Proof.
  intros Hr Hn Hw. split; [|split].
  - by apply in_window_iff.
  - unfold is_p7_request_in_window, NFAPI_MAX_SFNSFDEC. rewrite !NFAPI_SFNSF2DEC_sfnsf by done.
    rewrite !Z.rem_mod_nonneg by lia. repeat case_cmp; lia.
  - unfold is_nr_p7_request_in_window. repeat case_cmp; done.
Qed.

Lemma request_window_witness :
  is_p7_request_in_window (sfnsf 2) (sfnsf 10238) 4 = 1 <-> 1 <= (2 - 10238) mod 10240 <= 4.
Proof. apply (request_window 2 10238 4 0 0 0 0 0); lia. Defined.

(** ** Ownership of requests *)

Definition stored (p : pnf_p7_t) : list (req_kind * request) := stored_ring (subframe_buffer p).

(** Handling a request stores it or frees it, and frees what it displaces. *)
Lemma handle_request_heap k c p req unpacked p' evs :
  handle_request k c p req unpacked = Some (p', evs) -> heap_run (stored p) evs (stored p').
Proof.
  unfold handle_request. destruct unpacked; cbn [negb]; [|intros [= <- <-]; eauto with own].
  destruct (negb _); [|intros [= <- <-]; destruct k; eauto 8 with own].
  destruct (subframe_buffer p !! _) as [b|] eqn:Eb; [|done]. intros [= <- <-].
  apply (ring_heap_run _ _ b _ []); [done|].
  set (b' := sb_set k (Some req) (sb_set_sfn_sf (rq_sfn_sf req) b)).
  assert ((k, req) ∈ stored_in b') as Hin.
  { apply stored_in_get. cbn [buf_get subframe_buffer_ReqBuffer]. unfold b'. by rewrite sb_get_set, decide_True. }
  change (sb_get k b) with (buf_get k b). cbn [app]. apply (store_heap k req b b').
  - intros k'. cbn [buf_get buf_set subframe_buffer_ReqBuffer]. unfold b'. rewrite !sb_get_set.
    destruct b, k'; reflexivity.
  - destruct k; cbn; eauto 8 with own.
Qed.

(** The halves of the subframe indication: callbacks on what is stored, then
    the frees. *)
Lemma send_dummy_heap c s k h : heap_run h (send_dummy c s k) h.
Proof. unfold send_dummy. destruct (_ && _); eauto with own. Qed.

Lemma delivers_heap c b s ks h : stored_in b ⊆ h -> heap_run h (concat (deliver c b s <$> ks)) h.
Proof.
  intros Hh. apply each_heap. intros k. unfold deliver. destruct (sb_get k b) eqn:E.
  - by apply (callback_heap (B := nfapi_pnf_p7_subframe_buffer_t) _ k r b).
  - apply send_dummy_heap.
Qed.

Lemma tx_half_heap c s b b' evs : tx_half c s b = (b', evs) -> heap_run (stored_in b) evs (stored_in b').
Proof.
  unfold tx_half. destruct (_ =? _); intros E; apply pair_eq in E as [<- <-].
  - eapply heap_run_app; [by apply delivers_heap|]. apply releases_heap. by apply (bool_decide_unpack _).
  - apply each_heap. intros k. apply send_dummy_heap.
Qed.

Lemma rx_half_heap c s b b' evs : rx_half c s b = (b', evs) -> heap_run (stored_in b) evs (stored_in b').
Proof.
  unfold rx_half. destruct (_ =? _); intros E; apply pair_eq in E as [<- <-].
  - eapply heap_run_app; [by apply delivers_heap|]. apply releases_heap. by apply (bool_decide_unpack _).
  - eauto with own.
Qed.

(** The final reset of a buffer may forget an HI/DCI0 request. *)
Lemma reset_buffer_stored b : exists lost,
  stored_in b ≡ₚ lost ++ stored_in (reset_buffer b) /\ lost ⊆ opt_list HiDci0 (hi_dci0_req b).
Proof.
  unfold reset_buffer. destruct b as [s [dl|] [ul|] hi [tx|] [lbt|] [ue|]]; cbn; try (by exists []; split; [|set_solver]).
  exists (opt_list HiDci0 hi). unfold stored_in, all_kinds. destruct hi; cbn; done.
Qed.

Lemma timing_info_step_heap c p p' evs : timing_info_step c p = (p', evs) ->
  stored p' = stored p /\ forall h, heap_run h evs h.
Proof.
  unfold timing_info_step. cbn. destruct (_ && _); [|destruct (_ && _)]; intros [= <- <-]; eauto with own.
Qed.

Lemma stored_tick p : stored (tick_step p) = stored p.
Proof. unfold tick_step. by destruct (_ =? _). Qed.

(** ** Runs *)

(** What happens to a PNF P7 instance: a request arrives ([unpacked] says
    whether its body could be decoded), a subframe starts. *)
Inductive pnf_op :=
  | Arrive (k : req_kind) (req : request) (unpacked : bool)
  | Subframe (sfn_sf now_hr : Z).

Definition pnf_step (c : pnf_p7_config) (p : pnf_p7_t) (op : pnf_op) : option (pnf_p7_t * list pnf_event) :=
  match op with
  | Arrive k req unpacked => handle_request k c p req unpacked
  | Subframe sfn_sf now_hr => pnf_p7_subframe_ind c p sfn_sf now_hr
  end.

Fixpoint pnf_run (c : pnf_p7_config) (p : pnf_p7_t) (ops : list pnf_op) : option (pnf_p7_t * list pnf_event) :=
  match ops with
  | [] => Some (p, [])
  | op :: ops =>
      '(p, evs) ← pnf_step c p op;
      '(p, evs') ← pnf_run c p ops;
      Some (p, evs ++ evs')
  end.

(** A PNF with a ring of [w] buffers, all empty, at subframe [n]. *)
Definition idle_pnf (n : Z) : pnf_p7_t :=
  PnfP7 (repeat sb_clear 30) (sfnsf n) 0 0 0 false 0 0 stats_zero.
Definition plain_config (w : Z) : pnf_p7_config :=
  PnfP7Config w false false 0 (fun _ => true) (fun _ => false).

(** The array has 30 entries and the configured size does not exceed it. *)
Definition ring_ok (c : pnf_p7_config) (p : pnf_p7_t) : Prop :=
  length (subframe_buffer p) = 30%nat /\ 1 <= subframe_buffer_size c <= 30.

Definition op_ok (op : pnf_op) : Prop :=
  match op with
  | Arrive _ req _ => 0 <= rq_sfn_sf req < 65536
  | Subframe sfn_sf _ => 0 <= sfn_sf < 65536
  end.

Definition no_hi (p : pnf_p7_t) : Prop := Forall (fun b => hi_dci0_req b = None) (subframe_buffer p).
Definition op_no_hi (op : pnf_op) : Prop :=
  match op with Arrive HiDci0 _ _ => False | _ => True end.

Lemma NFAPI_SFNSF2DEC_nonneg s : 0 <= s -> 0 <= NFAPI_SFNSF2DEC s.
Proof.
  intros Hs. unfold NFAPI_SFNSF2DEC. pose proof (proj2 (Z.shiftr_nonneg s 4) Hs).
  pose proof (proj2 (Z.land_nonneg s 0xF) (or_introl Hs)). lia.
Qed.

Lemma ring_lookup c p s : ring_ok c p -> 0 <= s ->
  is_Some (subframe_buffer p !! Z.to_nat (u8 (Z.rem (NFAPI_SFNSF2DEC s) (subframe_buffer_size c)))).
Proof.
  intros [Hl Hs] H. apply NFAPI_SFNSF2DEC_nonneg in H. apply lookup_lt_is_Some. rewrite Hl.
  assert (0 <= Z.rem (NFAPI_SFNSF2DEC s) (subframe_buffer_size c) < subframe_buffer_size c) as Hb
    by (apply Z.rem_bound_pos; lia).
  revert Hb. generalize (Z.rem (NFAPI_SFNSF2DEC s) (subframe_buffer_size c)). intros r Hb.
  rewrite u8_small by wrap_lia. lia.
Qed.

Lemma apply_shift_nonneg s d : 0 <= s -> 0 <= apply_shift s d.
Proof. intros. unfold apply_shift. destruct (negb _); [wrap_lia|done]. Qed.

Lemma handle_request_total k c p req unpacked : ring_ok c p -> 0 <= rq_sfn_sf req ->
  exists p' evs, handle_request k c p req unpacked = Some (p', evs) /\ ring_ok c p'.
Proof.
  intros Hp Hr. unfold handle_request. destruct unpacked; cbn [negb]; [|by eauto].
  destruct (negb _); [|by eauto]. destruct (ring_lookup c p _ Hp Hr) as [b ->]. do 2 eexists. split; [done|].
  split; [|apply Hp]. cbn [with_ontime with_buffers subframe_buffer]. rewrite length_insert. apply Hp.
Qed.

Lemma tick_step_buffers p : subframe_buffer (tick_step p) = subframe_buffer p.
Proof. unfold tick_step. by destruct (_ =? _). Qed.

Lemma timing_info_step_buffers c p p' evs :
  timing_info_step c p = (p', evs) -> subframe_buffer p' = subframe_buffer p.
Proof.
  unfold timing_info_step. cbn. destruct (_ && _); [|destruct (_ && _)]; intros [= <- <-]; done.
Qed.

Lemma tx_half_no_hi c s b b' evs :
  tx_half c s b = (b', evs) -> hi_dci0_req b = None -> hi_dci0_req b' = None.
Proof. unfold tx_half. destruct (_ =? _), b; by intros [= <- <-]. Qed.

Lemma rx_half_no_hi c s b b' evs :
  rx_half c s b = (b', evs) -> hi_dci0_req b = None -> hi_dci0_req b' = None.
Proof. unfold rx_half. destruct (_ =? _), b; by intros [= <- <-]. Qed.

Lemma reset_no_hi b : hi_dci0_req b = None -> hi_dci0_req (reset_buffer b) = None.
Proof. unfold reset_buffer. by destruct (_ && _). Qed.

(** The ring after the indication, and its events. *)
Lemma pnf_p7_subframe_ind_total c p s now : ring_ok c p -> 0 <= s -> exists p' evs lost,
  pnf_p7_subframe_ind c p s now = Some (p', evs) /\ ring_ok c p' /\
  heap_run (stored p) evs (lost ++ stored p') /\
  Forall (fun x => fst x = HiDci0) lost /\ (no_hi p -> lost = [] /\ no_hi p').
Proof.
  intros Hp Hs. unfold pnf_p7_subframe_ind. rewrite (proj2 (Z.eqb_neq _ 0)) by (destruct Hp; lia). cbn [negb].
  cbn [subframe_buffer sfn_sf_shift].
  pose proof (ring_lookup c p (u32 (sfnsf_add_sf s sf_ahead)) Hp ltac:(wrap_lia)) as [tb Htb]. rewrite Htb.
  cbn [mbind option_bind].
  destruct (tx_half c _ tb) as [tb' evs_tx] eqn:Etx. pose proof (tx_half_heap _ _ _ _ _ Etx) as Htx.
  set (i := Z.to_nat (u8 (Z.rem (NFAPI_SFNSF2DEC (u32 _)) _))) in *.
  set (bs1 := <[i := tb']> (subframe_buffer p)).
  assert (length bs1 = 30%nat) as L1 by (unfold bs1; rewrite length_insert; apply Hp).
  pose proof (ring_lookup c (with_buffers p bs1) (apply_shift s (sfn_sf_shift p)) (conj L1 (proj2 Hp))
    (apply_shift_nonneg s _ Hs)) as [rb Hrb].
  cbn [with_buffers subframe_buffer] in Hrb. rewrite Hrb.
  cbn [mbind option_bind].
  destruct (rx_half c _ rb) as [rb' evs_rx] eqn:Erx. pose proof (rx_half_heap _ _ _ _ _ Erx) as Hrx.
  destruct (reset_buffer_stored rb') as (lost & Hlost & Hsub).
  set (j := Z.to_nat _) in Hrb |- *.
  destruct (timing_info_step c _) as [p2 evs_ti] eqn:Eti.
  pose proof (timing_info_step_heap _ _ _ _ Eti) as [Est Hti].
  pose proof (timing_info_step_buffers _ _ _ _ Eti) as Eb.
  cbn [with_buffers subframe_buffer] in Eb.
  exists (tick_step p2), (evs_tx ++ evs_rx ++ evs_ti), lost. split; [done|]. split; [|split; [|split]].
  - split; [|apply Hp]. rewrite tick_step_buffers, Eb, length_insert. exact L1.
  - rewrite stored_tick, Est. unfold stored. cbn [with_buffers subframe_buffer].
    apply heap_run_app with (concat (stored_in <$> bs1)); [by apply (ring_heap_run _ _ tb _ [])|].
    apply heap_run_app with (lost ++ concat (stored_in <$> <[j := reset_buffer rb']> bs1)); [|apply Hti].
    apply (ring_heap_run _ _ rb); [done|]. by rewrite <- Hlost.
  - apply Forall_forall. intros x Hx. apply Hsub in Hx.
    destruct (hi_dci0_req rb'); cbn in Hx; [|by apply not_elem_of_nil in Hx].
    by apply list_elem_of_singleton in Hx as ->.
  - intros Hn.
    assert (Forall (fun b => hi_dci0_req b = None) bs1) as Hn1.
    { apply Forall_insert; [done|]. eapply tx_half_no_hi; [done|]. by apply (Forall_lookup_1 _ _ _ _ Hn Htb). }
    assert (hi_dci0_req rb' = None) as E.
    { eapply rx_half_no_hi; [done|]. by apply (Forall_lookup_1 _ _ _ _ Hn1 Hrb). }
    rewrite E in Hsub. split; [by apply list_nil_subseteq|].
    unfold no_hi. rewrite tick_step_buffers, Eb. apply Forall_insert; [done|by apply reset_no_hi].
Qed.

Lemma handle_request_no_hi k c p req unpacked p' evs :
  handle_request k c p req unpacked = Some (p', evs) -> k <> HiDci0 -> no_hi p -> no_hi p'.
Proof.
  unfold handle_request, no_hi. destruct unpacked; cbn [negb]; [|by intros [= <- <-]].
  destruct (negb _); [|by intros [= <- <-]]. destruct (subframe_buffer p !! _) as [b|] eqn:Eb; [|done].
  intros [= <- <-] Hk Hn. cbn [with_ontime with_buffers subframe_buffer]. apply Forall_insert; [done|].
  pose proof (Forall_lookup_1 _ _ _ _ Hn Eb). by destruct b, k.
Qed.

Lemma pnf_run_total c p ops :
  ring_ok c p -> Forall op_ok ops -> exists p' evs lost,
  pnf_run c p ops = Some (p', evs) /\ heap_run (stored p) evs (lost ++ stored p') /\
  Forall (fun x => fst x = HiDci0) lost /\
  (no_hi p -> Forall op_no_hi ops -> lost = []).
Proof.
  intros Hp Hops. revert p Hp. induction Hops as [|op ops Hop _ IH]; intros p Hp.
  { exists p, [], []. repeat split; eauto with own. }
  assert (exists p1 evs lost, pnf_step c p op = Some (p1, evs) /\ ring_ok c p1 /\
    heap_run (stored p) evs (lost ++ stored p1) /\ Forall (fun x => fst x = HiDci0) lost /\
    (no_hi p -> op_no_hi op -> lost = [] /\ no_hi p1)) as (p1 & e1 & l1 & E1 & Hp1 & H1 & Hl1 & Hn1).
  { destruct op as [k req unpacked|s now]; cbn [pnf_step op_ok] in *.
    - destruct (handle_request_total k c p req unpacked Hp) as (p1 & e1 & E & Hp1); [lia|].
      exists p1, e1, []. split; [done|]. split; [done|]. split; [by eapply handle_request_heap|].
      split; [done|]. intros Hn Hk. split; [done|]. eapply handle_request_no_hi; [done| |done]. by intros ->.
    - destruct (pnf_p7_subframe_ind_total c p s now Hp) as (p1 & e1 & l & ? & ? & ? & ? & ?); [lia|].
      exists p1, e1, l. do 4 (split; [done|]). auto. }
  destruct (IH p1 Hp1) as (p2 & e2 & l2 & E2 & H2 & Hl2 & Hn2).
  exists p2, (e1 ++ e2), (l1 ++ l2). cbn [pnf_run]. rewrite E1. cbn [mbind option_bind]. rewrite E2.
  split; [done|]. split; [|split].
  - eapply heap_run_app; [done|]. rewrite <- app_assoc. by apply heap_run_frame.
  - by apply Forall_app.
  - intros Hn Hk. inversion Hk as [|?? Hk1 Hk2]; subst. destruct (Hn1 Hn Hk1) as [-> Hn1'].
    by rewrite (Hn2 Hn1' Hk2).
Qed.

(** C11.  Over any sequence of arrivals and subframe indications on a PNF whose
    window fits the ring: every step completes; no request is used after it is
    freed or freed twice; and every request ever allocated is freed, still
    stored, or an HI/DCI0 request that a buffer reset forgot. Without HI/DCI0
    requests nothing leaks. *)
Theorem requests_are_owned c p ops :
  ring_ok c p -> Forall op_ok ops -> exists p' evs lost,
  pnf_run c p ops = Some (p', evs) /\ heap_run (stored p) evs (lost ++ stored p') /\
  Forall (fun x => fst x = HiDci0) lost /\
  (no_hi p -> Forall op_no_hi ops -> lost = []).
Proof. intros Hp Hops. by apply pnf_run_total. Qed.

Lemma requests_are_owned_witness : exists p' evs lost,
  pnf_run (plain_config 30) (idle_pnf 100) [Arrive Tx (Request 7 (sfnsf 101) 0) true;
    Subframe (sfnsf 101) 0; Arrive Tx (Request 8 (sfnsf 101) 0) true] = Some (p', evs) /\
  heap_run (stored (idle_pnf 100)) evs (lost ++ stored p') /\
  Forall (fun x => fst x = HiDci0) lost /\
  (no_hi (idle_pnf 100) -> Forall op_no_hi [Arrive Tx (Request 7 (sfnsf 101) 0) true;
    Subframe (sfnsf 101) 0; Arrive Tx (Request 8 (sfnsf 101) 0) true] -> lost = []).
Proof.
  apply (requests_are_owned (plain_config 30) (idle_pnf 100)).
  - split; [vm_compute; done|cbn; lia].
  - repeat constructor; vm_compute; done.
Defined.

(** ** Delivery *)

Definition ring_index (c : pnf_p7_config) (s : Z) : nat :=
  Z.to_nat (u8 (Z.rem (NFAPI_SFNSF2DEC s) (subframe_buffer_size c))).

Definition uplink (k : req_kind) : bool :=
  match k with UlConfig | LbtDlConfig => true | _ => false end.

(** The subframe whose indication hands over a request for subframe [r]. *)
Definition due (k : req_kind) (r : Z) : Z := if uplink k then r else (r - sf_ahead) mod 10240.

(** An operation that leaves the [k] request for [s] alone: another request
    does not displace it, and it is not the turn of its buffer. *)
Definition leaves (c : pnf_p7_config) (k : req_kind) (s : Z) (op : pnf_op) : Prop :=
  match op with
  | Arrive k' req _ =>
      ring_index c (rq_sfn_sf req) <> ring_index c s \/ (rq_sfn_sf req = s /\ k' <> k)
  | Subframe s' _ =>
      ring_index c s' <> ring_index c s /\
      (uplink k = false -> ring_index c (u32 (sfnsf_add_sf s' sf_ahead)) <> ring_index c s)
  end.

Definition holds (c : pnf_p7_config) (k : req_kind) (req : request) (p : pnf_p7_t) : Prop :=
  sfn_sf_shift p = 0 /\ exists b, subframe_buffer p !! ring_index c (rq_sfn_sf req) = Some b /\
  sb_sfn_sf b = rq_sfn_sf req /\ sb_get k b = Some req.

Lemma sb_set_sfn_sf_get k s b : sb_get k (sb_set_sfn_sf s b) = sb_get k b.
Proof. by destruct b, k. Qed.
Lemma sb_sfn_sf_set k r s b : sb_sfn_sf (sb_set k r (sb_set_sfn_sf s b)) = s.
Proof. by destruct b, k. Qed.

Lemma handle_request_stores k c p req p' evs :
  handle_request k c p req true = Some (p', evs) ->
  is_p7_request_in_window (rq_sfn_sf req) (p_sfn_sf p) (subframe_buffer_size c) <> 0 ->
  sfn_sf_shift p = 0 -> holds c k req p' /\ (transferred k = true -> Transfer k req ∈ evs).
Proof.
  unfold handle_request. cbn [negb]. intros H Hw Hs. rewrite (proj2 (Z.eqb_neq _ _) Hw) in H. cbn [negb] in H.
  destruct (subframe_buffer p !! _) as [b|] eqn:Eb; [|done]. injection H as <- <-. split.
  - split; [done|]. eexists. cbn [with_ontime with_buffers subframe_buffer].
    split; [apply list_lookup_insert_eq; by apply lookup_lt_Some in Eb|].
    by rewrite sb_sfn_sf_set, sb_get_set, decide_True.
  - intros ->. rewrite elem_of_cons, !elem_of_app, list_elem_of_singleton. tauto.
Qed.

Lemma handle_request_leaves k k' c p req' unpacked req p' evs :
  handle_request k' c p req' unpacked = Some (p', evs) ->
  leaves c k (rq_sfn_sf req) (Arrive k' req' unpacked) -> holds c k req p -> holds c k req p'.
Proof.
  unfold handle_request. destruct unpacked; cbn [negb]; [|by intros [= <- <-]].
  destruct (negb _); [|by intros [= <- <-]].
  destruct (subframe_buffer p !! _) as [b'|] eqn:Eb; [|done]. intros [= <- <-] Hl (Hs & b & Hb & Hbs & Hbk).
  split; [done|]. cbn [with_ontime with_buffers subframe_buffer leaves] in *. fold (ring_index c (rq_sfn_sf req')) in *.
  destruct (decide (ring_index c (rq_sfn_sf req') = ring_index c (rq_sfn_sf req))) as [E|E].
  - destruct Hl as [|[Es Hk]]; [done|]. rewrite E in *. rewrite Hb in Eb. injection Eb as <-.
    eexists. split; [apply list_lookup_insert_eq; by apply lookup_lt_Some in Hb|].
    by rewrite sb_sfn_sf_set, sb_get_set, sb_set_sfn_sf_get, decide_False.
  - exists b. by rewrite list_lookup_insert_ne.
Qed.

(** What a half of the indication does to a stored request. *)
Lemma tx_half_uplink k c s b b' evs : tx_half c s b = (b', evs) -> uplink k = true ->
  sb_get k b' = sb_get k b /\ sb_sfn_sf b' = sb_sfn_sf b.
Proof. unfold tx_half. destruct (_ =? _), b, k; by intros [= <- <-]. Qed.
Lemma rx_half_downlink k c s b b' evs : rx_half c s b = (b', evs) -> uplink k = false ->
  sb_get k b' = sb_get k b /\ sb_sfn_sf b' = sb_sfn_sf b.
Proof. unfold rx_half. destruct (_ =? _), b, k; by intros [= <- <-]. Qed.

Lemma timing_info_step_shift c p p' evs :
  timing_info_step c p = (p', evs) -> sfn_sf_shift p' = sfn_sf_shift p.
Proof.
  unfold timing_info_step. cbn. destruct (_ && _); [|destruct (_ && _)]; intros [= <- <-]; done.
Qed.
Lemma tick_step_shift p : sfn_sf_shift (tick_step p) = sfn_sf_shift p.
Proof. unfold tick_step. by destruct (_ =? _). Qed.

Lemma timing_info_step_quiet c p p' evs :
  timing_info_step c p = (p', evs) -> called evs = [] /\ freed evs = [].
Proof.
  unfold timing_info_step. cbn. destruct (_ && _); [|destruct (_ && _)]; by intros [= <- <-].
Qed.

(** The indication, as far as the buffers go. *)
Lemma pnf_p7_subframe_ind_buffers c p s now p' evs :
  ring_ok c p -> sfn_sf_shift p = 0 -> pnf_p7_subframe_ind c p s now = Some (p', evs) ->
  let s_tx := u32 (sfnsf_add_sf s sf_ahead) in
  sfn_sf_shift p' = 0 /\ exists tb tb' rb rb' evs_tx evs_rx evs_ti,
  subframe_buffer p !! ring_index c s_tx = Some tb /\ tx_half c s_tx tb = (tb', evs_tx) /\
  <[ring_index c s_tx := tb']> (subframe_buffer p) !! ring_index c s = Some rb /\
  rx_half c s rb = (rb', evs_rx) /\ evs = evs_tx ++ evs_rx ++ evs_ti /\
  subframe_buffer p' =
    <[ring_index c s := reset_buffer rb']> (<[ring_index c s_tx := tb']> (subframe_buffer p)) /\
  called evs_ti = [] /\ freed evs_ti = [].
Proof.
  intros Hp Hs. unfold pnf_p7_subframe_ind. rewrite (proj2 (Z.eqb_neq _ 0)) by (destruct Hp; lia).
  cbn [negb subframe_buffer sfn_sf_shift]. rewrite Hs. change (apply_shift s 0) with s.
  fold (ring_index c s) (ring_index c (u32 (sfnsf_add_sf s sf_ahead))).
  destruct (subframe_buffer p !! _) as [tb|] eqn:Etb; [|done]. cbn [mbind option_bind].
  destruct (tx_half c _ tb) as [tb' evs_tx] eqn:Etx.
  destruct (_ !! ring_index c s) as [rb|] eqn:Erb; [|done]. cbn [mbind option_bind].
  destruct (rx_half c s rb) as [rb' evs_rx] eqn:Erx.
  destruct (timing_info_step c _) as [p2 evs_ti] eqn:Eti. intros [= <- <-].
  rewrite tick_step_shift, tick_step_buffers, (timing_info_step_shift _ _ _ _ Eti),
    (timing_info_step_buffers _ _ _ _ Eti).
  split; [done|]. exists tb, tb', rb, rb', evs_tx, evs_rx, evs_ti. do 6 (split; [done|]).
  by eapply timing_info_step_quiet.
Qed.

Lemma subframe_leaves k c p s now req p' evs :
  ring_ok c p -> pnf_p7_subframe_ind c p s now = Some (p', evs) ->
  leaves c k (rq_sfn_sf req) (Subframe s now) -> holds c k req p -> holds c k req p'.
Proof.
  intros Hp E [Hi Hi'] (Hs & b & Hb & Hbs & Hbk).
  destruct (pnf_p7_subframe_ind_buffers _ _ _ _ _ _ Hp Hs E)
    as (Hs' & tb & tb' & rb & rb' & e1 & e2 & e3 & Htb & Etx & _ & _ & _ & Eb & _).
  split; [done|]. rewrite Eb, list_lookup_insert_ne by done.
  destruct (decide (ring_index c (u32 (sfnsf_add_sf s sf_ahead)) = ring_index c (rq_sfn_sf req))) as [Ei|Ei].
  - destruct (uplink k) eqn:Ek; [|by destruct (Hi' eq_refl)]. rewrite Ei in *. rewrite Hb in Htb.
    injection Htb as <-. apply (tx_half_uplink k) in Etx as [E1 E2]; [|done].
    exists tb'. rewrite E1, E2. split; [|done]. apply list_lookup_insert_eq. by apply lookup_lt_Some in Hb.
  - exists b. by rewrite list_lookup_insert_ne.
Qed.

(** A matching half hands the request over and frees it. *)
Lemma half_hands_over c k req (b : nfapi_pnf_p7_subframe_buffer_t) s ks ks' :
  sb_get k b = Some req -> k ∈ ks -> k ∈ ks' ->
  handed_over (has_callback c) k req
    (concat (deliver c b s <$> ks) ++ concat (release b <$> ks') : list pnf_event).
Proof.
  intros Hb. apply handed_over_halves; [done|]. intros Hc. unfold deliver. by rewrite Hb, Hc.
Qed.

Lemma subframe_hands_over k c p r now req p' evs :
  ring_ok c p -> 0 <= r < 10240 -> rq_sfn_sf req = sfnsf r -> holds c k req p ->
  pnf_p7_subframe_ind c p (sfnsf (due k r)) now = Some (p', evs) -> handed_over (has_callback c) k req evs.
Proof.
  intros Hp Hr Hreq (Hs & b & Hb & Hbs & Hbk) E. rewrite Hreq in *.
  destruct (pnf_p7_subframe_ind_buffers _ _ _ _ _ _ Hp Hs E)
    as (_ & tb & tb' & rb & rb' & e1 & e2 & e3 & Htb & Etx & Hrb & Erx & -> & _).
  unfold due in *. destruct (uplink k) eqn:Ek.
  - apply handed_over_app. assert (sb_get k rb = Some req /\ sb_sfn_sf rb = sfnsf r) as [Hk Hrs].
    { destruct (decide (ring_index c (u32 (sfnsf_add_sf (sfnsf r) sf_ahead)) = ring_index c (sfnsf r))) as [Ei|Ei].
      - rewrite Ei in *. rewrite Hb in Htb. injection Htb as <-.
        rewrite list_lookup_insert_eq in Hrb by (by apply lookup_lt_Some in Hb). injection Hrb as <-.
        apply (tx_half_uplink k) in Etx as [E1 E2]; [|done]. by rewrite E1, E2.
      - rewrite list_lookup_insert_ne in Hrb by done. rewrite Hb in Hrb. by injection Hrb as <-. }
    unfold rx_half in Erx. rewrite Hrs, Z.eqb_refl in Erx. apply pair_eq in Erx as [_ <-].
    destruct k; try discriminate Ek; (apply half_hands_over; [done| |]; by apply (bool_decide_unpack _)).
  - assert (u32 (sfnsf_add_sf (sfnsf ((r - sf_ahead) mod 10240)) sf_ahead) = sfnsf r) as Es.
    { unfold sf_ahead. rewrite sfnsf_add_sf_spec by lia. rewrite u32_small.
      - f_equal. lia.
      - pose proof (sfnsf_range (((r - 4) mod 10240 + 4) mod 10240)). wrap_lia. }
    rewrite Es in *. rewrite Hb in Htb. injection Htb as <-.
    unfold tx_half in Etx. rewrite Hbs, Z.eqb_refl in Etx. apply pair_eq in Etx as [_ <-].
    apply (handed_over_app _ _ _ [] _ (e2 ++ e3)).
    destruct k; try discriminate Ek; (apply half_hands_over; [done| |]; by apply (bool_decide_unpack _)).
Qed.

Lemma pnf_run_holds c k req ops p p' evs :
  ring_ok c p -> Forall op_ok ops -> Forall (leaves c k (rq_sfn_sf req)) ops -> holds c k req p ->
  pnf_run c p ops = Some (p', evs) -> holds c k req p' /\ ring_ok c p'.
Proof.
  intros Hp Hops. revert p Hp evs. induction Hops as [|op ops Hop _ IH]; intros p Hp evs Hl Hh.
  { by intros [= <- <-]. }
  inversion Hl as [|?? Hl1 Hl2]; subst. cbn [pnf_run].
  destruct (pnf_step c p op) as [[p1 e1]|] eqn:E1; [|done]. cbn [mbind option_bind].
  destruct (pnf_run c p1 ops) as [[p2 e2]|] eqn:E2; [|done]. intros [= <- <-].
  eapply IH; [|done| |done].
  - destruct op as [k' r' u|s now]; cbn [pnf_step op_ok] in *.
    + destruct (handle_request_total k' c p r' u Hp) as (q & e & E & Hq); [lia|].
      rewrite E1 in E. by injection E as -> _.
    + destruct (pnf_p7_subframe_ind_total c p s now Hp) as (q & e & l & E & Hq & _); [lia|].
      rewrite E1 in E. by injection E as -> _.
  - destruct op as [k' r' u|s now]; cbn [pnf_step] in E1.
    + by eapply handle_request_leaves.
    + by eapply subframe_leaves.
Qed.

(** A stored request is handed over by the indication that is due. *)
Lemma held_is_delivered c p k r req ops now : ring_ok c p -> 0 <= r < 10240 -> rq_sfn_sf req = sfnsf r -> holds c k req p ->
  Forall op_ok ops -> Forall (leaves c k (sfnsf r)) ops ->
  exists p2 evs2 p3 evs3, pnf_run c p ops = Some (p2, evs2) /\
    pnf_p7_subframe_ind c p2 (sfnsf (due k r)) now = Some (p3, evs3) /\ handed_over (has_callback c) k req evs3.
Proof.
  intros Hp Hr Hreq Hh Hops Hl. rewrite <- Hreq in Hl.
  destruct (pnf_run_total c p ops Hp Hops) as (p2 & e2 & l2 & E2 & _).
  destruct (pnf_run_holds c k req ops p p2 e2) as [Hh2 Hp2]; [done..|].
  assert (0 <= due k r < 10240) as Hd by (unfold due; destruct (uplink k); lia). pose proof (sfnsf_range _ Hd).
  destruct (pnf_p7_subframe_ind_total c p2 (sfnsf (due k r)) now Hp2) as (p3 & e3 & l3 & E3 & _); [lia|].
  exists p2, e2, p3, e3. do 2 (split; [done|]). exact (subframe_hands_over k c p2 r now req p3 e3 Hp2 Hr Hreq Hh2 E3).
Qed.

(** C10.  A request that arrives in the window is transferred to the UEs and,
    after any operations that neither displace it nor visit its buffer, the
    subframe indication that is due hands it to the PHY callback and frees it
    afterwards: [sf_ahead] subframes early for downlink requests, in its own
    subframe for uplink ones. *)
Theorem request_reaches_phy c p k r ptr phy ops now :
  let req := Request ptr (sfnsf r) phy in
  ring_ok c p -> sfn_sf_shift p = 0 -> 0 <= r < 10240 ->
  is_p7_request_in_window (sfnsf r) (p_sfn_sf p) (subframe_buffer_size c) = 1 ->
  Forall op_ok ops -> Forall (leaves c k (sfnsf r)) ops ->
  exists p1 evs1 p2 evs2 p3 evs3,
  handle_request k c p req true = Some (p1, evs1) /\
  pnf_run c p1 ops = Some (p2, evs2) /\
  pnf_p7_subframe_ind c p2 (sfnsf (due k r)) now = Some (p3, evs3) /\
  (transferred k = true -> Transfer k req ∈ evs1) /\ handed_over (has_callback c) k req evs3.
Proof.
  intros req Hp Hs Hr Hw Hops Hl. pose proof (sfnsf_range r Hr).
  destruct (handle_request_total k c p req true Hp) as (p1 & e1 & E1 & Hp1); [cbn; lia|].
  destruct (handle_request_stores _ _ _ _ _ _ E1) as [Hh Ht]; [cbn; lia|done|].
  destruct (held_is_delivered c p1 k r req ops now Hp1 Hr eq_refl Hh Hops Hl) as (p2 & e2 & p3 & e3 & ? & ? & ?).
  by exists p1, e1, p2, e2, p3, e3.
Qed.

Lemma request_reaches_phy_witness :
  exists p1 evs1 p2 evs2 p3 evs3,
  handle_request Tx (plain_config 30) (idle_pnf 100) (Request 7 (sfnsf 110) 0) true = Some (p1, evs1) /\
  pnf_run (plain_config 30) p1 [Subframe (sfnsf 101) 0; Arrive DlConfig (Request 8 (sfnsf 110) 0) true;
    Subframe (sfnsf 102) 0; Arrive Tx (Request 9 (sfnsf 111) 0) true] = Some (p2, evs2) /\
  pnf_p7_subframe_ind (plain_config 30) p2 (sfnsf (due Tx 110)) 0 = Some (p3, evs3) /\
  (transferred Tx = true -> Transfer Tx (Request 7 (sfnsf 110) 0) ∈ evs1) /\
  handed_over (has_callback (plain_config 30)) Tx (Request 7 (sfnsf 110) 0) evs3.
Proof.
  apply (request_reaches_phy (plain_config 30) (idle_pnf 100) Tx 110 7 0).
  - split; [vm_compute; done|cbn; lia].
  - done.
  - lia.
  - vm_compute; done.
  - repeat constructor; vm_compute; done.
  - repeat (apply Forall_cons; split); [| | | |by apply Forall_nil];
      [split; [by vm_compute|intros _; by vm_compute]|by right|
       split; [by vm_compute|intros _; by vm_compute]|by left; vm_compute].
Defined.

(** ** Late requests *)

(** Dummies and timing information neither use nor free a request. *)
Lemma dummies_quiet c s ks :
  called (concat (send_dummy c s <$> ks)) = [] /\ freed (concat (send_dummy c s <$> ks)) = [].
Proof.
  induction ks as [|k ks [IH1 IH2]]; [done|]. cbn [fmap list_fmap concat].
  rewrite called_app, freed_app, IH1, IH2. unfold send_dummy. by destruct (_ && _).
Qed.

(** An indication that finds no request for its two subframes. *)
Lemma tx_half_miss c s b : sb_sfn_sf b <> s ->
  exists evs, tx_half c s b = (b, evs) /\ called evs = [] /\ freed evs = [].
Proof.
  intros H. unfold tx_half. rewrite (proj2 (Z.eqb_neq _ _) H). eexists. split; [done|]. apply dummies_quiet.
Qed.

Lemma sfnsf_tx n : 0 <= n < 10240 ->
  u32 (sfnsf_add_sf (sfnsf n) sf_ahead) = sfnsf ((n + sf_ahead) mod 10240).
Proof.
  intros Hn. unfold sf_ahead. rewrite sfnsf_add_sf_spec by lia. rewrite u32_small; [done|].
  pose proof (sfnsf_range ((n + 4) mod 10240)). wrap_lia.
Qed.

Lemma ring_index_lt c p s : ring_ok c p -> 0 <= s -> (ring_index c s < length (subframe_buffer p))%nat.
Proof. intros Hp Hs. by apply lookup_lt_is_Some, (ring_lookup c p s). Qed.

Lemma sfnsf_inj n m : 0 <= n < 10240 -> 0 <= m < 10240 -> sfnsf n = sfnsf m -> n = m.
Proof. intros Hn Hm H. rewrite <- (NFAPI_SFNSF2DEC_sfnsf n), <- (NFAPI_SFNSF2DEC_sfnsf m) by done. by rewrite H. Qed.

(** The transmit half never touches a ring that stores nothing for its
    subframe. *)
Lemma tx_half_ring_miss c s tb tb' evs (bs : list nfapi_pnf_p7_subframe_buffer_t) i :
  bs !! i = Some tb -> Forall (fun b => sb_sfn_sf b <> s) bs -> tx_half c s tb = (tb', evs) ->
  <[i := tb']> bs = bs /\ called evs = [] /\ freed evs = [].
Proof.
  intros Hi Hbs E. destruct (tx_half_miss c s tb) as (e & E' & Hc & Hf).
  - apply (Forall_lookup_1 _ _ _ _ Hbs Hi).
  - rewrite E in E'. injection E' as -> ->. split; [by apply list_insert_id|done].
Qed.

Lemma rx_half_none c s b : ul_config_req b = None -> lbt_dl_config_req b = None ->
  exists evs, rx_half c s b = (b, evs) /\ called evs = [] /\ freed evs = [].
Proof.
  intros H1 H2. unfold rx_half. destruct (_ =? _); [|by exists []].
  eexists. split; [f_equal; destruct b; cbn in *; by subst|].
  assert (deliver c b s <$> [UlConfig; LbtDlConfig] = send_dummy c s <$> [UlConfig; LbtDlConfig]) as ->.
  { unfold deliver. cbn. by rewrite H1, H2. }
  rewrite called_app, freed_app. destruct (dummies_quiet c s [UlConfig; LbtDlConfig]) as [-> ->].
  unfold release. cbn. by rewrite H1, H2.
Qed.

(** The request handler on an idle PNF. *)
Lemma handle_idle c n req p1 e1 k : ring_ok c (idle_pnf n) -> 
  is_p7_request_in_window (rq_sfn_sf req) (sfnsf n) (subframe_buffer_size c) = 1 ->
  handle_request k c (idle_pnf n) req true = Some (p1, e1) ->
  called e1 = [] /\ freed e1 = [] /\ sfn_sf_shift p1 = 0 /\
  subframe_buffer p1 = <[ring_index c (rq_sfn_sf req) := sb_set k (Some req) (sb_set_sfn_sf (rq_sfn_sf req) sb_clear)]>
    (repeat sb_clear 30).
Proof.
  intros Hp Hw. unfold handle_request. cbn [negb p_sfn_sf idle_pnf subframe_buffer]. rewrite Hw. cbn [negb Z.eqb].
  fold (ring_index c (rq_sfn_sf req)). destruct (repeat sb_clear 30 !! _) as [b|] eqn:Eb; [|done].
  assert (b = sb_clear) as ->.
  { apply list_elem_of_lookup_2, list_elem_of_In, repeat_spec in Eb. done. }
  intros [= <- <-]. cbn [with_ontime with_buffers subframe_buffer sfn_sf_shift].
  split; [|split; [|done]]; by destruct k.
Qed.

(** An HI/DCI0 request that arrives one subframe ahead is passed to the
    UEs and then forgotten when its subframe starts: the PHY never sees it, it
    is never freed, and it is no longer stored. *)
Theorem late_hi_dci0_leaks c n ptr phy now :
  let r := (n + 1) mod 10240 in
  let req := Request ptr (sfnsf r) phy in
  0 <= n < 10240 -> 1 <= subframe_buffer_size c <= 30 ->
  exists p' evs, pnf_run c (idle_pnf n) [Arrive HiDci0 req true; Subframe (sfnsf r) now] = Some (p', evs) /\
  Transfer HiDci0 req ∈ evs /\ called evs = [] /\ freed evs = [] /\ stored p' = [].
Proof.
  intros r req Hn Hc. assert (ring_ok c (idle_pnf n)) as Hp by (split; [by vm_compute|done]).
  assert (0 <= r < 10240) as Hr by lia. pose proof (sfnsf_range r Hr).
  assert (is_p7_request_in_window (sfnsf r) (sfnsf n) (subframe_buffer_size c) = 1) as Hw.
  { apply in_window_iff; lia. }
  destruct (handle_request_total HiDci0 c (idle_pnf n) req true Hp) as (p1 & e1 & E1 & Hp1); [cbn; lia|].
  destruct (pnf_p7_subframe_ind_total c p1 (sfnsf r) now Hp1) as (p2 & e2 & l2 & E2 & _); [lia|].
  exists p2, (e1 ++ e2). cbn [pnf_run pnf_step]. rewrite E1. cbn [mbind option_bind]. rewrite E2.
  cbn [mbind option_bind]. rewrite app_nil_r. split; [done|].
  destruct (handle_idle c n req p1 e1 HiDci0 Hp Hw E1) as (C1 & F1 & Hs1 & Hb1).
  destruct (handle_request_stores HiDci0 c (idle_pnf n) req p1 e1 E1) as [_ Ht]; [cbn; lia|done|].
  specialize (Ht eq_refl).
  destruct (pnf_p7_subframe_ind_buffers c p1 (sfnsf r) now p2 e2 Hp1 Hs1 E2)
    as (_ & tb & tb' & rb & rb' & x1 & x2 & x3 & Htb & Etx & Hrb & Erx & -> & Hb2 & T1 & T2).
  cbn [rq_sfn_sf req] in Hb1. rewrite (sfnsf_tx r Hr) in Htb, Etx, Hrb, Hb2.
  assert (Forall (fun b => sb_sfn_sf b <> sfnsf ((r + sf_ahead) mod 10240)) (subframe_buffer p1)) as Hmiss.
  { rewrite Hb1. unfold sf_ahead. apply Forall_insert; [apply Forall_repeat|];
      cbn [sb_clear sb_set sb_set_sfn_sf sb_sfn_sf].
    - unfold sfnsf. lia.
    - intros Heq. apply sfnsf_inj in Heq; lia. }
  destruct (tx_half_ring_miss _ _ _ _ _ _ _ Htb Hmiss Etx) as (Ebs & C2 & F2).
  rewrite Ebs, Hb1, list_lookup_insert_eq in Hrb by (apply (ring_index_lt c _ (sfnsf r) Hp); lia).
  injection Hrb as <-.
  destruct (rx_half_none c (sfnsf r) (SubframeBuffer (sfnsf r) None None (Some req) None None None))
    as (x2' & E3 & C3 & F3); [done..|].
  cbn [sb_clear sb_set sb_set_sfn_sf req rq_sfn_sf] in Erx. rewrite E3 in Erx. injection Erx as <- <-.
  rewrite !called_app, !freed_app, C1, C2, C3, T1, F1, F2, F3, T2.
  split; [rewrite elem_of_app; by left|]. do 2 (split; [done|]).
  unfold stored. rewrite Hb2, Ebs, Hb1, list_insert_insert_eq.
  apply stored_ring_nil, Forall_insert; [apply Forall_repeat|]; by intros [].
Qed.

Lemma late_hi_dci0_leaks_witness :
  exists p' evs, pnf_run (plain_config 30) (idle_pnf 100)
    [Arrive HiDci0 (Request 7 (sfnsf 101) 0) true; Subframe (sfnsf 101) 0] = Some (p', evs) /\
  Transfer HiDci0 (Request 7 (sfnsf 101) 0) ∈ evs /\ called evs = [] /\ freed evs = [] /\ stored p' = [].
Proof. apply (late_hi_dci0_leaks (plain_config 30) 100 7 0 0); cbn; lia. Defined.
