(* ===== verification/PnfNrP7.v ===== *)
(** * The PNF's slot buffers ([pnf_p7.c], NR)

    NR requests from the VNF.  DL_TTI and TX_DATA requests are transferred to
    the UEs and freed at once; UL_TTI and UL_DCI requests are transferred and
    also kept in a ring of slot buffers, indexed by the slot number, for the
    slot indication [pnf_p7_slot_ind].  The conventions are those of the LTE
    side ([PnfP7]): a request is its address with the fields the buffers look
    at, the log of events carries ownership, the mutex is free and allocation
    succeeds, [None] is an access outside the buffer array. *)

From S2P Require Import Prelude Sfn Ownership PnfP7.

Inductive nr_kind := DlTti | UlTti | UlDci | TxData.
#[export] Instance nr_kind_eq_dec : EqDecision nr_kind.
Proof. solve_decision. Defined.

(** An allocated request: its address, [SFN] and [Slot]. *)
Record nr_request := NrRequest { nr_ptr : Z; nr_SFN : Z; nr_Slot : Z }.

(* src: nfapi_pnf_interface.h :: nfapi_pnf_p7_slot_buffer_t *)
Record nfapi_pnf_p7_slot_buffer_t := SlotBuffer {
  slb_sfn : Z;
  slb_slot : Z;
  dl_tti_req : option nr_request;
  ul_tti_req : option nr_request;
  ul_dci_req : option nr_request;
  tx_data_req : option nr_request;
}.

Definition slb_get (k : nr_kind) (b : nfapi_pnf_p7_slot_buffer_t) : option nr_request :=
  match k with
  | DlTti => dl_tti_req b | UlTti => ul_tti_req b | UlDci => ul_dci_req b | TxData => tx_data_req b
  end.

Definition slb_set (k : nr_kind) (r : option nr_request) (b : nfapi_pnf_p7_slot_buffer_t) :
    nfapi_pnf_p7_slot_buffer_t :=
  let 'SlotBuffer sfn slot dl ul dci tx := b in
  match k with
  | DlTti => SlotBuffer sfn slot r ul dci tx
  | UlTti => SlotBuffer sfn slot dl r dci tx
  | UlDci => SlotBuffer sfn slot dl ul r tx
  | TxData => SlotBuffer sfn slot dl ul dci r
  end.

Lemma slb_get_set k k' r b : slb_get k (slb_set k' r b) = if decide (k = k') then r else slb_get k b.
Proof. destruct b, k, k'; reflexivity. Qed.

#[export, refine] Instance slot_buffer_ReqBuffer : ReqBuffer nfapi_pnf_p7_slot_buffer_t nr_kind nr_request := {
  buf_get := slb_get; buf_set := slb_set; buf_kinds := [DlTti; UlTti; UlDci; TxData];
  buf_get_set := slb_get_set;
}.
Proof.
  - by apply (bool_decide_unpack _).
  - intros k. apply list_elem_of_In. destruct k; cbn; tauto.
Defined.

(** [memset], then [-1] in two [int16_t]. *)
Definition slb_clear : nfapi_pnf_p7_slot_buffer_t := SlotBuffer (-1) (-1) None None None None.

(** The counters of [pnf_p7_stats_t] the NR handlers use. *)
Record nr_stats_t := NrStats { ul_tti_ontime : Z; ul_tti_late : Z; ul_dci_ontime : Z; ul_dci_late : Z }.

Definition nr_count_ontime (k : nr_kind) (s : nr_stats_t) : nr_stats_t :=
  let 'NrStats a b c d := s in
  match k with
  | UlTti => NrStats (u16 (a + 1)) b c d
  | UlDci => NrStats a b (u16 (c + 1)) d
  | _ => s
  end.
Definition nr_count_late (k : nr_kind) (s : nr_stats_t) : nr_stats_t :=
  let 'NrStats a b c d := s in
  match k with
  | UlTti => NrStats a (u16 (b + 1)) c d
  | UlDci => NrStats a b c (u16 (d + 1))
  | _ => s
  end.

Record nr_config := NrConfig {
  slot_buffer_size : Z;
  nr_timing_periodic : bool;
  nr_timing_aperiodic : bool;
  nr_timing_period : Z;
  nr_has_callback : nr_kind -> bool;
  nr_has_dummy : nr_kind -> bool;
}.

(** The fields of [pnf_p7_t] the NR functions use. *)
(* src: pnf_p7.h 83-144 pnf_p7_t *)
Record pnf_nr_t := PnfNr {
  slot_buffer : list nfapi_pnf_p7_slot_buffer_t;
  p_sfn : Z;
  p_slot : Z;
  slot_start_time_hr : Z;
  slot_shift : Z;
  nr_period_counter : Z;
  nr_aperiodic_send : bool;
  nr_ms_counter : Z;
  nr_stats : nr_stats_t;
}.

Inductive nr_note :=
  | NrDummyCall (k : nr_kind) (sfn slot : Z)
  | NrTimingInfo (last_sfn last_slot ms : Z).
Abbreviation nr_event := (event nr_kind nr_request nr_note).

Definition nr_with_buffers (p : pnf_nr_t) (bs : list nfapi_pnf_p7_slot_buffer_t) : pnf_nr_t :=
  PnfNr bs (p_sfn p) (p_slot p) (slot_start_time_hr p) (slot_shift p) (nr_period_counter p)
    (nr_aperiodic_send p) (nr_ms_counter p) (nr_stats p).
Definition nr_with_stats (p : pnf_nr_t) (aperiodic : bool) (s : nr_stats_t) : pnf_nr_t :=
  PnfNr (slot_buffer p) (p_sfn p) (p_slot p) (slot_start_time_hr p) (slot_shift p) (nr_period_counter p)
    aperiodic (nr_ms_counter p) s.

(** ** The request handlers *)

(** DL_TTI and TX_DATA: nothing is kept. *)
(* src: pnf_p7.c :: pnf_handle_dl_tti_request *)
Definition nr_handle_through (k : nr_kind) (req : nr_request) (unpacked : bool) : list nr_event :=
  Alloc k req :: (if unpacked then [Transfer k req] else []) ++ [Free k req].

(** UL_TTI and UL_DCI; the latter does not record the slot number in the
    buffer. *)
(* src: pnf_p7.c 1693-1767 pnf_handle_ul_tti_request *)
Definition nr_handle_stored (k : nr_kind) (c : nr_config) (p : pnf_nr_t) (req : nr_request)
    (unpacked : bool) : option (pnf_nr_t * list nr_event) :=
  if negb unpacked then Some (p, [Alloc k req; Free k req])
  else if negb (is_nr_p7_request_in_window (nr_SFN req) (nr_Slot req) (p_sfn p) (p_slot p)
                  (slot_buffer_size c) =? 0) then
    let sfn_slot_dec := u32 (NFAPI_SFNSLOT2DEC (nr_SFN req) (nr_Slot req)) in
    let buffer_index := Z.to_nat (u8 (Z.rem sfn_slot_dec 20)) in
    match slot_buffer p !! buffer_index with
    | None => None
    | Some b =>
        let slot := match k with UlDci => slb_slot b | _ => s16 (nr_Slot req) end in
        let 'SlotBuffer _ _ dl ul dci tx := slb_set k (Some req) b in
        let b' := SlotBuffer (s16 (nr_SFN req)) slot dl ul dci tx in
        Some (nr_with_stats (nr_with_buffers p (<[buffer_index := b']> (slot_buffer p)))
                (nr_aperiodic_send p) (nr_count_ontime k (nr_stats p)),
              Alloc k req :: free_opt k (slb_get k b) ++ [Transfer k req])
    end
  else
    Some (nr_with_stats p (if nr_timing_aperiodic c then true else nr_aperiodic_send p)
            (nr_count_late k (nr_stats p)), [Alloc k req; Free k req]).

(* src: pnf_p7.c :: pnf_handle_dl_tti_request *)
Definition pnf_handle_dl_tti_request := nr_handle_through DlTti.
(* src: pnf_p7.c :: pnf_handle_tx_data_request *)
Definition pnf_handle_tx_data_request := nr_handle_through TxData.
(* src: pnf_p7.c :: pnf_handle_ul_tti_request *)
Definition pnf_handle_ul_tti_request := nr_handle_stored UlTti.
(* src: pnf_p7.c :: pnf_handle_ul_dci_request *)
Definition pnf_handle_ul_dci_request := nr_handle_stored UlDci.

(** ** The slot indication *)

(* src: pnf_p7.c 923-923 pnf_p7_slot_ind *)
Definition slot_ahead : Z := 6.

(* src: pnf_p7.c 1038-1047 pnf_p7_slot_ind *)
Definition nr_send_dummy (c : nr_config) (sfn slot : Z) (k : nr_kind) : list nr_event :=
  if nr_has_callback c k && nr_has_dummy c k then [Note (NrDummyCall k sfn slot)] else [].

(* src: pnf_p7.c :: send_dummy_slot *)
Definition send_dummy_slot (c : nr_config) (sfn slot : Z) : list nr_event :=
  concat (nr_send_dummy c sfn slot <$> [TxData; DlTti; UlTti; UlDci]).

(** A request of the buffer goes to the callback if it is for this slot, else
    the dummy does. *)
Definition nr_for (sfn slot : Z) (r : nr_request) : bool := (nr_SFN r =? sfn) && (nr_Slot r =? slot).
(* src: pnf_p7.c 1010-1028 pnf_p7_slot_ind *)
Definition nr_deliver (c : nr_config) (b : nfapi_pnf_p7_slot_buffer_t) (sfn slot : Z) (k : nr_kind) :
    list nr_event :=
  match slb_get k b with
  | Some r =>
      if nr_for sfn slot r then (if nr_has_callback c k then [Callback k r] else [])
      else nr_send_dummy c sfn slot k
  | None => nr_send_dummy c sfn slot k
  end.

(* src: pnf_p7.c 989-1068 pnf_p7_slot_ind *)
Definition nr_tx_half (c : nr_config) (sfn_tx slot_tx : Z) (b : nfapi_pnf_p7_slot_buffer_t) :
    nfapi_pnf_p7_slot_buffer_t * list nr_event :=
  (clear_kinds [DlTti; TxData; UlDci] b,
   concat (nr_deliver c b sfn_tx slot_tx <$> [TxData; DlTti; UlDci]) ++
   concat (release b <$> [DlTti; TxData; UlDci])).

(* src: pnf_p7.c 1073-1097 pnf_p7_slot_ind *)
Definition nr_rx_half (c : nr_config) (sfn slot : Z) (b : nfapi_pnf_p7_slot_buffer_t) :
    nfapi_pnf_p7_slot_buffer_t * list nr_event :=
  (clear_kinds [UlTti] b,
   concat (nr_deliver c b sfn slot <$> [UlTti]) ++ concat (release b <$> [UlTti])).

(** The reset does not look at [ul_dci_req]. *)
(* src: pnf_p7.c 1101-1108 pnf_p7_slot_ind *)
Definition nr_reset_buffer (b : nfapi_pnf_p7_slot_buffer_t) : nfapi_pnf_p7_slot_buffer_t :=
  match dl_tti_req b, tx_data_req b, ul_tti_req b with
  | None, None, None => slb_clear
  | _, _, _ => b
  end.

(** [uint16_t] arithmetic: the negative case cannot occur. *)
(* src: pnf_p7.c 943-962 pnf_p7_slot_ind *)
Definition nr_apply_shift (slot shift : Z) : Z :=
  if negb (shift =? 0) then
    let shifted_slot := u16 (slot + shift) in
    if shifted_slot <? 0 then u16 (shifted_slot + NFAPI_MAX_SFNSLOTDEC)
    else if NFAPI_MAX_SFNSLOTDEC <? shifted_slot then u16 (shifted_slot - NFAPI_MAX_SFNSLOTDEC)
    else shifted_slot
  else slot.

(* src: pnf_p7.c :: pnf_nr_pack_and_send_timing_info *)
Definition pnf_nr_pack_and_send_timing_info (p : pnf_nr_t) : pnf_nr_t * list nr_event :=
  (PnfNr (slot_buffer p) (p_sfn p) (p_slot p) (slot_start_time_hr p) (slot_shift p) (nr_period_counter p)
     (nr_aperiodic_send p) 0 (nr_stats p),
   [Note (NrTimingInfo (p_sfn p) (p_slot p) (nr_ms_counter p))]).

(* src: pnf_p7.c 1114-1131 pnf_p7_slot_ind *)
Definition nr_timing_info_step (c : nr_config) (p : pnf_nr_t) : pnf_nr_t * list nr_event :=
  let counter := nr_period_counter p in
  let set p counter aperiodic ms :=
    PnfNr (slot_buffer p) (p_sfn p) (p_slot p) (slot_start_time_hr p) (slot_shift p) counter
      aperiodic ms (nr_stats p) in
  let p1 := set p (if nr_timing_periodic c then u8 (counter + 1) else counter) (nr_aperiodic_send p)
              (nr_ms_counter p) in
  if nr_timing_periodic c && (counter =? nr_timing_period c) then
    let '(p2, evs) := pnf_nr_pack_and_send_timing_info p1 in
    (set p2 0 (nr_aperiodic_send p2) (nr_ms_counter p2), evs)
  else if nr_timing_aperiodic c && nr_aperiodic_send p then
    let '(p2, evs) := pnf_nr_pack_and_send_timing_info p1 in
    (set p2 (nr_period_counter p2) false (nr_ms_counter p2), evs)
  else (set p1 (nr_period_counter p1) (nr_aperiodic_send p1) (u32 (nr_ms_counter p1 + 1)), []).

(** [now_hr] is the clock read at the start.  The instance's own position is
    that of the transmit side. *)
(* src: pnf_p7.c :: pnf_p7_slot_ind *)
Definition pnf_p7_slot_ind (c : nr_config) (p : pnf_nr_t) (sfn slot now_hr : Z) :
    option (pnf_nr_t * list nr_event) :=
  let sfn_slot_tx := u32 (sfnslot_add_slot sfn slot slot_ahead) in
  let sfn_tx := u16 (NFAPI_SFNSLOT2SFN sfn_slot_tx) in
  let slot_tx := u8 (NFAPI_SFNSLOT2SLOT sfn_slot_tx) in
  let p := PnfNr (slot_buffer p) sfn_tx slot_tx now_hr (slot_shift p) (nr_period_counter p)
             (nr_aperiodic_send p) (nr_ms_counter p) (nr_stats p) in
  let buffer_index_rx := Z.to_nat (u8 (Z.rem (u32 (NFAPI_SFNSLOT2DEC sfn slot)) 20)) in
  let buffer_index_tx := Z.to_nat (u8 (Z.rem (u32 (NFAPI_SFNSLOT2DEC sfn_tx slot_tx)) 20)) in
  if negb (slot_buffer_size c =? 0) then
    let slot := nr_apply_shift slot (slot_shift p) in
    let p := PnfNr (slot_buffer p) (p_sfn p) (p_slot p) (slot_start_time_hr p) 0 (nr_period_counter p)
               (nr_aperiodic_send p) (nr_ms_counter p) (nr_stats p) in
    tb ← slot_buffer p !! buffer_index_tx;
    let '(tb', evs_tx) := nr_tx_half c sfn_tx slot_tx tb in
    let bufs := <[buffer_index_tx := tb']> (slot_buffer p) in
    rb ← bufs !! buffer_index_rx;
    let '(rb', evs_rx) := nr_rx_half c sfn slot rb in
    let bufs := <[buffer_index_rx := nr_reset_buffer rb']> bufs in
    let '(p, evs_ti) := nr_timing_info_step c (nr_with_buffers p bufs) in
    Some (p, evs_tx ++ evs_rx ++ evs_ti)
  else Some (p, []).

(** The answer to a node sync: phy, t1, t2 and t3. *)
(* src: pnf_p7.c :: pnf_nr_handle_dl_node_sync *)
Definition pnf_nr_handle_dl_node_sync (p : pnf_nr_t) (phy_id t1 delta_sfn_slot rx_hr_time now_hr : Z) :
    pnf_nr_t * (Z * Z * Z * Z) :=
  let p :=
    if negb (delta_sfn_slot =? 0) then
      PnfNr (slot_buffer p) (p_sfn p) (p_slot p) (slot_start_time_hr p) delta_sfn_slot (nr_period_counter p)
        (nr_aperiodic_send p) (nr_ms_counter p) (nr_stats p)
    else p in
  (p, (phy_id, t1, calculate_nr_t2 rx_hr_time (p_sfn p) (p_slot p) (slot_start_time_hr p),
       calculate_nr_t3 now_hr (p_sfn p) (p_slot p) (slot_start_time_hr p))).

(** ** Runs *)

Inductive nr_op :=
  | NrArrive (k : nr_kind) (req : nr_request) (unpacked : bool)
  | NrSlot (sfn slot now_hr : Z).

Definition nr_handle (k : nr_kind) (c : nr_config) (p : pnf_nr_t) (req : nr_request) (unpacked : bool) :
    option (pnf_nr_t * list nr_event) :=
  match k with
  | DlTti => Some (p, pnf_handle_dl_tti_request req unpacked)
  | TxData => Some (p, pnf_handle_tx_data_request req unpacked)
  | UlTti => pnf_handle_ul_tti_request c p req unpacked
  | UlDci => pnf_handle_ul_dci_request c p req unpacked
  end.

Definition nr_step (c : nr_config) (p : pnf_nr_t) (op : nr_op) : option (pnf_nr_t * list nr_event) :=
  match op with
  | NrArrive k req unpacked => nr_handle k c p req unpacked
  | NrSlot sfn slot now_hr => pnf_p7_slot_ind c p sfn slot now_hr
  end.

Fixpoint nr_run (c : nr_config) (p : pnf_nr_t) (ops : list nr_op) : option (pnf_nr_t * list nr_event) :=
  match ops with
  | [] => Some (p, [])
  | op :: ops =>
      '(p, evs) ← nr_step c p op;
      '(p, evs') ← nr_run c p ops;
      Some (p, evs ++ evs')
  end.

Definition nr_stored (p : pnf_nr_t) : list (nr_kind * nr_request) := stored_ring (slot_buffer p).

Definition no_ul_dci (p : pnf_nr_t) : Prop := Forall (fun b => ul_dci_req b = None) (slot_buffer p).
Definition op_no_ul_dci (op : nr_op) : Prop := match op with NrArrive UlDci _ _ => False | _ => True end.

(** The array has 30 entries, the index is below 20. *)
Lemma nr_ring_lookup (bs : list nfapi_pnf_p7_slot_buffer_t) x :
  length bs = 30%nat -> is_Some (bs !! Z.to_nat (u8 (Z.rem (u32 x) 20))).
Proof.
  intros Hl. apply lookup_lt_is_Some. rewrite Hl. rewrite Z.rem_mod_nonneg by wrap_lia. wrap_lia.
Qed.

Lemma nr_handle_heap k c p req unpacked : length (slot_buffer p) = 30%nat ->
  exists p' evs, nr_handle k c p req unpacked = Some (p', evs) /\
    length (slot_buffer p') = 30%nat /\ heap_run (nr_stored p) evs (nr_stored p') /\
    (no_ul_dci p -> k <> UlDci -> no_ul_dci p').
Proof.
  intros Hl.
  assert (forall k, exists p' evs, nr_handle_stored k c p req unpacked = Some (p', evs) /\
    length (slot_buffer p') = 30%nat /\ heap_run (nr_stored p) evs (nr_stored p') /\
    (no_ul_dci p -> k <> UlDci -> no_ul_dci p')) as Hs.
  { clear k. intros k. unfold nr_handle_stored. destruct unpacked; cbn [negb];
      [|do 2 eexists; do 2 (split; [done|]); split; [apply (heap_run_through false)|done]].
    destruct (negb _); [|do 2 eexists; do 2 (split; [done|]); split; [apply (heap_run_through false)|done]].
    destruct (nr_ring_lookup (slot_buffer p) (NFAPI_SFNSLOT2DEC (nr_SFN req) (nr_Slot req)) Hl) as [b Hb].
    rewrite Hb. destruct (slb_set k (Some req) b) as [s0 s1 dl ul dci tx] eqn:Eb.
    set (b' := SlotBuffer _ _ dl ul dci tx). do 2 eexists. split; [done|].
    cbn [nr_with_stats nr_with_buffers slot_buffer]. split; [by rewrite length_insert|].
    assert (forall k', slb_get k' b' = slb_get k' (slb_set k (Some req) b)) as Eg
      by (rewrite Eb; by intros []).
    split.
    - apply (ring_heap_run _ _ b _ []); [done|]. cbn [app].
      change (slb_get k b) with (buf_get k b). apply (store_heap k req b b'); [exact Eg|].
      constructor; [|by constructor]. apply stored_in_get.
      cbn [buf_get slot_buffer_ReqBuffer]. by rewrite Eg, slb_get_set, decide_True.
    - intros Hn Hk. apply Forall_insert; [done|]. pose proof (Forall_lookup_1 _ _ _ _ Hn Hb) as Hdci.
      change (slb_get UlDci b' = None). rewrite Eg, slb_get_set, decide_False by congruence. exact Hdci. }
  destruct k; cbn [nr_handle]; [|apply Hs|apply Hs|];
    do 2 eexists; (do 2 (split; [done|])); split; [apply heap_run_through|done|apply heap_run_through|done].
Qed.

(** The halves of the indication. *)
Lemma nr_delivers_heap c b sfn slot ks h : stored_in b ⊆ h ->
  heap_run h (concat (nr_deliver c b sfn slot <$> ks)) h.
Proof.
  intros Hh. apply each_heap. intros k. unfold nr_deliver, nr_send_dummy. destruct (slb_get k b) eqn:E.
  - destruct (nr_for _ _ _); [by apply (callback_heap (B := nfapi_pnf_p7_slot_buffer_t) _ k n b)|].
    destruct (_ && _); eauto with own.
  - destruct (_ && _); eauto with own.
Qed.

Lemma nr_tx_half_heap c sfn slot b b' evs :
  nr_tx_half c sfn slot b = (b', evs) -> heap_run (stored_in b) evs (stored_in b').
Proof.
  intros E. apply pair_eq in E as [<- <-].
  eapply heap_run_app; [by apply nr_delivers_heap|]. apply releases_heap. by apply (bool_decide_unpack _).
Qed.

Lemma nr_rx_half_heap c sfn slot b b' evs :
  nr_rx_half c sfn slot b = (b', evs) -> heap_run (stored_in b) evs (stored_in b').
Proof.
  intros E. apply pair_eq in E as [<- <-].
  eapply heap_run_app; [by apply nr_delivers_heap|]. apply releases_heap. by apply (bool_decide_unpack _).
Qed.

(** The reset may forget a UL_DCI request. *)
Lemma nr_reset_stored b : exists lost,
  stored_in b ≡ₚ lost ++ stored_in (nr_reset_buffer b) /\ lost ⊆ opt_list UlDci (ul_dci_req b).
Proof.
  unfold nr_reset_buffer. destruct b as [s1 s2 [dl|] [ul|] dci [tx|]]; cbn;
    try (exists []; split; [done|apply list_subseteq_nil]).
  exists (opt_list UlDci dci). by destruct dci.
Qed.

Lemma nr_timing_info_quiet c p p' evs : nr_timing_info_step c p = (p', evs) ->
  slot_buffer p' = slot_buffer p /\ p_sfn p' = p_sfn p /\ p_slot p' = p_slot p /\
  called evs = [] /\ freed evs = [] /\ forall h, heap_run h evs h.
Proof.
  unfold nr_timing_info_step. cbn. destruct (_ && _); [|destruct (_ && _)]; intros [= <- <-]; cbn;
    repeat split; eauto with own.
Qed.

(** The indication as a transformation of the ring. *)
Lemma pnf_p7_slot_ind_buffers c p sfn slot now :
  length (slot_buffer p) = 30%nat -> slot_buffer_size c <> 0 ->
  let sfn_slot_tx := u32 (sfnslot_add_slot sfn slot slot_ahead) in
  let sfn_tx := u16 (NFAPI_SFNSLOT2SFN sfn_slot_tx) in
  let slot_tx := u8 (NFAPI_SFNSLOT2SLOT sfn_slot_tx) in
  let i := Z.to_nat (u8 (Z.rem (u32 (NFAPI_SFNSLOT2DEC sfn_tx slot_tx)) 20)) in
  let j := Z.to_nat (u8 (Z.rem (u32 (NFAPI_SFNSLOT2DEC sfn slot)) 20)) in
  exists p' tb tb' rb rb' e1 e2 e3,
  pnf_p7_slot_ind c p sfn slot now = Some (p', e1 ++ e2 ++ e3) /\
  slot_buffer p !! i = Some tb /\ nr_tx_half c sfn_tx slot_tx tb = (tb', e1) /\
  <[i := tb']> (slot_buffer p) !! j = Some rb /\
  nr_rx_half c sfn (nr_apply_shift slot (slot_shift p)) rb = (rb', e2) /\
  slot_buffer p' = <[j := nr_reset_buffer rb']> (<[i := tb']> (slot_buffer p)) /\
  p_sfn p' = sfn_tx /\ p_slot p' = slot_tx /\
  called e3 = [] /\ freed e3 = [] /\ (forall h, heap_run h e3 h).
Proof.
  intros Hl Hc sfn_slot_tx sfn_tx slot_tx i j.
  destruct (nr_ring_lookup (slot_buffer p) (NFAPI_SFNSLOT2DEC sfn_tx slot_tx) Hl) as [tb Htb].
  destruct (nr_tx_half c sfn_tx slot_tx tb) as [tb' e1] eqn:E1.
  destruct (nr_ring_lookup (<[i := tb']> (slot_buffer p)) (NFAPI_SFNSLOT2DEC sfn slot)) as [rb Hrb];
    [by rewrite length_insert|].
  destruct (nr_rx_half c sfn (nr_apply_shift slot (slot_shift p)) rb) as [rb' e2] eqn:E2.
  unfold pnf_p7_slot_ind. rewrite (proj2 (Z.eqb_neq _ _) Hc). cbn [negb slot_buffer slot_shift].
  fold sfn_slot_tx. fold sfn_tx slot_tx. fold i j. fold i in Htb. fold j in Hrb.
  rewrite Htb. cbn [mbind option_bind]. rewrite E1, Hrb. cbn [mbind option_bind]. rewrite E2.
  destruct (nr_timing_info_step c _) as [p' e3] eqn:E3.
  destruct (nr_timing_info_quiet _ _ _ _ E3) as (Eb & Es & Et & Hq).
  exists p', tb, tb', rb, rb', e1, e2, e3. rewrite Eb, Es, Et. split_and!; done || apply Hq.
Qed.

Lemma pnf_p7_slot_ind_heap c p sfn slot now : length (slot_buffer p) = 30%nat ->
  exists p' evs lost, pnf_p7_slot_ind c p sfn slot now = Some (p', evs) /\
    length (slot_buffer p') = 30%nat /\ heap_run (nr_stored p) evs (lost ++ nr_stored p') /\
    Forall (fun x => fst x = UlDci) lost /\ (no_ul_dci p -> lost = [] /\ no_ul_dci p').
Proof.
  intros Hl. destruct (decide (slot_buffer_size c = 0)) as [Hc|Hc].
  { unfold pnf_p7_slot_ind. rewrite Hc. cbn [negb Z.eqb]. do 2 eexists. exists [].
    split; [done|]. split; [done|]. split; [by constructor|]. by split. }
  destruct (pnf_p7_slot_ind_buffers c p sfn slot now Hl Hc)
    as (p' & tb & tb' & rb & rb' & e1 & e2 & e3 & E & Htb & E1 & Hrb & E2 & Eb & _ & _ & _ & _ & H3).
  set (i := Z.to_nat _) in *. set (j := Z.to_nat (u8 (Z.rem (u32 (NFAPI_SFNSLOT2DEC sfn slot)) 20))) in *.
  destruct (nr_reset_stored rb') as (lost & Hlost & Hsub).
  exists p', (e1 ++ e2 ++ e3), lost. split; [done|]. split; [by rewrite Eb, !length_insert|].
  split; [|split].
  - unfold nr_stored. rewrite Eb.
    apply heap_run_app with (stored_ring (<[i := tb']> (slot_buffer p))).
    { apply (ring_heap_run _ _ tb _ []); [done|]. by eapply nr_tx_half_heap. }
    eapply heap_run_app; [|apply H3]. apply (ring_heap_run _ _ rb); [done|].
    rewrite <- Hlost. by eapply nr_rx_half_heap.
  - apply Forall_forall. intros x Hx. apply Hsub in Hx.
    destruct (ul_dci_req rb'); cbn in Hx; [by apply list_elem_of_singleton in Hx as ->|by apply not_elem_of_nil in Hx].
  - intros Hn. apply pair_eq in E1 as [<- _], E2 as [<- _].
    assert (Forall (fun b => ul_dci_req b = None) (<[i := clear_kinds [DlTti; TxData; UlDci] tb]> (slot_buffer p))) as Hn1.
    { apply Forall_insert; [done|]. by destruct tb. }
    pose proof (Forall_lookup_1 _ _ _ _ Hn1 Hrb) as Hr.
    destruct rb as [s1 s2 dl ul dci tx]. cbn in Hr. subst dci. split; [by apply list_nil_subseteq in Hsub|].
    unfold no_ul_dci. rewrite Eb. apply Forall_insert; [done|].
    destruct dl as [|], tx as [|]; done.
Qed.

Lemma nr_run_total c p ops : length (slot_buffer p) = 30%nat ->
  exists p' evs lost, nr_run c p ops = Some (p', evs) /\ heap_run (nr_stored p) evs (lost ++ nr_stored p') /\
  Forall (fun x => fst x = UlDci) lost /\ (no_ul_dci p -> Forall op_no_ul_dci ops -> lost = []).
Proof.
  revert p. induction ops as [|op ops IH]; intros p Hl.
  { exists p, [], []. split; [done|]. split; [by constructor|]. by split. }
  assert (exists p1 evs lost, nr_step c p op = Some (p1, evs) /\ length (slot_buffer p1) = 30%nat /\
    heap_run (nr_stored p) evs (lost ++ nr_stored p1) /\ Forall (fun x => fst x = UlDci) lost /\
    (no_ul_dci p -> op_no_ul_dci op -> lost = [] /\ no_ul_dci p1)) as (p1 & e1 & l1 & E1 & Hp1 & H1 & Hl1 & Hn1).
  { destruct op as [k req unpacked|sfn slot now]; cbn [nr_step].
    - destruct (nr_handle_heap k c p req unpacked Hl) as (p1 & e1 & E & Hp1 & Hh & Hn).
      exists p1, e1, []. do 4 (split; [done|]). intros ? Hk. split; [done|]. apply Hn; [done|]. by intros ->.
    - destruct (pnf_p7_slot_ind_heap c p sfn slot now Hl) as (p1 & e1 & l & ? & ? & ? & ? & ?).
      exists p1, e1, l. do 4 (split; [done|]). auto. }
  destruct (IH p1 Hp1) as (p2 & e2 & l2 & E2 & H2 & Hl2 & Hn2).
  exists p2, (e1 ++ e2), (l1 ++ l2). cbn [nr_run]. rewrite E1. cbn [mbind option_bind]. rewrite E2.
  split; [done|]. split; [|split].
  - eapply heap_run_app; [done|]. rewrite <- app_assoc. by apply heap_run_frame.
  - by apply Forall_app.
  - intros Hn Hk. inversion Hk as [|?? Hk1 Hk2]; subst. destruct (Hn1 Hn Hk1) as [-> Hn1'].
    by rewrite (Hn2 Hn1' Hk2).
Qed.

(** C32.  Over any sequence of NR requests and slot indications: every step
    completes; no request is used after it is freed or freed twice; and every
    request ever allocated is freed, still stored, or a UL_DCI request that a
    buffer reset forgot.  Without UL_DCI requests nothing leaks. *)
Theorem nr_requests_are_owned c p ops : length (slot_buffer p) = 30%nat ->
  exists p' evs lost, nr_run c p ops = Some (p', evs) /\ heap_run (nr_stored p) evs (lost ++ nr_stored p') /\
  Forall (fun x => fst x = UlDci) lost /\ (no_ul_dci p -> Forall op_no_ul_dci ops -> lost = []).
Proof. apply nr_run_total. Qed.

(** A PNF with empty slot buffers; callbacks set, no dummies. *)
Definition idle_nr (sfn slot : Z) : pnf_nr_t :=
  PnfNr (repeat slb_clear 30) sfn slot 0 0 0 false 0 (NrStats 0 0 0 0).
Definition plain_nr_config : nr_config := NrConfig 30 false false 0 (fun _ => true) (fun _ => false).

Lemma nr_requests_are_owned_witness :
  exists p' evs lost, nr_run plain_nr_config (idle_nr 1 0)
    [NrArrive UlTti (NrRequest 5 1 3) true; NrArrive TxData (NrRequest 6 1 3) true; NrSlot 1 3 0;
     NrArrive UlTti (NrRequest 5 1 4) true] = Some (p', evs) /\
  heap_run (nr_stored (idle_nr 1 0)) evs (lost ++ nr_stored p') /\
  Forall (fun x => fst x = UlDci) lost /\ (no_ul_dci (idle_nr 1 0) -> Forall op_no_ul_dci
    [NrArrive UlTti (NrRequest 5 1 3) true; NrArrive TxData (NrRequest 6 1 3) true; NrSlot 1 3 0;
     NrArrive UlTti (NrRequest 5 1 4) true] -> lost = []).
Proof. apply (nr_requests_are_owned plain_nr_config (idle_nr 1 0)). by vm_compute. Defined.

(** A UL_DCI request leaks like an HI/DCI0 request in LTE. *)
Example nr_late_ul_dci_leaks :
  exists p' evs, nr_run plain_nr_config (idle_nr 1 0)
    [NrArrive UlDci (NrRequest 5 1 3) true; NrSlot 1 3 0] = Some (p', evs) /\
  called evs = [] /\ freed evs = [] /\ nr_stored p' = [].
Proof. do 2 eexists. split; [vm_compute; reflexivity|]. vm_compute. done. Qed.

(** ** What an indication does *)

Lemma called_delivers c b sfn slot ks k r :
  (k, r) ∈ called (concat (nr_deliver c b sfn slot <$> ks)) <->
  k ∈ ks /\ slb_get k b = Some r /\ nr_for sfn slot r = true /\ nr_has_callback c k = true.
Proof.
  induction ks as [|k0 ks IH].
  { split; [intros H; by apply not_elem_of_nil in H|intros [H _]; by apply not_elem_of_nil in H]. }
  rewrite fmap_cons. cbn [concat]. rewrite called_app, elem_of_app, IH, elem_of_cons.
  unfold nr_deliver, nr_send_dummy.
  destruct (slb_get k0 b) as [r0|] eqn:E0; [destruct (nr_for sfn slot r0) eqn:Ef|].
  - destruct (nr_has_callback c k0) eqn:Ec; cbn [called omap list_omap].
    + rewrite list_elem_of_singleton. split.
      * intros [[= -> ->]|H]; tauto.
      * intros ([->|H] & E & H1 & H2); [left; congruence|tauto].
    + split; [intros [H|H]; [by apply not_elem_of_nil in H|tauto]|].
      intros ([->|H] & E & H1 & H2); [congruence|tauto].
  - split.
    + intros [H|H]; [destruct (_ && _); by apply not_elem_of_nil in H|tauto].
    + intros ([->|H] & E & H1 & H2); [congruence|tauto].
  - split.
    + intros [H|H]; [destruct (_ && _); by apply not_elem_of_nil in H|tauto].
    + intros ([->|H] & E & H1 & H2); [congruence|tauto].
Qed.

Lemma freed_delivers c b sfn slot ks : freed (concat (nr_deliver c b sfn slot <$> ks)) = [].
Proof.
  induction ks as [|k0 ks IH]; [done|]. rewrite fmap_cons. cbn [concat]. rewrite freed_app, IH, app_nil_r.
  unfold nr_deliver, nr_send_dummy. repeat case_match; done.
Qed.

Lemma called_releases (b : nfapi_pnf_p7_slot_buffer_t) ks :
  called (concat (release b <$> ks) : list nr_event) = [].
Proof.
  induction ks as [|k0 ks IH]; [done|]. rewrite fmap_cons. cbn [concat]. rewrite called_app, IH, app_nil_r.
  unfold release. by destruct (buf_get k0 b).
Qed.

Lemma freed_releases (b : nfapi_pnf_p7_slot_buffer_t) ks k r :
  (k, r) ∈ freed (concat (release b <$> ks) : list nr_event) <-> k ∈ ks /\ slb_get k b = Some r.
Proof.
  induction ks as [|k0 ks IH].
  { split; [intros H; by apply not_elem_of_nil in H|intros [H _]; by apply not_elem_of_nil in H]. }
  rewrite fmap_cons. cbn [concat]. rewrite freed_app, elem_of_app, IH, elem_of_cons.
  unfold release. rewrite freed_free_opt. change (buf_get k0 b) with (slb_get k0 b).
  destruct (slb_get k0 b) as [r0|] eqn:E0; cbn [opt_list].
  - rewrite list_elem_of_singleton. split; [intros [[= -> ->]|H]; tauto|].
    intros ([->|H] & E); [left; congruence|tauto].
  - split; [intros [H|H]; [by apply not_elem_of_nil in H|tauto]|]. intros ([->|H] & E); [congruence|tauto].
Qed.

Lemma slot_index x : 0 <= x < 20480 ->
  Z.to_nat (u8 (Z.rem (u32 (NFAPI_SFNSLOT2DEC (x / 20) (x mod 20))) 20)) = Z.to_nat (x mod 20).
Proof.
  intros Hx. replace (NFAPI_SFNSLOT2DEC (x / 20) (x mod 20)) with x by (unfold NFAPI_SFNSLOT2DEC; lia).
  rewrite u32_small by wrap_lia. rewrite Z.rem_mod_nonneg by lia. by rewrite u8_small by wrap_lia.
Qed.

Lemma tx_position m : 0 <= m < 20480 -> let tx := (m + 6) mod 20480 in
  let sfn_slot_tx := u32 (sfnslot_add_slot (m / 20) (m mod 20) slot_ahead) in
  u16 (NFAPI_SFNSLOT2SFN sfn_slot_tx) = tx / 20 /\ u8 (NFAPI_SFNSLOT2SLOT sfn_slot_tx) = tx mod 20.
Proof.
  intros Hm tx. assert (0 <= tx < 20480) as Htx by (unfold tx; lia). unfold slot_ahead.
  rewrite sfnslot_add_slot_spec by lia. fold tx. clearbody tx.
  rewrite u32_small by (unfold sfnslot; wrap_lia).
  rewrite NFAPI_SFNSLOT2SFN_sfnslot, NFAPI_SFNSLOT2SLOT_sfnslot by lia.
  split; [apply u16_small|apply u8_small]; wrap_lia.
Qed.

(** C33.  A slot indication for slot [m] serves two buffers, that of slot
    [m + 6] for DL_TTI, TX_DATA and UL_DCI requests and that of slot [m] for the
    UL_TTI request: it frees every request of those kinds found there, and
    before that passes to the callbacks exactly those that are for the very
    frame; the instance's own position becomes slot [m + 6]. *)
Theorem nr_slot_indication c p m now tb rb :
  length (slot_buffer p) = 30%nat -> slot_buffer_size c <> 0 -> slot_shift p = 0 -> 0 <= m < 20480 ->
  let tx := (m + 6) mod 20480 in
  slot_buffer p !! Z.to_nat (tx mod 20) = Some tb -> slot_buffer p !! Z.to_nat (m mod 20) = Some rb ->
  exists p' evs, pnf_p7_slot_ind c p (m / 20) (m mod 20) now = Some (p', evs) /\
  (forall k r, (k, r) ∈ called evs <-> nr_has_callback c k = true /\
     ((k <> UlTti /\ slb_get k tb = Some r /\ nr_for (tx / 20) (tx mod 20) r = true) \/
      (k = UlTti /\ slb_get k rb = Some r /\ nr_for (m / 20) (m mod 20) r = true))) /\
  (forall k r, (k, r) ∈ freed evs <->
     (k <> UlTti /\ slb_get k tb = Some r) \/ (k = UlTti /\ slb_get k rb = Some r)) /\
  p_sfn p' = tx / 20 /\ p_slot p' = tx mod 20.
Proof.
  intros Hl Hc Hs Hm tx Htb Hrb. assert (0 <= tx < 20480) as Htx by (unfold tx; lia).
  destruct (tx_position m Hm) as [P1 P2]. fold tx in P1, P2.
  pose proof (pnf_p7_slot_ind_buffers c p (m / 20) (m mod 20) now Hl Hc) as H. cbv zeta in H.
  rewrite P1, P2, Hs, !slot_index in H by done. change (nr_apply_shift (m mod 20) 0) with (m mod 20) in H.
  destruct H as (p' & tb0 & tb' & rb0 & rb' & e1 & e2 & e3 & E & Htb0 & E1 & Hrb0 & E2 & _ & Esfn & Eslot & C3 & F3 & _).
  rewrite Htb in Htb0. injection Htb0 as <-.
  rewrite list_lookup_insert_ne, Hrb in Hrb0 by (unfold tx; lia). injection Hrb0 as <-.
  apply pair_eq in E1 as [_ <-], E2 as [_ <-].
  exists p'. eexists. split; [exact E|]. rewrite !called_app, !freed_app, C3, F3, !app_nil_r.
  rewrite !called_releases, !freed_delivers, !app_nil_r. cbn [app].
  split; [|split; [|done]].
  - intros k r. rewrite elem_of_app, !called_delivers, !elem_of_cons.
    pose proof (not_elem_of_nil k). destruct k; intuition congruence.
  - intros k r. rewrite elem_of_app, !freed_releases, !elem_of_cons.
    pose proof (not_elem_of_nil k). destruct k; intuition congruence.
Qed.

(** After the arrival of a UL_TTI request for slot 3 of frame 1. *)
Definition nr_sample : pnf_nr_t :=
  nr_with_buffers (idle_nr 1 0)
    (<[3%nat := SlotBuffer 1 3 None (Some (NrRequest 5 1 3)) None None]> (repeat slb_clear 30)).

Lemma nr_slot_indication_witness :
  exists p' evs, pnf_p7_slot_ind plain_nr_config nr_sample (23 / 20) (23 mod 20) 0 = Some (p', evs) /\
  (forall k r, (k, r) ∈ freed evs <->
     (k <> UlTti /\ slb_get k slb_clear = Some r) \/
     (k = UlTti /\ slb_get k (SlotBuffer 1 3 None (Some (NrRequest 5 1 3)) None None) = Some r)).
Proof.
  destruct (nr_slot_indication plain_nr_config nr_sample 23 0 slb_clear
    (SlotBuffer 1 3 None (Some (NrRequest 5 1 3)) None None)) as (p' & evs & E & _ & F & _);
    [vm_compute; done|vm_compute; done|vm_compute; done|lia|vm_compute; done|vm_compute; done|].
  exists p', evs. split; [exact E|exact F].
Defined.

Lemma nr_always_in_window sfn slot cur_sfn cur_slot w :
  is_nr_p7_request_in_window sfn slot cur_sfn cur_slot w = 1.
Proof. unfold is_nr_p7_request_in_window. by repeat case_match. Qed.

(** A request that is kept takes the place of its kind under its slot number. *)
Lemma nr_handle_kept k c p req : k = UlTti \/ k = UlDci ->
  length (slot_buffer p) = 30%nat -> 0 <= nr_SFN req < 1024 -> 0 <= nr_Slot req < 20 ->
  let i := Z.to_nat (nr_Slot req) in
  exists b b' p', nr_handle k c p req true = Some (p', Alloc k req :: free_opt k (slb_get k b) ++ [Transfer k req]) /\
    slot_buffer p !! i = Some b /\ slot_buffer p' = <[i := b']> (slot_buffer p) /\
    (forall k', slb_get k' b' = if decide (k' = k) then Some req else slb_get k' b) /\ nr_aperiodic_send p' = nr_aperiodic_send p.
Proof.
  intros Hk Hl Hsfn Hslot i. assert (nr_handle k c p req true = nr_handle_stored k c p req true) as -> by (by destruct Hk as [-> | ->]).
  unfold nr_handle_stored. cbn [negb]. rewrite nr_always_in_window. cbn [Z.eqb negb].
  pose proof (slot_index (nr_SFN req * 20 + nr_Slot req) ltac:(lia)) as Hi.
  replace ((nr_SFN req * 20 + nr_Slot req) / 20) with (nr_SFN req) in Hi by lia.
  replace ((nr_SFN req * 20 + nr_Slot req) mod 20) with (nr_Slot req) in Hi by lia.
  rewrite Hi. fold i. destruct (lookup_lt_is_Some_2 (slot_buffer p) i) as [b Hb]; [rewrite Hl; lia|].
  rewrite Hb. destruct (slb_set k (Some req) b) as [s0 s1 dl ul dci tx] eqn:Eb.
  exists b. do 2 eexists. split; [reflexivity|]. do 2 (split; [done|]). split; [|done].
  intros k'. rewrite <- (slb_get_set k' k (Some req) b), Eb. by destruct k'.
Qed.

(** An NR request that could be unpacked is always transferred to the UEs
    and never late.  DL_TTI and TX_DATA requests are freed at once and leave the
    instance as it was; a UL_TTI or UL_DCI request is kept under its slot
    number, whatever its frame, in place of the previous one of its kind, which
    is freed. *)
Theorem nr_request_handling k c p req :
  length (slot_buffer p) = 30%nat -> 0 <= nr_SFN req < 1024 -> 0 <= nr_Slot req < 20 ->
  let i := Z.to_nat (nr_Slot req) in
  exists p' evs, nr_handle k c p req true = Some (p', evs) /\ Transfer k req ∈ evs /\
  nr_aperiodic_send p' = nr_aperiodic_send p /\
  (k = DlTti \/ k = TxData -> p' = p /\ freed evs = [(k, req)]) /\
  (k = UlTti \/ k = UlDci -> exists b b',
     slot_buffer p !! i = Some b /\ slot_buffer p' = <[i := b']> (slot_buffer p) /\
     (forall k', slb_get k' b' = if decide (k' = k) then Some req else slb_get k' b) /\
     freed evs = opt_list k (slb_get k b)).
Proof.
  intros Hl Hsfn Hslot i. destruct (decide (k = UlTti \/ k = UlDci)) as [Hk|Hk].
  - destruct (nr_handle_kept k c p req Hk Hl Hsfn Hslot) as (b & b' & p' & E & Hb & Eb & Hget & Ha).
    do 2 eexists. split; [exact E|]. split; [rewrite elem_of_cons, elem_of_app, list_elem_of_singleton; tauto|].
    split; [done|]. split; [intros [-> | ->]; by destruct Hk|]. intros _. exists b, b'. do 3 (split; [done|]).
    change (freed (Alloc k req :: ?e)) with (freed e). by rewrite freed_app, freed_free_opt, app_nil_r.
  - exists p, [Alloc k req; Transfer k req; Free k req]. split; [destruct k; try done; destruct Hk; auto|].
    split; [right; by left|]. split; [done|]. by split.
Qed.

Lemma nr_request_handling_witness :
  exists p' evs, nr_handle UlTti plain_nr_config (idle_nr 1 0) (NrRequest 5 1 3) true = Some (p', evs) /\
  Transfer UlTti (NrRequest 5 1 3) ∈ evs.
Proof.
  destruct (nr_request_handling UlTti plain_nr_config (idle_nr 1 0) (NrRequest 5 1 3)) as (p' & evs & E & T & _);
    [vm_compute; done|cbn; lia|cbn; lia|]. exists p', evs. split; [exact E|exact T].
Defined.
