(* ===== verification/Barrier.v ===== *)
(** * The rendezvous of the subframe and slot tasks ([nfapi_pnf.c])

    In NSA mode [oai_subframe_task] (LTE, one iteration a subframe) and
    [oai_slot_task] (NR, two iterations a subframe) meet after every subframe:
    a thread sets its bit in [sf_slot_tick]; the one that completes the word
    broadcasts and goes on, the other waits for the complete word, clears it
    and goes on.  The mutex makes the code between lock and unlock (or wait)
    one step; [pthread_cond_wait] may wake up spuriously, and a woken thread
    competes for the mutex with the other thread.

    The state has the threads' local counters; [lte_iterations] and
    [nr_iterations] are ghost fields that count iterations.  What an iteration
    sends and aggregates is the subject of the other files. *)

From S2P Require Import Prelude Sfn.

(* src: src/src/proxy.h 27-32 softmodem_mode_t *)
Inductive softmodem_mode_t := SOFTMODEM_LTE | SOFTMODEM_NR | SOFTMODEM_NSA.
#[export] Instance softmodem_mode_eq_dec : EqDecision softmodem_mode_t.
Proof. solve_decision. Defined.

(* src: nfapi_pnf.c :: LTE_PROXY_DONE *)
Definition LTE_PROXY_DONE : Z := 1.
(* src: nfapi_pnf.c :: NR_PROXY_DONE *)
Definition NR_PROXY_DONE : Z := 2.
(* src: nfapi_pnf.c :: BOTH_LTE_NR_DONE *)
Definition BOTH_LTE_NR_DONE : Z := 3.

(** A thread works on an iteration, waits on the condition, or has been woken
    and not yet got the mutex. *)
Inductive sync_pc := Working | Waiting | Woken.
#[export] Instance sync_pc_eq_dec : EqDecision sync_pc.
Proof. solve_decision. Defined.

Record sync_state := SyncState {
  sf_slot_tick : Z;
  lte_pc : sync_pc;
  nr_pc : sync_pc;
  lte_sfn_sf : Z * Z;
  nr_sfn_slot : Z * Z;
  slot_tick : Z;
  lte_iterations : Z;
  nr_iterations : Z;
}.

Definition sync_init : sync_state := SyncState 0 Working Working (0, 0) (0, 0) 0 0 0.

(** [pthread_cond_broadcast]: everybody who waits is woken. *)
Definition broadcast (pc : sync_pc) : sync_pc := match pc with Waiting => Woken | _ => pc end.

(** Lock, set the bit, broadcast or start waiting: the new word, the thread's
    and the other thread's state. *)
(* src: nfapi_pnf.c 4272-4287 oai_subframe_task *)
Definition arrive (bit tick : Z) (other : sync_pc) : Z * sync_pc * sync_pc :=
  let tick := u16 (Z.lor tick bit) in
  if tick =? BOTH_LTE_NR_DONE then (tick, Working, broadcast other) else (tick, Waiting, other).

(** Back in [pthread_cond_wait] with the mutex: test the word again. *)
(* src: nfapi_pnf.c 4283-4291 oai_subframe_task *)
Definition recheck (tick : Z) : Z * sync_pc :=
  if tick =? BOTH_LTE_NR_DONE then (0, Working) else (tick, Waiting).

(** One iteration of [oai_subframe_task] up to the rendezvous; the first
    component is the subframe it sends. *)
(* src: nfapi_pnf.c :: oai_subframe_task *)
Definition oai_subframe_task (mode : softmodem_mode_t) (s : sync_state) : Z * sync_state :=
  let '(sfn_sf_tx, sfn_sf) := sfn_sf_counter (fst (lte_sfn_sf s)) (snd (lte_sfn_sf s)) in
  if decide (mode = SOFTMODEM_NSA) then
    let '(tick, pc, other) := arrive LTE_PROXY_DONE (sf_slot_tick s) (nr_pc s) in
    (sfn_sf_tx, SyncState tick pc other sfn_sf (nr_sfn_slot s) (slot_tick s)
       (lte_iterations s + 1) (nr_iterations s))
  else
    (sfn_sf_tx, SyncState (sf_slot_tick s) (lte_pc s) (nr_pc s) sfn_sf (nr_sfn_slot s) (slot_tick s)
       (lte_iterations s + 1) (nr_iterations s)).

(** One iteration of [oai_slot_task] up to the rendezvous. *)
(* src: nfapi_pnf.c :: oai_slot_task *)
Definition oai_slot_task (mode : softmodem_mode_t) (s : sync_state) : Z * sync_state :=
  let '(sfn_slot_tx, sfn_slot) := sfn_slot_counter (fst (nr_sfn_slot s)) (snd (nr_sfn_slot s)) in
  let slot_tick' := u16 (slot_tick s + 1) in
  if decide (slot_tick' = NR_PROXY_DONE /\ mode = SOFTMODEM_NSA) then
    let '(tick, pc, other) := arrive NR_PROXY_DONE (sf_slot_tick s) (lte_pc s) in
    (sfn_slot_tx, SyncState tick other pc (lte_sfn_sf s) sfn_slot 0
       (lte_iterations s) (nr_iterations s + 1))
  else
    (sfn_slot_tx, SyncState (sf_slot_tick s) (lte_pc s) (nr_pc s) (lte_sfn_sf s) sfn_slot slot_tick'
       (lte_iterations s) (nr_iterations s + 1)).

Definition lte_recheck (s : sync_state) : sync_state :=
  let '(tick, pc) := recheck (sf_slot_tick s) in
  SyncState tick pc (nr_pc s) (lte_sfn_sf s) (nr_sfn_slot s) (slot_tick s) (lte_iterations s) (nr_iterations s).
Definition nr_recheck (s : sync_state) : sync_state :=
  let '(tick, pc) := recheck (sf_slot_tick s) in
  SyncState tick (lte_pc s) pc (lte_sfn_sf s) (nr_sfn_slot s) (slot_tick s) (lte_iterations s) (nr_iterations s).

(** The scheduler: which thread moves.  A recheck follows a wake-up, real or
    spurious. *)
Inductive sync_step : sync_state -> sync_state -> Prop :=
  | step_lte s : lte_pc s = Working -> sync_step s (snd (oai_subframe_task SOFTMODEM_NSA s))
  | step_nr s : nr_pc s = Working -> sync_step s (snd (oai_slot_task SOFTMODEM_NSA s))
  | step_lte_wakes s : lte_pc s <> Working -> sync_step s (lte_recheck s)
  | step_nr_wakes s : nr_pc s <> Working -> sync_step s (nr_recheck s).

(** The same, with the woken thread ahead of the other at the mutex. *)
Inductive prompt_step : sync_state -> sync_state -> Prop :=
  | prompt_lte s : lte_pc s = Working -> nr_pc s <> Woken ->
      prompt_step s (snd (oai_subframe_task SOFTMODEM_NSA s))
  | prompt_nr s : nr_pc s = Working -> lte_pc s <> Woken ->
      prompt_step s (snd (oai_slot_task SOFTMODEM_NSA s))
  | prompt_lte_wakes s : lte_pc s <> Working -> prompt_step s (lte_recheck s)
  | prompt_nr_wakes s : nr_pc s <> Working -> prompt_step s (nr_recheck s).

Definition reachable (step : sync_state -> sync_state -> Prop) (s : sync_state) : Prop :=
  rtc step sync_init s.

(** ** Invariants *)

(** The word says which thread is blocked: at most one, on an incomplete word
    while it waits and on a complete one when it has been woken. *)
Definition sync_inv (s : sync_state) : Prop :=
  (slot_tick s = 0 \/ slot_tick s = 1) /\
  match lte_pc s, nr_pc s with
  | Working, Working => sf_slot_tick s = 0
  | Waiting, Working => sf_slot_tick s = LTE_PROXY_DONE
  | Working, Waiting => sf_slot_tick s = NR_PROXY_DONE
  | Woken, Working | Working, Woken => sf_slot_tick s = BOTH_LTE_NR_DONE
  | _, _ => False
  end.

(** The local counters are the iterations modulo the hyperframe. *)
Definition counters_inv (s : sync_state) : Prop :=
  0 <= lte_iterations s /\ 0 <= nr_iterations s /\
  (let n := lte_iterations s mod 10240 in lte_sfn_sf s = (n / 10, n mod 10)) /\
  (let m := nr_iterations s mod 20480 in nr_sfn_slot s = (m / 20, m mod 20)).

(** How far LTE is ahead, in half subframes, when no rendezvous is lost. *)
Definition lockstep_inv (s : sync_state) : Prop :=
  2 * lte_iterations s - nr_iterations s + slot_tick s =
  match lte_pc s, nr_pc s with Waiting, _ => 2 | _, Waiting => -2 | _, _ => 0 end /\
  (lte_pc s = Woken \/ nr_pc s <> Working -> slot_tick s = 0).

Lemma tick_range s : sync_inv s -> sf_slot_tick s = 0 \/ sf_slot_tick s = 1 \/ sf_slot_tick s = 2 \/ sf_slot_tick s = 3.
Proof. intros [_ H]. destruct (lte_pc s), (nr_pc s); unfold LTE_PROXY_DONE, NR_PROXY_DONE, BOTH_LTE_NR_DONE in H; lia. Qed.

(** The two iterations and the two rechecks, by the cases of [sync_inv]. *)
Ltac sync_cases s :=
  destruct s as [tick [] [] sfn_sf sfn_slot st li ni]; unfold sync_inv in *; cbn [sf_slot_tick lte_pc nr_pc
    slot_tick lte_iterations nr_iterations lte_sfn_sf nr_sfn_slot] in *; try tauto; try congruence.

Lemma lte_iteration_inv s : sync_inv s -> lte_pc s = Working ->
  let s' := snd (oai_subframe_task SOFTMODEM_NSA s) in
  sync_inv s' /\ slot_tick s' = slot_tick s /\ nr_iterations s' = nr_iterations s /\
  lte_iterations s' = lte_iterations s + 1 /\ nr_sfn_slot s' = nr_sfn_slot s /\
  lte_sfn_sf s' = snd (sfn_sf_counter (fst (lte_sfn_sf s)) (snd (lte_sfn_sf s))) /\
  (nr_pc s = Working -> lte_pc s' = Waiting /\ nr_pc s' = Working) /\
  (nr_pc s <> Working -> lte_pc s' = Working /\ nr_pc s' = Woken).
Proof.
  intros Hs Hl. unfold oai_subframe_task. destruct (sfn_sf_counter _ _) as [tx c]. cbn [decide].
  destruct Hs as [Hst Hs]. sync_cases s; subst tick; cbn; repeat split; try tauto; congruence.
Qed.

Lemma nr_iteration_inv s : sync_inv s -> nr_pc s = Working ->
  let s' := snd (oai_slot_task SOFTMODEM_NSA s) in
  sync_inv s' /\ slot_tick s' = 1 - slot_tick s /\ lte_iterations s' = lte_iterations s /\
  nr_iterations s' = nr_iterations s + 1 /\ lte_sfn_sf s' = lte_sfn_sf s /\
  nr_sfn_slot s' = snd (sfn_slot_counter (fst (nr_sfn_slot s)) (snd (nr_sfn_slot s))) /\
  (slot_tick s = 0 -> lte_pc s' = lte_pc s /\ nr_pc s' = Working) /\
  (slot_tick s = 1 -> lte_pc s = Working -> lte_pc s' = Working /\ nr_pc s' = Waiting) /\
  (slot_tick s = 1 -> lte_pc s <> Working -> lte_pc s' = Woken /\ nr_pc s' = Working).
Proof.
  intros Hs Hl. unfold oai_slot_task. destruct (sfn_slot_counter _ _) as [tx c].
  destruct Hs as [[Hst|Hst] Hs]; sync_cases s; subst tick st; cbn; repeat split; try tauto; try congruence; try lia.
Qed.

Lemma lte_recheck_inv s : sync_inv s -> lte_pc s <> Working ->
  let s' := lte_recheck s in
  sync_inv s' /\ slot_tick s' = slot_tick s /\ lte_iterations s' = lte_iterations s /\
  nr_iterations s' = nr_iterations s /\ lte_sfn_sf s' = lte_sfn_sf s /\ nr_sfn_slot s' = nr_sfn_slot s /\
  nr_pc s' = nr_pc s /\ (lte_pc s = Waiting -> lte_pc s' = Waiting) /\ (lte_pc s = Woken -> lte_pc s' = Working).
Proof. intros [Hst Hs] Hl. unfold lte_recheck. sync_cases s; subst tick; cbn; repeat split; tauto || congruence. Qed.

Lemma nr_recheck_inv s : sync_inv s -> nr_pc s <> Working ->
  let s' := nr_recheck s in
  sync_inv s' /\ slot_tick s' = slot_tick s /\ lte_iterations s' = lte_iterations s /\
  nr_iterations s' = nr_iterations s /\ lte_sfn_sf s' = lte_sfn_sf s /\ nr_sfn_slot s' = nr_sfn_slot s /\
  lte_pc s' = lte_pc s /\ (nr_pc s = Waiting -> nr_pc s' = Waiting) /\ (nr_pc s = Woken -> nr_pc s' = Working).
Proof. intros [Hst Hs] Hl. unfold nr_recheck. sync_cases s; subst tick; cbn; repeat split; tauto || congruence. Qed.

Lemma sync_step_inv s s' : sync_step s s' -> sync_inv s -> sync_inv s'.
Proof.
  intros [t H|t H|t H|t H] Hi.
  - by apply lte_iteration_inv.
  - by apply nr_iteration_inv.
  - by apply lte_recheck_inv.
  - by apply nr_recheck_inv.
Qed.

Lemma prompt_is_step s s' : prompt_step s s' -> sync_step s s'.
Proof. intros [t H|t H|t H|t H]; by constructor. Qed.

Lemma reachable_ind (step : sync_state -> sync_state -> Prop) (P : sync_state -> Prop) :
  P sync_init -> (forall s s', P s -> step s s' -> P s') -> forall s, reachable step s -> P s.
Proof.
  unfold reachable. intros H0 Hs s H. induction H; eauto.
Qed.

Lemma reachable_inv s : reachable sync_step s -> sync_inv s.
Proof. apply reachable_ind; [split; [by left|done]|]. intros; by eapply sync_step_inv. Qed.

(** Slots the NR task runs until its next rendezvous. *)
Definition nr_to_rendezvous (s : sync_state) : sync_state :=
  let s1 := snd (oai_slot_task SOFTMODEM_NSA s) in
  if slot_tick s =? 1 then s1 else snd (oai_slot_task SOFTMODEM_NSA s1).

Lemma one_works s : sync_inv s ->
  (lte_pc s <> Working -> nr_pc s = Working) /\ (nr_pc s <> Working -> lte_pc s = Working).
Proof. intros [_ Hi]. sync_cases s. Qed.

(** C29.  Whatever the scheduler does, the rendezvous never blocks both tasks.
    A task that waits is woken by the other's next rendezvous, and from then
    on it stays released: the other task does not block before the woken one
    has looked, however often it comes by, and the look lets the woken one
    through. *)
Theorem rendezvous_never_deadlocks s :
  reachable sync_step s ->
  (lte_pc s = Working \/ nr_pc s = Working) /\
  (lte_pc s = Waiting -> nr_pc s = Working /\ lte_pc (nr_to_rendezvous s) = Woken) /\
  (nr_pc s = Waiting -> lte_pc s = Working /\ nr_pc (snd (oai_subframe_task SOFTMODEM_NSA s)) = Woken) /\
  (lte_pc s = Woken -> lte_pc (lte_recheck s) = Working /\ nr_pc s = Working /\
     forall s', sync_step s s' -> nr_pc s' = Working /\ (lte_pc s' = Woken \/ s' = lte_recheck s)) /\
  (nr_pc s = Woken -> nr_pc (nr_recheck s) = Working /\ lte_pc s = Working /\
     forall s', sync_step s s' -> lte_pc s' = Working /\ (nr_pc s' = Woken \/ s' = nr_recheck s)).
Proof.
  intros Hr. apply reachable_inv in Hr as Hi. destruct (one_works s Hi) as [Hn Hl]. split_and!.
  - destruct (decide (lte_pc s = Working)); auto.
  - intros E. specialize (Hn ltac:(congruence)). split; [done|]. unfold nr_to_rendezvous.
    destruct (nr_iteration_inv s Hi Hn) as (Hi1 & Ht1 & _ & _ & _ & _ & H0 & _ & H1).
    destruct Hi as [[Est|Est] _]; rewrite Est in *; cbn [Z.eqb].
    + destruct (H0 eq_refl) as [El En].
      apply (nr_iteration_inv _ Hi1 En); [rewrite Ht1|rewrite El, E]; done.
    + apply H1; congruence.
  - intros E. specialize (Hl ltac:(congruence)). split; [done|].
    apply (lte_iteration_inv s Hi Hl). congruence.
  - intros E. specialize (Hn ltac:(congruence)).
    split; [apply lte_recheck_inv; congruence|]. split; [done|].
    intros s' Hs. inversion Hs; subst; try congruence.
    + destruct (nr_iteration_inv s Hi Hn) as (_ & _ & _ & _ & _ & _ & H0 & _ & H1).
      destruct Hi as [[Est|Est] _]; [destruct (H0 Est) as [-> ->]; auto|].
      destruct (H1 Est) as [-> ->]; [congruence|auto].
    + destruct (lte_recheck_inv s Hi) as (_ & _ & _ & _ & _ & _ & -> & _); auto.
  - intros E. specialize (Hl ltac:(congruence)).
    split; [apply nr_recheck_inv; congruence|]. split; [done|].
    intros s' Hs. inversion Hs; subst; try congruence.
    + destruct (lte_iteration_inv s Hi Hl) as (_ & _ & _ & _ & _ & _ & _ & H1).
      destruct (H1 ltac:(congruence)) as [-> ->]. auto.
    + destruct (nr_recheck_inv s Hi) as (_ & _ & _ & _ & _ & _ & -> & _); auto.
Qed.

(** Three steps in: LTE has waited and NR has come by. *)
Definition sync_sample : sync_state :=
  SyncState 3 Woken Working (0, 1) (0, 2) 0 1 2.

Lemma sync_sample_reachable : reachable prompt_step sync_sample.
Proof.
  unfold reachable. eapply rtc_l; [by apply prompt_lte|].
  eapply rtc_l; [by apply prompt_nr|]. eapply rtc_l; [by apply prompt_nr|]. apply rtc_refl.
Qed.

Lemma rendezvous_never_deadlocks_witness :
  lte_pc sync_sample = Working \/ nr_pc sync_sample = Working.
Proof.
  apply (rendezvous_never_deadlocks sync_sample). eapply rtc_subrel; [|apply sync_sample_reachable].
  apply prompt_is_step.
Defined.

(** ** Lockstep *)

Lemma counters_step s s' : sync_step s s' -> sync_inv s -> counters_inv s -> counters_inv s'.
Proof.
  intros [t H|t H|t H|t H] Hi (Hl & Hn & El & En); unfold counters_inv.
  - destruct (lte_iteration_inv t Hi H) as (_ & _ & -> & -> & -> & -> & _).
    rewrite El. cbn [fst snd]. rewrite sfn_sf_counter_spec by lia. cbn [snd].
    rewrite Zplus_mod_idemp_l. split_and!; done || lia.
  - destruct (nr_iteration_inv t Hi H) as (_ & _ & -> & -> & -> & -> & _).
    rewrite En. cbn [fst snd]. rewrite sfn_slot_counter_spec by lia. cbn [snd].
    rewrite Zplus_mod_idemp_l. split_and!; done || lia.
  - destruct (lte_recheck_inv t Hi H) as (_ & _ & -> & -> & -> & -> & _). done.
  - destruct (nr_recheck_inv t Hi H) as (_ & _ & -> & -> & -> & -> & _). done.
Qed.

Lemma lockstep_step s s' : prompt_step s s' -> sync_inv s -> lockstep_inv s -> lockstep_inv s'.
Proof.
  intros [t H Hw|t H Hw|t H|t H] Hi [Hk Ht]; unfold lockstep_inv.
  - destruct (lte_iteration_inv t Hi H) as (_ & -> & -> & -> & _ & _ & H1 & H2). rewrite H in Hk.
    destruct (nr_pc t) eqn:E;
      [destruct (H1 eq_refl) as [E1 E2]|destruct H2 as [E1 E2]; [done|]|done]; rewrite E1, E2;
      (split; [lia|]); intros [?|?]; try congruence; apply Ht; auto.
  - destruct (nr_iteration_inv t Hi H) as (_ & -> & -> & -> & _ & _ & H0 & H1 & H2). rewrite H in Hk.
    destruct Hi as [[Est|Est] _]; rewrite Est in *.
    + destruct (H0 eq_refl) as [E1 E2]. rewrite E1, E2. destruct (lte_pc t); (split; [lia|]);
        intros [?|?]; congruence.
    + destruct (lte_pc t) eqn:E; [destruct H1 as [E1 E2]|destruct H2 as [E1 E2]|]; try done;
        rewrite E1, E2; (split; [lia|]); lia.
  - destruct (lte_recheck_inv t Hi H) as (_ & -> & -> & -> & _ & _ & -> & H1 & H2).
    destruct (one_works t Hi) as [Hn _]. rewrite (Hn H) in *.
    destruct (lte_pc t); [done|rewrite H1 by done|rewrite H2 by done]; (split; [lia|]); intros [?|?]; congruence.
  - destruct (nr_recheck_inv t Hi H) as (_ & -> & -> & -> & _ & _ & -> & H1 & H2).
    destruct (one_works t Hi) as [_ Hl]. rewrite (Hl H) in *.
    destruct (nr_pc t); [done|rewrite H1 by done|rewrite H2 by done]; (split; [lia|]); auto.
Qed.

(** C34.  When a woken task gets the mutex before the other comes by again, the
    tasks stay in lockstep: NR is never more than two slots behind LTE nor more
    than three ahead of it, and each task sends the position of the hyperframe
    its iterations stand for.  Both stop at a rendezvous, so there the subframe
    LTE sends and the slot NR sends are of the same millisecond. *)
Theorem tasks_in_lockstep s :
  reachable prompt_step s ->
  -3 <= 2 * lte_iterations s - nr_iterations s <= 2 /\
  (lte_pc s = Woken \/ nr_pc s = Woken -> nr_iterations s = 2 * lte_iterations s) /\
  fst (oai_subframe_task SOFTMODEM_NSA s) = sfnsf ((lte_iterations s + 1) mod 10240) /\
  fst (oai_slot_task SOFTMODEM_NSA s) = sfnslot ((nr_iterations s + 1) mod 20480).
Proof.
  intros Hr. assert (sync_inv s /\ counters_inv s /\ lockstep_inv s) as (Hi & Hc & Hk).
  { revert s Hr. apply reachable_ind; [vm_compute; intuition congruence|].
    intros s s' (Hi & Hc & Hk) Hs. pose proof (prompt_is_step _ _ Hs) as Hs'.
    split; [by eapply sync_step_inv|]. split; [by eapply counters_step|by eapply lockstep_step]. }
  destruct Hk as [Hk Ht]. destruct Hc as (Hl & Hn & El & En). destruct (one_works s Hi) as [Hw1 Hw2].
  split; [|split; [|split]].
  - destruct Hi as [Hst _]. destruct (lte_pc s), (nr_pc s); lia.
  - intros [E|E]; rewrite E in *.
    + rewrite (Hw1 ltac:(done)) in Hk. specialize (Ht (or_introl eq_refl)). lia.
    + rewrite (Hw2 ltac:(done)) in Hk. specialize (Ht ltac:(by right)). lia.
  - unfold oai_subframe_task. rewrite El. cbn [fst snd]. rewrite sfn_sf_counter_spec by lia.
    rewrite Zplus_mod_idemp_l. cbn [decide]. by destruct (arrive _ _ _) as [[??]?].
  - unfold oai_slot_task. rewrite En. cbn [fst snd]. rewrite sfn_slot_counter_spec by lia.
    rewrite Zplus_mod_idemp_l. by destruct (decide _); [destruct (arrive _ _ _) as [[??]?]|].
Qed.

Lemma tasks_in_lockstep_witness : -3 <= 2 * lte_iterations sync_sample - nr_iterations sync_sample <= 2.
Proof. apply (tasks_in_lockstep sync_sample sync_sample_reachable). Defined.

(** ** Lost rendezvous *)

(** LTE waits for its first rendezvous or has been woken, and NR has run [n]
    slots. *)
Definition overrun (tick : Z) (pc : sync_pc) (n st : Z) : sync_state :=
  let m := n mod 20480 in SyncState tick pc Working (0, 1) (m / 20, m mod 20) st 1 n.

Lemma overrun_even tick pc n :
  snd (oai_slot_task SOFTMODEM_NSA (overrun tick pc n 0)) = overrun tick pc (n + 1) 1.
Proof.
  unfold oai_slot_task, overrun. cbn [nr_sfn_slot fst snd slot_tick]. rewrite sfn_slot_counter_spec by lia.
  by rewrite Zplus_mod_idemp_l.
Qed.

Lemma overrun_odd tick pc n : tick = 1 \/ tick = 3 -> pc <> Working ->
  snd (oai_slot_task SOFTMODEM_NSA (overrun tick pc n 1)) = overrun 3 Woken (n + 1) 0.
Proof.
  intros Ht Hpc. unfold oai_slot_task, overrun. cbn [nr_sfn_slot fst snd slot_tick]. rewrite sfn_slot_counter_spec by lia.
  rewrite Zplus_mod_idemp_l. by destruct Ht as [-> | ->], pc.
Qed.

Lemma overrun_reachable (n : nat) : reachable sync_step (overrun 3 Woken (2 * Z.of_nat n + 2) 0).
Proof.
  assert (forall tick pc k, tick = 1 \/ tick = 3 -> pc <> Working ->
    rtc sync_step (overrun tick pc k 0) (overrun 3 Woken (k + 2) 0)) as Hstep.
  { intros tick pc k Ht Hpc. replace (k + 2) with (k + 1 + 1) by lia. rewrite <- (overrun_odd tick pc) by done.
    eapply rtc_l; [by apply step_nr|]. rewrite overrun_even. eapply rtc_l; [by apply step_nr|]. apply rtc_refl. }
  induction n as [|n IH].
  - eapply rtc_l; [by apply step_lte|]. apply (Hstep 1 Waiting 0); [by left|done].
  - unfold reachable in *. etrans; [exact IH|]. replace (2 * Z.of_nat (S n) + 2) with (2 * Z.of_nat n + 2 + 2) by lia.
    apply Hstep; [by right|done].
Qed.

(** Without that assumption a rendezvous is lost: the task that has
    completed the word finds it complete when it comes back before the woken
    task has cleared it, and passes.  NR can run any number of slots against
    the one subframe of LTE. *)
Theorem rendezvous_can_be_lost (n : Z) :
  0 <= n -> exists s, reachable sync_step s /\ lte_iterations s = 1 /\ n <= nr_iterations s.
Proof.
  intros Hn. exists (overrun 3 Woken (2 * Z.of_nat (Z.to_nat n) + 2) 0).
  split; [apply overrun_reachable|]. split; [done|]. cbn [nr_iterations overrun]. lia.
Qed.

Lemma rendezvous_can_be_lost_witness :
  exists s, reachable sync_step s /\ lte_iterations s = 1 /\ 1000 <= nr_iterations s.
Proof. apply (rendezvous_can_be_lost 1000). lia. Defined.
