(* ===== verification/VnfSync.v ===== *)
(** * The VNF's clock synchronisation ([vnf_p7.c])

    The VNF keeps a position in the hyperframe for every PHY and compares it with
    the PNF's by the four timestamps of a DL_NODE_SYNC and the UL_NODE_SYNC that
    answers it ([vnf_handle_ul_node_sync], [vnf_nr_handle_ul_node_sync]).  A
    connection starts in absolute mode, in which the VNF jumps to the position it
    estimates; ten calm cycles later it filters the offsets ([filtered_adjust]), and
    ten cycles without a correction make it [in_sync].

    LTE and NR run the same steps, in subframes of 1000 and slots of 500
    microseconds; the steps are written once over the class [Radio].  The members of
    [nfapi_vnf_p7_connection_info_t] they use are grouped in [clock].  [None] is
    an overflow of [int], a division by zero or an access outside an array. *)

From S2P Require Import Prelude Sfn PnfP7.

(** ** Times ([vnf_p7.h], [vnf_p7.c])

    The macros of [vnf_p7.h] are those of [pnf_p7.h].  [now_time_hr] is the clock,
    read inside or passed. *)

(* src: vnf_p7.h 25-27 TIME2TIMEHR *)
Definition VNF_TIME2TIMEHR := TIME2TIMEHR.

(* src: vnf_p7.c :: get_sf_time *)
Definition vnf_get_sf_time (now_hr sf_start_hr : Z) : Z :=
  if now_hr <? sf_start_hr then 0
  else
    let now_us := TIMEHR_USEC now_hr in
    let sf_start_us := TIMEHR_USEC sf_start_hr in
    let now_us := if now_hr <? sf_start_us then u32 (now_us + 1000000) else now_us in
    u32 (now_us - sf_start_us).

(* src: vnf_p7.c :: get_slot_time *)
Definition vnf_get_slot_time := vnf_get_sf_time.

(* src: vnf_p7.c :: increment_sfn_sf *)
Definition increment_sfn_sf (sfn_sf : Z) : Z :=
  if Z.land sfn_sf 0xF =? 9 then Z.land (u16 (sfn_sf + 0x0010)) 0x3FF0
  else if 9 <? Z.land sfn_sf 0xF then sfn_sf
  else u16 (sfn_sf + 1).

(** [increment] is a [uint8_t]: the number of iterations. *)
(* src: vnf_p7.c :: increment_sfn_sf_by *)
Definition increment_sfn_sf_by (sfn_sf increment : Z) : Z :=
  Nat.iter (Z.to_nat increment) increment_sfn_sf sfn_sf.

(* src: vnf_p7.c :: calculate_t1 *)
Definition calculate_t1 (now_time_hr sfn_sf sf_start_time_hr : Z) : Z :=
  u32 (NFAPI_SFNSF2DEC sfn_sf * 1000 + vnf_get_sf_time now_time_hr sf_start_time_hr).

(* src: vnf_p7.c :: calculate_nr_t1 *)
Definition calculate_nr_t1 (now_time_hr sfn slot slot_start_time_hr : Z) : Z :=
  u32 (NFAPI_SFNSLOT2DEC sfn slot * 500 + vnf_get_slot_time now_time_hr slot_start_time_hr).

(* src: vnf_p7.c :: calculate_t4 *)
Definition calculate_t4 (now_time_hr sfn_sf sf_start_time_hr : Z) : Z :=
  u32 (NFAPI_SFNSF2DEC sfn_sf * 1000 + vnf_get_sf_time now_time_hr sf_start_time_hr).

(* src: vnf_p7.c :: calculate_nr_t4 *)
Definition calculate_nr_t4 (now_time_hr sfn slot slot_start_time_hr : Z) : Z :=
  u32 (NFAPI_SFNSLOT2DEC sfn slot * 500 + vnf_get_slot_time now_time_hr slot_start_time_hr).

(* src: vnf_p7.c :: calculate_transmit_timestamp *)
Definition calculate_transmit_timestamp (now_time_hr sfn slot slot_start_time_hr : Z) : Z :=
  u32 (NFAPI_SFNSLOT2DEC sfn slot * 500 + vnf_get_slot_time now_time_hr slot_start_time_hr).

(** ** [int] arithmetic *)

Definition int32 (z : Z) : option Z :=
  if (-2147483648 <=? z) && (z <? 2147483648) then Some z else None.

Definition int_div (a b : Z) : option Z := if b =? 0 then None else int32 (Z.quot a b).

Lemma int32_Some z : in_s32 z -> int32 z = Some z.
Proof. unfold int32, in_s32. intros. by rewrite (proj2 (Z.leb_le _ _)), (proj2 (Z.ltb_lt _ _)) by lia. Qed.

Lemma quot_bound a b q : b <> 0 -> Z.abs a <= Z.abs b * q -> - q <= Z.quot a b <= q.
Proof.
  intros Hb Ha. apply Z.abs_le. rewrite <- Z.quot_abs by done. apply Z.quot_le_upper_bound; [|done].
  apply Z.abs_pos. done.
Qed.

Lemma quot_shrinks a b : b <> 0 -> - Z.abs a <= Z.quot a b <= Z.abs a.
Proof.
  intros Hb. apply quot_bound; [done|]. assert (1 <= Z.abs b) by lia.
  rewrite <- (Z.mul_1_l (Z.abs a)) at 1. apply Z.mul_le_mono_nonneg_r; lia.
Qed.

Lemma int_div_Some a b : in_s32 a -> a <> -2147483648 -> b <> 0 -> int_div a b = Some (Z.quot a b).
Proof.
  intros Ha Hm Hb. unfold int_div. rewrite (proj2 (Z.eqb_neq _ _)) by done. apply int32_Some.
  pose proof (quot_shrinks a b Hb). unfold in_s32 in *. lia.
Qed.

(** ** The two radios *)

(** What the handlers need of a radio: the positions of a hyperframe and their
    length, a position as a number and back ([uint16_t] members). *)
Class Radio (P : Type) := {
  hyperframe : Z;
  unit_us : Z;
  half_unit : Z;
  to_dec : P -> Z;
  of_dec : Z -> P;
  radio_half : 0 < half_unit /\ unit_us = 2 * half_unit;
  radio_hyperframe : hyperframe * unit_us = 10240000;
  radio_small : 10000 < hyperframe <= 20480;
  to_of_dec n : 0 <= n < hyperframe -> to_dec (of_dec n) = n;
  to_dec_range z : 0 <= to_dec (of_dec z) < 2000000;
}.

Lemma land_range a n : 0 <= n -> 0 <= Z.land a (Z.ones n) < 2 ^ n.
Proof. intros. rewrite Z.land_ones by done. apply Z.mod_pos_bound. lia. Qed.

Lemma sfnsf_dec_range n : in_u16 n -> 0 <= NFAPI_SFNSF2DEC n < 2000000.
Proof.
  intros H. unfold NFAPI_SFNSF2DEC. pose proof (land_range n 4 ltac:(lia)). change (Z.ones 4) with 0xF in *.
  rewrite shiftr_div by lia. change (2 ^ 4) with 16 in *. wrap_lia.
Qed.

Lemma increment_sfn_sf_u16 n : in_u16 n -> in_u16 (increment_sfn_sf n).
Proof.
  intros Hn. unfold increment_sfn_sf. destruct (_ =? 9); [|destruct (9 <? _); [done|apply u16_range]].
  pose proof (u16_range (n + 0x0010)) as H. revert H. generalize (u16 (n + 0x0010)). intros m Hm.
  change 0x3FF0 with (Z.shiftl (Z.ones 10) 4). change (Z.shiftl (Z.ones 10) 4) with (Z.ldiff (Z.ones 14) (Z.ones 4)).
  rewrite Z.ldiff_land, Z.land_assoc. pose proof (land_range m 14 ltac:(lia)) as H. change (2 ^ 14) with 16384 in H.
  assert (0 <= Z.land (Z.land m (Z.ones 14)) (Z.lnot (Z.ones 4)) <= Z.land m (Z.ones 14)) as H'; [|wrap_lia].
  rewrite <- Z.ldiff_land, Z.ldiff_ones_r by lia. rewrite shiftr_div, shiftl_mul by lia. change (2 ^ 4) with 16. lia.
Qed.

#[export, refine] Instance lte_radio : Radio Z := {
  hyperframe := NFAPI_MAX_SFNSFDEC; unit_us := 1000; half_unit := 500;
  to_dec := NFAPI_SFNSF2DEC; of_dec dec := u16 (NFAPI_SFNSFDEC2SFNSF dec);
}.
Proof.
  - lia.
  - done.
  - unfold NFAPI_MAX_SFNSFDEC. lia.
  - unfold NFAPI_MAX_SFNSFDEC. intros n Hn. rewrite NFAPI_SFNSFDEC2SFNSF_sfnsf by done.
    rewrite u16_small by (apply sfnsf_range; lia). by apply NFAPI_SFNSF2DEC_sfnsf.
  - intros z. apply sfnsf_dec_range, u16_range.
Defined.

#[export, refine] Instance nr_radio : Radio (Z * Z) := {
  hyperframe := NFAPI_MAX_SFNSLOTDEC; unit_us := 500; half_unit := 250;
  to_dec p := NFAPI_SFNSLOT2DEC p.1 p.2;
  of_dec dec := (u16 (NFAPI_SFNSLOTDEC2SFN dec), u16 (NFAPI_SFNSLOTDEC2SLOT dec));
}.
Proof.
  - lia.
  - done.
  - unfold NFAPI_MAX_SFNSLOTDEC. lia.
  - unfold NFAPI_MAX_SFNSLOTDEC, NFAPI_SFNSLOT2DEC, NFAPI_SFNSLOTDEC2SFN, NFAPI_SFNSLOTDEC2SLOT. intros n Hn. cbn.
    rewrite Z.quot_div_nonneg, Z.rem_mod_nonneg by lia. wrap_lia.
  - intros z. unfold NFAPI_SFNSLOT2DEC. cbn.
    pose proof (u16_range (NFAPI_SFNSLOTDEC2SFN z)). pose proof (u16_range (NFAPI_SFNSLOTDEC2SLOT z)). wrap_lia.
Defined.

(** ** State

    [latency] has eight elements in C.  [previous_t1], [previous_t2] are a pair. *)

Record sync_mode := Mode {
  in_sync : Z;
  filtered_adjust : Z;
  zero_count : Z;
  min_sync_cycle_count : Z;
}.

Record delays := Delays { latency : list Z; average_latency : Z }.

(** The [sf_] or the [slot_] members. *)
Record offsets := Offsets {
  offset : Z;
  offset_trend : Z;
  offset_filtered : Z;
  previous_offset_filtered : Z;
}.

Record minor := Minor { insync_minor_adjustment : Z; insync_minor_adjustment_duration : Z }.

Record clock (P : Type) := Clock {
  c_mode : sync_mode;
  c_delays : delays;
  c_offsets : offsets;
  c_minor : minor;
  c_adjustment : Z;
  c_previous : Z * Z;
  c_position : P;
}.
#[global] Arguments Clock {P}.
#[global] Arguments c_mode {P}.
#[global] Arguments c_delays {P}.
#[global] Arguments c_offsets {P}.
#[global] Arguments c_minor {P}.
#[global] Arguments c_adjustment {P}.
#[global] Arguments c_previous {P}.
#[global] Arguments c_position {P}.

(** What a handler does besides: the callback [sync_indication] with its argument,
    a write behind [latency]. *)
Inductive sync_note := SyncIndication (in_sync : Z) | LatencyOverflow.
#[export] Instance sync_note_eq_dec : EqDecision sync_note.
Proof. solve_decision. Defined.

(** ** UL_NODE_SYNC *)

Section handler.
Context {P : Type} `{Radio P}.

(** The constants added on a wrap count positions, the timestamps microseconds. *)
(* src: vnf_p7.c 1107-1111 vnf_handle_ul_node_sync *)
Definition node_latency (t1 t2 t3 t4 : Z) : Z :=
  let tx_2_rx := if t1 <? t4 then u32 (t4 - t1) else u32 (t4 + hyperframe - t1) in
  let pnf_proc_time := u32 (t3 - t2) in
  Z.shiftr (u32 (tx_2_rx - pnf_proc_time)) 1.

(** Element 8 is [average_latency], the next member of the structure. *)
(* src: vnf_p7.c 1113-1123 vnf_handle_ul_node_sync *)
Definition store_latency (i lat : Z) (d : delays) : option (delays * list sync_note) :=
  if i <? 8 then Some (Delays (<[Z.to_nat i := lat]> (latency d)) (average_latency d), [])
  else if i =? 8 then Some (Delays (latency d) lat, [LatencyOverflow])
  else None.

(* src: vnf_p7.c 1127-1141 vnf_handle_ul_node_sync *)
Definition measured_offset (previous : Z * Z) (t1 t2 lat : Z) : Z :=
  let '(previous_t1, previous_t2) := previous in
  if (t2 <? previous_t2) && (previous_t1 <? t1) then s32 (hyperframe + t2 - t1 - lat)
  else if (previous_t2 <? t2) && (t1 <? previous_t1) then s32 (t2 - (t1 + hyperframe) - lat)
  else s32 (t2 - t1 - lat).

(** A left shift of an [int] wraps, as GCC defines it. *)
(* src: vnf_p7.c 1143-1154 vnf_handle_ul_node_sync *)
Definition filter_offset (old new : Z) : option Z :=
  if old =? 0 then Some new
  else
    let oldFilteredValueShifted := s32 (Z.shiftl old 5) in
    let newOffsetShifted := s32 (Z.shiftl new 5) in
    old7 ← int32 (oldFilteredValueShifted * 7);
    sum ← int32 (Z.shiftr newOffsetShifted 3 + Z.shiftr old7 3);
    Some (Z.shiftr sum 5).

(* src: vnf_p7.c 1121-1169 vnf_handle_ul_node_sync *)
Definition measure (filtered : Z) (previous : Z * Z) (t1 t2 lat : Z) (o : offsets) : option offsets :=
  if filtered =? 0 then Some o
  else
    let new := measured_offset previous t1 t2 lat in
    f ← filter_offset (offset_filtered o) new;
    Some (Offsets new (offset_trend o) f (previous_offset_filtered o)).

(* src: vnf_p7.c 1171-1178 vnf_handle_ul_node_sync *)
Definition leave_filtered (o : offsets) (m : sync_mode) : sync_mode :=
  if negb (filtered_adjust m =? 0) && ((1000000 <? offset_filtered o) || (offset_filtered o <? -1000000))
  then Mode 0 0 0 2 else m.

(* src: vnf_p7.c 1180-1181 vnf_handle_ul_node_sync *)
Definition count_cycle (m : sync_mode) : sync_mode :=
  if min_sync_cycle_count m =? 0 then m
  else Mode (in_sync m) (filtered_adjust m) (zero_count m) (u16 (min_sync_cycle_count m - 1)).

(** The correction in positions: absolute from the average latency, or the filtered
    offset. *)
(* src: vnf_p7.c 1188-1206 vnf_handle_ul_node_sync *)
Definition correction (filtered t1 t2 : Z) (d : delays) (o : offsets) : option (delays * offsets * Z) :=
  if filtered =? 0 then
    l0 ← latency d !! 0%nat;
    l1 ← latency d !! 1%nat;
    let average := u32 (u32 (average_latency d + l0) + l1) / 2 in
    let off := s32 (t2 - u32 (t1 - average)) in
    Some (Delays (latency d) average,
          Offsets off (offset_trend o) (offset_filtered o) (previous_offset_filtered o), Z.quot off unit_us)
  else
    x ← int32 (offset_filtered o + half_unit);
    Some (d, o, Z.quot x unit_us).

(* src: vnf_p7.c 1208-1215 vnf_handle_ul_node_sync *)
Definition wrap_position (dec : Z) : Z :=
  if dec <? 0 then dec + hyperframe
  else if hyperframe <=? dec then dec - hyperframe else dec.

(* src: vnf_p7.c 1228-1253 vnf_handle_ul_node_sync *)
Definition update_trend (o : offsets) : option offsets :=
  let f := offset_filtered o in
  let p := previous_offset_filtered o in
  let with_trend t := Offsets (offset o) t f p in
  if 0 <? p then
    if p <? f then s ← int32 (f + p); Some (with_trend (Z.quot s 2)) else Some o
  else if p <? 0 then
    if f <? p then s ← int32 (f + p); n ← int32 (- s); Some (with_trend (Z.quot n 2)) else Some o
  else Some o.

(* src: vnf_p7.c 1256-1264 vnf_handle_ul_node_sync *)
Definition minor_steps (trend : Z) : Z * Z :=
  (if Z.quot trend 6 =? 0 then 2 else Z.quot trend 6, if Z.quot trend 2 =? 0 then 10 else Z.quot trend 2).

(* src: vnf_p7.c 1310-1325 vnf_handle_ul_node_sync *)
Definition minor_aligned (f step : Z) (mi : minor) : option minor :=
  if 250 <? f then n ← int_div f step; Some (Minor step n)
  else if f <? -250 then n ← int_div f (- step); Some (Minor (- step) n)
  else Some (Minor 0 (insync_minor_adjustment_duration mi)).

(** The two branches, for a VNF that is slow and one that is fast, are the same. *)
(* src: vnf_p7.c 1353-1364 vnf_handle_ul_node_sync *)
Definition minor_shifted (f step : Z) (mi : minor) : option minor :=
  if 250 <? f then q ← int_div (f - 250) step; n ← int32 (2 * q); Some (Minor step n)
  else if f <? -250 then q ← int_div (f + 250) (- step); n ← int32 (2 * q); Some (Minor (- step) n)
  else Some mi.

(* src: vnf_p7.c 1268-1283 vnf_handle_ul_node_sync *)
Definition absolute_cycle (adjustment : Z) (m : sync_mode) : sync_mode :=
  if adjustment <? 10 then
    let z := u16 (zero_count m + 1) in
    if 10 <=? z then Mode (in_sync m) 1 0 (min_sync_cycle_count m)
    else Mode (in_sync m) (filtered_adjust m) z (min_sync_cycle_count m)
  else Mode (in_sync m) (filtered_adjust m) 0 (min_sync_cycle_count m).

(** [callback] says whether [sync_indication] is set. *)
(* src: vnf_p7.c 1285-1429 vnf_handle_ul_node_sync *)
Definition filtered_cycle (callback : bool) (adjustment : Z) (o : offsets) (m : sync_mode) (mi : minor) :
    option (sync_mode * minor * list sync_note) :=
  let '(step1, step2) := minor_steps (offset_trend o) in
  let f := offset_filtered o in
  if adjustment =? 0 then
    let '(m, notes) :=
      if 10 <=? zero_count m then
        (Mode 1 (filtered_adjust m) (zero_count m) (min_sync_cycle_count m),
         if (in_sync m =? 0) && callback then [SyncIndication (in_sync m)] else [])
      else (Mode (in_sync m) (filtered_adjust m) (u16 (zero_count m + 1)) (min_sync_cycle_count m), []) in
    if in_sync m =? 0 then Some (m, mi, notes)
    else mi ← minor_aligned f step1 mi; Some (m, mi, notes)
  else if in_sync m =? 0 then Some (m, mi, [])
  else mi ← minor_shifted f step2 mi; Some (m, mi, []).

(* src: vnf_p7.c 1183-1450 vnf_handle_ul_node_sync *)
Definition end_of_cycle (callback : bool) (t1 t2 : Z) (c : clock P) : option (clock P * list sync_note) :=
  let m := c_mode c in
  '(d, o, k) ← correction (filtered_adjust m) t1 t2 (c_delays c) (c_offsets c);
  dec ← int32 (to_dec (c_position c) + k);
  let new := of_dec (wrap_position dec) in
  let adjustment := to_dec new - to_dec (c_position c) in
  o ← update_trend o;
  '(m, mi, notes) ←
    (if filtered_adjust m =? 0 then Some (absolute_cycle adjustment m, c_minor c, [])
     else filtered_cycle callback adjustment o m (c_minor c));
  Some (Clock (Mode (in_sync m) (filtered_adjust m) (zero_count m) 2) d
          (Offsets 0 (offset_trend o) 0 (offset_filtered o)) mi adjustment (0, 0)
          (if in_sync m =? 0 then new else c_position c), notes).

(** [t4] is the time of reception. *)
(* src: vnf_p7.c 1105-1456 vnf_handle_ul_node_sync *)
Definition handle_ul_node_sync (callback : bool) (c : clock P) (t1 t2 t3 t4 : Z) :
    option (clock P * list sync_note) :=
  let lat := node_latency t1 t2 t3 t4 in
  '(d, notes) ← store_latency (min_sync_cycle_count (c_mode c)) lat (c_delays c);
  o ← measure (filtered_adjust (c_mode c)) (c_previous c) t1 t2 lat (c_offsets c);
  let m := count_cycle (leave_filtered o (c_mode c)) in
  let c := Clock m d o (c_minor c) (c_adjustment c) (c_previous c) (c_position c) in
  if min_sync_cycle_count m =? 0 then
    '(c, notes') ← end_of_cycle callback t1 t2 c; Some (c, notes ++ notes')
  else Some (Clock m d o (c_minor c) (c_adjustment c) (t1, t2) (c_position c), notes).

(** A connection as [nfapi_vnf_p7_add_pnf] leaves it. *)
(* src: vnf_p7_interface.c 573-583 nfapi_vnf_p7_add_pnf *)
Definition new_clock (p : P) : clock P :=
  Clock (Mode 0 0 0 8) (Delays (replicate 8 0) 0) (Offsets 0 0 0 0) (Minor 0 0) 0 (0, 0) p.

End handler.

(** ** Every message is handled without undefined behaviour *)

Definition far : Z := 2146000000.

(** A second message of a cycle changes the filtered offset by an eighth. *)
Lemma filter_offset_eighth old new : old <> 0 -> -1000000 <= old <= 1000000 ->
  -67108864 <= new < 67108864 -> filter_offset old new = Some ((new + 7 * old) / 8).
Proof.
  intros H0 Ho Hn. unfold filter_offset. rewrite (proj2 (Z.eqb_neq _ _)) by done.
  rewrite !shiftl_mul, !shiftr_div by lia. change (2 ^ 5) with 32. change (2 ^ 3) with 8.
  replace (s32 (old * 32)) with (old * 32) by wrap_lia. replace (s32 (new * 32)) with (new * 32) by wrap_lia.
  rewrite (int32_Some (old * 32 * 7)) by wrap_lia. cbn [mbind option_bind].
  rewrite shiftr_div by lia. change (2 ^ 3) with 8.
  rewrite int32_Some by wrap_lia. cbn [mbind option_bind]. rewrite shiftr_div by lia. change (2 ^ 5) with 32. f_equal. lia.
Qed.

Lemma filter_offset_ok old new : -1000000 <= old <= 1000000 -> exists f,
  filter_offset old new = Some f /\ (old = 0 /\ f = new \/ old <> 0 /\ -10000000 <= f <= 10000000).
Proof.
  intros Ho. unfold filter_offset. destruct (Z.eqb_spec old 0) as [->|H0]; [by eauto|].
  rewrite !shiftl_mul, !shiftr_div by lia. change (2 ^ 5) with 32. change (2 ^ 3) with 8.
  replace (s32 (old * 32)) with (old * 32) by wrap_lia.
  assert (in_s32 (s32 (new * 32))) as Hn by wrap_lia. revert Hn. generalize (s32 (new * 32)). intros n Hn.
  rewrite (int32_Some (old * 32 * 7)) by wrap_lia. cbn [mbind option_bind].
  rewrite shiftr_div by lia. change (2 ^ 3) with 8.
  rewrite int32_Some by wrap_lia. cbn [mbind option_bind]. rewrite shiftr_div by lia. change (2 ^ 5) with 32.
  eexists. split; [done|]. right. split; [done|]. wrap_lia.
Qed.

Section safety.
Context {P : Type} `{Radio P}.

(** The mode with the offsets it allows: filtered offsets are small in filtered mode;
    one that is not, is left over from filtered mode for one cycle. *)
Definition mode_ok (m : sync_mode) (o : offsets) : Prop :=
  (in_sync m = 0 \/ in_sync m = 1 /\ filtered_adjust m = 1) /\
  0 <= zero_count m <= 10 /\ in_s32 (offset_trend o) /\ in_s32 (previous_offset_filtered o) /\
  -far <= offset_filtered o <= far /\
  (filtered_adjust m = 1 /\ -1000000 <= offset_filtered o <= 1000000 /\
     -1000000 <= previous_offset_filtered o <= 1000000 \/
   filtered_adjust m = 0 /\ zero_count m <= 9 /\
     (offset_filtered o = 0 \/ zero_count m = 0 /\ -1000000 <= previous_offset_filtered o <= 1000000)).

Record sync_ok (c : clock P) : Prop := {
  ok_mode : mode_ok (c_mode c) (c_offsets c);
  ok_count : 1 <= min_sync_cycle_count (c_mode c) <= 8;
  ok_latency : length (latency (c_delays c)) = 8%nat;
  ok_first : latency (c_delays c) !! 0%nat = Some 0;
  ok_position : 0 <= to_dec (c_position c) < 2000000;
}.

Lemma new_clock_ok p : 0 <= to_dec p < 2000000 -> sync_ok (new_clock p).
Proof. intros Hp. split; [|cbn; lia|done|done|done]. cbn. unfold mode_ok, far. cbn. wrap_lia. Qed.

Lemma store_latency_ok i lat d : 1 <= i <= 8 -> length (latency d) = 8%nat -> latency d !! 0%nat = Some 0 ->
  exists d' ns, store_latency i lat d = Some (d', ns) /\ length (latency d') = 8%nat /\
    latency d' !! 0%nat = Some 0 /\ ns = (if i =? 8 then [LatencyOverflow] else []).
Proof.
  intros Hi Hl H0. unfold store_latency. destruct (Z.ltb_spec i 8).
  - rewrite (proj2 (Z.eqb_neq _ _)) by lia. do 2 eexists. split; [done|]. cbn. rewrite length_insert.
    rewrite list_lookup_insert_ne by lia. done.
  - rewrite (proj2 (Z.eqb_eq _ _)) by lia. by do 2 eexists.
Qed.

Definition calm (c : clock P) (t1 t2 t3 t4 : Z) : Prop :=
  -far <= measured_offset (c_previous c) t1 t2 (node_latency t1 t2 t3 t4) <= far.

Lemma measure_ok m o previous t1 t2 lat : mode_ok m o -> -far <= measured_offset previous t1 t2 lat <= far ->
  exists o', measure (filtered_adjust m) previous t1 t2 lat o = Some o' /\
    mode_ok (count_cycle (leave_filtered o' m)) o'.
Proof.
  intros (Hs & Hz & Ht & Hp & Hf & Hm) Hc. unfold measure.
  destruct (Z.eqb_spec (filtered_adjust m) 0) as [E|E].
  - eexists. split; [done|]. unfold leave_filtered. rewrite E. cbn [negb Z.eqb andb].
    unfold count_cycle. destruct (_ =? 0); unfold mode_ok; cbn; intuition lia.
  - destruct (filter_offset_ok (offset_filtered o) (measured_offset previous t1 t2 lat) ltac:(lia)) as (f & -> & Hff).
    eexists. split; [done|]. cbn [offset_filtered]. unfold leave_filtered. rewrite (proj2 (Z.eqb_neq _ _)) by done.
    cbn [negb andb offset_filtered]. unfold far in *. unfold count_cycle.
    destruct (Z.ltb_spec 1000000 f), (Z.ltb_spec f (-1000000)); cbn [orb min_sync_cycle_count Z.eqb];
      try destruct (_ =? 0); unfold mode_ok, far; cbn; intuition lia.
Qed.
Lemma correction_ok filtered t1 t2 d o :
  length (latency d) = 8%nat -> latency d !! 0%nat = Some 0 -> in_s32 (offset_filtered o + half_unit) ->
  exists d' off k, correction filtered t1 t2 d o =
      Some (d', Offsets off (offset_trend o) (offset_filtered o) (previous_offset_filtered o), k) /\
    latency d' = latency d /\ -4294968 <= k <= 4294968.
Proof.
  intros Hl H0 Hf. destruct radio_half as [Hh Hu]. pose proof radio_hyperframe. pose proof radio_small.
  assert (500 <= unit_us) by nia.
  assert (forall x, in_s32 x -> -4294968 <= Z.quot x unit_us <= 4294968) as Hq.
  { intros x Hx. apply (quot_bound x unit_us 4294968); unfold in_s32 in Hx; lia. }
  unfold correction. destruct (filtered =? 0).
  - rewrite H0. cbn [mbind option_bind]. destruct (lookup_lt_is_Some_2 (latency d) 1) as [l1 ->]; [lia|].
    cbn [mbind option_bind]. do 3 eexists. split; [done|]. split; [done|]. apply Hq. wrap_lia.
  - rewrite int32_Some by done. cbn [mbind option_bind]. destruct o. do 3 eexists. split; [done|]. split; [done|].
    by apply Hq.
Qed.

Lemma update_trend_ok m o : mode_ok m o -> exists trend, in_s32 trend /\
  update_trend o = Some (Offsets (offset o) trend (offset_filtered o) (previous_offset_filtered o)).
Proof.
  intros (Hs & Hz & Ht & Hp & Hf & Hm). unfold update_trend. unfold far in *.
  assert (offset_filtered o = 0 \/ -1000000 <= previous_offset_filtered o <= 1000000) as Hc by intuition lia. clear Hm.
  destruct o as [off t f p]. cbn [offset offset_trend offset_filtered previous_offset_filtered] in *.
  assert (forall x, in_s32 x -> in_s32 (Z.quot x 2)) as Hq by (intros; wrap_lia).
  repeat case_cmp; rewrite ?int32_Some by wrap_lia; cbn [mbind option_bind]; rewrite ?int32_Some by wrap_lia;
    cbn [mbind option_bind]; eexists; (split; [|reflexivity]); try done; apply Hq; wrap_lia.
Qed.

Lemma minor_steps_nonzero trend : (minor_steps trend).1 <> 0 /\ (minor_steps trend).2 <> 0.
Proof. unfold minor_steps. cbn. destruct (Z.eqb_spec (Z.quot trend 6) 0), (Z.eqb_spec (Z.quot trend 2) 0); lia. Qed.

Lemma minor_aligned_ok f step mi : -1000000 <= f <= 1000000 -> step <> 0 -> is_Some (minor_aligned f step mi).
Proof.
  intros Hf Hs. unfold minor_aligned.
  repeat case_cmp; rewrite ?int_div_Some by (first [lia | wrap_lia]); cbn [mbind option_bind]; by eexists.
Qed.

Lemma minor_shifted_ok f step mi : -1000000 <= f <= 1000000 -> step <> 0 -> is_Some (minor_shifted f step mi).
Proof.
  intros Hf Hs. assert (forall a b, -1000000 <= a <= 1000000 -> b <> 0 ->
    exists q, int_div a b = Some q /\ -1000000 <= q <= 1000000) as Hd.
  { intros a b Ha Hb. rewrite int_div_Some by (first [lia | wrap_lia]). eexists. split; [done|].
    pose proof (quot_shrinks a b Hb). lia. }
  unfold minor_shifted. repeat case_cmp.
  - destruct (Hd (f - 250) step) as (q & -> & Hq); [lia..|]. cbn [mbind option_bind].
    rewrite int32_Some by wrap_lia. by eexists.
  - destruct (Hd (f + 250) (- step)) as (q & -> & Hq); [lia..|]. cbn [mbind option_bind].
    rewrite int32_Some by wrap_lia. by eexists.
  - by eexists.
Qed.
Definition overflowed (ns : list sync_note) : bool :=
  existsb (fun n => match n with LatencyOverflow => true | _ => false end) ns.

(** The offsets as the next cycle finds them. *)
Definition next_cycle (o : offsets) : offsets := Offsets 0 (offset_trend o) 0 (offset_filtered o).

Lemma absolute_cycle_ok adjustment m o : mode_ok m o -> filtered_adjust m = 0 ->
  mode_ok (absolute_cycle adjustment m) (next_cycle o).
Proof.
  intros (Hs & Hz & Ht & Hp & Hf & Hm) E. unfold absolute_cycle.
  rewrite (u16_small (zero_count m + 1)) by wrap_lia. unfold far in *.
  assert (in_s32 (offset_filtered o)) by wrap_lia.
  repeat case_cmp; unfold mode_ok, next_cycle, far; cbn; intuition lia.
Qed.

Lemma filtered_cycle_ok cb adjustment o m mi : mode_ok m o -> filtered_adjust m <> 0 ->
  exists m' mi' ns, filtered_cycle cb adjustment o m mi = Some (m', mi', ns) /\ mode_ok m' (next_cycle o) /\
    min_sync_cycle_count m' = min_sync_cycle_count m /\ overflowed ns = false.
Proof.
  intros (Hs & Hz & Ht & Hp & Hf & Hm) E. assert (filtered_adjust m = 1) as E1 by intuition lia.
  assert (-1000000 <= offset_filtered o <= 1000000) as Hb by intuition lia. clear Hm.
  unfold filtered_cycle. destruct (minor_steps_nonzero (offset_trend o)) as [H1 H2].
  destruct (minor_steps _) as [s1 s2]. cbn [fst snd] in *.
  destruct (minor_aligned_ok (offset_filtered o) s1 mi Hb H1) as [mi1 E2].
  destruct (minor_shifted_ok (offset_filtered o) s2 mi Hb H2) as [mi2 E3]. rewrite E2, E3.
  rewrite (u16_small (zero_count m + 1)) by wrap_lia. assert (in_s32 (offset_filtered o)) by wrap_lia.
  destruct (Z.eqb_spec adjustment 0), (Z.leb_spec 10 (zero_count m)); cbn [in_sync]; cbn;
    try destruct (Z.eqb_spec (in_sync m) 0); cbn; do 3 eexists; (split; [reflexivity|]);
    (split; [unfold mode_ok, next_cycle, far; cbn; intuition lia|]); by destruct cb.
Qed.
Lemma end_of_cycle_ok cb t1 t2 (c : clock P) : mode_ok (c_mode c) (c_offsets c) ->
  length (latency (c_delays c)) = 8%nat -> latency (c_delays c) !! 0%nat = Some 0 ->
  0 <= to_dec (c_position c) < 2000000 ->
  exists c' ns, end_of_cycle cb t1 t2 c = Some (c', ns) /\ sync_ok c' /\ overflowed ns = false /\
    min_sync_cycle_count (c_mode c') = 2.
Proof.
  intros Hm Hl H0 Hp. unfold end_of_cycle. pose proof radio_half as [Hh Hu]. pose proof radio_hyperframe.
  pose proof radio_small. assert (half_unit < 1000) by nia.
  destruct (correction_ok (filtered_adjust (c_mode c)) t1 t2 _ (c_offsets c) Hl H0) as (d & off & k & -> & Hd & Hk).
  { destruct Hm as (_ & _ & _ & _ & Hf & _). unfold far in Hf. wrap_lia. }
  cbn [mbind option_bind]. rewrite int32_Some by wrap_lia. cbn [mbind option_bind].
  set (new := of_dec _). set (adj := _ - _). set (o := Offsets off _ _ _).
  assert (mode_ok (c_mode c) o) as Ho by (destruct (c_mode c), (c_offsets c); exact Hm).
  destruct (update_trend_ok _ _ Ho) as (tr & Htr & ->). cbn [mbind option_bind].
  set (o' := Offsets _ tr _ _).
  assert (mode_ok (c_mode c) o') as Ho'.
  { revert Ho Htr. unfold mode_ok, o'. cbn. intuition. }
  assert (forall m' : sync_mode, mode_ok m' (next_cycle o') -> sync_ok (Clock
      (Mode (in_sync m') (filtered_adjust m') (zero_count m') 2) d (next_cycle o') (Minor 0 0) adj (0, 0)
      (if in_sync m' =? 0 then new else c_position c))) as Hok.
  { intros m' Hm'. split; cbn; [exact Hm'|lia|congruence|congruence|].
    destruct (_ =? 0); [apply to_dec_range|done]. }
  destruct (Z.eqb_spec (filtered_adjust (c_mode c)) 0) as [E|E].
  - cbn [mbind option_bind]. do 2 eexists. split; [reflexivity|]. split; [|done].
    destruct (Hok _ (absolute_cycle_ok adj _ _ Ho' E)). by split.
  - destruct (filtered_cycle_ok cb adj o' (c_mode c) (c_minor c) Ho' E) as (m' & mi & ns & -> & Hm' & Hc & Hns).
    cbn [mbind option_bind]. do 2 eexists. split; [reflexivity|]. split; [|done].
    destruct (Hok _ Hm'). by split.
Qed.

Lemma handle_ul_node_sync_ok cb (c : clock P) t1 t2 t3 t4 : sync_ok c -> calm c t1 t2 t3 t4 ->
  exists c' ns, handle_ul_node_sync cb c t1 t2 t3 t4 = Some (c', ns) /\ sync_ok c' /\
    (overflowed ns = true <-> min_sync_cycle_count (c_mode c) = 8) /\
    min_sync_cycle_count (c_mode c') < 8.
Proof.
  intros [Hm Hc Hl H0 Hp] Hcalm. unfold handle_ul_node_sync.
  destruct (store_latency_ok _ (node_latency t1 t2 t3 t4) _ Hc Hl H0) as (d & ns & -> & Hl' & H0' & ->).
  cbn [mbind option_bind].
  destruct (measure_ok _ _ (c_previous c) t1 t2 (node_latency t1 t2 t3 t4) Hm Hcalm) as (o & -> & Ho).
  cbn [mbind option_bind].
  set (m := count_cycle _) in *.
  assert (0 <= min_sync_cycle_count m < 8) as Hcount.
  { unfold m, count_cycle, leave_filtered. destruct (_ && _); cbn; [done|].
    rewrite (proj2 (Z.eqb_neq _ _)) by lia. cbn. wrap_lia. }
  assert (forall b : bool, overflowed (if b then [LatencyOverflow] else []) = b) as Hb by (by intros []).
  destruct (Z.eqb_spec (min_sync_cycle_count m) 0) as [E|E].
  - destruct (end_of_cycle_ok cb t1 t2 (Clock m d o (c_minor c) (c_adjustment c) (c_previous c) (c_position c)))
      as (c' & ns' & -> & Hok & Hns & H2); [done..|]. cbn [mbind option_bind].
    do 2 eexists. split; [reflexivity|]. split; [done|]. split.
    + unfold overflowed in *. rewrite existsb_app, Hns, orb_false_r, Hb. by rewrite Z.eqb_eq.
    + lia.
  - do 2 eexists. split; [reflexivity|]. split; [split; cbn; [exact Ho|lia|done..]|]. split; [|cbn; lia].
    by rewrite Hb, Z.eqb_eq.
Qed.
End safety.
