(* ===== verification/VnfConverge.v ===== *)
(** * What node sync achieves

    A model of the two clocks around the handlers of [VnfSync]: the PNF is [delta]
    microseconds ahead of the VNF, a message takes [x_delay] in each direction and the
    PNF answers after [x_proc].  From this come the four timestamps; a correction of
    the VNF's position changes [delta].  The theorems: the loop converges from any
    [delta], and what happens at the end of a hyperframe, for either exchange of a cycle. *)

From S2P Require Import Prelude Sfn PnfP7 VnfSync.

Definition hyperframe_us : Z := 10240000.

(** Sent by the VNF at [x_time] of its hyperframe. *)
Record exchange := Exchange { x_time : Z; x_delay : Z; x_proc : Z }.

Definition x_t1 (x : exchange) : Z := x_time x.
Definition x_t2 (delta : Z) (x : exchange) : Z := (x_time x + x_delay x + delta) mod hyperframe_us.
Definition x_t3 (delta : Z) (x : exchange) : Z := (x_time x + x_delay x + delta + x_proc x) mod hyperframe_us.
Definition x_t4 (x : exchange) : Z := (x_time x + 2 * x_delay x + x_proc x) mod hyperframe_us.

Section loop.
Context {P : Type} `{Radio P}.

Definition exchange_step (cb : bool) (c : clock P) (delta : Z) (x : exchange) : option (clock P * list sync_note) :=
  handle_ul_node_sync cb c (x_t1 x) (x_t2 delta x) (x_t3 delta x) (x_t4 x).

Definition move (c : clock P) (p : P) : clock P :=
  Clock (c_mode c) (c_delays c) (c_offsets c) (c_minor c) (c_adjustment c) (c_previous c) p.

(** The VNF is at the given position when an answer arrives; a change of its position
    by the handler brings it as much closer to the PNF. *)
Fixpoint sync_loop (cb : bool) (c : clock P) (delta : Z) (xs : list (P * exchange)) :
    option (clock P * Z * list sync_note) :=
  match xs with
  | [] => Some (c, delta, [])
  | (p, x) :: xs =>
      '(c', ns) ← exchange_step cb (move c p) delta x;
      '(c'', delta', ns') ← sync_loop cb c' (delta - unit_us * (to_dec (c_position c') - to_dec p)) xs;
      Some (c'', delta', ns ++ ns')
  end.

(** Delays of at most [d] each way, no clock passes the end of its hyperframe during
    an exchange, nor is the VNF in the first position of one. *)
Definition regular (d : Z) (px : P * exchange) : Prop :=
  let '(p, x) := px in
  0 < x_delay x <= d /\ 0 <= x_proc x /\
  2 * unit_us <= x_time x /\ x_time x + 2 * x_delay x + x_proc x + unit_us <= hyperframe_us /\
  1 <= to_dec p < hyperframe.

Definition pnf_stays (delta : Z) (px : P * exchange) : Prop := x_t2 delta px.2 + x_proc px.2 < hyperframe_us.

(** Exchanges one after the other, at least [d] apart. *)
Fixpoint spaced (d last : Z) (xs : list (P * exchange)) : Prop :=
  match xs with
  | [] => True
  | (_, x) :: xs => d <= Z.abs (x_time x - last) /\ spaced d (x_time x) xs
  end.

Lemma hyperframe_length : hyperframe * unit_us = hyperframe_us.
Proof. apply radio_hyperframe. Qed.

Lemma unit_range : 500 <= unit_us < 1100.
Proof.
  pose proof radio_half as [Hh Hu]. pose proof radio_hyperframe as E. pose proof radio_small as Hs.
  revert E Hs. generalize dependent unit_us. generalize hyperframe. intros. nia.
Qed.

Lemma t2_range delta x : 0 <= x_t2 delta x < hyperframe_us.
Proof. apply Z.mod_pos_bound. unfold hyperframe_us. lia. Qed.

Lemma t3_stays delta x : 0 <= x_proc x -> x_t2 delta x + x_proc x < hyperframe_us ->
  x_t3 delta x = x_t2 delta x + x_proc x.
Proof. unfold x_t3, x_t2, hyperframe_us. lia. Qed.

Lemma t4_stays x : 0 <= x_time x + 2 * x_delay x + x_proc x < hyperframe_us ->
  x_t4 x = x_time x + 2 * x_delay x + x_proc x.
Proof. intros. by apply Z.mod_small. Qed.

(** The code's latency is the delay, whatever [delta] is. *)
Lemma regular_latency delta d p x : regular d (p, x) -> pnf_stays delta (p, x) ->
  node_latency (x_t1 x) (x_t2 delta x) (x_t3 delta x) (x_t4 x) = x_delay x.
Proof.
  intros (Hd & Hp & Ht & Hh & _) Hs. unfold pnf_stays in Hs. cbn in Hs.
  pose proof radio_half as [Hh0 Hu]. pose proof (t2_range delta x).
  rewrite t3_stays, t4_stays by lia. unfold node_latency, x_t1, hyperframe_us in *.
  rewrite (proj2 (Z.ltb_lt _ _)) by lia. rewrite shiftr_div by lia. change (2 ^ 1) with 2.
  rewrite !u32_small by wrap_lia. wrap_lia.
Qed.
(** ** One message

    [between] are the states between two cycles, with the PNF [r] microseconds ahead
    up to whole hyperframes. *)

Lemma s32_small z : in_s32 z -> s32 z = z. Proof. wrap_lia. Qed.

(** An estimate and what a correction by whole units leaves of it. *)
Lemma quot_residue e : - unit_us < e - unit_us * Z.quot e unit_us < unit_us.
Proof.
  pose proof radio_half as [Hh Hu]. assert (unit_us <> 0) as Hn by lia.
  pose proof (Z.quot_rem e _ Hn) as Hq. pose proof (Z.rem_bound_abs e _ Hn) as Hr. revert Hq Hr.
  generalize (unit_us * Z.quot e unit_us), (Z.rem e unit_us). lia.
Qed.

Lemma quot_near e : - 2 * unit_us < e < 2 * unit_us -> -1 <= Z.quot e unit_us <= 1.
Proof.
  intros He. pose proof unit_range as Hu. apply (proj1 (Z.abs_le _ 1)). rewrite <- Z.quot_abs by lia.
  apply Z.lt_succ_r. apply Z.quot_lt_upper_bound; lia.
Qed.

Lemma wrap_position_spec n : - hyperframe <= n < 2 * hyperframe ->
  0 <= wrap_position n < hyperframe /\ (wrap_position n) mod hyperframe = n mod hyperframe.
Proof.
  intros Hn. pose proof radio_small. unfold wrap_position. repeat case_cmp; (split; [lia|]); try done.
  - exfalso. lia.
  - replace (n - hyperframe) with (n + (-1) * hyperframe) by lia. apply Z_mod_plus_full.
  - rewrite <- (Z.mul_1_l hyperframe) at 1. apply Z_mod_plus_full.
Qed.

(** Equality up to whole hyperframes from an equation. *)
Lemma mod_eq_intro q a b : a = b + q * hyperframe_us -> a mod hyperframe_us = b mod hyperframe_us.
Proof. intros ->. apply Z_mod_plus_full. Qed.

Lemma mod_eq_elim a b : a mod hyperframe_us = b mod hyperframe_us -> exists q, a = b + q * hyperframe_us.
Proof. unfold hyperframe_us. intros E. exists (a / 10240000 - b / 10240000). lia. Qed.

(** The difference of two positions, up to whole hyperframes, in microseconds. *)
Lemma moved_us n m k : m mod hyperframe = (n + k) mod hyperframe ->
  (unit_us * (m - n)) mod hyperframe_us = (unit_us * k) mod hyperframe_us.
Proof.
  intros E. pose proof radio_small. pose proof radio_half as [Hh Hu]. rewrite <- hyperframe_length, Z.mul_comm, (Z.mul_comm unit_us k).
  rewrite !Z.mul_mod_distr_r by lia. f_equal.
  rewrite <- Zminus_mod_idemp_l, E, Zminus_mod_idemp_l. f_equal. lia.
Qed.
(** [delta] as a small number of microseconds, up to whole hyperframes. *)
Definition near (delta r : Z) : Prop :=
  delta mod hyperframe_us = r mod hyperframe_us /\ - 2 * unit_us < r < unit_us.

Lemma near_t2 d delta r p x : regular d (p, x) -> near delta r ->
  x_t2 delta x = x_time x + x_delay x + r /\ pnf_stays delta (p, x).
Proof.
  intros (Hd & Hp & Ht & Hh & _) [E Hr]. pose proof radio_half as [Hh0 Hu].
  assert (x_t2 delta x = x_time x + x_delay x + r) as E2.
  { unfold x_t2. rewrite <- Z.add_mod_idemp_r, E, Z.add_mod_idemp_r by done. apply Z.mod_small. lia. }
  split; [done|]. unfold pnf_stays. cbn [snd]. rewrite E2. lia.
Qed.

Lemma near_moved delta r n m k : near delta r -> m mod hyperframe = (n + k) mod hyperframe ->
  (delta - unit_us * (m - n)) mod hyperframe_us = (r - unit_us * k) mod hyperframe_us.
Proof.
  intros [E _] Em. apply moved_us in Em. by rewrite Zminus_mod, Em, E, <- Zminus_mod.
Qed.

Lemma of_dec_wrap n k : 0 <= n < hyperframe -> - hyperframe <= k <= hyperframe ->
  let m := to_dec (of_dec (wrap_position (n + k))) in
  0 <= m < hyperframe /\ m mod hyperframe = (n + k) mod hyperframe /\
  (0 <= n + k -> m - n = k \/ m - n = k - hyperframe).
Proof.
  intros Hn Hk m. destruct (wrap_position_spec (n + k)) as [Hr Hm]; [lia|]. unfold m. rewrite to_of_dec by done.
  split; [done|]. split; [done|]. unfold wrap_position. intros. repeat case_cmp; lia.
Qed.

(** ** Absolute mode *)

Lemma absolute_wait cb d z i l a o mi adj pr p delta x :
  1 < i < 8 -> regular d (p, x) -> pnf_stays delta (p, x) ->
  exchange_step cb (Clock (Mode 0 0 z i) (Delays l a) o mi adj pr p) delta x =
    Some (Clock (Mode 0 0 z (i - 1)) (Delays (<[Z.to_nat i := x_delay x]> l) a) o mi adj (x_t1 x, x_t2 delta x) p, []).
Proof.
  intros Hi Hx Hs. unfold exchange_step, handle_ul_node_sync. rewrite (regular_latency delta d p x Hx Hs).
  cbn [c_mode c_delays min_sync_cycle_count]. unfold store_latency. rewrite (proj2 (Z.ltb_lt i 8)) by lia.
  cbn. unfold count_cycle. cbn. rewrite (proj2 (Z.eqb_neq i 0)) by lia. cbn.
  rewrite u16_small, (proj2 (Z.eqb_neq (i - 1) 0)) by wrap_lia. done.
Qed.

Lemma absolute_first cb d l a o mi adj pr p delta x : regular d (p, x) -> pnf_stays delta (p, x) ->
  exchange_step cb (Clock (Mode 0 0 0 8) (Delays l a) o mi adj pr p) delta x =
    Some (Clock (Mode 0 0 0 7) (Delays l (x_delay x)) o mi adj (x_t1 x, x_t2 delta x) p, [LatencyOverflow]).
Proof.
  intros Hx Hs. unfold exchange_step, handle_ul_node_sync. by rewrite (regular_latency delta d p x Hx Hs).
Qed.
(** The estimate of absolute mode: the difference of the timestamps plus the average
    latency, and what its correction leaves. *)
Lemma absolute_estimate d l a p delta x : 2 * d < unit_us -> regular d (p, x) -> pnf_stays delta (p, x) ->
  length l = 8%nat -> l !! 0%nat = Some 0 -> l !! 1%nat = Some (x_delay x) -> 0 <= a <= d ->
  exists a' e, 0 <= a' <= d /\ e = x_t2 delta x - x_time x + a' /\
    correction 0 (x_t1 x) (x_t2 delta x) (Delays l a) (Offsets 0 0 0 0) =
      Some (Delays l a', Offsets e 0 0 0, Z.quot e unit_us) /\
    - hyperframe <= Z.quot e unit_us <= hyperframe.
Proof.
  intros H2 Hx Hs Hl H0 H1 Ha. destruct Hx as (Hd & Hp & Ht & Hh & _). unfold pnf_stays in Hs. cbn in Hs.
  pose proof radio_half as [Hh0 Hu]. pose proof (t2_range delta x). pose proof radio_small. pose proof hyperframe_length.
  pose proof unit_range.
  unfold correction. cbn [Z.eqb latency average_latency offset_trend offset_filtered previous_offset_filtered].
  rewrite H0, H1. cbn [mbind option_bind]. unfold x_t1, hyperframe_us in *.
  assert (u32 (u32 (a + 0) + x_delay x) / 2 = (a + x_delay x) / 2) as -> by (rewrite !u32_small by wrap_lia; f_equal; lia).
  exists ((a + x_delay x) / 2), (x_t2 delta x - x_time x + (a + x_delay x) / 2).
  assert (0 <= (a + x_delay x) / 2 <= d) as Ha' by lia. revert Ha'. generalize ((a + x_delay x) / 2). intros a' Ha'.
  rewrite (u32_small (x_time x - a')) by wrap_lia.
  replace (x_t2 delta x - (x_time x - a')) with (x_t2 delta x - x_time x + a') by lia.
  rewrite s32_small by wrap_lia. repeat split; [lia..| |]; apply quot_bound; lia.
Qed.

(** One more calm cycle. *)
Definition absolute_next (z : Z) : sync_mode := if 9 <=? z then Mode 0 1 0 2 else Mode 0 0 (z + 1) 2.

Lemma absolute_cycle_next adj z : 0 <= z <= 9 ->
  let m := absolute_cycle adj (Mode 0 0 z 0) in
  in_sync m = 0 /\ Mode (in_sync m) (filtered_adjust m) (zero_count m) 2 = (if adj <? 10 then absolute_next z else Mode 0 0 0 2).
Proof.
  intros Hz. unfold absolute_cycle, absolute_next. cbn. rewrite (u16_small (z + 1)) by wrap_lia.
  repeat case_cmp; (split; [done|]); first [done | lia].
Qed.

Lemma absolute_end cb d z l a mi adj pr p delta x :
  2 * d < unit_us -> regular d (p, x) -> pnf_stays delta (p, x) ->
  length l = 8%nat -> l !! 0%nat = Some 0 -> 0 <= a <= d -> 0 <= z <= 9 ->
  exists m a' adj' p' r, exchange_step cb (Clock (Mode 0 0 z 1) (Delays l a) (Offsets 0 0 0 0) mi adj pr p) delta x =
      Some (Clock m (Delays (<[1%nat := x_delay x]> l) a') (Offsets 0 0 0 0) mi adj' (0, 0) p', []) /\
    0 <= a' <= d /\ near (delta - unit_us * (to_dec p' - to_dec p)) r /\
    (m = Mode 0 0 0 2 \/ m = absolute_next z) /\
    (forall r0, near delta r0 -> m = absolute_next z).
Proof.
  intros H2 Hx Hs Hl H0 Ha Hz. unfold exchange_step, handle_ul_node_sync.
  rewrite (regular_latency delta d p x Hx Hs). unfold store_latency. cbn [c_mode c_delays c_offsets min_sync_cycle_count].
  cbn [Z.ltb Z.compare Pos.compare Pos.compare_cont mbind option_bind latency average_latency].
  change (Z.to_nat 1) with 1%nat. cbn [measure filtered_adjust Z.eqb mbind option_bind].
  change (count_cycle (leave_filtered (Offsets 0 0 0 0) (Mode 0 0 z 1))) with (Mode 0 0 z 0).
  cbn [min_sync_cycle_count Z.eqb]. unfold end_of_cycle.
  cbn [c_mode c_delays c_offsets c_position c_minor filtered_adjust in_sync zero_count].
  destruct (absolute_estimate d (<[1%nat := x_delay x]> l) a p delta x) as (a' & e & Ha' & He & -> & Hk); try done.
  { by rewrite length_insert. }
  { by rewrite list_lookup_insert_ne by lia. }
  { apply list_lookup_insert_eq. lia. }
  destruct Hx as (Hd & Hp & Ht & Hh & Hn). pose proof radio_small. pose proof radio_half as [Hh0 Hu].
  destruct (of_dec_wrap (to_dec p) (Z.quot e unit_us)) as (Hm & Em & Hd1); [lia..|].
  pose proof (quot_residue e) as Hr. pose proof (quot_near e) as Hnear.
  assert (in_s32 (to_dec p + Z.quot e unit_us)) as Hi.
  { revert Hk. generalize (Z.quot e unit_us). clear - Hn H1. unfold in_s32. lia. }
  cbn [mbind option_bind]. rewrite int32_Some by exact Hi. clear Hi. cbn [mbind option_bind].
  change (update_trend (Offsets e 0 0 0)) with (Some (Offsets e 0 0 0)). cbn [mbind option_bind Z.eqb].
  set (p' := of_dec _) in *. revert Hk Hm Em Hd1 Hr Hnear. generalize p'. clear p'. generalize (Z.quot e unit_us).
  intros k p' Hk Hm Em Hd1 Hr Hnear.
  destruct (absolute_cycle_next (to_dec p' - to_dec p) z Hz) as [E0 E2].
  revert E0 E2. generalize (absolute_cycle (to_dec p' - to_dec p) (Mode 0 0 z 0)). intros m E0 E2. rewrite E2, E0.
  cbn [Z.eqb offset_trend offset_filtered].
  exists (if to_dec p' - to_dec p <? 10 then absolute_next z else Mode 0 0 0 2), a', (to_dec p' - to_dec p), p',
    (e - unit_us * k - a' - x_delay x).
  split; [done|]. split; [done|]. split; [split; [|clear - Hr Ha' Hd H2; lia]|].
  - destruct (mod_eq_elim _ _ (moved_us _ _ _ Em)) as [q1 E1].
    assert (exists q, x_t2 delta x = x_time x + x_delay x + delta + q * hyperframe_us) as [q Eq].
    { apply mod_eq_elim. unfold x_t2. by apply Z.mod_mod. }
    apply (mod_eq_intro (- q - q1)). clear - He E1 Eq. lia.
  - split; [case_match; auto|]. intros r0 Hr0.
    destruct (near_t2 d delta r0 p x) as [E _]; [repeat split; lia|done|]. destruct Hr0 as [_ Hr0].
    rewrite (proj2 (Z.ltb_lt _ _)); [done|]. clear - Hnear He E Hr0 Ha' Hd H2 Hd1 Hn H1. lia.
Qed.
(** ** Filtered mode *)

(** Timestamps that do not wrap between two messages. *)
Definition in_order (pr : Z * Z) (t1 t2 : Z) : Prop := (t2 < pr.2 -> t1 <= pr.1) /\ (pr.2 < t2 -> pr.1 <= t1).

Lemma measured_in_order pr t1 t2 lat : in_order pr t1 t2 -> in_s32 (t2 - t1 - lat) ->
  measured_offset pr t1 t2 lat = t2 - t1 - lat.
Proof.
  intros [H1 H2] Hs. destruct pr as [p1 p2]. cbn in *. unfold measured_offset.
  destruct (Z.ltb_spec t2 p2), (Z.ltb_spec p1 t1), (Z.ltb_spec p2 t2), (Z.ltb_spec t1 p1); cbn;
    first [by apply s32_small | lia].
Qed.

(** The offset is measured exactly, so filtering does not change it. *)
Lemma measure_near d off tr f pv pr p delta x r :
  regular d (p, x) -> near delta r -> in_order pr (x_t1 x) (x_t2 delta x) -> f = 0 \/ f = r ->
  measure 1 pr (x_t1 x) (x_t2 delta x) (x_delay x) (Offsets off tr f pv) = Some (Offsets r tr r pv).
Proof.
  intros Hx Hr Ho Hf. pose proof unit_range. destruct (near_t2 d delta r p x Hx Hr) as [E _]. destruct Hr as [_ Hr].
  unfold measure. cbn [Z.eqb]. rewrite measured_in_order; [|done|rewrite E; unfold x_t1, in_s32; lia].
  replace (x_t2 delta x - x_t1 x - x_delay x) with r by (rewrite E; unfold x_t1; lia).
  cbn [offset_filtered offset_trend previous_offset_filtered].
  assert (filter_offset f r = Some r) as ->; [|done]. destruct (Z.eqb_spec f 0) as [E0|E0].
  - unfold filter_offset. by rewrite (proj2 (Z.eqb_eq _ _)).
  - destruct Hf as [| ->]; [done|]. rewrite filter_offset_eighth by lia. f_equal. lia.
Qed.

Lemma filtered_wait cb d s z l a off tr pv mi adj p delta x r :
  regular d (p, x) -> near delta r ->
  exchange_step cb (Clock (Mode s 1 z 2) (Delays l a) (Offsets off tr 0 pv) mi adj (0, 0) p) delta x =
    Some (Clock (Mode s 1 z 1) (Delays (<[2%nat := x_delay x]> l) a) (Offsets r tr r pv) mi adj
      (x_t1 x, x_t2 delta x) p, []).
Proof.
  intros Hx Hr. destruct (near_t2 d delta r p x Hx Hr) as [E Hs]. pose proof unit_range.
  unfold exchange_step, handle_ul_node_sync. rewrite (regular_latency delta d p x Hx Hs).
  cbn [c_mode c_delays c_offsets c_previous c_minor c_adjustment c_position min_sync_cycle_count filtered_adjust].
  unfold store_latency. cbn [Z.ltb Z.compare Pos.compare Pos.compare_cont mbind option_bind latency average_latency].
  rewrite (measure_near d off tr 0 pv (0, 0) p delta x r Hx Hr); [|destruct Hx as (? & ? & ? & _)|by left].
  - cbn [mbind option_bind]. unfold leave_filtered. cbn [filtered_adjust offset_filtered Z.eqb negb andb].
    destruct Hr as [_ Hr]. rewrite (proj2 (Z.ltb_ge 1000000 r)), (proj2 (Z.ltb_ge r (-1000000))) by lia. done.
  - unfold in_order, x_t1. cbn. pose proof (t2_range delta x). lia.
Qed.
(** What filtered mode leaves alone. *)
Definition aligned (r : Z) : Prop := - 3 * half_unit < r < half_unit.

Definition filtered_next (s z : Z) : sync_mode := if 10 <=? z then Mode 1 1 z 2 else Mode s 1 (z + 1) 2.

Lemma filtered_correction r : - 2 * unit_us < r < unit_us ->
  let k := Z.quot (r + half_unit) unit_us in
  -1 <= k <= 1 /\ (aligned r -> k = 0) /\
  (~ aligned r -> k <> 0 /\ aligned (r - unit_us * k) /\ - 2 * unit_us < r - unit_us * k < unit_us).
Proof.
  intros Hr k. pose proof radio_half as [Hh Hu]. unfold aligned.
  assert (k = 0 /\ - unit_us < r + half_unit < unit_us \/ k = 1 /\ unit_us <= r + half_unit \/
    k = -1 /\ r + half_unit <= - unit_us) as Hk.
  { assert (- 2 * unit_us < r + half_unit < 2 * unit_us) as Hb by lia.
    pose proof (quot_near (r + half_unit) Hb) as Hq. pose proof (quot_residue (r + half_unit)) as Hs.
    fold k in Hq, Hs. assert (k = 0 \/ k = 1 \/ k = -1) as Hc by (clear - Hq; lia).
    destruct (decide (- unit_us < r + half_unit < unit_us)) as [Hd|Hd].
    - left. split; [|done]. unfold k. apply Z.quot_small_iff; [lia|]. lia.
    - assert (k <> 0). { intros E. rewrite E in Hs. lia. } destruct Hc as [?|[E|E]]; [done|..]; rewrite E in Hs |- *; lia. }
  clearbody k. destruct Hk as [[-> ?]|[[-> ?]|[-> ?]]]; lia.
Qed.

(** The cycle in filtered mode when nothing overflows. *)
Lemma filtered_cycle_aligned cb o s z mi : (minor_steps (offset_trend o)).1 <> 0 ->
  -1000000 <= offset_filtered o <= 1000000 -> 0 <= z <= 10 -> (s = 0 \/ s = 1 /\ z = 10) ->
  exists mi', filtered_cycle cb 0 o (Mode s 1 z 0) mi =
    Some (Mode (in_sync (filtered_next s z)) 1 (zero_count (filtered_next s z)) 0, mi',
      if (10 <=? z) && (s =? 0) && cb then [SyncIndication 0] else []).
Proof.
  intros H1 Hb Hz Hs. unfold filtered_cycle, filtered_next. destruct (minor_steps _) as [s1 s2]. cbn [fst] in H1.
  destruct (minor_aligned_ok (offset_filtered o) s1 mi Hb H1) as [mi' Emi]. rewrite Emi.
  cbn [Z.eqb zero_count in_sync]. rewrite (u16_small (z + 1)) by wrap_lia.
  destruct (Z.leb_spec 10 z); destruct Hs as [-> |[-> ->]]; cbn; [..|lia]; eexists; destruct cb; done.
Qed.

Lemma filtered_cycle_shifted cb adjustment o z mi : adjustment <> 0 ->
  filtered_cycle cb adjustment o (Mode 0 1 z 0) mi = Some (Mode 0 1 z 0, mi, []).
Proof.
  intros Ha. unfold filtered_cycle. destruct (minor_steps _). by rewrite (proj2 (Z.eqb_neq _ _)).
Qed.
(** What the end of a cycle in filtered mode does: from an offset outside [aligned] a
    step of one position, otherwise one more calm cycle. *)
Lemma filtered_end cb d s z l a off tr pv mi adj pr p delta x r :
  regular d (p, x) -> near delta r -> in_order pr (x_t1 x) (x_t2 delta x) -> length l = 8%nat ->
  0 <= z <= 10 -> (s = 0 \/ s = 1 /\ z = 10 /\ aligned r) -> in_s32 tr -> -1000000 <= pv <= 1000000 ->
  exists m tr' mi' adj' p' ns r',
    exchange_step cb (Clock (Mode s 1 z 1) (Delays l a) (Offsets off tr r pv) mi adj pr p) delta x =
      Some (Clock m (Delays (<[1%nat := x_delay x]> l) a) (Offsets 0 tr' 0 r) mi' adj' (0, 0) p', ns) /\
    in_s32 tr' /\ near (delta - unit_us * (to_dec p' - to_dec p)) r' /\ aligned r' /\
    (aligned r /\ r' = r /\ to_dec p' = to_dec p /\ m = filtered_next s z /\
       ns = (if (10 <=? z) && (s =? 0) && cb then [SyncIndication 0] else []) \/
     ~ aligned r /\ s = 0 /\ m = Mode 0 1 z 2 /\ ns = []).
Proof.
  intros Hx Hr Ho Hl Hz Hs Htr Hpv. destruct (near_t2 d delta r p x Hx Hr) as [E Hst]. pose proof unit_range as Hu.
  pose proof radio_half as [Hh Hh2].
  unfold exchange_step, handle_ul_node_sync. rewrite (regular_latency delta d p x Hx Hst).
  cbn [c_mode c_delays c_offsets c_previous c_minor c_adjustment c_position min_sync_cycle_count filtered_adjust].
  unfold store_latency. cbn [Z.ltb Z.compare Pos.compare Pos.compare_cont mbind option_bind latency average_latency].
  rewrite (measure_near d off tr r pv pr p delta x r Hx Hr Ho) by (by right).
  cbn [mbind option_bind]. unfold leave_filtered. cbn [filtered_adjust offset_filtered Z.eqb negb andb].
  pose proof Hr as [_ Hb]. rewrite (proj2 (Z.ltb_ge 1000000 r)), (proj2 (Z.ltb_ge r (-1000000))) by lia.
  change (Z.to_nat 1) with 1%nat. cbn [orb]. change (count_cycle (Mode s 1 z 1)) with (Mode s 1 z 0).
  cbn [min_sync_cycle_count Z.eqb]. unfold end_of_cycle, correction.
  cbn [c_mode c_delays c_offsets c_position c_minor filtered_adjust in_sync zero_count Z.eqb offset_filtered].
  rewrite int32_Some by wrap_lia. cbn [mbind option_bind].
  destruct (filtered_correction r Hb) as (Hk & Hk0 & Hk1). revert Hk Hk0 Hk1. generalize (Z.quot (r + half_unit) unit_us).
  intros k Hk Hk0 Hk1. pose proof radio_small as Hsm. destruct Hx as (_ & _ & _ & _ & Hn).
  rewrite int32_Some by wrap_lia. cbn [mbind option_bind].
  destruct (of_dec_wrap (to_dec p) k) as (Hm & Em & Hd); [lia..|]. set (p' := of_dec _) in *. clearbody p'.
  destruct (update_trend_ok (Mode s 1 z 0) (Offsets r tr r pv)) as (tr' & Htr' & ->).
  { unfold mode_ok, far. cbn. unfold in_s32 in *. intuition lia. }
  cbn [mbind option_bind offset offset_filtered previous_offset_filtered offset_trend].
  destruct (decide (aligned r)) as [Ha|Ha].
  - rewrite (Hk0 Ha) in *. assert (to_dec p' = to_dec p) as Ep by lia. rewrite Ep, Z.sub_diag.
    destruct (filtered_cycle_aligned cb (Offsets r tr' r pv) s z mi) as (mi' & ->);
      [by apply minor_steps_nonzero|cbn; lia|done|intuition|]. cbn [mbind option_bind].
    eexists _, tr', mi', 0, _, _, r. split; [reflexivity|]. cbn [in_sync filtered_adjust zero_count].
    assert (to_dec (if in_sync (filtered_next s z) =? 0 then p' else p) = to_dec p) as -> by (by destruct (_ =? 0)).
    rewrite Z.sub_diag, Z.mul_0_r, Z.sub_0_r. split; [done|]. split; [done|]. split; [done|]. left.
    split; [done|]. split; [done|]. split; [done|]. split; [|done]. unfold filtered_next. by destruct (10 <=? z).
  - destruct Hs as [-> |(_ & _ & ?)]; [|done]. destruct (Hk1 Ha) as (Hk2 & Ha' & Hb').
    rewrite filtered_cycle_shifted by lia. cbn [mbind option_bind].
    eexists _, tr', mi, _, p', _, (r - unit_us * k). split; [reflexivity|]. split; [done|].
    split; [split; [by apply (near_moved delta r)|done]|]. split; [done|]. by right.
Qed.
(** ** Cycles

    States between two cycles, and at most how many cycles are left until [in_sync]. *)
Inductive between (d delta : Z) : clock P -> Z -> Prop :=
  | between_absolute z l a mi adj p r :
      0 <= z <= 9 -> length l = 8%nat -> l !! 0%nat = Some 0 -> 0 <= a <= d -> near delta r ->
      between d delta (Clock (Mode 0 0 z 2) (Delays l a) (Offsets 0 0 0 0) mi adj (0, 0) p) (22 - z)
  | between_filtered z l a tr pv mi adj p r n :
      0 <= z <= 10 -> length l = 8%nat -> in_s32 tr -> -1000000 <= pv <= 1000000 -> near delta r ->
      n = 11 - z /\ aligned r \/ n = 12 - z ->
      between d delta (Clock (Mode 0 1 z 2) (Delays l a) (Offsets 0 tr 0 pv) mi adj (0, 0) p) n
  | between_synced l a tr pv mi adj p r :
      length l = 8%nat -> in_s32 tr -> -1000000 <= pv <= 1000000 -> near delta r -> aligned r ->
      between d delta (Clock (Mode 1 1 10 2) (Delays l a) (Offsets 0 tr 0 pv) mi adj (0, 0) p) 0.

(** What a run from rank [n] to rank [n'] reports. *)
Definition reports (cb : bool) (n n' : Z) : list sync_note :=
  if (0 <? n) && (n' =? 0) && cb then [SyncIndication 0] else [].

Lemma in_order_near d delta r p1 x1 p2 x2 : regular d (p1, x1) -> regular d (p2, x2) -> near delta r ->
  d <= Z.abs (x_time x2 - x_time x1) ->
  in_order (x_t1 x1, x_t2 delta x1) (x_t1 x2) (x_t2 delta x2).
Proof.
  intros H1 H2 Hr Hd. destruct (near_t2 d delta r p1 x1 H1 Hr) as [E1 _], (near_t2 d delta r p2 x2 H2 Hr) as [E2 _].
  unfold in_order, x_t1. cbn. rewrite E1, E2. destruct H1 as (? & _), H2 as (? & _). lia.
Qed.

Lemma sync_loop_stay cb c delta p x xs c' ns : exchange_step cb (move c p) delta x = Some (c', ns) ->
  to_dec (c_position c') = to_dec p ->
  sync_loop cb c delta ((p, x) :: xs) =
    ('(c'', delta', ns') ← sync_loop cb c' delta xs; Some (c'', delta', ns ++ ns')).
Proof. intros E Ep. cbn. rewrite E. cbn [mbind option_bind]. by rewrite Ep, Z.sub_diag, Z.mul_0_r, Z.sub_0_r. Qed.

Lemma sync_loop_last cb c delta p x c' ns : exchange_step cb (move c p) delta x = Some (c', ns) ->
  sync_loop cb c delta [(p, x)] = Some (c', delta - unit_us * (to_dec (c_position c') - to_dec p), ns).
Proof. intros E. cbn. rewrite E. cbn [mbind option_bind]. by rewrite app_nil_r. Qed.

Lemma absolute_cycle_runs cb d delta z l a mi adj p r p1 x1 p2 x2 :
  2 * d < unit_us -> regular d (p1, x1) -> regular d (p2, x2) ->
  0 <= z <= 9 -> length l = 8%nat -> l !! 0%nat = Some 0 -> 0 <= a <= d -> near delta r ->
  exists c' delta' n', sync_loop cb (Clock (Mode 0 0 z 2) (Delays l a) (Offsets 0 0 0 0) mi adj (0, 0) p) delta
      [(p1, x1); (p2, x2)] = Some (c', delta', []) /\ between d delta' c' n' /\ 0 < n' <= 21 - z.
Proof.
  intros H2 Hx1 Hx2 Hz Hl H0 Ha Hr. pose proof (near_t2 d delta r _ _ Hx1 Hr) as [_ Hs1].
  pose proof (near_t2 d delta r _ _ Hx2 Hr) as [_ Hs2].
  erewrite sync_loop_stay; [|by apply (absolute_wait cb d z 2)|done].
  destruct (absolute_end cb d z (<[Z.to_nat 2 := x_delay x1]> l) a mi adj (x_t1 x1, x_t2 delta x1) p2 delta x2)
    as (m & a' & adj' & p' & r' & E & Ha' & Hr' & _ & Hm); try done.
  { by rewrite length_insert. }
  { by rewrite list_lookup_insert_ne by done. }
  erewrite sync_loop_last by exact E. cbn [mbind option_bind c_position app].
  rewrite (Hm r Hr). unfold absolute_next. destruct (Z.leb_spec 9 z); do 3 eexists; (split; [done|]).
  - split; [apply (between_filtered _ _ 0 _ _ _ _ _ _ _ r' 12)|]; try done; try lia; try wrap_lia.
    + by rewrite !length_insert.
  - split; [apply (between_absolute _ _ (z + 1) _ _ _ _ _ r')|]; try done; try lia.
    + by rewrite !length_insert.
    + by rewrite !list_lookup_insert_ne by done.
Qed.

Lemma filtered_cycle_runs cb d delta s z l a tr pv mi adj p r p1 x1 p2 x2 :
  regular d (p1, x1) -> regular d (p2, x2) -> d <= Z.abs (x_time x2 - x_time x1) ->
  0 <= z <= 10 -> (s = 0 \/ s = 1 /\ z = 10 /\ aligned r) -> length l = 8%nat -> in_s32 tr ->
  -1000000 <= pv <= 1000000 -> near delta r ->
  exists c' delta' n' r', sync_loop cb (Clock (Mode s 1 z 2) (Delays l a) (Offsets 0 tr 0 pv) mi adj (0, 0) p) delta
      [(p1, x1); (p2, x2)] =
      Some (c', delta', if (10 <=? z) && (s =? 0) && bool_decide (aligned r) && cb then [SyncIndication 0] else []) /\
    between d delta' c' n' /\ near delta' r' /\ aligned r' /\ (aligned r -> delta' = delta) /\
    n' = (if bool_decide (aligned r) then if 10 <=? z then 0 else 10 - z else 11 - z).
Proof.
  intros Hx1 Hx2 Hd Hz Hs Hl Htr Hpv Hr. pose proof Hr as [_ Hb]. pose proof unit_range as Hu.
  erewrite sync_loop_stay; [|by apply (filtered_wait cb d s z l a 0 tr pv mi adj p1 delta x1 r)|done].
  destruct (filtered_end cb d s z (<[2%nat := x_delay x1]> l) a r tr pv mi adj (x_t1 x1, x_t2 delta x1) p2 delta x2 r)
    as (m & tr' & mi' & adj' & p' & ns & r' & E & Htr' & Hr' & Ha' & Hc); try done.
  { by apply (in_order_near d delta r p1 x1 p2 x2). }
  { by rewrite length_insert. }
  erewrite sync_loop_last by exact E. cbn [mbind option_bind c_position app].
  assert (length (<[1%nat := x_delay x2]> (<[2%nat := x_delay x1]> l)) = 8%nat) as Hl' by (by rewrite !length_insert).
  destruct Hc as [(Ha & -> & Ep & -> & ->)|(Ha & -> & -> & ->)].
  - rewrite (bool_decide_eq_true_2 _ Ha), Ep, Z.sub_diag, Z.mul_0_r, Z.sub_0_r in *.
    do 4 eexists. split; [by rewrite andb_true_r|]. split; [|split; [exact Hr|done]].
    unfold filtered_next. destruct (Z.leb_spec 10 z).
    + assert (z = 10) as -> by lia. apply (between_synced _ _ _ _ _ _ _ _ _ r); try done; lia.
    + destruct Hs as [-> |(_ & ? & _)]; [|lia]. apply (between_filtered _ _ (z + 1) _ _ _ _ _ _ _ r); try done; first [left; split; [lia|done] | lia].
  - rewrite (bool_decide_eq_false_2 _ Ha). do 4 eexists. split; [by rewrite andb_false_r|].
    split; [|split; [exact Hr'|done]]. apply (between_filtered _ _ z _ _ _ _ _ _ _ r'); try done; first [left; split; [lia|done] | lia].
Qed.
Lemma cycle_runs cb d delta c n p1 x1 p2 x2 :
  2 * d < unit_us -> regular d (p1, x1) -> regular d (p2, x2) -> d <= Z.abs (x_time x2 - x_time x1) ->
  between d delta c n ->
  exists c' delta' n', sync_loop cb c delta [(p1, x1); (p2, x2)] = Some (c', delta', reports cb n n') /\
    between d delta' c' n' /\ 0 <= n' <= Z.max 0 (n - 1).
Proof.
  intros H2 Hx1 Hx2 Hd [z l a mi adj p r|z l a tr pv mi adj p r n' Hz Hl Htr Hpv Hr Hn|l a tr pv mi adj p r Hl Htr Hpv Hr Ha].
  - destruct (absolute_cycle_runs cb d delta z l a mi adj p r p1 x1 p2 x2) as (c' & delta' & n' & E & Hb & Hn); try done.
    rewrite E. do 3 eexists. split; [|split; [exact Hb|lia]]. unfold reports.
    rewrite (proj2 (Z.eqb_neq n' 0)) by lia. by rewrite andb_false_r.
  - destruct (filtered_cycle_runs cb d delta 0 z l a tr pv mi adj p r p1 x1 p2 x2) as (c' & delta' & n'' & r' & E & Hb & _ & _ & _ & En);
      try done; [by left|]. rewrite E. exists c', delta', n''. unfold reports.
    rewrite (proj2 (Z.ltb_lt 0 n')) by (destruct Hn as [[-> _]| ->]; lia).
    case_bool_decide as Ha; destruct (Z.leb_spec 10 z); subst n''; cbn [andb Z.eqb]; (split; [|split; [exact Hb|]]);
      try (destruct Hn as [[-> Hn]| ->]; [done || lia | lia]); rewrite ?(proj2 (Z.eqb_neq (10 - z) 0)), ?(proj2 (Z.eqb_neq (11 - z) 0)) by lia; done.
  - destruct (filtered_cycle_runs cb d delta 1 10 l a tr pv mi adj p r p1 x1 p2 x2) as (c' & delta' & n'' & r' & E & Hb & _ & _ & _ & En);
      try done; [by right|]. rewrite E. rewrite bool_decide_eq_true_2 in En by done. exists c', delta', n''. rewrite En in *. done.
Qed.

Lemma sync_loop_app cb xs ys : forall c delta,
  sync_loop cb c delta (xs ++ ys) =
    ('(c', delta', ns) ← sync_loop cb c delta xs;
     '(c'', delta'', ns') ← sync_loop cb c' delta' ys; Some (c'', delta'', ns ++ ns')).
Proof.
  induction xs as [|[p x] xs IH]; intros c delta.
  - cbn. by destruct (sync_loop cb c delta ys) as [[[? ?] ?]|].
  - cbn. destruct (exchange_step _ _ _ _) as [[c' ns]|]; [|done]. cbn [mbind option_bind]. rewrite IH.
    destruct (sync_loop cb c' _ xs) as [[[c'' delta'] ns']|]; [|done]. cbn [mbind option_bind].
    destruct (sync_loop cb c'' delta' ys) as [[[? ?] ?]|]; [|done]. cbn. by rewrite app_assoc.
Qed.

Lemma reports_app cb n n' n'' : 0 <= n -> 0 <= n' <= Z.max 0 (n - 1) -> 0 <= n'' <= n' ->
  reports cb n n' ++ reports cb n' n'' = reports cb n n''.
Proof.
  intros H0 H1 H2. unfold reports. destruct (Z.ltb_spec 0 n), (Z.ltb_spec 0 n'), (Z.eqb_spec n' 0), (Z.eqb_spec n'' 0), cb;
    cbn; first [done | lia].
Qed.

Lemma between_nonneg d delta c n : between d delta c n -> 0 <= n.
Proof. intros [ | ? ? ? ? ? ? ? ? ? ? ? ? ? ? ? [[-> _]| ->] | ]; lia. Qed.

Lemma cycles_run cb d m : forall xs last delta c n, 2 * d < unit_us -> length xs = (2 * m)%nat ->
  Forall (regular d) xs -> spaced d last xs -> between d delta c n ->
  exists c' delta' n', sync_loop cb c delta xs = Some (c', delta', reports cb n n') /\ between d delta' c' n' /\
    0 <= n' <= Z.max 0 (n - Z.of_nat m).
Proof.
  induction m as [|m IH]; intros xs last delta c n H2 Hl Hx Hsp Hb.
  - apply length_zero_iff_nil in Hl as ->. exists c, delta, n. pose proof (between_nonneg _ _ _ _ Hb).
    split; [|split; [done|lia]]. cbn. unfold reports. destruct (Z.ltb_spec 0 n), (Z.eqb_spec n 0); first [done | lia].
  - destruct xs as [|[p1 x1] [|[p2 x2] xs]]; [cbn in Hl; lia..|]. apply list.Forall_cons in Hx as [Hx1 [Hx2 Hx]%list.Forall_cons].
    cbn [spaced] in Hsp. destruct Hsp as (_ & Hd & Hsp).
    destruct (cycle_runs cb d delta c n p1 x1 p2 x2 H2 Hx1 Hx2 Hd Hb) as (c1 & delta1 & n1 & E1 & Hb1 & Hn1).
    destruct (IH xs (x_time x2) delta1 c1 n1 H2 ltac:(cbn in Hl; lia) Hx Hsp Hb1) as (c' & delta' & n' & E & Hb' & Hn').
    exists c', delta', n'. split; [|split; [done|lia]].
    change ((p1, x1) :: (p2, x2) :: xs) with ([(p1, x1); (p2, x2)] ++ xs). rewrite sync_loop_app, E1. cbn [mbind option_bind].
    rewrite E. cbn [mbind option_bind]. rewrite reports_app; [done| |done|lia]. by apply between_nonneg in Hb.
Qed.
(** The first cycle, of eight messages: whatever [delta] is, it ends [near] the PNF. *)
Lemma waits_run cb d delta z : forall xs l a mi adj pr p i, 2 <= i < 8 -> length xs = Z.to_nat (i - 1) ->
  Forall (regular d) xs -> Forall (pnf_stays delta) xs -> length l = 8%nat -> l !! 0%nat = Some 0 ->
  exists l' pr' p', sync_loop cb (Clock (Mode 0 0 z i) (Delays l a) (Offsets 0 0 0 0) mi adj pr p) delta xs =
      Some (Clock (Mode 0 0 z 1) (Delays l' a) (Offsets 0 0 0 0) mi adj pr' p', delta, []) /\
    length l' = 8%nat /\ l' !! 0%nat = Some 0.
Proof.
  induction xs as [|[p1 x] xs IH]; intros l a mi adj pr p i Hi Hlen Hx Hs Hl H0; [cbn in Hlen; lia|].
  apply list.Forall_cons in Hx as [Hx1 Hx], Hs as [Hs1 Hs]. cbn [length] in Hlen.
  erewrite sync_loop_stay; [|apply (absolute_wait cb d z i); [lia|done..]|done].
  cbn [move c_mode c_delays c_offsets c_minor c_adjustment c_previous c_position].
  destruct (decide (i = 2)) as [-> |Hn].
  - destruct xs; [|cbn in Hlen; lia]. cbn [sync_loop mbind option_bind app].
    do 3 eexists. split; [reflexivity|]. rewrite length_insert, list_lookup_insert_ne by done. done.
  - destruct (IH (<[Z.to_nat i := x_delay x]> l) a mi adj (x_t1 x, x_t2 delta x) p1 (i - 1)) as (l' & pr' & p' & -> & Hl');
      try done; try lia.
    + by rewrite length_insert.
    + by rewrite list_lookup_insert_ne by lia.
    + by do 3 eexists.
Qed.

Lemma first_cycle cb d delta p xs : 2 * d < unit_us -> length xs = 8%nat ->
  Forall (regular d) xs -> Forall (pnf_stays delta) xs ->
  exists c' delta' n, sync_loop cb (new_clock p) delta xs = Some (c', delta', [LatencyOverflow]) /\
    between d delta' c' n /\ 0 < n <= 22.
Proof.
  intros H2 Hlen Hx Hs. destruct xs as [|[p1 x1] xs]; [done|]. cbn [length] in Hlen.
  apply list.Forall_cons in Hx as [Hx1 Hx], Hs as [Hs1 Hs]. unfold new_clock.
  erewrite sync_loop_stay; [|by apply (absolute_first cb d)|done].
  cbn [move c_mode c_delays c_offsets c_minor c_adjustment c_previous c_position].
  destruct (rev xs) as [|[p8 x8] ys] eqn:E; [apply (f_equal (@length _)) in E; rewrite length_rev in E; cbn in E; lia|].
  apply (f_equal (@rev _)) in E. rewrite rev_involutive in E. cbn [rev] in E. subst xs.
  apply Forall_app in Hx as [Hx [Hx8 _]%list.Forall_cons], Hs as [Hs [Hs8 _]%list.Forall_cons].
  rewrite length_app in Hlen. cbn [length] in Hlen. rewrite sync_loop_app.
  assert (length (replicate 8 0) = 8%nat) as Hr8 by done.
  destruct (waits_run cb d delta 0 (rev ys) (replicate 8 0) (x_delay x1) (Minor 0 0) 0 (x_t1 x1, x_t2 delta x1) p1 7)
    as (l' & pr' & p' & -> & Hl' & H0'); try done; [change (Z.to_nat (7 - 1)) with 6%nat; lia|].
  cbn [mbind option_bind].
  destruct (absolute_end cb d 0 l' (x_delay x1) (Minor 0 0) 0 pr' p8 delta x8)
    as (m & a' & adj' & p'' & r & E & Ha' & Hr & Hm & _); try done; [destruct Hx1 as (? & _); lia|].
  erewrite sync_loop_last by exact E. cbn [mbind option_bind app c_position].
  assert (exists z, 0 <= z <= 1 /\ m = Mode 0 0 z 2) as (z & Hz & ->).
  { destruct Hm as [-> | ->]; [by exists 0|by exists 1]. }
  do 3 eexists. split; [reflexivity|]. split; [apply (between_absolute _ _ z _ _ _ _ _ r)|]; try done; try lia.
  - by rewrite length_insert.
  - by rewrite list_lookup_insert_ne by done.
Qed.

(** C15. Node sync converges: from any offset of the PNF's clock, a fresh connection
    whose exchanges are regular (delays of at most [d] each way, less than half a
    subframe or slot together, no clock passing the end of its hyperframe) is in
    sync after 52 messages and stays so with every further cycle; the PNF is then
    between 1500 microseconds behind and 500 ahead (LTE; 750 and 250 for NR) up to
    whole hyperframes, [sync_indication] was called once, with 0, and the first
    message wrote behind the latency array.  (The clocks of [sync_loop] are ideal: the
    minor adjustments that a VNF in sync makes between messages are not applied.) *)
Theorem node_sync_converges cb d delta p xs k :
  2 * d < unit_us -> length xs = (8 + 2 * (22 + k))%nat -> Forall (regular d) xs ->
  Forall (pnf_stays delta) (take 8 xs) -> spaced d (- hyperframe_us) xs ->
  exists c' delta' r, sync_loop cb (new_clock p) delta xs =
      Some (c', delta', LatencyOverflow :: (if cb then [SyncIndication 0] else [])) /\
    in_sync (c_mode c') = 1 /\ filtered_adjust (c_mode c') = 1 /\
    delta' mod hyperframe_us = r mod hyperframe_us /\ - 3 * half_unit < r < half_unit.
Proof.
  intros H2 Hl Hx Hs Hsp. assert (length (take 8 xs) = 8%nat) as H8 by (rewrite length_take; lia).
  assert (length (drop 8 xs) = (2 * (22 + k))%nat) as Hl' by (rewrite length_drop; lia). clear Hl.
  rewrite <- (take_drop 8 xs) in Hx, Hsp |- *. revert H8 Hl' Hx Hs Hsp. generalize (take 8 xs), (drop 8 xs).
  clear xs. intros xs ys H8 Hl [Hx Hy]%Forall_app Hs Hsp.
  rewrite sync_loop_app. destruct (first_cycle cb d delta p _ H2 H8 Hx Hs) as (c & delta1 & n & -> & Hb & Hn).
  cbn [mbind option_bind].
  assert (exists last, spaced d last ys) as [last Hsp'].
  { revert Hsp. generalize (- hyperframe_us). clear. induction xs as [|[p x] l IH]; intros last.
    - by exists last.
    - intros [_ H']. by apply (IH _ H'). }
  destruct (cycles_run cb d (22 + k) ys last delta1 c n H2) as (c' & delta' & n' & -> & Hb' & Hn'); try done.
  cbn [mbind option_bind]. assert (n' = 0) as -> by lia. inversion Hb' as [| |l a tr pv mi adj p' r ? ? ? [Er _] Ha]; subst; try lia.
  exists (Clock (Mode 1 1 10 2) (Delays l a) (Offsets 0 tr 0 pv) mi adj (0, 0) p'), delta', r.
  unfold reports. rewrite (proj2 (Z.ltb_lt 0 n)) by lia. by repeat split; try apply Ha.
Qed.
End loop.

(** An exchange per subframe, a PNF that is 3.123456 seconds ahead. *)
Definition sample_exchanges (n : Z) : list (Z * exchange) :=
  (fun i => (sfnsf (5 + i), Exchange (5000 + 1000 * i) (80 + i mod 20) 50)) <$> seqZ 0 n.

Lemma sample_regular n : 0 <= n <= 100 -> Forall (regular 100) (sample_exchanges n).
Proof.
  intros Hn. apply Forall_fmap, list.Forall_forall. intros i Hi%elem_of_seqZ. unfold regular. cbn.
  rewrite NFAPI_SFNSF2DEC_sfnsf by lia. unfold hyperframe_us, NFAPI_MAX_SFNSFDEC. lia.
Qed.

Lemma node_sync_converges_witness : exists c' delta' r,
  sync_loop true (new_clock 0) 3123456 (sample_exchanges 52) = Some (c', delta', [LatencyOverflow; SyncIndication 0]) /\
  in_sync (c_mode c') = 1 /\ filtered_adjust (c_mode c') = 1 /\
  delta' mod hyperframe_us = r mod hyperframe_us /\ - 3 * half_unit (P := Z) < r < half_unit (P := Z).
Proof.
  apply (node_sync_converges true 100 3123456 0 (sample_exchanges 52) 0).
  - reflexivity.
  - reflexivity.
  - apply sample_regular. lia.
  - unfold pnf_stays. repeat (apply list.Forall_cons; split; [vm_compute; reflexivity|]). apply list.Forall_nil_2.
  - vm_compute. repeat split; discriminate.
Defined.

Section wrap.
Context {P : Type} `{Radio P}.

(** Both of the PNF's clocks, or neither, pass the end of the hyperframe. *)
Definition pnf_together (delta : Z) (x : exchange) : Prop := x_t3 delta x = x_t2 delta x + x_proc x.

(** What the exchange is taken for: without the excess of the latency, [r] and the wrap
    of the PNF's clock, if there was one, remain; the correction for wraps is in
    positions. *)
Lemma interrupted_offset d delta x r previous :
  0 < x_delay x <= d -> 0 <= x_proc x -> 2 * d + x_proc x <= 1000000 ->
  x_time x < hyperframe_us <= x_time x + 2 * x_delay x + x_proc x -> pnf_together delta x ->
  delta mod hyperframe_us = r mod hyperframe_us -> -1000000 <= r <= 1000000 ->
  let lat := node_latency (x_t1 x) (x_t2 delta x) (x_t3 delta x) (x_t4 x) in
  exists n, measured_offset previous (x_t1 x) (x_t2 delta x) lat = s32 (n + 2147483648) /\
    (5080000 <= n - r <= 5140000 \/ -5160000 <= n - r <= -5100000).
Proof.
  intros Hd Hp Hd2 Hx Hs E Hr lat. pose proof radio_small as Hf.
  assert (x_t4 x = x_time x + 2 * x_delay x + x_proc x - 10240000) as E4.
  { unfold x_t4, hyperframe_us in *. lia. }
  assert (x_t2 delta x = x_time x + x_delay x + r \/ x_t2 delta x = x_time x + x_delay x + r - 10240000) as H2.
  { unfold x_t2. rewrite <- Z.add_mod_idemp_r, E, Z.add_mod_idemp_r by done.
    unfold hyperframe_us in *. clear - Hx Hd Hp Hd2 Hr. lia. }
  assert (lat = 2147483648 - 5120000 + x_delay x + hyperframe / 2) as Hlat.
  { unfold lat, node_latency. rewrite Hs, E4. unfold x_t1, hyperframe_us in *.
    rewrite (proj2 (Z.ltb_ge _ _)) by lia. rewrite shiftr_div by lia. change (2 ^ 1) with 2.
    clear - Hx Hd Hp Hd2 Hf. revert Hf. generalize hyperframe. intros h Hf. clear P H.
    replace (x_t2 delta x + x_proc x - x_t2 delta x) with (x_proc x) by lia. rewrite (u32_small (x_proc x)) by wrap_lia.
    replace (u32 (x_time x + 2 * x_delay x + x_proc x - 10240000 + h - x_time x)) with
      (4284727296 + 2 * x_delay x + x_proc x + h) by wrap_lia.
    replace (4284727296 + 2 * x_delay x + x_proc x + h - x_proc x) with (h + (2142363648 + x_delay x) * 2) by lia.
    rewrite u32_small by wrap_lia. rewrite Z.div_add by done. lia. }
  rewrite Hlat. unfold measured_offset, x_t1. destruct previous as [previous_t1 previous_t2].
  set (excess := 5120000 - hyperframe / 2).
  assert (forall e, s32 (e - (2147483648 - 5120000 + x_delay x + hyperframe / 2)) = s32 (e - x_delay x + excess + 2147483648)) as Hw.
  { intros e. unfold excess. generalize (hyperframe / 2). intros h. unfold s32. lia. }
  assert (5109000 <= excess <= 5115000) as Hexcess by (unfold excess; clear - Hf; lia).
    assert (forall h, -20480 <= h <= 20480 -> 5080000 <= x_t2 delta x + h - x_time x - x_delay x + excess - r <= 5140000 \/
    -5160000 <= x_t2 delta x + h - x_time x - x_delay x + excess - r <= -5100000) as Hn by (clear - H2 Hexcess; lia).
  destruct (_ && _); [|destruct (_ && _)]; rewrite Hw; (eexists; split; [reflexivity|]).
  - specialize (Hn hyperframe). lia.
  - specialize (Hn (- hyperframe)). lia.
  - specialize (Hn 0). lia.
Qed.

(** It is far from any offset; the filter adds an eighth of [n] to an offset that is there. *)
Lemma far_offset n : -7000000 <= n <= 7000000 -> s32 (n + 2147483648) < -1000000000 \/ 1000000000 < s32 (n + 2147483648).
Proof. unfold s32. lia. Qed.
Lemma filter_far old n : old <> 0 -> -1000000 <= old <= 1000000 -> -7000000 <= n <= 7000000 ->
  filter_offset old (s32 (n + 2147483648)) = Some ((n + 7 * old) / 8).
Proof.
  intros H0 Ho Hn. rewrite <- (filter_offset_eighth old n) by (done || lia).
  unfold filter_offset. rewrite !shiftl_mul by lia. change (2 ^ 5) with 32.
  replace (s32 (s32 (n + 2147483648) * 32)) with (s32 (n * 32)) by (unfold s32; lia). by rewrite (proj2 (Z.eqb_neq _ _) H0).
Qed.

(** An offset of more than 250 microseconds is steered against. *)
Lemma minor_steered f step mi : -1000000 <= f <= 1000000 -> (f < -250 \/ 250 < f) -> step <> 0 ->
  (exists mi', minor_aligned f step mi = Some mi' /\ insync_minor_adjustment mi' <> 0) /\
  (exists mi', minor_shifted f step mi = Some mi' /\ insync_minor_adjustment mi' <> 0).
Proof.
  intros Hf Hfar Hs. split.
  - destruct (minor_aligned_ok f step mi Hf Hs) as [mi' E]. exists mi'. split; [done|]. revert E. unfold minor_aligned.
    repeat case_cmp; try lia; destruct (int_div _ _); cbn; try done; intros [= <-]; cbn; lia.
  - destruct (minor_shifted_ok f step mi Hf Hs) as [mi' E]. exists mi'. split; [done|]. revert E. unfold minor_shifted.
    repeat case_cmp; try lia; destruct (int_div _ _); cbn; try done; destruct (int32 _); cbn; try done; intros [= <-]; cbn; lia.
Qed.
Lemma filtered_cycle_steered cb adjustment o z i mi :
  -1000000 <= offset_filtered o <= 1000000 -> (offset_filtered o < -250 \/ 250 < offset_filtered o) ->
  exists z' mi', filtered_cycle cb adjustment o (Mode 1 1 z i) mi = Some (Mode 1 1 z' i, mi', []) /\
    insync_minor_adjustment mi' <> 0.
Proof.
  intros Hf Hfar. unfold filtered_cycle. destruct (minor_steps_nonzero (offset_trend o)) as [H1 H2].
  destruct (minor_steps _) as [s1 s2]. cbn [fst snd in_sync filtered_adjust zero_count min_sync_cycle_count] in *.
  destruct (minor_steered _ s1 mi Hf Hfar H1) as [(mi1 & E1 & Hmi1) _]. destruct (minor_steered _ s2 mi Hf Hfar H2) as [_ (mi2 & E2 & Hmi2)].
  destruct (adjustment =? 0).
  - destruct (10 <=? z); cbn [Z.eqb andb in_sync]; rewrite E1; cbn [mbind option_bind]; by do 2 eexists.
  - cbn [Z.eqb]. rewrite E2. cbn [mbind option_bind]. by do 2 eexists.
Qed.

(** A cycle that ends with such an offset. *)
Lemma cycle_steered cb t1 t2 d o z mi adj pr (p : P) : mode_ok (Mode 1 1 z 0) o -> 0 <= to_dec p < 2000000 ->
  (offset_filtered o < -250 \/ 250 < offset_filtered o) ->
  exists c', end_of_cycle cb t1 t2 (Clock (Mode 1 1 z 0) d o mi adj pr p) = Some (c', []) /\
    in_sync (c_mode c') = 1 /\ filtered_adjust (c_mode c') = 1 /\ c_position c' = p /\
    previous_offset_filtered (c_offsets c') = offset_filtered o /\ insync_minor_adjustment (c_minor c') <> 0.
Proof.
  intros Hm Hp Hfar. pose proof radio_half as [Hh Hu]. pose proof radio_hyperframe. pose proof radio_small.
  assert (500 <= unit_us < 1100) by (apply unit_range). assert (-1000000 <= offset_filtered o <= 1000000) as Hf.
  { destruct Hm as (_ & _ & _ & _ & _ & [(_ & ? & _)|(? & _)]); [done|discriminate]. }
  unfold end_of_cycle, correction. cbn [c_mode c_offsets c_delays c_position c_minor filtered_adjust Z.eqb].
  rewrite int32_Some by wrap_lia. cbn [mbind option_bind].
  assert (-4294968 <= Z.quot (offset_filtered o + half_unit) unit_us <= 4294968) as Hq by (apply (quot_bound _ unit_us 4294968); lia).
  rewrite int32_Some by wrap_lia. cbn [mbind option_bind].
  destruct (update_trend_ok _ _ Hm) as (tr & _ & ->). cbn [mbind option_bind]. set (o' := Offsets _ tr _ _).
  destruct (filtered_cycle_steered cb (to_dec (of_dec (wrap_position (to_dec p + Z.quot (offset_filtered o + half_unit) unit_us))) - to_dec p)
    o' z 0 mi Hf Hfar) as (z' & mi' & -> & Hmi). cbn. by eexists.
Qed.

(** C27. In filtered mode an exchange that the end of the VNF's hyperframe interrupts
    (and the PNF's own does not pass its end in the meantime) is misread, however well
    the clocks agree: the wrap is made up for in positions
    (10240 or 20480) instead of microseconds, so the latency comes out as half of 2^32
    and the offset beyond a second.  While the filtered offset is 0, as it always is
    for the first of the two exchanges of a cycle, this ends the synchronisation.
    For the second exchange after a filtered offset other than 0 (here of at most 10
    milliseconds, like [r], the real difference of the clocks) the filter hides all but
    an eighth of it: a VNF in sync stays in sync at its position, but the filtered
    offset is beyond 600 milliseconds and the minor adjustment is turned on against it. *)
Theorem hyperframe_end_spoils_sync cb d delta x r l a off old tr pv mi adj previous (p : P) s z i :
  0 < x_delay x <= d -> 0 <= x_proc x -> 2 * d + x_proc x <= 1000000 ->
  x_time x < hyperframe_us <= x_time x + 2 * x_delay x + x_proc x -> pnf_together delta x ->
  delta mod hyperframe_us = r mod hyperframe_us -> -10000 <= r <= 10000 -> 1 <= i <= 2 ->
  let c := Clock (Mode s 1 z i) (Delays l a) (Offsets off tr old pv) mi adj previous p in
  (old = 0 -> exists c', exchange_step cb c delta x = Some (c', []) /\ c_mode c' = Mode 0 0 0 1 /\
     (offset_filtered (c_offsets c') < -1000000000 \/ 1000000000 < offset_filtered (c_offsets c'))) /\
  (old <> 0 -> -10000 <= old <= 10000 -> i = 1 -> s = 1 -> sync_ok c ->
     exists c', exchange_step cb c delta x = Some (c', []) /\
     in_sync (c_mode c') = 1 /\ filtered_adjust (c_mode c') = 1 /\ c_position c' = p /\
     (previous_offset_filtered (c_offsets c') < -600000 \/ 600000 < previous_offset_filtered (c_offsets c')) /\
     insync_minor_adjustment (c_minor c') <> 0).
Proof.
  intros Hd Hp Hd2 Hx Hs E Hr Hi c.
  destruct (interrupted_offset d delta x r previous Hd Hp Hd2 Hx Hs E ltac:(lia)) as (n & En & Hn).
  set (lat := node_latency _ _ _ _) in *. unfold exchange_step, handle_ul_node_sync, c. fold lat.
  cbn [c_mode c_delays c_offsets c_previous c_minor c_adjustment c_position min_sync_cycle_count filtered_adjust].
  unfold store_latency. rewrite (proj2 (Z.ltb_lt i 8)) by lia. cbn [mbind option_bind latency average_latency].
  unfold measure. cbn [Z.eqb offset_filtered]. rewrite En. split.
  - intros ->. destruct (far_offset n ltac:(lia)) as [Hf|Hf]; revert Hf; generalize (s32 (n + 2147483648)); intros f Hf;
      (change (filter_offset 0 f) with (Some f); cbn [mbind option_bind offset_trend previous_offset_filtered];
       assert (leave_filtered (Offsets f tr f pv) (Mode s 1 z i) = Mode 0 0 0 2) as ->
         by (unfold leave_filtered; cbn; destruct (Z.ltb_spec 1000000 f), (Z.ltb_spec f (-1000000)); first [done | exfalso; lia]);
       eexists; split; [reflexivity|]; split; [done|cbn; lia]).
  - intros H0 Hold -> -> [Hm _ _ _ Hpos]. cbn [c c_mode c_offsets c_position] in Hm, Hpos. clearbody lat.
    rewrite (filter_far old n H0) by lia. cbn [mbind option_bind offset_trend previous_offset_filtered].
    set (f := (n + 7 * old) / 8). assert (-1000000 <= f <= 1000000 /\ (f < -600000 \/ 600000 < f)) as [Hf Hfar] by (unfold f; lia).
    clearbody f. set (o := Offsets _ tr f pv).
    assert (leave_filtered o (Mode 1 1 z 1) = Mode 1 1 z 1) as ->.
    { unfold leave_filtered, o. cbn. by rewrite (proj2 (Z.ltb_ge _ _)), (proj2 (Z.ltb_ge _ _)) by lia. }
    change (count_cycle (Mode 1 1 z 1)) with (Mode 1 1 z 0). cbn [min_sync_cycle_count Z.eqb].
    destruct (cycle_steered cb (x_t1 x) (x_t2 delta x) (Delays (<[Z.to_nat 1:=lat]> l) a) o z mi adj previous p)
      as (c' & -> & H1 & H2 & H3 & H4 & H5); [|done|cbn; lia|].
    { revert Hm. unfold mode_ok, o, far. cbn. intuition lia. }
    cbn [mbind option_bind app]. eexists. split; [reflexivity|]. rewrite H4. cbn. by split_and!.
Qed.
End wrap.

Lemma hyperframe_end_spoils_sync_witness :
  let c := Clock (Mode 1 1 10 1) (Delays (replicate 8 0) 100) (Offsets 3 0 3 0) (Minor 0 0) 0 (10239000, 10239100) (sfnsf 10239) in
  exists c', exchange_step true c 0 (Exchange 10239900 100 50) = Some (c', []) /\
  in_sync (c_mode c') = 1 /\ filtered_adjust (c_mode c') = 1 /\ c_position c' = sfnsf 10239 /\
  (previous_offset_filtered (c_offsets c') < -600000 \/ 600000 < previous_offset_filtered (c_offsets c')) /\
  insync_minor_adjustment (c_minor c') <> 0.
Proof.
  cbv zeta. apply (hyperframe_end_spoils_sync true 100 0 (Exchange 10239900 100 50) 0 (replicate 8 0) 100 3 3 0 0 (Minor 0 0) 0
    (10239000, 10239100) (sfnsf 10239) 1 10 1); cbn; unfold hyperframe_us, pnf_together; first [lia | reflexivity | idtac].
  split; [unfold mode_ok, far, in_s32; cbn; lia | cbn; lia | reflexivity | reflexivity | vm_compute; split; [discriminate|reflexivity]].
Defined.

(** The first exchange of a cycle, with the same clocks. *)
Example first_exchange_drops_sync :
  (fun r => (c_mode r.1, offset_filtered (c_offsets r.1))) <$>
    exchange_step true (Clock (Mode 1 1 10 2) (Delays (replicate 8 0) 100) (Offsets 0 0 0 0) (Minor 0 0) 0 (0, 0) (sfnsf 10239))
      0 (Exchange 10239900 100 50) = Some (Mode 0 0 0 1, 2142358528).
Proof. vm_compute. reflexivity. Qed.
