(* ===== verification/VnfP7.v ===== *)
(** * The VNF's P7 endpoint ([vnf_p7.c], [vnf_p7_interface.c])

    The connections to the PNFs, the tick of the LTE loop that counts subframes and
    sends DL_NODE_SYNC, the handlers of what a PNF sends and the requests to a PNF.
    Messages are bytes, packed and unpacked by [LteP7] and [NrP7] and sent in
    segments by [Segmentation]; UL_NODE_SYNC goes to [VnfSync].

    A handler returns the new state and what it does for others ([vnf_event]);
    [None] is a null pointer that is followed or undefined behaviour in [VnfSync].
    The memory the unpackers allocate is released at the end of every handler, which
    is left out.  [now] is the clock. *)

From S2P Require Import Prelude Sfn Codec Ids P7Header Layout Segmentation LtePdu NrP7 LteP7 PnfP7 VnfSync.

Open Scope string_scope.
Open Scope list_scope.
Open Scope Z_scope.

(** ** State *)

(** The members both radios share, then those of each. *)
(* src: vnf_p7.h 55-108 nfapi_vnf_p7_connection_info_t *)
Record nfapi_vnf_p7_connection_info_t := Connection {
  conn_phy_id : Z;
  dl_out_sync_offset : Z;
  dl_out_sync_period : Z;
  dl_in_sync_offset : Z;
  dl_in_sync_period : Z;
  sync_mode_of : sync_mode;
  delays_of : delays;
  minor_of : minor;
  adjustment : Z;
  previous : Z * Z;
  sf_offsets : offsets;
  slot_offsets : offsets;
  sfn_sf : Z;
  sfn_slot : Z * Z;
  sequence_number : Z;
}.

(** The connection as the sync handlers of each radio see it. *)
Definition lte_clock (c : nfapi_vnf_p7_connection_info_t) : clock Z :=
  Clock (sync_mode_of c) (delays_of c) (sf_offsets c) (minor_of c) (adjustment c) (previous c) (sfn_sf c).
Definition nr_clock (c : nfapi_vnf_p7_connection_info_t) : clock (Z * Z) :=
  Clock (sync_mode_of c) (delays_of c) (slot_offsets c) (minor_of c) (adjustment c) (previous c) (sfn_slot c).
Definition with_lte_clock (k : clock Z) (c : nfapi_vnf_p7_connection_info_t) : nfapi_vnf_p7_connection_info_t :=
  Connection (conn_phy_id c) (dl_out_sync_offset c) (dl_out_sync_period c) (dl_in_sync_offset c) (dl_in_sync_period c)
    (c_mode k) (c_delays k) (c_minor k) (c_adjustment k) (c_previous k) (c_offsets k) (slot_offsets c)
    (c_position k) (sfn_slot c) (sequence_number c).
Definition with_nr_clock (k : clock (Z * Z)) (c : nfapi_vnf_p7_connection_info_t) : nfapi_vnf_p7_connection_info_t :=
  Connection (conn_phy_id c) (dl_out_sync_offset c) (dl_out_sync_period c) (dl_in_sync_offset c) (dl_in_sync_period c)
    (c_mode k) (c_delays k) (c_minor k) (c_adjustment k) (c_previous k) (sf_offsets c) (c_offsets k)
    (sfn_sf c) (c_position k) (sequence_number c).
Definition with_position (p : Z) (q : Z * Z) (c : nfapi_vnf_p7_connection_info_t) : nfapi_vnf_p7_connection_info_t :=
  Connection (conn_phy_id c) (dl_out_sync_offset c) (dl_out_sync_period c) (dl_in_sync_offset c) (dl_in_sync_period c)
    (sync_mode_of c) (delays_of c) (minor_of c) (adjustment c) (previous c) (sf_offsets c) (slot_offsets c)
    p q (sequence_number c).
Definition with_sequence_number (n : Z) (c : nfapi_vnf_p7_connection_info_t) : nfapi_vnf_p7_connection_info_t :=
  Connection (conn_phy_id c) (dl_out_sync_offset c) (dl_out_sync_period c) (dl_in_sync_offset c) (dl_in_sync_period c)
    (sync_mode_of c) (delays_of c) (minor_of c) (adjustment c) (previous c) (sf_offsets c) (slot_offsets c)
    (sfn_sf c) (sfn_slot c) n.

(** The connections are a linked list. *)
(* src: vnf_p7.h 110-123 vnf_p7_t *)
Record vnf_p7_t := VnfP7 {
  p7_connections : list nfapi_vnf_p7_connection_info_t;
  sf_start_time_hr : Z;
  slot_start_time_hr : Z;
  terminate : Z;
}.

Definition with_connections (cs : list nfapi_vnf_p7_connection_info_t) (st : vnf_p7_t) : vnf_p7_t :=
  VnfP7 cs (sf_start_time_hr st) (slot_start_time_hr st) (terminate st).

(** The callbacks of the configuration for indications. *)
Inductive indication :=
  | HarqInd | CrcInd | RxInd | RachInd | SrsInd | SrInd | CqiInd | LbtDlInd | NbHarqInd | NrachInd
  | NrSlotInd | NrRxDataInd | NrCrcInd | NrSrsInd | NrUciInd | NrRachInd.
#[export] Instance indication_eq_dec : EqDecision indication.
Proof. solve_decision. Defined.

(** What is configured: segment size and checksum, the callbacks that are set; for a
    vendor extension the size of what [allocate_p7_vendor_ext] returns. *)
Record vnf_p7_config := VnfP7Config {
  v_p7 : p7_config;
  v_indication : indication -> bool;
  v_sync_indication : bool;
  v_allocate_vendor_ext : option (Z -> option Z);
  v_vendor_ext : bool;
}.

Inductive vnf_event :=
  | Indicate (i : indication) (h : nfapi_p7_message_header_t) (s : struct)
  | VendorExt (h : nfapi_p7_message_header_t) (s : struct)
  | SyncNote (phy_id : Z) (n : sync_note)
  | SubframeIndication (phy_id sfn_sf : Z)
  | SlotIndication (phy_id sfn slot : Z)
  | Sent (phy_id : Z) (datagrams : list (list Z)).

(** ** The connections *)

(* src: vnf_p7_interface.c :: nfapi_vnf_p7_config_create *)
Definition nfapi_vnf_p7_config_create : vnf_p7_t := VnfP7 [] 0 0 0.

(* src: vnf_p7.c :: vnf_p7_connection_info_list_add *)
Definition vnf_p7_connection_info_list_add (node : nfapi_vnf_p7_connection_info_t) (st : vnf_p7_t) : vnf_p7_t :=
  with_connections (node :: p7_connections st) st.

(* src: vnf_p7.c :: vnf_p7_connection_info_list_find *)
Fixpoint vnf_p7_connection_info_list_find (curr : list nfapi_vnf_p7_connection_info_t) (phy_id : Z) :
    option nfapi_vnf_p7_connection_info_t :=
  match curr with
  | [] => None
  | c :: next => if conn_phy_id c =? phy_id then Some c else vnf_p7_connection_info_list_find next phy_id
  end.

(** The rest of the list; the deleted connection is what [find] returns. *)
(* src: vnf_p7.c :: vnf_p7_connection_info_list_delete *)
Fixpoint vnf_p7_connection_info_list_delete (curr : list nfapi_vnf_p7_connection_info_t) (phy_id : Z) :
    list nfapi_vnf_p7_connection_info_t :=
  match curr with
  | [] => []
  | c :: next => if conn_phy_id c =? phy_id then next else c :: vnf_p7_connection_info_list_delete next phy_id
  end.

(** Assigning through the pointer that [find] returns. *)
Fixpoint update_connection (f : nfapi_vnf_p7_connection_info_t -> nfapi_vnf_p7_connection_info_t) (phy_id : Z)
    (curr : list nfapi_vnf_p7_connection_info_t) : list nfapi_vnf_p7_connection_info_t :=
  match curr with
  | [] => []
  | c :: next => if conn_phy_id c =? phy_id then f c :: next else c :: update_connection f phy_id next
  end.

(** Zeroed memory with [phy_id], the periods and the cycle count set. *)
(* src: vnf_p7_interface.c 571-583 nfapi_vnf_p7_add_pnf *)
Definition new_connection (phy_id : Z) : nfapi_vnf_p7_connection_info_t :=
  let k := new_clock 0 in
  Connection phy_id 30 10 30 512 (c_mode k) (c_delays k) (c_minor k) 0 (0, 0) (c_offsets k) (c_offsets k) 0 (0, 0) 0.

(** A null configuration is [None]; the result is the return value and the state. *)
(* src: vnf_p7_interface.c :: nfapi_vnf_p7_add_pnf *)
Definition nfapi_vnf_p7_add_pnf (config : option vnf_p7_t) (phy_id : Z) : Z * option vnf_p7_t :=
  match config with
  | None => (-1, None)
  | Some st => (0, Some (vnf_p7_connection_info_list_add (new_connection phy_id) st))
  end.

(* src: vnf_p7_interface.c :: nfapi_vnf_p7_del_pnf *)
Definition nfapi_vnf_p7_del_pnf (config : option vnf_p7_t) (phy_id : Z) : Z * option vnf_p7_t :=
  match config with
  | None => (-1, None)
  | Some st => (0, Some (with_connections (vnf_p7_connection_info_list_delete (p7_connections st) (u16 phy_id)) st))
  end.

(* src: vnf_p7_interface.c :: nfapi_vnf_p7_stop *)
Definition nfapi_vnf_p7_stop (config : option vnf_p7_t) : Z * option vnf_p7_t :=
  match config with
  | None => (-1, None)
  | Some st => (0, Some (VnfP7 (p7_connections st) (sf_start_time_hr st) (slot_start_time_hr st) 1))
  end.

(* src: vnf_p7.c :: send_mac_subframe_indications *)
Definition send_mac_subframe_indications (st : vnf_p7_t) : list vnf_event :=
  concat ((fun c => if in_sync (sync_mode_of c) =? 1 then [SubframeIndication (conn_phy_id c) (sfn_sf c)] else []) <$>
    p7_connections st).

(* src: vnf_p7.c :: send_mac_slot_indications *)
Definition send_mac_slot_indications (st : vnf_p7_t) : list vnf_event :=
  concat ((fun c => if in_sync (sync_mode_of c) =? 1
    then [SlotIndication (conn_phy_id c) (sfn_slot c).1 (sfn_slot c).2] else []) <$> p7_connections st).

(** ** Messages *)

Section messages.
Context (sizeof : string -> Z) (behind : nat -> Z) (crc32 : Z -> list Z -> Z).
Context (pack_vendor : option (struct -> packer)) (unpack_vendor : option (Z -> list Z -> Z * struct)).
Context (cfg : vnf_p7_config).

Definition lte_pack : nfapi_p7_message_header_t -> struct -> Z -> option (list Z) := nfapi_p7_message_pack pack_vendor.
Definition lte_unpack : list Z -> Z -> option (nfapi_p7_message_header_t * struct) :=
  nfapi_p7_message_unpack sizeof behind unpack_vendor.
Definition nr_pack : nfapi_p7_message_header_t -> struct -> Z -> option (list Z) := nfapi_nr_p7_message_pack pack_vendor.
Definition nr_unpack : list Z -> Z -> option (nfapi_p7_message_header_t * struct) :=
  nfapi_nr_p7_message_unpack sizeof unpack_vendor.

(** ** Sending

    [pack] is [lte_pack] or [nr_pack].  Both functions stamp the message with the
    position of NR. *)

Definition with_mss (h : nfapi_p7_message_header_t) (mss : Z) : nfapi_p7_message_header_t :=
  P7Header (phy_id h) (message_id h) (message_length h) mss (checksum h) (transmit_timestamp h).

(* src: vnf_p7.c 569-584 vnf_p7_pack_and_send_p7_msg *)
Definition pack_and_send (pack : nfapi_p7_message_header_t -> struct -> Z -> option (list Z)) (st : vnf_p7_t) (now : Z)
    (h : nfapi_p7_message_header_t) (s : struct) : Z * vnf_p7_t * list vnf_event :=
  match vnf_p7_connection_info_list_find (p7_connections st) (phy_id h) with
  | None => (-1, st, [])
  | Some c =>
      let timestamp := calculate_transmit_timestamp now (sfn_slot c).1 (sfn_slot c).2 (slot_start_time_hr st) in
      match vnf_p7_pack_and_send_p7_msg crc32 (v_p7 cfg) (fun _ => timestamp)
              (fun mss => pack (with_mss h mss) s (1024 * 32)) (Some (sequence_number c)) with
      | (r, Some n, ds) =>
          (r, with_connections (update_connection (with_sequence_number n) (phy_id h) (p7_connections st)) st,
           match ds with [] => [] | _ => [Sent (phy_id h) ds] end)
      | (r, None, _) => (r, st, [])
      end
  end.

(** ** DL_NODE_SYNC *)

(* src: vnf_p7.c :: vnf_build_send_dl_node_sync *)
Definition vnf_build_send_dl_node_sync (st : vnf_p7_t) (now : Z) (c : nfapi_vnf_p7_connection_info_t) :
    vnf_p7_t * list vnf_event :=
  let h := P7Header (u16 (conn_phy_id c)) NFAPI_DL_NODE_SYNC 0 0 0 0 in
  let s := set_num "t1" (calculate_t1 now (u16 (sfn_sf c)) (sf_start_time_hr st)) zero in
  let '(_, st, evs) := pack_and_send lte_pack st now h s in (st, evs).

(* src: vnf_p7.c :: vnf_nr_build_send_dl_node_sync *)
Definition vnf_nr_build_send_dl_node_sync (st : vnf_p7_t) (now : Z) (c : nfapi_vnf_p7_connection_info_t) :
    vnf_p7_t * list vnf_event :=
  let h := P7Header (u16 (conn_phy_id c)) NFAPI_NR_PHY_MSG_TYPE_DL_NODE_SYNC 0 0 0 0 in
  let s := set_num "t1" (calculate_nr_t1 now (u16 (sfn_slot c).1) (u16 (sfn_slot c).2) (slot_start_time_hr st)) zero in
  let '(_, st, evs) := pack_and_send nr_pack st now h s in (st, evs).

(** Whether a position asks for a sync: a mask of the period less one. *)
Definition sync_due (dec offset period maximum : Z) : bool :=
  Z.land (Z.rem (u16 dec + offset) maximum) (u16 (period - 1)) =? 0.

(* src: vnf_p7.c :: vnf_sync *)
Definition vnf_sync (st : vnf_p7_t) (now : Z) (c : nfapi_vnf_p7_connection_info_t) : vnf_p7_t * list vnf_event :=
  let dec := NFAPI_SFNSF2DEC (sfn_sf c) in
  if (if in_sync (sync_mode_of c) =? 1 then sync_due dec (dl_in_sync_offset c) (dl_in_sync_period c) NFAPI_MAX_SFNSFDEC
      else sync_due dec (dl_out_sync_offset c) (dl_out_sync_period c) NFAPI_MAX_SFNSFDEC)
  then vnf_build_send_dl_node_sync st now c else (st, []).

(* src: vnf_p7.c :: vnf_nr_sync *)
Definition vnf_nr_sync (st : vnf_p7_t) (now : Z) (c : nfapi_vnf_p7_connection_info_t) : vnf_p7_t * list vnf_event :=
  let dec := NFAPI_SFNSLOT2DEC (sfn_slot c).1 (sfn_slot c).2 in
  if (if in_sync (sync_mode_of c) =? 1 then sync_due dec (dl_in_sync_offset c) (dl_in_sync_period c) NFAPI_MAX_SFNSLOTDEC
      else sync_due dec (dl_out_sync_offset c) (dl_out_sync_period c) NFAPI_MAX_SFNSLOTDEC)
  then vnf_nr_build_send_dl_node_sync st now c else (st, []).

(** ** The subframe of the LTE loop

    What the loop does when its wait for a message times out: every connection's
    position moves on and may be synchronised, then the MAC is told. *)

(* src: vnf_p7_interface.c 504-504 nfapi_vnf_p7_start *)
Definition count_subframe (c : nfapi_vnf_p7_connection_info_t) : nfapi_vnf_p7_connection_info_t :=
  with_position (increment_sfn_sf (u16 (sfn_sf c))) (sfn_slot c) c.

(* src: vnf_p7_interface.c 500-507 nfapi_vnf_p7_start *)
Fixpoint tick_connections (st : vnf_p7_t) (now : Z) (n i : nat) : vnf_p7_t * list vnf_event :=
  match n with
  | O => (st, [])
  | S n =>
      match p7_connections st !! i with
      | None => (st, [])
      | Some c =>
          let c := count_subframe c in
          let st := with_connections (<[i := c]> (p7_connections st)) st in
          let '(st, evs) := vnf_sync st now c in
          let '(st, evs') := tick_connections st now n (S i) in
          (st, evs ++ evs')
      end
  end.

(* src: vnf_p7_interface.c 495-511 nfapi_vnf_p7_start *)
Definition vnf_subframe (st : vnf_p7_t) (now : Z) : vnf_p7_t * list vnf_event :=
  let st := VnfP7 (p7_connections st) now (slot_start_time_hr st) (terminate st) in
  let '(st, evs) := tick_connections st now (length (p7_connections st)) 0 in
  (st, evs ++ send_mac_subframe_indications st).

(** ** Indications

    Unpacked and handed to the callback. *)

(* src: vnf_p7.c :: vnf_handle_harq_indication *)
Definition handle_indication (unpack : list Z -> Z -> option (nfapi_p7_message_header_t * struct)) (type : string)
    (i : indication) (msg : list Z) : list vnf_event :=
  match unpack msg (sizeof type) with
  | None => []
  | Some (h, s) => if v_indication cfg i then [Indicate i h s] else []
  end.

(* src: vnf_p7.c :: vnf_handle_harq_indication *)
Definition vnf_handle_harq_indication := handle_indication lte_unpack "nfapi_harq_indication_t" HarqInd.
(* src: vnf_p7.c :: vnf_handle_crc_indication *)
Definition vnf_handle_crc_indication := handle_indication lte_unpack "nfapi_crc_indication_t" CrcInd.
(* src: vnf_p7.c :: vnf_handle_rx_ulsch_indication *)
Definition vnf_handle_rx_ulsch_indication := handle_indication lte_unpack "nfapi_rx_indication_t" RxInd.
(* src: vnf_p7.c :: vnf_handle_rach_indication *)
Definition vnf_handle_rach_indication := handle_indication lte_unpack "nfapi_rach_indication_t" RachInd.
(* src: vnf_p7.c :: vnf_handle_srs_indication *)
Definition vnf_handle_srs_indication := handle_indication lte_unpack "nfapi_srs_indication_t" SrsInd.
(* src: vnf_p7.c :: vnf_handle_rx_sr_indication *)
Definition vnf_handle_rx_sr_indication := handle_indication lte_unpack "nfapi_sr_indication_t" SrInd.
(* src: vnf_p7.c :: vnf_handle_rx_cqi_indication *)
Definition vnf_handle_rx_cqi_indication := handle_indication lte_unpack "nfapi_cqi_indication_t" CqiInd.
(* src: vnf_p7.c :: vnf_handle_lbt_dl_indication *)
Definition vnf_handle_lbt_dl_indication := handle_indication lte_unpack "nfapi_lbt_dl_indication_t" LbtDlInd.
(* src: vnf_p7.c :: vnf_handle_nb_harq_indication *)
Definition vnf_handle_nb_harq_indication := handle_indication lte_unpack "nfapi_nb_harq_indication_t" NbHarqInd.
(* src: vnf_p7.c :: vnf_handle_nrach_indication *)
Definition vnf_handle_nrach_indication := handle_indication lte_unpack "nfapi_nrach_indication_t" NrachInd.
(* src: vnf_p7.c :: vnf_handle_nr_slot_indication *)
Definition vnf_handle_nr_slot_indication := handle_indication nr_unpack "nfapi_nr_slot_indication_scf_t" NrSlotInd.
(* src: vnf_p7.c :: vnf_handle_nr_rx_data_indication *)
Definition vnf_handle_nr_rx_data_indication := handle_indication nr_unpack "nfapi_nr_rx_data_indication_t" NrRxDataInd.
(* src: vnf_p7.c :: vnf_handle_nr_crc_indication *)
Definition vnf_handle_nr_crc_indication := handle_indication nr_unpack "nfapi_nr_crc_indication_t" NrCrcInd.
(* src: vnf_p7.c :: vnf_handle_nr_srs_indication *)
Definition vnf_handle_nr_srs_indication := handle_indication nr_unpack "nfapi_nr_srs_indication_t" NrSrsInd.
(* src: vnf_p7.c :: vnf_handle_nr_uci_indication *)
Definition vnf_handle_nr_uci_indication := handle_indication nr_unpack "nfapi_nr_uci_indication_t" NrUciInd.
(* src: vnf_p7.c :: vnf_handle_nr_rach_indication *)
Definition vnf_handle_nr_rach_indication := handle_indication nr_unpack "nfapi_nr_rach_indication_t" NrRachInd.

(** Nothing is done with a response. *)
(* src: vnf_p7.c :: vnf_handle_ue_release_resp *)
Definition vnf_handle_ue_release_resp (msg : list Z) : list vnf_event :=
  match lte_unpack msg (sizeof "nfapi_ue_release_response_t") with None => [] | Some _ => [] end.

(* src: vnf_p7.c :: vnf_handle_p7_vendor_extension *)
Definition vnf_handle_p7_vendor_extension (id : Z) (msg : list Z) : list vnf_event :=
  match v_allocate_vendor_ext cfg with
  | None => []
  | Some allocate =>
      match allocate id with
      | None => []
      | Some msg_size =>
          match lte_unpack msg msg_size with
          | None => []
          | Some (h, s) => if v_vendor_ext cfg then [VendorExt h s] else []
          end
      end
  end.

(** ** Synchronisation *)

(* src: vnf_p7.c 1085-1105 vnf_handle_ul_node_sync *)
Definition vnf_handle_ul_node_sync (st : vnf_p7_t) (now : Z) (msg : list Z) : option (vnf_p7_t * list vnf_event) :=
  match lte_unpack msg (sizeof "nfapi_ul_node_sync_t") with
  | None => Some (st, [])
  | Some (h, ind) =>
      match vnf_p7_connection_info_list_find (p7_connections st) (phy_id h) with
      | None => None
      | Some phy =>
          let t4 := calculate_t4 now (u16 (sfn_sf phy)) (sf_start_time_hr st) in
          match handle_ul_node_sync (v_sync_indication cfg) (lte_clock phy)
                  (num ind "t1") (num ind "t2") (num ind "t3") t4 with
          | None => None
          | Some (k, ns) =>
              Some (with_connections (update_connection (with_lte_clock k) (phy_id h) (p7_connections st)) st,
                    map (SyncNote (phy_id h)) ns)
          end
      end
  end.

(* src: vnf_p7.c :: vnf_nr_handle_ul_node_sync *)
Definition vnf_nr_handle_ul_node_sync (st : vnf_p7_t) (now : Z) (msg : list Z) : option (vnf_p7_t * list vnf_event) :=
  match nr_unpack msg (sizeof "nfapi_nr_ul_node_sync_t") with
  | None => Some (st, [])
  | Some (h, ind) =>
      match vnf_p7_connection_info_list_find (p7_connections st) (phy_id h) with
      | None => None
      | Some phy =>
          let t4 := calculate_nr_t4 now (u16 (sfn_slot phy).1) (u16 (sfn_slot phy).2) (slot_start_time_hr st) in
          match handle_ul_node_sync (v_sync_indication cfg) (nr_clock phy)
                  (num ind "t1") (num ind "t2") (num ind "t3") t4 with
          | None => None
          | Some (k, ns) =>
              Some (with_connections (update_connection (with_nr_clock k) (phy_id h) (p7_connections st)) st,
                    map (SyncNote (phy_id h)) ns)
          end
      end
  end.

(** The position of the first connection in the list, whichever PHY the message is
    from, is set to the PNF's. *)
(* src: vnf_p7.c :: vnf_handle_timing_info *)
Definition vnf_handle_timing_info (st : vnf_p7_t) (msg : list Z) : vnf_p7_t :=
  match lte_unpack msg (sizeof "nfapi_timing_info_t"), p7_connections st with
  | Some (_, ind), c :: cs =>
      let last := num ind "last_sfn_sf" in
      if s16 (NFAPI_SFNSF2DEC (sfn_sf c) - NFAPI_SFNSF2DEC last) =? 0 then st
      else with_connections (with_position (s32 last) (sfn_slot c) c :: cs) st
  | _, _ => st
  end.

(** The room given for the message is that of the LTE message. *)
(* src: vnf_p7.c :: vnf_nr_handle_timing_info *)
Definition vnf_nr_handle_timing_info (st : vnf_p7_t) (msg : list Z) : vnf_p7_t :=
  match nr_unpack msg (sizeof "nfapi_timing_info_t"), p7_connections st with
  | Some (_, ind), c :: cs =>
      let sfn := num ind "last_sfn" in
      let slot := num ind "last_slot" in
      if s16 (NFAPI_SFNSLOT2DEC (sfn_slot c).1 (sfn_slot c).2 - NFAPI_SFNSLOT2DEC sfn slot) =? 0 then st
      else with_connections (with_position (sfn_sf c) (s32 sfn, s32 slot) c :: cs) st
  | _, _ => st
  end.

(** ** Dispatch *)

Definition reported (st : vnf_p7_t) (evs : list vnf_event) : option (vnf_p7_t * list vnf_event) := Some (st, evs).

(* src: vnf_p7.c :: vnf_dispatch_p7_message *)
Definition vnf_dispatch_p7_message (st : vnf_p7_t) (now : Z) (msg : list Z) : option (vnf_p7_t * list vnf_event) :=
  if zlen msg <? 4 then Some (st, []) else
  match nfapi_p7_message_header_unpack msg 16 with
  | None => Some (st, [])
  | Some header =>
    switch
      [(NFAPI_UL_NODE_SYNC, vnf_handle_ul_node_sync st now msg);
       (NFAPI_TIMING_INFO, Some (vnf_handle_timing_info st msg, []));
       (NFAPI_HARQ_INDICATION, reported st (vnf_handle_harq_indication msg));
       (NFAPI_CRC_INDICATION, reported st (vnf_handle_crc_indication msg));
       (NFAPI_RX_ULSCH_INDICATION, reported st (vnf_handle_rx_ulsch_indication msg));
       (NFAPI_RACH_INDICATION, reported st (vnf_handle_rach_indication msg));
       (NFAPI_SRS_INDICATION, reported st (vnf_handle_srs_indication msg));
       (NFAPI_RX_SR_INDICATION, reported st (vnf_handle_rx_sr_indication msg));
       (NFAPI_RX_CQI_INDICATION, reported st (vnf_handle_rx_cqi_indication msg));
       (NFAPI_LBT_DL_INDICATION, reported st (vnf_handle_lbt_dl_indication msg));
       (NFAPI_NB_HARQ_INDICATION, reported st (vnf_handle_nb_harq_indication msg));
       (NFAPI_NRACH_INDICATION, reported st (vnf_handle_nrach_indication msg));
       (NFAPI_UE_RELEASE_RESPONSE, reported st (vnf_handle_ue_release_resp msg))]
      (reported st (if is_vendor_extension (message_id header)
                    then vnf_handle_p7_vendor_extension (message_id header) msg else []))
      (message_id header)
  end.

(* src: vnf_p7.c :: vnf_nr_dispatch_p7_message *)
Definition vnf_nr_dispatch_p7_message (st : vnf_p7_t) (now : Z) (msg : list Z) : option (vnf_p7_t * list vnf_event) :=
  if zlen msg <? 4 then Some (st, []) else
  match nfapi_p7_message_header_unpack msg 16 with
  | None => Some (st, [])
  | Some header =>
    switch
      [(NFAPI_NR_PHY_MSG_TYPE_UL_NODE_SYNC, vnf_nr_handle_ul_node_sync st now msg);
       (NFAPI_TIMING_INFO, Some (vnf_nr_handle_timing_info st msg, []));
       (NFAPI_NR_PHY_MSG_TYPE_SLOT_INDICATION, reported st (vnf_handle_nr_slot_indication msg));
       (NFAPI_NR_PHY_MSG_TYPE_RX_DATA_INDICATION, reported st (vnf_handle_nr_rx_data_indication msg));
       (NFAPI_NR_PHY_MSG_TYPE_CRC_INDICATION, reported st (vnf_handle_nr_crc_indication msg));
       (NFAPI_NR_PHY_MSG_TYPE_UCI_INDICATION, reported st (vnf_handle_nr_uci_indication msg));
       (NFAPI_NR_PHY_MSG_TYPE_SRS_INDICATION, reported st (vnf_handle_nr_srs_indication msg));
       (NFAPI_NR_PHY_MSG_TYPE_RACH_INDICATION, reported st (vnf_handle_nr_rach_indication msg));
       (NFAPI_UE_RELEASE_RESPONSE, reported st (vnf_handle_ue_release_resp msg))]
      (reported st (if is_vendor_extension (message_id header)
                    then vnf_handle_p7_vendor_extension (message_id header) msg else []))
      (message_id header)
  end.

(** ** Requests

    The functions the MAC calls; a null argument is [None]. *)

(* src: vnf_p7_interface.c :: nfapi_vnf_p7_dl_config_req *)
Definition p7_request (pack : nfapi_p7_message_header_t -> struct -> Z -> option (list Z)) (config : option vnf_p7_t)
    (now : Z) (req : option (nfapi_p7_message_header_t * struct)) : Z * option vnf_p7_t * list vnf_event :=
  match config, req with
  | Some st, Some (h, s) => let '(r, st, evs) := pack_and_send pack st now h s in (r, Some st, evs)
  | _, _ => (-1, config, [])
  end.

(* src: vnf_p7_interface.c :: nfapi_vnf_p7_dl_config_req *)
Definition nfapi_vnf_p7_dl_config_req := p7_request lte_pack.
(* src: vnf_p7_interface.c :: nfapi_vnf_p7_nr_dl_config_req *)
Definition nfapi_vnf_p7_nr_dl_config_req := p7_request nr_pack.
(* src: vnf_p7_interface.c :: nfapi_vnf_p7_ul_tti_req *)
Definition nfapi_vnf_p7_ul_tti_req := p7_request nr_pack.
(* src: vnf_p7_interface.c :: nfapi_vnf_p7_ul_config_req *)
Definition nfapi_vnf_p7_ul_config_req := p7_request lte_pack.
(* src: vnf_p7_interface.c :: nfapi_vnf_p7_ul_dci_req *)
Definition nfapi_vnf_p7_ul_dci_req := p7_request nr_pack.
(* src: vnf_p7_interface.c :: nfapi_vnf_p7_hi_dci0_req *)
Definition nfapi_vnf_p7_hi_dci0_req := p7_request lte_pack.
(* src: vnf_p7_interface.c :: nfapi_vnf_p7_tx_data_req *)
Definition nfapi_vnf_p7_tx_data_req := p7_request nr_pack.
(* src: vnf_p7_interface.c :: nfapi_vnf_p7_tx_req *)
Definition nfapi_vnf_p7_tx_req := p7_request lte_pack.
(* src: vnf_p7_interface.c :: nfapi_vnf_p7_lbt_dl_config_req *)
Definition nfapi_vnf_p7_lbt_dl_config_req := p7_request lte_pack.
(* src: vnf_p7_interface.c :: nfapi_vnf_p7_vendor_extension *)
Definition nfapi_vnf_p7_vendor_extension := p7_request lte_pack.
(* src: vnf_p7_interface.c :: nfapi_vnf_p7_ue_release_req *)
Definition nfapi_vnf_p7_ue_release_req := p7_request lte_pack.

End messages.
