(* ===== verification/VnfRun.v ===== *)
(** * Runs of the VNF's LTE endpoint

    PNFs are added and deleted, subframes pass and messages arrive, in any order.
    Nothing undefined happens up to a message that is not [acceptable]: an
    UL_NODE_SYNC from an unknown PHY, which crashes the VNF, one with times half the
    range of an [int] apart, or a TIMING_INFO with a position of more than 16 bits.
    The MAC gets subframes of a PHY only after it was told that the PHY is in sync. *)

From S2P Require Import Prelude Sfn Codec Ids P7Header Layout LtePdu NrP7 LteP7 Segmentation VnfSync VnfP7.

Open Scope string_scope.
Open Scope list_scope.
Open Scope Z_scope.

(** ** What a sync handler announces *)

Section announce.
Context {P : Type} `{Radio P}.

Lemma filtered_cycle_announces adjustment o m mi m' mi' ns : filtered_cycle true adjustment o m mi = Some (m', mi', ns) ->
  in_sync m' <> 0 -> in_sync m <> 0 \/ SyncIndication 0 ∈ ns.
Proof.
  unfold filtered_cycle. destruct (minor_steps _) as [s1 s2].
  assert (in_sync m <> 0 \/ in_sync m = 0) as [Hm|Hm] by lia; [by left|].
  destruct (adjustment =? 0).
  - destruct (10 <=? zero_count m); cbn [in_sync]; rewrite Hm; cbn [Z.eqb andb].
    + destruct (minor_aligned _ _ _); cbn [mbind option_bind]; [|done]. intros [= <- <- <-] _. right. left.
    + intros [= <- <- <-]. done.
  - rewrite Hm. cbn [Z.eqb]. intros [= <- <- <-]. done.
Qed.

Lemma handler_announces (c c' : clock P) t1 t2 t3 t4 ns : handle_ul_node_sync true c t1 t2 t3 t4 = Some (c', ns) ->
  in_sync (c_mode c') <> 0 -> in_sync (c_mode c) <> 0 \/ SyncIndication 0 ∈ ns.
Proof.
  unfold handle_ul_node_sync.
  destruct (store_latency _ _ _) as [[d ns1]|]; cbn [mbind option_bind]; [|done].
  destruct (measure _ _ _ _ _ _) as [o|]; cbn [mbind option_bind]; [|done].
  set (m := count_cycle _).
  assert (in_sync m <> 0 -> in_sync (c_mode c) <> 0) as Hm.
  { unfold m, count_cycle, leave_filtered. repeat case_match; done. }
  destruct (min_sync_cycle_count m =? 0); [|intros [= <- <-]; cbn; auto].
  destruct (end_of_cycle _ _ _ _) as [[c1 ns2]|] eqn:E; cbn [mbind option_bind]; [|done]. intros [= <- <-] Hs.
  revert E. unfold end_of_cycle. cbn [c_mode c_delays c_offsets c_position c_minor].
  destruct (correction _ _ _ _ _) as [[[d' o'] k]|]; cbn [mbind option_bind]; [|done].
  destruct (int32 _) as [dec|]; cbn [mbind option_bind]; [|done].
  destruct (update_trend _) as [o2|]; cbn [mbind option_bind]; [|done].
  destruct (filtered_adjust m =? 0); cbn [mbind option_bind].
  - intros [= <- <-]. left. apply Hm. revert Hs. unfold absolute_cycle. cbn. by repeat case_match.
  - destruct (filtered_cycle _ _ _ _ _) as [[[m' mi] ns3]|] eqn:Ef; cbn [mbind option_bind]; [|done].
    intros [= <- <-]. destruct (filtered_cycle_announces _ _ _ _ _ _ _ Ef Hs) as [|Hn]; [left; auto|].
    right. apply elem_of_app. by right.
Qed.
End announce.

(** ** The invariant *)

(** The connections after the events [evs]: a PHY in sync was announced. *)
Definition announced (evs : list vnf_event) (c : nfapi_vnf_p7_connection_info_t) : Prop :=
  in_sync (sync_mode_of c) <> 0 -> SyncNote (conn_phy_id c) (SyncIndication 0) ∈ evs.
Definition vnf_ok (evs : list vnf_event) (st : vnf_p7_t) : Prop :=
  Forall (fun c => sync_ok (lte_clock c) /\ announced evs c) (p7_connections st).

(** Every subframe indication of [new] is for a PHY announced before. *)
Definition after_sync (evs new : list vnf_event) : Prop :=
  forall phy pos, SubframeIndication phy pos ∈ new -> SyncNote phy (SyncIndication 0) ∈ evs.
Definition no_subframe (new : list vnf_event) : Prop := forall phy pos, SubframeIndication phy pos ∉ new.

Lemma announced_app evs new c : announced evs c -> announced (evs ++ new) c.
Proof. intros H Hs. apply elem_of_app. left. by apply H. Qed.
Lemma vnf_ok_app evs new st : vnf_ok evs st -> vnf_ok (evs ++ new) st.
Proof. intros Hf. refine (list.Forall_impl _ _ _ Hf _). intros c [? ?]. split; [done|by apply announced_app]. Qed.
Lemma vnf_ok_empty evs : vnf_ok evs nfapi_vnf_p7_config_create.
Proof. constructor. Qed.

Lemma no_subframe_after evs new : no_subframe new -> after_sync evs new.
Proof. by intros H phy pos Hin%H. Qed.
Lemma no_subframe_app l1 l2 : no_subframe l1 -> no_subframe l2 -> no_subframe (l1 ++ l2).
Proof. intros H1 H2 phy pos [Hin%H1|Hin%H2]%elem_of_app; done. Qed.
Lemma no_subframe_nil : no_subframe [].
Proof. intros phy pos H%elem_of_nil. done. Qed.
Lemma no_subframe_one e : (forall phy pos, e <> SubframeIndication phy pos) -> no_subframe [e].
Proof. intros H phy pos Hin%list_elem_of_singleton. by eapply H. Qed.
#[local] Hint Resolve no_subframe_nil no_subframe_one no_subframe_app : core.

(** ** The list of connections *)

Lemma find_Some l phy c : vnf_p7_connection_info_list_find l phy = Some c -> c ∈ l /\ conn_phy_id c = phy.
Proof.
  induction l as [|c' l IH]; cbn; [done|]. destruct (Z.eqb_spec (conn_phy_id c') phy) as [E|].
  - intros [= ->]. split; [by left|done].
  - intros [? ?]%IH. split; [by right|done].
Qed.
Lemma Forall_update (P : nfapi_vnf_p7_connection_info_t -> Prop) f phy l : Forall P l ->
  (forall c, vnf_p7_connection_info_list_find l phy = Some c -> P c -> P (f c)) -> Forall P (update_connection f phy l).
Proof.
  induction 1 as [|c l Hc Hl IH]; cbn; [constructor|]. intros Hf. destruct (conn_phy_id c =? phy).
  - constructor; [by apply Hf|done].
  - constructor; [done|by apply IH].
Qed.
Lemma Forall_delete (P : nfapi_vnf_p7_connection_info_t -> Prop) phy l : Forall P l ->
  Forall P (vnf_p7_connection_info_list_delete l phy).
Proof. induction 1 as [|c l Hc Hl IH]; cbn; [constructor|]. destruct (_ =? _); [done|by constructor]. Qed.
Lemma length_update f phy l : length (update_connection f phy l) = length l.
Proof. induction l as [|c l IH]; cbn; [done|]. destruct (_ =? _); cbn; congruence. Qed.

Lemma s32_u16 n : in_u16 n -> s32 n = n.
Proof. wrap_lia. Qed.

Lemma frame_header {A} (body : nfapi_p7_message_header_t -> list Z -> Z * A) msg size h a :
  p7_frame_unpack body msg size = Some (h, a) -> nfapi_p7_message_header_unpack msg 16 = Some h.
Proof.
  unfold p7_frame_unpack, nfapi_p7_message_header_unpack.
  destruct (zlen msg <? NFAPI_P7_HEADER_LENGTH); [done|]. destruct (size <? 16); [done|]. cbn [orb Z.ltb Z.compare].
  destruct (unpack_p7_header msg) as [[h' l]|]; [|done]. destruct (zlen msg <? message_length h'); [done|].
  destruct (body h' l) as [r b]. destruct (r =? 0); [done|]. by intros [= -> _].
Qed.

(** What holds of the default and of every row holds of a [switch]. *)
Lemma switch_cases {A} (P : A -> Prop) cases default id : P default ->
  Forall (fun c => id = c.1 -> P c.2) cases -> P (switch cases default id).
Proof.
  intros Hd. induction 1 as [|[k v] cases Hc _ IH]; cbn [switch]; [done|]. destruct (Z.eqb_spec id k); [by apply Hc|done].
Qed.

(** ** The operations *)

Lemma indications_after_sync evs st : vnf_ok evs st -> after_sync evs (send_mac_subframe_indications st).
Proof.
  unfold send_mac_subframe_indications, after_sync. intros Hok phy pos.
  induction Hok as [|c l [_ Hc] Hl IH]; cbn [fmap list_fmap concat]; [by intros ?%elem_of_nil|].
  intros [Hin|Hin]%elem_of_app; [|by apply IH].
  destruct (Z.eqb_spec (in_sync (sync_mode_of c)) 1) as [E|]; [|by apply elem_of_nil in Hin].
  apply list_elem_of_singleton in Hin as [= -> _]. apply Hc. lia.
Qed.

Section operations.
Context (sizeof : string -> Z) (behind : nat -> Z) (crc32 : Z -> list Z -> Z).
Context (pack_vendor : option (struct -> packer)) (unpack_vendor : option (Z -> list Z -> Z * struct)).
Context (cfg : vnf_p7_config).

Lemma pack_and_send_ok pack st now h s evs r st' evs' : vnf_ok evs st ->
  pack_and_send crc32 cfg pack st now h s = (r, st', evs') ->
  vnf_ok evs st' /\ no_subframe evs' /\ length (p7_connections st') = length (p7_connections st).
Proof.
  intros Hok. unfold pack_and_send. destruct (vnf_p7_connection_info_list_find _ _) as [c|].
  2: { intros [= <- <- <-]. split; [done|split; [auto|done]]. }
  destruct (vnf_p7_pack_and_send_p7_msg _ _ _ _ _) as [[r1 n] ds]. destruct n as [n|]; intros [= <- <- <-]; [|split; [done|split; [auto|done]]].
  split; [|split].
  - apply Forall_update; [done|]. intros c' _ [? ?]. by split.
  - destruct ds; [auto|]. apply no_subframe_one. done.
  - apply length_update.
Qed.

Lemma vnf_sync_ok st now c evs st' evs' : vnf_ok evs st -> vnf_sync crc32 pack_vendor cfg st now c = (st', evs') ->
  vnf_ok evs st' /\ no_subframe evs' /\ length (p7_connections st') = length (p7_connections st).
Proof.
  intros Hok. unfold vnf_sync.
  destruct (if in_sync (sync_mode_of c) =? 1 then _ else _); [|intros [= <- <-]; split; [done|split; [auto|done]]].
  unfold vnf_build_send_dl_node_sync. destruct (pack_and_send _ _ _ _ _ _ _) as [[r st1] evs1] eqn:E. intros [= <- <-].
  by eapply pack_and_send_ok.
Qed.

Lemma increment_position c : sync_ok (lte_clock c) -> sync_ok (lte_clock (count_subframe c)).
Proof.
  intros [Hm Hc Hl H0 Hp]. split; try done. cbn [lte_clock count_subframe with_position c_position sfn_sf to_dec lte_radio].
  apply sfnsf_dec_range, increment_sfn_sf_u16, u16_range.
Qed.

Lemma tick_connections_ok n : forall st now i evs st' evs', vnf_ok evs st ->
  tick_connections crc32 pack_vendor cfg st now n i = (st', evs') -> vnf_ok evs st' /\ no_subframe evs'.
Proof.
  induction n as [|n IH]; intros st now i evs st' evs' Hok; cbn [tick_connections]; [intros [= <- <-]; auto|].
  destruct (p7_connections st !! i) as [c|] eqn:Ec; [|intros [= <- <-]; auto].
  assert (vnf_ok evs (with_connections (<[i := count_subframe c]> (p7_connections st)) st)) as Hok'.
  { unfold vnf_ok. cbn [p7_connections with_connections]. apply Forall_insert; [done|].
    destruct (Forall_lookup_1 _ _ _ _ Hok Ec) as [Hc Ha]. split; [by apply increment_position|done]. }
  destruct (vnf_sync _ _ _ _ _ _) as [st1 evs1] eqn:E1. destruct (vnf_sync_ok _ _ _ _ _ _ Hok' E1) as (Hok1 & Hn1 & _).
  destruct (tick_connections _ _ _ st1 now n (S i)) as [st2 evs2] eqn:E2. destruct (IH _ _ _ _ _ _ Hok1 E2) as [Hok2 Hn2].
  intros [= <- <-]. auto.
Qed.

Lemma vnf_subframe_ok st now evs st' evs' : vnf_ok evs st ->
  vnf_subframe crc32 pack_vendor cfg st now = (st', evs') -> vnf_ok evs st' /\ after_sync evs evs'.
Proof.
  intros Hok. unfold vnf_subframe. destruct (tick_connections _ _ _ _ _ _ _) as [st1 evs1] eqn:E.
  apply tick_connections_ok with (evs := evs) in E as [Hok1 Hn1]; [|exact Hok]. intros [= <- <-]. split; [done|].
  intros phy pos [Hin%Hn1|Hin]%elem_of_app; [done|by apply (indications_after_sync evs st1 Hok1 phy pos)].
Qed.

(** ** Messages *)

Lemma handle_indication_quiet unpack type i msg : no_subframe (handle_indication sizeof cfg unpack type i msg).
Proof. unfold handle_indication. destruct (unpack _ _) as [[h s]|]; [|auto]. destruct (v_indication cfg i); [|auto]. by apply no_subframe_one. Qed.
Lemma release_resp_quiet msg : no_subframe (vnf_handle_ue_release_resp sizeof behind unpack_vendor msg).
Proof. unfold vnf_handle_ue_release_resp. destruct (lte_unpack _ _ _ _ _); auto. Qed.
Lemma vendor_quiet id msg : no_subframe (vnf_handle_p7_vendor_extension sizeof behind unpack_vendor cfg id msg).
Proof.
  unfold vnf_handle_p7_vendor_extension. destruct (v_allocate_vendor_ext cfg) as [allocate|]; [|auto].
  destruct (allocate id); [|auto]. destruct (lte_unpack _ _ _ _ _) as [[h s]|]; [|auto].
  destruct (v_vendor_ext cfg); [by apply no_subframe_one|auto].
Qed.

#[local] Abbreviation unpack := (lte_unpack sizeof behind unpack_vendor).

(** An UL_NODE_SYNC is from a PHY with a connection and its times are not too far
    apart; the position of a TIMING_INFO is one of 16 bits. *)
Definition acceptable (st : vnf_p7_t) (now : Z) (msg : list Z) : Prop :=
  (forall h ind, unpack msg (sizeof "nfapi_ul_node_sync_t") = Some (h, ind) -> message_id h = NFAPI_UL_NODE_SYNC ->
     exists phy, vnf_p7_connection_info_list_find (p7_connections st) (phy_id h) = Some phy /\
       calm (lte_clock phy) (num ind "t1") (num ind "t2") (num ind "t3") (calculate_t4 now (u16 (sfn_sf phy)) (sf_start_time_hr st))) /\
  (forall h ind, unpack msg (sizeof "nfapi_timing_info_t") = Some (h, ind) -> message_id h = NFAPI_TIMING_INFO ->
     in_u16 (num ind "last_sfn_sf")).

Lemma unpack_header msg size h s : unpack msg size = Some (h, s) -> nfapi_p7_message_header_unpack msg 16 = Some h.
Proof. apply frame_header. Qed.

Lemma ul_node_sync_ok st now msg evs : v_sync_indication cfg = true -> vnf_ok evs st -> acceptable st now msg ->
  (forall h, nfapi_p7_message_header_unpack msg 16 = Some h -> message_id h = NFAPI_UL_NODE_SYNC) ->
  exists st' evs', vnf_handle_ul_node_sync sizeof behind unpack_vendor cfg st now msg = Some (st', evs') /\
    vnf_ok (evs ++ evs') st' /\ no_subframe evs'.
Proof.
  intros Hcb Hok [Hacc _] Hid. unfold vnf_handle_ul_node_sync.
  destruct (unpack _ _) as [[h ind]|] eqn:E; [|do 2 eexists; split; [done|]; rewrite app_nil_r; auto].
  destruct (Hacc h ind eq_refl (Hid h (unpack_header _ _ _ _ E))) as (phy & Hphy & Hcalm). rewrite Hphy, Hcb.
  destruct (find_Some _ _ _ Hphy) as [Hin Hp]. destruct (proj1 (list.Forall_forall _ _) Hok _ Hin) as [Hsync Hann].
  destruct (handle_ul_node_sync_ok true (lte_clock phy) _ _ _ _ Hsync Hcalm) as (k & ns & Ek & Hk & _). rewrite Ek.
  do 2 eexists. split; [reflexivity|]. split; [|intros p pos (n & Hn & _)%list_elem_of_In%in_map_iff; done].
  apply (Forall_update (fun c => sync_ok (lte_clock c) /\ announced (evs ++ map (SyncNote (phy_id h)) ns) c)).
  { by apply vnf_ok_app. }
  intros c Hc _. rewrite Hphy in Hc. injection Hc as <-. split; [by destruct k|].
  intros Hs. cbn [conn_phy_id with_lte_clock]. rewrite Hp. apply elem_of_app.
  destruct (handler_announces _ _ _ _ _ _ _ Ek Hs) as [Hs'|Hn]; [left|right].
  - rewrite <- Hp. by apply Hann.
  - apply list_elem_of_In, in_map, list_elem_of_In, Hn.
Qed.

Lemma timing_info_ok st now msg evs : vnf_ok evs st -> acceptable st now msg ->
  (forall h, nfapi_p7_message_header_unpack msg 16 = Some h -> message_id h = NFAPI_TIMING_INFO) ->
  vnf_ok evs (vnf_handle_timing_info sizeof behind unpack_vendor st msg).
Proof.
  intros Hok [_ Hacc] Hid. unfold vnf_handle_timing_info. destruct (unpack _ _) as [[h ind]|] eqn:E; [|done].
  specialize (Hacc h ind eq_refl (Hid h (unpack_header _ _ _ _ E))). destruct (p7_connections st) as [|c cs] eqn:Ec; [done|].
  destruct (_ =? 0); [done|]. unfold vnf_ok in *. rewrite Ec in Hok. apply Forall_cons in Hok as [[Hc Ha] Hcs].
  constructor; [|done]. split; [|done]. destruct Hc as [Hm Hn Hl H0 Hp]. split; try done.
  cbn [lte_clock with_position c_position sfn_sf to_dec lte_radio]. rewrite s32_u16 by done. by apply sfnsf_dec_range.
Qed.

Lemma dispatch_ok st now msg evs : v_sync_indication cfg = true -> vnf_ok evs st -> acceptable st now msg ->
  exists st' evs', vnf_dispatch_p7_message sizeof behind unpack_vendor cfg st now msg = Some (st', evs') /\
    vnf_ok (evs ++ evs') st' /\ no_subframe evs'.
Proof.
  intros Hcb Hok Hacc. unfold vnf_dispatch_p7_message.
  assert (forall evs', no_subframe evs' -> exists st' evs'', reported st evs' = Some (st', evs'') /\
    vnf_ok (evs ++ evs'') st' /\ no_subframe evs'') as Hquiet.
  { intros evs' Hn. do 2 eexists. split; [reflexivity|]. split; [by apply vnf_ok_app|done]. }
  destruct (zlen msg <? 4); [by apply Hquiet|].
  destruct (nfapi_p7_message_header_unpack msg 16) as [header|] eqn:Eh; [|by apply Hquiet].
  apply switch_cases; [|repeat apply list.Forall_cons_2; try apply list.Forall_nil_2; cbn [fst snd]; intros Hid;
    try apply Hquiet, handle_indication_quiet; try apply Hquiet, release_resp_quiet].
  - apply Hquiet. destruct (is_vendor_extension _); [apply vendor_quiet|auto].
  - apply ul_node_sync_ok; [done..|]. intros h Eh'. rewrite Eh in Eh'. by injection Eh' as <-.
  - do 2 eexists. split; [reflexivity|]. rewrite app_nil_r. split; [|auto]. apply (timing_info_ok _ now); [done..|].
    intros h Eh'. rewrite Eh in Eh'. by injection Eh' as <-.
Qed.

(** ** Runs *)

Inductive vnf_action :=
  | AddPnf (phy_id : Z)
  | DelPnf (phy_id : Z)
  | Subframe (now : Z)
  | Message (now : Z) (msg : list Z).

Definition act (st : vnf_p7_t) (a : vnf_action) : option (vnf_p7_t * list vnf_event) :=
  match a with
  | AddPnf phy_id => (fun st => (st, [])) <$> (nfapi_vnf_p7_add_pnf (Some st) phy_id).2
  | DelPnf phy_id => (fun st => (st, [])) <$> (nfapi_vnf_p7_del_pnf (Some st) phy_id).2
  | Subframe now => Some (vnf_subframe crc32 pack_vendor cfg st now)
  | Message now msg => vnf_dispatch_p7_message sizeof behind unpack_vendor cfg st now msg
  end.

Fixpoint run (st : vnf_p7_t) (l : list vnf_action) : option (vnf_p7_t * list vnf_event) :=
  match l with
  | [] => Some (st, [])
  | a :: l =>
      match act st a with
      | None => None
      | Some (st, evs) => match run st l with Some (st, evs') => Some (st, evs ++ evs') | None => None end
      end
  end.

(** Every message is acceptable when it arrives. *)
Fixpoint acceptable_run (st : vnf_p7_t) (l : list vnf_action) : Prop :=
  match l with
  | [] => True
  | a :: l =>
      match a with Message now msg => acceptable st now msg | _ => True end /\
      match act st a with Some (st, _) => acceptable_run st l | None => True end
  end.

Lemma act_ok st a evs : v_sync_indication cfg = true -> vnf_ok evs st ->
  match a with Message now msg => acceptable st now msg | _ => True end ->
  exists st' evs', act st a = Some (st', evs') /\ vnf_ok (evs ++ evs') st' /\ after_sync evs evs'.
Proof.
  intros Hcb Hok Hacc. destruct a as [phy|phy|now|now msg]; cbn [act].
  - do 2 eexists. split; [reflexivity|]. rewrite app_nil_r. split; [|by apply no_subframe_after].
    constructor; [|exact Hok]. split; [|intros Hs; by destruct Hs]. unfold new_connection, lte_clock. cbn.
    apply (new_clock_ok (P := Z) 0). split; [reflexivity|reflexivity].
  - do 2 eexists. split; [reflexivity|]. rewrite app_nil_r. split; [by apply Forall_delete|by apply no_subframe_after].
  - destruct (vnf_subframe _ _ _ _ _) as [st' evs'] eqn:E. destruct (vnf_subframe_ok _ _ _ _ _ Hok E) as [Hok' Hs].
    do 2 eexists. split; [reflexivity|]. split; [by apply vnf_ok_app|done].
  - destruct (dispatch_ok st now msg evs Hcb Hok Hacc) as (st' & evs' & E & Hok' & Hn).
    do 2 eexists. split; [done|]. split; [done|by apply no_subframe_after].
Qed.

Lemma run_ok l : forall st evs, v_sync_indication cfg = true -> vnf_ok evs st -> acceptable_run st l ->
  exists st' evs', run st l = Some (st', evs') /\ vnf_ok (evs ++ evs') st' /\
    forall pre phy pos post, evs' = pre ++ SubframeIndication phy pos :: post -> SyncNote phy (SyncIndication 0) ∈ evs ++ pre.
Proof.
  induction l as [|a l IH]; intros st evs Hcb Hok; cbn [run acceptable_run].
  { intros _. do 2 eexists. split; [reflexivity|]. rewrite app_nil_r. split; [done|]. intros pre phy pos post Hp. by destruct pre. }
  intros [Ha Hl]. destruct (act_ok st a evs Hcb Hok Ha) as (st1 & evs1 & E & Hok1 & Hs). rewrite E in Hl |- *.
  destruct (IH st1 (evs ++ evs1) Hcb Hok1 Hl) as (st2 & evs2 & -> & Hok2 & Ho). do 2 eexists. split; [reflexivity|].
  rewrite app_assoc. split; [done|]. intros pre phy pos post Hp. apply app_eq_app in Hp as (m & [[-> Hm]|[-> Hm]]).
  - destruct m as [|e m]; cbn [app] in Hm.
    + specialize (Ho [] phy pos post (eq_sym Hm)). by rewrite !app_nil_r in Ho.
    + injection Hm as <- _. apply elem_of_app. left. apply (Hs phy pos), elem_of_app. right. left.
  - rewrite app_assoc. by apply (Ho m phy pos post).
Qed.

(** What is not acceptable. *)
Definition unknown_phy (st : vnf_p7_t) (msg : list Z) : Prop :=
  exists h ind, unpack msg (sizeof "nfapi_ul_node_sync_t") = Some (h, ind) /\ message_id h = NFAPI_UL_NODE_SYNC /\
    vnf_p7_connection_info_list_find (p7_connections st) (phy_id h) = None.
Definition far_times (st : vnf_p7_t) (now : Z) (msg : list Z) : Prop :=
  exists h ind phy, unpack msg (sizeof "nfapi_ul_node_sync_t") = Some (h, ind) /\ message_id h = NFAPI_UL_NODE_SYNC /\
    vnf_p7_connection_info_list_find (p7_connections st) (phy_id h) = Some phy /\
    ~ calm (lte_clock phy) (num ind "t1") (num ind "t2") (num ind "t3") (calculate_t4 now (u16 (sfn_sf phy)) (sf_start_time_hr st)).
Definition wide_position (msg : list Z) : Prop :=
  exists h ind, unpack msg (sizeof "nfapi_timing_info_t") = Some (h, ind) /\ message_id h = NFAPI_TIMING_INFO /\
    ~ in_u16 (num ind "last_sfn_sf").

Lemma acceptable_or st now msg : acceptable st now msg \/ unknown_phy st msg \/ far_times st now msg \/ wide_position msg.
Proof.
  clear crc32 pack_vendor cfg.
  assert ((forall h ind, unpack msg (sizeof "nfapi_timing_info_t") = Some (h, ind) -> message_id h = NFAPI_TIMING_INFO ->
     in_u16 (num ind "last_sfn_sf")) \/ wide_position msg) as [Ht|?]; [|unfold acceptable|tauto].
  { unfold wide_position. destruct (unpack msg _) as [[h ind]|]; [|by left]. destruct (decide (message_id h = NFAPI_TIMING_INFO));
      [|left; by intros ? ? [= <- <-]]. destruct (decide (0 <= num ind "last_sfn_sf" < 65536)); [left; by intros ? ? [= <- <-]|right; eauto]. }
  unfold unknown_phy, far_times. destruct (unpack msg (sizeof "nfapi_ul_node_sync_t")) as [[h ind]|]; [|by left].
  destruct (decide (message_id h = NFAPI_UL_NODE_SYNC)); [|left; split; [by intros ? ? [= <- <-]|done]].
  destruct (vnf_p7_connection_info_list_find (p7_connections st) (phy_id h)) as [phy|] eqn:E; [|right; left; eauto].
  destruct (decide (calm (lte_clock phy) (num ind "t1") (num ind "t2") (num ind "t3") (calculate_t4 now (u16 (sfn_sf phy)) (sf_start_time_hr st)))).
  - left. split; [|done]. intros ? ? [= <- <-] _. eauto.
  - right. right. left. exists h, ind, phy. done.
Qed.

(** The connection of the sender of an UL_NODE_SYNC is not looked for in vain. *)
Lemma unknown_phy_crashes st now msg : unknown_phy st msg -> act st (Message now msg) = None.
Proof.
  intros (h & ind & E & Hid & Hf). pose proof (unpack_header _ _ _ _ E) as Eh. cbn [act]. unfold vnf_dispatch_p7_message.
  destruct (Z.ltb_spec (zlen msg) 4) as [Hz|_].
  { exfalso. revert Eh. unfold nfapi_p7_message_header_unpack, NFAPI_P7_HEADER_LENGTH.
    by rewrite (proj2 (Z.ltb_lt _ _)) by lia. }
  rewrite Eh, Hid. cbn [switch]. change (vnf_handle_ul_node_sync sizeof behind unpack_vendor cfg st now msg = None).
  unfold vnf_handle_ul_node_sync. by rewrite E, Hf.
Qed.

(** A run goes on until such a message. *)
Lemma run_prefix l : forall st evs, v_sync_indication cfg = true -> vnf_ok evs st ->
  exists pre post st' evs', l = pre ++ post /\ acceptable_run st pre /\ run st pre = Some (st', evs') /\
    (post = [] \/ exists now msg post', post = Message now msg :: post' /\
       (unknown_phy st' msg \/ far_times st' now msg \/ wide_position msg)).
Proof.
  induction l as [|a l IH]; intros st evs Hcb Hok.
  { exists [], [], st, []. by split_and!; [..|left]. }
  assert ((match a with Message now msg => acceptable st now msg | _ => True end) \/
    exists now msg, a = Message now msg /\ (unknown_phy st msg \/ far_times st now msg \/ wide_position msg)) as [Ha|(now & msg & -> & Hb)].
  { destruct a as [| | |now msg]; [by left..|]. destruct (acceptable_or st now msg); [by left|right; eauto]. }
  - destruct (act_ok st a evs Hcb Hok Ha) as (st1 & evs1 & E & Hok1 & _).
    destruct (IH st1 (evs ++ evs1) Hcb Hok1) as (pre & post & st' & evs' & -> & Hpre & Hr & Hpost).
    exists (a :: pre), post, st', (evs1 ++ evs'). split; [done|]. cbn [acceptable_run run]. rewrite E, Hr. by split_and!.
  - exists [], (Message now msg :: l), st, []. split_and!; [done..|]. right. eauto.
Qed.
End operations.


(** A PNF whose clock runs with the VNF's: in the middle of every subframe it answers
    a sync that took 100 microseconds each way. *)
Definition node_sync_message (t1 : Z) : list Z :=
  default [] (nfapi_p7_message_pack None (P7Header 3 NFAPI_UL_NODE_SYNC 0 0 0 0)
    (set_num "t1" t1 (set_num "t2" (t1 + 100) (set_num "t3" (t1 + 100) zero))) 1024).
Definition synchronised_run (n : nat) : list vnf_action :=
  AddPnf 3 :: concat ((fun k => [Subframe (1000 * Z.of_nat k); Message (1000 * Z.of_nat k + 200) (node_sync_message (1000 * Z.of_nat k))]) <$> seq 1 n).
Definition run_config : vnf_p7_config := VnfP7Config (P7Config 1400 false) (fun _ => true) true None false.
#[local] Abbreviation run_sample l :=
  (run (fun _ => 32) (fun _ => 0) (fun _ _ => 0) None None run_config nfapi_vnf_p7_config_create l).

Definition told_mac (e : vnf_event) : bool := match e with Sent _ _ => false | _ => true end.
Example mac_is_told : (fun r => List.filter told_mac r.2) <$> run_sample (synchronised_run 51) =
  Some [SyncNote 3 LatencyOverflow; SyncNote 3 (SyncIndication 0);
        SubframeIndication 3 0x49; SubframeIndication 3 0x50; SubframeIndication 3 0x51].
Proof. vm_compute. reflexivity. Qed.

Example unknown_phy_stops : run_sample [AddPnf 3; Message 200 (node_sync_message 0)] <> None /\
  run_sample [AddPnf 4; Message 200 (node_sync_message 0)] = None.
Proof. split; [vm_compute; discriminate|vm_compute; reflexivity]. Qed.

