(* ===== verification/VnfUplink.v ===== *)
(** * Indications from the PNF to the MAC behind the VNF

    The receiving half of the VNF's P7 endpoint: datagrams are collected
    ([Segmentation]) and what they make up is dispatched ([VnfP7]).  An indication
    that the PNF packed and sent, in one datagram or in segments that arrive in any
    order, reaches the MAC's callback once, as the sender's codec says. *)

From S2P Require Import Prelude Tags Codec Ids P7Header Layout LtePdu LteUplink LteData NrUplink NrP7 LteP7 Segmentation Aggregate VnfP7.
From stdpp Require Import strings.

Open Scope string_scope.
Open Scope list_scope.
Open Scope Z_scope.

(** ** The endpoint *)

Section endpoint.
Context (crc32 : Z -> list Z -> Z).
Context (dispatch : vnf_p7_t -> Z -> list Z -> option (vnf_p7_t * list vnf_event)).

(** The reassembly queues of the connections, and the rest. *)
Definition endpoint : Type := list (Z * reassembly_queue) * vnf_p7_t.

Definition dispatch_message (now : Z) (st : vnf_p7_t) (m : list Z * Z) : option (list vnf_event * vnf_p7_t) :=
  match dispatch st now m.1 with Some (st, evs) => Some (evs, st) | None => None end.

(** A datagram with the times at which it is received and at which the handler is
    done with it. *)
(* src: vnf_p7.c :: vnf_handle_p7_message *)
Definition receive_datagram (cksum_enabled : bool) (s : endpoint) (a : Z * Z * list Z) : option (list vnf_event * endpoint) :=
  let '(now, now', data) := a in
  match vnf_handle_p7_message crc32 cksum_enabled s.1 now now' data with
  | None => None
  | Some (out, conns) =>
      match feed (dispatch_message now') s.2 out with
      | None => None
      | Some (evs, st) => Some (evs, (conns, st))
      end
  end.

Lemma on_connection_found phy f c1 q c2 : Forall (fun c : Z * reassembly_queue => c.1 <> phy) c1 ->
  on_connection phy f (c1 ++ (phy, q) :: c2) =
  match f q with Some (out, q) => Some (out, c1 ++ (phy, q) :: c2) | None => None end.
Proof.
  induction 1 as [|[id r] c1 Hne _ IH]; cbn [app on_connection].
  - rewrite Z.eqb_refl. by destruct (f q) as [[out q']|].
  - apply Z.eqb_neq in Hne. cbn [fst] in Hne. rewrite Hne, IH. by destruct (f q) as [[out q']|].
Qed.

(** ** From the PNF's datagrams to the dispatcher *)

Section sent.
#[local] Set Default Proof Using "Type*".
Context (cfg : p7_config) (h : nfapi_p7_message_header_t) (body : list Z) (sequ : Z).
Context (Hh : header_ok h) (Hmss : m_segment_sequence h = NFAPI_P7_SET_MSS 0 0 sequ) (Hl : message_length h = 16 + zlen body).
Context (Hss : 16 < segment_size cfg < 65536) (Hlen : 16 + zlen body <= 65535) (H128 : zlen body <= 128 * (segment_size cfg - 16)).
(** A message that the dispatcher hands on and that leaves the state alone. *)
Context (evs : nfapi_p7_message_header_t -> list vnf_event).
Context (Hdispatch : forall h' st now, header_ok h' -> same_message h h' -> message_length h' <= 16 + zlen body ->
  dispatch st now (header_bytes h' ++ body) = Some (st, evs h')).
(** The connection of the message. *)
Context (c1 c2 : list (Z * reassembly_queue)) (Hc1 : Forall (fun c => c.1 <> phy_id h) c1).

#[local] Abbreviation at_queue q := (c1 ++ (phy_id h, q) :: c2).
#[local] Abbreviation handle := (receive_datagram (checksum_enabled cfg)).
#[local] Abbreviation free := (Forall (other (m_segment_sequence h))).

(** The datagrams as they arrive. *)
Definition vnf_arrivals (ds : list (list Z)) (arr : list (Z * Z * nat)) : list (Z * Z * list Z) :=
  (fun a => (a.1.1, a.1.2, default [] (ds !! a.2))) <$> arr.

(** Whatever the order of arrival, if no datagram is lost or duplicated, all come
    within 1000 microseconds of the first and the sequence number is not in use. *)
Definition handled_once (ds : list (list Z)) : Prop :=
  forall q st t0 t0' i0 arr,
    (i0 :: arr.*2) ≡ₚ seq 0 (length ds) ->
    Forall (fun a => u32 (a.1.2 - t0) <= 1000) ((t0, t0', i0) :: arr) -> free q ->
    exists h' q', feed handle (at_queue q, st) (vnf_arrivals ds ((t0, t0', i0) :: arr)) = Some (evs h', (at_queue q', st)) /\
      same_message h h' /\ free q'.

Lemma single_handled h' : same_message h h' -> header_ok h' -> message_length h' <= 16 + zlen body ->
  m_segment_sequence h' = m_segment_sequence h ->
  accepted_header crc32 (checksum_enabled cfg) (header_bytes h' ++ body) = Some h' ->
  handled_once [header_bytes h' ++ body].
Proof.
  intros Hsame Hok Hl' Hm Ha q st t0 t0' i0 arr Hp Ht Hq.
  assert (i0 = 0%nat /\ arr = []) as [-> ->].
  { pose proof (Permutation_length Hp) as Hn. cbn in Hn. rewrite length_fmap in Hn. destruct arr; [|simpl in Hn; lia].
    split; [|done]. apply Permutation_singleton_inj in Hp. done. }
  exists h', q. split; [|done]. unfold vnf_arrivals. cbn [fmap list_fmap feed receive_datagram fst snd].
  change ([header_bytes h' ++ body] !! 0%nat) with (Some (header_bytes h' ++ body)). cbn [from_option id]. unfold id.
  unfold vnf_handle_p7_message. rewrite Ha, Hm, Hmss, set_mss_plain.
  destruct (mss_get false 0 (sequ mod 16)) as (-> & -> & _); [lia|lia|]. cbn [b2z Z.eqb andb feed].
  unfold dispatch_message. cbn [fst]. rewrite Hdispatch by done. by rewrite !app_nil_r.
Qed.

Lemma segment_handled hs i hb now now' q :
  segmented crc32 (checksum_enabled cfg) (m_segment_sequence h) hs ->
  Forall (fun p => same_message h p.1) hs -> hs !! i = Some hb ->
  vnf_handle_p7_message crc32 (checksum_enabled cfg) (at_queue q) now now' (datagram hb) =
  match handle_segment q now (b2z (negb (i =? length hs - 1)%nat)) (m_segment_sequence h) (Z.of_nat i) (datagram hb) with
  | None => None
  | Some (out, q) => Some (out, at_queue (pnf_p7_rx_reassembly_queue_remove_old_msgs q now' 1000))
  end.
Proof.
  intros Hs Hphy Hi. destruct hb as [h' b].
  destruct (sg_header _ _ _ _ Hs _ _ _ Hi) as [Hok Hm].
  pose proof (sg_count _ _ _ _ Hs) as Hk. pose proof (sg_sq _ _ _ _ Hs) as Hsq. pose proof (lookup_lt_Some _ _ _ Hi) as Hlt.
  unfold vnf_handle_p7_message. rewrite (accepted crc32 (checksum_enabled cfg) _ hs Hs 0 i) by done.
  destruct (mss_get (negb (i =? length hs - 1)%nat) (Z.of_nat i) (m_segment_sequence h)) as (E1 & E2 & E3); [lia|lia|].
  rewrite Hm, E1, E2, E3.
  assert ((b2z (negb (i =? length hs - 1)%nat) =? 0) && (Z.of_nat i =? 0) = false) as ->.
  { destruct (Nat.eqb_spec i (length hs - 1)); [|done]. cbn [negb b2z andb Z.eqb].
    destruct (Z.eqb_spec (Z.of_nat i) 0); [lia|done]. }
  destruct (Forall_lookup_1 _ _ _ _ Hphy Hi) as [Hp _]. cbn [fst] in Hp. rewrite Hp.
  rewrite on_connection_found by done. by destruct (handle_segment _ _ _ _ _ _) as [[out q']|].
Qed.

Lemma segments_handled hs h' : segmented crc32 (checksum_enabled cfg) (m_segment_sequence h) hs ->
  Forall (fun p => same_message h p.1) hs -> message hs = header_bytes h' ++ body -> same_message h h' ->
  header_ok h' -> message_length h' <= 16 + zlen body -> handled_once (datagram <$> hs).
Proof.
  intros Hs Hphy Hm Hsame Hok Hl' q st t0 t0' i0 arr Hp Ht Hq. rewrite length_fmap in Hp.
  pose (D (s : endpoint) := exists q, s = (at_queue q, st) /\ free q).
  pose (Q (recv : list nat) (s : endpoint) :=
    exists q, s = (at_queue q, st) /\ holding (datagram <$> hs) (m_segment_sequence h) t0 recv q).
  enough (exists s', feed handle (at_queue q, st) (vnf_arrivals (datagram <$> hs) ((t0, t0', i0) :: arr)) = Some (evs h', s') /\ D s')
    as (s' & E & q' & -> & Hq'); [by exists h', q'|].
  unfold vnf_arrivals. rewrite feed_fmap.
  refine (feed_collects _ snd (length hs) (fun a => u32 (a.1.2 - t0) <= 1000) (fun a => a.1.1 = t0)
    Q D (evs h') _ ((t0, t0', i0) :: arr) [] _ _ _ Hp Ht _); [|by exists q|done|by intros _ a [= <-]].
  intros recv [[now now'] i] s (q1 & -> & Hq1) Hnd [Hi Hr]%Forall_cons Hnow Hfirst. cbn [fst snd] in *.
  destruct (lookup_lt_is_Some_2 hs i Hi) as [hb Eh].
  assert ((datagram <$> hs) !! i = Some (datagram hb)) as Hd by (by rewrite list_lookup_fmap, Eh).
  rewrite Hd. cbn [from_option]. unfold id, receive_datagram. cbn [fst snd].
  rewrite (segment_handled hs i hb) by done.
  destruct (segment_step crc32 (checksum_enabled cfg) _ hs Hs t0 recv i _ q1 now Hq1 Hd Hnd Hr Hfirst) as (out & q2 & -> & Hcase).
  specialize (Hcase now' Hnow). cbn zeta in Hcase.
  destruct (decide _) as [Hfull|Hmore]; destruct Hcase as [-> Hq2]; cbn [feed].
  - unfold dispatch_message. cbn [fst]. rewrite Hm, Hdispatch by done. rewrite app_nil_r.
    do 2 eexists. split; [done|]. split; [done|]. by eexists.
  - do 2 eexists. split; [done|]. split; [done|]. by eexists.
Qed.

(** The PNF sends the message; it is handled once. *)
Lemma sent_is_handled (pack : Z -> option (list Z)) :
  pack (NFAPI_P7_SET_MSS 0 0 sequ) = Some (header_bytes h ++ body) ->
  exists ds, pnf_p7_pack_and_send_p7_message crc32 cfg pack sequ = (0, u32 (sequ + 1), ds) /\ handled_once ds.
Proof.
  intros Hpack. unfold pnf_p7_pack_and_send_p7_message. rewrite Hpack. eexists. split; [reflexivity|].
  destruct (Z.le_gt_cases (16 + zlen body) (segment_size cfg)) as [Hs|Hs].
  - destruct (datagrams_single crc32 cfg _ h body touch_id_ok Hh Hs) as (h' & -> & Hsame & Hok & Hl' & Hm & Ha).
    apply single_handled; [done|done|lia|done|done].
  - destruct (datagrams_segmented crc32 cfg _ h body touch_id_ok Hh) as (hs & h' & -> & Hg & Hm & Hsame & Hok & Hl' & Hphy);
      [rewrite Hmss, set_mss_plain; unfold mss, in_u8; cbn [b2z]; lia|done|lia|done|].
    by apply (segments_handled hs h').
Qed.
End sent.
End endpoint.

(** ** The indications *)

(** The structure and the callback of each. *)
Definition lte_indications : list (Z * (string * indication)) :=
  [(NFAPI_HARQ_INDICATION, ("nfapi_harq_indication_t", HarqInd));
   (NFAPI_CRC_INDICATION, ("nfapi_crc_indication_t", CrcInd));
   (NFAPI_RX_ULSCH_INDICATION, ("nfapi_rx_indication_t", RxInd));
   (NFAPI_RACH_INDICATION, ("nfapi_rach_indication_t", RachInd));
   (NFAPI_SRS_INDICATION, ("nfapi_srs_indication_t", SrsInd));
   (NFAPI_RX_SR_INDICATION, ("nfapi_sr_indication_t", SrInd));
   (NFAPI_RX_CQI_INDICATION, ("nfapi_cqi_indication_t", CqiInd));
   (NFAPI_LBT_DL_INDICATION, ("nfapi_lbt_dl_indication_t", LbtDlInd));
   (NFAPI_NB_HARQ_INDICATION, ("nfapi_nb_harq_indication_t", NbHarqInd));
   (NFAPI_NRACH_INDICATION, ("nfapi_nrach_indication_t", NrachInd))].
(** The slot indication of NR is not among them: the sender's bytes are not read back. *)
Definition nr_indications : list (Z * (string * indication)) :=
  [(NFAPI_NR_PHY_MSG_TYPE_RX_DATA_INDICATION, ("nfapi_nr_rx_data_indication_t", NrRxDataInd));
   (NFAPI_NR_PHY_MSG_TYPE_CRC_INDICATION, ("nfapi_nr_crc_indication_t", NrCrcInd));
   (NFAPI_NR_PHY_MSG_TYPE_SRS_INDICATION, ("nfapi_nr_srs_indication_t", NrSrsInd));
   (NFAPI_NR_PHY_MSG_TYPE_UCI_INDICATION, ("nfapi_nr_uci_indication_t", NrUciInd));
   (NFAPI_NR_PHY_MSG_TYPE_RACH_INDICATION, ("nfapi_nr_rach_indication_t", NrRachInd))].

Ltac case_indication H :=
  repeat first [ apply elem_of_nil in H; contradiction
               | apply elem_of_cons in H; destruct H as [H|H]; [injection H as -> -> ->|] ].

(** A packed message: the header that [p7_frame_pack] leaves, and the body. *)
Definition packed_header (h : nfapi_p7_message_header_t) (sequ : Z) (bs : list Z) : nfapi_p7_message_header_t :=
  P7Header (phy_id h) (message_id h) (16 + zlen bs) (NFAPI_P7_SET_MSS 0 0 sequ) 0 (transmit_timestamp h).
Lemma with_mss_ok h sequ : header_ok h -> header_ok (with_mss h (NFAPI_P7_SET_MSS 0 0 sequ)).
Proof.
  intros (? & ? & ? & ? & ? & ?). do 3 (split; [done|]). split; [|done]. cbn [with_mss m_segment_sequence].
  rewrite set_mss_plain. unfold mss. cbn [b2z]. wrap_lia.
Qed.
Lemma packed_header_ok h sequ bs : header_ok h -> 16 + zlen bs <= 65535 -> header_ok (packed_header h sequ bs).
Proof.
  intros Hh%(with_mss_ok _ sequ) Hl. destruct Hh as (? & ? & ? & ? & ? & ?). pose proof (zlen_nonneg bs).
  do 2 (split; [done|]). split; [cbn; wrap_lia|]. by split.
Qed.
Lemma packed_frame h sequ body bs buflen : header_ok h -> writes (ret_u8 body) bs -> 16 + zlen bs <= 65535 ->
  16 + zlen bs <= buflen < 4294967296 ->
  p7_frame_pack (with_mss h (NFAPI_P7_SET_MSS 0 0 sequ)) body buflen = Some (header_bytes (packed_header h sequ bs) ++ bs).
Proof. intros Hh Hw Hl Hb. rewrite (p7_frame_pack_ok _ _ bs) by (done || lia || by apply with_mss_ok). done. Qed.

Section dispatchers.
Context (sizeof : string -> Z) (behind : nat -> Z) (vu : option (Z -> list Z -> Z * struct)) (vcfg : vnf_p7_config).

(** A message that is long enough for the dispatchers. *)
Lemma dispatched_header h' bs : header_ok h' ->
  (zlen (header_bytes h' ++ bs) <? 4) = false /\ nfapi_p7_message_header_unpack (header_bytes h' ++ bs) 16 = Some h'.
Proof. intros Hok. pose proof (zlen_nonneg bs). split; [zlen_lia|by apply header_unpack_bytes]. Qed.

Ltac own_size H :=
  case_indication H;
  lazymatch goal with |- _ = ?sizeof ?t =>
    transitivity (fits_in sizeof t (sizeof t)); [reflexivity|unfold fits_in; by rewrite Z.leb_refl]
  end.
Lemma lte_room id type i : (id, (type, i)) ∈ lte_indications -> check_unpack_length sizeof id (sizeof type) = sizeof type.
Proof. intros Hin. own_size Hin. Qed.
Lemma nr_room id type i : (id, (type, i)) ∈ nr_indications -> check_nr_unpack_length sizeof id (sizeof type) = sizeof type.
Proof. intros Hin. own_size Hin. Qed.

Lemma lte_dispatched id type i c s h' st now : (id, (type, i)) ∈ lte_indications -> (id, c) ∈ lte_p7_codecs -> lc_ok c s ->
  16 <= sizeof type -> v_indication vcfg i = true ->
  header_ok h' -> message_id h' = id -> message_length h' <= 16 + zlen (lc_bytes c s) ->
  vnf_dispatch_p7_message sizeof behind vu vcfg st now (header_bytes h' ++ lc_bytes c s) =
  Some (st, [Indicate i h' (lc_copy c s)]).
Proof.
  intros Hin Hc Hok H16 Hcb Hh' Hid Hl. destruct (dispatched_header h' (lc_bytes c s) Hh') as [E1 E2].
  assert (handle_indication sizeof vcfg (lte_unpack sizeof behind vu) type i (header_bytes h' ++ lc_bytes c s) =
    [Indicate i h' (lc_copy c s)]) as E.
  { unfold handle_indication, lte_unpack, nfapi_p7_message_unpack. rewrite p7_frame_unpack_ok by done.
    rewrite Hid, (lte_p7_unpacks sizeof behind vu id c s) by
      (done || (rewrite (lte_room _ _ _ Hin); lia)).
    cbn [Z.eqb]. by rewrite Hcb. }
  unfold vnf_dispatch_p7_message. rewrite E1, E2, Hid. clear - Hin E.
  case_indication Hin; unfold reported; rewrite <- E; reflexivity.
Qed.

Lemma nr_dispatched id type i prep ps us s h' st now : (id, (type, i)) ∈ nr_indications -> (id, (prep, ps, us)) ∈ nr_p7_codecs ->
  rows_ok [] us (prep s) -> 16 <= sizeof type -> v_indication vcfg i = true ->
  header_ok h' -> message_id h' = id -> message_length h' <= 16 + zlen (rows_bytes [] us (prep s)) ->
  vnf_nr_dispatch_p7_message sizeof behind vu vcfg st now (header_bytes h' ++ rows_bytes [] us (prep s)) =
  Some (st, [Indicate i h' (rows_copy [] us (prep s) zero)]).
Proof.
  intros Hin Hc Hok H16 Hcb Hh' Hid Hl. destruct (dispatched_header h' (rows_bytes [] us (prep s)) Hh') as [E1 E2].
  assert (handle_indication sizeof vcfg (nr_unpack sizeof vu) type i (header_bytes h' ++ rows_bytes [] us (prep s)) =
    [Indicate i h' (rows_copy [] us (prep s) zero)]) as E.
  { unfold handle_indication, nr_unpack, nfapi_nr_p7_message_unpack. rewrite p7_frame_unpack_ok by done.
    rewrite Hid, (nr_p7_unpacks sizeof vu id prep ps us s) by
      (done || (rewrite (nr_room _ _ _ Hin); lia)).
    cbn [Z.eqb]. by rewrite Hcb. }
  unfold vnf_nr_dispatch_p7_message. rewrite E1, E2, Hid. clear - Hin E.
  case_indication Hin; unfold reported; rewrite <- E; reflexivity.
Qed.
End dispatchers.

(** C3. An LTE indication that may be sent, of at most 8192 bytes and 128 segments, is
    sent by the PNF; if its datagrams reach a VNF that has the PHY's connection, in
    any order, each once and within 1000 microseconds of the first, and no segments
    with its sequence number are left over, the VNF calls the MAC's callback for it
    exactly once, under its PHY and with the structure its codec describes, and
    changes nothing but the reassembly queue, which forgets the segments. *)
Theorem lte_indication_reaches_mac crc32 cfg sizeof behind vp vu vcfg id type i c h s sequ c1 c2 :
  (id, (type, i)) ∈ lte_indications -> (id, c) ∈ lte_p7_codecs -> 16 <= sizeof type -> v_indication vcfg i = true ->
  message_id h = id -> header_ok h -> lc_ok c s -> 16 + zlen (lc_bytes c s) <= NFAPI_MAX_PACKED_MESSAGE_SIZE ->
  16 < segment_size cfg < 65536 -> zlen (lc_bytes c s) <= 128 * (segment_size cfg - 16) ->
  Forall (fun c => c.1 <> phy_id h) c1 ->
  exists ds,
    pnf_p7_pack_and_send_p7_message crc32 cfg
      (fun mss => nfapi_p7_message_pack vp (with_mss h mss) s NFAPI_MAX_PACKED_MESSAGE_SIZE) sequ = (0, u32 (sequ + 1), ds) /\
    handled_once crc32 (vnf_dispatch_p7_message sizeof behind vu vcfg) cfg (packed_header h sequ (lc_bytes c s))
      (fun h' => [Indicate i h' (lc_copy c s)]) c1 c2 ds.
Proof.
  intros Hin Hc H16 Hcb Hid Hh Hok Hz Hss H128 Hc1. unfold NFAPI_MAX_PACKED_MESSAGE_SIZE in *.
  apply (sent_is_handled crc32 _ cfg (packed_header h sequ (lc_bytes c s)) (lc_bytes c s) sequ);
    [apply packed_header_ok; [done|lia]|done..|lia|done| |done|].
  - intros h' st now Hh' [_ Hid'] Hl. apply (lte_dispatched sizeof behind vu vcfg id type); try done. by rewrite Hid', <- Hid.
  - apply (packed_frame h sequ (pack_p7_message_body vp (message_id h) s)); [done| |lia..].
    rewrite Hid. by apply lte_p7_packs.
Qed.

Definition sample_crc_ind (flags : list Z) : struct :=
  set_num "sfn_sf" 0x1234 (set_member "crc_indication_body" (with_tag NFAPI_CRC_INDICATION_BODY_TAG
    (set_num "number_of_crcs" (zlen flags) (set_sub "crc_pdu_list"
      ((fun f => set_member "rx_ue_information" (with_tag NFAPI_RX_UE_INFORMATION_TAG (set_num "rnti" 0x4321 zero))
         (set_member "crc_indication_rel8" (with_tag NFAPI_CRC_INDICATION_REL8_TAG (set_num "crc_flag" f zero)) zero)) <$> flags)
      zero))) zero).
Definition sample_vnf_config : vnf_p7_config := VnfP7Config (P7Config 40 true) (fun _ => true) true None false.

(** In segments of 40 bytes. *)
Lemma lte_indication_reaches_mac_witness :
  let c := pdu_codec NFAPI_CRC_INDICATION_BODY_TAG "crc_indication_body"
    pack_crc_indication_body_value unpack_crc_indication_body_value in
  let s := sample_crc_ind [0; 1] in
  let h := sample_p7_header NFAPI_CRC_INDICATION in
  exists ds,
    pnf_p7_pack_and_send_p7_message (fun c l => c + foldr Z.add 0 l) (P7Config 40 true)
      (fun mss => nfapi_p7_message_pack None (with_mss h mss) s NFAPI_MAX_PACKED_MESSAGE_SIZE) 35 = (0, u32 (35 + 1), ds) /\
    handled_once (fun c l => c + foldr Z.add 0 l) (vnf_dispatch_p7_message (fun _ => 64) (fun _ => 0) None sample_vnf_config)
      (P7Config 40 true) (packed_header h 35 (lc_bytes c s)) (fun h' => [Indicate CrcInd h' (lc_copy c s)])
      [(1, [])] [] ds.
Proof.
  cbv zeta. apply (lte_indication_reaches_mac _ (P7Config 40 true) (fun _ => 64) (fun _ => 0) None None sample_vnf_config
    NFAPI_CRC_INDICATION "nfapi_crc_indication_t" CrcInd _ (sample_p7_header NFAPI_CRC_INDICATION) (sample_crc_ind [0; 1]) 35
    [(1, [])] []).
  - unfold lte_indications. do 1 apply list_elem_of_further. apply list_elem_of_here.
  - unfold lte_p7_codecs. do 7 apply list_elem_of_further. apply list_elem_of_here.
  - discriminate.
  - reflexivity.
  - reflexivity.
  - repeat split; discriminate.
  - apply (pdu_message_okb_spec NFAPI_CRC_INDICATION_BODY_TAG "crc_indication_body"
      pack_crc_indication_body_value unpack_crc_indication_body_value). vm_compute. reflexivity.
  - vm_compute. discriminate.
  - split; reflexivity.
  - vm_compute. discriminate.
  - repeat constructor. discriminate.
Defined.

(** C4. The same for the RX_DATA, CRC, SRS, UCI and RACH indications of NR. *)
Theorem nr_indication_reaches_mac crc32 cfg sizeof behind vp vu vcfg id type i prep ps us h s sequ c1 c2 :
  (id, (type, i)) ∈ nr_indications -> (id, (prep, ps, us)) ∈ nr_p7_codecs -> 16 <= sizeof type -> v_indication vcfg i = true ->
  message_id h = id -> header_ok h -> rows_room [] ps (prep s) -> rows_ok [] us (prep s) ->
  16 + zlen (rows_bytes [] us (prep s)) <= NFAPI_MAX_PACKED_MESSAGE_SIZE ->
  16 < segment_size cfg < 65536 -> zlen (rows_bytes [] us (prep s)) <= 128 * (segment_size cfg - 16) ->
  Forall (fun c => c.1 <> phy_id h) c1 ->
  exists ds,
    pnf_nr_p7_pack_and_send_p7_message crc32 cfg
      (fun mss => nfapi_nr_p7_message_pack vp (with_mss h mss) s NFAPI_MAX_PACKED_MESSAGE_SIZE) sequ = (0, u32 (sequ + 1), ds) /\
    handled_once crc32 (vnf_nr_dispatch_p7_message sizeof behind vu vcfg) cfg
      (packed_header h sequ (rows_bytes [] us (prep s))) (fun h' => [Indicate i h' (rows_copy [] us (prep s) zero)]) c1 c2 ds.
Proof.
  intros Hin Hc H16 Hcb Hid Hh Hroom Hok Hz Hss H128 Hc1. unfold NFAPI_MAX_PACKED_MESSAGE_SIZE in *.
  pose proof (proj1 (forallb_forall _ _) nr_p7_codecs_checked _ (proj1 (list_elem_of_In _ _) Hc)) as Hwf. cbn beta iota in Hwf.
  apply andb_true_iff in Hwf as [Hsim Hwf]. pose proof (rows_write _ _ _ Hsim Hwf Hroom Hok) as Hw.
  apply (sent_is_handled crc32 _ cfg (packed_header h sequ (rows_bytes [] us (prep s))) (rows_bytes [] us (prep s)) sequ);
    [apply packed_header_ok; [done|lia]|done..|lia|done| |done|].
  - intros h' st now Hh' [_ Hid'] Hl. apply (nr_dispatched sizeof behind vu vcfg id type _ prep ps us); try done. by rewrite Hid', <- Hid.
  - apply (packed_frame h sequ (pack_nr_p7_message_body vp (message_id h) s)); [done| |lia..].
    rewrite Hid. by apply (nr_p7_packs vp id prep ps us).
Qed.

Definition sample_nr_crc : struct :=
  set_num "sfn" 5 (set_num "slot" 7 (set_num "number_crcs" 2 (set_sub "crc_list"
    [set_num "rnti" 0x4321 (set_num "tb_crc_status" 1 zero); set_num "rnti" 0x4322 zero] zero))).

Lemma nr_indication_reaches_mac_witness :
  let h := sample_p7_header NFAPI_NR_PHY_MSG_TYPE_CRC_INDICATION in
  let bs := rows_bytes [] unpack_nr_crc_indication sample_nr_crc in
  exists ds,
    pnf_nr_p7_pack_and_send_p7_message (fun c l => c + foldr Z.add 0 l) (P7Config 40 true)
      (fun mss => nfapi_nr_p7_message_pack None (with_mss h mss) sample_nr_crc NFAPI_MAX_PACKED_MESSAGE_SIZE) 35 =
      (0, u32 (35 + 1), ds) /\
    handled_once (fun c l => c + foldr Z.add 0 l) (vnf_nr_dispatch_p7_message (fun _ => 64) (fun _ => 0) None sample_vnf_config)
      (P7Config 40 true) (packed_header h 35 bs) (fun h' => [Indicate NrCrcInd h' (rows_copy [] unpack_nr_crc_indication sample_nr_crc zero)])
      [] [] ds.
Proof.
  cbv zeta. apply (nr_indication_reaches_mac _ (P7Config 40 true) (fun _ => 64) (fun _ => 0) None None sample_vnf_config
    NFAPI_NR_PHY_MSG_TYPE_CRC_INDICATION "nfapi_nr_crc_indication_t" NrCrcInd (fun s => s) pack_nr_crc_indication
    unpack_nr_crc_indication (sample_p7_header NFAPI_NR_PHY_MSG_TYPE_CRC_INDICATION) sample_nr_crc 35 [] []).
  - unfold nr_indications. do 1 apply list_elem_of_further. apply list_elem_of_here.
  - unfold nr_p7_codecs. do 5 apply list_elem_of_further. apply list_elem_of_here.
  - discriminate.
  - reflexivity.
  - reflexivity.
  - repeat split; discriminate.
  - apply rows_roomb_spec. vm_compute. reflexivity.
  - apply rows_okb_spec. vm_compute. reflexivity.
  - vm_compute. discriminate.
  - split; reflexivity.
  - vm_compute. discriminate.
  - constructor.
Defined.
