(* ===== verification/VnfP5.v ===== *)
(** * The VNF's P5 endpoint ([vnf.c], [vnf_interface.c])

    The PNFs and PHYs the VNF knows, the handlers of what a PNF sends on P5 and P4,
    the reader that takes a message from the SCTP association, and the requests to a
    PNF.  Messages are packed and unpacked by [P5Codec] and [P4Codec].

    A handler ends in a callback of the client, an event here.  [None] is a null
    pointer that is followed.  What a handler releases at its end is left out. *)

From S2P Require Import Prelude Tags Codec Ids Layout P5Codec P4Codec.
From stdpp Require Import strings.

Open Scope string_scope.
Open Scope list_scope.
Open Scope Z_scope.

(** ** State *)

(** The address of the PNF is four bytes; its port is kept in network order. *)
(* src: nfapi_vnf_interface.h 36-56 nfapi_vnf_phy_info_t *)
Record nfapi_vnf_phy_info_t := PhyInfo {
  phy_p5_idx : Z;
  info_phy_id : Z;
  timing_window : Z;
  timing_info_mode : Z;
  timing_info_period : Z;
  p7_pnf_address : list Z;
  p7_pnf_port : Z;
}.

(** A PNF is its [p5_idx]. *)
(* src: vnf.h 24-36 vnf_t *)
Record vnf_t := Vnf {
  vnf_p5_port : Z;
  pnf_list : list Z;
  phy_list : list nfapi_vnf_phy_info_t;
  vnf_terminate : Z;
  next_phy_id : Z;
}.

Definition with_phys (l : list nfapi_vnf_phy_info_t) (v : vnf_t) : vnf_t :=
  Vnf (vnf_p5_port v) (pnf_list v) l (vnf_terminate v) (next_phy_id v).

(** The callbacks of the configuration for messages. *)
Inductive vnf_callback :=
  | PnfParamResp | PnfConfigResp | PnfStartResp | PnfStopResp | ParamResp | ConfigResp | StartResp | StopResp
  | MeasurementResp | RssiResp | RssiInd | CellSearchResp | CellSearchInd | BroadcastDetectResp | BroadcastDetectInd
  | SystemInformationScheduleResp | SystemInformationScheduleInd | SystemInformationResp | SystemInformationInd
  | NmmStopResp | PnfNrParamResp | PnfNrConfigResp | PnfNrStartResp | NrParamResp | NrConfigResp | NrStartResp | VendorExt.
#[export] Instance vnf_callback_eq_dec : EqDecision vnf_callback.
Proof. solve_decision. Defined.

(** Which callbacks are set; the size of the structure for a vendor extension, if both
    functions for them are set and one is allocated. *)
Record vnf_config := VnfConfig {
  v_callback : vnf_callback -> bool;
  v_allocate_vendor_ext : option (Z -> option Z);
}.

Inductive vnf_p5_event :=
  | Called (c : vnf_callback) (p5_idx : Z) (h : nfapi_p4_p5_message_header_t) (s : struct)
  | SentP5 (p5_idx : Z) (msg : list Z).

(** ** Lists *)

(* src: nfapi_interface.h :: NFAPI_P5_SCTP_PORT *)
Definition NFAPI_P5_SCTP_PORT : Z := 7701.
(* src: vnf_interface.c :: nfapi_vnf_config_create *)
Definition nfapi_vnf_config_create : vnf_t := Vnf NFAPI_P5_SCTP_PORT [] [] 0 1.

(* src: vnf.c :: nfapi_vnf_phy_info_list_add *)
Definition nfapi_vnf_phy_info_list_add (info : nfapi_vnf_phy_info_t) (v : vnf_t) : vnf_t := with_phys (info :: phy_list v) v.

(* src: vnf.c :: nfapi_vnf_phy_info_list_find *)
Fixpoint nfapi_vnf_phy_info_list_find (curr : list nfapi_vnf_phy_info_t) (phy_id : Z) : option nfapi_vnf_phy_info_t :=
  match curr with
  | [] => None
  | c :: next => if info_phy_id c =? phy_id then Some c else nfapi_vnf_phy_info_list_find next phy_id
  end.

(** Assigning through the pointer that [find] returns. *)
Fixpoint update_phy_info (f : nfapi_vnf_phy_info_t -> nfapi_vnf_phy_info_t) (phy_id : Z)
    (curr : list nfapi_vnf_phy_info_t) : list nfapi_vnf_phy_info_t :=
  match curr with
  | [] => []
  | c :: next => if info_phy_id c =? phy_id then f c :: next else c :: update_phy_info f phy_id next
  end.

(* src: vnf.c :: nfapi_vnf_pnf_list_add *)
Definition nfapi_vnf_pnf_list_add (node : Z) (v : vnf_t) : vnf_t :=
  Vnf (vnf_p5_port v) (node :: pnf_list v) (phy_list v) (vnf_terminate v) (next_phy_id v).

(* src: vnf.c :: nfapi_vnf_pnf_list_find *)
Definition nfapi_vnf_pnf_list_find (v : vnf_t) (p5_idx : Z) : bool := existsb (Z.eqb p5_idx) (pnf_list v).

(** The window of 30 is not scaled for NR; the identifier that is given out is the second result. *)
(* src: vnf_interface.c :: nfapi_vnf_allocate_phy *)
Definition nfapi_vnf_allocate_phy (v : vnf_t) (p5_idx : Z) : vnf_t * Z :=
  let id := next_phy_id v in
  (nfapi_vnf_phy_info_list_add (PhyInfo p5_idx id 30 0x03 10 [0; 0; 0; 0] 0)
     (Vnf (vnf_p5_port v) (pnf_list v) (phy_list v) (vnf_terminate v) (u16 (id + 1))), id).

(* src: vnf_interface.c :: nfapi_vnf_stop *)
Definition nfapi_vnf_stop (config : option vnf_t) : Z * option vnf_t :=
  match config with
  | None => (-1, None)
  | Some v => (0, Some (Vnf (vnf_p5_port v) (pnf_list v) (phy_list v) 1 (next_phy_id v)))
  end.

(** ** Handlers *)

Section messages.
Context (sizeof : string -> Z) (uninit : nat -> Z).
Context (pack_vendor : option (struct -> packer)) (unpack_vendor : option (Z -> list Z -> Z * struct)).
Context (cfg : vnf_config).

Definition p5_unpack := nfapi_p5_message_unpack sizeof unpack_vendor.
Definition nr_p5_unpack := nfapi_nr_p5_message_unpack sizeof unpack_vendor.
Definition p4_unpack := nfapi_p4_message_unpack sizeof unpack_vendor.

Definition call (c : vnf_callback) (p5_idx : Z) (h : nfapi_p4_p5_message_header_t) (s : struct) : list vnf_p5_event :=
  if v_callback cfg c then [Called c p5_idx h s] else [].

(** A message is accepted if its unpacker returns 0 or more; [guard] is the test of
    the error code, where there is one. *)
(* src: vnf.c :: vnf_handle_config_response *)
Definition handle_p4_p5 (unpack : list Z -> Z -> Z * nfapi_p4_p5_message_header_t * struct) (type : string)
    (guard : struct -> bool) (c : vnf_callback) (p5_idx : Z) (msg : list Z) : list vnf_p5_event :=
  let '(result, h, s) := unpack msg (sizeof type) in
  if (0 <=? result) && guard s then call c p5_idx h s else [].
Definition unguarded (s : struct) : bool := true.
Definition answered_ok (s : struct) : bool := num s "error_code" =? NFAPI_MSG_OK.

(* src: vnf.c :: vnf_nr_handle_pnf_param_response *)
Definition vnf_nr_handle_pnf_param_response := handle_p4_p5 nr_p5_unpack "nfapi_nr_pnf_param_response_t" unguarded PnfNrParamResp.
(* src: vnf.c :: vnf_handle_pnf_param_response *)
Definition vnf_handle_pnf_param_response := handle_p4_p5 p5_unpack "nfapi_pnf_param_response_t" unguarded PnfParamResp.
(* src: vnf.c :: vnf_nr_handle_pnf_config_response *)
Definition vnf_nr_handle_pnf_config_response := handle_p4_p5 nr_p5_unpack "nfapi_nr_pnf_config_response_t" unguarded PnfNrConfigResp.
(* src: vnf.c :: vnf_handle_pnf_config_response *)
Definition vnf_handle_pnf_config_response := handle_p4_p5 p5_unpack "nfapi_pnf_config_response_t" unguarded PnfConfigResp.
(* src: vnf.c :: vnf_nr_handle_pnf_start_response *)
Definition vnf_nr_handle_pnf_start_response := handle_p4_p5 nr_p5_unpack "nfapi_nr_pnf_start_response_t" unguarded PnfNrStartResp.
(* src: vnf.c :: vnf_handle_pnf_start_response *)
Definition vnf_handle_pnf_start_response := handle_p4_p5 p5_unpack "nfapi_pnf_start_response_t" unguarded PnfStartResp.
(* src: vnf.c :: vnf_handle_pnf_stop_response *)
Definition vnf_handle_pnf_stop_response := handle_p4_p5 p5_unpack "nfapi_pnf_stop_response_t" unguarded PnfStopResp.
(* src: vnf.c :: vnf_nr_handle_config_response *)
Definition vnf_nr_handle_config_response := handle_p4_p5 nr_p5_unpack "nfapi_nr_config_response_scf_t" answered_ok NrConfigResp.
(* src: vnf.c :: vnf_handle_config_response *)
Definition vnf_handle_config_response := handle_p4_p5 p5_unpack "nfapi_config_response_t" answered_ok ConfigResp.
(* src: vnf.c :: vnf_handle_start_response *)
Definition vnf_handle_start_response := handle_p4_p5 p5_unpack "nfapi_start_response_t" unguarded StartResp.
(* src: vnf.c :: vnf_nr_handle_start_response *)
Definition vnf_nr_handle_start_response := handle_p4_p5 nr_p5_unpack "nfapi_nr_start_response_scf_t" answered_ok NrStartResp.
(* src: vnf.c :: vnf_handle_stop_response *)
Definition vnf_handle_stop_response := handle_p4_p5 p5_unpack "nfapi_stop_response_t" unguarded StopResp.
(* src: vnf.c :: vnf_handle_measurement_response *)
Definition vnf_handle_measurement_response := handle_p4_p5 p5_unpack "nfapi_measurement_response_t" unguarded MeasurementResp.
(* src: vnf.c :: vnf_handle_rssi_response *)
Definition vnf_handle_rssi_response := handle_p4_p5 p4_unpack "nfapi_rssi_response_t" unguarded RssiResp.
(* src: vnf.c :: vnf_handle_rssi_indication *)
Definition vnf_handle_rssi_indication := handle_p4_p5 p4_unpack "nfapi_rssi_indication_t" unguarded RssiInd.
(* src: vnf.c :: vnf_handle_cell_search_response *)
Definition vnf_handle_cell_search_response := handle_p4_p5 p4_unpack "nfapi_cell_search_response_t" unguarded CellSearchResp.
(* src: vnf.c :: vnf_handle_cell_search_indication *)
Definition vnf_handle_cell_search_indication := handle_p4_p5 p4_unpack "nfapi_cell_search_indication_t" unguarded CellSearchInd.
(* src: vnf.c :: vnf_handle_broadcast_detect_response *)
Definition vnf_handle_broadcast_detect_response := handle_p4_p5 p4_unpack "nfapi_broadcast_detect_response_t" unguarded BroadcastDetectResp.
(* src: vnf.c :: vnf_handle_broadcast_detect_indication *)
Definition vnf_handle_broadcast_detect_indication := handle_p4_p5 p4_unpack "nfapi_broadcast_detect_indication_t" unguarded BroadcastDetectInd.
(* src: vnf.c :: vnf_handle_system_information_schedule_response *)
Definition vnf_handle_system_information_schedule_response := handle_p4_p5 p4_unpack "nfapi_system_information_schedule_response_t" unguarded SystemInformationScheduleResp.
(* src: vnf.c :: vnf_handle_system_information_schedule_indication *)
Definition vnf_handle_system_information_schedule_indication := handle_p4_p5 p4_unpack "nfapi_system_information_schedule_indication_t" unguarded SystemInformationScheduleInd.
(* src: vnf.c :: vnf_handle_system_information_response *)
Definition vnf_handle_system_information_response := handle_p4_p5 p4_unpack "nfapi_system_information_response_t" unguarded SystemInformationResp.
(* src: vnf.c :: vnf_handle_system_information_indication *)
Definition vnf_handle_system_information_indication := handle_p4_p5 p4_unpack "nfapi_system_information_indication_t" unguarded SystemInformationInd.
(* src: vnf.c :: vnf_handle_nmm_stop_response *)
Definition vnf_handle_nmm_stop_response := handle_p4_p5 p4_unpack "nfapi_nmm_stop_response_t" unguarded NmmStopResp.

(** What PARAM.response says of the PNF's P7 socket is kept with the PHY.  The
    pointer to the PHY is used without a check. *)
Definition htons (v : Z) : Z := Z.lor (Z.shiftl (Z.land v 0xFF) 8) (Z.shiftr v 8).
Definition has_tlv (s : struct) (f : string) : bool := negb (tl_tag (tl_of (member s f)) =? 0).
Definition with_address (s : struct) (c : nfapi_vnf_phy_info_t) : nfapi_vnf_phy_info_t :=
  PhyInfo (phy_p5_idx c) (info_phy_id c) (timing_window c) (timing_info_mode c) (timing_info_period c)
    (if has_tlv s "nfapi_config.p7_pnf_address_ipv4"
     then take (Z.to_nat NFAPI_IPV4_ADDRESS_LENGTH) (arr (member s "nfapi_config.p7_pnf_address_ipv4") "address")
     else p7_pnf_address c)
    (if has_tlv s "nfapi_config.p7_pnf_port"
     then htons (num (member s "nfapi_config.p7_pnf_port") "value")
     else p7_pnf_port c).
(* src: vnf.c 355-385 vnf_handle_param_response *)
Definition store_p7_address (v : vnf_t) (h : nfapi_p4_p5_message_header_t) (s : struct) : option vnf_t :=
  if negb (answered_ok s) then Some v
  else match nfapi_vnf_phy_info_list_find (phy_list v) (h_phy_id h) with
  | Some _ => Some (with_phys (update_phy_info (with_address s) (h_phy_id h) (phy_list v)) v)
  | None =>
      if has_tlv s "nfapi_config.p7_pnf_address_ipv4" || has_tlv s "nfapi_config.p7_pnf_port" then None else Some v
  end.
Definition handle_param (unpack : list Z -> Z -> Z * nfapi_p4_p5_message_header_t * struct) (type : string)
    (c : vnf_callback) (v : vnf_t) (p5_idx : Z) (msg : list Z) : option (vnf_t * list vnf_p5_event) :=
  let '(result, h, s) := unpack msg (sizeof type) in
  if 0 <=? result then (fun v => (v, call c p5_idx h s)) <$> store_p7_address v h s else Some (v, []).
(* src: vnf.c :: vnf_handle_param_response *)
Definition vnf_handle_param_response := handle_param p5_unpack "nfapi_param_response_t" ParamResp.
(* src: vnf.c :: vnf_nr_handle_param_response *)
Definition vnf_nr_handle_param_response := handle_param nr_p5_unpack "nfapi_nr_param_response_scf_t" NrParamResp.

(* src: vnf.c :: vnf_handle_vendor_extension *)
Definition vnf_handle_vendor_extension (p5_idx id : Z) (msg : list Z) : list vnf_p5_event :=
  match v_allocate_vendor_ext cfg with
  | None => []
  | Some allocate =>
      match allocate id with
      | None => []
      | Some msg_size =>
          let '(result, h, s) := p5_unpack msg msg_size in
          if 0 <=? result then call VendorExt p5_idx h s else []
      end
  end.

(** ** Dispatch *)

Definition handled (v : vnf_t) (evs : list vnf_p5_event) : option (vnf_t * list vnf_p5_event) := Some (v, evs).
Definition other_message (v : vnf_t) (p5_idx id : Z) (msg : list Z) : option (vnf_t * list vnf_p5_event) :=
  handled v (if (NFAPI_VENDOR_EXT_MSG_MIN <=? id) && (id <=? NFAPI_VENDOR_EXT_MSG_MAX)
             then vnf_handle_vendor_extension p5_idx id msg else []).
Definition dispatch_p4_p5 (v : vnf_t) (cases : list (Z * option (vnf_t * list vnf_p5_event))) (p5_idx : Z) (msg : list Z) :
    option (vnf_t * list vnf_p5_event) :=
  if zlen msg <? NFAPI_HEADER_LENGTH then handled v [] else
  let '(result, header) := nfapi_p5_message_header_unpack sizeof msg (sizeof "nfapi_p4_p5_message_header_t") in
  if result <? 0 then handled v []
  else switch cases (other_message v p5_idx (h_message_id header) msg) (h_message_id header).

(** STOP and PNF_STOP responses of NR go to the handlers of LTE. *)
(* src: vnf.c :: vnf_nr_handle_p4_p5_message *)
Definition vnf_nr_handle_p4_p5_message (v : vnf_t) (p5_idx : Z) (msg : list Z) : option (vnf_t * list vnf_p5_event) :=
  dispatch_p4_p5 v
    [(NFAPI_NR_PHY_MSG_TYPE_PNF_PARAM_RESPONSE, handled v (vnf_nr_handle_pnf_param_response p5_idx msg));
     (NFAPI_NR_PHY_MSG_TYPE_PNF_CONFIG_RESPONSE, handled v (vnf_nr_handle_pnf_config_response p5_idx msg));
     (NFAPI_NR_PHY_MSG_TYPE_PNF_START_RESPONSE, handled v (vnf_nr_handle_pnf_start_response p5_idx msg));
     (NFAPI_PNF_STOP_RESPONSE, handled v (vnf_handle_pnf_stop_response p5_idx msg));
     (NFAPI_NR_PHY_MSG_TYPE_PARAM_RESPONSE, vnf_nr_handle_param_response v p5_idx msg);
     (NFAPI_NR_PHY_MSG_TYPE_CONFIG_RESPONSE, handled v (vnf_nr_handle_config_response p5_idx msg));
     (NFAPI_NR_PHY_MSG_TYPE_START_RESPONSE, handled v (vnf_nr_handle_start_response p5_idx msg));
     (NFAPI_NR_PHY_MSG_TYPE_STOP_RESPONSE, handled v (vnf_handle_stop_response p5_idx msg))] p5_idx msg.
(* src: vnf.c :: vnf_handle_p4_p5_message *)
Definition vnf_handle_p4_p5_message (v : vnf_t) (p5_idx : Z) (msg : list Z) : option (vnf_t * list vnf_p5_event) :=
  dispatch_p4_p5 v
    [(NFAPI_PNF_PARAM_RESPONSE, handled v (vnf_handle_pnf_param_response p5_idx msg));
     (NFAPI_PNF_CONFIG_RESPONSE, handled v (vnf_handle_pnf_config_response p5_idx msg));
     (NFAPI_PNF_START_RESPONSE, handled v (vnf_handle_pnf_start_response p5_idx msg));
     (NFAPI_PNF_STOP_RESPONSE, handled v (vnf_handle_pnf_stop_response p5_idx msg));
     (NFAPI_PARAM_RESPONSE, vnf_handle_param_response v p5_idx msg);
     (NFAPI_CONFIG_RESPONSE, handled v (vnf_handle_config_response p5_idx msg));
     (NFAPI_START_RESPONSE, handled v (vnf_handle_start_response p5_idx msg));
     (NFAPI_STOP_RESPONSE, handled v (vnf_handle_stop_response p5_idx msg));
     (NFAPI_MEASUREMENT_RESPONSE, handled v (vnf_handle_measurement_response p5_idx msg));
     (NFAPI_RSSI_RESPONSE, handled v (vnf_handle_rssi_response p5_idx msg));
     (NFAPI_RSSI_INDICATION, handled v (vnf_handle_rssi_indication p5_idx msg));
     (NFAPI_CELL_SEARCH_RESPONSE, handled v (vnf_handle_cell_search_response p5_idx msg));
     (NFAPI_CELL_SEARCH_INDICATION, handled v (vnf_handle_cell_search_indication p5_idx msg));
     (NFAPI_BROADCAST_DETECT_RESPONSE, handled v (vnf_handle_broadcast_detect_response p5_idx msg));
     (NFAPI_BROADCAST_DETECT_INDICATION, handled v (vnf_handle_broadcast_detect_indication p5_idx msg));
     (NFAPI_SYSTEM_INFORMATION_SCHEDULE_RESPONSE, handled v (vnf_handle_system_information_schedule_response p5_idx msg));
     (NFAPI_SYSTEM_INFORMATION_SCHEDULE_INDICATION, handled v (vnf_handle_system_information_schedule_indication p5_idx msg));
     (NFAPI_SYSTEM_INFORMATION_RESPONSE, handled v (vnf_handle_system_information_response p5_idx msg));
     (NFAPI_SYSTEM_INFORMATION_INDICATION, handled v (vnf_handle_system_information_indication p5_idx msg));
     (NFAPI_NMM_STOP_RESPONSE, handled v (vnf_handle_nmm_stop_response p5_idx msg))] p5_idx msg.

(** ** Reading

    The header of the message at the head of the association is read first and says
    how much to read.  The buffers are not initialised ([uninit]) but for LTE's
    header.  The rest of a longer message stays where it is, which the reader takes
    for a lost connection; a message that is too short is handled with what was in
    the buffer.  Notifications and errors of the socket are left out.  The result is
    whether the association is still up. *)

Definition filled (fill : nat -> Z) (size : Z) (msg : list Z) : list Z :=
  take (Z.to_nat size) (msg ++ (fill <$> seq 0 (Z.to_nat size))).
(* src: vnf.c :: vnf_read_dispatch_message *)
Definition read_dispatch (fill : nat -> Z) (counted_from : Z)
    (handle : vnf_t -> Z -> list Z -> option (vnf_t * list vnf_p5_event))
    (v : vnf_t) (p5_idx : Z) (msg : list Z) : option (Z * vnf_t * list vnf_p5_event) :=
  let '(result, header) := nfapi_p5_message_header_unpack sizeof (filled fill NFAPI_HEADER_LENGTH msg)
    (sizeof "nfapi_p4_p5_message_header_t") in
  if result <? 0 then Some (0, v, [])
  else
    let message_size := h_message_length header + counted_from in
    if zlen msg <=? message_size
    then (fun '(v, evs) => (1, v, evs)) <$> handle v p5_idx (filled uninit message_size msg)
    else Some (0, v, []).
(* src: vnf.c :: vnf_nr_read_dispatch_message *)
Definition vnf_nr_read_dispatch_message := read_dispatch uninit NFAPI_HEADER_LENGTH vnf_nr_handle_p4_p5_message.
(* src: vnf.c :: vnf_read_dispatch_message *)
Definition vnf_read_dispatch_message := read_dispatch (fun _ => 0) 0 vnf_handle_p4_p5_message.

(** ** Requests

    [Some] is a message of the client, [None] a null pointer.  A message for an
    unknown PNF and one that is not packed give -1. *)

Definition NFAPI_MAX_PACKED_MESSAGE_SIZE : Z := 8192.

(* src: vnf.c :: vnf_pack_and_send_p5_message *)
Definition pack_and_send (pack : nfapi_p4_p5_message_header_t -> struct -> Z -> option (list Z)) (v : vnf_t) (p5_idx : Z)
    (h : nfapi_p4_p5_message_header_t) (s : struct) : Z * list vnf_p5_event :=
  if nfapi_vnf_pnf_list_find v p5_idx then
    match pack h s NFAPI_MAX_PACKED_MESSAGE_SIZE with
    | None => (-1, [])
    | Some msg => (0, [SentP5 p5_idx msg])
    end
  else (-1, []).
(* src: vnf.c :: vnf_nr_pack_and_send_p5_message *)
Definition vnf_nr_pack_and_send_p5_message := pack_and_send (nfapi_nr_p5_message_pack pack_vendor).
(* src: vnf.c :: vnf_pack_and_send_p5_message *)
Definition vnf_pack_and_send_p5_message := pack_and_send (nfapi_p5_message_pack pack_vendor).
(* src: vnf.c :: vnf_pack_and_send_p4_message *)
Definition vnf_pack_and_send_p4_message := pack_and_send (nfapi_p4_message_pack pack_vendor).

Definition client_message := (nfapi_p4_p5_message_header_t * struct)%type.
Definition send_request (send : vnf_t -> Z -> nfapi_p4_p5_message_header_t -> struct -> Z * list vnf_p5_event)
    (config : option vnf_t) (p5_idx : Z) (req : option client_message) : Z * list vnf_p5_event :=
  match config, req with
  | Some v, Some (h, s) => send v (u16 p5_idx) h s
  | _, _ => (-1, [])
  end.
(* src: vnf_interface.c :: nfapi_nr_vnf_pnf_param_req *)
Definition nfapi_nr_vnf_pnf_param_req := send_request vnf_nr_pack_and_send_p5_message.
(* src: vnf_interface.c :: nfapi_vnf_pnf_param_req *)
Definition nfapi_vnf_pnf_param_req := send_request vnf_pack_and_send_p5_message.
(* src: vnf_interface.c :: nfapi_nr_vnf_pnf_config_req *)
Definition nfapi_nr_vnf_pnf_config_req := send_request vnf_nr_pack_and_send_p5_message.
(* src: vnf_interface.c :: nfapi_vnf_pnf_config_req *)
Definition nfapi_vnf_pnf_config_req := send_request vnf_pack_and_send_p5_message.
(* src: vnf_interface.c :: nfapi_vnf_pnf_start_req *)
Definition nfapi_vnf_pnf_start_req := send_request vnf_pack_and_send_p5_message.
(* src: vnf_interface.c :: nfapi_nr_vnf_pnf_start_req *)
Definition nfapi_nr_vnf_pnf_start_req := send_request vnf_nr_pack_and_send_p5_message.
(* src: vnf_interface.c :: nfapi_vnf_pnf_stop_req *)
Definition nfapi_vnf_pnf_stop_req := send_request vnf_pack_and_send_p5_message.
(* src: vnf_interface.c :: nfapi_nr_vnf_param_req *)
Definition nfapi_nr_vnf_param_req := send_request vnf_nr_pack_and_send_p5_message.
(* src: vnf_interface.c :: nfapi_vnf_param_req *)
Definition nfapi_vnf_param_req := send_request vnf_pack_and_send_p5_message.
(* src: vnf_interface.c :: nfapi_vnf_start_req *)
Definition nfapi_vnf_start_req := send_request vnf_pack_and_send_p5_message.
(* src: vnf_interface.c :: nfapi_nr_vnf_start_req *)
Definition nfapi_nr_vnf_start_req := send_request vnf_nr_pack_and_send_p5_message.
(* src: vnf_interface.c :: nfapi_vnf_stop_req *)
Definition nfapi_vnf_stop_req := send_request vnf_pack_and_send_p5_message.
(* src: vnf_interface.c :: nfapi_vnf_measurement_req *)
Definition nfapi_vnf_measurement_req := send_request vnf_pack_and_send_p5_message.
(* src: vnf_interface.c :: nfapi_vnf_rssi_request *)
Definition nfapi_vnf_rssi_request := send_request vnf_pack_and_send_p4_message.
(* src: vnf_interface.c :: nfapi_vnf_cell_search_request *)
Definition nfapi_vnf_cell_search_request := send_request vnf_pack_and_send_p4_message.
(* src: vnf_interface.c :: nfapi_vnf_broadcast_detect_request *)
Definition nfapi_vnf_broadcast_detect_request := send_request vnf_pack_and_send_p4_message.
(* src: vnf_interface.c :: nfapi_vnf_system_information_schedule_request *)
Definition nfapi_vnf_system_information_schedule_request := send_request vnf_pack_and_send_p4_message.
(* src: vnf_interface.c :: nfapi_vnf_system_information_request *)
Definition nfapi_vnf_system_information_request := send_request vnf_pack_and_send_p4_message.
(* src: vnf_interface.c :: nfapi_vnf_nmm_stop_request *)
Definition nfapi_vnf_nmm_stop_request := send_request vnf_pack_and_send_p4_message.
(* src: vnf_interface.c :: nfapi_vnf_vendor_extension *)
Definition nfapi_vnf_vendor_extension := send_request vnf_pack_and_send_p5_message.

(** CONFIG.request: the timing of the PHY is put into the client's structure, which
    keeps it; the second result is the structure. *)
Definition with_timing_tlv (tag : Z) (f : string) (value : Z) (s : struct) : struct :=
  let tlv := member s f in
  set_num "num_tlv" (u8 (num s "num_tlv" + 1))
    (set_member f (set_tl (Tl tag (tl_length (tl_of tlv))) (set_num "value" value tlv)) s).
Definition with_timing (window mode period : Z) (phy : nfapi_vnf_phy_info_t) (s : struct) : struct :=
  with_timing_tlv period "nfapi_config.timing_info_period" (timing_info_period phy)
    (with_timing_tlv mode "nfapi_config.timing_info_mode" (timing_info_mode phy)
      (with_timing_tlv window "nfapi_config.timing_window" (timing_window phy) s)).
Definition send_config (window mode period : Z)
    (send : vnf_t -> Z -> nfapi_p4_p5_message_header_t -> struct -> Z * list vnf_p5_event)
    (config : option vnf_t) (p5_idx : Z) (req : option client_message) : Z * option client_message * list vnf_p5_event :=
  match config, req with
  | Some v, Some (h, s) =>
      match nfapi_vnf_phy_info_list_find (phy_list v) (h_phy_id h) with
      | None => (-1, req, [])
      | Some phy =>
          let s := with_timing window mode period phy s in
          let '(r, evs) := send v (u16 p5_idx) h s in (r, Some (h, s), evs)
      end
  | _, _ => (-1, req, [])
  end.
(* src: vnf_interface.c :: nfapi_nr_vnf_config_req *)
Definition nfapi_nr_vnf_config_req :=
  send_config NFAPI_NR_NFAPI_TIMING_WINDOW_TAG NFAPI_NR_NFAPI_TIMING_INFO_MODE_TAG NFAPI_NR_NFAPI_TIMING_INFO_PERIOD_TAG
    vnf_nr_pack_and_send_p5_message.
(* src: vnf_interface.c :: nfapi_vnf_config_req *)
Definition nfapi_vnf_config_req :=
  send_config NFAPI_NFAPI_TIMING_WINDOW_TAG NFAPI_NFAPI_TIMING_INFO_MODE_TAG NFAPI_NFAPI_TIMING_INFO_PERIOD_TAG
    vnf_pack_and_send_p5_message.
End messages.

(** ** Answers of the PNF

    Each with the structure, the unpacker (that of NR or not), whether only an answer
    with code OK is passed on, whether the address in it is stored, the callback and
    the layouts of [P5Codec].

    [other_answers]: the PARAM.response of LTE and the CONFIG.response of NR, whose
    unpackers do not read all that their packers write.  The PNF_PARAM.response of
    LTE is left out: its unpacker writes behind an array. *)

Record answer := Answer {
  a_id : Z; a_type : string; a_nr : bool; a_guarded : bool; a_stores : bool; a_callback : vnf_callback; a_pack : layout; a_unpack : layout;
}.

Definition lte_p5_answers : list answer :=
  [Answer NFAPI_PNF_CONFIG_RESPONSE "nfapi_pnf_config_response_t" false false false PnfConfigResp pack_pnf_config_response unpack_pnf_config_response;
   Answer NFAPI_PNF_START_RESPONSE "nfapi_pnf_start_response_t" false false false PnfStartResp pack_pnf_start_response unpack_pnf_start_response;
   Answer NFAPI_PNF_STOP_RESPONSE "nfapi_pnf_stop_response_t" false false false PnfStopResp pack_pnf_stop_response unpack_pnf_stop_response;
   Answer NFAPI_CONFIG_RESPONSE "nfapi_config_response_t" false true false ConfigResp pack_config_response unpack_config_response;
   Answer NFAPI_START_RESPONSE "nfapi_start_response_t" false false false StartResp pack_start_response unpack_start_response;
   Answer NFAPI_STOP_RESPONSE "nfapi_stop_response_t" false false false StopResp pack_stop_response unpack_stop_response;
   Answer NFAPI_MEASUREMENT_RESPONSE "nfapi_measurement_response_t" false false false MeasurementResp pack_measurement_response unpack_measurement_response].
Definition nr_p5_answers : list answer :=
  [Answer NFAPI_NR_PHY_MSG_TYPE_PNF_PARAM_RESPONSE "nfapi_nr_pnf_param_response_t" true false false PnfNrParamResp pack_nr_pnf_param_response unpack_nr_pnf_param_response;
   Answer NFAPI_NR_PHY_MSG_TYPE_PNF_CONFIG_RESPONSE "nfapi_nr_pnf_config_response_t" true false false PnfNrConfigResp pack_nr_pnf_config_response unpack_nr_pnf_config_response;
   Answer NFAPI_NR_PHY_MSG_TYPE_PNF_START_RESPONSE "nfapi_nr_pnf_start_response_t" true false false PnfNrStartResp pack_nr_pnf_start_response unpack_nr_pnf_start_response;
   Answer NFAPI_NR_PHY_MSG_TYPE_PNF_STOP_RESPONSE "nfapi_pnf_stop_response_t" false false false PnfStopResp pack_nr_pnf_stop_response unpack_pnf_stop_response;
   Answer NFAPI_NR_PHY_MSG_TYPE_PARAM_RESPONSE "nfapi_nr_param_response_scf_t" true false true NrParamResp pack_nr_param_response unpack_nr_param_response;
   Answer NFAPI_NR_PHY_MSG_TYPE_START_RESPONSE "nfapi_nr_start_response_scf_t" true true false NrStartResp pack_nr_start_response unpack_nr_start_response;
   Answer NFAPI_NR_PHY_MSG_TYPE_STOP_RESPONSE "nfapi_stop_response_t" false false false StopResp pack_stop_response unpack_stop_response].
Definition p5_answers (nr : bool) : list answer := if nr then nr_p5_answers else lte_p5_answers.
Definition other_answers (nr : bool) : list answer :=
  if nr then [Answer NFAPI_NR_PHY_MSG_TYPE_CONFIG_RESPONSE "nfapi_nr_config_response_scf_t" true true false NrConfigResp pack_nr_config_response unpack_nr_config_response]
  else [Answer NFAPI_PARAM_RESPONSE "nfapi_param_response_t" false false true ParamResp pack_param_response unpack_param_response].
Definition readable_answers (nr : bool) : list answer := other_answers nr ++ p5_answers nr.
Definition p5_layouts (nr : bool) : list (Z * (layout * layout)) := if nr then nr_p5_layouts else lte_p5_layouts.

Ltac case_answer H :=
  unfold readable_answers, other_answers, p5_answers in H; cbn [app] in H;
  repeat first [ apply elem_of_nil in H; contradiction | apply elem_of_cons in H; destruct H as [->|H] ].

(** The answers are messages of [P5Codec] that fit the sender's buffer. *)
Lemma answer_layouts nr a : a ∈ p5_answers nr ->
  (a_id a, (a_pack a, a_unpack a)) ∈ p5_layouts nr /\ p5_size (a_pack a) (a_unpack a) <= 8192 /\
  layouts_wf (a_pack a) (a_unpack a) = true.
Proof.
  intros H. assert ((a_id a, (a_pack a, a_unpack a)) ∈ p5_layouts nr /\ p5_size (a_pack a) (a_unpack a) <= 8192) as [Hin Hsz].
  { destruct nr; cbn [p5_layouts] in *; case_answer H; (split; [|vm_compute; discriminate]);
      unfold nr_p5_layouts, lte_p5_layouts; repeat first [apply list_elem_of_here | apply list_elem_of_further]. }
  split; [done|]. split; [done|].
  assert (p5_layouts_ok (p5_layouts nr) = true) as Hok by (destruct nr; apply p5_layouts_checked).
  pose proof (proj1 (forallb_forall _ _) Hok _ (proj1 (list_elem_of_In _ _) Hin)) as Hl. cbn in Hl. by apply andb_true_iff in Hl as [? _].
Qed.

Lemma filled_prefix fill n msg : 0 <= n <= zlen msg -> filled fill n msg = take (Z.to_nat n) msg.
Proof. intros Hn. unfold filled. rewrite take_app_le; [done|]. unfold zlen in Hn. lia. Qed.
Lemma filled_whole fill msg : filled fill (zlen msg) msg = msg.
Proof. rewrite filled_prefix by (pose proof (zlen_nonneg msg); lia). apply take_ge. unfold zlen. lia. Qed.

(** A structure has the size of its own type. *)
Ltac own_type sizeof :=
  lazymatch goal with |- context [sizeof ?t] => change (fits_in sizeof t (sizeof t) <> 0); unfold fits_in; rewrite Z.leb_refl; lia end.

Section reading.
Context (sizeof : string -> Z) (uninit : nat -> Z).

Lemma header_read h bs : p5_header_ok h ->
  nfapi_p5_message_header_unpack sizeof (p5_header_bytes h ++ bs) (sizeof "nfapi_p4_p5_message_header_t") = (1, h).
Proof.
  intros Hh. unfold nfapi_p5_message_header_unpack, NFAPI_HEADER_LENGTH. pose proof (zlen_nonneg bs).
  destruct (Z.ltb_spec (zlen (p5_header_bytes h ++ bs)) 8); [zlen_lia|]. rewrite Z.ltb_irrefl. cbn [orb].
  by rewrite (pa_run _ _ _ (parses_p5_header h Hh)).
Qed.

(** A message whose length field is right is read whole. *)
Lemma whole_message fill from h bs : p5_header_ok h -> h_message_length h + from = 8 + zlen bs ->
  let msg := p5_header_bytes h ++ bs in
  nfapi_p5_message_header_unpack sizeof (filled fill NFAPI_HEADER_LENGTH msg) (sizeof "nfapi_p4_p5_message_header_t") = (1, h) /\
  (zlen msg <=? h_message_length h + from) = true /\ filled uninit (h_message_length h + from) msg = msg.
Proof.
  intros Hh Hl msg. pose proof (zlen_nonneg bs). assert (zlen msg = 8 + zlen bs) as E by (unfold msg; zlen_lia).
  rewrite Hl, <- E. split; [|by rewrite Z.leb_refl, filled_whole].
  unfold NFAPI_HEADER_LENGTH. rewrite filled_prefix by lia. unfold msg.
  change (Z.to_nat 8) with (length (p5_header_bytes h)). rewrite take_app_length, <- (app_nil_r (p5_header_bytes h)).
  by apply header_read.
Qed.
Lemma whole_message_read fill from handle v p5_idx h bs : p5_header_ok h -> h_message_length h + from = 8 + zlen bs ->
  read_dispatch sizeof uninit fill from handle v p5_idx (p5_header_bytes h ++ bs) =
  (fun '(v, evs) => (1, v, evs)) <$> handle v p5_idx (p5_header_bytes h ++ bs).
Proof. intros Hh Hl. destruct (whole_message fill from h bs Hh Hl) as (E1 & E2 & E3). unfold read_dispatch. by rewrite E1, E2, E3. Qed.

Context (vp : option (struct -> packer)) (vu : option (Z -> list Z -> Z * struct)) (cfg : vnf_config).

Lemma dispatched v cases p5_idx h bs : p5_header_ok h ->
  dispatch_p4_p5 sizeof vu cfg v cases p5_idx (p5_header_bytes h ++ bs) =
  switch cases (other_message sizeof vu cfg v p5_idx (h_message_id h) (p5_header_bytes h ++ bs)) (h_message_id h).
Proof.
  intros Hh. unfold dispatch_p4_p5, NFAPI_HEADER_LENGTH. pose proof (zlen_nonneg bs).
  destruct (Z.ltb_spec (zlen (p5_header_bytes h ++ bs)) 8); [zlen_lia|]. by rewrite header_read by done.
Qed.

Definition counted_from (nr : bool) : Z := if nr then NFAPI_HEADER_LENGTH else 0.
Definition p5_pack (nr : bool) : nfapi_p4_p5_message_header_t -> struct -> Z -> option (list Z) :=
  if nr then nfapi_nr_p5_message_pack vp else nfapi_p5_message_pack vp.
Definition p5_handle (nr : bool) : vnf_t -> Z -> list Z -> option (vnf_t * list vnf_p5_event) :=
  if nr then vnf_nr_handle_p4_p5_message sizeof vu cfg else vnf_handle_p4_p5_message sizeof vu cfg.
Definition p5_read (nr : bool) : vnf_t -> Z -> list Z -> option (Z * vnf_t * list vnf_p5_event) :=
  if nr then vnf_nr_read_dispatch_message sizeof uninit vu cfg else vnf_read_dispatch_message sizeof uninit vu cfg.

(** What a message with layouts is packed to, and that the reader passes it on whole. *)
Lemma layout_packed nr pl ul id h s : (id, (pl, ul)) ∈ p5_layouts nr -> h_message_id h = id -> p5_header_ok h ->
  layouts_wf pl ul = true -> fits pl ul s -> p5_size pl ul <= 8192 ->
  exists bs, let h' := with_length (8 + zlen bs - counted_from nr) h in
    p5_pack nr h s NFAPI_MAX_PACKED_MESSAGE_SIZE = Some (p5_header_bytes h' ++ bs) /\ p5_header_ok h' /\
    unpack_layout ul zero bs = (1, received_message pl ul s).
Proof.
  intros Hin <- Hh Hwf Hok Hsz. unfold p5_size in Hsz. destruct (layout_roundtrip pl ul s Hwf Hok) as (Hw & Hr & Hn).
  set (bs := message_bytes _ _ _) in *. pose proof (zlen_nonneg bs). pose proof Hh as (H1 & H2 & H3 & H4).
  assert (0 <= counted_from nr <= 8) as Hfrom by (unfold counted_from, NFAPI_HEADER_LENGTH; destruct nr; lia).
  exists bs. cbv zeta. split; [|split; [split_and!; cbn; wrap_lia|done]].
  unfold NFAPI_MAX_PACKED_MESSAGE_SIZE. destruct nr; cbn [p5_pack p5_layouts] in *.
  - destruct (nr_p5_bodies vp None _ pl ul s Hin) as [Hp _]. unfold nfapi_nr_p5_message_pack.
    apply p5_frame_pack_ok; try done; try lia. rewrite Hp. by apply writes_ret_u8.
  - destruct (lte_p5_bodies vp None _ pl ul s Hin) as [Hp _]. unfold nfapi_p5_message_pack.
    apply p5_frame_pack_ok; try done; try lia. rewrite Hp. by apply writes_ret_u8.
Qed.
Lemma answer_unpacked nr a h bs k r : a ∈ readable_answers nr -> p5_header_ok h -> h_message_id h = a_id a ->
  sizeof "nfapi_p4_p5_message_header_t" <= sizeof (a_type a) -> 0 < sizeof (a_type a) ->
  unpack_layout (a_unpack a) zero bs = (k, r) ->
  (if a_nr a then nr_p5_unpack sizeof vu else p5_unpack sizeof vu) (p5_header_bytes h ++ bs) (sizeof (a_type a)) = (k, h, r).
Proof.
  intros Hin Hh Hid Hs H0 Hu. destruct nr; case_answer Hin;
    cbn [a_id a_type a_nr a_unpack] in *; unfold nr_p5_unpack, p5_unpack, nfapi_nr_p5_message_unpack, nfapi_p5_message_unpack;
    (rewrite p5_frame_unpack_ok; [|done|done|rewrite Hid; own_type sizeof]); rewrite Hid;
    lazymatch type of Hu with _ = ?v => lazymatch goal with |- (let '(_, _) := ?x in _) = _ => assert (x = v) as -> by exact Hu end end; reflexivity.
Qed.

Definition called (a : answer) (p5_idx : Z) (h : nfapi_p4_p5_message_header_t) (r : struct) : list vnf_p5_event :=
  if a_guarded a && negb (answered_ok r) then [] else call cfg (a_callback a) p5_idx h r.
Definition stored (a : answer) (v : vnf_t) (h : nfapi_p4_p5_message_header_t) (r : struct) : option vnf_t :=
  if a_stores a then store_p7_address v h r else Some v.

(** A result of 0 counts as success. *)
Lemma answer_handled nr a h bs k r v p5_idx : a ∈ readable_answers nr -> p5_header_ok h -> h_message_id h = a_id a ->
  sizeof "nfapi_p4_p5_message_header_t" <= sizeof (a_type a) -> 0 < sizeof (a_type a) ->
  unpack_layout (a_unpack a) zero bs = (k, r) -> 0 <= k ->
  p5_handle nr v p5_idx (p5_header_bytes h ++ bs) = (fun v => (v, called a p5_idx h r)) <$> stored a v h r.
Proof.
  intros Hin Hh Hid Hs H0 Hu Hk%Z.leb_le. pose proof (answer_unpacked nr a h bs k r Hin Hh Hid Hs H0 Hu) as E.
  set (unpack := if a_nr a then nr_p5_unpack sizeof vu else p5_unpack sizeof vu) in *.
  assert ((if a_stores a then handle_param sizeof cfg unpack (a_type a) (a_callback a) v p5_idx (p5_header_bytes h ++ bs)
     else handled v (handle_p4_p5 sizeof cfg unpack (a_type a) (if a_guarded a then answered_ok else unguarded) (a_callback a)
            p5_idx (p5_header_bytes h ++ bs))) = (fun v => (v, called a p5_idx h r)) <$> stored a v h r) as <-.
  { unfold handle_param, handle_p4_p5, stored, called. rewrite E, Hk. cbn [andb].
    assert (a_stores a = true -> a_guarded a = false) as Hsg by (destruct nr; case_answer Hin; done).
    destruct (a_stores a); [rewrite Hsg by done; done|]. cbn [fmap option_fmap option_map].
    destruct (a_guarded a); cbn [andb]; [|done]. by destruct (answered_ok r). }
  subst unpack. clear E Hu.
  assert (p5_handle nr = if nr then vnf_nr_handle_p4_p5_message sizeof vu cfg else vnf_handle_p4_p5_message sizeof vu cfg) as -> by done.
  destruct nr; unfold vnf_nr_handle_p4_p5_message, vnf_handle_p4_p5_message; rewrite dispatched, Hid by done;
    case_answer Hin; reflexivity.
Qed.
Lemma answer_read nr a h bs k r v p5_idx : a ∈ readable_answers nr -> p5_header_ok h -> h_message_id h = a_id a ->
  sizeof "nfapi_p4_p5_message_header_t" <= sizeof (a_type a) -> 0 < sizeof (a_type a) ->
  h_message_length h + counted_from nr = 8 + zlen bs -> unpack_layout (a_unpack a) zero bs = (k, r) -> 0 <= k ->
  p5_read nr v p5_idx (p5_header_bytes h ++ bs) = (fun v => (1, v, called a p5_idx h r)) <$> stored a v h r.
Proof.
  intros Hin Hh Hid Hs H0 Hl Hu Hk.
  assert (p5_read nr v p5_idx (p5_header_bytes h ++ bs) =
    (fun '(v, evs) => (1, v, evs)) <$> p5_handle nr v p5_idx (p5_header_bytes h ++ bs)) as -> by (destruct nr; by apply whole_message_read).
  rewrite (answer_handled nr a h bs k r v p5_idx Hin Hh Hid Hs H0 Hu Hk). by destruct (stored _ _ _ _).
Qed.
End reading.

(** The PHY whose address was stored. *)
Lemma stored_address v h r c : answered_ok r = true -> nfapi_vnf_phy_info_list_find (phy_list v) (h_phy_id h) = Some c ->
  exists v', store_p7_address v h r = Some v' /\
    nfapi_vnf_phy_info_list_find (phy_list v') (h_phy_id h) = Some (with_address r c).
Proof.
  intros Hok Hc. unfold store_p7_address. rewrite Hok, Hc. eexists. split; [reflexivity|]. cbn [phy_list with_phys].
  revert Hc. induction (phy_list v) as [|d l IH]; cbn; [done|]. destruct (Z.eqb_spec (info_phy_id d) (h_phy_id h)) as [E|E].
  - intros [= ->]. cbn. by rewrite (proj2 (Z.eqb_eq _ _) E).
  - cbn. rewrite (proj2 (Z.eqb_neq _ _) E). exact IH.
Qed.

(** C18. What happens to the answers of the PNF but the PNF_PARAM.response of LTE.  One
    that the SCTP association delivers with a right length is read whole, and if its
    unpacker returns 0 or more, what it makes of the answer is handed to the callback
    (if that is set) once, with the [p5_idx] of the PNF and the header; but
    CONFIG.response (LTE and NR) and START.response of NR only with code OK.  A PARAM.response (LTE and NR) with code OK also stores the address of P7
    it holds with its PHY, through a null pointer if there is no such PHY.  Nothing
    else changes.  Moreover the answers but the PARAM.response of LTE and the
    CONFIG.response of NR, when they are in range, are packed with a right length and
    reach the callback with every number and TLV as sent. *)
Theorem p5_answer_reaches_client sizeof uninit vp vu cfg nr a h v p5_idx :
  a ∈ readable_answers nr -> h_message_id h = a_id a -> p5_header_ok h ->
  sizeof "nfapi_p4_p5_message_header_t" <= sizeof (a_type a) -> 0 < sizeof (a_type a) ->
  (forall bs k r, h_message_length h + counted_from nr = 8 + zlen bs ->
     unpack_layout (a_unpack a) zero bs = (k, r) -> 0 <= k ->
     p5_read sizeof uninit vu cfg nr v p5_idx (p5_header_bytes h ++ bs) =
       (fun v' => (1, v', called cfg a p5_idx h r)) <$> stored a v h r) /\
  (a ∈ p5_answers nr -> forall s, fits (a_pack a) (a_unpack a) s ->
     exists n bs, let h' := with_length n h in let r := received_message (a_pack a) (a_unpack a) s in
       p5_pack vp nr h s NFAPI_MAX_PACKED_MESSAGE_SIZE = Some bs /\
       p5_read sizeof uninit vu cfg nr v p5_idx bs =
         (fun v' => (1, v', called cfg a p5_idx h' r)) <$> stored a v h' r).
Proof.
  intros Hin Hid Hh Hs H0. split.
  - intros bs k r Hl Hu Hk. by apply (answer_read sizeof uninit vu cfg nr a h bs k r).
  - intros Hin' s Hok. destruct (answer_layouts nr a Hin') as (Hl & Hsz & Hwf).
    destruct (layout_packed vp nr (a_pack a) (a_unpack a) (a_id a) h s Hl Hid Hh Hwf Hok Hsz) as (bs & Hp & Hh' & Hu).
    eexists _, _. split; [exact Hp|]. apply (answer_read sizeof uninit vu cfg nr a _ bs 1); try done. cbn. lia.
Qed.

(** PHY 1 of PNF 7 says where its P7 socket is. *)
Definition sample_vnf : vnf_t := fst (nfapi_vnf_allocate_phy (nfapi_vnf_pnf_list_add 7 nfapi_vnf_config_create) 7).
Definition sample_param_answer : answer :=
  Answer NFAPI_NR_PHY_MSG_TYPE_PARAM_RESPONSE "nfapi_nr_param_response_scf_t" true false true NrParamResp pack_nr_param_response unpack_nr_param_response.
Definition sample_param : struct :=
  set_num "num_tlv" 2
    (set_member "nfapi_config.p7_pnf_address_ipv4" (set_tl (Tl NFAPI_NR_NFAPI_P7_PNF_ADDRESS_IPV4_TAG 0) (set_arr "address" [192; 168; 0; 9] zero))
    (set_member "nfapi_config.p7_pnf_port" (set_tl (Tl NFAPI_NR_NFAPI_P7_PNF_PORT_TAG 0) (set_num "value" 50010 zero)) zero)).
Definition sample_vnf_config : vnf_config := VnfConfig (fun _ => true) None.

Lemma p5_answer_reaches_client_witness :
  let h := P5Header 1 NFAPI_NR_PHY_MSG_TYPE_PARAM_RESPONSE 0 0 in
  exists n bs, let h' := with_length n h in let r := received_message pack_nr_param_response unpack_nr_param_response sample_param in
    p5_pack None true h sample_param NFAPI_MAX_PACKED_MESSAGE_SIZE = Some bs /\
    p5_read sample_sizeof (fun _ => 0xCC) None sample_vnf_config true sample_vnf 7 bs =
      (fun v' => (1, v', called sample_vnf_config sample_param_answer 7 h' r)) <$> stored sample_param_answer sample_vnf h' r.
Proof.
  cbv zeta. apply (p5_answer_reaches_client sample_sizeof (fun _ => 0xCC) None None sample_vnf_config true sample_param_answer
    (P5Header 1 NFAPI_NR_PHY_MSG_TYPE_PARAM_RESPONSE 0 0) sample_vnf 7).
  - unfold readable_answers, other_answers, p5_answers, nr_p5_answers. cbn [app]. do 5 apply list_elem_of_further. apply list_elem_of_here.
  - reflexivity.
  - repeat split; discriminate.
  - discriminate.
  - reflexivity.
  - unfold p5_answers, nr_p5_answers. do 4 apply list_elem_of_further. apply list_elem_of_here.
  - repeat (constructor || discriminate).
Defined.

Example address_is_stored :
  (fun r => (fun c => (p7_pnf_address c, p7_pnf_port c)) <$> phy_list r.1.2) <$>
    (bs ← p5_pack None true (P5Header 1 NFAPI_NR_PHY_MSG_TYPE_PARAM_RESPONSE 0 0) sample_param NFAPI_MAX_PACKED_MESSAGE_SIZE;
     p5_read sample_sizeof (fun _ => 0xCC) None sample_vnf_config true sample_vnf 7 bs) =
  Some [([192; 168; 0; 9], htons 50010)].
Proof. vm_compute. reflexivity. Qed.

(** ** Answers that are cut off *)

Lemma nothing_stored v h : store_p7_address v h zero = Some v.
Proof.
  unfold store_p7_address. cbn [answered_ok num zero negb]. assert (answered_ok zero = true) as -> by done. cbn [negb].
  destruct (nfapi_vnf_phy_info_list_find _ _) as [c|]; [|done].
  assert (forall c, with_address zero c = c) as Hid by (by intros []).
  assert (forall l, update_phy_info (with_address zero) (h_phy_id h) l = l) as ->.
  { induction l as [|d l IH]; cbn; [done|]. rewrite Hid, IH. by destruct (_ =? _). }
  by destruct v.
Qed.

(** A message that ends with its header is filled up from the buffer. *)
Lemma filled_header fill h size : 8 <= size ->
  filled fill size (p5_header_bytes h) = p5_header_bytes h ++ (fill <$> seq 0 (Z.to_nat (size - 8))).
Proof.
  intros Hs. unfold filled. assert (length (p5_header_bytes h) = 8%nat) as Hl by done.
  rewrite take_app_ge by lia. f_equal. rewrite Hl.
  rewrite <- fmap_take, take_seq. do 2 f_equal. lia.
Qed.

Lemma header_only_read sizeof uninit vu cfg nr a h k r v p5_idx : let size := h_message_length h + counted_from nr in
  a ∈ readable_answers nr -> p5_header_ok h -> h_message_id h = a_id a -> 8 <= size ->
  sizeof "nfapi_p4_p5_message_header_t" <= sizeof (a_type a) -> 0 < sizeof (a_type a) ->
  unpack_layout (a_unpack a) zero (uninit <$> seq 0 (Z.to_nat (size - 8))) = (k, r) -> 0 <= k ->
  p5_read sizeof uninit vu cfg nr v p5_idx (p5_header_bytes h) = (fun v => (1, v, called cfg a p5_idx h r)) <$> stored a v h r.
Proof.
  intros size Hin Hh Hid Hl Hs H0 Hu Hk.
  set (bs := uninit <$> seq 0 (Z.to_nat (size - 8))) in *.
  assert (forall fill handle, read_dispatch sizeof uninit fill (counted_from nr) handle v p5_idx (p5_header_bytes h) =
    (fun '(v, evs) => (1, v, evs)) <$> handle v p5_idx (p5_header_bytes h ++ bs)) as Hr.
  { intros fill handle. unfold read_dispatch, NFAPI_HEADER_LENGTH. rewrite filled_header by done. cbn [Z.to_nat Z.sub].
    rewrite header_read by done. cbn [Z.ltb Z.compare]. fold size. change (zlen (p5_header_bytes h)) with 8.
    rewrite (proj2 (Z.leb_le _ _)) by done. by rewrite filled_header. }
  assert (p5_read sizeof uninit vu cfg nr v p5_idx (p5_header_bytes h) =
    (fun '(v, evs) => (1, v, evs)) <$> p5_handle sizeof vu cfg nr v p5_idx (p5_header_bytes h ++ bs)) as ->
    by (destruct nr; apply Hr).
  rewrite (answer_handled sizeof vu cfg nr a h bs k r v p5_idx Hin Hh Hid Hs H0 Hu Hk). by destruct (stored _ _ _ _).
Qed.

(** C40. An answer of the PNF (but the PNF_PARAM.response of LTE) that ends with its
    header is not rejected.  If the length in the header is that of a message without a
    body, its unpacker returns 0, which the handlers take for success, and the callback
    gets a structure of zeros, in which the error code is OK.  If the header claims
    more, the uninitialised buffer the message was read into is handled as its body,
    like that of an answer that is whole, whenever the unpacker returns 0 or more on it. *)
Theorem cut_off_answer_is_ok sizeof uninit vu cfg nr a h v p5_idx : let size := h_message_length h + counted_from nr in
  a ∈ readable_answers nr -> h_message_id h = a_id a -> p5_header_ok h ->
  sizeof "nfapi_p4_p5_message_header_t" <= sizeof (a_type a) -> 0 < sizeof (a_type a) ->
  (size = 8 ->
     p5_read sizeof uninit vu cfg nr v p5_idx (p5_header_bytes h) = Some (1, v, call cfg (a_callback a) p5_idx h zero) /\
     num zero "error_code" = NFAPI_MSG_OK) /\
  (8 < size -> forall k r, unpack_layout (a_unpack a) zero (uninit <$> seq 0 (Z.to_nat (size - 8))) = (k, r) -> 0 <= k ->
     p5_read sizeof uninit vu cfg nr v p5_idx (p5_header_bytes h) =
       (fun v' => (1, v', called cfg a p5_idx h r)) <$> stored a v h r).
Proof.
  intros size Hin Hid Hh Hs H0. split; [|intros Hl k r Hu Hk; apply (header_only_read sizeof uninit vu cfg nr a h k r); (done || lia)].
  intros Hl. split; [|done].
  rewrite (header_only_read sizeof uninit vu cfg nr a h 0 zero v p5_idx Hin Hh Hid); try done; fold size; [|lia|rewrite Hl].
  - unfold stored, called. destruct (a_stores a); [rewrite nothing_stored|]; cbn; by rewrite andb_false_r.
  - clear - Hin. destruct nr; case_answer Hin; reflexivity.
Qed.

(** The PNF refuses CONFIG.request, and of the refusal the error code is lost. *)
Lemma cut_off_answer_is_ok_witness :
  let h := P5Header 1 NFAPI_CONFIG_RESPONSE 8 0 in
  p5_read sample_sizeof (fun _ => 0xCC) None sample_vnf_config false sample_vnf 7 (p5_header_bytes h) =
    Some (1, sample_vnf, [Called ConfigResp 7 h zero]) /\
  num zero "error_code" = NFAPI_MSG_OK.
Proof.
  cbv zeta. apply (cut_off_answer_is_ok sample_sizeof (fun _ => 0xCC) None sample_vnf_config false
    (Answer NFAPI_CONFIG_RESPONSE "nfapi_config_response_t" false true false ConfigResp pack_config_response unpack_config_response)
    (P5Header 1 NFAPI_CONFIG_RESPONSE 8 0) sample_vnf 7).
  - unfold readable_answers, other_answers, p5_answers, lte_p5_answers. cbn [app]. do 4 apply list_elem_of_further. apply list_elem_of_here.
  - reflexivity.
  - repeat split; discriminate.
  - discriminate.
  - reflexivity.
  - reflexivity.
Defined.

(** With the length of the whole answer, the callback is handed the buffer. *)
Example the_rest_is_the_buffer :
  (fun r => match r.2 with [Called PnfConfigResp _ _ s] => Some (num s "error_code") | _ => None end) <$>
    p5_read sample_sizeof (fun _ => 0xCC) None sample_vnf_config false sample_vnf 7
      (p5_header_bytes (P5Header 1 NFAPI_PNF_CONFIG_RESPONSE 12 0)) = Some (Some 0xCCCCCCCC).
Proof. vm_compute. reflexivity. Qed.
