(* ===== verification/PnfEndpoint.v ===== *)
(** * The PNF's P7 endpoint ([pnf_p7.c], [pnf_p7_interface.c])

    What is around the buffers of [PnfP7] and [PnfNrP7]: a message the reassembly of
    [Segmentation] has put together is dispatched by its identifier, unpacked into
    an allocated structure ([LteP7], [NrP7]) and handed to the buffers, or answered;
    the indications of the PHY and what the buffers answer are packed and sent.

    The buffers know a request by its address; the endpoint keeps what is at the
    address ([e_messages]).  Allocation succeeds and gives a fresh address, which
    are counted.  [None] is an access outside the buffer array. *)

From stdpp Require Import gmap strings.
From S2P Require Import Prelude Tags Sfn Codec Ids P7Header Layout LtePdu NrP7.
From S2P Require Import LteP7 Segmentation Ownership PnfP7 PnfNrP7 Aggregate VnfP7.

Open Scope string_scope.
Open Scope list_scope.
Open Scope Z_scope.

(** ** State *)

Definition message_of : Type := nfapi_p7_message_header_t * struct.

(** The state of the buffers, the sequence number of sent messages, the address the
    next allocation gives, and what is at the addresses given so far. *)
(* src: pnf_p7.h 83-144 pnf_p7_t *)
Record pnf_endpoint (P : Type) := Endpoint {
  e_pnf : P;
  e_sequence : Z;
  e_next : Z;
  e_messages : gmap Z message_of;
}.
Arguments Endpoint {P}.
Arguments e_pnf {P}.
Arguments e_sequence {P}.
Arguments e_next {P}.
Arguments e_messages {P}.

(** What is configured; for a vendor extension the size of what
    [allocate_p7_vendor_ext] returns. *)
Record endpoint_config := EndpointConfig {
  e_p7 : p7_config;
  e_phy_id : Z;
  e_allocate_vendor_ext : option (Z -> option Z);
  e_vendor_ext : bool;
}.

(** What the endpoint does: an event of the buffers, datagrams sent to the VNF, a
    vendor extension passed to its callback. *)
Inductive pnf_output (E : Type) :=
  | Did (e : E)
  | SentUp (datagrams : list (list Z))
  | VendorReceived (h : nfapi_p7_message_header_t) (s : struct).
Arguments Did {E}.
Arguments SentUp {E}.
Arguments VendorReceived {E}.

(** Zeroed memory: the buffers too, so that they are taken for those of subframe 0. *)
(* src: pnf_p7_interface.c :: nfapi_pnf_p7_config_create *)
Definition nfapi_pnf_p7_config_create : endpoint_config * pnf_p7_config * pnf_endpoint pnf_p7_t :=
  (EndpointConfig (P7Config 1400 true) 0 None false,
   PnfP7Config 8 true true 32 (fun _ => false) (fun _ => false),
   Endpoint (PnfP7 (repeat (SubframeBuffer 0 None None None None None None) 30) 0 0 0 0 false 0 0 stats_zero) 0 1 ∅).

Section endpoint.
Context (sizeof : string -> Z) (behind : nat -> Z) (crc32 : Z -> list Z -> Z).
Context (pack_vendor : option (struct -> packer)) (unpack_vendor : option (Z -> list Z -> Z * struct)).
Context (cfg : endpoint_config).

#[local] Abbreviation lte_pack := (lte_pack pack_vendor).
#[local] Abbreviation nr_pack := (nr_pack pack_vendor).
#[local] Abbreviation lte_unpack := (lte_unpack sizeof behind unpack_vendor).
#[local] Abbreviation nr_unpack := (nr_unpack sizeof unpack_vendor).

(** ** Sending *)

Section sending.
Context {P E : Type}.
Implicit Types st : pnf_endpoint P.

Definition with_pnf (p : P) st : pnf_endpoint P := Endpoint p (e_sequence st) (e_next st) (e_messages st).

(* src: pnf_p7.c 572-583 pnf_p7_pack_and_send_p7_message *)
Definition send (pack : nfapi_p7_message_header_t -> struct -> Z -> option (list Z)) (h : nfapi_p7_message_header_t)
    (s : struct) st : Z * pnf_endpoint P * list (pnf_output E) :=
  let '(r, n, ds) := pnf_p7_pack_and_send_p7_message crc32 (e_p7 cfg)
    (fun mss => pack (with_mss h mss) s NFAPI_MAX_PACKED_MESSAGE_SIZE) (e_sequence st) in
  (r, Endpoint (e_pnf st) n (e_next st) (e_messages st), match ds with [] => [] | _ => [SentUp ds] end).

(** The events of the buffers in order; those that [answer] is defined for are
    messages to send. *)
Fixpoint perform (pack : nfapi_p7_message_header_t -> struct -> Z -> option (list Z)) (answer : E -> option message_of)
    (evs : list E) st : pnf_endpoint P * list (pnf_output E) :=
  match evs with
  | [] => (st, [])
  | e :: evs =>
      match answer e with
      | Some (h, s) =>
          let '(_, st, out) := send pack h s st in
          let '(st, out') := perform pack answer evs st in (st, out ++ out')
      | None => let '(st, out) := perform pack answer evs st in (st, Did e :: out)
      end
  end.

(** The indications of the PHY; a null argument is [None]. *)
(* src: pnf_p7_interface.c :: nfapi_pnf_p7_harq_ind *)
Definition p7_indication (pack : nfapi_p7_message_header_t -> struct -> Z -> option (list Z))
    (config : option (pnf_endpoint P)) (ind : option message_of) :
    Z * option (pnf_endpoint P) * list (pnf_output E) :=
  match config, ind with
  | Some st, Some (h, s) => let '(r, st, out) := send pack h s st in (r, Some st, out)
  | _, _ => (-1, config, [])
  end.
(* src: pnf_p7_interface.c :: nfapi_pnf_p7_harq_ind *)
Definition nfapi_pnf_p7_harq_ind := p7_indication lte_pack.
(* src: pnf_p7_interface.c :: nfapi_pnf_p7_crc_ind *)
Definition nfapi_pnf_p7_crc_ind := p7_indication lte_pack.
(* src: pnf_p7_interface.c :: nfapi_pnf_p7_rx_ind *)
Definition nfapi_pnf_p7_rx_ind := p7_indication lte_pack.
(* src: pnf_p7_interface.c :: nfapi_pnf_p7_rach_ind *)
Definition nfapi_pnf_p7_rach_ind := p7_indication lte_pack.
(* src: pnf_p7_interface.c :: nfapi_pnf_p7_srs_ind *)
Definition nfapi_pnf_p7_srs_ind := p7_indication lte_pack.
(* src: pnf_p7_interface.c :: nfapi_pnf_p7_sr_ind *)
Definition nfapi_pnf_p7_sr_ind := p7_indication lte_pack.
(* src: pnf_p7_interface.c :: nfapi_pnf_p7_cqi_ind *)
Definition nfapi_pnf_p7_cqi_ind := p7_indication lte_pack.
(* src: pnf_p7_interface.c :: nfapi_pnf_p7_lbt_dl_ind *)
Definition nfapi_pnf_p7_lbt_dl_ind := p7_indication lte_pack.
(* src: pnf_p7_interface.c :: nfapi_pnf_p7_nb_harq_ind *)
Definition nfapi_pnf_p7_nb_harq_ind := p7_indication lte_pack.
(* src: pnf_p7_interface.c :: nfapi_pnf_p7_nrach_ind *)
Definition nfapi_pnf_p7_nrach_ind := p7_indication lte_pack.
(* src: pnf_p7_interface.c :: nfapi_pnf_p7_vendor_extension *)
Definition nfapi_pnf_p7_vendor_extension := p7_indication lte_pack.
(* src: pnf_p7_interface.c :: nfapi_pnf_ue_release_resp *)
Definition nfapi_pnf_ue_release_resp := p7_indication lte_pack.
(* src: pnf_p7_interface.c :: nfapi_pnf_p7_nr_slot_ind *)
Definition nfapi_pnf_p7_nr_slot_ind := p7_indication nr_pack.
(* src: pnf_p7_interface.c :: nfapi_pnf_p7_nr_rx_data_ind *)
Definition nfapi_pnf_p7_nr_rx_data_ind := p7_indication nr_pack.
(* src: pnf_p7_interface.c :: nfapi_pnf_p7_nr_crc_ind *)
Definition nfapi_pnf_p7_nr_crc_ind := p7_indication nr_pack.
(* src: pnf_p7_interface.c :: nfapi_pnf_p7_nr_srs_ind *)
Definition nfapi_pnf_p7_nr_srs_ind := p7_indication nr_pack.
(* src: pnf_p7_interface.c :: nfapi_pnf_p7_nr_uci_ind *)
Definition nfapi_pnf_p7_nr_uci_ind := p7_indication nr_pack.
(* src: pnf_p7_interface.c :: nfapi_pnf_p7_nr_rach_ind *)
Definition nfapi_pnf_p7_nr_rach_ind := p7_indication nr_pack.

(** ** Vendor extensions, of either radio *)

(* src: pnf_p7.c :: pnf_handle_p7_vendor_extension *)
Definition pnf_handle_p7_vendor_extension (id : Z) (msg : list Z) : list (pnf_output E) :=
  match e_allocate_vendor_ext cfg with
  | None => []
  | Some allocate =>
      match allocate id with
      | None => []
      | Some msg_size =>
          match lte_unpack msg msg_size with
          | None => []
          | Some (h, s) => if e_vendor_ext cfg then [VendorReceived h s] else []
          end
      end
  end.
End sending.

(** ** LTE *)

Section lte.
Context (c : pnf_p7_config).
#[local] Abbreviation state := (pnf_endpoint pnf_p7_t).
#[local] Abbreviation output := (pnf_output pnf_event).

(** The answer to a UE release and the timing information; the jitters are members
    of the instance that nothing sets. *)
(* src: pnf_p7.c 754-776 pnf_pack_and_send_timing_info *)
Definition lte_answer (e : pnf_event) : option message_of :=
  match e with
  | Note (UeReleaseResp phy) =>
      Some (P7Header phy NFAPI_UE_RELEASE_RESPONSE 0 0 0 0, set_num "error_code" NFAPI_MSG_OK zero)
  | Note (TimingInfo last ms) =>
      Some (P7Header (e_phy_id cfg) NFAPI_TIMING_INFO 0 0 0 0,
            set_num "last_sfn_sf" last (set_num "time_since_last_timing_info" ms zero))
  | _ => None
  end.
Definition lte_perform (evs : list pnf_event) (st : state) : state * list output := perform lte_pack lte_answer evs st.

(** A request is unpacked into the structure that is allocated for it. *)
(* src: pnf_p7.c :: pnf_handle_dl_config_request *)
Definition lte_request (k : req_kind) (type : string) (st : state) (msg : list Z) : option (state * list output) :=
  let ptr := e_next st in
  match lte_unpack msg (sizeof type) with
  | None =>
      match handle_request k c (e_pnf st) (Request ptr 0 0) false with
      | None => None
      | Some (p, evs) => Some (lte_perform evs (Endpoint p (e_sequence st) (ptr + 1) (e_messages st)))
      end
  | Some (h, s) =>
      match handle_request k c (e_pnf st) (Request ptr (num s "sfn_sf") (phy_id h)) true with
      | None => None
      | Some (p, evs) => Some (lte_perform evs (Endpoint p (e_sequence st) (ptr + 1) (<[ptr := (h, s)]> (e_messages st))))
      end
  end.

(** [rx_hr_time] is when the first datagram of the message came, [now] the clock. *)
(* src: pnf_p7.c :: pnf_handle_dl_node_sync *)
Definition lte_node_sync (st : state) (rx_hr_time now : Z) (msg : list Z) : state * list output :=
  match lte_unpack msg (sizeof "nfapi_dl_node_sync_t") with
  | None => (st, [])
  | Some (h, s) =>
      let '(p, (phy, t1, t2, t3)) :=
        PnfP7.pnf_handle_dl_node_sync (e_pnf st) (phy_id h) (num s "t1") (num s "delta_sfn_sf") rx_hr_time now in
      let '(_, st, out) := send lte_pack (P7Header phy NFAPI_UL_NODE_SYNC 0 0 0 0)
        (set_num "t1" t1 (set_num "t2" t2 (set_num "t3" t3 zero))) (with_pnf p st) in
      (st, out)
  end.

(* src: pnf_p7.c :: pnf_dispatch_p7_message *)
Definition pnf_dispatch_p7_message (st : state) (rx_hr_time now : Z) (msg : list Z) : option (state * list output) :=
  if zlen msg <? 4 then Some (st, []) else
  match nfapi_p7_message_header_unpack msg 16 with
  | None => Some (st, [])
  | Some header =>
    if zlen msg <? 8 then Some (st, []) else
    switch
      [(NFAPI_DL_NODE_SYNC, Some (lte_node_sync st rx_hr_time now msg));
       (NFAPI_DL_CONFIG_REQUEST, lte_request DlConfig "nfapi_dl_config_request_t" st msg);
       (NFAPI_UL_CONFIG_REQUEST, lte_request UlConfig "nfapi_ul_config_request_t" st msg);
       (NFAPI_HI_DCI0_REQUEST, lte_request HiDci0 "nfapi_hi_dci0_request_t" st msg);
       (NFAPI_TX_REQUEST, lte_request Tx "nfapi_tx_request_t" st msg);
       (NFAPI_LBT_DL_CONFIG_REQUEST, lte_request LbtDlConfig "nfapi_lbt_dl_config_request_t" st msg);
       (NFAPI_UE_RELEASE_REQUEST, lte_request UeRelease "nfapi_ue_release_request_t" st msg)]
      (Some (st, if is_vendor_extension (message_id header)
                 then pnf_handle_p7_vendor_extension (message_id header) msg else []))
      (message_id header)
  end.

(** The indication of the PHY. *)
(* src: pnf_p7_interface.c :: nfapi_pnf_p7_subframe_ind *)
Definition nfapi_pnf_p7_subframe_ind (config : option state) (sfn_sf now : Z) : option (Z * option state * list output) :=
  match config with
  | None => Some (-1, None, [])
  | Some st =>
      match pnf_p7_subframe_ind c (e_pnf st) sfn_sf now with
      | None => None
      | Some (p, evs) => let '(st, out) := lte_perform evs (with_pnf p st) in Some (0, Some st, out)
      end
  end.
End lte.

(** ** NR *)

Section nr.
Context (c : nr_config).
#[local] Abbreviation state := (pnf_endpoint pnf_nr_t).
#[local] Abbreviation output := (pnf_output nr_event).

(* src: pnf_p7.c 785-807 pnf_nr_pack_and_send_timing_info *)
Definition nr_answer (e : nr_event) : option message_of :=
  match e with
  | Note (NrTimingInfo last_sfn last_slot ms) =>
      Some (P7Header (e_phy_id cfg) NFAPI_TIMING_INFO 0 0 0 0,
            set_num "last_sfn" last_sfn (set_num "last_slot" last_slot (set_num "time_since_last_timing_info" ms zero)))
  | _ => None
  end.
Definition nr_perform (evs : list nr_event) (st : state) : state * list output := perform nr_pack nr_answer evs st.

(* src: pnf_p7.c :: pnf_handle_ul_tti_request *)
Definition nr_received (k : nr_kind) (type : string) (st : state) (msg : list Z) : option (state * list output) :=
  let ptr := e_next st in
  match nr_unpack msg (sizeof type) with
  | None =>
      match nr_handle k c (e_pnf st) (NrRequest ptr 0 0) false with
      | None => None
      | Some (p, evs) => Some (nr_perform evs (Endpoint p (e_sequence st) (ptr + 1) (e_messages st)))
      end
  | Some (h, s) =>
      match nr_handle k c (e_pnf st) (NrRequest ptr (num s "SFN") (num s "Slot")) true with
      | None => None
      | Some (p, evs) => Some (nr_perform evs (Endpoint p (e_sequence st) (ptr + 1) (<[ptr := (h, s)]> (e_messages st))))
      end
  end.

(* src: pnf_p7.c :: pnf_nr_handle_dl_node_sync *)
Definition nr_node_sync (st : state) (rx_hr_time now : Z) (msg : list Z) : state * list output :=
  match nr_unpack msg (sizeof "nfapi_nr_dl_node_sync_t") with
  | None => (st, [])
  | Some (h, s) =>
      let '(p, (phy, t1, t2, t3)) :=
        PnfNrP7.pnf_nr_handle_dl_node_sync (e_pnf st) (phy_id h) (num s "t1") (num s "delta_sfn_slot") rx_hr_time now in
      let '(_, st, out) := send nr_pack (P7Header phy NFAPI_NR_PHY_MSG_TYPE_UL_NODE_SYNC 0 0 0 0)
        (set_num "t1" t1 (set_num "t2" t2 (set_num "t3" t3 zero))) (with_pnf p st) in
      (st, out)
  end.

(* src: pnf_p7.c :: pnf_nr_dispatch_p7_message *)
Definition pnf_nr_dispatch_p7_message (st : state) (rx_hr_time now : Z) (msg : list Z) : option (state * list output) :=
  if zlen msg <? 4 then Some (st, []) else
  match nfapi_p7_message_header_unpack msg 16 with
  | None => Some (st, [])
  | Some header =>
    if zlen msg <? 8 then Some (st, []) else
    switch
      [(NFAPI_NR_PHY_MSG_TYPE_DL_NODE_SYNC, Some (nr_node_sync st rx_hr_time now msg));
       (NFAPI_NR_PHY_MSG_TYPE_DL_TTI_REQUEST, nr_received DlTti "nfapi_nr_dl_tti_request_t" st msg);
       (NFAPI_NR_PHY_MSG_TYPE_UL_TTI_REQUEST, nr_received UlTti "nfapi_nr_ul_tti_request_t" st msg);
       (NFAPI_NR_PHY_MSG_TYPE_UL_DCI_REQUEST, nr_received UlDci "nfapi_nr_ul_dci_request_t" st msg);
       (NFAPI_NR_PHY_MSG_TYPE_TX_DATA_REQUEST, nr_received TxData "nfapi_nr_tx_data_request_t" st msg)]
      (Some (st, if is_vendor_extension (message_id header)
                 then pnf_handle_p7_vendor_extension (message_id header) msg else []))
      (message_id header)
  end.

(* src: pnf_p7_interface.c :: nfapi_pnf_p7_slot_ind *)
Definition nfapi_pnf_p7_slot_ind (config : option state) (sfn slot now : Z) : option (Z * option state * list output) :=
  match config with
  | None => Some (-1, None, [])
  | Some st =>
      match pnf_p7_slot_ind c (e_pnf st) sfn slot now with
      | None => None
      | Some (p, evs) => let '(st, out) := nr_perform evs (with_pnf p st) in Some (0, Some st, out)
      end
  end.
End nr.
End endpoint.
