(* ===== verification/PnfDownlink.v ===== *)
(** * Requests from the MAC behind the VNF to the PHY

    The receiving half of the PNF's P7 endpoint: datagrams are collected
    ([Segmentation]) and what they make up is dispatched ([PnfEndpoint]).  A request
    of the MAC that the VNF packed and sent, in one datagram or in segments that
    arrive in any order, reaches the UEs and, for LTE, the PHY in the subframe that
    is due, as the sender's codec says. *)

From stdpp Require Import gmap strings.
From S2P Require Import Prelude Tags Sfn Codec Ids P7Header Layout LtePdu LteData.
From S2P Require Import LteDownlink NrDownlink NrP7 LteP7 Segmentation Ownership PnfP7 PnfNrP7 Aggregate.
From S2P Require Import VnfSync VnfP7 VnfUplink PnfEndpoint.

Open Scope string_scope.
Open Scope list_scope.
Open Scope Z_scope.

(** ** Datagrams *)

(** A message of the sender, whatever order its datagrams arrive in if none is lost
    or duplicated, all come within 1000 microseconds of the first and its sequence
    number is not in use. *)
Lemma datagrams_received crc32 cfg touch h body : touch_ok touch -> header_ok h -> in_u8 (m_segment_sequence h) ->
  NFAPI_P7_GET_MORE (m_segment_sequence h) = 0 -> NFAPI_P7_GET_SEGMENT (m_segment_sequence h) = 0 ->
  16 < segment_size cfg < 65536 -> 16 + zlen body <= 65535 -> zlen body <= 128 * (segment_size cfg - 16) ->
  message_length h <= 16 + zlen body ->
  forall q t0 i0 arr, (i0 :: arr.*2) ≡ₚ seq 0 (length (datagrams crc32 cfg touch (header_bytes h ++ body))) ->
    Forall (fun a => u32 (a.1 - t0) <= 1000) arr -> Forall (other (m_segment_sequence h)) q ->
    exists h' q', receive crc32 (checksum_enabled cfg) q
        (arrivals (datagrams crc32 cfg touch (header_bytes h ++ body)) ((t0, i0) :: arr)) =
        Some ([(header_bytes h' ++ body, t0)], q') /\
      same_message h h' /\ header_ok h' /\ message_length h' <= 16 + zlen body /\ Forall (other (m_segment_sequence h)) q'.
Proof.
  intros Ht Hh H8 Hmore Hseg Hss Hlen H128 Hml q t0 i0 arr Hp Hts Hq.
  destruct (Z.le_gt_cases (16 + zlen body) (segment_size cfg)) as [Hs|Hs].
  - destruct (datagrams_single crc32 cfg _ h body Ht Hh Hs) as (h' & E & Hsame & Hok & Hl' & Hm & Ha). rewrite E in *.
    assert (i0 = 0%nat /\ arr = []) as [-> ->].
    { pose proof (Permutation_length Hp) as Hn. cbn in Hn. rewrite length_fmap in Hn. destruct arr; [|simpl in Hn; lia].
      split; [|done]. apply Permutation_singleton_inj in Hp. done. }
    exists h', (pnf_p7_rx_reassembly_queue_remove_old_msgs q t0 1000). rewrite <- Hl' in Hml.
    split; [|split; [done|split; [done|split; [done|by apply remove_old_other]]]].
    unfold receive, arrivals. cbn [fmap list_fmap feed fst snd lookup list_lookup from_option]. unfold id, pnf_handle_p7_message.
    rewrite Ha, Hm, Hmore, Hseg. cbn [Z.eqb andb]. done.
  - destruct (datagrams_segmented crc32 cfg _ h body Ht Hh) as (hs & h' & E & Hg & Hm & Hsame & Hok & Hl' & _); [done..|lia|done|].
    rewrite E in *. rewrite length_fmap in Hp.
    destruct (receive_all crc32 (checksum_enabled cfg) _ hs Hg t0 ((t0, i0) :: arr) q) as (q' & Er & Hq'); try done.
    + constructor; [|done]. cbn [fst]. by rewrite Z.sub_diag.
    + by intros a [= <-].
    + exists h', q'. rewrite <- Hm. done.
Qed.

(** ** The endpoint *)

Section endpoint.
Context {P E : Type} (crc32 : Z -> list Z -> Z) (cksum_enabled : bool).
Context (dispatch : pnf_endpoint P -> Z -> Z -> list Z -> option (pnf_endpoint P * list (pnf_output E))).

Definition pnf_dispatch_at (now : Z) (st : pnf_endpoint P) (m : list Z * Z) : option (list (pnf_output E) * pnf_endpoint P) :=
  match dispatch st m.2 now m.1 with Some (st, out) => Some (out, st) | None => None end.

(** A datagram with the time it is received and the clock when it is dispatched. *)
(* src: pnf_p7.c :: pnf_handle_p7_message *)
Definition pnf_receive_datagram (s : reassembly_queue * pnf_endpoint P) (a : Z * Z * list Z) :
    option (list (pnf_output E) * (reassembly_queue * pnf_endpoint P)) :=
  let '(rx_hr_time, now, data) := a in
  match pnf_handle_p7_message crc32 cksum_enabled s.1 rx_hr_time data with
  | None => None
  | Some (out, q) =>
      match feed (pnf_dispatch_at now) s.2 out with
      | None => None
      | Some (evs, st) => Some (evs, (q, st))
      end
  end.

(** If the datagrams make up one message, they have the effect of its dispatch. *)
Lemma receive_quiet l : forall q st q',
  receive crc32 cksum_enabled q ((fun a => (a.1.1, a.2)) <$> l) = Some ([], q') ->
  feed pnf_receive_datagram (q, st) l = Some ([], (q', st)).
Proof.
  induction l as [|[[rx now] data] l IH]; intros q st q'; unfold receive; cbn [fmap list_fmap feed fst snd]; [by intros [= <-]|].
  destruct (pnf_handle_p7_message _ _ _ _ _) as [[out q1]|] eqn:E1; [|done].
  destruct (feed _ q1 _) as [[out' q2]|] eqn:E2; [|done]. intros [= Ho <-]. apply app_nil in Ho as [-> ->].
  unfold pnf_receive_datagram at 1. cbn [fst snd]. rewrite E1. cbn [feed]. by rewrite (IH q1 st q2 E2).
Qed.
Lemma receive_one l : forall q st q' m out st',
  receive crc32 cksum_enabled q ((fun a => (a.1.1, a.2)) <$> l) = Some ([m], q') ->
  (forall now, dispatch st m.2 now m.1 = Some (st', out)) ->
  feed pnf_receive_datagram (q, st) l = Some (out, (q', st')).
Proof.
  induction l as [|[[rx now] data] l IH]; intros q st q' m out st'; unfold receive; cbn [fmap list_fmap feed fst snd]; [done|].
  destruct (pnf_handle_p7_message _ _ _ _ _) as [[out1 q1]|] eqn:E1; [|done].
  destruct (feed _ q1 _) as [[out' q2]|] eqn:E2; [|done]. intros [= Ho <-] Hd.
  unfold pnf_receive_datagram at 1. cbn [fst snd]. rewrite E1.
  destruct out1 as [|m1 out1]; cbn [app] in Ho.
  - subst out'. cbn [feed]. by rewrite (IH q1 st q2 m out st' E2 Hd).
  - injection Ho as -> Ho. apply app_nil in Ho as [-> ->]. cbn [feed]. unfold pnf_dispatch_at. rewrite Hd.
    rewrite (receive_quiet l q1 st' q2 E2). by rewrite !app_nil_r.
Qed.
End endpoint.

(** ** Sending at the VNF *)

Definition pnf_arrivals (ds : list (list Z)) (arr : list (Z * Z * nat)) : list (Z * Z * list Z) :=
  (fun a => (a.1.1, a.1.2, default [] (ds !! a.2))) <$> arr.
Lemma pnf_arrivals_rx ds arr :
  (fun a : Z * Z * list Z => (a.1.1, a.2)) <$> pnf_arrivals ds arr = arrivals ds ((fun a : Z * Z * nat => (a.1.1, a.2)) <$> arr).
Proof. unfold pnf_arrivals, arrivals. rewrite <- !list_fmap_compose. done. Qed.

(** The header of the message that is cut into datagrams. *)
Definition vnf_sends (crc32 : Z -> list Z -> Z) (cfg : vnf_p7_config) (st : vnf_p7_t) (now : Z)
    (conn : nfapi_vnf_p7_connection_info_t) (h : nfapi_p7_message_header_t) (body : list Z) : list (list Z) :=
  datagrams crc32 (v_p7 cfg)
    (fun _ b => (nfapi_p7_update_transmit_timestamp b
       (calculate_transmit_timestamp now (sfn_slot conn).1 (sfn_slot conn).2 (slot_start_time_hr st))).2)
    (header_bytes (packed_header h (sequence_number conn) body) ++ body).

Lemma timestamps_ok st now conn : touch_ok (fun _ b => (nfapi_p7_update_transmit_timestamp b
  (calculate_transmit_timestamp now (sfn_slot conn).1 (sfn_slot conn).2 (slot_start_time_hr st))).2).
Proof. apply touch_timestamp_ok. intros _. unfold calculate_transmit_timestamp. wrap_lia. Qed.

Lemma plain_mss_u8 n : in_u8 (NFAPI_P7_SET_MSS 0 0 n).
Proof. rewrite set_mss_plain. unfold mss. cbn [b2z]. wrap_lia. Qed.

Section sent.
#[local] Set Default Proof Using "Type*".
Context (crc32 : Z -> list Z -> Z) (cfg : vnf_p7_config) (st : vnf_p7_t) (now : Z) (conn : nfapi_vnf_p7_connection_info_t).
Context (h : nfapi_p7_message_header_t) (body : list Z) (Hh : header_ok h).
Context (Hss : 16 < segment_size (v_p7 cfg) < 65536) (Hlen : 16 + zlen body <= 32768).
Context (H128 : zlen body <= 128 * (segment_size (v_p7 cfg) - 16)).
#[local] Abbreviation ds := (vnf_sends crc32 cfg st now conn h body).
#[local] Abbreviation sequ := (sequence_number conn).

Lemma vnf_sends_some : ds <> [].
Proof.
  assert (header_ok (packed_header h sequ body)) as Hp by (apply packed_header_ok; [done|lia]). unfold vnf_sends.
  destruct (Z.le_gt_cases (16 + zlen body) (segment_size (v_p7 cfg))) as [Hs|Hs].
  - by destruct (datagrams_single crc32 (v_p7 cfg) _ _ body (timestamps_ok st now conn) Hp Hs) as (h' & -> & _).
  - destruct (datagrams_segmented crc32 (v_p7 cfg) _ _ body (timestamps_ok st now conn) Hp) as (hs & h' & -> & Hg & _);
      [apply plain_mss_u8|done|lia|done|].
    pose proof (sg_count _ _ _ _ Hg). by destruct hs; [simpl in *; lia|].
Qed.

Lemma message_sent (pack : nfapi_p7_message_header_t -> struct -> Z -> option (list Z)) s :
  vnf_p7_connection_info_list_find (p7_connections st) (phy_id h) = Some conn ->
  pack (with_mss h (NFAPI_P7_SET_MSS 0 0 sequ)) s (1024 * 32) = Some (header_bytes (packed_header h sequ body) ++ body) ->
  exists st', VnfP7.pack_and_send crc32 cfg pack st now h s = (0, st', [Sent (phy_id h) ds]).
Proof.
  intros Hf Hp. unfold VnfP7.pack_and_send. rewrite Hf. unfold vnf_p7_pack_and_send_p7_msg. rewrite Hp.
  eexists. pose proof vnf_sends_some as Hne. unfold vnf_sends in *. destruct (datagrams _ _ _ _); [done|reflexivity].
Qed.
Lemma request_sent (pack : nfapi_p7_message_header_t -> struct -> Z -> option (list Z)) s :
  vnf_p7_connection_info_list_find (p7_connections st) (phy_id h) = Some conn ->
  pack (with_mss h (NFAPI_P7_SET_MSS 0 0 sequ)) s (1024 * 32) = Some (header_bytes (packed_header h sequ body) ++ body) ->
  exists st', p7_request crc32 cfg pack (Some st) now (Some (h, s)) = (0, Some st', [Sent (phy_id h) ds]).
Proof. intros Hf Hp. destruct (message_sent pack s Hf Hp) as [st' E]. unfold p7_request. rewrite E. by eexists. Qed.

Lemma request_received q t0 t0' i0 arr : (i0 :: arr.*2) ≡ₚ seq 0 (length ds) ->
  Forall (fun a => u32 (a.1.1 - t0) <= 1000) arr -> Forall (other (NFAPI_P7_SET_MSS 0 0 sequ)) q ->
  exists h' q', receive crc32 (checksum_enabled (v_p7 cfg)) q
      ((fun a => (a.1.1, a.2)) <$> pnf_arrivals ds ((t0, t0', i0) :: arr)) = Some ([(header_bytes h' ++ body, t0)], q') /\
    same_message h h' /\ header_ok h' /\ message_length h' <= 16 + zlen body /\
    Forall (other (NFAPI_P7_SET_MSS 0 0 sequ)) q'.
Proof.
  intros Hp Hts Hq. rewrite pnf_arrivals_rx, fmap_cons.
  destruct (mss_get false 0 (sequ mod 16)) as (Hm & Hs & _); [lia|lia|].
  apply (datagrams_received crc32 (v_p7 cfg) _ (packed_header h sequ body) body (timestamps_ok st now conn));
    cbn [packed_header m_segment_sequence message_length];
    [apply packed_header_ok; [done|lia]|apply plain_mss_u8|by rewrite set_mss_plain|by rewrite set_mss_plain|done|lia|done|lia|..|done].
  - rewrite <- list_fmap_compose. done.
  - rewrite Forall_fmap. exact Hts.
Qed.
End sent.

(** ** LTE *)

(** What is sent on the way changes neither the buffers nor the messages. *)
Lemma perform_keeps {P E} crc32 cfg pack (answer : E -> option message_of) evs : forall st : pnf_endpoint P,
  let r := perform crc32 cfg pack answer evs st in
  e_pnf r.1 = e_pnf st /\ e_next r.1 = e_next st /\ e_messages r.1 = e_messages st /\
  forall e, e ∈ evs -> answer e = None -> Did e ∈ r.2.
Proof.
  induction evs as [|e evs IH]; intros st; cbn [perform].
  { repeat split. by intros e ?%elem_of_nil. }
  destruct (answer e) as [[h s]|] eqn:Ea.
  - destruct (send crc32 cfg pack h s st) as [[r st1] out] eqn:Es.
    assert (e_pnf st1 = e_pnf st /\ e_next st1 = e_next st /\ e_messages st1 = e_messages st) as (E1 & E2 & E3).
    { unfold send in Es. destruct (pnf_p7_pack_and_send_p7_message _ _ _ _) as [[? ?] ?]. by injection Es as _ <- _. }
    specialize (IH st1). destruct (perform crc32 cfg pack answer evs st1) as [st2 out']. cbn in IH |- *.
    destruct IH as (-> & -> & -> & IH). do 3 (split; [done|]). intros e' [->|He]%elem_of_cons Hn; [by rewrite Ea in Hn|].
    apply elem_of_app. right. by apply IH.
  - specialize (IH st). destruct (perform crc32 cfg pack answer evs st) as [st2 out']. cbn in IH |- *.
    destruct IH as (-> & -> & -> & IH). do 3 (split; [done|]). intros e' [->|He]%elem_of_cons Hn; [by left|].
    right. by apply IH.
Qed.

(** The structure and the kind of each request. *)
Definition lte_requests : list (Z * (string * req_kind)) :=
  [(NFAPI_DL_CONFIG_REQUEST, ("nfapi_dl_config_request_t", DlConfig));
   (NFAPI_UL_CONFIG_REQUEST, ("nfapi_ul_config_request_t", UlConfig));
   (NFAPI_HI_DCI0_REQUEST, ("nfapi_hi_dci0_request_t", HiDci0));
   (NFAPI_TX_REQUEST, ("nfapi_tx_request_t", Tx));
   (NFAPI_LBT_DL_CONFIG_REQUEST, ("nfapi_lbt_dl_config_request_t", LbtDlConfig));
   (NFAPI_UE_RELEASE_REQUEST, ("nfapi_ue_release_request_t", UeRelease))].

(** An identifier that is not in the table. *)
Ltac no_such H := repeat first [ apply elem_of_nil in H; contradiction | apply elem_of_cons in H; destruct H as [H|H]; [discriminate H|] ].
Ltac type_size :=
  lazymatch goal with |- _ = ?sizeof ?t =>
    transitivity (fits_in sizeof t (sizeof t)); [reflexivity|unfold fits_in; by rewrite Z.leb_refl] end.

Lemma lte_request_codec id type k c : (id, (type, k)) ∈ lte_requests -> (id, c) ∈ lte_p7_codecs ->
  (forall s, num (lc_copy c s) "sfn_sf" = num s "sfn_sf") /\
  forall sizeof, check_unpack_length sizeof id (sizeof type) = sizeof type.
Proof.
  intros Hr Hc. split.
  - assert (forall f x s, num (message_copy f x s) "sfn_sf" = num s "sfn_sf") as H by reflexivity.
    unfold lte_p7_codecs in Hc. unfold lte_requests in Hr. intros s. case_lte Hc; try apply H; by no_such Hr.
  - intros sizeof. clear Hc. unfold lte_requests in Hr. case_indication Hr; type_size.
Qed.

Section lte.
Context (sizeof : string -> Z) (behind : nat -> Z) (crc32 : Z -> list Z -> Z).
Context (vp : option (struct -> packer)) (vu : option (Z -> list Z -> Z * struct)) (cfg : endpoint_config) (c : pnf_p7_config).
#[local] Abbreviation dispatch := (pnf_dispatch_p7_message sizeof behind crc32 vp vu cfg c).

(** A request that the buffers take. *)
Lemma lte_request_dispatched id type k codec s h' st rx now p evs :
  (id, (type, k)) ∈ lte_requests -> (id, codec) ∈ lte_p7_codecs -> lc_ok codec s -> 16 <= sizeof type ->
  header_ok h' -> message_id h' = id -> message_length h' <= 16 + zlen (lc_bytes codec s) ->
  handle_request k c (e_pnf st) (Request (e_next st) (num s "sfn_sf") (phy_id h')) true = Some (p, evs) ->
  dispatch st rx now (header_bytes h' ++ lc_bytes codec s) =
  Some (lte_perform crc32 vp cfg evs
          (Endpoint p (e_sequence st) (e_next st + 1) (<[e_next st := (h', lc_copy codec s)]> (e_messages st)))).
Proof.
  intros Hin Hc Hok H16 Hh' Hid Hl Hr. destruct (dispatched_header h' (lc_bytes codec s) Hh') as [E1 E2].
  destruct (lte_request_codec id type k codec Hin Hc) as [Hsf Hroom].
  assert (lte_request sizeof behind crc32 vp vu cfg c k type st (header_bytes h' ++ lc_bytes codec s) =
    Some (lte_perform crc32 vp cfg evs
      (Endpoint p (e_sequence st) (e_next st + 1) (<[e_next st := (h', lc_copy codec s)]> (e_messages st))))) as E.
  { unfold lte_request, lte_unpack, nfapi_p7_message_unpack. rewrite p7_frame_unpack_ok by done.
    rewrite Hid, (lte_p7_unpacks sizeof behind vu id codec s) by (done || (rewrite Hroom; lia)).
    cbn [Z.eqb]. by rewrite Hsf, Hr. }
  unfold pnf_dispatch_p7_message. rewrite E1, E2, Hid.
  assert ((zlen (header_bytes h' ++ lc_bytes codec s) <? 8) = false) as -> by (pose proof (zlen_nonneg (lc_bytes codec s)); zlen_lia).
  clear - Hin E. unfold lte_requests in Hin. case_indication Hin; rewrite <- E; reflexivity.
Qed.
End lte.

(** C5. A request of the MAC for a PHY the VNF has a connection to, that may be sent,
    of at most 32768 bytes and 128 segments, is sent; if its datagrams reach a PNF
    whose window it is in, in any order, each once and within 1000 microseconds of
    the first, and no segments with its sequence number are left over, the PNF
    unpacks it once, to the structure its codec describes at a fresh address, and
    transfers it to the UEs (not the LBT and release requests); after any operations
    that neither displace it nor visit its buffer, the subframe indication that is
    due hands it to the callback of the PHY and frees it afterwards. *)
Theorem lte_request_reaches_phy sizeof behind crc32 vvp pvp vu vcfg cfg c id type k codec h s vst now conn r :
  (id, (type, k)) ∈ lte_requests -> (id, codec) ∈ lte_p7_codecs -> 16 <= sizeof type -> message_id h = id -> header_ok h ->
  lc_ok codec s -> 16 + zlen (lc_bytes codec s) <= 32768 ->
  16 < segment_size (v_p7 vcfg) < 65536 -> zlen (lc_bytes codec s) <= 128 * (segment_size (v_p7 vcfg) - 16) ->
  vnf_p7_connection_info_list_find (p7_connections vst) (phy_id h) = Some conn ->
  num s "sfn_sf" = sfnsf r -> 0 <= r < 10240 ->
  exists vst' ds, p7_request crc32 vcfg (lte_pack vvp) (Some vst) now (Some (h, s)) = (0, Some vst', [Sent (phy_id h) ds]) /\
  forall q st t0 t0' i0 arr ops later, (i0 :: arr.*2) ≡ₚ seq 0 (length ds) ->
    Forall (fun a => u32 (a.1.1 - t0) <= 1000) arr -> Forall (other (NFAPI_P7_SET_MSS 0 0 (sequence_number conn))) q ->
    ring_ok c (e_pnf st) -> sfn_sf_shift (e_pnf st) = 0 ->
    is_p7_request_in_window (sfnsf r) (p_sfn_sf (e_pnf st)) (subframe_buffer_size c) = 1 ->
    Forall op_ok ops -> Forall (leaves c k (sfnsf r)) ops ->
    let req := Request (e_next st) (sfnsf r) (phy_id h) in
    exists h' q' st1 out p2 evs2 p3 evs3,
      feed (pnf_receive_datagram crc32 (checksum_enabled (v_p7 vcfg)) (pnf_dispatch_p7_message sizeof behind crc32 pvp vu cfg c))
        (q, st) (pnf_arrivals ds ((t0, t0', i0) :: arr)) = Some (out, (q', st1)) /\
      same_message h h' /\ e_messages st1 = <[e_next st := (h', lc_copy codec s)]> (e_messages st) /\
      (transferred k = true -> Did (Transfer k req) ∈ out) /\
      pnf_run c (e_pnf st1) ops = Some (p2, evs2) /\
      pnf_p7_subframe_ind c p2 (sfnsf (due k r)) later = Some (p3, evs3) /\ handed_over (has_callback c) k req evs3.
Proof.
  intros Hin Hc H16 Hid Hh Hok Hlen Hss H128 Hf Hsf Hr.
  destruct (request_sent crc32 vcfg vst now conn h (lc_bytes codec s) Hh Hss Hlen H128 (lte_pack vvp) s Hf) as [vst' Esent].
  { apply (packed_frame h _ (pack_p7_message_body vvp (message_id h) s)); [done| |lia..]. rewrite Hid. by apply lte_p7_packs. }
  exists vst'. eexists. split; [exact Esent|].
  intros q st t0 t0' i0 arr ops later Hp Hts Hq Hring Hshift Hw Hops Hl req.
  destruct (request_received crc32 vcfg vst now conn h (lc_bytes codec s) Hh Hss Hlen H128 q t0 t0' i0 arr Hp Hts Hq)
    as (h' & q' & Erx & [Hphy Hid'] & Hh' & Hl' & Hq').
  pose proof (sfnsf_range r Hr). assert (0 <= rq_sfn_sf req < 65536) as Hrq by (cbn; lia).
  destruct (handle_request_total k c (e_pnf st) req true Hring (proj1 Hrq)) as (p1 & evs1 & E1 & Hp1).
  destruct (handle_request_stores k c (e_pnf st) req p1 evs1 E1) as [Hh1 Ht]; [cbn; lia|done|].
  assert (forall rx now, pnf_dispatch_p7_message sizeof behind crc32 pvp vu cfg c st rx now (header_bytes h' ++ lc_bytes codec s) =
    Some (lte_perform crc32 pvp cfg evs1
      (Endpoint p1 (e_sequence st) (e_next st + 1) (<[e_next st := (h', lc_copy codec s)]> (e_messages st))))) as Hd.
  { intros rx now'. apply (lte_request_dispatched sizeof behind crc32 pvp vu cfg c id type k); try done; [by rewrite Hid', <- Hid|].
    by rewrite Hsf, Hphy. }
  unfold lte_perform in Hd.
  destruct (perform_keeps crc32 cfg (lte_pack pvp) (lte_answer cfg) evs1
    (Endpoint p1 (e_sequence st) (e_next st + 1) (<[e_next st := (h', lc_copy codec s)]> (e_messages st)))) as (Ep & _ & Em & Hdid).
  destruct (perform _ _ _ _ _ _) as [st1 out]. cbn [fst snd e_pnf e_messages] in Ep, Em, Hdid.
  destruct (held_is_delivered c p1 k r req ops later Hp1 Hr eq_refl Hh1 Hops Hl) as (p2 & evs2 & p3 & evs3 & E2 & E3 & Hover).
  exists h', q', st1, out, p2, evs2, p3, evs3. rewrite Ep, Em.
  split; [by apply (receive_one crc32 _ _ _ q st q' (header_bytes h' ++ lc_bytes codec s, t0))|].
  do 2 (split; [done|]). split; [intros Ht1; by apply Hdid; [apply Ht|]|done].
Qed.

(** A connection to the PHY of the sample messages; the endpoints of the PNF. *)
Definition sample_vnf : vnf_p7_t := VnfP7 [new_connection 1; new_connection (phy_id (sample_p7_header 0))] 0 0 0.
Definition sample_endpoint_config : endpoint_config := EndpointConfig (P7Config 40 true) 1 None false.
Definition sample_pnf : pnf_endpoint pnf_p7_t := Endpoint (idle_pnf 2908) 0 7 ∅.

(** In segments of 40 bytes, six subframes ahead, with another request on the way. *)
Lemma lte_request_reaches_phy_witness :
  let codec := pdu_codec NFAPI_DL_CONFIG_REQUEST_BODY_TAG "dl_config_request_body"
    pack_dl_config_request_body_value unpack_dl_config_request_body_value in
  let h := sample_p7_header NFAPI_DL_CONFIG_REQUEST in
  let req := Request 7 (sfnsf 2914) (phy_id h) in
  exists vst' ds, p7_request (fun c l => c + foldr Z.add 0 l) sample_vnf_config (lte_pack None) (Some sample_vnf) 0
      (Some (h, sample_dl_config)) = (0, Some vst', [Sent (phy_id h) ds]) /\
  forall t0' i0 arr, (i0 :: arr.*2) ≡ₚ seq 0 (length ds) -> Forall (fun a => u32 (a.1.1 - 5) <= 1000) arr ->
    exists h' q' st1 out p2 evs2 p3 evs3,
      feed (pnf_receive_datagram (fun c l => c + foldr Z.add 0 l) true
             (pnf_dispatch_p7_message (fun _ => 64) (fun _ => 0) (fun c l => c + foldr Z.add 0 l) None None
                sample_endpoint_config (plain_config 30)))
        ([], sample_pnf) (pnf_arrivals ds ((5, t0', i0) :: arr)) = Some (out, (q', st1)) /\
      same_message h h' /\ e_messages st1 = <[7 := (h', lc_copy codec sample_dl_config)]> ∅ /\
      (transferred DlConfig = true -> Did (Transfer DlConfig req) ∈ out) /\
      pnf_run (plain_config 30) (e_pnf st1) [Subframe (sfnsf 2909) 0; Arrive Tx (Request 8 (sfnsf 2914) 0) true] = Some (p2, evs2) /\
      pnf_p7_subframe_ind (plain_config 30) p2 (sfnsf (due DlConfig 2914)) 0 = Some (p3, evs3) /\
      handed_over (has_callback (plain_config 30)) DlConfig req evs3.
Proof.
  cbv zeta. destruct (lte_request_reaches_phy (fun _ => 64) (fun _ => 0) (fun c l => c + foldr Z.add 0 l) None None None
    sample_vnf_config sample_endpoint_config (plain_config 30) NFAPI_DL_CONFIG_REQUEST "nfapi_dl_config_request_t" DlConfig
    (pdu_codec NFAPI_DL_CONFIG_REQUEST_BODY_TAG "dl_config_request_body"
      pack_dl_config_request_body_value unpack_dl_config_request_body_value)
    (sample_p7_header NFAPI_DL_CONFIG_REQUEST) sample_dl_config sample_vnf 0
    (new_connection (phy_id (sample_p7_header 0))) 2914) as (vst' & ds & E & F).
  - apply list_elem_of_here.
  - apply list_elem_of_here.
  - discriminate.
  - reflexivity.
  - repeat split; discriminate.
  - apply (pdu_message_okb_spec NFAPI_DL_CONFIG_REQUEST_BODY_TAG "dl_config_request_body"
      pack_dl_config_request_body_value unpack_dl_config_request_body_value). vm_compute. reflexivity.
  - vm_compute. discriminate.
  - split; reflexivity.
  - vm_compute. discriminate.
  - vm_compute. reflexivity.
  - vm_compute. reflexivity.
  - split; [discriminate|reflexivity].
  - exists vst', ds. split; [exact E|]. intros t0' i0 arr Hp Hts.
    apply (F [] sample_pnf 5 t0' i0 arr [Subframe (sfnsf 2909) 0; Arrive Tx (Request 8 (sfnsf 2914) 0) true] 0 Hp Hts).
    + constructor.
    + split; [reflexivity|split; discriminate].
    + reflexivity.
    + vm_compute. reflexivity.
    + repeat constructor; vm_compute; congruence.
    + repeat (apply Forall_cons; split); [| |by apply Forall_nil].
      * split; [by vm_compute|intros _; by vm_compute].
      * right. by split.
Defined.

(** ** NR *)

(** Without UL_TTI, of which packer and unpacker disagree. *)
Definition nr_requests : list (Z * (string * nr_kind)) :=
  [(NFAPI_NR_PHY_MSG_TYPE_DL_TTI_REQUEST, ("nfapi_nr_dl_tti_request_t", DlTti));
   (NFAPI_NR_PHY_MSG_TYPE_UL_DCI_REQUEST, ("nfapi_nr_ul_dci_request_t", UlDci));
   (NFAPI_NR_PHY_MSG_TYPE_TX_DATA_REQUEST, ("nfapi_nr_tx_data_request_t", TxData))].

Lemma nr_request_codec id type k prep ps us : (id, (type, k)) ∈ nr_requests -> (id, (prep, ps, us)) ∈ nr_p7_codecs ->
  (forall s, num (rows_copy [] us (prep s) zero) "SFN" = num s "SFN" /\ num (rows_copy [] us (prep s) zero) "Slot" = num s "Slot") /\
  (forall s, rows_ok [] us (prep s) -> in_u16 (num s "SFN") /\ in_u16 (num s "Slot")) /\
  forall sizeof, check_nr_unpack_length sizeof id (sizeof type) = sizeof type.
Proof.
  intros Hr Hc. split; [|split].
  - assert (forall rows s s', num s' "SFN" = num s "SFN" -> num s' "Slot" = num s "Slot" ->
      "SFN" ∉ foldr (fun r fs => resized r ++ fs) [] rows -> "Slot" ∉ foldr (fun r fs => resized r ++ fs) [] rows ->
      num (rows_copy [] (Num U16 "SFN" :: Num U16 "Slot" :: rows) s' zero) "SFN" = num s "SFN" /\
      num (rows_copy [] (Num U16 "SFN" :: Num U16 "Slot" :: rows) s' zero) "Slot" = num s "Slot") as H.
    { intros rows s s' <- <- H1 H2. split.
      - apply (rows_copy_num _ _ _ (Num U16 "SFN")); [by left|by left|done].
      - apply (rows_copy_num _ _ _ (Num U16 "Slot")); [by right; left|by left|done]. }
    intros s. unfold nr_p7_codecs in Hc. unfold nr_requests in Hr. case_codecs Hc; try (by no_such Hr).
    all: apply H; try (by destruct s); by apply (bool_decide_unpack _).
  - intros s Hok. unfold nr_p7_codecs in Hc. unfold nr_requests in Hr. case_codecs Hc; try (by no_such Hr).
    all: destruct Hok as (H1 & H2 & _); by destruct s.
  - intros sizeof. clear Hc. unfold nr_requests in Hr. case_indication Hr; type_size.
Qed.

Section nr.
Context (sizeof : string -> Z) (behind : nat -> Z) (crc32 : Z -> list Z -> Z).
Context (vp : option (struct -> packer)) (vu : option (Z -> list Z -> Z * struct)) (cfg : endpoint_config) (c : nr_config).

Lemma nr_request_dispatched id type k prep ps us s h' st rx now p evs : let copy := rows_copy [] us (prep s) zero in
  (id, (type, k)) ∈ nr_requests -> (id, (prep, ps, us)) ∈ nr_p7_codecs -> rows_ok [] us (prep s) -> 16 <= sizeof type ->
  header_ok h' -> message_id h' = id -> message_length h' <= 16 + zlen (rows_bytes [] us (prep s)) ->
  nr_handle k c (e_pnf st) (NrRequest (e_next st) (num s "SFN") (num s "Slot")) true = Some (p, evs) ->
  pnf_nr_dispatch_p7_message sizeof behind crc32 vp vu cfg c st rx now (header_bytes h' ++ rows_bytes [] us (prep s)) =
  Some (nr_perform crc32 vp cfg evs
          (Endpoint p (e_sequence st) (e_next st + 1) (<[e_next st := (h', copy)]> (e_messages st)))).
Proof.
  intros copy Hin Hc Hok H16 Hh' Hid Hl Hr. destruct (dispatched_header h' (rows_bytes [] us (prep s)) Hh') as [E1 E2].
  destruct (nr_request_codec id type k prep ps us Hin Hc) as (Hsf & _ & Hroom). destruct (Hsf s) as [Hsfn Hslot].
  assert (nr_received sizeof crc32 vp vu cfg c k type st (header_bytes h' ++ rows_bytes [] us (prep s)) =
    Some (nr_perform crc32 vp cfg evs
      (Endpoint p (e_sequence st) (e_next st + 1) (<[e_next st := (h', copy)]> (e_messages st))))) as E.
  { unfold nr_received, nr_unpack, nfapi_nr_p7_message_unpack. rewrite p7_frame_unpack_ok by done.
    rewrite Hid, (nr_p7_unpacks sizeof vu id prep ps us s) by (done || (rewrite Hroom; lia)).
    cbn [Z.eqb]. by rewrite Hsfn, Hslot, Hr. }
  unfold pnf_nr_dispatch_p7_message. rewrite E1, E2, Hid.
  assert ((zlen (header_bytes h' ++ rows_bytes [] us (prep s)) <? 8) = false) as ->
    by (pose proof (zlen_nonneg (rows_bytes [] us (prep s))); zlen_lia).
  clear - Hin E. unfold nr_requests in Hin. case_indication Hin; rewrite <- E; reflexivity.
Qed.
End nr.

(** Events that are not answered go through. *)
Lemma perform_quiet {P E} crc32 cfg pack (answer : E -> option message_of) evs (st : pnf_endpoint P) :
  Forall (fun e => answer e = None) evs -> perform crc32 cfg pack answer evs st = (st, Did <$> evs).
Proof. induction 1 as [|e evs He _ IH]; [done|]. cbn [perform]. by rewrite He, IH. Qed.

(** The requests transferred to the UEs. *)
Definition to_ues {K R X : Type} (out : list (pnf_output (event K R X))) : list (K * R) :=
  omap (fun o => match o with Did (Transfer k r) => Some (k, r) | _ => None end) out.

(** What the buffers make of a request. *)
Lemma nr_request_taken cfg c id type k p req : (id, (type, k)) ∈ nr_requests -> length (slot_buffer p) = 30%nat ->
  0 <= nr_SFN req < 1024 -> 0 <= nr_Slot req < 20 ->
  exists p' evs, nr_handle k c p req true = Some (p', evs) /\ Forall (fun e => nr_answer cfg e = None) evs /\
    to_ues (Did <$> evs) = [(k, req)] /\
    if decide (k = UlDci) then ul_dci_req <$> slot_buffer p' !! Z.to_nat (nr_Slot req) = Some (Some req) else p' = p.
Proof.
  intros Hin Hl Hsfn Hslot. destruct (decide (k = UlDci)) as [Ek|Ek].
  - destruct (nr_handle_kept k c p req) as (b & b' & p' & E & Hb & Eb & Hget & _); [auto|done..|].
    exists p'. eexists. split; [exact E|]. specialize (Hget UlDci). rewrite decide_True in Hget by done.
    split; [by destruct (slb_get k b); repeat constructor|]. split; [by destruct (slb_get k b)|].
    rewrite Eb, list_lookup_insert_eq by (by apply lookup_lt_Some in Hb). cbn. by f_equal.
  - exists p, [Alloc k req; Transfer k req; Free k req]. split; [|by repeat constructor].
    unfold nr_requests in Hin. case_indication Hin; done.
Qed.

(** C6. The same for DL_TTI, UL_DCI and TX_DATA requests of NR, whatever their
    position: the PNF unpacks the request once and transfers it to the UEs exactly
    once; DL_TTI and TX_DATA leave its buffers as they were, UL_DCI is kept under its
    slot number. *)
Theorem nr_request_reaches_ues sizeof behind crc32 vvp pvp vu vcfg cfg c id type k prep ps us h s vst now conn :
  (id, (type, k)) ∈ nr_requests -> (id, (prep, ps, us)) ∈ nr_p7_codecs -> 16 <= sizeof type -> message_id h = id -> header_ok h ->
  rows_room [] ps (prep s) -> rows_ok [] us (prep s) -> 16 + zlen (rows_bytes [] us (prep s)) <= 32768 ->
  16 < segment_size (v_p7 vcfg) < 65536 -> zlen (rows_bytes [] us (prep s)) <= 128 * (segment_size (v_p7 vcfg) - 16) ->
  vnf_p7_connection_info_list_find (p7_connections vst) (phy_id h) = Some conn ->
  num s "SFN" < 1024 -> num s "Slot" < 20 ->
  exists vst' ds, p7_request crc32 vcfg (nr_pack vvp) (Some vst) now (Some (h, s)) = (0, Some vst', [Sent (phy_id h) ds]) /\
  forall q st t0 t0' i0 arr, (i0 :: arr.*2) ≡ₚ seq 0 (length ds) ->
    Forall (fun a => u32 (a.1.1 - t0) <= 1000) arr -> Forall (other (NFAPI_P7_SET_MSS 0 0 (sequence_number conn))) q ->
    length (slot_buffer (e_pnf st)) = 30%nat ->
    let req := NrRequest (e_next st) (num s "SFN") (num s "Slot") in
    exists h' q' st1 out,
      feed (pnf_receive_datagram crc32 (checksum_enabled (v_p7 vcfg)) (pnf_nr_dispatch_p7_message sizeof behind crc32 pvp vu cfg c))
        (q, st) (pnf_arrivals ds ((t0, t0', i0) :: arr)) = Some (out, (q', st1)) /\
      same_message h h' /\ e_messages st1 = <[e_next st := (h', rows_copy [] us (prep s) zero)]> (e_messages st) /\
      to_ues out = [(k, req)] /\
      if decide (k = UlDci)
      then ul_dci_req <$> slot_buffer (e_pnf st1) !! Z.to_nat (num s "Slot") = Some (Some req)
      else e_pnf st1 = e_pnf st.
Proof.
  intros Hin Hc H16 Hid Hh Hroom Hok Hlen Hss H128 Hf Hsfn Hslot.
  destruct (nr_request_codec id type k prep ps us Hin Hc) as (_ & Hrange & _). destruct (Hrange s Hok) as [Hsfn0 Hslot0].
  pose proof (proj1 (forallb_forall _ _) nr_p7_codecs_checked _ (proj1 (list_elem_of_In _ _) Hc)) as Hwf. cbn beta iota in Hwf.
  apply andb_true_iff in Hwf as [Hsim Hwf]. pose proof (rows_write _ _ _ Hsim Hwf Hroom Hok) as Hw.
  destruct (request_sent crc32 vcfg vst now conn h (rows_bytes [] us (prep s)) Hh Hss Hlen H128 (nr_pack vvp) s Hf) as [vst' Esent].
  { apply (packed_frame h _ (pack_nr_p7_message_body vvp (message_id h) s)); [done| |lia..]. rewrite Hid. by apply (nr_p7_packs vvp id prep ps us). }
  exists vst'. eexists. split; [exact Esent|]. intros q st t0 t0' i0 arr Hp Hts Hq Hring req.
  destruct (request_received crc32 vcfg vst now conn h (rows_bytes [] us (prep s)) Hh Hss Hlen H128 q t0 t0' i0 arr Hp Hts Hq)
    as (h' & q' & Erx & [Hphy Hid'] & Hh' & Hl' & Hq').
  destruct (nr_request_taken cfg c id type k (e_pnf st) req Hin Hring) as (p1 & evs & E1 & Hquiet & Hto & Hkept);
    [cbn; wrap_lia|cbn; wrap_lia|].
  assert (forall rx now, pnf_nr_dispatch_p7_message sizeof behind crc32 pvp vu cfg c st rx now (header_bytes h' ++ rows_bytes [] us (prep s)) =
    Some (Endpoint p1 (e_sequence st) (e_next st + 1) (<[e_next st := (h', rows_copy [] us (prep s) zero)]> (e_messages st)), Did <$> evs)) as Hd.
  { intros rx now'. rewrite <- (perform_quiet crc32 cfg (nr_pack pvp) (nr_answer cfg)) by done.
    apply (nr_request_dispatched sizeof behind crc32 pvp vu cfg c id type k prep ps us); try done. by rewrite Hid', <- Hid. }
  exists h', q'. do 2 eexists. split; [by apply (receive_one crc32 _ _ _ q st q' (header_bytes h' ++ rows_bytes [] us (prep s), t0))|].
  done.
Qed.

Lemma nr_request_reaches_ues_witness :
  let us := unpack_dl_tti_head ++ no_groups (UpTo 256) in
  let h := sample_p7_header NFAPI_NR_PHY_MSG_TYPE_DL_TTI_REQUEST in
  exists vst' ds, p7_request (fun c l => c + foldr Z.add 0 l) sample_vnf_config (nr_pack None) (Some sample_vnf) 0
      (Some (h, sample_dl_tti)) = (0, Some vst', [Sent (phy_id h) ds]) /\
  forall t0' i0 arr, (i0 :: arr.*2) ≡ₚ seq 0 (length ds) -> Forall (fun a => u32 (a.1.1 - 5) <= 1000) arr ->
    exists h' q' st1 out,
      feed (pnf_receive_datagram (fun c l => c + foldr Z.add 0 l) true
             (pnf_nr_dispatch_p7_message (fun _ => 64) (fun _ => 0) (fun c l => c + foldr Z.add 0 l) None None
                sample_endpoint_config plain_nr_config))
        ([], Endpoint (idle_nr 1 0) 0 7 ∅) (pnf_arrivals ds ((5, t0', i0) :: arr)) = Some (out, (q', st1)) /\
      same_message h h' /\ e_messages st1 = <[7 := (h', rows_copy [] us (prepare_dl_tti_request sample_dl_tti) zero)]> ∅ /\
      to_ues out = [(DlTti, NrRequest 7 5 3)] /\ e_pnf st1 = idle_nr 1 0.
Proof.
  cbv zeta. destruct (nr_request_reaches_ues (fun _ => 64) (fun _ => 0) (fun c l => c + foldr Z.add 0 l) None None None
    sample_vnf_config sample_endpoint_config plain_nr_config NFAPI_NR_PHY_MSG_TYPE_DL_TTI_REQUEST "nfapi_nr_dl_tti_request_t" DlTti
    prepare_dl_tti_request (pack_dl_tti_head ++ no_groups (UpTo 256)) (unpack_dl_tti_head ++ no_groups (UpTo 256))
    (sample_p7_header NFAPI_NR_PHY_MSG_TYPE_DL_TTI_REQUEST) sample_dl_tti sample_vnf 0
    (new_connection (phy_id (sample_p7_header 0)))) as (vst' & ds & E & F).
  - apply list_elem_of_here.
  - apply list_elem_of_here.
  - discriminate.
  - reflexivity.
  - repeat split; discriminate.
  - apply rows_roomb_spec. vm_compute. reflexivity.
  - apply rows_okb_spec. vm_compute. reflexivity.
  - vm_compute. discriminate.
  - split; reflexivity.
  - vm_compute. discriminate.
  - vm_compute. reflexivity.
  - vm_compute. reflexivity.
  - vm_compute. reflexivity.
  - exists vst', ds. split; [exact E|]. intros t0' i0 arr Hp Hts.
    apply (F [] (Endpoint (idle_nr 1 0) 0 7 ∅) 5 t0' i0 arr Hp Hts); [constructor|vm_compute; reflexivity].
Defined.
