(* ===== verification/NodeSync.v ===== *)
(** * Node sync, from one end to the other

    The exchange that [VnfSync] handles and [VnfConverge] assumes: the VNF sends
    DL_NODE_SYNC with its time, the PNF answers UL_NODE_SYNC with the times it got
    the one and sent the other, and the VNF corrects the connection. *)

From stdpp Require Import gmap strings.
From S2P Require Import Prelude Tags Sfn Codec Ids P7Header Layout LtePdu LteData.
From S2P Require Import NrP7 LteP7 Segmentation Ownership PnfP7 PnfNrP7 Aggregate VnfSync VnfP7.
From S2P Require Import VnfUplink PnfEndpoint PnfDownlink.

Open Scope string_scope.
Open Scope list_scope.
Open Scope Z_scope.

(** A message in one datagram. *)
Section single.
Context (crc32 : Z -> list Z -> Z) (ce : bool) (h : nfapi_p7_message_header_t) (body : list Z) (n : Z).
Context (Ha : accepted_header crc32 ce (header_bytes h ++ body) = Some h) (Hm : m_segment_sequence h = NFAPI_P7_SET_MSS 0 0 n).
#[local] Set Default Proof Using "Type*".

Lemma single_to_pnf {P E} (dispatch : pnf_endpoint P -> Z -> Z -> list Z -> option (pnf_endpoint P * list (pnf_output E))) q st rx now st' out :
  dispatch st rx now (header_bytes h ++ body) = Some (st', out) ->
  pnf_receive_datagram crc32 ce dispatch (q, st) (rx, now, header_bytes h ++ body) =
  Some (out, (pnf_p7_rx_reassembly_queue_remove_old_msgs q rx 1000, st')).
Proof.
  intros Hd. unfold pnf_receive_datagram, pnf_handle_p7_message. cbn [fst snd]. rewrite Ha, Hm, set_mss_plain.
  destruct (mss_get false 0 (n mod 16)) as (-> & -> & _); [lia|lia|]. cbn [b2z Z.eqb andb feed].
  unfold pnf_dispatch_at. cbn [fst snd]. by rewrite Hd, app_nil_r.
Qed.

Lemma single_to_vnf dispatch conns st now now' :
  receive_datagram crc32 dispatch ce (conns, st) (now, now', header_bytes h ++ body) =
  (fun '(st, evs) => (evs, (conns, st))) <$> dispatch st now' (header_bytes h ++ body).
Proof.
  unfold receive_datagram, vnf_handle_p7_message. cbn [fst snd]. rewrite Ha, Hm, set_mss_plain.
  destruct (mss_get false 0 (n mod 16)) as (-> & -> & _); [lia|lia|]. cbn [b2z Z.eqb andb feed].
  unfold dispatch_message. cbn [fst snd]. destruct (dispatch st now' _) as [[st' evs]|]; [|done]. cbn. by rewrite app_nil_r.
Qed.
End single.

(** ** The messages *)

Definition dl_sync_message (t1 : Z) : struct := set_num "t1" t1 zero.
Definition ul_sync_message (t1 t2 t3 : Z) : struct := set_num "t1" t1 (set_num "t2" t2 (set_num "t3" t3 zero)).

Lemma dl_sync_ok t1 : in_u32 t1 -> lc_ok (rows_codec dl_node_sync) (dl_sync_message t1).
Proof. intros H1. split; [exact H1|]. split; [done|done]. Qed.
Lemma ul_sync_ok t1 t2 t3 : in_u32 t1 -> in_u32 t2 -> in_u32 t3 -> lc_ok (rows_codec ul_node_sync) (ul_sync_message t1 t2 t3).
Proof. intros H1 H2 H3. split; [exact H1|]. split; [exact H2|]. split; [exact H3|done]. Qed.

Section exchange.
Context (sizeof : string -> Z) (behind : nat -> Z).
Context (Hdl : 16 <= sizeof "nfapi_dl_node_sync_t") (Hul : 16 <= sizeof "nfapi_ul_node_sync_t").
#[local] Set Default Proof Using "Type*".

Lemma sync_unpacked vu id codec type h' s : (id, codec) ∈ lte_p7_codecs -> lc_ok codec s -> header_ok h' -> message_id h' = id ->
  message_length h' <= 16 + zlen (lc_bytes codec s) -> check_unpack_length sizeof id (sizeof type) = sizeof type -> 16 <= sizeof type ->
  nfapi_p7_message_unpack sizeof behind vu (header_bytes h' ++ lc_bytes codec s) (sizeof type) = Some (h', lc_copy codec s).
Proof.
  intros Hc Hok Hh' Hid Hl Hroom H16. unfold nfapi_p7_message_unpack. rewrite p7_frame_unpack_ok by done.
  by rewrite Hid, (lte_p7_unpacks sizeof behind vu id codec s) by (done || (rewrite Hroom; lia)).
Qed.

Lemma dl_in : (NFAPI_DL_NODE_SYNC, rows_codec dl_node_sync) ∈ lte_p7_codecs.
Proof. unfold lte_p7_codecs. do 17 apply list_elem_of_further. apply list_elem_of_here. Qed.
Lemma ul_in : (NFAPI_UL_NODE_SYNC, rows_codec ul_node_sync) ∈ lte_p7_codecs.
Proof. unfold lte_p7_codecs. do 18 apply list_elem_of_further. apply list_elem_of_here. Qed.

(** The PNF's answer, before it is sent. *)
Lemma dl_sync_dispatched crc32 vp vu cfg c h' t1 st rx now : in_u32 t1 -> header_ok h' -> message_id h' = NFAPI_DL_NODE_SYNC ->
  message_length h' <= 24 ->
  pnf_dispatch_p7_message sizeof behind crc32 vp vu cfg c st rx now (header_bytes h' ++ lc_bytes (rows_codec dl_node_sync) (dl_sync_message t1)) =
  let t2 := calculate_t2 rx (p_sfn_sf (e_pnf st)) (PnfP7.sf_start_time_hr (e_pnf st)) in
  let t3 := calculate_t3 now (p_sfn_sf (e_pnf st)) (PnfP7.sf_start_time_hr (e_pnf st)) in
  let '(_, st, out) := send crc32 cfg (lte_pack vp) (P7Header (phy_id h') NFAPI_UL_NODE_SYNC 0 0 0 0)
    (ul_sync_message t1 t2 t3) st in Some (st, out).
Proof.
  intros H1 Hh' Hid Hl. destruct (dispatched_header h' (lc_bytes (rows_codec dl_node_sync) (dl_sync_message t1)) Hh') as [E1 E2].
  unfold pnf_dispatch_p7_message. rewrite E1, E2, Hid.
  assert ((zlen (header_bytes h' ++ lc_bytes (rows_codec dl_node_sync) (dl_sync_message t1)) <? 8) = false) as ->
    by (pose proof (zlen_nonneg (lc_bytes (rows_codec dl_node_sync) (dl_sync_message t1))); zlen_lia).
  transitivity (Some (lte_node_sync sizeof behind crc32 vp vu cfg st rx now
    (header_bytes h' ++ lc_bytes (rows_codec dl_node_sync) (dl_sync_message t1)))); [reflexivity|].
  unfold lte_node_sync, lte_unpack.
  rewrite (sync_unpacked vu NFAPI_DL_NODE_SYNC (rows_codec dl_node_sync) "nfapi_dl_node_sync_t") by
    (apply dl_in || (by apply dl_sync_ok) || done || (cbn; unfold fits_in; by rewrite Z.leb_refl)).
  change (num (lc_copy (rows_codec dl_node_sync) (dl_sync_message t1)) "delta_sfn_sf") with 0.
  change (num (lc_copy (rows_codec dl_node_sync) (dl_sync_message t1)) "t1") with t1.
  unfold PnfP7.pnf_handle_dl_node_sync. cbn [Z.eqb negb]. destruct st as [p n m ms]. unfold with_pnf. cbn [e_pnf e_sequence e_next e_messages].
  fold (ul_sync_message t1 (calculate_t2 rx (p_sfn_sf p) (PnfP7.sf_start_time_hr p)) (calculate_t3 now (p_sfn_sf p) (PnfP7.sf_start_time_hr p))).
  by destruct (send _ _ _ _ _ _) as [[r st] out].
Qed.

(** What the VNF makes of it. *)
Lemma ul_sync_dispatched vu cfg h' t1 t2 t3 st now conn : in_u32 t1 -> in_u32 t2 -> in_u32 t3 -> header_ok h' ->
  message_id h' = NFAPI_UL_NODE_SYNC -> message_length h' <= 28 ->
  vnf_p7_connection_info_list_find (p7_connections st) (phy_id h') = Some conn ->
  vnf_dispatch_p7_message sizeof behind vu cfg st now (header_bytes h' ++ lc_bytes (rows_codec ul_node_sync) (ul_sync_message t1 t2 t3)) =
  (fun '(k, ns) => (with_connections (update_connection (with_lte_clock k) (phy_id h') (p7_connections st)) st, map (SyncNote (phy_id h')) ns)) <$>
  handle_ul_node_sync (v_sync_indication cfg) (lte_clock conn) t1 t2 t3 (calculate_t4 now (u16 (sfn_sf conn)) (VnfP7.sf_start_time_hr st)).
Proof.
  intros H1 H2 H3 Hh' Hid Hl Hf. set (bs := lc_bytes _ _).
  destruct (dispatched_header h' bs Hh') as [E1 E2]. unfold vnf_dispatch_p7_message. rewrite E1, E2, Hid.
  transitivity (vnf_handle_ul_node_sync sizeof behind vu cfg st now (header_bytes h' ++ bs)); [reflexivity|].
  unfold vnf_handle_ul_node_sync, lte_unpack, bs.
  rewrite (sync_unpacked vu NFAPI_UL_NODE_SYNC (rows_codec ul_node_sync) "nfapi_ul_node_sync_t") by
    (apply ul_in || (by apply ul_sync_ok) || done || (cbn; unfold fits_in; by rewrite Z.leb_refl)).
  rewrite Hf.
  change (num (lc_copy (rows_codec ul_node_sync) (ul_sync_message t1 t2 t3)) "t1") with t1.
  change (num (lc_copy (rows_codec ul_node_sync) (ul_sync_message t1 t2 t3)) "t2") with t2.
  change (num (lc_copy (rows_codec ul_node_sync) (ul_sync_message t1 t2 t3)) "t3") with t3.
  by destruct (handle_ul_node_sync _ _ _ _ _ _) as [[k ns]|].
Qed.
End exchange.

(** ** The exchange *)

(** A short message of the PNF is one datagram. *)
Lemma short_sent {P E} crc32 cfg (pack : nfapi_p7_message_header_t -> struct -> Z -> option (list Z)) h s body (st : pnf_endpoint P) :
  header_ok h -> 16 + zlen body <= segment_size (e_p7 cfg) -> 16 + zlen body <= NFAPI_MAX_PACKED_MESSAGE_SIZE ->
  pack (with_mss h (NFAPI_P7_SET_MSS 0 0 (e_sequence st))) s NFAPI_MAX_PACKED_MESSAGE_SIZE =
    Some (header_bytes (packed_header h (e_sequence st) body) ++ body) ->
  exists h', send (E := E) crc32 cfg pack h s st =
      (0, Endpoint (e_pnf st) (u32 (e_sequence st + 1)) (e_next st) (e_messages st), [SentUp [header_bytes h' ++ body]]) /\
    same_message h h' /\ header_ok h' /\ message_length h' = 16 + zlen body /\
    m_segment_sequence h' = NFAPI_P7_SET_MSS 0 0 (e_sequence st) /\
    accepted_header crc32 (checksum_enabled (e_p7 cfg)) (header_bytes h' ++ body) = Some h'.
Proof.
  intros Hh Hs H8 Hp. unfold send, pnf_p7_pack_and_send_p7_message. rewrite Hp. unfold NFAPI_MAX_PACKED_MESSAGE_SIZE in H8.
  destruct (datagrams_single crc32 (e_p7 cfg) _ (packed_header h (e_sequence st) body) body touch_id_ok) as (h' & Eds & Hsame & Hok & Hl & Hm & Ha);
    [apply packed_header_ok; [done|lia]|done|].
  exists h'. by rewrite Eds.
Qed.

Lemma sync_header_ok phy id : 0 <= phy < 65536 -> in_u16 id -> header_ok (P7Header phy id 0 0 0 0).
Proof. intros Hp Hi. split; [exact Hp|]. split; [exact Hi|]. by repeat split. Qed.

Lemma dl_sync_sent crc32 vp cfg st conn now : 28 <= segment_size (v_p7 cfg) < 65536 -> 0 <= conn_phy_id conn < 65536 ->
  vnf_p7_connection_info_list_find (p7_connections st) (conn_phy_id conn) = Some conn ->
  let t1 := calculate_t1 now (u16 (sfn_sf conn)) (VnfP7.sf_start_time_hr st) in
  let body := lc_bytes (rows_codec dl_node_sync) (dl_sync_message t1) in
  exists st' h', vnf_build_send_dl_node_sync crc32 vp cfg st now conn = (st', [Sent (conn_phy_id conn) [header_bytes h' ++ body]]) /\
    in_u32 t1 /\ phy_id h' = conn_phy_id conn /\ message_id h' = NFAPI_DL_NODE_SYNC /\ header_ok h' /\ message_length h' = 24 /\
    m_segment_sequence h' = NFAPI_P7_SET_MSS 0 0 (sequence_number conn) /\
    accepted_header crc32 (checksum_enabled (v_p7 cfg)) (header_bytes h' ++ body) = Some h'.
Proof.
  intros Hvs Hphy Hf t1 body. set (h := P7Header (conn_phy_id conn) NFAPI_DL_NODE_SYNC 0 0 0 0).
  assert (in_u32 t1) as H1 by (unfold t1, calculate_t1; wrap_lia). assert (zlen body = 8) as Hb by reflexivity.
  assert (header_ok h) as Hh by (by apply sync_header_ok).
  destruct (message_sent crc32 cfg st now conn h body Hh ltac:(lia) ltac:(lia) ltac:(lia) (VnfP7.lte_pack vp) (dl_sync_message t1) Hf) as [st' Es].
  { apply (packed_frame h _ (pack_p7_message_body vp (message_id h) (dl_sync_message t1))); [done| |lia..].
    apply (lte_p7_packs vp _ (rows_codec dl_node_sync)); [apply dl_in|by apply dl_sync_ok]. }
  destruct (datagrams_single crc32 (v_p7 cfg) _ (packed_header h (sequence_number conn) body) body (timestamps_ok st now conn))
    as (h' & E & [Hp' Hid'] & Hok & Hl & Hm & Ha); [apply packed_header_ok; [done|lia]|lia|].
  unfold vnf_sends in Es. rewrite E in Es. exists st', h'. split; [|by rewrite Hl; cbn [packed_header message_length]; rewrite Hb].
  unfold vnf_build_send_dl_node_sync. rewrite (u16_small (conn_phy_id conn)) by wrap_lia. fold h t1. fold (dl_sync_message t1). by rewrite Es.
Qed.

Lemma ul_sync_sent {P E} crc32 vp cfg phy t1 t2 t3 (st : pnf_endpoint P) : 28 <= segment_size (e_p7 cfg) -> 0 <= phy < 65536 ->
  in_u32 t1 -> in_u32 t2 -> in_u32 t3 ->
  let body := lc_bytes (rows_codec ul_node_sync) (ul_sync_message t1 t2 t3) in
  exists h', send (E := E) crc32 cfg (VnfP7.lte_pack vp) (P7Header phy NFAPI_UL_NODE_SYNC 0 0 0 0) (ul_sync_message t1 t2 t3) st =
      (0, Endpoint (e_pnf st) (u32 (e_sequence st + 1)) (e_next st) (e_messages st), [SentUp [header_bytes h' ++ body]]) /\
    phy_id h' = phy /\ message_id h' = NFAPI_UL_NODE_SYNC /\ header_ok h' /\ message_length h' = 28 /\
    m_segment_sequence h' = NFAPI_P7_SET_MSS 0 0 (e_sequence st) /\
    accepted_header crc32 (checksum_enabled (e_p7 cfg)) (header_bytes h' ++ body) = Some h'.
Proof.
  intros Hps Hphy H1 H2 H3 body. set (h := P7Header phy NFAPI_UL_NODE_SYNC 0 0 0 0). assert (zlen body = 12) as Hb by reflexivity.
  assert (header_ok h) as Hh by (by apply sync_header_ok).
  destruct (short_sent (E := E) crc32 cfg (VnfP7.lte_pack vp) h (ul_sync_message t1 t2 t3) body st Hh)
    as (h' & Eu & [Hp Hid] & Hok & Hl & Hm & Ha); [lia|unfold NFAPI_MAX_PACKED_MESSAGE_SIZE; lia| |].
  { apply (packed_frame h _ (pack_p7_message_body vp (message_id h) (ul_sync_message t1 t2 t3)));
      [done| |lia|unfold NFAPI_MAX_PACKED_MESSAGE_SIZE; lia].
    apply (lte_p7_packs vp _ (rows_codec ul_node_sync)); [apply ul_in|by apply ul_sync_ok]. }
  exists h'. rewrite Eu, Hl, Hb. done.
Qed.

(** C16. The exchange of node sync: what the VNF sends to a PHY it has a connection to
    is one datagram; a PNF that gets it answers with one datagram and changes nothing
    else; and a VNF that gets that, with a connection to the PHY, takes the step of
    [VnfSync] with the times at which the VNF sent, the PNF received and sent and the
    VNF received, each counted from the start of the hyperframe of its end. *)
Theorem node_sync_exchange sizeof behind crc32 vvp vvu pvp pvu vcfg cfg c st conn now :
  16 <= sizeof "nfapi_dl_node_sync_t" -> 16 <= sizeof "nfapi_ul_node_sync_t" ->
  28 <= segment_size (v_p7 vcfg) < 65536 -> 28 <= segment_size (e_p7 cfg) ->
  checksum_enabled (e_p7 cfg) = checksum_enabled (v_p7 vcfg) -> 0 <= conn_phy_id conn < 65536 ->
  vnf_p7_connection_info_list_find (p7_connections st) (conn_phy_id conn) = Some conn ->
  let phy := conn_phy_id conn in let ce := checksum_enabled (v_p7 vcfg) in
  let t1 := calculate_t1 now (u16 (sfn_sf conn)) (VnfP7.sf_start_time_hr st) in
  exists st' d, vnf_build_send_dl_node_sync crc32 vvp vcfg st now conn = (st', [Sent phy [d]]) /\
  forall q e rx sent, let p := e_pnf e in
    let t2 := calculate_t2 rx (p_sfn_sf p) (PnfP7.sf_start_time_hr p) in
    let t3 := calculate_t3 sent (p_sfn_sf p) (PnfP7.sf_start_time_hr p) in
    exists q' e' d', pnf_receive_datagram crc32 ce (pnf_dispatch_p7_message sizeof behind crc32 pvp pvu cfg c) (q, e) (rx, sent, d) =
        Some ([SentUp [d']], (q', e')) /\ e_pnf e' = p /\ e_messages e' = e_messages e /\
    forall conns st2 conn2 rx2 now2, vnf_p7_connection_info_list_find (p7_connections st2) phy = Some conn2 ->
      receive_datagram crc32 (vnf_dispatch_p7_message sizeof behind vvu vcfg) ce (conns, st2) (rx2, now2, d') =
      (fun '(k, ns) => (map (SyncNote phy) ns, (conns, with_connections (update_connection (with_lte_clock k) phy (p7_connections st2)) st2))) <$>
      handle_ul_node_sync (v_sync_indication vcfg) (lte_clock conn2) t1 t2 t3
        (calculate_t4 now2 (u16 (sfn_sf conn2)) (VnfP7.sf_start_time_hr st2)).
Proof.
  intros Hdl Hul Hvs Hps Hce Hphy Hf phy ce t1.
  destruct (dl_sync_sent crc32 vvp vcfg st conn now Hvs Hphy Hf) as (st' & h' & Es & H1 & Hp' & Hid' & Hok & Hl & Hm & Ha).
  do 2 eexists. split; [exact Es|]. intros q e rx sent p t2 t3.
  assert (in_u32 t2 /\ in_u32 t3) as [H2 H3] by (unfold t2, t3, calculate_t2, calculate_t3; wrap_lia).
  pose proof (dl_sync_dispatched sizeof behind Hdl Hul crc32 pvp pvu cfg c h' t1 e rx sent H1 Hok Hid' ltac:(lia)) as Hd.
  cbv zeta in Hd. fold p t2 t3 in Hd. rewrite Hp' in Hd.
  destruct (ul_sync_sent (E := pnf_event) crc32 pvp cfg phy t1 t2 t3 e Hps Hphy H1 H2 H3) as (h2 & Eu & Hp2 & Hid2 & Hok2 & Hl2 & Hm2 & Ha2).
  unfold phy in Eu. rewrite Eu in Hd. do 3 eexists.
  split; [by apply (single_to_pnf crc32 ce h' _ (sequence_number conn))|]. do 2 (split; [done|]).
  intros conns st2 conn2 rx2 now2 Hf2. rewrite Hce in Ha2.
  rewrite (single_to_vnf crc32 ce h2 _ (e_sequence e)) by done.
  rewrite (ul_sync_dispatched sizeof behind Hdl Hul vvu vcfg h2 t1 t2 t3 st2 now2 conn2); [|done..|lia|by rewrite Hp2].
  rewrite Hp2. by destruct (handle_ul_node_sync _ _ _ _ _ _) as [[k ns]|].
Qed.

(** Sent 300 microseconds into a subframe, on the way for 100 each way. *)
Lemma node_sync_exchange_witness :
  let crc := fun c l => c + foldr Z.add 0 l in
  exists st' d, vnf_build_send_dl_node_sync crc None sample_vnf_config sample_vnf 300 (new_connection 3) = (st', [Sent 3 [d]]) /\
  exists q' e' d', pnf_receive_datagram crc true
      (pnf_dispatch_p7_message (fun _ => 32) (fun _ => 0) crc None None sample_endpoint_config (plain_config 30))
      ([], sample_pnf) (400, 450, d) = Some ([SentUp [d']], (q', e')) /\
    e_pnf e' = e_pnf sample_pnf /\ e_messages e' = e_messages sample_pnf /\
    receive_datagram crc (vnf_dispatch_p7_message (fun _ => 32) (fun _ => 0) None sample_vnf_config) true
      ([], sample_vnf) (540, 550, d') =
    (fun '(k, ns) => (map (SyncNote 3) ns, ([], with_connections (update_connection (with_lte_clock k) 3 (p7_connections sample_vnf)) sample_vnf))) <$>
    handle_ul_node_sync (v_sync_indication sample_vnf_config) (lte_clock (new_connection 3)) 300 2908400 2908450 550.
Proof.
  cbv zeta. destruct (node_sync_exchange (fun _ => 32) (fun _ => 0) (fun c l => c + foldr Z.add 0 l) None None None None
    sample_vnf_config sample_endpoint_config (plain_config 30) sample_vnf (new_connection 3) 300) as (st' & d & E & F).
  - discriminate.
  - discriminate.
  - split; [discriminate|reflexivity].
  - discriminate.
  - reflexivity.
  - split; [discriminate|reflexivity].
  - reflexivity.
  - exists st', d. split; [exact E|]. destruct (F [] sample_pnf 400 450) as (q' & e' & d' & E1 & E2 & E3 & G).
    exists q', e', d'. split; [exact E1|]. split; [exact E2|]. split; [exact E3|].
    exact (G [] sample_vnf (new_connection 3) 540 550 eq_refl).
Defined.
