(* ===== verification/PnfP5Endpoint.v ===== *)
(** * The PNF's P5 endpoint ([pnf.c], [pnf_interface.c])

    What is around the handlers of [PnfP5]: a message is read from the SCTP
    association to the VNF and dispatched by its identifier, unpacked by [P5Codec] or
    [P4Codec], and the members the handlers use are taken from the structure; the loop
    that reads messages until the connection is lost, and the one that connects again.

    Then both ends together: requests of the client of the VNF ([VnfP5]) drive the
    state machine of [PnfP5].

    [None] is an access outside an array.  What a handler releases at its end is left
    out. *)

From stdpp Require Import strings.
From S2P Require Import Prelude Tags Codec Ids Layout P5Codec P4Codec VnfP5 PnfP5.

Open Scope string_scope.
Open Scope list_scope.
Open Scope Z_scope.

(** ** From a structure to a request *)

Definition tlv_number (s : struct) (f : string) (tag : Z) : option Z :=
  if tl_tag (tl_of (member s f)) =? tag then Some (num (member s f) "value") else None.

(** The port and the address are taken whether their TLVs are there or not. *)
(* src: nfapi_pnf.c :: nr_config_request *)
Definition config_of (r : rat) (s : struct) : config_tlvs :=
  let tag (lte nr : Z) := match r with Lte => lte | Nr => nr end in
  ConfigTlvs
    (tlv_number s "nfapi_config.timing_window" (tag NFAPI_NFAPI_TIMING_WINDOW_TAG NFAPI_NR_NFAPI_TIMING_WINDOW_TAG))
    (tlv_number s "nfapi_config.timing_info_mode" (tag NFAPI_NFAPI_TIMING_INFO_MODE_TAG NFAPI_NR_NFAPI_TIMING_INFO_MODE_TAG))
    (tlv_number s "nfapi_config.timing_info_period" (tag NFAPI_NFAPI_TIMING_INFO_PERIOD_TAG NFAPI_NR_NFAPI_TIMING_INFO_PERIOD_TAG))
    (num (member s "nfapi_config.p7_vnf_port") "value")
    (take 4 (arr (member s "nfapi_config.p7_vnf_address_ipv4") "address")).

(** The identifiers in the PHY RF TLV: as many as its number says, which nothing
    compares with the size of the array after a message that did not unpack. *)
Definition rf_tagged (s : struct) : bool := tl_tag (tl_of (member s "pnf_phy_rf_config")) =? NFAPI_PNF_PHY_RF_TAG.
Definition rf_number (s : struct) : Z := num (member s "pnf_phy_rf_config") "number_phy_rf_config_info".
Definition rf_phy_ids (s : struct) : list Z :=
  (fun i => num (nth i (sub (member s "pnf_phy_rf_config") "phy_rf_config") zero) "phy_id") <$> seq 0 (Z.to_nat (rf_number s)).

(** An unpacker has succeeded if it returns 0 or more. *)
Definition request_from (r : rat) (id : Z) (u : Z * nfapi_p4_p5_message_header_t * struct) : request :=
  let '(result, h, s) := u in
  Request id (0 <=? result) (h_phy_id h) (if rf_tagged s then Some (rf_phy_ids s) else None) (config_of r s).

Inductive p5_output :=
  | Did (e : effect)
  | VendorReceived (h : nfapi_p4_p5_message_header_t) (s : struct).

Section endpoint.
Context (sizeof : string -> Z) (uninit : nat -> Z).
Context (pack_vendor : option (struct -> packer)) (unpack_vendor : option (Z -> list Z -> Z * struct)).
Context (allocate_vendor_ext : option (Z -> option Z)) (vendor_ext : bool).

(** ** Dispatch *)

(** Which unpacker and which structure each handler uses. *)
Definition unpacker_fn : Type := list Z -> Z -> Z * nfapi_p4_p5_message_header_t * struct.
Definition common_unpackers : list (Z * (unpacker_fn * string)) :=
  let p4 := nfapi_p4_message_unpack sizeof unpack_vendor in
  [(NFAPI_MEASUREMENT_REQUEST, (nfapi_p5_message_unpack sizeof unpack_vendor, "nfapi_measurement_request_t"));
   (NFAPI_RSSI_REQUEST, (p4, "nfapi_rssi_request_t"));
   (NFAPI_CELL_SEARCH_REQUEST, (p4, "nfapi_cell_search_request_t"));
   (NFAPI_BROADCAST_DETECT_REQUEST, (p4, "nfapi_broadcast_detect_request_t"));
   (NFAPI_SYSTEM_INFORMATION_SCHEDULE_REQUEST, (p4, "nfapi_system_information_schedule_request_t"));
   (NFAPI_SYSTEM_INFORMATION_REQUEST, (p4, "nfapi_system_information_request_t"));
   (NFAPI_NMM_STOP_REQUEST, (p4, "nfapi_nmm_stop_request_t"))].
Definition unpackers (r : rat) : list (Z * (unpacker_fn * string)) :=
  let lte := nfapi_p5_message_unpack sizeof unpack_vendor in
  let nr := nfapi_nr_p5_message_unpack sizeof unpack_vendor in
  match r with
  | Lte =>
      [(NFAPI_PNF_PARAM_REQUEST, (lte, "nfapi_pnf_param_request_t"));
       (NFAPI_PNF_CONFIG_REQUEST, (lte, "nfapi_pnf_config_request_t"));
       (NFAPI_PNF_START_REQUEST, (lte, "nfapi_pnf_start_request_t"));
       (NFAPI_PNF_STOP_REQUEST, (lte, "nfapi_pnf_stop_request_t"));
       (NFAPI_PARAM_REQUEST, (lte, "nfapi_param_request_t"));
       (NFAPI_CONFIG_REQUEST, (lte, "nfapi_config_request_t"));
       (NFAPI_START_REQUEST, (lte, "nfapi_start_request_t"));
       (NFAPI_STOP_REQUEST, (lte, "nfapi_stop_request_t"))]
  | Nr =>
      [(NFAPI_NR_PHY_MSG_TYPE_PNF_PARAM_REQUEST, (nr, "nfapi_nr_pnf_param_request_t"));
       (NFAPI_NR_PHY_MSG_TYPE_PNF_CONFIG_REQUEST, (nr, "nfapi_nr_pnf_config_request_t"));
       (NFAPI_NR_PHY_MSG_TYPE_PNF_START_REQUEST, (nr, "nfapi_nr_pnf_start_request_t"));
       (NFAPI_PNF_STOP_REQUEST, (lte, "nfapi_pnf_stop_request_t"));
       (NFAPI_NR_PHY_MSG_TYPE_PARAM_REQUEST, (nr, "nfapi_nr_param_request_scf_t"));
       (NFAPI_NR_PHY_MSG_TYPE_CONFIG_REQUEST, (nr, "nfapi_nr_config_request_scf_t"));
       (NFAPI_NR_PHY_MSG_TYPE_START_REQUEST, (nr, "nfapi_nr_start_request_scf_t"));
       (NFAPI_NR_PHY_MSG_TYPE_STOP_REQUEST, (nr, "nfapi_nr_stop_request_t"))]
  end ++ common_unpackers.

(* src: pnf.c :: pnf_handle_vendor_extension *)
Definition pnf_handle_vendor_extension (id : Z) (msg : list Z) : list p5_output :=
  match allocate_vendor_ext with
  | None => []
  | Some allocate =>
      match allocate id with
      | None => []
      | Some msg_size =>
          let '(result, h, s) := nfapi_p5_message_unpack sizeof unpack_vendor msg msg_size in
          if (result =? 0) && vendor_ext then [VendorReceived h s] else []
      end
  end.

(** The loop over the PHY RF TLV reads behind its array if the PNF is not running. *)
Definition reads_outside (r : rat) (id : Z) (u : Z * nfapi_p4_p5_message_header_t * struct) (st : pnf_t) : bool :=
  let '(result, _, s) := u in
  (id =? request_id r PNF_CONFIG) && (0 <=? result) && bool_decide (state st <> NFAPI_PNF_RUNNING) &&
  rf_tagged s && (NFAPI_MAX_PHY_RF_INSTANCES <? rf_number s).

Definition dispatch_p5 (r : rat) (st : pnf_t) (msg : list Z) : option (pnf_t * list p5_output) :=
  if zlen msg <? NFAPI_HEADER_LENGTH then Some (st, []) else
  let '(result, header) := nfapi_p5_message_header_unpack sizeof msg (sizeof "nfapi_p4_p5_message_header_t") in
  if result <? 0 then Some (st, [])
  else
    let id := h_message_id header in
    match find (fun e => fst e =? id) (unpackers r) with
    | Some (_, (unpack, type)) =>
        let u := unpack msg (sizeof type) in
        if reads_outside r id u st then None
        else let '(st, es) := handle_p5 r (request_from r id u) st in Some (st, Did <$> es)
    | None =>
        Some (st, if (NFAPI_VENDOR_EXT_MSG_MIN <=? id) && (id <=? NFAPI_VENDOR_EXT_MSG_MAX)
                  then pnf_handle_vendor_extension id msg else [])
    end.

(** ** Reading

    As at the VNF, the header of the message at the head of the association says how
    much to read into a buffer that is not initialised; the rest of a longer message
    is taken for a lost connection.  Notifications and errors of the socket are left
    out.  The result is whether the association is still up. *)
Definition pnf_read_dispatch (counted_from : Z) (r : rat) (st : pnf_t) (msg : list Z) :
    option (Z * pnf_t * list p5_output) :=
  let '(result, header) := nfapi_p5_message_header_unpack sizeof (filled uninit NFAPI_HEADER_LENGTH msg)
    (sizeof "nfapi_p4_p5_message_header_t") in
  if result <? 0 then Some (0, st, [])
  else
    let message_size := h_message_length header + counted_from in
    if zlen msg <=? message_size
    then (fun '(st, out) => (1, st, out)) <$> dispatch_p5 r st (filled uninit message_size msg)
    else Some (0, st, []).
(* src: pnf.c :: pnf_read_dispatch_message *)
Definition pnf_read_dispatch_message := pnf_read_dispatch 0 Lte.
(* src: pnf.c :: pnf_nr_read_dispatch_message *)
Definition pnf_nr_read_dispatch_message := pnf_read_dispatch NFAPI_HEADER_LENGTH Nr.

(** The messages of a connection; what is left of them is lost with it.  The PNF goes
    back to IDLE (by the name of the state of a PHY, which has the same value). *)
Fixpoint message_pump (read : pnf_t -> list Z -> option (Z * pnf_t * list p5_output)) (st : pnf_t) (msgs : list (list Z)) :
    option (pnf_t * list p5_output) :=
  match msgs with
  | [] => Some (fst (set_state NFAPI_PNF_IDLE st), [])
  | msg :: msgs =>
      match read st msg with
      | None => None
      | Some (connected, st, out) =>
          if connected =? 0 then Some (fst (set_state NFAPI_PNF_IDLE st), out)
          else (fun '(st, out') => (st, out ++ out')) <$> message_pump read st msgs
      end
  end.
(* src: pnf.c :: pnf_message_pump *)
Definition pnf_message_pump := message_pump pnf_read_dispatch_message.
(* src: pnf.c :: pnf_nr_message_pump *)
Definition pnf_nr_message_pump := message_pump pnf_nr_read_dispatch_message.

(** Each attempt to connect with its result and the messages of the connection; after
    the last, the client has stopped the PNF. *)
Fixpoint start_loop (pump : pnf_t -> list (list Z) -> option (pnf_t * list p5_output)) (st : pnf_t)
    (attempts : list (Z * list (list Z))) : option (Z * pnf_t * list p5_output) :=
  match attempts with
  | [] => Some (0, st, [])
  | (connect_result, msgs) :: attempts =>
      if connect_result <? 0 then Some (connect_result, st, [])
      else
        match (if 0 <? connect_result then pump st msgs else Some (st, [])) with
        | None => None
        | Some (st, out) => (fun '(result, st, out') => (result, st, out ++ out')) <$> start_loop pump st attempts
        end
  end.
(* src: pnf_interface.c :: nfapi_pnf_start *)
Definition nfapi_pnf_start := start_loop pnf_message_pump.
(* src: pnf_interface.c :: nfapi_nr_pnf_start *)
Definition nfapi_nr_pnf_start := start_loop pnf_nr_message_pump.

(** What is sent of a vendor extension: nothing, with -1, if it is not packed. *)
(* src: pnf_interface.c :: nfapi_pnf_vendor_extension *)
Definition nfapi_pnf_vendor_extension (msg : option client_message) : Z * list (list Z) :=
  match msg with
  | None => (-1, [])
  | Some (h, s) =>
      match nfapi_p5_message_pack pack_vendor h s NFAPI_MAX_PACKED_MESSAGE_SIZE with
      | None => (-1, [])
      | Some bs => (0, [bs])
      end
  end.
End endpoint.
