(* ===== verification/P5Exchange.v ===== *)
(** * P5 from the client of the VNF to the proxy

    The requests the client of the VNF makes ([VnfP5]), packed by [P5Codec], sent, read
    and dispatched by the PNF ([PnfP5Endpoint]) drive the state machine of [PnfP5],
    over any number of connections; and the start-up of a PHY, with the timing the VNF
    puts into CONFIG.request. *)

From stdpp Require Import strings.
From S2P Require Import Prelude Tags Codec Ids Layout P5Codec P4Codec VnfP5 PnfP5 PnfP5Endpoint.

Open Scope string_scope.
Open Scope list_scope.
Open Scope Z_scope.

(** ** The requests

    Their structures and layouts.  NR's CONFIG.request has no layout ([P5Config]), and
    the interface of the VNF sends the rest of NR's with the header of LTE. *)
Definition rat_of (nr : bool) : rat := if nr then Nr else Lte.
Definition kind_message (nr : bool) (k : kind) : option (string * (layout * layout)) :=
  match nr, k with
  | false, PNF_PARAM => Some ("nfapi_pnf_param_request_t", (pack_pnf_param_request, unpack_pnf_param_request))
  | false, PNF_CONFIG => Some ("nfapi_pnf_config_request_t", (pack_pnf_config_request, unpack_pnf_config_request))
  | false, PNF_START => Some ("nfapi_pnf_start_request_t", (pack_pnf_start_request, unpack_pnf_start_request))
  | false, PNF_STOP => Some ("nfapi_pnf_stop_request_t", (pack_pnf_stop_request, unpack_pnf_stop_request))
  | false, PARAM => Some ("nfapi_param_request_t", (pack_param_request, unpack_param_request))
  | false, CONFIG => Some ("nfapi_config_request_t", (pack_config_request, unpack_config_request))
  | false, START => Some ("nfapi_start_request_t", (pack_start_request, unpack_start_request))
  | false, STOP => Some ("nfapi_stop_request_t", (pack_stop_request, unpack_stop_request))
  | false, MEASUREMENT => Some ("nfapi_measurement_request_t", (pack_measurement_request, unpack_measurement_request))
  | true, PNF_PARAM => Some ("nfapi_nr_pnf_param_request_t", (pack_nr_pnf_param_request, unpack_nr_pnf_param_request))
  | true, PNF_CONFIG => Some ("nfapi_nr_pnf_config_request_t", (pack_nr_pnf_config_request, unpack_nr_pnf_config_request))
  | true, PNF_START => Some ("nfapi_nr_pnf_start_request_t", (pack_nr_pnf_start_request, unpack_nr_pnf_start_request))
  | true, PARAM => Some ("nfapi_nr_param_request_scf_t", (pack_nr_param_request, unpack_nr_param_request))
  | true, START => Some ("nfapi_nr_start_request_scf_t", (pack_nr_start_request, unpack_nr_start_request))
  | true, _ => None
  end.

Lemma kind_layouts nr k type pl ul : kind_message nr k = Some (type, (pl, ul)) ->
  (request_id (rat_of nr) k, (pl, ul)) ∈ p5_layouts nr /\ p5_size pl ul <= 8192 /\ layouts_wf pl ul = true.
Proof.
  intros H. assert ((request_id (rat_of nr) k, (pl, ul)) ∈ p5_layouts nr) as Hin.
  { destruct nr, k; try discriminate H; injection H as <- <- <-; cbn [p5_layouts rat_of request_id];
      unfold nr_p5_layouts, lte_p5_layouts; repeat first [apply list_elem_of_here | apply list_elem_of_further]. }
  split; [done|]. split.
  - destruct nr, k; try discriminate H; injection H as <- <- <-; vm_compute; discriminate.
  - pose proof p5_layouts_checked as [Hl Hn]. assert (p5_layouts_ok (p5_layouts nr) = true) as Hok by (by destruct nr).
    pose proof (proj1 (forallb_forall _ _) Hok _ (proj1 (list_elem_of_In _ _) Hin)) as Hp. cbn in Hp. by apply andb_true_iff in Hp as [? _].
Qed.

(** The sizes of structures: none is smaller than the header in front of it, and the
    PNF_PARAM.request of NR, which is checked as that of LTE, is declared like it. *)
Definition sizes_ok (sizeof : string -> Z) : Prop :=
  0 < sizeof "nfapi_p4_p5_message_header_t" /\
  (forall nr k type ls, kind_message nr k = Some (type, ls) -> sizeof "nfapi_p4_p5_message_header_t" <= sizeof type) /\
  sizeof "nfapi_nr_pnf_param_request_t" = sizeof "nfapi_pnf_param_request_t".

(** A request of the client: its kind, header and structure. *)
Definition p5_request : Type := kind * nfapi_p4_p5_message_header_t * struct.

(** A request for the PHY [p], the only one of the PNF. *)
Definition request_ok (nr : bool) (p : Z) (q : p5_request) : Prop :=
  let '(k, h, s) := q in
  h_message_id h = request_id (rat_of nr) k /\ p5_header_ok h /\
  match kind_message nr k with Some (_, (pl, ul)) => fits pl ul s | None => False end /\
  match k with
  | PNF_CONFIG => rf_tagged s = true /\ rf_phy_ids s = [p]
  | PNF_PARAM | PNF_START | PNF_STOP => True
  | _ => h_phy_id h = p
  end.

(** ** PNF_CONFIG *)

Lemma one_phy s p : rf_phy_ids s = [p] -> rf_number s = 1.
Proof.
  unfold rf_phy_ids. intros E. assert (length (seq 0 (Z.to_nat (rf_number s))) = 1%nat) as H.
  { rewrite <- (length_fmap (fun i => num (nth i (sub (member s "pnf_phy_rf_config") "phy_rf_config") zero) "phy_id")), E. done. }
  rewrite length_seq in H. lia.
Qed.

Definition rf_row : tlv_row := TlvRow NFAPI_PNF_PHY_RF_TAG "pnf_phy_rf_config" unpack_pnf_phy_rf_config_value.
Lemma rf_copied s s0 p : rf_tagged s = true -> rf_phy_ids s = [p] -> tlv_row_ok s rf_row ->
  rf_tagged (tlv_copy s s0 rf_row) = true /\ rf_number (tlv_copy s s0 rf_row) = 1 /\ rf_phy_ids (tlv_copy s s0 rf_row) = [p].
Proof.
  intros Ht Hp Hok. pose proof (one_phy s p Hp) as Hn. destruct (Hok Ht) as [_ Hrows].
  set (m := member s "pnf_phy_rf_config") in *.
  assert (exists e l, sub m "phy_rf_config" = e :: l) as (e & l & Hl).
  { destruct Hrows as (_ & (_ & (_ & Hlen) & _) & _). change (rf_number s <= zlen (sub m "phy_rf_config")) in Hlen. rewrite Hn in Hlen.
    destruct (sub m "phy_rf_config"); [by cbv in Hlen|by eexists _, _]. }
  assert (num e "phy_id" = p) as He.
  { unfold rf_phy_ids in Hp. rewrite Hn in Hp. fold m in Hp. rewrite Hl in Hp. by injection Hp. }
  assert (present rf_row s = true) as Hpr by exact Ht.
  set (m' := member (tlv_copy s s0 rf_row) "pnf_phy_rf_config").
  assert (m' = rows_copy [] unpack_pnf_phy_rf_config_value m (set_tl (Tl NFAPI_PNF_PHY_RF_TAG (zlen (tlv_value rf_row s))) (member s0 "pnf_phy_rf_config"))) as Hm.
  { unfold m', tlv_copy. rewrite Hpr, member_set_member. by rewrite decide_True. }
  assert (num m' "number_phy_rf_config_info" = 1 /\ sub m' "phy_rf_config" = [rows_copy [m] unpack_phy_rf_config_info e zero]) as [H1 H2].
  { rewrite Hm. unfold rows_copy, unpack_pnf_phy_rf_config_value. cbn -[rows_copy]. fold m.
    change (num m "number_phy_rf_config_info") with (rf_number s). rewrite Hn, Hl. done. }
  unfold rf_tagged, rf_number, rf_phy_ids, rf_number. fold m'. rewrite H1, H2. split; [rewrite Hm, rows_copy_tl; done|].
  split; [done|]. cbn. by rewrite He.
Qed.

Lemma rf_received nr s p type pl ul : kind_message nr PNF_CONFIG = Some (type, (pl, ul)) -> fits pl ul s ->
  rf_tagged s = true -> rf_phy_ids s = [p] ->
  let r := received_message pl ul s in rf_tagged r = true /\ rf_number r = 1 /\ rf_phy_ids r = [p].
Proof.
  intros Hk [_ [_ Hok]] Ht Hp. assert (expected pl ul = [rf_row] /\ exists s0, received_message pl ul s = tlv_copy s s0 rf_row) as [E [s0 Er]].
  { destruct nr; injection Hk as <- <- <-; (split; [reflexivity|by eexists]). }
  cbv zeta. rewrite Er. apply rf_copied; [done..|]. rewrite E in Hok. by apply Forall_singleton.
Qed.

(** ** One request *)

Section exchange.
#[local] Set Default Proof Using "Type*".
Context (sizeof : string -> Z) (uninit : nat -> Z).
Context (vp : option (struct -> packer)) (vu : option (Z -> list Z -> Z * struct)).
Context (allocate_vendor_ext : option (Z -> option Z)) (vendor_ext : bool).
Context (Hsizes : sizes_ok sizeof).

Definition pnf_read (nr : bool) : pnf_t -> list Z -> option (Z * pnf_t * list p5_output) :=
  if nr then pnf_nr_read_dispatch_message sizeof uninit vu allocate_vendor_ext vendor_ext
  else pnf_read_dispatch_message sizeof uninit vu allocate_vendor_ext vendor_ext.
Definition vnf_send (nr : bool) : vnf_t -> Z -> nfapi_p4_p5_message_header_t -> struct -> Z * list vnf_p5_event :=
  if nr then vnf_nr_pack_and_send_p5_message vp else vnf_pack_and_send_p5_message vp.

Lemma request_unpacked nr k type pl ul h bs r : kind_message nr k = Some (type, (pl, ul)) -> p5_header_ok h ->
  h_message_id h = request_id (rat_of nr) k -> unpack_layout ul zero bs = (1, r) ->
  exists unpack, find (fun e => fst e =? request_id (rat_of nr) k) (unpackers sizeof vu (rat_of nr)) =
      Some (request_id (rat_of nr) k, (unpack, type)) /\
    unpack (p5_header_bytes h ++ bs) (sizeof type) = (1, h, r).
Proof.
  intros Hk Hh Hid Hu. destruct Hsizes as (H0 & Hall & Hparam). pose proof (Hall _ _ _ _ Hk) as Hs.
  destruct nr, k; try discriminate Hk; injection Hk as <- <- <-; eexists; (split; [reflexivity|]);
    unfold nfapi_nr_p5_message_unpack, nfapi_p5_message_unpack;
    (rewrite p5_frame_unpack_ok; [|done|done|rewrite Hid, ?Hparam; own_type sizeof]); rewrite Hid;
    lazymatch type of Hu with _ = ?v => lazymatch goal with |- (let '(_, _) := ?x in _) = _ => assert (x = v) as -> by exact Hu end end; reflexivity.
Qed.

(** What a request is for the handlers. *)
Definition delivered (nr : bool) (q : p5_request) : request :=
  let '(k, h, s) := q in
  match kind_message nr k with
  | Some (_, (pl, ul)) => request_from (rat_of nr) (h_message_id h) (1, h, received_message pl ul s)
  | None => Request 0 false 0 None no_config
  end.

Lemma delivered_ok nr p q : request_ok nr p q -> request_of (rat_of nr) p q.1.1 (delivered nr q).
Proof.
  destruct q as [[k h] s]. intros (Hid & _ & Hfit & Hk). cbn [fst]. unfold delivered. destruct (kind_message nr k) as [[type [pl ul]]|] eqn:Em; [|done].
  split; [exact Hid|]. split; [done|]. destruct k; try exact Hk; try done.
  destruct Hk as [Ht Hp]. destruct (rf_received nr s p type pl ul Em Hfit Ht Hp) as (H1 & _ & H3). cbn [request_from r_phy_rf]. by rewrite H1, H3.
Qed.

Lemma request_read nr p q : request_ok nr p q -> exists bs,
  (forall v idx, nfapi_vnf_pnf_list_find v (u16 idx) = true ->
     send_request (vnf_send nr) (Some v) idx (Some (q.1.2, q.2)) = (0, [SentP5 (u16 idx) bs])) /\
  forall st, let '(st', es) := handle_p5 (rat_of nr) (delivered nr q) st in
    pnf_read nr st bs = Some (1, st', Did <$> es).
Proof.
  destruct q as [[k h] s]. intros Hq. pose proof Hq as (Hid & Hh & Hfit & Hk). cbn [fst snd].
  destruct (kind_message nr k) as [[type [pl ul]]|] eqn:Em; [|done].
  destruct (kind_layouts nr k type pl ul Em) as (Hin & Hsz & Hwf).
  destruct (layout_packed vp nr pl ul _ h s Hin Hid Hh Hwf Hfit Hsz) as (bs & Hp & Hh' & Hu).
  set (h' := with_length (8 + zlen bs - counted_from nr) h) in *. exists (p5_header_bytes h' ++ bs). split.
  - intros v idx Hv. unfold send_request, vnf_send. assert (p5_pack vp nr h s NFAPI_MAX_PACKED_MESSAGE_SIZE =
      (if nr then nfapi_nr_p5_message_pack vp else nfapi_p5_message_pack vp) h s NFAPI_MAX_PACKED_MESSAGE_SIZE) as E by (by destruct nr).
    rewrite E in Hp. destruct nr; unfold vnf_nr_pack_and_send_p5_message, vnf_pack_and_send_p5_message, pack_and_send; by rewrite Hv, Hp.
  - intros st. destruct (handle_p5 (rat_of nr) (delivered nr (k, h, s)) st) as [st' es] eqn:Eh.
    assert (pnf_read nr = pnf_read_dispatch sizeof uninit vu allocate_vendor_ext vendor_ext (counted_from nr) (rat_of nr)) as -> by (by destruct nr).
    destruct (whole_message sizeof uninit uninit (counted_from nr) h' bs Hh') as (E1 & E2 & E3);
      [unfold h', with_length, h_message_length; lia|].
    unfold pnf_read_dispatch. rewrite E1, E2, E3. unfold dispatch_p5. rewrite header_read by done.
    assert ((zlen (p5_header_bytes h' ++ bs) <? NFAPI_HEADER_LENGTH) = false) as -> by (pose proof (zlen_nonneg bs); unfold NFAPI_HEADER_LENGTH; zlen_lia).
    cbn [Z.ltb Z.compare]. assert (h_message_id h' = request_id (rat_of nr) k) as Hid' by exact Hid. rewrite Hid'.
    destruct (request_unpacked nr k type pl ul h' bs _ Em Hh' Hid' Hu) as (unpack & -> & ->).
    assert (request_from (rat_of nr) (request_id (rat_of nr) k) (1, h', received_message pl ul s) = delivered nr (k, h, s)) as ->
      by (unfold delivered; rewrite Em, Hid; reflexivity).
    rewrite Eh. unfold reads_outside. destruct (Z.eqb_spec (request_id (rat_of nr) k) (request_id (rat_of nr) PNF_CONFIG)) as [E|_]; [|done].
    assert (k = PNF_CONFIG) as -> by (destruct nr, k; done). destruct Hk as [Ht Hr].
    destruct (rf_received nr s p type pl ul Em Hfit Ht Hr) as (_ & -> & _). by rewrite andb_false_r.
Qed.

(** ** Connections *)

(** The client's request is sent as these bytes to every PNF the VNF knows. *)
Definition sent_as (nr : bool) (q : p5_request) (bs : list Z) : Prop :=
  forall v idx, nfapi_vnf_pnf_list_find v (u16 idx) = true ->
    send_request (vnf_send nr) (Some v) idx (Some (q.1.2, q.2)) = (0, [SentP5 (u16 idx) bs]).

Definition events_of (nr : bool) (qs : list p5_request) : list event := ((fun q => Message (delivered nr q)) <$> qs) ++ [ConnectionLost].

Lemma connection_run nr p qs : Forall (request_ok nr p) qs -> exists bss, Forall2 (sent_as nr) qs bss /\
  forall st, message_pump (pnf_read nr) st bss = let '(st', es) := run (rat_of nr) (events_of nr qs) st in Some (st', Did <$> es).
Proof.
  induction 1 as [|q qs Hq _ (bss & Hs & IH)]; [by exists []|].
  destruct (request_read nr p q Hq) as (bs & Hsent & Hread). exists (bs :: bss). split; [by constructor|]. intros st.
  specialize (Hread st). unfold events_of in *. cbn [fmap list_fmap app run]. unfold andthen. cbn [on_event].
  destruct (handle_p5 (rat_of nr) (delivered nr q) st) as [st1 es]. cbn [message_pump]. rewrite Hread. cbn [Z.eqb].
  rewrite IH. destruct (run (rat_of nr) _ st1) as [st2 es']. cbn. by rewrite fmap_app.
Qed.

Definition pnf_start (nr : bool) : pnf_t -> list (Z * list (list Z)) -> option (Z * pnf_t * list p5_output) :=
  if nr then nfapi_nr_pnf_start sizeof uninit vu allocate_vendor_ext vendor_ext
  else nfapi_pnf_start sizeof uninit vu allocate_vendor_ext vendor_ext.

Lemma connections_run nr p cs : Forall (Forall (request_ok nr p)) cs -> exists bsss, Forall2 (Forall2 (sent_as nr)) cs bsss /\
  forall st, pnf_start nr st ((fun msgs => (1, msgs)) <$> bsss) =
    let '(st', es) := run (rat_of nr) (concat (events_of nr <$> cs)) st in Some (0, st', Did <$> es).
Proof.
  assert (pnf_start nr = start_loop (message_pump (pnf_read nr))) as -> by (by destruct nr).
  induction 1 as [|qs cs Hq _ (bsss & Hs & IH)]; [by exists []|].
  destruct (connection_run nr p qs Hq) as (bss & Hsent & Hrun). exists (bss :: bsss). split; [by constructor|]. intros st.
  specialize (Hrun st). cbn [fmap list_fmap concat start_loop Z.ltb Z.compare]. rewrite Hrun, run_app. unfold andthen.
  destruct (run (rat_of nr) (events_of nr qs) st) as [st1 es]. rewrite IH.
  destruct (run (rat_of nr) _ st1) as [st2 es']. cbn. by rewrite fmap_app.
Qed.

Definition kinds_of (qs : list p5_request) : list (option kind) := ((fun q => Some q.1.1) <$> qs) ++ [None].
Lemma events_abs nr p qs : Forall (request_ok nr p) qs -> Forall2 (event_of (rat_of nr) p) (kinds_of qs) (events_of nr qs).
Proof.
  intros H. unfold kinds_of, events_of. apply Forall2_app; [|by constructor].
  induction H as [|q qs Hq _ IH]; [constructor|]. constructor; [by apply delivered_ok|exact IH].
Qed.
Lemma all_events_abs nr p cs : Forall (Forall (request_ok nr p)) cs ->
  Forall2 (event_of (rat_of nr) p) (concat (kinds_of <$> cs)) (concat (events_of nr <$> cs)).
Proof. induction 1 as [|qs cs Hq _ IH]; [constructor|]. cbn. apply Forall2_app; [by apply events_abs|exact IH]. Qed.
End exchange.

(** C12. Requests of the client of the VNF for the only PHY of a PNF, over any number of
    connections that each end, drive the state machine of the PHY: each is packed and
    sent; the PNF that reads the messages of each connection in order never reads behind
    the list of PHYs in a message, and its states and the responses it sends are those of
    [fsm_next] for the kinds of the requests, with a loss of the connection after each
    connection.  (All requests of P5 for LTE; PNF_PARAM, PNF_CONFIG, PNF_START, PARAM
    and START for NR.) *)
Theorem p5_requests_drive_pnf sizeof uninit vp vu allocate_vendor_ext vendor_ext nr p (cs : list (list p5_request)) :
  sizes_ok sizeof -> p <> 0 -> Forall (Forall (request_ok nr p)) cs ->
  exists bsss, Forall2 (Forall2 (sent_as vp nr)) cs bsss /\
  exists st es, pnf_start sizeof uninit vu allocate_vendor_ext vendor_ext nr PnfP5.nfapi_pnf_config_create
      ((fun msgs => (1, msgs)) <$> bsss) = Some (0, st, Did <$> es) /\
    let s := fsm_run (rat_of nr) p (NFAPI_PNF_IDLE, None) (concat (kinds_of <$> cs)) in
    represents p st (fst s) /\ responses es = snd s.
Proof.
  intros Hsizes Hp Hcs. destruct (connections_run sizeof uninit vp vu allocate_vendor_ext vendor_ext Hsizes nr p cs Hcs) as (bsss & Hs & Hrun).
  exists bsss. split; [done|]. rewrite Hrun.
  pose proof (run_refines (rat_of nr) p _ _ Hp (all_events_abs nr p cs Hcs) PnfP5.nfapi_pnf_config_create (NFAPI_PNF_IDLE, None)) as H.
  destruct (run (rat_of nr) _ _) as [st es]. exists st, es. split; [done|]. by apply H.
Qed.

(** PNF_CONFIG for PHY 7 on one connection, PNF_PARAM and PNF_START on the next. *)
Definition simple_p5 (k : kind) : p5_request := (k, P5Header 7 (request_id Lte k) 0 0, zero).
Definition sample_connections : list (list p5_request) :=
  [[(PNF_CONFIG, P5Header 0 NFAPI_PNF_CONFIG_REQUEST 0 0, sample_pnf_config)]; [simple_p5 PNF_PARAM; simple_p5 PNF_START]].

Lemma p5_requests_drive_pnf_witness :
  exists bsss, Forall2 (Forall2 (sent_as None false)) sample_connections bsss /\
  exists st es, pnf_start sample_sizeof (fun _ => 0xCC) None None false false PnfP5.nfapi_pnf_config_create
      ((fun msgs => (1, msgs)) <$> bsss) = Some (0, st, Did <$> es) /\
    represents 7 st (NFAPI_PNF_IDLE, Some NFAPI_PNF_PHY_IDLE) /\
    responses es = [(NFAPI_PNF_CONFIG_RESPONSE, 0, NFAPI_MSG_OK); (NFAPI_PNF_PARAM_RESPONSE, 0, NFAPI_MSG_OK);
                    (NFAPI_PNF_START_RESPONSE, 0, NFAPI_MSG_INVALID_STATE)].
Proof.
  apply (p5_requests_drive_pnf sample_sizeof (fun _ => 0xCC) None None None false false 7 sample_connections).
  - split; [reflexivity|]. split; [intros; unfold sample_sizeof; lia|reflexivity].
  - discriminate.
  - repeat (constructor || discriminate).
Defined.

(** ** The start-up of a PHY *)

(** What the PNF takes from a CONFIG.request is what is in the client's structure. *)
Lemma config_members : NoDup (t_member <$> expected pack_config_request unpack_config_request).
Proof. apply (bool_decide_unpack _). vm_compute. exact I. Qed.
Definition has_value (rows : list row) : bool :=
  existsb (fun r => bool_decide ("value" ∈ Layout.stored r)) rows &&
  negb (bool_decide ("value" ∈ foldr (fun r fs => resized r ++ fs) [] rows)).
Ltac in_config := cbv; repeat first [apply list_elem_of_here | apply list_elem_of_further].
Lemma config_head s f : member (rows_copy [] (l_head unpack_config_request) s zero) f = zero.
Proof. reflexivity. Qed.
Lemma config_number_received s tag f rows : TlvRow tag f rows ∈ expected pack_config_request unpack_config_request -> tag <> 0 ->
  has_value rows = true ->
  tlv_number (received_message pack_config_request unpack_config_request s) f tag = tlv_number s f tag.
Proof.
  intros Hin Ht Hv. unfold tlv_number. unfold received_message, received_struct. pose proof config_members as Hnd.
  revert Hin Hnd. generalize (expected pack_config_request unpack_config_request). intros ts Hin Hnd.
  destruct (tlvs_copy_sent ts s (TlvRow tag f rows) "value" Hnd Hin Ht Hv _ (config_head s _)) as [Hp Hn].
  revert Hp Hn. generalize (tlvs_copy ts s (rows_copy [] (l_head unpack_config_request) s zero)). intros r Hp Hn.
  unfold present in *. cbn [t_member t_tag] in *. rewrite Hp. clear Hp.
  destruct (tl_tag (tl_of (member s f)) =? tag); [|reflexivity]. by rewrite (Hn eq_refl).
Qed.
Lemma config_address_received s : let f := "nfapi_config.p7_vnf_address_ipv4" in
  tl_tag (tl_of (member s f)) = NFAPI_NFAPI_P7_VNF_ADDRESS_IPV4_TAG ->
  arr (member (received_message pack_config_request unpack_config_request s) f) "address" = take 4 (arr (member s f) "address").
Proof.
  intros f Ht. set (t := TlvRow NFAPI_NFAPI_P7_VNF_ADDRESS_IPV4_TAG f unpack_ipv4_address_value).
  assert (t ∈ expected pack_config_request unpack_config_request) as Hin
    by in_config.
  unfold received_message, received_struct. pose proof config_members as Hnd. revert Hin Hnd.
  generalize (expected pack_config_request unpack_config_request). intros ts Hin Hnd.
  change f with (t_member t) at 1. rewrite (tlvs_copy_member ts s _ t Hnd Hin).
  assert (present t s = true) as -> by (unfold present, t; cbn [t_member t_tag]; rewrite Ht; reflexivity). reflexivity.
Qed.

Lemma config_rows : Forall (fun t => t ∈ expected pack_config_request unpack_config_request)
  [TlvRow NFAPI_NFAPI_TIMING_WINDOW_TAG "nfapi_config.timing_window" unpack_uint8_tlv_value;
   TlvRow NFAPI_NFAPI_TIMING_INFO_MODE_TAG "nfapi_config.timing_info_mode" unpack_uint8_tlv_value;
   TlvRow NFAPI_NFAPI_TIMING_INFO_PERIOD_TAG "nfapi_config.timing_info_period" unpack_uint8_tlv_value;
   TlvRow NFAPI_NFAPI_P7_VNF_PORT_TAG "nfapi_config.p7_vnf_port" unpack_uint16_tlv_value].
Proof. repeat constructor; in_config. Qed.

Lemma config_received s :
  tl_tag (tl_of (member s "nfapi_config.p7_vnf_port")) = NFAPI_NFAPI_P7_VNF_PORT_TAG ->
  tl_tag (tl_of (member s "nfapi_config.p7_vnf_address_ipv4")) = NFAPI_NFAPI_P7_VNF_ADDRESS_IPV4_TAG ->
  config_of Lte (received_message pack_config_request unpack_config_request s) = config_of Lte s.
Proof.
  intros Hport Haddr. pose proof (config_address_received s Haddr) as Ha. pose proof config_rows as Hrows.
  assert (forall tag f rows, TlvRow tag f rows ∈ expected pack_config_request unpack_config_request -> tag <> 0 -> has_value rows = true ->
    tlv_number (received_message pack_config_request unpack_config_request s) f tag = tlv_number s f tag) as Hn by apply config_number_received.
  revert Ha Hrows Hn. generalize (expected pack_config_request unpack_config_request) (received_message pack_config_request unpack_config_request s).
  intros ts r Ha Hrows Hn. repeat (apply Forall_cons in Hrows as [?H Hrows]).
  pose proof (Hn _ _ _ H2 ltac:(discriminate) eq_refl) as Hp. unfold config_of.
  rewrite (Hn _ _ _ H ltac:(discriminate) eq_refl), (Hn _ _ _ H0 ltac:(discriminate) eq_refl), (Hn _ _ _ H1 ltac:(discriminate) eq_refl).
  rewrite Ha, take_take. change (4 `min` 4)%nat with 4%nat. unfold tlv_number in Hp. rewrite Hport, Z.eqb_refl in Hp.
  destruct (_ =? _); [|discriminate Hp]. by injection Hp as ->.
Qed.

(** What the VNF's interface makes of the client's CONFIG.request. *)
Definition with_phy_timing (c : nfapi_vnf_phy_info_t) (s : struct) : struct :=
  with_timing NFAPI_NFAPI_TIMING_WINDOW_TAG NFAPI_NFAPI_TIMING_INFO_MODE_TAG NFAPI_NFAPI_TIMING_INFO_PERIOD_TAG c s.
Lemma timed_config c s : config_of Lte (with_phy_timing c s) =
  ConfigTlvs (Some (VnfP5.timing_window c)) (Some (VnfP5.timing_info_mode c)) (Some (VnfP5.timing_info_period c))
    (num (member s "nfapi_config.p7_vnf_port") "value") (take 4 (arr (member s "nfapi_config.p7_vnf_address_ipv4") "address")).
Proof. reflexivity. Qed.

(** C13. A client of the VNF that makes PNF_PARAM, PNF_CONFIG, PNF_START, PARAM, CONFIG and
    START requests of LTE for a PHY the VNF has allocated starts its P7 thread in the
    proxy: the VNF puts the timing of the PHY into CONFIG.request, which it sends; the
    PNF that reads the six messages answers each with OK and creates the thread once,
    with that timing as its window and modes and with the port and address of the
    CONFIG.request as those of the VNF, and before the first indication. *)
Theorem startup_over_p5 sizeof uninit vp vu allocate_vendor_ext vendor_ext v c idx h s q1 q2 q3 q4 q6 :
  let p := info_phy_id c in let s' := with_phy_timing c s in
  sizes_ok sizeof -> p <> 0 -> nfapi_vnf_pnf_list_find v (u16 idx) = true ->
  nfapi_vnf_phy_info_list_find (phy_list v) p = Some c ->
  tl_tag (tl_of (member s "nfapi_config.p7_vnf_port")) = NFAPI_NFAPI_P7_VNF_PORT_TAG ->
  tl_tag (tl_of (member s "nfapi_config.p7_vnf_address_ipv4")) = NFAPI_NFAPI_P7_VNF_ADDRESS_IPV4_TAG ->
  (fun q => q.1.1) <$> [q1; q2; q3; q4; (CONFIG, h, s'); q6] = [PNF_PARAM; PNF_CONFIG; PNF_START; PARAM; CONFIG; START] ->
  Forall (request_ok false p) [q1; q2; q3; q4; (CONFIG, h, s'); q6] ->
  exists before bs last, Forall2 (sent_as vp false) [q1; q2; q3; q4] before /\ sent_as vp false q6 last /\
    nfapi_vnf_config_req vp (Some v) idx (Some (h, s)) = (0, Some (h, s'), [SentP5 (u16 idx) bs]) /\
    let window := u8 (VnfP5.timing_window c) in let mode := u8 (VnfP5.timing_info_mode c) in
    let i := PhyInfo p (num (member s "nfapi_config.p7_vnf_port") "value")
      (take 4 (arr (member s "nfapi_config.p7_vnf_address_ipv4") "address")) window mode (u8 (VnfP5.timing_info_period c)) in
    pnf_message_pump sizeof uninit vu allocate_vendor_ext vendor_ext PnfP5.nfapi_pnf_config_create (before ++ [bs; last]) =
      Some (Pnf NFAPI_PNF_IDLE [Phy p NFAPI_PNF_PHY_RUNNING true] i, Did <$>
        [Response NFAPI_PNF_PARAM_RESPONSE 0 NFAPI_MSG_OK; Response NFAPI_PNF_CONFIG_RESPONSE 0 NFAPI_MSG_OK;
         Response NFAPI_PNF_START_RESPONSE 0 NFAPI_MSG_OK; Response NFAPI_PARAM_RESPONSE p NFAPI_MSG_OK;
         Response NFAPI_CONFIG_RESPONSE p NFAPI_MSG_OK;
         StartP7 p window (negb (Z.land mode 0x1 =? 0)) (negb (Z.land mode 0x2 =? 0)) i;
         Response NFAPI_START_RESPONSE p NFAPI_MSG_OK; FirstIndication p]).
Proof.
  intros p s' Hsizes Hp Hpnf Hphy Hport Haddr Hkinds Hqs.
  destruct (connection_run sizeof uninit vp vu allocate_vendor_ext vendor_ext Hsizes false p _ Hqs) as (bss & Hsent & Hrun).
  change [q1; q2; q3; q4; (CONFIG, h, s'); q6] with ([q1; q2; q3; q4] ++ [(CONFIG, h, s'); q6]) in Hsent.
  apply Forall2_app_inv_l in Hsent as (before & rest & Hbefore & Hrest & ->).
  apply Forall2_cons_inv_l in Hrest as (bs & rest' & Hbs & Hrest & ->).
  apply Forall2_cons_inv_l in Hrest as (last & rest & Hlast & ->%Forall2_nil_inv_l & ->).
  exists before, bs, last. split; [done|]. split; [done|]. split.
  - assert (h_phy_id h = p) as Hh by (do 4 apply Forall_inv_tail in Hqs; apply Forall_inv in Hqs; apply Hqs).
    unfold nfapi_vnf_config_req, send_config. rewrite Hh, Hphy. fold (with_phy_timing c s). fold s'.
    specialize (Hbs v idx Hpnf). unfold send_request, vnf_send in Hbs. cbn [fst snd] in Hbs. by rewrite Hbs.
  - intros window mode i. specialize (Hrun PnfP5.nfapi_pnf_config_create). unfold events_of in Hrun. rewrite run_app in Hrun.
    assert (Forall2 (request_of Lte p) [PNF_PARAM; PNF_CONFIG; PNF_START; PARAM; CONFIG; START]
      (delivered false <$> [q1; q2; q3; q4; (CONFIG, h, s'); q6])) as Hreqs.
    { rewrite <- Hkinds. clear -Hqs. induction Hqs as [|q qs Hq _ IH]; [constructor|]. constructor; [by apply (delivered_ok false)|exact IH]. }
    pose proof (startup_starts_p7 Lte p _ _ Hp Hreqs eq_refl) as Hstart. cbv zeta in Hstart.
    assert (r_config (delivered false (CONFIG, h, s')) = config_of Lte s') as Hc
      by (apply config_received; [exact Hport|exact Haddr]).
    rewrite Hc, (timed_config c s : config_of Lte s' = _) in Hstart.
    change (message_pump (pnf_read sizeof uninit vu allocate_vendor_ext vendor_ext false))
      with (pnf_message_pump sizeof uninit vu allocate_vendor_ext vendor_ext) in Hrun.
    rewrite Hrun. unfold andthen. cbn [rat_of].
    assert (((fun q => Message (delivered false q)) <$> [q1; q2; q3; q4; (CONFIG, h, s'); q6]) =
      map Message (delivered false <$> [q1; q2; q3; q4; (CONFIG, h, s'); q6])) as -> by reflexivity.
    rewrite Hstart. reflexivity.
Qed.

(** PHY 1 of PNF 7, with the window of 30 that [nfapi_vnf_allocate_phy] gives it. *)
Definition sample_phy : nfapi_vnf_phy_info_t := VnfP5.PhyInfo 7 1 30 0x03 10 [0; 0; 0; 0] 0.
Definition sample_config : struct :=
  set_num "num_tlv" 2
    (set_member "nfapi_config.p7_vnf_address_ipv4" (set_tl (Tl NFAPI_NFAPI_P7_VNF_ADDRESS_IPV4_TAG 0) (set_arr "address" [127; 0; 0; 1] zero))
    (set_member "nfapi_config.p7_vnf_port" (set_tl (Tl NFAPI_NFAPI_P7_VNF_PORT_TAG 0) (set_num "value" 50011 zero)) zero)).
Definition phy_1_config : struct :=
  set_num "num_tlvs" 1 (set_member "pnf_phy_rf_config" (set_tl (Tl NFAPI_PNF_PHY_RF_TAG 0)
    (set_num "number_phy_rf_config_info" 1 (set_sub "phy_rf_config" [set_num "phy_id" 1 zero] zero))) zero).
Definition for_phy_1 (k : kind) (s : struct) : p5_request := (k, P5Header 1 (request_id Lte k) 0 0, s).

Lemma startup_over_p5_witness :
  exists before bs last, Forall2 (sent_as None false) [for_phy_1 PNF_PARAM zero; for_phy_1 PNF_CONFIG phy_1_config; for_phy_1 PNF_START zero; for_phy_1 PARAM zero] before /\
    sent_as None false (for_phy_1 START zero) last /\
    nfapi_vnf_config_req None (Some sample_vnf) 7 (Some (P5Header 1 NFAPI_CONFIG_REQUEST 0 0, sample_config)) =
      (0, Some (P5Header 1 NFAPI_CONFIG_REQUEST 0 0, with_phy_timing sample_phy sample_config), [SentP5 7 bs]) /\
    let i := PhyInfo 1 50011 [127; 0; 0; 1] 30 3 10 in
    pnf_message_pump sample_sizeof (fun _ => 0xCC) None None false PnfP5.nfapi_pnf_config_create (before ++ [bs; last]) =
      Some (Pnf NFAPI_PNF_IDLE [Phy 1 NFAPI_PNF_PHY_RUNNING true] i, Did <$>
        [Response NFAPI_PNF_PARAM_RESPONSE 0 NFAPI_MSG_OK; Response NFAPI_PNF_CONFIG_RESPONSE 0 NFAPI_MSG_OK;
         Response NFAPI_PNF_START_RESPONSE 0 NFAPI_MSG_OK; Response NFAPI_PARAM_RESPONSE 1 NFAPI_MSG_OK;
         Response NFAPI_CONFIG_RESPONSE 1 NFAPI_MSG_OK; StartP7 1 30 true true i;
         Response NFAPI_START_RESPONSE 1 NFAPI_MSG_OK; FirstIndication 1]).
Proof.
  apply (startup_over_p5 sample_sizeof (fun _ => 0xCC) None None None false sample_vnf sample_phy 7
    (P5Header 1 NFAPI_CONFIG_REQUEST 0 0) sample_config).
  - split; [reflexivity|]. split; [intros; unfold sample_sizeof; lia|reflexivity].
  - discriminate.
  - reflexivity.
  - reflexivity.
  - reflexivity.
  - reflexivity.
  - reflexivity.
  - repeat (constructor || discriminate).
Defined.

(** ** A list of PHYs that is too long *)

Definition long_config (n : Z) : list Z := [1] ++ be16 NFAPI_PNF_PHY_RF_TAG ++ be16 2 ++ be16 n.
Lemma long_value n m : NFAPI_MAX_PHY_RF_INSTANCES < n < 65536 ->
  unpack_rows [] unpack_pnf_phy_rf_config_value m (be16 n) = inl (set_num "number_phy_rf_config_info" n m, []).
Proof.
  unfold NFAPI_MAX_PHY_RF_INSTANCES. intros Hn. unfold unpack_rows, unpack_pnf_phy_rf_config_value. cbn [foldr andthen].
  unfold Layout.andthen at 1. cbn [unpack_row pull_as]. rewrite <- (app_nil_r (be16 n)), (pa_run _ _ _ (parses_pull16 n ltac:(wrap_lia))).
  unfold Layout.andthen. cbn [unpack_row]. unfold unpack_items.
  assert (eval [set_num "number_phy_rf_config_info" n m] (Member "number_phy_rf_config_info") = n) as -> by (by destruct m).
  unfold bound_max, NFAPI_MAX_PHY_RF_INSTANCES. by destruct (Z.ltb_spec 2 n); [|lia].
Qed.

Definition config_layout (nr : bool) : layout := if nr then unpack_nr_pnf_config_request else unpack_pnf_config_request.
Lemma long_config_unpacked nr n : NFAPI_MAX_PHY_RF_INSTANCES < n < 65536 ->
  exists s, unpack_layout (config_layout nr) zero (long_config n) = (0, s) /\ rf_tagged s = true /\ rf_number s = n.
Proof.
  intros Hn. set (m := set_tl (Tl NFAPI_PNF_PHY_RF_TAG 2) zero).
  exists (set_member "pnf_phy_rf_config" (set_num "number_phy_rf_config_info" n m) (set_num "num_tlvs" 1 zero)).
  split; [|done]. pose proof (long_value n m Hn) as Hv.
  set (m0 := set_num "num_tlvs" 1 zero).
  assert (forall pad fuel, tlv_loop (S fuel) pad 0 (map tlv_entry [rf_row]) None 0 m0 (be16 NFAPI_PNF_PHY_RF_TAG ++ be16 2 ++ be16 n) =
    (0, set_member "pnf_phy_rf_config" (set_num "number_phy_rf_config_info" n m) m0, [])) as Hloop.
  { intros pad fuel. assert (try_entries pad (map tlv_entry [rf_row]) (Tl NFAPI_PNF_PHY_RF_TAG 2) false m0 (be16 n) =
      inl (set_member "pnf_phy_rf_config" (set_num "number_phy_rf_config_info" n m) m0, [])) as E.
    { transitivity (match storing (fun v => set_member "pnf_phy_rf_config" v m0) (unpack_rows [] unpack_pnf_phy_rf_config_value m (be16 n)) with
        | inl r => inl r
        | inr (msg, l) => try_entries pad [] (Tl NFAPI_PNF_PHY_RF_TAG 2) true msg (drop (Z.to_nat (pad 2)) l) end); [reflexivity|by rewrite Hv]. }
    cbn [tlv_loop]. assert (unpack_tl (be16 NFAPI_PNF_PHY_RF_TAG ++ be16 2 ++ be16 n) = Some (Tl NFAPI_PNF_PHY_RF_TAG 2, be16 n)) as -> by reflexivity.
    by rewrite E. }
  transitivity (let '(r, s, _) := tlv_loop (tlv_fuel (be16 NFAPI_PNF_PHY_RF_TAG ++ be16 2 ++ be16 n))
    (if nr then get_tlv_padding else no_pad) 0 (map tlv_entry [rf_row]) None 0 m0 (be16 NFAPI_PNF_PHY_RF_TAG ++ be16 2 ++ be16 n) in
    (b2z (negb (r =? 0)), s)); [by destruct nr|].
  change (tlv_fuel (be16 NFAPI_PNF_PHY_RF_TAG ++ be16 2 ++ be16 n)) with (S (pred (tlv_fuel (be16 NFAPI_PNF_PHY_RF_TAG ++ be16 2 ++ be16 n)))).
  by rewrite Hloop.
Qed.

(** C26. A PNF_CONFIG.request, LTE or NR, whose PHY RF TLV says it has more than two PHYs
    does not unpack, which the handler takes for success: unless the PNF is running, it
    reads so many elements of an array of two. *)
Theorem phy_list_is_overread sizeof uninit vu allocate_vendor_ext vendor_ext nr phy spare n st :
  sizes_ok sizeof -> in_u16 phy -> in_u16 spare -> NFAPI_MAX_PHY_RF_INSTANCES < n < 65536 -> state st <> NFAPI_PNF_RUNNING ->
  pnf_read sizeof uninit vu allocate_vendor_ext vendor_ext nr st
    (p5_header_bytes (P5Header phy (request_id (rat_of nr) PNF_CONFIG) (15 - counted_from nr) spare) ++ long_config n) = None.
Proof.
  intros Hsizes Hphy Hspare Hn Hst. destruct (long_config_unpacked nr n Hn) as (s & Hu & Ht & Hnum).
  set (h := P5Header _ _ _ _).
  assert (p5_header_ok h) as Hh by (split_and!; [exact Hphy|destruct nr; by cbv|destruct nr; by cbv|exact Hspare]).
  assert (pnf_read sizeof uninit vu allocate_vendor_ext vendor_ext nr =
    pnf_read_dispatch sizeof uninit vu allocate_vendor_ext vendor_ext (counted_from nr) (rat_of nr)) as -> by (by destruct nr).
  destruct (whole_message sizeof uninit uninit (counted_from nr) h (long_config n) Hh) as (E1 & E2 & E3);
    [unfold h; cbn [h_message_length]; change (zlen (long_config n)) with 7; lia|].
  unfold pnf_read_dispatch. rewrite E1, E2, E3. unfold dispatch_p5. rewrite header_read by done. cbn [Z.ltb Z.compare].
  assert ((zlen (p5_header_bytes h ++ long_config n) <? NFAPI_HEADER_LENGTH) = false) as -> by reflexivity.
  change (h_message_id h) with (request_id (rat_of nr) PNF_CONFIG).
  assert (exists unpack type, find (fun e => fst e =? request_id (rat_of nr) PNF_CONFIG) (unpackers sizeof vu (rat_of nr)) =
      Some (request_id (rat_of nr) PNF_CONFIG, (unpack, type)) /\ unpack (p5_header_bytes h ++ long_config n) (sizeof type) = (0, h, s)) as (unpack & type & -> & ->).
  { destruct Hsizes as (Hs0 & Hall & _). pose proof (Hall nr PNF_CONFIG) as Hs.
    destruct nr; (do 2 eexists; split; [reflexivity|]); specialize (Hs _ _ eq_refl);
      unfold nfapi_nr_p5_message_unpack, nfapi_p5_message_unpack; (rewrite p5_frame_unpack_ok; [|done|done|own_type sizeof]);
      lazymatch goal with |- (let '(_, _) := ?x in _) = _ => assert (x = (0, s)) as -> by exact Hu end; reflexivity. }
  unfold reads_outside. rewrite Z.eqb_refl, Ht, Hnum, bool_decide_eq_true_2 by done.
  destruct (Z.ltb_spec NFAPI_MAX_PHY_RF_INSTANCES n); [done|lia].
Qed.

Lemma phy_list_is_overread_witness :
  pnf_read sample_sizeof (fun _ => 0xCC) None None false true PnfP5.nfapi_pnf_config_create
    (p5_header_bytes (P5Header 0 NFAPI_PNF_CONFIG_REQUEST 7 0) ++ long_config 60000) = None.
Proof.
  apply (phy_list_is_overread sample_sizeof (fun _ => 0xCC) None None false true 0 0 60000 PnfP5.nfapi_pnf_config_create).
  - split; [reflexivity|]. split; [intros; unfold sample_sizeof; lia|reflexivity].
  - split; [discriminate|reflexivity].
  - split; [discriminate|reflexivity].
  - split; reflexivity.
  - discriminate.
Defined.
